(* ===== verification/_CoqProject ===== *)
-Q . S2P
Prelude.v
Crc.v
Crc32.v
TransportFsm.v
TransportService.v
TransportMask.v
TransportReceive.v
TransportDelivery.v
TransportSend.v
TransportRoundTrip.v
TransportEdge.v
ConHandle.v
Nodemask.v
McastGroups.v
NmQueue.v
NodeQueue.v
Mailbox.v
Aes.v
Ccm.v
Cmac.v
Drbg.v
S2Transport.v
S2Sync.v
S2Exchange.v
S2Safety.v
SendDataAppl.v
SendDataQueue.v
SendDataLive.v
Sec0.v
Sec0Frame.v
Sec0Session.v
Sec0Safety.v
Sec0Runs.v
SendRequest.v
SecureLearn.v
SecureLearnRun.v
SecureLearnLive.v
ZipReceive.v
ZipSafety.v
ZipRuns.v
S2Inclusion.v
S2InclusionRun.v
S2InclusionSafety.v
S2InclusionRuns.v
S2InclusionCases.v
S2InclusionLink.v
CommandAnalyzer.v
S2Wrap.v
S2WrapRun.v
S2WrapLink.v
Provisioning.v
ProvisioningRun.v
ProvisioningFile.v
ZgwStr.v
ProvisioningCC.v
ProvisioningCCRun.v
ProvisioningLink.v
