(* ===== verification/Prelude.v ===== *)
(** * Z/IP Gateway: a verification development

    The Z/IP gateway connects a Z-Wave radio network to an IP network.  A frame of
    an IP client is queued for its node, sealed by a security layer, cut into
    fragments if it is long and handed to the radio chip over a serial line;
    frames of the radio go the other way.  This library models the parts that
    carry this path, one file per part, and proves what the rest of the program
    relies on.

    ** Files and sources

    - Prelude: record update, machine integers, byte buffers, shared lemmas.
    - Crc, Crc32: src/src/utls/zgw_crc.c, src/src/crc32alg.c.
    - TransportFsm, TransportService, TransportMask: the state machine, the whole
      of the transport service (src/libs2/transport_service/transport2_fsm.c,
      transport_service2.c) and facts on its fragment mask.  TransportReceive,
      TransportDelivery, TransportSend, TransportRoundTrip, TransportEdge: its
      receiver, what it delivers, its sender, both ends together, boundary cases.
    - ConHandle: the frame layer of the serial line
      (src/src/serialapi/conhandle.c).
    - Nodemask, McastGroups: src/src/utls/zgw_nodemask.c,
      src/src/multicast_group_manager.c.
    - NmQueue: src/src/CC_NetworkManagement_queue.c.
    - NodeQueue: src/src/node_queue.c.
    - Mailbox: src/src/Mailbox.c, the store for frames to sleeping nodes.
    - Aes, Ccm, Cmac, Drbg: the ciphers under src/libs2/crypto.
    - S2Transport: src/libs2/protocol/S2.c as a whole; S2Sync, S2Exchange,
      S2Safety: two contexts in step, the exchange of nonces and streams of
      messages, what a receiver accepts.
    - SendDataAppl: src/src/transport/ZW_SendDataAppl.c with zw_frame_buffer.c;
      SendDataQueue, SendDataLive: its accounting and its progress.
    - Sec0: src/src/transport/Security_Scheme0.c with ZW_PRNG.c; Sec0Frame,
      Sec0Session, Sec0Safety, Sec0Runs: its frames, messages between two nodes,
      what it accepts and its answers, concrete runs.
    - SendRequest: src/src/transport/ZW_SendRequest.c.
    - SecureLearn: the state chart of the S0 key exchange (src/src-gen/Secure_learn.c),
      src/src/transport/security_layer.c and the network keys of s2_keystore.c;
      SecureLearnRun, SecureLearnLive: its keys, its end, concrete runs.
    - ZipReceive: the receive path, ApplicationCommandHandlerZIP of
      src/src/ZIP_Router.c with security_CommandHandler; ZipSafety, ZipRuns: what it
      lets through, concrete frames.
    - S2Inclusion: the S2 key exchange (src/libs2/inclusion/s2_inclusion.c), both
      sides; S2InclusionRun, S2InclusionSafety: how a step moves it, its invariant;
      S2InclusionRuns: its theorems; S2InclusionCases: concrete runs
      of it; S2InclusionLink: on the models of the transport and the key store.
    - CommandAnalyzer: src/src/analyzer/CommandAnalyzer.c; S2Wrap:
      src/src/transport/S2_wrap.c; S2WrapRun: its accounting and bounds;
      S2WrapLink: a command from one gateway to another through it.
    - Provisioning: src/src/provisioning_list.c; ProvisioningRun: it is a map;
      ProvisioningFile: its file, restarts.  ZgwStr: src/src/utls/zgw_str.c.
      ProvisioningCC: src/src/CC_provisioning_list.c; ProvisioningCCRun: its
      commands as operations of the list, iteration; ProvisioningLink: examples.

    Each file opens with the correspondence between its definitions and the C
    functions, whose names they keep.  State is a record with the members of the
    C struct or the statics of the C file; a function that changes it takes and
    returns it.  Calls to other parts are recorded as outputs, in order, and what
    other parts answer is an argument (an environment record).  Integers are Z,
    reduced to their width wherever the C type does (u8, u16, u32); buffers are
    lists of their declared size, and parts whose accesses are not obviously in
    bounds record an access outside.

    ** What the theorems show

    - Refinement of standards: AES-128 is FIPS 197, CCM is SP 800-38C, CMAC is RFC
      4493, the generator is CTR_DRBG of SP 800-90A, both CRCs are their bitwise
      definitions.
    - Round trips: a datagram cut by the transport service is put together again
      at the other end, also when frames are lost and requested anew; the bytes
      of the serial layer are parsed back to the frame; CCM opens exactly what it
      seals; a stream of S2 messages arrives in order and unchanged.
    - Safety: the transport service delivers only what was checked, S2 accepts
      only what was sealed under a key it holds and refuses repeated numbers.
    - Accounting: in the node queue, the mailbox, the network management queue and
      the transmit queues nothing is lost and everyone is answered once, for
      every sequence of operations; invariants of the pools and lists.
    - Progress: sessions end, queues with work in them wait for something.
    - Composition: the receive path runs over the joined state of the security
      layer, S0, the transmit queue and the requests; it undoes what the send path
      wraps, and a report wrapped by a node answers the request that waits for it.
    - Key exchange: the S2 exchange ends once, keys never go in clear, are stored
      only when asked for and granted, and both sides derive the same temporary key.
    - Devices to be included: the provisioning list with its file and its command
      class is a map from keys to entries with a copy on file, whatever frames and
      restarts come and whenever memory runs out or the file cannot be written.
    - Boundary behaviour: theorems that pin down overruns, wrap-arounds and
      leaks of the code as it is, each named by a finding of the manifest.

    ** Bounds and fuel

    Loops over a buffer are structural or take the number of bytes they can read
    as fuel: ConUpdate the bytes in the port, the extension loops of S2 the length
    of the message.  The transport service posts events to itself; env_fuel
    bounds the chain and the theorems show the chain ends before.  Repair rounds
    (402, a timeout and an answer for every byte) and cuts (200) exceed what the
    fragments of a datagram can need.  The mailbox machine runs with fuel the
    number of its entries plus ten, which mb_transition_total proves enough for
    every state and event.
    The draws of the S0 generator are bounded by the environment (tries); theorems
    assume that a fresh nonce is drawn in time.  A poll of the key exchange runs at
    most five cycles (poll_comes_to_rest), the receive path at most the length of
    the frame plus 129 encapsulations (receive_ends).
    An event of the S2 key exchange raises others to a depth of four
      (EVENT_DEPTH); process_event_to marks a deeper chain as a hang, which
      inclusion_waits_with_timer excludes.
    The loop over the records of a Set frame takes the length of the frame, the
      UTF-8 check the length of the string, the binary search the length of its
      table.

    ** Environment

    A hypothesis on an environment is named where it is used: the radio takes a
    frame, the watchdog is off, malloc succeeds.  A caller that calls back into a
    queue from its callback is the next operation of a run, not a call nested in
    the current one.  Timers fire or do not: a run may fire any running timer at
    any time.

    ** Not modelled

    The parts listed as not_modelled in the manifest, with reasons: most of them
    move bytes between the gateway and the operating system, SQLite, OpenSSL or
    the Contiki IP stack, or fill reports from configuration.  The
    resource directory and the network management machine are large state machines
    that remain to be done, and so do the bridge and its association tables. *)

From stdpp Require Export base list numbers gmap.
From Stdlib Require Export ZArith Lia Bool ZifyBool ZifyNat.

(** ** Record update

    C assigns single members of large structs.  [r <| f := v |>] is the struct
    [r] with the member [f] replaced by [v]; nested members are written
    [r <| f ; g := v |>].  A record type takes part by giving its eta expansion
    as an instance of [EtaRecord]; the setter of each projection is computed
    from it by the tactic [derive_setter]. *)

Class EtaRecord (R : Type) := eta_record : R -> R.

Class Setter {R T : Type} (f : R -> T) := modify_by : (T -> T) -> R -> R.

Definition modify {R T : Type} (f : R -> T) {i : Setter f} (u : T -> T) (r : R) : R :=
  i u r.
Arguments modify {R T} f {i} u r /.

Ltac derive_setter :=
  match goal with
  | |- @Setter ?R ?T ?f =>
      let i := constr:(_ : EtaRecord R) in
      let e := eval hnf in i in
      match eval pattern f in e with
      | ?h _ =>
          let t := eval cbv beta in (fun (u : T -> T) => h (fun r => u (f r))) in
          exact t
      end
  end.

#[export] Hint Extern 1 (Setter _) => derive_setter : typeclass_instances.

Declare Scope zgw_scope.
Delimit Scope zgw_scope with zgw.

Notation "r <| f := v |>" := (modify f (fun _ => v) r)
  (at level 14, left associativity, f at level 9,
   format "r  <|  f  :=  v  |>") : zgw_scope.
Notation "r <| f ; g := v |>" := (modify f (modify g (fun _ => v)) r)
  (at level 14, left associativity, f at level 9, g at level 9,
   format "r  <|  f ;  g  :=  v  |>") : zgw_scope.
Notation "r <| f ; g ; h := v |>" := (modify f (modify g (modify h (fun _ => v))) r)
  (at level 14, left associativity, f at level 9, g at level 9, h at level 9,
   format "r  <|  f ;  g ;  h  :=  v  |>") : zgw_scope.

Open Scope zgw_scope.
Open Scope Z_scope.

(** ** Machine integers

    A w-bit unsigned integer of the source is a [Z] in [0, 2^w); the casts below
    are the implicit conversions C inserts on assignment. *)

Definition u8 (z : Z) : Z := z mod 256.
Definition u16 (z : Z) : Z := z mod 65536.
Definition u32 (z : Z) : Z := z mod 4294967296.

(** [x & m] used as a condition. *)
Definition has (x m : Z) : bool := negb (Z.land x m =? 0).

(** The truth value of an integer used as a condition. *)
Definition truth (x : Z) : bool := negb (x =? 0).

Definition byte (z : Z) : Prop := 0 <= z < 256.
Definition word16 (z : Z) : Prop := 0 <= z < 65536.

Abbreviation bytes := (Forall byte).

#[export] Instance byte_dec z : Decision (byte z).
Proof. unfold byte. apply _. Defined.

#[export] Instance word16_dec z : Decision (word16 z).
Proof. unfold word16. apply _. Defined.

(** ** Buffers

    An array of bytes is a list of its declared length.  [rd b i] is [b[i]] and
    [memcpy_at b i src] writes the bytes of [src] from index [i] on; what would
    fall outside the array is not written.  Code whose accesses matter records
    an access outside the array with [in_range]. *)

Definition rd (b : list Z) (i : Z) : Z := default 0 (b !! Z.to_nat i).

Definition wr (b : list Z) (i v : Z) : list Z := <[Z.to_nat i := v]> b.

Definition memcpy_at (b : list Z) (i : Z) (src : list Z) : list Z :=
  list_inserts (Z.to_nat i) src b.

Definition sub_buf (b : list Z) (i n : Z) : list Z :=
  take (Z.to_nat n) (drop (Z.to_nat i) b).

Definition zeros (n : nat) : list Z := replicate n 0.

(** [n] bytes from index [i] on lie inside an array of [size] bytes. *)
Definition in_range (i n size : Z) : bool := (0 <=? i) && (0 <=? n) && (i + n <=? size).

Definition Zlength {A} (l : list A) : Z := Z.of_nat (length l).

(** ** Tactics *)

(** Splits on the condition of every [if] and [match] of the goal. *)
Ltac break_if :=
  match goal with
  | |- context [if ?b then _ else _] => destruct b eqn:?
  end.

Ltac break_if_in H :=
  match type of H with
  | context [if ?b then _ else _] => destruct b eqn:?
  end.

(** Takes the branch [b] of the conditional at the head of the left-hand side;
    the condition is reduced and left to [tac]. *)
Ltac take_branch b tac :=
  lazymatch goal with
  | |- (if ?c then _ else _) = _ =>
      let H := fresh in assert (c = b) as H by (cbn; tac); rewrite H; clear H; cbv iota
  end.
Tactic Notation "take_then" "by" tactic3(tac) := take_branch true tac.
Tactic Notation "take_else" "by" tactic3(tac) := take_branch false tac.

(** Turns boolean hypotheses on integers into propositions. *)
Ltac bool_to_prop :=
  repeat match goal with
  | H : _ && _ = true |- _ => apply andb_true_iff in H; destruct H
  | H : _ || _ = false |- _ => apply orb_false_iff in H; destruct H
  | H : negb _ = true |- _ => apply negb_true_iff in H
  | H : negb _ = false |- _ => apply negb_false_iff in H
  | H : (_ =? _) = true |- _ => apply Z.eqb_eq in H
  | H : (_ =? _) = false |- _ => apply Z.eqb_neq in H
  | H : (_ <=? _) = true |- _ => apply Z.leb_le in H
  | H : (_ <=? _) = false |- _ => apply Z.leb_gt in H
  | H : (_ <? _) = true |- _ => apply Z.ltb_lt in H
  | H : (_ <? _) = false |- _ => apply Z.ltb_ge in H
  end.

(** Reduces [Forall P [x1; ...; xn]] to the [P xi]. *)
Ltac forall_list := repeat first [apply List.Forall_nil | apply List.Forall_cons].

(** ** Bits of bounded integers *)

Create HintDb zbits.

Lemma testbit_high (x n i : Z) : 0 <= x < 2 ^ n -> n <= i -> Z.testbit x i = false.
Proof.
  intros Hx Hi. destruct (Z.eq_dec x 0) as [->|Hx0]; [apply Z.testbit_0_l|].
  apply Z.bits_above_log2; [lia|].
  apply Z.lt_le_trans with n; [|done]. apply Z.log2_lt_pow2; lia.
Qed.

Lemma bits_ext_bound (n x y : Z) :
  0 <= x < 2 ^ n -> 0 <= y < 2 ^ n ->
  (forall i, 0 <= i < n -> Z.testbit x i = Z.testbit y i) -> x = y.
Proof.
  intros Hx Hy H. apply Z.bits_inj'. intros i Hi.
  destruct (Z.lt_ge_cases i n); [by apply H|].
  by rewrite !(testbit_high _ n).
Qed.

Lemma bits_bound (n x : Z) :
  0 <= n -> 0 <= x -> (forall i, n <= i -> Z.testbit x i = false) -> x < 2 ^ n.
Proof.
  intros Hn Hx H. destruct (Z.lt_ge_cases x (2 ^ n)) as [|Hge]; [done|].
  assert (Z.testbit x (Z.log2 x) = true) as Hb.
  { apply Z.bit_log2. assert (0 < 2 ^ n) by (apply Z.pow_pos_nonneg; lia). lia. }
  rewrite H in Hb; [done|]. apply Z.log2_le_pow2; [|done].
  assert (0 < 2 ^ n) by (apply Z.pow_pos_nonneg; lia). lia.
Qed.

Lemma lor_bound (n x y : Z) :
  0 <= n -> 0 <= x < 2 ^ n -> 0 <= y < 2 ^ n -> 0 <= Z.lor x y < 2 ^ n.
Proof.
  intros Hn Hx Hy. split; [apply Z.lor_nonneg; lia|].
  apply bits_bound; [done|apply Z.lor_nonneg; lia|].
  intros i Hi. by rewrite Z.lor_spec, !(testbit_high _ n).
Qed.

Lemma lxor_bound (n x y : Z) :
  0 <= n -> 0 <= x < 2 ^ n -> 0 <= y < 2 ^ n -> 0 <= Z.lxor x y < 2 ^ n.
Proof.
  intros Hn Hx Hy. split; [apply Z.lxor_nonneg; lia|].
  apply bits_bound; [done|apply Z.lxor_nonneg; lia|].
  intros i Hi. by rewrite Z.lxor_spec, !(testbit_high _ n).
Qed.

Lemma land_bound (n x y : Z) : 0 <= n -> 0 <= y < 2 ^ n -> 0 <= Z.land x y < 2 ^ n.
Proof.
  intros Hn Hy. assert (0 <= Z.land x y) by (apply Z.land_nonneg; lia).
  split; [done|]. apply bits_bound; [done..|].
  intros i Hi. by rewrite Z.land_spec, (testbit_high y n), andb_false_r.
Qed.

(** A single-bit mask tests that bit. *)
Lemma has_pow2 (x n : Z) : 0 <= n -> has x (2 ^ n) = Z.testbit x n.
Proof.
  intros Hn. unfold has. destruct (Z.testbit x n) eqn:E.
  - apply negb_true_iff, Z.eqb_neq. intros H0.
    assert (Z.testbit (Z.land x (2 ^ n)) n = true) as Hb.
    { by rewrite Z.land_spec, E, Z.pow2_bits_true. }
    by rewrite H0, Z.testbit_0_l in Hb.
  - apply negb_false_iff, Z.eqb_eq, Z.bits_inj'. intros i Hi.
    rewrite Z.land_spec, Z.testbit_0_l.
    destruct (Z.eq_dec i n) as [->|]; [by rewrite E|].
    by rewrite Z.pow2_bits_false, andb_false_r by lia.
Qed.

Lemma u8_byte z : byte (u8 z).
Proof. apply Z.mod_pos_bound. lia. Qed.

Lemma u16_word z : word16 (u16 z).
Proof. apply Z.mod_pos_bound. lia. Qed.

Lemma u8_id z : byte z -> u8 z = z.
Proof. apply Z.mod_small. Qed.

Lemma u16_id z : word16 z -> u16 z = z.
Proof. apply Z.mod_small. Qed.

#[export] Hint Resolve u8_byte u16_word : zbits.
Create Rewrite HintDb zbits.
#[export] Hint Rewrite Z.lor_spec Z.lxor_spec Z.land_spec Z.testbit_0_l
  andb_false_r andb_false_l orb_false_r orb_false_l xorb_false_r xorb_false_l : zbits.

(** A property of the integers of a range that a computation over all of them
    establishes. *)
Lemma list_alter_at {A} (f : A -> A) (l : list A) (i : nat) x : l !! i = Some x -> alter f i l = <[i := f x]> l.
Proof.
  intros Hi. apply list_eq. intros j. destruct (decide (j = i)) as [->|Hne].
  - by rewrite list_lookup_alter_eq, list_lookup_insert_eq, Hi by (by eapply lookup_lt_Some).
  - by rewrite list_lookup_alter_ne, list_lookup_insert_ne.
Qed.

Lemma range_all (lo n : Z) (P : Z -> bool) :
  forallb P (seqZ lo n) = true -> forall x, lo <= x < lo + n -> P x = true.
Proof.
  intros H x Hx. rewrite forallb_forall in H. apply H.
  apply list_elem_of_In, elem_of_seqZ. lia.
Qed.

Lemma byte_all (P : Z -> bool) : forallb P (seqZ 0 256) = true -> forall d, byte d -> P d = true.
Proof. intros H d Hd. apply (range_all 0 256 P H). unfold byte in Hd. lia. Qed.

(** ** Lists *)

Lemma fold_left_cons {A B} (f : A -> B -> A) x l a : fold_left f (x :: l) a = fold_left f l (f a x).
Proof. reflexivity. Qed.

Lemma fold_left_snoc {A B} (f : A -> B -> A) x l a : fold_left f (l ++ [x]) a = f (fold_left f l a) x.
Proof. by rewrite fold_left_app. Qed.

Lemma rd_lookup b i x : b !! Z.to_nat i = Some x -> rd b i = x.
Proof. unfold rd. by intros ->. Qed.

Lemma rd_byte b i : bytes b -> byte (rd b i).
Proof.
  intros Hb. unfold rd. destruct (b !! Z.to_nat i) as [x|] eqn:E; simpl.
  - by eapply Forall_lookup_1.
  - unfold byte; lia.
Qed.

Lemma sub_buf_bytes b i n : bytes b -> bytes (sub_buf b i n).
Proof. intros Hb. unfold sub_buf. by apply Forall_take, Forall_drop. Qed.

Lemma length_sub_buf b i n : 0 <= i -> 0 <= n -> i + n <= Zlength b ->
  length (sub_buf b i n) = Z.to_nat n.
Proof.
  intros Hi Hn Hl. unfold sub_buf, Zlength in *. rewrite length_take, length_drop. lia.
Qed.

Lemma Zlength_sub_buf b i n : 0 <= i -> 0 <= n -> i + n <= Zlength b ->
  Zlength (sub_buf b i n) = n.
Proof. intros. unfold Zlength. rewrite length_sub_buf by done. lia. Qed.

Lemma lookup_sub_buf b i n j : (j < Z.to_nat n)%nat ->
  sub_buf b i n !! j = b !! (Z.to_nat i + j)%nat.
Proof. intros Hj. unfold sub_buf. by rewrite lookup_take_lt, lookup_drop. Qed.

Lemma lookup_memcpy_at b i src j : 0 <= i -> i + Zlength src <= Zlength b ->
  memcpy_at b i src !! j =
  if bool_decide (Z.to_nat i <= j < Z.to_nat i + length src)%nat
  then src !! (j - Z.to_nat i)%nat else b !! j.
Proof.
  intros Hi Hl. unfold memcpy_at, Zlength in *. case_bool_decide as Hj.
  - rewrite list_lookup_inserts by lia. done.
  - destruct (decide (j < Z.to_nat i)%nat).
    + by rewrite list_lookup_inserts_lt.
    + rewrite list_lookup_inserts_ge by lia. done.
Qed.

Lemma length_memcpy_at b i src : length (memcpy_at b i src) = length b.
Proof. apply length_inserts. Qed.

Lemma memcpy_at_bytes b i src : bytes b -> bytes src -> bytes (memcpy_at b i src).
Proof.
  intros Hb Hs. unfold memcpy_at. generalize (Z.to_nat i) as n. intros n.
  revert n. induction Hs as [|x src Hx Hs IH]; intros n; simpl; [done|].
  by apply Forall_insert.
Qed.

Lemma sub_buf_memcpy_at b i src n : 0 <= i -> n = Zlength src -> i + n <= Zlength b ->
  sub_buf (memcpy_at b i src) i n = src.
Proof.
  intros Hi -> Hl. apply list_eq_same_length with (n := length src); [done|..].
  { rewrite length_sub_buf; unfold Zlength in *; rewrite ?length_memcpy_at; lia. }
  intros j x y Hj Hx Hy. rewrite lookup_sub_buf in Hx by (unfold Zlength; lia).
  rewrite lookup_memcpy_at in Hx by done. rewrite bool_decide_true in Hx by lia.
  replace (Z.to_nat i + j - Z.to_nat i)%nat with j in Hx by lia. congruence.
Qed.

(** Writing next to what a buffer starts with. *)
Lemma sub_buf_memcpy_app b i a src : sub_buf b 0 i = a -> i = Zlength a ->
  i + Zlength src <= Zlength b ->
  sub_buf (memcpy_at b i src) 0 (i + Zlength src) = a ++ src.
Proof.
  intros Ha Hi Hl. apply list_eq_same_length with (n := (length a + length src)%nat).
  { apply length_app. }
  { rewrite length_sub_buf; unfold Zlength in *; rewrite ?length_memcpy_at; lia. }
  intros j x y Hj Hx Hy. rewrite lookup_sub_buf in Hx by (unfold Zlength in *; lia).
  change (Z.to_nat 0 + j)%nat with j in Hx.
  rewrite lookup_memcpy_at in Hx by (unfold Zlength in *; lia).
  case_bool_decide as Hb.
  - rewrite lookup_app_r in Hy by (unfold Zlength in *; lia).
    replace (length a) with (Z.to_nat i) in Hy by (unfold Zlength in *; lia). congruence.
  - rewrite lookup_app_l in Hy by (unfold Zlength in *; lia).
    rewrite <- Ha, lookup_sub_buf in Hy by (unfold Zlength in *; lia).
    change (Z.to_nat 0 + j)%nat with j in Hy. congruence.
Qed.

Lemma Zlength_app {A} (l k : list A) : Zlength (l ++ k) = Zlength l + Zlength k.
Proof. unfold Zlength. rewrite length_app. lia. Qed.

Lemma Zlength_memcpy_at b i src : Zlength (memcpy_at b i src) = Zlength b.
Proof. unfold Zlength. by rewrite length_memcpy_at. Qed.

Lemma sub_buf_memcpy_0 b src : Zlength src <= Zlength b ->
  sub_buf (memcpy_at b 0 src) 0 (Zlength src) = src.
Proof. intros. by apply sub_buf_memcpy_at. Qed.
