(* ===== verification/Crc.v ===== *)
(** * The CRC-16 of the transport service

    Models [zgw_crc16] of src/src/utls/zgw_crc.c (with the constants of
    zgw_crc.h).  The transport service appends
    the CRC-16 to every fragment and the receiver accepts a fragment exactly when
    the CRC-16 of the whole frame is zero, so the facts the other components use
    are: appending the CRC makes the residue zero, and a frame damaged in at most
    two adjacent bytes never has residue zero. *)

From S2P Require Import Prelude.

#[local] Open Scope Z_scope.

Definition CRC_POLY : Z := 0x1021.
Definition CRC_INIT_VALUE : Z := 0x1D0F.

(** One round of the inner loop, for the data bit selected by [bitmask]. *)
Definition crc_bit (crc_data : Z) (crc16 bitmask : Z) : Z :=
  let new_bit := xorb (has crc_data bitmask) (has crc16 0x8000) in
  let crc16 := u16 (Z.shiftl crc16 1) in
  if new_bit then Z.lxor crc16 CRC_POLY else crc16.

(** The values [bitmask] takes: from 0x80, halved until it is zero. *)
Definition crc_masks : list Z := [0x80; 0x40; 0x20; 0x10; 0x08; 0x04; 0x02; 0x01].

Definition crc_byte (crc16 crc_data : Z) : Z := fold_left (crc_bit crc_data) crc_masks crc16.

Definition zgw_crc16 (crc16 : Z) (data : list Z) : Z := fold_left crc_byte data crc16.
#[global] Arguments zgw_crc16 : simpl never.

(** ** The shift register as a function of the register alone

    Feeding a data bit is feeding a zero bit to the register with that bit
    added at its top. *)

Definition lfsr (r : Z) : Z :=
  let s := u16 (Z.shiftl r 1) in if Z.testbit r 15 then Z.lxor s CRC_POLY else s.

Definition bit_at (b : bool) (i : Z) : Z := if b then 2 ^ i else 0.

Lemma testbit_u16 x i : 0 <= i -> Z.testbit (u16 x) i = (i <? 16) && Z.testbit x i.
Proof.
  intros Hi. unfold u16. change 65536 with (2 ^ 16).
  destruct (Z.ltb_spec i 16); simpl.
  - by apply Z.mod_pow2_bits_low.
  - by apply Z.mod_pow2_bits_high.
Qed.

Lemma u16_lxor x y : u16 (Z.lxor x y) = Z.lxor (u16 x) (u16 y).
Proof.
  apply Z.bits_inj'. intros i Hi.
  rewrite Z.lxor_spec, !testbit_u16, Z.lxor_spec by done.
  by destruct (i <? 16).
Qed.

Lemma lfsr_lxor x y : lfsr (Z.lxor x y) = Z.lxor (lfsr x) (lfsr y).
Proof.
  unfold lfsr. rewrite Z.lxor_spec, Z.shiftl_lxor, u16_lxor.
  set (a := u16 (Z.shiftl x 1)). set (b := u16 (Z.shiftl y 1)).
  apply Z.bits_inj'. intros i Hi.
  destruct (Z.testbit x 15), (Z.testbit y 15); simpl; rewrite ?Z.lxor_spec;
    destruct (Z.testbit a i), (Z.testbit b i), (Z.testbit CRC_POLY i); done.
Qed.

Lemma lfsr_word x : word16 (lfsr x).
Proof.
  unfold lfsr. assert (0 <= u16 (Z.shiftl x 1) < 2 ^ 16) by apply u16_word.
  destruct (Z.testbit x 15); [|done].
  apply (lxor_bound 16); unfold CRC_POLY; lia.
Qed.

Lemma u16_shiftl_bit x i : 0 <= i < 16 ->
  Z.testbit (u16 (Z.shiftl x 1)) i = (0 <? i) && Z.testbit x (i - 1).
Proof.
  intros Hi. rewrite testbit_u16 by lia.
  destruct (Z.ltb_spec i 16); [simpl|lia].
  destruct (Z.ltb_spec 0 i); simpl.
  - apply Z.shiftl_spec. lia.
  - apply Z.shiftl_spec_low. lia.
Qed.

(** The register transition is injective: its lowest output bit is the bit that
    was shifted out. *)
Lemma lfsr_inj x y : word16 x -> word16 y -> lfsr x = lfsr y -> x = y.
Proof.
  intros Hx Hy H.
  assert (Hout : forall z, Z.testbit (lfsr z) 0 = Z.testbit z 15).
  { intros z. unfold lfsr. destruct (Z.testbit z 15);
      rewrite ?Z.lxor_spec, u16_shiftl_bit by lia; done. }
  assert (Htop : Z.testbit x 15 = Z.testbit y 15) by (by rewrite <- !Hout, H).
  apply (bits_ext_bound 16); [done..|]. intros i Hi.
  destruct (Z.eq_dec i 15) as [->|]; [done|].
  assert (Hb : Z.testbit (lfsr x) (i + 1) = Z.testbit (lfsr y) (i + 1)) by by rewrite H.
  unfold lfsr in Hb. rewrite Htop in Hb.
  destruct (Z.testbit y 15); rewrite ?Z.lxor_spec, !u16_shiftl_bit in Hb by lia;
    destruct (Z.ltb_spec 0 (i + 1)); [|lia| |lia];
    replace (i + 1 - 1) with i in Hb by lia; simpl in Hb; [|done].
  by destruct (Z.testbit x i), (Z.testbit y i), (Z.testbit CRC_POLY (i + 1)).
Qed.

Lemma crc_bit_lfsr d r m n : 0 <= n -> m = 2 ^ n ->
  crc_bit d r m = lfsr (Z.lxor r (bit_at (Z.testbit d n) 15)).
Proof.
  intros Hn ->. unfold crc_bit, lfsr. rewrite has_pow2 by done.
  change 0x8000 with (2 ^ 15). rewrite has_pow2 by lia.
  rewrite Z.lxor_spec. unfold bit_at. destruct (Z.testbit d n).
  - rewrite Z.pow2_bits_true by lia.
    assert (u16 (Z.shiftl (Z.lxor r (2 ^ 15)) 1) = u16 (Z.shiftl r 1)) as ->.
    { rewrite Z.shiftl_lxor, u16_lxor. change (u16 (Z.shiftl (2 ^ 15) 1)) with 0.
      apply Z.lxor_0_r. }
    by destruct (Z.testbit r 15).
  - rewrite Z.testbit_0_l, Z.lxor_0_r. by destruct (Z.testbit r 15).
Qed.

(** Eight rounds: the data byte is added to the top half of the register. *)
Definition lfsr8 (r : Z) : Z :=
  lfsr (lfsr (lfsr (lfsr (lfsr (lfsr (lfsr (lfsr r))))))).

Lemma lfsr_bit_at b i : 0 <= i < 15 -> lfsr (bit_at b i) = bit_at b (i + 1).
Proof.
  intros Hi. assert (i = 0 \/ i = 1 \/ i = 2 \/ i = 3 \/ i = 4 \/ i = 5 \/ i = 6 \/ i = 7 \/
    i = 8 \/ i = 9 \/ i = 10 \/ i = 11 \/ i = 12 \/ i = 13 \/ i = 14) as Hc by lia.
  destruct b; [|by destruct_or! Hc; subst]. by destruct_or! Hc; subst.
Qed.

Lemma lfsr_absorb r b i j : 0 <= i < 15 -> j = i + 1 ->
  Z.lxor (lfsr r) (bit_at b j) = lfsr (Z.lxor r (bit_at b i)).
Proof. intros Hi ->. by rewrite lfsr_lxor, lfsr_bit_at. Qed.

Definition byte_bits (d : Z) : Z :=
  Z.lxor (bit_at (Z.testbit d 7) 15) (Z.lxor (bit_at (Z.testbit d 6) 14)
  (Z.lxor (bit_at (Z.testbit d 5) 13) (Z.lxor (bit_at (Z.testbit d 4) 12)
  (Z.lxor (bit_at (Z.testbit d 3) 11) (Z.lxor (bit_at (Z.testbit d 2) 10)
  (Z.lxor (bit_at (Z.testbit d 1) 9) (bit_at (Z.testbit d 0) 8))))))).

#[local] Opaque lfsr bit_at crc_bit.

Lemma crc_byte_bits r d : crc_byte r d = lfsr8 (Z.lxor r (byte_bits d)).
Proof.
  unfold crc_byte, crc_masks, byte_bits, lfsr8. cbn [fold_left].
  rewrite (crc_bit_lfsr d _ 0x80 7), (crc_bit_lfsr d _ 0x40 6), (crc_bit_lfsr d _ 0x20 5),
    (crc_bit_lfsr d _ 0x10 4), (crc_bit_lfsr d _ 0x08 3), (crc_bit_lfsr d _ 0x04 2),
    (crc_bit_lfsr d _ 0x02 1), (crc_bit_lfsr d _ 0x01 0) by lia.
  rewrite !(lfsr_absorb _ _ 14 15), !(lfsr_absorb _ _ 13 14), !(lfsr_absorb _ _ 12 13),
    !(lfsr_absorb _ _ 11 12), !(lfsr_absorb _ _ 10 11), !(lfsr_absorb _ _ 9 10),
    !(lfsr_absorb _ _ 8 9) by lia.
  by rewrite !Z.lxor_assoc.
Qed.

#[local] Transparent lfsr bit_at crc_bit.

Lemma byte_bits_eq d : byte d -> byte_bits d = Z.shiftl d 8.
Proof.
  intros Hd. apply Z.eqb_eq.
  apply (byte_all (fun d => byte_bits d =? Z.shiftl d 8)); [by vm_compute|done].
Qed.

Lemma crc_byte_lfsr r d : byte d -> crc_byte r d = lfsr8 (Z.lxor r (Z.shiftl d 8)).
Proof. intros Hd. by rewrite crc_byte_bits, byte_bits_eq. Qed.

Lemma lfsr8_word x : word16 (lfsr8 x).
Proof. apply lfsr_word. Qed.

Lemma crc_byte_word r d : byte d -> word16 (crc_byte r d).
Proof. intros Hd. rewrite crc_byte_lfsr by done. apply lfsr8_word. Qed.

Lemma zgw_crc16_word c data : word16 c -> bytes data -> word16 (zgw_crc16 c data).
Proof.
  intros Hc Hd. revert c Hc. induction Hd as [|d data Hd _ IH]; intros c Hc; [done|].
  apply IH. by apply crc_byte_word.
Qed.

Lemma zgw_crc16_app c d1 d2 : zgw_crc16 c (d1 ++ d2) = zgw_crc16 (zgw_crc16 c d1) d2.
Proof. apply fold_left_app. Qed.

Lemma lfsr8_lxor x y : lfsr8 (Z.lxor x y) = Z.lxor (lfsr8 x) (lfsr8 y).
Proof. unfold lfsr8. by rewrite !lfsr_lxor. Qed.

Lemma lfsr8_inj x y : word16 x -> word16 y -> lfsr8 x = lfsr8 y -> x = y.
Proof.
  intros Hx Hy H. unfold lfsr8 in H.
  repeat (apply lfsr_inj in H; [|first [done|apply lfsr_word]..]). done.
Qed.

(** The low byte of the register moves to the top half unchanged. *)
Lemma lfsr8_low d : byte d -> lfsr8 d = Z.shiftl d 8.
Proof.
  intros Hd. apply Z.eqb_eq.
  apply (byte_all (fun d => lfsr8 d =? Z.shiftl d 8)); [by vm_compute|done].
Qed.

Lemma word16_split r : word16 r ->
  r = Z.lxor (Z.shiftl (Z.shiftr r 8) 8) (Z.land r 255) /\
  byte (Z.shiftr r 8) /\ byte (Z.land r 255).
Proof.
  intros Hr. unfold word16 in Hr. split_and!.
  - apply Z.bits_inj'. intros i Hi. rewrite Z.lxor_spec, Z.land_spec.
    change 255 with (Z.ones 8). destruct (Z.lt_ge_cases i 8).
    + rewrite Z.shiftl_spec_low, Z.ones_spec_low by lia. by rewrite andb_true_r.
    + rewrite Z.shiftl_spec, Z.shiftr_spec, Z.ones_spec_high by lia.
      rewrite andb_false_r, xorb_false_r. f_equal. lia.
  - rewrite Z.shiftr_div_pow2 by lia. unfold byte.
    change (2 ^ 8) with 256. split; [apply Z.div_pos; lia|].
    apply Z.div_lt_upper_bound; lia.
  - apply (land_bound 8); lia.
Qed.

Lemma lfsr8_0 : lfsr8 0 = 0.
Proof. done. Qed.

(** Feeding the register its own value, most significant byte first, clears it. *)
Lemma crc_self r : word16 r -> zgw_crc16 r [Z.shiftr r 8; Z.land r 255] = 0.
Proof.
  intros Hr. destruct (word16_split r Hr) as (Heq & Hhi & Hlo).
  unfold zgw_crc16. cbn [fold_left]. rewrite !crc_byte_lfsr by done.
  assert (Z.lxor r (Z.shiftl (Z.shiftr r 8) 8) = Z.land r 255) as ->.
  { rewrite Heq at 1. by rewrite (Z.lxor_comm (Z.shiftl _ 8)), Z.lxor_assoc,
      Z.lxor_nilpotent, Z.lxor_0_r. }
  by rewrite (lfsr8_low (Z.land r 255)), Z.lxor_nilpotent.
Qed.

(** Appending the two CRC bytes, most significant first, gives residue zero. *)
Lemma crc16_append_residue c data :
  word16 c -> bytes data ->
  let crc := zgw_crc16 c data in
  zgw_crc16 c (data ++ [Z.shiftr crc 8; Z.land crc 255]) = 0.
Proof.
  intros Hc Hd crc. rewrite zgw_crc16_app. apply crc_self. by apply zgw_crc16_word.
Qed.

(** ** Error detection *)

Lemma crc_byte_inj r s d : word16 r -> word16 s -> byte d ->
  crc_byte r d = crc_byte s d -> r = s.
Proof.
  intros Hr Hs Hd. rewrite !crc_byte_lfsr by done. rewrite !lfsr8_lxor. intros H.
  apply lfsr8_inj; [done..|].
  apply (f_equal (fun z => Z.lxor z (lfsr8 (Z.shiftl d 8)))) in H.
  by rewrite !Z.lxor_assoc, Z.lxor_nilpotent, !Z.lxor_0_r in H.
Qed.

(** Equal data bytes carry a difference of the registers to the end. *)
Lemma zgw_crc16_inj r s data : word16 r -> word16 s -> bytes data ->
  zgw_crc16 r data = zgw_crc16 s data -> r = s.
Proof.
  intros Hr Hs Hd. revert r s Hr Hs. induction Hd as [|d data Hd _ IH]; intros r s Hr Hs H; [done|].
  unfold zgw_crc16 in H. cbn in H. apply IH in H; [|by apply crc_byte_word..].
  by apply crc_byte_inj in H.
Qed.

Lemma shiftl8_inj a b : Z.shiftl a 8 = Z.shiftl b 8 -> a = b.
Proof. rewrite !Z.shiftl_mul_pow2 by lia. lia. Qed.

Lemma byte_diff_low a b c d : byte a -> byte b -> byte c -> byte d ->
  lfsr8 (Z.shiftl (Z.lxor a b) 8) = Z.shiftl (Z.lxor c d) 8 -> a = b /\ c = d.
Proof.
  intros Ha Hb Hc Hd H.
  assert (byte (Z.lxor a b)) as Hab by (apply (lxor_bound 8); unfold byte in *; lia).
  assert (byte (Z.lxor c d)) as Hcd by (apply (lxor_bound 8); unfold byte in *; lia).
  set (x := Z.lxor a b) in *. set (y := Z.lxor c d) in *.
  assert (Hlow : (x =? 0) || negb (Z.land (lfsr8 (Z.shiftl x 8)) 255 =? 0) = true).
  { apply (byte_all (fun x => (x =? 0) || negb (Z.land (lfsr8 (Z.shiftl x 8)) 255 =? 0)));
      [by vm_compute|done]. }
  assert (Z.land (Z.shiftl y 8) 255 = 0) as Hy0.
  { apply Z.bits_inj'. intros i Hi. rewrite Z.land_spec, Z.testbit_0_l.
    change 255 with (Z.ones 8). destruct (Z.lt_ge_cases i 8).
    - by rewrite Z.shiftl_spec_low.
    - by rewrite Z.ones_spec_high, andb_false_r by lia. }
  rewrite H, Hy0 in Hlow. simpl in Hlow. rewrite orb_false_r in Hlow.
  apply Z.eqb_eq in Hlow. assert (y = 0) as Hy.
  { rewrite Hlow in H. change (lfsr8 (Z.shiftl 0 8)) with 0 in H.
    rewrite Z.shiftl_mul_pow2 in H by lia. lia. }
  by split; apply Z.lxor_eq.
Qed.

Lemma word16_lxor_shift r d : word16 r -> byte d -> word16 (Z.lxor r (Z.shiftl d 8)).
Proof.
  intros Hr Hd. apply (lxor_bound 16); [lia|done|].
  rewrite Z.shiftl_mul_pow2 by lia. unfold byte in Hd. lia.
Qed.

Lemma crc_two_bytes_inj r a b c d :
  word16 r -> byte a -> byte b -> byte c -> byte d ->
  zgw_crc16 r [a; b] = zgw_crc16 r [c; d] -> a = c /\ b = d.
Proof.
  intros Hr Ha Hb Hc Hd H. unfold zgw_crc16 in H. cbn [fold_left] in H.
  rewrite !crc_byte_lfsr in H by done.
  apply lfsr8_inj in H; [|apply word16_lxor_shift; [apply lfsr8_word|done]..].
  apply byte_diff_low; [done..|].
  rewrite !Z.shiftl_lxor, lfsr8_lxor. rewrite !(lfsr8_lxor r) in H.
  apply Z.bits_inj'. intros i Hi.
  apply (f_equal (fun z => Z.testbit z i)) in H. cbv beta in H.
  rewrite !Z.lxor_spec in H. rewrite !Z.lxor_spec.
  revert H. destruct (Z.testbit (lfsr8 r) i), (Z.testbit (lfsr8 (Z.shiftl a 8)) i),
    (Z.testbit (lfsr8 (Z.shiftl c 8)) i), (Z.testbit (Z.shiftl b 8) i),
    (Z.testbit (Z.shiftl d 8) i); done.
Qed.

(** A frame and a copy of it damaged in two adjacent bytes have different CRCs. *)
Lemma crc16_burst c pre post a b a' b' :
  word16 c -> bytes pre -> bytes post -> byte a -> byte b -> byte a' -> byte b' ->
  zgw_crc16 c (pre ++ [a; b] ++ post) = zgw_crc16 c (pre ++ [a'; b'] ++ post) ->
  a = a' /\ b = b'.
Proof.
  intros Hc Hpre Hpost Ha Hb Ha' Hb' H. rewrite !zgw_crc16_app in H.
  assert (word16 (zgw_crc16 c pre)) as Hr by by apply zgw_crc16_word.
  apply zgw_crc16_inj in H; [|apply zgw_crc16_word; [done|by forall_list]..|done].
  by apply crc_two_bytes_inj in H.
Qed.

(** The check of a frame: a frame followed by its CRC, most significant byte
    first, has CRC zero, and the same frame with any two adjacent bytes changed
    (CRC included) has not. *)
Theorem crc16_frame_check c data :
  word16 c -> bytes data ->
  let crc := zgw_crc16 c data in
  let frame := data ++ [Z.shiftr crc 8; Z.land crc 255] in
  zgw_crc16 c frame = 0 /\
  forall pre a b post a' b', frame = pre ++ [a; b] ++ post -> byte a' -> byte b' ->
    (a', b') <> (a, b) -> zgw_crc16 c (pre ++ [a'; b'] ++ post) <> 0.
Proof.
  intros Hc Hd crc frame. assert (zgw_crc16 c frame = 0) as H0 by by apply crc16_append_residue.
  split; [done|]. intros pre a b post a' b' Hf Ha' Hb' Hne Hz.
  assert (bytes frame) as Hfb.
  { apply Forall_app. split; [done|].
    destruct (word16_split crc) as (_ & Hhi & Hlo); [by apply zgw_crc16_word|]. by forall_list. }
  rewrite Hf in Hfb, H0. apply Forall_app in Hfb as [Hpre Hfb]. apply Forall_cons in Hfb as [Ha Hfb].
  apply Forall_cons in Hfb as [Hb Hpost].
  destruct (crc16_burst c pre post a b a' b') as [-> ->]; try done. by rewrite H0.
Qed.

Lemma crc16_frame_check_witness :
  zgw_crc16 0x1D0F ([0x55; 0xC0; 10; 0x30; 1; 2] ++ [4; 0x3F] ++ [0x04]) <> 0.
Proof.
  destruct (crc16_frame_check 0x1D0F [0x55; 0xC0; 10; 0x30; 1; 2; 3]) as [_ H].
  - by vm_compute.
  - by forall_list.
  - apply (H [0x55; 0xC0; 10; 0x30; 1; 2] 3 0x3E [0x04] 4 0x3F).
    + by vm_compute.
    + by vm_compute.
    + by vm_compute.
    + intros Heq. discriminate Heq.
Defined.
