(* ===== verification/Crc32.v ===== *)
(** * The table-driven CRC-32 (src/src/crc32alg.c)

    The gateway identifies a queued frame by its CRC-32.  The source computes it
    a byte at a time from a table of 256 feedback terms; the reference here is
    the shift register the table abbreviates, a bit at a time.  The theorem says
    that the two agree on every sequence of bytes, that the checksum of a
    sequence may be computed in pieces, and that frames which differ in a single
    byte have different checksums. *)

From S2P Require Import Prelude.

Definition crc32_tab : list Z := [
   0x00000000; 0x77073096; 0xee0e612c; 0x990951ba; 0x076dc419; 0x706af48f;
   0xe963a535; 0x9e6495a3; 0x0edb8832; 0x79dcb8a4; 0xe0d5e91e; 0x97d2d988;
   0x09b64c2b; 0x7eb17cbd; 0xe7b82d07; 0x90bf1d91; 0x1db71064; 0x6ab020f2;
   0xf3b97148; 0x84be41de; 0x1adad47d; 0x6ddde4eb; 0xf4d4b551; 0x83d385c7;
   0x136c9856; 0x646ba8c0; 0xfd62f97a; 0x8a65c9ec; 0x14015c4f; 0x63066cd9;
   0xfa0f3d63; 0x8d080df5; 0x3b6e20c8; 0x4c69105e; 0xd56041e4; 0xa2677172;
   0x3c03e4d1; 0x4b04d447; 0xd20d85fd; 0xa50ab56b; 0x35b5a8fa; 0x42b2986c;
   0xdbbbc9d6; 0xacbcf940; 0x32d86ce3; 0x45df5c75; 0xdcd60dcf; 0xabd13d59;
   0x26d930ac; 0x51de003a; 0xc8d75180; 0xbfd06116; 0x21b4f4b5; 0x56b3c423;
   0xcfba9599; 0xb8bda50f; 0x2802b89e; 0x5f058808; 0xc60cd9b2; 0xb10be924;
   0x2f6f7c87; 0x58684c11; 0xc1611dab; 0xb6662d3d; 0x76dc4190; 0x01db7106;
   0x98d220bc; 0xefd5102a; 0x71b18589; 0x06b6b51f; 0x9fbfe4a5; 0xe8b8d433;
   0x7807c9a2; 0x0f00f934; 0x9609a88e; 0xe10e9818; 0x7f6a0dbb; 0x086d3d2d;
   0x91646c97; 0xe6635c01; 0x6b6b51f4; 0x1c6c6162; 0x856530d8; 0xf262004e;
   0x6c0695ed; 0x1b01a57b; 0x8208f4c1; 0xf50fc457; 0x65b0d9c6; 0x12b7e950;
   0x8bbeb8ea; 0xfcb9887c; 0x62dd1ddf; 0x15da2d49; 0x8cd37cf3; 0xfbd44c65;
   0x4db26158; 0x3ab551ce; 0xa3bc0074; 0xd4bb30e2; 0x4adfa541; 0x3dd895d7;
   0xa4d1c46d; 0xd3d6f4fb; 0x4369e96a; 0x346ed9fc; 0xad678846; 0xda60b8d0;
   0x44042d73; 0x33031de5; 0xaa0a4c5f; 0xdd0d7cc9; 0x5005713c; 0x270241aa;
   0xbe0b1010; 0xc90c2086; 0x5768b525; 0x206f85b3; 0xb966d409; 0xce61e49f;
   0x5edef90e; 0x29d9c998; 0xb0d09822; 0xc7d7a8b4; 0x59b33d17; 0x2eb40d81;
   0xb7bd5c3b; 0xc0ba6cad; 0xedb88320; 0x9abfb3b6; 0x03b6e20c; 0x74b1d29a;
   0xead54739; 0x9dd277af; 0x04db2615; 0x73dc1683; 0xe3630b12; 0x94643b84;
   0x0d6d6a3e; 0x7a6a5aa8; 0xe40ecf0b; 0x9309ff9d; 0x0a00ae27; 0x7d079eb1;
   0xf00f9344; 0x8708a3d2; 0x1e01f268; 0x6906c2fe; 0xf762575d; 0x806567cb;
   0x196c3671; 0x6e6b06e7; 0xfed41b76; 0x89d32be0; 0x10da7a5a; 0x67dd4acc;
   0xf9b9df6f; 0x8ebeeff9; 0x17b7be43; 0x60b08ed5; 0xd6d6a3e8; 0xa1d1937e;
   0x38d8c2c4; 0x4fdff252; 0xd1bb67f1; 0xa6bc5767; 0x3fb506dd; 0x48b2364b;
   0xd80d2bda; 0xaf0a1b4c; 0x36034af6; 0x41047a60; 0xdf60efc3; 0xa867df55;
   0x316e8eef; 0x4669be79; 0xcb61b38c; 0xbc66831a; 0x256fd2a0; 0x5268e236;
   0xcc0c7795; 0xbb0b4703; 0x220216b9; 0x5505262f; 0xc5ba3bbe; 0xb2bd0b28;
   0x2bb45a92; 0x5cb36a04; 0xc2d7ffa7; 0xb5d0cf31; 0x2cd99e8b; 0x5bdeae1d;
   0x9b64c2b0; 0xec63f226; 0x756aa39c; 0x026d930a; 0x9c0906a9; 0xeb0e363f;
   0x72076785; 0x05005713; 0x95bf4a82; 0xe2b87a14; 0x7bb12bae; 0x0cb61b38;
   0x92d28e9b; 0xe5d5be0d; 0x7cdcefb7; 0x0bdbdf21; 0x86d3d2d4; 0xf1d4e242;
   0x68ddb3f8; 0x1fda836e; 0x81be16cd; 0xf6b9265b; 0x6fb077e1; 0x18b74777;
   0x88085ae6; 0xff0f6a70; 0x66063bca; 0x11010b5c; 0x8f659eff; 0xf862ae69;
   0x616bffd3; 0x166ccf45; 0xa00ae278; 0xd70dd2ee; 0x4e048354; 0x3903b3c2;
   0xa7672661; 0xd06016f7; 0x4969474d; 0x3e6e77db; 0xaed16a4a; 0xd9d65adc;
   0x40df0b66; 0x37d83bf0; 0xa9bcae53; 0xdebb9ec5; 0x47b2cf7f; 0x30b5ffe9;
   0xbdbdf21c; 0xcabac28a; 0x53b39330; 0x24b4a3a6; 0xbad03605; 0xcdd70693;
   0x54de5729; 0x23d967bf; 0xb3667a2e; 0xc4614ab8; 0x5d681b02; 0x2a6f2b94;
   0xb40bbe37; 0xc30c8ea1; 0x5a05df1b; 0x2d02ef8d].

(** [~0U] *)
Definition ALL_ONES : Z := 0xFFFFFFFF.

Definition crc32_update (crc b : Z) : Z :=
  Z.lxor (rd crc32_tab (Z.land (Z.lxor crc b) 0xFF)) (Z.shiftr crc 8).

Definition crc32 (buf : list Z) (crc : Z) : Z :=
  Z.lxor (fold_left crc32_update buf (Z.lxor crc ALL_ONES)) ALL_ONES.

(** ** The shift register *)

(** The polynomial of the header comment, least significant bit first. *)
Definition CRC32_POLY : Z := 0xEDB88320.

Definition reg_step (r : Z) : Z :=
  Z.lxor (Z.shiftr r 1) (if Z.testbit r 0 then CRC32_POLY else 0).

Definition reg_steps (n : nat) (r : Z) : Z := Nat.iter n reg_step r.

Definition reg_byte (r b : Z) : Z := reg_steps 8 (Z.lxor r b).

Definition crc32_reference (buf : list Z) (crc : Z) : Z :=
  Z.lxor (fold_left reg_byte buf (Z.lxor crc ALL_ONES)) ALL_ONES.

Definition word32 (z : Z) : Prop := 0 <= z < 2 ^ 32.

Lemma reg_step_lxor x y : reg_step (Z.lxor x y) = Z.lxor (reg_step x) (reg_step y).
Proof.
  unfold reg_step. rewrite Z.shiftr_lxor, Z.lxor_spec.
  apply Z.bits_inj'. intros i Hi. rewrite !Z.lxor_spec.
  destruct (Z.testbit x 0), (Z.testbit y 0); cbn [xorb];
    rewrite ?Z.testbit_0_l;
    destruct (Z.testbit (Z.shiftr x 1) i), (Z.testbit (Z.shiftr y 1) i),
      (Z.testbit CRC32_POLY i); done.
Qed.

Lemma reg_steps_lxor n x y :
  reg_steps n (Z.lxor x y) = Z.lxor (reg_steps n x) (reg_steps n y).
Proof.
  induction n as [|n IH]; [done|].
  unfold reg_steps in *. simpl. by rewrite IH, reg_step_lxor.
Qed.

(** Low zero bits leave the register without feedback. *)
Lemma reg_step_even x : 0 <= x -> reg_step (Z.shiftl x 1) = x.
Proof.
  intros Hx. unfold reg_step. rewrite Z.shiftl_spec_low, Z.lxor_0_r by lia.
  by rewrite Z.shiftr_shiftl_l, Z.shiftl_0_r by lia.
Qed.

Lemma reg_steps_shiftl n x : 0 <= x -> reg_steps n (Z.shiftl x (Z.of_nat n)) = x.
Proof.
  intros Hx. induction n as [|n IH]; [apply Z.shiftl_0_r|].
  unfold reg_steps in *. rewrite Nat.iter_succ_r.
  replace (Z.of_nat (S n)) with (Z.of_nat n + 1) by lia.
  rewrite <- Z.shiftl_shiftl by lia. rewrite reg_step_even; [done|].
  by apply Z.shiftl_nonneg.
Qed.

Lemma tab_steps d : byte d -> reg_steps 8 d = rd crc32_tab d.
Proof.
  intros Hd. apply Z.eqb_eq. revert d Hd.
  apply (byte_all (fun d => reg_steps 8 d =? rd crc32_tab d)). by vm_compute.
Qed.

Lemma low_byte x : byte (Z.land x 0xFF).
Proof. apply (land_bound 8); lia. Qed.

Lemma lxor_split x : 0 <= x ->
  x = Z.lxor (Z.land x 0xFF) (Z.shiftl (Z.shiftr x 8) 8).
Proof.
  intros Hx. change 0xFF with (Z.ones 8). apply Z.bits_inj'. intros i Hi.
  rewrite Z.lxor_spec, Z.land_spec. destruct (Z.lt_ge_cases i 8).
  - rewrite Z.ones_spec_low, Z.shiftl_spec_low by lia. by rewrite andb_true_r, xorb_false_r.
  - rewrite Z.ones_spec_high, Z.shiftl_spec, Z.shiftr_spec by lia.
    rewrite andb_false_r, xorb_false_l. f_equal. lia.
Qed.

(** A byte of the table-driven loop is eight steps of the register. *)
Lemma crc32_update_reg r b : 0 <= r -> byte b -> crc32_update r b = reg_byte r b.
Proof.
  intros Hr Hb. unfold reg_byte, crc32_update. symmetry.
  assert (0 <= Z.lxor r b) by (apply Z.lxor_nonneg; unfold byte in Hb; lia).
  rewrite (lxor_split (Z.lxor r b)) at 1 by done.
  rewrite reg_steps_lxor, tab_steps by apply low_byte.
  f_equal. change 8 with (Z.of_nat 8). rewrite reg_steps_shiftl by (by apply Z.shiftr_nonneg).
  rewrite Z.shiftr_lxor. change (Z.of_nat 8) with 8.
  rewrite (Z.shiftr_eq_0 b 8); [apply Z.lxor_0_r|unfold byte in Hb; lia|].
  destruct (Z.eq_dec b 0) as [->|]; [done|]. apply Z.log2_lt_pow2; unfold byte in Hb; lia.
Qed.

Lemma reg_step_word r : word32 r -> word32 (reg_step r).
Proof.
  intros Hr. unfold reg_step. apply (lxor_bound 32); [lia|..].
  - rewrite Z.shiftr_div_pow2 by lia. unfold word32 in Hr. split.
    + apply Z.div_pos; lia.
    + apply Z.div_lt_upper_bound; lia.
  - destruct (Z.testbit r 0); by vm_compute.
Qed.

Lemma reg_steps_word n r : word32 r -> word32 (reg_steps n r).
Proof. induction n as [|n IH]; intros Hr; [done|]. by apply reg_step_word, IH. Qed.

Lemma byte_word32 b : byte b -> word32 b.
Proof. unfold byte, word32. lia. Qed.

Lemma reg_byte_word r b : word32 r -> byte b -> word32 (reg_byte r b).
Proof.
  intros Hr Hb. apply reg_steps_word, (lxor_bound 32); [lia|done|by apply byte_word32].
Qed.

(** The bit that leaves the register is the highest bit of the result: the
    polynomial has it and a shifted register has not. *)
Lemma reg_step_top r : word32 r -> Z.testbit (reg_step r) 31 = Z.testbit r 0.
Proof.
  intros Hr. unfold reg_step. rewrite Z.lxor_spec, Z.shiftr_spec by lia.
  rewrite (testbit_high r 32) by (unfold word32 in Hr; lia).
  destruct (Z.testbit r 0); done.
Qed.

Lemma reg_step_inj x y : word32 x -> word32 y -> reg_step x = reg_step y -> x = y.
Proof.
  intros Hx Hy H. assert (Z.testbit x 0 = Z.testbit y 0) as H0
    by by rewrite <- !reg_step_top, H.
  unfold reg_step in H. rewrite H0 in H.
  assert (Z.shiftr x 1 = Z.shiftr y 1) as Hs.
  { apply (f_equal (fun z => Z.lxor z (if Z.testbit y 0 then CRC32_POLY else 0))) in H.
    by rewrite !Z.lxor_assoc, !Z.lxor_nilpotent, !Z.lxor_0_r in H. }
  apply Z.bits_inj'. intros i Hi. destruct (Z.eq_dec i 0) as [->|]; [done|].
  replace i with (i - 1 + 1) by lia. rewrite <- !Z.shiftr_spec by lia. by rewrite Hs.
Qed.

Lemma reg_steps_inj n x y : word32 x -> word32 y -> reg_steps n x = reg_steps n y -> x = y.
Proof.
  intros Hx Hy. induction n as [|n IH]; [done|]. intros H. apply IH.
  apply reg_step_inj in H; [done|by apply reg_steps_word..].
Qed.

Lemma lxor_inj_r x y z : Z.lxor x z = Z.lxor y z -> x = y.
Proof.
  intros H. apply (f_equal (fun r => Z.lxor r z)) in H.
  by rewrite !Z.lxor_assoc, !Z.lxor_nilpotent, !Z.lxor_0_r in H.
Qed.

Lemma fold_left_one {A B} (f : A -> B -> A) b a : fold_left f [b] a = f a b.
Proof. done. Qed.

Lemma reg_byte_eq r b : reg_byte r b = reg_steps 8 (Z.lxor r b).
Proof. reflexivity. Qed.

(** A byte step is injective in the register and in the byte. *)
Lemma reg_byte_inj r s b c : word32 r -> word32 s -> byte b -> byte c ->
  b = c \/ r = s -> reg_byte r b = reg_byte s c -> r = s /\ b = c.
Proof.
  intros Hr Hs Hb Hc Hor H. rewrite !reg_byte_eq in H.
  apply reg_steps_inj in H; [|apply (lxor_bound 32); [lia|done|by apply byte_word32]..].
  destruct Hor as [-> | ->].
  - by apply lxor_inj_r in H.
  - rewrite !(Z.lxor_comm s) in H. by apply lxor_inj_r in H.
Qed.

Lemma reg_bytes_word buf r : word32 r -> bytes buf -> word32 (fold_left reg_byte buf r).
Proof.
  intros Hr Hb. revert r Hr. induction Hb as [|b buf Hb _ IH]; intros r Hr; [done|].
  rewrite !fold_left_cons. by apply IH, reg_byte_word.
Qed.

Lemma reg_bytes_inj buf x y : word32 x -> word32 y -> bytes buf ->
  fold_left reg_byte buf x = fold_left reg_byte buf y -> x = y.
Proof.
  intros Hx Hy Hb. revert x y Hx Hy.
  induction Hb as [|b buf Hb _ IH]; intros x y Hx Hy H; [done|].
  rewrite !fold_left_cons in H. apply IH in H; [|by apply reg_byte_word..].
  apply reg_byte_inj in H; [by destruct H|done..|by left].
Qed.

Lemma fold_update_reg buf r : word32 r -> bytes buf ->
  fold_left crc32_update buf r = fold_left reg_byte buf r.
Proof.
  intros Hr Hb. revert r Hr. induction Hb as [|b buf Hb _ IH]; intros r Hr; [done|].
  rewrite !fold_left_cons. rewrite crc32_update_reg by (done || unfold word32 in Hr; lia).
  by apply IH, reg_byte_word.
Qed.

Lemma ones_word : word32 ALL_ONES.
Proof. by vm_compute. Qed.

Lemma start_word crc : word32 crc -> word32 (Z.lxor crc ALL_ONES).
Proof. intros Hc. apply (lxor_bound 32); [lia|done|apply ones_word]. Qed.

#[export] Hint Resolve start_word ones_word reg_byte_word reg_bytes_word byte_word32 : zbits.

Lemma crc32_eq_reference buf crc : word32 crc -> bytes buf ->
  crc32 buf crc = crc32_reference buf crc.
Proof.
  intros Hc Hb. unfold crc32, crc32_reference.
  rewrite fold_update_reg; [done|by apply start_word|done].
Qed.

Lemma crc32_word buf crc : word32 crc -> bytes buf -> word32 (crc32 buf crc).
Proof.
  intros Hc Hb. rewrite crc32_eq_reference by done.
  apply (lxor_bound 32); [lia|..|apply ones_word].
  apply reg_bytes_word; [by apply start_word|done].
Qed.

(** ** Properties of the checksum, for any step function *)

Lemma crc_fold_app (f : Z -> Z -> Z) b1 b2 r ones :
  Z.lxor (fold_left f (b1 ++ b2) r) ones =
  Z.lxor (fold_left f b2 (Z.lxor (Z.lxor (fold_left f b1 r) ones) ones)) ones.
Proof. by rewrite fold_left_app, Z.lxor_assoc, Z.lxor_nilpotent, Z.lxor_0_r. Qed.

Lemma reg_bytes_one_byte pre b b' post r : word32 r -> bytes pre -> bytes post ->
  byte b -> byte b' ->
  fold_left reg_byte (pre ++ [b'] ++ post) r = fold_left reg_byte (pre ++ [b] ++ post) r ->
  b' = b.
Proof.
  intros Hr Hpre Hpost Hb Hb'. rewrite !fold_left_app.
  assert (word32 (fold_left reg_byte pre r)) as Hw by by apply reg_bytes_word.
  revert Hw. generalize (fold_left reg_byte pre r) as s. intros s Hw H.
  rewrite !fold_left_one in H. apply reg_bytes_inj in H; [|by apply reg_byte_word..|done].
  apply reg_byte_inj in H; [by destruct H|done..|by right].
Qed.

(** The table-driven checksum is the one of the shift register; it is computed
    piece by piece by passing the checksum of the first piece on; and it tells
    apart any two frames that differ in one byte. *)
Theorem crc32_correct buf crc : word32 crc -> bytes buf ->
  crc32 buf crc = crc32_reference buf crc /\
  (forall b1 b2, buf = b1 ++ b2 -> crc32 buf crc = crc32 b2 (crc32 b1 crc)) /\
  (forall pre b post b', buf = pre ++ [b] ++ post -> byte b' -> b' <> b ->
     crc32 (pre ++ [b'] ++ post) crc <> crc32 buf crc).
Proof.
  intros Hc Hb. split_and!.
  - by apply crc32_eq_reference.
  - intros b1 b2 ->. apply crc_fold_app.
  - intros pre b post b' -> Hb' Hne Heq. apply Hne.
    apply Forall_app in Hb as [Hpre Hb]. apply Forall_cons in Hb as [Hb Hpost].
    rewrite !crc32_eq_reference in Heq
      by first [done | by apply Forall_app; split; [|constructor]].
    apply lxor_inj_r, reg_bytes_one_byte in Heq; try done. by apply start_word.
Qed.

Lemma crc32_correct_witness :
  crc32 [0x31; 0x32; 0x33; 0x34; 0x35; 0x36; 0x37; 0x38; 0x39] 0 = 0xCBF43926 /\
  crc32 ([0x31; 0x32] ++ [0x30] ++ [0x34]) 0 <> crc32 [0x31; 0x32; 0x33; 0x34] 0.
Proof.
  split; [by vm_compute|].
  apply (crc32_correct [0x31; 0x32; 0x33; 0x34] 0) with (b := 0x33).
  - by vm_compute.
  - by forall_list.
  - reflexivity.
  - by vm_compute.
  - lia.
Defined.
