(* ===== verification/TransportFsm.v ===== *)
(** * The transition table of the transport service

    Models src/libs2/transport_service/transport2_fsm.c and .h: the states and
    events of the Transport Service v2 state machine, its transition table, the
    table search [find_transition] and [t2_sm_post_event].  The state variable
    [current_state] is a member of the state of [TransportService]; here the
    step is a function of it.  The [fun_name] column only names the action for
    debugging and is kept as documentation of the table. *)

From S2P Require Import Prelude.
From Stdlib Require Import String.
#[local] Open Scope Z_scope.

Inductive t2_state : Set :=
| ST_IDLE
| ST_RECEIVING
| ST_SEND_FRAG_COMPLETE
| ST_SEND_FRAG_REQ
| ST_SEND_FRAG_WAIT
| ST_FIND_MISS_FRAG
| ST_SEND_FRAG
| ST_SEND_LAST_FRAG
| ST_WAIT_ACK.

Inductive t2_event : Set :=
| EV_START_RECV
| EV_RECV_NEW_FRAG
| EV_NO_SESSION_ID
| EV_SEND_FRAG_COMPLETE
| EV_NO_SEND_FRAG_COMPLETE
| EV_SUCCESS
| EV_SUCCESS2
| EV_SUCCESS3
| EV_FRAG_RX_TIMER
| EV_MISSING_FRAG
| EV_MISSING_FRAG_BCAST
| EV_SCAST_DIFF_NODE
| EV_BCAST_DIFF_NODE
| EV_DIFF_SESSION
| EV_SUBSEQ_DIFF_SESSION
| EV_FRAG_REQ_COMPL_WAIT_DIFF_SESSION
| EV_FRAG_REQ_COMPL_WAIT_DIFF_NODE
| EV_RECV_FRAG_REQ
| EV_RECV_LAST_FRAG
| EV_RECV_FRAG_COMPLETE
| EV_TIE_BREAK
| EV_DUPL_FRAME
| EV_FRAG_REQ_OR_COMPL
| EV_START_SEND
| EV_SEND_NEW_FRAG
| EV_SEND_NXT_MISS_FRAG
| EV_SENT_MISS_FRAG
| EV_RECV_FRAG_WAIT
| EV_SEND_LAST_FRAG
| EV_SEND_LAST_MISS_FRAG
| EV_FRAG_COMPL_TIMER
| EV_FRAG_COMPL_TIMER2
| EV_FRAG_COMPL_TIMER_REQ
| EV_FAILURE_LAST_FRAG2
| EV_RECV_FRAG_COMPL
| EV_REPLY_FRAG_REQ_DONE
| EV_FAIL.

#[export] Instance t2_state_eq_dec : EqDecision t2_state.
Proof. solve_decision. Defined.

#[export] Instance t2_event_eq_dec : EqDecision t2_event.
Proof. solve_decision. Defined.

Record transition := {
  tr_st : t2_state;
  tr_ev : t2_event;
  tr_next_st : t2_state;
  tr_fun_name : option string;
}.

Definition ST_DEFINE (a : t2_state) (b : t2_event) (c : t2_state) (d : option string) : transition :=
  {| tr_st := a; tr_ev := b; tr_next_st := c; tr_fun_name := d |}.

Definition trans : list transition := [
  ST_DEFINE ST_IDLE EV_START_RECV ST_RECEIVING (Some "start receive"%string);
  ST_DEFINE ST_IDLE EV_START_SEND ST_SEND_FRAG (Some "send_first_frag"%string);
  ST_DEFINE ST_IDLE EV_SEND_NEW_FRAG ST_SEND_FRAG (Some "keep sending"%string);
  ST_DEFINE ST_SEND_FRAG EV_SEND_NEW_FRAG ST_SEND_FRAG (Some "send_subseq_frag"%string);
  ST_DEFINE ST_RECEIVING EV_SEND_NEW_FRAG ST_SEND_FRAG (Some "send"%string);
  ST_DEFINE ST_WAIT_ACK EV_SEND_NEW_FRAG ST_SEND_FRAG (Some "send"%string);
  ST_DEFINE ST_RECEIVING EV_RECV_NEW_FRAG ST_RECEIVING (Some "process new fram"%string);
  ST_DEFINE ST_RECEIVING EV_DUPL_FRAME ST_IDLE (Some "discard the fragment"%string);
  ST_DEFINE ST_RECEIVING EV_NO_SESSION_ID ST_SEND_FRAG_WAIT (Some "send_frag_wait_cmd"%string);
  ST_DEFINE ST_RECEIVING EV_SCAST_DIFF_NODE ST_SEND_FRAG_WAIT (Some "send_frag_wait_cmd"%string);
  ST_DEFINE ST_SEND_FRAG EV_SCAST_DIFF_NODE ST_SEND_FRAG_WAIT (Some "send_frag_wait_cmd"%string);
  ST_DEFINE ST_WAIT_ACK EV_SCAST_DIFF_NODE ST_SEND_FRAG_WAIT (Some "send_frag_wait_cmd"%string);
  ST_DEFINE ST_RECEIVING EV_DIFF_SESSION ST_IDLE (Some "discard the fragment"%string);
  ST_DEFINE ST_RECEIVING EV_SUBSEQ_DIFF_SESSION ST_SEND_FRAG_WAIT (Some "send frag_wait"%string);
  ST_DEFINE ST_RECEIVING EV_FRAG_REQ_COMPL_WAIT_DIFF_NODE ST_IDLE (Some "discard the fragment"%string);
  ST_DEFINE ST_RECEIVING EV_FRAG_REQ_COMPL_WAIT_DIFF_SESSION ST_IDLE (Some "discard the fragment"%string);
  ST_DEFINE ST_SEND_FRAG_WAIT EV_SUCCESS ST_RECEIVING None;
  ST_DEFINE ST_SEND_FRAG_WAIT EV_SUCCESS2 ST_SEND_FRAG None;
  ST_DEFINE ST_SEND_FRAG_WAIT EV_SUCCESS3 ST_WAIT_ACK None;
  ST_DEFINE ST_SEND_FRAG_COMPLETE EV_SUCCESS ST_IDLE None;
  ST_DEFINE ST_SEND_FRAG_REQ EV_SUCCESS ST_RECEIVING None;
  ST_DEFINE ST_RECEIVING EV_FRAG_RX_TIMER ST_FIND_MISS_FRAG (Some "find_missing"%string);
  ST_DEFINE ST_IDLE EV_FRAG_RX_TIMER ST_IDLE (Some "discard_all_received_fragments"%string);
  ST_DEFINE ST_RECEIVING EV_BCAST_DIFF_NODE ST_RECEIVING (Some "drop_fragment"%string);
  ST_DEFINE ST_RECEIVING EV_RECV_LAST_FRAG ST_FIND_MISS_FRAG (Some "find_missing"%string);
  ST_DEFINE ST_WAIT_ACK EV_SEND_FRAG_COMPLETE ST_SEND_FRAG_COMPLETE None;
  ST_DEFINE ST_RECEIVING EV_RECV_FRAG_COMPL ST_IDLE None;
  ST_DEFINE ST_WAIT_ACK EV_FRAG_REQ_OR_COMPL ST_WAIT_ACK None;
  ST_DEFINE ST_WAIT_ACK EV_FRAG_RX_TIMER ST_IDLE (Some "discard all fragments"%string);
  ST_DEFINE ST_RECEIVING EV_FRAG_REQ_OR_COMPL ST_RECEIVING (Some "process received"%string);
  ST_DEFINE ST_SEND_FRAG EV_FRAG_REQ_OR_COMPL ST_RECEIVING (Some "process received"%string);
  ST_DEFINE ST_FIND_MISS_FRAG EV_MISSING_FRAG ST_SEND_FRAG_REQ (Some "send_frag_req_cmd"%string);
  ST_DEFINE ST_FIND_MISS_FRAG EV_MISSING_FRAG_BCAST ST_IDLE None;
  ST_DEFINE ST_FIND_MISS_FRAG EV_SEND_FRAG_COMPLETE ST_SEND_FRAG_COMPLETE (Some "send_frag_complete_cmd"%string);
  ST_DEFINE ST_FIND_MISS_FRAG EV_NO_SEND_FRAG_COMPLETE ST_IDLE None;
  ST_DEFINE ST_SEND_FRAG EV_RECV_FRAG_WAIT ST_SEND_FRAG (Some "wait_restart_from_first"%string);
  ST_DEFINE ST_RECEIVING EV_RECV_FRAG_WAIT ST_SEND_FRAG (Some "wait_restart_from_first"%string);
  ST_DEFINE ST_SEND_FRAG EV_SEND_LAST_FRAG ST_SEND_LAST_FRAG (Some "send_last_frag"%string);
  ST_DEFINE ST_SEND_FRAG EV_SEND_LAST_MISS_FRAG ST_SEND_LAST_FRAG (Some "send_last_frag"%string);
  ST_DEFINE ST_SEND_LAST_FRAG EV_SUCCESS ST_WAIT_ACK None;
  ST_DEFINE ST_WAIT_ACK EV_FRAG_COMPL_TIMER ST_SEND_LAST_FRAG (Some "send_last_frag"%string);
  ST_DEFINE ST_WAIT_ACK EV_FRAG_COMPL_TIMER_REQ ST_IDLE (Some "send failure to application"%string);
  ST_DEFINE ST_WAIT_ACK EV_FRAG_COMPL_TIMER2 ST_IDLE None;
  ST_DEFINE ST_WAIT_ACK EV_FAILURE_LAST_FRAG2 ST_IDLE None;
  ST_DEFINE ST_WAIT_ACK EV_RECV_FRAG_REQ ST_SEND_FRAG (Some "reply_frag_req"%string);
  ST_DEFINE ST_RECEIVING EV_RECV_FRAG_REQ ST_SEND_FRAG (Some "reply_frag_req"%string);
  ST_DEFINE ST_WAIT_ACK EV_RECV_FRAG_COMPL ST_IDLE None;
  ST_DEFINE ST_SEND_FRAG EV_SEND_NXT_MISS_FRAG ST_SEND_FRAG (Some "reply_frag_req"%string);
  ST_DEFINE ST_SEND_FRAG EV_FRAG_COMPL_TIMER ST_IDLE (Some "wait"%string);
  ST_DEFINE ST_SEND_FRAG EV_FRAG_COMPL_TIMER_REQ ST_IDLE (Some "wait"%string);
  ST_DEFINE ST_SEND_FRAG EV_SENT_MISS_FRAG ST_WAIT_ACK None;
  ST_DEFINE ST_SEND_FRAG EV_TIE_BREAK ST_RECEIVING (Some "receive"%string);
  ST_DEFINE ST_SEND_LAST_FRAG EV_TIE_BREAK ST_RECEIVING (Some "receive"%string);
  ST_DEFINE ST_WAIT_ACK EV_RECV_FRAG_WAIT ST_SEND_FRAG None;
  ST_DEFINE ST_SEND_LAST_FRAG EV_FAIL ST_IDLE None;
  ST_DEFINE ST_WAIT_ACK EV_TIE_BREAK ST_RECEIVING (Some "receive"%string)
].

(** The search runs from the last entry to the first and answers the index of
    the entry plus one, or 0.  [num_trans] is a [uint8_t]. *)
Fixpoint find_transition_loop (num_trans : nat) (cstate : t2_state) (event : t2_event) : Z :=
  match num_trans with
  | O => 0
  | S n =>
      match trans !! n with
      | Some t =>
          if decide (cstate = tr_st t) then
            if decide (event = tr_ev t) then u8 (Z.of_nat n + 1)
            else find_transition_loop n cstate event
          else find_transition_loop n cstate event
      | None => 0
      end
  end.

Definition find_transition (cstate : t2_state) (event : t2_event) : Z :=
  find_transition_loop (Z.to_nat (u8 (Zlength trans))) cstate event.

(** [t2_sm_post_event], as a function of the current state. *)
Definition t2_sm_post_event (current_state : t2_state) (ev : t2_event) : t2_state :=
  let i := find_transition current_state ev in
  if truth i then
    match trans !! Z.to_nat (i - 1) with
    | Some t => tr_next_st t
    | None => current_state
    end
  else current_state.

(** ** What the search computes *)

(** The table read as a function: the entry for a state and an event. *)
Definition t2_entry (cstate : t2_state) (event : t2_event) (t : transition) : Prop :=
  t ∈ trans /\ tr_st t = cstate /\ tr_ev t = event.

Definition all_states : list t2_state :=
  [ST_IDLE; ST_RECEIVING; ST_SEND_FRAG_COMPLETE; ST_SEND_FRAG_REQ; ST_SEND_FRAG_WAIT; ST_FIND_MISS_FRAG; ST_SEND_FRAG; ST_SEND_LAST_FRAG; ST_WAIT_ACK].

Definition all_events : list t2_event :=
  [EV_START_RECV; EV_RECV_NEW_FRAG; EV_NO_SESSION_ID; EV_SEND_FRAG_COMPLETE; EV_NO_SEND_FRAG_COMPLETE; EV_SUCCESS; EV_SUCCESS2; EV_SUCCESS3; EV_FRAG_RX_TIMER; EV_MISSING_FRAG; EV_MISSING_FRAG_BCAST; EV_SCAST_DIFF_NODE; EV_BCAST_DIFF_NODE; EV_DIFF_SESSION; EV_SUBSEQ_DIFF_SESSION; EV_FRAG_REQ_COMPL_WAIT_DIFF_SESSION; EV_FRAG_REQ_COMPL_WAIT_DIFF_NODE; EV_RECV_FRAG_REQ; EV_RECV_LAST_FRAG; EV_RECV_FRAG_COMPLETE; EV_TIE_BREAK; EV_DUPL_FRAME; EV_FRAG_REQ_OR_COMPL; EV_START_SEND; EV_SEND_NEW_FRAG; EV_SEND_NXT_MISS_FRAG; EV_SENT_MISS_FRAG; EV_RECV_FRAG_WAIT; EV_SEND_LAST_FRAG; EV_SEND_LAST_MISS_FRAG; EV_FRAG_COMPL_TIMER; EV_FRAG_COMPL_TIMER2; EV_FRAG_COMPL_TIMER_REQ; EV_FAILURE_LAST_FRAG2; EV_RECV_FRAG_COMPL; EV_REPLY_FRAG_REQ_DONE; EV_FAIL].

Lemma all_states_complete s : s ∈ all_states.
Proof. destruct s; repeat constructor. Qed.

Lemma all_events_complete e : e ∈ all_events.
Proof. destruct e; repeat constructor. Qed.

(** The answer the table gives, written as a search from the first entry. *)
Definition t2_lookup (cstate : t2_state) (event : t2_event) : option t2_state :=
  tr_next_st <$> List.find (fun t => bool_decide (tr_st t = cstate /\ tr_ev t = event)) trans.

Definition t2_keys_unique : bool :=
  bool_decide (NoDup (map (fun t => (tr_st t, tr_ev t)) trans)).

Lemma trans_keys_unique : NoDup (map (fun t => (tr_st t, tr_ev t)) trans).
Proof. apply (bool_decide_unpack _). by vm_compute. Qed.

(** The entry for a state and an event is unique. *)
Lemma t2_entry_unique s e t t' : t2_entry s e t -> t2_entry s e t' -> t = t'.
Proof.
  intros (Ht & <- & <-) (Ht' & Hs & He).
  apply list_elem_of_lookup in Ht as [i Hi]. apply list_elem_of_lookup in Ht' as [j Hj].
  assert (i = j) as ->; [|congruence].
  apply (NoDup_lookup (map (fun t => (tr_st t, tr_ev t)) trans) i j (tr_st t, tr_ev t)).
  - apply trans_keys_unique.
  - by rewrite list_lookup_fmap, Hi.
  - by rewrite list_lookup_fmap, Hj; simpl; rewrite Hs, He.
Qed.

Lemma t2_post_lookup s e : t2_sm_post_event s e = default s (t2_lookup s e).
Proof. destruct s, e; vm_compute; reflexivity. Qed.

Lemma t2_lookup_entry s e n :
  t2_lookup s e = Some n -> exists t, t2_entry s e t /\ tr_next_st t = n.
Proof.
  unfold t2_lookup. intros H. apply fmap_Some in H as (t & Hf & ->).
  apply List.find_some in Hf as [Hin Hk]. apply bool_decide_eq_true in Hk as [Hs He].
  exists t. split; [|done]. split_and!; [|done..]. by apply list_elem_of_In.
Qed.

Lemma t2_lookup_None s e t : t2_lookup s e = None -> ~ t2_entry s e t.
Proof.
  unfold t2_lookup. intros H (Hin & Hs & He). apply fmap_None in H.
  apply list_elem_of_In in Hin. pose proof (List.find_none _ _ H _ Hin) as Hn.
  apply bool_decide_eq_false in Hn. by apply Hn.
Qed.

(** Posting an event moves along the one table entry for the state and the
    event, and leaves the state alone when the table has none. *)
Lemma t2_post_event_table s e :
  (exists t, t2_entry s e t /\ t2_sm_post_event s e = tr_next_st t) \/
  ((forall t, ~ t2_entry s e t) /\ t2_sm_post_event s e = s).
Proof.
  rewrite t2_post_lookup. destruct (t2_lookup s e) as [n|] eqn:E; simpl.
  - left. apply t2_lookup_entry in E as (t & Ht & <-). by exists t.
  - right. split; [|done]. intros t. by apply t2_lookup_None.
Qed.
