(* ===== verification/TransportService.v ===== *)
(** * Transport Service v2: the model

    Models src/libs2/transport_service/transport_service2.c as the gateway
    builds it (ZIPGW defined; NEW_TEST_T2, __C51__ and EFR32ZG not): the sending
    and the receiving control block, and one definition per function of the
    file.  A function of the C file that reads and writes the globals is a
    function from [ts_state] to [ts_state].

    What the file calls outside itself is recorded, newest first, in [trace]:
    the frames handed to [TS_SEND_RAW] (that is [ZW_SendData_Bridge]), the calls
    of the sender's completion function and the datagrams handed to the
    application.  The answers of the outside - whether a frame was accepted for
    transmission, [rand()] and [clock_time()] - come from an environment [env]
    that may depend on everything that happened before.  Callbacks do not call
    back into this file before they return.

    A timer is the interval it was last set to, or [None] when it is stopped or
    has fired; each timer of the file always has the same callback.

    [fault] records, and keeps, the first undefined behaviour met: an access
    outside an array, a division by zero, or a retry loop that has not finished
    after [env_fuel] rounds. *)

From S2P Require Import Prelude Crc TransportFsm.

#[local] Open Scope Z_scope.
#[local] Open Scope zgw_scope.

(** ** Constants *)

Definition FRAGMENT_FC_TIMEOUT : Z := 1000.
Definition FRAGMENT_RX_TIMEOUT : Z := 800.
Definition DATAGRAM_SIZE_MAX : Z := 200.
Definition FRAGMENTMAXPAYLOAD : Z := 47.
Definition RESET_TIME : Z := 5000.

Definition COMMAND_CLASS_TRANSPORT_SERVICE : Z := 0x55.
Definition COMMAND_FIRST_FRAGMENT : Z := 0xC0.
Definition COMMAND_SUBSEQUENT_FRAGMENT : Z := 0xE0.
Definition COMMAND_SEGMENT_COMPLETE_V2 : Z := 0xE8.
Definition COMMAND_SEGMENT_REQUEST_V2 : Z := 0xC8.
Definition COMMAND_SEGMENT_WAIT_V2 : Z := 0xF0.

(** sizeof ZW_COMMAND_FIRST_FRAGMENT_1BYTE_FRAME and of the SUBSEQUENT one. *)
Definition SIZEOF_FIRST_FRAG : Z := 7.
Definition SIZEOF_SUBSEQ_FRAG : Z := 8.
Definition FIRST_FRAG_NONPAYLOAD_LENGTH : Z := SIZEOF_FIRST_FRAG - 1.
Definition SUBSEQ_FRAG_NONPAYLOAD_LENGTH : Z := SIZEOF_SUBSEQ_FRAG - 1.
Definition FIRST_HDR_LEN : Z := 4.
Definition SUBSEQ_HDR_LEN : Z := 5.
Definition TXBUF_SIZE : Z := FRAGMENTMAXPAYLOAD + SIZEOF_SUBSEQ_FRAG - 1.
Definition BITMASK_SIZE : Z := DATAGRAM_SIZE_MAX / 8 + 1.

Definition TRANSMIT_OPTION_ACK : Z := 0x01.
Definition TRANSMIT_OPTION_AUTO_ROUTE : Z := 0x04.
Definition TRANSMIT_OPTION_NO_ROUTE : Z := 0x10.
Definition TRANSMIT_OPTION_EXPLORE : Z := 0x20.
Definition RECEIVE_STATUS_TYPE_SINGLE : Z := 0x00.
Definition RECEIVE_STATUS_TYPE_BROAD : Z := 0x04.
Definition S2_TRANSMIT_COMPLETE_OK : Z := 0x00.
Definition S2_TRANSMIT_COMPLETE_FAIL : Z := 0x02.
Definition NO_SCHEME : Z := 0xFF.

(** ** Data *)

(** The members of [ts_param_t] this file sets or reads; the others are only
    copied along with it. *)
Record ts_param := {
  snode : Z; dnode : Z; sendpoint : Z; dendpoint : Z;
  tx_flags : Z; rx_flags : Z; scheme : Z;
}.
#[export] Instance eta_ts_param : EtaRecord ts_param := fun r =>
  {| snode := snode r; dnode := dnode r; sendpoint := sendpoint r; dendpoint := dendpoint r;
     tx_flags := tx_flags r; rx_flags := rx_flags r; scheme := scheme r |}.

Definition ts_param_zero : ts_param :=
  {| snode := 0; dnode := 0; sendpoint := 0; dendpoint := 0; tx_flags := 0; rx_flags := 0;
     scheme := 0 |}.

(** [control_block_t].  A function pointer is a number, 0 for NULL; a
    [TX_STATUS_TYPE] report is opaque, 0 for the zeroed struct. *)
Record control_block := {
  cb_p : ts_param;
  completedFunc : Z;
  tx_status : Z;
  session_id : Z;
  pending_segments : Z;
}.
#[export] Instance eta_control_block : EtaRecord control_block := fun r =>
  {| cb_p := cb_p r; completedFunc := completedFunc r; tx_status := tx_status r;
     session_id := session_id r; pending_segments := pending_segments r |}.

Definition control_block_zero : control_block :=
  {| cb_p := ts_param_zero; completedFunc := 0; tx_status := 0; session_id := 0;
     pending_segments := 0 |}.

(** [struct sending_cntrl_blk]. *)
Record sending_cntrl_blk := {
  datalen_to_send : Z;
  missing_offset : Z;
  offset : Z;
  remaining_data_len : Z;
  scmn : control_block;
  datagram : list Z;
  datagram_len : Z;
  sending : bool;
  flag_replied_frag_req : bool;
  transmission_aborted : Z;
  reset_timer : option Z;
  wait_restart_timer : option Z;
  timer_btwn_2_frags : option Z;
  frag_compl_list : list bool;
  flag_send_frag_wait : bool;
  flag_reply_frag_req : bool;
  frag_wait_p : ts_param;
  round_trip_first_frag : Z;
  flag_fc_timer_expired_once : Z;
  current_dnode : Z;
  does_not_fit_in_first_frag : bool;
}.
#[export] Instance eta_scb : EtaRecord sending_cntrl_blk := fun r =>
  {| datalen_to_send := datalen_to_send r; missing_offset := missing_offset r;
     offset := offset r; remaining_data_len := remaining_data_len r; scmn := scmn r;
     datagram := datagram r; datagram_len := datagram_len r; sending := sending r;
     flag_replied_frag_req := flag_replied_frag_req r;
     transmission_aborted := transmission_aborted r; reset_timer := reset_timer r;
     wait_restart_timer := wait_restart_timer r; timer_btwn_2_frags := timer_btwn_2_frags r;
     frag_compl_list := frag_compl_list r; flag_send_frag_wait := flag_send_frag_wait r;
     flag_reply_frag_req := flag_reply_frag_req r; frag_wait_p := frag_wait_p r;
     round_trip_first_frag := round_trip_first_frag r;
     flag_fc_timer_expired_once := flag_fc_timer_expired_once r;
     current_dnode := current_dnode r;
     does_not_fit_in_first_frag := does_not_fit_in_first_frag r |}.

(** [struct receiving_cntrl_blk]; [rx_data_state] is [rx_data.state]. *)
Record receiving_cntrl_blk := {
  rcmn : control_block;
  fragment : list Z;
  fragment_len : Z;
  flag_retry_frag_req_once : Z;
  fc_timer : option Z;
  rx_timer : option Z;
  rx_data_state : bool;
  recv_frag_compl_list : list bool;
  datagramData : list Z;
  cur_recvd_data_size : Z;
  current_snode : Z;
  bytes_recvd_bitmask : list Z;
  datagram_size : Z;
}.
#[export] Instance eta_rcb : EtaRecord receiving_cntrl_blk := fun r =>
  {| rcmn := rcmn r; fragment := fragment r; fragment_len := fragment_len r;
     flag_retry_frag_req_once := flag_retry_frag_req_once r; fc_timer := fc_timer r;
     rx_timer := rx_timer r; rx_data_state := rx_data_state r;
     recv_frag_compl_list := recv_frag_compl_list r; datagramData := datagramData r;
     cur_recvd_data_size := cur_recvd_data_size r; current_snode := current_snode r;
     bytes_recvd_bitmask := bytes_recvd_bitmask r; datagram_size := datagram_size r |}.

(** The callbacks given to [TS_SEND_RAW]. *)
Inductive send_cb : Set :=
| CB_NULL
| CB_ts_senddata_cb
| CB_last_frag
| CB_reply_frag_req.

(** Calls that leave the file. *)
Inductive output : Type :=
| O_send (src dst : Z) (frame : list Z) (txopt : Z) (cb : send_cb)
| O_completed (f : Z) (status : Z) (tx : Z)
| O_app (p : ts_param) (data : list Z).

Inductive fault_kind : Set := F_out_of_bounds | F_div_by_zero | F_retry_forever.

Record ts_state := {
  current_state : t2_state;
  scb : sending_cntrl_blk;
  rcb : receiving_cntrl_blk;
  flag_tie_broken : bool;
  flag_initialize_once : bool;
  FragmentMaxPayload : Z;
  t2_txBuf : list Z;
  offset_to_request : Z;
  TSApplicationCommandHandler : bool;
  trace : list output;
  fault : option fault_kind;
}.
#[export] Instance eta_ts_state : EtaRecord ts_state := fun r =>
  {| current_state := current_state r; scb := scb r; rcb := rcb r;
     flag_tie_broken := flag_tie_broken r; flag_initialize_once := flag_initialize_once r;
     FragmentMaxPayload := FragmentMaxPayload r; t2_txBuf := t2_txBuf r;
     offset_to_request := offset_to_request r;
     TSApplicationCommandHandler := TSApplicationCommandHandler r;
     trace := trace r; fault := fault r |}.

(** What the file takes from outside. *)
Record env := {
  env_send : list output -> bool;
  env_rand : list output -> Z;
  env_clock : list output -> Z;
  env_fuel : nat;
  MyNodeID : Z;
}.

(** The state at start-up: the globals are zero except where the file
    initialises them. *)
Definition scb_init : sending_cntrl_blk :=
  {| datalen_to_send := 0; missing_offset := 0; offset := 0; remaining_data_len := 0;
     scmn := control_block_zero; datagram := []; datagram_len := 0; sending := false;
     flag_replied_frag_req := false; transmission_aborted := 0; reset_timer := None;
     wait_restart_timer := None; timer_btwn_2_frags := None;
     frag_compl_list := replicate 15 false; flag_send_frag_wait := false;
     flag_reply_frag_req := false; frag_wait_p := ts_param_zero; round_trip_first_frag := 0;
     flag_fc_timer_expired_once := 0; current_dnode := 0;
     does_not_fit_in_first_frag := false |}.

Definition rcb_init : receiving_cntrl_blk :=
  {| rcmn := control_block_zero; fragment := []; fragment_len := 0;
     flag_retry_frag_req_once := 0; fc_timer := None; rx_timer := None;
     rx_data_state := false; recv_frag_compl_list := replicate 16 false;
     datagramData := replicate 200 0; cur_recvd_data_size := 0; current_snode := 0;
     bytes_recvd_bitmask := replicate 26 0; datagram_size := 0 |}.

Definition ts_init : ts_state :=
  {| current_state := ST_IDLE; scb := scb_init; rcb := rcb_init; flag_tie_broken := false;
     flag_initialize_once := true; FragmentMaxPayload := 0; t2_txBuf := replicate 54 0;
     offset_to_request := 0; TSApplicationCommandHandler := false; trace := [];
     fault := None |}.

(** ** Primitives *)

Definition raise (k : fault_kind) (st : ts_state) : ts_state :=
  st <| fault := match fault st with Some f => Some f | None => Some k end |>.

(** An access of [n] elements from index [i] of an array of [size] elements. *)
Definition access (i n size : Z) (st : ts_state) : ts_state :=
  if in_range i n size then st else raise F_out_of_bounds st.

Definition emit (o : output) (st : ts_state) : ts_state := st <| trace := o :: trace st |>.

Definition post (ev : t2_event) (st : ts_state) : ts_state :=
  st <| current_state := t2_sm_post_event (current_state st) ev |>.

(** [TS_SEND_RAW]: the outside answers whether it took the frame. *)
Definition TS_SEND_RAW (e : env) (src dst : Z) (frame : list Z) (txopt : Z) (cb : send_cb)
    (st : ts_state) : bool * ts_state :=
  let st := emit (O_send src dst frame txopt cb) st in (env_send e (trace st), st).

(** [scb.frag_compl_list[i]].  The array has 15 elements; [flag_send_frag_wait]
    is the member that follows it in the struct, so index 15 is that member. *)
Definition frag_compl_get (i : Z) (st : ts_state) : bool :=
  if i =? 15 then flag_send_frag_wait (scb st)
  else default false (frag_compl_list (scb st) !! Z.to_nat i).

Definition frag_compl_set (i : Z) (v : bool) (st : ts_state) : ts_state :=
  let st := access i 1 15 st in
  if i =? 15 then st <| scb; flag_send_frag_wait := v |>
  else st <| scb; frag_compl_list := <[Z.to_nat i := v]> (frag_compl_list (scb st)) |>.

Definition set_reset_timer (st : ts_state) : ts_state :=
  st <| scb; reset_timer := Some RESET_TIME |>.

(** Writes to [t2_txBuf]. *)
Definition txbuf_write (i : Z) (src : list Z) (st : ts_state) : ts_state :=
  let st := access i (Zlength src) TXBUF_SIZE st in
  st <| t2_txBuf := memcpy_at (t2_txBuf st) i src |>.

(** The call [if (scb.cmn.completedFunc) scb.cmn.completedFunc(status, &tx_status)]. *)
Definition call_completed (status : Z) (st : ts_state) : ts_state :=
  if truth (completedFunc (scmn (scb st))) then
    emit (O_completed (completedFunc (scmn (scb st))) status (tx_status (scmn (scb st)))) st
  else st.

(** ** Discarding a received datagram, and the reset timer *)

Definition discard_all_received_fragments (st : ts_state) : ts_state :=
  st <| rcb; datagramData := replicate 200 0 |>
     <| rcb; rcmn := control_block_zero <| session_id := 0x10 |> |>
     <| rcb; current_snode := 0 |>
     <| rcb; bytes_recvd_bitmask := replicate 26 0 |>.

Definition reset_transport_service (st : ts_state) : ts_state :=
  let st := st <| scb; reset_timer := None |> in
  let st := st <| current_state := ST_IDLE |> in
  discard_all_received_fragments st.

(** 2: idle, 1: receiving, 0: sending. *)
Definition recv_or_send (st : ts_state) : Z :=
  match current_state st with
  | ST_IDLE => 2
  | ST_RECEIVING | ST_SEND_FRAG_COMPLETE | ST_SEND_FRAG_REQ | ST_SEND_FRAG_WAIT
  | ST_FIND_MISS_FRAG => 1
  | ST_SEND_FRAG | ST_SEND_LAST_FRAG | ST_WAIT_ACK => 0
  end.

Definition ZW_TransportService_Is_Receving (st : ts_state) : bool := recv_or_send st =? 1.
Definition ZW_TransportService_Is_Sending (st : ts_state) : bool := recv_or_send st =? 0.

(** ** Sending *)

(** [add_crc]: the CRC of the first [len] bytes of [t2_txBuf] goes after them. *)
Definition add_crc (len : Z) (st : ts_state) : ts_state :=
  let crc := zgw_crc16 0x1D0F (sub_buf (t2_txBuf st) 0 len) in
  txbuf_write len [Z.land (Z.shiftr crc 8) 0xff; Z.land crc 0xff] st.

(** The loop [retry:] of [send_last_frag]: the code after [goto retry] is not
    reached, so a refused frame is offered again without end. *)
Fixpoint send_last_frag_retry (e : env) (fuel : nat) (st : ts_state) : ts_state :=
  match fuel with
  | O => raise F_retry_forever st
  | S fuel =>
      let st := st <| rcb; fc_timer := None |> in
      let st := set_reset_timer st in
      let st := st <| scb; sending := false |> in
      let st := st <| scb; scmn; pending_segments := 0 |> in
      let hdr := if does_not_fit_in_first_frag (scb st) then SIZEOF_SUBSEQ_FRAG
                 else SIZEOF_FIRST_FRAG in
      let len := hdr + datalen_to_send (scb st) - 1 in
      let p := cb_p (scmn (scb st)) in
      let st := access 0 len TXBUF_SIZE st in
      let '(ret, st) :=
        TS_SEND_RAW e (snode p) (dnode p) (sub_buf (t2_txBuf st) 0 len)
          (Z.lor (tx_flags p) TRANSMIT_OPTION_ACK) CB_last_frag st in
      if negb ret then send_last_frag_retry e fuel st
      else if (tx_flags p =? RECEIVE_STATUS_TYPE_BROAD) || (dnode p =? 0xff) then
        post EV_MISSING_FRAG_BCAST st
      else
        let st := st <| rcb; fc_timer := Some FRAGMENT_FC_TIMEOUT |> in
        post EV_SUCCESS st
  end.

Definition send_last_frag (e : env) (st : ts_state) : ts_state :=
  send_last_frag_retry e (env_fuel e) st.

(** Number of segments still to send: [a / b], rounded up. *)
Definition ceil_div (a b : Z) (st : ts_state) : Z * ts_state :=
  if b =? 0 then (0, raise F_div_by_zero st)
  else (u8 (a / b + (if truth (a mod b) then 1 else 0)), st).

Definition send_first_frag (e : env) (st : ts_state) : ts_state :=
  let sid := session_id (scmn (scb st)) in
  let sid := if sid =? 0 then env_rand e (trace st) mod 0xf else u8 (sid + 1) in
  let sid := if 0xf <? sid then 0 else sid in
  let st := st <| scb; scmn; session_id := sid |> in
  let st := frag_compl_set sid false st in
  let flags := tx_flags (cb_p (scmn (scb st))) in
  let fmp := if has flags TRANSMIT_OPTION_EXPLORE then FRAGMENTMAXPAYLOAD - 8
             else if negb (has flags TRANSMIT_OPTION_NO_ROUTE) then FRAGMENTMAXPAYLOAD - 8
             else FRAGMENTMAXPAYLOAD in
  let st := st <| FragmentMaxPayload := fmp |> in
  let len := datagram_len (scb st) in
  let st := if remaining_data_len (scb st) =? 0
            then st <| scb; remaining_data_len := len |> else st in
  let st :=
    if fmp <? len then
      st <| scb; remaining_data_len := u16 (len - fmp) |> <| scb; datalen_to_send := fmp |>
    else
      st <| scb; remaining_data_len := len |> <| scb; datalen_to_send := len |> in
  let n := datalen_to_send (scb st) in
  let st := txbuf_write 0
    [COMMAND_CLASS_TRANSPORT_SERVICE;
     Z.lor COMMAND_FIRST_FRAGMENT (Z.land (Z.shiftr len 8) 0x07);
     Z.land len 0xff;
     u8 (Z.shiftl sid 4)] st in
  let st := access 0 n (Zlength (datagram (scb st))) st in
  let st := txbuf_write FIRST_HDR_LEN (sub_buf (datagram (scb st)) 0 n) st in
  let st := add_crc (n + 4) st in
  let '(pending, st) := ceil_div (remaining_data_len (scb st)) n st in
  let st := st <| scb; scmn; pending_segments := pending |> in
  if len <=? fmp then
    let st := st <| scb; does_not_fit_in_first_frag := false |> in
    let st := post EV_SEND_LAST_FRAG st in
    send_last_frag e st
  else
    let st := set_reset_timer st in
    let p := cb_p (scmn (scb st)) in
    let flen := SIZEOF_FIRST_FRAG + n - 1 in
    let st := access 0 flen TXBUF_SIZE st in
    let '(ret, st) :=
      TS_SEND_RAW e (snode p) (dnode p) (sub_buf (t2_txBuf st) 0 flen)
        (Z.lor (tx_flags p) TRANSMIT_OPTION_ACK) CB_ts_senddata_cb st in
    if negb ret then st
    else
      let st := st <| scb; round_trip_first_frag := u16 (env_clock e (trace st)) |> in
      let st := st <| scb; sending := true |> in
      post EV_SEND_NEW_FRAG st.

Definition wait_restart_from_first (e : env) (st : ts_state) : ts_state := send_first_frag e st.

(** The header, payload and CRC of a subsequent fragment, written to [t2_txBuf]. *)
Definition put_subseq_frag (off : Z) (st : ts_state) : ts_state :=
  let len := datagram_len (scb st) in
  let sid := session_id (scmn (scb st)) in
  let n := datalen_to_send (scb st) in
  let st := txbuf_write 0
    [COMMAND_CLASS_TRANSPORT_SERVICE;
     Z.lor COMMAND_SUBSEQUENT_FRAGMENT (Z.land (Z.shiftr len 8) 0x07);
     Z.land len 0xff;
     u8 (Z.lor (Z.shiftl sid 4) (Z.land (Z.shiftr off 8) 0x07));
     Z.land off 0xff] st in
  let st := access off n (Zlength (datagram (scb st))) st in
  let st := txbuf_write SUBSEQ_HDR_LEN (sub_buf (datagram (scb st)) off n) st in
  add_crc (n + 5) st.

Definition send_subseq_frag (e : env) (st : ts_state) : ts_state :=
  let st := st <| rcb; fc_timer := None |> in
  let fmp := FragmentMaxPayload st in
  let st := if remaining_data_len (scb st) =? 0
            then st <| scb; remaining_data_len := datagram_len (scb st) |> else st in
  let remaining := remaining_data_len (scb st) in
  let st := if fmp <=? remaining then st <| scb; datalen_to_send := fmp |>
            else st <| scb; datalen_to_send := remaining |> in
  let sid := session_id (scmn (scb st)) in
  let st := access sid 1 15 st in
  if frag_compl_get sid st then st
  else
    let st := st <| scb; offset := u16 (datagram_len (scb st) - remaining) |> in
    let st := put_subseq_frag (offset (scb st)) st in
    if remaining <=? fmp then
      let st := st <| scb; does_not_fit_in_first_frag := true |> in
      let st := post EV_SEND_LAST_FRAG st in
      send_last_frag e st
    else
      let st := set_reset_timer st in
      let p := cb_p (scmn (scb st)) in
      let n := datalen_to_send (scb st) in
      let flen := SIZEOF_SUBSEQ_FRAG + n - 1 in
      let st := access 0 flen TXBUF_SIZE st in
      let '(ret, st) :=
        TS_SEND_RAW e (snode p) (dnode p) (sub_buf (t2_txBuf st) 0 flen)
          (Z.lor (tx_flags p) TRANSMIT_OPTION_ACK) CB_ts_senddata_cb st in
      let st :=
        if negb ret then st
        else
          let st := if fmp <=? remaining then st <| scb; remaining_data_len := u16 (remaining - fmp) |>
                    else st in
          let '(pending, st) := ceil_div (remaining_data_len (scb st)) n st in
          st <| scb; scmn; pending_segments := pending |> in
      post EV_SEND_NEW_FRAG st.

Definition reply_frag_req (e : env) (st : ts_state) : ts_state :=
  let sid := session_id (scmn (scb st)) in
  let st := access sid 1 15 st in
  if frag_compl_get sid st then st
  else
    let fmp := FragmentMaxPayload st in
    let len := datagram_len (scb st) in
    let off := missing_offset (scb st) in
    let n := if len <? off + fmp then u16 (len - off) else fmp in
    let st := st <| scb; datalen_to_send := n |> in
    let st := put_subseq_frag off st in
    if off + n =? len then
      let st := st <| scb; does_not_fit_in_first_frag := true |> in
      let st := post EV_SEND_LAST_MISS_FRAG st in
      let st := st <| scb; flag_replied_frag_req := true |> in
      send_last_frag e st
    else
      let st := set_reset_timer st in
      let p := cb_p (scmn (scb st)) in
      let flen := SIZEOF_SUBSEQ_FRAG + n - 1 in
      let st := access 0 flen TXBUF_SIZE st in
      let '(_, st) :=
        TS_SEND_RAW e (snode p) (dnode p) (sub_buf (t2_txBuf st) 0 flen)
          (Z.lor (tx_flags p) TRANSMIT_OPTION_ACK)
          (if sending (scb st) then CB_ts_senddata_cb else CB_reply_frag_req) st in
      let st := st <| scb; flag_replied_frag_req := true |> in
      st <| rcb; fc_timer := Some (FRAGMENT_FC_TIMEOUT + 500) |>.

Definition send_frag_wait_cmd (e : env) (st : ts_state) : ts_state :=
  let st := set_reset_timer st in
  let fw := frag_wait_p (scb st) in
  let opt := Z.lor (tx_flags fw) TRANSMIT_OPTION_ACK in
  if sending (scb st) then
    let frame := [COMMAND_CLASS_TRANSPORT_SERVICE; Z.land COMMAND_SEGMENT_WAIT_V2 0xf8;
                  pending_segments (scmn (scb st))] in
    let '(_, st) := TS_SEND_RAW e (dnode fw) (snode fw) frame opt CB_ts_senddata_cb st in
    post EV_SUCCESS2 st
  else
    let st :=
      if session_id (rcmn (rcb st)) =? 0x10 then st <| rcb; rcmn; pending_segments := 0 |>
      else
        let '(pending, st) := ceil_div (datagram_size (rcb st)) (cur_recvd_data_size (rcb st)) st in
        st <| rcb; rcmn; pending_segments := pending |> in
    let frame := [COMMAND_CLASS_TRANSPORT_SERVICE; Z.land COMMAND_SEGMENT_WAIT_V2 0xf8;
                  pending_segments (rcmn (rcb st))] in
    let '(_, st) := TS_SEND_RAW e (dnode fw) (snode fw) frame opt CB_NULL st in
    post EV_SUCCESS st.

(** Callbacks of [TS_SEND_RAW]. *)
Definition ZCB_temp_callback_last_frag (status ts : Z) (st : ts_state) : ts_state :=
  st <| scb; scmn; tx_status := ts |>.

Definition ZCB_temp_callback_reply_frag_req (status ts : Z) (st : ts_state) : ts_state :=
  let st := st <| scb; scmn; tx_status := ts |> in
  let st := if negb (status =? S2_TRANSMIT_COMPLETE_OK) then call_completed status st else st in
  post EV_SENT_MISS_FRAG st.

Definition ZCB_ts_senddata_cb (e : env) (status_send txStatus : Z) (st : ts_state) : ts_state :=
  let st := st <| scb; scmn; tx_status := txStatus |> in
  let rt := round_trip_first_frag (scb st) in
  let st := if truth rt
            then st <| scb; round_trip_first_frag :=
                         u16 (u16 (env_clock e (trace st) - rt) + 300) |>
            else st in
  if flag_reply_frag_req (scb st) then
    let st := st <| scb; flag_reply_frag_req := false |> in
    reply_frag_req e st
  else if flag_send_frag_wait (scb st) then
    let st := st <| scb; flag_send_frag_wait := false |> in
    send_frag_wait_cmd e st
  else
    let st :=
      if transmission_aborted (scb st) =? session_id (scmn (scb st)) then
        st <| scb; timer_btwn_2_frags := None |>
      else st <| scb; timer_btwn_2_frags := Some (15 + round_trip_first_frag (scb st)) |> in
    st <| scb; round_trip_first_frag := 0 |>.

(** [fc_timer_expired]. *)
Definition fc_timer_expired (e : env) (st : ts_state) : ts_state :=
  if flag_replied_frag_req (scb st) then
    let st := st <| scb; transmission_aborted := session_id (scmn (scb st)) |>
                 <| scb; flag_replied_frag_req := false |>
                 <| scb; current_dnode := 0 |> in
    let st := post EV_FRAG_COMPL_TIMER_REQ st in
    call_completed S2_TRANSMIT_COMPLETE_FAIL st
  else if transmission_aborted (scb st) =? session_id (scmn (scb st)) then
    call_completed S2_TRANSMIT_COMPLETE_FAIL st
  else if truth (flag_fc_timer_expired_once (scb st)) then
    let st := st <| scb; flag_fc_timer_expired_once := 0 |> <| scb; current_dnode := 0 |> in
    let st := call_completed S2_TRANSMIT_COMPLETE_FAIL st in
    post EV_FRAG_COMPL_TIMER2 st
  else
    let st := post EV_FRAG_COMPL_TIMER st in
    let st := st <| scb; flag_fc_timer_expired_once :=
                      u8 (flag_fc_timer_expired_once (scb st) + 1) |> in
    send_last_frag e st.

(** [ZW_TransportService_SendData]: refused while another session is under way. *)
Definition ZW_TransportService_SendData (e : env) (p : ts_param) (pData : list Z)
    (dataLength : Z) (f : Z) (st : ts_state) : bool * ts_state :=
  let st := set_reset_timer st in
  if ZW_TransportService_Is_Sending st then
    (false, emit (O_completed f S2_TRANSMIT_COMPLETE_FAIL 0) st)
  else if ZW_TransportService_Is_Receving st then
    (false, emit (O_completed f S2_TRANSMIT_COMPLETE_FAIL 0) st)
  else
    let st := st <| scb; datagram := pData |>
                 <| scb; scmn; cb_p := p |>
                 <| scb; datagram_len := dataLength |>
                 <| scb; scmn; completedFunc := f |>
                 <| scb; scmn; tx_status := 0 |>
                 <| scb; sending := false |>
                 <| scb; flag_replied_frag_req := false |>
                 <| scb; transmission_aborted := 0x11 |>
                 <| scb; flag_send_frag_wait := false |>
                 <| scb; flag_reply_frag_req := false |>
                 <| scb; round_trip_first_frag := 0 |>
                 <| scb; flag_fc_timer_expired_once := 0 |>
                 <| scb; remaining_data_len := 0 |>
                 <| scb; current_dnode := dnode p |> in
    let st := match current_state st with
              | ST_IDLE => post EV_START_SEND st
              | ST_SEND_FRAG => post EV_SEND_NEW_FRAG st
              | _ => st
              end in
    (true, send_first_frag e st).

(** ** Receiving *)

(** [rcb.bytes_recvd_bitmask[i / 8] & (1 << (i % 8))] *)
Definition bit_received (mask : list Z) (i : Z) : bool :=
  has (rd mask (i / 8)) (Z.shiftl 1 (i mod 8)).

Definition mark_bit (mask : list Z) (i : Z) : list Z :=
  wr mask (i / 8) (u8 (Z.lor (rd mask (i / 8)) (Z.shiftl 1 (i mod 8)))).

(** The loop of [mark_frag_received] from [i], [n] bytes before its bound. *)
Fixpoint mark_loop (n : nat) (i : Z) (st : ts_state) : ts_state :=
  match n with
  | O => st
  | S n =>
      let st := access (i / 8) 1 BITMASK_SIZE st in
      let st := st <| rcb; bytes_recvd_bitmask := mark_bit (bytes_recvd_bitmask (rcb st)) i |> in
      if DATAGRAM_SIZE_MAX <? i then st else mark_loop n (i + 1) st
  end.

(** Asks for a wait, now or from the next send callback. *)
Definition request_frag_wait (e : env) (st : ts_state) : ts_state :=
  if sending (scb st) then st <| scb; flag_send_frag_wait := true |>
  else send_frag_wait_cmd e st.

Definition mark_frag_received (e : env) (off size : Z) (st : ts_state) : bool * ts_state :=
  if negb (off =? 0) && negb (has (rd (bytes_recvd_bitmask (rcb st)) 0) 1) then
    let st := post EV_SUBSEQ_DIFF_SESSION st in
    (true, request_frag_wait e st)
  else (false, mark_loop (Z.to_nat size) off st).

(** [get_next_missing_offset]: the first byte of the mask, after byte 0, that
    has not been received; 0 when that is not a byte of the datagram. *)
Fixpoint next_missing_loop (n : nat) (i : Z) (mask : list Z) (size : Z) : Z :=
  match n with
  | O => 0
  | S n =>
      if negb (bit_received mask i) then
        if i =? 0 then next_missing_loop n (i + 1) mask size
        else if size <=? i then 0 else i
      else next_missing_loop n (i + 1) mask size
  end.

Definition get_next_missing_offset (st : ts_state) : Z :=
  next_missing_loop (Z.to_nat (BITMASK_SIZE * 8)) 0 (bytes_recvd_bitmask (rcb st))
    (datagram_size (rcb st)).

(** What [ZIPCommandHandler] hands to the application. *)
Definition ZIPCommandHandler (srcNode count : Z) (st : ts_state) : ts_state :=
  if TSApplicationCommandHandler st then
    let p := {| snode := srcNode; dnode := dnode (cb_p (rcmn (rcb st))); sendpoint := 0;
                dendpoint := 0;
                tx_flags := Z.lor (Z.lor TRANSMIT_OPTION_ACK TRANSMIT_OPTION_AUTO_ROUTE)
                              TRANSMIT_OPTION_EXPLORE;
                rx_flags := 0; scheme := NO_SCHEME |} in
    let st := access 0 count DATAGRAM_SIZE_MAX st in
    emit (O_app p (sub_buf (datagramData (rcb st)) 0 count)) st
  else st.

Definition send_frag_complete_cmd (e : env) (st : ts_state) : ts_state :=
  let sid := session_id (rcmn (rcb st)) in
  if 0x0f <? sid then st
  else
    let frame := [COMMAND_CLASS_TRANSPORT_SERVICE; Z.land COMMAND_SEGMENT_COMPLETE_V2 0xf8;
                  u8 (Z.shiftl sid 4)] in
    let st := set_reset_timer st in
    let p := cb_p (rcmn (rcb st)) in
    let '(_, st) := TS_SEND_RAW e (dnode p) (snode p) frame
                      (Z.lor (tx_flags p) TRANSMIT_OPTION_ACK) CB_NULL st in
    let st := ZIPCommandHandler (snode p) (datagram_size (rcb st)) st in
    let st := access sid 1 16 st in
    let st := st <| rcb; recv_frag_compl_list :=
                      <[Z.to_nat sid := true]> (recv_frag_compl_list (rcb st)) |>
                 <| rcb; rcmn; session_id := 0x10 |>
                 <| rcb; current_snode := 0 |>
                 <| rcb; rx_timer := None |> in
    post EV_SUCCESS st.

(** The loop [retry:] of [send_frag_req_cmd]; [n] is the number of retries
    [flag_retry_frag_req_once] still allows. *)
Fixpoint send_frag_req_retry (e : env) (n : nat) (st : ts_state) : ts_state :=
  let st := set_reset_timer st in
  let p := cb_p (rcmn (rcb st)) in
  let '(ret1, st) := TS_SEND_RAW e (dnode p) (snode p) (sub_buf (t2_txBuf st) 0 4)
                       (Z.lor (tx_flags p) TRANSMIT_OPTION_ACK) CB_NULL st in
  match n with
  | O => st
  | S n =>
      if negb ret1 then
        let st := st <| rcb; flag_retry_frag_req_once :=
                          flag_retry_frag_req_once (rcb st) - 1 |> in
        send_frag_req_retry e n st
      else st
  end.

Definition send_frag_req_cmd (e : env) (st : ts_state) : ts_state :=
  let off := get_next_missing_offset st in
  let st := st <| offset_to_request := off |> in
  if off =? 0 then post EV_SUCCESS st
  else
    let sid := session_id (rcmn (rcb st)) in
    if 0x0f <? sid then st
    else
      let st := txbuf_write 0
        [COMMAND_CLASS_TRANSPORT_SERVICE; Z.land COMMAND_SEGMENT_REQUEST_V2 0xf8;
         Z.lor (u8 (Z.shiftl sid 4)) (Z.shiftr (Z.land off 0x700) 8);
         Z.land off 0xff] st in
      let st := send_frag_req_retry e (Z.to_nat (flag_retry_frag_req_once (rcb st))) st in
      let st := st <| rcb; rx_data_state := true |> in
      let st := post EV_SUCCESS st in
      st <| rcb; rx_timer := Some FRAGMENT_RX_TIMEOUT |>.

(** [find_missing] keeps the offset in a [uint8_t]. *)
Definition find_missing (e : env) (st : ts_state) : ts_state :=
  let missing_frag := u8 (get_next_missing_offset st) in
  let bcast := rx_flags (cb_p (rcmn (rcb st))) =? RECEIVE_STATUS_TYPE_BROAD in
  if truth missing_frag then
    if bcast then discard_all_received_fragments st
    else send_frag_req_cmd e (post EV_MISSING_FRAG st)
  else if bcast then st
  else send_frag_complete_cmd e (post EV_SEND_FRAG_COMPLETE st).

Definition rx_timer_expired (e : env) (st : ts_state) : ts_state :=
  let state := rx_data_state (rcb st) in
  let st := st <| rcb; rx_timer := None |> in
  let st := post EV_FRAG_RX_TIMER st in
  if state && truth (get_next_missing_offset st) then discard_all_received_fragments st
  else find_missing e st.

(** [if (flag_tie_broken) scb.transmission_aborted = scb.cmn.session_id;] *)
Definition abort_if_tie_broken (st : ts_state) : ts_state :=
  if flag_tie_broken st
  then st <| scb; transmission_aborted := session_id (scmn (scb st)) |> else st.

(** The case [COMMAND_FIRST_FRAGMENT] of [receive]. *)
Definition receive_first (e : env) (byte1 byte2 byte3 : Z) (st : ts_state) : ts_state :=
  let st := abort_if_tie_broken st in
  let flen := fragment_len (rcb st) in
  if flen <=? FIRST_FRAG_NONPAYLOAD_LENGTH then post EV_RECV_NEW_FRAG st
  else
    let st := access 0 flen (Zlength (fragment (rcb st))) st in
    if negb (zgw_crc16 0x1D0F (sub_buf (fragment (rcb st)) 0 flen) =? 0) then
      post EV_RECV_NEW_FRAG st
    else
      let recvd_session_id := Z.shiftr (Z.land byte3 0xf0) 4 in
      let cur := session_id (rcmn (rcb st)) in
      if negb (recvd_session_id =? cur) && negb (cur =? 0x10) then post EV_DIFF_SESSION st
      else
        let size := Z.shiftl (Z.land byte1 0x07) 8 + byte2 in
        if DATAGRAM_SIZE_MAX <? size then post EV_DIFF_SESSION st
        else
          let st := st <| rcb; rx_timer := Some FRAGMENT_RX_TIMEOUT |> in
          let st := access recvd_session_id 1 16 st in
          let st := st <| rcb; rcmn; session_id := recvd_session_id |>
                       <| rcb; recv_frag_compl_list :=
                            <[Z.to_nat recvd_session_id := false]> (recv_frag_compl_list (rcb st)) |>
                       <| rcb; cur_recvd_data_size := u8 (flen - FIRST_FRAG_NONPAYLOAD_LENGTH) |>
                       <| rcb; datagram_size := size |>
                       <| rcb; bytes_recvd_bitmask := replicate 26 0 |> in
          let st := st <| rcb; current_snode := snode (cb_p (rcmn (rcb st))) |> in
          let n := cur_recvd_data_size (rcb st) in
          let st := access 0 n DATAGRAM_SIZE_MAX st in
          let st := st <| rcb; datagramData :=
                            memcpy_at (datagramData (rcb st)) 0
                              (sub_buf (fragment (rcb st)) FIRST_HDR_LEN n) |> in
          let '(stop, st) := mark_frag_received e 0 n st in
          if stop then st
          else if n =? datagram_size (rcb st) then
            send_frag_complete_cmd e (post EV_SEND_FRAG_COMPLETE st)
          else st <| rcb; rx_data_state := false |>.

(** The case [COMMAND_SUBSEQUENT_FRAGMENT] of [receive]. *)
Definition receive_subseq (e : env) (byte1 byte2 byte3 byte4 : Z) (st : ts_state) : ts_state :=
  let st := abort_if_tie_broken st in
  let flen := fragment_len (rcb st) in
  if flen <=? SUBSEQ_FRAG_NONPAYLOAD_LENGTH then post EV_RECV_NEW_FRAG st
  else
    let st := access 0 flen (Zlength (fragment (rcb st))) st in
    if negb (zgw_crc16 0x1D0F (sub_buf (fragment (rcb st)) 0 flen) =? 0) then
      post EV_RECV_NEW_FRAG st
    else
      let recvd_session_id := Z.shiftr (Z.land byte3 0xf0) 4 in
      if default false (recv_frag_compl_list (rcb st) !! Z.to_nat recvd_session_id) then
        if decide (current_state st = ST_RECEIVING) then post EV_DUPL_FRAME st else st
      else
        let cur := session_id (rcmn (rcb st)) in
        if negb (recvd_session_id =? cur) && negb (cur =? 0x10) then post EV_DIFF_SESSION st
        else
          let off := Z.shiftl (Z.land byte3 0x07) 8 + byte4 in
          let st := st <| rcb; cur_recvd_data_size := u8 (flen - SUBSEQ_FRAG_NONPAYLOAD_LENGTH) |> in
          let n := cur_recvd_data_size (rcb st) in
          if DATAGRAM_SIZE_MAX <? off + n then
            if decide (current_state st = ST_RECEIVING) then post EV_DUPL_FRAME st else st
          else
            let size := Z.shiftl (Z.land byte1 0x07) 8 + byte2 in
            if DATAGRAM_SIZE_MAX <? size then post EV_DIFF_SESSION st
            else
              let st := st <| rcb; rx_timer := Some FRAGMENT_RX_TIMEOUT |> in
              let '(stop, st) := mark_frag_received e off n st in
              if stop then st
              else
                let st := st <| rcb; datagram_size := size |> in
                let st := access off n DATAGRAM_SIZE_MAX st in
                let st := st <| rcb; datagramData :=
                                  memcpy_at (datagramData (rcb st)) off
                                    (sub_buf (fragment (rcb st)) SUBSEQ_HDR_LEN n) |> in
                if size <=? off + n then find_missing e (post EV_RECV_LAST_FRAG st)
                else st <| rcb; rx_data_state := false |>.

(** The case [COMMAND_SEGMENT_REQUEST_V2] of [receive]. *)
Definition receive_segment_request (e : env) (byte2 byte3 : Z) (st : ts_state) : ts_state :=
  let st := post EV_FRAG_REQ_OR_COMPL st in
  let recvd_session_id := Z.shiftr (Z.land byte2 0xf0) 4 in
  if recvd_session_id =? transmission_aborted (scb st) then
    post EV_FRAG_REQ_COMPL_WAIT_DIFF_SESSION st
  else if negb (recvd_session_id =? session_id (scmn (scb st))) then
    post EV_FRAG_REQ_COMPL_WAIT_DIFF_SESSION st
  else if negb (snode (cb_p (rcmn (rcb st))) =? current_dnode (scb st))
          && negb (current_snode (rcb st) =? 0) then
    post EV_FRAG_REQ_COMPL_WAIT_DIFF_NODE st
  else
    let st := st <| rcb; fc_timer := None |>
                 <| scb; missing_offset := Z.lor (Z.shiftl (Z.land byte2 0x7) 8) byte3 |> in
    let st := post EV_RECV_FRAG_REQ st in
    if sending (scb st) then st <| scb; flag_reply_frag_req := true |>
    else reply_frag_req e st.

(** The case [COMMAND_SEGMENT_COMPLETE_V2] of [receive]. *)
Definition receive_segment_complete (e : env) (byte2 : Z) (st : ts_state) : ts_state :=
  let st := post EV_FRAG_REQ_OR_COMPL st in
  let recvd_session_id := Z.shiftr (Z.land byte2 0xf0) 4 in
  if recvd_session_id =? transmission_aborted (scb st) then
    post EV_FRAG_REQ_COMPL_WAIT_DIFF_SESSION st
  else if negb (recvd_session_id =? session_id (scmn (scb st))) then
    post EV_FRAG_REQ_COMPL_WAIT_DIFF_SESSION st
  else if negb (snode (cb_p (rcmn (rcb st))) =? current_dnode (scb st))
          && negb (current_snode (rcb st) =? 0) then
    post EV_FRAG_REQ_COMPL_WAIT_DIFF_NODE st
  else
    let st := st <| rcb; fc_timer := None |> in
    let st :=
      if session_id (scmn (scb st)) =? recvd_session_id then
        let st := frag_compl_set recvd_session_id true st in
        let st := st <| scb; current_dnode := 0 |> in
        call_completed S2_TRANSMIT_COMPLETE_OK st
      else st in
    post EV_RECV_FRAG_COMPL st.

(** The case [COMMAND_SEGMENT_WAIT_V2] of [receive]. *)
Definition receive_segment_wait (e : env) (byte2 : Z) (st : ts_state) : ts_state :=
  let sid := session_id (scmn (scb st)) in
  let st := access sid 1 15 st in
  if frag_compl_get sid st then post EV_DUPL_FRAME st
  else
    let st := post EV_RECV_FRAG_WAIT st in
    let st := st <| scb; transmission_aborted := session_id (scmn (scb st)) |> in
    let st := ZCB_ts_senddata_cb e S2_TRANSMIT_COMPLETE_FAIL 0 st in
    let st := st <| rcb; rcmn; pending_segments := byte2 |> in
    st <| scb; wait_restart_timer := Some (100 + 100 * pending_segments (rcmn (rcb st))) |>.

Definition receive (e : env) (st : ts_state) : ts_state :=
  let frag := fragment (rcb st) in
  let st := access 0 5 (Zlength frag) st in
  let byte1 := rd frag 1 in
  let byte2 := rd frag 2 in
  let byte3 := rd frag 3 in
  let byte4 := rd frag 4 in
  if negb (rd frag 0 =? COMMAND_CLASS_TRANSPORT_SERVICE) then st
  else
    let cmd := Z.land byte1 0xf8 in
    if cmd =? COMMAND_FIRST_FRAGMENT then receive_first e byte1 byte2 byte3 st
    else if cmd =? COMMAND_SUBSEQUENT_FRAGMENT then receive_subseq e byte1 byte2 byte3 byte4 st
    else if cmd =? COMMAND_SEGMENT_REQUEST_V2 then receive_segment_request e byte2 byte3 st
    else if cmd =? COMMAND_SEGMENT_COMPLETE_V2 then receive_segment_complete e byte2 st
    else if cmd =? COMMAND_SEGMENT_WAIT_V2 then receive_segment_wait e byte2 st
    else st.

Definition ZW_TransportService_Init (st : ts_state) : ts_state :=
  st <| TSApplicationCommandHandler := true |>.

(** The block [if (flag_initialize_once)]. *)
Definition initialize_once (st : ts_state) : ts_state :=
  if flag_initialize_once st then
    st <| flag_initialize_once := false |>
       <| rcb; rcmn := control_block_zero <| session_id := 0x10 |> |>
       <| rcb; flag_retry_frag_req_once := 1 |>
       <| rcb; cur_recvd_data_size := 0 |>
       <| rcb; current_snode := 0 |>
       <| rcb; datagramData := replicate 200 0 |>
       <| rcb; bytes_recvd_bitmask := replicate 26 0 |>
  else st.

(** [TransportService_ApplicationCommandHandler]: [pCmd] is the memory the
    command pointer gives access to, [cmdLength] the length of the command. *)
Definition TransportService_ApplicationCommandHandler (e : env) (p : ts_param)
    (pCmd : list Z) (cmdLength : Z) (st : ts_state) : ts_state :=
  let st := set_reset_timer st in
  let st :=
    if ZW_TransportService_Is_Sending st && (dnode (cb_p (scmn (scb st))) =? snode p)
       && (MyNodeID e <? snode p)
    then post EV_TIE_BREAK st <| flag_tie_broken := true |>
    else st in
  if snode p =? dnode p then st
  else if DATAGRAM_SIZE_MAX <? cmdLength then st
  else
    let st := st <| scb; frag_wait_p := p |> in
    let third_node :=
      (negb (snode p =? current_snode (rcb st)) && truth (current_snode (rcb st))) ||
      (negb (snode p =? current_dnode (scb st)) && truth (current_dnode (scb st))) in
    if third_node && (rx_flags p =? RECEIVE_STATUS_TYPE_SINGLE) then
      if decide (current_state st = ST_SEND_FRAG_WAIT) then st
      else request_frag_wait e (post EV_SCAST_DIFF_NODE st)
    else if third_node && (rx_flags p =? RECEIVE_STATUS_TYPE_BROAD) then
      post EV_BCAST_DIFF_NODE st
    else
      let st := access 1 1 (Zlength pCmd) st in
      let cmd_type := Z.land (rd pCmd 1) 0xf8 in
      if (session_id (rcmn (rcb st)) =? 0x10) && (cmd_type =? COMMAND_SUBSEQUENT_FRAGMENT) then
        let st := access 1 2 (Zlength pCmd) st in
        let size := Z.shiftl (Z.land (rd pCmd 1) 0x07) 8 + rd pCmd 2 in
        if DATAGRAM_SIZE_MAX <? size then post EV_DIFF_SESSION st
        else request_frag_wait e (post EV_SUBSEQ_DIFF_SESSION st)
      else
        let st := match current_state st with
                  | ST_IDLE => post EV_START_RECV st
                  | ST_RECEIVING => post EV_RECV_NEW_FRAG st
                  | _ => st
                  end in
        let st := initialize_once st in
        let st := st <| rcb; fragment := pCmd |>
                     <| rcb; rcmn; cb_p := p |>
                     <| rcb; fragment_len := cmdLength |> in
        receive e st.

(** ** Steps of the service

    What can happen to the module: a request to send, a received command, the
    callback of a frame handed to [TS_SEND_RAW], or a timer that fires. *)

Inductive ts_event : Type :=
| E_send (p : ts_param) (data : list Z) (len f : Z)
| E_recv (p : ts_param) (cmd : list Z) (len : Z)
| E_send_cb (cb : send_cb) (status ts : Z)
| E_reset_timer
| E_wait_restart_timer
| E_timer_btwn_2_frags
| E_fc_timer
| E_rx_timer.

(** A timer that fires has been taken off the timer list; [None] when it was
    not running. *)
Definition fire (running : option Z) (clear run : ts_state -> ts_state) (st : ts_state) :
    option ts_state :=
  match running with Some _ => Some (run (clear st)) | None => None end.

Definition ts_step (e : env) (ev : ts_event) (st : ts_state) : option ts_state :=
  match ev with
  | E_send p data len f => Some (ZW_TransportService_SendData e p data len f st).2
  | E_recv p cmd len => Some (TransportService_ApplicationCommandHandler e p cmd len st)
  | E_send_cb CB_NULL _ _ => Some st
  | E_send_cb CB_ts_senddata_cb status ts => Some (ZCB_ts_senddata_cb e status ts st)
  | E_send_cb CB_last_frag status ts => Some (ZCB_temp_callback_last_frag status ts st)
  | E_send_cb CB_reply_frag_req status ts => Some (ZCB_temp_callback_reply_frag_req status ts st)
  | E_reset_timer =>
      fire (reset_timer (scb st)) (fun st => st <| scb; reset_timer := None |>)
        reset_transport_service st
  | E_wait_restart_timer =>
      fire (wait_restart_timer (scb st)) (fun st => st <| scb; wait_restart_timer := None |>)
        (wait_restart_from_first e) st
  | E_timer_btwn_2_frags =>
      fire (timer_btwn_2_frags (scb st)) (fun st => st <| scb; timer_btwn_2_frags := None |>)
        (send_subseq_frag e) st
  | E_fc_timer =>
      fire (fc_timer (rcb st)) (fun st => st <| rcb; fc_timer := None |>)
        (fc_timer_expired e) st
  | E_rx_timer =>
      fire (rx_timer (rcb st)) (fun st => st <| rcb; rx_timer := None |>)
        (rx_timer_expired e) st
  end.

Fixpoint ts_run (e : env) (evs : list ts_event) (st : ts_state) : option ts_state :=
  match evs with
  | [] => Some st
  | ev :: evs => match ts_step e ev st with Some st => ts_run e evs st | None => None end
  end.

Lemma ts_run_app e evs1 evs2 st :
  ts_run e (evs1 ++ evs2) st =
  match ts_run e evs1 st with Some st => ts_run e evs2 st | None => None end.
Proof.
  revert st. induction evs1 as [|ev evs1 IH]; intros st; simpl; [done|].
  by destruct (ts_step e ev st).
Qed.
