(* ===== verification/TransportMask.v ===== *)
(** * Transport Service v2: the received-bytes bitmask and the frame formats

    Facts about [mark_frag_received] and [get_next_missing_offset] of
    transport_service2.c as operations on the set of received offsets, and the
    frames of a datagram as pure functions, which the sender and the receiver
    are compared with. *)

From S2P Require Import Prelude Crc TransportFsm TransportService.

#[local] Open Scope Z_scope.
#[local] Open Scope zgw_scope.

(** ** Bits of the mask *)

(** A mask is [BITMASK_SIZE] bytes. *)
Definition mask_ok (mask : list Z) : Prop := length mask = 26%nat /\ bytes mask.

Lemma mask_ok_zero : mask_ok (replicate 26 0).
Proof. split; [done|]. apply Forall_replicate. unfold byte. lia. Qed.

Lemma bit_received_testbit mask i : bit_received mask i = Z.testbit (rd mask (i / 8)) (i mod 8).
Proof.
  unfold bit_received. rewrite Z.shiftl_1_l. apply has_pow2.
  apply Z.mod_pos_bound. lia.
Qed.

Lemma div8_range i : 0 <= i < 208 -> 0 <= i / 8 < 26 /\ 0 <= i mod 8 < 8.
Proof. intros Hi. Z.to_euclidean_division_equations. lia. Qed.

Lemma bit_received_zero i : bit_received (replicate 26 0) i = false.
Proof.
  rewrite bit_received_testbit. unfold rd.
  destruct (replicate 26 0 !! Z.to_nat (i / 8)) as [x|] eqn:E; simpl.
  - apply lookup_replicate in E as [-> _]. apply Z.testbit_0_l.
  - apply Z.testbit_0_l.
Qed.

Lemma mark_bit_value x k : byte x -> 0 <= k < 8 ->
  byte (Z.lor x (Z.shiftl 1 k)) /\ u8 (Z.lor x (Z.shiftl 1 k)) = Z.lor x (Z.shiftl 1 k).
Proof.
  intros Hx Hk. assert (byte (Z.lor x (Z.shiftl 1 k))) as Hb.
  { apply (lor_bound 8); [lia|done|]. rewrite Z.shiftl_1_l. split.
    - apply Z.pow_nonneg. lia.
    - apply Z.pow_lt_mono_r; lia. }
  split; [done|]. by apply u8_id.
Qed.

Lemma mask_ok_mark mask i : mask_ok mask -> 0 <= i < 208 -> mask_ok (mark_bit mask i).
Proof.
  intros [Hl Hb] Hi. unfold mark_bit, wr. split; [by rewrite length_insert|].
  apply Forall_insert; [done|]. apply u8_byte.
Qed.

Lemma bit_received_mark mask i j : mask_ok mask -> 0 <= i < 208 -> 0 <= j < 208 ->
  bit_received (mark_bit mask i) j = (i =? j) || bit_received mask j.
Proof.
  intros [Hl Hb] Hi Hj. rewrite !bit_received_testbit.
  pose proof (div8_range i Hi) as [Hi1 Hi2]. pose proof (div8_range j Hj) as [Hj1 Hj2].
  unfold mark_bit, wr. unfold rd at 1.
  destruct (Z.eq_dec (i / 8) (j / 8)) as [Heq|Hne].
  - rewrite Heq, list_lookup_insert_eq by lia. simpl.
    destruct (mark_bit_value (rd mask (j / 8)) (i mod 8)) as [_ ->]; [by apply rd_byte|done|].
    rewrite Z.lor_spec, Z.shiftl_1_l, Z.pow2_bits_eqb by lia.
    rewrite orb_comm. f_equal. apply eq_iff_eq_true. rewrite !Z.eqb_eq.
    split; intros H; [|by rewrite H].
    rewrite (Z.div_mod i 8), (Z.div_mod j 8) by lia. congruence.
  - rewrite list_lookup_insert_ne by lia.
    assert (i <> j) by congruence. by rewrite (proj2 (Z.eqb_neq i j)).
Qed.

(** The offsets a fragment marks. *)
Fixpoint mark_range (n : nat) (i : Z) (mask : list Z) : list Z :=
  match n with O => mask | S n => mark_range n (i + 1) (mark_bit mask i) end.

Lemma mark_range_ok n i mask :
  mask_ok mask -> 0 <= i -> i + Z.of_nat n <= 200 -> mask_ok (mark_range n i mask).
Proof.
  revert i mask. induction n as [|n IH]; intros i mask Hm Hi Hn; simpl; [done|].
  apply IH; [|lia..]. apply mask_ok_mark; [done|lia].
Qed.

Lemma bit_received_range n i mask j :
  mask_ok mask -> 0 <= i -> i + Z.of_nat n <= 200 -> 0 <= j < 208 ->
  bit_received (mark_range n i mask) j =
  ((i <=? j) && (j <? i + Z.of_nat n)) || bit_received mask j.
Proof.
  revert i mask. induction n as [|n IH]; intros i mask Hm Hi Hn Hj; cbn [mark_range].
  - by assert ((i <=? j) && (j <? i + Z.of_nat 0) = false) as -> by lia.
  - rewrite IH; [|apply mask_ok_mark; [done|lia]|lia..|done].
    rewrite bit_received_mark by first [done|lia].
    rewrite orb_assoc. f_equal. apply eq_iff_eq_true.
    rewrite orb_true_iff, !andb_true_iff, !Z.leb_le, !Z.ltb_lt, Z.eqb_eq. lia.
Qed.

Lemma mark_loop_range n i st :
  0 <= i -> i + Z.of_nat n <= 200 ->
  mark_loop n i st =
  st <| rcb; bytes_recvd_bitmask := mark_range n i (bytes_recvd_bitmask (rcb st)) |>.
Proof.
  revert i st. induction n as [|n IH]; intros i st Hi Hn.
  - simpl. by destruct st as [? ? []].
  - cbn [mark_loop mark_range].
    assert (in_range (i / 8) 1 BITMASK_SIZE = true) as Hr.
    { assert (0 <= i / 8 < 26) by (apply div8_range; lia).
      unfold in_range. apply andb_true_iff; split; [apply andb_true_iff; split|];
        apply Z.leb_le; change BITMASK_SIZE with 26; lia. }
    unfold access. rewrite Hr.
    assert ((DATAGRAM_SIZE_MAX <? i) = false) as -> by (apply Z.ltb_ge; unfold DATAGRAM_SIZE_MAX; lia).
    rewrite IH by lia. done.
Qed.

(** ** The first missing offset *)

Lemma next_missing_loop_spec n i mask size :
  0 <= i -> i + Z.of_nat n = 208 -> 0 <= size <= 200 ->
  let r := next_missing_loop n i mask size in
  (r = 0 /\ forall j, Z.max i 1 <= j < size -> bit_received mask j = true) \/
  (Z.max i 1 <= r < size /\ bit_received mask r = false /\
   forall j, Z.max i 1 <= j < r -> bit_received mask j = true).
Proof.
  revert i. induction n as [|n IH]; intros i Hi Hn Hs; simpl.
  - left. split; [done|]. lia.
  - assert (IH' := IH (i + 1) ltac:(lia) ltac:(lia) Hs). cbv zeta in IH'.
    destruct (bit_received mask i) eqn:Eb; simpl.
    + destruct IH' as [[-> Hall]|(Hr & Hb & Hall)]; [left|right].
      * split; [done|]. intros j Hj. destruct (Z.eq_dec j i) as [->|]; [done|]. apply Hall. lia.
      * split_and!; [lia..|done|]. intros j Hj. destruct (Z.eq_dec j i) as [->|]; [done|].
        apply Hall. lia.
    + destruct (Z.eqb_spec i 0) as [->|].
      * destruct IH' as [[-> Hall]|(Hr & Hb & Hall)]; [left|right].
        -- split; [done|]. intros j Hj. apply Hall. lia.
        -- split_and!; [lia..|done|]. intros j Hj. apply Hall. lia.
      * destruct (Z.leb_spec size i); [left; split; [done|lia]|].
        right. split_and!; [lia..|done|lia].
Qed.

(** [get_next_missing_offset] answers 0 exactly when the bytes 1, 2, ... of the
    datagram are there, and otherwise the first one that is not. *)
Lemma get_next_missing_offset_spec st :
  0 <= datagram_size (rcb st) <= 200 ->
  let mask := bytes_recvd_bitmask (rcb st) in
  let r := get_next_missing_offset st in
  (r = 0 /\ forall j, 1 <= j < datagram_size (rcb st) -> bit_received mask j = true) \/
  (1 <= r < datagram_size (rcb st) /\ bit_received mask r = false /\
   forall j, 1 <= j < r -> bit_received mask j = true).
Proof. intros Hs. apply (next_missing_loop_spec 208 0); [lia|done|done]. Qed.

(** ** Frames *)

(** A frame followed by its CRC, most significant byte first. *)
Definition with_crc (b : list Z) : list Z :=
  let crc := zgw_crc16 0x1D0F b in
  b ++ [Z.land (Z.shiftr crc 8) 0xff; Z.land crc 0xff].

Definition first_hdr (sid size : Z) : list Z :=
  [COMMAND_CLASS_TRANSPORT_SERVICE;
   Z.lor COMMAND_FIRST_FRAGMENT (Z.land (Z.shiftr size 8) 0x07);
   Z.land size 0xff;
   u8 (Z.shiftl sid 4)].

Definition subseq_hdr (sid size off : Z) : list Z :=
  [COMMAND_CLASS_TRANSPORT_SERVICE;
   Z.lor COMMAND_SUBSEQUENT_FRAGMENT (Z.land (Z.shiftr size 8) 0x07);
   Z.land size 0xff;
   u8 (Z.lor (Z.shiftl sid 4) (Z.land (Z.shiftr off 8) 0x07));
   Z.land off 0xff].

(** The first fragment of a datagram of [size] bytes, and the one with the
    bytes from [off] on. *)
Definition first_frame (sid size : Z) (payload : list Z) : list Z :=
  with_crc (first_hdr sid size ++ payload).

Definition subseq_frame (sid size off : Z) (payload : list Z) : list Z :=
  with_crc (subseq_hdr sid size off ++ payload).

Definition complete_frame (sid : Z) : list Z :=
  [COMMAND_CLASS_TRANSPORT_SERVICE; Z.land COMMAND_SEGMENT_COMPLETE_V2 0xf8; u8 (Z.shiftl sid 4)].

Definition request_frame (sid off : Z) : list Z :=
  [COMMAND_CLASS_TRANSPORT_SERVICE; Z.land COMMAND_SEGMENT_REQUEST_V2 0xf8;
   Z.lor (u8 (Z.shiftl sid 4)) (Z.shiftr (Z.land off 0x700) 8); Z.land off 0xff].

Lemma with_crc_residue b : bytes b -> zgw_crc16 0x1D0F (with_crc b) = 0.
Proof.
  intros Hb. unfold with_crc.
  assert (word16 0x1D0F) as Hi by (unfold word16; lia).
  set (crc := zgw_crc16 0x1D0F b).
  assert (word16 crc) as Hc by by apply zgw_crc16_word.
  assert (Z.land (Z.shiftr crc 8) 0xff = Z.shiftr crc 8) as ->.
  { destruct (word16_split crc Hc) as (_ & Hhi & _). change 0xff with (Z.ones 8).
    rewrite Z.land_ones by lia. by apply u8_id. }
  by apply crc16_append_residue.
Qed.

Lemma length_with_crc b : length (with_crc b) = (length b + 2)%nat.
Proof. unfold with_crc. by rewrite length_app. Qed.

(** The receiver's reading of the header fields. *)
Lemma size_decode c size : c = COMMAND_FIRST_FRAGMENT \/ c = COMMAND_SUBSEQUENT_FRAGMENT ->
  0 <= size <= 200 ->
  let b1 := Z.lor c (Z.land (Z.shiftr size 8) 0x07) in
  Z.land b1 0xf8 = c /\ Z.shiftl (Z.land b1 0x07) 8 + Z.land size 0xff = size.
Proof.
  intros Hc Hs b1.
  assert ((Z.land b1 0xf8 =? c) && (Z.shiftl (Z.land b1 0x07) 8 + Z.land size 0xff =? size) = true)
    as H; [|lia].
  unfold b1. destruct Hc as [-> | ->];
    [apply (range_all 0 201 (fun size => (Z.land (Z.lor COMMAND_FIRST_FRAGMENT (Z.land (Z.shiftr size 8) 0x07)) 0xf8 =? COMMAND_FIRST_FRAGMENT) && (Z.shiftl (Z.land (Z.lor COMMAND_FIRST_FRAGMENT (Z.land (Z.shiftr size 8) 0x07)) 0x07) 8 + Z.land size 0xff =? size)))
    |apply (range_all 0 201 (fun size => (Z.land (Z.lor COMMAND_SUBSEQUENT_FRAGMENT (Z.land (Z.shiftr size 8) 0x07)) 0xf8 =? COMMAND_SUBSEQUENT_FRAGMENT) && (Z.shiftl (Z.land (Z.lor COMMAND_SUBSEQUENT_FRAGMENT (Z.land (Z.shiftr size 8) 0x07)) 0x07) 8 + Z.land size 0xff =? size)))];
    first [by vm_compute | lia].
Qed.

Lemma sid_decode sid : 0 <= sid < 16 -> Z.shiftr (Z.land (u8 (Z.shiftl sid 4)) 0xf0) 4 = sid.
Proof.
  intros Hs. apply Z.eqb_eq.
  apply (range_all 0 16 (fun sid => Z.shiftr (Z.land (u8 (Z.shiftl sid 4)) 0xf0) 4 =? sid));
    [by vm_compute|lia].
Qed.

Lemma offset_decode sid off : 0 <= sid < 16 -> 0 <= off <= 200 ->
  let b3 := u8 (Z.lor (Z.shiftl sid 4) (Z.land (Z.shiftr off 8) 0x07)) in
  Z.shiftr (Z.land b3 0xf0) 4 = sid /\ Z.shiftl (Z.land b3 0x07) 8 + Z.land off 0xff = off.
Proof.
  intros Hs Ho b3.
  assert (Z.shiftr off 8 = 0) as Hz.
  { rewrite Z.shiftr_div_pow2 by lia. apply Z.div_small. lia. }
  assert (Z.land off 0xff = off) as ->.
  { change 0xff with (Z.ones 8). rewrite Z.land_ones by lia. apply Z.mod_small. lia. }
  assert ((Z.shiftr (Z.land b3 0xf0) 4 =? sid) && (Z.land b3 0x07 =? 0) = true) as H.
  { unfold b3. rewrite Hz.
    apply (range_all 0 16 (fun sid => (Z.shiftr (Z.land (u8 (Z.lor (Z.shiftl sid 4) (Z.land 0 7))) 0xf0) 4 =? sid)
             && (Z.land (u8 (Z.lor (Z.shiftl sid 4) (Z.land 0 7))) 0x07 =? 0))); [by vm_compute|lia]. }
  apply andb_true_iff in H as [H1 H2]. apply Z.eqb_eq in H1, H2. by rewrite H1, H2.
Qed.

(** ** Frames as the receiver sees them *)

Lemma with_crc_whole b : sub_buf (with_crc b) 0 (Zlength (with_crc b)) = with_crc b.
Proof. unfold sub_buf, Zlength. rewrite Nat2Z.id. apply take_ge. done. Qed.

Lemma land_byte x y : 0 <= y < 256 -> byte (Z.land x y).
Proof. intros Hy. apply (land_bound 8); lia. Qed.

Lemma size_byte c x : byte c -> byte (Z.lor c (Z.land x 0x07)).
Proof. intros Hc. apply (lor_bound 8); [lia|done|]. apply land_byte. lia. Qed.

Lemma first_hdr_bytes sid size : bytes (first_hdr sid size).
Proof.
  unfold first_hdr. forall_list;
    [by vm_compute|by apply size_byte|apply land_byte; lia|apply u8_byte].
Qed.

Lemma subseq_hdr_bytes sid size off : bytes (subseq_hdr sid size off).
Proof.
  unfold subseq_hdr. forall_list;
    [by vm_compute|by apply size_byte|apply land_byte; lia|apply u8_byte|apply land_byte; lia].
Qed.

Lemma Zlength_first_frame sid size payload :
  Zlength (first_frame sid size payload) = Zlength payload + 6.
Proof. unfold first_frame, Zlength. rewrite length_with_crc, length_app. simpl. lia. Qed.

Lemma Zlength_subseq_frame sid size off payload :
  Zlength (subseq_frame sid size off payload) = Zlength payload + 7.
Proof. unfold subseq_frame, Zlength. rewrite length_with_crc, length_app. simpl. lia. Qed.

Lemma first_frame_crc sid size payload : bytes payload ->
  let f := first_frame sid size payload in zgw_crc16 0x1D0F (sub_buf f 0 (Zlength f)) = 0.
Proof.
  intros Hp f. unfold f, first_frame. rewrite with_crc_whole. apply with_crc_residue.
  apply Forall_app. split; [apply first_hdr_bytes|done].
Qed.

Lemma subseq_frame_crc sid size off payload : bytes payload ->
  let f := subseq_frame sid size off payload in zgw_crc16 0x1D0F (sub_buf f 0 (Zlength f)) = 0.
Proof.
  intros Hp f. unfold f, subseq_frame. rewrite with_crc_whole. apply with_crc_residue.
  apply Forall_app. split; [apply subseq_hdr_bytes|done].
Qed.

Lemma first_frame_payload sid size payload n : Zlength payload = n ->
  sub_buf (first_frame sid size payload) FIRST_HDR_LEN n = payload.
Proof.
  intros <-. unfold sub_buf, first_frame, with_crc, Zlength. rewrite Nat2Z.id.
  change (Z.to_nat FIRST_HDR_LEN) with 4%nat.
  cbn [app first_hdr drop]. by rewrite drop_0, take_app_length.
Qed.

Lemma subseq_frame_payload sid size off payload n : Zlength payload = n ->
  sub_buf (subseq_frame sid size off payload) SUBSEQ_HDR_LEN n = payload.
Proof.
  intros <-. unfold sub_buf, subseq_frame, with_crc, Zlength. rewrite Nat2Z.id.
  change (Z.to_nat SUBSEQ_HDR_LEN) with 5%nat.
  cbn [app subseq_hdr drop]. by rewrite drop_0, take_app_length.
Qed.
