(* ===== verification/TransportReceive.v ===== *)
(** * Transport Service v2: reassembly

    The receiving half of transport_service2.c against its contract: while a
    session is open, the reassembly buffer agrees with the datagram on every
    byte marked as received, and the application is handed the datagram exactly
    when nothing of it is missing. *)

From S2P Require Import Prelude Crc TransportFsm TransportService TransportMask.
#[local] Open Scope Z_scope.
#[local] Open Scope zgw_scope.

(** ** The open session *)

(** The module is not sending. *)
Definition rx_phase (s : t2_state) : bool :=
  match s with ST_SEND_FRAG | ST_SEND_LAST_FRAG | ST_WAIT_ACK => false | _ => true end.

(** Nothing is being sent and the receiving side is intact. *)
Record rx_base (st : ts_state) : Prop := {
  rxb_phase : rx_phase (current_state st) = true;
  rxb_fault : fault st = None;
  rxb_app : TSApplicationCommandHandler st = true;
  rxb_sending : sending (scb st) = false;
  rxb_dst : current_dnode (scb st) = 0;
  rxb_buf : length (datagramData (rcb st)) = 200%nat;
  rxb_compl : length (recv_frag_compl_list (rcb st)) = 16%nat;
  rxb_txbuf : length (t2_txBuf st) = 54%nat;
}.

(** No session is open. *)
Record rx_closed (st : ts_state) : Prop := {
  rxc_base : rx_base st;
  rxc_init : flag_initialize_once st = false;
  rxc_src : current_snode (rcb st) = 0;
  rxc_sid : session_id (rcmn (rcb st)) = 0x10;
}.

(** The same, or the module has not received a frame yet. *)
Definition rx_ready (st : ts_state) : Prop :=
  rx_base st /\ current_snode (rcb st) = 0 /\
  (flag_initialize_once st = true \/ session_id (rcmn (rcb st)) = 0x10).

(** [rx_session data sid src st]: [st] is reassembling the datagram [data] that
    node [src] sends in session [sid]. *)
Record rx_session (data : list Z) (sid src : Z) (st : ts_state) : Prop := {
  rxs_base : rx_base st;
  rxs_init : flag_initialize_once st = false;
  rxs_sid : session_id (rcmn (rcb st)) = sid;
  rxs_src : current_snode (rcb st) = src;
  rxs_peer : snode (cb_p (rcmn (rcb st))) = src /\
             rx_flags (cb_p (rcmn (rcb st))) <> RECEIVE_STATUS_TYPE_BROAD;
  rxs_size : datagram_size (rcb st) = Zlength data;
  rxs_compl : recv_frag_compl_list (rcb st) !! Z.to_nat sid = Some false;
  rxs_mask : mask_ok (bytes_recvd_bitmask (rcb st));
  rxs_zero : bit_received (bytes_recvd_bitmask (rcb st)) 0 = true;
  rxs_bytes : forall j, 0 <= j < 208 -> bit_received (bytes_recvd_bitmask (rcb st)) j = true ->
    j < Zlength data /\ datagramData (rcb st) !! Z.to_nat j = data !! Z.to_nat j;
}.

(** A datagram the service can carry, and who may send it to whom. *)
Definition datagram_ok (data : list Z) : Prop := bytes data /\ 1 <= Zlength data <= 200.

Definition from_peer (src : Z) (p : ts_param) : Prop :=
  snode p = src /\ src <> dnode p /\ src <> 0 /\ rx_flags p <> RECEIVE_STATUS_TYPE_BROAD.

(** What the application is handed for a datagram received with parameters [p]. *)
Definition delivered (p : ts_param) (data : list Z) : output :=
  O_app {| snode := snode p; dnode := dnode p; sendpoint := 0; dendpoint := 0;
           tx_flags := 0x25; rx_flags := 0; scheme := NO_SCHEME |} data.

Definition acknowledged (p : ts_param) (sid : Z) : output :=
  O_send (dnode p) (snode p) (complete_frame sid) (Z.lor (tx_flags p) TRANSMIT_OPTION_ACK) CB_NULL.

Definition requested (p : ts_param) (sid off : Z) : output :=
  O_send (dnode p) (snode p) (request_frame sid off) (Z.lor (tx_flags p) TRANSMIT_OPTION_ACK) CB_NULL.

(** ** A subsequent fragment of the open session *)

(** The state in which [receive] looks at the command [f] of [p]. *)
Definition rx_entry (p : ts_param) (f : list Z) (st : ts_state) : ts_state :=
  let st := set_reset_timer st <| scb; frag_wait_p := p |> in
  let st := match current_state st with
            | ST_IDLE => post EV_START_RECV st
            | ST_RECEIVING => post EV_RECV_NEW_FRAG st
            | _ => st
            end in
  initialize_once st <| rcb; fragment := f |>
                     <| rcb; rcmn; cb_p := p |>
                     <| rcb; fragment_len := Zlength f |>.

(** The receiving state after the bytes [payload] from [off] on were stored. *)
Definition absorb (size off : Z) (payload : list Z) (st : ts_state) : ts_state :=
  let st := abort_if_tie_broken st
    <| rcb; cur_recvd_data_size := Zlength payload |>
    <| rcb; rx_timer := Some FRAGMENT_RX_TIMEOUT |> in
  let st := st
    <| rcb; bytes_recvd_bitmask := mark_range (length payload) off (bytes_recvd_bitmask (rcb st)) |>
    <| rcb; datagram_size := size |> in
  st <| rcb; datagramData := memcpy_at (datagramData (rcb st)) off payload |>.

Lemma access_ok i n size st : 0 <= i -> 0 <= n -> i + n <= size -> access i n size st = st.
Proof. intros. unfold access, in_range. by assert ((0 <=? i) && (0 <=? n) && (i + n <=? size) = true) as -> by lia. Qed.

Lemma abort_if_tie_broken_rcb st : rcb (abort_if_tie_broken st) = rcb st.
Proof. unfold abort_if_tie_broken. by destruct (flag_tie_broken st). Qed.

Lemma abort_if_tie_broken_state st : current_state (abort_if_tie_broken st) = current_state st.
Proof. unfold abort_if_tie_broken. by destruct (flag_tie_broken st). Qed.

Lemma abort_if_tie_broken_trace st : trace (abort_if_tie_broken st) = trace st.
Proof. unfold abort_if_tie_broken. by destruct (flag_tie_broken st). Qed.


(** A command reaches [receive] unless it is misaddressed, too long, from a third
    node, or a subsequent fragment while no session is open. *)
Lemma handler_receive e p f st :
  rx_phase (current_state st) = true ->
  snode p <> dnode p -> 2 <= Zlength f <= 200 ->
  (current_snode (rcb st) = snode p \/ current_snode (rcb st) = 0) ->
  current_dnode (scb st) = 0 ->
  (session_id (rcmn (rcb st)) <> 0x10 \/ Z.land (rd f 1) 0xf8 <> COMMAND_SUBSEQUENT_FRAGMENT) ->
  TransportService_ApplicationCommandHandler e p f (Zlength f) st = receive e (rx_entry p f st).
Proof.
  intros Hst Hne Hlen Hsn Hdn Hsub.
  assert (ZW_TransportService_Is_Sending (set_reset_timer st) = false) as Hsend.
  { unfold ZW_TransportService_Is_Sending, recv_or_send. cbn. by destruct (current_state st). }
  unfold TransportService_ApplicationCommandHandler. cbv zeta.
  rewrite Hsend. cbn [andb].
  take_else by lia.
  take_else by (unfold DATAGRAM_SIZE_MAX; lia).
  take_else by (rewrite Hdn; unfold truth; lia).
  take_else by (rewrite Hdn; unfold truth; lia).
  rewrite access_ok by lia.
  take_else by (unfold COMMAND_SUBSEQUENT_FRAGMENT in *; lia).
  done.
Qed.

Lemma mark_frag_received_ok e off (payload : list Z) st :
  off = 0 \/ bit_received (bytes_recvd_bitmask (rcb st)) 0 = true ->
  0 <= off -> off + Zlength payload <= 200 ->
  mark_frag_received e off (Zlength payload) st =
  (false, st <| rcb; bytes_recvd_bitmask :=
                       mark_range (length payload) off (bytes_recvd_bitmask (rcb st)) |>).
Proof.
  intros Hz Hoff Hlen. unfold mark_frag_received.
  change (bit_received (bytes_recvd_bitmask (rcb st)) 0)
    with (has (rd (bytes_recvd_bitmask (rcb st)) 0) 1) in Hz.
  take_else by (destruct Hz as [-> | ->]; [done|by rewrite andb_false_r]).
  unfold Zlength. rewrite Nat2Z.id, mark_loop_range; [done|lia|unfold Zlength in Hlen; lia].
Qed.

(** ** The invariants are kept *)

(** The events the receiving half posts. *)
Definition rx_event (ev : t2_event) : bool :=
  match ev with
  | EV_START_RECV | EV_RECV_NEW_FRAG | EV_SEND_FRAG_COMPLETE | EV_SUCCESS | EV_FRAG_RX_TIMER
  | EV_MISSING_FRAG | EV_SCAST_DIFF_NODE | EV_BCAST_DIFF_NODE | EV_DIFF_SESSION
  | EV_SUBSEQ_DIFF_SESSION | EV_RECV_LAST_FRAG | EV_DUPL_FRAME => true
  | _ => false
  end.

Lemma rx_phase_post s ev :
  rx_phase s = true -> rx_event ev = true -> rx_phase (t2_sm_post_event s ev) = true.
Proof. by destruct s, ev. Qed.

#[local] Hint Resolve rx_phase_post : core.

Lemma rx_base_post ev st : rx_event ev = true -> rx_base st -> rx_base (post ev st).
Proof. intros Hev []. by split; try done; apply rx_phase_post. Qed.

Lemma rx_base_abort st : rx_base st -> rx_base (abort_if_tie_broken st).
Proof. unfold abort_if_tie_broken. intros []. by destruct (flag_tie_broken st); split. Qed.

Lemma rx_session_post data sid src ev st :
  rx_event ev = true -> rx_session data sid src st -> rx_session data sid src (post ev st).
Proof. intros Hev []. split; try done. by apply rx_base_post. Qed.

Lemma rx_session_abort data sid src st :
  rx_session data sid src st -> rx_session data sid src (abort_if_tie_broken st).
Proof.
  intros []. split; rewrite ?abort_if_tie_broken_rcb; try done; [by apply rx_base_abort|].
  unfold abort_if_tie_broken. by destruct (flag_tie_broken st).
Qed.

Lemma rx_session_data_state data sid src b st :
  rx_session data sid src st -> rx_session data sid src (st <| rcb; rx_data_state := b |>).
Proof. intros [[]]. by split; [split|..]. Qed.

(** What [rx_entry] leaves alone and what it sets. *)
Lemma rx_entry_spec p f st :
  let st1 := rx_entry p f st in
  fragment (rcb st1) = f /\ fragment_len (rcb st1) = Zlength f /\
  cb_p (rcmn (rcb st1)) = p /\ trace st1 = trace st /\ flag_initialize_once st1 = false.
Proof.
  unfold rx_entry, initialize_once, set_reset_timer. simpl.
  destruct (current_state st); simpl; destruct (flag_initialize_once st) eqn:?; done.
Qed.

Lemma rx_entry_base p f st : rx_base st -> rx_base (rx_entry p f st).
Proof.
  intros [Hph]. unfold rx_entry, initialize_once, set_reset_timer. simpl.
  destruct (current_state st) eqn:Es, (flag_initialize_once st); simpl; rewrite ?Es in *;
    split; simpl; rewrite ?Es; done.
Qed.

Lemma rx_entry_session data sid src p f st :
  from_peer src p -> rx_session data sid src st -> rx_session data sid src (rx_entry p f st).
Proof.
  intros (Hp & _ & _ & Hbc) Hs. pose proof (rx_entry_base p f st (rxs_base _ _ _ _ Hs)) as Hb.
  pose proof (rx_entry_spec p f st) as (_ & _ & _ & _ & Hi). destruct Hs as [_ Hinit].
  unfold rx_entry, initialize_once, set_reset_timer in *. simpl in *.
  destruct (current_state st); simpl in *; rewrite Hinit in *; split; done.
Qed.

Lemma rx_entry_ready p f st : rx_ready st -> session_id (rcmn (rcb (rx_entry p f st))) = 0x10.
Proof.
  intros (_ & _ & Hs). unfold rx_entry, initialize_once, set_reset_timer. simpl.
  destruct (current_state st); simpl; destruct (flag_initialize_once st); simpl;
    destruct Hs; done.
Qed.

Lemma rx_entry_closed p f st : rx_closed st -> rx_closed (rx_entry p f st).
Proof.
  intros [Hb Hi Hc Hs]. pose proof (rx_entry_base p f st Hb) as Hb1.
  pose proof (rx_entry_spec p f st) as (_ & _ & _ & _ & Hi1).
  unfold rx_entry, initialize_once, set_reset_timer in *. simpl in *.
  destruct (current_state st); simpl in *; rewrite Hi in *; split; done.
Qed.

Definition entry_state (s : t2_state) : t2_state :=
  match s with ST_IDLE => ST_RECEIVING | s => s end.

Lemma rx_entry_state p f st :
  current_state (rx_entry p f st) = entry_state (current_state st).
Proof.
  unfold rx_entry, initialize_once, set_reset_timer. simpl.
  destruct (current_state st) eqn:Es; simpl; destruct (flag_initialize_once st); simpl;
    by rewrite ?Es.
Qed.

Lemma rx_entry_mask p f st : flag_initialize_once st = false ->
  bytes_recvd_bitmask (rcb (rx_entry p f st)) = bytes_recvd_bitmask (rcb st).
Proof.
  intros Hi. unfold rx_entry, initialize_once, set_reset_timer. simpl.
  destruct (current_state st); simpl; by rewrite Hi.
Qed.

#[local] Opaque t2_sm_post_event.

Section recv.
Context (e : env) (data : list Z) (sid src : Z).
Context (Hdata : datagram_ok data) (Hsid : 0 <= sid < 16).

Lemma receive_subseq_absorb st off n :
  let payload := sub_buf data off n in
  let f := subseq_frame sid (Zlength data) off payload in
  rx_session data sid src st -> fragment (rcb st) = f -> fragment_len (rcb st) = Zlength f ->
  0 <= off -> 1 <= n <= 193 -> off + n <= Zlength data ->
  receive e st =
  if Zlength data <=? off + n then find_missing e (post EV_RECV_LAST_FRAG (absorb (Zlength data) off payload st))
  else absorb (Zlength data) off payload st <| rcb; rx_data_state := false |>.
Proof.
  intros payload f Hs Hf Hfl Hoff Hn Hon. destruct Hdata as [Hb Hlen].
  assert (Zlength payload = n) as Hpl by (apply Zlength_sub_buf; lia).
  assert (Zlength f = n + 7) as HfL by (unfold f; rewrite Zlength_subseq_frame; lia).
  destruct (size_decode COMMAND_SUBSEQUENT_FRAGMENT (Zlength data)) as [Hcmd Hsize]; [by right|lia|].
  destruct (offset_decode sid off) as [Hsd Hod]; [lia..|].
  assert (bytes payload) as Hpb by by apply sub_buf_bytes.
  pose proof (subseq_frame_crc sid (Zlength data) off payload Hpb) as Hcrc.
  pose proof (subseq_frame_payload sid (Zlength data) off payload _ eq_refl) as Hpay.
  fold f in Hcrc, Hpay. cbv zeta in Hcrc.
  assert (rd f 0 = COMMAND_CLASS_TRANSPORT_SERVICE) as H0 by done.
  assert (rd f 1 = Z.lor COMMAND_SUBSEQUENT_FRAGMENT (Z.land (Z.shiftr (Zlength data) 8) 0x07))
    as H1 by done.
  assert (rd f 2 = Z.land (Zlength data) 0xff) as H2 by done.
  assert (rd f 3 = u8 (Z.lor (Z.shiftl sid 4) (Z.land (Z.shiftr off 8) 0x07))) as H3 by done.
  assert (rd f 4 = Z.land off 0xff) as H4 by done.
  clearbody f payload.
  unfold receive. rewrite Hf. cbv zeta. rewrite access_ok by lia.
  rewrite H0, H1, H2, H3, H4, Hcmd. take_else by done. take_else by done. take_then by done.
  unfold receive_subseq. cbv zeta. rewrite !abort_if_tie_broken_rcb, Hf, Hfl, Hsd, Hsize, Hod.
  rewrite (access_ok 0 (Zlength f)) by lia.
  take_else by (unfold SUBSEQ_FRAG_NONPAYLOAD_LENGTH, SIZEOF_SUBSEQ_FRAG; lia).
  rewrite !abort_if_tie_broken_rcb, Hf, Hcrc. take_else by done.
  rewrite (rxs_compl _ _ _ _ Hs), (rxs_sid _ _ _ _ Hs).
  take_else by done.
  take_else by (rewrite Z.eqb_refl; done).
  assert (u8 (Zlength f - SUBSEQ_FRAG_NONPAYLOAD_LENGTH) = Zlength payload) as Hu.
  { rewrite Hpl, HfL. unfold SUBSEQ_FRAG_NONPAYLOAD_LENGTH, SIZEOF_SUBSEQ_FRAG.
    replace (n + 7 - (8 - 1)) with n by lia. apply u8_id. unfold byte. lia. }
  rewrite Hu.
  change (cur_recvd_data_size (rcb (abort_if_tie_broken st
            <| rcb; cur_recvd_data_size := Zlength payload |>))) with (Zlength payload).
  take_else by (unfold DATAGRAM_SIZE_MAX; lia).
  take_else by (unfold DATAGRAM_SIZE_MAX; lia).
  rewrite mark_frag_received_ok; [|right; cbn; rewrite abort_if_tie_broken_rcb; by eapply rxs_zero|done|lia].
  rewrite !access_ok by (unfold DATAGRAM_SIZE_MAX; lia).
  replace (sub_buf (fragment _) SUBSEQ_HDR_LEN _) with payload.
  - rewrite <- Hpl. reflexivity.
  - cbn [rcb fragment modify]. simpl. rewrite abort_if_tie_broken_rcb, Hf. done.
Qed.

(** The state after a first fragment opened the session. *)
Definition open_session (size : Z) (payload : list Z) (st : ts_state) : ts_state :=
  let st := abort_if_tie_broken st <| rcb; rx_timer := Some FRAGMENT_RX_TIMEOUT |> in
  let st := st
    <| rcb; rcmn; session_id := sid |>
    <| rcb; recv_frag_compl_list := <[Z.to_nat sid := false]> (recv_frag_compl_list (rcb st)) |>
    <| rcb; cur_recvd_data_size := Zlength payload |>
    <| rcb; datagram_size := size |>
    <| rcb; bytes_recvd_bitmask := replicate 26 0 |>
    <| rcb; current_snode := snode (cb_p (rcmn (rcb st))) |> in
  let st := st <| rcb; datagramData := memcpy_at (datagramData (rcb st)) 0 payload |> in
  st <| rcb; bytes_recvd_bitmask := mark_range (length payload) 0 (replicate 26 0) |>.

Lemma receive_first_open st n :
  let payload := sub_buf data 0 n in
  let f := first_frame sid (Zlength data) payload in
  session_id (rcmn (rcb st)) = 0x10 \/ session_id (rcmn (rcb st)) = sid ->
  fragment (rcb st) = f -> fragment_len (rcb st) = Zlength f ->
  1 <= n <= 194 -> n <= Zlength data ->
  receive e st =
  if Zlength data =? n
  then send_frag_complete_cmd e (post EV_SEND_FRAG_COMPLETE (open_session (Zlength data) payload st))
  else open_session (Zlength data) payload st <| rcb; rx_data_state := false |>.
Proof.
  intros payload f Hs Hf Hfl Hn Hon. destruct Hdata as [Hb Hlen].
  assert (Zlength payload = n) as Hpl by (apply Zlength_sub_buf; lia).
  assert (Zlength f = n + 6) as HfL by (unfold f; rewrite Zlength_first_frame; lia).
  destruct (size_decode COMMAND_FIRST_FRAGMENT (Zlength data)) as [Hcmd Hsize]; [by left|lia|].
  pose proof (sid_decode sid Hsid) as Hsd.
  assert (bytes payload) as Hpb by by apply sub_buf_bytes.
  pose proof (first_frame_crc sid (Zlength data) payload Hpb) as Hcrc.
  pose proof (first_frame_payload sid (Zlength data) payload _ eq_refl) as Hpay.
  fold f in Hcrc, Hpay. cbv zeta in Hcrc.
  assert (rd f 0 = COMMAND_CLASS_TRANSPORT_SERVICE) as H0 by done.
  assert (rd f 1 = Z.lor COMMAND_FIRST_FRAGMENT (Z.land (Z.shiftr (Zlength data) 8) 0x07))
    as H1 by done.
  assert (rd f 2 = Z.land (Zlength data) 0xff) as H2 by done.
  assert (rd f 3 = u8 (Z.shiftl sid 4)) as H3 by done.
  clearbody f payload.
  unfold receive. rewrite Hf. cbv zeta. rewrite access_ok by lia.
  rewrite H0, H1, H2, H3, Hcmd. take_else by done. take_then by done.
  unfold receive_first. cbv zeta. rewrite !abort_if_tie_broken_rcb, Hf, Hfl, Hsd, Hsize.
  rewrite (access_ok 0 (Zlength f)) by lia.
  take_else by (unfold FIRST_FRAG_NONPAYLOAD_LENGTH, SIZEOF_FIRST_FRAG; lia).
  rewrite !abort_if_tie_broken_rcb, Hf, Hcrc. take_else by done.
  take_else by (destruct Hs as [-> | ->]; [apply andb_false_r|by rewrite Z.eqb_refl]).
  take_else by (unfold DATAGRAM_SIZE_MAX; lia).
  assert (u8 (Zlength f - FIRST_FRAG_NONPAYLOAD_LENGTH) = Zlength payload) as Hu.
  { rewrite Hpl, HfL. unfold FIRST_FRAG_NONPAYLOAD_LENGTH, SIZEOF_FIRST_FRAG.
    replace (n + 6 - (7 - 1)) with n by lia. apply u8_id. unfold byte. lia. }
  rewrite Hu. rewrite (access_ok sid 1 16) by lia.
  repeat match goal with
  | |- context [cur_recvd_data_size (rcb ?x)] =>
      change (cur_recvd_data_size (rcb x)) with (Zlength payload)
  end.
  rewrite (access_ok 0 (Zlength payload)) by (unfold DATAGRAM_SIZE_MAX; lia).
  rewrite mark_frag_received_ok; [|by left|lia..].
  replace (sub_buf (fragment _) FIRST_HDR_LEN _) with payload
    by (simpl; by rewrite abort_if_tie_broken_rcb, Hf).
  rewrite (Z.eqb_sym (Zlength data)), <- Hpl.
  reflexivity.
Qed.

(** Bytes of the datagram stored at their place keep the buffer in agreement
    with it. *)
Lemma stored_bytes buf mask off n :
  length buf = 200%nat -> mask_ok mask -> 0 <= off -> 0 <= n -> off + n <= Zlength data ->
  (forall j, 0 <= j < 208 -> bit_received mask j = true ->
     j < Zlength data /\ buf !! Z.to_nat j = data !! Z.to_nat j) ->
  let payload := sub_buf data off n in
  forall j, 0 <= j < 208 -> bit_received (mark_range (length payload) off mask) j = true ->
     j < Zlength data /\ memcpy_at buf off payload !! Z.to_nat j = data !! Z.to_nat j.
Proof.
  intros Hbuf Hm Hoff Hn Hlen Hold payload j Hj Hr. destruct Hdata as [_ Hd].
  assert (length payload = Z.to_nat n) as Hpl by (apply length_sub_buf; lia).
  assert (Zlength payload = n) as HpL by (unfold Zlength; lia).
  rewrite bit_received_range in Hr by (rewrite ?Hpl; first [done|lia]).
  rewrite lookup_memcpy_at by (rewrite ?HpL; unfold Zlength in *; lia).
  case_bool_decide as Hc.
  - split; [lia|]. unfold payload. rewrite lookup_sub_buf by lia. f_equal. lia.
  - apply Hold; [done|]. rewrite Hpl in Hr, Hc.
    by assert ((off <=? j) && (j <? off + Z.of_nat (Z.to_nat n)) = false) as Hf by lia;
      rewrite Hf in Hr.
Qed.

Lemma absorb_session off n st :
  rx_session data sid src st -> 0 <= off -> 0 <= n -> off + n <= Zlength data ->
  rx_session data sid src (absorb (Zlength data) off (sub_buf data off n) st).
Proof.
  intros Hs Hoff Hn Hlen. apply rx_session_abort in Hs. unfold absorb. cbv zeta.
  generalize dependent (abort_if_tie_broken st). clear st. intros st [Hb ? ? ? ? ? ? Hm Hz Hby].
  assert (length (sub_buf data off n) = Z.to_nat n) as Hpl by (apply length_sub_buf; lia).
  destruct Hdata as [_ Hd].
  split; try done; simpl.
  - destruct Hb. split; try done. simpl. by rewrite length_memcpy_at.
  - apply mark_range_ok; [done|lia..].
  - rewrite bit_received_range by first [done|lia]. by rewrite Hz, orb_true_r.
  - destruct Hb. by apply stored_bytes.
Qed.

Lemma open_session_ok n st :
  rx_base st -> flag_initialize_once st = false -> snode (cb_p (rcmn (rcb st))) = src ->
  rx_flags (cb_p (rcmn (rcb st))) <> RECEIVE_STATUS_TYPE_BROAD -> 1 <= n <= Zlength data ->
  rx_session data sid src (open_session (Zlength data) (sub_buf data 0 n) st).
Proof.
  intros Hb Hi Hp Hbc Hn. unfold open_session. cbv zeta.
  assert (flag_initialize_once (abort_if_tie_broken st) = false) as Hi'.
  { unfold abort_if_tie_broken. by destruct (flag_tie_broken st). }
  rewrite <- abort_if_tie_broken_rcb in Hp, Hbc. apply rx_base_abort in Hb.
  generalize dependent (abort_if_tie_broken st). clear st Hi. intros st Hb Hp Hbc Hi.
  assert (length (sub_buf data 0 n) = Z.to_nat n) as Hpl by (apply length_sub_buf; lia).
  destruct Hdata as [_ Hd]. pose proof mask_ok_zero as Hm.
  split; try done; simpl.
  - destruct Hb. split; try done; simpl; by rewrite ?length_memcpy_at, ?length_insert.
  - apply list_lookup_insert_eq. destruct Hb. lia.
  - apply mark_range_ok; [done|lia..].
  - rewrite bit_received_range by first [done|lia]. lia.
  - destruct Hb. apply stored_bytes; try done; [lia..|].
    intros j _ Hj. by rewrite bit_received_zero in Hj.
Qed.

(** ** The end of a session *)

(** Nothing is missing. *)
Definition all_received (st : ts_state) : Prop :=
  forall j, 0 <= j < Zlength data -> bit_received (bytes_recvd_bitmask (rcb st)) j = true.

Lemma all_received_data st : rx_session data sid src st -> all_received st ->
  sub_buf (datagramData (rcb st)) 0 (Zlength data) = data.
Proof.
  intros Hs Hall. destruct Hdata as [_ Hd]. pose proof (rxb_buf _ (rxs_base _ _ _ _ Hs)) as Hbuf.
  apply list_eq_same_length with (n := length data); [done|..].
  { rewrite length_sub_buf; unfold Zlength in *; lia. }
  intros i x y Hi Hx Hy. rewrite lookup_sub_buf in Hx by (unfold Zlength; lia). simpl in Hx.
  destruct (rxs_bytes _ _ _ _ Hs (Z.of_nat i)) as [_ Heq];
    [unfold Zlength in *; lia|apply Hall; unfold Zlength; lia|].
  rewrite Nat2Z.id in Heq. congruence.
Qed.

Lemma complete_delivers st : rx_session data sid src st -> all_received st ->
  let p := cb_p (rcmn (rcb st)) in
  let st' := send_frag_complete_cmd e st in
  trace st' = delivered p data :: acknowledged p sid :: trace st /\
  current_state st' = t2_sm_post_event (current_state st) EV_SUCCESS /\
  rx_closed st'.
Proof.
  intros Hs Hall p st'. pose proof (all_received_data st Hs Hall) as Hbuf.
  destruct Hdata as [_ Hd]. pose proof (rxs_base _ _ _ _ Hs) as Hb. destruct Hs as [_ ? Hsd ? ? Hsz].
  unfold st', send_frag_complete_cmd. rewrite Hsd.
  assert ((0x0f <? sid) = false) as -> by lia.
  unfold TS_SEND_RAW, ZIPCommandHandler. simpl (TSApplicationCommandHandler _).
  rewrite (rxb_app _ Hb), !access_ok by (simpl; unfold DATAGRAM_SIZE_MAX; lia).
  simpl (datagram_size _). rewrite Hsz. simpl (datagramData _). rewrite Hbuf.
  split; [done|]. split; [done|]. destruct Hb.
  split; [|done..]. split; try done; simpl.
  - by apply rx_phase_post.
  - by rewrite length_insert.
Qed.

(** ** Asking for what is missing *)

Lemma req_retry_session k st :
  rx_session data sid src st ->
  let p := cb_p (rcmn (rcb st)) in
  let st' := send_frag_req_retry e k st in
  let req := O_send (dnode p) (snode p) (sub_buf (t2_txBuf st) 0 4)
               (Z.lor (tx_flags p) TRANSMIT_OPTION_ACK) CB_NULL in
  rx_session data sid src st' /\ current_state st' = current_state st /\
  bytes_recvd_bitmask (rcb st') = bytes_recvd_bitmask (rcb st) /\
  exists m, trace st' = replicate (S m) req ++ trace st.
Proof.
  revert st. induction k as [|k IH]; intros st Hs p st' req.
  - split; [|split_and!; [done..|by exists O]].
    destruct Hs as [[]]. by split; [split|..].
  - unfold st'. cbn [send_frag_req_retry]. unfold TS_SEND_RAW.
    set (st1 := emit _ _). cbv zeta. destruct (negb _).
    + set (st2 := modify rcb _ st1).
      assert (rx_session data sid src st2) as Hs2 by (destruct Hs as [[]]; by split; [split|..]).
      destruct (IH st2 Hs2) as (H1 & H2 & H3 & m & H4).
      split; [done|]. split; [done|]. split; [done|].
      exists (S m). rewrite H4. change (trace st2) with (req :: trace st).
      change (replicate (S (S m)) req) with (req :: replicate (S m) req).
      rewrite replicate_cons_app, <- app_assoc. done.
    + destruct Hs as [[]]. split; [by split; [split|..]|]. split_and!; [done..|]. by exists O.
Qed.

Lemma request_missing r st : rx_session data sid src st ->
  get_next_missing_offset st = r -> 1 <= r ->
  let p := cb_p (rcmn (rcb st)) in
  let st' := send_frag_req_cmd e st in
  rx_session data sid src st' /\
  current_state st' = t2_sm_post_event (current_state st) EV_SUCCESS /\
  bytes_recvd_bitmask (rcb st') = bytes_recvd_bitmask (rcb st) /\
  rx_timer (rcb st') = Some FRAGMENT_RX_TIMEOUT /\
  exists m, trace st' = replicate (S m) (requested p sid r) ++ trace st.
Proof.
  intros Hs Hr Hr1 p st'. unfold st', send_frag_req_cmd. cbv zeta. rewrite Hr.
  assert ((r =? 0) = false) as -> by lia.
  change (session_id (rcmn (rcb (st <| offset_to_request := r |>))))
    with (session_id (rcmn (rcb st))).
  rewrite (rxs_sid _ _ _ _ Hs). assert ((0x0f <? sid) = false) as -> by lia.
  fold (request_frame sid r).
  unfold txbuf_write. change (Zlength (request_frame sid r)) with 4. change TXBUF_SIZE with 54.
  rewrite access_ok by lia.
  set (st1 := modify t2_txBuf _ _).
  assert (rx_session data sid src st1) as Hs1.
  { destruct Hs as [[]]. split; [split|..]; try done. simpl. by rewrite length_memcpy_at. }
  destruct (req_retry_session (Z.to_nat (flag_retry_frag_req_once (rcb st1))) st1 Hs1)
    as (Hs2 & Hst & Hm & m & Ht).
  set (st2 := send_frag_req_retry _ _ _) in *. clearbody st2.
  split; [|split; [|split; [exact Hm|split; [reflexivity|]]]].
  - apply (rx_session_post _ _ _ EV_SUCCESS) in Hs2; [|done].
    destruct Hs2 as [[]]. by split; [split|..].
  - simpl. by rewrite Hst.
  - exists m. change (trace st2 = replicate (S m) (requested p sid r) ++ trace st).
    rewrite Ht. change (t2_txBuf st1) with (memcpy_at (t2_txBuf st) 0 (request_frame sid r)).
    rewrite sub_buf_memcpy_at; [reflexivity|lia|reflexivity|].
    unfold Zlength. rewrite (rxb_txbuf _ (rxs_base _ _ _ _ Hs)). lia.
Qed.

(** The answer to the last fragment: the datagram is acknowledged and handed
    over, or the first missing byte is asked for. *)
Lemma find_missing_session st : rx_session data sid src st ->
  let p := cb_p (rcmn (rcb st)) in
  let st' := find_missing e st in
  (all_received st /\ rx_closed st' /\
   trace st' = delivered p data :: acknowledged p sid :: trace st /\
   current_state st' =
     t2_sm_post_event (t2_sm_post_event (current_state st) EV_SEND_FRAG_COMPLETE) EV_SUCCESS) \/
  (exists r m, 1 <= r < Zlength data /\ bit_received (bytes_recvd_bitmask (rcb st)) r = false /\
   (forall j, 0 <= j < r -> bit_received (bytes_recvd_bitmask (rcb st)) j = true) /\
   rx_session data sid src st' /\
   bytes_recvd_bitmask (rcb st') = bytes_recvd_bitmask (rcb st) /\
   rx_timer (rcb st') = Some FRAGMENT_RX_TIMEOUT /\
   trace st' = replicate (S m) (requested p sid r) ++ trace st /\
   current_state st' =
     t2_sm_post_event (t2_sm_post_event (current_state st) EV_MISSING_FRAG) EV_SUCCESS).
Proof.
  intros Hs p st'. pose proof (rxs_peer _ _ _ _ Hs) as [_ Hp]. destruct Hdata as [_ Hd]. unfold st', find_missing. cbv zeta.
  assert ((rx_flags p =? RECEIVE_STATUS_TYPE_BROAD) = false) as Hbc by by apply Z.eqb_neq.
  fold p. rewrite Hbc.
  pose proof (rxs_size _ _ _ _ Hs) as Hsz. pose proof (rxs_zero _ _ _ _ Hs) as Hz.
  destruct (get_next_missing_offset_spec st) as [[Hr Hall]|(Hr & Hbit & Hall)];
    [lia|left|right]; rewrite Hsz in *.
  - assert (all_received st) as Hrec.
    { intros j Hj. destruct (Z.eq_dec j 0) as [->|]; [done|]. apply Hall. lia. }
    rewrite Hr. change (truth (u8 0)) with false. cbv iota.
    destruct (complete_delivers (post EV_SEND_FRAG_COMPLETE st)) as (Ht & Hst & Hc);
      [by apply rx_session_post|done|]. done.
  - set (r := get_next_missing_offset st) in *. rewrite u8_id by (unfold byte; lia).
    assert (truth r = true) as -> by (unfold truth; lia).
    destruct (request_missing r (post EV_MISSING_FRAG st)) as (Hs' & Hst & Hm & Hti & m & Ht);
      [by apply rx_session_post|done|lia|].
    exists r, m. split; [done|]. split; [done|]. split; [|done].
    intros j Hj. destruct (Z.eq_dec j 0) as [->|]; [done|]. apply Hall. lia.
Qed.

(** ** One received fragment *)

Abbreviation handle := (fun p f st => TransportService_ApplicationCommandHandler e p f (Zlength f) st).

Lemma first_fragment_step p n st :
  let f := first_frame sid (Zlength data) (sub_buf data 0 n) in
  rx_ready st \/ rx_session data sid src st -> from_peer src p ->
  1 <= n <= 194 -> n <= Zlength data ->
  let st' := handle p f st in
  if Zlength data =? n
  then rx_closed st' /\ trace st' = delivered p data :: acknowledged p sid :: trace st /\
       current_state st' =
         t2_sm_post_event (t2_sm_post_event (entry_state (current_state st)) EV_SEND_FRAG_COMPLETE)
           EV_SUCCESS
  else rx_session data sid src st' /\ trace st' = trace st /\
       current_state st' = entry_state (current_state st) /\
       bytes_recvd_bitmask (rcb st') = mark_range (Z.to_nat n) 0 (replicate 26 0).
Proof.
  intros f Hst Hfrom Hn Hlen st'. pose proof Hfrom as (Hsrc & Hne & Hnz & Hbc). pose proof Hdata as [_ Hd].
  assert (rx_base st) as Hb by (by destruct Hst as [(? & _)|[]]).
  assert (length (sub_buf data 0 n) = Z.to_nat n) as Hpl by (apply length_sub_buf; lia).
  assert (2 <= Zlength f <= 200) as HfL
    by (unfold f; rewrite Zlength_first_frame, Zlength_sub_buf; lia).
  assert (st' = receive e (rx_entry p f st)) as ->.
  { apply handler_receive; [by apply rxb_phase|congruence|lia| |by apply rxb_dst|right].
    - destruct Hst as [(_ & ? & _)|[]]; [by right|left; congruence].
    - unfold f. change (rd (first_frame sid (Zlength data) (sub_buf data 0 n)) 1)
        with (Z.lor COMMAND_FIRST_FRAGMENT (Z.land (Z.shiftr (Zlength data) 8) 0x07)).
      destruct (size_decode COMMAND_FIRST_FRAGMENT (Zlength data)) as [-> _]; [by left|lia|done]. }
  destruct (rx_entry_spec p f st) as (Hf & Hfl & Hcb & Htr & Hi).
  pose proof (rx_entry_base p f st Hb) as Hb1. pose proof (rx_entry_state p f st) as Hes.
  assert (session_id (rcmn (rcb (rx_entry p f st))) = 0x10 \/
          session_id (rcmn (rcb (rx_entry p f st))) = sid) as Hsid1.
  { destruct Hst as [Hc|Hs]; [left; by apply rx_entry_ready|right].
    by apply (rx_entry_session _ _ _ p f), rxs_sid in Hs. }
  generalize dependent (rx_entry p f st). intros st1 Hf Hfl Hcb Htr Hi Hb1 Hes Hsid1.
  rewrite (receive_first_open st1 n) by done.
  assert (trace (abort_if_tie_broken st1) = trace st) as Htr1
    by by rewrite abort_if_tie_broken_trace.
  assert (rx_session data sid src (open_session (Zlength data) (sub_buf data 0 n) st1)) as Ho
    by (apply open_session_ok; rewrite ?Hcb; first [done|lia]).
  destruct (Z.eqb_spec (Zlength data) n) as [Heq|Hneq].
  - destruct (complete_delivers (post EV_SEND_FRAG_COMPLETE
      (open_session (Zlength data) (sub_buf data 0 n) st1))) as (Ht & Hst1 & Hc).
    + by apply rx_session_post.
    + intros j Hj. change (bit_received (mark_range (length (sub_buf data 0 n)) 0 (replicate 26 0)) j = true).
      rewrite bit_received_range by (first [apply mask_ok_zero|lia]). lia.
    + split; [exact Hc|]. split.
      * rewrite Ht. simpl. rewrite abort_if_tie_broken_rcb, Hcb, Htr1. done.
      * rewrite Hst1. simpl. by rewrite abort_if_tie_broken_state, Hes.
  - split; [by apply rx_session_data_state|]. split; [exact Htr1|]. split.
    + simpl. by rewrite abort_if_tie_broken_state.
    + simpl. by rewrite Hpl.
Qed.

(** Where a fragment that does not finish the datagram leaves the session. *)
Definition extended (p : ts_param) (off n : Z) (st st' : ts_state) : Prop :=
  rx_session data sid src st' /\ trace st' = trace st /\
  current_state st' = entry_state (current_state st) /\
  bytes_recvd_bitmask (rcb st') = mark_range (Z.to_nat n) off (bytes_recvd_bitmask (rcb st)) /\
  rx_timer (rcb st') = Some FRAGMENT_RX_TIMEOUT /\ rx_data_state (rcb st') = false /\
  cb_p (rcmn (rcb st')) = p.

(** What a last fragment leads to. *)
Definition answered (p : ts_param) (mask : list Z) (s : t2_state) (st st' : ts_state) : Prop :=
  ((forall j, 0 <= j < Zlength data -> bit_received mask j = true) /\ rx_closed st' /\
   trace st' = delivered p data :: acknowledged p sid :: trace st /\
   current_state st' = t2_sm_post_event (t2_sm_post_event s EV_SEND_FRAG_COMPLETE) EV_SUCCESS) \/
  (exists r m, 1 <= r < Zlength data /\ bit_received mask r = false /\
   (forall j, 0 <= j < r -> bit_received mask j = true) /\
   rx_session data sid src st' /\ bytes_recvd_bitmask (rcb st') = mask /\
   rx_timer (rcb st') = Some FRAGMENT_RX_TIMEOUT /\
   trace st' = replicate (S m) (requested p sid r) ++ trace st /\
   current_state st' = t2_sm_post_event (t2_sm_post_event s EV_MISSING_FRAG) EV_SUCCESS).

Lemma subseq_fragment_step p off n st :
  let f := subseq_frame sid (Zlength data) off (sub_buf data off n) in
  rx_session data sid src st -> from_peer src p ->
  0 <= off -> 1 <= n <= 193 -> off + n <= Zlength data ->
  let st' := handle p f st in
  if Zlength data =? off + n
  then answered p (mark_range (Z.to_nat n) off (bytes_recvd_bitmask (rcb st)))
         (t2_sm_post_event (entry_state (current_state st)) EV_RECV_LAST_FRAG) st st'
  else extended p off n st st'.
Proof.
  intros f Hs Hfrom Hoff Hn Hlen st'. pose proof Hfrom as (Hsrc & Hne & Hnz & Hbc). pose proof Hdata as [_ Hd].
  assert (rx_base st) as Hb by by destruct Hs.
  assert (length (sub_buf data off n) = Z.to_nat n) as Hpl by (apply length_sub_buf; lia).
  assert (2 <= Zlength f <= 200) as HfL
    by (unfold f; rewrite Zlength_subseq_frame, Zlength_sub_buf; lia).
  assert (st' = receive e (rx_entry p f st)) as ->.
  { apply handler_receive; [by apply rxb_phase|congruence|lia| |by apply rxb_dst|left].
    - left. rewrite Hsrc. by eapply rxs_src.
    - rewrite (rxs_sid _ _ _ _ Hs). lia. }
  destruct (rx_entry_spec p f st) as (Hf & Hfl & Hcb & Htr & Hi).
  pose proof (rx_entry_state p f st) as Hes.
  pose proof (rx_entry_mask p f st (rxs_init _ _ _ _ Hs)) as Hma.
  apply (rx_entry_session _ _ _ p f) in Hs; [|done].
  generalize dependent (rx_entry p f st). intros st1 Hs Hf Hfl Hcb Htr Hi Hes Hma.
  rewrite (receive_subseq_absorb st1 off n) by done.
  assert ((Zlength data <=? off + n) = (Zlength data =? off + n)) as -> by lia.
  assert (trace (abort_if_tie_broken st1) = trace st) as Htr1
    by by rewrite abort_if_tie_broken_trace.
  pose proof (absorb_session off n st1 Hs Hoff ltac:(lia) ltac:(lia)) as Ha.
  assert (bytes_recvd_bitmask (rcb (absorb (Zlength data) off (sub_buf data off n) st1)) =
          mark_range (Z.to_nat n) off (bytes_recvd_bitmask (rcb st))) as Hm.
  { simpl. by rewrite abort_if_tie_broken_rcb, Hpl, Hma. }
  assert (current_state (absorb (Zlength data) off (sub_buf data off n) st1) =
          entry_state (current_state st)) as Hes1 by (simpl; by rewrite abort_if_tie_broken_state).
  assert (cb_p (rcmn (rcb (absorb (Zlength data) off (sub_buf data off n) st1))) = p) as Hcb1
    by (simpl; by rewrite abort_if_tie_broken_rcb).
  assert (rx_timer (rcb (absorb (Zlength data) off (sub_buf data off n) st1)) =
          Some FRAGMENT_RX_TIMEOUT) as Hti by done.
  change (trace (absorb (Zlength data) off (sub_buf data off n) st1) = trace st) in Htr1.
  generalize dependent (absorb (Zlength data) off (sub_buf data off n) st1).
  clear st1 Hf Hfl Hcb Htr Hi Hes Hma Hs. intros st1 Htr1 Ha Hm Hes Hcb Hti.
  destruct (Z.eqb_spec (Zlength data) (off + n)) as [Heq|Hneq].
  - pose proof (find_missing_session (post EV_RECV_LAST_FRAG st1)) as Hfm. cbv zeta in Hfm.
    change (cb_p (rcmn (rcb (post EV_RECV_LAST_FRAG st1)))) with (cb_p (rcmn (rcb st1))) in Hfm.
    change (trace (post EV_RECV_LAST_FRAG st1)) with (trace st1) in Hfm.
    change (bytes_recvd_bitmask (rcb (post EV_RECV_LAST_FRAG st1)))
      with (bytes_recvd_bitmask (rcb st1)) in Hfm.
    change (current_state (post EV_RECV_LAST_FRAG st1))
      with (t2_sm_post_event (current_state st1) EV_RECV_LAST_FRAG) in Hfm.
    change (all_received (post EV_RECV_LAST_FRAG st1)) with (all_received st1) in Hfm.
    unfold all_received in Hfm. unfold answered.
    rewrite Hcb, Htr1, Hm, Hes in Hfm. apply Hfm. by apply rx_session_post.
  - split; [by apply rx_session_data_state|]. by split_and!.
Qed.
End recv.
