(* ===== verification/TransportDelivery.v ===== *)
(** * Transport Service v2: delivery

    Runs of the receiving half: whatever genuine fragments of a datagram arrive,
    in whatever order and how often, between corrupted ones and timeouts, the
    application is never handed anything but the datagram; and fragments that
    cover the datagram in order get it delivered and acknowledged. *)

From S2P Require Import Prelude Crc TransportFsm TransportService TransportMask TransportReceive.
#[local] Open Scope Z_scope.
#[local] Open Scope zgw_scope.

#[local] Opaque t2_sm_post_event.

(** ** Inputs of a receiver *)

Inductive rx_input : Type :=
| RI_first (p : ts_param) (n : Z)
| RI_subseq (p : ts_param) (off n : Z)
| RI_corrupt (p : ts_param) (f : list Z)
| RI_rx_timer
| RI_reset_timer.

Definition fragment_cmd (f : list Z) : Prop :=
  Z.land (rd f 1) 0xf8 = COMMAND_FIRST_FRAGMENT \/
  Z.land (rd f 1) 0xf8 = COMMAND_SUBSEQUENT_FRAGMENT.

(** Fragments of [data] from the node [src], of the lengths a command can
    carry; fragments that fail the checksum; timers. *)
Definition rx_input_ok (data : list Z) (src : Z) (i : rx_input) : Prop :=
  match i with
  | RI_first p n => from_peer src p /\ 1 <= n <= 194 /\ n <= Zlength data
  | RI_subseq p off n => from_peer src p /\ 0 <= off /\ 1 <= n <= 193 /\ off + n <= Zlength data
  | RI_corrupt p f =>
      from_peer src p /\ 5 <= Zlength f <= 200 /\ fragment_cmd f /\ zgw_crc16 0x1D0F f <> 0
  | RI_rx_timer | RI_reset_timer => True
  end.

Definition recv_event (p : ts_param) (f : list Z) : ts_event := E_recv p f (Zlength f).

Definition event_of (data : list Z) (sid : Z) (i : rx_input) : ts_event :=
  match i with
  | RI_first p n => recv_event p (first_frame sid (Zlength data) (sub_buf data 0 n))
  | RI_subseq p off n => recv_event p (subseq_frame sid (Zlength data) off (sub_buf data off n))
  | RI_corrupt p f => recv_event p f
  | RI_rx_timer => E_rx_timer
  | RI_reset_timer => E_reset_timer
  end.

Section delivery.
Context (e : env) (data : list Z) (sid src : Z).
Context (Hdata : datagram_ok data) (Hsid : 0 <= sid < 16).

Abbreviation handle := (fun p f st => TransportService_ApplicationCommandHandler e p f (Zlength f) st).

Definition rx_inv (st : ts_state) : Prop := rx_closed st \/ rx_session data sid src st.

(** The application is only handed [data], and as coming from [src]. *)
Definition app_ok (o : output) : Prop :=
  match o with O_app q d => d = data /\ snode q = src | _ => True end.

(** [st'] extends the history of [st] by outputs that are all right. *)
Definition extends (st st' : ts_state) : Prop :=
  exists outs, trace st' = outs ++ trace st /\ Forall app_ok outs.

Lemma extends_refl st st' : trace st' = trace st -> extends st st'.
Proof. intros H. by exists []. Qed.

Lemma extends_trans st1 st2 st3 : extends st1 st2 -> extends st2 st3 -> extends st1 st3.
Proof.
  intros (o1 & H1 & F1) (o2 & H2 & F2). exists (o2 ++ o1).
  rewrite H2, H1, app_assoc. split; [done|]. by apply Forall_app.
Qed.

Lemma extends_delivered p st st' : snode p = src ->
  trace st' = delivered p data :: acknowledged p sid :: trace st -> extends st st'.
Proof. intros Hp H. exists [delivered p data; acknowledged p sid]. split; [done|]. by forall_list. Qed.

Lemma extends_requested p r m st st' :
  trace st' = replicate (S m) (requested p sid r) ++ trace st -> extends st st'.
Proof. intros H. eexists. split; [done|]. by apply Forall_replicate. Qed.

(** ** Steps while no session is open *)

(** A subsequent fragment outside a session is answered with a wait request. *)
Lemma closed_subseq p f st : rx_closed st -> from_peer src p -> 5 <= Zlength f <= 200 ->
  Z.land (rd f 1) 0xf8 = COMMAND_SUBSEQUENT_FRAGMENT ->
  rx_closed (handle p f st) /\ extends st (handle p f st).
Proof.
  intros [Hb Hi Hsn Hs] (Hsrc & Hne & Hnz & Hbc) Hlen Hcmd.
  pose proof Hb as [Hph Hfa Hap Hse Hds Hbu Hco Htx].
  assert (ZW_TransportService_Is_Sending (set_reset_timer st) = false) as Hsend.
  { unfold ZW_TransportService_Is_Sending, recv_or_send. cbn. by destruct (current_state st). }
  set (size := Z.shiftl (Z.land (rd f 1) 0x07) 8 + rd f 2).
  set (st1 := set_reset_timer st <| scb; frag_wait_p := p |>).
  assert (handle p f st = if DATAGRAM_SIZE_MAX <? size then post EV_DIFF_SESSION st1
                          else request_frag_wait e (post EV_SUBSEQ_DIFF_SESSION st1)) as ->.
  { unfold TransportService_ApplicationCommandHandler. cbv zeta. rewrite Hsend. cbn [andb].
    take_else by lia.
    take_else by (unfold DATAGRAM_SIZE_MAX; lia).
    take_else by (rewrite Hds, Hsn; unfold truth; lia).
    take_else by (rewrite Hds, Hsn; unfold truth; lia).
    rewrite !access_ok by lia.
    take_then by (rewrite Hs, Hcmd; done). done. }
  assert (rx_closed st1) as Hc1 by (split; [split|..]; done).
  assert (trace st1 = trace st) as Ht1 by done.
  assert (sending (scb st1) = false) as Hse1 by done.
  assert (session_id (rcmn (rcb st1)) = 0x10) as Hs1 by done.
  clearbody st1 size. destruct (DATAGRAM_SIZE_MAX <? size).
  - split; [|by apply extends_refl]. destruct Hc1. split; try done. by apply rx_base_post.
  - unfold request_frag_wait. simpl (sending _). rewrite Hse1.
    unfold send_frag_wait_cmd. simpl (sending _). rewrite Hse1. simpl (session_id _).
    rewrite Hs1. cbn [Z.eqb Pos.eqb]. split.
    + destruct Hc1 as [[]]. split; [split|..]; try done. simpl. by do 2 (apply rx_phase_post; [|done]).
    + eexists [_]. split; [simpl; by rewrite Ht1|]. by forall_list.
Qed.

(** ** Fragments that fail the checksum *)

Lemma sub_buf_all (f : list Z) : sub_buf f 0 (Zlength f) = f.
Proof. unfold sub_buf, Zlength. rewrite Nat2Z.id. by apply take_ge. Qed.

Lemma receive_corrupt f st :
  fragment (rcb st) = f -> fragment_len (rcb st) = Zlength f -> 5 <= Zlength f ->
  fragment_cmd f -> zgw_crc16 0x1D0F f <> 0 ->
  receive e st = st \/ receive e st = post EV_RECV_NEW_FRAG (abort_if_tie_broken st).
Proof.
  intros Hf Hfl Hlen Hcmd Hcrc. unfold receive. rewrite Hf, access_ok by lia. cbv zeta.
  destruct (negb (rd f 0 =? COMMAND_CLASS_TRANSPORT_SERVICE)); [by left|right].
  assert ((zgw_crc16 0x1D0F f =? 0) = false) as Hc by lia.
  destruct Hcmd as [-> | ->].
  - take_then by done. unfold receive_first. cbv zeta.
    rewrite !abort_if_tie_broken_rcb, Hf, Hfl, access_ok by lia.
    rewrite abort_if_tie_broken_rcb, Hf, sub_buf_all, Hc. by destruct (_ <=? _).
  - take_else by done. take_then by done. unfold receive_subseq. cbv zeta.
    rewrite !abort_if_tie_broken_rcb, Hf, Hfl, access_ok by lia.
    rewrite abort_if_tie_broken_rcb, Hf, sub_buf_all, Hc. by destruct (_ <=? _).
Qed.

Lemma corrupt_step p f st : rx_inv st -> from_peer src p -> 5 <= Zlength f <= 200 ->
  fragment_cmd f -> zgw_crc16 0x1D0F f <> 0 ->
  rx_inv (handle p f st) /\ extends st (handle p f st).
Proof.
  intros Hinv Hfrom Hlen Hcmd Hcrc. pose proof Hfrom as (Hsrc & Hne & Hnz & Hbc).
  destruct (rx_entry_spec p f st) as (Hf & Hfl & Hcb & Htr & Hi).
  assert (rx_base st) as Hb by by destruct Hinv as [[]|[]].
  destruct (decide (session_id (rcmn (rcb st)) = 0x10 /\
                    Z.land (rd f 1) 0xf8 = COMMAND_SUBSEQUENT_FRAGMENT)) as [[Hs Hsub]|Hn].
  { destruct Hinv as [Hc|Hses]; [|apply rxs_sid in Hses; lia].
    destruct (closed_subseq p f st Hc Hfrom Hlen Hsub). split; [by left|done]. }
  rewrite handler_receive;
    [|by apply rxb_phase|congruence|lia| |by apply rxb_dst|].
  - assert (rx_inv (rx_entry p f st)) as Hinv1.
    { destruct Hinv; [left; by apply rx_entry_closed|right; by apply rx_entry_session]. }
    generalize dependent (rx_entry p f st). intros st1 Hf Hfl Hcb Htr Hi Hinv1.
    destruct (receive_corrupt f st1) as [-> | ->]; try done; [lia|..].
    + split; [done|by apply extends_refl].
    + split; [|apply extends_refl; simpl; by rewrite abort_if_tie_broken_trace].
      destruct Hinv1 as [[]|]; [left|right; by apply rx_session_post, rx_session_abort].
      split; simpl; rewrite ?abort_if_tie_broken_rcb; try done.
      * by apply rx_base_post, rx_base_abort.
      * unfold abort_if_tie_broken. by destruct (flag_tie_broken _).
  - rewrite Hsrc. destruct Hinv as [[]|[]]; [by right|by left].
  - destruct (decide (session_id (rcmn (rcb st)) = 0x10)); [right|by left].
    intros Hsub. by apply Hn.
Qed.

(** ** Timers *)

Lemma discard_closed st : rx_base st -> flag_initialize_once st = false ->
  rx_closed (discard_all_received_fragments st).
Proof. intros []. by split; [split|..]. Qed.

Lemma find_missing_closed st : rx_closed st ->
  rx_closed (find_missing e st) /\ trace (find_missing e st) = trace st.
Proof.
  intros Hc. pose proof Hc as [Hb Hi Hsn Hs]. unfold find_missing. cbv zeta.
  destruct (truth _); destruct (_ =? _) eqn:?.
  - split; [by apply discard_closed|done].
  - unfold send_frag_req_cmd. cbv zeta. simpl (session_id _). rewrite Hs.
    change (0x0f <? 0x10) with true. cbv iota.
    assert (rx_base (post EV_MISSING_FRAG st)) as Hb1 by by apply rx_base_post.
    destruct (_ =? 0); (split; [|done]); (split; [|done..]).
    + apply (rx_base_post EV_SUCCESS) in Hb1; [|done]. by destruct Hb1.
    + by destruct Hb1.
  - done.
  - unfold send_frag_complete_cmd. simpl (session_id _). rewrite Hs.
    change (0x0f <? 0x10) with true. cbv iota. split; [|done]. split; try done.
    by apply rx_base_post.
Qed.

Lemma rx_timer_step st : rx_inv st ->
  rx_inv (rx_timer_expired e (st <| rcb; rx_timer := None |>)) /\
  extends st (rx_timer_expired e (st <| rcb; rx_timer := None |>)).
Proof.
  intros Hinv. unfold rx_timer_expired. cbv zeta.
  set (st1 := post EV_FRAG_RX_TIMER _).
  assert (rx_inv st1) as Hinv1.
  { destruct Hinv as [Hc|Hs]; [left|right].
    - destruct Hc as [[]]. split; [split|..]; try done. by apply rx_phase_post.
    - apply (rx_session_post _ _ _ EV_FRAG_RX_TIMER) in Hs; [|done].
      destruct Hs as [[]]. by split; [split|..]. }
  assert (trace st1 = trace st) as Ht by done.
  assert (rx_base st1 /\ flag_initialize_once st1 = false) as [Hb1 Hi1]
    by by destruct Hinv1 as [[]|[]].
  clearbody st1. destruct (_ && _).
  - split; [left; by apply discard_closed|by apply extends_refl].
  - destruct Hinv1 as [Hc|Hs].
    + destruct (find_missing_closed st1 Hc) as [Hc1 Ht1].
      split; [by left|]. apply extends_refl. congruence.
    + pose proof (rxs_peer _ _ _ _ Hs) as [Hsn _].
      destruct (find_missing_session e data sid src Hdata Hsid st1 Hs)
        as [(_ & Hc & Ht1 & _)|(r & m & _ & _ & _ & Hs1 & _ & _ & Ht1 & _)]; rewrite Ht in Ht1.
      * split; [by left|]. by eapply extends_delivered.
      * split; [by right|]. by eapply extends_requested.
Qed.

(** ** Every input keeps the invariant *)

Lemma rx_input_step i st st' : rx_inv st -> rx_input_ok data src i ->
  ts_step e (event_of data sid i) st = Some st' -> rx_inv st' /\ extends st st'.
Proof.
  intros Hinv Hok Hstep. destruct i as [p n|p off n|p f| |]; simpl in Hok.
  - destruct Hok as (Hp & Hn & Hl). injection Hstep as <-.
    assert (rx_ready st \/ rx_session data sid src st) as Hst.
    { destruct Hinv as [[]|]; [left|by right]. split_and!; [done..|by right]. }
    pose proof (first_fragment_step e data sid src Hdata Hsid p n st Hst Hp Hn Hl) as H.
    cbv zeta in H. destruct (Zlength data =? n).
    + destruct H as (Hc & Ht & _). split; [by left|]. eapply extends_delivered; [|done]. by destruct Hp.
    + destruct H as (Hs & Ht & _). split; [by right|by apply extends_refl].
  - destruct Hok as (Hp & Ho & Hn & Hl). injection Hstep as <-. pose proof Hdata as [_ Hd].
    destruct Hinv as [Hc|Hs].
    + destruct (closed_subseq p (subseq_frame sid (Zlength data) off (sub_buf data off n)) st)
        as [? ?]; try done; [rewrite Zlength_subseq_frame, Zlength_sub_buf; lia| |split; [by left|done]].
      destruct (size_decode COMMAND_SUBSEQUENT_FRAGMENT (Zlength data)) as [Hcmd _];
        [by right|lia|exact Hcmd].
    + pose proof (subseq_fragment_step e data sid src Hdata Hsid p off n st Hs Hp Ho Hn Hl) as H.
      cbv zeta in H. destruct (Zlength data =? off + n).
      * destruct H as [(_ & Hc & Ht & _)|(r & m & _ & _ & _ & Hs1 & _ & _ & Ht & _)].
        -- split; [by left|]. eapply extends_delivered; [|done]. by destruct Hp.
        -- split; [by right|]. by eapply extends_requested.
      * destruct H as (Hs1 & Ht & _). split; [by right|by apply extends_refl].
  - destruct Hok as (Hp & Hl & Hcmd & Hcrc). injection Hstep as <-. by apply corrupt_step.
  - simpl in Hstep. unfold fire in Hstep. destruct (rx_timer (rcb st)); [|done].
    injection Hstep as <-. by apply rx_timer_step.
  - simpl in Hstep. unfold fire in Hstep. destruct (reset_timer (scb st)); [|done].
    injection Hstep as <-. split; [left|by apply extends_refl].
    destruct Hinv as [[[]]|[[]]]; by split; [split|..].
Qed.

Lemma rx_run_inv ins st st' : rx_inv st -> Forall (rx_input_ok data src) ins ->
  ts_run e (map (event_of data sid) ins) st = Some st' -> rx_inv st' /\ extends st st'.
Proof.
  intros Hinv Hok. revert st Hinv. induction Hok as [|i ins Hi Hok IH]; intros st Hinv Hrun.
  - injection Hrun as <-. split; [done|by apply extends_refl].
  - cbn [map ts_run] in Hrun. destruct (ts_step e (event_of data sid i) st) as [st1|] eqn:E; [|done].
    destruct (rx_input_step i st st1 Hinv Hi E) as [Hinv1 Hext].
    destruct (IH st1 Hinv1 Hrun) as [? ?]. split; [done|]. by eapply extends_trans.
Qed.
End delivery.

(** ** Progress *)

Section progress.
Context (e : env) (data : list Z) (sid src : Z) (p : ts_param).
Context (Hdata : datagram_ok data) (Hsid : 0 <= sid < 16) (Hp : from_peer src p).

(** The fragments that carry the datagram from [off] on, cut into pieces of the
    given lengths. *)
Fixpoint fragments_from (off : Z) (cuts : list Z) : list rx_input :=
  match cuts with
  | [] => []
  | n :: cuts => RI_subseq p off n :: fragments_from (off + n) cuts
  end.

(** The datagram was handed over and acknowledged, and the module is idle. *)
Definition done_with (st st' : ts_state) : Prop :=
  rx_closed st' /\ current_state st' = ST_IDLE /\
  trace st' = delivered p data :: acknowledged p sid :: trace st.

(** The bytes before [off] have been received. *)
Definition prefix_received (off : Z) (st : ts_state) : Prop :=
  forall j, 0 <= j < off -> bit_received (bytes_recvd_bitmask (rcb st)) j = true.

Lemma prefix_extend off n mask : mask_ok mask -> 0 <= off -> 0 <= n -> off + n <= 200 ->
  (forall j, 0 <= j < off -> bit_received mask j = true) ->
  forall j, 0 <= j < off + n -> bit_received (mark_range (Z.to_nat n) off mask) j = true.
Proof.
  intros Hm Ho Hn Hl Hpre j Hj. rewrite bit_received_range by first [done|lia].
  destruct (Z.lt_ge_cases j off); [rewrite Hpre by lia; apply orb_true_r|lia].
Qed.

Lemma in_order_tail cuts off st :
  rx_session data sid src st -> current_state st = ST_RECEIVING -> 1 <= off ->
  prefix_received off st -> Forall (fun n => 1 <= n <= 193) cuts -> cuts <> [] ->
  off + foldr Z.add 0 cuts = Zlength data ->
  exists st', ts_run e (map (event_of data sid) (fragments_from off cuts)) st = Some st' /\
              done_with st st'.
Proof.
  intros Hs Hst Ho Hpre Hcuts Hne Hsum. pose proof Hdata as [_ Hd].
  revert off st Hs Hst Ho Hpre Hsum. induction Hcuts as [|n cuts Hn Hcuts IH]; [done|].
  intros off st Hs Hst Ho Hpre Hsum. simpl in Hsum.
  assert (0 <= foldr Z.add 0 cuts) as Hpos.
  { clear -Hcuts. induction Hcuts; simpl; lia. }
  cbn [fragments_from map ts_run]. unfold event_of at 1, recv_event, ts_step at 1.
  pose proof (subseq_fragment_step e data sid src Hdata Hsid p off n st Hs Hp ltac:(lia) Hn ltac:(lia)) as H.
  cbv zeta beta in H. set (f := subseq_frame _ _ _ _) in *.
  set (st1 := TransportService_ApplicationCommandHandler e p f (Zlength f) st) in *.
  pose proof (prefix_extend off n _ (rxs_mask _ _ _ _ Hs) ltac:(lia) ltac:(lia) ltac:(lia) Hpre) as Hpre1.
  rewrite Hst in H. clearbody st1. destruct cuts as [|n' cuts].
  - simpl in Hsum. replace (Zlength data =? off + n) with true in H by lia.
    exists st1. split; [reflexivity|]. clear IH.
    destruct H as [(_ & Hc & Ht & Hs1)|(r & m & Hr & Hbit & _)].
    + split; [exact Hc|]. split; [|exact Ht]. rewrite Hs1. by vm_compute.
    + rewrite Hpre1 in Hbit by lia. done.
  - assert (1 <= n') by (inversion Hcuts; lia).
    assert (0 <= foldr Z.add 0 cuts) by (inversion Hcuts as [|? ? ? Hc']; subst; clear -Hc'; induction Hc'; simpl; lia).
    replace (Zlength data =? off + n) with false in H by (simpl in Hsum; lia).
    destruct H as (Hs1 & Ht1 & Hst1 & Hm1 & _). rewrite Hst in Hst1.
    destruct (IH ltac:(done) (off + n) st1 Hs1 Hst1) as (st' & Hrun & Hc & Hs' & Ht');
      [lia|unfold prefix_received; by rewrite Hm1|simpl in *; lia|].
    exists st'. split; [exact Hrun|]. split; [exact Hc|]. split; [exact Hs'|]. by rewrite Ht', Ht1.
Qed.

(** ** Repair

    [repair] plays the sender of the datagram, which knows the receiver only by
    what it sends.  It reads the last segment request among the frames the
    receiver has sent since the sender did something, and answers it with the
    fragment of up to [n] bytes at the offset it finds there; when no request
    came it is silent, until the receiver's timer fires. *)
Definition request_in (o : output) : option Z :=
  match o with
  | O_send _ dst f _ _ =>
      if (dst =? snode p) && (rd f 0 =? COMMAND_CLASS_TRANSPORT_SERVICE) && (Z.land (rd f 1) 0xf8 =? COMMAND_SEGMENT_REQUEST_V2)
         && (Z.shiftr (Z.land (rd f 2) 0xf0) 4 =? sid)
      then Some (Z.lor (Z.shiftl (Z.land (rd f 2) 0x7) 8) (rd f 3)) else None
  | _ => None
  end.
Definition heard (st st' : ts_state) : option Z := head (omap request_in (take (length (trace st') - length (trace st)) (trace st'))).

Fixpoint repair (n : Z) (fuel : nat) (req : option Z) (st : ts_state) : option ts_state :=
  match fuel with
  | O => Some st
  | S fuel =>
      if session_id (rcmn (rcb st)) =? 0x10 then Some st
      else
        let ev := match req with
                  | Some r => event_of data sid (RI_subseq p r (Z.min n (Zlength data - r)))
                  | None => E_rx_timer
                  end in
        match ts_step e ev st with
        | Some st' => repair n fuel (heard st st') st'
        | None => None
        end
  end.

(** [r] is the first byte that is missing. *)
Definition first_missing (r : Z) (st : ts_state) : Prop :=
  1 <= r < Zlength data /\ bit_received (bytes_recvd_bitmask (rcb st)) r = false /\
  prefix_received r st.

(** Outputs that only ask for something. *)
Definition asks (o : output) : Prop := exists r, o = requested p sid r.

Lemma request_in_requested r : 0 <= r < 200 -> request_in (requested p sid r) = Some r.
Proof.
  intros Hr. assert (forall s, 0 <= s < 16 -> forall r, 0 <= r < 200 -> let f := request_frame s r in
    (rd f 0 =? COMMAND_CLASS_TRANSPORT_SERVICE) && (Z.land (rd f 1) 0xf8 =? COMMAND_SEGMENT_REQUEST_V2) && (Z.shiftr (Z.land (rd f 2) 0xf0) 4 =? s)
    && (Z.lor (Z.shiftl (Z.land (rd f 2) 0x7) 8) (rd f 3) =? r) = true) as Hall.
  { intros s Hs. apply (range_all 0 200). revert s Hs. apply (range_all 0 16). by vm_compute. }
  specialize (Hall sid Hsid r Hr). cbv zeta in Hall. rewrite !andb_true_iff in Hall. destruct Hall as (((H0 & H1) & H2) & H3).
  unfold request_in, requested. rewrite Z.eqb_refl, H0, H1, H2. cbn [andb]. f_equal. by apply Z.eqb_eq.
Qed.

(** A sender that hears one request or several of the same hears its offset. *)
Lemma heard_requests r m st st' : 0 <= r < 200 -> trace st' = replicate (S m) (requested p sid r) ++ trace st -> heard st st' = Some r.
Proof.
  intros Hr Ht. unfold heard. rewrite Ht, length_app. replace (_ + _ - _)%nat with (length (replicate (S m) (requested p sid r))) by lia.
  rewrite take_app_length. cbn [replicate omap list_omap]. by rewrite request_in_requested.
Qed.

Lemma heard_nothing st st' : trace st' = trace st -> heard st st' = None.
Proof. intros Ht. unfold heard. rewrite Ht, Nat.sub_diag. done. Qed.

(** The receiver waits for the timer that makes it ask. *)
Definition waits (st : ts_state) : Prop :=
  is_Some (rx_timer (rcb st)) /\ rx_data_state (rcb st) = false /\ cb_p (rcmn (rcb st)) = p.

(** Between two rounds: the bytes before [b] have arrived; the sender has the
    request for [b], which is missing, or nothing, and the receiver's timer runs. *)
Definition round_ok (b : Z) (req : option Z) (st : ts_state) : Prop :=
  rx_session data sid src st /\ current_state st = ST_RECEIVING /\ 0 <= b <= Zlength data /\ prefix_received b st /\
  match req with Some r => r = b /\ first_missing b st | None => waits st end.
Definition progress (b : Z) (req : option Z) : Z := 2 * b + if req then 1 else 0.

(** Where a round ends: the datagram was delivered, or there is progress. *)
Definition repaired (m : Z) (st st' : ts_state) : Prop :=
  done_with st st' \/
  (exists b outs, round_ok b (heard st st') st' /\ trace st' = outs ++ trace st /\ Forall asks outs /\ m < progress b (heard st st')).

Lemma answered_repaired b s mask st st' :
  answered data sid src p mask s st st' -> s = ST_FIND_MISS_FRAG ->
  (forall j, 0 <= j < b -> bit_received mask j = true) -> repaired (2 * b) st st'.
Proof.
  intros [(_ & Hc & Ht & Hs)|(r' & m & Hr & Hbit & Hpre & Hs & Hm & _ & Ht & Hst)] -> Hall.
  - left. split; [exact Hc|]. split; [|exact Ht]. rewrite Hs. by vm_compute.
  - right. exists r', (replicate (S m) (requested p sid r')). pose proof Hdata as [_ Hd].
    assert (prefix_received r' st') as Hp' by (unfold prefix_received; by rewrite Hm).
    assert (first_missing r' st') as Hfm by (split; [assumption|]; rewrite Hm; by split).
    rewrite (heard_requests r' m st st') by (lia || done). split_and!; [|done|apply Forall_replicate; by exists r'|].
    + split_and!; [assumption|rewrite Hst; by vm_compute|lia|lia|assumption|done|assumption].
    + unfold progress. destruct (Z.lt_ge_cases r' b) as [Hlt|]; [|lia]. rewrite Hall in Hbit by lia. discriminate Hbit.
Qed.

Lemma repair_fragment n b st (k := Z.min n (Zlength data - b)) : 1 <= n <= 193 -> round_ok b (Some b) st ->
  exists st', ts_step e (event_of data sid (RI_subseq p b k)) st = Some st' /\ repaired (progress b (Some b)) st st'.
Proof.
  intros Hn (Hs & Hst & Hb & Hpre & _ & Hr & _). pose proof Hdata as [_ Hd].
  pose proof (subseq_fragment_step e data sid src Hdata Hsid p b k st Hs Hp ltac:(lia) ltac:(lia) ltac:(lia)) as H.
  pose proof (prefix_extend b k _ (rxs_mask _ _ _ _ Hs) ltac:(lia) ltac:(lia) ltac:(lia) Hpre) as Hpre1.
  cbv zeta beta in H. set (f := subseq_frame _ _ _ _) in *. exists (TransportService_ApplicationCommandHandler e p f (Zlength f) st).
  split; [reflexivity|]. generalize dependent (TransportService_ApplicationCommandHandler e p f (Zlength f) st).
  intros st1 H. rewrite Hst in H. destruct (Z.eqb_spec (Zlength data) (b + k)) as [|Hk].
  - apply (answered_repaired (b + k)) in H; [|by vm_compute|exact Hpre1]. destruct H as [H|(b' & outs & H1 & H2 & H3 & H4)]; [by left|right].
    exists b', outs. split_and!; try done. unfold progress in *. lia.
  - destruct H as (Hs1 & Ht1 & Hst1 & Hm1 & Hti & Hds & Hcb). rewrite Hst in Hst1. right. exists (b + k), [].
    rewrite (heard_nothing st st1 Ht1). split_and!; [|done|by apply Forall_nil|unfold progress; lia].
    split_and!; [done|done|lia|lia|unfold prefix_received; by rewrite Hm1|]. split_and!; [by rewrite Hti|done|done].
Qed.

Lemma repair_timer b st : round_ok b None st -> exists st', ts_step e E_rx_timer st = Some st' /\ repaired (progress b None) st st'.
Proof.
  intros (Hs & Hst & Hb & Hpre & [ti Hti] & Hds & Hcb). simpl. unfold fire. rewrite Hti. eexists. split; [reflexivity|].
  unfold rx_timer_expired. cbv zeta. simpl (rx_data_state _). rewrite Hds. cbn [andb]. set (st2 := post EV_FRAG_RX_TIMER _).
  assert (rx_session data sid src st2) as Hs2.
  { apply (rx_session_post _ _ _ EV_FRAG_RX_TIMER) in Hs; [|done]. destruct Hs as [[]]. by split; [split|..]. }
  assert (current_state st2 = ST_FIND_MISS_FRAG) as Hst2 by (unfold st2; simpl; rewrite Hst; by vm_compute).
  assert (trace st2 = trace st /\ cb_p (rcmn (rcb st2)) = p /\ bytes_recvd_bitmask (rcb st2) = bytes_recvd_bitmask (rcb st)) as (Ht2 & Hcb2 & Hm2) by done.
  clearbody st2. pose proof (find_missing_session e data sid src Hdata Hsid st2 Hs2) as Hfm.
  cbv zeta in Hfm. unfold all_received in Hfm. rewrite Hcb2, Ht2, Hm2, Hst2 in Hfm.
  unfold progress. rewrite Z.add_0_r. eapply answered_repaired; [exact Hfm|reflexivity|exact Hpre].
Qed.

Lemma repair_round n b req st : 1 <= n <= 193 -> round_ok b req st ->
  exists st', repaired (progress b req) st st' /\ forall fuel, repair n (S fuel) req st = repair n fuel (heard st st') st'.
Proof.
  intros Hn Hok. pose proof Hok as (Hs & _ & _ & _ & Hreq).
  assert ((session_id (rcmn (rcb st)) =? 0x10) = false) as Hsid' by (rewrite (rxs_sid _ _ _ _ Hs); lia).
  destruct req as [r|].
  - destruct Hreq as [-> _]. destruct (repair_fragment n b st Hn Hok) as (st' & Hstep & Hrep). exists st'. split; [done|].
    intros fuel. cbn [repair]. by rewrite Hsid', Hstep.
  - destruct (repair_timer b st Hok) as (st' & Hstep & Hrep). exists st'. split; [done|]. intros fuel. cbn [repair]. by rewrite Hsid', Hstep.
Qed.

Lemma progress_bound b req st : round_ok b req st -> progress b req <= 2 * Zlength data.
Proof. intros (_ & _ & Hb & _ & Hreq). unfold progress. destruct req; [destruct Hreq as [_ [Hr _]]|]; lia. Qed.

Lemma repair_delivers n b req fuel st : 1 <= n <= 193 -> round_ok b req st -> 2 * Zlength data - progress b req <= Z.of_nat fuel ->
  exists st' outs, repair n (S (S fuel)) req st = Some st' /\ rx_closed st' /\ current_state st' = ST_IDLE /\
    trace st' = delivered p data :: acknowledged p sid :: outs ++ trace st /\ Forall asks outs.
Proof.
  intros Hn. revert b req st. induction fuel as [|fuel IH]; intros b req st Hok Hf;
    destruct (repair_round n b req st Hn Hok) as (st1 & [(Hc & Hs1 & Ht)|(b' & outs & Hok' & Ht & Hasks & Hlt)] & ->).
  1, 3: exists st1, []; cbn [repair]; rewrite (rxc_sid _ Hc); by rewrite Z.eqb_refl.
  - apply progress_bound in Hok'. lia.
  - destruct (IH b' _ st1 Hok' ltac:(lia)) as (st' & outs' & Hrep & Hc & Hs' & Ht' & Hasks'). exists st', (outs' ++ outs).
    split; [exact Hrep|]. split; [exact Hc|]. split; [exact Hs'|]. rewrite Ht', Ht, app_assoc. split; [done|]. by apply Forall_app.
Qed.
End progress.

(** C4. From a quiet module on, a first fragment of [data] followed by any genuine
    fragments of it, corrupted fragments and timeouts meets no undefined
    behaviour and hands nothing but [data] to the application. *)
Theorem delivery_integrity e data sid src p n ins st st' :
  datagram_ok data -> 0 <= sid < 16 -> rx_ready st ->
  Forall (rx_input_ok data src) (RI_first p n :: ins) ->
  ts_run e (map (event_of data sid) (RI_first p n :: ins)) st = Some st' ->
  fault st' = None /\
  exists outs, trace st' = outs ++ trace st /\
    forall q d, O_app q d ∈ outs -> d = data /\ snode q = src.
Proof.
  intros Hdata Hsid Hready Hok Hrun. inversion Hok as [|? ? Hi Hok']; subst.
  destruct Hi as (Hp & Hn & Hl). cbn [map ts_run event_of recv_event ts_step] in Hrun.
  pose proof (first_fragment_step e data sid src Hdata Hsid p n st (or_introl Hready) Hp Hn Hl) as H.
  cbv zeta in H. set (st1 := TransportService_ApplicationCommandHandler e p _ _ st) in *.
  assert (rx_inv data sid src st1 /\ extends data src st st1) as [Hinv1 Hext1].
  { destruct (Zlength data =? n).
    - destruct H as (Hc & Ht & _). split; [by left|]. eapply extends_delivered; [|done]. by destruct Hp.
    - destruct H as (Hs & Ht & _). split; [by right|by apply extends_refl]. }
  destruct (rx_run_inv e data sid src Hdata Hsid ins st1 st' Hinv1 Hok' Hrun) as [Hinv' Hext'].
  split; [by destruct Hinv' as [[[]]|[[]]]|].
  destruct (extends_trans _ _ _ _ _ Hext1 Hext') as (outs & Ht & Hall).
  exists outs. split; [done|]. intros q d Hin. rewrite Forall_forall in Hall.
  exact (Hall _ Hin).
Qed.

Lemma in_order_run e data sid src p n cuts st :
  datagram_ok data -> 0 <= sid < 16 -> from_peer src p -> rx_ready st ->
  current_state st = ST_IDLE ->
  1 <= n <= 194 -> Forall (fun n => 1 <= n <= 193) cuts -> cuts <> [] ->
  n + foldr Z.add 0 cuts = Zlength data ->
  exists st',
    ts_run e (map (event_of data sid) (RI_first p n :: fragments_from p n cuts)) st = Some st' /\
    fault st' = None /\ current_state st' = ST_IDLE /\
    trace st' = delivered p data :: acknowledged p sid :: trace st.
Proof.
  intros Hdata Hsid Hp Hready Hst Hn Hcuts Hne Hsum.
  assert (0 < foldr Z.add 0 cuts) as Hpos.
  { destruct Hcuts as [|k cuts Hk Hcuts]; [done|]. simpl.
    assert (0 <= foldr Z.add 0 cuts) by (clear -Hcuts; induction Hcuts; simpl; lia). lia. }
  pose proof (first_fragment_step e data sid src Hdata Hsid p n st (or_introl Hready) Hp Hn ltac:(lia)) as H.
  cbn [map ts_run]. unfold event_of at 1, recv_event, ts_step at 1.
  cbv zeta beta in H. set (f := first_frame _ _ _) in *.
  generalize dependent (TransportService_ApplicationCommandHandler e p f (Zlength f) st).
  intros st1 H. rewrite (proj2 (Z.eqb_neq (Zlength data) n)) in H by lia.
  destruct H as (Hs1 & Ht1 & Hst1 & Hm1). rewrite Hst in Hst1.
  destruct (in_order_tail e data sid src p Hdata Hsid Hp cuts n st1)
    as (st' & Hrun & Hc & Hs' & Ht'); try done; [lia|..].
  { intros j Hj. rewrite Hm1, bit_received_range by first [apply mask_ok_zero|destruct Hdata; lia]. lia. }
  exists st'. split; [exact Hrun|]. split; [by destruct Hc as [[]]|]. split; [exact Hs'|].
  by rewrite Ht', Ht1.
Qed.

(** The fragments of a datagram, in order, get it acknowledged to the sender and
    handed to the application once, and leave the module idle. *)
Theorem in_order_delivery e data sid src p n cuts st :
  datagram_ok data -> 0 <= sid < 16 -> from_peer src p -> rx_ready st ->
  current_state st = ST_IDLE ->
  1 <= n <= 194 -> Forall (fun n => 1 <= n <= 193) cuts -> cuts <> [] ->
  n + foldr Z.add 0 cuts = Zlength data ->
  exists st',
    ts_run e (map (event_of data sid) (RI_first p n :: fragments_from p n cuts)) st = Some st' /\
    fault st' = None /\ current_state st' = ST_IDLE /\
    trace st' = delivered p data :: acknowledged p sid :: trace st.
Proof. apply in_order_run. Qed.


(** ** The hypotheses are satisfiable *)

(** An environment that takes every frame. *)
Definition env_ok (node : Z) : env :=
  {| env_send := fun _ => true; env_rand := fun _ => 3; env_clock := fun _ => 1000;
     env_fuel := 1; MyNodeID := node |}.

Definition unicast (src dst : Z) : ts_param :=
  ts_param_zero <| snode := src |> <| dnode := dst |> <| tx_flags := 0x25 |>.

Definition ts_started : ts_state := ZW_TransportService_Init ts_init.

Lemma ts_started_ready : rx_ready ts_started.
Proof. split; [by split|]. split; [done|]. by left. Qed.

Lemma sample_ok n : 1 <= n <= 200 -> datagram_ok (seqZ 0 n).
Proof.
  intros Hn. split.
  - apply Forall_forall. intros x Hx. apply elem_of_seqZ in Hx. unfold byte. lia.
  - unfold Zlength. rewrite length_seqZ. lia.
Qed.

Lemma unicast_from_peer : from_peer 1 (unicast 1 2).
Proof. split_and!; (reflexivity || discriminate). Qed.

Lemma delivery_integrity_witness :
  exists st', ts_run (env_ok 2) (map (event_of (seqZ 0 100) 3)
      [RI_first (unicast 1 2) 39; RI_subseq (unicast 1 2) 78 22; RI_corrupt (unicast 1 2) [0x55; 0xC0; 100; 0x30; 1; 2; 3];
       RI_subseq (unicast 1 2) 39 39; RI_rx_timer]) ts_started = Some st' /\
    fault st' = None /\
    exists outs, trace st' = outs ++ trace ts_started /\
      forall q d, O_app q d ∈ outs -> d = seqZ 0 100 /\ snode q = 1.
Proof.
  destruct (ts_run (env_ok 2) (map (event_of (seqZ 0 100) 3)
      [RI_first (unicast 1 2) 39; RI_subseq (unicast 1 2) 78 22; RI_corrupt (unicast 1 2) [0x55; 0xC0; 100; 0x30; 1; 2; 3];
       RI_subseq (unicast 1 2) 39 39; RI_rx_timer]) ts_started) as [st'|] eqn:E;
    [|by vm_compute in E].
  exists st'. split; [reflexivity|].
  apply (delivery_integrity (env_ok 2) (seqZ 0 100) 3 1 (unicast 1 2) 39
      [RI_subseq (unicast 1 2) 78 22; RI_corrupt (unicast 1 2) [0x55; 0xC0; 100; 0x30; 1; 2; 3];
       RI_subseq (unicast 1 2) 39 39; RI_rx_timer] ts_started st');
      [apply sample_ok; lia|lia|apply ts_started_ready| |exact E].
  forall_list; cbn [rx_input_ok];
    repeat match goal with |- _ /\ _ => split end;
    lazymatch goal with
    | |- from_peer _ _ => apply unicast_from_peer
    | |- fragment_cmd _ => left; vm_compute; reflexivity
    | |- True => exact I
    | |- _ => vm_compute; discriminate
    end.
Defined.

Lemma in_order_delivery_witness :
  exists st', ts_run (env_ok 2) (map (event_of (seqZ 0 100) 3)
      (RI_first (unicast 1 2) 39 :: fragments_from (unicast 1 2) 39 [39; 22])) ts_started = Some st' /\
    fault st' = None /\ current_state st' = ST_IDLE /\
    trace st' = delivered (unicast 1 2) (seqZ 0 100) :: acknowledged (unicast 1 2) 3 :: trace ts_started.
Proof.
  apply (in_order_delivery (env_ok 2) (seqZ 0 100) 3 1 (unicast 1 2) 39 [39; 22] ts_started);
    [apply sample_ok; lia|lia|apply unicast_from_peer|apply ts_started_ready|reflexivity|lia|
     forall_list; lia|discriminate|reflexivity].
Defined.

(** After the first of three fragments, with the other two lost. *)
Definition sample_gap : ts_state :=
  TransportService_ApplicationCommandHandler (env_ok 2) (unicast 1 2)
    (first_frame 3 100 (sub_buf (seqZ 0 100) 0 39)) 45 ts_started.

Lemma sample_gap_session : rx_session (seqZ 0 100) 3 1 sample_gap.
Proof.
  pose proof (first_fragment_step (env_ok 2) (seqZ 0 100) 3 1 ltac:(apply sample_ok; lia) ltac:(lia)
    (unicast 1 2) 39 ts_started (or_introl ts_started_ready) unicast_from_peer ltac:(lia)) as H.
  cbv zeta in H. destruct H as [H _]; [by vm_compute|]. exact H.
Qed.

