(* ===== verification/TransportSend.v ===== *)
(** * Transport Service v2: sending

    The sending half of transport_service2.c against its contract: a datagram
    goes out as the first fragment and the subsequent ones, each with its bytes
    in place and its checksum, one after the other as the send callback and the
    timer between two fragments allow, and the completion function is called
    when the receiver confirms. *)

From S2P Require Import Prelude Crc TransportFsm TransportService TransportMask TransportReceive TransportDelivery.
#[local] Open Scope Z_scope.
#[local] Open Scope zgw_scope.

(** ** Frames in the transmit buffer *)

(** The bytes [hdr], [payload] and the checksum of both, written one after the
    other, are the frame. *)
Lemma txbuf_frame hdr payload st :
  length (t2_txBuf st) = 54%nat -> Zlength hdr + Zlength payload + 2 <= 54 ->
  let st1 := add_crc (Zlength hdr + Zlength payload)
               (txbuf_write (Zlength hdr) payload (txbuf_write 0 hdr st)) in
  st1 = st <| t2_txBuf := t2_txBuf st1 |> /\ length (t2_txBuf st1) = 54%nat /\
  sub_buf (t2_txBuf st1) 0 (Zlength hdr + Zlength payload + 2) = with_crc (hdr ++ payload).
Proof.
  intros Hl Hlen. unfold add_crc, txbuf_write. change TXBUF_SIZE with 54.
  assert (forall A (l : list A), 0 <= Zlength l) as Hnn by (intros; unfold Zlength; lia).
  pose proof (Hnn _ hdr). pose proof (Hnn _ payload).
  change (Zlength [_; _]) with 2. rewrite !access_ok by lia.
  assert (Zlength (t2_txBuf st) = 54) as HL by (unfold Zlength; lia). cbv zeta.
  set (b := memcpy_at (t2_txBuf (modify t2_txBuf _ st)) (Zlength hdr) payload).
  assert (sub_buf b 0 (Zlength hdr + Zlength payload) = hdr ++ payload) as Hb.
  { apply sub_buf_memcpy_app; [|done|]; simpl; rewrite ?Zlength_memcpy_at; [|lia].
    apply sub_buf_memcpy_0. lia. }
  assert (Zlength b = 54) as HbL by (unfold b; simpl; by rewrite !Zlength_memcpy_at).
  clearbody b. split; [|split].
  - by destruct st.
  - simpl. rewrite length_memcpy_at. unfold Zlength in HbL. lia.
  - simpl. rewrite Hb. unfold with_crc. cbv zeta.
    change 2 with (Zlength [Z.land (Z.shiftr (zgw_crc16 7439 (hdr ++ payload)) 8) 255;
                            Z.land (zgw_crc16 7439 (hdr ++ payload)) 255]).
    apply sub_buf_memcpy_app; [done|by rewrite Zlength_app|]. change (Zlength [_; _]) with 2. lia.
Qed.

(** The same with the payload taken from the datagram. *)
Lemma put_frag_ok hdr h off n st :
  let data := datagram (scb st) in
  let st1 := txbuf_write 0 hdr st in
  let st2 := access off n (Zlength (datagram (scb st1))) st1 in
  h = Zlength hdr -> length (t2_txBuf st) = 54%nat ->
  0 <= off -> 0 <= n -> h + n + 2 <= 54 -> off + n <= Zlength data ->
  exists b, add_crc (n + h) (txbuf_write h (sub_buf (datagram (scb st2)) off n) st2) =
            st <| t2_txBuf := b |> /\
    length b = 54%nat /\ sub_buf b 0 (n + h + 2) = with_crc (hdr ++ sub_buf data off n).
Proof.
  intros data st1 st2 -> Htx Hoff Hn Hh Hon.
  assert (datagram (scb st1) = data) as Hd1.
  { unfold st1, txbuf_write, access. by destruct (in_range _ _ _). }
  unfold st2. rewrite Hd1, access_ok by lia. rewrite Hd1.
  assert (Zlength (sub_buf data off n) = n) as Hp by (apply Zlength_sub_buf; lia).
  destruct (txbuf_frame hdr (sub_buf data off n) st) as (Heq & Hlen & Hsub); [done|lia|].
  rewrite Hp in *. replace (Zlength hdr + n) with (n + Zlength hdr) in * by lia.
  exists (t2_txBuf (add_crc (n + Zlength hdr) (txbuf_write (Zlength hdr) (sub_buf data off n) st1))).
  done.
Qed.

Lemma put_subseq_frag_ok data off n st :
  datagram (scb st) = data -> datagram_len (scb st) = Zlength data ->
  datalen_to_send (scb st) = n -> length (t2_txBuf st) = 54%nat ->
  0 <= off -> 0 <= n <= 47 -> off + n <= Zlength data ->
  exists b, put_subseq_frag off st = st <| t2_txBuf := b |> /\ length b = 54%nat /\
    sub_buf b 0 (n + 7) =
    subseq_frame (session_id (scmn (scb st))) (Zlength data) off (sub_buf data off n).
Proof.
  intros <- Hl Hn Htx Hoff Hn47 Hon. unfold put_subseq_frag. cbv zeta. rewrite Hl, Hn.
  replace (n + 7) with (n + 5 + 2) by lia. by apply put_frag_ok; first [done|lia].
Qed.

(** ** A datagram under way *)

(** The datagram [data] is being sent with parameters [p] for the completion
    function [f] in session [sid], [fmp] bytes at a time. *)
Record tx_common (data : list Z) (p : ts_param) (f sid fmp : Z) (st : ts_state) : Prop := {
  txc_fault : fault st = None;
  txc_datagram : datagram (scb st) = data;
  txc_len : datagram_len (scb st) = Zlength data;
  txc_p : cb_p (scmn (scb st)) = p;
  txc_f : completedFunc (scmn (scb st)) = f;
  txc_sid : session_id (scmn (scb st)) = sid;
  txc_fmp : FragmentMaxPayload st = fmp;
  txc_compl : frag_compl_list (scb st) !! Z.to_nat sid = Some false;
  txc_compl_len : length (frag_compl_list (scb st)) = 15%nat;
  txc_aborted : transmission_aborted (scb st) = 0x11;
  txc_wait : flag_send_frag_wait (scb st) = false;
  txc_reply : flag_reply_frag_req (scb st) = false;
  txc_replied : flag_replied_frag_req (scb st) = false;
  txc_dst : current_dnode (scb st) = dnode p;
  txc_txbuf : length (t2_txBuf st) = 54%nat;
}.

(** The bytes from [off] on are still to go. *)
Record tx_session (data : list Z) (p : ts_param) (f sid fmp off : Z) (st : ts_state) : Prop := {
  txs_common : tx_common data p f sid fmp st;
  txs_state : current_state st = ST_SEND_FRAG;
  txs_remaining : remaining_data_len (scb st) = Zlength data - off;
}.

(** All is sent and the receiver has to confirm. *)
Record tx_waiting (data : list Z) (p : ts_param) (f sid fmp : Z) (st : ts_state) : Prop := {
  txw_common : tx_common data p f sid fmp st;
  txw_state : current_state st = ST_WAIT_ACK;
  txw_timer : fc_timer (rcb st) = Some FRAGMENT_FC_TIMEOUT;
  txw_sending : sending (scb st) = false;
}.

(** A destination the sender expects a confirmation from. *)
Definition to_peer (p : ts_param) : Prop :=
  dnode p <> 0xff /\ dnode p <> 0 /\ tx_flags p <> RECEIVE_STATUS_TYPE_BROAD.

(** The frame [fr] handed over for transmission. *)
Definition sent (p : ts_param) (fr : list Z) (cb : send_cb) : output :=
  O_send (snode p) (dnode p) fr (Z.lor (tx_flags p) TRANSMIT_OPTION_ACK) cb.

#[local] Opaque t2_sm_post_event.

Section send.
Context (e : env) (data : list Z) (p : ts_param) (f sid fmp : Z).
Context (Hdata : datagram_ok data) (Hp : to_peer p) (Hsid : 0 <= sid < 15).
Context (Hfmp : 1 <= fmp <= 47) (Haccept : forall tr, env_send e tr = true).
Context (Hfuel : (0 < env_fuel e)%nat).

(** The last fragment leaves, and the confirmation is awaited. *)
Lemma send_last_frag_ok n fr st :
  tx_common data p f sid fmp st -> current_state st = ST_SEND_LAST_FRAG ->
  datalen_to_send (scb st) = n -> 0 <= n <= 47 ->
  sub_buf (t2_txBuf st) 0
    ((if does_not_fit_in_first_frag (scb st) then SIZEOF_SUBSEQ_FRAG else SIZEOF_FIRST_FRAG) + n - 1) = fr ->
  tx_waiting data p f sid fmp (send_last_frag e st) /\
  trace (send_last_frag e st) = sent p fr CB_last_frag :: trace st /\
  rcb (send_last_frag e st) = rcb st <| fc_timer := Some FRAGMENT_FC_TIMEOUT |>.
Proof.
  intros [] Hst Hn Hn47 Hfr. unfold send_last_frag. destruct (env_fuel e) as [|k] eqn:Ef; [lia|].
  cbn [send_last_frag_retry]. unfold TS_SEND_RAW. simpl (datalen_to_send _).
  simpl (does_not_fit_in_first_frag _). simpl (cb_p _). rewrite Hn, txc_p0, Haccept.
  rewrite access_ok
    by (change TXBUF_SIZE with 54; change SIZEOF_SUBSEQ_FRAG with 8; change SIZEOF_FIRST_FRAG with 7;
        destruct (does_not_fit_in_first_frag _); lia).
  simpl (t2_txBuf _). rewrite Hfr. cbn [negb].
  destruct Hp as (Hbc & Hd0 & Hfl).
  assert ((tx_flags p =? RECEIVE_STATUS_TYPE_BROAD) || (dnode p =? 0xff) = false) as -> by lia.
  split; [|done]. split; [by split|..|done|done].
  simpl. rewrite Hst. by vm_compute.
Qed.

Lemma tx_common_ext st st' : tx_common data p f sid fmp st ->
  fault st' = fault st -> FragmentMaxPayload st' = FragmentMaxPayload st ->
  length (t2_txBuf st') = 54%nat ->
  datagram (scb st') = datagram (scb st) -> datagram_len (scb st') = datagram_len (scb st) ->
  cb_p (scmn (scb st')) = cb_p (scmn (scb st)) ->
  completedFunc (scmn (scb st')) = completedFunc (scmn (scb st)) ->
  session_id (scmn (scb st')) = session_id (scmn (scb st)) ->
  frag_compl_list (scb st') = frag_compl_list (scb st) ->
  transmission_aborted (scb st') = transmission_aborted (scb st) ->
  flag_send_frag_wait (scb st') = flag_send_frag_wait (scb st) ->
  flag_reply_frag_req (scb st') = flag_reply_frag_req (scb st) ->
  flag_replied_frag_req (scb st') = flag_replied_frag_req (scb st) ->
  current_dnode (scb st') = current_dnode (scb st) -> tx_common data p f sid fmp st'.
Proof. intros []. intros. split; congruence. Qed.

(** The callback of a fragment starts the timer between two fragments. *)
Lemma senddata_cb_ok off status ts st : tx_session data p f sid fmp off st ->
  let st' := ZCB_ts_senddata_cb e status ts st in
  tx_session data p f sid fmp off st' /\ trace st' = trace st /\ rcb st' = rcb st /\
  exists t, timer_btwn_2_frags (scb st') = Some t.
Proof.
  intros [Hc Hst Hrem] st'. pose proof Hc as []. unfold st', ZCB_ts_senddata_cb. cbv zeta.
  set (st1 := if truth _ then _ else _).
  assert (st1 = st <| scb; scmn; tx_status := ts |>
                   <| scb; round_trip_first_frag := round_trip_first_frag (scb st1) |>) as Hst1.
  { unfold st1. destruct (truth _); destruct st as [? []]; reflexivity. }
  generalize dependent (round_trip_first_frag (scb st1)). clearbody st1. intros rt ->.
  simpl (flag_reply_frag_req _). simpl (flag_send_frag_wait _). rewrite txc_reply0, txc_wait0.
  simpl (transmission_aborted _). simpl (session_id _). rewrite txc_aborted0, txc_sid0.
  assert ((0x11 =? sid) = false) as -> by lia.
  split; [|by eauto]. split; [|done..]. by eapply tx_common_ext.
Qed.

(** One more fragment: the last one, or one of full length with more to come. *)
Lemma send_subseq_frag_ok off st : tx_session data p f sid fmp off st -> 0 <= off < Zlength data ->
  let n := Z.min fmp (Zlength data - off) in
  let fr := subseq_frame sid (Zlength data) off (sub_buf data off n) in
  let st' := send_subseq_frag e st in
  (exists t, rcb st' = rcb st <| fc_timer := t |>) /\
  if Zlength data - off <=? fmp
  then tx_waiting data p f sid fmp st' /\ trace st' = sent p fr CB_last_frag :: trace st
  else tx_session data p f sid fmp (off + fmp) st' /\
       trace st' = sent p fr CB_ts_senddata_cb :: trace st.
Proof.
  intros [Hc Hst Hrem] Hoff n fr st'. pose proof Hc as []. pose proof Hdata as [_ Hd].
  unfold st', send_subseq_frag. cbv zeta. simpl (FragmentMaxPayload _).
  simpl (remaining_data_len _). rewrite Hrem, txc_fmp0.
  assert ((Zlength data - off =? 0) = false) as -> by lia.
  simpl (remaining_data_len _). rewrite Hrem.
  set (st1 := if fmp <=? _ then _ else _).
  assert (st1 = st <| rcb; fc_timer := None |> <| scb; datalen_to_send := n |>) as ->.
  { unfold st1, n. destruct (Z.leb_spec fmp (Zlength data - off)); [by rewrite Z.min_l by lia|].
    by rewrite Z.min_r by lia. }
  simpl (session_id _). rewrite txc_sid0, access_ok by lia.
  set (st1 := modify scb (modify datalen_to_send _) _).
  assert (frag_compl_get sid st1 = false) as ->.
  { unfold frag_compl_get. assert ((sid =? 15) = false) as -> by lia. simpl. by rewrite txc_compl0. }
  change (datagram_len (scb st1)) with (datagram_len (scb st)). rewrite txc_len0.
  replace (u16 (Zlength data - (Zlength data - off))) with off
    by (rewrite u16_id; unfold word16; lia).
  set (st2 := modify scb (modify offset _) st1).
  change (offset (scb st2)) with off.
  destruct (put_subseq_frag_ok data off n st2) as (b & -> & Hb & Hfr); try done; [lia..|].
  replace (session_id (scmn (scb st2))) with sid in Hfr by done. fold fr in Hfr.
  assert (tx_common data p f sid fmp (st2 <| t2_txBuf := b |>)) as Hc2 by by eapply tx_common_ext.
  destruct (Z.leb_spec (Zlength data - off) fmp) as [Hle|Hgt].
  - destruct (send_last_frag_ok n fr (post EV_SEND_LAST_FRAG
      (st2 <| t2_txBuf := b |> <| scb; does_not_fit_in_first_frag := true |>)))
      as (Hw & Ht & Hr); [by eapply tx_common_ext|simpl; rewrite Hst; by vm_compute|done|lia| |].
    + simpl. change (SIZEOF_SUBSEQ_FRAG + n - 1) with (8 + n - 1).
      replace (8 + n - 1) with (n + 7) by lia. done.
    + split; [|done]. eexists. exact Hr.
  - assert (n = fmp) as Hn by (unfold n; lia).
    assert ((fmp <=? Zlength data - off) = true) as -> by lia.
    unfold TS_SEND_RAW. rewrite Haccept. cbn [negb].
    change (datalen_to_send (scb (set_reset_timer (st2 <| t2_txBuf := b |>)))) with n.
    change (cb_p (scmn (scb (set_reset_timer (st2 <| t2_txBuf := b |>))))) with (cb_p (scmn (scb st))).
    replace (SIZEOF_SUBSEQ_FRAG + n - 1) with (n + 7) by (change SIZEOF_SUBSEQ_FRAG with 8; lia).
    rewrite txc_p0, access_ok by (change TXBUF_SIZE with 54; lia).
    change (t2_txBuf (set_reset_timer (st2 <| t2_txBuf := b |>))) with b. rewrite Hfr.
    unfold ceil_div. assert ((n =? 0) = false) as -> by lia.
    split; [by eexists|]. split; [|done].
    split; [by eapply tx_common_ext|simpl; rewrite Hst; by vm_compute|].
    simpl. rewrite u16_id; unfold word16; lia.
Qed.
End send.

(** ** Starting *)

Record tx_idle (st : ts_state) : Prop := {
  txi_state : current_state st = ST_IDLE;
  txi_fault : fault st = None;
  txi_compl : length (frag_compl_list (scb st)) = 15%nat;
  txi_txbuf : length (t2_txBuf st) = 54%nat;
}.

(** The session id of the next datagram. *)
Definition next_sid (e : env) (st : ts_state) : Z :=
  let sid := session_id (scmn (scb st)) in
  let sid := if sid =? 0 then env_rand e (trace st) mod 0xf else u8 (sid + 1) in
  if 0xf <? sid then 0 else sid.

(** The payload of a fragment that the transmit options leave room for. *)
Definition payload_size (flags : Z) : Z :=
  if has flags TRANSMIT_OPTION_EXPLORE then 39
  else if negb (has flags TRANSMIT_OPTION_NO_ROUTE) then 39 else 47.

Lemma payload_size_range flags : 1 <= payload_size flags <= 47.
Proof. unfold payload_size. repeat break_if; lia. Qed.

Section start.
Context (e : env) (data : list Z) (p : ts_param) (f : Z).
Context (Hdata : datagram_ok data) (Hp : to_peer p).
Context (Haccept : forall tr, env_send e tr = true) (Hfuel : (0 < env_fuel e)%nat).

(** What [ZW_TransportService_SendData] stores before it calls [send_first_frag]. *)
Record tx_prepared (sid0 : Z) (st : ts_state) : Prop := {
  txp_state : current_state st = ST_SEND_FRAG;
  txp_fault : fault st = None;
  txp_datagram : datagram (scb st) = data;
  txp_len : datagram_len (scb st) = Zlength data;
  txp_p : cb_p (scmn (scb st)) = p;
  txp_f : completedFunc (scmn (scb st)) = f;
  txp_sid : session_id (scmn (scb st)) = sid0;
  txp_remaining : remaining_data_len (scb st) = 0;
  txp_compl : length (frag_compl_list (scb st)) = 15%nat;
  txp_aborted : transmission_aborted (scb st) = 0x11;
  txp_wait : flag_send_frag_wait (scb st) = false;
  txp_reply : flag_reply_frag_req (scb st) = false;
  txp_replied : flag_replied_frag_req (scb st) = false;
  txp_dst : current_dnode (scb st) = dnode p;
  txp_txbuf : length (t2_txBuf st) = 54%nat;
}.

Lemma send_first_frag_ok st : let sid := next_sid e st in
  tx_prepared (session_id (scmn (scb st))) st -> 0 <= sid < 15 ->
  let fmp := payload_size (tx_flags p) in
  let n := Z.min fmp (Zlength data) in
  let fr := first_frame sid (Zlength data) (sub_buf data 0 n) in
  let st' := send_first_frag e st in
  if Zlength data <=? fmp
  then tx_waiting data p f sid fmp st' /\ trace st' = sent p fr CB_last_frag :: trace st /\
       rcb st' = rcb st <| fc_timer := Some FRAGMENT_FC_TIMEOUT |>
  else tx_session data p f sid fmp fmp st' /\
       trace st' = sent p fr CB_ts_senddata_cb :: trace st /\ rcb st' = rcb st.
Proof.
  intros sid Hpre Hsid fmp n fr st'. pose proof Hpre as []. pose proof Hdata as [_ Hd].
  pose proof (payload_size_range (tx_flags p)) as Hr. fold fmp in Hr.
  unfold st', send_first_frag. fold (next_sid e st). fold sid. cbv zeta.
  unfold frag_compl_set. rewrite access_ok by lia.
  assert ((sid =? 15) = false) as -> by lia.
  set (st1 := modify scb (modify frag_compl_list _) _).
  change (tx_flags (cb_p (scmn (scb st1)))) with (tx_flags (cb_p (scmn (scb st)))). rewrite txp_p0.
  change (if has (tx_flags p) TRANSMIT_OPTION_EXPLORE then FRAGMENTMAXPAYLOAD - 8
          else if negb (has (tx_flags p) TRANSMIT_OPTION_NO_ROUTE) then FRAGMENTMAXPAYLOAD - 8
          else FRAGMENTMAXPAYLOAD) with fmp.
  set (st2 := modify FragmentMaxPayload _ st1).
  change (remaining_data_len (scb st2)) with (remaining_data_len (scb st)).
  change (datagram_len (scb st2)) with (datagram_len (scb st)).
  rewrite txp_len0, txp_remaining0. cbn [Z.eqb].
  set (st3 := if fmp <? Zlength data then _ else _).
  set (rem := if fmp <? Zlength data then Zlength data - fmp else Zlength data).
  assert (st3 = st2 <| scb; remaining_data_len := rem |> <| scb; datalen_to_send := n |>) as ->.
  { unfold st3, rem, n. destruct (Z.ltb_spec fmp (Zlength data)).
    - rewrite u16_id by (unfold word16; lia). by rewrite Z.min_l by lia.
    - by rewrite Z.min_r by lia. }
  set (st3' := modify scb (modify datalen_to_send _) _).
  change (datalen_to_send (scb st3')) with n.
  fold (first_hdr sid (Zlength data)).
  destruct (put_frag_ok (first_hdr sid (Zlength data)) FIRST_HDR_LEN 0 n st3')
    as (b & Hput & Hb & Hfr); try done; [lia|change FIRST_HDR_LEN with 4; lia|..].
  { change (datagram (scb st3')) with (datagram (scb st)). rewrite txp_datagram0. lia. }
  change (n + FIRST_HDR_LEN) with (n + 4) in *. rewrite Hput.
  change (datagram (scb st3')) with (datagram (scb st)) in Hfr. rewrite txp_datagram0 in Hfr.
  fold (first_frame sid (Zlength data) (sub_buf data 0 n)) in Hfr. fold fr in Hfr.
  replace (n + 4 + 2) with (SIZEOF_FIRST_FRAG + n - 1) in Hfr by (change SIZEOF_FIRST_FRAG with 7; lia).
  unfold ceil_div. assert ((n =? 0) = false) as -> by lia.
  set (st4 := modify scb (modify scmn (modify pending_segments _)) _).
  assert (tx_common data p f sid fmp st4) as Hc.
  { split; try done; simpl; [|by rewrite length_insert]. apply list_lookup_insert_eq. lia. }
  assert (current_state st4 = ST_SEND_FRAG /\ trace st4 = trace st /\ rcb st4 = rcb st /\
          t2_txBuf st4 = b /\ datalen_to_send (scb st4) = n /\
          remaining_data_len (scb st4) = rem) as (Hst4 & Ht4 & Hr4 & Hb4 & Hn4 & Hrem4) by done.
  clearbody st4. clear st3' Hput. pose proof (txc_txbuf _ _ _ _ _ _ Hc) as Htxb.
  destruct (Z.leb_spec (Zlength data) fmp) as [Hle|Hgt].
  - destruct (send_last_frag_ok e data p f sid fmp Hp Hsid Haccept Hfuel n fr
      (post EV_SEND_LAST_FRAG (st4 <| scb; does_not_fit_in_first_frag := false |>)))
      as (Hw & Ht & Hrc); [|simpl; rewrite Hst4; by vm_compute|done|lia| |].
    + by eapply tx_common_ext.
    + simpl. by rewrite Hb4.
    + split; [exact Hw|]. split; [by rewrite Ht; simpl; rewrite Ht4|by rewrite Hrc; simpl; rewrite Hr4].
  - unfold TS_SEND_RAW. rewrite Haccept. cbn [negb].
    pose proof Hc as [].
    change (cb_p (scmn (scb (set_reset_timer st4)))) with (cb_p (scmn (scb st4))). rewrite txc_p0.
    rewrite access_ok by (change TXBUF_SIZE with 54; change SIZEOF_FIRST_FRAG with 7; lia).
    change (t2_txBuf (set_reset_timer st4)) with (t2_txBuf st4). rewrite Hb4, Hfr.
    split; [|by split; simpl; rewrite ?Ht4, ?Hr4].
    split; [by eapply tx_common_ext|simpl; rewrite Hst4; by vm_compute|].
    simpl. rewrite Hrem4. unfold rem. assert ((fmp <? Zlength data) = true) as -> by lia. done.
Qed.
End start.

(** ** The whole datagram *)

(** The pieces of at most [fmp] bytes that [rest] bytes are cut into. *)
Fixpoint cuts (fmp : Z) (fuel : nat) (rest : Z) : list Z :=
  match fuel with
  | O => []
  | S fuel => if rest <=? 0 then [] else Z.min fmp rest :: cuts fmp fuel (rest - fmp)
  end.

(** The subsequent frames of [data] from [off] on. *)
Fixpoint frames_from (data : list Z) (sid off : Z) (ns : list Z) : list (list Z) :=
  match ns with
  | [] => []
  | n :: ns => subseq_frame sid (Zlength data) off (sub_buf data off n) ::
               frames_from data sid (off + n) ns
  end.

(** Frames on their way: the last one is the one whose callback only stores the
    transmission report. *)
Fixpoint sent_frames (p : ts_param) (frames : list (list Z)) : list output :=
  match frames with
  | [] => []
  | [fr] => [sent p fr CB_last_frag]
  | fr :: frames => sent p fr CB_ts_senddata_cb :: sent_frames p frames
  end.

(** The callback of a fragment, then the timer: [k] times. *)
Fixpoint rounds (reports : list (Z * Z)) : list ts_event :=
  match reports with
  | [] => []
  | (status, ts) :: reports =>
      E_send_cb CB_ts_senddata_cb status ts :: E_timer_btwn_2_frags :: rounds reports
  end.

Lemma cuts_cons fmp k rest : 0 < rest ->
  cuts fmp (S k) rest = Z.min fmp rest :: cuts fmp k (rest - fmp).
Proof. intros. cbn [cuts]. by assert ((rest <=? 0) = false) as -> by lia. Qed.

Lemma cuts_nil fmp k rest : rest <= 0 -> cuts fmp k rest = [].
Proof. intros. destruct k; [done|]. cbn [cuts]. by assert ((rest <=? 0) = true) as -> by lia. Qed.

Lemma sent_frames_cons p fr frames : frames <> [] ->
  sent_frames p (fr :: frames) = sent p fr CB_ts_senddata_cb :: sent_frames p frames.
Proof. by destruct frames. Qed.

Section whole.
Context (e : env) (data : list Z) (p : ts_param) (f sid fmp : Z).
Context (Hdata : datagram_ok data) (Hp : to_peer p) (Hsid : 0 <= sid < 15).
Context (Hfmp : 1 <= fmp <= 47) (Haccept : forall tr, env_send e tr = true).
Context (Hfuel : (0 < env_fuel e)%nat).

Lemma tx_round off status ts st : tx_session data p f sid fmp off st -> 0 <= off < Zlength data ->
  let n := Z.min fmp (Zlength data - off) in
  let fr := subseq_frame sid (Zlength data) off (sub_buf data off n) in
  exists st', ts_run e (rounds [(status, ts)]) st = Some st' /\
  (exists t, rcb st' = rcb st <| fc_timer := t |>) /\
  if Zlength data - off <=? fmp
  then tx_waiting data p f sid fmp st' /\ trace st' = sent p fr CB_last_frag :: trace st
  else tx_session data p f sid fmp (off + fmp) st' /\
       trace st' = sent p fr CB_ts_senddata_cb :: trace st.
Proof.
  intros Hs Hoff n fr. destruct (senddata_cb_ok e data p f sid fmp Hsid Hfuel off status ts st Hs)
    as (Hs1 & Ht1 & Hr1 & t & Hti).
  cbn [rounds ts_run ts_step]. generalize dependent (ZCB_ts_senddata_cb e status ts st).
  intros st1 Hs1 Ht1 Hr1 Hti. unfold fire. rewrite Hti.
  eexists. split; [reflexivity|].
  set (st2 := modify scb (modify timer_btwn_2_frags _) st1).
  assert (tx_session data p f sid fmp off st2) as Hs2.
  { destruct Hs1 as [Hc ? ?]. split; [|done..]. pose proof Hc as []. by eapply tx_common_ext. }
  change (trace st1) with (trace st2) in Ht1. change (rcb st1) with (rcb st2) in Hr1.
  clearbody st2. rewrite <- Ht1, <- Hr1. by apply send_subseq_frag_ok.
Qed.

Lemma tx_rounds k reports off st : tx_session data p f sid fmp off st -> 0 <= off < Zlength data ->
  Zlength data - off <= Z.of_nat k ->
  length reports = length (cuts fmp k (Zlength data - off)) ->
  exists st', ts_run e (rounds reports) st = Some st' /\
    tx_waiting data p f sid fmp st' /\ (exists t, rcb st' = rcb st <| fc_timer := t |>) /\
    trace st' =
      rev (sent_frames p (frames_from data sid off (cuts fmp k (Zlength data - off)))) ++ trace st.
Proof.
  revert reports off st. induction k as [|k IH]; intros reports off st Hs Hoff Hk Hl; [lia|].
  rewrite cuts_cons in Hl |- * by lia. destruct reports as [|[status ts] reports]; [done|].
  injection Hl as Hl. pose proof (tx_round off status ts st Hs Hoff) as (st1 & Hrun & (t & Hr) & H).
  cbv zeta in H. change (rounds ((status, ts) :: reports)) with (rounds [(status, ts)] ++ rounds reports).
  rewrite ts_run_app, Hrun. cbn [frames_from].
  destruct (Z.leb_spec (Zlength data - off) fmp) as [Hle|Hgt].
  - rewrite cuts_nil in Hl |- * by lia. destruct reports; [|done].
    destruct H as [Hw Ht]. exists st1. split; [done|]. split; [exact Hw|]. split; [by exists t|].
    by rewrite Ht.
  - rewrite (Z.min_l fmp) in H |- * by lia. destruct H as [Hs1 Ht1].
    replace (Zlength data - off - fmp) with (Zlength data - (off + fmp)) in * by lia.
    destruct (IH reports (off + fmp) st1 Hs1) as (st' & Hrun' & Hw & (t' & Hr') & Ht'); [lia..|done|].
    exists st'. split; [exact Hrun'|]. split; [exact Hw|]. split; [exists t'; by rewrite Hr', Hr|].
    rewrite sent_frames_cons.
    + rewrite Ht', Ht1. cbn [rev]. by rewrite <- app_assoc.
    + destruct k as [|k]; [lia|]. by rewrite cuts_cons by lia.
Qed.
End whole.
