(* ===== verification/TransportRoundTrip.v ===== *)
(** * Transport Service v2: from sender to receiver and back

    Two instances of the model of transport_service2.c joined: the frames the
    sending one hands over for transmission are the commands of the receiving
    one, and the confirmation of the receiving one comes back. *)

From S2P Require Import Prelude Crc TransportFsm TransportService TransportMask TransportReceive TransportDelivery TransportSend.
#[local] Open Scope Z_scope.
#[local] Open Scope zgw_scope.

(** ** The request *)

(** The frames of a datagram. *)
Definition datagram_frames (data : list Z) (sid fmp : Z) : list (list Z) :=
  first_frame sid (Zlength data) (sub_buf data 0 (Z.min fmp (Zlength data))) ::
  frames_from data sid fmp (cuts fmp 200 (Zlength data - fmp)).

Lemma next_sid_nonneg e st : 0 <= next_sid e st.
Proof.
  unfold next_sid. cbv zeta. repeat break_if; try lia; try (apply Z.mod_pos_bound; lia).
Qed.

Section request.
Context (e : env) (data : list Z) (p : ts_param) (f : Z).
Context (Hdata : datagram_ok data) (Hp : to_peer p).
Context (Haccept : forall tr, env_send e tr = true) (Hfuel : (0 < env_fuel e)%nat).

Lemma send_data_prepares st : tx_idle st ->
  exists st1, ZW_TransportService_SendData e p data (Zlength data) f st = (true, send_first_frag e st1) /\
    tx_prepared data p f (session_id (scmn (scb st))) st1 /\
    trace st1 = trace st /\ rcb st1 = rcb st /\
    session_id (scmn (scb st1)) = session_id (scmn (scb st)).
Proof.
  intros [Hidle Hfault Hcompl Htx]. unfold ZW_TransportService_SendData. cbv zeta.
  assert (current_state (set_reset_timer st) = ST_IDLE) as Hi by done.
  unfold ZW_TransportService_Is_Sending, ZW_TransportService_Is_Receving, recv_or_send.
  rewrite Hi. cbn [Z.eqb]. simpl (current_state _). rewrite Hidle.
  eexists. split; [reflexivity|]. split; [|done].
  split; try done. simpl. rewrite Hidle. by vm_compute.
Qed.

Lemma datagram_sent reports st : let sid := next_sid e st in
  let fmp := payload_size (tx_flags p) in
  tx_idle st -> sid < 15 ->
  length reports = length (cuts fmp 200 (Zlength data - fmp)) ->
  exists st', ts_run e (E_send p data (Zlength data) f :: rounds reports) st = Some st' /\
    tx_waiting data p f sid fmp st' /\ (exists t, rcb st' = rcb st <| fc_timer := t |>) /\
    trace st' = rev (sent_frames p (datagram_frames data sid fmp)) ++ trace st.
Proof.
  intros sid fmp Hi Hsid Hl. destruct (send_data_prepares st Hi) as (st1 & Hsend & Hpre & Ht1 & Hr1 & Hs1).
  assert (next_sid e st1 = sid) as Hsid1 by (unfold sid, next_sid; by rewrite Hs1, Ht1).
  pose proof (next_sid_nonneg e st) as Hnn. fold sid in Hnn.
  pose proof (payload_size_range (tx_flags p)) as Hr. fold fmp in Hr. pose proof Hdata as [_ Hd].
  rewrite <- Hs1 in Hpre.
  pose proof (send_first_frag_ok e data p f Hdata Hp Haccept Hfuel st1 Hpre ltac:(lia)) as H.
  cbv zeta in H. rewrite Hsid1 in H. fold fmp in H.
  cbn [ts_run ts_step]. rewrite Hsend. cbn [snd].
  generalize dependent (send_first_frag e st1). intros st2 _ H. unfold datagram_frames.
  rewrite Ht1, Hr1 in H. destruct (Z.leb_spec (Zlength data) fmp) as [Hle|Hgt].
  - rewrite cuts_nil in Hl |- * by lia. destruct reports; [|done]. destruct H as (Hw & Ht & Hrc).
    exists st2. split; [done|]. split; [exact Hw|]. split; [by eexists|]. by rewrite Ht.
  - destruct H as (Hs & Ht & Hrc). rewrite Z.min_l in Ht |- * by lia.
    destruct (tx_rounds e data p f sid fmp Hdata Hp ltac:(lia) Hr Haccept Hfuel 200 reports fmp st2)
      as (st' & Hrun & Hw & (t & Hrc') & Ht'); [exact Hs|lia..|exact Hl|].
    exists st'. split; [exact Hrun|]. split; [exact Hw|]. split; [exists t; by rewrite Hrc', Hrc|].
    rewrite sent_frames_cons; [|by rewrite cuts_cons by lia].
    rewrite Ht', Ht. cbn [rev]. by rewrite <- app_assoc.
Qed.
End request.

(** ** The confirmation *)

(** The command handler on a confirmation: it is not mistaken for a frame of a
    third node, and reaches [receive] in the state [WAIT_ACK], or [RECEIVING]
    when the tie break applies. *)
Lemma complete_received e data p f sid fmp pb pad st :
  tx_waiting data p f sid fmp st -> 0 <= sid < 15 -> current_snode (rcb st) = 0 ->
  snode pb = dnode p -> snode pb <> dnode pb -> 2 <= Zlength pad -> f <> 0 ->
  let st' := TransportService_ApplicationCommandHandler e pb (complete_frame sid ++ pad) 3 st in
  current_state st' = ST_IDLE /\ fault st' = None /\
  exists tx, trace st' = O_completed f S2_TRANSMIT_COMPLETE_OK tx :: trace st.
Proof.
  intros [Hc Hst Hti Hsnd] Hsid Hsn Hpb Hne Hpad Hf st'.
  destruct Hc as [Hfa Hda Hle Hcp Hcf Hss Hfm Hco Hcl Hab Hwa Hre Hrp Hdn Htx].
  assert (5 <= Zlength (complete_frame sid ++ pad)) as HL
    by (rewrite Zlength_app; change (Zlength (complete_frame sid)) with 3; lia).
  unfold st', TransportService_ApplicationCommandHandler. cbv zeta.
  set (st1 := if ZW_TransportService_Is_Sending _ && _ && _ then _ else _).
  assert (exists b s, st1 = set_reset_timer st <| flag_tie_broken := b |> <| current_state := s |> /\
          (s = ST_WAIT_ACK \/ s = ST_RECEIVING)) as (b & s & -> & Hs).
  { unfold st1. break_if.
    - exists true, ST_RECEIVING. split; [|by right]. unfold post. simpl. rewrite Hst. by vm_compute.
    - exists (flag_tie_broken st), ST_WAIT_ACK. split; [|by left]. rewrite <- Hst. by destruct st. }
  set (st2 := modify current_state _ _).
  assert ((snode pb =? dnode pb) = false) as -> by lia. change (DATAGRAM_SIZE_MAX <? 3) with false. cbv iota.
  simpl (current_snode _). simpl (current_dnode _). rewrite Hsn, Hdn, Hpb, Z.eqb_refl.
  change (truth 0) with false. rewrite andb_false_r. cbn [negb orb andb].
  rewrite access_ok by lia.
  change (Z.land (rd (complete_frame sid ++ pad) 1) 0xf8) with 0xE8.
  change (0xE8 =? COMMAND_SUBSEQUENT_FRAGMENT) with false. rewrite andb_false_r.
  set (st3 := modify rcb (modify fragment_len _) _).
  assert (current_state st3 = s /\ fault st3 = None /\ trace st3 = trace st /\
          fragment (rcb st3) = complete_frame sid ++ pad /\ cb_p (rcmn (rcb st3)) = pb /\
          current_snode (rcb st3) = 0 /\ current_dnode (scb st3) = dnode p /\
          session_id (scmn (scb st3)) = sid /\ completedFunc (scmn (scb st3)) = f /\
          transmission_aborted (scb st3) = 0x11) as (Hs3 & Hf3 & Ht3 & Hfr3 & Hp3 & Hsn3 & Hdn3 & Hss3 & Hcf3 & Hab3).
  { unfold st3, initialize_once. destruct Hs as [-> | ->]; simpl;
      destruct (flag_initialize_once st); split_and!; done. }
  clearbody st3. unfold receive. rewrite Hfr3, access_ok by lia. cbv zeta.
  change (rd (complete_frame sid ++ pad) 0) with 0x55.
  change (Z.land (rd (complete_frame sid ++ pad) 1) 0xf8) with 0xE8.
  change (rd (complete_frame sid ++ pad) 2) with (u8 (Z.shiftl sid 4)).
  simpl (negb _). cbv iota. unfold receive_segment_complete. rewrite sid_decode by lia.
  simpl (transmission_aborted _). simpl (session_id _). simpl (current_dnode _). simpl (cb_p _).
  rewrite Hab3, Hss3, Hp3, Hpb, Hdn3, !Z.eqb_refl. cbn [negb andb].
  assert ((sid =? 0x11) = false) as -> by lia.
  change (0xE8 =? COMMAND_FIRST_FRAGMENT) with false.
  change (0xE8 =? COMMAND_SUBSEQUENT_FRAGMENT) with false.
  change (0xE8 =? COMMAND_SEGMENT_REQUEST_V2) with false. cbv iota.
  unfold frag_compl_set. rewrite access_ok by lia. assert ((sid =? 15) = false) as -> by lia.
  unfold call_completed. simpl (completedFunc _). rewrite Hcf3.
  assert (truth f = true) as -> by (unfold truth; lia).
  split; [|split; [exact Hf3|]].
  - simpl. rewrite Hs3. destruct Hs as [-> | ->]; by vm_compute.
  - eexists. simpl. by rewrite Ht3.
Qed.

(** ** There and back *)

(** The frames among the outputs, oldest first. *)
Definition frames_of (outs : list output) : list (list Z) :=
  omap (fun o => match o with O_send _ _ fr _ _ => Some fr | _ => None end) (rev outs).

Lemma frames_of_sent p frames : frames_of (rev (sent_frames p frames)) = frames.
Proof.
  unfold frames_of. rewrite rev_involutive. induction frames as [|fr frames IH]; [done|].
  destruct frames as [|fr' frames]; [done|]. rewrite sent_frames_cons by done.
  cbn [omap list_omap]. by rewrite IH.
Qed.

(** The frames are the ones the receiver's contract speaks of. *)
Lemma events_of_frames data sid p off ns :
  map (event_of data sid) (fragments_from p off ns) =
  map (recv_event p) (frames_from data sid off ns).
Proof. revert off. induction ns as [|n ns IH]; intros off; [done|]. simpl. by rewrite IH. Qed.

Lemma cuts_range fmp k rest : 1 <= fmp <= 47 -> Forall (fun n => 1 <= n <= 193) (cuts fmp k rest).
Proof.
  intros Hf. revert rest. induction k as [|k IH]; intros rest; [constructor|]. cbn [cuts].
  destruct (Z.leb_spec rest 0); [constructor|]. constructor; [lia|done].
Qed.

Lemma cuts_sum fmp k rest : 1 <= fmp -> 0 <= rest <= Z.of_nat k ->
  foldr Z.add 0 (cuts fmp k rest) = rest.
Proof.
  intros Hf. revert rest. induction k as [|k IH]; intros rest Hr; [simpl; lia|]. cbn [cuts].
  destruct (Z.leb_spec rest 0); [simpl; lia|]. simpl.
  destruct (Z.le_gt_cases fmp rest); [rewrite IH; lia|].
  rewrite cuts_nil by lia. simpl. lia.
Qed.

(** The receiver of a whole datagram. *)
Lemma datagram_received e data sid fmp src p st :
  datagram_ok data -> 0 <= sid < 16 -> from_peer src p -> 1 <= fmp <= 47 ->
  rx_ready st -> current_state st = ST_IDLE ->
  exists st', ts_run e (map (recv_event p) (datagram_frames data sid fmp)) st = Some st' /\
    fault st' = None /\ trace st' = delivered p data :: acknowledged p sid :: trace st /\
    current_state st' = if Zlength data <=? fmp then ST_RECEIVING else ST_IDLE.
Proof.
  intros Hdata Hsid Hp Hf Hready Hst. pose proof Hdata as [_ Hd]. unfold datagram_frames.
  destruct (Z.leb_spec (Zlength data) fmp) as [Hle|Hgt].
  - rewrite cuts_nil, Z.min_r by lia. cbn [frames_from map ts_run]. unfold recv_event, ts_step.
    eexists. split; [reflexivity|].
    pose proof (first_fragment_step e data sid src Hdata Hsid p (Zlength data) st (or_introl Hready)
      Hp ltac:(lia) ltac:(lia)) as H.
    cbv zeta beta in H. rewrite Z.eqb_refl, Hst in H. destruct H as (Hc & Ht & Hs).
    split; [by destruct Hc as [[]]|]. split; [exact Ht|]. rewrite Hs. by vm_compute.
  - rewrite Z.min_l by lia. cbn [map].
    destruct (in_order_run e data sid src p fmp (cuts fmp 200 (Zlength data - fmp)) st)
      as (st' & Hrun & Hfa & Hs & Ht); try done.
    + lia.
    + by apply cuts_range.
    + by rewrite cuts_cons by lia.
    + rewrite cuts_sum; lia.
    + exists st'. cbn [map] in Hrun. rewrite events_of_frames in Hrun. done.
Qed.

(** C1. A datagram sent by one node and received by another: the frames that leave
    the sender, fed to the receiver, make it hand exactly the datagram to its
    application, once, and confirm; the confirmation, fed back, makes the sender
    report success and go idle.  Neither side meets undefined behaviour.  Both
    services are idle before, the radio accepts every frame, the session id is
    below 15 and the transmit options are not exactly 0x04. *)
Theorem transport_round_trip e1 e2 data p f reports s1 src pr s2 pb pad :
  datagram_ok data -> f <> 0 ->
  (forall tr, env_send e1 tr = true) -> (0 < env_fuel e1)%nat ->
  tx_idle s1 -> current_snode (rcb s1) = 0 -> to_peer p -> next_sid e1 s1 < 15 ->
  length reports = length (cuts (payload_size (tx_flags p)) 200 (Zlength data - payload_size (tx_flags p))) ->
  rx_ready s2 -> current_state s2 = ST_IDLE -> from_peer src pr ->
  snode pb = dnode p -> snode pb <> dnode pb -> 2 <= Zlength pad ->
  exists s1' outs s2' ack s1'' tx,
    ts_run e1 (E_send p data (Zlength data) f :: rounds reports) s1 = Some s1' /\
    trace s1' = outs ++ trace s1 /\
    ts_run e2 (map (recv_event pr) (frames_of outs)) s2 = Some s2' /\ fault s2' = None /\
    trace s2' = delivered pr data :: ack :: trace s2 /\
    ts_run e1 (map (fun fr => E_recv pb (fr ++ pad) (Zlength fr)) (frames_of [ack])) s1' = Some s1'' /\
    trace s1'' = O_completed f S2_TRANSMIT_COMPLETE_OK tx :: trace s1' /\
    fault s1'' = None /\ current_state s1'' = ST_IDLE.
Proof.
  intros Hdata Hf Hacc Hfuel Hidle Hsn Hp Hsid Hl Hready Hst Hfrom Hpb Hne Hpad.
  pose proof (next_sid_nonneg e1 s1) as Hnn.
  destruct (datagram_sent e1 data p f Hdata Hp Hacc Hfuel reports s1 Hidle Hsid Hl)
    as (s1' & Hrun1 & Hw & (t & Hrc) & Ht1).
  destruct (datagram_received e2 data (next_sid e1 s1) (payload_size (tx_flags p)) src pr s2)
    as (s2' & Hrun2 & Hf2 & Ht2 & _); try done; [lia|apply payload_size_range|].
  destruct (complete_received e1 data p f (next_sid e1 s1) (payload_size (tx_flags p)) pb pad s1')
    as (Hs & Hf1 & tx & Ht3); try done; [by rewrite Hrc|].
  exists s1', (rev (sent_frames p (datagram_frames data (next_sid e1 s1) (payload_size (tx_flags p))))),
    s2', (acknowledged pr (next_sid e1 s1)), (TransportService_ApplicationCommandHandler e1 pb
      (complete_frame (next_sid e1 s1) ++ pad) 3 s1'), tx.
  rewrite frames_of_sent. by split_and!.
Qed.

(** ** The hypotheses are satisfiable *)

Lemma ts_started_idle : tx_idle ts_started.
Proof. by split. Qed.

Lemma transport_round_trip_witness :
  exists s1' s2' ack,
    ts_run (env_ok 1) (E_send (unicast 1 2) (seqZ 0 100) 100 7 :: rounds [(0, 5); (0, 6)]) ts_started
      = Some s1' /\
    ts_run (env_ok 2) (map (recv_event (unicast 1 2)) (frames_of (trace s1'))) ts_started = Some s2' /\
    trace s2' = [delivered (unicast 1 2) (seqZ 0 100); ack].
Proof.
  destruct (transport_round_trip (env_ok 1) (env_ok 2) (seqZ 0 100) (unicast 1 2) 7
    [(0, 5); (0, 6)] ts_started 1 (unicast 1 2) ts_started (unicast 2 1) [0; 0])
    as (s1' & outs & s2' & ack & s1'' & tx & Hrun1 & Ht1 & Hrun2 & _ & Ht2 & _).
  - apply sample_ok. lia.
  - lia.
  - reflexivity.
  - apply Nat.lt_0_1.
  - apply ts_started_idle.
  - reflexivity.
  - split_and!; discriminate.
  - by vm_compute.
  - by vm_compute.
  - apply ts_started_ready.
  - reflexivity.
  - split_and!; (reflexivity || discriminate).
  - reflexivity.
  - discriminate.
  - by vm_compute.
  - exists s1', s2', ack. change (trace ts_started) with (@nil output) in *.
    rewrite app_nil_r in Ht1. rewrite Ht1.
    split; [exact Hrun1|]. split; [exact Hrun2|]. exact Ht2.
Defined.
