(* ===== verification/TransportEdge.v ===== *)
(** * Transport Service v2: interference and edge cases

    How transport_service2.c behaves when a third node talks to it, when it is
    asked to send while busy, and in the cases where it does not do what the
    protocol asks for. *)

From S2P Require Import Prelude Crc TransportFsm TransportService TransportMask TransportReceive TransportDelivery TransportSend TransportRoundTrip.
#[local] Open Scope Z_scope.
#[local] Open Scope zgw_scope.

(** ** A third node *)

Definition wait_frame (pending : Z) : list Z :=
  [COMMAND_CLASS_TRANSPORT_SERVICE; Z.land COMMAND_SEGMENT_WAIT_V2 0xf8; pending].

Lemma third_node_session e data sid src p cmd len st :
  datagram_ok data -> 0 <= sid < 16 -> src <> 0 ->
  rx_session data sid src st -> current_state st = ST_RECEIVING ->
  1 <= cur_recvd_data_size (rcb st) ->
  snode p <> src -> snode p <> dnode p -> rx_flags p = RECEIVE_STATUS_TYPE_SINGLE ->
  len <= DATAGRAM_SIZE_MAX ->
  let st' := TransportService_ApplicationCommandHandler e p cmd len st in
  rx_session data sid src st' /\ current_state st' = ST_RECEIVING /\
  bytes_recvd_bitmask (rcb st') = bytes_recvd_bitmask (rcb st) /\
  exists pending, trace st' =
    O_send (dnode p) (snode p) (wait_frame pending) (Z.lor (tx_flags p) TRANSMIT_OPTION_ACK) CB_NULL
    :: trace st.
Proof.
  intros Hdata Hsid Hsrc Hs Hst Hcur Hne Hself Hrx Hlen st'.
  pose proof (rxs_base _ _ _ _ Hs) as [Hph Hfa Hap Hse Hds Hbu Hco Htx].
  pose proof (rxs_src _ _ _ _ Hs) as Hcs. pose proof (rxs_sid _ _ _ _ Hs) as Hss.
  unfold st', TransportService_ApplicationCommandHandler. cbv zeta.
  assert (ZW_TransportService_Is_Sending (set_reset_timer st) = false) as ->.
  { unfold ZW_TransportService_Is_Sending, recv_or_send. cbn. by rewrite Hst. }
  cbn [andb].
  assert ((snode p =? dnode p) = false) as -> by lia.
  assert ((DATAGRAM_SIZE_MAX <? len) = false) as -> by lia.
  set (st1 := modify scb (modify frag_wait_p _) _).
  change (current_snode (rcb st1)) with (current_snode (rcb st)). rewrite Hcs, Hrx.
  assert ((negb (snode p =? src) && truth src) = true) as -> by (unfold truth; lia).
  cbn [orb andb Z.eqb RECEIVE_STATUS_TYPE_SINGLE].
  change (current_state st1) with (current_state st). rewrite Hst.
  destruct (decide (ST_RECEIVING = ST_SEND_FRAG_WAIT)); [done|].
  unfold request_frag_wait, send_frag_wait_cmd. simpl (sending _). rewrite Hse.
  simpl (session_id _). rewrite Hss. assert ((sid =? 0x10) = false) as -> by lia.
  unfold ceil_div. simpl (cur_recvd_data_size _).
  assert ((cur_recvd_data_size (rcb st) =? 0) = false) as -> by lia.
  unfold TS_SEND_RAW.
  split; [|split; [|split; [reflexivity|by eexists]]].
  - destruct Hs as [[]]. split; [split|..]; try done. simpl. rewrite Hst. by vm_compute.
  - simpl. rewrite Hst. by vm_compute.
Qed.

(** ** Sending while busy *)

(** A request to send while a session is under way is refused and reported as
    failed, and disturbs nothing but the reset timer. *)
Theorem send_refused_when_busy e p data len f st :
  current_state st <> ST_IDLE ->
  ZW_TransportService_SendData e p data len f st =
  (false, emit (O_completed f S2_TRANSMIT_COMPLETE_FAIL 0) (set_reset_timer st)).
Proof.
  intros Hst. unfold ZW_TransportService_SendData, ZW_TransportService_Is_Sending,
    ZW_TransportService_Is_Receving, recv_or_send. cbv zeta.
  simpl (current_state _). by destruct (current_state st).
Qed.

Lemma send_refused_when_busy_witness :
  ZW_TransportService_SendData (env_ok 2) (unicast 2 1) [1; 2; 3] 3 7 sample_gap =
  (false, emit (O_completed 7 S2_TRANSMIT_COMPLETE_FAIL 0) (set_reset_timer sample_gap)).
Proof. apply send_refused_when_busy. by vm_compute. Defined.

(** A command from a third node while a datagram is being received is answered
    with a wait request and leaves the reassembly as it is. *)
Theorem third_node_waits e data sid src p cmd len st :
  datagram_ok data -> 0 <= sid < 16 -> src <> 0 ->
  rx_session data sid src st -> current_state st = ST_RECEIVING ->
  1 <= cur_recvd_data_size (rcb st) ->
  snode p <> src -> snode p <> dnode p -> rx_flags p = RECEIVE_STATUS_TYPE_SINGLE ->
  len <= DATAGRAM_SIZE_MAX ->
  let st' := TransportService_ApplicationCommandHandler e p cmd len st in
  rx_session data sid src st' /\ current_state st' = ST_RECEIVING /\
  bytes_recvd_bitmask (rcb st') = bytes_recvd_bitmask (rcb st) /\
  exists pending, trace st' =
    O_send (dnode p) (snode p) (wait_frame pending) (Z.lor (tx_flags p) TRANSMIT_OPTION_ACK) CB_NULL
    :: trace st.
Proof. apply third_node_session. Qed.

Lemma third_node_waits_witness :
  rx_session (seqZ 0 100) 3 1
    (TransportService_ApplicationCommandHandler (env_ok 2) (unicast 9 2) [0x55; 0xC0; 80; 0x50] 4 sample_gap).
Proof.
  apply (third_node_waits (env_ok 2) (seqZ 0 100) 3 1 (unicast 9 2) [0x55; 0xC0; 80; 0x50] 4 sample_gap);
    [apply sample_ok; lia|lia|lia|apply sample_gap_session|by vm_compute|by vm_compute|discriminate
    |discriminate|reflexivity|by vm_compute].
Defined.

(** ** A datagram of one fragment

    The table has no entry for the event [EV_SEND_FRAG_COMPLETE] in the state
    [ST_RECEIVING], so after a datagram that fits one fragment the module stays
    in it, and refuses to send until the reset timer fires. *)
Theorem single_fragment_blocks_sending e data sid src p st q d len f :
  datagram_ok data -> Zlength data <= 47 -> 0 <= sid < 16 -> from_peer src p ->
  rx_ready st -> current_state st = ST_IDLE ->
  exists st', ts_run e (map (recv_event p) (datagram_frames data sid 47)) st = Some st' /\
    trace st' = delivered p data :: acknowledged p sid :: trace st /\
    (ZW_TransportService_SendData e q d len f st').1 = false.
Proof.
  intros Hdata Hl Hsid Hp Hready Hst.
  destruct (datagram_received e data sid 47 src p st) as (st' & Hrun & _ & Ht & Hs); try done.
  exists st'. split; [exact Hrun|]. split; [exact Ht|].
  assert ((Zlength data <=? 47) = true) as Hle by lia. rewrite Hle in Hs.
  unfold ZW_TransportService_SendData, ZW_TransportService_Is_Sending,
    ZW_TransportService_Is_Receving, recv_or_send. cbv zeta.
  simpl (current_state _). by rewrite Hs.
Qed.

Lemma single_fragment_blocks_sending_witness :
  exists st', ts_run (env_ok 2) (map (recv_event (unicast 1 2)) (datagram_frames (seqZ 0 20) 3 47)) ts_started = Some st' /\
    trace st' = delivered (unicast 1 2) (seqZ 0 20) :: acknowledged (unicast 1 2) 3 :: trace ts_started /\
    (ZW_TransportService_SendData (env_ok 2) (unicast 2 1) [1] 1 7 st').1 = false.
Proof.
  apply (single_fragment_blocks_sending (env_ok 2) (seqZ 0 20) 3 1 (unicast 1 2) ts_started
    (unicast 2 1) [1] 1 7);
    [apply sample_ok; lia|by vm_compute|lia|apply unicast_from_peer|apply ts_started_ready|reflexivity].
Defined.

(** ** A request beyond the datagram

    [reply_frag_req] does not compare the requested offset with the length of
    the datagram: while a datagram of 100 bytes waits for its confirmation, a
    request for offset 0x700 makes it copy [u16 (100 - 0x700)] bytes into the
    54 bytes of [t2_txBuf]. *)
Theorem segment_request_overflow :
  exists st st',
    ts_run (env_ok 1) (E_send (unicast 1 2) (seqZ 0 100) 100 7 :: rounds [(0, 5); (0, 6)]) ts_started
      = Some st /\ fault st = None /\
    ts_run (env_ok 1) [E_recv (unicast 2 1) [0x55; 0xC8; 0x37; 0; 0; 0] 4] st = Some st' /\
    fault st' = Some F_out_of_bounds.
Proof.
  destruct (ts_run (env_ok 1) (E_send (unicast 1 2) (seqZ 0 100) 100 7 :: rounds [(0, 5); (0, 6)]) ts_started)
    as [st|] eqn:E; [|by vm_compute in E].
  vm_compute in E. injection E as <-. eexists _, _. split; [reflexivity|].
  split; [reflexivity|]. cbn [ts_run ts_step]. split; [reflexivity|]. by vm_compute.
Qed.

(** ** Broadcasts

    A broadcast datagram of more than one fragment is reassembled, but not
    handed to the application, and the module is not idle afterwards. *)
Theorem broadcast_not_delivered :
  exists st',
    ts_run (env_ok 2) (map (event_of (seqZ 0 100) 3)
      (let p := unicast 1 0xff <| rx_flags := RECEIVE_STATUS_TYPE_BROAD |> in
       RI_first p 39 :: fragments_from p 39 [39; 22])) ts_started = Some st' /\
    trace st' = [] /\ current_state st' = ST_FIND_MISS_FRAG /\
    sub_buf (datagramData (rcb st')) 0 100 = seqZ 0 100.
Proof.
  eexists. split; [by vm_compute|]. by vm_compute.
Qed.
