(* ===== verification/ConHandle.v ===== *)
(** * Serial frames between the gateway and the Z-Wave module

    Models src/src/serialapi/conhandle.c: [ConTxFrame] builds and sends a frame,
    [ConUpdate] takes bytes from the serial port and returns what they amount
    to.  The port is a queue of received bytes and the list of bytes written.
    [SerialGetBuffer] blocks until it has all the bytes it was asked for, so
    [ConUpdate] answers [None] when the port does not hold the whole frame yet.
    Whether a timer has expired is told to [ConUpdate] from outside.

    [con_fault] records an access outside [serBuf] or [tx_buffer], and a
    checksum loop that does not end. *)

From S2P Require Import Prelude.
#[local] Open Scope Z_scope.
#[local] Open Scope zgw_scope.

(** ** Data *)

Definition SOF : Z := 0x01.
Definition ACK : Z := 0x06.
Definition NAK : Z := 0x15.
Definition CAN : Z := 0x18.
Definition SERBUF_MAX : Z := 0xff.
Definition FRAME_LENGTH_MIN : Z := 3.
Definition FRAME_LENGTH_MAX : Z := SERBUF_MAX.

Inductive con_state_t : Set :=
| stateSOFHunt | stateLen | stateType | stateCmd | stateData | stateChecksum.

Inductive T_CON_TYPE : Set :=
| conIdle | conFrameReceived | conFrameSent | conFrameErr | conRxTimeout | conTxTimeout
| conTxErr | conTxWait.

#[export] Instance T_CON_TYPE_eq_dec : EqDecision T_CON_TYPE.
Proof. solve_decision. Defined.

Inductive con_fault_kind : Set := CF_out_of_bounds | CF_endless_loop.

Record con := {
  serBuf : list Z;
  serBufLen : Z;
  con_state : con_state_t;
  bChecksum_RX : Z;
  rxActive : bool;
  AckNakNeeded : bool;
  port_in : list Z;
  port_out : list Z;
  con_fault : option con_fault_kind;
}.
#[export] Instance eta_con : EtaRecord con := fun r =>
  {| serBuf := serBuf r; serBufLen := serBufLen r; con_state := con_state r;
     bChecksum_RX := bChecksum_RX r; rxActive := rxActive r; AckNakNeeded := AckNakNeeded r;
     port_in := port_in r; port_out := port_out r; con_fault := con_fault r |}.

Definition con_raise (k : con_fault_kind) (st : con) : con :=
  st <| con_fault := match con_fault st with Some f => Some f | None => Some k end |>.

Definition con_access (i n size : Z) (st : con) : con :=
  if in_range i n size then st else con_raise CF_out_of_bounds st.

Definition SerialPutBuffer (b : list Z) (st : con) : con := st <| port_out := port_out st ++ b |>.
Definition SerialPutByte (c : Z) (st : con) : con := SerialPutBuffer [c] st.

(** ** Sending *)

(** [for (i = 0; i < len+3; i++) bChecksum ^= tx_buffer[i+1]] with a [uint8_t i];
    [None] when [fuel] rounds did not end it. *)
Fixpoint tx_checksum (fuel : nat) (i : Z) (len : Z) (b : list Z) (chk : Z) : option Z :=
  match fuel with
  | O => None
  | S fuel =>
      if i <? len + 3 then tx_checksum fuel (u8 (i + 1)) len b (Z.lxor chk (rd b (i + 1)))
      else Some chk
  end.

Definition ConTxFrame (cmd type : Z) (Buf : list Z) (len : Z) (st : con) : con :=
  let b := [SOF; u8 (len + 3); type; cmd] ++ sub_buf Buf 0 len in
  let st := con_access 0 (len + 5) 255 st in
  match tx_checksum 257 0 len b 0xFF with
  | None => con_raise CF_endless_loop st
  | Some bChecksum =>
      SerialPutBuffer (b ++ [bChecksum]) st <| AckNakNeeded := true |>
  end.

(** ** Receiving *)

Definition rx_checksum (b : list Z) : Z := foldl Z.lxor 0xFF b.

(** The case [stateLen]: the length byte [c] and the rest of the frame. *)
Definition ConUpdate_len (acknowledge : bool) (c : Z) (st : con) : option (T_CON_TYPE * con) :=
  if (c <? FRAME_LENGTH_MIN) || (FRAME_LENGTH_MAX <? c) then
    Some (conIdle, st <| con_state := stateSOFHunt |> <| rxActive := false |>)
  else if Zlength (port_in st) <? c then None
  else
    let st := con_access 1 c SERBUF_MAX st in
    let body := sub_buf (port_in st) 0 c in
    let st := st <| serBuf := memcpy_at (wr (serBuf st) 0 c) 1 body |>
                 <| serBufLen := c |>
                 <| port_in := drop (Z.to_nat c) (port_in st) |>
                 <| bChecksum_RX := rx_checksum (c :: body) |> in
    let '(ret, st) :=
      if acknowledge then
        if bChecksum_RX st =? 0 then (conFrameReceived, SerialPutByte ACK st)
        else (conFrameErr, SerialPutByte NAK st)
      else (conIdle, SerialPutByte CAN st) in
    Some (ret, st <| con_state := stateSOFHunt |> <| rxActive := false |>).

(** One byte [c] taken from the port. *)
Definition ConUpdate_byte (acknowledge : bool) (c : Z) (st : con) : option (T_CON_TYPE * con) :=
  match con_state st with
  | stateSOFHunt =>
      if c =? SOF then
        Some (conIdle, st <| bChecksum_RX := 0xff |> <| serBufLen := 0 |> <| rxActive := true |>
                          <| con_state := stateLen |>)
      else if AckNakNeeded st then
        if c =? ACK then Some (conFrameSent, st <| AckNakNeeded := false |>)
        else if c =? NAK then Some (conTxErr, st <| AckNakNeeded := false |>)
        else if c =? CAN then Some (conTxWait, st <| AckNakNeeded := false |>)
        else Some (conIdle, st)
      else Some (conIdle, st)
  | stateLen => ConUpdate_len acknowledge c st
  | _ => Some (conIdle, st <| con_state := stateSOFHunt |> <| rxActive := false |>)
  end.

(** The [do ... while] loop; every round takes a byte from the port. *)
Fixpoint ConUpdate_loop (fuel : nat) (acknowledge : bool) (st : con) : option (T_CON_TYPE * con) :=
  match fuel, port_in st with
  | S fuel, c :: rest =>
      match ConUpdate_byte acknowledge c (st <| port_in := rest |>) with
      | Some (conIdle, st) => ConUpdate_loop fuel acknowledge st
      | r => r
      end
  | _, _ => Some (conIdle, st)
  end.

Definition ConUpdate (acknowledge timeOutRX timeOutACK : bool) (st : con) : option (T_CON_TYPE * con) :=
  match ConUpdate_loop (length (port_in st)) acknowledge st with
  | Some (conIdle, st) =>
      let '(ret, st) :=
        if rxActive st && timeOutRX
        then (conRxTimeout, st <| con_state := stateSOFHunt |> <| rxActive := false |>)
        else (conIdle, st) in
      if AckNakNeeded st && timeOutACK then Some (conTxTimeout, st <| AckNakNeeded := false |>)
      else Some (ret, st)
  | r => r
  end.

(** [ConInit], when the serial port could be opened. *)
Definition ConInit (st : con) : con :=
  SerialPutByte ACK (st <| serBufLen := 0 |> <| con_state := stateSOFHunt |>).

(** ** The checksum *)

(** The bytes of a frame after the start byte, without the checksum. *)
Definition frame_body (cmd type : Z) (data : list Z) : list Z :=
  [Zlength data + 3; type; cmd] ++ data.

Definition frame_bytes (cmd type : Z) (data : list Z) : list Z :=
  SOF :: frame_body cmd type data ++ [rx_checksum (frame_body cmd type data)].

Lemma rx_checksum_snoc b : rx_checksum (b ++ [rx_checksum b]) = 0.
Proof. unfold rx_checksum. rewrite foldl_app. simpl. apply Z.lxor_nilpotent. Qed.

Lemma foldl_lxor a b : foldl Z.lxor a b = Z.lxor a (foldl Z.lxor 0 b).
Proof.
  revert a. induction b as [|x b IH]; intros a; simpl; [by rewrite Z.lxor_0_r|].
  by rewrite (IH (Z.lxor a x)), (IH (Z.lxor 0 x)), Z.lxor_0_l, Z.lxor_assoc.
Qed.

(** Frames that differ in one byte have different checksums. *)
Lemma rx_checksum_one_byte l x y r : rx_checksum (l ++ x :: r) = rx_checksum (l ++ y :: r) -> x = y.
Proof.
  unfold rx_checksum. rewrite !foldl_app. simpl.
  rewrite (foldl_lxor (Z.lxor _ x)), (foldl_lxor (Z.lxor _ y)). intros H.
  apply (f_equal (fun z => Z.lxor (foldl Z.lxor 255 l) (Z.lxor z (foldl Z.lxor 0 r)))) in H.
  cbv beta in H. rewrite !Z.lxor_assoc, !Z.lxor_nilpotent, !Z.lxor_0_r in H.
  by rewrite <- !Z.lxor_assoc, !Z.lxor_nilpotent, !Z.lxor_0_l in H.
Qed.

Lemma tx_checksum_ok fuel i len b chk : 0 <= i <= len + 3 -> len + 3 < 256 ->
  len + 4 <= Zlength b -> len + 3 - i < Z.of_nat fuel ->
  tx_checksum fuel i len b chk = Some (foldl Z.lxor chk (sub_buf b (i + 1) (len + 3 - i))).
Proof.
  revert i chk. induction fuel as [|fuel IH]; intros i chk Hi Hl Hb Hf; [lia|].
  cbn [tx_checksum]. destruct (Z.ltb_spec i (len + 3)) as [Hlt|Hge].
  - rewrite u8_id by (unfold byte; lia). rewrite IH by lia.
    unfold sub_buf. replace (Z.to_nat (len + 3 - i)) with (S (Z.to_nat (len + 3 - (i + 1)))) by lia.
    destruct (b !! Z.to_nat (i + 1)) as [x|] eqn:Ex.
    + rewrite (drop_S b x (Z.to_nat (i + 1))) by done. cbn [take foldl]. rewrite (rd_lookup _ _ x Ex).
      replace (Z.to_nat (i + 1 + 1)) with (S (Z.to_nat (i + 1))) by lia. done.
    + apply lookup_ge_None in Ex. unfold Zlength in Hb. lia.
  - unfold sub_buf. replace (Z.to_nat (len + 3 - i)) with 0%nat by lia. by rewrite take_0.
Qed.

(** What [ConTxFrame] writes to the port. *)
Lemma ConTxFrame_spec cmd type data st : Zlength data <= 250 ->
  ConTxFrame cmd type data (Zlength data) st =
  SerialPutBuffer (frame_bytes cmd type data) st <| AckNakNeeded := true |>.
Proof.
  intros Hl. assert (0 <= Zlength data) by (unfold Zlength; lia). unfold ConTxFrame. cbv zeta.
  assert (sub_buf data 0 (Zlength data) = data) as ->.
  { unfold sub_buf, Zlength. rewrite Nat2Z.id. by apply take_ge. }
  rewrite u8_id by (unfold byte; lia).
  unfold con_access. assert (in_range 0 (Zlength data + 5) 255 = true) as ->
    by (unfold in_range; lia).
  rewrite tx_checksum_ok by (rewrite ?Zlength_app; first [lia|change (Zlength [_;_;_;_]) with 4; lia]).
  change ([SOF; Zlength data + 3; type; cmd] ++ data) with (SOF :: frame_body cmd type data).
  replace (sub_buf (SOF :: frame_body cmd type data) (0 + 1) (Zlength data + 3 - 0))
    with (frame_body cmd type data); [done|].
  unfold sub_buf. change (Z.to_nat (0 + 1)) with 1%nat. simpl (drop _ _). symmetry. apply take_ge.
  unfold frame_body. rewrite length_app. unfold Zlength. simpl. lia.
Qed.

(** ** A frame on the port *)

(** The module is looking for a start byte and not waiting for an answer. *)
Record con_hunting (st : con) : Prop := {
  ch_state : con_state st = stateSOFHunt;
  ch_ack : AckNakNeeded st = false;
  ch_buf : length (serBuf st) = 255%nat;
  ch_fault : con_fault st = None;
}.

(** What [ConUpdate true] leaves behind after the frame of length byte [c]. *)
Definition frame_taken (c : Z) (body rest : list Z) (answer : Z) (st st' : con) : Prop :=
  con_state st' = stateSOFHunt /\ rxActive st' = false /\ AckNakNeeded st' = false /\
  serBufLen st' = c /\ sub_buf (serBuf st') 0 (c + 1) = c :: body /\ port_in st' = rest /\
  port_out st' = port_out st ++ [answer] /\ con_fault st' = None.

Lemma update_len c body rest st :
  port_in st = body ++ rest -> Zlength body = c -> 3 <= c <= 254 -> length (serBuf st) = 255%nat ->
  con_fault st = None -> AckNakNeeded st = false ->
  let ok := rx_checksum (c :: body) =? 0 in
  exists st', ConUpdate_len true c st = Some (if ok then conFrameReceived else conFrameErr, st') /\
    frame_taken c body rest (if ok then ACK else NAK) st st'.
Proof.
  intros Hin Hbody Hc Hbuf Hfault Hack ok. unfold ConUpdate_len.
  assert ((c <? FRAME_LENGTH_MIN) || (FRAME_LENGTH_MAX <? c) = false) as ->
    by (unfold FRAME_LENGTH_MIN, FRAME_LENGTH_MAX, SERBUF_MAX; lia).
  rewrite Hin, Zlength_app.
  assert ((Zlength body + Zlength rest <? c) = false) as -> by (unfold Zlength in *; lia).
  unfold con_access. assert (in_range 1 c SERBUF_MAX = true) as ->
    by (unfold in_range, SERBUF_MAX; lia).
  assert (length body = Z.to_nat c) as Hlen by (unfold Zlength in Hbody; lia).
  assert (sub_buf (port_in st) 0 c = body) as ->.
  { rewrite Hin. unfold sub_buf. simpl. rewrite drop_0. by apply take_app_length'. }
  assert (drop (Z.to_nat c) (port_in st) = rest) as -> by (rewrite Hin; by apply drop_app_length').
  assert (sub_buf (memcpy_at (wr (serBuf st) 0 c) 1 body) 0 (c + 1) = c :: body) as Hsub.
  { change (c :: body) with ([c] ++ body). replace (c + 1) with (1 + Zlength body) by lia.
    assert (Zlength (wr (serBuf st) 0 c) = 255) as Hw
      by (unfold Zlength, wr; rewrite length_insert; lia).
    apply sub_buf_memcpy_app; [|done|lia].
    destruct (serBuf st) as [|x b] eqn:Eb; [done|]. done. }
  generalize dependent (memcpy_at (wr (serBuf st) 0 c) 1 body). intros buf Hsub.
  set (st1 := modify bChecksum_RX _ _).
  change (bChecksum_RX st1) with (rx_checksum (c :: body)). fold ok.
  destruct ok; eexists; (split; [reflexivity|]);
    (split_and!; [reflexivity|reflexivity|exact Hack|reflexivity|exact Hsub|reflexivity|reflexivity|exact Hfault]).
Qed.

Lemma loop_start ack fuel c r st : con_state st = stateSOFHunt -> port_in st = SOF :: c :: r ->
  exists st1, port_in st1 = r /\ serBuf st1 = serBuf st /\ con_fault st1 = con_fault st /\
    AckNakNeeded st1 = AckNakNeeded st /\ port_out st1 = port_out st /\
    ConUpdate_loop (S (S fuel)) ack st =
    match ConUpdate_len ack c st1 with
    | Some (conIdle, st) => ConUpdate_loop fuel ack st
    | res => res
    end.
Proof.
  intros Hst Hin. cbn [ConUpdate_loop]. rewrite Hin. unfold ConUpdate_byte at 1.
  simpl (con_state _). rewrite Hst. cbn [Z.eqb SOF Pos.eqb].
  eexists. split; [|split; [|split; [|split; [|split; [|reflexivity]]]]]; reflexivity.
Qed.

Lemma hunt_skip g c body rest st : con_hunting st ->
  Forall (fun x => x <> SOF) g -> port_in st = g ++ SOF :: c :: body ++ rest ->
  Zlength body = c -> 3 <= c <= 254 ->
  let ok := rx_checksum (c :: body) =? 0 in
  exists st', ConUpdate_loop (length (port_in st)) true st =
                Some (if ok then conFrameReceived else conFrameErr, st') /\
    frame_taken c body rest (if ok then ACK else NAK) st st'.
Proof.
  intros Hh Hg Hin Hbody Hc ok. assert (length (port_in st) <= length (port_in st))%nat as Hf by lia.
  revert Hf. generalize (length (port_in st)) at 2 3 as fuel. intros fuel. rewrite Hin.
  revert st Hh Hin fuel. induction Hg as [|x g Hx Hg IH]; intros st [Hst Hack Hbuf Hfa] Hin fuel Hfuel.
  - destruct fuel as [|[|fuel]]; [simpl in Hfuel; lia..|].
    destruct (loop_start true fuel c (body ++ rest) st Hst Hin)
      as (st1 & Hin1 & Hbuf1 & Hfa1 & Hack1 & Hout1 & ->).
    destruct (update_len c body rest st1) as (st' & -> & Hp); try congruence.
    exists st'. unfold ok in *. split; [by destruct (rx_checksum (c :: body) =? 0)|].
    destruct Hp as (? & ? & ? & ? & ? & ? & Ho & ?). split_and!; try done. congruence.
  - destruct fuel as [|fuel]; [simpl in Hfuel; lia|]. cbn [ConUpdate_loop]. rewrite Hin. cbn [app].
    unfold ConUpdate_byte at 1. simpl (con_state _). rewrite Hst.
    assert ((x =? SOF) = false) as -> by lia. simpl (AckNakNeeded _). rewrite Hack.
    destruct (IH (st <| port_in := g ++ SOF :: c :: body ++ rest |>)) with (fuel := fuel)
      as (st' & Heq & Hp); [by split|done|simpl in Hfuel; lia|].
    exists st'. split; [exact Heq|exact Hp].
Qed.

Lemma update_frame g c body rest t1 t2 st : con_hunting st ->
  Forall (fun x => x <> SOF) g -> port_in st = g ++ SOF :: c :: body ++ rest ->
  Zlength body = c -> 3 <= c <= 254 ->
  let ok := rx_checksum (c :: body) =? 0 in
  exists st', ConUpdate true t1 t2 st = Some (if ok then conFrameReceived else conFrameErr, st') /\
    frame_taken c body rest (if ok then ACK else NAK) st st'.
Proof.
  intros Hh Hg Hin Hbody Hc ok. destruct (hunt_skip g c body rest st Hh Hg Hin Hbody Hc) as (st' & Heq & Hp).
  exists st'. split; [|exact Hp]. unfold ConUpdate. rewrite Heq. fold ok. by destruct ok.
Qed.

Lemma frame_body_split cmd type data : exists body,
  frame_body cmd type data ++ [rx_checksum (frame_body cmd type data)] = (Zlength data + 3) :: body /\
  Zlength body = Zlength data + 3 /\ sub_buf body 0 (Zlength data + 2) = [type; cmd] ++ data.
Proof.
  eexists. split; [reflexivity|]. split.
  - unfold Zlength. cbn [length app]. rewrite length_app. simpl. lia.
  - unfold sub_buf. change (Z.to_nat 0) with 0%nat. rewrite drop_0.
    apply (take_app_length' (type :: cmd :: data)). unfold Zlength. simpl. lia.
Qed.

(** ** Theorems *)

(** C32. A frame [ConTxFrame] writes with at most 250 bytes of data, after any bytes
    that are not a start byte, is received as written by a [ConUpdate] that looks
    for a frame and waits for no acknowledgement: length, type, command and data are in
    [serBuf], the frame is acknowledged, and nothing behind it is taken. *)
Theorem con_frame_round_trip cmd type data g rest t1 t2 tx st :
  Zlength data <= 250 -> con_hunting st -> Forall (fun x => x <> SOF) g ->
  port_out tx = [] ->
  port_in st = g ++ port_out (ConTxFrame cmd type data (Zlength data) tx) ++ rest ->
  exists st', ConUpdate true t1 t2 st = Some (conFrameReceived, st') /\
    sub_buf (serBuf st') 0 (Zlength data + 3) = [Zlength data + 3; type; cmd] ++ data /\
    serBufLen st' = Zlength data + 3 /\ port_in st' = rest /\
    port_out st' = port_out st ++ [ACK] /\ con_state st' = stateSOFHunt /\ con_fault st' = None.
Proof.
  intros Hl Hh Hg Htx Hin. rewrite ConTxFrame_spec in Hin by done.
  simpl (port_out _) in Hin. rewrite Htx in Hin. cbn [app] in Hin.
  destruct (frame_body_split cmd type data) as (body & Hb & Hbl & Hsub).
  unfold frame_bytes in Hin. rewrite Hb in Hin. cbn [app] in Hin.
  assert (0 <= Zlength data) by (unfold Zlength; lia).
  assert (rx_checksum ((Zlength data + 3) :: body) = 0) as Hchk by (rewrite <- Hb; apply rx_checksum_snoc).
  destruct (update_frame g (Zlength data + 3) body rest t1 t2 st Hh Hg Hin Hbl)
    as (st' & Heq & Hs & _ & _ & Hlen & Hbuf & Hrest & Hout & Hfa); [lia|].
  rewrite Hchk in Heq, Hout. exists st'. split; [exact Heq|]. split; [|by split_and!].
  apply (f_equal (take (Z.to_nat (Zlength data + 3)))) in Hbuf. unfold sub_buf in Hbuf.
  rewrite take_take, Nat.min_l in Hbuf by lia. unfold sub_buf at 1. rewrite Hbuf.
  replace (Z.to_nat (Zlength data + 3)) with (S (Z.to_nat (Zlength data + 2))) by lia.
  cbn [take app]. f_equal. exact Hsub.
Qed.

(** A frame of which one byte behind the length was changed is refused: the
    module answers NAK and reports the error. *)
Theorem con_single_error_nak c l x y r g rest t1 t2 st :
  con_hunting st -> Forall (fun x => x <> SOF) g -> 3 <= c <= 254 ->
  Zlength (l ++ x :: r) = c -> rx_checksum (c :: l ++ x :: r) = 0 -> x <> y ->
  port_in st = g ++ SOF :: c :: (l ++ y :: r) ++ rest ->
  exists st', ConUpdate true t1 t2 st = Some (conFrameErr, st') /\
    port_in st' = rest /\ port_out st' = port_out st ++ [NAK] /\ con_state st' = stateSOFHunt.
Proof.
  intros Hh Hg Hc Hlen Hchk Hne Hin.
  destruct (update_frame g c (l ++ y :: r) rest t1 t2 st Hh Hg Hin)
    as (st' & Heq & Hs & _ & _ & _ & _ & Hrest & Hout & _); [|done|].
  { rewrite <- Hlen. unfold Zlength. rewrite !length_app. done. }
  destruct (Z.eqb_spec (rx_checksum (c :: l ++ y :: r)) 0) as [H0|H0].
  - exfalso. apply Hne, (rx_checksum_one_byte (c :: l) x y r). cbn [app]. congruence.
  - exists st'. by split_and!.
Qed.

(** While an answer to a sent frame is awaited, ACK, NAK and CAN each end the
    wait with their own result, and silence until the timeout with another. *)
Theorem con_answer c rest t1 t2 st :
  con_state st = stateSOFHunt -> AckNakNeeded st = true ->
  (port_in st = c :: rest -> forall ret,
     (c, ret) ∈ [(ACK, conFrameSent); (NAK, conTxErr); (CAN, conTxWait)] ->
     exists st', ConUpdate true t1 t2 st = Some (ret, st') /\ AckNakNeeded st' = false /\
                 port_in st' = rest /\ port_out st' = port_out st) /\
  (port_in st = [] -> rxActive st = false ->
     ConUpdate true t1 t2 st =
     Some (if t2 then (conTxTimeout, st <| AckNakNeeded := false |>) else (conIdle, st))).
Proof.
  intros Hst Hack. split.
  - intros Hin ret Hret. unfold ConUpdate. rewrite Hin. cbn [length ConUpdate_loop]. rewrite Hin.
    unfold ConUpdate_byte. simpl (con_state _). rewrite Hst. simpl (AckNakNeeded _). rewrite Hack.
    rewrite !elem_of_cons, elem_of_nil in Hret.
    destruct Hret as [[= -> ->]|[[= -> ->]|[[= -> ->]|[]]]]; eexists; (split; [reflexivity|]); done.
  - intros Hin Hrx. unfold ConUpdate. rewrite Hin. cbn [length ConUpdate_loop].
    rewrite Hrx. cbn [andb]. rewrite Hack. by destruct t2.
Qed.

(** ** Where the buffers are too small

    A frame length of 255 passes the check against [FRAME_LENGTH_MAX], but
    [serBuf] has room for 254 bytes behind the length. *)
Theorem con_length_overflow body rest t1 t2 st :
  con_hunting st -> Zlength body = 255 -> port_in st = SOF :: 255 :: body ++ rest ->
  exists ret st', ConUpdate true t1 t2 st = Some (ret, st') /\ con_fault st' = Some CF_out_of_bounds.
Proof.
  intros [Hst Hack Hbuf Hfa] Hb Hin. unfold ConUpdate.
  replace (length (port_in st)) with (S (S (length (body ++ rest)))) by by rewrite Hin.
  destruct (loop_start true (length (body ++ rest)) 255 (body ++ rest) st Hst Hin)
    as (st1 & Hin1 & Hbuf1 & Hfa1 & Hack1 & Hout1 & ->).
  assert (exists ret st', ret <> conIdle /\ ConUpdate_len true 255 st1 = Some (ret, st') /\
            con_fault st' = Some CF_out_of_bounds) as (ret & st' & Hret & -> & Hf).
  { unfold ConUpdate_len. cbn [Z.ltb Z.compare FRAME_LENGTH_MIN FRAME_LENGTH_MAX SERBUF_MAX orb Pos.compare Pos.compare_cont].
    rewrite Hin1, Zlength_app, Hb.
    assert ((255 + Zlength rest <? 255) = false) as -> by (unfold Zlength; lia).
    unfold con_access. assert (in_range 1 255 SERBUF_MAX = false) as -> by done.
    set (st2 := modify bChecksum_RX _ _).
    destruct (bChecksum_RX st2 =? 0); eexists _, _; (split; [|split; [reflexivity|]]); try done;
      change (con_fault (con_raise CF_out_of_bounds st1) = Some CF_out_of_bounds);
      unfold con_raise; simpl; by rewrite Hfa1, Hfa. }
  exists ret, st'. split; [|exact Hf]. by destruct ret.
Qed.

(** [ConTxFrame] with more than 250 bytes of data writes behind [tx_buffer],
    and from 253 bytes on its checksum loop does not end. *)
Lemma con_tx_overflow : forall len, 250 < len <= 255 -> forall st, con_fault st = None ->
  con_fault (ConTxFrame 1 0 (zeros 255) len st) = Some CF_out_of_bounds.
Proof.
  intros len Hlen st Hf. unfold ConTxFrame. cbv zeta. unfold con_access.
  assert (in_range 0 (len + 5) 255 = false) as -> by (unfold in_range; lia).
  unfold con_raise. rewrite Hf. by destruct (tx_checksum _ _ _ _ _).
Qed.

(** ** The hypotheses are satisfiable *)

Definition con_zero (input : list Z) : con :=
  {| serBuf := zeros 255; serBufLen := 0; con_state := stateSOFHunt; bChecksum_RX := 0;
     rxActive := false; AckNakNeeded := false; port_in := input; port_out := []; con_fault := None |}.

Lemma con_zero_hunting input : con_hunting (con_zero input).
Proof. by split. Qed.

Lemma con_frame_round_trip_witness :
  exists st', ConUpdate true false false
      (con_zero ([6; 0x42] ++ port_out (ConTxFrame 0x13 0 [7; 8; 9] 3 (con_zero [])) ++ [1; 3])) =
      Some (conFrameReceived, st') /\ sub_buf (serBuf st') 0 6 = [6; 0; 0x13] ++ [7; 8; 9].
Proof.
  destruct (con_frame_round_trip 0x13 0 [7; 8; 9] [6; 0x42] [1; 3] false false (con_zero [])
    (con_zero ([6; 0x42] ++ port_out (ConTxFrame 0x13 0 [7; 8; 9] 3 (con_zero [])) ++ [1; 3])))
    as (st' & H1 & H2 & _).
  - by vm_compute.
  - apply con_zero_hunting.
  - by forall_list.
  - reflexivity.
  - reflexivity.
  - exists st'. split; [exact H1|exact H2].
Defined.

Lemma con_single_error_nak_witness :
  exists st', ConUpdate true false false (con_zero [1; 3; 0; 0x16; 0xE9]) = Some (conFrameErr, st') /\
    port_out st' = [NAK].
Proof.
  destruct (con_single_error_nak 3 [0] 0x15 0x16 [0xE9] [] [] false false
    (con_zero [1; 3; 0; 0x16; 0xE9])) as (st' & H1 & _ & H2 & _).
  - apply con_zero_hunting.
  - constructor.
  - lia.
  - reflexivity.
  - reflexivity.
  - discriminate.
  - reflexivity.
  - exists st'. split; [exact H1|exact H2].
Defined.

Lemma con_answer_witness :
  exists st', ConUpdate true false false (con_zero [ACK; 7] <| AckNakNeeded := true |>) =
    Some (conFrameSent, st') /\ port_in st' = [7].
Proof.
  destruct (con_answer ACK [7] false false (con_zero [ACK; 7] <| AckNakNeeded := true |>)) as [H _];
    [reflexivity..|].
  destruct (H ltac:(reflexivity) conFrameSent) as (st' & H1 & _ & H2 & _); [left|].
  exists st'. split; [exact H1|exact H2].
Defined.

Lemma con_length_overflow_witness :
  exists ret st', ConUpdate true false false (con_zero (SOF :: 255 :: zeros 255 ++ [])) = Some (ret, st') /\
    con_fault st' = Some CF_out_of_bounds.
Proof.
  apply (con_length_overflow (zeros 255) []); [apply con_zero_hunting|reflexivity|reflexivity].
Defined.
