(* ===== verification/Nodemask.v ===== *)
(** * Node masks

    Models src/src/utls/zgw_nodemask.c and the macros of zgw_nodemask.h: a set of
    node ids as an array of bits.  Classic nodes 1..232 use the bits 0..231, long
    range nodes 256..4000 the bits 256..4000.  [mask_set] reads a mask back as
    the set of its nodes, and the operations are shown to be insertion, test and
    removal on that set. *)

From S2P Require Import Prelude.
#[local] Open Scope Z_scope.

(** ** The model *)

Definition ZW_CLASSIC_MAX_NODES : Z := 232.
Definition ZW_LR_MIN_NODE_ID : Z := 256.
Definition ZW_LR_MAX_NODE_ID : Z := 4000.
Definition ZW_MAX_NODES : Z := ZW_LR_MAX_NODE_ID.
Definition NODEMASK_SIZE : Z := ZW_MAX_NODES / 8 + 1.

Definition BIT8_TST (bitnum : Z) (a : list Z) : Z :=
  Z.land (Z.shiftr (rd a (Z.shiftr bitnum 3)) (Z.land bitnum 7)) 1.
Definition BIT8_SET (bitnum : Z) (a : list Z) : list Z :=
  wr a (Z.shiftr bitnum 3) (u8 (Z.lor (rd a (Z.shiftr bitnum 3)) (Z.shiftl 1 (Z.land bitnum 7)))).
Definition BIT8_CLR (bitnum : Z) (a : list Z) : list Z :=
  wr a (Z.shiftr bitnum 3)
    (u8 (Z.land (rd a (Z.shiftr bitnum 3)) (Z.lnot (Z.shiftl 1 (Z.land bitnum 7))))).

Definition is_classic_node (nodeid : Z) : bool := (0 <? nodeid) && (nodeid <=? ZW_CLASSIC_MAX_NODES).
Definition is_lr_node (nodeid : Z) : bool :=
  (ZW_LR_MIN_NODE_ID <=? nodeid) && (nodeid <=? ZW_LR_MAX_NODE_ID).
Definition nodemask_nodeid_is_invalid (nodeid : Z) : bool :=
  negb (is_classic_node nodeid) && negb (is_lr_node nodeid).

(** The returned int comes with the changed mask. *)
Definition nodemask_add_node (nodeID : Z) (mask : list Z) : Z * list Z :=
  if nodemask_nodeid_is_invalid nodeID then (0, mask)
  else if is_classic_node nodeID then (1, BIT8_SET (nodeID - 1) mask)
  else (1, BIT8_SET nodeID mask).

Definition nodemask_test_node (nodeID : Z) (mask : list Z) : Z :=
  if nodemask_nodeid_is_invalid nodeID then 0
  else if is_classic_node nodeID then BIT8_TST (nodeID - 1) mask
  else BIT8_TST nodeID mask.

Definition nodemask_remove_node (nodeID : Z) (mask : list Z) : Z * list Z :=
  if nodemask_nodeid_is_invalid nodeID then (0, mask)
  else if is_classic_node nodeID then (1, BIT8_CLR (nodeID - 1) mask)
  else (1, BIT8_CLR nodeID mask).

(** ** Bits *)

Definition nodemask_ok (mask : list Z) : Prop := Zlength mask = NODEMASK_SIZE /\ bytes mask.

(** The bit of a mask. *)
Definition mbit (mask : list Z) (i : Z) : bool := Z.testbit (rd mask (i / 8)) (i mod 8).

Lemma bit_index i : Z.shiftr i 3 = i / 8 /\ Z.land i 7 = i mod 8.
Proof.
  split; [by rewrite Z.shiftr_div_pow2 by lia|].
  change 7 with (Z.ones 3). by rewrite Z.land_ones by lia.
Qed.

Lemma index_range i : 0 <= i < 4008 -> 0 <= i / 8 < 501 /\ 0 <= i mod 8 < 8.
Proof. intros Hi. Z.to_euclidean_division_equations. lia. Qed.

Lemma index_inj i j : i / 8 = j / 8 -> i mod 8 = j mod 8 -> i = j.
Proof. intros H1 H2. rewrite (Z.div_mod i 8), (Z.div_mod j 8) by lia. congruence. Qed.

Lemma BIT8_TST_mbit i mask : BIT8_TST i mask = if mbit mask i then 1 else 0.
Proof.
  unfold BIT8_TST, mbit. destruct (bit_index i) as [-> ->].
  change 1 with (Z.ones 1) at 1. rewrite Z.land_ones by lia. change (2 ^ 1) with 2.
  rewrite Zmod_odd, <- Z.bit0_odd, Z.shiftr_spec by lia. done.
Qed.

Lemma byte_testbit x k : byte x -> 8 <= k -> Z.testbit x k = false.
Proof. intros Hx Hk. by apply (testbit_high x 8). Qed.

Lemma u8_testbit x k : 0 <= k -> Z.testbit (u8 x) k = (k <? 8) && Z.testbit x k.
Proof.
  intros Hk. unfold u8. change 256 with (2 ^ 8). destruct (Z.ltb_spec k 8).
  - by rewrite Z.mod_pow2_bits_low by lia.
  - by rewrite Z.mod_pow2_bits_high by lia.
Qed.

(** The byte at the index of bit [i] replaced: what [BIT8_SET] and [BIT8_CLR] do. *)
Lemma mbit_write mask i j f : Zlength mask = NODEMASK_SIZE -> 0 <= i < 4008 -> 0 <= j < 4008 ->
  mbit (wr mask (i / 8) (u8 (f (rd mask (i / 8))))) j =
  if j / 8 =? i / 8 then Z.testbit (f (rd mask (i / 8))) (j mod 8) else mbit mask j.
Proof.
  intros Hl Hi Hj. unfold mbit, wr. pose proof (index_range i Hi). pose proof (index_range j Hj).
  change NODEMASK_SIZE with 501 in Hl. unfold Zlength in Hl. unfold rd at 1.
  destruct (Z.eqb_spec (j / 8) (i / 8)) as [->|Hne].
  - rewrite list_lookup_insert_eq by lia. simpl. rewrite u8_testbit by lia.
    by assert ((j mod 8 <? 8) = true) as -> by lia.
  - by rewrite list_lookup_insert_ne by lia.
Qed.

Lemma wr_ok mask i x : nodemask_ok mask -> nodemask_ok (wr mask i (u8 x)).
Proof.
  intros [Hl Hb]. unfold wr. split.
  - unfold Zlength in *. by rewrite length_insert.
  - apply Forall_insert; [done|apply u8_byte].
Qed.

Lemma mbit_set mask i j : nodemask_ok mask -> 0 <= i < 4008 -> 0 <= j < 4008 ->
  mbit (BIT8_SET i mask) j = (j =? i) || mbit mask j.
Proof.
  intros [Hl Hb] Hi Hj. unfold BIT8_SET. destruct (bit_index i) as [-> ->].
  rewrite (mbit_write mask i j (fun x => Z.lor x (Z.shiftl 1 (i mod 8)))) by done.
  pose proof (index_range i Hi). pose proof (index_range j Hj).
  destruct (Z.eqb_spec (j / 8) (i / 8)) as [Heq|Hne].
  - rewrite Z.lor_spec, Z.shiftl_1_l, Z.pow2_bits_eqb by lia. unfold mbit. rewrite Heq, orb_comm.
    f_equal. destruct (Z.eqb_spec (i mod 8) (j mod 8)) as [Hm|Hm].
    + symmetry. apply Z.eqb_eq, index_inj; congruence.
    + symmetry. apply Z.eqb_neq. congruence.
  - destruct (Z.eqb_spec j i); [congruence|done].
Qed.

Lemma mbit_clr mask i j : nodemask_ok mask -> 0 <= i < 4008 -> 0 <= j < 4008 ->
  mbit (BIT8_CLR i mask) j = negb (j =? i) && mbit mask j.
Proof.
  intros [Hl Hb] Hi Hj. unfold BIT8_CLR. destruct (bit_index i) as [-> ->].
  rewrite (mbit_write mask i j (fun x => Z.land x (Z.lnot (Z.shiftl 1 (i mod 8))))) by done.
  pose proof (index_range i Hi). pose proof (index_range j Hj).
  destruct (Z.eqb_spec (j / 8) (i / 8)) as [Heq|Hne].
  - rewrite Z.land_spec, Z.lnot_spec, Z.shiftl_1_l, Z.pow2_bits_eqb by lia.
    unfold mbit. rewrite Heq, andb_comm. do 2 f_equal.
    destruct (Z.eqb_spec (i mod 8) (j mod 8)) as [Hm|Hm].
    + symmetry. apply Z.eqb_eq, index_inj; congruence.
    + symmetry. apply Z.eqb_neq. congruence.
  - destruct (Z.eqb_spec j i); [congruence|done].
Qed.

(** ** Nodes *)

(** The bit of a node. *)
Definition node_bit (nodeID : Z) : Z := if is_classic_node nodeID then nodeID - 1 else nodeID.

Definition valid_node (nodeID : Z) : Prop := nodemask_nodeid_is_invalid nodeID = false.

#[export] Instance valid_node_dec nodeID : Decision (valid_node nodeID).
Proof. unfold valid_node. apply _. Defined.

Lemma valid_node_range n : valid_node n <-> 1 <= n <= 232 \/ 256 <= n <= 4000.
Proof.
  unfold valid_node, nodemask_nodeid_is_invalid, is_classic_node, is_lr_node.
  unfold ZW_CLASSIC_MAX_NODES, ZW_LR_MIN_NODE_ID, ZW_LR_MAX_NODE_ID. lia.
Qed.

(** Different nodes have different bits, inside the array. *)
Lemma node_bit_range n : valid_node n -> 0 <= node_bit n < 4008.
Proof.
  rewrite valid_node_range. unfold node_bit, is_classic_node, ZW_CLASSIC_MAX_NODES.
  destruct (_ && _) eqn:?; lia.
Qed.

Lemma node_bit_inj n k : valid_node n -> valid_node k -> node_bit n = node_bit k -> n = k.
Proof.
  rewrite !valid_node_range. unfold node_bit, is_classic_node, ZW_CLASSIC_MAX_NODES.
  destruct ((0 <? n) && _) eqn:?, ((0 <? k) && _) eqn:?; lia.
Qed.

(** The nodes of a mask. *)
Definition in_mask (n : Z) (mask : list Z) : Prop := valid_node n /\ mbit mask (node_bit n) = true.

Lemma nodemask_test_spec n mask : nodemask_test_node n mask = 1 <-> in_mask n mask.
Proof.
  unfold nodemask_test_node, in_mask, valid_node, node_bit.
  destruct (nodemask_nodeid_is_invalid n); [split; [lia|by intros []]|].
  destruct (is_classic_node n); rewrite BIT8_TST_mbit; destruct (mbit _ _); intuition lia.
Qed.

Lemma nodemask_test_range n mask : nodemask_test_node n mask = 0 \/ nodemask_test_node n mask = 1.
Proof.
  unfold nodemask_test_node. destruct (nodemask_nodeid_is_invalid n); [by left|].
  destruct (is_classic_node n); rewrite BIT8_TST_mbit; destruct (mbit _ _); auto.
Qed.

Lemma nodemask_add_spec n mask : nodemask_ok mask -> valid_node n ->
  nodemask_add_node n mask = (1, BIT8_SET (node_bit n) mask).
Proof. intros Hm Hn. unfold nodemask_add_node, node_bit. rewrite Hn. by destruct (is_classic_node n). Qed.

Lemma nodemask_remove_spec n mask : nodemask_ok mask -> valid_node n ->
  nodemask_remove_node n mask = (1, BIT8_CLR (node_bit n) mask).
Proof. intros Hm Hn. unfold nodemask_remove_node, node_bit. rewrite Hn. by destruct (is_classic_node n). Qed.

(** The operations on a node mask are the operations on the set of its nodes:
    adding and removing keep the mask well-formed and change the membership of
    that node only; an invalid id is reported with 0 and changes nothing. *)
Theorem nodemask_set_operations n mask :
  nodemask_ok mask ->
  let '(ra, ma) := nodemask_add_node n mask in
  let '(rr, mr) := nodemask_remove_node n mask in
  nodemask_ok ma /\ nodemask_ok mr /\
  (valid_node n -> ra = 1 /\ rr = 1 /\ forall k,
     (nodemask_test_node k ma = 1 <-> k = n \/ nodemask_test_node k mask = 1) /\
     (nodemask_test_node k mr = 1 <-> k <> n /\ nodemask_test_node k mask = 1)) /\
  (~ valid_node n -> ra = 0 /\ rr = 0 /\ ma = mask /\ mr = mask /\ nodemask_test_node n mask = 0).
Proof.
  intros Hm. destruct (decide (valid_node n)) as [Hn|Hn].
  - rewrite (nodemask_add_spec n mask Hm Hn), (nodemask_remove_spec n mask Hm Hn).
    split; [by apply wr_ok|]. split; [by apply wr_ok|]. split; [|done].
    intros _. split; [done|]. split; [done|]. intros k.
    rewrite !nodemask_test_spec. unfold in_mask.
    destruct (decide (valid_node k)) as [Hk|Hk]; [|split; [|tauto]; split; [tauto|]; intros [->|[]]; done].
    pose proof (node_bit_range n Hn). pose proof (node_bit_range k Hk).
    rewrite mbit_set, mbit_clr by done. rewrite orb_true_iff, andb_true_iff, negb_true_iff, Z.eqb_eq, Z.eqb_neq.
    assert (node_bit k = node_bit n <-> k = n) as Hkn
      by (split; [by apply node_bit_inj|congruence]). tauto.
  - unfold valid_node in Hn. apply not_false_iff_true in Hn.
    unfold nodemask_add_node, nodemask_remove_node, nodemask_test_node. rewrite Hn.
    split; [done|]. split; [done|]. split; [|done]. unfold valid_node. congruence.
Qed.

Lemma zeros_mask_ok : nodemask_ok (zeros 501).
Proof.
  split; [done|]. unfold zeros. apply Forall_replicate. unfold byte. lia.
Qed.

Lemma nodemask_set_operations_witness :
  nodemask_test_node 257 (nodemask_add_node 256 (zeros 501)).2 = 1 <->
  257 = 256 \/ nodemask_test_node 257 (zeros 501) = 1.
Proof.
  pose proof (nodemask_set_operations 256 (zeros 501) zeros_mask_ok) as (_ & _ & H & _).
  destruct (H eq_refl) as (_ & _ & H'). exact (proj1 (H' 257)).
Defined.
