(* ===== verification/McastGroups.v ===== *)
(** * Multicast groups

    Models src/src/multicast_group_manager.c: an array of multicast groups whose
    entries in use are linked, by their ids, into a circular list ordered by the
    time of last use.

    The contract is a list of ids, most recently used first, without links:
    [ring st order] says that the links of [st] represent [order].  Using a group
    moves it to the front, a new group is put in front, and the group that is
    recycled when all are in use is the last one. *)

From S2P Require Import Prelude Nodemask.
#[local] Open Scope Z_scope.
#[local] Open Scope zgw_scope.

(** ** The model *)

Definition MCAST_MAX_GROUPS : Z := 254.
Definition MCAST_DIST_INF : Z := 0xFFFF.

Record mcast_group := {
  in_use : bool;
  prev : Z;
  next : Z;
  nlist : list Z;
}.
#[export] Instance eta_mcast_group : EtaRecord mcast_group := fun r =>
  {| in_use := in_use r; prev := prev r; next := next r; nlist := nlist r |}.

Record mcast := {
  mcast_groups_list : list mcast_group;
  mcast_group_use_age_head : Z;
}.
#[export] Instance eta_mcast : EtaRecord mcast := fun r =>
  {| mcast_groups_list := mcast_groups_list r;
     mcast_group_use_age_head := mcast_group_use_age_head r |}.

Definition group_unused : mcast_group :=
  {| in_use := false; prev := 0; next := 0; nlist := zeros 501 |}.

Definition mcast_group_init : mcast :=
  {| mcast_groups_list := replicate (Z.to_nat MCAST_MAX_GROUPS) group_unused;
     mcast_group_use_age_head := 0 |}.

(** [mcast_get_entry(id)], read and written. *)
Definition mcast_get_entry (st : mcast) (id : Z) : mcast_group :=
  default group_unused (mcast_groups_list st !! Z.to_nat (id - 1)).

Definition mcast_set_entry (id : Z) (f : mcast_group -> mcast_group) (st : mcast) : mcast :=
  st <| mcast_groups_list := alter f (Z.to_nat (id - 1)) (mcast_groups_list st) |>.

Definition mcast_group_use_age_get_oldest (st : mcast) : Z :=
  prev (mcast_get_entry st (mcast_group_use_age_head st)).

Definition mcast_group_use_age_element_remove (group_id : Z) (st : mcast) : mcast :=
  let n := next (mcast_get_entry st group_id) in
  let p := prev (mcast_get_entry st group_id) in
  let st := mcast_set_entry p (fun g => g <| next := n |>) st in
  mcast_set_entry n (fun g => g <| prev := p |>) st.

Definition mcast_group_use_age_element_insert_head (group_id : Z) (st : mcast) : mcast :=
  let head := mcast_group_use_age_head st in
  let tail := prev (mcast_get_entry st head) in
  let st := mcast_set_entry group_id (fun g => g <| next := head |>) st in
  let st := mcast_set_entry group_id (fun g => g <| prev := tail |>) st in
  let st := mcast_set_entry head (fun g => g <| prev := group_id |>) st in
  let st := mcast_set_entry tail (fun g => g <| next := group_id |>) st in
  st <| mcast_group_use_age_head := group_id |>.

Definition mcast_group_use_age_element_insert_new (group_id : Z) (st : mcast) : mcast :=
  if mcast_group_use_age_head st =? 0 then
    mcast_set_entry group_id (fun g => g <| next := group_id |>)
      (mcast_set_entry group_id (fun g => g <| prev := group_id |>) st)
    <| mcast_group_use_age_head := group_id |>
  else mcast_group_use_age_element_insert_head group_id st.

Definition mcast_group_use_age_update (group_id : Z) (st : mcast) : mcast :=
  if group_id =? mcast_group_use_age_head st then st
  else mcast_group_use_age_element_insert_head group_id
         (mcast_group_use_age_element_remove group_id st).

(** The mask when the group exists, [None] for the return value 0. *)
Definition mcast_group_get_nodemask_by_id (group_id : Z) (st : mcast) : option (list Z) :=
  if (group_id =? 0) || (MCAST_MAX_GROUPS <? group_id) then None
  else if in_use (mcast_get_entry st group_id) then Some (nlist (mcast_get_entry st group_id))
  else None.

(** [while (tmp > 0) { tmp &= tmp-1; dist++; }] on a byte. *)
Fixpoint count_bits (fuel : nat) (tmp : Z) (dist : Z) : Z :=
  match fuel with
  | O => dist
  | S fuel => if 0 <? tmp then count_bits fuel (u8 (Z.land tmp (tmp - 1))) (dist + 1) else dist
  end.

Definition mcast_byte_distance (old new : Z) : Z :=
  if old =? new then 0
  else if negb (Z.land old (Z.lnot new) =? 0) then MCAST_DIST_INF
  else count_bits 9 (u8 (Z.lxor old new)) 0.

Fixpoint mcast_nodemask_distance_loop (old_group new_group : list Z) (dist : Z) : Z :=
  match old_group, new_group with
  | o :: old_group, n :: new_group =>
      let byte_dist := mcast_byte_distance o n in
      if byte_dist =? MCAST_DIST_INF then MCAST_DIST_INF
      else mcast_nodemask_distance_loop old_group new_group (u16 (dist + byte_dist))
  | _, _ => dist
  end.

Definition mcast_nodemask_distance (old_group new_group : list Z) : Z :=
  mcast_nodemask_distance_loop old_group new_group 0.

(** The [for] loop of [mcast_group_get_id_by_nodemask] from index [ii] on:
    (candidate, lowest_dist, first_unused). *)
Fixpoint mcast_scan (groups : list mcast_group) (ii : Z) (nodemask : list Z)
    (acc : Z * Z * Z) : Z * Z * Z :=
  match groups with
  | [] => acc
  | g :: groups =>
      let '(candidate, lowest_dist, first_unused) := acc in
      mcast_scan groups (ii + 1) nodemask
        (if in_use g then
           let tmp := mcast_nodemask_distance (nlist g) nodemask in
           if tmp <? lowest_dist then (ii + 1, tmp, first_unused) else acc
         else if first_unused =? 0 then (candidate, lowest_dist, ii + 1) else acc)
  end.

Definition mcast_group_get_id_by_nodemask (nodemask : list Z) (st : mcast) : Z * mcast :=
  if bool_decide (nodemask = zeros 501) then (0, st)
  else
    let '(candidate, lowest_dist, first_unused) :=
      mcast_scan (mcast_groups_list st) 0 nodemask (0, 0xFF, 0) in
    if truth candidate then
      let st := if negb (lowest_dist =? 0)
                then mcast_set_entry candidate (fun g => g <| nlist := nodemask |>) st else st in
      (candidate, mcast_group_use_age_update candidate st)
    else
      let '(id, st) :=
        if first_unused =? 0 then
          let id := mcast_group_use_age_get_oldest st in
          (id, mcast_group_use_age_update id st)
        else
          (first_unused, mcast_group_use_age_element_insert_new first_unused
                           (mcast_set_entry first_unused (fun g => g <| in_use := true |>) st)) in
      (id, mcast_set_entry id (fun g => g <| nlist := nodemask |>) st).

(** ** Entries *)

Definition valid_id (id : Z) : Prop := 1 <= id <= MCAST_MAX_GROUPS.
Definition table_ok (st : mcast) : Prop := Zlength (mcast_groups_list st) = MCAST_MAX_GROUPS.

Lemma get_set_entry st id k f : table_ok st -> valid_id id -> valid_id k ->
  mcast_get_entry (mcast_set_entry id f st) k =
  if k =? id then f (mcast_get_entry st k) else mcast_get_entry st k.
Proof.
  intros Ht Hi Hk. unfold mcast_get_entry, mcast_set_entry. simpl.
  unfold table_ok, Zlength, valid_id, MCAST_MAX_GROUPS in *.
  destruct (Z.eqb_spec k id) as [->|Hne].
  - rewrite list_lookup_alter_eq. destruct (mcast_groups_list st !! Z.to_nat (id - 1)) eqn:E; [done|].
    apply lookup_ge_None in E. lia.
  - by rewrite list_lookup_alter_ne by lia.
Qed.

Lemma table_set_entry st id f : table_ok st -> table_ok (mcast_set_entry id f st).
Proof. unfold table_ok, mcast_set_entry, Zlength. simpl. by rewrite length_alter. Qed.

Lemma head_set_entry st id f : mcast_group_use_age_head (mcast_set_entry id f st) = mcast_group_use_age_head st.
Proof. done. Qed.

Lemma get_entry_head st h id : mcast_get_entry (st <| mcast_group_use_age_head := h |>) id = mcast_get_entry st id.
Proof. done. Qed.

(** ** The list of ids *)

Definition rotate (order : list Z) : list Z :=
  match order with [] => [] | a :: order => order ++ [a] end.

(** The links of [st] represent [order]. *)
Record ring (st : mcast) (order : list Z) : Prop := {
  ring_table : table_ok st;
  ring_valid : Forall valid_id order;
  ring_nodup : NoDup order;
  ring_use : forall id, valid_id id -> (in_use (mcast_get_entry st id) = true <-> id ∈ order);
  ring_head : mcast_group_use_age_head st = default 0 (head order);
  ring_next : map (fun id => next (mcast_get_entry st id)) order = rotate order;
  ring_prev : map (fun id => prev (mcast_get_entry st id)) (rotate order) = order;
}.

(** ** Links as functions

    [N] and [P] are the next and previous link as functions of the id; [circle]
    says that they run through [order] and back. *)

Definition upd (f : Z -> Z) (x v : Z) : Z -> Z := fun y => if y =? x then v else f y.

Definition circle (N P : Z -> Z) (order : list Z) : Prop :=
  map N order = rotate order /\ map P (rotate order) = order.

Lemma map_upd_notin f x v l : x ∉ l -> map (upd f x v) l = map f l.
Proof.
  intros Hx. apply map_ext_in. intros y Hy%list_elem_of_In. unfold upd.
  by assert ((y =? x) = false) as -> by (apply Z.eqb_neq; congruence).
Qed.

Lemma upd_eq f x v : upd f x v x = v.
Proof. unfold upd. by rewrite Z.eqb_refl. Qed.

Lemma upd_ne f x v y : y <> x -> upd f x v y = f y.
Proof. intros H. unfold upd. by apply Z.eqb_neq in H as ->. Qed.

(** Taking [g] out: its neighbours are linked to each other. *)
Lemma circle_remove N P a l g r :
  NoDup (a :: l ++ g :: r) -> circle N P (a :: l ++ g :: r) ->
  circle (upd N (P g) (N g)) (upd P (N g) (P g)) (a :: l ++ r).
Proof.
  intros Hnd [HN HP]. cbn [rotate] in *.
  destruct (exists_last (l := a :: l)) as (l' & p & Hl); [done|].
  destruct (r ++ [a]) as [|s r'] eqn:Hr; [by destruct r|].
  assert (map N (a :: l) = l ++ [g] /\ map N (g :: r) = s :: r') as [HN1 HN2].
  { apply app_inj_1; [rewrite length_map, length_app; simpl; lia|].
    rewrite <- map_app, <- app_assoc. cbn [app]. rewrite <- Hr. rewrite <- app_assoc in HN. exact HN. }
  assert (map P (l ++ [g]) = a :: l /\ map P (s :: r') = g :: r) as [HP1 HP2].
  { apply app_inj_1; [rewrite length_map, length_app; simpl; lia|].
    rewrite <- map_app, <- app_assoc. cbn [app]. rewrite <- Hr. rewrite <- app_assoc in HP. exact HP. }
  rewrite Hl, map_app in HN1. apply app_inj_tail in HN1 as [HNl HNp].
  rewrite Hl, map_app in HP1. apply app_inj_tail in HP1 as [HPl HPg].
  cbn [map] in HN2, HP2. injection HN2 as HNg HNr. injection HP2 as HPs HPr.
  rewrite HNg, HPg.
  change (a :: l ++ g :: r) with ((a :: l) ++ g :: r) in Hnd.
  assert (NoDup (l ++ g :: s :: r')) as Hnd'.
  { rewrite <- Hr. assert (l ++ g :: r ++ [a] ≡ₚ (a :: l) ++ g :: r) as -> by solve_Permutation. done. }
  rewrite Hl in Hnd. rewrite <- app_assoc in Hnd. cbn [app] in Hnd.
  apply NoDup_app in Hnd as (_ & Hd1 & Hnd). apply NoDup_cons in Hnd as [Hp _].
  apply NoDup_app in Hnd' as (_ & Hd2 & Hnd'). apply NoDup_cons in Hnd' as [_ Hnd'].
  apply NoDup_cons in Hnd' as [Hs _].
  split; cbn [rotate].
  - change (a :: l ++ r) with ((a :: l) ++ r). rewrite Hl, <- app_assoc, !map_app.
    cbn [app map]. rewrite upd_eq, !map_upd_notin, HNl, HNr, <- app_assoc, Hr; [done| |].
    + intros Hin. apply Hp. by right.
    + intros Hin. apply (Hd1 p Hin). left.
  - rewrite <- app_assoc, Hr, map_app. cbn [map].
    rewrite upd_eq, !map_upd_notin, HPl, HPr; [|done|].
    + change (a :: l ++ r) with ((a :: l) ++ r). by rewrite Hl, <- app_assoc.
    + intros Hin. apply (Hd2 s Hin). right. left.
Qed.

(** Putting [g] in front: between the last element and the first. *)
Lemma circle_insert N P a t g :
  NoDup (a :: t) -> g ∉ a :: t -> circle N P (a :: t) ->
  circle (upd (upd N g a) (P a) g) (upd (upd P g (P a)) a g) (g :: a :: t).
Proof.
  intros Hnd Hg [HN HP]. cbn [rotate] in *.
  destruct (exists_last (l := a :: t)) as (u & z & Hu); [done|].
  rewrite Hu, map_app in HN. cbn [map] in HN. apply app_inj_tail in HN as [HNu HNz].
  rewrite Hu, map_app in HP. cbn [map] in HP. apply app_inj_tail in HP as [HPt HPa].
  rewrite HPa. pose proof Hg as Hg2. rewrite not_elem_of_cons in Hg2. destruct Hg2 as [Hga Hgt].
  assert ((g ∉ u) /\ g <> z) as [Hgu Hgz].
  { rewrite Hu, elem_of_app, list_elem_of_singleton in Hg. tauto. }
  assert (z ∉ u) as Hzu.
  { rewrite Hu in Hnd. apply NoDup_app in Hnd as (_ & Hd & _). intros Hin. apply (Hd z Hin). left. }
  apply NoDup_cons in Hnd as [Hat _].
  split; cbn [rotate].
  - cbn [map]. rewrite upd_ne, upd_eq by done. change (upd (upd N g a) z g a :: map (upd (upd N g a) z g) t)
      with (map (upd (upd N g a) z g) (a :: t)).
    rewrite Hu, map_app, !map_upd_notin, HNu by done. cbn [map]. by rewrite upd_eq, <- ?Hu.
  - cbn [app map]. rewrite upd_eq. f_equal. rewrite map_app. cbn [map].
    rewrite !map_upd_notin, HPt by done. rewrite upd_ne, upd_eq by done. by rewrite Hu.
Qed.

(** ** The operations on the links *)

Definition N_of (st : mcast) (id : Z) : Z := next (mcast_get_entry st id).
Definition P_of (st : mcast) (id : Z) : Z := prev (mcast_get_entry st id).

(** Two tables that agree on what is in use and on the masks. *)
Definition same_groups (st st' : mcast) : Prop :=
  forall id, valid_id id -> in_use (mcast_get_entry st' id) = in_use (mcast_get_entry st id) /\
                           nlist (mcast_get_entry st' id) = nlist (mcast_get_entry st id).

(** The links of [st'] are [N] and [P]. *)
Definition has_links (st' : mcast) (N P : Z -> Z) : Prop :=
  forall id, valid_id id -> N_of st' id = N id /\ P_of st' id = P id.

Lemma circle_ext N P N' P' order :
  (forall id, id ∈ order -> N id = N' id /\ P id = P' id) -> circle N P order -> circle N' P' order.
Proof.
  intros H [HN HP]. split.
  - rewrite <- HN. apply map_ext_in. intros x Hx%list_elem_of_In. symmetry. by apply H.
  - transitivity (map P (rotate order)); [|exact HP].
    apply map_ext_in. intros x Hx%list_elem_of_In. symmetry. apply H.
    destruct order as [|a t]; [done|]. cbn [rotate] in Hx.
    rewrite elem_of_app, list_elem_of_singleton in Hx. rewrite elem_of_cons. tauto.
Qed.

(** Reads of an entry after a chain of writes. *)
Ltac entry_reads :=
  unfold N_of, P_of, upd in *;
  repeat rewrite ?get_entry_head, ?get_set_entry by (repeat apply table_set_entry; done);
  repeat match goal with |- context [if ?a =? ?b then _ else _] => destruct (Z.eqb_spec a b); subst end;
  simpl; try done; try lia; try congruence.

Lemma remove_links st g : table_ok st -> valid_id g -> valid_id (N_of st g) -> valid_id (P_of st g) ->
  let st' := mcast_group_use_age_element_remove g st in
  table_ok st' /\ same_groups st st' /\ mcast_group_use_age_head st' = mcast_group_use_age_head st /\
  has_links st' (upd (N_of st) (P_of st g) (N_of st g)) (upd (P_of st) (N_of st g) (P_of st g)).
Proof.
  intros Ht Hg Hn Hp st'. unfold st', mcast_group_use_age_element_remove. cbv zeta.
  fold (N_of st g). fold (P_of st g). set (n := N_of st g) in *. set (p := P_of st g) in *.
  clearbody n p. split; [by repeat apply table_set_entry|]. split; [|split; [done|]].
  - intros id Hid. split; entry_reads.
  - intros id Hid. split; entry_reads.
Qed.

Lemma insert_head_links st g : table_ok st -> valid_id g ->
  let a := mcast_group_use_age_head st in
  valid_id a -> valid_id (P_of st a) -> g <> a -> g <> P_of st a ->
  let st' := mcast_group_use_age_element_insert_head g st in
  table_ok st' /\ same_groups st st' /\ mcast_group_use_age_head st' = g /\
  has_links st' (upd (upd (N_of st) g a) (P_of st a) g) (upd (upd (P_of st) g (P_of st a)) a g).
Proof.
  intros Ht Hg a Ha Hz Hga Hgz st'. unfold st', mcast_group_use_age_element_insert_head. cbv zeta.
  fold a. fold (P_of st a). set (z := P_of st a) in *. clearbody z a.
  split; [by repeat apply table_set_entry|]. split; [|split; [done|]].
  - intros id Hid. split; entry_reads.
  - intros id Hid. split; entry_reads.
Qed.

(** ** Move to front, insert, oldest *)

Lemma ring_circle st order : ring st order -> circle (N_of st) (P_of st) order.
Proof. intros []. by split. Qed.

(** What a ring needs besides its links. *)
Lemma ring_intro st' order N P :
  table_ok st' -> Forall valid_id order -> NoDup order ->
  (forall id, valid_id id -> (in_use (mcast_get_entry st' id) = true <-> id ∈ order)) ->
  mcast_group_use_age_head st' = default 0 (head order) ->
  has_links st' N P -> circle N P order -> ring st' order.
Proof.
  intros Ht Hv Hnd Hu Hh Hl Hc.
  assert (circle (N_of st') (P_of st') order) as [HN HP].
  { eapply circle_ext; [|exact Hc]. intros id Hid. rewrite Forall_forall in Hv.
    destruct (Hl id (Hv id Hid)) as [-> ->]. done. }
  by split.
Qed.

(** The neighbours of an element are elements. *)
Lemma circle_in N P order g : circle N P order -> g ∈ order -> N g ∈ order /\ P g ∈ order.
Proof.
  intros [HN HP] Hg. assert (forall x, x ∈ rotate order <-> x ∈ order) as Hr.
  { intros x. destruct order as [|a t]; [done|]. cbn [rotate].
    rewrite elem_of_app, list_elem_of_singleton, elem_of_cons. tauto. }
  split.
  - apply Hr. rewrite <- HN. by apply list_elem_of_fmap_2.
  - assert (P g ∈ map P (rotate order)) as H; [by apply list_elem_of_fmap_2, Hr|]. by rewrite HP in H.
Qed.

Lemma circle_oldest N P a t : circle N P (a :: t) -> last (a :: t) = Some (P a).
Proof.
  intros [_ HP]. cbn [rotate] in HP. rewrite <- HP, map_app. cbn [map]. by rewrite last_snoc.
Qed.

Lemma ring_oldest st a t : ring st (a :: t) ->
  last (a :: t) = Some (mcast_group_use_age_get_oldest st).
Proof.
  intros Hr. unfold mcast_group_use_age_get_oldest. rewrite (ring_head _ _ Hr). simpl (default _ _).
  by apply ring_circle, circle_oldest in Hr.
Qed.

(** An id put in front of a represented list. *)
Lemma insert_front st a t g :
  table_ok st -> Forall valid_id (a :: t) -> NoDup (a :: t) -> circle (N_of st) (P_of st) (a :: t) ->
  mcast_group_use_age_head st = a -> valid_id g -> g ∉ a :: t ->
  (forall id, valid_id id -> (in_use (mcast_get_entry st id) = true <-> id ∈ g :: a :: t)) ->
  let st' := mcast_group_use_age_element_insert_head g st in
  ring st' (g :: a :: t) /\ same_groups st st'.
Proof.
  intros Ht Hv Hnd Hc Hh Hg Hn Hu. cbv zeta. destruct (circle_in _ _ _ a Hc) as [_ HPa]; [left|].
  pose proof Hv as Hv'. rewrite Forall_forall in Hv'.
  pose proof (insert_head_links st g Ht Hg) as Hins. cbv zeta in Hins.
  rewrite Hh in Hins. destruct Hins as (Ht2 & Hs2 & Hh2 & Hl2).
  { apply Hv'. left. }
  { by apply Hv'. }
  { intros ->. apply Hn. left. }
  { intros Heq. apply Hn. by rewrite Heq. }
  split; [|done]. eapply ring_intro; [exact Ht2| | | |exact Hh2|exact Hl2|by apply circle_insert].
  - by constructor.
  - by apply NoDup_cons.
  - intros id Hid. destruct (Hs2 id Hid) as [-> _]. by apply Hu.
Qed.

Lemma ring_update st l g r : ring st (l ++ g :: r) ->
  let st' := mcast_group_use_age_update g st in
  ring st' (g :: l ++ r) /\ same_groups st st'.
Proof.
  intros Hr st'. unfold st', mcast_group_use_age_update. pose proof (ring_circle _ _ Hr) as Hc.
  pose proof Hr as [Ht Hv Hnd Hu Hh _ _]. destruct l as [|a l].
  { cbn [app] in *. simpl in Hh. rewrite Hh, Z.eqb_refl. split; [done|]. by intros id _. }
  cbn [app] in *. simpl (default _ _) in Hh.
  assert (g <> a) as Hga.
  { intros ->. apply NoDup_cons in Hnd as [Hn _]. apply Hn. rewrite elem_of_app. right. left. }
  rewrite Hh. assert ((g =? a) = false) as -> by lia.
  pose proof Hv as Hv'. rewrite Forall_forall in Hv'.
  assert (g ∈ a :: l ++ g :: r) as Hgin by (right; rewrite elem_of_app; right; left).
  destruct (circle_in _ _ _ g Hc Hgin) as [HNg HPg].
  destruct (remove_links st g Ht (Hv' g Hgin) (Hv' _ HNg) (Hv' _ HPg)) as (Ht1 & Hs1 & Hh1 & Hl1).
  set (st1 := mcast_group_use_age_element_remove g st) in *. clearbody st1.
  pose proof (circle_remove _ _ a l g r Hnd Hc) as Hc1.
  assert (a :: l ++ g :: r ≡ₚ g :: a :: l ++ r) as Hperm by solve_Permutation.
  rewrite Hperm in Hnd, Hv. apply NoDup_cons in Hnd as [Hgn Hnd].
  apply Forall_cons in Hv as [Hgv Hv].
  destruct (insert_front st1 a (l ++ r) g) as [Hr2 Hs2]; try done.
  - eapply circle_ext; [|exact Hc1]. intros id Hid. rewrite Forall_forall in Hv.
    destruct (Hl1 id (Hv id Hid)) as [-> ->]. done.
  - congruence.
  - intros id Hid. destruct (Hs1 id Hid) as [-> _]. by rewrite Hu, Hperm.
  - split; [exact Hr2|]. intros id Hid. destruct (Hs1 id Hid) as [<- <-]. by apply Hs2.
Qed.

Lemma ring_insert_new st g order : ring st order -> valid_id g -> g ∉ order ->
  let st' := mcast_group_use_age_element_insert_new g
               (mcast_set_entry g (fun e => e <| in_use := true |>) st) in
  ring st' (g :: order) /\
  forall id, valid_id id -> nlist (mcast_get_entry st' id) = nlist (mcast_get_entry st id).
Proof.
  intros Hr Hg Hn st'. unfold st', mcast_group_use_age_element_insert_new.
  set (st1 := mcast_set_entry g (fun e => e <| in_use := true |>) st).
  pose proof Hr as [Ht Hv Hnd Hu Hh _ _]. pose proof (ring_circle _ _ Hr) as Hc.
  assert (table_ok st1) as Ht1 by by apply table_set_entry.
  assert (forall id, valid_id id -> N_of st1 id = N_of st id /\ P_of st1 id = P_of st id /\
     nlist (mcast_get_entry st1 id) = nlist (mcast_get_entry st id) /\
     (in_use (mcast_get_entry st1 id) = true <-> id ∈ g :: order)) as Hst1.
  { intros id Hid. unfold N_of, P_of, st1. rewrite get_set_entry by done. rewrite elem_of_cons, <- Hu by done.
    destruct (Z.eqb_spec id g) as [->|]; simpl; intuition. }
  change (mcast_group_use_age_head st) with (mcast_group_use_age_head st1) in Hh. rewrite Hh.
  clearbody st1. destruct order as [|a t]; simpl (default _ _) in Hh |- *.
  - cbn [Z.eqb]. split.
    + apply ring_intro with (N := upd (N_of st1) g g) (P := upd (P_of st1) g g).
      * by repeat apply table_set_entry.
      * by constructor.
      * apply NoDup_singleton.
      * intros id Hid. rewrite get_entry_head. destruct (Hst1 id Hid) as (_ & _ & _ & <-).
        by entry_reads.
      * done.
      * intros id Hid. split; entry_reads.
      * split; cbn [rotate app map]; by rewrite upd_eq.
    + intros id Hid. destruct (Hst1 id Hid) as (_ & _ & <- & _). entry_reads.
  - assert (valid_id a) as Ha by by apply Forall_cons in Hv as [? _].
    assert ((a =? 0) = false) as -> by (unfold valid_id in Ha; lia).
    destruct (insert_front st1 a t g) as [Hr2 Hs2]; try done.
    + eapply circle_ext; [|exact Hc]. intros id Hid. rewrite Forall_forall in Hv.
      destruct (Hst1 id (Hv id Hid)) as (-> & -> & _). done.
    + intros id Hid. apply Hst1. done.
    + split; [exact Hr2|]. intros id Hid. destruct (Hst1 id Hid) as (_ & _ & <- & _). by apply Hs2.
Qed.

(** ** The distance of two masks *)

(** Every bit of [o] is a bit of [n]. *)
Definition subset_byte (o n : Z) : bool := Z.land o (Z.lnot n) =? 0.

(** The nodes of a byte, and of a mask. *)
Definition node_count (b : Z) : Z := Zlength (List.filter (Z.testbit b) (seqZ 0 8)).
Definition mask_size (m : list Z) : Z := foldr (fun b n => node_count b + n) 0 m.

Lemma byte_distance_table o n : byte o -> byte n ->
  let d := mcast_byte_distance o n in
  (if subset_byte o n then (0 <=? d) && (d <=? 8) && Bool.eqb (d =? 0) (o =? n) && (d =? node_count n - node_count o)
   else d =? MCAST_DIST_INF) = true.
Proof.
  intros Ho Hn. revert o Ho.
  assert (forallb (fun n => forallb (fun o => let d := mcast_byte_distance o n in
    if subset_byte o n then (0 <=? d) && (d <=? 8) && Bool.eqb (d =? 0) (o =? n) && (d =? node_count n - node_count o)
    else d =? MCAST_DIST_INF) (seqZ 0 256)) (seqZ 0 256) = true) as H by (vm_compute; reflexivity).
  exact (byte_all _ (byte_all _ H n Hn)).
Qed.

(** Every node of [old] is a node of [new]. *)
Definition submask (old new : list Z) : Prop := Forall2 (fun o n => subset_byte o n = true) old new.

Lemma distance_loop_spec old new dist :
  length old = length new -> bytes old -> bytes new -> 0 <= dist ->
  dist + 8 * Zlength old < MCAST_DIST_INF ->
  let d := mcast_nodemask_distance_loop old new dist in
  (d = MCAST_DIST_INF /\ ~ submask old new) \/
  (dist <= d <= dist + 8 * Zlength old /\ submask old new /\ (d = dist <-> old = new) /\ d = dist + mask_size new - mask_size old).
Proof.
  intros Hl Ho. revert new dist Hl. induction Ho as [|o old Ho Hold IH]; intros [|n new] dist Hl Hn Hd Hb;
    try done.
  - right. cbn [mcast_nodemask_distance_loop]. change (Zlength (@nil Z)) with 0. cbv zeta.
    split; [lia|]. split; [constructor|]. split; [done|cbn; lia].
  - apply Forall_cons in Hn as [Hn Hnew]. injection Hl as Hl. cbn [mcast_nodemask_distance_loop].
    pose proof (byte_distance_table o n Ho Hn) as Ht. cbv zeta in Ht.
    set (b := mcast_byte_distance o n) in *. cbv zeta.
    assert (Zlength (o :: old) = Zlength old + 1) as HL by (unfold Zlength; simpl; lia).
    assert (0 <= Zlength old) by (unfold Zlength; lia).
    destruct (subset_byte o n) eqn:Es.
    + bool_to_prop. assert ((b =? MCAST_DIST_INF) = false) as -> by (unfold MCAST_DIST_INF; lia).
      unfold MCAST_DIST_INF in *. rewrite u16_id by (unfold word16; lia).
      match goal with H : Bool.eqb _ _ = true |- _ => apply Bool.eqb_prop in H; rename H into Hz end.
      destruct (IH new (dist + b) Hl Hnew) as [[-> Hsub]|(Hr & Hsub & Heq & Hsize)]; [lia..|left|right].
      * split; [done|]. intros Hs. apply Hsub. by inversion Hs.
      * split; [lia|]. split; [by constructor|]. split; [split|cbn [mask_size foldr]; fold (mask_size new) (mask_size old); lia].
        -- intros Hd'. assert (b = 0) as Hb0 by lia.
           assert ((b =? 0) = true) as Hb1 by lia. rewrite Hb1 in Hz. symmetry in Hz. apply Z.eqb_eq in Hz.
           f_equal; [done|]. apply Heq. lia.
        -- intros [= -> ->]. rewrite Z.eqb_refl in Hz. assert (b = 0) as -> by lia.
           rewrite Z.add_0_r. rewrite Z.add_0_r in Heq. by apply Heq.
    + rewrite Ht. left. split; [done|]. intros Hs. inversion Hs. congruence.
Qed.

Lemma nodemask_distance_spec old new : nodemask_ok old -> nodemask_ok new ->
  let d := mcast_nodemask_distance old new in
  (d = MCAST_DIST_INF /\ ~ submask old new) \/
  (0 <= d <= 4008 /\ submask old new /\ (d = 0 <-> old = new) /\ d = mask_size new - mask_size old).
Proof.
  intros [Hlo Ho] [Hln Hn]. change NODEMASK_SIZE with 501 in *. unfold mcast_nodemask_distance. cbv zeta.
  destruct (distance_loop_spec old new 0) as [H|H]; try done.
  - unfold Zlength in *. lia.
  - rewrite Hlo. done.
  - by left.
  - right. cbv zeta in H. rewrite Hlo in H. destruct H as (Hd & Hs & He & Hz). split_and!; [lia|lia|done|done|done].
Qed.

(** ** The scan *)

(** What the scan knows after the groups [seen]. *)
Record scanned (m : list Z) (seen : list mcast_group) (c d u : Z) : Prop := {
  sc_d : 0 <= d <= 0xFF;
  sc_none : c = 0 -> d = 0xFF;
  sc_cand : c <> 0 -> exists g, seen !! Z.to_nat (c - 1) = Some g /\ 1 <= c /\ in_use g = true /\
                                mcast_nodemask_distance (nlist g) m = d /\ d < 0xFF;
  sc_least : forall g, g ∈ seen -> in_use g = true -> d <= mcast_nodemask_distance (nlist g) m;
  sc_full : u = 0 -> forall g, g ∈ seen -> in_use g = true;
  sc_unused : u <> 0 -> exists g, seen !! Z.to_nat (u - 1) = Some g /\ 1 <= u /\ in_use g = false;
}.

Definition masks_ok (groups : list mcast_group) : Prop := Forall (fun g => nodemask_ok (nlist g)) groups.

Lemma scan_spec m groups seen c d u : nodemask_ok m -> masks_ok groups ->
  scanned m seen c d u ->
  let '(c', d', u') := mcast_scan groups (Zlength seen) m (c, d, u) in
  scanned m (seen ++ groups) c' d' u'.
Proof.
  intros Hm Hg. revert seen c d u. induction Hg as [|g groups Hgm Hg IH]; intros seen c d u Hs.
  - by rewrite app_nil_r.
  - cbn [mcast_scan].
    assert (0 <= mcast_nodemask_distance (nlist g) m) as Hd0.
    { destruct (nodemask_distance_spec (nlist g) m Hgm Hm) as [[-> _]|[? _]]; [done|lia]. }
    replace (Zlength seen + 1) with (Zlength (seen ++ [g])) by (rewrite Zlength_app; done).
    replace (seen ++ g :: groups) with ((seen ++ [g]) ++ groups) by by rewrite <- app_assoc.
    set (acc := if in_use g then _ else _).
    assert (let '(c', d', u') := acc in scanned m (seen ++ [g]) c' d' u') as Hacc.
    { pose proof Hs as [Hdr Hn Hc Hl Hf Hu].
      assert (forall k x, seen !! k = Some x -> (seen ++ [g]) !! k = Some x) as Hlk
        by (intros k x Hx; by apply lookup_app_l_Some).
      assert ((seen ++ [g]) !! Z.to_nat (Zlength (seen ++ [g]) - 1) = Some g) as Hlast.
      { rewrite Zlength_app. change (Zlength [g]) with 1. unfold Zlength.
        replace (Z.to_nat (Z.of_nat (length seen) + 1 - 1)) with (length seen) by lia.
        by rewrite lookup_app_r, Nat.sub_diag by lia. }
      assert (1 <= Zlength (seen ++ [g])) as HL by (rewrite Zlength_app; unfold Zlength; simpl; lia).
      unfold acc. destruct (in_use g) eqn:Eu.
      - destruct (Z.ltb_spec (mcast_nodemask_distance (nlist g) m) d) as [Hlt|Hge].
        + split.
          * lia.
          * lia.
          * intros _. exists g. split_and!; try done. lia.
          * intros x Hx. rewrite elem_of_app, list_elem_of_singleton in Hx.
            destruct Hx as [Hx| ->]; [|done]. intros Hxu. specialize (Hl x Hx Hxu). lia.
          * intros H0 x Hx. rewrite elem_of_app, list_elem_of_singleton in Hx.
            destruct Hx as [Hx| ->]; [by apply Hf|done].
          * intros Hu0. destruct (Hu Hu0) as (x & Hx & ? & ?). exists x. by split_and!; [apply Hlk|..].
        + split.
          * done.
          * done.
          * intros Hc0. destruct (Hc Hc0) as (x & Hx & ? & ? & ? & ?). exists x. by split_and!; [apply Hlk|..].
          * intros x Hx. rewrite elem_of_app, list_elem_of_singleton in Hx.
            destruct Hx as [Hx| ->]; [by apply Hl|lia].
          * intros H0 x Hx. rewrite elem_of_app, list_elem_of_singleton in Hx.
            destruct Hx as [Hx| ->]; [by apply Hf|done].
          * intros Hu0. destruct (Hu Hu0) as (x & Hx & ? & ?). exists x. by split_and!; [apply Hlk|..].
      - assert (forall x, x ∈ seen ++ [g] -> in_use x = true -> d <= mcast_nodemask_distance (nlist x) m) as Hl'.
        { intros x Hx Hxu. rewrite elem_of_app, list_elem_of_singleton in Hx.
          destruct Hx as [Hx| ->]; [by apply Hl|congruence]. }
        destruct (Z.eqb_spec u 0) as [->|Hu0].
        + split; try done.
          * intros Hc0. destruct (Hc Hc0) as (x & Hx & ? & ? & ? & ?). exists x. by split_and!; [apply Hlk|..].
          * lia.
          * intros _. exists g. by split_and!.
        + split; try done.
          * intros Hc0. destruct (Hc Hc0) as (x & Hx & ? & ? & ? & ?). exists x. by split_and!; [apply Hlk|..].
          * intros _. destruct (Hu Hu0) as (x & Hx & ? & ?). exists x. by split_and!; [apply Hlk|..]. }
    clearbody acc. destruct acc as [[c' d'] u']. by apply IH.
Qed.

Lemma scan_table m st : nodemask_ok m -> masks_ok (mcast_groups_list st) ->
  let '(c, d, u) := mcast_scan (mcast_groups_list st) 0 m (0, 0xFF, 0) in
  scanned m (mcast_groups_list st) c d u.
Proof.
  intros Hm Hg. apply (scan_spec m (mcast_groups_list st) [] 0 0xFF 0); [done..|].
  split; try done.
  - intros g Hg0. by apply not_elem_of_nil in Hg0.
  - intros _ g Hg0. by apply not_elem_of_nil in Hg0.
Qed.

Lemma entry_lookup st id g : mcast_groups_list st !! Z.to_nat (id - 1) = Some g ->
  mcast_get_entry st id = g.
Proof. unfold mcast_get_entry. by intros ->. Qed.

Lemma lookup_valid st id g : table_ok st -> 1 <= id ->
  mcast_groups_list st !! Z.to_nat (id - 1) = Some g -> valid_id id.
Proof.
  intros Ht Hi Hl. apply lookup_lt_Some in Hl. unfold table_ok, Zlength, valid_id in *. lia.
Qed.

Lemma entry_elem st id : table_ok st -> valid_id id -> mcast_get_entry st id ∈ mcast_groups_list st.
Proof.
  intros Ht Hi. unfold mcast_get_entry.
  destruct (mcast_groups_list st !! Z.to_nat (id - 1)) as [g|] eqn:E; [by eapply list_elem_of_lookup_2|].
  apply lookup_ge_None in E. unfold table_ok, Zlength, valid_id in *. lia.
Qed.

(** ** The contract of [mcast_group_get_id_by_nodemask] *)

(** The mask of a group in use. *)
Definition mask_of (st : mcast) (id : Z) : option (list Z) := mcast_group_get_nodemask_by_id id st.

(** The search starts with a distance of 255: a group is in its reach when the
    nodes of the group are nodes of [m] and fewer than 255 are to be added. *)
Definition in_reach (st : mcast) (m : list Z) (k : Z) : Prop :=
  exists mk, mask_of st k = Some mk /\ submask mk m /\ mask_size m - mask_size mk < 255.

(** How the group for the mask [m] was found: the largest group in reach; with
    none in reach a group that is not in use; with none of those either the group
    that was used least recently. *)
Inductive chosen (st : mcast) (order : list Z) (m : list Z) (g : Z) : list Z -> Prop :=
| chosen_existing l r old :
    order = l ++ g :: r -> in_reach st m g -> mask_of st g = Some old ->
    (forall k mk, k ∈ order -> mask_of st k = Some mk -> submask mk m -> mask_size mk <= mask_size old) ->
    chosen st order m g (g :: l ++ r)
| chosen_new :
    g ∉ order -> (forall k, k ∈ order -> ~ in_reach st m k) -> chosen st order m g (g :: order)
| chosen_recycled l :
    (forall k, valid_id k -> k ∈ order) -> (forall k, k ∈ order -> ~ in_reach st m k) -> order = l ++ [g] ->
    chosen st order m g (g :: l).

Lemma mask_of_use st order id : ring st order -> valid_id id ->
  mask_of st id = if bool_decide (id ∈ order) then Some (nlist (mcast_get_entry st id)) else None.
Proof.
  intros Hr Hid. unfold mask_of, mcast_group_get_nodemask_by_id.
  assert ((id =? 0) || (MCAST_MAX_GROUPS <? id) = false) as -> by (unfold valid_id in Hid; lia).
  pose proof (ring_use _ _ Hr id Hid) as Hu. destruct (in_use (mcast_get_entry st id)).
  - by rewrite bool_decide_true by by apply Hu.
  - rewrite bool_decide_false; [done|]. rewrite <- Hu. done.
Qed.

(** Writing a mask keeps the ring. *)
Lemma ring_set_mask st order id m : ring st order -> valid_id id ->
  ring (mcast_set_entry id (fun g => g <| nlist := m |>) st) order /\
  forall k, valid_id k -> nlist (mcast_get_entry (mcast_set_entry id (fun g => g <| nlist := m |>) st) k) =
                          if k =? id then m else nlist (mcast_get_entry st k).
Proof.
  intros Hr Hid. pose proof Hr as [Ht Hv Hnd Hu Hh _ _]. split.
  - apply ring_intro with (N := N_of st) (P := P_of st); try done.
    + by apply table_set_entry.
    + intros k Hk. rewrite get_set_entry by done. rewrite <- Hu by done. by destruct (k =? id).
    + intros k Hk. unfold N_of, P_of. rewrite get_set_entry by done. by destruct (k =? id).
    + by apply ring_circle.
  - intros k Hk. rewrite get_set_entry by done. by destruct (k =? id).
Qed.

(** The state after the group [g] was put in front with the mask [m]. *)
Definition updated (st st' : mcast) (order' : list Z) (g : Z) (m : list Z) : Prop :=
  ring st' order' /\ forall k, valid_id k ->
    nlist (mcast_get_entry st' k) = if k =? g then m else nlist (mcast_get_entry st k).

Lemma existing_updated st l g r m (write : bool) : ring st (l ++ g :: r) -> valid_id g ->
  (write = false -> nlist (mcast_get_entry st g) = m) ->
  updated st (mcast_group_use_age_update g
    (if write then mcast_set_entry g (fun e => e <| nlist := m |>) st else st)) (g :: l ++ r) g m.
Proof.
  intros Hr Hg Hw.
  set (st1 := if write then _ else _).
  assert (ring st1 (l ++ g :: r) /\ forall k, valid_id k ->
     nlist (mcast_get_entry st1 k) = if k =? g then m else nlist (mcast_get_entry st k)) as [Hr1 Hm1].
  { unfold st1. destruct write; [by apply ring_set_mask|]. split; [done|]. intros k Hk.
    destruct (Z.eqb_spec k g) as [->|]; [by apply Hw|done]. }
  clearbody st1. destruct (ring_update st1 l g r Hr1) as [Hr2 Hs2]. split; [exact Hr2|].
  intros k Hk. destruct (Hs2 k Hk) as [_ ->]. by apply Hm1.
Qed.

Lemma updated_mask st st' order order' g m : ring st order -> updated st st' order' g m ->
  valid_id g -> g ∈ order' -> (forall k, k <> g -> (k ∈ order' <-> k ∈ order)) ->
  mask_of st' g = Some m /\ forall k, valid_id k -> k <> g -> mask_of st' k = mask_of st k.
Proof.
  intros Hr [Hr' Hm] Hg Hin Hsame. split.
  - rewrite (mask_of_use st' order') by done. rewrite bool_decide_true by done.
    by rewrite Hm, Z.eqb_refl by done.
  - intros k Hk Hne. rewrite (mask_of_use st' order'), (mask_of_use st order) by done.
    rewrite Hm by done. assert ((k =? g) = false) as -> by lia.
    by rewrite (bool_decide_ext _ _ (Hsame k Hne)).
Qed.

(** Masks are well-formed when those of all entries are. *)
Lemma masks_ok_entries st : table_ok st ->
  (forall id, valid_id id -> nodemask_ok (nlist (mcast_get_entry st id))) ->
  masks_ok (mcast_groups_list st).
Proof.
  intros Ht H. apply Forall_lookup. intros i g Hi. pose proof (lookup_lt_Some _ _ _ Hi) as Hlt.
  unfold table_ok, Zlength in Ht.
  replace g with (mcast_get_entry st (Z.of_nat i + 1)).
  - apply H. unfold valid_id. lia.
  - apply entry_lookup. by replace (Z.to_nat (Z.of_nat i + 1 - 1)) with i by lia.
Qed.

Section contract.
Context (st : mcast) (order m : list Z).
Context (Hr : ring st order) (Hmo : masks_ok (mcast_groups_list st)) (Hm : nodemask_ok m).

(** The answer [g] and the new table [st'] meet the contract. *)
Definition contract (g : Z) (st' : mcast) : Prop :=
  exists order', chosen st order m g order' /\ ring st' order' /\ masks_ok (mcast_groups_list st') /\
    valid_id g /\ mcast_group_get_nodemask_by_id g st' = Some m /\
    forall k, valid_id k -> k <> g ->
      mcast_group_get_nodemask_by_id k st' = mcast_group_get_nodemask_by_id k st.

Lemma entry_mask_ok id : valid_id id -> nodemask_ok (nlist (mcast_get_entry st id)).
Proof.
  intros Hid. unfold masks_ok in Hmo. rewrite Forall_forall in Hmo.
  apply Hmo, entry_elem; [by eapply ring_table|done].
Qed.

Lemma contract_intro g st' order' : chosen st order m g order' -> updated st st' order' g m ->
  valid_id g -> g ∈ order' -> (forall k, k <> g -> (k ∈ order' <-> k ∈ order)) -> contract g st'.
Proof.
  intros Hch Hup Hg Hin Hsame. destruct (updated_mask st st' order order' g m Hr Hup Hg Hin Hsame).
  destruct Hup as [Hr' Hm']. exists order'. split; [done|]. split; [done|]. split; [|done].
  apply masks_ok_entries; [by eapply ring_table|]. intros id Hid. rewrite Hm' by done.
  destruct (id =? g); [done|by apply entry_mask_ok].
Qed.

Lemma mask_of_ok k mk : k ∈ order -> mask_of st k = Some mk -> nodemask_ok mk.
Proof.
  intros Hk Hmk. pose proof (ring_valid _ _ Hr) as Hv. rewrite Forall_forall in Hv. specialize (Hv k Hk).
  rewrite (mask_of_use st order), bool_decide_true in Hmk by done. injection Hmk as <-. by apply entry_mask_ok.
Qed.

Lemma none_in_reach : (forall k mk, k ∈ order -> mask_of st k = Some mk -> 0xFF <= mcast_nodemask_distance mk m) ->
  forall k, k ∈ order -> ~ in_reach st m k.
Proof.
  intros Hmin k Hk (mk & Hmk & Hsub & Hlt). specialize (Hmin k mk Hk Hmk).
  destruct (nodemask_distance_spec mk m (mask_of_ok k mk Hk Hmk) Hm) as [[_ Hs]|(_ & _ & _ & Hd)]; [done|]. lia.
Qed.

(** A group near enough. *)
Lemma contract_existing c d : valid_id c -> in_use (mcast_get_entry st c) = true ->
  mcast_nodemask_distance (nlist (mcast_get_entry st c)) m = d -> d < 0xFF ->
  (forall k mk, k ∈ order -> mask_of st k = Some mk -> d <= mcast_nodemask_distance mk m) ->
  contract c (mcast_group_use_age_update c
    (if negb (d =? 0) then mcast_set_entry c (fun g => g <| nlist := m |>) st else st)).
Proof.
  intros Hcv Huse Hdist Hlt Hmin.
  assert (c ∈ order) as Hin by by apply (ring_use _ _ Hr).
  pose proof Hin as Hin'. apply list_elem_of_split in Hin' as (l & r & Hord).
  destruct (nodemask_distance_spec _ m (entry_mask_ok c Hcv) Hm) as [[HI _]|(_ & Hsub & Heq & Hsize)];
    [unfold MCAST_DIST_INF in HI; lia|].
  apply (contract_intro _ _ (c :: l ++ r)).
  - assert (mask_of st c = Some (nlist (mcast_get_entry st c))) as Hmask by (by rewrite (mask_of_use st order), bool_decide_true).
    apply (chosen_existing st order m c l r (nlist (mcast_get_entry st c))); [done| |done|].
    + eexists. split_and!; [exact Hmask|done|lia].
    + intros k mk Hk Hmk Hs. specialize (Hmin k mk Hk Hmk).
      destruct (nodemask_distance_spec mk m (mask_of_ok k mk Hk Hmk) Hm) as [[_ Hn]|(_ & _ & _ & Hd)]; [done|lia].
  - apply existing_updated; [by rewrite <- Hord|done|]. intros Hw. apply Heq.
    apply negb_false_iff, Z.eqb_eq in Hw. lia.
  - done.
  - left.
  - intros k Hk. rewrite Hord. by assert (l ++ c :: r ≡ₚ c :: l ++ r) as -> by solve_Permutation.
Qed.

(** All groups in use, none near enough. *)
Lemma contract_recycled : (forall k, valid_id k -> k ∈ order) ->
  (forall k mk, k ∈ order -> mask_of st k = Some mk -> 0xFF <= mcast_nodemask_distance mk m) ->
  let g := mcast_group_use_age_get_oldest st in
  contract g (mcast_set_entry g (fun e => e <| nlist := m |>) (mcast_group_use_age_update g st)).
Proof.
  intros Hall Hmin g.
  assert (exists l, order = l ++ [g]) as (l & Hord).
  { destruct order as [|a t].
    - specialize (Hall 1 ltac:(unfold valid_id, MCAST_MAX_GROUPS; lia)). by apply not_elem_of_nil in Hall.
    - apply last_Some. by apply ring_oldest. }
  assert (valid_id g) as Hg.
  { pose proof (ring_valid _ _ Hr) as Hv. rewrite Hord in Hv. apply Forall_app in Hv as [_ Hv].
    by apply Forall_cons in Hv as [? _]. }
  pose proof Hr as Hr0. rewrite Hord in Hr0.
  destruct (ring_update st l g [] Hr0) as [Hr1 Hs1]. rewrite app_nil_r in Hr1.
  destruct (ring_set_mask _ _ g m Hr1 Hg) as [Hr2 Hm2].
  apply (contract_intro _ _ (g :: l)); [|split; [exact Hr2|]|done|left|].
  - apply chosen_recycled; [done|by apply none_in_reach|done].
  - intros k Hk. rewrite Hm2 by done. by destruct (Hs1 k Hk) as [_ ->].
  - intros k Hk. rewrite Hord. by assert (l ++ [g] ≡ₚ g :: l) as -> by solve_Permutation.
Qed.

(** A group not in use yet. *)
Lemma contract_new u : valid_id u -> in_use (mcast_get_entry st u) = false ->
  (forall k mk, k ∈ order -> mask_of st k = Some mk -> 0xFF <= mcast_nodemask_distance mk m) ->
  contract u (mcast_set_entry u (fun e => e <| nlist := m |>)
    (mcast_group_use_age_element_insert_new u
      (mcast_set_entry u (fun e => e <| in_use := true |>) st))).
Proof.
  intros Huv Huse Hmin.
  assert (u ∉ order) as Hnin by (rewrite <- (ring_use _ _ Hr) by done; congruence).
  destruct (ring_insert_new st u order Hr Huv Hnin) as [Hr1 Hm1].
  destruct (ring_set_mask _ _ u m Hr1 Huv) as [Hr2 Hm2].
  apply (contract_intro _ _ (u :: order)); [apply chosen_new; [done|by apply none_in_reach]|split; [exact Hr2|]|done|left|].
  - intros k Hk. rewrite Hm2 by done. by rewrite Hm1.
  - intros k Hk. rewrite elem_of_cons. tauto.
Qed.
End contract.

(** C33. The group id for a set of nodes: the returned group holds exactly that set
    and becomes the most recently used one; no other group changes.  When there
    are groups whose nodes all belong to the set and that need fewer than 255 more,
    the largest of them is taken; only when there is none a group not in use is
    taken; only when all are in use the one unused for the longest time.  The
    links stay a circular list of the groups in use. *)
Theorem mcast_group_contract st order m :
  ring st order -> masks_ok (mcast_groups_list st) -> nodemask_ok m -> m <> zeros 501 ->
  let '(g, st') := mcast_group_get_id_by_nodemask m st in contract st order m g st'.
Proof.
  intros Hr Hmo Hm Hne. unfold mcast_group_get_id_by_nodemask. rewrite bool_decide_false by done.
  pose proof (scan_table m st Hm Hmo) as Hscan. pose proof (ring_table _ _ Hr) as Ht.
  destruct (mcast_scan (mcast_groups_list st) 0 m (0, 0xFF, 0)) as [[c d] u].
  destruct Hscan as [Hd Hnone Hcand Hleast Hfull Hunused].
  assert (forall k mk, k ∈ order -> mask_of st k = Some mk -> d <= mcast_nodemask_distance mk m) as Hmin.
  { intros k mk Hk Hmk. pose proof (ring_valid _ _ Hr) as Hv. rewrite Forall_forall in Hv.
    rewrite (mask_of_use st order), bool_decide_true in Hmk by (first [done|by apply Hv]).
    injection Hmk as <-. apply Hleast; [apply entry_elem; [done|by apply Hv]|].
    apply (ring_use _ _ Hr); [by apply Hv|done]. }
  destruct (truth c) eqn:Ec.
  - destruct Hcand as (gr & Hlk & Hc1 & Huse & Hdist & Hlt); [unfold truth in Ec; lia|].
    pose proof (lookup_valid st c gr Ht Hc1 Hlk) as Hcv. apply entry_lookup in Hlk. subst gr.
    by apply contract_existing.
  - assert (d = 0xFF) as -> by (apply Hnone; unfold truth in Ec; lia).
    destruct (Z.eqb_spec u 0) as [Hu0|Hu0].
    + apply contract_recycled; [done..| |done].
      intros k Hk. apply (ring_use _ _ Hr); [done|]. apply Hfull; [done|by apply entry_elem].
    + destruct Hunused as (gr & Hlk & Hu1 & Huse); [done|].
      pose proof (lookup_valid st u gr Ht Hu1 Hlk) as Huv. apply entry_lookup in Hlk. subst gr.
      by apply contract_new.
Qed.

(** ** The hypotheses are satisfiable *)

Lemma init_entry id : valid_id id -> mcast_get_entry mcast_group_init id = group_unused.
Proof.
  intros Hid. unfold mcast_get_entry.
  change (mcast_groups_list mcast_group_init) with (replicate (Z.to_nat MCAST_MAX_GROUPS) group_unused).
  rewrite lookup_replicate_2; [done|]. unfold valid_id in Hid. lia.
Qed.

Lemma ring_init : ring mcast_group_init [].
Proof.
  split; try done; try apply NoDup_nil_2. intros id Hid. rewrite init_entry by done.
  split; [done|]. intros H. by apply not_elem_of_nil in H.
Qed.

Definition sample_mask : list Z := (nodemask_add_node 5 (zeros 501)).2.

Lemma mcast_group_contract_witness :
  let '(g, st') := mcast_group_get_id_by_nodemask sample_mask mcast_group_init in
  contract mcast_group_init [] sample_mask g st'.
Proof.
  apply mcast_group_contract.
  - apply ring_init.
  - apply masks_ok_entries; [done|]. intros id Hid. rewrite init_entry by done. apply zeros_mask_ok.
  - unfold sample_mask. rewrite nodemask_add_spec; [|apply zeros_mask_ok|done].
    apply wr_ok, zeros_mask_ok.
  - by vm_compute.
Defined.

(** ** Where the code does not do what its header says *)

(** A group of one node, then a set of 256 nodes that contains it: the header says
    that the group is expanded, but it is 255 nodes away and a second one is made. *)
Definition large_mask : list Z := replicate 32 0xFF ++ zeros 469.
Theorem far_subset_not_expanded :
  let st := (mcast_group_get_id_by_nodemask sample_mask mcast_group_init).2 in
  let g := (mcast_group_get_id_by_nodemask large_mask st).1 in
  let st' := (mcast_group_get_id_by_nodemask large_mask st).2 in
  mask_of st 1 = Some sample_mask /\ submask sample_mask large_mask /\ mask_size large_mask = 256 /\
  g = 2 /\ mask_of st' 1 = Some sample_mask /\ mask_of st' 2 = Some large_mask.
Proof.
  assert (forallb (fun p => subset_byte p.1 p.2) (zip sample_mask large_mask) = true) as Hs by (by vm_compute).
  split; [by vm_compute|]. split; [|split_and!; by vm_compute].
  apply Forall2_same_length_lookup_2; [done|]. intros i o n Ho Hn.
  rewrite forallb_forall in Hs. apply (Hs (o, n)), list_elem_of_In, list_elem_of_lookup. exists i.
  apply lookup_zip_with_Some. eauto.
Qed.
