(* ===== verification/NmQueue.v ===== *)
(** * The queue of network management commands for sleeping nodes

    Models src/src/CC_NetworkManagement_queue.c.  A network management command
    whose target is a mailbox (sleeping) node is queued, its sender told to wait,
    and executed when the node wakes up.

    The calls that leave the file are recorded, oldest first, in [nm_trace]; the
    answers of the rest of the gateway come from [nm_env].  The elements come from
    a pool of [MAX_QUEUED_NM_OPS] and every allocated one is in the queue, so the
    pool is exhausted when the queue has that length. *)

From S2P Require Import Prelude.
#[local] Open Scope Z_scope.
#[local] Open Scope zgw_scope.

(** ** The model *)

Definition MAX_QUEUED_NM_OPS : nat := 10.
Definition MODE_MAILBOX : Z := 4.
Definition COMMAND_CLASS_NETWORK_MANAGEMENT_PROXY : Z := 0x52.
Definition COMMAND_CLASS_NETWORK_MANAGEMENT_BASIC : Z := 0x4D.
Definition COMMAND_CLASS_NETWORK_MANAGEMENT_INCLUSION : Z := 0x34.
Definition NODE_INFO_CACHED_GET : Z := 0x03.
Definition NODE_INFORMATION_SEND : Z := 0x05.
Definition NODE_NEIGHBOR_UPDATE_REQUEST : Z := 0x0B.
Definition RETURN_ROUTE_ASSIGN : Z := 0x0D.
Definition RETURN_ROUTE_DELETE : Z := 0x0F.

Inductive zwave_udp_response : Set := RES_ACK | RES_NAK | RES_WAITNG.

#[export] Instance zwave_udp_response_eq_dec : EqDecision zwave_udp_response.
Proof. solve_decision. Defined.

(** [nm_queue_element_t]; a connection is a number. *)
Record nm_elem := { destination_node : Z; conn : Z; cmd : list Z; cmd_len : Z }.

#[export] Instance nm_elem_eq_dec : EqDecision nm_elem.
Proof. solve_decision. Defined.

Inductive nm_out : Type :=
| O_udp_ack (c : Z) (r : zwave_udp_response)
| O_nop (node : Z)
| O_execute (e : nm_elem) (busy : bool)
| O_mb_wakeup (node : Z).

Record nm := {
  nm_op_queue : list nm_elem;
  current_executing_node : Z;
  nm_trace : list nm_out;
}.
#[export] Instance eta_nm : EtaRecord nm := fun r =>
  {| nm_op_queue := nm_op_queue r; current_executing_node := current_executing_node r;
     nm_trace := nm_trace r |}.

Definition nm_init : nm := {| nm_op_queue := []; current_executing_node := 0; nm_trace := [] |}.

(** [NetworkManagementCommandHandler_internal] answers COMMAND_BUSY or takes the
    command; [mb_get_active_node] and [rd_get_node_mode]; whether
    [ZW_SendDataAppl] takes the frame. *)
Record nm_env := {
  nm_busy : list nm_out -> bool;
  mb_get_active_node : list nm_out -> Z;
  rd_get_node_mode : list nm_out -> Z -> Z;
}.

Definition nm_emit (o : nm_out) (st : nm) : nm := st <| nm_trace := nm_trace st ++ [o] |>.

(** [NAK_Waiting_Timeout] for the element at the given place of the queue. *)
Definition NAK_Waiting_Timeout (i : nat) (st : nm) : option nm :=
  match nm_op_queue st !! i with
  | Some e => Some (nm_emit (O_udp_ack (conn e) RES_WAITNG) st)
  | None => None
  end.

Definition NetworkManagement_GetTargetNode (pCmd : list Z) : Z :=
  let cc := rd pCmd 0 in
  let c := rd pCmd 1 in
  if (cc =? COMMAND_CLASS_NETWORK_MANAGEMENT_PROXY) && (c =? NODE_INFO_CACHED_GET) then
    if Z.land (rd pCmd 3) 0xF =? 0 then
      let nid := rd pCmd 4 in
      if nid =? 0xff then Z.lor (Z.shiftl (rd pCmd 5) 8) (rd pCmd 6) else nid
    else 0
  else if (cc =? COMMAND_CLASS_NETWORK_MANAGEMENT_BASIC) && (c =? NODE_INFORMATION_SEND) then rd pCmd 4
  else if (cc =? COMMAND_CLASS_NETWORK_MANAGEMENT_INCLUSION) && (c =? NODE_NEIGHBOR_UPDATE_REQUEST) then rd pCmd 3
  else if (cc =? COMMAND_CLASS_NETWORK_MANAGEMENT_INCLUSION) && (c =? RETURN_ROUTE_ASSIGN) then rd pCmd 3
  else if (cc =? COMMAND_CLASS_NETWORK_MANAGEMENT_INCLUSION) && (c =? RETURN_ROUTE_DELETE) then rd pCmd 3
  else 0.

Definition NetworkManagement_queue_command (c target_node : Z) (pCmd : list Z) (bDatalen : Z)
    (st : nm) : bool * nm :=
  if (MAX_QUEUED_NM_OPS <=? length (nm_op_queue st))%nat then (false, st)
  else
    let e := {| destination_node := target_node; conn := c; cmd := pCmd; cmd_len := bDatalen |} in
    let st := nm_emit (O_udp_ack c RES_WAITNG) st in
    (true, st <| nm_op_queue := nm_op_queue st ++ [e] |>).

(** The first element for a node, with its place in the queue. *)
Fixpoint find_element (node : Z) (q : list nm_elem) (i : nat) : option (nat * nm_elem) :=
  match q with
  | [] => None
  | e :: q => if destination_node e =? node then Some (i, e) else find_element node q (S i)
  end.

Definition NetworkManagement_queue_find_element (node : Z) (st : nm) : option (nat * nm_elem) :=
  find_element node (nm_op_queue st) 0.

Definition NetworkManagement_queue_remove_element (i : nat) (e : nm_elem) (r : zwave_udp_response)
    (st : nm) : nm :=
  let st := nm_emit (O_udp_ack (conn e) r) st in
  st <| nm_op_queue := take i (nm_op_queue st) ++ drop (S i) (nm_op_queue st) |>.

Fixpoint purge_all_loop (fuel : nat) (st : nm) : nm :=
  match fuel, nm_op_queue st with
  | S fuel, e :: _ => purge_all_loop fuel (NetworkManagement_queue_remove_element 0 e RES_NAK st)
  | _, _ => st
  end.

Definition NetworkManagement_queue_purge_all (st : nm) : nm :=
  purge_all_loop (length (nm_op_queue st)) st.

Fixpoint purge_node_loop (fuel : nat) (node : Z) (st : nm) : nm :=
  match fuel, NetworkManagement_queue_find_element node st with
  | S fuel, Some (i, e) =>
      purge_node_loop fuel node (NetworkManagement_queue_remove_element i e RES_NAK st)
  | _, _ => st
  end.

Definition NetworkManagement_queue_purge_node (node : Z) (st : nm) : nm :=
  purge_node_loop (length (nm_op_queue st)) node st.

Definition NetworkManagement_queue_wakeup_event (env : nm_env) (node : Z) (st : nm) : bool * nm :=
  match NetworkManagement_queue_find_element node st with
  | Some (i, e) =>
      if (current_executing_node st =? 0) || (current_executing_node st =? node) then
        let busy := nm_busy env (nm_trace st) in
        let st := nm_emit (O_execute e busy) st in
        if negb busy then
          let st := st <| current_executing_node := node |> in
          (true, NetworkManagement_queue_remove_element i e RES_ACK st)
        else (false, st)
      else (false, st)
  | None => (false, st)
  end.

(** The callback of the probe frame. *)
Definition check_if_awake_cb (env : nm_env) (ok : bool) (node : Z) (st : nm) : nm :=
  if ok then (NetworkManagement_queue_wakeup_event env node st).2 else st.

Definition check_if_awake (node : Z) (st : nm) : nm := nm_emit (O_nop node) st.

Definition NetworkManagement_queue_if_target_is_mailbox (env : nm_env) (c : Z) (pCmd : list Z)
    (bDatalen : Z) (st : nm) : bool * nm :=
  let target_node := NetworkManagement_GetTargetNode pCmd in
  if negb (target_node =? 0) && negb (target_node =? 0xFF) then
    if mb_get_active_node env (nm_trace st) =? target_node then (false, st)
    else if Z.land (rd_get_node_mode env (nm_trace st) target_node) 0xff =? MODE_MAILBOX then
      NetworkManagement_queue_command c target_node pCmd bDatalen (check_if_awake target_node st)
    else (false, st)
  else (false, st).

Definition NetworkManagement_queue_nm_done_event (env : nm_env) (st : nm) : nm :=
  if negb (current_executing_node st =? 0) then
    let done_node := current_executing_node st in
    let '(more, st) := NetworkManagement_queue_wakeup_event env done_node st in
    if negb more then nm_emit (O_mb_wakeup done_node) (st <| current_executing_node := 0 |>)
    else st
  else st.

(** ** Steps *)

Inductive nm_event : Type :=
| E_request (c : Z) (pCmd : list Z) (len : Z)
| E_wakeup (node : Z)
| E_awake_cb (ok : bool) (node : Z)
| E_nm_done
| E_purge_node (node : Z)
| E_purge_all
| E_waiting_timeout (i : nat).

(** The second component is the element the step accepted. *)
Definition nm_step (env : nm_env) (ev : nm_event) (st : nm) : option (list nm_elem * nm) :=
  match ev with
  | E_request c pCmd len =>
      let '(ok, st) := NetworkManagement_queue_if_target_is_mailbox env c pCmd len st in
      Some (if ok then [{| destination_node := NetworkManagement_GetTargetNode pCmd; conn := c;
                           cmd := pCmd; cmd_len := len |}] else [], st)
  | E_wakeup node => Some ([], (NetworkManagement_queue_wakeup_event env node st).2)
  | E_awake_cb ok node => Some ([], check_if_awake_cb env ok node st)
  | E_nm_done => Some ([], NetworkManagement_queue_nm_done_event env st)
  | E_purge_node node => Some ([], NetworkManagement_queue_purge_node node st)
  | E_purge_all => Some ([], NetworkManagement_queue_purge_all st)
  | E_waiting_timeout i =>
      match NAK_Waiting_Timeout i st with Some st => Some ([], st) | None => None end
  end.

Fixpoint nm_run (env : nm_env) (evs : list nm_event) (st : nm) : option (list nm_elem * nm) :=
  match evs with
  | [] => Some ([], st)
  | ev :: evs =>
      match nm_step env ev st with
      | Some (acc, st) =>
          match nm_run env evs st with
          | Some (acc', st) => Some (acc ++ acc', st)
          | None => None
          end
      | None => None
      end
  end.

(** ** Lemmas *)

Lemma find_element_Some node q k i e : find_element node q k = Some (i, e) ->
  exists l r, q = l ++ e :: r /\ i = (k + length l)%nat /\ destination_node e = node /\
              Forall (fun x => destination_node x <> node) l.
Proof.
  revert k. induction q as [|x q IH]; intros k H; [done|]. cbn [find_element] in H.
  destruct (Z.eqb_spec (destination_node x) node) as [Heq|Hne].
  - injection H as <- <-. exists [], q. split; [done|]. split; [simpl; lia|]. split; [done|constructor].
  - destruct (IH _ H) as (l & r & -> & -> & Hd & Hl). exists (x :: l), r.
    split; [done|]. split; [simpl; lia|]. split; [done|by constructor].
Qed.

Lemma find_element_None node q k : find_element node q k = None ->
  Forall (fun x => destination_node x <> node) q.
Proof.
  revert k. induction q as [|x q IH]; intros k H; [constructor|]. cbn [find_element] in H.
  destruct (Z.eqb_spec (destination_node x) node); [done|]. constructor; [done|by eapply IH].
Qed.

Lemma remove_element_queue l e r x st : nm_op_queue st = l ++ e :: r ->
  NetworkManagement_queue_remove_element (length l) e x st =
  nm_emit (O_udp_ack (conn e) x) st <| nm_op_queue := l ++ r |>.
Proof.
  intros Hq. unfold NetworkManagement_queue_remove_element. cbv zeta. simpl (nm_op_queue _).
  rewrite Hq, take_app_length. replace (S (length l)) with (length (l ++ [e])) by (rewrite length_app; simpl; lia).
  change (l ++ e :: r) with (l ++ [e] ++ r). rewrite app_assoc, drop_app_length. done.
Qed.

(** The effect of waking up a node: nothing, a refused attempt, or the first
    command for the node executed. *)
Lemma wakeup_spec env node st :
  let '(ok, st') := NetworkManagement_queue_wakeup_event env node st in
  (ok = false /\ st' = st) \/
  exists l e r, nm_op_queue st = l ++ e :: r /\ destination_node e = node /\
    Forall (fun x => destination_node x <> node) l /\
    (current_executing_node st = 0 \/ current_executing_node st = node) /\
    ((ok = false /\ st' = nm_emit (O_execute e true) st) \/
     (ok = true /\ nm_op_queue st' = l ++ r /\ current_executing_node st' = node /\
      nm_trace st' = nm_trace st ++ [O_execute e false; O_udp_ack (conn e) RES_ACK])).
Proof.
  unfold NetworkManagement_queue_wakeup_event, NetworkManagement_queue_find_element.
  destruct (find_element node (nm_op_queue st) 0) as [[i e]|] eqn:E; [|by left].
  apply find_element_Some in E as (l & r & Hq & -> & Hd & Hl). cbn [Nat.add].
  destruct (_ || _) eqn:Ec; [|by left]. cbv zeta.
  destruct (nm_busy env (nm_trace st)); cbn [negb]; right; exists l, e, r;
    (split; [done|]); (split; [done|]); (split; [done|]); (split; [lia|]); [by left|right].
  rewrite (remove_element_queue l e r) by done.
  split; [done|]. split; [done|]. split; [done|]. simpl. by rewrite <- app_assoc.
Qed.

(** The elements a trace answers finally, and the ones it executes. *)
Definition final_for (c : Z) (o : nm_out) : bool :=
  match o with O_udp_ack c' r => (c' =? c) && bool_decide (r <> RES_WAITNG) | _ => false end.

Definition finals (c : Z) (tr : list nm_out) : Z := Zlength (List.filter (final_for c) tr).
Definition for_conn (c : Z) (q : list nm_elem) : Z := Zlength (List.filter (fun e => conn e =? c) q).

Lemma finals_app c t1 t2 : finals c (t1 ++ t2) = finals c t1 + finals c t2.
Proof. unfold finals. by rewrite List.filter_app, Zlength_app. Qed.

Lemma for_conn_app c q1 q2 : for_conn c (q1 ++ q2) = for_conn c q1 + for_conn c q2.
Proof. unfold for_conn. by rewrite List.filter_app, Zlength_app. Qed.

Lemma for_conn_cons c e q : for_conn c (e :: q) = for_conn c [e] + for_conn c q.
Proof. apply (for_conn_app c [e] q). Qed.

Lemma finals_final c e r : r <> RES_WAITNG -> finals c [O_udp_ack (conn e) r] = for_conn c [e].
Proof.
  intros Hr. unfold finals, for_conn. simpl. rewrite bool_decide_true by done. rewrite andb_true_r.
  by destruct (conn e =? c).
Qed.

(** What every step keeps: the balance of requests and answers. *)
Definition balance (c : Z) (st : nm) : Z := finals c (nm_trace st) + for_conn c (nm_op_queue st).

Lemma balance_remove c l e r x st : nm_op_queue st = l ++ e :: r -> x <> RES_WAITNG ->
  balance c (NetworkManagement_queue_remove_element (length l) e x st) = balance c st.
Proof.
  intros Hq Hx. rewrite (remove_element_queue l e r) by done. unfold balance. simpl.
  rewrite Hq, finals_app, finals_final, !for_conn_app, (for_conn_cons c e r) by done. lia.
Qed.

Lemma balance_wakeup c env node st :
  balance c (NetworkManagement_queue_wakeup_event env node st).2 = balance c st.
Proof.
  pose proof (wakeup_spec env node st) as H.
  destruct (NetworkManagement_queue_wakeup_event env node st) as [ok st']. cbn [snd].
  destruct H as [[_ ->]|(l & e & r & Hq & _ & _ & _ & [[_ ->]|(_ & Hq' & _ & Ht')])]; [done| |].
  - unfold balance. simpl. rewrite finals_app. change (finals c [O_execute e true]) with 0. lia.
  - unfold balance. rewrite Ht', Hq', Hq, finals_app.
    change (finals c [O_execute e false; O_udp_ack (conn e) RES_ACK])
      with (finals c [O_udp_ack (conn e) RES_ACK]).
    rewrite finals_final, !for_conn_app, (for_conn_cons c e r) by done. lia.
Qed.

Lemma balance_purge_all c fuel st : balance c (purge_all_loop fuel st) = balance c st.
Proof.
  revert st. induction fuel as [|fuel IH]; intros st; [done|]. cbn [purge_all_loop].
  destruct (nm_op_queue st) as [|e q] eqn:Eq; [done|]. rewrite IH.
  by apply (balance_remove c [] e q).
Qed.

Lemma balance_purge_node c fuel node st : balance c (purge_node_loop fuel node st) = balance c st.
Proof.
  revert st. induction fuel as [|fuel IH]; intros st; [done|]. cbn [purge_node_loop].
  unfold NetworkManagement_queue_find_element at 1.
  destruct (find_element node (nm_op_queue st) 0) as [[i e]|] eqn:E; [|done]. rewrite IH.
  apply find_element_Some in E as (l & r & Hq & -> & _ & _). by apply (balance_remove c l e r).
Qed.

Lemma balance_step c env ev st acc st' : nm_step env ev st = Some (acc, st') ->
  balance c st' = balance c st + for_conn c acc.
Proof.
  intros H. assert (for_conn c [] = 0) as H0 by done.
  destruct ev as [c0 pCmd len|node|ok node| |node| |i]; cbn [nm_step] in H.
  - unfold NetworkManagement_queue_if_target_is_mailbox in H. cbv zeta in H.
    destruct (_ && _); [|injection H as <- <-; lia].
    destruct (mb_get_active_node _ _ =? _); [injection H as <- <-; lia|].
    destruct (Z.land _ _ =? _); [|injection H as <- <-; lia].
    unfold NetworkManagement_queue_command in H. destruct (_ <=? _)%nat; injection H as <- <-.
    + rewrite H0. unfold balance. simpl. rewrite finals_app. change (finals c [O_nop _]) with 0. lia.
    + unfold balance. simpl. rewrite !finals_app, for_conn_app. change (finals c [O_nop _]) with 0.
      replace (finals c [O_udp_ack c0 RES_WAITNG]) with 0; [lia|]. unfold finals. simpl.
      by rewrite andb_false_r.
  - injection H as <- <-. rewrite balance_wakeup. lia.
  - injection H as <- <-. unfold check_if_awake_cb. destruct ok; [rewrite balance_wakeup|]; lia.
  - injection H as <- <-. unfold NetworkManagement_queue_nm_done_event.
    destruct (negb _); [|lia].
    pose proof (balance_wakeup c env (current_executing_node st) st) as Hb.
    destruct (NetworkManagement_queue_wakeup_event env (current_executing_node st) st) as [more st1].
    cbn [snd] in Hb. destruct (negb more); [|lia].
    unfold balance in *. simpl. rewrite finals_app. change (finals c [O_mb_wakeup _]) with 0. lia.
  - injection H as <- <-. unfold NetworkManagement_queue_purge_node. rewrite balance_purge_node. lia.
  - injection H as <- <-. unfold NetworkManagement_queue_purge_all. rewrite balance_purge_all. lia.
  - unfold NAK_Waiting_Timeout in H. destruct (nm_op_queue st !! i) as [e|]; [|done].
    injection H as <- <-. unfold balance. simpl. rewrite finals_app.
    replace (finals c [O_udp_ack (conn e) RES_WAITNG]) with 0; [lia|]. unfold finals. simpl.
    by rewrite andb_false_r.
Qed.

Lemma balance_run c env evs st acc st' : nm_run env evs st = Some (acc, st') ->
  balance c st' = balance c st + for_conn c acc.
Proof.
  revert st acc st'. induction evs as [|ev evs IH]; intros st acc st' H; cbn [nm_run] in H.
  - injection H as <- <-. change (for_conn c []) with 0. lia.
  - destruct (nm_step env ev st) as [[acc1 st1]|] eqn:E1; [|done].
    destruct (nm_run env evs st1) as [[acc2 st2]|] eqn:E2; [|done]. injection H as <- <-.
    rewrite for_conn_app, (IH _ _ _ E2), (balance_step c _ _ _ _ _ E1). lia.
Qed.

(** Every accepted request is answered once: in any run, the requests accepted
    from a connection are exactly those given a final answer (ACK or NAK) plus
    those still in the queue; so none is lost and none is answered twice. *)
Theorem nm_answered_once env evs acc st c :
  nm_run env evs nm_init = Some (acc, st) ->
  for_conn c acc = finals c (nm_trace st) + for_conn c (nm_op_queue st).
Proof.
  intros H. apply (balance_run c) in H. unfold balance in H at 2. simpl in H. unfold balance in H.
  change (finals c []) with 0 in H. change (for_conn c []) with 0 in H. lia.
Qed.

(** ** Order *)

Definition for_node (n : Z) (q : list nm_elem) : list nm_elem :=
  List.filter (fun e => destination_node e =? n) q.

(** The commands handed over for execution, and taken. *)
Definition executed (tr : list nm_out) : list nm_elem :=
  omap (fun o => match o with O_execute e false => Some e | _ => None end) tr.

Lemma executed_app t1 t2 : executed (t1 ++ t2) = executed t1 ++ executed t2.
Proof. apply omap_app. Qed.

Lemma for_node_app n q1 q2 : for_node n (q1 ++ q2) = for_node n q1 ++ for_node n q2.
Proof. apply List.filter_app. Qed.

Lemma for_node_none n q : Forall (fun x => destination_node x <> n) q -> for_node n q = [].
Proof.
  induction 1 as [|x q Hx Hq IH]; [done|]. unfold for_node. simpl.
  by assert ((destination_node x =? n) = false) as -> by lia.
Qed.

(** Executed and waiting commands of a node, in order. *)
Definition history (n : Z) (st : nm) : list nm_elem :=
  for_node n (executed (nm_trace st)) ++ for_node n (nm_op_queue st).

Definition is_purge (ev : nm_event) : bool :=
  match ev with E_purge_node _ | E_purge_all => true | _ => false end.

(** Outputs that execute nothing. *)
Lemma history_emit n o st : executed [o] = [] -> history n (nm_emit o st) = history n st.
Proof. intros Ho. unfold history. simpl. by rewrite executed_app, Ho, app_nil_r. Qed.

Lemma history_wakeup n env node st :
  history n (NetworkManagement_queue_wakeup_event env node st).2 = history n st.
Proof.
  pose proof (wakeup_spec env node st) as H.
  destruct (NetworkManagement_queue_wakeup_event env node st) as [ok st']. cbn [snd].
  destruct H as [[_ ->]|(l & e & r & Hq & Hd & Hl & _ & [[_ ->]|(_ & Hq' & _ & Ht')])]; [done| |].
  - by apply history_emit.
  - unfold history. rewrite Ht', Hq', Hq, executed_app, !for_node_app, <- app_assoc. f_equal.
    change (for_node n (executed [O_execute e false; O_udp_ack (conn e) RES_ACK]))
      with (for_node n [e]).
    change (for_node n (e :: r)) with (for_node n ([e] ++ r)). rewrite for_node_app.
    destruct (Z.eq_dec (destination_node e) n) as [Hn|Hn].
    + rewrite (for_node_none n l); [done|]. by rewrite <- Hn, Hd.
    + rewrite (for_node_none n [e]); [done|]. by forall_list.
Qed.

Lemma history_step n env ev st acc st' : is_purge ev = false -> nm_step env ev st = Some (acc, st') ->
  history n st' = history n st ++ for_node n acc.
Proof.
  intros Hp H. destruct ev as [c0 pCmd len|node|ok node| |node| |i]; try done; cbn [nm_step] in H.
  - unfold NetworkManagement_queue_if_target_is_mailbox in H. cbv zeta in H.
    destruct (_ && _); [|injection H as <- <-; by rewrite app_nil_r].
    destruct (mb_get_active_node _ _ =? _); [injection H as <- <-; by rewrite app_nil_r|].
    destruct (Z.land _ _ =? _); [|injection H as <- <-; by rewrite app_nil_r].
    unfold NetworkManagement_queue_command in H. destruct (_ <=? _)%nat; injection H as <- <-.
    + rewrite app_nil_r. by apply history_emit.
    + unfold history. simpl. rewrite !executed_app, !app_nil_r, for_node_app. apply app_assoc.
  - injection H as <- <-. by rewrite history_wakeup, app_nil_r.
  - injection H as <- <-. unfold check_if_awake_cb. rewrite app_nil_r.
    destruct ok; [by rewrite history_wakeup|done].
  - injection H as <- <-. unfold NetworkManagement_queue_nm_done_event. rewrite app_nil_r.
    destruct (negb _); [|done].
    pose proof (history_wakeup n env (current_executing_node st) st) as Hb.
    destruct (NetworkManagement_queue_wakeup_event env (current_executing_node st) st) as [more st1].
    cbn [snd] in Hb. destruct (negb more); [|done]. by rewrite history_emit.
  - unfold NAK_Waiting_Timeout in H. destruct (nm_op_queue st !! i) as [e|]; [|done].
    injection H as <- <-. rewrite app_nil_r. by apply history_emit.
Qed.

(** The commands of each node are executed in the order they were accepted:
    as long as nothing is purged, the accepted commands of a node are its
    executed ones followed by its waiting ones. *)
Theorem nm_fifo env evs acc st n :
  Forall (fun ev => is_purge ev = false) evs -> nm_run env evs nm_init = Some (acc, st) ->
  for_node n acc = for_node n (executed (nm_trace st)) ++ for_node n (nm_op_queue st).
Proof.
  intros Hp H. change (for_node n acc = history n st).
  assert (forall evs st0 acc st, Forall (fun ev => is_purge ev = false) evs ->
    nm_run env evs st0 = Some (acc, st) -> history n st = history n st0 ++ for_node n acc) as Hrun.
  { clear. intros evs. induction evs as [|ev evs IH]; intros st0 acc st Hp H; cbn [nm_run] in H.
    - injection H as <- <-. by rewrite app_nil_r.
    - apply Forall_cons in Hp as [Hp0 Hp].
      destruct (nm_step env ev st0) as [[acc1 st1]|] eqn:E1; [|done].
      destruct (nm_run env evs st1) as [[acc2 st2]|] eqn:E2; [|done]. injection H as <- <-.
      by rewrite (IH _ _ _ Hp E2), (history_step n _ _ _ _ _ Hp0 E1), for_node_app, app_assoc. }
  symmetry. apply (Hrun _ _ _ _ Hp H).
Qed.

(** ** One node at a time

    The abstract machine: a lock that the first executed command for a node
    takes and the hand-over to the mailbox releases. *)
Fixpoint lock_run (cur : Z) (tr : list nm_out) : option Z :=
  match tr with
  | [] => Some cur
  | O_execute e false :: tr =>
      if (cur =? 0) || (cur =? destination_node e) then lock_run (destination_node e) tr else None
  | O_mb_wakeup n :: tr => if negb (n =? 0) && (cur =? n) then lock_run 0 tr else None
  | _ :: tr => lock_run cur tr
  end.

Lemma lock_run_app cur t1 t2 :
  lock_run cur (t1 ++ t2) = match lock_run cur t1 with Some c => lock_run c t2 | None => None end.
Proof.
  revert cur. induction t1 as [|o t1 IH]; intros cur; [done|].
  destruct o as [c r|node|e [|]|n]; simpl; try apply IH.
  - destruct (_ || _); [apply IH|done].
  - destruct (_ && _); [apply IH|done].
Qed.

Record nm_inv (st : nm) : Prop := {
  nmi_dest : Forall (fun e => destination_node e <> 0) (nm_op_queue st);
  nmi_cap : (length (nm_op_queue st) <= MAX_QUEUED_NM_OPS)%nat;
  nmi_lock : lock_run 0 (nm_trace st) = Some (current_executing_node st);
}.

Lemma nm_inv_emit o st : lock_run (current_executing_node st) [o] = Some (current_executing_node st) ->
  nm_inv st -> nm_inv (nm_emit o st).
Proof. intros Ho [Hd Hc Hl]. split; [done..|]. simpl. by rewrite lock_run_app, Hl. Qed.

Lemma nm_inv_remove l e r x st : nm_op_queue st = l ++ e :: r -> nm_inv st ->
  nm_inv (NetworkManagement_queue_remove_element (length l) e x st).
Proof.
  intros Hq Hi. rewrite (remove_element_queue l e r) by done.
  apply (nm_inv_emit (O_udp_ack (conn e) x)) in Hi as [Hd Hc Hl]; [|done]. simpl (nm_op_queue _) in Hd, Hc.
  rewrite Hq in Hd, Hc. split; simpl; [| |done].
  - apply Forall_app in Hd as [Hd1 Hd2]. apply Forall_cons in Hd2 as [_ Hd2]. by apply Forall_app.
  - rewrite length_app in Hc |- *. simpl in Hc. lia.
Qed.

Lemma nm_inv_wakeup env node st : nm_inv st ->
  nm_inv (NetworkManagement_queue_wakeup_event env node st).2 /\
  ((NetworkManagement_queue_wakeup_event env node st).1 = false ->
   current_executing_node (NetworkManagement_queue_wakeup_event env node st).2 = current_executing_node st).
Proof.
  intros Hi. pose proof (wakeup_spec env node st) as H.
  destruct (NetworkManagement_queue_wakeup_event env node st) as [ok st']. cbn [fst snd].
  destruct H as [[_ ->]|(l & e & r & Hq & Hd & _ & Hcur & [[_ ->]|(-> & Hq' & Hcur' & Ht')])].
  - done.
  - split; [by apply nm_inv_emit|done].
  - split; [|done]. destruct Hi as [Hdst Hc Hl]. rewrite Hq in Hdst, Hc. split.
    + rewrite Hq'. apply Forall_app in Hdst as [Hd1 Hd2]. apply Forall_cons in Hd2 as [_ Hd2]. by apply Forall_app.
    + rewrite Hq', length_app. rewrite length_app in Hc. simpl in Hc. lia.
    + rewrite Ht', lock_run_app, Hl. simpl. rewrite Hd, Hcur'.
      by assert ((current_executing_node st =? 0) || (current_executing_node st =? node) = true) as -> by lia.
Qed.

Lemma nm_inv_purge_node fuel node st : nm_inv st -> nm_inv (purge_node_loop fuel node st).
Proof.
  revert st. induction fuel as [|fuel IH]; intros st Hi; [done|]. cbn [purge_node_loop].
  unfold NetworkManagement_queue_find_element at 1.
  destruct (find_element node (nm_op_queue st) 0) as [[i e]|] eqn:E; [|done].
  apply find_element_Some in E as (l & r & Hq & -> & _ & _). apply IH. by apply (nm_inv_remove l e r).
Qed.

Lemma nm_inv_purge_all fuel st : nm_inv st -> nm_inv (purge_all_loop fuel st).
Proof.
  revert st. induction fuel as [|fuel IH]; intros st Hi; [done|]. cbn [purge_all_loop].
  destruct (nm_op_queue st) as [|e q] eqn:Eq; [done|]. apply IH. by apply (nm_inv_remove [] e q).
Qed.

Lemma nm_inv_step env ev st acc st' : nm_inv st -> nm_step env ev st = Some (acc, st') -> nm_inv st'.
Proof.
  intros Hi H. destruct ev as [c0 pCmd len|node|ok node| |node| |i]; cbn [nm_step] in H.
  - unfold NetworkManagement_queue_if_target_is_mailbox in H. cbv zeta in H.
    destruct (_ && _) eqn:Et; [|by injection H as <- <-].
    destruct (mb_get_active_node _ _ =? _); [by injection H as <- <-|].
    destruct (Z.land _ _ =? _); [|by injection H as <- <-].
    set (n := NetworkManagement_GetTargetNode pCmd) in *. unfold NetworkManagement_queue_command in H.
    assert (nm_inv (check_if_awake n st)) as Hi1 by by apply nm_inv_emit.
    destruct (MAX_QUEUED_NM_OPS <=? _)%nat eqn:Ef; injection H as <- <-; [done|].
    apply (nm_inv_emit (O_udp_ack c0 RES_WAITNG)) in Hi1 as [Hd Hc Hl]; [|done].
    split; [| |exact Hl]; simpl.
    + apply Forall_app. split; [exact Hd|]. forall_list. simpl. lia.
    + rewrite length_app. simpl. apply Nat.leb_gt in Ef. simpl in Ef. lia.
  - injection H as <- <-. by apply nm_inv_wakeup.
  - injection H as <- <-. unfold check_if_awake_cb. destruct ok; [by apply nm_inv_wakeup|done].
  - injection H as <- <-. unfold NetworkManagement_queue_nm_done_event.
    destruct (current_executing_node st =? 0) eqn:E0; [done|]. cbn [negb].
    destruct (nm_inv_wakeup env (current_executing_node st) st Hi) as [Hi1 Hcur].
    destruct (NetworkManagement_queue_wakeup_event env (current_executing_node st) st) as [more st1].
    cbn [fst snd] in *. destruct more; [done|]. cbn [negb]. destruct Hi1 as [Hd Hc Hl].
    split; [done..|]. simpl. rewrite lock_run_app, Hl. simpl. rewrite (Hcur eq_refl), E0, Z.eqb_refl. done.
  - injection H as <- <-. by apply nm_inv_purge_node.
  - injection H as <- <-. by apply nm_inv_purge_all.
  - unfold NAK_Waiting_Timeout in H. destruct (nm_op_queue st !! i) as [e|]; [|done].
    injection H as <- <-. by apply nm_inv_emit.
Qed.

(** In every run the trace is a run of the lock: a command is only executed when
    no other node is being serviced, a node stays serviced until it is handed
    over to the mailbox, exactly once; and at most ten commands wait. *)
Theorem nm_one_node_at_a_time env evs acc st :
  nm_run env evs nm_init = Some (acc, st) ->
  lock_run 0 (nm_trace st) = Some (current_executing_node st) /\
  (length (nm_op_queue st) <= MAX_QUEUED_NM_OPS)%nat.
Proof.
  intros H. assert (nm_inv st) as []; [|done].
  assert (nm_inv nm_init) as Hi by (split; [constructor|simpl; lia|done]).
  revert Hi H. generalize nm_init as st0. revert acc st.
  induction evs as [|ev evs IH]; intros acc st st0 Hi H; cbn [nm_run] in H.
  - by injection H as <- <-.
  - destruct (nm_step env ev st0) as [[acc1 st1]|] eqn:E1; [|done].
    destruct (nm_run env evs st1) as [[acc2 st2]|] eqn:E2; [|done]. injection H as <- <-.
    eapply IH; [|exact E2]. by eapply nm_inv_step.
Qed.

(** ** The hypotheses are satisfiable *)

Definition sample_env : nm_env :=
  {| nm_busy := fun _ => false; mb_get_active_node := fun _ => 0;
     rd_get_node_mode := fun _ _ => MODE_MAILBOX |}.

(** Two commands for node 7 and one for node 9, then both nodes wake up. *)
Definition sample_events : list nm_event :=
  [E_request 1 [0x34; 0x0B; 0; 7] 4; E_request 2 [0x34; 0x0F; 0; 7] 4;
   E_request 3 [0x34; 0x0B; 0; 9] 4; E_wakeup 7; E_wakeup 9; E_waiting_timeout 0; E_nm_done;
   E_nm_done; E_wakeup 9].

Definition sample_run : list nm_elem * nm :=
  default ([], nm_init) (nm_run sample_env sample_events nm_init).

Lemma sample_run_ok : nm_run sample_env sample_events nm_init = Some (sample_run.1, sample_run.2).
Proof. by vm_compute. Qed.

Lemma nm_answered_once_witness :
  for_conn 2 sample_run.1 = finals 2 (nm_trace sample_run.2) + for_conn 2 (nm_op_queue sample_run.2).
Proof. apply (nm_answered_once sample_env sample_events), sample_run_ok. Defined.

Lemma nm_fifo_witness :
  for_node 7 sample_run.1 =
  for_node 7 (executed (nm_trace sample_run.2)) ++ for_node 7 (nm_op_queue sample_run.2).
Proof. apply (nm_fifo sample_env sample_events); [by forall_list|apply sample_run_ok]. Defined.

Lemma nm_one_node_at_a_time_witness :
  lock_run 0 (nm_trace sample_run.2) = Some (current_executing_node sample_run.2) /\
  (length (nm_op_queue sample_run.2) <= MAX_QUEUED_NM_OPS)%nat.
Proof. apply (nm_one_node_at_a_time sample_env sample_events sample_run.1), sample_run_ok. Defined.
