(* ===== verification/NodeQueue.v ===== *)
(** * The queues of frames for Z-Wave nodes

    Models src/src/node_queue.c: frames from the LAN wait in [first_attempt_queue]
    for a short attempt and in [long_queue] for a full one, one frame at a time is
    handed to ClassicZIPNode, and its completion moves the frame on: done, to the
    mailbox, to the long queue, or dropped.  A frame is the list of its bytes
    from the IPv6 header on; reads behind the end of a frame read 0.

    What the queue sees of the rest of the gateway is [nq_env] (the resource
    directory, the configuration, the addresses, the packets other queues hold
    from the shared pool), which may differ at every event, and the answer of
    ClassicZIPNode, of which only the entry checks, the copy it keeps and the
    completion callback are modelled. *)

From S2P Require Import Prelude Crc32 Nodemask.
#[local] Open Scope Z_scope.

(** ** Constants *)

Definition UIP_IPH_LEN : Z := 40.
Definition UIP_IPUDPH_LEN : Z := 48.
Definition UIP_PROTO_UDP : Z := 17.
Definition DTLS_PORT : Z := 41230.
Definition ZWAVE_PORT : Z := 4123.
Definition COMMAND_CLASS_ZIP : Z := 0x23.
Definition COMMAND_ZIP_PACKET : Z := 0x02.
Definition COMMAND_ZIP_KEEP_ALIVE : Z := 0x03.
Definition ZIP_KEEP_ALIVE_ACK_REQUEST : Z := 0x80.
Definition ZIP_PACKET_FLAGS1_HDR_EXT_INCL : Z := 0x80.
Definition COMMAND_CLASS_WAKE_UP : Z := 0x84.
Definition WAKE_UP_NO_MORE_INFORMATION : Z := 0x08.
Definition TRANSMIT_COMPLETE_OK : Z := 0x00.
Definition TRANSMIT_COMPLETE_NO_ACK : Z := 0x01.
Definition TRANSMIT_COMPLETE_FAIL : Z := 0x02.
Definition TRANSMIT_COMPLETE_ERROR : Z := 0xFF.
Definition TRANSMIT_COMPLETE_REQUEUE : Z := 0xFE.
Definition TRANSMIT_COMPLETE_REQUEUE_QUEUED : Z := 0xFD.
Definition TRANSMIT_OPTION_ACK : Z := 0x01.
Definition TRANSMIT_OPTION_AUTO_ROUTE : Z := 0x04.
Definition TRANSMIT_OPTION_EXPLORE : Z := 0x20.
Definition DISABLE_MAILBOX : Z := 0.
Definition MODE_FREQUENTLYLISTENING : Z := 3.
Definition MODE_MAILBOX : Z := 4.
Definition BLACKLIST_LENGTH : nat := 2.
Definition MAX_NUM_QUEUED_PACKETS : Z := 64.

(** ** State *)

Inductive en_queue_state := QS_IDLE | QS_SENDING_FIRST | QS_SENDING_LONG.

#[export] Instance en_queue_state_eq_dec : EqDecision en_queue_state.
Proof. solve_decision. Defined.

(** The frame ClassicZIPNode is busy with ([backup_buf]): one of these queues,
    or one of the mailbox. *)
Inductive cz_job := JobQueue (frame : list Z) | JobOther.

Record nq := Nq {
  first_attempt_queue : list (list Z);
  long_queue : list (list Z);
  black_list_crc32 : list Z;
  fingerprint_n : nat;                (** the static [n] of add_fingerprint_uip_buf *)
  queue_state : en_queue_state;
  queue_timer : bool;
  backup : option cz_job }.

#[export] Instance nq_eta : EtaRecord nq := fun st =>
  Nq (first_attempt_queue st) (long_queue st) (black_list_crc32 st) (fingerprint_n st)
    (queue_state st) (queue_timer st) (backup st).

Record nq_env := NqEnv {
  pan_prefix : list Z;                (** cfg.pan_prefix *)
  MyNodeID : Z;
  uip_ds6_is_my_addr : list Z -> bool;
  ipv46nat_get_nat_addr : list Z -> Z;
  uip_ext_len : Z;
  rd_get_node_mode : Z -> Z;
  mb_conf_mode : Z;                   (** cfg.mb_conf_mode *)
  NM_get_newly_included_nodeid : Z;
  pool_others : Z }.                  (** packets of the pool in other queues *)

(** What the code does to the rest of the gateway. *)
Inductive nq_out :=
| OSend (frame : list Z) (tx_options : Z) (nack requeued : bool)
| OMailbox (frame : list Z)           (** mb_post_uipbuf *)
| OTransmissionOk (node : Z)          (** mb_node_transmission_ok_event *)
| OQueueUpdated                       (** ZIP_EVENT_QUEUE_UPDATED *)
| OComponentDone                      (** ZIP_EVENT_COMPONENT_DONE *)
| OKeepAliveAck (node : Z)
| ODtlsInput (frame : list Z)
| OExtendProbe
| OAbortSending
| OAssert.

(** ** Addresses and packets *)

Definition destipaddr (frame : list Z) : list Z := sub_buf frame 24 16.

Definition uip_is_4to6_addr (a : list Z) : bool :=
  bool_decide (sub_buf a 0 12 = zeros 10 ++ [0xFF; 0xFF]).

Definition nodeOfIP (E : nq_env) (ip : list Z) : Z :=
  if bool_decide (take 8 ip = take 8 (pan_prefix E)) then rd ip 14 * 256 + rd ip 15
  else if uip_ds6_is_my_addr E ip then MyNodeID E
  else if uip_is_4to6_addr ip then ipv46nat_get_nat_addr E (sub_buf ip 12 4)
  else 0.

Definition node_of (E : nq_env) (frame : list Z) : Z := nodeOfIP E (destipaddr frame).

(** The destination port, after the IPv6 header and its extensions. *)
Definition udp_destport (E : nq_env) (frame : list Z) : Z :=
  rd frame (UIP_IPH_LEN + uip_ext_len E + 2) * 256 + rd frame (UIP_IPH_LEN + uip_ext_len E + 3).

Definition is_zip_pkt (E : nq_env) (pkt : list Z) : bool :=
  if negb (rd pkt 6 =? UIP_PROTO_UDP) then false
  else if negb (udp_destport E pkt =? DTLS_PORT) && negb (udp_destport E pkt =? ZWAVE_PORT) then false
  else if negb (rd pkt UIP_IPUDPH_LEN =? COMMAND_CLASS_ZIP) then false
  else if negb (rd pkt (UIP_IPUDPH_LEN + 1) =? COMMAND_ZIP_PACKET) then false
  else true.

Definition is_wu_no_more_info_frame (E : nq_env) (pkt : list Z) : bool :=
  if is_zip_pkt E pkt then
    let flags1 := rd pkt (UIP_IPUDPH_LEN + 3) in
    let ext_hdr_len :=
      if has flags1 ZIP_PACKET_FLAGS1_HDR_EXT_INCL then rd pkt (UIP_IPUDPH_LEN + 7) else 0 in
    let pCmd := UIP_IPUDPH_LEN + 7 + ext_hdr_len in
    (rd pkt pCmd =? COMMAND_CLASS_WAKE_UP) && (rd pkt (pCmd + 1) =? WAKE_UP_NO_MORE_INFORMATION)
  else false.

(** The re-queued flag is bit 0 of the first byte of the IPv6 header. *)
Definition isPacketRequeued (buf : list Z) : bool := truth (Z.land (rd buf 0) 1).

Definition setPacketRequeued (buf : list Z) : list Z := wr buf 0 (Z.lor (rd buf 0) 1).

(** uip_packetqueue_alloc: the pool is shared with the other queues of the gateway. *)
Definition pool_full (E : nq_env) (st : nq) : bool :=
  MAX_NUM_QUEUED_PACKETS <=?
  Zlength (first_attempt_queue st) + Zlength (long_queue st) + pool_others E.

Definition alloc_first (E : nq_env) (frame : list Z) (st : nq) : bool * nq :=
  if pool_full E st then (false, st)
  else (true, st <| first_attempt_queue := first_attempt_queue st ++ [frame] |>).

Definition alloc_long (E : nq_env) (frame : list Z) (st : nq) : bool * nq :=
  if pool_full E st then (false, st)
  else (true, st <| long_queue := long_queue st ++ [frame] |>).

(** ** Operations *)

Definition node_queue_idle (st : nq) : bool :=
  bool_decide (queue_state st = QS_IDLE) && bool_decide (first_attempt_queue st = []) &&
  bool_decide (long_queue st = []).

Definition fingerprint (frame : list Z) : Z := crc32 frame 0xFFFF.

Definition add_fingerprint_uip_buf (frame : list Z) (st : nq) : nq :=
  let n := fingerprint_n st in
  let n' := S n in
  st <| black_list_crc32 := <[n := fingerprint frame]> (black_list_crc32 st) |>
     <| fingerprint_n := if (BLACKLIST_LENGTH <=? n')%nat then 0%nat else n' |>.

(** The local variable [crc] is a uint16_t. *)
Definition check_fingerprint_uip_buf (frame : list Z) (st : nq) : bool :=
  let crc := u16 (fingerprint frame) in
  existsb (fun b => crc =? b) (black_list_crc32 st).

Definition queued_elements_existes (E : nq_env) (node : Z) (st : nq) : bool :=
  existsb (fun p => node_of E p =? node) (long_queue st).

(** The packet will never go to the mailbox and
    - packets for the node wait in the long queue, or
    - the node is a FLiRS node, or
    - nothing is queued at all. *)
Definition use_long_q (E : nq_env) (node : Z) (st : nq) : bool :=
  let node_rd_mode := rd_get_node_mode E node in
  ((mb_conf_mode E =? DISABLE_MAILBOX) || negb (node_rd_mode =? MODE_MAILBOX)) &&
  (queued_elements_existes E node st
   || (Z.land node_rd_mode 0xFF =? MODE_FREQUENTLYLISTENING)
   || (bool_decide (first_attempt_queue st = []) && bool_decide (long_queue st = []))).

Definition node_input_queued (E : nq_env) (node : Z) (decrypted : bool) (frame : list Z) (st : nq) :
    bool * nq * list nq_out :=
  let port := udp_destport E frame in
  if (port =? DTLS_PORT) && negb decrypted then (true, st, [ODtlsInput frame])
  else if ((port =? DTLS_PORT) || (port =? ZWAVE_PORT))
       && (rd frame UIP_IPUDPH_LEN =? COMMAND_CLASS_ZIP)
       && (rd frame (UIP_IPUDPH_LEN + 1) =? COMMAND_ZIP_KEEP_ALIVE) then
    (true, st,
     if has (rd frame (UIP_IPUDPH_LEN + 2)) ZIP_KEEP_ALIVE_ACK_REQUEST
     then [OKeepAliveAck (node_of E frame)] else [])
  else if check_fingerprint_uip_buf frame st then (true, st, [])
  else
    let st := add_fingerprint_uip_buf frame st in
    let asserts := if Zlength frame <=? UIP_IPH_LEN then [OAssert] else [] in
    let '(rc, st) :=
      if use_long_q E node st then alloc_long E frame st else alloc_first E frame st in
    (rc, st, asserts ++ [OQueueUpdated]).

Definition queue_send_timeout (st : nq) : nq * list nq_out :=
  (st <| queue_timer := false |>, [OAbortSending]).

Definition queue_move_to_mailbox (E : nq_env) (node_rd_mode : Z) (sent_buffer : list Z) :
    bool * list nq_out :=
  if negb (mb_conf_mode E =? DISABLE_MAILBOX) && (node_rd_mode =? MODE_MAILBOX)
     && negb (is_wu_no_more_info_frame E sent_buffer)
  then (true, [OMailbox sent_buffer]) else (false, []).

(** [uip_packetqueue_pop] of the queue the state names. *)
Definition pop_sending (st : nq) : nq :=
  match queue_state st with
  | QS_SENDING_FIRST => st <| first_attempt_queue := tail (first_attempt_queue st) |>
  | _ => st <| long_queue := tail (long_queue st) |>
  end.

(** [sent] is [None] for the null buffer of process_node_queues. *)
Definition queue_send_done (E : nq_env) (status : Z) (sent : option (list Z)) (st : nq) :
    nq * list nq_out :=
  let st := st <| queue_timer := false |> in
  match queue_state st with
  | QS_IDLE => (st, [])
  | qs =>
    match head (match qs with QS_SENDING_FIRST => first_attempt_queue st | _ => long_queue st end) with
    | None => (st <| queue_state := QS_IDLE |>, [OAssert])
    | Some data =>
      let node := node_of E data in
      let node_rd_mode := rd_get_node_mode E node in
      let ok := if status =? TRANSMIT_COMPLETE_OK then [OTransmissionOk node] else [] in
      if status =? TRANSMIT_COMPLETE_REQUEUE then (st <| queue_state := QS_IDLE |>, ok)
      else if status =? TRANSMIT_COMPLETE_REQUEUE_QUEUED then
        let sent_buffer := default [] sent in
        let '(moved, o) := queue_move_to_mailbox E node_rd_mode sent_buffer in
        let st :=
          if moved then st
          else
            let sent_buffer :=
              if negb (Z.land node_rd_mode 0xFF =? MODE_FREQUENTLYLISTENING)
              then setPacketRequeued sent_buffer else sent_buffer in
            snd (alloc_long E sent_buffer st) in
        (pop_sending st <| queue_state := QS_IDLE |>, ok ++ o)
      else
        let '(st, o) :=
          match qs, sent with
          | QS_SENDING_FIRST, Some sent_buffer =>
              if (status =? TRANSMIT_COMPLETE_NO_ACK) && bool_decide (sent_buffer <> []) then
                let '(moved, o) := queue_move_to_mailbox E node_rd_mode sent_buffer in
                (if moved then st else snd (alloc_long E (setPacketRequeued sent_buffer) st), o)
              else (st, [])
          | _, _ => (st, [])
          end in
        (pop_sending st <| queue_state := QS_IDLE |>, ok ++ o ++ [OQueueUpdated])
    end
  end.

(** ClassicZIPNode's answer to a frame it has taken: the bridge is not ready and
    the frame is refused, the frame is done before the call returns, or its
    completion comes later. *)
Inductive cz_reply := CzRefused | CzNow (status : Z) | CzLater.

(** ClassicZIPNode_CallSendCompleted_cb for a frame of these queues. *)
Definition ClassicZIPNode_CallSendCompleted_cb (E : nq_env) (status : Z) (frame : list Z) (st : nq) :
    nq * list nq_out :=
  queue_send_done E status (Some frame) (st <| backup := None |>).

Definition ClassicZIPNode_input (E : nq_env) (frame : list Z) (reply : cz_reply) (st : nq) :
    bool * nq * list nq_out :=
  if nodemask_nodeid_is_invalid (node_of E frame) then
    let '(st, o) := queue_send_done E TRANSMIT_COMPLETE_ERROR (Some frame) st in (true, st, o)
  else if negb (bool_decide (backup st = None)) then
    let '(st, o) := queue_send_done E TRANSMIT_COMPLETE_REQUEUE (Some frame) st in (true, st, o)
  else
    let st := st <| backup := Some (JobQueue frame) |> in
    match reply with
    | CzRefused => (false, st <| backup := None |>, [])
    | CzNow status =>
        let '(st, o) := ClassicZIPNode_CallSendCompleted_cb E status frame st in (true, st, o)
    | CzLater => (true, st, [])
    end.

(** Picks the queue to serve: the first attempts go before the long queue. *)
Definition select_queue (st : nq) : option (list (list Z) * Z * bool) * nq :=
  match queue_state st, first_attempt_queue st, long_queue st with
  | QS_IDLE, _ :: _, _ =>
      (Some (first_attempt_queue st, TRANSMIT_OPTION_ACK, false),
       st <| queue_state := QS_SENDING_FIRST |> <| queue_timer := true |>)
  | QS_IDLE, [], _ :: _ =>
      (Some (long_queue st,
             Z.lor (Z.lor TRANSMIT_OPTION_ACK TRANSMIT_OPTION_AUTO_ROUTE) TRANSMIT_OPTION_EXPLORE,
             true),
       st <| queue_state := QS_SENDING_LONG |>)
  | _, _, _ => (None, st)
  end.

Definition process_node_queues (E : nq_env) (reply : cz_reply) (st : nq) : nq * list nq_out :=
  match select_queue st with
  | (None, st) => (st, [OComponentDone])
  | (Some (q, tx_options, nack), st) =>
      let frame := default [] (head q) in
      if Zlength frame =? 0 then (pop_sending st <| queue_state := QS_IDLE |>, [OAssert])
      else
        let node := node_of E frame in
        let asserts := if node =? 0 then [OAssert] else [] in
        let probe := if node =? NM_get_newly_included_nodeid E then [OExtendProbe] else [] in
        let send := [OSend frame tx_options nack (isPacketRequeued frame)] in
        let '(rc, st, o) := ClassicZIPNode_input E frame reply st in
        let '(st, o') :=
          if rc then (st, []) else queue_send_done E TRANSMIT_COMPLETE_FAIL None st in
        (st, asserts ++ probe ++ send ++ o ++ o')
  end.

(** Packets still queued are returned to the pool when a frame was in
    transmission; both queues are empty afterwards. *)
Definition node_queue_init (st : nq) : nq :=
  st <| first_attempt_queue := [] |> <| long_queue := [] |> <| queue_state := QS_IDLE |>.

(** The static variables before the first call. *)
Definition nq_boot : nq := Nq [] [] (replicate BLACKLIST_LENGTH 0) 0 QS_IDLE false None.

(** ** Events

    [EvExpire q i] is [packet_timedout] of the packet at index [i] of a queue,
    60 seconds after it was queued. *)
Inductive which_q := QFirst | QLong.

Inductive nq_event :=
| EvInput (frame : list Z) (decrypted : bool)
| EvProcess (reply : cz_reply)        (** ZIP_EVENT_QUEUE_UPDATED or ZIP_EVENT_COMPONENT_DONE *)
| EvSendDone (status : Z)             (** ClassicZIPNode completes the frame it holds *)
| EvTimer                             (** queue_timer expires *)
| EvExpire (q : which_q) (i : nat)
| EvOtherStart | EvOtherDone          (** ClassicZIPNode works for the mailbox *)
| EvInit.

Definition step (E : nq_env) (ev : nq_event) (st : nq) : nq * list nq_out :=
  match ev with
  | EvInput frame decrypted =>
      let '(_, st, o) := node_input_queued E (node_of E frame) decrypted frame st in (st, o)
  | EvProcess reply => process_node_queues E reply st
  | EvSendDone status =>
      match backup st with
      | Some (JobQueue frame) => ClassicZIPNode_CallSendCompleted_cb E status frame st
      | _ => (st, [])
      end
  | EvTimer => if queue_timer st then queue_send_timeout st else (st, [])
  | EvExpire QFirst i => (st <| first_attempt_queue := delete i (first_attempt_queue st) |>, [])
  | EvExpire QLong i => (st <| long_queue := delete i (long_queue st) |>, [])
  | EvOtherStart =>
      (match backup st with None => st <| backup := Some JobOther |> | _ => st end, [])
  | EvOtherDone =>
      (match backup st with Some JobOther => st <| backup := None |> | _ => st end, [])
  | EvInit => (node_queue_init st, [])
  end.

Fixpoint run (evs : list (nq_env * nq_event)) (st : nq) : nq * list nq_out :=
  match evs with
  | [] => (st, [])
  | (E, ev) :: evs =>
      let '(st, o) := step E ev st in
      let '(st, o') := run evs st in (st, o ++ o')
  end.

(** ** The frame in transmission *)

(** While a queue is being served, ClassicZIPNode holds the frame at its head. *)
Definition nq_ok (st : nq) : Prop :=
  length (black_list_crc32 st) = BLACKLIST_LENGTH /\
  (fingerprint_n st < BLACKLIST_LENGTH)%nat /\
  Forall (fun p => p <> []) (first_attempt_queue st ++ long_queue st) /\
  match queue_state st with
  | QS_IDLE => True
  | QS_SENDING_FIRST =>
      exists frame, head (first_attempt_queue st) = Some frame /\ backup st = Some (JobQueue frame)
  | QS_SENDING_LONG =>
      exists frame, head (long_queue st) = Some frame /\ backup st = Some (JobQueue frame)
  end.

(** ** The abstract queue

    Seen from outside, the component is a bag of waiting frames.  A frame enters
    it when it is [admitted] and leaves it with a [fate].  The re-queued flag is
    not part of the frame: [unflag] clears it. *)

Definition unflag (frame : list Z) : list Z := wr frame 0 (Z.ldiff (rd frame 0) 1).

Definition waiting (st : nq) : list (list Z) :=
  map unflag (first_attempt_queue st ++ long_queue st).

Inductive fate :=
| FCompleted (status : Z)   (** transmitted, or given up with this status *)
| FMailbox                  (** handed to the mailbox *)
| FPoolFull                 (** no room to queue it again *)
| FExpired                  (** its lifetime ended in a queue *)
| FCleared.                 (** removed by node_queue_init *)

(** The frame is for a sleeping node and not the one that sends it to sleep. *)
Definition mailbox_bound (E : nq_env) (frame : list Z) : bool :=
  negb (mb_conf_mode E =? DISABLE_MAILBOX) && (rd_get_node_mode E (node_of E frame) =? MODE_MAILBOX)
  && negb (is_wu_no_more_info_frame E frame).

(** What the completion of a transmission means for the frame; [None] is waiting on. *)
Definition completion (E : nq_env) (first full : bool) (status : Z) (frame : list Z) : option fate :=
  if status =? TRANSMIT_COMPLETE_REQUEUE then None
  else if (status =? TRANSMIT_COMPLETE_REQUEUE_QUEUED)
          || (first && (status =? TRANSMIT_COMPLETE_NO_ACK)) then
    if mailbox_bound E frame then Some FMailbox
    else if full then Some FPoolFull else None
  else Some (FCompleted status).

Definition first_served (st : nq) : bool :=
  match queue_state st with
  | QS_SENDING_FIRST => true
  | QS_SENDING_LONG => false
  | QS_IDLE => negb (bool_decide (first_attempt_queue st = []))
  end.

(** The frame being served, or to be served next. *)
Definition served (st : nq) : option (list Z) :=
  head (if first_served st then first_attempt_queue st else long_queue st).

Definition leaves (E : nq_env) (st : nq) (status : Z) : list (list Z * fate) :=
  match served st with
  | Some frame =>
      match completion E (first_served st) (pool_full E st) status frame with
      | Some ft => [(frame, ft)]
      | None => []
      end
  | None => []
  end.

(** The status ClassicZIPNode answers a frame with at once, if any. *)
Definition immediate (E : nq_env) (st : nq) (reply : cz_reply) (frame : list Z) : option Z :=
  if nodemask_nodeid_is_invalid (node_of E frame) then Some TRANSMIT_COMPLETE_ERROR
  else if negb (bool_decide (backup st = None)) then Some TRANSMIT_COMPLETE_REQUEUE
  else match reply with
       | CzRefused => Some TRANSMIT_COMPLETE_FAIL
       | CzNow status => Some status
       | CzLater => None
       end.

Definition admitted (E : nq_env) (st : nq) (frame : list Z) (decrypted : bool) : bool :=
  negb ((udp_destport E frame =? DTLS_PORT) && negb decrypted)
  && negb (((udp_destport E frame =? DTLS_PORT) || (udp_destport E frame =? ZWAVE_PORT))
           && (rd frame UIP_IPUDPH_LEN =? COMMAND_CLASS_ZIP)
           && (rd frame (UIP_IPUDPH_LEN + 1) =? COMMAND_ZIP_KEEP_ALIVE))
  && negb (check_fingerprint_uip_buf frame st) && negb (pool_full E st).

Definition enters (E : nq_env) (st : nq) (ev : nq_event) : list (list Z) :=
  match ev with
  | EvInput frame decrypted => if admitted E st frame decrypted then [frame] else []
  | _ => []
  end.

Definition departs (E : nq_env) (st : nq) (ev : nq_event) : list (list Z * fate) :=
  match ev with
  | EvProcess reply =>
      match queue_state st, served st with
      | QS_IDLE, Some frame =>
          match immediate E st reply frame with Some s => leaves E st s | None => [] end
      | _, _ => []
      end
  | EvSendDone status =>
      match queue_state st, backup st with
      | QS_IDLE, _ => []
      | _, Some (JobQueue _) => leaves E st status
      | _, _ => []
      end
  | EvExpire QFirst i => option_list ((fun p => (p, FExpired)) <$> first_attempt_queue st !! i)
  | EvExpire QLong i => option_list ((fun p => (p, FExpired)) <$> long_queue st !! i)
  | EvInit => map (fun p => (p, FCleared)) (first_attempt_queue st ++ long_queue st)
  | _ => []
  end.

(** Frames are not empty, and the packet in transmission does not expire. *)
Definition ordinary (st : nq) (ev : nq_event) : bool :=
  match ev with
  | EvInput frame _ => UIP_IPH_LEN <? Zlength frame
  | EvExpire QFirst i => negb (bool_decide (queue_state st = QS_SENDING_FIRST) && (i =? 0)%nat)
  | EvExpire QLong i => negb (bool_decide (queue_state st = QS_SENDING_LONG) && (i =? 0)%nat)
  | _ => true
  end.

Fixpoint ordinary_run (evs : list (nq_env * nq_event)) (st : nq) : bool :=
  match evs with
  | [] => true
  | (E, ev) :: evs => ordinary st ev && ordinary_run evs (fst (step E ev st))
  end.

(** Everything that entered and left during a run. *)
Fixpoint entered (evs : list (nq_env * nq_event)) (st : nq) : list (list Z) :=
  match evs with
  | [] => []
  | (E, ev) :: evs => enters E st ev ++ entered evs (fst (step E ev st))
  end.

Fixpoint departed (evs : list (nq_env * nq_event)) (st : nq) : list (list Z * fate) :=
  match evs with
  | [] => []
  | (E, ev) :: evs => departs E st ev ++ departed evs (fst (step E ev st))
  end.

Definition mailboxed (o : list nq_out) : list (list Z) :=
  omap (fun x => match x with OMailbox f => Some f | _ => None end) o.

Definition to_mailbox (l : list (list Z * fate)) : list (list Z) :=
  omap (fun '(f, ft) => match ft with FMailbox => Some f | _ => None end) l.

(** ** Proofs *)

Lemma unflag_requeued f : unflag (setPacketRequeued f) = unflag f.
Proof.
  destruct f as [|b f]; [done|]. unfold unflag, setPacketRequeued, wr, rd. simpl. f_equal.
  apply Z.bits_inj'. intros i Hi. rewrite !Z.ldiff_spec, Z.lor_spec.
  destruct (Z.testbit b i), (Z.testbit 1 i); done.
Qed.

Lemma requeued_nonempty f : f <> [] -> setPacketRequeued f <> [].
Proof. by destruct f. Qed.

Lemma mailbox_move E frame o moved :
  queue_move_to_mailbox E (rd_get_node_mode E (node_of E frame)) frame = (moved, o) ->
  moved = mailbox_bound E frame /\ mailboxed o = if mailbox_bound E frame then [frame] else [].
Proof.
  unfold queue_move_to_mailbox, mailbox_bound. break_if; intros [= <- <-]; done.
Qed.

Abbreviation nonempty := (Forall (fun p : list Z => p <> [])).

(** The frames that left, without their flags. *)
Definition gone (l : list (list Z * fate)) : list (list Z) := map (fun x => unflag (fst x)) l.

(** The effect of a completion: the component is idle again and the frame served
    left it or waits on, as [completion] says. *)
Definition completed (E : nq_env) (status : Z) (st st' : nq) (o : list nq_out) : Prop :=
  queue_state st' = QS_IDLE /\ backup st' = backup st /\
  black_list_crc32 st' = black_list_crc32 st /\ fingerprint_n st' = fingerprint_n st /\
  waiting st ≡ₚ waiting st' ++ gone (leaves E st status) /\
  mailboxed o = to_mailbox (leaves E st status) /\
  (nonempty (first_attempt_queue st ++ long_queue st) ->
   nonempty (first_attempt_queue st' ++ long_queue st')).

Lemma mailboxed_app o o' : mailboxed (o ++ o') = mailboxed o ++ mailboxed o'.
Proof. apply omap_app. Qed.

Lemma to_mailbox_app l l' : to_mailbox (l ++ l') = to_mailbox l ++ to_mailbox l'.
Proof. apply omap_app. Qed.

Lemma gone_app l l' : gone (l ++ l') = gone l ++ gone l'.
Proof. apply map_app. Qed.

Lemma mailboxed_ok (b : bool) node o :
  mailboxed ((if b then [OTransmissionOk node] else []) ++ o) = mailboxed o.
Proof. by destruct b. Qed.

(** A frame leaves the head of its queue, or moves to the end of the long one. *)
Lemma drop_head_long f q l : map unflag (q ++ f :: l) ≡ₚ map unflag (q ++ l) ++ [unflag f].
Proof. rewrite !map_app. simpl. solve_Permutation. Qed.

Lemma to_tail_first f q l p : unflag p = unflag f ->
  unflag f :: map unflag (q ++ l) ≡ₚ map unflag (q ++ l ++ [p]).
Proof. intros Hp. rewrite app_assoc, (map_app unflag (q ++ l)). simpl. rewrite Hp. solve_Permutation. Qed.

Lemma to_tail_long f q l p : unflag p = unflag f ->
  map unflag (q ++ f :: l) ≡ₚ map unflag (q ++ l ++ [p]).
Proof.
  intros Hp. rewrite drop_head_long. etrans; [symmetry; apply Permutation_cons_append|].
  by apply to_tail_first.
Qed.

Lemma nonempty_drop_first f q l : nonempty ((f :: q) ++ l) -> nonempty (q ++ l).
Proof. by inversion 1. Qed.

Lemma nonempty_drop_long (f : list Z) q l : nonempty (q ++ f :: l) -> nonempty (q ++ l).
Proof. rewrite !Forall_app, Forall_cons. tauto. Qed.

Lemma nonempty_to_tail q l (p : list Z) : p <> [] -> nonempty (q ++ l) -> nonempty (q ++ l ++ [p]).
Proof. rewrite !Forall_app, Forall_singleton. tauto. Qed.

Create HintDb nq.
#[local] Hint Resolve requeued_nonempty unflag_requeued drop_head_long to_tail_first
  to_tail_long nonempty_drop_first nonempty_drop_long nonempty_to_tail Permutation_cons_append : nq.

(** The frame is queued again, possibly with the flag set. *)
Lemma requeue_spec E p frame st : frame <> [] -> served st = Some frame -> queue_state st <> QS_IDLE ->
  p <> [] -> unflag p = unflag frame ->
  let st' := pop_sending (snd (alloc_long E p st)) <| queue_state := QS_IDLE |> in
  queue_state st' = QS_IDLE /\ backup st' = backup st /\
  black_list_crc32 st' = black_list_crc32 st /\ fingerprint_n st' = fingerprint_n st /\
  waiting st ≡ₚ waiting st' ++ (if pool_full E st then [unflag frame] else []) /\
  (nonempty (first_attempt_queue st ++ long_queue st) ->
   nonempty (first_attempt_queue st' ++ long_queue st')).
Proof.
  intros Hne Hs Hqs Hp Hu. unfold alloc_long. destruct (pool_full E st).
  all: destruct st as [fq lq bl n qs tm bk]; unfold served, first_served in Hs; cbn in Hqs, Hs;
    destruct qs; [done|..].
  all: first [destruct fq as [|f fq]; [done|] | destruct lq as [|f lq]; [done|]].
  all: injection Hs as ->; cbn -[unflag]; split_and!; try done; unfold waiting; cbn -[unflag];
    rewrite ?app_nil_r.
  all: eauto with nq.
Qed.

(** The frame leaves for good. *)
Lemma leave_spec frame st : served st = Some frame -> queue_state st <> QS_IDLE ->
  let st' := pop_sending st <| queue_state := QS_IDLE |> in
  queue_state st' = QS_IDLE /\ backup st' = backup st /\
  black_list_crc32 st' = black_list_crc32 st /\ fingerprint_n st' = fingerprint_n st /\
  waiting st ≡ₚ waiting st' ++ [unflag frame] /\
  (nonempty (first_attempt_queue st ++ long_queue st) ->
   nonempty (first_attempt_queue st' ++ long_queue st')).
Proof.
  intros Hs Hqs.
  destruct st as [fq lq bl n qs tm bk]; unfold served, first_served in Hs; cbn in Hqs, Hs;
    destruct qs; [done|..].
  all: first [destruct fq as [|f fq]; [done|] | destruct lq as [|f lq]; [done|]].
  all: injection Hs as ->; cbn -[unflag]; split_and!; try done; unfold waiting; cbn -[unflag].
  all: eauto with nq.
Qed.

Lemma first_served_sending st : queue_state st <> QS_IDLE ->
  first_served st = bool_decide (queue_state st = QS_SENDING_FIRST).
Proof. unfold first_served. by destruct (queue_state st). Qed.

(** [queue_send_done] in terms of the abstract completion. *)
Lemma send_done_cases E status sent st frame :
  queue_state st <> QS_IDLE -> served st = Some frame -> frame <> [] -> queue_timer st = false ->
  sent = Some frame \/ sent = None /\ status = TRANSMIT_COMPLETE_FAIL ->
  exists o, mailboxed o = to_mailbox (leaves E st status) /\
  queue_send_done E status sent st =
    (match completion E (first_served st) (pool_full E st) status frame with
     | Some _ => pop_sending st <| queue_state := QS_IDLE |>
     | None =>
         if status =? TRANSMIT_COMPLETE_REQUEUE then st <| queue_state := QS_IDLE |>
         else pop_sending (snd (alloc_long E
                (if (status =? TRANSMIT_COMPLETE_NO_ACK)
                    || negb (Z.land (rd_get_node_mode E (node_of E frame)) 0xFF
                             =? MODE_FREQUENTLYLISTENING)
                 then setPacketRequeued frame else frame) st)) <| queue_state := QS_IDLE |>
     end, o).
Proof.
  intros Hqs Hs Hne Htm Hsent. unfold leaves, completion. rewrite Hs, first_served_sending by done.
  assert (st <| queue_timer := false |> = st) as Ht by (destruct st; cbn in *; by subst).
  unfold queue_send_done. rewrite Ht.
  assert (head (match queue_state st with QS_SENDING_FIRST => first_attempt_queue st
                | _ => long_queue st end) = Some frame) as Hhd.
  { unfold served, first_served in Hs. by destruct (queue_state st). }
  destruct (queue_move_to_mailbox E (rd_get_node_mode E (node_of E frame)) frame) as [moved o] eqn:Hm.
  apply mailbox_move in Hm as Hm'. destruct Hm' as [-> Ho].
  unfold alloc_long.
  destruct (queue_state st) eqn:Hq; [done|..]; rewrite Hhd; cbn zeta.
  all: destruct (status =? TRANSMIT_COMPLETE_REQUEUE) eqn:Hr;
    [eexists; split; [|reflexivity]; by destruct (status =? TRANSMIT_COMPLETE_OK)|].
  all: destruct (status =? TRANSMIT_COMPLETE_REQUEUE_QUEUED) eqn:Hrq.
  1,3: apply Z.eqb_eq in Hrq; subst status; destruct Hsent as [->|[_ Hf]]; [|discriminate Hf];
    change (default [] (Some frame)) with frame; rewrite Hm; cbn [orb]; destruct (mailbox_bound E frame), (pool_full E st) eqn:Hp;
    (eexists; split; [|reflexivity]); rewrite mailboxed_ok; exact Ho.
  2: eexists; split; [|reflexivity]; by rewrite mailboxed_ok.
  rewrite bool_decide_true by done. cbn [orb andb].
  destruct Hsent as [->|[-> ->]]; [|eexists; split; [|reflexivity]; done].
  rewrite (bool_decide_true (frame <> [])) by done. rewrite andb_true_r, Hm.
  destruct (status =? TRANSMIT_COMPLETE_NO_ACK); cbn [orb].
  - destruct (mailbox_bound E frame), (pool_full E st) eqn:Hp;
      (eexists; split; [|reflexivity]); by rewrite mailboxed_ok, mailboxed_app, Ho.
  - eexists; split; [|reflexivity]. by rewrite mailboxed_ok.
Qed.

Lemma send_done_spec E status sent st st' o frame :
  queue_state st <> QS_IDLE -> served st = Some frame -> frame <> [] ->
  sent = Some frame \/ sent = None /\ status = TRANSMIT_COMPLETE_FAIL ->
  queue_send_done E status sent st = (st', o) -> completed E status st st' o.
Proof.
  intros Hqs Hs Hne Hsent Hdone.
  set (st1 := st <| queue_timer := false |>).
  assert (served st1 = Some frame /\ queue_state st1 <> QS_IDLE /\ queue_timer st1 = false)
    as (Hs1 & Hqs1 & Htm) by by destruct st.
  assert (completed E status st1 st' o -> completed E status st st' o) as Hback by by destruct st.
  assert (queue_send_done E status sent st1 = (st', o)) as Hd1 by by destruct st.
  apply Hback. clear Hback Hdone Hs Hqs. clearbody st1. clear st.
  destruct (send_done_cases E status sent st1 frame) as (o' & Ho & Heq); try done.
  rewrite Hd1 in Heq. injection Heq as -> ->. unfold completed.
  assert (leaves E st1 status =
    match completion E (first_served st1) (pool_full E st1) status frame with
    | Some ft => [(frame, ft)] | None => [] end) as Hl by (unfold leaves; by rewrite Hs1).
  rewrite Hl in *.
  destruct (completion E (first_served st1) (pool_full E st1) status frame) as [ft|] eqn:Hc.
  - destruct (leave_spec frame st1 Hs1 Hqs1) as (? & ? & ? & ? & ? & ?). by split_and!.
  - destruct (status =? TRANSMIT_COMPLETE_REQUEUE) eqn:Hr.
    { destruct st1; cbn. split_and!; try done. by rewrite app_nil_r. }
    assert (pool_full E st1 = false) as Hp.
    { unfold completion in Hc. rewrite Hr in Hc.
      destruct (pool_full E st1); [|done].
      destruct (_ || _), (mailbox_bound E frame) in Hc; discriminate Hc. }
    match goal with |- context [alloc_long E ?p st1] =>
      destruct (requeue_spec E p frame st1) as (? & ? & ? & ? & Hw & ?); try done end.
    1,2: break_if; eauto with nq.
    rewrite Hp in Hw. by split_and!.
Qed.

(** What one event does to the bag of waiting frames. *)
Definition accounted (E : nq_env) (ev : nq_event) (st st' : nq) (o : list nq_out) : Prop :=
  nq_ok st' /\
  waiting st ++ map unflag (enters E st ev) ≡ₚ waiting st' ++ gone (departs E st ev) /\
  mailboxed o = to_mailbox (departs E st ev).

Lemma waiting_fields st st' :
  first_attempt_queue st' = first_attempt_queue st -> long_queue st' = long_queue st ->
  waiting st' = waiting st.
Proof. unfold waiting. by intros -> ->. Qed.

Lemma nq_ok_idle st : length (black_list_crc32 st) = BLACKLIST_LENGTH ->
  (fingerprint_n st < BLACKLIST_LENGTH)%nat ->
  nonempty (first_attempt_queue st ++ long_queue st) -> queue_state st = QS_IDLE -> nq_ok st.
Proof. intros Hb Hn He Hq. unfold nq_ok. by rewrite Hq. Qed.

(** A completion of a consistent state leaves a consistent state. *)
Lemma completed_ok E status st st' o :
  length (black_list_crc32 st) = BLACKLIST_LENGTH -> (fingerprint_n st < BLACKLIST_LENGTH)%nat ->
  nonempty (first_attempt_queue st ++ long_queue st) -> completed E status st st' o -> nq_ok st'.
Proof.
  intros Hb Hn He (Hq & _ & Hb' & Hn' & _ & _ & He'). apply nq_ok_idle; [congruence..|by apply He'|done].
Qed.

Lemma fingerprint_ok frame st : nq_ok st -> nq_ok (add_fingerprint_uip_buf frame st).
Proof.
  destruct st as [fq lq bl n qs tm bk]. intros (Hb & Hn & He & Hq). cbn in *.
  unfold nq_ok. cbn [add_fingerprint_uip_buf modify]. split_and!; cbn.
  - by rewrite length_insert.
  - destruct n as [|[|n]]; [..|lia]; cbn; unfold BLACKLIST_LENGTH; lia.
  - done.
  - done.
Qed.

Lemma head_app_some {A} (l k : list A) x : head l = Some x -> head (l ++ k) = Some x.
Proof. by destruct l. Qed.

Lemma alloc_first_ok E frame st : frame <> [] -> nq_ok st -> nq_ok (snd (alloc_first E frame st)).
Proof.
  intros Hne Hok. unfold alloc_first. destruct (pool_full E st); [done|].
  destruct st as [fq lq bl n qs tm bk]. destruct Hok as (Hb & Hn & He & Hq). cbn in *.
  unfold nq_ok; cbn. split_and!; [done..| |].
  - rewrite !Forall_app, Forall_singleton in *. tauto.
  - destruct qs; [done| |done]. destruct Hq as (f & Hf & Hk). exists f. by rewrite (head_app_some _ _ f).
Qed.

Lemma alloc_long_ok E frame st : frame <> [] -> nq_ok st -> nq_ok (snd (alloc_long E frame st)).
Proof.
  intros Hne Hok. unfold alloc_long. destruct (pool_full E st); [done|].
  destruct st as [fq lq bl n qs tm bk]. destruct Hok as (Hb & Hn & He & Hq). cbn in *.
  unfold nq_ok; cbn. split_and!; [done..| |].
  - rewrite !Forall_app, Forall_singleton in *. tauto.
  - destruct qs; [done..|]. destruct Hq as (f & Hf & Hk). exists f. by rewrite (head_app_some _ _ f).
Qed.

Lemma alloc_waiting E frame st (b : bool) :
  waiting (snd (if b then alloc_long E frame st else alloc_first E frame st)) ≡ₚ
  waiting st ++ map unflag (if negb (pool_full E st) then [frame] else []).
Proof.
  unfold alloc_long, alloc_first. destruct (pool_full E st); cbn -[waiting unflag].
  - by destruct b; rewrite app_nil_r.
  - destruct b, st as [fq lq bl n qs tm bk]; unfold waiting; cbn -[unflag];
      rewrite !map_app; cbn -[unflag]; solve_Permutation.
Qed.

Lemma input_accounted E frame decrypted st st' o :
  nq_ok st -> ordinary st (EvInput frame decrypted) = true ->
  step E (EvInput frame decrypted) st = (st', o) ->
  accounted E (EvInput frame decrypted) st st' o.
Proof.
  intros Hok Hord. cbn -[node_input_queued UIP_IPH_LEN] in *. unfold node_input_queued.
  assert (frame <> []) as Hne by (intros ->; discriminate Hord).
  unfold accounted, enters, admitted. cbn [departs gone map to_mailbox omap list_omap].
  destruct (_ && negb decrypted); cbn [negb andb]; [intros [= <- <-]; by rewrite !app_nil_r|].
  destruct (_ && (rd frame (UIP_IPUDPH_LEN + 1) =? COMMAND_ZIP_KEEP_ALIVE)); cbn [negb andb].
  { intros [= <- <-]. rewrite !app_nil_r. split_and!; [done..|]. by destruct (has _ _). }
  destruct (check_fingerprint_uip_buf frame st); cbn [negb andb]; [intros [= <- <-]; by rewrite !app_nil_r|].
  set (st1 := add_fingerprint_uip_buf frame st).
  assert (nq_ok st1) as Hok1 by by apply fingerprint_ok.
  assert (waiting st1 = waiting st /\ pool_full E st1 = pool_full E st) as [Hw Hp] by by destruct st.
  clearbody st1. assert ((Zlength frame <=? UIP_IPH_LEN) = false) as ->
    by (apply Z.leb_gt; by apply Z.ltb_lt in Hord).
  pose proof (alloc_waiting E frame st1 (use_long_q E (node_of E frame) st1)) as Ha.
  assert (nq_ok (snd (if use_long_q E (node_of E frame) st1
                      then alloc_long E frame st1 else alloc_first E frame st1))) as Hok2.
  { break_if; [by apply alloc_long_ok|by apply alloc_first_ok]. }
  destruct (if use_long_q E (node_of E frame) st1 then _ else _) as [rc st2].
  intros [= <- <-]. cbn [snd] in *. rewrite Hw, Hp in Ha. split_and!; [done| |done].
  by rewrite app_nil_r, Ha.
Qed.

Lemma served_nonempty st frame :
  nonempty (first_attempt_queue st ++ long_queue st) -> served st = Some frame -> frame <> [].
Proof.
  intros He Hs. apply Forall_app in He as [He1 He2]. unfold served in Hs.
  apply head_Some_elem_of in Hs. destruct (first_served st).
  - by apply (proj1 (Forall_forall _ _) He1).
  - by apply (proj1 (Forall_forall _ _) He2).
Qed.

Lemma done_accounted E status st st' o :
  nq_ok st -> step E (EvSendDone status) st = (st', o) -> accounted E (EvSendDone status) st st' o.
Proof.
  intros Hok. cbn [step]. unfold accounted, enters. cbn [departs map]. rewrite app_nil_r.
  destruct (backup st) as [[frame|]|] eqn:Hbk.
  2,3: intros [= <- <-]; destruct (queue_state st); cbn; by rewrite app_nil_r.
  unfold ClassicZIPNode_CallSendCompleted_cb. intros Hdone.
  destruct (decide (queue_state st = QS_IDLE)) as [Hq|Hq].
  - rewrite Hq. unfold queue_send_done in Hdone. destruct st as [fq lq bl n qs tm bk]. cbn in Hq.
    subst qs. cbn in Hdone. injection Hdone as <- <-. cbn. rewrite app_nil_r. by split_and!.
  - set (st1 := st <| backup := None |>) in *.
    assert (served st1 = Some frame) as Hs.
    { destruct st as [fq lq bl n qs tm bk]. destruct Hok as (_ & _ & _ & Hs). cbn in *.
      subst st1 bk. unfold served, first_served. cbn.
      destruct qs; [done|..]; by destruct Hs as (f & Hf & [= ->]). }
    assert (frame <> []) as Hne.
    { destruct Hok as (_ & _ & He & _). apply (served_nonempty st1); by destruct st. }
    assert (completed E status st1 st' o) as Hc.
    { apply (send_done_spec E status (Some frame) st1 st' o frame); [by destruct st|done|done|by left|done]. }
    replace (match queue_state st with QS_IDLE => [] | _ => leaves E st status end)
      with (leaves E st1 status) by (destruct st as [? ? ? ? [] ? ?]; done).
    split_and!.
    + destruct Hok as (Hb & Hn & He & _). apply (completed_ok E status st1 st' o); by destruct st.
    + destruct Hc as (_ & _ & _ & _ & Hw & _). by destruct st.
    + by destruct Hc as (_ & _ & _ & _ & _ & Hm & _).
Qed.

(** Serving a queue changes nothing else. *)
Definition same_frames (st st1 : nq) : Prop :=
  first_attempt_queue st1 = first_attempt_queue st /\ long_queue st1 = long_queue st /\
  black_list_crc32 st1 = black_list_crc32 st /\ fingerprint_n st1 = fingerprint_n st /\
  backup st1 = backup st.

Lemma select_spec st :
  match select_queue st with
  | (None, st1) => st1 = st /\ (queue_state st <> QS_IDLE \/ served st = None)
  | (Some (q, _, _), st1) =>
      queue_state st = QS_IDLE /\ queue_state st1 <> QS_IDLE /\ same_frames st st1 /\
      first_served st1 = first_served st /\
      exists frame, head q = Some frame /\ served st = Some frame /\ served st1 = Some frame
  end.
Proof.
  destruct st as [[|f fq] [|l lq] bl n [] tm bk]; cbn; unfold same_frames; cbn;
    split_and?; eauto 10; split_and!; try done; eexists; by split_and!.
Qed.

Lemma same_frames_leaves E st st1 s : same_frames st st1 -> first_served st1 = first_served st ->
  leaves E st1 s = leaves E st s.
Proof.
  intros (Hf & Hl & _) Hs. unfold leaves, served, pool_full. by rewrite Hs, Hf, Hl.
Qed.

Lemma completed_same E s st st1 st' o : same_frames st st1 -> first_served st1 = first_served st ->
  completed E s st1 st' o -> completed E s st st' o.
Proof.
  intros Hsame Hs. unfold completed. rewrite (same_frames_leaves E st st1) by done.
  destruct Hsame as (Hf & Hl & Hb & Hn & Hk). unfold waiting. by rewrite Hf, Hl, Hb, Hn, Hk.
Qed.

(** Handing a frame over: either it is answered at once, which is a completion,
    or ClassicZIPNode keeps it. *)
Lemma hand_over_spec E frame reply st st3 o :
  queue_state st <> QS_IDLE -> served st = Some frame -> frame <> [] ->
  (let '(rc, st2, o1) := ClassicZIPNode_input E frame reply st in
   let '(st3, o2) := if rc then (st2, []) else queue_send_done E TRANSMIT_COMPLETE_FAIL None st2 in
   (st3, o1 ++ o2)) = (st3, o) ->
  match immediate E st reply frame with
  | Some s => completed E s st st3 o
  | None => st3 = st <| backup := Some (JobQueue frame) |> /\ backup st = None /\ o = []
  end.
Proof.
  intros Hq Hs Hne. unfold ClassicZIPNode_input, immediate, ClassicZIPNode_CallSendCompleted_cb.
  destruct (nodemask_nodeid_is_invalid (node_of E frame)).
  { destruct (queue_send_done _ _ _ _) as [st2 o1] eqn:Hd. intros [= <- <-]. rewrite app_nil_r.
    by apply (send_done_spec E _ (Some frame) st _ _ frame); [..|left|]. }
  destruct (bool_decide (backup st = None)) eqn:Hbk; cbn [negb].
  2: { destruct (queue_send_done _ _ _ _) as [st2 o1] eqn:Hd. intros [= <- <-]. rewrite app_nil_r.
       by apply (send_done_spec E _ (Some frame) st _ _ frame); [..|left|]. }
  apply bool_decide_eq_true in Hbk.
  assert (forall x, st <| backup := x |> <| backup := None |> = st) as Hback
    by (intros x; destruct st; cbn in *; by subst).
  destruct reply as [|status|]; rewrite ?Hback.
  - destruct (queue_send_done _ _ _ _) as [st2 o1] eqn:Hd. intros [= <- <-].
    by apply (send_done_spec E _ None st _ _ frame); [..|right|].
  - destruct (queue_send_done _ _ _ _) as [st2 o1] eqn:Hd. intros [= <- <-]. rewrite app_nil_r.
    by apply (send_done_spec E _ (Some frame) st _ _ frame); [..|left|].
  - by intros [= <- <-].
Qed.

Lemma process_accounted E reply st st' o :
  nq_ok st -> step E (EvProcess reply) st = (st', o) -> accounted E (EvProcess reply) st st' o.
Proof.
  intros Hok. cbn [step]. unfold accounted, enters, process_node_queues. cbn [departs map].
  rewrite app_nil_r. pose proof (select_spec st) as Hsel.
  destruct (select_queue st) as [[[[q tx] nack]|] st1].
  2: { destruct Hsel as (-> & Hnone). intros [= <- <-].
       replace (match queue_state st with QS_IDLE => _ | _ => _ end) with (@nil (list Z * fate)).
       - cbn. by rewrite app_nil_r.
       - destruct Hnone as [Hq | ->]; by destruct (queue_state st). }
  destruct Hsel as (Hq & Hq1 & Hsame & Hfs & frame & Hhd & Hs & Hs1). rewrite Hq, Hs, Hhd.
  change (default [] (Some frame)) with frame. destruct Hok as (Hb & Hn & He & _).
  assert (frame <> []) as Hne by by apply (served_nonempty st).
  assert ((Zlength frame =? 0) = false) as -> by (apply Z.eqb_neq; destruct frame; [done|unfold Zlength; cbn; lia]).
  cbn zeta.
  pose proof (fun st3 o => hand_over_spec E frame reply st1 st3 o Hq1 Hs1 Hne) as Hover.
  assert (immediate E st1 reply frame = immediate E st reply frame) as Himm.
  { destruct Hsame as (_ & _ & _ & _ & Hk). unfold immediate. by rewrite Hk. }
  rewrite Himm in Hover. clear Himm.
  destruct (ClassicZIPNode_input E frame reply st1) as [[rc st2] o1].
  destruct (if rc then _ else _) as [st3 o2]. intros [= <- <-].
  specialize (Hover st3 (o1 ++ o2) eq_refl).
  assert (forall (x y : bool), mailboxed ((if x then [OAssert] else []) ++ (if y then [OExtendProbe] else []) ++
    [OSend frame tx nack (isPacketRequeued frame)] ++ o1 ++ o2) = mailboxed (o1 ++ o2)) as Hm
    by by intros [] [].
  rewrite Hm. clear Hm.
  destruct (immediate E st reply frame) as [s|].
  - apply (completed_same E s st st1) in Hover; [|done..]. split.
    + by apply (completed_ok E s st st3 (o1 ++ o2)).
    + by destruct Hover as (_ & _ & _ & _ & ? & ? & _).
  - destruct Hover as (-> & Hk & ->). destruct Hsame as (Hf & Hl & Hb1 & Hn1 & _). cbn.
    rewrite app_nil_r. split_and!; [|by apply Permutation_refl', eq_sym, waiting_fields; destruct st1|done].
    unfold nq_ok. destruct st1 as [fq1 lq1 bl1 n1 qs1 tm1 bk1]. cbn in *.
    rewrite Hf, Hl, Hb1, Hn1. split_and!; [done..|]. unfold served, first_served in Hs1. cbn in Hs1.
    destruct qs1; [done|..]; exists frame; split; congruence.
Qed.

Lemma delete_beyond {A} (l : list A) i : (length l <= i)%nat -> delete i l = l.
Proof.
  revert i. induction l as [|x l IH]; intros [|i] Hi; cbn in *; [done..|lia|].
  f_equal. apply IH. lia.
Qed.

Lemma delete_bag {A} (f : A -> list Z) (g : A -> list Z * fate) l i :
  (forall x, unflag (fst (g x)) = f x) ->
  map f l ≡ₚ map f (delete i l) ++ gone (option_list (g <$> l !! i)).
Proof.
  intros Hg. destruct (l !! i) as [x|] eqn:Hx; cbn.
  - rewrite (delete_Permutation l i x Hx) at 1. rewrite Hg. cbn. apply Permutation_cons_append.
  - rewrite app_nil_r. apply lookup_ge_None in Hx. by rewrite delete_beyond.
Qed.

Lemma head_delete {A} (l : list A) i x : head l = Some x -> i <> 0%nat -> head (delete i l) = Some x.
Proof. destruct l, i; try done. Qed.

Lemma nonempty_delete l i : nonempty l -> nonempty (delete i l).
Proof. apply Forall_delete. Qed.

Lemma expire_accounted E q i st st' o :
  nq_ok st -> ordinary st (EvExpire q i) = true ->
  step E (EvExpire q i) st = (st', o) -> accounted E (EvExpire q i) st st' o.
Proof.
  destruct st as [fq lq bl n qs tm bk]. intros (Hb & Hn & He & Hq) Hord. cbn in Hb, Hn, He, Hq.
  apply Forall_app in He as [He1 He2].
  destruct q; intros [= <- <-]; unfold accounted, nq_ok, waiting, enters; cbn -[unflag gone];
    rewrite ?app_nil_r, ?Forall_app; apply negb_true_iff in Hord.
  - split_and!; try done; [by apply nonempty_delete|..].
    + destruct qs; [done| |done]. destruct Hq as (f & Hf & Hk). exists f. split; [|done].
      apply head_delete; [done|]. rewrite bool_decide_true in Hord by done.
      by apply Nat.eqb_neq.
    + rewrite !map_app, (delete_bag unflag (fun p => (p, FExpired)) fq i) by done. solve_Permutation.
    + by destruct (fq !! i).
  - split_and!; try done; [by apply nonempty_delete|..].
    + destruct qs; [done..|]. destruct Hq as (f & Hf & Hk). exists f. split; [|done].
      apply head_delete; [done|]. rewrite bool_decide_true in Hord by done.
      by apply Nat.eqb_neq.
    + rewrite !map_app, (delete_bag unflag (fun p => (p, FExpired)) lq i) by done. solve_Permutation.
    + by destruct (lq !! i).
Qed.

Lemma init_accounted E st st' o :
  nq_ok st -> step E EvInit st = (st', o) -> accounted E EvInit st st' o.
Proof.
  destruct st as [fq lq bl n qs tm bk]. intros (Hb & Hn & _ & _) [= <- <-].
  unfold accounted, waiting. cbn -[unflag]. rewrite app_nil_r. split_and!.
  - by apply nq_ok_idle.
  - unfold gone. by rewrite map_map.
  - induction (fq ++ lq) as [|p l IH]; [done|]. apply IH.
Qed.

(** Every event moves frames as the abstract queue says. *)
Lemma step_accounted E ev st st' o :
  nq_ok st -> ordinary st ev = true -> step E ev st = (st', o) -> accounted E ev st st' o.
Proof.
  intros Hok Hord Hstep. destruct ev as [frame decrypted|reply|status| |q i| | |].
  - by apply input_accounted.
  - by apply process_accounted.
  - by apply done_accounted.
  - unfold accounted, enters. cbn in *. rewrite !app_nil_r.
    destruct (queue_timer st); injection Hstep as <- <-; by destruct st.
  - by apply expire_accounted.
  - unfold accounted, enters. cbn in *. rewrite !app_nil_r. injection Hstep as <- <-.
    destruct Hok as (Hb & Hn & He & Hq).
    destruct st as [fq lq bl n qs tm [bk|]]; [done|]. split_and!; [|done..].
    unfold nq_ok. cbn in *. split_and!; [done..|].
    destruct qs; [done|..]; by destruct Hq as (f & _ & ?).
  - unfold accounted, enters. cbn in *. rewrite !app_nil_r. injection Hstep as <- <-.
    destruct Hok as (Hb & Hn & He & Hq).
    destruct st as [fq lq bl n qs tm [[bk|]|]]; [done| |done]. split_and!; [|done..].
    unfold nq_ok. cbn in *. split_and!; [done..|].
    destruct qs; [done|..]; by destruct Hq as (f & _ & ?).
  - by apply init_accounted.
Qed.

Lemma run_accounted evs st st' o :
  nq_ok st -> ordinary_run evs st = true -> run evs st = (st', o) ->
  nq_ok st' /\
  waiting st ++ map unflag (entered evs st) ≡ₚ waiting st' ++ gone (departed evs st) /\
  mailboxed o = to_mailbox (departed evs st).
Proof.
  revert st st' o. induction evs as [|[E ev] evs IH]; intros st st' o Hok Hord Hrun.
  - injection Hrun as <- <-. cbn. by rewrite !app_nil_r.
  - cbn [ordinary_run run entered departed] in *. apply andb_true_iff in Hord as [Ho1 Ho2].
    destruct (step E ev st) as [st1 o1] eqn:Hstep. cbn [fst] in *.
    destruct (run evs st1) as [st2 o2] eqn:Hr. injection Hrun as <- <-.
    destruct (step_accounted E ev st st1 o1) as (Hok1 & Hw1 & Hm1); [done..|].
    destruct (IH st1 st2 o2) as (Hok2 & Hw2 & Hm2); [done..|].
    split_and!; [done| |by rewrite mailboxed_app, to_mailbox_app, Hm1, Hm2].
    rewrite map_app, gone_app, (Permutation_app_comm (gone (departs _ _ _))), !app_assoc,
      <- Hw2, Hw1. solve_Permutation.
Qed.

Lemma boot_ok : nq_ok nq_boot.
Proof. by apply nq_ok_idle; [..|constructor|]; try (cbn; unfold BLACKLIST_LENGTH; lia). Qed.

(** C31. In every run in which no packet expires while it is transmitted, the frames
    the component admitted are exactly those that left it, each once and with
    one fate, and those that still wait; and the mailbox received exactly the
    frames whose fate is the mailbox, in that order. *)
Theorem nq_accounting evs st o :
  ordinary_run evs nq_boot = true -> run evs nq_boot = (st, o) ->
  map unflag (entered evs nq_boot) ≡ₚ waiting st ++ gone (departed evs nq_boot) /\
  mailboxed o = to_mailbox (departed evs nq_boot).
Proof.
  intros Hord Hrun. by destruct (run_accounted evs nq_boot st o boot_ok Hord Hrun) as (_ & Hw & Hm).
Qed.

(** ** Sample frames and a sample environment *)

Definition sample_prefix : list Z := [0xFD; 0; 0xBB; 0xBB; 0; 0; 0; 1].

(** A Z/IP packet for a node: IPv6 header, UDP header to port 4123, Z/IP header, command. *)
Definition zip_frame (vtc node seq : Z) (command : list Z) : list Z :=
  [vtc; 0; 0; 0; 0; 15 + Zlength command; UIP_PROTO_UDP; 0xFF] ++ replicate 16 0xAA ++
  sample_prefix ++ zeros 6 ++ [node / 256; node mod 256] ++
  [0xC0; 0; 0x10; 0x1B; 0; 15 + Zlength command; 0; 0] ++
  [COMMAND_CLASS_ZIP; COMMAND_ZIP_PACKET; 0x80; 0x40; seq; 0; 0] ++ command.

(** Node 5 sleeps, node 6 is a FLiRS node, the other nodes always listen. *)
Definition sample_env : nq_env :=
  NqEnv sample_prefix 1 (fun _ => false) (fun _ => 0) 0
    (fun node => if node =? 5 then MODE_MAILBOX else if node =? 6 then MODE_FREQUENTLYLISTENING else 2)
    1 0 0.

Definition with_env (evs : list nq_event) : list (nq_env * nq_event) := map (pair sample_env) evs.

Definition frame7 (seq : Z) : list Z := zip_frame 0x60 7 seq [0x20; 0x01; seq].
Definition frame8 (seq : Z) : list Z := zip_frame 0x60 8 seq [0x20; 0x01; seq].
Definition frame5 (seq : Z) : list Z := zip_frame 0x60 5 seq [0x20; 0x01; seq].

(** Two listening nodes and a sleeping one; the short attempt to node 7 gets no
    answer, the frame for node 5 goes to the mailbox. *)
Definition sample_run : list (nq_env * nq_event) :=
  with_env [EvInput (frame8 1) true; EvProcess CzLater; EvInput (frame7 2) true;
            EvInput (frame5 3) true; EvSendDone TRANSMIT_COMPLETE_OK;
            EvProcess CzLater; EvTimer; EvSendDone TRANSMIT_COMPLETE_NO_ACK;
            EvProcess (CzNow TRANSMIT_COMPLETE_NO_ACK); EvProcess CzLater].

Lemma nq_accounting_witness :
  map unflag [frame8 1; frame7 2; frame5 3] ≡ₚ
    [unflag (frame7 2)] ++ gone [(frame8 1, FCompleted 0); (frame5 3, FMailbox)] /\
  mailboxed (snd (run sample_run nq_boot)) = [frame5 3].
Proof.
  apply (nq_accounting sample_run (fst (run sample_run nq_boot))).
  - by vm_compute.
  - by vm_compute.
Defined.

(** ** Order of service *)

Definition sends (o : list nq_out) : list (list Z) :=
  omap (fun x => match x with OSend f _ _ _ => Some f | _ => None end) o.

(** At most the head left the queue, and frames joined only at its end. *)
Definition fifo_step {A} (l l' : list A) : Prop :=
  exists k added, (k <= 1)%nat /\ l' = drop k l ++ added.

Lemma fifo_refl {A} (l : list A) : fifo_step l l.
Proof. exists 0%nat, []. split; [lia|]. by rewrite app_nil_r. Qed.

Lemma fifo_snoc {A} (l : list A) x : fifo_step l (l ++ [x]).
Proof. exists 0%nat, [x]. split; [lia|done]. Qed.

Lemma fifo_tail {A} (l : list A) : fifo_step l (tail l).
Proof. exists 1%nat, []. split; [lia|]. rewrite app_nil_r. by destruct l. Qed.

Lemma fifo_snoc_tail {A} (l : list A) x : fifo_step l (tail (l ++ [x])).
Proof.
  destruct l as [|y l]; [exists 0%nat, []; by split; [lia|]|].
  exists 1%nat, [x]. by split; [lia|].
Qed.

#[local] Hint Resolve fifo_refl fifo_snoc fifo_tail fifo_snoc_tail : nq.

Definition fifo (st st' : nq) : Prop :=
  fifo_step (first_attempt_queue st) (first_attempt_queue st') /\
  fifo_step (long_queue st) (long_queue st').

Lemma sends_app o o' : sends (o ++ o') = sends o ++ sends o'.
Proof. apply omap_app. Qed.

Lemma sends_send f t n r o : sends (OSend f t n r :: o) = f :: sends o.
Proof. done. Qed.

Lemma pop_fifo E p st (b : bool) s : fifo st (pop_sending (if b then st else snd (alloc_long E p st)) <| queue_state := s |>).
Proof.
  unfold alloc_long, fifo. destruct b; [|destruct (pool_full E st)];
    destruct st as [fq lq bl n [] tm bk]; cbn; auto with nq.
Qed.

Lemma pop_fifo_here st s : fifo st (pop_sending st <| queue_state := s |>).
Proof. destruct st as [fq lq bl n [] tm bk]; split; cbn; auto with nq. Qed.

Lemma move_sends E m f b o : queue_move_to_mailbox E m f = (b, o) -> sends o = [].
Proof. unfold queue_move_to_mailbox. break_if; by intros [= <- <-]. Qed.

Lemma send_done_order E status sent st st' o :
  queue_send_done E status sent st = (st', o) ->
  fifo st st' /\ sends o = [] /\ queue_state st' = QS_IDLE.
Proof.
  unfold queue_send_done. set (st1 := st <| queue_timer := false |>).
  assert (forall s, fifo st1 s -> fifo st s) as Hback by by destruct st.
  clearbody st1. intros Hdone.
  cut (fifo st1 st' /\ sends o = [] /\ queue_state st' = QS_IDLE);
    [intros (? & ? & ?); split_and!; auto|]. clear Hback.
  destruct (queue_state st1) eqn:Hq; [injection Hdone as <- <-; split_and!; try done; split; auto with nq|..].
  all: destruct (head _) as [data|]; [|injection Hdone as <- <-; destruct st1; split_and!; try done; split; cbn; auto with nq].
  all: destruct (status =? TRANSMIT_COMPLETE_REQUEUE);
    [injection Hdone as <- <-; split_and!; [destruct st1; split; cbn; auto with nq|by break_if|by destruct st1]|].
  all: destruct (status =? TRANSMIT_COMPLETE_REQUEUE_QUEUED).
  1,3: destruct (queue_move_to_mailbox _ _ _) as [moved o1] eqn:Hm; apply move_sends in Hm;
       injection Hdone as <- <-; split_and!;
       [apply pop_fifo|rewrite sends_app, Hm, app_nil_r; by break_if|by destruct (pop_sending _)].
  2: injection Hdone as <- <-; split_and!;
       [apply pop_fifo_here|by break_if|by destruct (pop_sending _)].
  destruct sent as [sent|]; [destruct (_ && _)|].
  1: destruct (queue_move_to_mailbox _ _ _) as [moved o1] eqn:Hm; apply move_sends in Hm.
  all: injection Hdone as <- <-; split_and!;
       [apply pop_fifo || apply pop_fifo_here
       |rewrite !sends_app, ?Hm; by break_if|by destruct (pop_sending _)].
Qed.

Lemma cz_input_order E frame reply st rc st' o :
  ClassicZIPNode_input E frame reply st = (rc, st', o) -> fifo st st' /\ sends o = [].
Proof.
  unfold ClassicZIPNode_input, ClassicZIPNode_CallSendCompleted_cb.
  destruct (nodemask_nodeid_is_invalid _); [|destruct (negb _)].
  1,2: destruct (queue_send_done _ _ _ _) as [st2 o2] eqn:Hd; apply send_done_order in Hd as (? & ? & _);
    by intros [= <- <- <-].
  destruct reply as [|status|].
  - intros [= <- <- <-]. destruct st; split; [split; cbn; auto with nq|done].
  - destruct (queue_send_done _ _ _ _) as [st2 o2] eqn:Hd; apply send_done_order in Hd as (Hf & ? & _).
    intros [= <- <- <-]. by destruct st.
  - intros [= <- <- <-]. destruct st; split; [split; cbn; auto with nq|done].
Qed.

(** The effect of serving on the queues and what is handed over. *)
Lemma process_order E reply st st' o : nonempty (first_attempt_queue st ++ long_queue st) ->
  process_node_queues E reply st = (st', o) ->
  sends o = (if bool_decide (queue_state st = QS_IDLE)
             then option_list (head (first_attempt_queue st ++ long_queue st)) else []).
Proof.
  intros He. unfold process_node_queues.
  pose proof (select_spec st) as Hsel. destruct (select_queue st) as [[[[q tx] nack]|] st1].
  2: { destruct Hsel as (-> & Hnone). intros [= <- <-]. destruct Hnone as [Hq|Hs].
       - by rewrite bool_decide_false by done.
       - unfold served, first_served in Hs. destruct st as [[|? ?] [|? ?] bl n [] tm bk]; done. }
  destruct Hsel as (Hq & Hq1 & Hsame & Hfs & frame & Hhd & Hs & Hs1). rewrite Hhd.
  change (default [] (Some frame)) with frame.
  assert (frame <> []) as Hne by by apply (served_nonempty st).
  assert ((Zlength frame =? 0) = false) as ->
    by (apply Z.eqb_neq; destruct frame; [done|unfold Zlength; cbn; lia]).
  cbn zeta. destruct (ClassicZIPNode_input E frame reply st1) as [[rc st2] o1] eqn:Hcz.
  apply cz_input_order in Hcz as [_ Hs2].
  assert (head (first_attempt_queue st ++ long_queue st) = Some frame) as Hhd2.
  { unfold served, first_served in Hs. rewrite Hq in Hs. by destruct (first_attempt_queue st). }
  rewrite Hhd2, bool_decide_true by done.
  destruct rc; [|destruct (queue_send_done _ _ _ _) as [st3 o2] eqn:Hd; apply send_done_order in Hd as (_ & Hs3 & _)];
    intros [= <- <-]; 
    rewrite !sends_app, (sends_send frame), sends_app, Hs2, ?Hs3; by repeat break_if.
Qed.

(** In every state a run reaches: while a queue is served, ClassicZIPNode holds
    exactly the frame at its head; an idle component hands over the oldest
    frame of the first attempts, or of the long queue when there are none; a
    busy one hands over nothing; and a completion, whatever its status, leaves
    the component idle and takes at most the head of each queue. *)
Theorem nq_serving evs st o :
  ordinary_run evs nq_boot = true -> run evs nq_boot = (st, o) ->
  (queue_state st <> QS_IDLE ->
   exists frame, served st = Some frame /\ backup st = Some (JobQueue frame)) /\
  (forall E reply st' o', process_node_queues E reply st = (st', o') ->
   sends o' = (if bool_decide (queue_state st = QS_IDLE)
               then option_list (head (first_attempt_queue st ++ long_queue st)) else [])) /\
  (forall E status frame st' o', backup st = Some (JobQueue frame) ->
   ClassicZIPNode_CallSendCompleted_cb E status frame st = (st', o') ->
   queue_state st' = QS_IDLE /\ backup st' = None /\ fifo st st').
Proof.
  intros Hord Hrun. destruct (run_accounted evs nq_boot st o boot_ok Hord Hrun) as (Hok & _ & _).
  destruct Hok as (Hb & Hn & He & Hq). split_and!.
  - unfold served, first_served. by destruct (queue_state st).
  - intros E reply st' o'. by apply process_order.
  - intros E status frame st' o' Hk Hd. unfold ClassicZIPNode_CallSendCompleted_cb in Hd.
    apply send_done_order in Hd as Hd'. destruct Hd' as (Hf & _ & Hi).
    split_and!; [done| |by destruct st].
    destruct (decide (queue_state st = QS_IDLE)) as [Hqi|Hqi].
    { destruct st. cbn in Hqi. subst. by injection Hd as <- <-. }
    assert (served st = Some frame) as Hs.
    { unfold served, first_served. destruct (queue_state st); [done|..];
        destruct Hq as (f & Hf' & Hk'); congruence. }
    apply (send_done_spec E _ _ _ _ _ frame) in Hd as (_ & Hbk & _);
      [by destruct st|by destruct st|by destruct st|by apply (served_nonempty st)|by left].
Qed.

Lemma nq_serving_witness :
  sends (snd (process_node_queues sample_env CzLater (fst (run (take 3 sample_run) nq_boot)))) = [] /\
  sends (snd (process_node_queues sample_env CzLater (fst (run (take 5 sample_run) nq_boot)))) = [frame7 2].
Proof.
  split.
  - destruct (nq_serving (take 3 sample_run) (fst (run (take 3 sample_run) nq_boot))
                (snd (run (take 3 sample_run) nq_boot))) as (_ & H & _).
    + by vm_compute.
    + by vm_compute.
    + by apply (H sample_env CzLater _ _ (surjective_pairing _)).
  - destruct (nq_serving (take 5 sample_run) (fst (run (take 5 sample_run) nq_boot))
                (snd (run (take 5 sample_run) nq_boot))) as (_ & H & _).
    + by vm_compute.
    + by vm_compute.
    + etrans; [apply (H sample_env CzLater _ _ (surjective_pairing _))|]. by vm_compute.
Defined.

(** ** The re-queued flag and the mailbox

    The comment before isPacketRequeued claims invariants of the flag; they are
    proved for inputs whose traffic class leaves bit 0 of the first byte clear. *)

Lemma rd_requeued f i : 0 < i -> rd (setPacketRequeued f) i = rd f i.
Proof. intros Hi. unfold rd, setPacketRequeued, wr. rewrite list_lookup_insert_ne; [done|lia]. Qed.

Lemma destipaddr_requeued f : destipaddr (setPacketRequeued f) = destipaddr f.
Proof. unfold destipaddr, sub_buf, setPacketRequeued, wr. by rewrite drop_insert_lt by lia. Qed.

Lemma mailbox_bound_requeued E f : 0 <= uip_ext_len E -> bytes f ->
  mailbox_bound E (setPacketRequeued f) = mailbox_bound E f.
Proof.
  intros He Hb. unfold mailbox_bound, node_of. rewrite destipaddr_requeued. f_equal. f_equal.
  unfold is_wu_no_more_info_frame, is_zip_pkt, udp_destport, UIP_IPH_LEN, UIP_IPUDPH_LEN.
  rewrite (rd_requeued f (48 + 3)), (rd_requeued f (48 + 7)) by lia.
  pose proof (rd_byte f (48 + 7) Hb) as Hr. unfold byte in Hr.
  destruct (has _ _); by rewrite !(rd_requeued f) by lia.
Qed.

Lemma bytes_requeued f : bytes f -> bytes (setPacketRequeued f).
Proof.
  intros Hb. apply Forall_insert; [done|]. apply (lor_bound 8); [lia| |lia]. by apply rd_byte.
Qed.

(** What is known of the frames in the queues. *)
Definition flag_inv (E : nq_env) (st : nq) : Prop :=
  Forall bytes (first_attempt_queue st ++ long_queue st) /\
  Forall (fun p => isPacketRequeued p = false) (first_attempt_queue st) /\
  Forall (fun p => mailbox_bound E p = false) (long_queue st).

Lemma Forall_tail {A} (P : A -> Prop) l : Forall P l -> Forall P (tail l).
Proof. by destruct 1. Qed.

Lemma pop_flag E st s : flag_inv E st -> flag_inv E (pop_sending st <| queue_state := s |>).
Proof.
  destruct st as [fq lq bl n qs tm bk]. intros (Hb & Hf & Hl). apply Forall_app in Hb as [Hb1 Hb2].
  destruct qs; split_and!; cbn in *; try done; try by apply Forall_tail.
  all: apply Forall_app; split; try done; by apply Forall_tail.
Qed.

Lemma alloc_long_flag E p st : bytes p -> mailbox_bound E p = false -> flag_inv E st ->
  flag_inv E (snd (alloc_long E p st)).
Proof.
  intros Hp Hm (Hb & Hf & Hl). unfold alloc_long. destruct (pool_full E st); [done|].
  destruct st as [fq lq bl n qs tm bk]. unfold flag_inv; cbn in *.
  rewrite !Forall_app, !Forall_singleton in *. tauto.
Qed.

Lemma completion_none E first full status f :
  completion E first full status f = None -> status <> TRANSMIT_COMPLETE_REQUEUE ->
  mailbox_bound E f = false.
Proof.
  unfold completion. intros Hc Hr. apply Z.eqb_neq in Hr. rewrite Hr in Hc.
  destruct (_ || _); [|done]. by destruct (mailbox_bound E f).
Qed.

Lemma send_done_flag E status sent st st' o frame :
  0 <= uip_ext_len E -> queue_state st <> QS_IDLE -> served st = Some frame ->
  frame <> [] -> bytes frame ->
  sent = Some frame \/ sent = None /\ status = TRANSMIT_COMPLETE_FAIL ->
  queue_send_done E status sent st = (st', o) -> flag_inv E st -> flag_inv E st'.
Proof.
  intros He Hqs Hs Hne Hb Hsent Hd Hi. set (st1 := st <| queue_timer := false |>).
  assert (served st1 = Some frame /\ queue_state st1 <> QS_IDLE /\ queue_timer st1 = false
          /\ flag_inv E st1) as (Hs1 & Hq1 & Ht1 & Hi1) by by destruct st.
  assert (queue_send_done E status sent st1 = (st', o)) as Hd1 by by destruct st.
  clearbody st1. clear st Hd Hi Hs Hqs.
  destruct (send_done_cases E status sent st1 frame) as (o' & _ & Heq); [done..|].
  rewrite Hd1 in Heq. injection Heq as -> ->.
  destruct (completion _ _ _ _ _) eqn:Hc; [by apply pop_flag|].
  destruct (status =? TRANSMIT_COMPLETE_REQUEUE) eqn:Hr; [by destruct st1|].
  apply Z.eqb_neq in Hr. apply completion_none in Hc; [|done].
  apply pop_flag, alloc_long_flag; [..|done].
  - break_if; [by apply bytes_requeued|done].
  - break_if; [by rewrite mailbox_bound_requeued|done].
Qed.

Lemma served_bytes st frame :
  Forall bytes (first_attempt_queue st ++ long_queue st) -> served st = Some frame -> bytes frame.
Proof.
  intros He Hs. apply Forall_app in He as [He1 He2]. unfold served in Hs.
  apply head_Some_elem_of in Hs. destruct (first_served st).
  - by apply (proj1 (Forall_forall _ _) He1).
  - by apply (proj1 (Forall_forall _ _) He2).
Qed.

Lemma hand_over_flag E frame reply st st3 o :
  0 <= uip_ext_len E -> queue_state st <> QS_IDLE -> served st = Some frame ->
  frame <> [] -> bytes frame -> flag_inv E st ->
  (let '(rc, st2, o1) := ClassicZIPNode_input E frame reply st in
   let '(st3, o2) := if rc then (st2, []) else queue_send_done E TRANSMIT_COMPLETE_FAIL None st2 in
   (st3, o1 ++ o2)) = (st3, o) ->
  flag_inv E st3.
Proof.
  intros He Hq Hs Hne Hb Hi. unfold ClassicZIPNode_input, ClassicZIPNode_CallSendCompleted_cb.
  destruct (nodemask_nodeid_is_invalid (node_of E frame)); [|destruct (negb _)].
  1,2: destruct (queue_send_done _ _ _ _) as [st2 o1] eqn:Hd; intros [= <- _];
    by eapply (send_done_flag E _ (Some frame) st); eauto.
  destruct reply as [|status|].
  - destruct (queue_send_done _ _ _ _) as [st2 o1] eqn:Hd. intros [= <- _].
    eapply (send_done_flag E _ None _ _ _ frame) in Hd; try done; [by destruct st..|by right].
  - destruct (queue_send_done _ _ _ _) as [st2 o1] eqn:Hd. intros [= <- _].
    eapply (send_done_flag E _ (Some frame) _ _ _ frame) in Hd; try done; [by destruct st..|by left].
  - intros [= <- _]. by destruct st.
Qed.

Lemma process_flag E reply st st' o : 0 <= uip_ext_len E -> nq_ok st -> flag_inv E st ->
  process_node_queues E reply st = (st', o) -> flag_inv E st'.
Proof.
  intros He Hok Hi. unfold process_node_queues. pose proof (select_spec st) as Hsel.
  destruct (select_queue st) as [[[[q tx] nack]|] st1]; [|destruct Hsel as [-> _]; by intros [= <- _]].
  destruct Hsel as (_ & Hq1 & Hsame & _ & frame & Hhd & Hs & Hs1). rewrite Hhd.
  change (default [] (Some frame)) with frame. destruct Hok as (_ & _ & Hn & _).
  assert (flag_inv E st1) as Hi1.
  { destruct Hsame as (Hf & Hl & _). unfold flag_inv. by rewrite Hf, Hl. }
  assert (frame <> []) as Hne by by apply (served_nonempty st).
  assert (bytes frame) as Hb by (destruct Hi as (Hb & _); by apply (served_bytes st)).
  destruct (Zlength frame =? 0); [intros [= <- _]; by apply pop_flag|].
  pose proof (fun st3 o => hand_over_flag E frame reply st1 st3 o He Hq1 Hs1 Hne Hb Hi1) as Hover.
  destruct (ClassicZIPNode_input E frame reply st1) as [[rc st2] o1].
  destruct (if rc then _ else _) as [st3 o2]. intros [= <- _]. by apply (Hover st3 (o1 ++ o2)).
Qed.

(** The frames that may come from the LAN. *)
Definition plain_input (ev : nq_event) : Prop :=
  match ev with EvInput frame _ => bytes frame /\ isPacketRequeued frame = false | _ => True end.

Lemma input_flag E frame decrypted st : 0 <= uip_ext_len E -> plain_input (EvInput frame decrypted) ->
  flag_inv E st -> flag_inv E (fst (step E (EvInput frame decrypted) st)).
Proof.
  intros He [Hb Hf] Hi. cbn [step]. unfold node_input_queued.
  repeat (break_if; [done|]). set (st1 := add_fingerprint_uip_buf frame st).
  assert (flag_inv E st1) as (Hb1 & Hf1 & Hl1) by by destruct st. clearbody st1.
  destruct (use_long_q E (node_of E frame) st1) eqn:Hlong.
  - pose proof (alloc_long_flag E frame st1 Hb) as Ha.
    destruct (alloc_long E frame st1) as [rc st2]. cbn in *. apply Ha; [|done].
    unfold use_long_q in Hlong. apply andb_true_iff in Hlong as [Hlong _]. unfold mailbox_bound.
    apply orb_true_iff in Hlong as [-> | Hm]; [done|]. apply negb_true_iff in Hm. rewrite Hm.
    by rewrite andb_false_r.
  - unfold alloc_first. destruct (pool_full E st1); [done|]. destruct st1. unfold flag_inv; cbn in *.
    rewrite !Forall_app, !Forall_singleton in *. tauto.
Qed.

Lemma step_flag E ev st : 0 <= uip_ext_len E -> nq_ok st -> plain_input ev -> flag_inv E st ->
  flag_inv E (fst (step E ev st)).
Proof.
  intros He Hok Hp Hi. destruct ev as [frame decrypted|reply|status| |[] i| | |].
  - by apply input_flag.
  - cbn [step]. destruct (process_node_queues E reply st) as [st' o] eqn:H. by eapply process_flag.
  - cbn [step]. destruct (backup st) as [[frame|]|] eqn:Hk; [|done..].
    unfold ClassicZIPNode_CallSendCompleted_cb.
    destruct (queue_send_done _ _ _ _) as [st' o] eqn:Hd.
    destruct (decide (queue_state st = QS_IDLE)) as [Hq|Hq].
    { destruct st. cbn in Hq. subst. by injection Hd as <- <-. }
    assert (served st = Some frame) as Hs.
    { destruct Hok as (_ & _ & _ & Hs). unfold served, first_served.
      destruct (queue_state st); [done|..]; destruct Hs as (f & ? & ?); congruence. }
    assert (frame <> []) by (destruct Hok as (_ & _ & ? & _); by apply (served_nonempty st)).
    assert (bytes frame) by (destruct Hi as (? & _); by apply (served_bytes st)).
    eapply (send_done_flag E _ (Some frame) _ _ _ frame) in Hd; try done; [by destruct st..|by left].
  - cbn. destruct (queue_timer st); [by destruct st|done].
  - destruct Hi as (Hb & Hf & Hl). destruct st. cbn in *. unfold flag_inv; cbn.
    rewrite !Forall_app in *. destruct Hb. split_and!; by try apply Forall_delete.
  - destruct Hi as (Hb & Hf & Hl). destruct st. cbn in *. unfold flag_inv; cbn.
    rewrite !Forall_app in *. destruct Hb. split_and!; by try apply Forall_delete.
  - by destruct st as [? ? ? ? ? ? [[]|]].
  - by destruct st as [? ? ? ? ? ? [[]|]].
  - destruct st. cbn. split_and!; by constructor.
Qed.

Lemma run_flag E evs st : 0 <= uip_ext_len E -> nq_ok st -> Forall plain_input evs ->
  ordinary_run (map (pair E) evs) st = true -> flag_inv E st ->
  flag_inv E (fst (run (map (pair E) evs) st)).
Proof.
  intros He. revert st. induction evs as [|ev evs IH]; intros st Hok Hp Hord Hi; [done|].
  apply Forall_cons in Hp as [Hp Hps]. cbn [map ordinary_run run] in *.
  apply andb_true_iff in Hord as [Ho1 Ho2].
  pose proof (step_flag E ev st He Hok Hp Hi) as Hi1.
  destruct (step E ev st) as [st1 o1] eqn:Hstep. cbn [fst] in *.
  destruct (step_accounted E ev st st1 o1) as (Hok1 & _); [done..|].
  specialize (IH st1 Hok1 Hps Ho2 Hi1). by destruct (run _ st1).
Qed.

(** As long as the resource directory and the configuration do not change, and
    no frame arrives with bit 0 of its first byte set: no frame of the first
    attempt queue has the re-queued flag, and no frame of the long queue is one
    that belongs into the mailbox. *)
Theorem nq_requeue_flag E evs st o :
  0 <= uip_ext_len E -> Forall plain_input evs ->
  ordinary_run (map (pair E) evs) nq_boot = true -> run (map (pair E) evs) nq_boot = (st, o) ->
  Forall (fun p => isPacketRequeued p = false) (first_attempt_queue st) /\
  Forall (fun p => mailbox_bound E p = false) (long_queue st).
Proof.
  intros He Hp Hord Hrun. pose proof (run_flag E evs nq_boot He boot_ok Hp Hord) as H.
  rewrite Hrun in H. destruct H as (_ & ? & ?); [split_and!; by constructor|done].
Qed.

Definition plain_inputb (ev : nq_event) : bool :=
  match ev with
  | EvInput frame _ =>
      forallb (fun b => (0 <=? b) && (b <? 256)) frame && negb (isPacketRequeued frame)
  | _ => true
  end.

Lemma plain_inputs evs : forallb plain_inputb evs = true -> Forall plain_input evs.
Proof.
  intros H. apply Forall_forall. intros ev Hin. apply list_elem_of_In in Hin.
  rewrite forallb_forall in H. specialize (H ev Hin). destruct ev; try done.
  apply andb_true_iff in H as [Hb Hf]. apply negb_true_iff in Hf. split; [|done].
  apply Forall_forall. intros b Hb'. apply list_elem_of_In in Hb'.
  rewrite forallb_forall in Hb. specialize (Hb b Hb'). unfold byte. lia.
Qed.

Lemma nq_requeue_flag_witness :
  long_queue (fst (run sample_run nq_boot)) = [setPacketRequeued (frame7 2)] /\
  mailbox_bound sample_env (setPacketRequeued (frame7 2)) = false.
Proof.
  assert (long_queue (fst (run sample_run nq_boot)) = [setPacketRequeued (frame7 2)]) as Hl
    by (vm_compute; reflexivity).
  split; [exact Hl|].
  destruct (nq_requeue_flag sample_env (map snd sample_run) (fst (run sample_run nq_boot))
              (snd (run sample_run nq_boot))) as [_ H].
  - by vm_compute.
  - apply plain_inputs. vm_compute. reflexivity.
  - by vm_compute.
  - by vm_compute.
  - rewrite Hl in H. by apply Forall_cons in H as [H _].
Defined.

(** ** Where the code departs from its documentation *)

(** A frame whose traffic class sets bit 0 of the first byte (here expedited
    forwarding) counts as re-queued on its first attempt. *)
Theorem nq_flag_from_traffic_class :
  let frame := zip_frame 0x6B 7 1 [0x20; 0x01; 0xFF] in
  let '(st, o) := run (with_env [EvInput (frame8 1) true; EvInput frame true]) nq_boot in
  first_attempt_queue st = [frame] /\ isPacketRequeued frame = true /\
  In (OSend frame TRANSMIT_OPTION_ACK false true) (snd (process_node_queues sample_env CzLater st)).
Proof. vm_compute. split_and!; [done..|by left]. Qed.

(** The duplicate check compares a CRC-32 cut to 16 bits with full CRC-32s: it
    never recognises a frame with a CRC-32 of 2^16 or more, so such a frame sent
    twice in a row is queued twice; and whatever it does call a duplicate has a
    stored fingerprint below 2^16. *)
Theorem nq_duplicate_check frame st :
  let st1 := add_fingerprint_uip_buf frame st in
  nq_ok st -> 0 <= fingerprint frame ->
  fingerprint frame ∈ black_list_crc32 st1 /\
  (Forall (fun b => 65536 <= b) (black_list_crc32 st1) -> check_fingerprint_uip_buf frame st1 = false) /\
  (forall f, check_fingerprint_uip_buf f st1 = true ->
     exists b, b ∈ black_list_crc32 st1 /\ b < 65536 /\ u16 (fingerprint f) = b).
Proof.
  intros st1 Hok Hf. destruct (fingerprint_ok frame st Hok) as (Hlen & _).
  destruct Hok as (Hb & Hn & _).
  assert (forall f, check_fingerprint_uip_buf f st1 = true ->
     exists b, b ∈ black_list_crc32 st1 /\ b < 65536 /\ u16 (fingerprint f) = b) as Hfind.
  { intros f Hc. apply existsb_exists in Hc as (b & Hin & He). apply Z.eqb_eq in He.
    exists b. pose proof (u16_word (fingerprint f)) as Hw. unfold word16 in Hw.
    split_and!; [by apply list_elem_of_In|lia|done]. }
  split_and!; [|intros Hall|done].
  - destruct st as [fq lq bl n qs tm bk]. subst st1. cbn in *.
    apply list_elem_of_lookup. exists n. apply list_lookup_insert_eq. lia.
  - destruct (check_fingerprint_uip_buf frame st1) eqn:Hc; [|done].
    destruct (Hfind frame Hc) as (b & Hin & Hlt & _).
    rewrite Forall_forall in Hall. specialize (Hall b Hin). lia.
Qed.

Lemma nq_duplicate_check_witness :
  let st1 := add_fingerprint_uip_buf (frame7 2) (add_fingerprint_uip_buf (frame7 1) nq_boot) in
  check_fingerprint_uip_buf (frame7 2) st1 = false /\
  waiting (fst (run (with_env [EvInput (frame7 1) true; EvInput (frame7 2) true;
                               EvInput (frame7 2) true]) nq_boot)) =
  [frame7 1; frame7 2; frame7 2].
Proof.
  intros st1. split; [|by vm_compute].
  apply (nq_duplicate_check (frame7 2) (add_fingerprint_uip_buf (frame7 1) nq_boot)).
  - apply fingerprint_ok, boot_ok.
  - by vm_compute.
  - repeat (apply List.Forall_cons; [by vm_compute|]). apply List.Forall_nil.
Defined.

(** node_queue.h requires that a frame whose transmission was aborted is the
    next one sent to its destination.  Two frames for one node that both wait
    for a first attempt overtake each other: the second is delivered before the
    first, which has gone to the long queue. *)
Theorem nq_reordering :
  let evs := with_env [EvInput (frame8 1) true; EvInput (frame7 1) true; EvInput (frame7 2) true;
                       EvProcess CzLater; EvTimer; EvSendDone TRANSMIT_COMPLETE_NO_ACK;
                       EvProcess (CzNow TRANSMIT_COMPLETE_OK)] in
  entered evs nq_boot = [frame8 1; frame7 1; frame7 2] /\
  departed evs nq_boot = [(frame7 2, FCompleted TRANSMIT_COMPLETE_OK)] /\
  long_queue (fst (run evs nq_boot)) = [frame8 1; setPacketRequeued (frame7 1)].
Proof. by vm_compute. Qed.

(** A packet whose lifetime ends while it is transmitted: the completion takes
    the next packet of the queue for the transmitted one and removes it, so a
    frame that was never sent leaves the queue, and with no next packet the
    assertion in queue_send_done fails. *)
Theorem nq_expiry_loses_next :
  let evs := [EvInput (frame8 1) true; EvProcess CzLater; EvInput (frame8 2) true;
              EvExpire QLong 0; EvSendDone TRANSMIT_COMPLETE_OK] in
  let '(st, o) := run (with_env evs) nq_boot in
  sends o = [frame8 1] /\ waiting st = [] /\
  In OAssert (snd (run (with_env [EvInput (frame8 1) true; EvProcess CzLater; EvExpire QLong 0;
                                  EvSendDone TRANSMIT_COMPLETE_OK]) nq_boot)).
Proof. vm_compute. split_and!; [done..|]. do 2 right. by left. Qed.

(** The same with a completion that asks for another attempt: the packet that
    expired waits again and the next one is gone without having been sent. *)
Theorem nq_expiry_swaps_frames :
  let evs := with_env [EvInput (frame8 1) true; EvProcess CzLater; EvInput (frame8 2) true;
                       EvExpire QLong 0; EvSendDone TRANSMIT_COMPLETE_REQUEUE_QUEUED] in
  let '(st, o) := run evs nq_boot in
  entered evs nq_boot = [frame8 1; frame8 2] /\ departed evs nq_boot = [(frame8 1, FExpired)] /\
  sends o = [frame8 1] /\ waiting st = [unflag (frame8 1)].
Proof. by vm_compute. Qed.
