(* ===== verification/Mailbox.v ===== *)
(** * The mailbox: frames kept for sleeping nodes

    Models src/src/Mailbox.c.  Frames for a sleeping node wait in [mb_list] until
    the node wakes up; then they are handed to ClassicZIPNode one at a time, in
    order, and the node is sent back to sleep.  The state machine is driven by
    the wake-up of a node, the completions of the transmissions, timers, and the
    Mailbox commands of a proxy.

    The entries live in a static pool of [MAX_MAILBOX_ENTRIES] slots ([mb_mem]);
    a pointer to an entry is the index of its slot, and [mb_list] is the list of
    the slots in use.  A freed slot keeps its contents and has no successor, as
    list_remove leaves it, so a pointer that outlives its entry behaves in the
    model as it does in the program.

    The state machine calls itself, directly and through the completion of a
    transmission that is answered at once; [mb_state_transition] is defined with
    fuel for the depth of these calls. *)

From S2P Require Import Prelude Crc32 Nodemask NodeQueue.
#[local] Open Scope Z_scope.

(** ** Data *)

Definition MAX_MAILBOX_ENTRIES : nat := 2000.
Definition PING_TIMEOUT_SEC : Z := 600.
Definition ENABLE_MAILBOX_SERVICE : Z := 1.
Definition ENABLE_MAILBOX_PROXY_FORWARDING : Z := 2.
Definition ZIP_PACKET_FLAGS1_MORE_INFORMATION : Z := 0x20.
Definition ZIP_HEADER_SIZE : Z := 7.
Definition UIP_PROTO_ICMP6 : Z := 58.
Definition ICMP6_ECHO_REQUEST : Z := 128.
Definition COMMAND_CLASS_MAILBOX : Z := 0x69.
Definition MAILBOX_QUEUE : Z := 0x04.

Inductive mailbox_queue_mode_t :=
  MAILBOX_PUSH | MAILBOX_POP | MAILBOX_WAITING | MAILBOX_PING | MAILBOX_ACK | MAILBOX_NAK
| MAILBOX_QUEUE_FULL.

Definition mode_code (m : mailbox_queue_mode_t) : Z :=
  match m with
  | MAILBOX_PUSH => 0 | MAILBOX_POP => 1 | MAILBOX_WAITING => 2 | MAILBOX_PING => 3
  | MAILBOX_ACK => 4 | MAILBOX_NAK => 5 | MAILBOX_QUEUE_FULL => 6
  end.

Definition MAILBOX_POP_LAST_BIT : Z := 0x8.

Inductive mb_state_e :=
| MB_STATE_IDLE
| MB_STATE_PROBE_WAKEUP_INTERVAL
| MB_STATE_SENDING
| MB_STATE_SENDING_THROUGH_PROXY
| MB_STATE_SENDING_FROM_PROXY
| MB_STATE_SENDING_LAST_FORM_PROXY
| MB_STATE_SEND_NO_MORE_INFO
| MB_STATE_SEND_NO_MORE_INFO_DELAYED
| MB_STATE_SENDING_PING
| MB_STATE_PING_ZIPCLIENTS.

#[export] Instance mb_state_e_eq_dec : EqDecision mb_state_e.
Proof. solve_decision. Defined.

Inductive mb_event_t :=
| MB_EVENT_SEND_DONE
| MB_EVENT_WAKEUP
| MB_EVENT_POP
| MB_EVENT_POPLAST
| MB_EVENT_TIMEOUT
| MB_EVNET_PING_REQ
| MB_EVNET_TIME_TO_PING
| MB_EVENT_TRANSITION
| MB_EVENT_FRAME_SENT_TO_NODE.

#[export] Instance mb_event_t_eq_dec : EqDecision mb_event_t.
Proof. solve_decision. Defined.

(** A slot of the pool. *)
Record mailbox_t := Mailbox {
  m_data : list Z;                    (** data[0 .. data_len) *)
  m_handle : Z;
  m_proxy : list Z;
  waiting_enabled : bool;
  queued_time : Z }.

#[export] Instance mailbox_eta : EtaRecord mailbox_t := fun m =>
  Mailbox (m_data m) (m_handle m) (m_proxy m) (waiting_enabled m) (queued_time m).

(** The sender of a command, as far as it is used. *)
Record mb_conn := MbConn { ripaddr : list Z; rport : Z }.

(** What the mailbox does to the rest of the gateway. *)
Inductive mb_out :=
| MSend (node : Z) (frame : list Z)            (** ClassicZIPNode_input *)
| MNoMoreInfo (node : Z)                       (** ZW_SendDataAppl, WAKE_UP_NO_MORE_INFORMATION *)
| MWakeUpGet (node : Z)                        (** ZW_SendRequest, WAKE_UP_INTERVAL_GET *)
| MProxyStatus (c : mb_conn) (status : mailbox_queue_mode_t)
| MProxyQueue (dest : list Z) (payload : list Z)    (** __ZW_SendDataZIP to a proxy *)
| MForward (payload : list Z)                  (** to the configured mailbox service *)
| MWaiting (frame : list Z)                    (** NACK, waiting *)
| MNack (frame : list Z)
| MQueueFull (frame : list Z)
| MPingClient (frame : list Z)
| MPingForProxy
| MQueueUpdated
| MAbortSending
| MConfigure (mode : Z) (rest : list Z) | MConfigReport
| MAssert.                                     (** a failed assertion or a null pointer *)

Record mb := Mb {
  mb_list : list nat;
  mb_mem : gmap nat mailbox_t;
  mb_fsm : mb_state_e;                (** mb_state.state *)
  mb_node : Z;
  mb_session : mb_conn;               (** mb_state.udp_session.conn *)
  mb_handle : Z;
  send_no_more : bool;
  txStatus : Z;
  last_entry : option nat;
  broadcast_wun : bool;
  ping_timer : Z;                     (** seconds to the next ping *)
  no_more_timer : bool;
  uip_frame : list Z;                 (** the packet in uip_buf *)
  cz_replies : list cz_reply;         (** the coming answers of ClassicZIPNode *)
  mb_outs : list mb_out }.

#[export] Instance mb_eta : EtaRecord mb := fun st =>
  Mb (mb_list st) (mb_mem st) (mb_fsm st) (mb_node st) (mb_session st) (mb_handle st)
    (send_no_more st) (txStatus st) (last_entry st) (broadcast_wun st) (ping_timer st)
    (no_more_timer st) (uip_frame st) (cz_replies st) (mb_outs st).

(** The rest of the gateway during an event. *)
Record mb_env := MbEnv {
  net : nq_env;
  lan_addr : list Z;
  clock_seconds : Z;
  node_failing : Z -> bool;           (** rd_get_node_state(node) == STATUS_FAILING *)
  rd_get_node_dbe : Z -> option (Z * Z);        (** wakeUp_interval, lastAwake *)
  rd_node_in_probe : Z -> bool;
  sleeping_node_is_in_firmware_upgrade : Z -> bool;
  nm_idle : bool;                     (** NetworkManagement_getState() == NM_IDLE *)
  rd_probe_in_progress : bool;
  no_more_reply : option (option Z);  (** ZW_SendDataAppl: refused, or accepted and
                                          possibly completed at once *)
  wakeup_get_accepted : bool }.

Definition emit (o : mb_out) (st : mb) : mb := st <| mb_outs := mb_outs st ++ [o] |>.

(** ** Pool and list *)

Definition blank : mailbox_t := Mailbox [] 0 (zeros 16) false 0.

Definition slot (st : mb) (i : nat) : mailbox_t := default blank (mb_mem st !! i).

Definition set_slot (i : nat) (m : mailbox_t) (st : mb) : mb :=
  st <| mb_mem := <[i := m]> (mb_mem st) |>.

(** memb_alloc: the first slot that is not in use. *)
Definition memb_alloc (st : mb) : option nat :=
  find (fun i => negb (bool_decide (i ∈ mb_list st))) (seq 0 MAX_MAILBOX_ENTRIES).

Definition memb_free_count (st : mb) : nat := (MAX_MAILBOX_ENTRIES - length (mb_list st))%nat.

(** list_item_next; an entry that has left the list has no successor. *)
Fixpoint list_item_next (l : list nat) (i : nat) : option nat :=
  match l with
  | [] => None
  | x :: l => if (x =? i)%nat then head l else list_item_next l i
  end.

Definition next_entry (st : mb) : option nat :=
  match last_entry st with Some i => list_item_next (mb_list st) i | None => None end.

Definition mb_free_entry (i : nat) (st : mb) : mb :=
  st <| mb_list := filter (fun x => x <> i) (mb_list st) |>.

(** (int) of a 32-bit unsigned value. *)
Definition i32 (z : Z) : Z := if z <? 2 ^ 31 then z else z - 2 ^ 32.

(** ** Frames *)

Definition mb_get_dnode (E : mb_env) (ip_pkt : list Z) : Z := nodeOfIP (net E) (destipaddr ip_pkt).

Definition is_more_info_set (frame : list Z) : bool :=
  has (rd frame (UIP_IPUDPH_LEN + 3)) ZIP_PACKET_FLAGS1_MORE_INFORMATION.

Definition uip_is_addr_unspecified (a : list Z) : bool := bool_decide (a = zeros 16).

Definition ipOfNode (E : mb_env) (nodeID : Z) : list Z :=
  if nodeID =? MyNodeID (net E) then lan_addr E
  else wr (wr (pan_prefix (net E)) 14 (Z.shiftr nodeID 8)) 15 (Z.land nodeID 0xFF).

Definition load_uipbuf_with (i : nat) (st : mb) : mb :=
  let m := slot st i in
  (if Zlength (m_data m) =? 0 then emit MAssert st else st) <| uip_frame := m_data m |>.

(** The command is built in a free slot; its handle byte is whatever that slot holds. *)
Definition send_mb_proxy_queue_command (command : Z) (entry : nat) (st : mb) : mb :=
  match memb_alloc st with
  | None => emit MAssert st
  | Some i =>
      let e := slot st entry in
      let data := [COMMAND_CLASS_MAILBOX; MAILBOX_QUEUE; command; m_handle (slot st i)] ++ m_data e in
      let old := m_data (slot st i) in
      emit (MProxyQueue (m_proxy e) data)
        (set_slot i (slot st i <| m_data := take (length old) data ++ drop (length data) old |>) st)
  end.

Definition mb_send_proxy_status (status : mailbox_queue_mode_t) (st : mb) : mb :=
  if rport (mb_session st) =? 0 then st
  else
    let st := match last_entry st with None => emit MAssert st | Some _ => st end in
    emit (MProxyStatus (mb_session st) status) st.

Definition ack_or_nak (st : mb) : mailbox_queue_mode_t :=
  if txStatus st =? TRANSMIT_COMPLETE_OK then MAILBOX_ACK else MAILBOX_NAK.

(** ** The state machine

    Each state is a function of the event; [trans] is the state machine itself. *)

Section fsm.
Context (trans : mb_event_t -> mb -> mb) (E : mb_env).

Definition mb_send_done (status : Z) (st : mb) : mb :=
  trans MB_EVENT_SEND_DONE (st <| txStatus := status |>).

(** ClassicZIPNode_input with [mb_send_done_event] as its callback; the answers
    of ClassicZIPNode are taken from the environment in turn. *)
Definition mb_cz_input (st : mb) : bool * mb :=
  let st1 := emit (MSend (mb_node st) (uip_frame st)) st <| cz_replies := tail (cz_replies st) |> in
  match head (cz_replies st) with
  | Some CzRefused => (false, st1)
  | Some (CzNow status) => (true, mb_send_done status st1)
  | Some CzLater | None => (true, st1)
  end.

Definition mb_send_no_more_information (node : Z) (st : mb) : mb :=
  if negb (broadcast_wun st) then
    let st := emit (MNoMoreInfo node) st in
    match no_more_reply E with
    | None => mb_send_done TRANSMIT_COMPLETE_FAIL st
    | Some None => st
    | Some (Some status) => mb_send_done status st
    end
  else mb_send_done TRANSMIT_COMPLETE_OK (st <| broadcast_wun := false |>).

(** The node reports in more than an eighth of its interval early or late. *)
Definition wakeup_off_schedule (interval lastAwake : Z) : bool :=
  Z.shiftr interval 3 <? Z.abs (i32 interval - i32 (u32 (clock_seconds E - lastAwake))).

Definition in_idle (event : mb_event_t) (st : mb) : mb :=
  match event with
  | MB_EVNET_TIME_TO_PING =>
      trans MB_EVENT_TRANSITION
        (st <| last_entry := head (mb_list st) |> <| mb_fsm := MB_STATE_PING_ZIPCLIENTS |>)
  | MB_EVNET_PING_REQ => emit MPingForProxy st <| mb_fsm := MB_STATE_SENDING_PING |>
  | MB_EVENT_WAKEUP =>
      if mb_node st =? 0 then
        trans MB_EVENT_TRANSITION
          (st <| last_entry := head (mb_list st) |> <| mb_fsm := MB_STATE_SENDING_THROUGH_PROXY |>)
      else
        match rd_get_node_dbe E (mb_node st) with
        | Some (interval, lastAwake) =>
            if node_failing E (mb_node st) || wakeup_off_schedule interval lastAwake
            then trans MB_EVENT_TRANSITION (st <| mb_fsm := MB_STATE_PROBE_WAKEUP_INTERVAL |>)
            else trans MB_EVENT_TRANSITION (st <| mb_fsm := MB_STATE_SENDING |>)
        | None =>
            mb_send_no_more_information (mb_node st)
              (st <| mb_fsm := MB_STATE_SEND_NO_MORE_INFO |>)
        end
  | MB_EVENT_POP =>
      let '(rc, st) := mb_cz_input (st <| mb_fsm := MB_STATE_SENDING_FROM_PROXY |>) in
      if rc then st else mb_send_done TRANSMIT_COMPLETE_FAIL st
  | MB_EVENT_POPLAST =>
      let '(rc, st) := mb_cz_input (st <| mb_fsm := MB_STATE_SENDING_LAST_FORM_PROXY |>) in
      if rc then st else mb_send_done TRANSMIT_COMPLETE_FAIL st
  | MB_EVENT_TRANSITION => emit MQueueUpdated st
  | _ => st
  end.

Definition in_probe_wakeup_interval (event : mb_event_t) (st : mb) : mb :=
  match event with
  | MB_EVENT_TRANSITION =>
      let st := emit (MWakeUpGet (mb_node st)) st in
      if wakeup_get_accepted E then st else trans MB_EVENT_SEND_DONE st
  | MB_EVENT_SEND_DONE => trans MB_EVENT_TRANSITION (st <| mb_fsm := MB_STATE_SENDING |>)
  | _ => st
  end.

Definition in_ping_zipclients (event : mb_event_t) (st : mb) : mb :=
  match event with
  | MB_EVENT_TRANSITION =>
      match last_entry st with
      | None =>
          trans MB_EVENT_TRANSITION
            (st <| ping_timer := PING_TIMEOUT_SEC |> <| mb_fsm := MB_STATE_IDLE |>)
      | Some i =>
          let m := slot st i in
          if negb (waiting_enabled m) then
            trans MB_EVENT_TRANSITION (st <| last_entry := next_entry st |>)
          else if uip_is_addr_unspecified (m_proxy m) then emit (MPingClient (m_data m)) st
          else send_mb_proxy_queue_command (mode_code MAILBOX_PING) i st
      end
  | MB_EVENT_SEND_DONE =>
      let st :=
        match last_entry st with
        | Some i =>
            set_slot i
              (slot st i <| waiting_enabled := txStatus st =? TRANSMIT_COMPLETE_OK |>) st
        | None => emit MAssert st
        end in
      trans MB_EVENT_TRANSITION (st <| last_entry := next_entry st |>)
  | _ => st
  end.

(** The entries of the proxy and handle of the session. *)
Definition proxy_matches (st : mb) : list nat :=
  filter (fun i => m_proxy (slot st i) = ripaddr (mb_session st) /\ m_handle (slot st i) = mb_handle st)
    (mb_list st).

Definition in_sending_through_proxy (event : mb_event_t) (st : mb) : mb :=
  match event with
  | MB_EVENT_TIMEOUT => trans MB_EVENT_TRANSITION (st <| mb_fsm := MB_STATE_IDLE |>)
  | MB_EVENT_TRANSITION | MB_EVENT_SEND_DONE =>
      let more := is_more_info_set (uip_frame st) in
      let st :=
        if bool_decide (event = MB_EVENT_SEND_DONE) && (txStatus st =? TRANSMIT_COMPLETE_OK) then
          match last_entry st with Some i => mb_free_entry i st | None => emit MAssert st end
        else st in
      match proxy_matches st with
      | [] =>
          trans MB_EVENT_TRANSITION (st <| last_entry := None |> <| mb_fsm := MB_STATE_IDLE |>)
      | i :: rest =>
          let last := negb more && bool_decide (rest = []) in
          send_mb_proxy_queue_command
            (Z.lor (if last then MAILBOX_POP_LAST_BIT else 0) (mode_code MAILBOX_POP)) i
            (st <| last_entry := Some i |>)
      end
  | _ => st
  end.

(** The first entry for the node, from [from] on. *)
Fixpoint find_for_node (st : mb) (l : list nat) (from : nat) (found : bool) : option nat :=
  match l with
  | [] => None
  | i :: l =>
      if (found || (i =? from)%nat) && (mb_get_dnode E (m_data (slot st i)) =? mb_node st)
      then Some i
      else find_for_node st l from (found || (i =? from)%nat)
  end.

Definition advance (st : mb) : option nat :=
  match last_entry st with
  | None => None
  | Some i =>
      if mb_get_dnode E (m_data (slot st i)) =? mb_node st then Some i
      else find_for_node st (mb_list st) i false
  end.

Definition in_sending (event : mb_event_t) (st : mb) : mb :=
  let st :=
    match event with
    | MB_EVENT_SEND_DONE =>
        let done := last_entry st in
        let st := st <| last_entry := next_entry st |> in
        match done with
        | Some i => if txStatus st =? TRANSMIT_COMPLETE_OK then mb_free_entry i st else st
        | None => if txStatus st =? TRANSMIT_COMPLETE_OK then emit MAssert st else st
        end
    | MB_EVENT_TRANSITION => st <| last_entry := head (mb_list st) |>
    | _ => st
    end in
  let st := st <| last_entry := advance st |> in
  match last_entry st with
  | Some i =>
      let st := load_uipbuf_with i st in
      let st := if is_more_info_set (uip_frame st) then st <| send_no_more := false |> else st in
      let '(rc, st) := mb_cz_input st in
      if rc then st
      else trans MB_EVENT_TRANSITION (st <| mb_fsm := MB_STATE_SEND_NO_MORE_INFO |>)
  | None =>
      if send_no_more st then
        trans MB_EVENT_TRANSITION (st <| mb_fsm := MB_STATE_SEND_NO_MORE_INFO |>)
      else
        emit MQueueUpdated
          (st <| mb_fsm := MB_STATE_SEND_NO_MORE_INFO_DELAYED |> <| no_more_timer := true |>)
  end.

Definition in_send_no_more_info_delayed (event : mb_event_t) (st : mb) : mb :=
  match event with
  | MB_EVENT_TIMEOUT =>
      if rd_node_in_probe E (mb_node st) || sleeping_node_is_in_firmware_upgrade E (mb_node st)
      then st <| no_more_timer := true |>
      else mb_send_no_more_information (mb_node st) (st <| mb_fsm := MB_STATE_SEND_NO_MORE_INFO |>)
  | MB_EVENT_FRAME_SENT_TO_NODE => st <| no_more_timer := true |>
  | _ => st
  end.

Definition in_send_no_more_info (event : mb_event_t) (st : mb) : mb :=
  match event with
  | MB_EVENT_TRANSITION =>
      mb_send_no_more_information (mb_node st) (mb_send_proxy_status (ack_or_nak st) st)
  | MB_EVENT_SEND_DONE => trans MB_EVENT_TRANSITION (st <| mb_fsm := MB_STATE_IDLE |>)
  | _ => st
  end.

Definition in_sending_from_proxy (event : mb_event_t) (st : mb) : mb :=
  match event with
  | MB_EVENT_SEND_DONE =>
      trans MB_EVENT_TRANSITION
        (mb_send_proxy_status (ack_or_nak st) st <| mb_fsm := MB_STATE_IDLE |>)
  | _ => st
  end.

Definition in_sending_last_from_proxy (event : mb_event_t) (st : mb) : mb :=
  match event with
  | MB_EVENT_SEND_DONE =>
      trans MB_EVENT_TRANSITION (st <| mb_fsm := MB_STATE_SEND_NO_MORE_INFO |>)
  | _ => st
  end.

Definition in_sending_ping (st : mb) : mb :=
  trans MB_EVENT_TRANSITION
    (mb_send_proxy_status (ack_or_nak st) st <| mb_fsm := MB_STATE_IDLE |>).

Definition mb_state_transition_body (event : mb_event_t) (st : mb) : mb :=
  match mb_fsm st with
  | MB_STATE_IDLE => in_idle event st
  | MB_STATE_PROBE_WAKEUP_INTERVAL => in_probe_wakeup_interval event st
  | MB_STATE_PING_ZIPCLIENTS => in_ping_zipclients event st
  | MB_STATE_SENDING_THROUGH_PROXY => in_sending_through_proxy event st
  | MB_STATE_SENDING => in_sending event st
  | MB_STATE_SEND_NO_MORE_INFO_DELAYED => in_send_no_more_info_delayed event st
  | MB_STATE_SEND_NO_MORE_INFO => in_send_no_more_info event st
  | MB_STATE_SENDING_FROM_PROXY => in_sending_from_proxy event st
  | MB_STATE_SENDING_LAST_FORM_PROXY => in_sending_last_from_proxy event st
  | MB_STATE_SENDING_PING => in_sending_ping st
  end.
End fsm.

Fixpoint mb_state_transition (fuel : nat) (E : mb_env) (event : mb_event_t) (st : mb) : mb :=
  match fuel with
  | O => st
  | S fuel => mb_state_transition_body (mb_state_transition fuel E) E event st
  end.

(** The depth of the calls is bounded by the entries still to be visited: see
    [mb_fuel_enough]. *)
Definition mb_fuel (st : mb) : nat := (length (mb_list st) + 10)%nat.

Definition mb_post_event (E : mb_env) (event : mb_event_t) (st : mb) : mb :=
  mb_state_transition (mb_fuel st) E event st.

(** ** The other operations *)

(** Copies the IPv6, UDP and Z/IP headers of a frame to uip_buf. *)
Definition load_headers (frame : list Z) (st : mb) : mb :=
  let n := Z.to_nat (UIP_IPUDPH_LEN + ZIP_HEADER_SIZE) in
  st <| uip_frame := take n frame ++ drop n (uip_frame st) |>.

(** Entries for the address that are older than eleven minutes are dropped. *)
Definition mb_failing_one (E : mb_env) (ip : list Z) (st : mb) (i : nat) : mb :=
  let m := slot st i in
  if bool_decide (destipaddr (m_data m) = ip) && (queued_time m + 11 * 60 <? clock_seconds E) then
    let st :=
      if is_zip_pkt (net E) (m_data m) && uip_is_addr_unspecified (m_proxy m)
      then emit (MNack (m_data m)) (load_headers (m_data m) st) else st in
    mb_free_entry i st
  else st.

Definition mb_failing_notify_byip (E : mb_env) (ip : list Z) (st : mb) : mb :=
  fold_left (mb_failing_one E ip) (mb_list st) st.

Definition mb_purge_messages (E : mb_env) (node : Z) (st : mb) : mb :=
  if mb_conf_mode (net E) =? ENABLE_MAILBOX_PROXY_FORWARDING
  then emit (MForward ([COMMAND_CLASS_MAILBOX; 0x06] ++ ipOfNode E node)) st
  else mb_failing_notify_byip E (ipOfNode E node) st.

Definition mb_failing_notify (E : mb_env) (node : Z) (st : mb) : mb := mb_purge_messages E node st.

Definition send_waiting (ipbuf : list Z) (st : mb) : mb :=
  emit (MWaiting ipbuf) (load_headers ipbuf st).

Definition mb_send_queue_full (st : mb) : mb := emit (MQueueFull (uip_frame st)) st.

Definition send_ping_timeout (E : mb_env) (st : mb) : mb :=
  mb_post_event E MB_EVNET_TIME_TO_PING st <| ping_timer := PING_TIMEOUT_SEC |>.

Definition send_waiting_timeout (i : nat) (st : mb) : mb :=
  let m := slot st i in
  if waiting_enabled m then
    if uip_is_addr_unspecified (m_proxy m) then send_waiting (m_data m) st
    else send_mb_proxy_queue_command (mode_code MAILBOX_WAITING) i st
  else st.

(** Posts the packet in uip_buf; [proxy] and [handle] come from the proxy that pushed it. *)
Definition mb_post_uipbuf (E : mb_env) (proxy : option (list Z)) (handle : Z) (st : mb) : bool * mb :=
  let frame := uip_frame st in
  let dnode := mb_get_dnode E frame in
  if (rd frame 6 =? UIP_PROTO_ICMP6) && negb (rd frame (UIP_IPH_LEN + uip_ext_len (net E)) =? ICMP6_ECHO_REQUEST)
  then (false, st)
  else if Zlength frame <? UIP_IPUDPH_LEN then (false, st)
  else if mb_conf_mode (net E) =? DISABLE_MAILBOX then (true, st)
  else if mb_conf_mode (net E) =? ENABLE_MAILBOX_PROXY_FORWARDING then
    let data := [COMMAND_CLASS_MAILBOX; MAILBOX_QUEUE; mode_code MAILBOX_PUSH; u8 dnode] ++ frame in
    match memb_alloc st with
    | None => (true, emit MAssert st)
    | Some i =>
        let m := slot st i <| m_data := take (length frame) data |>
                           <| waiting_enabled := is_zip_pkt (net E) frame |> in
        (true, emit (MForward data) (set_slot i m st))
    end
  else
    match memb_alloc st with
    | None =>
        (false, match proxy with None => mb_send_queue_full st | Some _ => st end)
    | Some i =>
        let m := Mailbox frame
                   (match proxy with Some _ => handle | None => m_handle (slot st i) end)
                   (default (zeros 16) proxy) (is_zip_pkt (net E) frame) (clock_seconds E) in
        let st := set_slot i m st in
        (** the slot is allocated: one less is free than before *)
        if bool_decide (proxy <> None) && (memb_free_count st =? 2)%nat then
          (true, mb_free_entry i
                   (send_mb_proxy_queue_command (mode_code MAILBOX_QUEUE_FULL) i
                      (st <| mb_list := mb_list st ++ [i] |>)))
        else
          let st := st <| mb_list := mb_list st ++ [i] |> in
          (true, if node_failing E dnode then mb_failing_notify E dnode st else st)
    end.

Definition mb_init (st : mb) : mb :=
  st <| mb_list := [] |> <| mb_mem := ∅ |> <| ping_timer := 60 |>.

Definition mb_wakeup_event (E : mb_env) (node : Z) (is_broadcast : bool) (st : mb) : mb :=
  if negb (nm_idle E) then st
  else if mb_conf_mode (net E) =? ENABLE_MAILBOX_SERVICE then
    if negb (rd_probe_in_progress E) && bool_decide (mb_fsm st = MB_STATE_IDLE) then
      mb_post_event E MB_EVENT_WAKEUP
        (st <| mb_node := node |> <| send_no_more := true |> <| broadcast_wun := is_broadcast |>)
    else st
  else if mb_conf_mode (net E) =? ENABLE_MAILBOX_PROXY_FORWARDING
  then emit (MForward [COMMAND_CLASS_MAILBOX; 0x05; u8 node]) st
  else st.

(** A transmission the mailbox started is complete: mb_send_done_event,
    mb_send_done and mb_udp_ping_reply. *)
Definition mb_send_done_event (E : mb_env) (status : Z) (st : mb) : mb :=
  mb_post_event E MB_EVENT_SEND_DONE (st <| txStatus := status |>).

(** The new interval is stored in the resource directory. *)
Definition mb_probe_wakeup_callback (E : mb_env) (st : mb) : mb := mb_post_event E MB_EVENT_SEND_DONE st.

(** Not registered as a callback anywhere. *)
Definition mb_probe_node_callback (E : mb_env) (st : mb) : mb :=
  mb_post_event E MB_EVENT_TRANSITION (st <| mb_fsm := MB_STATE_SENDING |>).

Definition mb_enabled (E : mb_env) : bool := negb (mb_conf_mode (net E) =? DISABLE_MAILBOX).

Definition no_more_timeout (E : mb_env) (st : mb) : mb :=
  mb_post_event E MB_EVENT_TIMEOUT (st <| no_more_timer := false |>).

Definition mb_put_node_to_sleep_later (node : Z) (st : mb) : mb :=
  if bool_decide (mb_fsm st = MB_STATE_IDLE)
  then st <| no_more_timer := true |> <| mb_fsm := MB_STATE_SEND_NO_MORE_INFO_DELAYED |>
          <| mb_node := node |>
  else st.

Definition mb_is_busy (st : mb) : bool :=
  negb (bool_decide (mb_fsm st = MB_STATE_IDLE) || bool_decide (mb_fsm st = MB_STATE_SENDING_PING)
        || bool_decide (mb_fsm st = MB_STATE_PING_ZIPCLIENTS)
        || bool_decide (mb_fsm st = MB_STATE_SEND_NO_MORE_INFO_DELAYED)).

Definition mb_idle (st : mb) : bool := bool_decide (mb_fsm st = MB_STATE_IDLE).

Definition mb_get_active_node (st : mb) : Z := if mb_idle st then 0 else mb_node st.

Definition mb_abort_sending (st : mb) : mb :=
  if mb_is_busy st then emit MAbortSending (st <| mb_fsm := MB_STATE_IDLE |>) else st.

Definition mb_node_transmission_ok_event (E : mb_env) (node : Z) (st : mb) : mb :=
  if mb_node st =? node then mb_post_event E MB_EVENT_FRAME_SENT_TO_NODE st else st.

(** A MAILBOX_QUEUE command: param1, handle, mailbox_entry; [pData] is the memory
    at the command, of which [bDatalen] bytes belong to it. *)
Definition mb_queue_command (E : mb_env) (c : mb_conn) (pData : list Z) (bDatalen : Z) (st : mb) : mb :=
  let param1 := rd pData 2 in
  let handle := rd pData 3 in
  let mode := Z.land param1 0x7 in
  let uip_len := u16 (bDatalen - 3) in
  let st := st <| uip_frame := sub_buf pData 4 uip_len |> in
  if mode =? mode_code MAILBOX_ACK then
    mb_post_event E MB_EVENT_SEND_DONE (st <| txStatus := TRANSMIT_COMPLETE_OK |>)
  else if mode =? mode_code MAILBOX_NAK then
    mb_post_event E MB_EVENT_SEND_DONE (st <| txStatus := TRANSMIT_COMPLETE_FAIL |>)
  else if mode =? mode_code MAILBOX_QUEUE_FULL then mb_send_queue_full st
  else if mode =? mode_code MAILBOX_WAITING then send_waiting (uip_frame st) st
  else if mode =? mode_code MAILBOX_PING then
    mb_post_event E MB_EVNET_PING_REQ (st <| mb_session := c |> <| mb_handle := handle |>)
  else if mode =? mode_code MAILBOX_PUSH then
    snd (mb_post_uipbuf E (Some (ripaddr c)) handle st)
  else if mode =? mode_code MAILBOX_POP then
    if negb (mb_idle st) then st
    else
      let st := st <| mb_node := mb_get_dnode E (drop 4 pData) |> <| mb_handle := handle |>
                   <| mb_session := c |> <| send_no_more := true |> in
      mb_post_event E
        (if has param1 MAILBOX_POP_LAST_BIT then MB_EVENT_POPLAST else MB_EVENT_POP) st
  else st.

(** True when the command is handled. *)
Definition mb_command_handler (E : mb_env) (c : mb_conn) (pData : list Z) (bDatalen : Z) (st : mb) :
    bool * mb :=
  let cmd := rd pData 1 in
  if cmd =? 0x05 (* MAILBOX_WAKEUP_NOTIFICATION *) then
    (true, mb_post_event E MB_EVENT_WAKEUP
             (st <| mb_node := 0 |> <| mb_handle := rd pData 2 |> <| mb_session := c |>
                 <| broadcast_wun := false |>))
  else if cmd =? 0x01 (* MAILBOX_CONFIGURATION_GET *) then (true, emit MConfigReport st)
  else if cmd =? 0x02 (* MAILBOX_CONFIGURATION_SET *) then
    (true, emit (MConfigure (Z.land (rd pData 2) 7) (sub_buf pData 3 18)) st)
  else if cmd =? 0x06 (* MAILBOX_NODE_FAILING *) then
    (true, mb_failing_notify_byip E (sub_buf pData 2 16) st)
  else if cmd =? MAILBOX_QUEUE then (true, mb_queue_command E c pData bDatalen st)
  else (false, st).

(** ** Events *)

Inductive mb_ev :=
| EvPost (frame : list Z)                       (** node_queue: mb_post_uipbuf(0, 0) *)
| EvWakeup (node : Z) (is_broadcast : bool)
| EvDone (status : Z)
| EvProbeDone
| EvNoMoreTimeout
| EvPing
| EvWaiting (i : nat)
| EvFailing (node : Z)
| EvSleepLater (node : Z)
| EvTransmissionOk (node : Z)
| EvAbort
| EvCommand (c : mb_conn) (pData : list Z) (bDatalen : Z).

Definition mb_step (E : mb_env) (ev : mb_ev) (st : mb) : mb :=
  match ev with
  | EvPost frame => snd (mb_post_uipbuf E None 0 (st <| uip_frame := frame |>))
  | EvWakeup node b => mb_wakeup_event E node b st
  | EvDone status => mb_send_done_event E status st
  | EvProbeDone => mb_probe_wakeup_callback E st
  | EvNoMoreTimeout => if no_more_timer st then no_more_timeout E st else st
  | EvPing => send_ping_timeout E st
  | EvWaiting i => if bool_decide (i ∈ mb_list st) then send_waiting_timeout i st else st
  | EvFailing node => mb_failing_notify E node st
  | EvSleepLater node => mb_put_node_to_sleep_later node st
  | EvTransmissionOk node => mb_node_transmission_ok_event E node st
  | EvAbort => mb_abort_sending st
  | EvCommand c pData bDatalen => snd (mb_command_handler E c pData bDatalen st)
  end.

(** ** Termination

    [to_visit l i] entries are left from [i] on. *)

Fixpoint to_visit (l : list nat) (i : nat) : nat :=
  match l with
  | [] => 0
  | x :: l => if (x =? i)%nat then S (length l) else to_visit l i
  end.

Definition visits (st : mb) : nat :=
  match last_entry st with Some i => to_visit (mb_list st) i | None => 0 end.

Lemma to_visit_le l i : (to_visit l i <= length l)%nat.
Proof. induction l as [|x l IH]; cbn; [lia|]. destruct (x =? i)%nat; lia. Qed.

Lemma to_visit_app l k i : i ∉ l -> to_visit (l ++ k) i = to_visit k i.
Proof.
  induction l as [|x l IH]; [done|]. intros Hn. cbn.
  apply not_elem_of_cons in Hn as [Hx Hn]. assert ((x =? i)%nat = false) as ->; [|by apply IH].
  by apply Nat.eqb_neq.
Qed.

Lemma list_item_next_app l i k : i ∉ l -> list_item_next (l ++ i :: k) i = head k.
Proof.
  induction l as [|x l IH]; cbn.
  - by rewrite Nat.eqb_refl.
  - intros Hn. apply not_elem_of_cons in Hn as [Hx Hn].
    assert ((x =? i)%nat = false) as ->; [|by apply IH]. by apply Nat.eqb_neq.
Qed.

Lemma list_item_next_none l i : i ∉ l -> list_item_next l i = None.
Proof.
  induction l as [|x l IH]; [done|]. cbn. intros Hn. apply not_elem_of_cons in Hn as [Hx Hn].
  assert ((x =? i)%nat = false) as ->; [|by apply IH]. by apply Nat.eqb_neq.
Qed.

Lemma filter_ne_id (l : list nat) i : i ∉ l -> filter (fun x => x <> i) l = l.
Proof.
  induction l as [|x l IH]; [done|]. intros Hn. apply not_elem_of_cons in Hn as [Hx Hn].
  rewrite filter_cons_True by congruence. by rewrite IH.
Qed.

Lemma filter_ne_app (l : list nat) i k : NoDup (l ++ i :: k) -> filter (fun x => x <> i) (l ++ i :: k) = l ++ k.
Proof.
  intros Hnd. apply NoDup_app in Hnd as (_ & Hd & Hk). apply NoDup_cons in Hk as [Hk _].
  rewrite filter_app, filter_cons_False by (intros H; by apply H).
  rewrite !filter_ne_id; [done..|]. intros Hl. apply (Hd i Hl). left.
Qed.

(** The entry after the current one has one entry less to visit, also when the
    current one is removed. *)
Lemma next_visits l i j : NoDup l -> list_item_next l i = Some j ->
  (to_visit l j < to_visit l i)%nat /\
  to_visit (filter (fun x => x <> i) l) j = to_visit l j.
Proof.
  intros Hnd Hj. destruct (decide (i ∈ l)) as [Hi|Hi].
  2: { by rewrite list_item_next_none in Hj. }
  apply list_elem_of_split in Hi as (l1 & l2 & ->).
  pose proof Hnd as Hnd'. apply NoDup_app in Hnd' as (_ & Hd & Hk). apply NoDup_cons in Hk as [Hi2 _].
  assert (i ∉ l1) as Hi1 by (intros H; apply (Hd i H); left).
  rewrite list_item_next_app in Hj by done. destruct l2 as [|y l2]; [done|]. injection Hj as ->.
  assert (j ∉ l1) as Hj1 by (intros H; apply (Hd j H); right; left).
  assert (i <> j) as Hij by (intros ->; apply Hi2; left).
  rewrite filter_ne_app, !to_visit_app by done. cbn. rewrite !Nat.eqb_refl.
  assert ((i =? j)%nat = false) as -> by by apply Nat.eqb_neq. cbn. rewrite ?Nat.eqb_refl. lia.
Qed.

Lemma next_visits_none l i : list_item_next l i = None ->
  (to_visit l i <= 1)%nat.
Proof.
  induction l as [|x l IH]; cbn; [lia|]. destruct (x =? i)%nat; [|apply IH].
  destruct l; cbn; [lia|done].
Qed.

(** The search for the next entry of the node. *)
Definition for_node (E : mb_env) (st : mb) (i : nat) : bool :=
  mb_get_dnode E (m_data (slot st i)) =? mb_node st.

Lemma find_for_node_found E st l i : find_for_node E st l i true = find (for_node E st) l.
Proof. induction l as [|x l IH]; [done|]. cbn. unfold for_node. by destruct (_ =? _). Qed.

Lemma find_for_node_skip E st l k i : i ∉ l ->
  find_for_node E st (l ++ k) i false = find_for_node E st k i false.
Proof.
  induction l as [|x l IH]; [done|]. intros Hn. apply not_elem_of_cons in Hn as [Hx Hn]. cbn.
  assert ((x =? i)%nat = false) as ->; [by apply Nat.eqb_neq|]. cbn. by apply IH.
Qed.

(** From an entry of the list the search goes on to the first one that matches. *)
Lemma advance_app E st l i k : i ∉ l -> mb_list st = l ++ i :: k -> last_entry st = Some i ->
  advance E st = find (for_node E st) (i :: k).
Proof.
  intros Hi Hl He. unfold advance. rewrite He, Hl, find_for_node_skip by done.
  cbn. rewrite Nat.eqb_refl, find_for_node_found. unfold for_node. by destruct (_ =? _).
Qed.

Lemma find_split {A} (f : A -> bool) l x : find f l = Some x ->
  exists l1 l2, l = l1 ++ x :: l2 /\ f x = true /\ Forall (fun y => f y = false) l1.
Proof.
  induction l as [|y l IH]; [done|]. cbn. destruct (f y) eqn:Hy.
  - intros [= ->]. by exists [], l.
  - intros H. destruct (IH H) as (l1 & l2 & -> & Hx & Hf). exists (y :: l1), l2. by repeat constructor.
Qed.

Lemma advance_none E st i : last_entry st = Some i -> i ∉ mb_list st ->
  advance E st = None \/ advance E st = Some i.
Proof.
  intros He Hi. unfold advance. rewrite He. destruct (_ =? _); [by right|left].
  rewrite <- (app_nil_r (mb_list st)), find_for_node_skip by done. done.
Qed.

Lemma advance_visits E st j : NoDup (mb_list st) -> advance E st = Some j ->
  (to_visit (mb_list st) j <= visits st)%nat.
Proof.
  intros Hnd Hj. unfold visits. destruct (last_entry st) as [i|] eqn:He.
  2: { unfold advance in Hj. by rewrite He in Hj. }
  destruct (decide (i ∈ mb_list st)) as [Hi|Hi].
  2: { by destruct (advance_none E st i He Hi) as [Ha|Ha]; rewrite Ha in Hj; [|injection Hj as ->]. }
  apply list_elem_of_split in Hi as (l1 & l2 & Hl).
  rewrite Hl in Hnd. pose proof Hnd as Hnd'. apply NoDup_app in Hnd' as (_ & Hd & Hk).
  assert (i ∉ l1) as Hi1 by (intros H; apply (Hd i H); left).
  rewrite (advance_app E st l1 i l2) in Hj by done. rewrite Hl, !to_visit_app by
    (try done; intros H; apply find_some in Hj as [Hin _]; apply list_elem_of_In in Hin; by apply (Hd j H)).
  apply find_split in Hj as (k1 & k2 & Heq & _ & _). rewrite Heq in Hk |- *.
  rewrite (to_visit_app k1 (j :: k2) j).
  - cbn. rewrite Nat.eqb_refl. destruct k1 as [|y k1]; injection Heq as -> ->; cbn; rewrite Nat.eqb_refl; [done|].
    rewrite length_app. cbn. lia.
  - apply NoDup_app in Hk as (_ & Hk & _). intros H. apply (Hk j H). left.
Qed.

(** The depth of the calls an event can cause. *)
Definition depth (event : mb_event_t) (st : mb) : nat :=
  let len := length (mb_list st) in
  match mb_fsm st, event with
  | MB_STATE_IDLE, MB_EVNET_TIME_TO_PING => len + 4
  | MB_STATE_IDLE, MB_EVENT_WAKEUP => len + 8
  | MB_STATE_IDLE, (MB_EVENT_POP | MB_EVENT_POPLAST) => 6
  | MB_STATE_IDLE, _ => 1
  | MB_STATE_PROBE_WAKEUP_INTERVAL, MB_EVENT_TRANSITION => len + 7
  | MB_STATE_PROBE_WAKEUP_INTERVAL, _ => len + 6
  | MB_STATE_PING_ZIPCLIENTS, MB_EVENT_TRANSITION =>
      match last_entry st with None => 2 | Some _ => visits st + 3 end
  | MB_STATE_PING_ZIPCLIENTS, _ => visits st + 3
  | MB_STATE_SENDING_THROUGH_PROXY, _ => 2
  | MB_STATE_SENDING, MB_EVENT_SEND_DONE => visits st + 4
  | MB_STATE_SENDING, MB_EVENT_TRANSITION => len + 5
  | MB_STATE_SENDING, _ => visits st + 5
  | MB_STATE_SEND_NO_MORE_INFO_DELAYED, _ => 3
  | MB_STATE_SEND_NO_MORE_INFO, MB_EVENT_SEND_DONE => 2
  | MB_STATE_SEND_NO_MORE_INFO, _ => 3
  | MB_STATE_SENDING_FROM_PROXY, _ => 2
  | MB_STATE_SENDING_LAST_FORM_PROXY, _ => 4
  | MB_STATE_SENDING_PING, _ => 2
  end%nat.

Lemma depth_fuel event st : (depth event st <= mb_fuel st)%nat.
Proof.
  unfold depth, mb_fuel, visits. pose proof (fun i => to_visit_le (mb_list st) i) as Hv.
  destruct (mb_fsm st), event, (last_entry st) as [i|]; try specialize (Hv i); lia.
Qed.

Section depth.
Context (f g : mb_event_t -> mb -> mb) (E : mb_env) (D : nat).
Context (Hfg : forall ev st, NoDup (mb_list st) -> (depth ev st < D)%nat -> f ev st = g ev st).

Lemma send_done_ext status st : NoDup (mb_list st) -> (depth MB_EVENT_SEND_DONE st < D)%nat ->
  mb_send_done f status st = mb_send_done g status st.
Proof. intros Hnd Hd. by apply Hfg. Qed.

Lemma cz_input_ext st : NoDup (mb_list st) -> (depth MB_EVENT_SEND_DONE st < D)%nat ->
  mb_cz_input f st = mb_cz_input g st.
Proof.
  intros Hnd Hd. unfold mb_cz_input. destruct (head (cz_replies st)) as [[]|]; try done.
  f_equal. by apply send_done_ext.
Qed.

Lemma no_more_ext node st : NoDup (mb_list st) -> (depth MB_EVENT_SEND_DONE st < D)%nat ->
  mb_send_no_more_information f E node st = mb_send_no_more_information g E node st.
Proof.
  intros Hnd Hd. unfold mb_send_no_more_information. destruct (negb _).
  - destruct (no_more_reply E) as [[]|]; try done; by apply send_done_ext.
  - by apply send_done_ext.
Qed.
End depth.

Lemma cz_refused f st st' : mb_cz_input f st = (false, st') ->
  mb_list st' = mb_list st /\ mb_fsm st' = mb_fsm st /\ last_entry st' = last_entry st.
Proof.
  unfold mb_cz_input. destruct (head (cz_replies st)) as [[]|]; intros [= <-]; done.
Qed.

Lemma depth_sending_next st i : NoDup (mb_list st) -> mb_fsm st = MB_STATE_SENDING ->
  last_entry st = Some i ->
  forall st', mb_fsm st' = MB_STATE_SENDING -> last_entry st' = list_item_next (mb_list st) i ->
  mb_list st' = mb_list st \/ mb_list st' = filter (fun x => x <> i) (mb_list st) ->
  NoDup (mb_list st') /\ (visits st' <= pred (visits st))%nat.
Proof.
  intros Hnd Hq Hi st' Hq' Hi' Hl.
  assert (NoDup (mb_list st')) as Hnd' by (destruct Hl as [-> | ->]; [done|by apply NoDup_filter]).
  split; [done|]. unfold visits. rewrite Hi, Hi'.
  destruct (list_item_next (mb_list st) i) as [j|] eqn:Hj; [|lia].
  destruct (next_visits _ _ _ Hnd Hj) as [H1 H2]. destruct Hl as [-> | ->]; lia.
Qed.

Lemma proxy_status_fields s st :
  mb_list (mb_send_proxy_status s st) = mb_list st /\ mb_fsm (mb_send_proxy_status s st) = mb_fsm st.
Proof. unfold mb_send_proxy_status. break_if; [done|]. by destruct (last_entry st). Qed.

Lemma load_fields i st :
  mb_list (load_uipbuf_with i st) = mb_list st /\ mb_fsm (load_uipbuf_with i st) = mb_fsm st /\
  last_entry (load_uipbuf_with i st) = last_entry st.
Proof. unfold load_uipbuf_with. by break_if. Qed.

Section body_ext.
Context (f g : mb_event_t -> mb -> mb) (E : mb_env) (event : mb_event_t) (st : mb).
Context (Hfg : forall ev st', NoDup (mb_list st') -> (depth ev st' < depth event st)%nat ->
                 f ev st' = g ev st').
Context (Hnd : NoDup (mb_list st)).

(** What in_sending does once it has chosen the next entry. *)
Lemma sending_rest_ext st1 : mb_fsm st1 = MB_STATE_SENDING -> NoDup (mb_list st1) ->
  (visits st1 + 4 < depth event st)%nat \/ (advance E st1 = None /\ (3 < depth event st)%nat) ->
  let rest trans :=
    let st := st1 <| last_entry := advance E st1 |> in
    match last_entry st with
    | Some i =>
        let st := load_uipbuf_with i st in
        let st := if is_more_info_set (uip_frame st) then st <| send_no_more := false |> else st in
        let '(rc, st) := mb_cz_input trans st in
        if rc then st else trans MB_EVENT_TRANSITION (st <| mb_fsm := MB_STATE_SEND_NO_MORE_INFO |>)
    | None =>
        if send_no_more st then
          trans MB_EVENT_TRANSITION (st <| mb_fsm := MB_STATE_SEND_NO_MORE_INFO |>)
        else
          emit MQueueUpdated
            (st <| mb_fsm := MB_STATE_SEND_NO_MORE_INFO_DELAYED |> <| no_more_timer := true |>)
    end in
  rest f = rest g.
Proof.
  intros Hq Hn Hd rest. unfold rest. set (st2 := st1 <| last_entry := advance E st1 |>).
  change (last_entry st2) with (advance E st1).
  destruct (advance E st1) as [i|] eqn:Ha.
  - destruct Hd as [Hd|[Hd _]]; [|done].
    pose proof (advance_visits E st1 i Hn Ha) as Hv.
    destruct (load_fields i st2) as (Hl1 & Hq1 & He1).
    set (st3 := if is_more_info_set _ then _ else _).
    assert (mb_list st3 = mb_list st1 /\ mb_fsm st3 = MB_STATE_SENDING /\ last_entry st3 = Some i)
      as (Hl3 & Hq3 & He3).
    { unfold st3. break_if; cbn -[load_uipbuf_with]; by rewrite Hl1, Hq1, He1. }
    clearbody st3. cbv zeta.
    assert (depth MB_EVENT_SEND_DONE st3 = (to_visit (mb_list st1) i + 4)%nat) as Hd3
      by (unfold depth, visits; by rewrite Hq3, He3, Hl3).
    rewrite (cz_input_ext f g (depth event st) Hfg st3) by (rewrite ?Hl3; done || lia).
    destruct (mb_cz_input g st3) as [[] st4] eqn:Hc; [done|].
    apply cz_refused in Hc as (Hl4 & _). apply Hfg; cbn; [by rewrite Hl4, Hl3|lia].
  - change (send_no_more st2) with (send_no_more st1). destruct (send_no_more st1); [|done].
    apply Hfg; cbn; [done|]. destruct Hd as [Hd|[_ Hd]]; lia.
Qed.

Lemma in_sending_ext : mb_fsm st = MB_STATE_SENDING ->
  in_sending f E event st = in_sending g E event st.
Proof using Hfg Hnd.
  intros Hq. unfold in_sending.
  set (st1 := match event with MB_EVENT_SEND_DONE => _ | _ => _ end).
  apply (sending_rest_ext st1).
  - unfold st1. destruct event; try done. repeat case_match; done.
  - unfold st1. destruct event; try done. repeat case_match; try done. by apply NoDup_filter.
  - assert (forall ev, ev <> MB_EVENT_SEND_DONE -> ev <> MB_EVENT_TRANSITION ->
      depth ev st = (visits st + 5)%nat) as Hother.
    { intros ev H1 H2. unfold depth. rewrite Hq. by destruct ev. }
    destruct event eqn:Hev; try (left; rewrite Hother by done; subst st1; lia).
    + assert (depth MB_EVENT_SEND_DONE st = (visits st + 4)%nat) as Hd
        by (unfold depth; by rewrite Hq). rewrite Hd in *.
      destruct (last_entry st) as [i|] eqn:Hi.
      * destruct (depth_sending_next st i Hnd Hq Hi st1) as [_ Hv];
          [unfold st1; by destruct (_ =? _)|unfold st1, next_entry; rewrite Hi; by destruct (_ =? _)
          |unfold st1; destruct (_ =? _); [by right|by left]|].
        destruct (visits st) eqn:Hvs; [|left; lia].
        right. split; [|lia]. destruct (last_entry st1) as [j|] eqn:Hj.
        -- unfold st1 in Hj. assert (list_item_next (mb_list st) i = Some j) as Hn.
           { unfold next_entry in Hj. rewrite Hi in Hj. by destruct (_ =? _). }
           destruct (next_visits _ _ _ Hnd Hn) as [Hlt _]. unfold visits in Hvs. rewrite Hi in Hvs. lia.
        -- unfold advance. by rewrite Hj.
      * right. split; [|lia]. unfold advance, st1, next_entry. rewrite Hi. by destruct (_ =? _).
    + left. assert (depth MB_EVENT_TRANSITION st = (length (mb_list st) + 5)%nat) as Hd
        by (unfold depth; by rewrite Hq). rewrite Hd. unfold visits, st1. cbn.
      destruct (head (mb_list st)) as [i|]; [|lia]. pose proof (to_visit_le (mb_list st) i). lia.
Qed.

(** Going on to the next entry while the clients are pinged. *)
Lemma ping_next_ext st1 : mb_fsm st1 = MB_STATE_PING_ZIPCLIENTS -> mb_list st1 = mb_list st ->
  last_entry st1 = last_entry st -> depth event st = (visits st + 3)%nat ->
  f MB_EVENT_TRANSITION (st1 <| last_entry := next_entry st1 |>) =
  g MB_EVENT_TRANSITION (st1 <| last_entry := next_entry st1 |>).
Proof using Hfg Hnd.
  intros Hq Hl He Hd. apply Hfg; [by cbn; rewrite Hl|]. rewrite Hd. unfold depth, visits. cbn.
  rewrite Hq. unfold next_entry. rewrite He, Hl. destruct (last_entry st) as [i|]; [|cbn; lia].
  destruct (list_item_next (mb_list st) i) as [j|] eqn:Hj; [|lia].
  destruct (next_visits _ _ _ Hnd Hj) as [H _]. lia.
Qed.

Lemma in_ping_ext : mb_fsm st = MB_STATE_PING_ZIPCLIENTS ->
  in_ping_zipclients f event st = in_ping_zipclients g event st.
Proof using Hfg Hnd.
  intros Hq. unfold in_ping_zipclients. pose proof ping_next_ext as Hnext.
  destruct event; try done.
  - apply Hnext; [by destruct (last_entry st) eqn:?..|]. unfold depth. by rewrite Hq.
  - destruct (last_entry st) as [i|] eqn:Hi.
    + destruct (negb _); [|done]. apply Hnext; try done. unfold depth. by rewrite Hq, Hi.
    + apply Hfg; [done|]. unfold depth at 2. rewrite Hq, Hi. cbn. lia.
Qed.

Lemma body_ext : mb_state_transition_body f E event st = mb_state_transition_body g E event st.
Proof using Hfg Hnd.
  unfold mb_state_transition_body.
  destruct (mb_fsm st) eqn:Hq.
  3: by apply in_sending_ext.
  9: by apply in_ping_ext.
  all: clear - Hfg Hnd Hq.
  - (* idle *)
    unfold in_idle. assert (Hf : forall n, depth event st = n -> forall ev st', NoDup (mb_list st') ->
      (depth ev st' < n)%nat -> f ev st' = g ev st') by (by intros n <-).
    destruct event; try done; specialize (Hf _ ltac:(unfold depth; rewrite Hq; reflexivity)).
    + destruct (mb_node st =? 0); [apply Hf; cbn; [done|lia]|].
      destruct (rd_get_node_dbe E (mb_node st)) as [[]|].
      * destruct (_ || _); apply Hf; cbn; done || lia.
      * apply (no_more_ext f g E _ Hf); cbn; done || lia.
    + rewrite (cz_input_ext f g _ Hf) by (cbn; done || lia).
      destruct (mb_cz_input g _) as [[] st2] eqn:Hc; [done|].
      apply cz_refused in Hc as (Hl & Hq2 & _). apply (send_done_ext f g _ Hf); [by rewrite Hl|].
      unfold depth. rewrite Hq2. cbn. lia.
    + rewrite (cz_input_ext f g _ Hf) by (cbn; done || lia).
      destruct (mb_cz_input g _) as [[] st2] eqn:Hc; [done|].
      apply cz_refused in Hc as (Hl & Hq2 & _). apply (send_done_ext f g _ Hf); [by rewrite Hl|].
      unfold depth. rewrite Hq2. cbn. lia.
    + apply Hf; [done|]. cbn. unfold visits. cbn. destruct (head (mb_list st)); [|lia].
      pose proof (to_visit_le (mb_list st) n). lia.
  - unfold in_probe_wakeup_interval. destruct event; try done.
    + apply Hfg; [done|]. unfold depth. rewrite Hq. cbn. lia.
    + destruct (wakeup_get_accepted E); [done|]. apply Hfg; [done|]. unfold depth. cbn. rewrite Hq. lia.
  - unfold in_sending_through_proxy.
    assert (forall st', mb_fsm st' = MB_STATE_IDLE -> NoDup (mb_list st') ->
      f MB_EVENT_TRANSITION st' = g MB_EVENT_TRANSITION st') as Hf.
    { intros st' Hq' Hn'. apply Hfg; [done|]. unfold depth. rewrite Hq, Hq'. lia. }
    destruct event; try done; [..|by apply Hf|].
    all: destruct (_ && _); [destruct (last_entry st)|]; (destruct (proxy_matches _); [apply Hf|]); try done;
      by apply NoDup_filter.
  - unfold in_sending_from_proxy. destruct event; try done. apply Hfg.
    + cbn. by rewrite (proj1 (proxy_status_fields _ _)).
    + unfold depth. rewrite Hq. cbn. lia.
  - unfold in_sending_last_from_proxy. destruct event; try done. apply Hfg; [done|].
    unfold depth. rewrite Hq. cbn. lia.
  - unfold in_send_no_more_info. destruct event; try done.
    + apply Hfg; [done|]. unfold depth. rewrite Hq. cbn. lia.
    + apply (no_more_ext f g E _ Hfg).
      * by rewrite (proj1 (proxy_status_fields _ _)).
      * unfold depth. rewrite (proj2 (proxy_status_fields _ _)), Hq. lia.
  - unfold in_send_no_more_info_delayed. destruct event; try done. destruct (_ || _); [done|].
    apply (no_more_ext f g E _ Hfg); [done|]. unfold depth. rewrite Hq. cbn. lia.
  - unfold in_sending_ping. apply Hfg.
    + cbn. by rewrite (proj1 (proxy_status_fields _ _)).
    + unfold depth. rewrite Hq. cbn. lia.
Qed.
End body_ext.

(** More fuel changes nothing: the calls end before the fuel does. *)
Lemma mb_fuel_enough E event st n : NoDup (mb_list st) -> (depth event st <= n)%nat ->
  mb_state_transition n E event st = mb_post_event E event st.
Proof.
  intros Hnd Hn. unfold mb_post_event. pose proof (depth_fuel event st) as Hm.
  generalize dependent (mb_fuel st). intros m Hm. revert m event st Hnd Hn Hm.
  induction n as [|n IH]; intros m event st Hnd Hn Hm.
  { exfalso. revert Hn. unfold depth. destruct (mb_fsm st), event, (last_entry st); lia. }
  destruct m as [|m].
  { exfalso. revert Hm. unfold depth. destruct (mb_fsm st), event, (last_entry st); lia. }
  cbn [mb_state_transition]. apply body_ext; [|done].
  intros ev st' Hnd' Hd. apply IH; [done|lia..].
Qed.

Lemma mb_post_unfold E event st : NoDup (mb_list st) ->
  mb_post_event E event st = mb_state_transition_body (mb_post_event E) E event st.
Proof.
  intros Hnd. unfold mb_post_event at 1. pose proof (depth_fuel event st) as Hd. unfold mb_fuel in *.
  replace (length (mb_list st) + 10)%nat with (S (length (mb_list st) + 9)) in * by lia.
  cbn [mb_state_transition]. apply body_ext; [|done].
  intros ev st' Hnd' Hlt. apply mb_fuel_enough; [done|lia].
Qed.

(** ** A wake-up session *)

Definition frame_of (st : mb) (i : nat) : list Z := m_data (slot st i).

Definition entry_ok (st : mb) (i : nat) : Prop := UIP_IPUDPH_LEN <= Zlength (frame_of st i).

(** The mailbox serves node [n] and waits for the completion of entry [i]; the
    entries [l2] come after it.  No proxy takes part and the node woke up by
    itself. *)
Record serving (E : mb_env) (n : Z) (st : mb) (l1 : list nat) (i : nat) (l2 : list nat) : Prop := {
  sv_list : mb_list st = l1 ++ i :: l2;
  sv_nodup : NoDup (mb_list st);
  sv_last : last_entry st = Some i;
  sv_fsm : mb_fsm st = MB_STATE_SENDING;
  sv_node : mb_node st = n;
  sv_direct : rport (mb_session st) = 0;
  sv_awake : broadcast_wun st = false;
  sv_replies : cz_replies st = [];
  sv_frames : Forall (entry_ok st) (mb_list st) }.

(** The session is over: the node is sent to sleep, now or after a delay. *)
Definition session_over (n : Z) (more : bool) (st : mb) : Prop :=
  mb_fsm st = (if more then MB_STATE_SEND_NO_MORE_INFO_DELAYED else MB_STATE_SEND_NO_MORE_INFO) /\
  mb_node st = n.

Definition last_word (n : Z) (more : bool) : mb_out := if more then MQueueUpdated else MNoMoreInfo n.

(** Entry [i] is loaded and handed over; the completion comes later. *)
Lemma hand_entry trans n st0 i :
  cz_replies st0 = [] -> entry_ok st0 i -> mb_node st0 = n ->
  let st := load_uipbuf_with i st0 in
  let st := if is_more_info_set (uip_frame st) then st <| send_no_more := false |> else st in
  (let '(rc, st) := mb_cz_input trans st in
   if rc then st else trans MB_EVENT_TRANSITION (st <| mb_fsm := MB_STATE_SEND_NO_MORE_INFO |>)) =
  st0 <| uip_frame := frame_of st0 i |>
      <| send_no_more := send_no_more st0 && negb (is_more_info_set (frame_of st0 i)) |>
      <| mb_outs := mb_outs st0 ++ [MSend n (frame_of st0 i)] |>.
Proof.
  intros Hr Hok Hn. cbv zeta. unfold load_uipbuf_with. fold (frame_of st0 i).
  assert ((Zlength (frame_of st0 i) =? 0) = false) as ->.
  { apply Z.eqb_neq. unfold entry_ok, UIP_IPUDPH_LEN in Hok. lia. }
  destruct st0 as [l mem q nd s h sn tx le bw pt nt uf rs os]. cbn in Hr, Hn. subst rs nd.
  unfold mb_cz_input, emit. cbn -[frame_of is_more_info_set].
  by destruct (is_more_info_set _); cbn -[frame_of is_more_info_set]; rewrite ?andb_false_r, ?andb_true_r.
Qed.

Section session.
Context (E : mb_env) (n : Z).
Context (Hreply : no_more_reply E = Some None).

(** Nothing is left for the node. *)
Lemma finish_session st : NoDup (mb_list st) -> mb_node st = n ->
  rport (mb_session st) = 0 -> broadcast_wun st = false ->
  mb_post_event E MB_EVENT_TRANSITION (st <| mb_fsm := MB_STATE_SEND_NO_MORE_INFO |>) =
  emit (MNoMoreInfo n) (st <| mb_fsm := MB_STATE_SEND_NO_MORE_INFO |>).
Proof using Hreply.
  intros Hnd Hn Hp Hb. rewrite mb_post_unfold by done.
  destruct st as [l mem q nd s h sn tx le bw pt nt uf rs os]. cbn in Hn, Hp, Hb, Hnd. subst.
  unfold mb_state_transition_body, in_send_no_more_info, mb_send_proxy_status. cbn. rewrite Hp. cbn.
  unfold mb_send_no_more_information. cbn. by rewrite Hreply.
Qed.

(** What follows the choice of the next entry. *)
Definition proceed (st : mb) (next : option nat) : mb :=
  match next with
  | Some j =>
      st <| last_entry := Some j |> <| uip_frame := frame_of st j |>
         <| send_no_more := send_no_more st && negb (is_more_info_set (frame_of st j)) |>
         <| mb_outs := mb_outs st ++ [MSend n (frame_of st j)] |>
  | None =>
      if send_no_more st
      then emit (MNoMoreInfo n) (st <| last_entry := None |> <| mb_fsm := MB_STATE_SEND_NO_MORE_INFO |>)
      else emit MQueueUpdated
             (st <| last_entry := None |> <| mb_fsm := MB_STATE_SEND_NO_MORE_INFO_DELAYED |>
                 <| no_more_timer := true |>)
  end.

Lemma in_sending_done st i : NoDup (mb_list st) -> mb_node st = n -> rport (mb_session st) = 0 ->
  broadcast_wun st = false -> cz_replies st = [] -> Forall (entry_ok st) (mb_list st) ->
  last_entry st = Some i ->
  let st1 := st <| last_entry := list_item_next (mb_list st) i |>
                <| mb_list := if txStatus st =? TRANSMIT_COMPLETE_OK
                              then filter (fun x => x <> i) (mb_list st) else mb_list st |> in
  (forall j, advance E st1 = Some j -> j ∈ mb_list st) ->
  in_sending (mb_post_event E) E MB_EVENT_SEND_DONE st = proceed st1 (advance E st1).
Proof using Hreply.
  intros Hnd Hn Hp Hb Hr Hok He st1 Hin. unfold in_sending, next_entry. rewrite He.
  set (s0 := if _ =? _ then mb_free_entry i _ else _).
  assert (s0 = st1) as ->.
  { subst s0 st1. destruct st; cbn -[filter]. unfold mb_free_entry. cbn -[filter]. by destruct (_ =? _). }
  assert (NoDup (mb_list st1)) as Hnd1.
  { subst st1. cbn -[filter]. destruct (_ =? _); [by apply NoDup_filter|done]. }
  assert (mb_node st1 = n /\ rport (mb_session st1) = 0 /\ broadcast_wun st1 = false /\
          cz_replies st1 = [] /\ (forall j, j ∈ mb_list st -> entry_ok st1 j)) as (Hn1 & Hp1 & Hb1 & Hr1 & Hok1).
  { split_and!; try done. intros j Hj. by apply (proj1 (Forall_forall _ _) Hok). }
  clearbody st1. cbv zeta.
  change (last_entry (st1 <| last_entry := advance E st1 |>)) with (advance E st1).
  destruct (advance E st1) as [j|] eqn:Ha.
  - rewrite (hand_entry _ n); [by destruct st1| done | | done]. by apply Hok1, Hin.
  - change (send_no_more (st1 <| last_entry := None |>)) with (send_no_more st1). cbn [proceed].
    destruct (send_no_more st1); [|by destruct st1].
    by rewrite (finish_session (st1 <| last_entry := None |>)).
Qed.

Definition kept (s : Z) (i : nat) : list nat := if s =? TRANSMIT_COMPLETE_OK then [] else [i].

Lemma kept_nodup s i l1 l2 : NoDup (l1 ++ i :: l2) ->
  (if s =? TRANSMIT_COMPLETE_OK then filter (fun x => x <> i) (l1 ++ i :: l2) else l1 ++ i :: l2) =
  (l1 ++ kept s i) ++ l2 /\ NoDup ((l1 ++ kept s i) ++ l2).
Proof.
  intros Hnd. unfold kept. destruct (s =? TRANSMIT_COMPLETE_OK).
  - rewrite filter_ne_app, app_nil_r by done. split; [done|].
    apply NoDup_app in Hnd as (H1 & Hd & H2). apply NoDup_cons in H2 as [_ H2].
    apply NoDup_app. split_and!; [done| |done]. intros x Hx Hx2. apply (Hd x Hx). by right.
  - by rewrite <- app_assoc.
Qed.

(** One completion: the entry leaves the list exactly when it was delivered,
    and the next entry of the node is handed over. *)
Lemma serving_step st l1 i l2 s : serving E n st l1 i l2 ->
  let st1 := st <| txStatus := s |> <| last_entry := head l2 |>
                <| mb_list := (l1 ++ kept s i) ++ l2 |> in
  mb_send_done_event E s st = proceed st1 (find (for_node E st) l2).
Proof using Hreply.
  intros Hs st1. destruct Hs. unfold mb_send_done_event. set (st0 := st <| txStatus := s |>).
  rewrite mb_post_unfold by done. unfold mb_state_transition_body.
  change (mb_fsm st0) with (mb_fsm st). rewrite sv_fsm0.
  rewrite sv_list0 in sv_nodup0.
  destruct (kept_nodup s i l1 l2 sv_nodup0) as [Hk Hkn].
  assert (i ∉ l1) as Hi1.
  { apply NoDup_app in sv_nodup0 as (_ & Hd & _). intros H. apply (Hd i H). left. }
  assert (st0 <| last_entry := list_item_next (mb_list st0) i |>
              <| mb_list := if txStatus st0 =? TRANSMIT_COMPLETE_OK
                            then filter (fun x => x <> i) (mb_list st0) else mb_list st0 |> = st1) as Heq.
  { subst st0 st1. cbn -[filter]. rewrite sv_list0, Hk, list_item_next_app by done. done. }
  assert (advance E st1 = find (for_node E st) l2) as Ha.
  { destruct l2 as [|h l2]; [done|]. apply (advance_app E st1 (l1 ++ kept s i) h l2); [|done..].
    apply NoDup_app in Hkn as (_ & Hd & _). intros H. apply (Hd h H). left. }
  rewrite (in_sending_done st0 i); rewrite ?Heq, ?Ha; try done.
  - by change (mb_list st0) with (mb_list st); rewrite sv_list0.
  - intros j Hj. apply find_some in Hj as [Hj _]. change (mb_list st0) with (mb_list st).
    rewrite sv_list0. apply elem_of_app. right. right. by apply list_elem_of_In.
Qed.

Lemma serving_next st l1 i l2 s k1 j k2 : serving E n st l1 i l2 -> l2 = k1 ++ j :: k2 ->
  let st1 := st <| txStatus := s |> <| last_entry := head l2 |>
                <| mb_list := (l1 ++ kept s i) ++ l2 |> in
  serving E n (proceed st1 (Some j)) ((l1 ++ kept s i) ++ k1) j k2.
Proof.
  intros Hs Hl2 st1. destruct Hs.
  rewrite sv_list0 in sv_nodup0. destruct (kept_nodup s i l1 l2 sv_nodup0) as [_ Hkn].
  split; try done.
  - cbn. by rewrite Hl2, app_assoc.
  - change (Forall (entry_ok st) ((l1 ++ kept s i) ++ l2)). rewrite sv_list0 in sv_frames0.
    unfold kept. apply Forall_app in sv_frames0 as [? H2]. apply Forall_cons in H2 as [? ?].
    rewrite !Forall_app. destruct (s =? _); split_and!; done || by constructor.
Qed.

(** The entries delivered, given the entries in the order they were sent and
    the status of each. *)
Definition delivered (mine : list nat) (ss : list Z) : list nat :=
  omap (fun '(i, s) => if s =? TRANSMIT_COMPLETE_OK then Some i else None) (zip mine ss).

Definition completions (ss : list Z) (st : mb) : mb :=
  fold_left (fun st s => mb_send_done_event E s st) ss st.

Lemma filter_notin_cons (d : list nat) i (l : list nat) :
  filter (fun x => x ∉ i :: d) l = filter (fun x => x ∉ d) (filter (fun x => x <> i) l).
Proof.
  rewrite list_filter_filter. apply list_filter_iff. intros x. rewrite not_elem_of_cons. tauto.
Qed.

(** The outcome of the session, from a point where [mine] are still to be sent. *)
Definition outcome (st st' : mb) (mine rest : list nat) (ss : list Z) : Prop :=
  let more := negb (send_no_more st) || existsb (fun i => is_more_info_set (frame_of st i)) rest in
  mb_list st' = filter (fun i => i ∉ delivered mine ss) (mb_list st) /\
  mb_outs st' = mb_outs st ++ map (fun i => MSend n (frame_of st i)) rest ++ [last_word n more] /\
  mb_mem st' = mb_mem st /\
  session_over n more st'.

Lemma proceed_none st : mb_node st = n -> outcome st (proceed st None) [] [] [].
Proof.
  intros Hn. unfold outcome, proceed, session_over, last_word. cbn [existsb delivered].
  rewrite orb_false_r. change (delivered [] []) with (@nil nat).
  assert (filter (fun i : nat => i ∉ []) (mb_list st) = mb_list st) as ->.
  { induction (mb_list st) as [|x l IH]; [done|]. rewrite filter_cons_True by apply not_elem_of_nil.
    by rewrite IH. }
  by destruct (send_no_more st).
Qed.

Lemma List_filter_split (f : nat -> bool) k1 j k2 : Forall (fun y => f y = false) k1 -> f j = true ->
  List.filter f (k1 ++ j :: k2) = j :: List.filter f k2.
Proof. intros H Hj. induction H as [|y k1 Hy _ IH]; cbn; [by rewrite Hj|by rewrite Hy]. Qed.

Lemma find_none_filter (f : nat -> bool) l : find f l = None -> List.filter f l = [].
Proof. induction l as [|x l IH]; [done|]. cbn. by destruct (f x). Qed.

Lemma session_run ss st l1 i l2 : serving E n st l1 i l2 ->
  length ss = S (length (List.filter (for_node E st) l2)) ->
  outcome st (completions ss st) (i :: List.filter (for_node E st) l2)
    (List.filter (for_node E st) l2) ss.
Proof using Hreply.
  revert st l1 i l2. induction ss as [|s ss IH]; intros st l1 i l2 Hs Hlen; [done|].
  pose proof Hs as [Hl Hnd _ _ Hn _ _ _ _]. rewrite Hl in Hnd.
  unfold completions. cbn [fold_left]. rewrite (serving_step st l1 i l2 s Hs).
  set (st1 := st <| txStatus := s |> <| last_entry := head l2 |>
                 <| mb_list := (l1 ++ kept s i) ++ l2 |>).
  assert (forall d, filter (fun x => x ∉ d) (mb_list st1) =
    filter (fun x => x ∉ (if s =? TRANSMIT_COMPLETE_OK then [i] else []) ++ d) (mb_list st)) as Hfil.
  { intros d. change (mb_list st1) with ((l1 ++ kept s i) ++ l2).
    destruct (kept_nodup s i l1 l2 Hnd) as [<- _]. rewrite Hl. destruct (s =? TRANSMIT_COMPLETE_OK); [|done].
    symmetry. apply filter_notin_cons. }
  destruct (find (for_node E st) l2) as [j|] eqn:Hf.
  - apply find_split in Hf as (k1 & k2 & Hl2 & Hj & Hk1).
    pose proof (serving_next st l1 i l2 s k1 j k2 Hs Hl2) as Hs'. cbv zeta in Hs'. fold st1 in Hs'.
    rewrite Hl2 in Hlen |- *. rewrite List_filter_split in Hlen |- * by done.
    specialize (IH (proceed st1 (Some j)) _ j k2 Hs'). unfold completions in IH.
    change (List.filter (for_node E (proceed st1 (Some j))) k2) with (List.filter (for_node E st) k2) in IH.
    destruct IH as (H1 & H2 & H3 & H4); [cbn in Hlen; lia|].
    change (mb_list (proceed st1 (Some j))) with (mb_list st1) in H1. rewrite Hfil in H1.
    unfold outcome. cbn [existsb].
    replace (negb (send_no_more st) || _) with
      (negb (send_no_more (proceed st1 (Some j))) ||
       existsb (fun i => is_more_info_set (frame_of st i)) (List.filter (for_node E st) k2)).
    2: { change (send_no_more (proceed st1 (Some j))) with
           (send_no_more st && negb (is_more_info_set (frame_of st j))).
         by destruct (send_no_more st), (is_more_info_set (frame_of st j)). }
    split_and!; [|rewrite H2; cbn [proceed map]|done..].
    + rewrite H1. f_equal. cbn. by destruct (s =? TRANSMIT_COMPLETE_OK).
    + cbn -[frame_of]. by rewrite <- app_assoc.
  - apply find_none_filter in Hf. rewrite Hf in Hlen |- *.
    destruct ss; [|cbn in Hlen; lia]. cbn [fold_left].
    destruct (proceed_none st1) as (H1 & H2 & H3 & H4); [done|]. split_and!; [|done..].
    rewrite H1, Hfil. cbn. by destruct (s =? TRANSMIT_COMPLETE_OK).
Qed.
End session.

(** The entries of a node, oldest first. *)
Definition mail_for (E : mb_env) (n : Z) (st : mb) : list nat :=
  List.filter (fun i => mb_get_dnode E (frame_of st i) =? n) (mb_list st).

(** A node in good standing wakes up on schedule while the mailbox is idle. *)
Record awake (E : mb_env) (n : Z) (st : mb) : Prop := {
  aw_idle : mb_fsm st = MB_STATE_IDLE;
  aw_nodup : NoDup (mb_list st);
  aw_frames : Forall (entry_ok st) (mb_list st);
  aw_direct : rport (mb_session st) = 0;
  aw_replies : cz_replies st = [];
  aw_mode : mb_conf_mode (net E) = ENABLE_MAILBOX_SERVICE;
  aw_nm : nm_idle E = true;
  aw_probe : rd_probe_in_progress E = false;
  aw_node : n <> 0;
  aw_failing : node_failing E n = false;
  aw_known : exists interval lastAwake, rd_get_node_dbe E n = Some (interval, lastAwake) /\
             wakeup_off_schedule E interval lastAwake = false;
  aw_reply : no_more_reply E = Some None }.

Lemma wakeup_starts E n st : awake E n st ->
  let st0 := st <| mb_node := n |> <| send_no_more := true |> <| broadcast_wun := false |>
                <| mb_fsm := MB_STATE_SENDING |> <| last_entry := head (mb_list st) |> in
  mb_wakeup_event E n false st = proceed n st0 (head (mail_for E n st)).
Proof.
  intros [Hi Hnd Hok Hp Hr Hm Hnm Hpr Hn Hf (iv & la & Hk & Hoff) Hrep] st0.
  unfold mb_wakeup_event. rewrite Hnm, Hm, Hpr, bool_decide_true by done. cbn [negb andb].
  change (ENABLE_MAILBOX_SERVICE =? ENABLE_MAILBOX_SERVICE) with true. cbv iota.
  rewrite mb_post_unfold by done. unfold mb_state_transition_body.
  set (st1 := st <| mb_node := n |> <| send_no_more := true |> <| broadcast_wun := false |>).
  change (mb_fsm st1) with (mb_fsm st). rewrite Hi. unfold in_idle. change (mb_node st1) with n.
  assert ((n =? 0) = false) as -> by by apply Z.eqb_neq.
  rewrite Hk, Hf, Hoff. cbn [orb]. rewrite mb_post_unfold by done.
  unfold mb_state_transition_body. change (mb_fsm (st1 <| mb_fsm := MB_STATE_SENDING |>)) with MB_STATE_SENDING.
  cbv iota. unfold in_sending. change (st1 <| mb_fsm := MB_STATE_SENDING |>
    <| last_entry := head (mb_list (st1 <| mb_fsm := MB_STATE_SENDING |>)) |>) with st0.
  assert (advance E st0 = head (mail_for E n st)) as ->.
  { destruct (mb_list st) as [|h l] eqn:Hl.
    - unfold mail_for. by rewrite Hl.
    - rewrite (advance_app E st0 [] h l); [|by apply not_elem_of_nil|done|done].
      unfold mail_for. rewrite Hl. change (for_node E st0) with (fun i => mb_get_dnode E (frame_of st i) =? n).
      clear. induction (h :: l) as [|x k IH]; [done|]. cbn. by destruct (_ =? _). }
  cbv zeta. change (last_entry (st0 <| last_entry := head (mail_for E n st) |>)) with (head (mail_for E n st)).
  destruct (mail_for E n st) as [|j k] eqn:Hmine; cbn [head].
  - change (send_no_more (st0 <| last_entry := None |>)) with true. cbv iota. cbn [proceed].
    change (send_no_more st0) with true. cbv iota. by rewrite (finish_session E n Hrep (st0 <| last_entry := None |>)).
  - rewrite (hand_entry _ n); try done.
    assert (j ∈ mb_list st) as Hj.
    { assert (In j (mail_for E n st)) as H by (rewrite Hmine; by left).
      apply filter_In in H as [H _]. by apply list_elem_of_In. }
    by apply (proj1 (Forall_forall _ _) Hok).
Qed.

Lemma head_split {A} (f : A -> bool) l x k : List.filter f l = x :: k ->
  exists l1 l2, l = l1 ++ x :: l2 /\ List.filter f l2 = k.
Proof.
  induction l as [|y l IH]; [done|]. cbn. destruct (f y).
  - intros [= -> <-]. by exists [], l.
  - intros H. destruct (IH H) as (l1 & l2 & -> & Hk). by exists (y :: l1), l2.
Qed.

(** C30. A wake-up session of a node in good standing that wakes up on schedule
    while the mailbox is idle, with ClassicZIPNode accepting every frame: the
    frames of the node are handed over one after the
    other, each once and in the order they were posted; a frame leaves the
    mailbox exactly when its transmission was reported successful, the others
    keep their place; the frames of other nodes are untouched; and in the end
    the node is sent to sleep, at once or, when a frame asked for more
    information, after a delay. *)
Theorem mb_wakeup_session E n ss st :
  awake E n st -> length ss = length (mail_for E n st) ->
  let mine := mail_for E n st in
  let more := existsb (fun i => is_more_info_set (frame_of st i)) mine in
  let st' := completions E ss (mb_wakeup_event E n false st) in
  mb_list st' = filter (fun i => i ∉ delivered mine ss) (mb_list st) /\
  mb_outs st' = mb_outs st ++ map (fun i => MSend n (frame_of st i)) mine ++ [last_word n more] /\
  mb_mem st' = mb_mem st /\
  session_over n more st'.
Proof.
  intros Haw Hlen mine more st'. unfold st'. rewrite (wakeup_starts E n st Haw).
  destruct Haw as [Hi Hnd Hok Hp Hr Hm Hnm Hpr Hn Hf _ Hrep].
  set (st0 := st <| mb_node := n |> <| send_no_more := true |> <| broadcast_wun := false |>
                <| mb_fsm := MB_STATE_SENDING |> <| last_entry := head (mb_list st) |>).
  unfold more, mine. destruct (mail_for E n st) as [|j k] eqn:Hmine.
  - destruct ss; [|done]. cbn [head]. exact (proceed_none n st0 eq_refl).
  - destruct (head_split _ _ _ _ Hmine) as (l1 & l2 & Hl & Hk).
    assert (serving E n (proceed n st0 (Some j)) l1 j l2) as Hs by by split.
    pose proof (session_run E n Hrep ss _ l1 j l2 Hs) as Hout.
    change (List.filter (for_node E (proceed n st0 (Some j))) l2) with
      (List.filter (fun i => mb_get_dnode E (frame_of st i) =? n) l2) in Hout.
    rewrite Hk in Hout. destruct Hout as (H1 & H2 & H3 & H4); [done|]. cbn [head existsb].
    change (send_no_more (proceed n st0 (Some j))) with (negb (is_more_info_set (frame_of st j))) in *.
    change (fun i => is_more_info_set (frame_of (proceed n st0 (Some j)) i)) with
      (fun i => is_more_info_set (frame_of st i)) in *.
    rewrite negb_involutive in *. split_and!; [done| |done..].
    rewrite H2. cbn -[frame_of]. by rewrite <- app_assoc.
Qed.

(** ** Nothing is lost

    An entry leaves the mailbox only when its transmission is reported
    successful, or when it is older than eleven minutes and its node fails. *)

Section mail.
Context (strict : bool).

(** The entries that are left have the frames they had; when [strict], none has left. *)
Definition same_mail (st st' : mb) : Prop :=
  (if strict then mb_list st' = mb_list st else mb_list st' `sublist_of` mb_list st) /\
  forall i, i ∈ mb_list st' ->
    m_data (slot st' i) = m_data (slot st i) /\ queued_time (slot st' i) = queued_time (slot st i).

Definition no_success (st : mb) : Prop :=
  strict = true -> Forall (fun r => r <> CzNow TRANSMIT_COMPLETE_OK) (cz_replies st).

(** States in which a successful completion removes an entry. *)
Definition removing (st : mb) : Prop :=
  mb_fsm st = MB_STATE_SENDING \/ mb_fsm st = MB_STATE_SENDING_THROUGH_PROXY.

Definition unsuccessful (event : mb_event_t) (st : mb) : Prop :=
  strict = true -> event = MB_EVENT_SEND_DONE -> removing st -> txStatus st <> TRANSMIT_COMPLETE_OK.

Lemma same_mail_refl st : same_mail st st.
Proof. split; [by destruct strict|done]. Qed.

Lemma same_mail_elem st st' i : same_mail st st' -> i ∈ mb_list st' -> i ∈ mb_list st.
Proof.
  intros [Hl _] Hi. destruct strict; [by rewrite <- Hl|].
  by apply (sublist_subseteq _ _ Hl).
Qed.

Lemma same_mail_trans st1 st2 st3 : same_mail st1 st2 -> same_mail st2 st3 -> same_mail st1 st3.
Proof.
  intros H12 H23. split.
  - destruct H12 as [H1 _], H23 as [H2 _]. destruct strict; [congruence|by etrans].
  - intros i Hi. assert (i ∈ mb_list st2) as Hi2 by by apply (same_mail_elem _ _ _ H23).
    destruct H12 as [_ H1], H23 as [_ H2]. destruct (H1 i Hi2) as [<- <-]. by apply H2.
Qed.

Lemma same_mail_fields st st' : mb_list st' = mb_list st -> mb_mem st' = mb_mem st -> same_mail st st'.
Proof.
  intros Hl Hm. split; [rewrite Hl; by destruct strict|]. intros i _. unfold slot. by rewrite Hm.
Qed.

Lemma memb_alloc_fresh st i : memb_alloc st = Some i ->
  (i ∉ mb_list st) /\ (i < MAX_MAILBOX_ENTRIES)%nat.
Proof.
  unfold memb_alloc. intros H. apply find_some in H as [Hin Hb].
  apply negb_true_iff, bool_decide_eq_false in Hb. split; [done|]. by apply in_seq in Hin as [_ ?].
Qed.

Lemma slot_set_ne st i j m : i <> j -> slot (set_slot i m st) j = slot st j.
Proof. intros Hij. unfold slot, set_slot. cbn. by rewrite lookup_insert_ne. Qed.

Lemma slot_set_eq st i m : slot (set_slot i m st) i = m.
Proof. unfold slot, set_slot. cbn. by rewrite lookup_insert_eq. Qed.

Lemma same_mail_unused st i m : i ∉ mb_list st -> same_mail st (set_slot i m st).
Proof.
  intros Hi. split; [by destruct strict|]. intros j Hj. rewrite slot_set_ne; [done|]. intros ->. done.
Qed.

Lemma same_mail_slot st i m : m_data m = m_data (slot st i) -> queued_time m = queued_time (slot st i) ->
  same_mail st (set_slot i m st).
Proof.
  intros Hd Hq. split; [by destruct strict|]. intros j Hj. destruct (decide (i = j)) as [->|Hij].
  - by rewrite slot_set_eq.
  - by rewrite slot_set_ne.
Qed.

Lemma proxy_queue_same command e st :
  same_mail st (send_mb_proxy_queue_command command e st) /\
  cz_replies (send_mb_proxy_queue_command command e st) = cz_replies st.
Proof.
  unfold send_mb_proxy_queue_command. destruct (memb_alloc st) as [i|] eqn:Ha.
  - apply memb_alloc_fresh in Ha as [Hi _]. split; [|done]. by apply (same_mail_unused st i).
  - split; [by apply same_mail_fields|done].
Qed.

Definition quiet (f : mb_event_t -> mb -> mb) : Prop :=
  forall event st, no_success st -> unsuccessful event st ->
    same_mail st (f event st) /\ no_success (f event st).

(** A state that differs from [st] only in what does not concern the mail. *)
Definition like (st st' : mb) : Prop := same_mail st st' /\ cz_replies st' = cz_replies st.

Lemma like_refl st : like st st.
Proof. split; [apply same_mail_refl|done]. Qed.

Section quiet.
Context (f : mb_event_t -> mb -> mb) (E : mb_env) (Hf : quiet f).

Lemma quiet_call event st st' : like st st' -> no_success st -> unsuccessful event st' ->
  same_mail st (f event st') /\ no_success (f event st').
Proof using Hf.
  intros [Hm Hr] Hn Hu. destruct (Hf event st') as [H1 H2]; [|done|].
  - unfold no_success. by rewrite Hr.
  - split; [|done]. by apply (same_mail_trans _ st').
Qed.

Lemma quiet_transition st st' : like st st' -> no_success st ->
  same_mail st (f MB_EVENT_TRANSITION st') /\ no_success (f MB_EVENT_TRANSITION st').
Proof using Hf. intros Hl Hn. by apply quiet_call. Qed.

Lemma quiet_send_done s st st' : like st st' -> no_success st ->
  (strict = true -> removing st' -> s <> TRANSMIT_COMPLETE_OK) ->
  same_mail st (mb_send_done f s st') /\ no_success (mb_send_done f s st').
Proof using Hf.
  intros Hl Hn Hs. unfold mb_send_done. apply quiet_call; [|done|].
  - destruct Hl as [Hm Hr]. by split.
  - intros Hstrict _ Hrem. by apply Hs.
Qed.

Lemma quiet_no_more node st st' : like st st' -> no_success st -> ~ removing st' ->
  same_mail st (mb_send_no_more_information f E node st') /\
  no_success (mb_send_no_more_information f E node st').
Proof using Hf.
  intros [Hm Hr] Hn Hrem. unfold mb_send_no_more_information. destruct (negb _).
  - destruct (no_more_reply E) as [[s|]|]; try (apply quiet_send_done; [by split|done|done]).
    split; [done|]. unfold no_success. cbn. by rewrite Hr.
  - apply quiet_send_done; [by split|done|done].
Qed.

Lemma quiet_cz_input st st' : like st st' -> no_success st ->
  let '(rc, st2) := mb_cz_input f st' in
  same_mail st st2 /\ no_success st2 /\ (rc = false -> mb_fsm st2 = mb_fsm st').
Proof using Hf.
  intros [Hm Hr] Hn. unfold mb_cz_input. unfold no_success in Hn. rewrite <- Hr in Hn.
  assert (no_success (emit (MSend (mb_node st') (uip_frame st')) st' <| cz_replies := tail (cz_replies st') |>))
    as Hn1 by (intros Hstrict; cbn; by destruct (Hn Hstrict)).
  assert (forall s, strict = true -> head (cz_replies st') = Some (CzNow s) ->
            s <> TRANSMIT_COMPLETE_OK) as Hs.
  { intros s Hstrict Hs ->. destruct (Hn Hstrict); [done|]. by injection Hs as ->. }
  destruct (head (cz_replies st')) as [[|s|]|]; try done.
  destruct (Hf MB_EVENT_SEND_DONE (emit (MSend (mb_node st') (uip_frame st')) st'
    <| cz_replies := tail (cz_replies st') |> <| txStatus := s |>)) as [H1 H2]; [done|..].
  - intros Hstrict _ _. by apply Hs.
  - split_and!; [|done|done]. by apply (same_mail_trans _ st').
Qed.
End quiet.

Lemma proxy_status_like s st : like st (mb_send_proxy_status s st).
Proof.
  unfold mb_send_proxy_status. break_if; [apply like_refl|].
  split; [|by destruct (last_entry st)]. by apply same_mail_fields; destruct (last_entry st).
Qed.

Lemma load_like i st : like st (load_uipbuf_with i st).
Proof. unfold load_uipbuf_with. break_if; (split; [by apply same_mail_fields|done]). Qed.

Lemma like_set st st' : mb_list st' = mb_list st -> mb_mem st' = mb_mem st ->
  cz_replies st' = cz_replies st -> like st st'.
Proof. intros ? ? ?. split; [by apply same_mail_fields|done]. Qed.

Lemma free_like st i : strict = false -> like st (mb_free_entry i st).
Proof.
  intros Hstrict. split; [|done]. split; [|done]. rewrite Hstrict. apply sublist_filter.
Qed.

Lemma like_step st st1 st2 : like st st1 -> mb_list st2 = mb_list st1 -> mb_mem st2 = mb_mem st1 ->
  cz_replies st2 = cz_replies st1 -> like st st2.
Proof.
  intros [Hm Hr] Hl Hmem Hr2. split; [|congruence].
  apply (same_mail_trans _ st1); [done|by apply same_mail_fields].
Qed.

(** Choosing and handing over the next entry removes nothing by itself. *)
Lemma sending_rest_quiet f st st1 : quiet f -> like st st1 -> no_success st ->
  let r :=
    match last_entry st1 with
    | Some i =>
        let st := load_uipbuf_with i st1 in
        let st := if is_more_info_set (uip_frame st) then st <| send_no_more := false |> else st in
        let '(rc, st) := mb_cz_input f st in
        if rc then st else f MB_EVENT_TRANSITION (st <| mb_fsm := MB_STATE_SEND_NO_MORE_INFO |>)
    | None =>
        if send_no_more st1 then f MB_EVENT_TRANSITION (st1 <| mb_fsm := MB_STATE_SEND_NO_MORE_INFO |>)
        else emit MQueueUpdated
               (st1 <| mb_fsm := MB_STATE_SEND_NO_MORE_INFO_DELAYED |> <| no_more_timer := true |>)
    end in
  same_mail st r /\ no_success r.
Proof.
  intros Hf Hl Hn r. unfold r. destruct (last_entry st1) as [i|].
  - cbv zeta. set (st2 := if is_more_info_set _ then _ else _).
    assert (like st st2) as Hl2.
    { destruct Hl as [Hm Hr]. destruct (load_like i st1) as [Hm1 Hr1].
      assert (like st (load_uipbuf_with i st1)) as Hx by (split; [by apply (same_mail_trans _ st1)|congruence]).
      unfold st2. break_if; [by apply (like_step _ (load_uipbuf_with i st1))|done]. }
    clearbody st2. pose proof (quiet_cz_input f Hf st st2 Hl2 Hn) as Hc.
    destruct (mb_cz_input f st2) as [rc st3]. destruct Hc as (H1 & H2 & _). destruct rc; [done|].
    destruct (quiet_transition f Hf st3 (st3 <| mb_fsm := MB_STATE_SEND_NO_MORE_INFO |>)) as [H3 H4];
      [by apply like_set|done|]. split; [|done]. by apply (same_mail_trans _ st3).
  - destruct (send_no_more st1).
    + apply quiet_transition; [done| |done]. by apply (like_step _ st1).
    + destruct Hl as [Hm Hr]. split; [done|]. unfold no_success. cbn. by rewrite Hr.
Qed.

Lemma pop_quiet f st q : quiet f -> no_success st ->
  q = MB_STATE_SENDING_FROM_PROXY \/ q = MB_STATE_SENDING_LAST_FORM_PROXY ->
  let r := (let '(rc, st) := mb_cz_input f (st <| mb_fsm := q |>) in
            if rc then st else mb_send_done f TRANSMIT_COMPLETE_FAIL st) in
  same_mail st r /\ no_success r.
Proof.
  intros Hf Hn Hq r. unfold r.
  pose proof (quiet_cz_input f Hf st (st <| mb_fsm := q |>)) as Hc.
  destruct (mb_cz_input f _) as [rc st3]. destruct Hc as (H1 & H2 & _); [by apply like_set|done|].
  destruct rc; [done|].
  destruct (quiet_send_done f Hf TRANSMIT_COMPLETE_FAIL st3 st3) as [H3 H4]; [apply like_refl|done|done|].
  split; [|done]. by apply (same_mail_trans _ st3).
Qed.

(** Serving the next entry of a proxy. *)
Lemma proxy_rest_quiet f st (more : bool) : quiet f -> no_success st ->
  let r :=
    match proxy_matches st with
    | [] => f MB_EVENT_TRANSITION (st <| last_entry := None |> <| mb_fsm := MB_STATE_IDLE |>)
    | i :: rest =>
        send_mb_proxy_queue_command
          (Z.lor (if negb more && bool_decide (rest = []) then MAILBOX_POP_LAST_BIT else 0)
             (mode_code MAILBOX_POP)) i (st <| last_entry := Some i |>)
    end in
  same_mail st r /\ no_success r.
Proof.
  intros Hf Hn r. unfold r. destruct (proxy_matches st) as [|i rest].
  - apply (quiet_transition f Hf); [by apply like_set|done].
  - match goal with |- context [send_mb_proxy_queue_command ?c i ?s] =>
      destruct (proxy_queue_same c i s) as [H1 H2] end.
    split; [done|]. unfold no_success. by rewrite H2.
Qed.

Lemma body_quiet f E : quiet f -> quiet (mb_state_transition_body f E).
Proof.
  intros Hf event st Hn Hu. unfold mb_state_transition_body.
  assert (same_mail st st /\ no_success st) as Hstay by (split; [apply same_mail_refl|done]).
  destruct (mb_fsm st) eqn:Hq.
  - unfold in_idle. destruct event; try done; try (apply (quiet_transition f Hf); [by apply like_set|done]).
    + destruct (mb_node st =? 0); [apply (quiet_transition f Hf); [by apply like_set|done]|].
      destruct (rd_get_node_dbe E (mb_node st)) as [[]|].
      * destruct (_ || _); (apply (quiet_transition f Hf); [by apply like_set|done]).
      * apply (quiet_no_more f E Hf); [by apply like_set|done|]. by intros [H|H].
    + apply (pop_quiet f st _ Hf Hn). by left.
    + apply (pop_quiet f st _ Hf Hn). by right.
  - unfold in_probe_wakeup_interval. destruct event; try done.
    + apply (quiet_transition f Hf); [by apply like_set|done].
    + destruct (wakeup_get_accepted E); [done|]. apply (quiet_call f Hf); [by apply like_set|done|].
      intros _ _ [H|H]; cbn in H; congruence.
  - unfold in_sending. cbv zeta.
    match goal with |- context [advance E ?s] => set (st1 := s) end.
    apply (sending_rest_quiet f st (st1 <| last_entry := advance E st1 |>) Hf); [|done].
    unfold st1. destruct event; try by apply like_set.
    destruct (txStatus st =? TRANSMIT_COMPLETE_OK) eqn:Hok.
    + assert (strict = false) as Hstrict.
      { apply not_true_is_false. intros Hstrict. apply Z.eqb_eq in Hok. apply Hu; [done|done|by left|done]. }
      destruct (last_entry st) as [i|]; cbn [txStatus modify]; rewrite ?Hok; [|by apply like_set].
      by apply (free_like st i).
    + destruct (last_entry st); cbn; rewrite Hok; by apply like_set.
  - unfold in_sending_through_proxy.
    pose proof (fun st b => proxy_rest_quiet f st b Hf) as Hrest. cbv zeta in Hrest.
    destruct event; try done.
    + destruct (txStatus st =? TRANSMIT_COMPLETE_OK) eqn:Hok; [|rewrite andb_false_r; by apply Hrest].
      assert (strict = false) as Hstrict.
      { apply not_true_is_false. intros Hstrict. apply Z.eqb_eq in Hok. apply Hu; [done|done|by right|done]. }
      rewrite bool_decide_true by done. cbn [andb].
      assert (like st (match last_entry st with Some i => mb_free_entry i st | None => emit MAssert st end))
        as [Hl Hr] by (destruct (last_entry st); [by apply free_like|by apply like_set]).
      destruct (Hrest (match last_entry st with Some i => mb_free_entry i st | None => emit MAssert st end)
                  (is_more_info_set (uip_frame st))) as [H1 H2]; [unfold no_success; by rewrite Hr|].
      split; [|done]. by apply (same_mail_trans _ _ _ Hl).
    + apply (quiet_transition f Hf); [by apply like_set|done].
    + rewrite bool_decide_false by done. by apply Hrest.
  - unfold in_sending_from_proxy. destruct event; try done. apply (quiet_transition f Hf); [|done].
    apply (like_step _ (mb_send_proxy_status (ack_or_nak st) st)); [apply proxy_status_like|done..].
  - unfold in_sending_last_from_proxy. destruct event; try done.
    apply (quiet_transition f Hf); [by apply like_set|done].
  - unfold in_send_no_more_info. destruct event; try done.
    + apply (quiet_transition f Hf); [by apply like_set|done].
    + apply (quiet_no_more f E Hf); [apply proxy_status_like|done|].
      unfold removing. rewrite (proj2 (proxy_status_fields _ _)), Hq. by intros [H|H].
  - unfold in_send_no_more_info_delayed. destruct event; try done. destruct (_ || _); [done|].
    apply (quiet_no_more f E Hf); [by apply like_set|done|]. by intros [H|H].
  - unfold in_sending_ping. apply (quiet_transition f Hf); [|done].
    apply (like_step _ (mb_send_proxy_status (ack_or_nak st) st)); [apply proxy_status_like|done..].
  - unfold in_ping_zipclients. destruct event; try done.
    + apply (quiet_transition f Hf); [|done]. destruct (last_entry st) as [i|].
      * split; [|done]. apply (same_mail_slot st i); done.
      * by apply like_set.
    + destruct (last_entry st) as [i|]; [|apply (quiet_transition f Hf); [by apply like_set|done]].
      destruct (negb _); [apply (quiet_transition f Hf); [by apply like_set|done]|].
      destruct (uip_is_addr_unspecified _); [done|].
      destruct (proxy_queue_same (mode_code MAILBOX_PING) i st) as [H1 H2].
      split; [done|]. unfold no_success. by rewrite H2.
Qed.

Lemma transition_quiet E n : quiet (mb_state_transition n E).
Proof.
  induction n as [|n IH]; [|by apply body_quiet].
  intros event st Hn Hu. split; [apply same_mail_refl|done].
Qed.
End mail.

Lemma post_event_same strict E event st :
  no_success strict st -> unsuccessful strict event st -> same_mail strict st (mb_post_event E event st).
Proof. intros Hn Hu. by apply (transition_quiet strict E (mb_fuel st)). Qed.

(** No entry is older than eleven minutes. *)
Definition young (E : mb_env) (st : mb) : Prop :=
  forall i, i ∈ mb_list st -> clock_seconds E <= queued_time (slot st i) + 11 * 60.

Lemma young_same strict E st st' : same_mail strict st st' -> young E st -> young E st'.
Proof.
  intros Hs Hy i Hi. destruct Hs as [Hl Hs']. destruct (Hs' i Hi) as [_ ->].
  apply Hy. by apply (same_mail_elem strict st st').
Qed.

Lemma failing_one_same strict E ip st i : (strict = true -> young E st) ->
  same_mail strict st (mb_failing_one E ip st i).
Proof.
  intros Hy. unfold mb_failing_one.
  destruct (bool_decide (destipaddr (m_data (slot st i)) = ip)); [|apply same_mail_refl].
  destruct (queued_time (slot st i) + 11 * 60 <? clock_seconds E) eqn:Hold; [|apply same_mail_refl].
  cbn [andb]. match goal with |- context [mb_free_entry i ?s] => set (st1 := s) end.
  assert (mb_list st1 = mb_list st /\ mb_mem st1 = mb_mem st) as [Hl Hm] by (unfold st1; by break_if).
  clearbody st1. apply Z.ltb_lt in Hold. destruct strict.
  - apply same_mail_fields; [|done]. cbn. rewrite Hl. apply filter_ne_id. intros Hi.
    specialize (Hy eq_refl i Hi). lia.
  - split; [cbn; rewrite Hl; apply sublist_filter|]. intros j _. unfold slot. cbn. by rewrite Hm.
Qed.

Lemma failing_same strict E ip st : (strict = true -> young E st) ->
  same_mail strict st (mb_failing_notify_byip E ip st).
Proof.
  unfold mb_failing_notify_byip. generalize (mb_list st) as l. intros l. revert st.
  induction l as [|i l IH]; intros st Hy; [apply same_mail_refl|]. cbn [fold_left].
  pose proof (failing_one_same strict E ip st i Hy) as H1.
  apply (same_mail_trans _ _ _ _ H1), IH. intros Hs. by apply (young_same strict E st), Hy.
Qed.

Lemma purge_same strict E node st : (strict = true -> young E st) ->
  same_mail strict st (mb_purge_messages E node st).
Proof.
  intros Hy. unfold mb_purge_messages. break_if; [by apply same_mail_fields|by apply failing_same].
Qed.

(** ** Posting *)

(** The state after a frame was stored in slot [i]. *)
Definition stored (E : mb_env) (proxy : option (list Z)) (handle : Z) (i : nat) (st : mb) : mb :=
  let frame := uip_frame st in
  set_slot i (Mailbox frame (match proxy with Some _ => handle | None => m_handle (slot st i) end)
    (default (zeros 16) proxy) (is_zip_pkt (net E) frame) (clock_seconds E)) st
    <| mb_list := mb_list st ++ [i] |>.

(** Posting a frame stores it in an unused slot at the end of the list, or
    leaves the mail as it is. *)
Lemma post_cases strict E proxy handle st : (strict = true -> young E st) ->
  let st' := snd (mb_post_uipbuf E proxy handle st) in
  same_mail strict st st' \/
  exists i, memb_alloc st = Some i /\ UIP_IPUDPH_LEN <= Zlength (uip_frame st) /\
    same_mail strict (stored E proxy handle i st) st'.
Proof.
  intros Hy st'. unfold st', mb_post_uipbuf.
  destruct (_ && negb _); [left; apply same_mail_refl|].
  destruct (Zlength (uip_frame st) <? UIP_IPUDPH_LEN) eqn:Hlen; [left; apply same_mail_refl|].
  destruct (_ =? DISABLE_MAILBOX); [left; apply same_mail_refl|].
  destruct (_ =? ENABLE_MAILBOX_PROXY_FORWARDING).
  - left. destruct (memb_alloc st) as [i|] eqn:Ha; [|by apply same_mail_fields].
    apply memb_alloc_fresh in Ha as [Hi _]. by apply (same_mail_unused strict st i).
  - destruct (memb_alloc st) as [i|] eqn:Ha.
    2: { left. destruct proxy; [apply same_mail_refl|by apply same_mail_fields]. }
    pose proof (memb_alloc_fresh _ _ Ha) as [Hi _].
    set (st1 := set_slot i _ st). destruct (_ && _).
    + left. cbn [snd].
      set (st2 := st1 <| mb_list := mb_list st1 ++ [i] |>).
      destruct (proxy_queue_same strict (mode_code MAILBOX_QUEUE_FULL) i st2) as [Hq _].
      destruct (proxy_queue_same true (mode_code MAILBOX_QUEUE_FULL) i st2) as [[Hl _] _].
      set (st3 := send_mb_proxy_queue_command _ i st2) in *. clearbody st3.
      assert (mb_list (mb_free_entry i st3) = mb_list st) as Hback.
      { unfold mb_free_entry. cbn. rewrite Hl. cbn. rewrite filter_app, filter_ne_id by done.
        rewrite filter_cons_False by (intros H; by apply H). apply app_nil_r. }
      split; [rewrite Hback; by destruct strict|]. intros j Hj. rewrite Hback in Hj.
      change (slot (mb_free_entry i st3) j) with (slot st3 j).
      destruct Hq as [Hql Hq]. destruct (Hq j) as [-> ->].
      { rewrite Hl. apply elem_of_app. by left. }
      change (slot st2 j) with (slot st1 j). unfold st1. rewrite slot_set_ne; [done|].
      intros ->. done.
    + right. exists i. split; [done|]. split; [by apply Z.ltb_ge in Hlen|].
      change (st1 <| mb_list := mb_list st1 ++ [i] |>) with (stored E proxy handle i st). cbn [snd].
      destruct (node_failing E _); [|apply same_mail_refl]. apply purge_same.
      intros Hs j Hj. cbn in Hj. apply elem_of_app in Hj as [Hj|Hj].
      * assert (slot (stored E proxy handle i st) j = slot st j) as -> by
          (apply slot_set_ne; by intros ->). by apply Hy.
      * apply list_elem_of_singleton in Hj as ->.
        assert (queued_time (slot (stored E proxy handle i st) i) = clock_seconds E) as ->; [|lia].
        unfold stored, slot. cbn. by rewrite lookup_insert_eq.
Qed.

(** ** The mailbox over all events *)

(** The list holds each slot at most once, only slots of the pool, and every
    entry holds a frame with its IPv6 and UDP headers. *)
Definition mb_ok (st : mb) : Prop :=
  NoDup (mb_list st) /\ Forall (fun i => (i < MAX_MAILBOX_ENTRIES)%nat) (mb_list st) /\
  Forall (entry_ok st) (mb_list st).

Lemma mb_ok_same strict st st' : same_mail strict st st' -> mb_ok st -> mb_ok st'.
Proof.
  intros Hs (Hnd & Hlt & Hok).
  assert (mb_list st' `sublist_of` mb_list st) as Hsub.
  { destruct Hs as [Hl _]. destruct strict; [by rewrite Hl|done]. }
  destruct Hs as [_ Hs]. split_and!.
  - by apply (sublist_NoDup _ (mb_list st)).
  - apply Forall_forall. intros i Hi. apply (proj1 (Forall_forall _ _) Hlt).
    by apply (sublist_subseteq _ _ Hsub).
  - apply Forall_forall. intros i Hi. unfold entry_ok, frame_of. destruct (Hs i Hi) as [-> _].
    apply (proj1 (Forall_forall _ _) Hok). by apply (sublist_subseteq _ _ Hsub).
Qed.

Lemma stored_ok E proxy handle i st : mb_ok st -> memb_alloc st = Some i ->
  UIP_IPUDPH_LEN <= Zlength (uip_frame st) -> mb_ok (stored E proxy handle i st).
Proof.
  intros (Hnd & Hlt & Hok) Ha Hlen. destruct (memb_alloc_fresh _ _ Ha) as [Hi Hmax]. unfold mb_ok.
  change (mb_list (stored E proxy handle i st)) with (mb_list st ++ [i]). split_and!.
  - apply NoDup_app. split_and!; [done| |apply NoDup_singleton].
    intros j Hj Hj'. apply list_elem_of_singleton in Hj' as ->. done.
  - apply Forall_app. split; [done|by apply Forall_singleton].
  - apply Forall_app. split.
    + apply Forall_forall. intros j Hj. unfold entry_ok, frame_of.
      assert (slot (stored E proxy handle i st) j = slot st j) as ->
        by (apply slot_set_ne; intros ->; done).
      by apply (proj1 (Forall_forall _ _) Hok).
    + apply Forall_singleton. unfold entry_ok, frame_of.
      assert (m_data (slot (stored E proxy handle i st) i) = uip_frame st) as ->; [|done].
      unfold stored, slot. cbn. by rewrite lookup_insert_eq.
Qed.

(** What an event may do to the mail: remove entries, unless [strict], or store
    one new frame. *)
Definition mail_step (strict : bool) (E : mb_env) (st st' : mb) : Prop :=
  same_mail strict st st' \/
  exists st0 proxy handle i, mb_list st0 = mb_list st /\ mb_mem st0 = mb_mem st /\
    memb_alloc st = Some i /\ UIP_IPUDPH_LEN <= Zlength (uip_frame st0) /\
    same_mail strict (stored E proxy handle i st0) st'.

(** An event that reports no success, while no entry is too old.  The callback of
    the wake-up probe counts as the completion of a frame when it comes late, with
    the status of whatever was completed before. *)
Definition harmless (E : mb_env) (ev : mb_ev) (st : mb) : Prop :=
  young E st /\ no_success true st /\
  match ev with
  | EvDone status => removing st -> status <> TRANSMIT_COMPLETE_OK
  | EvProbeDone => removing st -> txStatus st <> TRANSMIT_COMPLETE_OK
  | EvCommand _ pData _ =>
      rd pData 1 = MAILBOX_QUEUE -> Z.land (rd pData 2) 0x7 = mode_code MAILBOX_ACK -> ~ removing st
  | _ => True
  end.

Lemma same_fields_trans strict st st0 st' : mb_list st0 = mb_list st -> mb_mem st0 = mb_mem st ->
  same_mail strict st0 st' -> same_mail strict st st'.
Proof.
  intros Hl Hm H. apply (same_mail_trans _ _ st0); [by apply same_mail_fields|done].
Qed.

Lemma post_step strict E proxy handle st st0 : mb_list st0 = mb_list st -> mb_mem st0 = mb_mem st ->
  (strict = true -> young E st) ->
  mail_step strict E st (snd (mb_post_uipbuf E proxy handle st0)).
Proof.
  intros Hl Hm Hy.
  destruct (post_cases strict E proxy handle st0) as [H|(i & Ha & Hlen & H)].
  - intros Hs. apply (young_same true E st); [by apply same_mail_fields|by apply Hy].
  - left. by apply (same_fields_trans _ _ st0).
  - right. exists st0, proxy, handle, i. split_and!; try done. unfold memb_alloc in *. by rewrite <- Hl.
Qed.

Section step_mail.
Context (strict : bool) (E : mb_env) (st : mb).
Context (Hn : no_success strict st).

(** Posting an event after changes that do not concern the mail. *)
Lemma post_event_step event st0 : mb_list st0 = mb_list st -> mb_mem st0 = mb_mem st ->
  cz_replies st0 = cz_replies st -> unsuccessful strict event st0 ->
  same_mail strict st (mb_post_event E event st0).
Proof using Hn.
  intros Hl Hm Hr Hu. apply (same_fields_trans _ _ st0); [done..|].
  apply post_event_same; [|done]. unfold no_success. by rewrite Hr.
Qed.

Lemma queue_command_step c pData bDatalen :
  (strict = true -> young E st) ->
  (strict = true -> Z.land (rd pData 2) 0x7 = mode_code MAILBOX_ACK -> ~ removing st) ->
  mail_step strict E st (mb_queue_command E c pData bDatalen st).
Proof using Hn.
  intros Hy Hack. unfold mb_queue_command. cbv zeta.
  destruct (_ =? mode_code MAILBOX_ACK) eqn:Hm.
  { left. apply post_event_step; try done. intros Hs _ Hr _. apply Z.eqb_eq in Hm. by destruct (Hack Hs Hm). }
  destruct (_ =? mode_code MAILBOX_NAK); [left; by apply post_event_step|].
  destruct (_ =? mode_code MAILBOX_QUEUE_FULL); [left; by apply same_mail_fields|].
  destruct (_ =? mode_code MAILBOX_WAITING); [left; by apply same_mail_fields|].
  destruct (_ =? mode_code MAILBOX_PING); [left; by apply post_event_step|].
  destruct (_ =? mode_code MAILBOX_PUSH); [by apply post_step|].
  destruct (_ =? mode_code MAILBOX_POP); [|left; by apply same_mail_fields].
  destruct (negb _); [left; by apply same_mail_fields|].
  left. apply post_event_step; try done. by destruct (has _ _).
Qed.
End step_mail.

Lemma step_mail strict E ev st : no_success strict st -> (strict = true -> harmless E ev st) ->
  mail_step strict E st (mb_step E ev st).
Proof.
  intros Hn Hh.
  assert (strict = true -> young E st) as Hy by (intros Hs; by destruct (Hh Hs)).
  destruct ev; cbn [mb_step].
  - by apply post_step.
  - left. unfold mb_wakeup_event. repeat break_if; try apply same_mail_refl; try by apply same_mail_fields.
    by apply post_event_step.
  - left. apply post_event_step; try done. intros Hs _ Hr. destruct (Hh Hs) as (_ & _ & H). by apply H.
  - left. apply post_event_step; try done. intros Hs _ Hr. destruct (Hh Hs) as (_ & _ & H). by apply H.
  - left. destruct (no_more_timer st); [|apply same_mail_refl]. by apply post_event_step.
  - left. unfold send_ping_timeout.
    apply (same_mail_trans _ _ (mb_post_event E MB_EVNET_TIME_TO_PING st)); [by apply post_event_step|].
    by apply same_mail_fields.
  - left. case_bool_decide; [|apply same_mail_refl]. unfold send_waiting_timeout.
    destruct (waiting_enabled _); [|apply same_mail_refl].
    destruct (uip_is_addr_unspecified _); [by apply same_mail_fields|].
    by destruct (proxy_queue_same strict (mode_code MAILBOX_WAITING) i st).
  - left. by apply purge_same.
  - left. unfold mb_put_node_to_sleep_later. break_if; [by apply same_mail_fields|apply same_mail_refl].
  - left. unfold mb_node_transmission_ok_event. break_if; [by apply post_event_step|apply same_mail_refl].
  - left. unfold mb_abort_sending. break_if; [by apply same_mail_fields|apply same_mail_refl].
  - unfold mb_command_handler. cbv zeta.
    destruct (_ =? 0x05); [left; by apply post_event_step|].
    destruct (_ =? 0x01); [left; by apply same_mail_fields|].
    destruct (_ =? 0x02); [left; by apply same_mail_fields|].
    destruct (_ =? 0x06); [left; by apply failing_same|].
    destruct (_ =? MAILBOX_QUEUE) eqn:Hq; [|left; apply same_mail_refl].
    apply queue_command_step; try done. intros Hs Hack. destruct (Hh Hs) as (_ & _ & H).
    apply Z.eqb_eq in Hq. by apply H.
Qed.

(** A run: at each event the environment and the answers ClassicZIPNode will
    give during it. *)
Fixpoint mb_run (evs : list (mb_env * list cz_reply * mb_ev)) (st : mb) : mb :=
  match evs with
  | [] => st
  | (E, replies, ev) :: evs => mb_run evs (mb_step E ev (st <| cz_replies := replies |>))
  end.

Definition mb_boot : mb :=
  mb_init (Mb [] ∅ MB_STATE_IDLE 0 (MbConn (zeros 16) 0) 0 false 0 None false 0 false [] [] []).

Lemma boot_mb_ok : mb_ok mb_boot.
Proof. by split_and!; constructor. Qed.

Lemma step_mb_ok E ev st : mb_ok st -> mb_ok (mb_step E ev st).
Proof.
  intros Hok. destruct (step_mail false E ev st) as [H|(st0 & p & h & i & Hl & Hm & Ha & Hlen & H)]; try done.
  - by apply (mb_ok_same false st).
  - apply (mb_ok_same false _ _ H). apply stored_ok; [|unfold memb_alloc in *; by rewrite Hl|done].
    apply (mb_ok_same true st); [by apply same_mail_fields|done].
Qed.

Lemma run_mb_ok evs st : mb_ok st -> mb_ok (mb_run evs st).
Proof.
  revert st. induction evs as [|[[E rs] ev] evs IH]; intros st Hok; [done|]. cbn [mb_run].
  by apply IH, step_mb_ok.
Qed.

(** C36. In every state a run reaches, the list is free of duplicates and holds only
    slots of the pool, at most [MAX_MAILBOX_ENTRIES] of them, each with a frame
    that has its headers. *)
Theorem mb_well_formed evs :
  let st := mb_run evs mb_boot in
  mb_ok st /\ (length (mb_list st) <= MAX_MAILBOX_ENTRIES)%nat.
Proof.
  intros st. pose proof (run_mb_ok evs mb_boot boot_mb_ok) as Hok. split; [exact Hok|].
  destruct Hok as (Hnd & Hlt & _). fold st in Hnd, Hlt.
  rewrite <- (length_seq MAX_MAILBOX_ENTRIES 0). apply submseteq_length, NoDup_submseteq; [done|].
  intros i Hi. rewrite elem_of_seq. rewrite Forall_forall in Hlt. specialize (Hlt i Hi). lia.
Qed.

(** In every state a run reaches, an event ends: beyond [mb_fuel] calls the depth
    does not matter, and the state machine satisfies the recursive equation the
    source writes down. *)
Theorem mb_transition_total evs E event :
  let st := mb_run evs mb_boot in
  (forall n, (mb_fuel st <= n)%nat ->
     mb_state_transition n E event st = mb_state_transition (mb_fuel st) E event st) /\
  mb_post_event E event st = mb_state_transition_body (mb_post_event E) E event st.
Proof.
  intros st. pose proof (run_mb_ok evs mb_boot boot_mb_ok) as (Hnd & _). fold st in Hnd. split.
  - intros n Hn. apply mb_fuel_enough; [done|]. pose proof (depth_fuel event st). lia.
  - by apply mb_post_unfold.
Qed.

(** Every event of the run is harmless. *)
Fixpoint harmless_run (evs : list (mb_env * list cz_reply * mb_ev)) (st : mb) : Prop :=
  match evs with
  | [] => True
  | (E, replies, ev) :: evs =>
      harmless E ev (st <| cz_replies := replies |>) /\
      harmless_run evs (mb_step E ev (st <| cz_replies := replies |>))
  end.

(** [st'] has the entries of [st], in their places, with their frames. *)
Definition keeps (st st' : mb) : Prop :=
  mb_list st `prefix_of` mb_list st' /\
  forall i, i ∈ mb_list st -> frame_of st' i = frame_of st i.

Lemma keeps_trans st1 st2 st3 : keeps st1 st2 -> keeps st2 st3 -> keeps st1 st3.
Proof.
  intros [H1 H1'] [H2 H2']. split; [by etrans|]. intros i Hi. rewrite H2'; [by apply H1'|].
  destruct H1 as [k ->]. apply elem_of_app. by left.
Qed.

Lemma step_keeps E ev st : harmless E ev st -> keeps st (mb_step E ev st).
Proof.
  intros Hh. destruct (step_mail true E ev st) as [[Hl Hs]|(st0 & p & h & i & Hl & Hm & Ha & Hlen & [Hl' Hs])].
  - by destruct Hh as (_ & ? & _).
  - done.
  - split; [by rewrite Hl|]. intros i Hi. rewrite <- Hl in Hi. by destruct (Hs i Hi).
  - destruct (memb_alloc_fresh _ _ Ha) as [Hi _]. split.
    + rewrite Hl'. change (mb_list (stored E p h i st0)) with (mb_list st0 ++ [i]). rewrite Hl. by exists [i].
    + intros j Hj. unfold frame_of. destruct (Hs j) as [-> _].
      { rewrite Hl'. change (mb_list (stored E p h i st0)) with (mb_list st0 ++ [i]). rewrite Hl.
        apply elem_of_app. by left. }
      assert (slot (stored E p h i st0) j = slot st0 j) as -> by (apply slot_set_ne; intros ->; done).
      unfold slot. by rewrite Hm.
Qed.

(** C34. No mail is lost: in a run in which, while a frame is being sent, no
    completion, no acknowledgement of a proxy and no late callback of a wake-up
    probe reports a success, and in which no entry gets older than eleven minutes,
    every entry stays in the mailbox, in its place and with its frame. *)
Theorem mb_nothing_lost evs st : harmless_run evs st -> keeps st (mb_run evs st).
Proof.
  revert st. induction evs as [|[[E rs] ev] evs IH]; intros st Hh; [by split|].
  destruct Hh as [Hh Hrest]. cbn [mb_run]. apply step_keeps in Hh.
  apply (keeps_trans _ (mb_step E ev (st <| cz_replies := rs |>))); [exact Hh|by apply IH].
Qed.

(** ** Sample runs *)

(** Node 5 wakes up every ten minutes and was last awake ten minutes ago. *)
Definition mb_sample_at (clock : Z) : mb_env :=
  MbEnv (NqEnv (sample_prefix ++ zeros 8) 1 (fun _ => false) (fun _ => 0) 0 (fun _ => 2) 1 0 0)
    (zeros 16) clock (fun _ => false)
    (fun n => if n =? 5 then Some (600, clock - 600) else None) (fun _ => false) (fun _ => false)
    true false (Some None) true.

Definition mb_sample : mb_env := mb_sample_at 1000.

(** Two frames for node 5 and one for node 9 between them. *)
Definition three_posts : list (mb_env * list cz_reply * mb_ev) :=
  [(mb_sample, [], EvPost (frame5 1)); (mb_sample, [], EvPost (zip_frame 0x60 9 2 [0x20; 0x01; 2]));
   (mb_sample, [], EvPost (frame5 3))].

Definition posted : mb := mb_run three_posts mb_boot.

Lemma posted_awake : awake mb_sample 5 posted.
Proof.
  destruct (run_mb_ok three_posts mb_boot boot_mb_ok) as (Hnd & _ & Hok).
  split; try done; by exists 600, 400.
Qed.

Lemma mb_wakeup_session_witness :
  let st' := completions mb_sample [TRANSMIT_COMPLETE_OK; TRANSMIT_COMPLETE_NO_ACK]
               (mb_wakeup_event mb_sample 5 false posted) in
  mb_list st' = [1%nat; 2%nat] /\
  mb_outs st' = [MSend 5 (frame5 1); MSend 5 (frame5 3); MNoMoreInfo 5].
Proof.
  destruct (mb_wakeup_session mb_sample 5 [TRANSMIT_COMPLETE_OK; TRANSMIT_COMPLETE_NO_ACK] posted)
    as (H1 & H2 & _).
  - exact posted_awake.
  - by vm_compute.
  - split.
    + rewrite H1. by vm_compute.
    + rewrite H2. by vm_compute.
Defined.

Lemma young_check E st :
  forallb (fun i => clock_seconds E <=? queued_time (slot st i) + 11 * 60) (mb_list st) = true -> young E st.
Proof.
  intros H i Hi. rewrite forallb_forall in H. apply list_elem_of_In in Hi. specialize (H i Hi). lia.
Qed.

Lemma mb_nothing_lost_witness :
  keeps posted (mb_run [(mb_sample, [], EvWakeup 5 false); (mb_sample, [], EvDone TRANSMIT_COMPLETE_NO_ACK);
                        (mb_sample, [CzNow TRANSMIT_COMPLETE_FAIL], EvPost (frame5 4))] posted).
Proof.
  apply mb_nothing_lost. unfold harmless_run, harmless. split_and!.
  - apply young_check. by vm_compute.
  - intros _. apply List.Forall_nil.
  - exact I.
  - apply young_check. by vm_compute.
  - intros _. apply List.Forall_nil.
  - intros _ H. discriminate H.
  - apply young_check. by vm_compute.
  - intros _. apply List.Forall_cons; [|apply List.Forall_nil]. intros H. discriminate H.
  - exact I.
  - exact I.
Defined.

(** ** Where the mailbox goes wrong *)

(** The ping timer expires while a frame is being transmitted: the event falls
    through to the search for the next entry, ClassicZIPNode is busy and sends
    every frame back, and the session ends.  The node is told to sleep in the
    middle of a transmission, the second frame is not delivered, and the first
    one, although its transmission succeeds, stays in the mailbox to be sent
    again. *)
Theorem mb_ping_cuts_session :
  let busy := CzNow TRANSMIT_COMPLETE_REQUEUE in
  let st := mb_run (three_posts ++
              [(mb_sample, [], EvWakeup 5 false); (mb_sample, [busy; busy], EvPing);
               (mb_sample, [], EvDone TRANSMIT_COMPLETE_OK)]) mb_boot in
  mb_outs st = [MSend 5 (frame5 1);
                MSend 5 (frame5 1); MSend 5 (frame5 3); MNoMoreInfo 5; MQueueUpdated] /\
  mb_fsm st = MB_STATE_IDLE /\ mb_list st = [0; 1; 2]%nat.
Proof. by vm_compute. Qed.

(** An entry is dropped for its age while it is being transmitted, and a new
    frame takes its slot: the completion of the old frame frees the slot, and
    the new frame is lost without ever having been sent. *)
Theorem mb_reused_slot_loses_mail :
  let st := mb_run [(mb_sample, [], EvPost (frame5 1));
                    (mb_sample_at 2000, [], EvWakeup 5 false);
                    (mb_sample_at 2000, [], EvFailing 5);
                    (mb_sample_at 2000, [], EvPost (frame5 2));
                    (mb_sample_at 2000, [], EvDone TRANSMIT_COMPLETE_OK)] mb_boot in
  mb_list st = [] /\
  mb_outs st = [MSend 5 (frame5 1); MNack (frame5 1); MNoMoreInfo 5].
Proof. by vm_compute. Qed.

(** A node that reports in off schedule is asked for its wake-up interval; the
    session is aborted and the node reports in again before the answer comes.  The
    callback of the question then ends the transmission under way with the status
    left from before, here the initial one: the frame is removed although nothing
    was reported about it. *)
Theorem mb_late_probe_loses_mail :
  let early := MbEnv (net mb_sample) (lan_addr mb_sample) 1000 (fun _ => false) (fun _ => Some (600, 900))
                 (fun _ => false) (fun _ => false) true false (Some None) true in
  let st := mb_run [(mb_sample, [], EvPost (frame5 1)); (early, [], EvWakeup 5 false); (mb_sample, [], EvAbort);
                    (mb_sample, [CzLater], EvWakeup 5 false); (mb_sample, [], EvProbeDone)] mb_boot in
  mb_list st = [] /\ mb_outs st = [MWakeUpGet 5; MAbortSending; MSend 5 (frame5 1); MNoMoreInfo 5].
Proof. by vm_compute. Qed.

(** A proxy that pops its frames: the status is sent while no entry is
    selected, which fails the assertion in mb_send_proxy_status. *)
Theorem mb_pop_asserts :
  let c := MbConn (replicate 16 0xBB) 41230 in
  let pop := [COMMAND_CLASS_MAILBOX; MAILBOX_QUEUE; mode_code MAILBOX_POP; 5] ++ frame5 1 in
  let st := mb_run [(mb_sample, [], EvCommand c pop (Zlength pop));
                    (mb_sample, [], EvDone TRANSMIT_COMPLETE_OK)] mb_boot in
  mb_outs st = [MSend 5 (sub_buf pop 4 (Zlength pop - 3)); MAssert; MProxyStatus c MAILBOX_ACK; MQueueUpdated].
Proof. by vm_compute. Qed.

(** The handle of a command to a proxy is read from the free slot the command is
    built in, not from the entry it is about. *)
Theorem mb_proxy_handle_wrong :
  let c := MbConn (replicate 16 0xBB) 41230 in
  let push := [COMMAND_CLASS_MAILBOX; MAILBOX_QUEUE; mode_code MAILBOX_PUSH; 7] ++ frame5 1 ++ [0] in
  let st := mb_run [(mb_sample, [], EvCommand c push (Zlength push - 1)); (mb_sample, [], EvWaiting 0)] mb_boot in
  m_handle (slot st 0) = 7 /\
  mb_outs st = [MProxyQueue (ripaddr c)
                  ([COMMAND_CLASS_MAILBOX; MAILBOX_QUEUE; mode_code MAILBOX_WAITING; 0] ++ m_data (slot st 0))].
Proof. by vm_compute. Qed.
