(* ===== verification/Aes.v ===== *)
(** * AES-128 (src/libs2/crypto/aes/aes.c)

    The block cipher below every security layer of the gateway: key expansion,
    the ten rounds and their inverses, and the ECB and CBC entry points.  A block
    is a list of 16 bytes; [state[i][j]] of the source is byte [4 * i + j].  The
    theorems say that decryption undoes encryption for every key and block, in
    ECB mode and in CBC mode for whole blocks, and the test vectors of the
    source's comment are evaluated in the kernel. *)

From S2P Require Import Prelude.
From Stdlib Require Import Btauto.
#[local] Open Scope Z_scope.

Definition Nb : nat := 4.
Definition Nk : nat := 4.
Definition Nr : nat := 10.
Definition KEYLEN : nat := 16.

Definition sbox : list Z := [
   0x63; 0x7c; 0x77; 0x7b; 0xf2; 0x6b; 0x6f; 0xc5; 0x30; 0x01; 0x67; 0x2b; 0xfe; 0xd7; 0xab; 0x76;
   0xca; 0x82; 0xc9; 0x7d; 0xfa; 0x59; 0x47; 0xf0; 0xad; 0xd4; 0xa2; 0xaf; 0x9c; 0xa4; 0x72; 0xc0;
   0xb7; 0xfd; 0x93; 0x26; 0x36; 0x3f; 0xf7; 0xcc; 0x34; 0xa5; 0xe5; 0xf1; 0x71; 0xd8; 0x31; 0x15;
   0x04; 0xc7; 0x23; 0xc3; 0x18; 0x96; 0x05; 0x9a; 0x07; 0x12; 0x80; 0xe2; 0xeb; 0x27; 0xb2; 0x75;
   0x09; 0x83; 0x2c; 0x1a; 0x1b; 0x6e; 0x5a; 0xa0; 0x52; 0x3b; 0xd6; 0xb3; 0x29; 0xe3; 0x2f; 0x84;
   0x53; 0xd1; 0x00; 0xed; 0x20; 0xfc; 0xb1; 0x5b; 0x6a; 0xcb; 0xbe; 0x39; 0x4a; 0x4c; 0x58; 0xcf;
   0xd0; 0xef; 0xaa; 0xfb; 0x43; 0x4d; 0x33; 0x85; 0x45; 0xf9; 0x02; 0x7f; 0x50; 0x3c; 0x9f; 0xa8;
   0x51; 0xa3; 0x40; 0x8f; 0x92; 0x9d; 0x38; 0xf5; 0xbc; 0xb6; 0xda; 0x21; 0x10; 0xff; 0xf3; 0xd2;
   0xcd; 0x0c; 0x13; 0xec; 0x5f; 0x97; 0x44; 0x17; 0xc4; 0xa7; 0x7e; 0x3d; 0x64; 0x5d; 0x19; 0x73;
   0x60; 0x81; 0x4f; 0xdc; 0x22; 0x2a; 0x90; 0x88; 0x46; 0xee; 0xb8; 0x14; 0xde; 0x5e; 0x0b; 0xdb;
   0xe0; 0x32; 0x3a; 0x0a; 0x49; 0x06; 0x24; 0x5c; 0xc2; 0xd3; 0xac; 0x62; 0x91; 0x95; 0xe4; 0x79;
   0xe7; 0xc8; 0x37; 0x6d; 0x8d; 0xd5; 0x4e; 0xa9; 0x6c; 0x56; 0xf4; 0xea; 0x65; 0x7a; 0xae; 0x08;
   0xba; 0x78; 0x25; 0x2e; 0x1c; 0xa6; 0xb4; 0xc6; 0xe8; 0xdd; 0x74; 0x1f; 0x4b; 0xbd; 0x8b; 0x8a;
   0x70; 0x3e; 0xb5; 0x66; 0x48; 0x03; 0xf6; 0x0e; 0x61; 0x35; 0x57; 0xb9; 0x86; 0xc1; 0x1d; 0x9e;
   0xe1; 0xf8; 0x98; 0x11; 0x69; 0xd9; 0x8e; 0x94; 0x9b; 0x1e; 0x87; 0xe9; 0xce; 0x55; 0x28; 0xdf;
   0x8c; 0xa1; 0x89; 0x0d; 0xbf; 0xe6; 0x42; 0x68; 0x41; 0x99; 0x2d; 0x0f; 0xb0; 0x54; 0xbb; 0x16].

Definition rsbox : list Z := [
   0x52; 0x09; 0x6a; 0xd5; 0x30; 0x36; 0xa5; 0x38; 0xbf; 0x40; 0xa3; 0x9e; 0x81; 0xf3; 0xd7; 0xfb;
   0x7c; 0xe3; 0x39; 0x82; 0x9b; 0x2f; 0xff; 0x87; 0x34; 0x8e; 0x43; 0x44; 0xc4; 0xde; 0xe9; 0xcb;
   0x54; 0x7b; 0x94; 0x32; 0xa6; 0xc2; 0x23; 0x3d; 0xee; 0x4c; 0x95; 0x0b; 0x42; 0xfa; 0xc3; 0x4e;
   0x08; 0x2e; 0xa1; 0x66; 0x28; 0xd9; 0x24; 0xb2; 0x76; 0x5b; 0xa2; 0x49; 0x6d; 0x8b; 0xd1; 0x25;
   0x72; 0xf8; 0xf6; 0x64; 0x86; 0x68; 0x98; 0x16; 0xd4; 0xa4; 0x5c; 0xcc; 0x5d; 0x65; 0xb6; 0x92;
   0x6c; 0x70; 0x48; 0x50; 0xfd; 0xed; 0xb9; 0xda; 0x5e; 0x15; 0x46; 0x57; 0xa7; 0x8d; 0x9d; 0x84;
   0x90; 0xd8; 0xab; 0x00; 0x8c; 0xbc; 0xd3; 0x0a; 0xf7; 0xe4; 0x58; 0x05; 0xb8; 0xb3; 0x45; 0x06;
   0xd0; 0x2c; 0x1e; 0x8f; 0xca; 0x3f; 0x0f; 0x02; 0xc1; 0xaf; 0xbd; 0x03; 0x01; 0x13; 0x8a; 0x6b;
   0x3a; 0x91; 0x11; 0x41; 0x4f; 0x67; 0xdc; 0xea; 0x97; 0xf2; 0xcf; 0xce; 0xf0; 0xb4; 0xe6; 0x73;
   0x96; 0xac; 0x74; 0x22; 0xe7; 0xad; 0x35; 0x85; 0xe2; 0xf9; 0x37; 0xe8; 0x1c; 0x75; 0xdf; 0x6e;
   0x47; 0xf1; 0x1a; 0x71; 0x1d; 0x29; 0xc5; 0x89; 0x6f; 0xb7; 0x62; 0x0e; 0xaa; 0x18; 0xbe; 0x1b;
   0xfc; 0x56; 0x3e; 0x4b; 0xc6; 0xd2; 0x79; 0x20; 0x9a; 0xdb; 0xc0; 0xfe; 0x78; 0xcd; 0x5a; 0xf4;
   0x1f; 0xdd; 0xa8; 0x33; 0x88; 0x07; 0xc7; 0x31; 0xb1; 0x12; 0x10; 0x59; 0x27; 0x80; 0xec; 0x5f;
   0x60; 0x51; 0x7f; 0xa9; 0x19; 0xb5; 0x4a; 0x0d; 0x2d; 0xe5; 0x7a; 0x9f; 0x93; 0xc9; 0x9c; 0xef;
   0xa0; 0xe0; 0x3b; 0x4d; 0xae; 0x2a; 0xf5; 0xb0; 0xc8; 0xeb; 0xbb; 0x3c; 0x83; 0x53; 0x99; 0x61;
   0x17; 0x2b; 0x04; 0x7e; 0xba; 0x77; 0xd6; 0x26; 0xe1; 0x69; 0x14; 0x63; 0x55; 0x21; 0x0c; 0x7d].

Definition Rcon : list Z := [
   0x8d; 0x01; 0x02; 0x04; 0x08; 0x10; 0x20; 0x40; 0x80; 0x1b; 0x36; 0x6c; 0xd8; 0xab; 0x4d; 0x9a;
   0x2f; 0x5e; 0xbc; 0x63; 0xc6; 0x97; 0x35; 0x6a; 0xd4; 0xb3; 0x7d; 0xfa; 0xef; 0xc5; 0x91; 0x39;
   0x72; 0xe4; 0xd3; 0xbd; 0x61; 0xc2; 0x9f; 0x25; 0x4a; 0x94; 0x33; 0x66; 0xcc; 0x83; 0x1d; 0x3a;
   0x74; 0xe8; 0xcb; 0x8d; 0x01; 0x02; 0x04; 0x08; 0x10; 0x20; 0x40; 0x80; 0x1b; 0x36; 0x6c; 0xd8;
   0xab; 0x4d; 0x9a; 0x2f; 0x5e; 0xbc; 0x63; 0xc6; 0x97; 0x35; 0x6a; 0xd4; 0xb3; 0x7d; 0xfa; 0xef;
   0xc5; 0x91; 0x39; 0x72; 0xe4; 0xd3; 0xbd; 0x61; 0xc2; 0x9f; 0x25; 0x4a; 0x94; 0x33; 0x66; 0xcc;
   0x83; 0x1d; 0x3a; 0x74; 0xe8; 0xcb; 0x8d; 0x01; 0x02; 0x04; 0x08; 0x10; 0x20; 0x40; 0x80; 0x1b;
   0x36; 0x6c; 0xd8; 0xab; 0x4d; 0x9a; 0x2f; 0x5e; 0xbc; 0x63; 0xc6; 0x97; 0x35; 0x6a; 0xd4; 0xb3;
   0x7d; 0xfa; 0xef; 0xc5; 0x91; 0x39; 0x72; 0xe4; 0xd3; 0xbd; 0x61; 0xc2; 0x9f; 0x25; 0x4a; 0x94;
   0x33; 0x66; 0xcc; 0x83; 0x1d; 0x3a; 0x74; 0xe8; 0xcb; 0x8d; 0x01; 0x02; 0x04; 0x08; 0x10; 0x20;
   0x40; 0x80; 0x1b; 0x36; 0x6c; 0xd8; 0xab; 0x4d; 0x9a; 0x2f; 0x5e; 0xbc; 0x63; 0xc6; 0x97; 0x35;
   0x6a; 0xd4; 0xb3; 0x7d; 0xfa; 0xef; 0xc5; 0x91; 0x39; 0x72; 0xe4; 0xd3; 0xbd; 0x61; 0xc2; 0x9f;
   0x25; 0x4a; 0x94; 0x33; 0x66; 0xcc; 0x83; 0x1d; 0x3a; 0x74; 0xe8; 0xcb; 0x8d; 0x01; 0x02; 0x04;
   0x08; 0x10; 0x20; 0x40; 0x80; 0x1b; 0x36; 0x6c; 0xd8; 0xab; 0x4d; 0x9a; 0x2f; 0x5e; 0xbc; 0x63;
   0xc6; 0x97; 0x35; 0x6a; 0xd4; 0xb3; 0x7d; 0xfa; 0xef; 0xc5; 0x91; 0x39; 0x72; 0xe4; 0xd3; 0xbd;
   0x61; 0xc2; 0x9f; 0x25; 0x4a; 0x94; 0x33; 0x66; 0xcc; 0x83; 0x1d; 0x3a; 0x74; 0xe8; 0xcb].

Definition getSBoxValue (num : Z) : Z := rd sbox num.

Definition getSBoxInvert (num : Z) : Z := rd rsbox num.

(** ** Key expansion

    [RoundKey] is the list of the words made so far; word [i] is made from the
    words [i - 1] and [i - Nk]. *)

Definition word_at (RoundKey : list Z) (i : nat) : list Z := take 4 (drop (4 * i) RoundKey).

Definition RotWord (w : list Z) : list Z := drop 1 w ++ take 1 w.

Definition xor_bytes (a b : list Z) : list Z := zip_with Z.lxor a b.

Definition next_word (RoundKey : list Z) (i : nat) : list Z :=
  let tempa := word_at RoundKey (i - 1) in
  let tempa :=
    if (i mod Nk =? 0)%nat then
      let tempa := map getSBoxValue (RotWord tempa) in
      wr tempa 0 (Z.lxor (rd tempa 0) (rd Rcon (Z.of_nat (i / Nk))))
    else tempa in
  xor_bytes (word_at RoundKey (i - Nk)) tempa.

Definition KeyExpansion (Key : list Z) : list Z :=
  fold_left (fun RoundKey i => RoundKey ++ next_word RoundKey i)
    (seq Nk (Nb * (Nr + 1) - Nk)) (take KEYLEN Key).

(** ** The rounds *)

Definition AddRoundKey (RoundKey : list Z) (round : nat) (state : list Z) : list Z :=
  xor_bytes state (drop (round * Nb * 4) RoundKey).

Definition SubBytes (state : list Z) : list Z := map getSBoxValue state.

(** [at_ s i j] is [state[i][j]], [put s i j v] assigns to it. *)
Definition at_ (state : list Z) (i j : nat) : Z := rd state (Z.of_nat (4 * i + j)).
Definition put (i j : nat) (v : Z) (state : list Z) : list Z := wr state (Z.of_nat (4 * i + j)) v.

Definition ShiftRows (s : list Z) : list Z :=
  let temp := at_ s 0 1 in
  let s := put 0 1 (at_ s 1 1) s in
  let s := put 1 1 (at_ s 2 1) s in
  let s := put 2 1 (at_ s 3 1) s in
  let s := put 3 1 temp s in
  let temp := at_ s 0 2 in
  let s := put 0 2 (at_ s 2 2) s in
  let s := put 2 2 temp s in
  let temp := at_ s 1 2 in
  let s := put 1 2 (at_ s 3 2) s in
  let s := put 3 2 temp s in
  let temp := at_ s 0 3 in
  let s := put 0 3 (at_ s 3 3) s in
  let s := put 3 3 (at_ s 2 3) s in
  let s := put 2 3 (at_ s 1 3) s in
  put 1 3 temp s.

Definition xtime (x : Z) : Z :=
  u8 (Z.lxor (Z.shiftl x 1) (Z.land (Z.shiftr x 7) 1 * 0x1b)).

Definition MixColumn (i : nat) (s : list Z) : list Z :=
  let t := at_ s i 0 in
  let Tmp := Z.lxor (Z.lxor (Z.lxor (at_ s i 0) (at_ s i 1)) (at_ s i 2)) (at_ s i 3) in
  let s := put i 0 (Z.lxor (at_ s i 0) (Z.lxor (xtime (Z.lxor (at_ s i 0) (at_ s i 1))) Tmp)) s in
  let s := put i 1 (Z.lxor (at_ s i 1) (Z.lxor (xtime (Z.lxor (at_ s i 1) (at_ s i 2))) Tmp)) s in
  let s := put i 2 (Z.lxor (at_ s i 2) (Z.lxor (xtime (Z.lxor (at_ s i 2) (at_ s i 3))) Tmp)) s in
  put i 3 (Z.lxor (at_ s i 3) (Z.lxor (xtime (Z.lxor (at_ s i 3) t)) Tmp)) s.

Definition MixColumns (s : list Z) : list Z := MixColumn 3 (MixColumn 2 (MixColumn 1 (MixColumn 0 s))).

Definition Multiply (x y : Z) : Z :=
  Z.lxor (Z.lxor (Z.lxor (Z.lxor
    (Z.land y 1 * x)
    (Z.land (Z.shiftr y 1) 1 * xtime x))
    (Z.land (Z.shiftr y 2) 1 * xtime (xtime x)))
    (Z.land (Z.shiftr y 3) 1 * xtime (xtime (xtime x))))
    (Z.land (Z.shiftr y 4) 1 * xtime (xtime (xtime (xtime x)))).

Definition xor4 (a b c d : Z) : Z := Z.lxor (Z.lxor (Z.lxor a b) c) d.

Definition InvMixColumn (i : nat) (s : list Z) : list Z :=
  let a := at_ s i 0 in
  let b := at_ s i 1 in
  let c := at_ s i 2 in
  let d := at_ s i 3 in
  let s := put i 0 (xor4 (Multiply a 0x0e) (Multiply b 0x0b) (Multiply c 0x0d) (Multiply d 0x09)) s in
  let s := put i 1 (xor4 (Multiply a 0x09) (Multiply b 0x0e) (Multiply c 0x0b) (Multiply d 0x0d)) s in
  let s := put i 2 (xor4 (Multiply a 0x0d) (Multiply b 0x09) (Multiply c 0x0e) (Multiply d 0x0b)) s in
  put i 3 (xor4 (Multiply a 0x0b) (Multiply b 0x0d) (Multiply c 0x09) (Multiply d 0x0e)) s.

Definition InvMixColumns (s : list Z) : list Z :=
  InvMixColumn 3 (InvMixColumn 2 (InvMixColumn 1 (InvMixColumn 0 s))).

Definition InvSubBytes (state : list Z) : list Z := map getSBoxInvert state.

Definition InvShiftRows (s : list Z) : list Z :=
  let temp := at_ s 3 1 in
  let s := put 3 1 (at_ s 2 1) s in
  let s := put 2 1 (at_ s 1 1) s in
  let s := put 1 1 (at_ s 0 1) s in
  let s := put 0 1 temp s in
  let temp := at_ s 0 2 in
  let s := put 0 2 (at_ s 2 2) s in
  let s := put 2 2 temp s in
  let temp := at_ s 1 2 in
  let s := put 1 2 (at_ s 3 2) s in
  let s := put 3 2 temp s in
  let temp := at_ s 0 3 in
  let s := put 0 3 (at_ s 1 3) s in
  let s := put 1 3 (at_ s 2 3) s in
  let s := put 2 3 (at_ s 3 3) s in
  put 3 3 temp s.

(** The bodies of the loops over the rounds. *)
Definition enc_round (RoundKey s : list Z) (round : nat) : list Z :=
  AddRoundKey RoundKey round (MixColumns (ShiftRows (SubBytes s))).

Definition dec_round (RoundKey s : list Z) (round : nat) : list Z :=
  InvMixColumns (AddRoundKey RoundKey round (InvSubBytes (InvShiftRows s))).

Definition Cipher (RoundKey state : list Z) : list Z :=
  let state := AddRoundKey RoundKey 0 state in
  let state :=
    fold_left (enc_round RoundKey) (seq 1 (Nr - 1)) state in
  AddRoundKey RoundKey Nr (ShiftRows (SubBytes state)).

Definition InvCipher (RoundKey state : list Z) : list Z :=
  let state := AddRoundKey RoundKey Nr state in
  let state :=
    fold_left (dec_round RoundKey) (rev (seq 1 (Nr - 1))) state in
  AddRoundKey RoundKey 0 (InvSubBytes (InvShiftRows state)).

Definition AES128_ECB_encrypt (input key : list Z) : list Z := Cipher (KeyExpansion key) (take KEYLEN input).

Definition AES128_ECB_decrypt (input key : list Z) : list Z := InvCipher (KeyExpansion key) (take KEYLEN input).

Definition from_hex (n : Z) : list Z := rev (map (fun i => Z.land (Z.shiftr n (8 * Z.of_nat i)) 0xFF) (seq 0 16)).

Example nist_vector_1 :
  AES128_ECB_encrypt (from_hex 0x6bc1bee22e409f96e93d7e117393172a) (from_hex 0x2b7e151628aed2a6abf7158809cf4f3c) =
  from_hex 0x3ad77bb40d7a3660a89ecaf32466ef97.
Proof. by vm_compute. Qed.

(** ** Blocks *)

Definition block (s : list Z) : Prop := length s = 16%nat /\ bytes s.

Lemma lxor_byte x y : byte x -> byte y -> byte (Z.lxor x y).
Proof. apply (lxor_bound 8). lia. Qed.

Lemma xtime_byte x : byte (xtime x).
Proof. apply u8_byte. Qed.

Lemma sbox_byte x : byte (getSBoxValue x).
Proof. apply rd_byte. apply (bool_decide_unpack _). by vm_compute. Qed.

Lemma rsbox_byte x : byte (getSBoxInvert x).
Proof. apply rd_byte. apply (bool_decide_unpack _). by vm_compute. Qed.

#[export] Hint Resolve lxor_byte xtime_byte sbox_byte rsbox_byte : zbits.

(** Destructs a block into its sixteen bytes. *)
Ltac explode_block s H :=
  destruct H as [?Hlen ?Hbytes];
  do 16 (destruct s as [|?x s]; [discriminate|]);
  destruct s; [|discriminate]; clear Hlen;
  repeat match goal with Hb : bytes (_ :: _) |- _ => apply Forall_cons in Hb as [?Hx Hb] end.

Lemma xor_bytes_block a b : block a -> (16 <= length b)%nat -> bytes b -> block (xor_bytes a b).
Proof.
  intros [Ha Hba] Hb Hbb. split.
  - unfold xor_bytes. rewrite length_zip_with. lia.
  - unfold xor_bytes. apply Forall_lookup. intros i z Hz. apply lookup_zip_with_Some in Hz.
    destruct Hz as (x & y & -> & Hx & Hy).
    apply lxor_byte; [exact (Forall_lookup_1 _ _ _ _ Hba Hx)|exact (Forall_lookup_1 _ _ _ _ Hbb Hy)].
Qed.

Lemma map_block f s : (forall x, byte (f x)) -> block s -> block (map f s).
Proof.
  intros Hf [Hl Hb]. split; [by rewrite length_map|]. clear Hl.
  induction Hb; simpl; auto.
Qed.

Lemma SubBytes_block s : block s -> block (SubBytes s).
Proof. apply map_block. auto with zbits. Qed.

Lemma InvSubBytes_SubBytes s : bytes s -> InvSubBytes (SubBytes s) = s.
Proof.
  assert (forall x, byte x -> (getSBoxInvert (getSBoxValue x) =? x) = true) as H
    by (apply byte_all; by vm_compute).
  induction 1 as [|x s Hx Hs IH]; [done|]. cbn [SubBytes InvSubBytes map].
  f_equal; [|done]. by apply Z.eqb_eq, H.
Qed.

Lemma ShiftRows_block s : block s -> block (ShiftRows s).
Proof. intros H. explode_block s H. split; [done|]. vm_compute ShiftRows. auto 20. Qed.

Lemma InvShiftRows_ShiftRows s : block s -> InvShiftRows (ShiftRows s) = s.
Proof. intros H. by explode_block s H. Qed.

Lemma AddRoundKey_twice rk n s : block s -> (n * 16 + 16 <= length rk)%nat ->
  AddRoundKey rk n (AddRoundKey rk n s) = s.
Proof.
  intros [Hs _] Hl. unfold AddRoundKey, xor_bytes.
  assert (length s <= length (drop (n * Nb * 4) rk))%nat as Hd by (rewrite length_drop; unfold Nb; lia).
  revert Hd. generalize (drop (n * Nb * 4) rk) as k. clear. induction s as [|x s IH]; intros [|y k] Hk; simpl in *; try lia; [done..|].
  rewrite Z.lxor_assoc, Z.lxor_nilpotent, Z.lxor_0_r. f_equal. apply IH. lia.
Qed.

(** ** The columns

    Multiplication by x is linear over exclusive or, which is all that is needed
    for the inverse column matrix to undo the column matrix. *)

Lemma xtime_lxor x y : byte x -> byte y -> xtime (Z.lxor x y) = Z.lxor (xtime x) (xtime y).
Proof.
  intros Hx Hy.
  assert (forall x, byte x ->
    forallb (fun y => xtime (Z.lxor x y) =? Z.lxor (xtime x) (xtime y)) (seqZ 0 256) = true) as H
    by (apply byte_all; by vm_compute).
  apply Z.eqb_eq, (byte_all _ (H x Hx) y Hy).
Qed.

Definition mix_column (a b c d : Z) : list Z :=
  let Tmp := xor4 a b c d in
  [Z.lxor a (Z.lxor (xtime (Z.lxor a b)) Tmp); Z.lxor b (Z.lxor (xtime (Z.lxor b c)) Tmp);
   Z.lxor c (Z.lxor (xtime (Z.lxor c d)) Tmp); Z.lxor d (Z.lxor (xtime (Z.lxor d a)) Tmp)].

Definition inv_mix_column (a b c d : Z) : list Z :=
  [xor4 (Multiply a 0x0e) (Multiply b 0x0b) (Multiply c 0x0d) (Multiply d 0x09);
   xor4 (Multiply a 0x09) (Multiply b 0x0e) (Multiply c 0x0b) (Multiply d 0x0d);
   xor4 (Multiply a 0x0d) (Multiply b 0x09) (Multiply c 0x0e) (Multiply d 0x0b);
   xor4 (Multiply a 0x0b) (Multiply b 0x0d) (Multiply c 0x09) (Multiply d 0x0e)].

(** Evaluates the multiplier of [Multiply]. *)
Ltac eval_multiplier :=
  unfold Multiply;
  cbn [Z.land Z.shiftr Z.shiftl Z.opp Pos.land Pos.iter Z.div2 Pos.div2 Pos.pred_double
       Pos.Nsucc_double Pos.Ndouble Z.of_N];
  rewrite ?Z.mul_1_l, ?Z.mul_0_l, ?Z.lxor_0_r, ?Z.lxor_0_l; reflexivity.

Lemma Multiply_09 x : Multiply x 0x09 = Z.lxor x (xtime (xtime (xtime x))).
Proof. eval_multiplier. Qed.

Lemma Multiply_0b x : Multiply x 0x0b = Z.lxor (Z.lxor x (xtime x)) (xtime (xtime (xtime x))).
Proof. eval_multiplier. Qed.

Lemma Multiply_0d x : Multiply x 0x0d = Z.lxor (Z.lxor x (xtime (xtime x))) (xtime (xtime (xtime x))).
Proof. eval_multiplier. Qed.

Lemma Multiply_0e x :
  Multiply x 0x0e = Z.lxor (Z.lxor (xtime x) (xtime (xtime x))) (xtime (xtime (xtime x))).
Proof. eval_multiplier. Qed.

(** Distributes [xtime] over exclusive or. *)
Ltac spread := repeat (rewrite xtime_lxor by auto 20 with zbits).

(** Equality of exclusive ors up to rearrangement, bit by bit. *)
Ltac xor_ring :=
  apply Z.bits_inj'; intros ? _; rewrite !Z.lxor_spec, ?Z.testbit_0_l;
  repeat match goal with |- context [Z.testbit ?x ?i] =>
    let b := fresh "b" in generalize (Z.testbit x i) as b; intro b end;
  btauto.

Lemma mix_column_bytes a b c d : byte a -> byte b -> byte c -> byte d -> bytes (mix_column a b c d).
Proof. intros. unfold mix_column, xor4. forall_list; auto 10 with zbits. Qed.

Lemma inv_mix_mix a b c d a' b' c' d' : byte a -> byte b -> byte c -> byte d ->
  mix_column a b c d = [a'; b'; c'; d'] -> inv_mix_column a' b' c' d' = [a; b; c; d].
Proof.
  intros Ha Hb Hc Hd [= <- <- <- <-]. unfold inv_mix_column, xor4.
  rewrite !Multiply_09, !Multiply_0b, !Multiply_0d, !Multiply_0e.
  spread. f_equal; [xor_ring|]. f_equal; [xor_ring|]. f_equal; [xor_ring|]. f_equal. xor_ring.
Qed.

Lemma MixColumns_columns x0 x1 x2 x3 x4 x5 x6 x7 x8 x9 x10 x11 x12 x13 x14 x15 :
  MixColumns [x0; x1; x2; x3; x4; x5; x6; x7; x8; x9; x10; x11; x12; x13; x14; x15] =
  mix_column x0 x1 x2 x3 ++ mix_column x4 x5 x6 x7 ++ mix_column x8 x9 x10 x11 ++
  mix_column x12 x13 x14 x15.
Proof. reflexivity. Qed.

Lemma InvMixColumns_columns x0 x1 x2 x3 x4 x5 x6 x7 x8 x9 x10 x11 x12 x13 x14 x15 :
  InvMixColumns [x0; x1; x2; x3; x4; x5; x6; x7; x8; x9; x10; x11; x12; x13; x14; x15] =
  inv_mix_column x0 x1 x2 x3 ++ inv_mix_column x4 x5 x6 x7 ++ inv_mix_column x8 x9 x10 x11 ++
  inv_mix_column x12 x13 x14 x15.
Proof. reflexivity. Qed.

Lemma MixColumns_block s : block s -> block (MixColumns s).
Proof.
  intros H. explode_block s H. rewrite MixColumns_columns. split; [done|].
  repeat apply Forall_app_2; by apply mix_column_bytes.
Qed.

Lemma InvMixColumns_MixColumns s : block s -> InvMixColumns (MixColumns s) = s.
Proof.
  intros H. explode_block s H. rewrite MixColumns_columns.
  destruct (mix_column x x0 x1 x2) as [|a1 [|a2 [|a3 [|a4 []]]]] eqn:Ea; try discriminate Ea.
  destruct (mix_column x3 x4 x5 x6) as [|b1 [|b2 [|b3 [|b4 []]]]] eqn:Eb; try discriminate Eb.
  destruct (mix_column x7 x8 x9 x10) as [|c1 [|c2 [|c3 [|c4 []]]]] eqn:Ec; try discriminate Ec.
  destruct (mix_column x11 x12 x13 x14) as [|d1 [|d2 [|d3 [|d4 []]]]] eqn:Ed; try discriminate Ed.
  cbn [app]. rewrite InvMixColumns_columns.
  rewrite (inv_mix_mix _ _ _ _ _ _ _ _ Hx Hx0 Hx1 Hx2 Ea), (inv_mix_mix _ _ _ _ _ _ _ _ Hx3 Hx4 Hx5 Hx6 Eb),
    (inv_mix_mix _ _ _ _ _ _ _ _ Hx7 Hx8 Hx9 Hx10 Ec), (inv_mix_mix _ _ _ _ _ _ _ _ Hx11 Hx12 Hx13 Hx14 Ed).
  done.
Qed.

(** ** The key schedule *)

Definition schedule (Key : list Z) (n : nat) : list Z :=
  fold_left (fun RoundKey i => RoundKey ++ next_word RoundKey i) (seq Nk n) (take KEYLEN Key).

Lemma schedule_S key n : schedule key (S n) = schedule key n ++ next_word (schedule key n) (Nk + n).
Proof. unfold schedule. by rewrite seq_S, fold_left_app. Qed.

Lemma length_word_at rk i : (4 * i + 4 <= length rk)%nat -> length (word_at rk i) = 4%nat.
Proof. intros H. unfold word_at. rewrite length_take, length_drop. lia. Qed.

Lemma word_at_bytes rk i : bytes rk -> bytes (word_at rk i).
Proof. intros. by apply Forall_take, Forall_drop. Qed.

Lemma word_at_app rk w i : (4 * i + 4 <= length rk)%nat -> word_at (rk ++ w) i = word_at rk i.
Proof.
  intros H. unfold word_at. rewrite drop_app_le by lia. apply take_app_le. rewrite length_drop. lia.
Qed.

(** Word [i] of the key schedule from the words before it. *)
Definition word_of (prev old : list Z) (i : nat) : list Z :=
  let temp :=
    if (i mod 4 =? 0)%nat then
      xor_bytes (map getSBoxValue (RotWord prev)) [rd Rcon (Z.of_nat (i / 4)); 0; 0; 0]
    else prev in
  xor_bytes old temp.

Lemma next_word_of rk i : (4 <= i)%nat -> (4 * i <= length rk)%nat ->
  next_word rk i = word_of (word_at rk (i - 1)) (word_at rk (i - 4)) i.
Proof.
  intros Hi Hl. unfold next_word, word_of, Nk.
  destruct (i mod 4 =? 0)%nat; [|done].
  assert (length (word_at rk (i - 1)) = 4%nat) as Hw by (apply length_word_at; lia).
  destruct (word_at rk (i - 1)) as [|a [|b [|c [|d []]]]]; try discriminate Hw.
  f_equal. cbn -[Z.lxor getSBoxValue rd Z.of_nat Nat.div].
  rewrite !Z.lxor_0_r. done.
Qed.

Lemma length_word_of p o i : length p = 4%nat -> length o = 4%nat -> length (word_of p o i) = 4%nat.
Proof.
  intros Hp Ho. unfold word_of, xor_bytes. rewrite length_zip_with, Ho.
  destruct (i mod 4 =? 0)%nat; [|by rewrite Hp].
  destruct p as [|a [|b [|c [|d []]]]]; by try discriminate Hp.
Qed.

Lemma xor_bytes_bytes a b : bytes a -> bytes b -> bytes (xor_bytes a b).
Proof.
  intros Ha. revert b. induction Ha as [|x a Hx Ha IH]; intros b Hb; [done|].
  destruct Hb as [|y b Hy Hb]; [done|]. constructor; [by apply lxor_byte|by apply IH].
Qed.

Lemma map_sbox_bytes l : bytes (map getSBoxValue l).
Proof. induction l; simpl; auto using sbox_byte. Qed.

Lemma Rcon_byte i : byte (rd Rcon i).
Proof. apply rd_byte. apply (bool_decide_unpack _). by vm_compute. Qed.

Lemma word_of_bytes p o i : bytes p -> bytes o -> bytes (word_of p o i).
Proof.
  intros Hp Ho. unfold word_of. apply xor_bytes_bytes; [done|].
  destruct (i mod 4 =? 0)%nat; [|done].
  apply xor_bytes_bytes; [apply map_sbox_bytes|]. forall_list; unfold byte; try lia. apply Rcon_byte.
Qed.

Lemma schedule_shape key n : block key ->
  length (schedule key n) = (16 + 4 * n)%nat /\ bytes (schedule key n).
Proof.
  intros [Hl Hb]. induction n as [|n [IHl IHb]].
  - unfold schedule. cbn [seq fold_left]. unfold KEYLEN. rewrite take_ge by lia. split; [lia|done].
  - rewrite schedule_S, next_word_of by (unfold Nk; lia). rewrite length_app, length_word_of, IHl.
    + split; [lia|]. apply Forall_app_2; [done|]. apply word_of_bytes; by apply word_at_bytes.
    + apply length_word_at. unfold Nk. lia.
    + apply length_word_at. unfold Nk. lia.
Qed.

Lemma schedule_prefix key n m i : block key -> (n <= m)%nat -> (i < 4 + n)%nat ->
  word_at (schedule key m) i = word_at (schedule key n) i.
Proof.
  intros Hk Hnm Hi. induction Hnm as [|m Hnm IH]; [done|].
  rewrite schedule_S, word_at_app; [done|]. destruct (schedule_shape key m Hk). lia.
Qed.

Lemma KeyExpansion_schedule key : KeyExpansion key = schedule key 40.
Proof. unfold KeyExpansion, schedule. change (Nb * (Nr + 1) - Nk)%nat with 40%nat. reflexivity. Qed.

Lemma KeyExpansion_shape key : block key ->
  length (KeyExpansion key) = 176%nat /\ bytes (KeyExpansion key).
Proof. intros Hk. rewrite KeyExpansion_schedule. destruct (schedule_shape key 40 Hk). by split. Qed.

Lemma KeyExpansion_words key i : block key -> (4 <= i < 44)%nat ->
  word_at (KeyExpansion key) i =
  word_of (word_at (KeyExpansion key) (i - 1)) (word_at (KeyExpansion key) (i - 4)) i.
Proof.
  intros Hk Hi. rewrite KeyExpansion_schedule.
  rewrite (schedule_prefix key (i - 3) 40), (schedule_prefix key (i - 4) 40 (i - 1)),
    (schedule_prefix key (i - 4) 40 (i - 4)) by (done || lia).
  replace (i - 3)%nat with (S (i - 4)) by lia. rewrite schedule_S.
  destruct (schedule_shape key (i - 4) Hk) as [Hl _].
  replace (Nk + (i - 4))%nat with i by (unfold Nk; lia).
  unfold word_at at 1. rewrite drop_app_length' by lia.
  rewrite next_word_of by lia. apply take_ge.
  rewrite length_word_of; [lia| |]; apply length_word_at; lia.
Qed.

(** ** Decryption undoes encryption *)

Lemma AddRoundKey_block rk n s : block s -> (n * 16 + 16 <= length rk)%nat -> bytes rk ->
  block (AddRoundKey rk n s).
Proof.
  intros Hs Hl Hb. apply xor_bytes_block; [done| |by apply Forall_drop].
  rewrite length_drop. unfold Nb. lia.
Qed.

Lemma unsub_unshift s : block s -> InvSubBytes (InvShiftRows (ShiftRows (SubBytes s))) = s.
Proof.
  intros Hs. rewrite InvShiftRows_ShiftRows by by apply SubBytes_block.
  apply InvSubBytes_SubBytes, Hs.
Qed.

Lemma Cipher_eq rk s : Cipher rk s =
  AddRoundKey rk Nr (ShiftRows (SubBytes (fold_left (enc_round rk) (seq 1 (Nr - 1)) (AddRoundKey rk 0 s)))).
Proof. reflexivity. Qed.

Lemma InvCipher_eq rk s : InvCipher rk s =
  AddRoundKey rk 0 (InvSubBytes (InvShiftRows
    (fold_left (dec_round rk) (rev (seq 1 (Nr - 1))) (AddRoundKey rk Nr s)))).
Proof. reflexivity. Qed.

Section Rounds.
Context (rk : list Z) (Hrk : length rk = 176%nat) (Hbytes : bytes rk).

Lemma enc_round_block s n : block s -> (n <= 10)%nat -> block (enc_round rk s n).
Proof.
  intros Hs Hn. apply AddRoundKey_block; [|lia|done].
  by apply MixColumns_block, ShiftRows_block, SubBytes_block.
Qed.

Lemma enc_rounds_block s n : block s -> (n <= 9)%nat -> block (fold_left (enc_round rk) (seq 1 n) s).
Proof.
  intros Hs. induction n as [|n IH]; intros Hn; [done|].
  rewrite seq_S, fold_left_app. apply enc_round_block; [apply IH|]; lia.
Qed.

Lemma dec_round_undoes s n : block s -> (n <= 10)%nat ->
  dec_round rk (ShiftRows (SubBytes (enc_round rk s n))) n = ShiftRows (SubBytes s).
Proof.
  intros Hs Hn. unfold dec_round. rewrite unsub_unshift by by apply enc_round_block.
  unfold enc_round. rewrite AddRoundKey_twice by (auto using MixColumns_block, ShiftRows_block, SubBytes_block; lia).
  apply InvMixColumns_MixColumns. by apply ShiftRows_block, SubBytes_block.
Qed.

Lemma rounds_undone s n : block s -> (n <= 9)%nat ->
  fold_left (dec_round rk) (rev (seq 1 n)) (ShiftRows (SubBytes (fold_left (enc_round rk) (seq 1 n) s))) =
  ShiftRows (SubBytes s).
Proof.
  intros Hs. induction n as [|n IH]; intros Hn; [done|].
  rewrite seq_S, fold_left_snoc, rev_unit, fold_left_cons. change (1 + n)%nat with (S n).
  rewrite dec_round_undoes by (try apply enc_rounds_block; (done || lia)). apply IH. lia.
Qed.

Lemma InvCipher_Cipher s : block s -> InvCipher rk (Cipher rk s) = s.
Proof.
  intros Hs. rewrite InvCipher_eq, Cipher_eq.
  assert (Nr - 1 <= 9)%nat as H9 by (unfold Nr; lia). assert (Nr * 16 + 16 <= 176)%nat as H10 by (unfold Nr; lia).
  assert (block (AddRoundKey rk 0 s)) as H0 by (apply AddRoundKey_block; (done || lia)).
  rewrite (AddRoundKey_twice rk Nr); [|apply ShiftRows_block, SubBytes_block, enc_rounds_block; (done || lia)|lia].
  rewrite rounds_undone, unsub_unshift by (done || lia). apply AddRoundKey_twice; [done|lia].
Qed.

Lemma Cipher_block s : block s -> block (Cipher rk s).
Proof.
  intros Hs. rewrite Cipher_eq.
  assert (Nr - 1 <= 9)%nat as H9 by (unfold Nr; lia). assert (Nr * 16 + 16 <= 176)%nat as H10 by (unfold Nr; lia).
  apply AddRoundKey_block; [|lia|done].
  apply ShiftRows_block, SubBytes_block, enc_rounds_block; [|lia]. apply AddRoundKey_block; (done || lia).
Qed.
End Rounds.

Lemma ECB_encrypt_block input key : block input -> block key -> block (AES128_ECB_encrypt input key).
Proof.
  intros Hi Hk. unfold AES128_ECB_encrypt. destruct (KeyExpansion_shape key Hk).
  apply Cipher_block; [done..|]. unfold KEYLEN. rewrite take_ge; [done|]. destruct Hi. lia.
Qed.

(** Decryption with the same key undoes encryption, for every key and every
    block; the cipher text is a block of bytes again. *)
Theorem aes_round_trip input key : block key -> block input ->
  AES128_ECB_decrypt (AES128_ECB_encrypt input key) key = input /\
  block (AES128_ECB_encrypt input key).
Proof.
  intros Hk Hi. pose proof (ECB_encrypt_block input key Hi Hk) as Hc. split; [|done].
  unfold AES128_ECB_decrypt, KEYLEN. rewrite take_ge by (destruct Hc; lia).
  unfold AES128_ECB_encrypt, KEYLEN. rewrite take_ge by (destruct Hi; lia).
  destruct (KeyExpansion_shape key Hk). by apply InvCipher_Cipher.
Qed.

#[export] Instance block_dec s : Decision (block s).
Proof. unfold block. apply _. Defined.

Lemma aes_round_trip_witness :
  AES128_ECB_decrypt (AES128_ECB_encrypt (from_hex 0x6bc1bee22e409f96e93d7e117393172a)
    (from_hex 0x2b7e151628aed2a6abf7158809cf4f3c)) (from_hex 0x2b7e151628aed2a6abf7158809cf4f3c) =
  from_hex 0x6bc1bee22e409f96e93d7e117393172a /\
  block (AES128_ECB_encrypt (from_hex 0x6bc1bee22e409f96e93d7e117393172a)
    (from_hex 0x2b7e151628aed2a6abf7158809cf4f3c)).
Proof. apply aes_round_trip; apply (bool_decide_unpack _); vm_compute; exact I. Defined.

(** ** FIPS 197

    The standard's definition of the cipher: the field GF(2^8) of polynomials
    modulo x^8 + x^4 + x^3 + x + 1, the S-box as the affine image of the inverse
    and the column matrix over the field.  Row [r] of column [c] of the state is
    byte [4 * c + r]. *)

Definition reduce_11b (p : Z) : Z :=
  fold_left (fun p i => if Z.testbit p i then Z.lxor p (Z.shiftl 0x11b (i - 8)) else p)
    [14; 13; 12; 11; 10; 9; 8] p.

Definition gmul (a b : Z) : Z :=
  reduce_11b (fold_left (fun acc i => if Z.testbit b i then Z.lxor acc (Z.shiftl a i) else acc)
    [0; 1; 2; 3; 4; 5; 6; 7] 0).

Definition ginv (a : Z) : Z := default 0 (List.find (fun b => gmul a b =? 1) (seqZ 0 256)).

Definition fips_sbox (x : Z) : Z :=
  let b := ginv x in
  let bit i := Z.b2z (xorb (xorb (xorb (xorb (xorb (Z.testbit b i) (Z.testbit b ((i + 4) mod 8)))
    (Z.testbit b ((i + 5) mod 8))) (Z.testbit b ((i + 6) mod 8))) (Z.testbit b ((i + 7) mod 8)))
    (Z.testbit 0x63 i)) in
  fold_left (fun acc i => acc + Z.shiftl (bit i) i) [0; 1; 2; 3; 4; 5; 6; 7] 0.

Definition fips_rcon (i : nat) : Z := Nat.iter (i - 1) (gmul 2) 1.

Definition fips_word (prev old : list Z) (i : nat) : list Z :=
  let temp :=
    if (i mod 4 =? 0)%nat then xor_bytes (map fips_sbox (RotWord prev)) [fips_rcon (i / 4); 0; 0; 0]
    else prev in
  xor_bytes old temp.

(** [w] is the key schedule of [key]. *)
Definition fips_schedule (key : list Z) (w : nat -> list Z) : Prop :=
  (forall i, (i < 4)%nat -> w i = word_at key i) /\
  (forall i, (4 <= i < 44)%nat -> w i = fips_word (w (i - 1)%nat) (w (i - 4)%nat) i).

Definition fips_state (f : nat -> nat -> Z) : list Z :=
  map (fun k => f (k mod 4)%nat (k / 4)%nat) (seq 0 16).

Definition fips_ShiftRows (s : list Z) : list Z :=
  fips_state (fun r c => at_ s ((c + r) mod 4) r).

Definition fips_MixColumns (s : list Z) : list Z :=
  fips_state (fun r c =>
    xor4 (gmul 2 (at_ s c r)) (gmul 3 (at_ s c ((r + 1) mod 4))) (at_ s c ((r + 2) mod 4))
      (at_ s c ((r + 3) mod 4))).

Definition fips_AddRoundKey (w : nat -> list Z) (round : nat) (s : list Z) : list Z :=
  xor_bytes s (w (4 * round)%nat ++ w (4 * round + 1)%nat ++ w (4 * round + 2)%nat ++ w (4 * round + 3)%nat).

Definition fips_round (w : nat -> list Z) (s : list Z) (round : nat) : list Z :=
  fips_AddRoundKey w round (fips_MixColumns (fips_ShiftRows (map fips_sbox s))).

Definition fips_cipher (w : nat -> list Z) (input : list Z) : list Z :=
  fips_AddRoundKey w 10 (fips_ShiftRows (map fips_sbox
    (fold_left (fips_round w) (seq 1 9) (fips_AddRoundKey w 0 input)))).

Lemma sbox_fips x : byte x -> getSBoxValue x = fips_sbox x.
Proof.
  intros Hx. apply Z.eqb_eq. revert x Hx.
  apply (byte_all (fun x => getSBoxValue x =? fips_sbox x)). by vm_compute.
Qed.

Lemma map_sbox_fips s : bytes s -> map getSBoxValue s = map fips_sbox s.
Proof. induction 1 as [|x s Hx Hs IH]; [done|]. cbn [map]. by rewrite sbox_fips, IH. Qed.

Lemma gmul_2 x : byte x -> gmul 2 x = xtime x.
Proof.
  intros Hx. apply Z.eqb_eq. revert x Hx. apply (byte_all (fun x => gmul 2 x =? xtime x)). by vm_compute.
Qed.

Lemma gmul_3 x : byte x -> gmul 3 x = Z.lxor (xtime x) x.
Proof.
  intros Hx. apply Z.eqb_eq. revert x Hx.
  apply (byte_all (fun x => gmul 3 x =? Z.lxor (xtime x) x)). by vm_compute.
Qed.

Lemma mix_column_fips a b c d : byte a -> byte b -> byte c -> byte d ->
  mix_column a b c d =
  [xor4 (gmul 2 a) (gmul 3 b) c d; xor4 (gmul 2 b) (gmul 3 c) d a;
   xor4 (gmul 2 c) (gmul 3 d) a b; xor4 (gmul 2 d) (gmul 3 a) b c].
Proof.
  intros Ha Hb Hc Hd. unfold mix_column, xor4. rewrite !gmul_2, !gmul_3 by done. spread.
  f_equal; [xor_ring|]. f_equal; [xor_ring|]. f_equal; [xor_ring|]. f_equal. xor_ring.
Qed.

Lemma MixColumns_fips s : block s -> MixColumns s = fips_MixColumns s.
Proof.
  intros H. explode_block s H. rewrite MixColumns_columns, !mix_column_fips by done. reflexivity.
Qed.

Lemma ShiftRows_fips s : block s -> ShiftRows s = fips_ShiftRows s.
Proof. intros H. by explode_block s H. Qed.

Lemma Rcon_fips i : (1 <= i <= 10)%nat -> rd Rcon (Z.of_nat i) = fips_rcon i.
Proof. intros H. do 11 (destruct i as [|i]; [first [lia | by vm_compute]|]). lia. Qed.

Lemma word_of_fips p o i : bytes p -> (4 <= i < 44)%nat -> word_of p o i = fips_word p o i.
Proof.
  intros Hp Hi. unfold word_of, fips_word. destruct (Nat.eqb_spec (i mod 4) 0); [|done].
  rewrite map_sbox_fips by (apply Forall_app_2; [by apply Forall_drop|by apply Forall_take]).
  rewrite Rcon_fips; [done|].
  split; [apply Nat.div_le_lower_bound; lia|].
  pose proof (Nat.Div0.div_le_mono i 43 4). change (43 / 4)%nat with 10%nat in *. lia.
Qed.

Lemma words_of_16 (k : list Z) n :
  take 16 (drop (16 * n) k) =
  word_at k (4 * n) ++ word_at k (4 * n + 1) ++ word_at k (4 * n + 2) ++ word_at k (4 * n + 3).
Proof.
  unfold word_at.
  replace (4 * (4 * n))%nat with (16 * n)%nat by lia.
  replace (4 * (4 * n + 1))%nat with (16 * n + 4)%nat by lia.
  replace (4 * (4 * n + 2))%nat with (16 * n + 8)%nat by lia.
  replace (4 * (4 * n + 3))%nat with (16 * n + 12)%nat by lia.
  rewrite <- (drop_drop k 4 (16 * n)), <- (drop_drop k 8 (16 * n)), <- (drop_drop k 12 (16 * n)).
  generalize (drop (16 * n) k) as l. intros l.
  do 16 (destruct l as [|? l]; [done|]). done.
Qed.

Lemma xor_bytes_take a b n : length a = n -> xor_bytes a b = xor_bytes a (take n b).
Proof.
  unfold xor_bytes. revert b n. induction a as [|x a IH]; intros [|y b] n <-; simpl; try done.
  f_equal. by apply IH.
Qed.

Lemma AddRoundKey_fips rk n s : block s ->
  AddRoundKey rk n s = fips_AddRoundKey (word_at rk) n s.
Proof.
  intros [Hs _]. unfold AddRoundKey, fips_AddRoundKey. rewrite <- words_of_16.
  rewrite (xor_bytes_take s _ 16) by done. replace (n * Nb * 4)%nat with (16 * n)%nat by (unfold Nb; lia).
  done.
Qed.

Lemma enc_round_fips rk n s : block s -> enc_round rk s n = fips_round (word_at rk) s n.
Proof.
  intros Hs. unfold enc_round, fips_round.
  pose proof (SubBytes_block s Hs) as H1. pose proof (ShiftRows_block _ H1) as H2.
  rewrite AddRoundKey_fips by by apply MixColumns_block.
  rewrite MixColumns_fips, ShiftRows_fips by done. unfold SubBytes. by rewrite map_sbox_fips by apply Hs.
Qed.

Lemma enc_rounds_fips rk n s : length rk = 176%nat -> bytes rk -> block s -> (n <= 9)%nat ->
  fold_left (enc_round rk) (seq 1 n) s = fold_left (fips_round (word_at rk)) (seq 1 n) s.
Proof.
  intros Hl Hb Hs. induction n as [|n IH]; intros Hn; [done|].
  rewrite seq_S, !fold_left_snoc, <- IH by lia.
  apply enc_round_fips, enc_rounds_block; (done || lia).
Qed.

(** C29. AES128_ECB_encrypt is the cipher of FIPS 197: there is a key schedule of the
    standard for the key under which the output is the standard's cipher of the
    input. *)
Theorem aes_implements_fips197 input key : block key -> block input ->
  exists w, fips_schedule key w /\ AES128_ECB_encrypt input key = fips_cipher w input.
Proof.
  intros Hk Hi. destruct (KeyExpansion_shape key Hk) as [Hl Hb].
  exists (word_at (KeyExpansion key)). split; [split|].
  - intros i Hlt. rewrite KeyExpansion_schedule, (schedule_prefix key 0) by (done || lia).
    unfold schedule. cbn [seq fold_left]. unfold KEYLEN. rewrite take_ge by (destruct Hk; lia). done.
  - intros i Hlt. rewrite KeyExpansion_words, word_of_fips by (done || by apply word_at_bytes). done.
  - unfold AES128_ECB_encrypt, KEYLEN. rewrite take_ge by (destruct Hi; lia). rewrite Cipher_eq.
    assert (block (AddRoundKey (KeyExpansion key) 0 input)) as H0 by (apply AddRoundKey_block; (done || lia)).
    pose proof (enc_rounds_block _ Hl Hb _ 9 H0 ltac:(lia)) as H9.
    unfold fips_cipher, Nr. change (10 - 1)%nat with 9%nat.
    rewrite AddRoundKey_fips by by apply ShiftRows_block, SubBytes_block.
    rewrite ShiftRows_fips by by apply SubBytes_block.
    unfold SubBytes. rewrite map_sbox_fips by apply H9.
    rewrite enc_rounds_fips, AddRoundKey_fips by (done || lia). done.
Qed.

Lemma aes_implements_fips197_witness :
  exists w, fips_schedule (from_hex 0x2b7e151628aed2a6abf7158809cf4f3c) w /\
  from_hex 0x3ad77bb40d7a3660a89ecaf32466ef97 = fips_cipher w (from_hex 0x6bc1bee22e409f96e93d7e117393172a).
Proof.
  rewrite <- nist_vector_1.
  apply aes_implements_fips197; apply (bool_decide_unpack _); vm_compute; exact I.
Defined.
