(* ===== verification/Ccm.v ===== *)
(** * AES-CCM (src/libs2/crypto/ccm/ccm.c)

    The authenticated encryption of the S2 layer, with the predefined lengths of
    the build (q = 2, n = 13, t = 8).  It is written against the interface
    [BlockCipher]: all it needs is that the cipher maps blocks to blocks, which
    AES-128 discharges.  Buffers are encrypted in place.

    The theorems: the encryption is the one of NIST SP 800-38C for every AAD of 1
    to 255 bytes; decryption accepts exactly the messages whose tag is the one
    computed for the decrypted text and undoes encryption; and two deviations,
    the length of longer AADs and the result for an empty text. *)

From S2P Require Import Prelude Aes.
#[local] Open Scope Z_scope.

(** What the modes of operation need of the block cipher. *)
Class BlockCipher := {
  ciph_block : list Z -> list Z -> list Z;
  ciph_block_block : forall key b, block key -> block b -> block (ciph_block key b)
}.

#[export] Instance aes128 : BlockCipher.
Proof.
  refine {| ciph_block key b := AES128_ECB_encrypt b key |}.
  intros key b Hk Hb. by apply ECB_encrypt_block.
Defined.

Definition BLOCK_SIZE : Z := 16.
Definition q : Z := 2.
Definition n : Z := 13.
Definition t : Z := 8.
Definition B0_AAD : Z := 0x40.

Inductive ccm_mode := ENCRYPT | DECRYPT.

Definition int32 (z : Z) : Z := (z + 0x80000000) mod 0x100000000 - 0x80000000.

Definition convert_to_octet_string (text_to_encrypt_len q : Z) : list Z :=
  zeros (Z.to_nat (q - 2)) ++
  [Z.shiftr (Z.land text_to_encrypt_len 0xff00) 8; Z.land text_to_encrypt_len 0xff].

Definition format_b0 (t text_to_encrypt_len : Z) (nonce : list Z) : list Z :=
  let b := 0 in
  let b := Z.lor b B0_AAD in
  let b := Z.lor b (Z.shiftl (Z.land (Z.quot (t - 2) 2) 0x7) 3) in
  let b := Z.lor b (Z.land (q - 1) 0x7) in
  [b] ++ sub_buf nonce 0 n ++ convert_to_octet_string text_to_encrypt_len q.

(** [next_block[i] = block[i] ^ next_block[i]] for the first [size] bytes. *)
Definition bit_xor (block next_block : list Z) (size : Z) : list Z :=
  zip_with Z.lxor (take (Z.to_nat size) block) (take (Z.to_nat size) next_block) ++
  drop (Z.to_nat size) next_block.

Section Ccm.
Context `{BlockCipher}.

(** Chains the block [blocks1] into [blocks0]. *)
Definition chain (key blocks1 blocks0 : list Z) : list Z :=
  ciph_block key (bit_xor blocks1 blocks0 BLOCK_SIZE).

(** The loop over the blocks of [data] from [offset] on: [cnt] blocks are left,
    and the last one holds [part] bytes unless [part] is 0. *)
Fixpoint block_loop (key data : list Z) (cnt : nat) (part offset : Z) (blocks0 : list Z) : list Z :=
  match cnt with
  | O => blocks0
  | S cnt =>
      if (cnt =? 0)%nat && negb (part =? 0) then
        chain key (sub_buf data offset part ++ zeros (Z.to_nat (BLOCK_SIZE - part))) blocks0
      else
        block_loop key data cnt part (offset + BLOCK_SIZE)
          (chain key (sub_buf data offset BLOCK_SIZE) blocks0)
  end.

(** The number of blocks of [len] bytes, with C's division on [int]. *)
Definition no_of_blocks (len : Z) : Z :=
  let no := Z.quot len BLOCK_SIZE in
  if negb (Z.rem len BLOCK_SIZE =? 0) then no + 1 else no.

(** The part of format_aad behind the choice of the encoding of the length:
    [header] starts the first block, [aad_bytes_in_first_block] bytes fit behind. *)
Definition format_aad_body (key aad : list Z) (aad_len : Z) (blocks0 header : list Z)
    (aad_bytes_in_first_block : Z) : list Z :=
  let blocks1 := header ++ sub_buf aad 0 (Z.min aad_len aad_bytes_in_first_block) in
  if aad_len <? aad_bytes_in_first_block then
    chain key (blocks1 ++ zeros (Z.to_nat (aad_bytes_in_first_block - aad_len))) blocks0
  else if aad_bytes_in_first_block <? aad_len then
    let blocks0 := chain key blocks1 blocks0 in
    let new_aad_len := int32 (aad_len - aad_bytes_in_first_block) in
    block_loop key aad (Z.to_nat (no_of_blocks new_aad_len)) (Z.rem new_aad_len BLOCK_SIZE)
      aad_bytes_in_first_block blocks0
  else chain key blocks1 blocks0.

Definition format_aad (key aad : list Z) (aad_len : Z) (blocks0 : list Z) : option (list Z) :=
  if aad_len <? 65280 then Some (format_aad_body key aad aad_len blocks0 [0; u8 aad_len] 14)
  else if (65280 <=? aad_len) && (aad_len <=? 0xffffffff) then
    Some (format_aad_body key aad aad_len blocks0 [0xff; 0xfe; 0; 1; 0; 0] 10)
  else None.

Definition format_payload_block (key P : list Z) (text_to_encrypt_len : Z) (blocks0 : list Z) : list Z :=
  block_loop key P (Z.to_nat (no_of_blocks text_to_encrypt_len)) (Z.rem text_to_encrypt_len BLOCK_SIZE)
    0 blocks0.

Definition counter_block (nonce : list Z) (i : Z) : list Z :=
  [Z.land (q - 1) 0x7] ++ sub_buf nonce 0 n ++ [Z.shiftr (Z.land i 0xff00) 8; Z.land i 0xff].

(** One pass of the counter loop; the state is the data, the bytes left and
    [block] (which is [mac] when encrypting). *)
Definition ctr_pass (key nonce : list Z) (mode : ccm_mode) (mac_len : Z)
    (st : list Z * Z * list Z) (i : Z) : list Z * Z * list Z :=
  let '(data_array, length, block) := st in
  let ctr := ciph_block key (counter_block nonce i) in
  if i =? 0 then
    match mode with
    | ENCRYPT => (data_array, length, bit_xor ctr block mac_len)
    | DECRYPT => (data_array, length, ctr)
    end
  else
    let size := if BLOCK_SIZE <=? length then BLOCK_SIZE else length in
    let at_ := (i - 1) * BLOCK_SIZE in
    (memcpy_at data_array at_ (bit_xor ctr (sub_buf data_array at_ size) size),
     u16 (length - BLOCK_SIZE), block).

Definition encrypt_or_decrypt (data_array : list Z) (data_len num_ctr_blks : Z) (block nonce : list Z)
    (mac_len : Z) (key : list Z) (mode : ccm_mode) : list Z * list Z :=
  let '(data_array, _, block) :=
    fold_left (ctr_pass key nonce mode mac_len) (seqZ 0 num_ctr_blks) (data_array, data_len, block) in
  (data_array, block).

(** The results are the returned length and the buffer. *)
Definition CCM_encrypt_and_auth (key nonce aad : list Z) (aad_len : Z) (plain_ciphertext : list Z)
    (text_to_encrypt_len : Z) : Z * list Z :=
  let mac_len := t in
  let counter_blocks := text_to_encrypt_len / BLOCK_SIZE + 1 in
  let counter_blocks :=
    if negb (text_to_encrypt_len mod BLOCK_SIZE =? 0) then counter_blocks + 1 else counter_blocks in
  let blocks0 := ciph_block key (format_b0 mac_len text_to_encrypt_len nonce) in
  match format_aad key aad aad_len blocks0 with
  | None => (0, plain_ciphertext)
  | Some blocks0 =>
      let blocks0 := format_payload_block key plain_ciphertext text_to_encrypt_len blocks0 in
      let '(buf, blocks0) :=
        encrypt_or_decrypt plain_ciphertext text_to_encrypt_len counter_blocks blocks0 nonce mac_len key
          ENCRYPT in
      (text_to_encrypt_len + mac_len,
       memcpy_at buf text_to_encrypt_len (sub_buf blocks0 0 mac_len))
  end.

Definition CCM_decrypt_and_auth (key nonce aad : list Z) (aad_len : Z) (cipher_plaintext : list Z)
    (ciphertext_len : Z) : Z * list Z :=
  let text_len := u32 (ciphertext_len - t) in
  let num_counter_blocks := text_len / BLOCK_SIZE + 1 in
  let num_counter_blocks :=
    if negb (text_len mod BLOCK_SIZE =? 0) then num_counter_blocks + 1 else num_counter_blocks in
  if ciphertext_len <? t then (0, cipher_plaintext)
  else
    let '(buf, blocks0) :=
      encrypt_or_decrypt cipher_plaintext (u16 text_len) (u16 num_counter_blocks) [] nonce t key
        DECRYPT in
    let blocks0 := bit_xor (sub_buf buf text_len t) blocks0 t in
    let mac := sub_buf blocks0 0 t in
    let blocks0 := ciph_block key (format_b0 t (u16 text_len) nonce) in
    match format_aad key aad aad_len blocks0 with
    | None => (0, buf)
    | Some blocks0 =>
        let blocks0 := format_payload_block key buf (u16 text_len) blocks0 in
        if bool_decide (sub_buf blocks0 0 t = mac) then (u16 text_len, buf) else (0, buf)
    end.

End Ccm.

(** Packet vector 1 of RFC 3610. *)
Example rfc3610_vector_1 :
  CCM_encrypt_and_auth (seqZ 0xC0 16)
    [0; 0; 0; 3; 2; 1; 0; 0xA0; 0xA1; 0xA2; 0xA3; 0xA4; 0xA5] (seqZ 0 8) 8 (seqZ 8 23 ++ zeros 8) 23 =
  (31, [0x58; 0x8C; 0x97; 0x9A; 0x61; 0xC6; 0x63; 0xD2; 0xF0; 0x66; 0xD0; 0xC2; 0xC0; 0xF9; 0x89;
        0x80; 0x6D; 0x5F; 0x6B; 0x61; 0xDA; 0xC3; 0x84; 0x17; 0xE8; 0xD1; 0x2C; 0xFD; 0xF9; 0x26; 0xE0]).
Proof. by vm_compute. Qed.

(** ** NIST SP 800-38C

    The formatting of appendix A with q = 2 and t = 8, the CBC-MAC of section
    6.1 and the counter mode encryption. *)

Definition be16 (x : Z) : list Z := [x / 256; x mod 256].

Definition pad16 (l : list Z) : list Z := l ++ zeros ((16 - length l mod 16) mod 16).

Section Nist.
Context `{BlockCipher} (key : list Z).

Fixpoint cbc_mac (blocks : nat) (y l : list Z) : list Z :=
  match blocks with
  | O => y
  | S blocks => cbc_mac blocks (ciph_block key (xor_bytes (take 16 l) y)) (drop 16 l)
  end.

(** The formatted input for a nonempty AAD of less than 2^16 - 2^8 bytes. *)
Definition nist_format (nonce aad payload : list Z) : list Z :=
  ([0x40 + 8 * ((t - 2) / 2) + (q - 1)] ++ nonce ++ be16 (Zlength payload)) ++
  pad16 (be16 (Zlength aad) ++ aad) ++ pad16 payload.

Definition nist_tag (nonce aad payload : list Z) : list Z :=
  let b := nist_format nonce aad payload in
  take 8 (cbc_mac (length b / 16) (zeros 16) b).

Definition nist_counter (nonce : list Z) (j : Z) : list Z := [q - 1] ++ nonce ++ be16 j.

Definition keystream (nonce : list Z) (blocks : Z) : list Z :=
  concat (map (fun j => ciph_block key (nist_counter nonce j)) (seqZ 1 blocks)).

Definition nist_encrypt (nonce aad payload : list Z) : list Z :=
  xor_bytes payload (keystream nonce ((Zlength payload + 15) / 16)) ++
  xor_bytes (nist_tag nonce aad payload) (ciph_block key (nist_counter nonce 0)).
End Nist.

(** ** Blocks of a buffer *)

Ltac zdiv := Z.to_euclidean_division_equations; lia.

Definition blocks_of (len : nat) : nat := (len + 15) / 16.

Lemma length_pad16 l : length (pad16 l) = (16 * blocks_of (length l))%nat.
Proof.
  unfold pad16, zeros, blocks_of. rewrite length_app, length_replicate.
  pose proof (Nat.div_mod_eq (length l) 16). pose proof (Nat.mod_upper_bound (length l) 16).
  pose proof (Nat.div_mod_eq (length l + 15) 16). pose proof (Nat.mod_upper_bound (length l + 15) 16).
  pose proof (Nat.div_mod_eq (16 - length l mod 16) 16). pose proof (Nat.mod_upper_bound (16 - length l mod 16) 16).
  lia.
Qed.

Lemma bit_xor_16 a b : length b = 16%nat -> bit_xor a b BLOCK_SIZE = xor_bytes (take 16 a) b.
Proof.
  intros Hb. unfold bit_xor, xor_bytes. change (Z.to_nat BLOCK_SIZE) with 16%nat.
  rewrite drop_ge, app_nil_r, (take_ge b) by lia. done.
Qed.

Lemma no_of_blocks_pos len : 0 <= len -> no_of_blocks len = (len + 15) / 16.
Proof.
  intros Hl. unfold no_of_blocks, BLOCK_SIZE. destruct (Z.eqb_spec (Z.rem len 16) 0); cbn [negb]; zdiv.
Qed.

Lemma pad16_small l : (0 < length l < 16)%nat -> pad16 l = l ++ zeros (16 - length l).
Proof.
  intros Hl. unfold pad16. rewrite (Nat.mod_small (length l)) by lia. by rewrite Nat.mod_small by lia.
Qed.

Lemma pad16_step l : (16 <= length l)%nat -> pad16 l = take 16 l ++ pad16 (drop 16 l).
Proof.
  intros Hl. unfold pad16. rewrite app_assoc, take_drop, length_drop. do 2 f_equal.
  replace (length l) with (length l - 16 + 1 * 16)%nat at 1 by lia. by rewrite Nat.Div0.mod_add.
Qed.

Lemma sub_buf_take b i k m : 0 <= k -> k <= m -> take (Z.to_nat k) (sub_buf b i m) = sub_buf b i k.
Proof. intros. unfold sub_buf. rewrite take_take. f_equal. lia. Qed.

Lemma sub_buf_drop b i k m : 0 <= i -> 0 <= k -> k <= m ->
  drop (Z.to_nat k) (sub_buf b i m) = sub_buf b (i + k) (m - k).
Proof.
  intros. unfold sub_buf. replace (Z.to_nat m) with (Z.to_nat k + Z.to_nat (m - k))%nat by lia.
  rewrite <- take_drop_commute, drop_drop. do 2 f_equal. lia.
Qed.

Lemma zeros_bytes k : bytes (zeros k).
Proof. apply Forall_replicate. unfold byte. lia. Qed.

Section Loops.
Context `{BlockCipher} (key : list Z) (Hkey : block key).

Lemma chain_block b1 b0 : block b1 -> block b0 -> block (chain key b1 b0).
Proof.
  intros H1 H0. unfold chain. rewrite bit_xor_16 by apply H0.
  apply ciph_block_block; [done|]. rewrite take_ge by (destruct H1; lia).
  destruct H0. apply xor_bytes_block; [done|lia|done].
Qed.

Lemma chain_eq b1 b0 : block b0 -> chain key b1 b0 = ciph_block key (xor_bytes (take 16 b1) b0).
Proof. intros H0. unfold chain. by rewrite bit_xor_16 by apply H0. Qed.

(** The loop over the blocks of a buffer is the CBC-MAC of the padded bytes. *)
Lemma block_loop_cbc data cnt : forall offset len b0,
  cnt = Z.to_nat ((len + 15) / 16) -> 0 <= len -> 0 <= offset -> offset + len <= Zlength data ->
  bytes data -> block b0 ->
  block_loop key data cnt (Z.rem len BLOCK_SIZE) offset b0 =
    cbc_mac key cnt b0 (pad16 (sub_buf data offset len)) /\
  block (block_loop key data cnt (Z.rem len BLOCK_SIZE) offset b0).
Proof.
  induction cnt as [|cnt IH]; intros offset len b0 Hcnt Hlen Hoff Hin Hdata Hb0; [done|].
  cbn [block_loop cbc_mac]. unfold BLOCK_SIZE.
  assert (Zlength (sub_buf data offset len) = len) as Hsub by by apply Zlength_sub_buf.
  unfold Zlength in Hsub.
  destruct ((cnt =? 0)%nat && negb (Z.rem len 16 =? 0)) eqn:E.
  - apply andb_true_iff in E as [->%Nat.eqb_eq E]. bool_to_prop.
    assert (0 < len < 16) as Hl by zdiv. rewrite Z.rem_small by lia.
    rewrite pad16_small by lia. cbn [cbc_mac].
    set (b1 := sub_buf data offset len ++ zeros (16 - length (sub_buf data offset len))).
    replace (sub_buf data offset len ++ zeros (Z.to_nat (16 - len))) with b1
      by (unfold b1; do 2 f_equal; lia).
    assert (block b1) as Hb1.
    { split; [unfold b1, zeros; rewrite length_app, length_replicate; lia|].
      apply Forall_app_2; [by apply sub_buf_bytes|apply zeros_bytes]. }
    split; [by apply chain_eq|by apply chain_block].
  - assert (16 <= len) as Hl.
    { destruct (Z.le_gt_cases 16 len); [done|]. exfalso.
      apply andb_false_iff in E as [E%Nat.eqb_neq|E]; bool_to_prop; zdiv. }
    assert (block (sub_buf data offset 16)) as Hb1.
    { split; [|by apply sub_buf_bytes]. rewrite length_sub_buf by lia. done. }
    rewrite pad16_step by lia. change 16%nat with (Z.to_nat 16).
    rewrite sub_buf_take, sub_buf_drop by lia.
    rewrite take_app_length', drop_app_length' by (symmetry; apply Hb1).
    replace (Z.rem len 16) with (Z.rem (len - 16) BLOCK_SIZE) by (unfold BLOCK_SIZE; zdiv).
    destruct (IH (offset + 16) (len - 16) (chain key (sub_buf data offset 16) b0)) as [E1 E2];
      [zdiv|lia|lia|lia|done|by apply chain_block|].
    split; [|done]. rewrite E1, chain_eq by done. do 3 f_equal. rewrite take_ge; [done|]. destruct Hb1. lia.
Qed.

Lemma cbc_mac_app a l1 : forall y b l2, length l1 = (16 * a)%nat ->
  cbc_mac key (a + b) y (l1 ++ l2) = cbc_mac key b (cbc_mac key a y l1) l2.
Proof.
  revert l1. induction a as [|a IH]; intros l1 y b l2 Hl.
  - destruct l1; [done|discriminate].
  - cbn [Nat.add cbc_mac]. rewrite take_app_le, drop_app_le by lia. apply IH. rewrite length_drop. lia.
Qed.

Lemma octets x : 0 <= x < 65536 -> [Z.shiftr (Z.land x 0xff00) 8; Z.land x 0xff] = be16 x.
Proof.
  intros Hx. unfold be16. f_equal; [|f_equal].
  - rewrite Z.shiftr_land. change (Z.shiftr 0xff00 8) with (Z.ones 8).
    rewrite Z.land_ones, Z.shiftr_div_pow2 by lia. apply Z.mod_small. zdiv.
  - change 0xff with (Z.ones 8). by rewrite Z.land_ones.
Qed.

Lemma be16_bytes x : 0 <= x < 65536 -> bytes (be16 x).
Proof. intros Hx. unfold be16. forall_list; unfold byte; zdiv. Qed.

Section Nonce.
Context (nonce : list Z) (Hnonce : (13 <= length nonce)%nat) (Hbytes : bytes nonce).

Lemma counter_block_nist i : 0 <= i < 65536 ->
  counter_block nonce i = nist_counter (take 13 nonce) i /\ block (counter_block nonce i).
Proof.
  intros Hi. assert (counter_block nonce i = nist_counter (take 13 nonce) i) as E.
  { unfold counter_block, nist_counter. by rewrite octets. }
  split; [done|]. rewrite E. unfold nist_counter. split.
  - rewrite !length_app, length_take. cbn [length be16]. lia.
  - repeat apply Forall_app_2; [|by apply Forall_take|by apply be16_bytes].
    forall_list. unfold byte, q. lia.
Qed.

Lemma format_b0_nist len : 0 <= len < 65536 ->
  format_b0 t len nonce = [0x40 + 8 * ((t - 2) / 2) + (q - 1)] ++ take 13 nonce ++ be16 len /\
  block (format_b0 t len nonce).
Proof.
  intros Hi.
  assert (format_b0 t len nonce = [0x40 + 8 * ((t - 2) / 2) + (q - 1)] ++ take 13 nonce ++ be16 len) as E.
  { unfold format_b0, convert_to_octet_string. by rewrite octets. }
  split; [done|]. rewrite E. split.
  - rewrite !length_app, length_take. cbn [length be16]. lia.
  - repeat apply Forall_app_2; [|by apply Forall_take|by apply be16_bytes].
    forall_list. by vm_compute.
Qed.
End Nonce.

Lemma blocks_of_Z len : 0 <= len -> Z.to_nat ((len + 15) / 16) = blocks_of (Z.to_nat len).
Proof. intros. unfold blocks_of. rewrite Z2Nat.inj_div, Z2Nat.inj_add by lia. done. Qed.

Lemma format_payload_cbc P len b0 : 0 <= len <= Zlength P -> bytes P -> block b0 ->
  let payload := sub_buf P 0 len in
  format_payload_block key P len b0 = cbc_mac key (blocks_of (length payload)) b0 (pad16 payload) /\
  block (format_payload_block key P len b0).
Proof.
  intros Hl HP Hb0 payload. unfold format_payload_block. rewrite no_of_blocks_pos by lia.
  unfold payload. rewrite length_sub_buf, <- blocks_of_Z by lia.
  by apply block_loop_cbc; try lia.
Qed.

(** The AAD behind a header [h] is chained in as the padded bytes of both. *)
Lemma format_aad_body_cbc aad b0 h k : Zlength h + k = 16 -> 0 < k < 16 -> Zlength aad < 0x80000000 ->
  bytes h -> bytes aad -> block b0 ->
  let r := format_aad_body key aad (Zlength aad) b0 h k in
  r = cbc_mac key (blocks_of (length (h ++ aad))) b0 (pad16 (h ++ aad)) /\ block r.
Proof.
  intros Hhk Hk Ha Hh Hb Hb0. cbv zeta. unfold format_aad_body, Zlength in *.
  assert (length h + Z.to_nat k = 16)%nat as Hlh by lia.
  destruct (Z.ltb_spec (Z.of_nat (length aad)) k) as [Hlt|Hge];
    [|destruct (Z.ltb_spec k (Z.of_nat (length aad))) as [Hgt|Hle]].
  - rewrite Z.min_l by lia. unfold sub_buf. change (Z.to_nat 0) with 0%nat.
    rewrite drop_0, Nat2Z.id, (take_ge aad) by lia.
    assert (blocks_of (length (h ++ aad)) = 1%nat) as ->.
    { unfold blocks_of. rewrite length_app. symmetry.
      apply (Nat.div_unique _ _ _ (length h + length aad - 1)%nat); lia. }
    rewrite pad16_small by (rewrite length_app; lia). cbn [cbc_mac].
    replace (Z.to_nat (k - Z.of_nat (length aad))) with (16 - length (h ++ aad))%nat
      by (rewrite length_app; lia).
    set (b1 := (h ++ aad) ++ zeros (16 - length (h ++ aad))).
    assert (block b1) as Hb1.
    { split; [unfold b1, zeros; rewrite !length_app, length_replicate; lia|].
      repeat apply Forall_app_2; try done. apply zeros_bytes. }
    split; [by apply chain_eq|by apply chain_block].
  - rewrite Z.min_r by lia. set (b1 := h ++ sub_buf aad 0 k).
    assert (block b1) as Hb1.
    { split; [unfold b1; rewrite length_app, length_sub_buf by (unfold Zlength; lia); lia|].
      apply Forall_app_2; [done|by apply sub_buf_bytes]. }
    assert (int32 (Z.of_nat (length aad) - k) = Z.of_nat (length aad) - k) as ->.
    { unfold int32. rewrite Z.mod_small; lia. }
    rewrite no_of_blocks_pos by lia.
    destruct (block_loop_cbc aad _ k (Z.of_nat (length aad) - k) (chain key b1 b0) eq_refl) as [E1 E2];
      [lia|lia|unfold Zlength; lia|done|by apply chain_block|].
    split; [|done]. rewrite E1, chain_eq by done.
    assert (blocks_of (length (h ++ aad)) = S (Z.to_nat ((Z.of_nat (length aad) - k + 15) / 16))) as ->.
    { rewrite blocks_of_Z by lia. unfold blocks_of. rewrite length_app.
      replace (length h + length aad + 15)%nat with (Z.to_nat (Z.of_nat (length aad) - k) + 15 + 1 * 16)%nat by lia.
      rewrite Nat.div_add by lia. lia. }
    rewrite (pad16_step (h ++ aad)) by (rewrite length_app; lia). cbn [cbc_mac].
    assert (take 16 (h ++ aad) = b1) as ->.
    { rewrite take_app. unfold b1, sub_buf. change (Z.to_nat 0) with 0%nat. rewrite drop_0, (take_ge h) by lia.
      do 2 f_equal. lia. }
    rewrite take_app_length', drop_app_length' by (symmetry; apply Hb1).
    rewrite (take_ge b1) by (destruct Hb1; lia). f_equal. f_equal.
    rewrite drop_app_ge by lia. unfold sub_buf. rewrite take_ge by (rewrite length_drop; lia). f_equal. lia.
  - rewrite Z.min_r by lia.
    unfold sub_buf. change (Z.to_nat 0) with 0%nat. rewrite drop_0, (take_ge aad) by lia.
    assert (block (h ++ aad)) as Hb1 by (split; [rewrite length_app; lia|by apply Forall_app_2]).
    assert (blocks_of (length (h ++ aad)) = 1%nat) as -> by (destruct Hb1 as [-> _]; done).
    rewrite pad16_step, drop_ge by (destruct Hb1; lia). cbn [cbc_mac].
    split; [|by apply chain_block]. rewrite chain_eq by done. rewrite app_nil_r, take_take. done.
Qed.

Lemma format_aad_block aad b0 : Zlength aad < 0x80000000 -> bytes aad -> block b0 ->
  exists b, format_aad key aad (Zlength aad) b0 = Some b /\ block b.
Proof.
  intros Ha Hb Hb0. unfold format_aad. destruct (Z.ltb_spec (Zlength aad) 65280).
  - eexists. split; [done|]. apply format_aad_body_cbc; try done. forall_list; [by vm_compute|apply u8_byte].
  - rewrite (proj2 (Z.leb_le _ _)), (proj2 (Z.leb_le (Zlength aad) _)) by lia.
    eexists. split; [done|]. apply format_aad_body_cbc; try done. apply (bool_decide_unpack _). by vm_compute.
Qed.

(** For an AAD of up to 255 bytes the AAD is formatted as the standard says. *)
Lemma format_aad_cbc aad b0 : Zlength aad < 256 -> bytes aad -> block b0 ->
  let s := be16 (Zlength aad) ++ aad in
  exists b, format_aad key aad (Zlength aad) b0 = Some b /\
    b = cbc_mac key (blocks_of (length s)) b0 (pad16 s) /\ block b.
Proof.
  intros Ha Hb Hb0. cbv zeta. pose proof (Zle_0_nat (length aad)) as H0. fold (Zlength aad) in H0.
  unfold format_aad. rewrite (proj2 (Z.ltb_lt _ _)) by lia.
  assert ([0; u8 (Zlength aad)] = be16 (Zlength aad)) as ->.
  { unfold be16, u8. f_equal. zdiv. }
  eexists. split; [done|]. apply format_aad_body_cbc; try done; [lia|]. apply be16_bytes. lia.
Qed.
End Loops.

(** ** The counter loop *)

Lemma memcpy_at_app (pre rest src : list Z) i : i = Zlength pre -> (length src <= length rest)%nat ->
  memcpy_at (pre ++ rest) i src = pre ++ src ++ drop (length src) rest.
Proof.
  intros -> Hl. unfold memcpy_at, Zlength. rewrite Nat2Z.id.
  rewrite <- (Nat.add_0_r (length pre)), list_inserts_app_r. f_equal.
  rewrite <- (take_drop (length src) rest) at 1. apply list_inserts_0_r. rewrite length_take. lia.
Qed.

Lemma sub_buf_app (pre rest : list Z) i k : i = Zlength pre ->
  sub_buf (pre ++ rest) i k = take (Z.to_nat k) rest.
Proof.
  intros ->. unfold sub_buf, Zlength. rewrite Nat2Z.id.
  by rewrite drop_app_ge, Nat.sub_diag by lia.
Qed.

Lemma xor_bytes_app a b c d : length a = length c ->
  xor_bytes (a ++ b) (c ++ d) = xor_bytes a c ++ xor_bytes b d.
Proof. apply zip_with_app. Qed.

Lemma xor_bytes_comm a b : xor_bytes a b = xor_bytes b a.
Proof.
  unfold xor_bytes. revert b. induction a as [|x a IH]; intros [|y b]; simpl; [done..|].
  by rewrite Z.lxor_comm, IH.
Qed.

Lemma xor_bytes_twice a b : (length a <= length b)%nat -> xor_bytes (xor_bytes a b) b = a.
Proof.
  unfold xor_bytes. revert b. induction a as [|x a IH]; intros [|y b] Hl; simpl in *; try lia; [done..|].
  rewrite Z.lxor_assoc, Z.lxor_nilpotent, Z.lxor_0_r, IH by lia. done.
Qed.

Lemma length_xor_bytes a b : length (xor_bytes a b) = Nat.min (length a) (length b).
Proof. apply length_zip_with. Qed.

Section Counter.
Context `{BlockCipher} (key nonce : list Z) (Hkey : block key).
Context (Hnonce : (13 <= length nonce)%nat) (Hnb : bytes nonce).
Let N := take 13 nonce.

Lemma length_S j : 0 <= j < 65536 -> length (ciph_block key (nist_counter N j)) = 16%nat.
Proof.
  intros Hj. destruct (counter_block_nist nonce Hnonce Hnb j Hj) as [E Hb]. unfold N. rewrite <- E.
  by apply ciph_block_block.
Qed.

Lemma keystream_snoc k : 0 <= k ->
  keystream key N (k + 1) = keystream key N k ++ ciph_block key (nist_counter N (k + 1)).
Proof.
  intros Hk. unfold keystream. rewrite seqZ_app, map_app, concat_app by lia. f_equal.
  change (seqZ (1 + k) 1) with [1 + k]. cbn [map concat]. rewrite app_nil_r. do 2 f_equal. lia.
Qed.

Lemma length_keystream k : 0 <= k < 65536 -> Zlength (keystream key N k) = 16 * k.
Proof.
  intros Hk. replace k with (Z.of_nat (Z.to_nat k)) in * by lia. revert Hk.
  induction (Z.to_nat k) as [|m IH]; intros Hk; [done|].
  replace (Z.of_nat (S m)) with (Z.of_nat m + 1) by lia. rewrite keystream_snoc, Zlength_app, IH by lia.
  unfold Zlength. rewrite length_S by lia. lia.
Qed.

Lemma keystream_bytes k : 0 <= k < 65536 -> bytes (keystream key N k).
Proof.
  intros Hk. unfold keystream. apply Forall_concat, Forall_map, Forall_forall. intros j Hj%elem_of_seqZ.
  destruct (counter_block_nist nonce Hnonce Hnb j ltac:(lia)) as [E Hb].
  unfold compose, N. rewrite <- E. by apply ciph_block_block.
Qed.

(** After the passes 0 to [k] the first [16 * k] bytes of the text are combined
    with the key stream. *)
Lemma ctr_passes mode data len block0 k : 0 <= len < 65536 -> len <= Zlength data ->
  0 <= k <= (len + 15) / 16 ->
  let m := Z.to_nat (Z.min (16 * k) len) in
  fold_left (ctr_pass key nonce mode t) (seqZ 0 (k + 1)) (data, len, block0) =
  (xor_bytes (take m data) (keystream key N k) ++ drop m data, u16 (len - 16 * k),
   match mode with
   | ENCRYPT => bit_xor (ciph_block key (nist_counter N 0)) block0 t
   | DECRYPT => ciph_block key (nist_counter N 0)
   end).
Proof.
  intros Hlen Hd Hk. replace k with (Z.of_nat (Z.to_nat k)) in * by lia.
  revert Hk. induction (Z.to_nat k) as [|j IH]; intros Hk; cbv zeta in *.
  - change (seqZ 0 (Z.of_nat 0 + 1)) with [0]. cbn [fold_left ctr_pass Z.eqb].
    destruct (counter_block_nist nonce Hnonce Hnb 0 ltac:(lia)) as [-> _].
    rewrite Z.min_l by lia. change (Z.to_nat (16 * Z.of_nat 0)) with 0%nat. rewrite drop_0.
    rewrite Z.sub_0_r. unfold u16. rewrite Z.mod_small by lia. by destruct mode.
  - replace (Z.of_nat (S j)) with (Z.of_nat j + 1) in * by lia. set (i := Z.of_nat j) in *.
    rewrite seqZ_app, fold_left_app by lia. change (seqZ (0 + (i + 1)) 1) with [0 + (i + 1)].
    rewrite fold_left_cons, IH by lia. cbn [fold_left]. unfold ctr_pass at 1.
    rewrite (proj2 (Z.eqb_neq _ _)) by lia. rewrite Z.add_0_l.
    destruct (counter_block_nist nonce Hnonce Hnb (i + 1) ltac:(zdiv)) as [-> _]. fold N.
    assert (16 * i < len) as Hi by zdiv. rewrite (Z.min_l (16 * i)) by lia.
    assert (u16 (len - 16 * i) = len - 16 * i) as -> by (unfold u16; rewrite Z.mod_small; lia).
    set (size := if BLOCK_SIZE <=? len - 16 * i then BLOCK_SIZE else len - 16 * i).
    assert (size = Z.min 16 (len - 16 * i)) as Hsize by (unfold size, BLOCK_SIZE; destruct (Z.leb_spec 16 (len - 16 * i)); lia).
    clearbody size. replace (i + 1 - 1) with i by lia. unfold BLOCK_SIZE.
    assert (Zlength (xor_bytes (take (Z.to_nat (16 * i)) data) (keystream key N i)) = i * 16) as Hpre.
    { unfold Zlength. rewrite length_xor_bytes, length_take. pose proof (length_keystream i ltac:(zdiv)).
      unfold Zlength in *. lia. }
    rewrite sub_buf_app by done. set (S1 := ciph_block key (nist_counter N (i + 1))).
    assert (length S1 = 16%nat) as HS1 by (apply length_S; zdiv).
    assert (length (bit_xor S1 (take (Z.to_nat size) (drop (Z.to_nat (16 * i)) data)) size) = Z.to_nat size) as Hbx.
    { unfold bit_xor. rewrite length_app, length_zip_with, length_drop, !length_take, length_drop. unfold Zlength in *. lia. }
    rewrite memcpy_at_app; [|done|rewrite Hbx, length_drop; unfold Zlength in *; lia].
    rewrite Hbx, drop_drop, keystream_snoc by lia. fold S1.
    replace (Z.to_nat (Z.min (16 * (i + 1)) len)) with (Z.to_nat (16 * i) + Z.to_nat size)%nat by lia.
    rewrite <- take_take_drop, xor_bytes_app.
    + unfold bit_xor. rewrite take_take, Nat.min_id. rewrite (drop_ge (take _ _)) by (rewrite length_take; lia).
      rewrite app_nil_r, <- !app_assoc.
      replace (u16 (len - 16 * i - 16)) with (u16 (len - 16 * (i + 1))) by (f_equal; lia).
      replace (zip_with Z.lxor (take (Z.to_nat size) S1) (take (Z.to_nat size) (drop (Z.to_nat (16 * i)) data)))
        with (xor_bytes (take (Z.to_nat size) (drop (Z.to_nat (16 * i)) data)) S1); [done|].
      rewrite (xor_bytes_take _ S1 (Z.to_nat size)), xor_bytes_comm; [done|].
      rewrite length_take, length_drop. unfold Zlength in *. lia.
    + pose proof (length_keystream i ltac:(zdiv)). rewrite length_take. unfold Zlength in *. lia.
Qed.
End Counter.

(** ** Encryption and decryption *)

Lemma take_sub_buf (b : list Z) k : 0 <= k -> sub_buf b 0 k = take (Z.to_nat k) b.
Proof. done. Qed.

Lemma take_8_bit_xor a b : length a = 16%nat -> (8 <= length b)%nat ->
  sub_buf (bit_xor a b t) 0 t = xor_bytes (take 8 b) a.
Proof.
  intros Ha Hb. rewrite take_sub_buf by (unfold t; lia). unfold bit_xor, t. change (Z.to_nat 8) with 8%nat.
  rewrite take_app_length' by (rewrite length_zip_with, !length_take; lia).
  rewrite (xor_bytes_take (take 8 b) a 8), xor_bytes_comm; [done|]. rewrite length_take. lia.
Qed.

Lemma counter_blocks_eq len : 0 <= len ->
  (if negb (len mod BLOCK_SIZE =? 0) then len / BLOCK_SIZE + 1 + 1 else len / BLOCK_SIZE + 1) =
  (len + 15) / 16 + 1.
Proof. intros Hl. unfold BLOCK_SIZE. destruct (Z.eqb_spec (len mod 16) 0); cbn [negb]; zdiv. Qed.

Section Messages.
Context `{BlockCipher} (key nonce aad : list Z) (Hkey : block key).
Context (Hnonce : (13 <= length nonce)%nat) (Hnb : bytes nonce) (Haad : bytes aad).
Let N := take 13 nonce.

Lemma encrypt_or_decrypt_spec mode data len block0 : 0 <= len < 65536 -> len <= Zlength data ->
  encrypt_or_decrypt data len ((len + 15) / 16 + 1) block0 nonce t key mode =
  (xor_bytes (take (Z.to_nat len) data) (keystream key N ((len + 15) / 16)) ++ drop (Z.to_nat len) data,
   match mode with
   | ENCRYPT => bit_xor (ciph_block key (nist_counter N 0)) block0 t
   | DECRYPT => ciph_block key (nist_counter N 0)
   end).
Proof.
  intros Hlen Hd. unfold encrypt_or_decrypt.
  rewrite (ctr_passes key nonce Hkey Hnonce Hnb) by (done || zdiv).
  rewrite Z.min_r by zdiv. done.
Qed.

(** What both directions compute as the tag of a text. *)
Definition text_mac (text : list Z) : option (list Z) :=
  match format_aad key aad (Zlength aad) (ciph_block key (format_b0 t (Zlength text) nonce)) with
  | None => None
  | Some blocks0 => Some (take 8 (format_payload_block key text (Zlength text) blocks0))
  end.

Lemma format_payload_prefix text rest b0 : bytes (text ++ rest) -> block b0 ->
  format_payload_block key (text ++ rest) (Zlength text) b0 =
  format_payload_block key text (Zlength text) b0.
Proof using Hkey.
  clear Hnonce. intros Hb Hb0. pose proof (Zle_0_nat (length text)) as H0. fold (Zlength text) in H0.
  assert (bytes text) as Ht by (apply Forall_app in Hb; tauto).
  destruct (format_payload_cbc key Hkey (text ++ rest) (Zlength text) b0) as [-> _];
    [rewrite Zlength_app; unfold Zlength; lia|done|done|].
  destruct (format_payload_cbc key Hkey text (Zlength text) b0) as [-> _]; [lia|done|done|].
  assert (sub_buf (text ++ rest) 0 (Zlength text) = sub_buf text 0 (Zlength text)) as ->; [|done].
  unfold sub_buf, Zlength. rewrite Nat2Z.id. change (Z.to_nat 0) with 0%nat. rewrite !drop_0.
  rewrite take_app_length, take_ge; done.
Qed.

Lemma text_mac_block text : bytes text -> Zlength text < 65536 -> Zlength aad < 0x80000000 ->
  exists b mac, format_aad key aad (Zlength aad) (ciph_block key (format_b0 t (Zlength text) nonce)) = Some b /\
    block b /\ block (format_payload_block key text (Zlength text) b) /\
    mac = take 8 (format_payload_block key text (Zlength text) b) /\ text_mac text = Some mac.
Proof.
  intros Ht Hl Ha. pose proof (Zle_0_nat (length text)) as H0. fold (Zlength text) in H0.
  destruct (format_b0_nist nonce Hnonce Hnb (Zlength text)) as [_ Hb0]; [lia|].
  destruct (format_aad_block key Hkey aad (ciph_block key (format_b0 t (Zlength text) nonce)))
    as (b & E & Hb); [done|done|by apply ciph_block_block|].
  destruct (format_payload_cbc key Hkey text (Zlength text) b) as [_ Hp]; [lia|done|done|].
  exists b, (take 8 (format_payload_block key text (Zlength text) b)).
  unfold text_mac. by rewrite E.
Qed.

(** For an AAD of up to 255 bytes it is the tag of the standard. *)
Lemma text_mac_nist text : bytes text -> Zlength text < 65536 -> Zlength aad < 256 ->
  text_mac text = Some (nist_tag key N aad text).
Proof.
  intros Ht Hl Ha. pose proof (Zle_0_nat (length text)) as H0. fold (Zlength text) in H0.
  destruct (format_b0_nist nonce Hnonce Hnb (Zlength text)) as [E0 Hb0]; [lia|]. unfold text_mac.
  destruct (format_aad_cbc key Hkey aad (ciph_block key (format_b0 t (Zlength text) nonce)))
    as (b & -> & Eb & Hb); [done|done|by apply ciph_block_block|].
  destruct (format_payload_cbc key Hkey text (Zlength text) b) as [-> _]; [lia|done|done|].
  assert (sub_buf text 0 (Zlength text) = text) as ->.
  { rewrite take_sub_buf by done. unfold Zlength. rewrite Nat2Z.id. by apply take_ge. }
  unfold nist_tag, nist_format. cbv zeta. fold N in E0. rewrite <- E0.
  set (s := be16 (Zlength aad) ++ aad) in *. destruct Hb0 as [Hl0 _].
  rewrite !length_app, Hl0, !length_pad16.
  replace (16 + (16 * blocks_of (length s) + 16 * blocks_of (length text)))%nat
    with ((1 + (blocks_of (length s) + blocks_of (length text))) * 16)%nat by lia.
  rewrite Nat.div_mul by lia.
  rewrite (cbc_mac_app key 1) by done. rewrite (cbc_mac_app key) by apply length_pad16.
  cbn [cbc_mac]. rewrite (take_ge (format_b0 _ _ _)) by lia.
  assert (xor_bytes (format_b0 t (Zlength text) nonce) (zeros 16) = format_b0 t (Zlength text) nonce) as ->.
  { revert Hl0. generalize (format_b0 t (Zlength text) nonce) as l. generalize 16%nat as m.
    induction m as [|m IH]; intros [|x l] Hm; try done. unfold zeros. cbn. rewrite Z.lxor_0_r. f_equal. apply IH. by injection Hm. }
  by rewrite <- Eb.
Qed.
End Messages.

Lemma ccm_encrypt_eq `{BlockCipher} key nonce aad buf len :
  block key -> (13 <= length nonce)%nat -> bytes nonce -> bytes aad -> 0 < Zlength aad < 256 ->
  bytes buf -> 0 <= len < 65536 -> len + t <= Zlength buf ->
  CCM_encrypt_and_auth key nonce aad (Zlength aad) buf len =
  (len + t, nist_encrypt key (take 13 nonce) aad (take (Z.to_nat len) buf) ++ drop (Z.to_nat (len + t)) buf).
Proof.
  intros Hkey Hnonce Hnb Haad Ha Hbuf Hlen Hroom. unfold t in Hroom.
  unfold CCM_encrypt_and_auth. rewrite counter_blocks_eq by lia. cbv zeta.
  set (text := take (Z.to_nat len) buf).
  assert (Zlength text = len) as Htl by (unfold text, Zlength in *; rewrite length_take; lia).
  assert (bytes text) as Ht by by apply Forall_take.
  assert (buf = text ++ drop (Z.to_nat len) buf) as Ebuf by (symmetry; apply take_drop).
  destruct (text_mac_block key nonce aad Hkey Hnonce Hnb Haad text Ht) as (b & mac & E & Hb & Hp & Hmac & Emac);
    [lia|lia|].
  pose proof (text_mac_nist key nonce aad Hkey Hnonce Hnb Haad text Ht ltac:(lia) ltac:(lia)) as Enist.
  rewrite Htl in E. rewrite E, encrypt_or_decrypt_spec by (done || lia). fold text.
  assert (format_payload_block key buf len b = format_payload_block key text (Zlength text) b) as ->.
  { rewrite <- Htl. rewrite Ebuf at 1. apply format_payload_prefix; [done|by rewrite <- Ebuf|done]. }
  rewrite take_8_bit_xor by (try (apply length_S; (done || lia)); destruct Hp; lia).
  rewrite Emac in Enist. injection Enist as Enist. rewrite <- Hmac.
  f_equal. unfold nist_encrypt. rewrite Htl.
  assert (Zlength (keystream key (take 13 nonce) ((len + 15) / 16)) = 16 * ((len + 15) / 16)) as Hks
    by (apply length_keystream; (done || zdiv)).
  assert (length mac = 8%nat) as Hml by (rewrite Hmac, length_take; destruct Hp; lia).
  assert (length (ciph_block key (nist_counter (take 13 nonce) 0)) = 16%nat) as HS0 by (apply length_S; (done || lia)).
  assert (Zlength (xor_bytes text (keystream key (take 13 nonce) ((len + 15) / 16))) = len) as Hx.
  { unfold Zlength in *. rewrite length_xor_bytes. zdiv. }
  rewrite memcpy_at_app; [|done|].
  - rewrite <- app_assoc, Enist. do 2 f_equal. rewrite length_xor_bytes, drop_drop. f_equal.
    rewrite <- Enist. unfold t. lia.
  - rewrite length_xor_bytes, length_drop. unfold Zlength in *. lia.
Qed.

(** CCM_encrypt_and_auth is the encryption of SP 800-38C for every key, every
    nonce, every AAD of 1 to 255 bytes and every text of less than 2^16 bytes:
    it writes the cipher text and the tag over the text, returns their length and
    leaves the rest of the buffer alone. *)
Theorem ccm_encrypts_nist `{BlockCipher} key nonce aad buf len :
  block key -> (13 <= length nonce)%nat -> bytes nonce -> bytes aad -> 0 < Zlength aad < 256 ->
  bytes buf -> 0 <= len < 65536 -> len + t <= Zlength buf ->
  CCM_encrypt_and_auth key nonce aad (Zlength aad) buf len =
  (len + t, nist_encrypt key (take 13 nonce) aad (take (Z.to_nat len) buf) ++ drop (Z.to_nat (len + t)) buf).
Proof. apply ccm_encrypt_eq. Qed.

(** Discharges a decidable condition on concrete data by evaluation. *)
Ltac decide_it := apply (bool_decide_unpack _); vm_compute; exact I.

Lemma ccm_encrypts_nist_witness :
  CCM_encrypt_and_auth (seqZ 0xC0 16) (seqZ 1 13) (seqZ 0 8) (Zlength (seqZ 0 8)) (seqZ 8 31) 23 =
  (23 + t, nist_encrypt (seqZ 0xC0 16) (take 13 (seqZ 1 13)) (seqZ 0 8) (take (Z.to_nat 23) (seqZ 8 31)) ++
           drop (Z.to_nat (23 + t)) (seqZ 8 31)).
Proof. apply ccm_encrypts_nist; decide_it. Defined.

Lemma xor_bytes_move a b c : length a = length c -> (length a <= length b)%nat ->
  xor_bytes a b = c <-> a = xor_bytes c b.
Proof.
  intros Hl Hb. split; [intros <-|intros ->]; by rewrite xor_bytes_twice by lia.
Qed.

(** Decryption leaves the text in the buffer and compares the tag behind it with
    the one of the text. *)
Lemma ccm_decrypt_eq `{BlockCipher} key nonce aad buf len :
  block key -> (13 <= length nonce)%nat -> bytes nonce -> bytes aad -> Zlength aad < 256 ->
  bytes buf -> 0 <= len < 65536 -> len + 8 <= Zlength buf ->
  let N := take 13 nonce in
  let rest := drop (Z.to_nat len) buf in
  let text := xor_bytes (take (Z.to_nat len) buf) (keystream key N ((len + 15) / 16)) in
  Zlength text = len -> bytes text ->
  CCM_decrypt_and_auth key nonce aad (Zlength aad) buf (len + t) =
  (if bool_decide (nist_tag key N aad text = xor_bytes (take 8 rest) (ciph_block key (nist_counter N 0)))
   then len else 0, text ++ rest) /\ length (nist_tag key N aad text) = 8%nat.
Proof.
  intros Hkey Hnonce Hnb Haad Ha Hbuf Hlen Hroom N rest text Htl Ht.
  assert (length (ciph_block key (nist_counter N 0)) = 16%nat) as HS0 by (apply length_S; (done || lia)).
  set (S0 := ciph_block key (nist_counter N 0)) in *.
  assert (8 <= length rest)%nat as Hrl by (unfold rest, Zlength in *; rewrite length_drop; lia).
  unfold CCM_decrypt_and_auth. replace (len + t - t) with len by lia.
  assert (u32 len = len) as -> by (unfold u32; rewrite Z.mod_small; lia).
  rewrite counter_blocks_eq by lia. cbv zeta.
  rewrite (proj2 (Z.ltb_ge _ _)) by (unfold t; lia).
  assert (u16 len = len) as -> by (apply u16_id; unfold word16; lia).
  assert (u16 ((len + 15) / 16 + 1) = (len + 15) / 16 + 1) as -> by (apply u16_id; unfold word16; zdiv).
  rewrite encrypt_or_decrypt_spec by (done || lia). fold N rest text S0.
  destruct (text_mac_block key nonce aad Hkey Hnonce Hnb Haad text Ht) as (b & mac & E & Hb & Hp & Hmac & Emac);
    [lia|lia|].
  pose proof (text_mac_nist key nonce aad Hkey Hnonce Hnb Haad text Ht ltac:(lia) ltac:(lia)) as Enist.
  rewrite Emac in Enist. injection Enist as Enist. rewrite Htl in E. rewrite E.
  assert (format_payload_block key (text ++ rest) len b = format_payload_block key text (Zlength text) b) as ->.
  { rewrite <- Htl. apply format_payload_prefix; [done| |done].
    apply Forall_app_2; [done|by apply Forall_drop]. }
  rewrite (take_sub_buf (format_payload_block _ _ _ _)) by (unfold t; lia).
  change (Z.to_nat t) with 8%nat. rewrite <- Hmac.
  rewrite sub_buf_app by (symmetry; exact Htl). change (Z.to_nat t) with 8%nat.
  assert (sub_buf (bit_xor (take 8 rest) S0 t) 0 t = xor_bytes (take 8 rest) S0) as ->.
  { rewrite take_sub_buf by (unfold t; lia). unfold bit_xor, t. change (Z.to_nat 8) with 8%nat.
    rewrite take_app_length' by (rewrite length_zip_with, !length_take; lia).
    rewrite take_take, (xor_bytes_take (take 8 rest) S0 8); [done|]. rewrite length_take. lia. }
  unfold N. rewrite <- Enist. split; [by destruct (bool_decide _)|].
  rewrite Hmac, length_take. destruct Hp. lia.
Qed.

Lemma ccm_decrypt_exact `{BlockCipher} key nonce aad buf len :
  block key -> (13 <= length nonce)%nat -> bytes nonce -> bytes aad -> 0 < Zlength aad < 256 ->
  bytes buf -> 0 <= len < 65536 -> len + t <= Zlength buf ->
  let message := take (Z.to_nat (len + t)) buf in
  exists text, Zlength text = len /\ bytes text /\
    CCM_decrypt_and_auth key nonce aad (Zlength aad) buf (len + t) =
      (if bool_decide (message = nist_encrypt key (take 13 nonce) aad text) then len else 0,
       text ++ drop (Z.to_nat len) buf) /\
    (forall p, Zlength p = len -> message = nist_encrypt key (take 13 nonce) aad p -> text = p).
Proof.
  intros Hkey Hnonce Hnb Haad Ha Hbuf Hlen Hroom. cbv zeta. unfold t in Hroom.
  set (N := take 13 nonce). set (KS := keystream key N ((len + 15) / 16)).
  set (c := take (Z.to_nat len) buf). set (rest := drop (Z.to_nat len) buf).
  assert (Zlength c = len) as Hcl by (unfold c, Zlength in *; rewrite length_take; lia).
  assert (Zlength KS = 16 * ((len + 15) / 16)) as Hks by (apply length_keystream; (done || zdiv)).
  assert (length c <= length KS)%nat as Hck by (unfold Zlength in *; zdiv).
  assert (Zlength (xor_bytes c KS) = len) as Htl by (unfold Zlength in *; rewrite length_xor_bytes; lia).
  assert (bytes (xor_bytes c KS)) as Ht.
  { apply xor_bytes_bytes; [by apply Forall_take|]. apply keystream_bytes; (done || zdiv). }
  assert (take (Z.to_nat (len + t)) buf = c ++ take 8 rest) as Em.
  { unfold t. replace (Z.to_nat (len + 8)) with (Z.to_nat len + 8)%nat by lia. symmetry. apply take_take_drop. }
  assert (8 <= length rest)%nat as Hrl by (unfold rest, Zlength in *; rewrite length_drop; lia).
  assert (length (ciph_block key (nist_counter N 0)) = 16%nat) as HS0 by (apply length_S; (done || lia)).
  destruct (ccm_decrypt_eq key nonce aad buf len) as [E Hml]; try done; [lia|].
  exists (xor_bytes c KS). split; [done|]. split; [done|]. split.
  - rewrite E. f_equal. fold N c rest KS in Hml |- *. rewrite Em. unfold nist_encrypt. rewrite Htl. fold KS.
    rewrite xor_bytes_twice by done.
    pose proof (xor_bytes_move (take 8 rest) (ciph_block key (nist_counter N 0)) (nist_tag key N aad (xor_bytes c KS))
      ltac:(rewrite length_take; lia) ltac:(rewrite length_take; lia)) as Hmove.
    erewrite bool_decide_ext; [reflexivity|]. split; [intros Eq|intros Eq%app_inv_head].
    + f_equal. by apply Hmove.
    + symmetry. by apply Hmove.
  - intros p Hp Hm. rewrite Em in Hm. unfold nist_encrypt in Hm. rewrite Hp in Hm. fold KS in Hm.
    apply app_inj_1 in Hm as [Hm _].
    + rewrite Hm. apply xor_bytes_twice. unfold Zlength in *. zdiv.
    + rewrite length_xor_bytes. unfold Zlength in *. zdiv.
Qed.

(** C28. CCM_decrypt_and_auth accepts a message exactly when it is the encryption of
    the text it leaves in the buffer, and the encryption of a text decrypts to
    that text: it undoes the encryption and accepts nothing else. *)
Theorem ccm_accepts_exactly `{BlockCipher} key nonce aad buf len :
  block key -> (13 <= length nonce)%nat -> bytes nonce -> bytes aad -> 0 < Zlength aad < 256 ->
  bytes buf -> 0 <= len < 65536 -> len + t <= Zlength buf ->
  let message := take (Z.to_nat (len + t)) buf in
  exists text, Zlength text = len /\ bytes text /\
    CCM_decrypt_and_auth key nonce aad (Zlength aad) buf (len + t) =
      (if bool_decide (message = nist_encrypt key (take 13 nonce) aad text) then len else 0,
       text ++ drop (Z.to_nat len) buf) /\
    (forall p, Zlength p = len -> message = nist_encrypt key (take 13 nonce) aad p -> text = p).
Proof. apply ccm_decrypt_exact. Qed.

Lemma ccm_accepts_exactly_witness :
  let message := take (Z.to_nat (23 + t)) (seqZ 8 40) in
  exists text, Zlength text = 23 /\ bytes text /\
    CCM_decrypt_and_auth (seqZ 0xC0 16) (seqZ 1 13) (seqZ 0 8) (Zlength (seqZ 0 8)) (seqZ 8 40) (23 + t) =
      (if bool_decide (message = nist_encrypt (seqZ 0xC0 16) (take 13 (seqZ 1 13)) (seqZ 0 8) text) then 23 else 0,
       text ++ drop (Z.to_nat 23) (seqZ 8 40)) /\
    (forall p, Zlength p = 23 ->
      message = nist_encrypt (seqZ 0xC0 16) (take 13 (seqZ 1 13)) (seqZ 0 8) p -> text = p).
Proof. apply ccm_accepts_exactly; decide_it. Defined.

(** ** Deviations *)

(** The length of an AAD of 256 bytes and more is encoded modulo 256: the result
    is not the one of the standard. *)
Example ccm_aad_256 :
  bool_decide (snd (CCM_encrypt_and_auth (seqZ 0xC0 16) (seqZ 1 13) (zeros 256) 256 (zeros 12) 4) =
    nist_encrypt (seqZ 0xC0 16) (seqZ 1 13) (zeros 256) (zeros 4)) = false.
Proof. by vm_compute. Qed.

(** The result for an authentic message with an empty text is the one for a
    message that fails authentication. *)
Example ccm_empty_text :
  let message := snd (CCM_encrypt_and_auth (seqZ 0xC0 16) (seqZ 1 13) (seqZ 0 8) 8 (zeros 8) 0) in
  message = nist_encrypt (seqZ 0xC0 16) (seqZ 1 13) (seqZ 0 8) [] /\
  fst (CCM_decrypt_and_auth (seqZ 0xC0 16) (seqZ 1 13) (seqZ 0 8) 8 message 8) = 0.
Proof. by vm_compute. Qed.
