(* ===== verification/Cmac.v ===== *)
(** * AES-CMAC and the key derivation (src/libs2/crypto/aes-cmac/aes_cmac.c,
      src/libs2/crypto/kderiv/kderiv.c)

    The message authentication code the S2 key derivation is built on, written
    against the interface [BlockCipher].  The theorems: for messages of up to 4080
    bytes it is the function of RFC 4493; the block counter of 8 bits makes the
    code of a longer message that of its first bytes; and the keys of the
    derivation are the chain of RFC 4493 codes the S2 specification asks for. *)

From S2P Require Import Prelude Aes Ccm.
#[local] Open Scope Z_scope.

Section Cmac.
Context `{BlockCipher}.

Definition xor_128 (a b : list Z) : list Z := xor_bytes (take 16 a) (take 16 b).

(** From the last byte to the first; the second component is [overflow]. *)
Definition leftshift_onebit (input : list Z) : list Z :=
  fst (fold_right (fun x '(output, overflow) =>
         (Z.lor (u8 (Z.shiftl x 1)) overflow :: output, if has x 0x80 then 1 else 0))
       ([], 0) input).

Definition const_Rb : list Z := zeros 15 ++ [0x87].

Definition generate_subkey (key : list Z) : list Z * list Z :=
  let L := ciph_block key (zeros 16) in
  let K1 := if Z.land (rd L 0) 0x80 =? 0 then leftshift_onebit L
            else xor_128 (leftshift_onebit L) const_Rb in
  let K2 := if Z.land (rd K1 0) 0x80 =? 0 then leftshift_onebit K1
            else xor_128 (leftshift_onebit K1) const_Rb in
  (K1, K2).

Definition padding (lastb : list Z) (length : Z) : list Z :=
  map (fun j => if j <? length then rd lastb j else if j =? length then 0x80 else 0x00) (seqZ 0 16).

Definition aes_cmac_calculate (key message : list Z) (message_length : Z) : list Z :=
  let '(K1, K2) := generate_subkey key in
  let n := u8 ((message_length + 15) / 16) in
  let '(n, flag) :=
    if 0 =? n then (1, false) else (n, 0 =? message_length mod 16) in
  let M_last :=
    if (flag : bool) then xor_128 (drop (Z.to_nat (16 * (n - 1))) message) K1
    else xor_128 (padding (drop (Z.to_nat (16 * (n - 1))) message) (message_length mod 16)) K2 in
  let X :=
    fold_left (fun X i => ciph_block key (xor_128 X (drop (Z.to_nat (16 * i)) message)))
      (seqZ 0 (n - 1)) (zeros 16) in
  ciph_block key (xor_128 X M_last).

Definition aes_cmac_verify (key message : list Z) (message_length : Z) (mac : list Z) : bool :=
  let calculated_mac := aes_cmac_calculate key message message_length in
  forallb (fun count => rd mac count =? rd calculated_mac count) (seqZ 0 16).

(** ** kderiv.c *)

Definition generic_expand (network_key constant_nk : list Z) : list Z * list Z * list Z :=
  let ccm_key := aes_cmac_calculate network_key (take 15 constant_nk ++ [1]) 16 in
  let nonce1 := aes_cmac_calculate network_key (take 16 ccm_key ++ take 15 constant_nk ++ [2]) 32 in
  let nonce2 := aes_cmac_calculate network_key (take 16 nonce1 ++ take 15 constant_nk ++ [3]) 32 in
  let mpan_key := aes_cmac_calculate network_key (take 16 nonce2 ++ take 15 constant_nk ++ [4]) 32 in
  (ccm_key, nonce1 ++ nonce2, mpan_key).

Definition networkkey_expand (network_key : list Z) : list Z * list Z * list Z :=
  generic_expand network_key (replicate 15 0x55).

Definition tempkey_extract (ecdh_share_secret auth_tag : list Z) : list Z :=
  aes_cmac_calculate (replicate 16 0x33) (take 32 ecdh_share_secret ++ take 64 auth_tag) 96.

Definition tempkey_expand (prk : list Z) : list Z * list Z * list Z :=
  generic_expand prk (replicate 15 0x88).
End Cmac.

(** The examples of RFC 4493: the subkeys and the codes of 0, 16 and 40 bytes. *)
Definition rfc_key : list Z := from_hex 0x2b7e151628aed2a6abf7158809cf4f3c.
Definition rfc_message : list Z :=
  from_hex 0x6bc1bee22e409f96e93d7e117393172a ++ from_hex 0xae2d8a571e03ac9c9eb76fac45af8e51 ++
  take 8 (from_hex 0x30c81c46a35ce4110000000000000000).

Example rfc4493_subkeys :
  generate_subkey rfc_key =
  (from_hex 0xfbeed618357133667c85e08f7236a8de, from_hex 0xf7ddac306ae266ccf90bc11ee46d513b).
Proof. by vm_compute. Qed.

Example rfc4493_vectors :
  aes_cmac_calculate rfc_key [] 0 = from_hex 0xbb1d6929e95937287fa37d129b756746 /\
  aes_cmac_calculate rfc_key (take 16 rfc_message) 16 = from_hex 0x070a16b46b4d4144f79bdd9dd04a287c /\
  aes_cmac_calculate rfc_key rfc_message 40 = from_hex 0xdfa66747de9ae63030ca32611497c827.
Proof. by vm_compute. Qed.

(** ** RFC 4493 *)

(** The number a string of bytes stands for, most significant byte first. *)
Fixpoint be_int (l : list Z) : Z :=
  match l with
  | [] => 0
  | x :: l => x * 2 ^ (8 * Zlength l) + be_int l
  end.

(** Doubling in GF(2^128). *)
Definition dbl (x : Z) : Z :=
  let y := (2 * x) mod 2 ^ 128 in
  if Z.testbit x 127 then Z.lxor y 0x87 else y.

Definition double_of (L K : list Z) : Prop := block K /\ be_int K = dbl (be_int L).

Definition rfc_cmac `{BlockCipher} (key K1 K2 message : list Z) : list Z :=
  let full := ((length message - 1) / 16)%nat in
  let last := drop (16 * full)%nat message in
  let M_last :=
    if bool_decide (length last = 16%nat) then xor_bytes last K1
    else xor_bytes (last ++ [0x80] ++ zeros (15 - length last)%nat) K2 in
  ciph_block key (xor_bytes M_last (cbc_mac key full (zeros 16) message)).

(** ** The subkeys *)

Lemma be_int_range l : bytes l -> 0 <= be_int l < 2 ^ (8 * Zlength l).
Proof.
  induction 1 as [|x l Hx Hl IH]; [done|]. cbn [be_int].
  replace (8 * Zlength (x :: l)) with (8 + 8 * Zlength l) by (unfold Zlength; cbn [length]; lia).
  rewrite Z.pow_add_r by (unfold Zlength; lia). unfold byte in Hx.
  assert (0 < 2 ^ (8 * Zlength l)) by (apply Z.pow_pos_nonneg; unfold Zlength; lia). nia.
Qed.

Lemma has_0x80 x : byte x -> has x 0x80 = (128 <=? x) /\ (Z.land x 0x80 =? 0) = negb (128 <=? x) /\
  u8 (Z.shiftl x 1) = 2 * x - (if 128 <=? x then 256 else 0) /\ Z.lor (u8 (Z.shiftl x 1)) 1 = u8 (Z.shiftl x 1) + 1.
Proof.
  intros Hx. assert (forall x, byte x ->
    (Bool.eqb (has x 0x80) (128 <=? x) && Bool.eqb (Z.land x 0x80 =? 0) (negb (128 <=? x)) &&
     (u8 (Z.shiftl x 1) =? 2 * x - (if 128 <=? x then 256 else 0)) &&
     (Z.lor (u8 (Z.shiftl x 1)) 1 =? u8 (Z.shiftl x 1) + 1)) = true) as Hall by (apply byte_all; by vm_compute).
  specialize (Hall x Hx). apply andb_true_iff in Hall as [Hall H4%Z.eqb_eq].
  apply andb_true_iff in Hall as [Hall H3%Z.eqb_eq]. apply andb_true_iff in Hall as [H1%eqb_prop H2%eqb_prop].
  auto.
Qed.

Lemma leftshift_step l : bytes l ->
  let '(o, v) := fold_right (fun x '(output, overflow) =>
         (Z.lor (u8 (Z.shiftl x 1)) overflow :: output, if has x 0x80 then 1 else 0)) ([], 0) l in
  length o = length l /\ bytes o /\ (v = 0 \/ v = 1) /\
  be_int o + v * 2 ^ (8 * Zlength l) = 2 * be_int l /\
  v = (if 128 <=? rd l 0 then 1 else 0).
Proof.
  induction 1 as [|x l Hx Hl IH]; [by repeat split; auto|]. cbn [fold_right].
  destruct (fold_right _ _ l) as [o v]. destruct IH as (Ho & Hbo & Hv & E & _).
  destruct (has_0x80 x Hx) as (-> & _ & Es & E1). unfold byte in Hx.
  assert (Z.lor (u8 (Z.shiftl x 1)) v = u8 (Z.shiftl x 1) + v) as ->.
  { destruct Hv as [-> | ->]; [by rewrite Z.lor_0_r, Z.add_0_r|done]. }
  rewrite Es. split; [by cbn; rewrite Ho|]. split.
  { constructor; [|done]. unfold byte. destruct (Z.leb_spec 128 x); lia. }
  split; [destruct (128 <=? x); auto|]. split; [|done].
  cbn [be_int]. unfold Zlength in *. rewrite Ho. cbn [length].
  replace (8 * Z.of_nat (S (length l))) with (8 + 8 * Z.of_nat (length l)) by lia.
  rewrite Z.pow_add_r by lia. destruct (128 <=? x); lia.
Qed.

(** Two numbers written behind each other. *)
Lemma testbit_cat x a k i : 0 <= k -> 0 <= a < 2 ^ k -> 0 <= i ->
  Z.testbit (x * 2 ^ k + a) i = if i <? k then Z.testbit a i else Z.testbit x (i - k).
Proof.
  intros Hk Ha Hi. destruct (Z.ltb_spec i k).
  - rewrite <- (Z.mod_pow2_bits_low _ k i) by lia. f_equal.
    rewrite Z.add_comm, Z.mod_add by lia. by apply Z.mod_small.
  - replace i with (i - k + k) at 1 by lia. rewrite <- Z.div_pow2_bits by lia. f_equal.
    rewrite Z.add_comm, Z.div_add by lia. rewrite Z.div_small by done. done.
Qed.

Lemma be_int_xor a b : bytes a -> bytes b -> length a = length b ->
  be_int (xor_bytes a b) = Z.lxor (be_int a) (be_int b).
Proof.
  intros Ha. revert b. induction Ha as [|x a Hx Ha IH]; intros [|y b] Hb Hl; try discriminate; [done|].
  apply Forall_cons in Hb as [Hy Hb]. injection Hl as Hl. unfold xor_bytes in *. cbn [zip_with be_int].
  rewrite IH by done. unfold Zlength. rewrite length_zip_with, <- Hl, Nat.min_id.
  pose proof (be_int_range a Ha) as Ra. pose proof (be_int_range b Hb) as Rb.
  unfold Zlength in Ra, Rb. rewrite <- Hl in Rb. set (k := 8 * Z.of_nat (length a)) in *.
  apply Z.bits_inj'. intros i Hi. rewrite Z.lxor_spec, !testbit_cat by (try apply lxor_bound; lia).
  destruct (i <? k); by rewrite Z.lxor_spec.
Qed.

Lemma be_int_top l : block l -> Z.testbit (be_int l) 127 = (128 <=? rd l 0).
Proof.
  intros [Hl Hb]. destruct l as [|x l]; [discriminate|]. injection Hl as Hl.
  apply Forall_cons in Hb as [Hx Hb]. pose proof (be_int_range l Hb) as R. cbn [be_int].
  unfold Zlength in *. rewrite Hl in *. change (8 * Z.of_nat 15) with 120 in *.
  rewrite testbit_cat by lia. change (127 <? 120) with false. change (127 - 120) with 7. cbv iota.
  change (rd (x :: l) 0) with x. revert x Hx. intros x Hx. apply eqb_prop.
  revert x Hx. apply (byte_all (fun x => Bool.eqb (Z.testbit x 7) (128 <=? x))). by vm_compute.
Qed.

(** One step of generate_subkey doubles. *)
Lemma subkey_double L : block L ->
  double_of L (if Z.land (rd L 0) 0x80 =? 0 then leftshift_onebit L
               else xor_128 (leftshift_onebit L) const_Rb).
Proof.
  intros HL. assert (byte (rd L 0)) as H0 by apply rd_byte, HL.
  destruct (has_0x80 _ H0) as (_ & -> & _).
  pose proof (leftshift_step L (proj2 HL)) as Hs. unfold leftshift_onebit.
  destruct (fold_right _ _ L) as [o v]. destruct Hs as (Ho & Hbo & _ & E & Ev). cbn [fst].
  destruct HL as [Hl Hb]. pose proof (be_int_range o Hbo) as Ro. unfold Zlength in *. rewrite Hl in *. rewrite Ho in Ro.
  change (8 * Z.of_nat 16) with 128 in *.
  assert (be_int o = (2 * be_int L) mod 2 ^ 128) as Eo.
  { apply (Z.mod_unique _ _ v); [left; lia|lia]. }
  unfold double_of, dbl. rewrite be_int_top by done. rewrite <- Eo.
  destruct (128 <=? rd L 0); cbn [negb]; [|done].
  assert (block const_Rb) as [Hrl Hrb] by (apply (bool_decide_unpack _); by vm_compute).
  unfold xor_128. rewrite !take_ge by lia. split; [by apply xor_bytes_block; [|lia|]|].
  rewrite be_int_xor by (done || lia). done.
Qed.

(** ** The code of a message *)

Section Code.
Context `{BlockCipher} (key : list Z) (Hkey : block key).

Lemma xor_128_block a b : block a -> block b -> block (xor_128 a b).
Proof.
  intros Ha [Hb Hbb]. unfold xor_128. rewrite !take_ge by (destruct Ha; lia).
  apply xor_bytes_block; [done|lia|done].
Qed.

Lemma cbc_loop m : bytes m -> forall k i X, block X -> (16 * (i + k) <= length m)%nat ->
  fold_left (fun X i => ciph_block key (xor_128 X (drop (Z.to_nat (16 * i)) m)))
    (seqZ (Z.of_nat i) (Z.of_nat k)) X = cbc_mac key k X (drop (16 * i)%nat m) /\
  block (cbc_mac key k X (drop (16 * i)%nat m)).
Proof.
  intros Hm k. induction k as [|k IH]; intros i X HX Hl; [done|].
  rewrite seqZ_cons by lia. rewrite fold_left_cons.
  replace (Z.to_nat (16 * Z.of_nat i)) with (16 * i)%nat by lia.
  replace (Z.succ (Z.of_nat i)) with (Z.of_nat (S i)) by lia.
  replace (Z.pred (Z.of_nat (S k))) with (Z.of_nat k) by lia. cbn [cbc_mac]. rewrite drop_drop.
  replace (16 * i + 16)%nat with (16 * S i)%nat by lia.
  assert (block (take 16 (drop (16 * i) m))) as Hb.
  { split; [rewrite length_take, length_drop; lia|by apply Forall_take, Forall_drop]. }
  assert (xor_128 X (drop (16 * i) m) = xor_bytes (take 16 (drop (16 * i) m)) X) as E.
  { unfold xor_128. rewrite xor_bytes_comm, (take_ge X) by (destruct HX; lia). done. }
  rewrite E. apply IH; [|lia]. apply ciph_block_block; [done|]. destruct HX.
  apply xor_bytes_block; [done|lia|done].
Qed.

Lemma padding_eq l : (length l < 16)%nat -> padding l (Zlength l) = l ++ [0x80] ++ zeros (15 - length l).
Proof.
  intros Hl. do 16 (destruct l as [|? l]; [reflexivity|]). cbn [length] in Hl. lia.
Qed.

Lemma generate_subkey_doubles :
  let '(K1, K2) := generate_subkey key in double_of (ciph_block key (zeros 16)) K1 /\ double_of K1 K2.
Proof.
  unfold generate_subkey. cbv zeta.
  assert (block (ciph_block key (zeros 16))) as HL
    by (apply ciph_block_block; [done|split; [done|apply zeros_bytes]]).
  pose proof (subkey_double _ HL) as H1. split; [done|]. by apply subkey_double, H1.
Qed.

Lemma cmac_rfc m K1 K2 : bytes m -> Zlength m <= 4080 -> generate_subkey key = (K1, K2) ->
  double_of (ciph_block key (zeros 16)) K1 -> double_of K1 K2 ->
  aes_cmac_calculate key m (Zlength m) = rfc_cmac key K1 K2 m.
Proof.
  intros Hm Hl E HK1 HK2. unfold aes_cmac_calculate. rewrite E.
  set (full := ((length m - 1) / 16)%nat). unfold Zlength in *.
  assert (Z.of_nat full = (Z.of_nat (length m) - 1) / 16 \/ length m = 0%nat) as Hf.
  { destruct (Nat.eq_dec (length m) 0) as [|Hn]; [auto|left].
    unfold full. rewrite Nat2Z.inj_div, Nat2Z.inj_sub by lia. done. }
  assert (16 * full <= length m)%nat as Hfl by (unfold full; pose proof (Nat.Div0.mul_div_le (length m - 1) 16); lia).
  destruct (cbc_loop m Hm full 0%nat (zeros 16)) as [EX HX]; [split; [done|apply zeros_bytes]|lia|].
  rewrite drop_0 in EX, HX. unfold rfc_cmac. fold full. cbv zeta.
  set (last := drop (16 * full) m).
  assert (length last = length m - 16 * full)%nat as Hll by apply length_drop.
  assert (bytes last) as Hlb by by apply Forall_drop.
  rewrite (u8_id ((Z.of_nat (length m) + 15) / 16)) by (unfold byte; zdiv).
  assert (exists n, (if 0 =? (Z.of_nat (length m) + 15) / 16 then (1, false)
      else ((Z.of_nat (length m) + 15) / 16, 0 =? Z.of_nat (length m) mod 16)) =
      (n, bool_decide (length last = 16%nat)) /\ n - 1 = Z.of_nat full) as (n & -> & En).
  { destruct Hf as [Hf|Hf]; [|by rewrite Hf; exists 1; rewrite bool_decide_false by (unfold full in *; rewrite Hf in *; cbn in *; lia); split; [|unfold full; rewrite Hf]].
    destruct (Z.eqb_spec 0 ((Z.of_nat (length m) + 15) / 16)) as [E0|E0].
    - exists 1. rewrite bool_decide_false by zdiv. split; [done|zdiv].
    - exists ((Z.of_nat (length m) + 15) / 16). split; [|zdiv]. f_equal.
      destruct (Z.eqb_spec 0 (Z.of_nat (length m) mod 16)); symmetry;
        [apply bool_decide_true|apply bool_decide_false]; zdiv. }
  rewrite En. change 0 with (Z.of_nat 0) at 1. rewrite EX.
  replace (Z.to_nat (16 * Z.of_nat full)) with (16 * full)%nat by lia. fold last.
  destruct HK1 as [[HK1 _] _], HK2 as [[HK2 _] _], HX as [HX _].
  case_bool_decide as Hlast.
  - unfold xor_128. rewrite (take_ge last), (take_ge K1), (take_ge (cbc_mac _ _ _ _)), (take_ge (xor_bytes last K1))
      by (rewrite ?length_xor_bytes; lia). by rewrite xor_bytes_comm.
  - assert (length last < 16)%nat as Hlt by (destruct Hf as [Hf|Hf]; zdiv).
    replace (Z.of_nat (length m) mod 16) with (Zlength last) by (unfold Zlength; destruct Hf as [Hf|Hf]; zdiv).
    rewrite padding_eq by done. set (p := last ++ [0x80] ++ zeros (15 - length last)).
    assert (length p = 16%nat) as Hp by (unfold p, zeros; rewrite !length_app, length_replicate; cbn [length]; lia).
    unfold xor_128. rewrite (take_ge p), (take_ge K2), (take_ge (cbc_mac _ _ _ _)), (take_ge (xor_bytes p K2))
      by (rewrite ?length_xor_bytes; lia). by rewrite xor_bytes_comm.
Qed.
End Code.

Lemma rfc_cmac_block `{BlockCipher} key K1 K2 m : block key -> block K1 -> block K2 -> bytes m ->
  block (rfc_cmac key K1 K2 m).
Proof.
  intros Hkey [HK1 HB1] [HK2 HB2] Hm. unfold rfc_cmac. cbv zeta.
  set (full := ((length m - 1) / 16)%nat).
  assert (16 * full <= length m)%nat as Hfl by (unfold full; pose proof (Nat.Div0.mul_div_le (length m - 1) 16); lia).
  assert (length m <= 16 * full + 16)%nat as Hfu.
  { unfold full. pose proof (Nat.div_mod_eq (length m - 1) 16). pose proof (Nat.mod_upper_bound (length m - 1) 16). lia. }
  destruct (cbc_loop key Hkey m Hm full 0%nat (zeros 16)) as [_ [HX HXb]]; [split; [done|apply zeros_bytes]|lia|].
  rewrite drop_0 in HX, HXb. assert (bytes (drop (16 * full) m)) as Hd by by apply Forall_drop.
  pose proof (length_drop m (16 * full)) as Hl.
  apply ciph_block_block; [done|]. apply xor_bytes_block; [|lia|done].
  case_bool_decide; (apply xor_bytes_block; [split|lia|done]); try done.
  - unfold zeros. rewrite !length_app, length_replicate. cbn [length]. lia.
  - repeat apply Forall_app_2; [done|by apply Forall_singleton|apply zeros_bytes].
Qed.

(** The comparison of aes_cmac_verify is equality of the sixteen bytes. *)
Lemma verify_eq mac mac' : length mac = 16%nat -> length mac' = 16%nat ->
  forallb (fun count => rd mac count =? rd mac' count) (seqZ 0 16) = bool_decide (mac = mac').
Proof.
  intros Hl Hl'. do 16 (destruct mac as [|? mac]; [discriminate|]; destruct mac' as [|? mac']; [discriminate|]).
  destruct mac; [|discriminate]. destruct mac'; [|discriminate].
  apply eq_true_iff_eq. rewrite bool_decide_eq_true.
  vm_compute (seqZ 0 16). cbn -[Z.eqb]. rewrite !andb_true_iff, !Z.eqb_eq. unfold rd. cbn.
  split; [by intros; repeat f_equal; intuition|]. intros [=]. by subst; repeat split.
Qed.

(** For every key and every message of at most 4080 bytes aes_cmac_calculate is
    AES-CMAC of RFC 4493 (the subkeys are the first and the second double of the
    cipher of zero in GF(2^128)), and aes_cmac_verify accepts exactly that code. *)
Theorem cmac_implements_rfc4493 `{BlockCipher} key m :
  block key -> bytes m -> Zlength m <= 4080 ->
  exists K1 K2, double_of (ciph_block key (zeros 16)) K1 /\ double_of K1 K2 /\
    aes_cmac_calculate key m (Zlength m) = rfc_cmac key K1 K2 m /\
    forall mac, length mac = 16%nat ->
      aes_cmac_verify key m (Zlength m) mac = bool_decide (mac = rfc_cmac key K1 K2 m).
Proof.
  intros Hkey Hm Hl. pose proof (generate_subkey_doubles key Hkey) as Hd.
  destruct (generate_subkey key) as [K1 K2] eqn:E. destruct Hd as [H1 H2]. exists K1, K2.
  pose proof (cmac_rfc key Hkey m K1 K2 Hm Hl E H1 H2) as Ec. repeat (split; [done|]).
  intros mac Hmac. unfold aes_cmac_verify. rewrite Ec. apply verify_eq; [done|].
  by apply rfc_cmac_block; [|apply H1|apply H2|].
Qed.

Lemma cmac_implements_rfc4493_witness :
  exists K1 K2, double_of (ciph_block rfc_key (zeros 16)) K1 /\ double_of K1 K2 /\
    aes_cmac_calculate rfc_key rfc_message (Zlength rfc_message) = rfc_cmac rfc_key K1 K2 rfc_message /\
    forall mac, length mac = 16%nat ->
      aes_cmac_verify rfc_key rfc_message (Zlength rfc_message) mac =
      bool_decide (mac = rfc_cmac rfc_key K1 K2 rfc_message).
Proof. apply cmac_implements_rfc4493; decide_it. Defined.

(** The block counter [n] has eight bits: the code of a message of [len + 4096]
    bytes is the code of its first [len] bytes, whatever the other 4096 are. *)
Theorem cmac_counter_wraps `{BlockCipher} key m len : 0 <= len ->
  aes_cmac_calculate key m (len + 4096) = aes_cmac_calculate key m len.
Proof.
  intros Hl. unfold aes_cmac_calculate.
  assert (u8 ((len + 4096 + 15) / 16) = u8 ((len + 15) / 16)) as ->.
  { unfold u8. replace (len + 4096 + 15) with (len + 15 + 256 * 16) by lia.
    rewrite Z.div_add by lia. replace ((len + 15) / 16 + 256) with ((len + 15) / 16 + 1 * 256) by lia.
    by rewrite Z.mod_add. }
  replace ((len + 4096) mod 16) with (len mod 16); [done|].
  replace (len + 4096) with (len + 256 * 16) by lia. by rewrite Z.mod_add.
Qed.

Lemma cmac_counter_wraps_witness :
  aes_cmac_calculate rfc_key (zeros 4096) (0 + 4096) = aes_cmac_calculate rfc_key (zeros 4096) 0.
Proof. apply cmac_counter_wraps. lia. Defined.

(** ** The keys of a network

    The keys are the chain of codes of the derivation: each of the last three is
    the code of the one before it, the constant and its number. *)
Theorem key_expansion_chain `{BlockCipher} key c :
  block key -> bytes c -> (15 <= length c)%nat ->
  exists K1 K2, double_of (ciph_block key (zeros 16)) K1 /\ double_of K1 K2 /\
    let mac := rfc_cmac key K1 K2 in
    let k := take 15 c in
    let T1 := mac (k ++ [1]) in
    let T2 := mac (T1 ++ k ++ [2]) in
    let T3 := mac (T2 ++ k ++ [3]) in
    let T4 := mac (T3 ++ k ++ [4]) in
    generic_expand key c = (T1, T2 ++ T3, T4).
Proof.
  intros Hkey Hc Hl. pose proof (generate_subkey_doubles key Hkey) as Hd.
  destruct (generate_subkey key) as [K1 K2] eqn:E. destruct Hd as [H1 H2]. exists K1, K2.
  split; [done|]. split; [done|]. cbv zeta. set (k := take 15 c).
  assert (bytes k) as Hk by by apply Forall_take.
  assert (length k = 15%nat) as Hkl by (unfold k; rewrite length_take; lia).
  assert (forall x, byte x -> bytes [x]) as H1b by (intros; by apply Forall_singleton).
  assert (forall T x, block T -> byte x -> let m := T ++ k ++ [x] in
    aes_cmac_calculate key m 32 = rfc_cmac key K1 K2 m /\ block (rfc_cmac key K1 K2 m)) as Hstep.
  { intros T x [HTl HTb] Hx m. assert (bytes m) as Hm by (repeat apply Forall_app_2; auto).
    assert (Zlength m = 32) as Hml by (unfold m, Zlength; rewrite !length_app; cbn [length]; lia).
    split; [|by apply rfc_cmac_block; [|apply H1|apply H2|]].
    rewrite <- Hml. apply cmac_rfc; try done. lia. }
  assert (bytes (k ++ [1])) as Hk1 by (apply Forall_app_2; [done|by apply H1b]).
  assert (aes_cmac_calculate key (k ++ [1]) 16 = rfc_cmac key K1 K2 (k ++ [1])) as E1.
  { replace 16 with (Zlength (k ++ [1])) by (unfold Zlength; rewrite length_app; cbn [length]; lia).
    apply cmac_rfc; try done.
    unfold Zlength. rewrite length_app. cbn [length]. lia. }
  assert (block (rfc_cmac key K1 K2 (k ++ [1]))) as B1
    by (apply rfc_cmac_block; [done|apply H1|apply H2|done]).
  unfold generic_expand. fold k. rewrite E1. set (T1 := rfc_cmac key K1 K2 (k ++ [1])) in *.
  destruct (Hstep T1 2 B1 ltac:(done)) as [E2 B2]. rewrite (take_ge T1), E2 by (destruct B1; lia).
  set (T2 := rfc_cmac key K1 K2 (T1 ++ k ++ [2])) in *.
  destruct (Hstep T2 3 B2 ltac:(done)) as [E3 B3]. rewrite (take_ge T2), E3 by (destruct B2; lia).
  set (T3 := rfc_cmac key K1 K2 (T2 ++ k ++ [3])) in *.
  destruct (Hstep T3 4 B3 ltac:(done)) as [E4 B4]. rewrite (take_ge T3), E4 by (destruct B3; lia).
  done.
Qed.
