(* ===== verification/Drbg.v ===== *)
(** * The random generators of S2 (src/libs2/crypto/ctr_drbg/ctr_drbg.c,
      src/libs2/crypto/nextnonce/nextnonce.c)

    The counter mode generator of NIST SP 800-90A that feeds both the gateway's
    own randomness and the nonces both ends of a connection derive from a shared
    state, and the derivation of that state from the two entropy inputs.  The
    theorems: the generator keeps its state well formed and is the standard's on
    128-bit counters. *)

From S2P Require Import Prelude Aes Ccm Cmac.
#[local] Open Scope Z_scope.

Record CTR_DRBG_CTX := mkDRBG { drbg_k : list Z; drbg_v : list Z }.

#[export] Instance drbg_eta : EtaRecord CTR_DRBG_CTX :=
  fun c => mkDRBG (drbg_k c) (drbg_v c).

(** From the least significant byte on, the head of the argument. *)
Fixpoint increment_le (data : list Z) : list Z :=
  match data with
  | [] => []
  | x :: data =>
      let x := u8 (x + 1) in
      x :: (if truth x then data else increment_le data)
  end.

Definition AES_CTR_DRBG_Increment (data : list Z) : list Z := rev (increment_le (rev data)).

Section Drbg.
Context `{BlockCipher}.

Definition AES_CTR_DRBG_Update (data : list Z) (ctx : CTR_DRBG_CTX) : CTR_DRBG_CTX :=
  let v := AES_CTR_DRBG_Increment (drbg_v ctx) in
  let tmp := ciph_block (drbg_k ctx) v in
  let v := AES_CTR_DRBG_Increment v in
  let tmp := tmp ++ ciph_block (drbg_k ctx) v in
  let tmp := xor_bytes tmp data in
  mkDRBG (take 16 tmp) (take 16 (drop 16 tmp)).

Definition AES_CTR_DRBG_Reseed (seed : list Z) (ctx : CTR_DRBG_CTX) : CTR_DRBG_CTX :=
  AES_CTR_DRBG_Update seed ctx.

Definition AES_CTR_DRBG_Instantiate (entropy personal : list Z) : CTR_DRBG_CTX :=
  AES_CTR_DRBG_Reseed (xor_bytes (take 32 entropy) (take 32 personal)) (mkDRBG (zeros 16) (zeros 16)).

(** RANDLEN is the length of a block, so the loop runs once. *)
Definition AES_CTR_DRBG_Generate (ctx : CTR_DRBG_CTX) : list Z * CTR_DRBG_CTX :=
  let ctx := ctx <| drbg_v := AES_CTR_DRBG_Increment (drbg_v ctx) |> in
  let rand := ciph_block (drbg_k ctx) (drbg_v ctx) in
  (rand, AES_CTR_DRBG_Update (zeros 32) ctx).

Definition ckdf_nonce0_expand (prk : list Z) : list Z :=
  let constant_ei := replicate 15 0x88 in
  let t1 := aes_cmac_calculate prk (constant_ei ++ [0] ++ constant_ei ++ [1]) 32 in
  let t2 := aes_cmac_calculate prk (take 16 t1 ++ constant_ei ++ [2]) 32 in
  take 16 t1 ++ take 16 t2.

Definition next_nonce_instantiate (ei_sender ei_receiver k_nonce : list Z) : CTR_DRBG_CTX :=
  let X := aes_cmac_calculate (replicate 16 0x26) (take 16 ei_sender ++ take 16 ei_receiver) 32 in
  AES_CTR_DRBG_Instantiate (ckdf_nonce0_expand X) k_nonce.

Definition next_nonce_generate (ctx : CTR_DRBG_CTX) : list Z * CTR_DRBG_CTX := AES_CTR_DRBG_Generate ctx.
End Drbg.

(** ** The counter *)

(** The [n] bytes of a number, most significant first. *)
Fixpoint be_bytes (n : nat) (x : Z) : list Z :=
  match n with
  | O => []
  | S n => x / 2 ^ (8 * Z.of_nat n) mod 256 :: be_bytes n x
  end.

Lemma be_int_app l x : be_int (l ++ [x]) = 256 * be_int l + x.
Proof.
  induction l as [|y l IH]; [cbn [app be_int]; change (2 ^ (8 * Zlength (@nil Z))) with 1; lia|]. cbn [app be_int]. rewrite IH. unfold Zlength.
  rewrite length_app. cbn [length]. replace (8 * Z.of_nat (length l + 1)) with (8 * Z.of_nat (length l) + 8) by lia.
  rewrite Z.pow_add_r by lia. lia.
Qed.

Lemma be_bytes_mod n x : be_bytes n (x mod 2 ^ (8 * Z.of_nat n)) = be_bytes n x.
Proof.
  enough (forall k, (n <= k)%nat -> be_bytes n (x mod 2 ^ (8 * Z.of_nat k)) = be_bytes n x) as HH by by apply HH.
  induction n as [|n IH]; intros k Hk; [done|]. cbn [be_bytes]. rewrite IH by lia. f_equal.
  replace (8 * Z.of_nat k) with (8 * Z.of_nat n + 8 * Z.of_nat (k - n)) by lia.
  rewrite Z.pow_add_r, Z.rem_mul_r by (try apply Z.pow_nonzero; lia).
  rewrite Z.add_comm, Z.mul_comm, Z.div_add_l by (apply Z.pow_nonzero; lia).
  rewrite (Z.div_small (x mod _)) by (apply Z.mod_pos_bound, Z.pow_pos_nonneg; lia).
  rewrite Z.add_0_r. replace (8 * Z.of_nat (k - n)) with (8 + 8 * (Z.of_nat (k - n) - 1)) by lia.
  rewrite Z.pow_add_r by lia. change (2 ^ 8) with 256.
  rewrite Z.rem_mul_r by (try apply Z.pow_pos_nonneg; lia).
  rewrite (Z.mul_comm 256), Z.mod_add by lia. apply Z.mod_mod. lia.
Qed.

Lemma be_bytes_int l : bytes l -> be_bytes (length l) (be_int l) = l.
Proof.
  induction 1 as [|x l Hx Hl IH]; [done|]. cbn [be_bytes be_int length].
  pose proof (be_int_range l Hl) as R. unfold Zlength in *. f_equal.
  - rewrite Z.div_add_l by (apply Z.pow_nonzero; lia). rewrite Z.div_small by done.
    rewrite Z.add_0_r. by apply Z.mod_small.
  - rewrite <- be_bytes_mod. rewrite Z.add_comm, Z.mod_add by (apply Z.pow_nonzero; lia).
    by rewrite be_bytes_mod.
Qed.

Lemma increment_le_int r : bytes r ->
  be_int (rev (increment_le r)) = (be_int (rev r) + 1) mod 2 ^ (8 * Z.of_nat (length r)) /\
  bytes (rev (increment_le r)) /\ length (rev (increment_le r)) = length r.
Proof.
  intros Hr.
  induction Hr as [|x r Hx Hr IH]; [done|]. cbn [increment_le rev].
  destruct IH as (IHv & IHb & IHl). rewrite !be_int_app. unfold byte in Hx. cbn [length].
  replace (8 * Z.of_nat (S (length r))) with (8 + 8 * Z.of_nat (length r)) by lia.
  assert (0 < 2 ^ (8 * Z.of_nat (length r))) as Hp by (apply Z.pow_pos_nonneg; lia).
  rewrite Z.pow_add_r by lia. change (2 ^ 8) with 256.
  assert (bytes (rev r)) as Hrr by by apply Forall_rev.
  pose proof (be_int_range (rev r) Hrr) as R. unfold Zlength in R. rewrite length_rev in R.
  unfold truth. destruct (Z.eqb_spec (u8 (x + 1)) 0) as [E|E]; cbn [negb].
  - assert (x = 255) as -> by (unfold u8 in E; zdiv). change (u8 (255 + 1)) with 0. rewrite IHv.
    split; [|split].
    + replace (256 * be_int (rev r) + 255 + 1) with (256 * (be_int (rev r) + 1)) by lia.
      rewrite Z.mul_mod_distr_l by lia. lia.
    + apply Forall_app_2; [done|]. by apply Forall_singleton.
    + rewrite length_app, IHl. cbn [length]. lia.
  - assert (u8 (x + 1) = x + 1) as -> by (unfold u8 in *; zdiv). split; [|split].
    + rewrite Z.mod_small; [lia|]. unfold u8 in E. assert (x <> 255) by (intros ->; done). nia.
    + apply Forall_app_2; [done|]. apply Forall_singleton. unfold byte. unfold u8 in E. zdiv.
    + rewrite length_app, length_rev. cbn [length]. lia.
Qed.

Lemma increment_int l : bytes l ->
  be_int (AES_CTR_DRBG_Increment l) = (be_int l + 1) mod 2 ^ (8 * Zlength l) /\
  bytes (AES_CTR_DRBG_Increment l) /\ length (AES_CTR_DRBG_Increment l) = length l.
Proof.
  intros Hl. destruct (increment_le_int (rev l)) as (E & Hb & Hlen); [by apply Forall_rev|].
  rewrite rev_involutive in E. rewrite (length_rev l) in E, Hlen.
  exact (conj E (conj Hb Hlen)).
Qed.

(** ** NIST SP 800-90A

    CTR_DRBG without derivation function on the numbers the byte strings stand
    for: [V] counts modulo 2^128, the output is the cipher of the next counter and
    the key and the counter are replaced by the cipher of the two that follow. *)

Definition drbg_ok (ctx : CTR_DRBG_CTX) : Prop := block (drbg_k ctx) /\ block (drbg_v ctx).

#[export] Instance drbg_ok_dec ctx : Decision (drbg_ok ctx).
Proof. unfold drbg_ok. apply _. Defined.

Definition counter_bytes (V : Z) : list Z := be_bytes 16 (V mod 2 ^ 128).

Section Spec.
Context `{BlockCipher}.

Definition sp_update (data K : list Z) (V : Z) : list Z * list Z :=
  let temp := ciph_block K (counter_bytes (V + 1)) ++ ciph_block K (counter_bytes (V + 2)) in
  let temp := xor_bytes temp data in
  (take 16 temp, drop 16 temp).

Definition sp_generate (K : list Z) (V : Z) : list Z * (list Z * list Z) :=
  (ciph_block K (counter_bytes (V + 1)), sp_update (zeros 32) K (V + 1)).

Lemma increment_counter v : block v ->
  AES_CTR_DRBG_Increment v = counter_bytes (be_int v + 1) /\ block (AES_CTR_DRBG_Increment v).
Proof.
  intros [Hl Hb]. destruct (increment_int v Hb) as (E & Hib & Hil).
  unfold Zlength in E. rewrite Hl in *. change (8 * Z.of_nat 16) with 128 in E.
  split; [|by split]. unfold counter_bytes. rewrite <- E, <- Hil. symmetry. by apply be_bytes_int.
Qed.

Lemma counter_bytes_next v k : block v ->
  counter_bytes (be_int (AES_CTR_DRBG_Increment v) + k) = counter_bytes (be_int v + 1 + k).
Proof.
  intros [Hl Hb]. destruct (increment_int v Hb) as (E & _). unfold Zlength in E. rewrite Hl in E.
  change (8 * Z.of_nat 16) with 128 in E. unfold counter_bytes. rewrite E. by rewrite Zplus_mod_idemp_l.
Qed.

Lemma update_spec data ctx : drbg_ok ctx -> length data = 32%nat -> bytes data ->
  let ctx' := AES_CTR_DRBG_Update data ctx in
  (drbg_k ctx', drbg_v ctx') = sp_update data (drbg_k ctx) (be_int (drbg_v ctx)) /\ drbg_ok ctx'.
Proof.
  intros [Hk Hv] Hdl Hdb. unfold AES_CTR_DRBG_Update, sp_update. cbv zeta.
  destruct (increment_counter _ Hv) as [E1 Hv1]. destruct (increment_counter _ Hv1) as [E2 Hv2].
  rewrite E2, counter_bytes_next by done. replace (be_int (drbg_v ctx) + 1 + 1) with (be_int (drbg_v ctx) + 2) by lia.
  assert (block (counter_bytes (be_int (drbg_v ctx) + 2))) as Hc2.
  { rewrite E2, counter_bytes_next in Hv2 by done. by replace (be_int (drbg_v ctx) + 2) with (be_int (drbg_v ctx) + 1 + 1) by lia. }
  rewrite E1 in Hv1 |- *.
  set (b1 := ciph_block (drbg_k ctx) (counter_bytes (be_int (drbg_v ctx) + 1))).
  set (b2 := ciph_block (drbg_k ctx) (counter_bytes (be_int (drbg_v ctx) + 2))).
  assert (block b1) as [Hl1 Hb1] by by apply ciph_block_block.
  assert (block b2) as [Hl2 Hb2] by by apply ciph_block_block.
  assert (length (xor_bytes (b1 ++ b2) data) = 32%nat) as Hxl by (rewrite length_xor_bytes, length_app; lia).
  assert (bytes (xor_bytes (b1 ++ b2) data)) as Hxb by (apply xor_bytes_bytes; [by apply Forall_app_2|done]).
  cbn [drbg_k drbg_v]. rewrite (take_ge (drop _ _)) by (rewrite length_drop; lia). split; [done|].
  split; split; cbn [drbg_k drbg_v].
  - rewrite length_take. lia.
  - by apply Forall_take.
  - rewrite length_drop. lia.
  - by apply Forall_drop.
Qed.

Lemma generate_spec ctx : drbg_ok ctx ->
  let '(rand, ctx') := AES_CTR_DRBG_Generate ctx in
  (rand, (drbg_k ctx', drbg_v ctx')) = sp_generate (drbg_k ctx) (be_int (drbg_v ctx)) /\
  block rand /\ drbg_ok ctx'.
Proof.
  intros [Hk Hv]. unfold AES_CTR_DRBG_Generate. cbv zeta. cbn [drbg_k drbg_v modify].
  destruct (increment_counter _ Hv) as [E1 Hv1].
  destruct (update_spec (zeros 32) (mkDRBG (drbg_k ctx) (AES_CTR_DRBG_Increment (drbg_v ctx)))) as [Eu Hok];
    [by split|done|apply zeros_bytes|].
  cbn [drbg_k drbg_v] in Eu. unfold sp_generate. split; [|split].
  - f_equal; [by rewrite <- E1|]. rewrite Eu. unfold sp_update. rewrite !counter_bytes_next by done.
    by rewrite <- !Z.add_assoc.
  - by apply ciph_block_block.
  - done.
Qed.

(** Both generators of S2 stay well formed. *)
Lemma cmac_32 key a b : block key -> length a = 16%nat -> bytes a -> length b = 16%nat -> bytes b ->
  block (aes_cmac_calculate key (a ++ b) 32).
Proof.
  intros Hk Ha Hab Hb Hbb. assert (bytes (a ++ b)) as Hm by by apply Forall_app_2.
  pose proof (generate_subkey_doubles key Hk) as Hd.
  destruct (generate_subkey key) as [K1 K2] eqn:E. destruct Hd as [H1 H2].
  assert (Zlength (a ++ b) = 32) as Hml by (unfold Zlength; rewrite length_app; lia). rewrite <- Hml.
  rewrite (cmac_rfc key Hk _ K1 K2) by (done || lia). by apply rfc_cmac_block; [|apply H1|apply H2|].
Qed.

Lemma instantiate_ok s r k : block s -> block r -> length k = 32%nat -> bytes k ->
  drbg_ok (next_nonce_instantiate s r k).
Proof.
  intros [Hs Hsb] [Hr Hrb] Hk Hkb. unfold next_nonce_instantiate. rewrite !take_ge by lia.
  assert (forall x, 0 <= x < 256 -> length (replicate 15 0x88 ++ [x]) = 16%nat /\ bytes (replicate 15 0x88 ++ [x])) as Hc.
  { intros x Hx. split; [done|]. apply Forall_app_2; [by apply Forall_replicate|by apply Forall_singleton]. }
  assert (block (aes_cmac_calculate (replicate 16 0x26) (s ++ r) 32)) as HX
    by (apply cmac_32; try done; decide_it).
  unfold AES_CTR_DRBG_Instantiate, AES_CTR_DRBG_Reseed, ckdf_nonce0_expand. cbv zeta.
  set (X := aes_cmac_calculate (replicate 16 0x26) (s ++ r) 32) in *.
  destruct (Hc 0 ltac:(lia)) as [Hc0 Hc0b]. destruct (Hc 1 ltac:(lia)) as [Hc1 Hc1b].
  destruct (Hc 2 ltac:(lia)) as [Hc2 Hc2b].
  assert (block (aes_cmac_calculate X ((replicate 15 0x88 ++ [0]) ++ replicate 15 0x88 ++ [1]) 32)) as HT1
    by by apply cmac_32.
  rewrite <- app_assoc in HT1. set (T1 := aes_cmac_calculate X _ 32) in *. destruct HT1 as [HT1 HT1b].
  rewrite (take_ge T1) by lia.
  assert (block (aes_cmac_calculate X (T1 ++ replicate 15 0x88 ++ [2]) 32)) as HT2 by by apply cmac_32.
  set (T2 := aes_cmac_calculate X (T1 ++ _) 32) in *. destruct HT2 as [HT2 HT2b]. rewrite (take_ge T2) by lia.
  apply update_spec.
  - split; split; try done; apply zeros_bytes.
  - rewrite length_xor_bytes, !length_take, length_app. lia.
  - apply xor_bytes_bytes; [apply Forall_take; by apply Forall_app_2|by apply Forall_take].
Qed.
End Spec.

(** The generator is CTR_DRBG of SP 800-90A: from every well formed state it
    gives the standard's output, moves to the standard's next state and that is
    well formed again. *)
Theorem drbg_implements_sp800_90a `{BlockCipher} ctx : drbg_ok ctx ->
  let '(rand, ctx') := AES_CTR_DRBG_Generate ctx in
  (rand, (drbg_k ctx', drbg_v ctx')) = sp_generate (drbg_k ctx) (be_int (drbg_v ctx)) /\
  block rand /\ drbg_ok ctx'.
Proof. apply generate_spec. Qed.

Lemma drbg_implements_sp800_90a_witness :
  let ctx := mkDRBG (seqZ 1 16) (replicate 16 255) in
  let '(rand, ctx') := AES_CTR_DRBG_Generate ctx in
  (rand, (drbg_k ctx', drbg_v ctx')) = sp_generate (drbg_k ctx) (be_int (drbg_v ctx)) /\
  block rand /\ drbg_ok ctx'.
Proof. apply drbg_implements_sp800_90a. decide_it. Defined.
