(* ===== verification/S2Transport.v ===== *)
(** * The S2 transport (src/libs2/protocol/S2.c)

    The security layer between the gateway and its nodes: the table of
    singlecast nonce states (SPAN) and multicast nonce states (MPAN), encryption
    and decryption of singlecast and multicast frames, the exchange of nonces and
    the state machine of a transmission.  It is built on the models of AES-CCM, of
    the random generators and of the key derivation.

    The context [S2] is a record with the members of the source's struct the
    transport uses, the timer, the calls it makes to the layers around it in
    [outs], and [oob], which records an access outside workbuf or the AAD buffer.
    The layers below and above are the environment [s2_env]: whether a frame was
    accepted for transmission, the supported commands and the contents of two
    local arrays the code may read before it writes them.  The inclusion machine
    is called through outputs.

    The union of a SPAN, a generator over a nonce, is kept as its bytes. *)

From S2P Require Import Prelude Aes Ccm Cmac Drbg.
#[local] Open Scope Z_scope.

(** ** Constants *)

Definition COMMAND_CLASS_SECURITY_2 : Z := 0x9F.
Definition SECURITY_2_NONCE_GET : Z := 1.
Definition SECURITY_2_NONCE_REPORT : Z := 2.
Definition SECURITY_2_MESSAGE_ENCAPSULATION : Z := 3.
Definition KEX_FAIL : Z := 7.
Definition SECURITY_2_COMMANDS_SUPPORTED_GET : Z := 0xD.
Definition SECURITY_2_COMMANDS_SUPPORTED_REPORT : Z := 0xE.
Definition SOS_BIT : Z := 1.
Definition MOS_BIT : Z := 2.
Definition EXTENSION_BIT : Z := 1.
Definition ENCRYPTED_EXTENSION_BIT : Z := 2.
Definition S2_MSG_EXTHDR_CRITICAL_FLAG : Z := 0x40.
Definition S2_MSG_EXTHDR_MORE_FLAG : Z := 0x80.
Definition S2_MSG_EXTHDR_TYPE_MASK : Z := 0x3F.
Definition S2_MSG_EXTHDR_TYPE_SN : Z := 1.
Definition S2_MSG_EXTHDR_TYPE_MPAN : Z := 2.
Definition S2_MSG_EXTHDR_TYPE_MGRP : Z := 3.
Definition S2_MSG_EXTHDR_TYPE_MOS : Z := 4.
Definition S2_TXOPTION_VERIFY_DELIVERY : Z := 1.
Definition S2_TXOPTION_SINGLECAST_FOLLOWUP : Z := 2.
Definition S2_TXOPTION_FIRST_SINGLECAST_FOLLOWUP : Z := 4.
Definition S2_RXOPTION_MULTICAST : Z := 1.
Definition S2_RXOPTION_FOLLOWUP : Z := 2.
Definition S2_TRANSMIT_COMPLETE_OK : Z := 0.
Definition S2_TRANSMIT_COMPLETE_FAIL : Z := 2.
Definition S2_TRANSMIT_COMPLETE_VERIFIED : Z := 5.
Definition UNENCRYPTED_CLASS : Z := 0xFF.
Definition S2_SEQ_DUPL_WINDOW_SIZE : Z := 2.
Definition SPAN_TABLE_SIZE : nat := 254.
Definition MPAN_TABLE_SIZE : nat := 254.
Definition MOS_LIST_LENGTH : nat := 3.
Definition N_SEC_CLASS : nat := 7.
Definition AUTH_TAG_LEN : Z := 8.
Definition ZWAVE_KEYSET : Z := 0.
Definition ZWAVE_LONG_RANGE_KEYSET : Z := 1.
Definition SIZEOF_WORKBUF : Z := 1280 + 10 + 8 + 4.
Definition SIZEOF_AAD : Z := 64.
Definition SEND_DATA_TIMEOUT : Z := 65000.
Definition LOWEST_LONG_RANGE_NODE_ID : Z := 0x100.

(** ** Data *)

Inductive span_state_t :=
  SPAN_NOT_USED | SPAN_NO_SEQ | SPAN_SOS | SPAN_SOS_LOCAL_NONCE | SPAN_SOS_REMOTE_NONCE
| SPAN_INSTANTIATE | SPAN_NEGOTIATED.

Inductive mpan_state_t := MPAN_NOT_USED | MPAN_SET | MPAN_MOS.

Inductive states_t :=
  IDLE | WAIT_NONCE_RAPORT | SENDING_MSG | SENDING_MULTICAST | VERIFYING_DELIVERY | IS_MOS_WAIT_REPLY.

Inductive decrypt_return_code_t := AUTH_OK | PARSE_FAIL | AUTH_FAIL | SEQUENCE_FAIL.

#[export] Instance span_state_eq : EqDecision span_state_t.
Proof. solve_decision. Defined.
#[export] Instance mpan_state_eq : EqDecision mpan_state_t.
Proof. solve_decision. Defined.
#[export] Instance states_eq : EqDecision states_t.
Proof. solve_decision. Defined.
#[export] Instance decrypt_rc_eq : EqDecision decrypt_return_code_t.
Proof. solve_decision. Defined.

(** The members of a connection the transport reads; the others are passed
    through. *)
Record s2_connection_t := mkConn {
  l_node : Z; r_node : Z; zw_tx_options : Z; zw_rx_status : Z; tx_options : Z; rx_options : Z; mgrp_group_id : Z; con_class_id : Z
}.

Record SPAN := mkSPAN {
  span_d : list Z; lnode : Z; rnode : Z; rx_seq : Z; tx_seq : Z; span_class_id : Z;
  span_state : span_state_t
}.

Record MPAN := mkMPAN {
  owner_id : Z; group_id : Z; inner_state : list Z; mpan_class_id : Z; mpan_state : mpan_state_t
}.

Record MOS_LIST := mkMOS { mos_node_id : Z; mos_group_id : Z }.

Record sec_group := mkSG { enc_key : list Z; mpan_key : list Z; nonce_key : list Z }.

(** Calls to the layers around the transport. *)
Inductive s2_out :=
| S2_send_frame_call (con : s2_connection_t) (frame : list Z)
| S2_send_frame_no_cb_call (con : s2_connection_t) (frame : list Z)
| S2_send_frame_multi_call (con : s2_connection_t) (frame : list Z)
| S2_send_done_event_call (status : Z)
| S2_msg_received_event_call (src : s2_connection_t) (plain_text : list Z)
| S2_resynchronization_event_call (remote seq local : Z)
| s2_inclusion_send_done_call (ok : bool)
| s2_inclusion_post_event_call (src : s2_connection_t) (frame : list Z)
| s2_inclusion_decryption_failure_call (src : s2_connection_t)
| S2_assert_failed.

Record S2 := mkS2 {
  sg : list sec_group; loaded_keys : Z; my_home_id : Z;
  peer : s2_connection_t; buf : list Z; mpan : option nat;
  span_table : list SPAN; mpan_table : list MPAN; mos_list : list MOS_LIST;
  fsm : states_t; retry : Z; inclusion_idle : bool; workbuf : list Z;
  s2_ctr_drbg : CTR_DRBG_CTX; timer : option Z; outs : list s2_out; oob : bool
}.

#[export] Instance conn_eta : EtaRecord s2_connection_t := fun c =>
  mkConn (l_node c) (r_node c) (zw_tx_options c) (zw_rx_status c) (tx_options c) (rx_options c) (mgrp_group_id c) (con_class_id c).
#[export] Instance span_eta : EtaRecord SPAN := fun s =>
  mkSPAN (span_d s) (lnode s) (rnode s) (rx_seq s) (tx_seq s) (span_class_id s) (span_state s).
#[export] Instance mpan_eta : EtaRecord MPAN := fun m =>
  mkMPAN (owner_id m) (group_id m) (inner_state m) (mpan_class_id m) (mpan_state m).
#[export] Instance s2_eta : EtaRecord S2 := fun s =>
  mkS2 (sg s) (loaded_keys s) (my_home_id s) (peer s) (buf s) (mpan s) (span_table s) (mpan_table s)
    (mos_list s) (fsm s) (retry s) (inclusion_idle s) (workbuf s) (s2_ctr_drbg s) (timer s) (outs s) (oob s).

Definition null_span : SPAN := mkSPAN (zeros 33) 0 0 0 0 0 SPAN_NOT_USED.
Definition null_mpan : MPAN := mkMPAN 0 0 (zeros 16) 0 MPAN_NOT_USED.
Definition null_sg : sec_group := mkSG (zeros 16) (zeros 16) (zeros 32).

(** ** The union of a SPAN

    CTR_DRBG_CTX is a flag byte, [v] and [k]; the nonce shares its first 16
    bytes. *)

Definition d_rng (d : list Z) : CTR_DRBG_CTX := mkDRBG (sub_buf d 17 16) (sub_buf d 1 16).
Definition d_r_nonce (d : list Z) : list Z := sub_buf d 0 16.
Definition set_d_rng (df : Z) (c : CTR_DRBG_CTX) : list Z := [df] ++ drbg_v c ++ drbg_k c.
Definition set_d_r_nonce (d nonce : list Z) : list Z := memcpy_at d 0 (take 16 nonce).

(** ** Access to the tables *)

Definition span_at (st : S2) (i : nat) : SPAN := default null_span (span_table st !! i).
Definition mpan_at (st : S2) (i : nat) : MPAN := default null_mpan (mpan_table st !! i).
Definition sg_at (st : S2) (class : Z) : sec_group := default null_sg (sg st !! Z.to_nat class).

Definition upd_span (i : nat) (f : SPAN -> SPAN) (st : S2) : S2 :=
  st <| span_table := alter f i (span_table st) |>.
Definition upd_mpan (i : nat) (f : MPAN -> MPAN) (st : S2) : S2 :=
  st <| mpan_table := alter f i (mpan_table st) |>.

Definition s2_emit (o : s2_out) (st : S2) : S2 := st <| outs := outs st ++ [o] |>.

(** An access to [n] bytes from index [i] of an array of [size] bytes. *)
Definition s2_access (i n size : Z) (st : S2) : S2 :=
  st <| oob := oob st || negb (in_range i n size) |>.

Definition wb_write (i : Z) (bytes : list Z) (st : S2) : S2 :=
  st <| workbuf := memcpy_at (workbuf st) i bytes |>.

Record s2_env := mkS2Env {
  S2_send_frame : s2_connection_t -> list Z -> bool;
  S2_send_frame_multi : s2_connection_t -> list Z -> bool;
  S2_get_commands_supported : Z -> Z -> list Z;
  uninit_s_nonce : list Z; uninit_r_nonce : list Z
}.

(** bigint_add with the constant [one] of next_mpan_state: the lowest index is the
    least significant byte. *)
Definition bigint_add (a b : list Z) : list Z :=
  let step '(r, tmp) '(x, y) := let tmp := x + y + tmp in (r ++ [Z.land tmp 0xff], Z.shiftr tmp 8) in
  fst (fold_left step (zip a b) ([], 0)).

Definition next_mpan_state (m : MPAN) : MPAN :=
  m <| inner_state := bigint_add (inner_state m) (zeros 15 ++ [1]) |>.

Section S2.
Context `{BlockCipher}.

(** AES_CTR_DRBG_Generate on the generator of the process. *)
Definition s2_random (st : S2) : list Z * S2 :=
  let '(rnd, ctx) := AES_CTR_DRBG_Generate (s2_ctr_drbg st) in (rnd, st <| s2_ctr_drbg := ctx |>).

(** The index of the first entry that satisfies [f]. *)
Definition first_index {A} (f : A -> bool) (l : list A) : option nat :=
  fst <$> list_find (fun x => f x = true) l.

Definition find_mpan_by_group_id (owner group : Z) (create_new : bool) (st : S2) : option nat * S2 :=
  let matches m :=
    bool_decide (mpan_state m <> MPAN_NOT_USED) && (group_id m =? group) && (owner_id m =? owner) &&
    Z.testbit (loaded_keys st) (mpan_class_id m) in
  match first_index matches (mpan_table st) with
  | Some i => (Some i, st)
  | None =>
      if negb create_new then (None, st)
      else
        let '(rnd, st) := s2_random st in
        let i := match first_index (fun m => bool_decide (mpan_state m = MPAN_NOT_USED)) (mpan_table st) with
                 | Some i => i
                 | None => Z.to_nat (rd rnd 0 mod Z.of_nat MPAN_TABLE_SIZE)
                 end in
        let '(inner, st) := s2_random st in
        (Some i,
         upd_mpan i (fun m =>
           m <| mpan_state := if truth owner then MPAN_MOS else MPAN_SET |> <| group_id := group |>
             <| owner_id := owner |> <| mpan_class_id := con_class_id (peer st) |>
             <| inner_state := inner |>) st)
  end.

Definition span_matches (con : s2_connection_t) (s : SPAN) : bool :=
  bool_decide (span_state s <> SPAN_NOT_USED) && (lnode s =? l_node con) && (rnode s =? r_node con).

Definition find_span_by_node (con : s2_connection_t) (st : S2) : nat * S2 :=
  match first_index (span_matches con) (span_table st) with
  | Some i => (i, st)
  | None =>
      let '(rnd, st) := s2_random st in
      let i := match first_index (fun s => bool_decide (span_state s = SPAN_NOT_USED)) (span_table st) with
               | Some i => i
               | None => Z.to_nat (rd rnd 0 mod Z.of_nat SPAN_TABLE_SIZE)
               end in
      (i, upd_span i (fun s =>
            s <| span_state := SPAN_NO_SEQ |> <| lnode := l_node con |> <| rnode := r_node con |>
              <| tx_seq := rd rnd 1 |>) st)
  end.

Definition S2_span_ok (con : s2_connection_t) (st : S2) : bool * S2 :=
  let '(i, st) := find_span_by_node con st in
  let span := span_at st i in
  ((bool_decide (span_state span = SPAN_NEGOTIATED) || bool_decide (span_state span = SPAN_SOS_REMOTE_NONCE)) &&
   (span_class_id span =? con_class_id con), st).

Definition S2_verify_seq (con : s2_connection_t) (seq : Z) (st : S2) : bool * S2 :=
  let '(i, st) := find_span_by_node con st in
  let span := span_at st i in
  if bool_decide (span_state span = SPAN_NO_SEQ) || (S2_SEQ_DUPL_WINDOW_SIZE <=? u8 (rx_seq span - seq)) then
    (true, upd_span i (fun s => s <| rx_seq := seq |>) st)
  else (false, st).

Definition S2_is_node_mos (nodeid : Z) (st : S2) : bool :=
  existsb (fun m => mos_node_id m =? nodeid) (mos_list st).

(** ** The end of a transmission *)

Definition S2_post_send_done_event (status : Z) (st : S2) : S2 :=
  s2_emit (S2_send_done_event_call status)
    (s2_emit (s2_inclusion_send_done_call
       ((status =? S2_TRANSMIT_COMPLETE_OK) || (status =? S2_TRANSMIT_COMPLETE_VERIFIED))) st).

(** S2_fsm_post_event for the event SEND_DONE. *)
Definition fsm_send_done (status time : Z) (st : S2) : S2 :=
  match fsm st with
  | IDLE | IS_MOS_WAIT_REPLY => s2_emit (s2_inclusion_send_done_call (status =? S2_TRANSMIT_COMPLETE_OK)) st
  | WAIT_NONCE_RAPORT | VERIFYING_DELIVERY =>
      if status =? S2_TRANSMIT_COMPLETE_OK then st <| timer := Some time |>
      else S2_post_send_done_event status (st <| fsm := IDLE |>)
  | SENDING_MSG => S2_post_send_done_event status (st <| fsm := IDLE |>)
  | SENDING_MULTICAST => s2_emit S2_assert_failed st
  end.

Definition S2_send_raw (E : s2_env) (frame : list Z) (st : S2) : S2 :=
  let st' := s2_emit (S2_send_frame_call (peer st) frame) st in
  if S2_send_frame E (peer st) frame then
    let '(i, st') := find_span_by_node (peer st') st' in
    upd_span i (fun s => s <| tx_seq := u8 (tx_seq s + 1) |>) st'
  else fsm_send_done S2_TRANSMIT_COMPLETE_FAIL 0 st'.

Definition S2_send_nonce_get (E : s2_env) (st : S2) : S2 :=
  let '(i, st) := find_span_by_node (peer st) st in
  S2_send_raw E [COMMAND_CLASS_SECURITY_2; SECURITY_2_NONCE_GET; tx_seq (span_at st i)] st.

(** ** Encryption *)

(** The AAD, and whether it fits the array of [max_size] bytes. *)
Definition S2_make_aad (sender receiver : Z) (msg : list Z) (hdr_len msg_len max_size : Z) (st : S2) :
    list Z * S2 :=
  if max_size <? hdr_len - 2 + 8 then ([], st)
  else
    let nodes :=
      if (LOWEST_LONG_RANGE_NODE_ID <=? sender) || (LOWEST_LONG_RANGE_NODE_ID <=? receiver) then
        [Z.land (Z.shiftr sender 8) 0xFF; Z.land sender 0xFF;
         Z.land (Z.shiftr receiver 8) 0xFF; Z.land receiver 0xFF]
      else [Z.land sender 0xFF; Z.land receiver 0xFF] in
    let home := my_home_id st in
    let aad := nodes ++
      [Z.land (Z.shiftr home 24) 0xFF; Z.land (Z.shiftr home 16) 0xFF; Z.land (Z.shiftr home 8) 0xFF;
       Z.land home 0xFF; Z.land (Z.shiftr msg_len 8) 0xFF; Z.land msg_len 0xFF] ++
      sub_buf msg 2 (hdr_len - 2) in
    (aad, s2_access 0 (Zlength aad) max_size st).

(** One entry of the list of nodes out of sync; the state is the write position
    and the number of extensions. *)
Definition mpan_extension (i : nat) (acc : Z * Z * S2) : Z * Z * S2 :=
  let '(p, k, st) := acc in
  let m := default (mkMOS 0 0) (mos_list st !! i) in
  if mos_node_id m =? r_node (peer st) then
    match find_mpan_by_group_id 0 (mos_group_id m) false st with
    | (None, st) => (p, k, st)
    | (Some j, st) =>
        let st := wb_write p ([19; Z.lor (Z.lor S2_MSG_EXTHDR_TYPE_MPAN S2_MSG_EXTHDR_MORE_FLAG)
                                         S2_MSG_EXTHDR_CRITICAL_FLAG; mos_group_id m] ++
                             take 16 (inner_state (mpan_at st j))) st in
        (p + 3, k + 1, st <| mos_list := <[i := mkMOS 0 (mos_group_id m)]> (mos_list st) |>)
    end
  else (p, k, st).

Definition S2_add_mpan_extensions (ext_data : Z) (st : S2) : Z * S2 :=
  let '(_, k, st) := fold_left (fun acc i => mpan_extension i acc) (seq 0 MOS_LIST_LENGTH) (ext_data, 0, st) in
  let st := if truth k then
    let at_ := ext_data + (k - 1) * 19 + 1 in
    wb_write at_ [Z.land (rd (workbuf st) at_) 0x7F] st else st in
  (k * 19, st).

Definition wb_or (i flag : Z) (st : S2) : S2 := wb_write i [Z.lor (rd (workbuf st) i) flag] st.

(** The extension with the sender's nonce; the results are the length of the
    header and the number of extensions. *)
Definition add_sn_extension (i : nat) (st : S2) : Z * Z * S2 :=
  if decide (span_state (span_at st i) = SPAN_SOS_REMOTE_NONCE) then
    let '(ei_sender, st) := s2_random st in
    let ei_receiver := d_r_nonce (span_d (span_at st i)) in
    let class := con_class_id (peer st) in
    let rng := next_nonce_instantiate ei_sender ei_receiver (nonce_key (sg_at st class)) in
    let st := upd_span i (fun s =>
      s <| span_d := set_d_rng 0 rng |> <| span_class_id := class |> <| span_state := SPAN_NEGOTIATED |>) st in
    (22, 1, wb_write 4 ([18; Z.lor S2_MSG_EXTHDR_CRITICAL_FLAG S2_MSG_EXTHDR_TYPE_SN] ++ take 16 ei_sender) st)
  else (4, 0, st).

Definition add_mgrp_extension (hdr_len n_ext : Z) (st : S2) : Z * Z * S2 :=
  match mpan st with
  | Some j =>
      if has (tx_options (peer st))
           (Z.lor S2_TXOPTION_SINGLECAST_FOLLOWUP S2_TXOPTION_FIRST_SINGLECAST_FOLLOWUP) then
        let '(hdr_len, n_ext, st) :=
          if negb (S2_is_node_mos (r_node (peer st)) st) then
            (hdr_len + 3, n_ext + 1,
             wb_write hdr_len [3; Z.lor S2_MSG_EXTHDR_CRITICAL_FLAG S2_MSG_EXTHDR_TYPE_MGRP;
                               group_id (mpan_at st j)] st)
          else (hdr_len, n_ext, st) in
        let st := if has (tx_options (peer st)) S2_TXOPTION_FIRST_SINGLECAST_FOLLOWUP && (retry st =? 2)
                  then upd_mpan j next_mpan_state st else st in
        (hdr_len, n_ext, st)
      else (hdr_len, n_ext, st)
  | None => (hdr_len, n_ext, st)
  end.

Definition add_mos_extension (hdr_len n_ext : Z) (st : S2) : Z * Z * S2 :=
  match mpan st with
  | Some j =>
      if decide (mpan_state (mpan_at st j) = MPAN_MOS) then
        let st := upd_mpan j (fun m => m <| mpan_state := MPAN_NOT_USED |>) st in
        (hdr_len + 2, n_ext + 1, wb_write hdr_len [2; S2_MSG_EXTHDR_TYPE_MOS] (st <| mpan := None |>))
      else (hdr_len, n_ext, st)
  | None => (hdr_len, n_ext, st)
  end.

(** Sets the flag of the extensions and, for more than one, the flag of the first
    that more follow. *)
Definition flag_extensions (n_ext : Z) (st : S2) : S2 :=
  if truth n_ext then
    let st := wb_or 3 EXTENSION_BIT st in
    if 1 <? n_ext then wb_or 5 S2_MSG_EXTHDR_MORE_FLAG st else st
  else st.

(** Encrypts the [text_len] bytes of workbuf behind the header and returns the
    length with the tag. *)
Definition wb_encrypt (key nonce aad : list Z) (hdr_len text_len : Z) (st : S2) : Z * S2 :=
  let '(msg_len, region) :=
    CCM_encrypt_and_auth key nonce aad (Zlength aad) (drop (Z.to_nat hdr_len) (workbuf st)) text_len in
  (msg_len, st <| workbuf := take (Z.to_nat hdr_len) (workbuf st) ++ region |>).

(** The clear part of the message in workbuf. *)
Definition make_header (i : nat) (st : S2) : Z * S2 :=
  let st := wb_write 0 [COMMAND_CLASS_SECURITY_2; SECURITY_2_MESSAGE_ENCAPSULATION;
                        tx_seq (span_at st i); 0] st in
  let '(hdr_len, n_ext, st) := add_sn_extension i st in
  let '(hdr_len, n_ext, st) := add_mgrp_extension hdr_len n_ext st in
  let '(hdr_len, n_ext, st) := add_mos_extension hdr_len n_ext st in
  (hdr_len, flag_extensions n_ext st).

(** The encrypted part behind a header of [hdr_len] bytes, and the transmission. *)
Definition encrypt_payload (E : s2_env) (i : nat) (hdr_len : Z) (st : S2) : S2 :=
  let '(shdr_len, st) := S2_add_mpan_extensions hdr_len st in
  let st := if truth shdr_len then wb_or 3 ENCRYPTED_EXTENSION_BIT st else st in
  let length := Zlength (buf st) in
  let st := s2_access 0 (hdr_len + shdr_len + length + AUTH_TAG_LEN) SIZEOF_WORKBUF st in
  let st := wb_write (hdr_len + shdr_len) (buf st) st in
  let '(aad, st) :=
    S2_make_aad (l_node (peer st)) (r_node (peer st)) (workbuf st) hdr_len
      (length + shdr_len + hdr_len + AUTH_TAG_LEN) SIZEOF_AAD st in
  let '(nonce, rng) := next_nonce_generate (d_rng (span_d (span_at st i))) in
  let st := upd_span i (fun s => s <| span_d := set_d_rng (rd (span_d s) 0) rng |>) st in
  let '(msg_len, st) :=
    wb_encrypt (enc_key (sg_at st (con_class_id (peer st)))) nonce aad hdr_len (length + shdr_len) st in
  S2_send_raw E (sub_buf (workbuf st) 0 (msg_len + hdr_len)) st.

Definition S2_encrypt_and_send (E : s2_env) (st : S2) : S2 :=
  let '(i, st) := find_span_by_node (peer st) st in
  let '(hdr_len, st) := make_header i st in
  encrypt_payload E i hdr_len st.

Definition S2_encrypt_and_send_multi (E : s2_env) (j : nat) (st : S2) : S2 :=
  let length := Zlength (buf st) in
  let hdr_len := 4 + 3 in
  let st := s2_access 0 (hdr_len + length + AUTH_TAG_LEN) SIZEOF_WORKBUF st in
  let st := wb_write 0 ([COMMAND_CLASS_SECURITY_2; SECURITY_2_MESSAGE_ENCAPSULATION; 0xFF; EXTENSION_BIT;
                         3; Z.lor S2_MSG_EXTHDR_CRITICAL_FLAG S2_MSG_EXTHDR_TYPE_MGRP;
                         group_id (mpan_at st j)] ++ buf st) st in
  let '(aad, st) :=
    S2_make_aad (l_node (peer st)) (r_node (peer st)) (workbuf st) hdr_len
      (length + hdr_len + AUTH_TAG_LEN) SIZEOF_AAD st in
  let m := mpan_at st j in
  let nonce := ciph_block (mpan_key (sg_at st (mpan_class_id m))) (inner_state m) in
  let st := upd_mpan j next_mpan_state st in
  let '(msg_len, st) := wb_encrypt (enc_key (sg_at st (mpan_class_id m))) nonce aad hdr_len length st in
  let frame := sub_buf (workbuf st) 0 (msg_len + hdr_len) in
  let st' := s2_emit (S2_send_frame_multi_call (peer st) frame) st in
  if S2_send_frame_multi E (peer st) frame then st'
  else fsm_send_done S2_TRANSMIT_COMPLETE_FAIL 0 st'.

(** ** Nonces *)

Definition S2_send_nonce_report (con : s2_connection_t) (flags : Z) (st : S2) : S2 :=
  let '(i, st) := find_span_by_node con st in
  let head := [COMMAND_CLASS_SECURITY_2; SECURITY_2_NONCE_REPORT; tx_seq (span_at st i); flags] in
  let '(frame, st) :=
    if has flags SOS_BIT then
      let '(rnd, st) := s2_random st in
      let st := upd_span i (fun s =>
        s <| span_state := SPAN_SOS_LOCAL_NONCE |> <| span_d := set_d_r_nonce (span_d s) rnd |>) st in
      (head ++ d_r_nonce (span_d (span_at st i)), st)
    else (head, st) in
  s2_emit (S2_send_frame_no_cb_call con frame)
    (upd_span i (fun s => s <| tx_seq := u8 (tx_seq s + 1) |>) st).

Definition S2_set_node_mos (node : Z) (st : S2) : S2 :=
  match mpan st with
  | Some j =>
      if (bool_decide (fsm st = VERIFYING_DELIVERY) || bool_decide (fsm st = SENDING_MSG)) &&
         has (tx_options (peer st))
           (Z.lor S2_TXOPTION_SINGLECAST_FOLLOWUP S2_TXOPTION_FIRST_SINGLECAST_FOLLOWUP) then
        match first_index (fun m => mos_node_id m =? 0) (mos_list st) with
        | Some i => st <| mos_list := <[i := mkMOS node (group_id (mpan_at st j))]> (mos_list st) |>
        | None => st
        end
      else st
  | None => st
  end.

(** The result is the flag byte of the report, or 0 for a duplicate. *)
Definition S2_register_nonce (frame : list Z) (st : S2) : Z * S2 :=
  let '(ok, st) := S2_verify_seq (peer st) (rd frame 2) st in
  if negb ok then (0, st)
  else
    let '(i, st) := find_span_by_node (peer st) st in
    let flags := rd frame 3 in
    let st :=
      if (4 + 16 <=? Zlength frame) && has flags SOS_BIT then
        upd_span i (fun s => s <| span_d := set_d_r_nonce (span_d s) (sub_buf frame 4 16) |>
                               <| span_state := SPAN_SOS_REMOTE_NONCE |>) st
      else st in
    let st :=
      if has flags MOS_BIT && (3 <=? Zlength frame) then S2_set_node_mos (r_node (peer st)) st else st in
    (flags, st).

Definition S2_set_peer (con : s2_connection_t) (frame : list Z) (st : S2) : S2 :=
  st <| peer := con |> <| buf := frame |>.

Definition S2_is_peernode (con : s2_connection_t) (st : S2) : bool :=
  (l_node con =? l_node (peer st)) && (r_node con =? r_node (peer st)).

(** S2_fsm_post_event for the event GOT_ENC_MSG_MOS. *)
Definition fsm_got_mos (con : s2_connection_t) (st : S2) : S2 :=
  match fsm st with
  | IDLE | IS_MOS_WAIT_REPLY =>
      S2_set_peer con [] (st <| timer := Some 10 |>) <| fsm := IS_MOS_WAIT_REPLY |>
  | SENDING_MULTICAST => s2_emit S2_assert_failed st
  | _ => st
  end.

(** ** Decryption *)

Record ext_state := mkExt {
  x_hdr_len : Z; x_mpan : option nat; x_s_nonce : list Z; x_r_nonce : list Z; x_st : S2
}.

#[export] Instance ext_eta : EtaRecord ext_state := fun x =>
  mkExt (x_hdr_len x) (x_mpan x) (x_s_nonce x) (x_r_nonce x) (x_st x).

Definition is_multicast (con : s2_connection_t) : bool := has (rx_options con) S2_RXOPTION_MULTICAST.

(** One extension of the clear part, at [p]; [inr] is a failure to parse. *)
Definition clear_extension (con : s2_connection_t) (msg : list Z) (span : option nat) (p : Z)
    (x : ext_state) : ext_state + S2 :=
  let ext_len := rd msg p in
  let x := x <| x_hdr_len := x_hdr_len x + ext_len |> in
  let st := x_st x in
  if (Zlength msg <? x_hdr_len x + AUTH_TAG_LEN) || (ext_len =? 0) then inr st
  else
    let flags := rd msg (p + 1) in
    let type := Z.land flags S2_MSG_EXTHDR_TYPE_MASK in
    if type =? S2_MSG_EXTHDR_TYPE_SN then
      match span with
      | Some i =>
          if decide (span_state (span_at st i) = SPAN_SOS_LOCAL_NONCE /\ ext_len = 18) then
            let s_nonce := sub_buf msg (p + 2) 16 in
            let r_nonce := d_r_nonce (span_d (span_at st i)) in
            let rng := next_nonce_instantiate s_nonce r_nonce
                         (nonce_key (sg_at st (span_class_id (span_at st i)))) in
            inl (x <| x_s_nonce := s_nonce |> <| x_r_nonce := r_nonce |>
                   <| x_st := upd_span i (fun s => s <| span_state := SPAN_INSTANTIATE |>
                                                     <| span_d := set_d_rng 0 rng |>) st |>)
          else inl x
      | None => inl x
      end
    else if type =? S2_MSG_EXTHDR_TYPE_MGRP then
      if negb (ext_len =? 3) then inr st
      else
        let '(m, st) := find_mpan_by_group_id (r_node con) (rd msg (p + 2)) (negb (is_multicast con)) st in
        inl (x <| x_mpan := m |> <| x_st := st |>)
    else if type =? S2_MSG_EXTHDR_TYPE_MOS then
      if negb (ext_len =? 2) then inr st
      else inl (x <| x_st := S2_set_node_mos (r_node con) st |>)
    else if has flags S2_MSG_EXTHDR_CRITICAL_FLAG then inr st
    else inl x.

(** Every extension is at least one byte, so the length of the message is enough
    fuel. *)
Fixpoint clear_extensions (fuel : nat) (con : s2_connection_t) (msg : list Z) (span : option nat) (p : Z)
    (x : ext_state) : ext_state + S2 :=
  match fuel with
  | O => inr (x_st x)
  | S fuel =>
      match clear_extension con msg span p x with
      | inr st => inr st
      | inl x =>
          if has (rd msg (p + 1)) S2_MSG_EXTHDR_MORE_FLAG
          then clear_extensions fuel con msg span (p + rd msg p) x else inl x
      end
  end.

(** What a tried key gave: the length of the text, the buffer behind the header,
    the connection and the state, or the jump to auth_fail. *)
Inductive loop_result :=
| LoopLeft (decrypt_len : Z) (text : list Z) (con : s2_connection_t) (st : S2)
| LoopAuthFail (st : S2).

(** The key of the SPAN fits: the nonce states are in sync. *)
Definition span_decrypted (i : nat) (m : option nat) (con : s2_connection_t) (st : S2) :
    s2_connection_t * S2 :=
  let st := upd_span i (fun s => s <| span_state := SPAN_NEGOTIATED |>) st in
  let con := con <| con_class_id := span_class_id (span_at st i) |> in
  match m with
  | None => (con, st)
  | Some j =>
      let con := con <| rx_options := Z.lor (rx_options con) S2_RXOPTION_FOLLOWUP |> in
      if decide (mpan_state (mpan_at st j) = MPAN_MOS) then (con, fsm_got_mos con (st <| mpan := Some j |>))
      else (con, upd_mpan j next_mpan_state st)
  end.

(** Decryption with the key of the class of the SPAN, if it is loaded. *)
Definition try_class (i : nat) (aad text : list Z) (st : S2) : Z * list Z * S2 :=
  let class := span_class_id (span_at st i) in
  if Z.testbit (loaded_keys st) class then
    let '(nonce, rng) := next_nonce_generate (d_rng (span_d (span_at st i))) in
    let st := upd_span i (fun s => s <| span_d := set_d_rng (rd (span_d s) 0) rng |>) st in
    let '(len, text) :=
      CCM_decrypt_and_auth (enc_key (sg_at st class)) nonce aad (Zlength aad) text (Zlength text) in
    (len, text, st)
  else (0, text, st).

Fixpoint class_loop (n : nat) (i : nat) (m : option nat) (con : s2_connection_t) (aad s_nonce r_nonce : list Z)
    (text : list Z) (st : S2) : loop_result :=
  match n with
  | O => LoopLeft 0 text con st
  | S n =>
      let class := span_class_id (span_at st i) in
      let '(decrypt_len, text, st) := try_class i aad text st in
      if truth decrypt_len then
        let '(con, st) := span_decrypted i m con st in LoopLeft decrypt_len text con st
      else if negb (bool_decide (fsm st = IDLE)) || bool_decide (span_state (span_at st i) = SPAN_NEGOTIATED)
      then LoopAuthFail st
      else
        let class := if Z.of_nat N_SEC_CLASS <=? class + 1 then 0 else class + 1 in
        let text := sub_buf (workbuf st) 0 (Zlength text) in
        let rng := next_nonce_instantiate s_nonce r_nonce (nonce_key (sg_at st class)) in
        let st := upd_span i (fun s => s <| span_class_id := class |> <| span_d := set_d_rng 0 rng |>) st in
        class_loop n i m con aad s_nonce r_nonce text st
  end.

(** One extension of the encrypted part, at [p] of the text; the results are the
    length of the extensions so far, the connection and the state. *)
Definition secure_extension (span : option nat) (text : list Z) (decrypt_len p : Z)
    (acc : Z * s2_connection_t * S2) : (Z * s2_connection_t * S2) + S2 :=
  let '(hdr_len, con, st) := acc in
  let ext_len := rd text p in
  let hdr_len := hdr_len + ext_len in
  if (decrypt_len <? hdr_len) || (ext_len =? 0) then inr st
  else
    let flags := rd text (p + 1) in
    if Z.land flags S2_MSG_EXTHDR_TYPE_MASK =? S2_MSG_EXTHDR_TYPE_MPAN then
      if is_multicast con || negb (ext_len =? 19) then inr st
      else
        let class := match span with Some i => span_class_id (span_at st i) | None => 0 end in
        match find_mpan_by_group_id (r_node con) (rd text (p + 2)) true st with
        | (Some j, st) =>
            let st := upd_mpan j (fun m => m <| inner_state := sub_buf text (p + 3) 16 |>
                                             <| mpan_state := MPAN_SET |> <| mpan_class_id := class |>) st in
            inl (hdr_len, con <| rx_options := Z.lor (rx_options con) S2_RXOPTION_FOLLOWUP |>, st)
        | (None, st) => inr st
        end
    else if has flags S2_MSG_EXTHDR_CRITICAL_FLAG then inr st
    else inl (hdr_len, con, st).

Fixpoint secure_extensions (fuel : nat) (span : option nat) (text : list Z) (decrypt_len p : Z)
    (acc : Z * s2_connection_t * S2) : (Z * s2_connection_t * S2) + S2 :=
  match fuel with
  | O => inr (snd acc)
  | S fuel =>
      match secure_extension span text decrypt_len p acc with
      | inr st => inr st
      | inl acc =>
          if has (rd text (p + 1)) S2_MSG_EXTHDR_MORE_FLAG
          then secure_extensions fuel span text decrypt_len (p + rd text p) acc else inl acc
      end
  end.

(** The result: [plain_text] is the buffer from the text on, of which the first
    [plain_text_len] bytes are the text. *)
Record decrypted := mkDec {
  rc : decrypt_return_code_t; plain_text : list Z; plain_text_len : Z; d_con : s2_connection_t; d_st : S2
}.

(** The label auth_fail. *)
Definition auth_fail (span m : option nat) (con : s2_connection_t) (st : S2) : decrypted :=
  let st := match m with Some j => upd_mpan j (fun m => m <| mpan_state := MPAN_MOS |>) st | None => st end in
  let st := match span with Some i => upd_span i (fun s => s <| span_state := SPAN_SOS |>) st | None => st end in
  let st :=
    if negb (is_multicast con) then
      S2_send_nonce_report con (match m with Some _ => Z.lor SOS_BIT MOS_BIT | None => SOS_BIT end) st
    else st in
  mkDec AUTH_FAIL [] 0 con st.

(** The part behind the decryption: the encrypted extensions and the text. *)
Definition decrypt_finish (flags : Z) (span m : option nat) (con : s2_connection_t) (aad_len decrypt_len : Z)
    (text : list Z) (st : S2) : decrypted :=
  if (decrypt_len =? 0) || (aad_len =? 0) then auth_fail span m con st
  else if has flags ENCRYPTED_EXTENSION_BIT then
    match secure_extensions (S (Z.to_nat decrypt_len)) span text decrypt_len 0 (0, con, st) with
    | inr st => mkDec PARSE_FAIL [] 0 con st
    | inl (hdr_len, con, st) => mkDec AUTH_OK (drop (Z.to_nat hdr_len) text) (decrypt_len - hdr_len) con st
    end
  else mkDec AUTH_OK text decrypt_len con st.

(** Decryption with the nonce state of the group [j]. *)
Definition multicast_decrypt (j : nat) (con : s2_connection_t) (aad text : list Z) (st : S2) :
    Z * list Z * s2_connection_t * S2 :=
  let m := mpan_at st j in
  let nonce := ciph_block (mpan_key (sg_at st (mpan_class_id m))) (inner_state m) in
  let st := upd_mpan j next_mpan_state st in
  let '(len, text) :=
    CCM_decrypt_and_auth (enc_key (sg_at st (mpan_class_id m))) nonce aad (Zlength aad) text (Zlength text) in
  (len, text, con <| con_class_id := mpan_class_id m |>, st).

(** The part behind the clear extensions. *)
Definition decrypt_body (msg : list Z) (flags : Z) (span : option nat) (con : s2_connection_t)
    (x : ext_state) : decrypted :=
  let st := x_st x in
  let m := x_mpan x in
  let hdr_len := x_hdr_len x in
  match span with
  | None =>
      match m with
      | Some j =>
          if decide (mpan_state (mpan_at st j) = MPAN_SET) then
            let con := con <| l_node := group_id (mpan_at st j) |> in
            let '(aad, st) := S2_make_aad (r_node con) (l_node con) msg hdr_len (Zlength msg) SIZEOF_AAD st in
            let '(len, text, con, st) := multicast_decrypt j con aad (drop (Z.to_nat hdr_len) msg) st in
            decrypt_finish flags span m con (Zlength aad) len text st
          else auth_fail span m con st
      | None => auth_fail span m con st
      end
  | Some i =>
      let state := span_state (span_at st i) in
      if decide (state = SPAN_NEGOTIATED \/ state = SPAN_INSTANTIATE) then
        let text := drop (Z.to_nat hdr_len) msg in
        let '(aad, st) := S2_make_aad (r_node con) (l_node con) msg hdr_len (Zlength msg) SIZEOF_AAD st in
        let st :=
          if bool_decide (fsm st = IDLE) && bool_decide (state = SPAN_INSTANTIATE)
          then wb_write 0 text (s2_access 0 (Zlength text) SIZEOF_WORKBUF st) else st in
        match class_loop N_SEC_CLASS i m con aad (x_s_nonce x) (x_r_nonce x) text st with
        | LoopAuthFail st => auth_fail span m con st
        | LoopLeft len text con st => decrypt_finish flags span m con (Zlength aad) len text st
        end
      else auth_fail span m con st
  end.

Definition S2_decrypt_msg (E : s2_env) (con : s2_connection_t) (msg : list Z) (st : S2) : decrypted :=
  let hdr_len := 4 in
  let flags := rd msg 3 in
  if Zlength msg <? hdr_len + AUTH_TAG_LEN then mkDec PARSE_FAIL [] 0 con st
  else
    let '(ok, span, st) :=
      if is_multicast con then (true, None, st)
      else
        let '(ok, st) := S2_verify_seq con (rd msg 2) st in
        if ok then let '(i, st) := find_span_by_node con st in (true, Some i, st) else (false, None, st) in
    if negb ok then mkDec SEQUENCE_FAIL [] 0 con st
    else
      let x := mkExt hdr_len None (uninit_s_nonce E) (uninit_r_nonce E) st in
      let parsed :=
        if has flags EXTENSION_BIT then clear_extensions (length msg) con msg span 4 x else inl x in
      match parsed with
      | inr st => mkDec PARSE_FAIL [] 0 con st
      | inl x => decrypt_body msg flags span con x
      end.

(** ** The state machine *)

Inductive event_t :=
| SEND_MSG (con : s2_connection_t) (buffer : list Z)
| SEND_MULTICAST (con : s2_connection_t) (buffer : list Z)
| SEND_DONE (status time : Z)
| GOT_NONCE_GET (con : s2_connection_t) (buffer : list Z)
| GOT_NONCE_RAPORT (con : s2_connection_t) (buffer : list Z)
| GOT_ENC_MSG (con : s2_connection_t)
| GOT_BAD_ENC_MSG (con : s2_connection_t)
| GOT_ENC_MSG_MOS (con : s2_connection_t)
| TIMEOUT.

(** The label send_msg_state_enter. *)
Definition send_msg_state_enter (E : s2_env) (st : S2) : S2 :=
  let st := st <| fsm := SENDING_MSG |> in
  let st := if has (tx_options (peer st)) S2_TXOPTION_VERIFY_DELIVERY
            then st <| fsm := VERIFYING_DELIVERY |> <| timer := Some SEND_DATA_TIMEOUT |> else st in
  let st := S2_encrypt_and_send E st in
  st <| retry := u8 (retry st - 1) |>.

Definition emit_S2_synchronization_event (con : s2_connection_t) (frame : list Z) (st : S2) : S2 :=
  s2_emit (S2_resynchronization_event_call (r_node con) (rd frame 2) (l_node con)) st.

Definition fsm_idle (E : s2_env) (e : event_t) (st : S2) : S2 :=
  match e with
  | SEND_MSG con buffer =>
      let '(ok, st) := S2_span_ok con st in
      if ok then send_msg_state_enter E (S2_set_peer con buffer st <| retry := 2 |>)
      else
        let st := S2_set_peer con buffer (st <| fsm := WAIT_NONCE_RAPORT |> <| retry := 2 |>) in
        S2_send_nonce_get E st <| timer := Some SEND_DATA_TIMEOUT |>
  | GOT_NONCE_GET con buffer =>
      if 3 <=? Zlength buffer then
        let '(ok, st) := S2_verify_seq con (rd buffer 2) st in
        if ok then S2_send_nonce_report con SOS_BIT st else st
      else st
  | GOT_NONCE_RAPORT con buffer =>
      let '(_, st) := S2_register_nonce buffer (S2_set_peer con buffer st) in
      emit_S2_synchronization_event con buffer st
  | SEND_MULTICAST con buffer =>
      let st := S2_set_peer con buffer st in
      match find_mpan_by_group_id 0 (u8 (r_node con)) true st with
      | (Some j, st) => S2_encrypt_and_send_multi E j (st <| mpan := Some j |> <| fsm := SENDING_MSG |>)
      | (None, st) => st
      end
  | SEND_DONE status time => fsm_send_done status time st
  | GOT_ENC_MSG_MOS con => fsm_got_mos con st
  | TIMEOUT =>
      if decide (fsm st = IS_MOS_WAIT_REPLY) then
        let st := st <| mpan := None |> <| fsm := IDLE |> in S2_send_nonce_report (peer st) MOS_BIT st
      else st
  | _ => st
  end.

Definition fsm_wait_nonce_raport (E : s2_env) (e : event_t) (st : S2) : S2 :=
  match e with
  | SEND_DONE status time => fsm_send_done status time st
  | TIMEOUT => S2_post_send_done_event S2_TRANSMIT_COMPLETE_FAIL (st <| fsm := IDLE |>)
  | GOT_NONCE_RAPORT con buffer =>
      if S2_is_peernode con st then
        let '(flags, st) := S2_register_nonce buffer st in
        if has flags SOS_BIT then send_msg_state_enter E st else st
      else emit_S2_synchronization_event con buffer st
  | _ => st
  end.

Definition fsm_sending_msg (e : event_t) (st : S2) : S2 :=
  match e with
  | SEND_DONE status time => fsm_send_done status time st
  | GOT_NONCE_RAPORT con buffer =>
      if S2_is_peernode con st then st else emit_S2_synchronization_event con buffer st
  | _ => st
  end.

Definition fsm_verifying_delivery (E : s2_env) (e : event_t) (st : S2) : S2 :=
  match e with
  | SEND_DONE status time => fsm_send_done status time st
  | GOT_ENC_MSG con =>
      if S2_is_peernode con st then
        if S2_is_node_mos (r_node con) st && (0 <? retry st) then
          send_msg_state_enter E
            (st <| buf := [] |>
                <| peer; tx_options := Z.land (tx_options (peer st)) (255 - S2_TXOPTION_VERIFY_DELIVERY) |>)
        else S2_post_send_done_event S2_TRANSMIT_COMPLETE_VERIFIED (st <| fsm := IDLE |> <| timer := None |>)
      else st
  | TIMEOUT => S2_post_send_done_event S2_TRANSMIT_COMPLETE_OK (st <| fsm := IDLE |>)
  | GOT_NONCE_RAPORT con buffer =>
      if S2_is_peernode con st then
        let '(nr_flag, st) := S2_register_nonce buffer st in
        if nr_flag =? 0 then st
        else
          let st := if nr_flag =? MOS_BIT then st <| buf := [] |> else st in
          if retry st =? 0 then S2_post_send_done_event S2_TRANSMIT_COMPLETE_FAIL (st <| fsm := IDLE |>)
          else send_msg_state_enter E st
      else emit_S2_synchronization_event con buffer st
  | _ => st
  end.

Definition S2_fsm_post_event (E : s2_env) (e : event_t) (st : S2) : S2 :=
  match fsm st with
  | IDLE | IS_MOS_WAIT_REPLY => fsm_idle E e st
  | WAIT_NONCE_RAPORT => fsm_wait_nonce_raport E e st
  | SENDING_MSG => fsm_sending_msg e st
  | VERIFYING_DELIVERY => fsm_verifying_delivery E e st
  | SENDING_MULTICAST => s2_emit S2_assert_failed st
  end.

(** ** The interface *)

Definition S2_is_send_data_busy (st : S2) : bool :=
  negb (bool_decide (fsm st = IDLE)) && negb (bool_decide (fsm st = IS_MOS_WAIT_REPLY)).

Definition S2_is_send_data_multicast_busy (st : S2) : bool := negb (bool_decide (fsm st = IDLE)).

Definition S2_is_busy (st : S2) : bool := negb (inclusion_idle st) || S2_is_send_data_busy st.

Definition IS_LR_NODE (nodeid : Z) : bool := (256 <=? nodeid) && (nodeid <=? 4000).

Definition convert_normal_to_lr_keyclass (con : s2_connection_t) : s2_connection_t :=
  if con_class_id con =? 2 then con <| con_class_id := 4 |>
  else if con_class_id con =? 1 then con <| con_class_id := 3 |> else con.

Definition convert_lr_to_normal_keyclass (con : s2_connection_t) : s2_connection_t :=
  if con_class_id con =? 4 then con <| con_class_id := 2 |>
  else if con_class_id con =? 3 then con <| con_class_id := 1 |> else con.

(** Which of the three transmissions is asked for. *)
Inductive cast := SINGLECAST | MULTICAST | FOLLOW_UP.

Definition S2_send_data_all_cast (E : s2_env) (con : s2_connection_t) (buffer : list Z) (c : cast) (st : S2) :
    bool * S2 :=
  let len := Zlength buffer in
  if (len =? 0) || (1280 <? len) || S2_is_send_data_busy st then (false, st)
  else
    (true,
     match c with
     | MULTICAST => S2_fsm_post_event E (SEND_MULTICAST con buffer) st
     | SINGLECAST => S2_fsm_post_event E (SEND_MSG con buffer) st
     | FOLLOW_UP =>
         let st := match find_mpan_by_group_id 0 (mgrp_group_id con) false st with
                   | (Some j, st) => st <| mpan := Some j |>
                   | (None, st) => st
                   end in
         S2_fsm_post_event E (SEND_MSG con buffer) st
     end).

Definition S2_send_data (E : s2_env) (dst : s2_connection_t) (buffer : list Z) (st : S2) : bool * S2 :=
  let dst := if IS_LR_NODE (r_node dst) then convert_normal_to_lr_keyclass dst else dst in
  S2_send_data_all_cast E dst buffer SINGLECAST st.

Definition S2_send_data_multicast (E : s2_env) (con : s2_connection_t) (buffer : list Z) (st : S2) : bool * S2 :=
  S2_send_data_all_cast E con buffer MULTICAST st.

(** The three transmissions with an explicit set of keys. *)
Definition with_keyset (keyset : Z) (con : s2_connection_t) (send : s2_connection_t -> S2 -> bool * S2) (st : S2) :
    bool * S2 :=
  if keyset =? ZWAVE_KEYSET then send con st
  else if keyset =? ZWAVE_LONG_RANGE_KEYSET then send (convert_normal_to_lr_keyclass con) st
  else (false, st).

Definition S2_send_data_singlecast_follow_up_with_keyset (E : s2_env) (con : s2_connection_t) (keyset : Z)
    (payload : list Z) (st : S2) : bool * S2 :=
  with_keyset keyset con (fun con => S2_send_data_all_cast E con payload FOLLOW_UP) st.

Definition S2_send_data_multicast_with_keyset (E : s2_env) (con : s2_connection_t) (keyset : Z)
    (payload : list Z) (st : S2) : bool * S2 :=
  with_keyset keyset con (fun con => S2_send_data_all_cast E con payload MULTICAST) st.

Definition S2_send_data_singlecast_with_keyset (E : s2_env) (con : s2_connection_t) (keyset : Z)
    (payload : list Z) (st : S2) : bool * S2 :=
  with_keyset keyset con (fun con => S2_send_data_all_cast E con payload SINGLECAST) st.

Definition S2_is_mos (node : Z) (clear : bool) (st : S2) : bool * S2 :=
  match first_index (fun m => (owner_id m =? node) && bool_decide (mpan_state m = MPAN_MOS)) (mpan_table st) with
  | Some j => (true, if clear then upd_mpan j (fun m => m <| mpan_state := MPAN_NOT_USED |>) st else st)
  | None => (false, st)
  end.

Definition S2_free_mpan (owner group : Z) (st : S2) : S2 :=
  match first_index (fun m => (group_id m =? group) && (owner_id m =? owner)) (mpan_table st) with
  | Some j => upd_mpan j (fun m => m <| mpan_state := MPAN_NOT_USED |>) st
  | None => st
  end.

Definition S2_network_key_update (class : Z) (net_key : list Z) (temp_key_expand : bool) (st : S2) : bool * S2 :=
  if Z.of_nat N_SEC_CLASS <=? class then (false, st)
  else
    let '(enc, nonce, mpan) := if temp_key_expand then tempkey_expand net_key else networkkey_expand net_key in
    (true, st <| sg := <[Z.to_nat class := mkSG enc mpan nonce]> (sg st) |>
              <| loaded_keys := Z.lor (loaded_keys st) (Z.shiftl 1 class) |>).

(** The context before s2_restore_keys loads the keys of the keystore. *)
Definition S2_init_ctx (home : Z) (drbg : CTR_DRBG_CTX) : S2 :=
  mkS2 (replicate N_SEC_CLASS null_sg) 0 home (mkConn 0 0 0 0 0 0 0 0) [] None
    (replicate SPAN_TABLE_SIZE null_span) (replicate MPAN_TABLE_SIZE null_mpan)
    (replicate MOS_LIST_LENGTH (mkMOS 0 0)) IDLE 0 true (zeros (Z.to_nat SIZEOF_WORKBUF)) drbg None [] false.

Definition S2_init_prng (hw_random : list Z) (st : S2) : S2 :=
  st <| s2_ctr_drbg := AES_CTR_DRBG_Instantiate hw_random (zeros 32) |>.

Definition SIZEOF_COMMANDS_SUP_REPORT_BUF : Z := 40.

(** The handling of a decrypted frame. *)
Definition handle_plain_text (E : s2_env) (src : s2_connection_t) (text : list Z) (len : Z) (st : S2) : S2 :=
  if len =? 0 then st
  else if (rd text 0 =? COMMAND_CLASS_SECURITY_2) && negb (rd text 1 =? SECURITY_2_COMMANDS_SUPPORTED_REPORT) then
    if is_multicast src then st
    else if rd text 1 =? SECURITY_2_COMMANDS_SUPPORTED_GET then
      let classes := S2_get_commands_supported E (l_node src) (con_class_id src) in
      if SIZEOF_COMMANDS_SUP_REPORT_BUF <? Zlength classes + 2 then st
      else snd (S2_send_data E src ([COMMAND_CLASS_SECURITY_2; SECURITY_2_COMMANDS_SUPPORTED_REPORT] ++ classes) st)
    else
      let frame := sub_buf text 0 len in
      s2_emit (s2_inclusion_post_event_call src frame) (st <| buf := frame |>)
  else
    let src := if IS_LR_NODE (r_node src) then convert_lr_to_normal_keyclass src else src in
    s2_emit (S2_msg_received_event_call src (sub_buf text 0 len)) st.

Definition S2_application_command_handler (E : s2_env) (src : s2_connection_t) (frame : list Z) (st : S2) : S2 :=
  if negb (rd frame 0 =? COMMAND_CLASS_SECURITY_2) then st
  else
    let command := rd frame 1 in
    if command =? SECURITY_2_NONCE_GET then
      if negb (is_multicast src) && (3 <=? Zlength frame) then
        let '(ok, st) := S2_verify_seq src (rd frame 2) st in
        if ok then S2_send_nonce_report src SOS_BIT st else st
      else st
    else if command =? SECURITY_2_NONCE_REPORT then S2_fsm_post_event E (GOT_NONCE_RAPORT src frame) st
    else if command =? SECURITY_2_MESSAGE_ENCAPSULATION then
      let d := S2_decrypt_msg E src frame st in
      match rc d with
      | AUTH_OK =>
          handle_plain_text E (d_con d) (plain_text d) (plain_text_len d)
            (S2_fsm_post_event E (GOT_ENC_MSG (d_con d)) (d_st d))
      | AUTH_FAIL =>
          s2_emit (s2_inclusion_decryption_failure_call (d_con d))
            (S2_fsm_post_event E (GOT_BAD_ENC_MSG (d_con d)) (d_st d))
      | _ => d_st d
      end
    else if negb (bool_decide (fsm st = IDLE)) && negb (command =? KEX_FAIL) then st
    else if negb (is_multicast src) then
      s2_emit (s2_inclusion_post_event_call (src <| con_class_id := UNENCRYPTED_CLASS |>) frame)
        (st <| buf := frame |>)
    else st.

Definition S2_timeout_notify (E : s2_env) (st : S2) : S2 := S2_fsm_post_event E TIMEOUT st.

Definition S2_send_frame_done_notify (E : s2_env) (status time : Z) (st : S2) : S2 :=
  S2_fsm_post_event E (SEND_DONE status time) st.
End S2.
