(* ===== verification/S2Sync.v ===== *)
(** * Synchronisation of two S2 nodes

    Theorems on the model of S2.c in which two contexts talk to each other: a
    message encrypted under a negotiated nonce state is decrypted to the same text
    and leaves both nonce states equal again; a transmission without one runs
    through the exchange of nonces to the delivery of the text. *)

From S2P Require Import Prelude Aes Ccm Cmac Drbg S2Transport.
#[local] Open Scope Z_scope.

(** ** The table of nonce states *)

Lemma first_index_Some {A} (f : A -> bool) l i :
  first_index f l = Some i <->
  exists x, l !! i = Some x /\ f x = true /\ (forall j y, (j < i)%nat -> l !! j = Some y -> f y = false).
Proof.
  unfold first_index. rewrite fmap_Some. split.
  - intros ([j x] & (Hx & Hf & Hlt)%list_find_Some & ->). exists x. split; [done|]. split; [done|].
    intros k y Hk Hy. apply not_true_is_false. by eapply Hlt.
  - intros (x & Hx & Hf & Hlt). exists (i, x). split; [|done]. apply list_find_Some.
    split; [done|]. split; [done|]. intros j y Hy Hj. by rewrite (Hlt j y).
Qed.

Lemma first_index_None {A} (f : A -> bool) l :
  first_index f l = None <-> forall i x, l !! i = Some x -> f x = false.
Proof.
  unfold first_index. rewrite fmap_None, list_find_None, Forall_lookup. split; intros Hn i x Hx.
  - apply not_true_is_false. exact (Hn i x Hx).
  - rewrite (Hn i x Hx). discriminate.
Qed.

Lemma first_index_alter {A} (f : A -> bool) (g : A -> A) l i :
  first_index f l = Some i -> (forall x, f x = true -> f (g x) = true) -> first_index f (alter g i l) = Some i.
Proof.
  rewrite !first_index_Some. intros (x & Hx & Hf & Hlt) Hg. exists (g x). split; [|split].
  - by rewrite list_lookup_alter_eq, Hx.
  - by apply Hg.
  - intros j y Hj Hy. rewrite list_lookup_alter_ne in Hy by lia. by eapply Hlt.
Qed.

Lemma first_index_alloc {A} (f : A -> bool) (g : A -> A) l i :
  first_index f l = None -> (i < length l)%nat -> (forall x, f (g x) = true) -> first_index f (alter g i l) = Some i.
Proof.
  rewrite first_index_None, first_index_Some. intros Hn Hi Hg.
  destruct (lookup_lt_is_Some_2 l i Hi) as [x Hx]. exists (g x). split; [|split].
  - by rewrite list_lookup_alter_eq, Hx.
  - apply Hg.
  - intros j y Hj Hy. rewrite list_lookup_alter_ne in Hy by lia. by eapply Hn.
Qed.

(** Entry [i] holds the nonce state of the connection. *)
Definition has_span (con : s2_connection_t) (st : S2) (i : nat) : Prop :=
  first_index (span_matches con) (span_table st) = Some i.

Lemma find_span_has `{BlockCipher} con st i : has_span con st i -> find_span_by_node con st = (i, st).
Proof. unfold find_span_by_node, has_span. by intros ->. Qed.

(** An update that keeps the entry in use for the same nodes. *)
Definition keeps (f : SPAN -> SPAN) : Prop :=
  forall s, span_state s <> SPAN_NOT_USED ->
    span_state (f s) <> SPAN_NOT_USED /\ lnode (f s) = lnode s /\ rnode (f s) = rnode s.

Lemma has_span_upd con st i f : has_span con st i -> keeps f -> has_span con (upd_span i f st) i.
Proof.
  intros Hs Hf. unfold has_span, upd_span. cbn [span_table modify]. apply first_index_alter; [done|].
  intros s Hm. unfold span_matches in *. apply andb_true_iff in Hm as [[H1 H2]%andb_true_iff H3].
  apply bool_decide_eq_true in H1. destruct (Hf s H1) as (Hu & -> & ->).
  rewrite H2, H3. by rewrite bool_decide_eq_true_2.
Qed.

Lemma has_span_lookup con st i : has_span con st i ->
  span_table st !! i = Some (span_at st i) /\ span_state (span_at st i) <> SPAN_NOT_USED /\
  lnode (span_at st i) = l_node con /\ rnode (span_at st i) = r_node con.
Proof.
  intros (s & Hs & Hm & _)%first_index_Some. unfold span_at. rewrite Hs. cbn [default].
  unfold span_matches in Hm. apply andb_true_iff in Hm as [[H1%bool_decide_eq_true H2%Z.eqb_eq]%andb_true_iff H3%Z.eqb_eq].
  auto.
Qed.

Lemma span_at_upd st i f : is_Some (span_table st !! i) -> span_at (upd_span i f st) i = f (span_at st i).
Proof.
  intros [s Hs]. unfold span_at, upd_span. cbn [span_table modify]. by rewrite list_lookup_alter_eq, Hs.
Qed.

Lemma has_span_at_upd con st i f : has_span con st i -> span_at (upd_span i f st) i = f (span_at st i).
Proof. intros [Hs _]%has_span_lookup. by apply span_at_upd. Qed.

(** ** The union *)

Lemma sub_buf_mid (a b c : list Z) n : n = Zlength b -> sub_buf (a ++ b ++ c) (Zlength a) n = b.
Proof.
  intros ->. rewrite sub_buf_app by done. unfold Zlength. rewrite Nat2Z.id. apply take_app_length.
Qed.

Lemma d_rng_set df c : drbg_ok c -> d_rng (set_d_rng df c) = c.
Proof.
  intros [[Hk _] [Hv _]]. destruct c as [k v]. unfold d_rng, set_d_rng. cbn [drbg_k drbg_v] in *. f_equal.
  - replace 17 with (Zlength ([df] ++ v)) by (unfold Zlength; rewrite length_app; cbn [length]; lia).
    rewrite app_assoc. rewrite <- (app_nil_r k) at 1. apply sub_buf_mid. unfold Zlength. lia.
  - apply (sub_buf_mid [df]). unfold Zlength. lia.
Qed.

Lemma d_nonce_set d n : length d = 33%nat -> length n = 16%nat -> d_r_nonce (set_d_r_nonce d n) = n.
Proof.
  intros Hd Hn. unfold d_r_nonce, set_d_r_nonce. rewrite take_ge by lia.
  apply sub_buf_memcpy_at; unfold Zlength; lia.
Qed.

Lemma set_d_rng_wf df c : byte df -> drbg_ok c -> length (set_d_rng df c) = 33%nat /\ bytes (set_d_rng df c).
Proof.
  intros Hd [[Hk Hkb] [Hv Hvb]]. unfold set_d_rng. split; [rewrite !length_app; cbn [length]; lia|].
  repeat apply Forall_app_2; try done. by apply Forall_singleton.
Qed.

Lemma set_d_nonce_wf d n : length d = 33%nat -> bytes d -> bytes n ->
  length (set_d_r_nonce d n) = 33%nat /\ bytes (set_d_r_nonce d n).
Proof.
  intros Hd Hdb Hn. unfold set_d_r_nonce. split; [by rewrite length_memcpy_at|].
  apply memcpy_at_bytes; [done|by apply Forall_take].
Qed.

Lemma d_rng_ok d : length d = 33%nat -> bytes d -> drbg_ok (d_rng d).
Proof.
  intros Hd Hb. unfold d_rng. split; split; cbn [drbg_k drbg_v];
    try (rewrite length_sub_buf by (unfold Zlength; lia); done); by apply sub_buf_bytes.
Qed.

(** ** Well-formed contexts *)

Definition span_wf (s : SPAN) : Prop :=
  length (span_d s) = 33%nat /\ bytes (span_d s) /\ byte (rx_seq s) /\ byte (tx_seq s).

Definition mpan_wf (m : MPAN) : Prop := block (inner_state m).

Definition sg_wf (g : sec_group) : Prop :=
  block (enc_key g) /\ block (mpan_key g) /\ length (nonce_key g) = 32%nat /\ bytes (nonce_key g).

Record s2_wf (st : S2) : Prop := {
  wf_workbuf : length (workbuf st) = Z.to_nat SIZEOF_WORKBUF /\ bytes (workbuf st);
  wf_spans : length (span_table st) = SPAN_TABLE_SIZE /\ Forall span_wf (span_table st);
  wf_mpans : length (mpan_table st) = MPAN_TABLE_SIZE /\ Forall mpan_wf (mpan_table st);
  wf_mos : length (mos_list st) = MOS_LIST_LENGTH;
  wf_sg : length (sg st) = N_SEC_CLASS /\ Forall sg_wf (sg st);
  wf_drbg : drbg_ok (s2_ctr_drbg st)
}.

#[export] Instance span_wf_dec s : Decision (span_wf s).
Proof. unfold span_wf. apply _. Defined.
#[export] Instance sg_wf_dec g : Decision (sg_wf g).
Proof. unfold sg_wf. apply _. Defined.
#[export] Typeclasses Opaque span_wf sg_wf.
#[export] Instance mpan_wf_dec m : Decision (mpan_wf m).
Proof. unfold mpan_wf. apply _. Defined.

Lemma span_at_wf st i : s2_wf st -> span_wf (span_at st i).
Proof.
  intros W. unfold span_at. destruct (span_table st !! i) as [s|] eqn:E; cbn [default].
  - destruct (wf_spans st W) as [_ Hf]. exact (Forall_lookup_1 _ _ _ _ Hf E).
  - decide_it.
Qed.

Lemma sg_at_wf st c : s2_wf st -> sg_wf (sg_at st c).
Proof.
  intros W. unfold sg_at. destruct (sg st !! Z.to_nat c) as [g|] eqn:E; cbn [default].
  - destruct (wf_sg st W) as [_ Hf]. exact (Forall_lookup_1 _ _ _ _ Hf E).
  - decide_it.
Qed.

Lemma span_rng_ok st i : s2_wf st -> drbg_ok (d_rng (span_d (span_at st i))).
Proof. intros W. destruct (span_at_wf st i W) as (Hl & Hb & _). by apply d_rng_ok. Qed.

Lemma upd_span_wf st i f : s2_wf st -> (span_wf (span_at st i) -> span_wf (f (span_at st i))) ->
  s2_wf (upd_span i f st).
Proof.
  intros W Hf. pose proof (span_at_wf st i W) as Hi. destruct W as [Hw [Hl Hs] Hm Hmo Hg Hd].
  constructor; try done. unfold upd_span. cbn [span_table modify]. split; [by rewrite length_alter|].
  apply Forall_alter; [done|]. intros s Hs' _. unfold span_at in *. rewrite Hs' in *. by apply Hf.
Qed.

(** What the lookup of a nonce state leaves alone. *)
Definition core (st : S2) : S2 := st <| span_table := [] |> <| s2_ctr_drbg := mkDRBG [] [] |>.

Section Sync.
Context `{BlockCipher}.

Lemma s2_random_spec st : drbg_ok (s2_ctr_drbg st) ->
  let '(rnd, st') := s2_random st in
  block rnd /\ st' = st <| s2_ctr_drbg := s2_ctr_drbg st' |> /\ drbg_ok (s2_ctr_drbg st').
Proof.
  intros Hd. unfold s2_random. pose proof (generate_spec _ Hd) as Hg.
  destruct (AES_CTR_DRBG_Generate (s2_ctr_drbg st)) as [rnd ctx]. destruct Hg as (_ & Hb & Hok). done.
Qed.

(** A connection has a nonce state after its lookup; a new one is in SPAN_NO_SEQ. *)
Lemma find_span_spec con st : s2_wf st ->
  let '(i, st') := find_span_by_node con st in
  has_span con st' i /\ s2_wf st' /\ core st' = core st /\
  (has_span con st i /\ st' = st \/
   (forall j, ~ has_span con st j) /\ span_state (span_at st' i) = SPAN_NO_SEQ /\
   span_class_id (span_at st' i) = span_class_id (span_at st i)).
Proof.
  intros W. unfold find_span_by_node.
  destruct (first_index (span_matches con) (span_table st)) as [i|] eqn:E.
  { assert (has_span con st i) as Hs by exact E. repeat (split; [done|]). by left. }
  pose proof (s2_random_spec st (wf_drbg st W)) as Hr. destruct (s2_random st) as [rnd st1] eqn:Er.
  destruct Hr as ([Hrl Hrb] & Est & Hok). set (i := match _ with Some i => i | None => _ end).
  assert (span_table st1 = span_table st) as Et by (rewrite Est; done).
  destruct (wf_spans st W) as [Hlen Hwf].
  assert (i < length (span_table st1))%nat as Hi.
  { unfold i. rewrite Et. 
    destruct (first_index (fun s => bool_decide (span_state s = SPAN_NOT_USED)) (span_table st)) as [k|] eqn:Ek.
    - apply first_index_Some in Ek as (x & Hx & _). by eapply lookup_lt_Some.
    - rewrite Hlen. pose proof (Z.mod_pos_bound (rd rnd 0) 254 ltac:(lia)).
      change (Z.of_nat SPAN_TABLE_SIZE) with 254. change SPAN_TABLE_SIZE with (Z.to_nat 254). lia. }
  assert (s2_wf st1) as W1 by (destruct W; rewrite Est; constructor; done).
  set (g := fun s : SPAN => _). split; [|split; [|split]].
  - unfold has_span, upd_span. cbn [span_table modify]. apply first_index_alloc; [by rewrite Et|done|].
    intros s. unfold span_matches, g. cbn. by rewrite !Z.eqb_refl.
  - apply upd_span_wf; [done|]. intros (H1 & H2 & H3 & H4). unfold g, span_wf. cbn.
    split; [done|]. split; [done|]. split; [done|]. by apply rd_byte.
  - rewrite Est. done.
  - right. split; [|split].
    + intros j Hj. unfold has_span in Hj. congruence.
    + rewrite span_at_upd by by apply lookup_lt_is_Some_2. done.
    + rewrite span_at_upd by by apply lookup_lt_is_Some_2. unfold g, span_at. rewrite Et. done.
Qed.

(** ** The additional authenticated data *)

Definition aad_of (sender receiver home msg_len : Z) (exts : list Z) : list Z :=
  (if (LOWEST_LONG_RANGE_NODE_ID <=? sender) || (LOWEST_LONG_RANGE_NODE_ID <=? receiver)
   then [Z.land (Z.shiftr sender 8) 0xFF; Z.land sender 0xFF;
         Z.land (Z.shiftr receiver 8) 0xFF; Z.land receiver 0xFF]
   else [Z.land sender 0xFF; Z.land receiver 0xFF]) ++
  [Z.land (Z.shiftr home 24) 0xFF; Z.land (Z.shiftr home 16) 0xFF; Z.land (Z.shiftr home 8) 0xFF;
   Z.land home 0xFF; Z.land (Z.shiftr msg_len 8) 0xFF; Z.land msg_len 0xFF] ++ exts.

Lemma s2_access_ok i n size st : 0 <= i -> 0 <= n -> i + n <= size -> s2_access i n size st = st.
Proof.
  intros Hi Hn Hs. unfold s2_access, in_range.
  rewrite !(proj2 (Z.leb_le _ _)) by lia. destruct st. cbn. by rewrite orb_false_r.
Qed.

Lemma land_ff_byte x : byte (Z.land x 0xFF).
Proof. apply (land_bound 8); lia. Qed.

Lemma aad_of_spec sender receiver home msg_len exts : bytes exts -> Zlength exts <= 54 ->
  bytes (aad_of sender receiver home msg_len exts) /\
  0 < Zlength (aad_of sender receiver home msg_len exts) <= 64.
Proof.
  intros Hb Hl. unfold aad_of. split.
  - repeat apply Forall_app_2; try done; [|forall_list; apply land_ff_byte].
    destruct (_ || _); forall_list; apply land_ff_byte.
  - rewrite !Zlength_app. unfold Zlength in *. destruct (_ || _); cbn [length]; lia.
Qed.

Lemma make_aad_eq sender receiver hdr rest msg_len st :
  (2 <= length hdr)%nat -> Zlength hdr <= 56 -> bytes hdr ->
  S2_make_aad sender receiver (hdr ++ rest) (Zlength hdr) msg_len SIZEOF_AAD st =
  (aad_of sender receiver (my_home_id st) msg_len (drop 2 hdr), st).
Proof.
  intros Hl Hu Hb. unfold S2_make_aad, SIZEOF_AAD. rewrite (proj2 (Z.ltb_ge _ _)) by lia.
  assert (sub_buf (hdr ++ rest) 2 (Zlength hdr - 2) = drop 2 hdr) as ->.
  { unfold sub_buf, Zlength. rewrite drop_app_le by lia. rewrite take_app_le by (rewrite length_drop; lia).
    apply take_ge. rewrite length_drop. lia. }
  destruct (aad_of_spec sender receiver (my_home_id st) msg_len (drop 2 hdr)) as [_ Ha].
  { by apply Forall_drop. } { unfold Zlength in *. rewrite length_drop. lia. }
  fold (aad_of sender receiver (my_home_id st) msg_len (drop 2 hdr)). cbv zeta.
  rewrite s2_access_ok by lia. done.
Qed.

(** ** Encryption *)

(** No group waits for the peer to be synchronised. *)
Definition no_mos (st : S2) : Prop := S2_is_node_mos (r_node (peer st)) st = false.

Lemma add_mpan_none p st : s2_wf st -> no_mos st -> S2_add_mpan_extensions p st = (0, st).
Proof.
  intros W Hn. unfold no_mos, S2_is_node_mos in Hn. pose proof (wf_mos st W) as Hl. unfold S2_add_mpan_extensions.
  assert (forall i, (i < 3)%nat -> forall k, mpan_extension i (p, k, st) = (p, k, st)) as Hi.
  { intros i Hi k. unfold mpan_extension. destruct (lookup_lt_is_Some_2 (mos_list st) i) as [m Hm];
      [rewrite Hl; exact Hi|]. rewrite Hm. cbn [from_option id].
    destruct (Z.eqb_spec (mos_node_id m) (r_node (peer st))) as [Em|]; [|done]. exfalso.
    apply not_true_iff_false in Hn. apply Hn, existsb_exists. exists m. split.
    - apply list_elem_of_In. by eapply list_elem_of_lookup_2.
    - by rewrite Em, Z.eqb_refl. }
  change (seq 0 MOS_LIST_LENGTH) with [0%nat; 1%nat; 2%nat]. cbn [fold_left].
  rewrite !Hi by lia. reflexivity.
Qed.

Lemma wb_write_behind hdr rest text st : workbuf st = hdr ++ rest -> (length text <= length rest)%nat ->
  wb_write (Zlength hdr) text st = st <| workbuf := hdr ++ text ++ drop (length text) rest |>.
Proof. intros E Hl. unfold wb_write. rewrite E. by rewrite memcpy_at_app. Qed.

(** The frame a context sends for its text behind the header [hdr]. *)
Definition sealed (st : S2) (key nonce hdr text : list Z) : list Z :=
  hdr ++ nist_encrypt key (take 13 nonce)
    (aad_of (l_node (peer st)) (r_node (peer st)) (my_home_id st)
       (Zlength text + Zlength hdr + AUTH_TAG_LEN) (drop 2 hdr)) text.

Lemma length_nist_encrypt key nonce aad text : block key -> (13 <= length nonce)%nat -> bytes nonce ->
  bytes aad -> 0 < Zlength aad < 256 -> bytes text -> Zlength text < 65536 ->
  Zlength (nist_encrypt key (take 13 nonce) aad text) = Zlength text + 8 /\
  bytes (nist_encrypt key (take 13 nonce) aad text).
Proof.
  intros Hk Hn Hnb Ha Hal Ht Hl. pose proof (Zle_0_nat (length text)) as H0. fold (Zlength text) in H0.
  pose proof (length_keystream key nonce Hk Hn Hnb ((Zlength text + 15) / 16) ltac:(zdiv)) as Hks.
  destruct (text_mac_block key nonce aad Hk Hn Hnb Ha text Ht) as (b & mac & E & Hb & Hp & Hmac & Emac);
    [lia|lia|].
  pose proof (text_mac_nist key nonce aad Hk Hn Hnb Ha text Ht ltac:(lia) ltac:(lia)) as Enist.
  rewrite Emac in Enist. injection Enist as Enist. unfold nist_encrypt. rewrite <- Enist.
  destruct (counter_block_nist nonce Hn Hnb 0 ltac:(lia)) as [E0 Hb0]. rewrite <- E0.
  pose proof (ciph_block_block key _ Hk Hb0) as [HS0 HS0b].
  rewrite Hmac. destruct Hp as [Hpl Hpb]. split.
  - rewrite Zlength_app. unfold Zlength in *. rewrite !length_xor_bytes, length_take. zdiv.
  - apply Forall_app_2; apply xor_bytes_bytes; try done; [|by apply Forall_take].
    apply keystream_bytes; (done || zdiv).
Qed.

Lemma encrypt_payload_spec E i st hdr rest : s2_wf st -> has_span (peer st) st i -> no_mos st ->
  workbuf st = hdr ++ rest -> bytes hdr -> 4 <= Zlength hdr <= 56 -> bytes (buf st) ->
  Zlength hdr + Zlength (buf st) + AUTH_TAG_LEN <= SIZEOF_WORKBUF ->
  let '(nonce, rng) := next_nonce_generate (d_rng (span_d (span_at st i))) in
  let key := enc_key (sg_at st (con_class_id (peer st))) in
  exists wb, (length wb = Z.to_nat SIZEOF_WORKBUF /\ bytes wb) /\
    encrypt_payload E i (Zlength hdr) st =
    S2_send_raw E (sealed st key nonce hdr (buf st))
      (upd_span i (fun s => s <| span_d := set_d_rng (rd (span_d s) 0) rng |>) (st <| workbuf := wb |>)).
Proof.
  intros W Hs Hn Hwb Hhb Hhl Hbb Hroom.
  pose proof (generate_spec _ (span_rng_ok st i W)) as Hg. unfold encrypt_payload, next_nonce_generate.
  rewrite add_mpan_none by done. change (truth 0) with false. cbv iota beta.
  rewrite !Z.add_0_r. rewrite s2_access_ok by (unfold Zlength, AUTH_TAG_LEN in *; lia).
  destruct (wf_workbuf st W) as [Hwl Hwbb]. rewrite Hwb, length_app in Hwl.
  assert (length (buf st) + 8 <= length rest)%nat as Hrest.
  { unfold SIZEOF_WORKBUF, AUTH_TAG_LEN, Zlength in *. lia. }
  rewrite (wb_write_behind hdr rest) by (done || lia).
  set (st1 := st <| workbuf := _ |>). change (peer st1) with (peer st).
  change (workbuf st1) with (hdr ++ buf st ++ drop (length (buf st)) rest).
  rewrite make_aad_eq; [|unfold Zlength in *; lia|lia|done].
  change (my_home_id st1) with (my_home_id st). change (span_at st1 i) with (span_at st i).
  destruct (AES_CTR_DRBG_Generate (d_rng (span_d (span_at st i)))) as [nonce rng].
  destruct Hg as (_ & [Hnl Hnb] & Hrng). unfold wb_encrypt.
  set (f := fun s : SPAN => s <| span_d := _ |>).
  change (workbuf (upd_span i f st1)) with (hdr ++ buf st ++ drop (length (buf st)) rest).
  set (key := enc_key (sg_at st (con_class_id (peer st)))).
  change (enc_key (sg_at (upd_span i f st1) (con_class_id (peer (upd_span i f st1))))) with key.
  assert (block key) as Hkey by apply (sg_at_wf st _ W).
  assert (bytes rest) as Hrb by (rewrite Hwb in Hwbb; apply Forall_app in Hwbb; tauto).
  set (aad := aad_of _ _ _ _ _).
  assert (bytes aad /\ 0 < Zlength aad <= 64) as [Hab Hal].
  { apply aad_of_spec; [by apply Forall_drop|]. unfold Zlength in *. rewrite length_drop. lia. }
  rewrite (drop_app_length' hdr) by (unfold Zlength; lia).
  rewrite take_app_length' by (unfold Zlength; lia).
  set (region := buf st ++ drop (length (buf st)) rest).
  assert (take (Z.to_nat (Zlength (buf st))) region = buf st) as Et
    by (unfold region, Zlength; rewrite Nat2Z.id; by apply take_app_length).
  rewrite ccm_encrypt_eq; try done; try lia.
  2: { apply Forall_app_2; [done|by apply Forall_drop]. }
  2: { unfold Zlength, SIZEOF_WORKBUF, AUTH_TAG_LEN in *. lia. }
  2: { unfold region. rewrite Zlength_app. unfold Zlength, t. rewrite length_drop. lia. }
  rewrite Et. set (ct := nist_encrypt key (take 13 nonce) aad (buf st)).
  destruct (length_nist_encrypt key nonce aad (buf st)) as [Hcl Hcb]; try done; try lia.
  { unfold Zlength, SIZEOF_WORKBUF, AUTH_TAG_LEN in *. lia. } fold ct in Hcl, Hcb.
  set (tail := drop (Z.to_nat (Zlength (buf st) + t)) region).
  exists (hdr ++ ct ++ tail). split.
  - split.
    + rewrite !length_app. unfold tail, region. rewrite length_drop, length_app, length_drop.
      unfold Zlength, t in *. lia.
    + apply Forall_app_2; [done|]. apply Forall_app_2; [done|].
      apply Forall_drop, Forall_app_2; [done|by apply Forall_drop].
  - assert (sub_buf (hdr ++ ct ++ tail) 0 (Zlength (buf st) + t + Zlength hdr) = hdr ++ ct) as Ef.
    { unfold sub_buf. change (Z.to_nat 0) with 0%nat. rewrite drop_0, app_assoc. apply take_app_length'.
      rewrite length_app. unfold Zlength, t in *. lia. }
    change (workbuf (upd_span i f st1 <| workbuf := hdr ++ ct ++ tail |>)) with (hdr ++ ct ++ tail).
    rewrite Ef. reflexivity.
Qed.

(** What sending a singlecast message leaves alone. *)
Definition core2 (st : S2) : S2 := core st <| workbuf := [] |> <| outs := [] |>.

Lemma memcpy_at_0 b l : (length l <= length b)%nat -> memcpy_at b 0 l = l ++ drop (length l) b.
Proof. intros Hl. by rewrite (memcpy_at_app [] b l). Qed.

Lemma wb_write_wf i l st : s2_wf st -> bytes l -> s2_wf (wb_write i l st).
Proof.
  intros [[Hl Hb] Hs Hm Hmo Hg Hd] Hlb. constructor; try done. unfold wb_write. split.
  - by rewrite <- Hl, <- (length_memcpy_at (workbuf st) i l).
  - by apply memcpy_at_bytes.
Qed.

(** The generator state and the header a message is sent with. *)
Definition sender_rng (st : S2) (i : nat) : CTR_DRBG_CTX :=
  let d := span_d (span_at st i) in
  if decide (span_state (span_at st i) = SPAN_SOS_REMOTE_NONCE) then
    next_nonce_instantiate (fst (AES_CTR_DRBG_Generate (s2_ctr_drbg st))) (d_r_nonce d)
      (nonce_key (sg_at st (con_class_id (peer st))))
  else d_rng d.

Definition sender_hdr (st : S2) (i : nat) : list Z :=
  let start := [COMMAND_CLASS_SECURITY_2; SECURITY_2_MESSAGE_ENCAPSULATION; tx_seq (span_at st i)] in
  if decide (span_state (span_at st i) = SPAN_SOS_REMOTE_NONCE) then
    start ++ [1; 18; 65] ++ fst (AES_CTR_DRBG_Generate (s2_ctr_drbg st))
  else start ++ [0].

Definition sender_class (st : S2) (i : nat) : Z :=
  if decide (span_state (span_at st i) = SPAN_SOS_REMOTE_NONCE) then con_class_id (peer st)
  else span_class_id (span_at st i).

Lemma mgrp_none h k st : mpan st = None -> add_mgrp_extension h k st = (h, k, st).
Proof. unfold add_mgrp_extension. by intros ->. Qed.

Lemma mos_none h k st : mpan st = None -> add_mos_extension h k st = (h, k, st).
Proof. unfold add_mos_extension. by intros ->. Qed.

Lemma make_header_spec st i : s2_wf st -> has_span (peer st) st i -> mpan st = None ->
  span_state (span_at st i) = SPAN_NEGOTIATED \/ span_state (span_at st i) = SPAN_SOS_REMOTE_NONCE ->
  exists st' rest, make_header i st = (Zlength (sender_hdr st i), st') /\
    workbuf st' = sender_hdr st i ++ rest /\ bytes (sender_hdr st i) /\ 4 <= Zlength (sender_hdr st i) <= 22 /\
    s2_wf st' /\ has_span (peer st) st' i /\ core2 st' = core2 st /\ outs st' = outs st /\
    span_state (span_at st' i) = SPAN_NEGOTIATED /\ d_rng (span_d (span_at st' i)) = sender_rng st i /\
    span_class_id (span_at st' i) = sender_class st i /\
    tx_seq (span_at st' i) = tx_seq (span_at st i) /\ rx_seq (span_at st' i) = rx_seq (span_at st i).
Proof.
  intros W Hs Hm Hst. destruct (span_at_wf st i W) as (Hdl & Hdb & Hrx & Htx).
  destruct (wf_workbuf st W) as [Hwl Hwb].
  unfold make_header, sender_hdr, sender_rng, sender_class, add_sn_extension.
  set (h := [COMMAND_CLASS_SECURITY_2; SECURITY_2_MESSAGE_ENCAPSULATION; tx_seq (span_at st i); 0]).
  assert (bytes h) as Hhb by (unfold h; forall_list; done).
  set (st1 := wb_write 0 h st). assert (s2_wf st1) as W1 by by apply wb_write_wf.
  assert (workbuf st1 = h ++ drop 4 (workbuf st)) as E1.
  { apply memcpy_at_0. rewrite Hwl. cbn. unfold SIZEOF_WORKBUF. lia. }
  change (span_at st1 i) with (span_at st i). change (s2_ctr_drbg st1) with (s2_ctr_drbg st).
  destruct (decide (span_state (span_at st i) = SPAN_SOS_REMOTE_NONCE)) as [Hr|Hr].
  - pose proof (s2_random_spec st1 (wf_drbg _ W1)) as Hrnd. unfold s2_random in Hrnd |- *.
    change (s2_ctr_drbg st1) with (s2_ctr_drbg st) in *.
    destruct (AES_CTR_DRBG_Generate (s2_ctr_drbg st)) as [ei ctx]. cbn [fst].
    destruct Hrnd as ([Heil Heib] & _ & Hctx). set (st2 := st1 <| s2_ctr_drbg := ctx |>).
    assert (s2_wf st2) as W2 by (destruct W1; by constructor).
    change (peer st2) with (peer st). change (sg_at st2) with (sg_at st). change (span_at st2 i) with (span_at st i).
    set (rng := next_nonce_instantiate ei _ _). set (f := fun s : SPAN => _).
    assert (drbg_ok rng) as Hrng.
    { destruct (sg_at_wf st (con_class_id (peer st)) W) as (_ & _ & Hnl & Hnb).
      apply instantiate_ok; try done; split; try done.
      - unfold d_r_nonce. rewrite length_sub_buf by (unfold Zlength; lia). done.
      - by apply sub_buf_bytes. }
    set (sn := [18; _] ++ take 16 ei). assert (sn = [18; 65] ++ ei) as Esn by (unfold sn; by rewrite take_ge by lia).
    assert (bytes sn) as Hsnb by (rewrite Esn; apply Forall_app_2; [forall_list; done|done]).
    set (st3 := upd_span i f st2).
    assert (has_span (peer st) st2 i) as Hs2 by exact Hs.
    assert (span_at st3 i = f (span_at st i)) as E3 by exact (has_span_at_upd (peer st) st2 i f Hs2).
    assert (has_span (peer st) st3 i) as Hs3 by (apply has_span_upd; [done|]; intros s _; done).
    assert (s2_wf st3) as W3.
    { apply upd_span_wf; [done|]. intros _. destruct (set_d_rng_wf 0 rng) as [? ?]; [done|done|]. done. }
    assert (workbuf (wb_write 4 sn st3) = h ++ sn ++ drop 22 (workbuf st)) as E4.
    { unfold wb_write. change (workbuf st3) with (workbuf st1). cbn [workbuf modify]. rewrite E1.
      rewrite (memcpy_at_app h); [|done|].
      - rewrite drop_drop. do 3 f_equal. rewrite Esn, length_app. cbn [length]. lia.
      - rewrite Esn, length_app, length_drop, Hwl. cbn [length]. unfold SIZEOF_WORKBUF. lia. }
    rewrite mgrp_none, mos_none by exact Hm.
    unfold flag_extensions. change (truth 1) with true. change (1 <? 1) with false. cbv iota zeta.
    set (hdr := _ ++ [1; 18; 65] ++ ei). exists (wb_or 3 EXTENSION_BIT (wb_write 4 sn st3)), (drop 22 (workbuf st)).
    assert (Zlength hdr = 22) as Hhl by (unfold hdr, Zlength; rewrite !length_app; cbn [length]; lia).
    assert (bytes hdr) as Hhdr.
    { unfold hdr. repeat apply Forall_app_2; [forall_list; done|forall_list; done|done]. }
    split; [by rewrite Hhl|]. split; [|split; [done|split; [lia|]]].
    { unfold wb_or, wb_write at 1. cbn [workbuf modify]. rewrite E4, Esn. done. }
    split; [|].
    { unfold wb_or. apply wb_write_wf; [by apply wb_write_wf|]. apply Forall_singleton. rewrite E4. done. }
    change (span_at (wb_or 3 EXTENSION_BIT (wb_write 4 sn st3)) i) with (span_at st3 i).
    rewrite E3. split; [exact Hs3|]. split; [done|]. split; [done|]. split; [done|].
    split; [|done]. change (span_d (f (span_at st i))) with (set_d_rng 0 rng). by apply d_rng_set.
  - rewrite mgrp_none, mos_none by exact Hm.
    unfold flag_extensions. change (truth 0) with false. cbv iota.
    exists st1, (drop 4 (workbuf st)). split; [done|]. split; [exact E1|]. split; [exact Hhb|].
    split; [done|]. split; [done|]. split; [exact Hs|].
    change (span_at st1 i) with (span_at st i). by destruct Hst.
Qed.

Lemma send_raw_ok E frame st i : s2_wf st -> has_span (peer st) st i ->
  S2_send_frame E (peer st) frame = true ->
  let st' := S2_send_raw E frame st in
  outs st' = outs st ++ [S2_send_frame_call (peer st) frame] /\
  has_span (peer st) st' i /\ s2_wf st' /\ core2 st' = core2 st /\
  span_at st' i = (span_at st i <| tx_seq := u8 (tx_seq (span_at st i) + 1) |>).
Proof.
  intros W Hs Hok. unfold S2_send_raw. rewrite Hok. cbv zeta.
  set (st1 := s2_emit _ st). assert (has_span (peer st1) st1 i) as Hs1 by exact Hs.
  assert (s2_wf st1) as W1 by (destruct W; by constructor).
  rewrite (find_span_has _ _ _ Hs1). set (f := fun s : SPAN => _).
  split; [done|]. split; [|split; [|split; [done|]]].
  - apply has_span_upd; [exact Hs|]. by intros s.
  - apply upd_span_wf; [done|]. intros (H1 & H2 & H3 & H4). repeat (split; [done|]). apply u8_byte.
  - exact (has_span_at_upd (peer st) st1 i f Hs).
Qed.

(** A context with a nonce state sends its text sealed under the next nonce. *)
Lemma encrypt_and_send_spec E st i : s2_wf st -> has_span (peer st) st i -> mpan st = None -> no_mos st ->
  span_state (span_at st i) = SPAN_NEGOTIATED \/ span_state (span_at st i) = SPAN_SOS_REMOTE_NONCE ->
  bytes (buf st) -> Zlength (sender_hdr st i) + Zlength (buf st) + AUTH_TAG_LEN <= SIZEOF_WORKBUF ->
  let '(nonce, rng) := next_nonce_generate (sender_rng st i) in
  let frame := sealed st (enc_key (sg_at st (con_class_id (peer st)))) nonce (sender_hdr st i) (buf st) in
  S2_send_frame E (peer st) frame = true ->
  let st' := S2_encrypt_and_send E st in
  outs st' = outs st ++ [S2_send_frame_call (peer st) frame] /\
  has_span (peer st) st' i /\ s2_wf st' /\ core2 st' = core2 st /\
  span_state (span_at st' i) = SPAN_NEGOTIATED /\ d_rng (span_d (span_at st' i)) = rng /\
  span_class_id (span_at st' i) = sender_class st i /\
  tx_seq (span_at st' i) = u8 (tx_seq (span_at st i) + 1) /\ rx_seq (span_at st' i) = rx_seq (span_at st i).
Proof.
  intros W Hs Hm Hn Hst Hb Hroom.
  destruct (make_header_spec st i W Hs Hm Hst)
    as (st1 & rest & Eh & Ewb & Hhb & Hhl & W1 & Hs1 & Ec & Eo & Est & Erng & Ecl & Etx & Erx).
  assert (peer st1 = peer st) as Ep by exact (f_equal peer Ec).
  assert (buf st1 = buf st) as Eb by exact (f_equal buf Ec).
  assert (sg st1 = sg st) as Eg by exact (f_equal sg Ec).
  assert (my_home_id st1 = my_home_id st) as Ehome by exact (f_equal my_home_id Ec).
  assert (mos_list st1 = mos_list st) as Emo by exact (f_equal mos_list Ec).
  assert (no_mos st1) as Hn1 by (unfold no_mos, S2_is_node_mos; by rewrite Emo, Ep).
  rewrite <- Ep in Hs1.
  pose proof (encrypt_payload_spec E i st1 (sender_hdr st i) rest W1 Hs1 Hn1 Ewb Hhb) as He.
  rewrite Eb, Erng in He. specialize (He ltac:(lia) Hb Hroom).
  assert (drbg_ok (sender_rng st i)) as Hok by (rewrite <- Erng; by apply span_rng_ok).
  pose proof (generate_spec (sender_rng st i) Hok) as Hrng. unfold next_nonce_generate in *.
  destruct (AES_CTR_DRBG_Generate (sender_rng st i)) as [nonce rng] eqn:Egen. destruct Hrng as (_ & _ & Hrng).
  cbv beta iota zeta. intros Hsend. unfold S2_encrypt_and_send. rewrite (find_span_has _ _ _ Hs), Eh.
  destruct He as (wb & Hwbok & ->).
  assert (sg_at st1 = sg_at st) as Esg by (unfold sg_at; by rewrite Eg).
  rewrite Ep, Esg.
  assert (forall k x h y, sealed st1 k x h y = sealed st k x h y) as ->
    by (intros; unfold sealed; by rewrite Ep, Ehome).
  set (frame := sealed st _ nonce _ _) in *. set (f := fun s : SPAN => _). set (st2 := upd_span i f (st1 <| workbuf := wb |>)).
  assert (has_span (peer st) (st1 <| workbuf := wb |>) i) as Hs1' by (rewrite <- Ep; exact Hs1).
  assert (s2_wf (st1 <| workbuf := wb |>)) as W1' by (destruct W1; by constructor).
  assert (peer st2 = peer st) as Ep2 by exact Ep.
  assert (span_at st2 i = f (span_at st1 i)) as E2 by exact (has_span_at_upd (peer st) _ i f Hs1').
  assert (has_span (peer st2) st2 i) as Hs2 by (rewrite Ep2; apply has_span_upd; [exact Hs1'|]; by intros s).
  assert (s2_wf st2) as W2.
  { apply upd_span_wf; [done|]. intros (H1 & H2 & H3 & H4). destruct (set_d_rng_wf (rd (span_d (span_at st1 i)) 0) rng);
      [by apply rd_byte|done|]. done. }
  destruct (send_raw_ok E frame st2 i W2 Hs2) as (Eo' & Hs' & W' & Ec' & Ea'); [by rewrite Ep2|].
  rewrite Ep2 in *. change (outs st2) with (outs st1) in Eo'. rewrite Eo in Eo'.
  rewrite Ea', E2. split; [done|]. split; [done|]. split; [done|].
  split; [by rewrite Ec'|]. split; [exact Est|].
  split; [exact (d_rng_set _ _ Hrng)|]. split; [exact Ecl|].
  split; [|exact Erx]. change (u8 (tx_seq (span_at st1 i) + 1) = u8 (tx_seq (span_at st i) + 1)). by rewrite Etx.
Qed.

(** ** Decryption *)

(** A sealed text is opened with its key and nonce. *)
Lemma ccm_opens key nonce aad text : block key -> block nonce -> bytes aad -> 0 < Zlength aad < 256 ->
  bytes text -> Zlength text < 65536 ->
  let ct := nist_encrypt key (take 13 nonce) aad text in
  CCM_decrypt_and_auth key nonce aad (Zlength aad) ct (Zlength ct) =
  (Zlength text, text ++ drop (length text) ct).
Proof.
  intros Hk [Hnl Hnb] Ha Hal Ht Hl ct.
  destruct (length_nist_encrypt key nonce aad text) as [Hcl Hcb]; try done; try lia. fold ct in Hcl, Hcb.
  pose proof (Zle_0_nat (length text)) as H0. fold (Zlength text) in H0.
  destruct (ccm_decrypt_exact key nonce aad ct (Zlength text)) as (text' & Hl' & _ & E & Hu); try done; try lia.
  { unfold t. lia. }
  assert (take (Z.to_nat (Zlength text + t)) ct = ct) as Em by (apply take_ge; unfold t, Zlength in *; lia).
  rewrite Em in *. assert (text' = text) as -> by by apply Hu.
  rewrite Hcl. change (Zlength text + 8) with (Zlength text + t). rewrite E, bool_decide_true by done.
  unfold Zlength. by rewrite Nat2Z.id.
Qed.

(** Decryption keeps the length of the buffer. *)
Lemma ccm_decrypt_length key nonce aad buf : block key -> block nonce -> bytes aad -> 0 < Zlength aad < 256 ->
  bytes buf -> 8 <= Zlength buf < 65536 ->
  Zlength (snd (CCM_decrypt_and_auth key nonce aad (Zlength aad) buf (Zlength buf))) = Zlength buf.
Proof.
  intros Hk [Hnl Hnb] Ha Hal Hb Hl.
  destruct (ccm_decrypt_exact key nonce aad buf (Zlength buf - 8)) as (text' & Hl' & _ & E & _); try done; try lia.
  { unfold t. lia. }
  replace (Zlength buf - 8 + t) with (Zlength buf) in E by (unfold t; lia). rewrite E. cbn [snd].
  rewrite Zlength_app, Hl'. unfold Zlength in *. rewrite length_drop. lia.
Qed.

Definition next_class (c : Z) : Z := if Z.of_nat N_SEC_CLASS <=? c + 1 then 0 else c + 1.

Section ClassLoop.
Context (j : nat) (con : s2_connection_t) (aad s_nonce r_nonce text : list Z) (c : Z).
Context (Haad : bytes aad) (Hal : 0 < Zlength aad < 256) (Htext : bytes text) (Htl : 0 < Zlength text < 60000).
Context (Hsn : block s_nonce) (Hrn : block r_nonce).

(** The state of the generator for the class [k] and the nonce it gives. *)
Definition class_rng (st : S2) (k : Z) : CTR_DRBG_CTX :=
  next_nonce_instantiate s_nonce r_nonce (nonce_key (sg_at st k)).
Definition class_nonce (st : S2) (k : Z) : list Z := fst (next_nonce_generate (class_rng st k)).

(** No other loaded key opens the message. *)
Definition others_reject (st : S2) (ct : list Z) : Prop :=
  forall k, 0 <= k < 7 -> k <> c -> Z.testbit (loaded_keys st) k = true ->
    fst (CCM_decrypt_and_auth (enc_key (sg_at st k)) (class_nonce st k) aad (Zlength aad) ct (Zlength ct)) = 0.

Lemma class_rng_ok st k : s2_wf st -> drbg_ok (class_rng st k).
Proof. intros W. destruct (sg_at_wf st k W) as (_ & _ & Hl & Hb). exact (instantiate_ok _ _ _ Hsn Hrn Hl Hb). Qed.

Lemma class_loop_hit n st ct : s2_wf st -> has_span con st j ->
  span_class_id (span_at st j) = c -> Z.testbit (loaded_keys st) c = true ->
  let '(nonce, rng) := next_nonce_generate (d_rng (span_d (span_at st j))) in
  ct = nist_encrypt (enc_key (sg_at st c)) (take 13 nonce) aad text ->
  exists st', class_loop (S n) j None con aad s_nonce r_nonce ct st =
      LoopLeft (Zlength text) (text ++ drop (length text) ct) (con <| con_class_id := c |>) st' /\
    has_span con st' j /\ s2_wf st' /\ core st' = core st /\
    span_state (span_at st' j) = SPAN_NEGOTIATED /\ d_rng (span_d (span_at st' j)) = rng /\
    span_class_id (span_at st' j) = c /\
    tx_seq (span_at st' j) = tx_seq (span_at st j) /\ rx_seq (span_at st' j) = rx_seq (span_at st j).
Proof.
  intros W Hs Hc Hk. pose proof (generate_spec _ (span_rng_ok st j W)) as Hg.
  unfold next_nonce_generate. destruct (AES_CTR_DRBG_Generate (d_rng (span_d (span_at st j)))) as [nonce rng] eqn:Eg.
  destruct Hg as (_ & Hnb & Hrng). intros ->. cbn [class_loop].
  unfold try_class, next_nonce_generate. rewrite Hc, Hk, Eg.
  set (f := fun s : SPAN => s <| span_d := _ |>). set (st1 := upd_span j f st).
  change (sg_at st1 c) with (sg_at st c).
  rewrite ccm_opens; try done; [|apply sg_at_wf; done|lia].
  assert (truth (Zlength text) = true) as -> by (unfold truth; rewrite (proj2 (Z.eqb_neq _ _)) by lia; done).
  unfold span_decrypted. set (g := fun s : SPAN => s <| span_state := SPAN_NEGOTIATED |>).
  assert (has_span con st1 j) as Hs1 by (apply has_span_upd; [done|]; by intros s).
  assert (span_at st1 j = f (span_at st j)) as E1 by exact (has_span_at_upd con st j f Hs).
  assert (has_span con (upd_span j g st1) j) as Hs2 by (apply has_span_upd; [done|]; by intros s).
  assert (span_at (upd_span j g st1) j = g (f (span_at st j))) as E2
    by (rewrite <- E1; exact (has_span_at_upd con st1 j g Hs1)).
  exists (upd_span j g st1). rewrite E2. split; [|split; [done|split]].
  - by rewrite <- Hc.
  - apply upd_span_wf; [|done]. apply upd_span_wf; [done|]. intros (H1 & H2 & H3 & H4).
    destruct (set_d_rng_wf (rd (span_d (span_at st j)) 0) rng); [by apply rd_byte|done|]. done.
  - split; [done|]. split; [done|]. split; [exact (d_rng_set _ _ Hrng)|]. split; [exact Hc|done].
Qed.

(** A class that is not loaded or does not open the message is passed over. *)
Lemma class_loop_skip n st ct k : s2_wf st -> has_span con st j -> fsm st = IDLE ->
  span_state (span_at st j) = SPAN_INSTANTIATE -> span_class_id (span_at st j) = k ->
  d_rng (span_d (span_at st j)) = class_rng st k -> bytes ct -> 8 <= Zlength ct < 65536 ->
  sub_buf (workbuf st) 0 (Zlength ct) = ct ->
  (Z.testbit (loaded_keys st) k = true ->
   fst (CCM_decrypt_and_auth (enc_key (sg_at st k)) (class_nonce st k) aad (Zlength aad) ct (Zlength ct)) = 0) ->
  exists st', class_loop (S n) j None con aad s_nonce r_nonce ct st =
      class_loop n j None con aad s_nonce r_nonce ct st' /\
    has_span con st' j /\ s2_wf st' /\ core st' = core st /\
    span_state (span_at st' j) = SPAN_INSTANTIATE /\ span_class_id (span_at st' j) = next_class k /\
    d_rng (span_d (span_at st' j)) = class_rng st' (next_class k) /\
    tx_seq (span_at st' j) = tx_seq (span_at st j) /\ rx_seq (span_at st' j) = rx_seq (span_at st j).
Proof.
  intros W Hs Hidle Hst Hk Hrng Hcb Hcl Hbackup Hrej. cbn [class_loop].
  assert (exists text' st1, try_class j aad ct st = (0, text', st1) /\ Zlength text' = Zlength ct /\
    has_span con st1 j /\ s2_wf st1 /\ core st1 = core st /\
    (exists d, span_at st1 j = (span_at st j <| span_d := d |>) /\ byte (rd d 0))) as
    (text' & st1 & -> & Hl' & Hs1 & W1 & Ec & d & Ea & Hd).
  { destruct (span_at_wf st j W) as (Hdl & Hdb & _). unfold try_class. rewrite Hk, Hrng.
    destruct (Z.testbit (loaded_keys st) k) eqn:Eload.
    - specialize (Hrej eq_refl). unfold class_nonce in Hrej.
      pose proof (generate_spec _ (class_rng_ok st k W)) as Hg. unfold next_nonce_generate in *.
      destruct (AES_CTR_DRBG_Generate (class_rng st k)) as [nonce rng]. destruct Hg as (_ & Hnb & Hok). cbn [fst] in Hrej.
      set (f := fun s : SPAN => _). change (sg_at (upd_span j f st) k) with (sg_at st k).
      pose proof (ccm_decrypt_length (enc_key (sg_at st k)) nonce aad ct ltac:(apply sg_at_wf; done) Hnb Haad Hal Hcb Hcl) as Hlen.
      destruct (CCM_decrypt_and_auth _ _ _ _ _ _) as [len text']. cbn [fst snd] in *. subst len.
      exists text', (upd_span j f st). split; [done|]. split; [done|].
      split; [apply has_span_upd; [done|]; by intros s|].
      assert (byte (rd (span_d (span_at st j)) 0)) as Hb0 by by apply rd_byte.
      destruct (set_d_rng_wf (rd (span_d (span_at st j)) 0) rng Hb0 Hok) as [Hl1 Hb1].
      split; [apply upd_span_wf; [done|]; intros (? & ? & ? & ?); done|]. split; [done|].
      exists (set_d_rng (rd (span_d (span_at st j)) 0) rng). split; [exact (has_span_at_upd con st j f Hs)|]. done.
    - exists ct, st. repeat (split; [done|]). exists (span_d (span_at st j)).
      split; [by destruct (span_at st j)|by apply rd_byte]. }
  cbv beta iota zeta. change (truth 0) with false. cbv iota.
  assert (fsm st1 = IDLE) as Hidle1 by (rewrite <- Hidle; exact (f_equal fsm Ec)).
  assert (span_state (span_at st1 j) = SPAN_INSTANTIATE) as Hst1 by (rewrite Ea; exact Hst).
  rewrite (bool_decide_true (fsm st1 = IDLE)) by done.
  rewrite (bool_decide_false (span_state (span_at st1 j) = SPAN_NEGOTIATED)) by (rewrite Hst1; done).
  cbn [negb orb]. rewrite Hk. fold (next_class k). rewrite Hl'.
  assert (workbuf st1 = workbuf st) as -> by exact (f_equal workbuf Ec). rewrite Hbackup.
  assert (sg_at st1 = sg_at st) as Esg by (unfold sg_at; by rewrite (f_equal sg Ec : sg st1 = sg st)).
  rewrite Esg. fold (class_rng st (next_class k)). set (g := fun s : SPAN => _).
  exists (upd_span j g st1).
  assert (span_at (upd_span j g st1) j = g (span_at st1 j)) as E2 by exact (has_span_at_upd con st1 j g Hs1).
  rewrite E2. pose proof (class_rng_ok st (next_class k) W) as Hok.
  split; [done|]. split; [apply has_span_upd; [done|]; by intros s|]. split.
  { destruct (set_d_rng_wf 0 (class_rng st (next_class k))) as [Hl1 Hb1]; [done|done|].
    apply upd_span_wf; [done|]; intros (? & ? & ? & ?); done. }
  split; [done|]. split; [exact Hst1|]. split; [done|]. split.
  - assert (class_rng (upd_span j g st1) (next_class k) = class_rng st (next_class k)) as ->.
    { unfold class_rng. change (sg_at (upd_span j g st1)) with (sg_at st1). by rewrite Esg. }
    exact (d_rng_set _ _ Hok).
  - rewrite Ea. done.
Qed.

Lemma next_class_range k : 0 <= k < 7 -> 0 <= next_class k < 7.
Proof. intros Hk. unfold next_class, N_SEC_CLASS. destruct (Z.leb_spec (Z.of_nat 7) (k + 1)); lia. Qed.

(** The search finds the class the message was sealed under. *)
Lemma class_loop_finds d : forall n st ct k, (d < n)%nat -> Nat.iter d next_class k = c -> 0 <= k < 7 ->
  s2_wf st -> has_span con st j -> fsm st = IDLE ->
  span_state (span_at st j) = SPAN_INSTANTIATE -> span_class_id (span_at st j) = k ->
  d_rng (span_d (span_at st j)) = class_rng st k -> bytes ct -> 8 <= Zlength ct < 65536 ->
  sub_buf (workbuf st) 0 (Zlength ct) = ct -> Z.testbit (loaded_keys st) c = true -> others_reject st ct ->
  ct = nist_encrypt (enc_key (sg_at st c)) (take 13 (class_nonce st c)) aad text ->
  exists st', class_loop n j None con aad s_nonce r_nonce ct st =
      LoopLeft (Zlength text) (text ++ drop (length text) ct) (con <| con_class_id := c |>) st' /\
    has_span con st' j /\ s2_wf st' /\ core st' = core st /\
    span_state (span_at st' j) = SPAN_NEGOTIATED /\
    d_rng (span_d (span_at st' j)) = snd (next_nonce_generate (class_rng st c)) /\
    span_class_id (span_at st' j) = c /\
    tx_seq (span_at st' j) = tx_seq (span_at st j) /\ rx_seq (span_at st' j) = rx_seq (span_at st j).
Proof.
  induction d as [|d IH]; intros n st ct k Hdn Hit Hkr W Hs Hidle Hst Hk Hrng Hcb Hcl Hbackup Hload Hrej Hct;
    (destruct n as [|n]; [lia|]).
  - cbn in Hit. subst k.
    pose proof (class_loop_hit n st ct W Hs Hk Hload) as Hhit. rewrite Hrng in Hhit. unfold class_nonce in Hct.
    destruct (next_nonce_generate (class_rng st c)) as [nonce rng]. by apply Hhit.
  - destruct (Z.eq_dec k c) as [Ekc|Ekc].
    + pose proof (class_loop_hit n st ct W Hs ltac:(congruence) Hload) as Hhit. rewrite Hrng, Ekc in Hhit.
      unfold class_nonce in Hct. destruct (next_nonce_generate (class_rng st c)) as [nonce rng]. by apply Hhit.
    + destruct (class_loop_skip n st ct k W Hs Hidle Hst Hk Hrng Hcb Hcl Hbackup) as
        (st1 & -> & Hs1 & W1 & Ec & Hst1 & Hk1 & Hrng1 & Etx & Erx); [by apply Hrej|].
      assert (sg_at st1 = sg_at st) as Esg by (unfold sg_at; by rewrite (f_equal sg Ec : sg st1 = sg st)).
      assert (loaded_keys st1 = loaded_keys st) as El by exact (f_equal loaded_keys Ec).
      assert (forall k, class_rng st1 k = class_rng st k) as Ecr by (intros; unfold class_rng; by rewrite Esg).
      assert (forall k, class_nonce st1 k = class_nonce st k) as Ecn by (intros; unfold class_nonce; by rewrite Ecr).
      destruct (IH n st1 ct (next_class k)) as (st' & E' & Hs' & W' & Ec' & Hst' & Hr' & Hk' & Etx' & Erx'); try done.
      * lia.
      * rewrite <- Hit. by rewrite Nat.iter_succ_r.
      * by apply next_class_range.
      * rewrite <- Hidle. exact (f_equal fsm Ec).
      * by rewrite (f_equal workbuf Ec : workbuf st1 = workbuf st).
      * by rewrite El.
      * intros k' Hk'. rewrite El, Ecn, Esg. by apply Hrej.
      * by rewrite Ecn, Esg.
      * exists st'. rewrite E', Ec', Ec, Etx', Etx, Erx', Erx. rewrite Ecr in Hr'. done.
Qed.
End ClassLoop.

(** ** Reception *)

(** The sequence number is not one of the last two. *)
Definition seq_ok (st : S2) (i : nat) (seq : Z) : Prop :=
  span_state (span_at st i) = SPAN_NO_SEQ \/ 2 <= u8 (rx_seq (span_at st i) - seq).

Definition set_rx_seq (seq : Z) (s : SPAN) : SPAN := s <| rx_seq := seq |>.

Lemma verify_seq_ok con st i seq : has_span con st i -> seq_ok st i seq ->
  S2_verify_seq con seq st = (true, upd_span i (set_rx_seq seq) st).
Proof.
  intros Hs Hq. unfold S2_verify_seq. rewrite (find_span_has _ _ _ Hs). unfold S2_SEQ_DUPL_WINDOW_SIZE.
  destruct Hq as [Hq|Hq].
  - rewrite bool_decide_true by done. done.
  - rewrite (proj2 (Z.leb_le _ _)) by done. by rewrite orb_true_r.
Qed.

Lemma set_rx_seq_wf st i seq : s2_wf st -> byte seq -> s2_wf (upd_span i (set_rx_seq seq) st).
Proof. intros W Hb. apply upd_span_wf; [done|]. intros (? & ? & ? & ?). done. Qed.

Lemma set_rx_seq_keeps seq : keeps (set_rx_seq seq).
Proof. by intros s. Qed.

(** The frame a peer with the connection [con] at the receiver has sealed. *)
Definition received (st : S2) (con : s2_connection_t) (key nonce hdr text : list Z) : list Z :=
  hdr ++ nist_encrypt key (take 13 nonce)
    (aad_of (r_node con) (l_node con) (my_home_id st) (Zlength text + Zlength hdr + AUTH_TAG_LEN) (drop 2 hdr)) text.

(** The start of S2_decrypt_msg for a singlecast message with a new number. *)
Lemma decrypt_msg_start E con msg st i : s2_wf st -> is_multicast con = false -> has_span con st i ->
  12 <= Zlength msg -> seq_ok st i (rd msg 2) ->
  let st1 := upd_span i (set_rx_seq (rd msg 2)) st in
  let x := mkExt 4 None (uninit_s_nonce E) (uninit_r_nonce E) st1 in
  S2_decrypt_msg E con msg st =
  match (if has (rd msg 3) EXTENSION_BIT then clear_extensions (length msg) con msg (Some i) 4 x else inl x) with
  | inr st => mkDec PARSE_FAIL [] 0 con st
  | inl x => decrypt_body msg (rd msg 3) (Some i) con x
  end.
Proof.
  intros W Hm Hs Hl Hq st1 x. unfold S2_decrypt_msg. rewrite (proj2 (Z.ltb_ge _ _)) by (unfold AUTH_TAG_LEN; lia).
  rewrite Hm, (verify_seq_ok _ _ _ _ Hs Hq). fold st1.
  assert (has_span con st1 i) as Hs1 by (apply has_span_upd; [done|apply set_rx_seq_keeps]).
  rewrite (find_span_has _ _ _ Hs1). done.
Qed.

(** A message under the negotiated nonce state. *)
Lemma decrypt_negotiated E con st i seq text : s2_wf st -> is_multicast con = false -> has_span con st i ->
  span_state (span_at st i) = SPAN_NEGOTIATED ->
  let c := span_class_id (span_at st i) in
  Z.testbit (loaded_keys st) c = true -> byte seq -> seq_ok st i seq ->
  bytes text -> 0 < Zlength text < 60000 ->
  let '(nonce, rng) := next_nonce_generate (d_rng (span_d (span_at st i))) in
  let msg := received st con (enc_key (sg_at st c)) nonce
    [COMMAND_CLASS_SECURITY_2; SECURITY_2_MESSAGE_ENCAPSULATION; seq; 0] text in
  exists st' rest, S2_decrypt_msg E con msg st =
      mkDec AUTH_OK (text ++ rest) (Zlength text) (con <| con_class_id := c |>) st' /\
    has_span con st' i /\ s2_wf st' /\ core st' = core st /\
    span_state (span_at st' i) = SPAN_NEGOTIATED /\ d_rng (span_d (span_at st' i)) = rng /\
    span_class_id (span_at st' i) = c /\ tx_seq (span_at st' i) = tx_seq (span_at st i) /\
    rx_seq (span_at st' i) = seq.
Proof.
  intros W Hm Hs Hst c Hload Hseqb Hq Htb Htl.
  set (st1 := upd_span i (set_rx_seq seq) st).
  assert (has_span con st1 i) as Hs1 by (apply has_span_upd; [done|apply set_rx_seq_keeps]).
  assert (s2_wf st1) as W1 by by apply set_rx_seq_wf.
  assert (span_at st1 i = set_rx_seq seq (span_at st i)) as E1 by exact (has_span_at_upd con st i _ Hs).
  set (hdr := [COMMAND_CLASS_SECURITY_2; SECURITY_2_MESSAGE_ENCAPSULATION; seq; 0]).
  assert (bytes hdr) as Hhb by (unfold hdr; forall_list; done).
  set (aad := aad_of (r_node con) (l_node con) (my_home_id st) (Zlength text + Zlength hdr + AUTH_TAG_LEN) (drop 2 hdr)).
  assert (bytes aad /\ 0 < Zlength aad <= 64) as [Hab Hal]
    by (apply aad_of_spec; [by apply Forall_drop|done]).
  pose proof (class_loop_hit i con aad (uninit_s_nonce E) (uninit_r_nonce E) text c Hab ltac:(lia) Htb Htl
    6%nat st1 (nist_encrypt (enc_key (sg_at st c)) (take 13 (fst (next_nonce_generate (d_rng (span_d (span_at st i)))))) aad text)
    W1 Hs1 ltac:(by rewrite E1) Hload) as Hhit.
  rewrite E1 in Hhit. change (span_d (set_rx_seq seq (span_at st i))) with (span_d (span_at st i)) in Hhit.
  pose proof (generate_spec _ (span_rng_ok st i W)) as Hg. unfold next_nonce_generate in *.
  destruct (AES_CTR_DRBG_Generate (d_rng (span_d (span_at st i)))) as [nonce rng]. destruct Hg as (_ & [Hnl Hnb] & _).
  cbn [fst] in Hhit. destruct (Hhit eq_refl) as (st' & El & Hs' & W' & Ec & Est & Er & Ecl & Etx & Erx).
  unfold received. fold aad. set (ct := nist_encrypt (enc_key (sg_at st c)) (take 13 nonce) aad text) in *.
  destruct (length_nist_encrypt (enc_key (sg_at st c)) nonce aad text) as [Hcl Hcb];
    try done; try lia; [apply sg_at_wf; done|]. fold ct in Hcl, Hcb.
  exists st', (drop (length text) ct). split.
  - rewrite (decrypt_msg_start E con (hdr ++ ct) st i W Hm Hs); [|rewrite Zlength_app; unfold Zlength in *; cbn [length hdr]; lia|exact Hq].
    change (rd (hdr ++ ct) 3) with 0. change (rd (hdr ++ ct) 2) with seq. change (has 0 EXTENSION_BIT) with false. cbv iota.
    fold st1. unfold decrypt_body. cbn [x_st x_mpan x_hdr_len x_s_nonce x_r_nonce].
    rewrite E1. change (span_state (set_rx_seq seq (span_at st i))) with (span_state (span_at st i)). rewrite Hst.
    destruct (decide _) as [_|Hno]; [|exfalso; apply Hno; by left].
    rewrite (make_aad_eq _ _ hdr ct _ st1) by (done || (unfold hdr; cbn [length]; lia)).
    change (my_home_id st1) with (my_home_id st).
    assert (Zlength (hdr ++ ct) = Zlength text + Zlength hdr + AUTH_TAG_LEN) as ->
      by (rewrite Zlength_app, Hcl; unfold AUTH_TAG_LEN; lia).
    fold aad. rewrite (bool_decide_false (SPAN_NEGOTIATED = SPAN_INSTANTIATE)) by done. rewrite andb_false_r.
    change (drop (Z.to_nat 4) (hdr ++ ct)) with ct. change N_SEC_CLASS with 7%nat. rewrite El.
    unfold decrypt_finish. rewrite (proj2 (Z.eqb_neq (Zlength text) 0)), (proj2 (Z.eqb_neq (Zlength aad) 0)) by lia. done.
  - split; [done|]. split; [done|]. split; [by rewrite Ec|]. done.
Qed.

(** ** Two contexts in sync *)

(** Entry [i] of [a] and entry [j] of [b] are the two ends of the connection and
    hold the same generator under the same class, whose key both know. *)
Record in_sync (a b : S2) (ca cb : s2_connection_t) (i j : nat) : Prop := {
  sync_a : has_span ca a i;
  sync_b : has_span cb b j;
  sync_nodes : l_node cb = r_node ca /\ r_node cb = l_node ca;
  sync_single : is_multicast cb = false;
  sync_state : span_state (span_at a i) = SPAN_NEGOTIATED /\ span_state (span_at b j) = SPAN_NEGOTIATED;
  sync_class : span_class_id (span_at a i) = con_class_id ca /\ span_class_id (span_at b j) = con_class_id ca;
  sync_rng : d_rng (span_d (span_at a i)) = d_rng (span_d (span_at b j));
  sync_key : enc_key (sg_at a (con_class_id ca)) = enc_key (sg_at b (con_class_id ca));
  sync_home : my_home_id a = my_home_id b;
  sync_loaded : Z.testbit (loaded_keys b) (con_class_id ca) = true
}.

(** What a node needs to start a singlecast message. *)
Record ready_to_send (a : S2) (ca : s2_connection_t) : Prop := {
  ready_idle : fsm a = IDLE;
  ready_mpan : mpan a = None;
  ready_mos : S2_is_node_mos (r_node ca) a = false;
  ready_classic : IS_LR_NODE (r_node ca) = false /\ IS_LR_NODE (l_node ca) = false
}.

(** A text for the application. *)
Definition app_text (text : list Z) : Prop :=
  bytes text /\ 0 < Zlength text <= 1280 /\ rd text 0 <> COMMAND_CLASS_SECURITY_2.

Lemma send_data_idle E ca text a : app_text text -> ready_to_send a ca ->
  S2_send_data E ca text a = (true, fsm_idle E (SEND_MSG ca text) a).
Proof.
  intros (Hb & Hl & _) [Hi _ _ [Hlr _]]. unfold S2_send_data, S2_send_data_all_cast. rewrite Hlr.
  rewrite (proj2 (Z.eqb_neq _ _)), (proj2 (Z.ltb_ge _ _)) by lia. unfold S2_is_send_data_busy, S2_fsm_post_event.
  rewrite Hi. done.
Qed.

(** Entering the sending state only sets members the encryption does not read. *)
Definition entered (st : S2) : S2 :=
  if has (tx_options (peer st)) S2_TXOPTION_VERIFY_DELIVERY
  then st <| fsm := SENDING_MSG |> <| fsm := VERIFYING_DELIVERY |> <| timer := Some SEND_DATA_TIMEOUT |>
  else st <| fsm := SENDING_MSG |>.

(** The state a transmission waits in. *)
Definition sending_state (con : s2_connection_t) : states_t :=
  if has (tx_options con) S2_TXOPTION_VERIFY_DELIVERY then VERIFYING_DELIVERY else SENDING_MSG.

Lemma entered_fsm st : fsm (entered st) = sending_state (peer st).
Proof. unfold entered, sending_state. by destruct (has _ _). Qed.

Lemma enter_eq E st : send_msg_state_enter E st =
  S2_encrypt_and_send E (entered st) <| retry := u8 (retry (S2_encrypt_and_send E (entered st)) - 1) |>.
Proof. unfold send_msg_state_enter, entered. by destruct (has _ _). Qed.

Lemma entered_same st : s2_wf st ->
  s2_wf (entered st) /\ span_table (entered st) = span_table st /\ peer (entered st) = peer st /\
  buf (entered st) = buf st /\ mpan (entered st) = mpan st /\ mos_list (entered st) = mos_list st /\
  sg (entered st) = sg st /\ my_home_id (entered st) = my_home_id st /\ outs (entered st) = outs st /\
  loaded_keys (entered st) = loaded_keys st /\ s2_ctr_drbg (entered st) = s2_ctr_drbg st /\ oob (entered st) = oob st.
Proof. intros [? ? ? ? ? ?]. unfold entered. by destruct (has _ _). Qed.

(** A decrypted text for the application is handed to it. *)
Lemma handle_app_text E src text rest st : app_text text -> IS_LR_NODE (r_node src) = false ->
  handle_plain_text E src (text ++ rest) (Zlength text) st =
  s2_emit (S2_msg_received_event_call src text) st.
Proof.
  intros (Hb & Hl & Hc) Hlr. unfold handle_plain_text. rewrite (proj2 (Z.eqb_neq _ _)) by lia.
  assert (rd (text ++ rest) 0 = rd text 0) as ->.
  { unfold rd. rewrite lookup_app_l; [done|]. unfold Zlength in Hl. lia. }
  rewrite (proj2 (Z.eqb_neq _ _)) by done. cbn [andb]. rewrite Hlr.
  assert (sub_buf (text ++ rest) 0 (Zlength text) = text) as ->; [|done].
  unfold sub_buf, Zlength. rewrite Nat2Z.id. apply take_app_length.
Qed.

(** A frame that is decrypted while the context is idle is handed to the
    application. *)
Lemma handler_delivers E con frame st src text rest st' :
  rd frame 0 = COMMAND_CLASS_SECURITY_2 -> rd frame 1 = SECURITY_2_MESSAGE_ENCAPSULATION ->
  S2_decrypt_msg E con frame st = mkDec AUTH_OK (text ++ rest) (Zlength text) src st' ->
  fsm st' = IDLE -> app_text text -> IS_LR_NODE (r_node src) = false ->
  S2_application_command_handler E con frame st = s2_emit (S2_msg_received_event_call src text) st'.
Proof.
  intros E0 E1 Ed Hi Ht Hlr. unfold S2_application_command_handler. rewrite E0, E1. cbn [Z.eqb negb]. rewrite Ed.
  cbn [rc plain_text plain_text_len d_con d_st]. unfold S2_fsm_post_event. rewrite Hi. cbn [fsm_idle].
  by apply handle_app_text.
Qed.

Lemma has_span_table con st st' i : span_table st' = span_table st -> has_span con st i -> has_span con st' i.
Proof. unfold has_span. by intros ->. Qed.

(** What a transmission leaves of the context. *)
Definition same_keys (st st' : S2) : Prop :=
  sg st' = sg st /\ my_home_id st' = my_home_id st /\ loaded_keys st' = loaded_keys st /\
  mos_list st' = mos_list st /\ mpan st' = mpan st /\ oob st' = oob st.

Lemma same_keys_core2 st st' : core2 st' = core2 st -> same_keys st st'.
Proof.
  intros Ec. repeat split.
  - exact (f_equal sg Ec).
  - exact (f_equal my_home_id Ec).
  - exact (f_equal loaded_keys Ec).
  - exact (f_equal mos_list Ec).
  - exact (f_equal mpan Ec).
  - exact (f_equal oob Ec).
Qed.

Lemma same_keys_core st st' : core st' = core st -> same_keys st st'.
Proof. intros Ec. apply same_keys_core2. unfold core2. by rewrite Ec. Qed.

Lemma same_keys_trans st1 st2 st3 : same_keys st1 st2 -> same_keys st2 st3 -> same_keys st1 st3.
Proof. unfold same_keys. intros (-> & -> & -> & -> & -> & ->). done. Qed.

Lemma enter_sends E st i : s2_wf st -> has_span (peer st) st i -> mpan st = None -> no_mos st ->
  span_state (span_at st i) = SPAN_NEGOTIATED \/ span_state (span_at st i) = SPAN_SOS_REMOTE_NONCE ->
  bytes (buf st) -> Zlength (sender_hdr st i) + Zlength (buf st) + AUTH_TAG_LEN <= SIZEOF_WORKBUF ->
  (forall frame, S2_send_frame E (peer st) frame = true) ->
  let '(nonce, rng) := next_nonce_generate (sender_rng st i) in
  let frame := sealed st (enc_key (sg_at st (con_class_id (peer st)))) nonce (sender_hdr st i) (buf st) in
  let st' := send_msg_state_enter E st in
  outs st' = outs st ++ [S2_send_frame_call (peer st) frame] /\
  has_span (peer st) st' i /\ s2_wf st' /\ same_keys st st' /\ fsm st' = fsm (entered st) /\
  span_state (span_at st' i) = SPAN_NEGOTIATED /\ d_rng (span_d (span_at st' i)) = rng /\
  span_class_id (span_at st' i) = sender_class st i /\
  tx_seq (span_at st' i) = u8 (tx_seq (span_at st i) + 1) /\ rx_seq (span_at st' i) = rx_seq (span_at st i).
Proof.
  intros W Hs Hm Hn Hst Hb Hroom Hok.
  destruct (entered_same st W) as (W1 & Et & Ep & Eb & Em & Emo & Eg & Eh & Eo & El & Ed & Eoob).
  assert (span_at (entered st) = span_at st) as Ea by (unfold span_at; by rewrite Et).
  assert (sg_at (entered st) = sg_at st) as Esg by (unfold sg_at; by rewrite Eg).
  assert (sender_rng (entered st) i = sender_rng st i) as Er
    by (unfold sender_rng; by rewrite Ea, Ed, Esg, Ep).
  assert (sender_hdr (entered st) i = sender_hdr st i) as Ehd by (unfold sender_hdr; by rewrite Ea, Ed).
  assert (sender_class (entered st) i = sender_class st i) as Ecl by (unfold sender_class; by rewrite Ea, Ep).
  assert (forall k x h y, sealed (entered st) k x h y = sealed st k x h y) as Ese
    by (intros; unfold sealed; by rewrite Ep, Eh).
  pose proof (encrypt_and_send_spec E (entered st) i W1) as Hes.
  rewrite Ep, Em, Ea, Eb, Ehd, Er, Ecl, Esg in Hes.
  specialize (Hes (has_span_table _ _ _ _ Et Hs) Hm ltac:(unfold no_mos, S2_is_node_mos; by rewrite Emo, Ep) Hst Hb Hroom).
  destruct (next_nonce_generate (sender_rng st i)) as [nonce rng]. rewrite Ese in Hes.
  destruct (Hes (Hok _)) as (Ho & Hs' & W' & Ec & Hrest). cbv zeta. rewrite enter_eq.
  set (st' := S2_encrypt_and_send E (entered st)) in *.
  split; [change (outs st' = outs st ++ [S2_send_frame_call (peer st) (sealed st (enc_key (sg_at st (con_class_id (peer st))))
    nonce (sender_hdr st i) (buf st))]); by rewrite Ho, Eo|].
  split; [exact Hs'|]. split; [destruct W'; by constructor|]. split; [|split; [exact (f_equal fsm Ec)|exact Hrest]].
  destruct (same_keys_core2 _ _ Ec) as (E1 & E2 & E3 & E4 & E5 & E6).
  repeat split; cbn; [rewrite E1|rewrite E2|rewrite E3|rewrite E4|rewrite E5|rewrite E6]; done.
Qed.

(** The sender's frame is the one the other end expects. *)
Lemma sealed_received a b ca cb key nonce hdr text : peer a = ca ->
  l_node cb = r_node ca -> r_node cb = l_node ca -> my_home_id a = my_home_id b ->
  sealed a key nonce hdr text = received b cb key nonce hdr text.
Proof. intros E0 E1 E2 E3. unfold sealed, received. by rewrite E0, E1, E2, E3. Qed.

Lemma next_seq_ok st i seq : byte seq -> rx_seq (span_at st i) = seq -> seq_ok st i (u8 (seq + 1)).
Proof.
  intros Hs E. right. rewrite E. unfold byte, u8 in *.
  rewrite Zminus_mod_idemp_r. replace (seq - (seq + 1)) with (-1) by lia. done.
Qed.

Lemma deliver E E' a b ca cb i j text : s2_wf a -> s2_wf b -> in_sync a b ca cb i j -> ready_to_send a ca ->
  fsm b = IDLE -> app_text text -> seq_ok b j (tx_seq (span_at a i)) ->
  (forall frame, S2_send_frame E ca frame = true) ->
  exists a' b' frame, S2_send_data E ca text a = (true, a') /\
    outs a' = outs a ++ [S2_send_frame_call ca frame] /\
    S2_application_command_handler E' cb frame b = b' /\
    outs b' = outs b ++ [S2_msg_received_event_call (cb <| con_class_id := con_class_id ca |>) text] /\
    in_sync a' b' ca cb i j /\ s2_wf a' /\ s2_wf b' /\ same_keys a a' /\ same_keys b b' /\
    fsm a' = sending_state ca /\ fsm b' = IDLE /\ seq_ok b' j (tx_seq (span_at a' i)).
Proof.
  intros Wa Wb [Ha Hb [Hn1 Hn2] Hsc [Hsa Hsb] [Hca Hcb] Hr Hkey Hhome Hload] Hready Hbi Htext Hq Hok.
  pose proof Htext as (Htb & Htl & Htc). pose proof Hready as [Hidle Hmpan Hmos [Hlr Hlr2]].
  rewrite (send_data_idle E ca text a Htext Hready). unfold fsm_idle, S2_span_ok.
  rewrite (find_span_has _ _ _ Ha), Hsa, Hca, Z.eqb_refl. cbn [bool_decide orb andb].
  set (a1 := S2_set_peer ca text a <| retry := 2 |>).
  assert (s2_wf a1) as W1 by (destruct Wa; by constructor).
  assert (sender_hdr a1 i = [COMMAND_CLASS_SECURITY_2; SECURITY_2_MESSAGE_ENCAPSULATION; tx_seq (span_at a i); 0]) as Eh.
  { unfold sender_hdr. change (span_at a1 i) with (span_at a i). rewrite Hsa. done. }
  assert (sender_rng a1 i = d_rng (span_d (span_at b j))) as Er.
  { unfold sender_rng. change (span_at a1 i) with (span_at a i). rewrite Hsa. exact Hr. }
  assert (sender_class a1 i = con_class_id ca) as Ecl.
  { unfold sender_class. change (span_at a1 i) with (span_at a i). rewrite Hsa. exact Hca. }
  pose proof (enter_sends E a1 i W1 Ha Hmpan Hmos ltac:(left; exact Hsa) Htb) as Hes.
  rewrite Eh, Er, Ecl in Hes.
  assert (byte (tx_seq (span_at a i))) as Hseqb by apply (span_at_wf a i Wa).
  pose proof (decrypt_negotiated E' cb b j (tx_seq (span_at a i)) text Wb Hsc Hb Hsb
    ltac:(by rewrite Hcb) Hseqb Hq Htb ltac:(lia)) as Hde.
  rewrite Hcb in Hde.
  specialize (Hes ltac:(change (buf a1) with text; unfold SIZEOF_WORKBUF, AUTH_TAG_LEN, Zlength in *; cbn [length]; lia) Hok).
  destruct (next_nonce_generate (d_rng (span_d (span_at b j)))) as [nonce rng].
  destruct Hes as (Ho & Hs' & W' & Hk' & Hf' & Hst' & Hr' & Hc' & Htx' & Hrx').
  destruct Hde as (b' & rest & Ed & Hsb' & Wb' & Ec & Hstb & Hrb & Hcb' & Htxb & Hrxb).
  change (peer a1) with ca in *. change (buf a1) with text in *.
  change (enc_key (sg_at a1 (con_class_id ca))) with (enc_key (sg_at a (con_class_id ca))) in *.
  rewrite (sealed_received a1 b ca cb) in Ho by done. rewrite Hkey in Ho.
  set (frame := received b cb _ nonce _ text) in *. set (a' := send_msg_state_enter E a1) in *.
  set (src := cb <| con_class_id := con_class_id ca |>) in *.
  assert (S2_application_command_handler E' cb frame b = s2_emit (S2_msg_received_event_call src text) b') as Eb.
  { apply (handler_delivers E' cb frame b src text rest b'); try done.
    - rewrite <- Hbi. exact (f_equal fsm Ec).
    - change (r_node src) with (r_node cb). by rewrite Hn2. }
  exists a', (s2_emit (S2_msg_received_event_call src text) b'), frame.
  assert (same_keys b b') as Hkb by (apply same_keys_core2; exact (f_equal (fun st => st <| workbuf := [] |> <| outs := [] |>) Ec)).
  split; [done|]. split; [exact Ho|]. split; [exact Eb|]. split.
  { change (outs b' ++ [S2_msg_received_event_call src text] = outs b ++ [S2_msg_received_event_call src text]).
    by rewrite (f_equal outs Ec : outs b' = outs b). }
  split; [|split; [done|split; [destruct Wb'; by constructor|split; [exact Hk'|split; [exact Hkb|split; [|split]]]]]].
  - destruct Hk' as (Eg & Ehm & _). destruct Hkb as (Egb & Ehb & Elb & _).
    constructor; try done.
    + rewrite Hr'. symmetry. exact Hrb.
    + unfold sg_at. cbn [sg s2_emit modify]. rewrite Eg, Egb. exact Hkey.
    + rewrite Ehm. cbn. rewrite Ehb. exact Hhome.
    + cbn. by rewrite Elb.
  - rewrite Hf'. apply entered_fsm.
  - rewrite <- Hbi. exact (f_equal fsm Ec).
  - rewrite Htx'. by apply next_seq_ok.
Qed.
End Sync.
