(* ===== verification/S2Exchange.v ===== *)
(** * The exchange of nonces (src/libs2/protocol/S2.c)

    Two contexts of the S2 transport that share a network key: a message for a
    node without a nonce state is held back, a nonce is requested and answered,
    the sender opens the message with its own nonce in an extension, and from then
    on the two ends step their generators together, one message after the other. *)

From S2P Require Import Prelude Aes Ccm Cmac Drbg S2Transport S2Sync.
#[local] Open Scope Z_scope.

Section Exchange.
Context `{BlockCipher}.

(** ** The exchange of nonces *)

Definition sn_hdr (seq : Z) (s_nonce : list Z) : list Z :=
  [COMMAND_CLASS_SECURITY_2; SECURITY_2_MESSAGE_ENCAPSULATION; seq] ++ [1; 18; 65] ++ s_nonce.

(** The extension with the sender's nonce creates the generator of the class of
    the entry. *)
Lemma sn_extension con st i seq s_nonce ct x : has_span con st i -> x_st x = st -> x_hdr_len x = 4 ->
  span_state (span_at st i) = SPAN_SOS_LOCAL_NONCE -> length s_nonce = 16%nat -> 8 <= Zlength ct ->
  let msg := sn_hdr seq s_nonce ++ ct in
  let r_nonce := d_r_nonce (span_d (span_at st i)) in
  let rng := next_nonce_instantiate s_nonce r_nonce (nonce_key (sg_at st (span_class_id (span_at st i)))) in
  clear_extensions (length msg) con msg (Some i) 4 x =
  inl (mkExt 22 (x_mpan x) s_nonce r_nonce
    (upd_span i (fun s => s <| span_state := SPAN_INSTANTIATE |> <| span_d := set_d_rng 0 rng |>) st)).
Proof.
  intros Hs Hx Hh Hst Hl Hc msg r_nonce rng. destruct x as [h m sn rn xs].
  cbn [x_st] in Hx. cbn [x_hdr_len] in Hh. subst xs h.
  assert (Zlength msg = 22 + Zlength ct) as Hml.
  { unfold msg, sn_hdr. rewrite !Zlength_app. unfold Zlength. cbn [length]. lia. }
  destruct (length msg) as [|fuel] eqn:El; [unfold Zlength in *; lia|]. cbn [clear_extensions].
  assert (rd msg 4 = 18) as E4 by done. assert (rd msg (4 + 1) = 65) as E5 by done.
  assert (sub_buf msg (4 + 2) 16 = s_nonce) as E6.
  { unfold msg, sn_hdr. rewrite <- !app_assoc, app_assoc. rewrite sub_buf_app by done.
    apply take_app_length'. by rewrite Hl. }
  unfold clear_extension. rewrite E4, E5. cbn [x_hdr_len x_st x_mpan modify].
  rewrite (proj2 (Z.ltb_ge _ _)) by (unfold AUTH_TAG_LEN; lia).
  change (18 =? 0) with false. change (Z.land 65 S2_MSG_EXTHDR_TYPE_MASK =? S2_MSG_EXTHDR_TYPE_SN) with true.
  cbn [orb]. cbv iota. rewrite Hst.
  destruct (decide _) as [_|Hno]; [|exfalso; by apply Hno].
  change (has 65 S2_MSG_EXTHDR_MORE_FLAG) with false. cbv iota. rewrite E6. done.
Qed.

Lemma next_class_reaches k c : 0 <= k < 7 -> 0 <= c < 7 -> exists d, (d < 7)%nat /\ Nat.iter d next_class k = c.
Proof.
  intros Hk Hc.
  assert (forallb (fun k => forallb (fun c => existsb (fun d => Nat.iter d next_class k =? c) (seq 0 7)) (seqZ 0 7)) (seqZ 0 7) = true) as Hall
    by by vm_compute.
  pose proof (range_all 0 7 _ Hall k ltac:(lia)) as H1. cbv beta in H1.
  pose proof (range_all 0 7 _ H1 c ltac:(lia)) as H2. cbv beta in H2.
  apply existsb_exists in H2 as (d & Hd%in_seq & E%Z.eqb_eq). exists d. split; [lia|done].
Qed.

(** No loaded key but that of class [c] opens the frame with the nonces. *)
Definition unambiguous (b : S2) (cb : s2_connection_t) (c : Z) (r_nonce frame : list Z) : Prop :=
  others_reject (aad_of (r_node cb) (l_node cb) (my_home_id b) (Zlength frame) (drop 2 (take 22 frame)))
    (sub_buf frame 6 16) r_nonce c b (drop 22 frame).

Lemma sole_key_unambiguous b cb c r_nonce frame :
  (forall k, 0 <= k < 7 -> k <> c -> Z.testbit (loaded_keys b) k = false) -> unambiguous b cb c r_nonce frame.
Proof. intros Hk k Hr Hne Hl. by rewrite Hk in Hl. Qed.

(** A message with the sender's nonce for an entry that waits for it. *)
Lemma decrypt_sn E con st i seq s_nonce text c : s2_wf st -> is_multicast con = false -> has_span con st i ->
  fsm st = IDLE -> span_state (span_at st i) = SPAN_SOS_LOCAL_NONCE -> 0 <= span_class_id (span_at st i) < 7 ->
  0 <= c < 7 -> Z.testbit (loaded_keys st) c = true -> byte seq -> seq_ok st i seq -> block s_nonce ->
  bytes text -> 0 < Zlength text <= 1280 ->
  let r_nonce := d_r_nonce (span_d (span_at st i)) in
  let rng := next_nonce_instantiate s_nonce r_nonce (nonce_key (sg_at st c)) in
  let frame := received st con (enc_key (sg_at st c)) (fst (next_nonce_generate rng)) (sn_hdr seq s_nonce) text in
  unambiguous st con c r_nonce frame ->
  exists st' rest, S2_decrypt_msg E con frame st =
      mkDec AUTH_OK (text ++ rest) (Zlength text) (con <| con_class_id := c |>) st' /\
    has_span con st' i /\ s2_wf st' /\ core2 st' = core2 st /\ outs st' = outs st /\
    span_state (span_at st' i) = SPAN_NEGOTIATED /\
    d_rng (span_d (span_at st' i)) = snd (next_nonce_generate rng) /\
    span_class_id (span_at st' i) = c /\ tx_seq (span_at st' i) = tx_seq (span_at st i) /\
    rx_seq (span_at st' i) = seq.
Proof.
  intros W Hm Hs Hidle Hst Hkr Hcr Hload Hseqb Hq Hsn Htb Htl r_nonce rng frame Hun.
  destruct (span_at_wf st i W) as (Hdl & Hdb & _).
  assert (block r_nonce) as Hrn.
  { split; [unfold r_nonce, d_r_nonce; rewrite length_sub_buf by (unfold Zlength; lia); done|by apply sub_buf_bytes]. }
  set (hdr := sn_hdr seq s_nonce) in *. destruct Hsn as [Hsl Hsb].
  assert (bytes hdr) as Hhb by (unfold hdr, sn_hdr; repeat apply Forall_app_2; try (forall_list; done); done).
  assert (Zlength hdr = 22) as Hhl by (unfold hdr, sn_hdr, Zlength; rewrite !length_app; cbn [length]; lia).
  set (aad := aad_of (r_node con) (l_node con) (my_home_id st) (Zlength text + Zlength hdr + AUTH_TAG_LEN) (drop 2 hdr)).
  assert (bytes aad /\ 0 < Zlength aad <= 64) as [Hab Hal].
  { apply aad_of_spec; [by apply Forall_drop|]. unfold Zlength in *. rewrite length_drop. lia. }
  set (ct := nist_encrypt (enc_key (sg_at st c)) (take 13 (fst (next_nonce_generate rng))) aad text).
  assert (frame = hdr ++ ct) as Ef by done.
  assert (drbg_ok rng) as Hrok.
  { destruct (sg_at_wf st c W) as (_ & _ & Hl & Hb). by apply instantiate_ok. }
  pose proof (generate_spec rng Hrok) as Hg.
  assert (block (fst (next_nonce_generate rng))) as [Hnl Hnb].
  { unfold next_nonce_generate. destruct (AES_CTR_DRBG_Generate rng). by destruct Hg as (_ & ? & _). }
  destruct (length_nist_encrypt (enc_key (sg_at st c)) (fst (next_nonce_generate rng)) aad text) as [Hcl Hcb];
    try done; try lia; [apply sg_at_wf; done|]. fold ct in Hcl, Hcb.
  assert (Zlength frame = Zlength text + Zlength hdr + AUTH_TAG_LEN) as Hfl
    by (rewrite Ef, Zlength_app, Hcl; unfold AUTH_TAG_LEN; lia).
  set (st1 := upd_span i (set_rx_seq seq) st).
  assert (has_span con st1 i) as Hs1 by (apply has_span_upd; [done|apply set_rx_seq_keeps]).
  assert (s2_wf st1) as W1 by by apply set_rx_seq_wf.
  assert (span_at st1 i = set_rx_seq seq (span_at st i)) as E1 by exact (has_span_at_upd con st i _ Hs).
  set (k := span_class_id (span_at st i)) in *.
  set (f := fun s : SPAN => s <| span_state := SPAN_INSTANTIATE |>
              <| span_d := set_d_rng 0 (next_nonce_instantiate s_nonce r_nonce (nonce_key (sg_at st k))) |>).
  set (st2 := upd_span i f st1).
  assert (has_span con st2 i) as Hs2 by (apply has_span_upd; [done|]; by intros s).
  assert (span_at st2 i = f (span_at st1 i)) as E2 by exact (has_span_at_upd con st1 i f Hs1).
  assert (drbg_ok (next_nonce_instantiate s_nonce r_nonce (nonce_key (sg_at st k)))) as Hkok.
  { destruct (sg_at_wf st k W) as (_ & _ & Hl & Hb). by apply instantiate_ok. }
  assert (s2_wf st2) as W2.
  { apply upd_span_wf; [done|]. intros (_ & _ & H3 & H4). destruct (set_d_rng_wf 0 _ ltac:(done) Hkok). done. }
  set (st3 := wb_write 0 ct st2).
  assert (s2_wf st3) as W3 by by apply wb_write_wf.
  assert (Zlength ct <= Zlength (workbuf st2)) as Hroom.
  { destruct (wf_workbuf st2 W2) as [Hwl _]. unfold Zlength in *. rewrite Hwl. unfold SIZEOF_WORKBUF. lia. }
  destruct (next_class_reaches k c Hkr Hcr) as (d & Hd & Hit).
  destruct (class_loop_finds i con aad s_nonce r_nonce text c Hab ltac:(lia) Htb ltac:(lia) (conj Hsl Hsb) Hrn
    d 7%nat st3 ct k Hd Hit Hkr W3 Hs2 Hidle) as (st' & El & Hs' & W' & Ec & Hst' & Hr' & Hc' & Etx & Erx); try done.
  { change (span_at st3 i) with (span_at st2 i). by rewrite E2. }
  { change (span_at st3 i) with (span_at st2 i). rewrite E2, E1. done. }
  { change (span_at st3 i) with (span_at st2 i). rewrite E2. exact (d_rng_set 0 _ Hkok). }
  { lia. }
  { by apply sub_buf_memcpy_0. }
  { unfold unambiguous in Hun. rewrite Ef in Hun.
    assert (take 22 (hdr ++ ct) = hdr) as Et by (apply take_app_length'; unfold Zlength in Hhl; lia).
    assert (drop 22 (hdr ++ ct) = ct) as Edr by (apply drop_app_length'; unfold Zlength in Hhl; lia).
    assert (sub_buf (hdr ++ ct) 6 16 = s_nonce) as Esn.
    { unfold hdr, sn_hdr. rewrite <- !app_assoc, app_assoc. rewrite sub_buf_app by done. apply take_app_length'. by rewrite Hsl. }
    rewrite Et, Edr, Esn, <- Ef, Hfl in Hun. exact Hun. }
  exists st', (drop (length text) ct). split.
  - assert (decrypt_body (hdr ++ ct) 1 (Some i) con (mkExt 22 None s_nonce r_nonce st2) =
      mkDec AUTH_OK (text ++ drop (length text) ct) (Zlength text) (con <| con_class_id := c |>) st') as Ebody.
    { unfold decrypt_body. cbn [x_st x_mpan x_hdr_len x_s_nonce x_r_nonce].
      assert (span_state (span_at st2 i) = SPAN_INSTANTIATE) as -> by by rewrite E2.
      destruct (decide _) as [_|Hno]; [|exfalso; apply Hno; by right].
      rewrite <- Hhl at 1. rewrite (make_aad_eq _ _ hdr ct _ st2) by (done || lia || (unfold Zlength in Hhl; lia)).
      change (my_home_id st2) with (my_home_id st). rewrite <- Ef, Hfl. fold aad.
      change (fsm st2) with (fsm st). rewrite Hidle. rewrite !bool_decide_true by done. cbn [andb].
      assert (drop (Z.to_nat 22) frame = ct) as -> by (rewrite Ef; apply drop_app_length'; unfold Zlength in Hhl; lia).
      rewrite s2_access_ok by (unfold SIZEOF_WORKBUF, Zlength in *; lia). fold st3.
      change N_SEC_CLASS with 7%nat. rewrite El.
      unfold decrypt_finish. rewrite (proj2 (Z.eqb_neq (Zlength text) 0)), (proj2 (Z.eqb_neq (Zlength aad) 0)) by lia. done. }
    rewrite (decrypt_msg_start E con frame st i W Hm Hs); [|rewrite Hfl; unfold AUTH_TAG_LEN; lia|exact Hq].
    change (rd frame 3) with 1. change (rd frame 2) with seq. change (has 1 EXTENSION_BIT) with true. cbv iota. fold st1.
    rewrite Ef. unfold hdr. rewrite (sn_extension con st1 i seq s_nonce ct); try done; [|by rewrite E1|lia].
    rewrite E1. exact Ebody.
  - assert (core st' = core st3) as Ec3 by exact Ec.
    split; [done|]. split; [done|]. split; [exact (f_equal (fun st => st <| workbuf := [] |> <| outs := [] |>) Ec3)|].
    split; [exact (f_equal outs Ec3)|]. split; [done|]. split; [done|]. split; [done|].
    change (span_at st3 i) with (span_at st2 i) in Etx, Erx. rewrite E2, E1 in Etx, Erx. done.
Qed.

(** Without a nonce state a message starts with a request for a nonce. *)
Lemma nonce_get_sent E ca text a : s2_wf a -> ready_to_send a ca -> app_text text ->
  fst (S2_span_ok ca a) = false -> (forall frame, S2_send_frame E ca frame = true) ->
  let '(i, a0) := find_span_by_node ca a in
  exists a1, S2_send_data E ca text a = (true, a1) /\
    outs a1 = outs a ++ [S2_send_frame_call ca [COMMAND_CLASS_SECURITY_2; SECURITY_2_NONCE_GET; tx_seq (span_at a0 i)]] /\
    has_span ca a1 i /\ s2_wf a1 /\ same_keys a a1 /\ fsm a1 = WAIT_NONCE_RAPORT /\ peer a1 = ca /\ buf a1 = text /\
    span_at a1 i = (span_at a0 i <| tx_seq := u8 (tx_seq (span_at a0 i) + 1) |>).
Proof.
  intros W Hready Htext Hno Hok. pose proof (find_span_spec ca a W) as Hf.
  rewrite (send_data_idle E ca text a Htext Hready). cbn [fsm_idle]. unfold S2_span_ok in *.
  destruct (find_span_by_node ca a) as [i a0]. destruct Hf as (Hs & W0 & Ec & _). cbn [fst] in Hno. rewrite Hno.
  set (st := S2_set_peer ca text _).
  assert (s2_wf st) as Wst by (destruct W0; by constructor).
  assert (has_span (peer st) st i) as Hst by exact Hs.
  unfold S2_send_nonce_get. rewrite (find_span_has _ _ _ Hst). change (span_at st i) with (span_at a0 i).
  set (get := [COMMAND_CLASS_SECURITY_2; SECURITY_2_NONCE_GET; tx_seq (span_at a0 i)]).
  destruct (send_raw_ok E get st i Wst Hst (Hok get)) as (Eo & Hs' & W' & Ec' & Ea).
  set (st' := S2_send_raw E get st) in *.
  eexists. split; [reflexivity|]. split.
  { change (outs st' = outs a ++ [S2_send_frame_call ca get]). rewrite Eo. change (outs st) with (outs a0).
    by rewrite (f_equal outs Ec : outs a0 = outs a). }
  split; [exact Hs'|]. split; [destruct W'; by constructor|]. split.
  { exact (same_keys_trans _ _ _ (same_keys_core a a0 Ec) (same_keys_core2 _ _ Ec')). }
  split; [exact (f_equal fsm Ec')|]. split; [exact (f_equal peer Ec')|]. split; [exact (f_equal buf Ec')|].
  exact Ea.
Qed.

Lemma verify_seq_found con st i st0 seq : find_span_by_node con st = (i, st0) -> has_span con st0 i ->
  seq_ok st0 i seq -> S2_verify_seq con seq st = (true, upd_span i (set_rx_seq seq) st0).
Proof.
  intros Ef Hs Hq. rewrite <- (verify_seq_ok con st0 i seq Hs Hq). unfold S2_verify_seq.
  by rewrite Ef, (find_span_has _ _ _ Hs).
Qed.

(** A request is answered with a fresh nonce. *)
Lemma nonce_report_sent E cb seq b : s2_wf b -> is_multicast cb = false -> byte seq ->
  let '(j, b0) := find_span_by_node cb b in
  seq_ok b0 j seq ->
  exists b1 rnd, S2_application_command_handler E cb [COMMAND_CLASS_SECURITY_2; SECURITY_2_NONCE_GET; seq] b = b1 /\
    outs b1 = outs b ++ [S2_send_frame_no_cb_call cb
      ([COMMAND_CLASS_SECURITY_2; SECURITY_2_NONCE_REPORT; tx_seq (span_at b0 j); SOS_BIT] ++ rnd)] /\
    block rnd /\ has_span cb b1 j /\ s2_wf b1 /\ same_keys b b1 /\ fsm b1 = fsm b /\
    span_state (span_at b1 j) = SPAN_SOS_LOCAL_NONCE /\ d_r_nonce (span_d (span_at b1 j)) = rnd /\
    span_class_id (span_at b1 j) = span_class_id (span_at b0 j) /\
    tx_seq (span_at b1 j) = u8 (tx_seq (span_at b0 j) + 1) /\ rx_seq (span_at b1 j) = seq.
Proof.
  intros W Hm Hsb. pose proof (find_span_spec cb b W) as Hf.
  destruct (find_span_by_node cb b) as [j b0] eqn:Ef. destruct Hf as (Hs & W0 & Ec & _). intros Hq.
  unfold S2_application_command_handler. set (get := [COMMAND_CLASS_SECURITY_2; SECURITY_2_NONCE_GET; seq]).
  change (negb (rd get 0 =? COMMAND_CLASS_SECURITY_2)) with false.
  change (rd get 1 =? SECURITY_2_NONCE_GET) with true. change (rd get 2) with seq. cbv iota.
  rewrite Hm. change (negb false && (3 <=? Zlength get)) with true. cbv iota.
  rewrite (verify_seq_found _ _ _ _ _ Ef Hs Hq). set (b2 := upd_span j (set_rx_seq seq) b0).
  assert (has_span cb b2 j) as Hs2 by (apply has_span_upd; [done|apply set_rx_seq_keeps]).
  assert (s2_wf b2) as W2 by by apply set_rx_seq_wf.
  assert (span_at b2 j = set_rx_seq seq (span_at b0 j)) as E2 by exact (has_span_at_upd cb b0 j _ Hs).
  unfold S2_send_nonce_report. rewrite (find_span_has _ _ _ Hs2). change (has SOS_BIT SOS_BIT) with true. cbv iota.
  pose proof (s2_random_spec b2 (wf_drbg _ W2)) as Hr. destruct (s2_random b2) as [rnd b3].
  destruct Hr as ([Hrl Hrb] & E3 & Hok).
  assert (has_span cb b3 j) as Hs3 by (rewrite E3; exact Hs2).
  assert (span_at b3 = span_at b2) as Ea3 by (rewrite E3; done).
  assert (s2_wf b3) as W3 by (destruct W2; rewrite E3; constructor; done).
  assert (core b3 = core b2) as Ec3 by (rewrite E3; done).
  set (f := fun s : SPAN => s <| span_state := SPAN_SOS_LOCAL_NONCE |> <| span_d := _ |>).
  set (b4 := upd_span j f b3). set (g := fun s : SPAN => s <| tx_seq := _ |>).
  assert (has_span cb b4 j) as Hs4 by (apply has_span_upd; [done|]; by intros s).
  assert (span_at b4 j = f (span_at b2 j)) as E4 by (rewrite <- Ea3; exact (has_span_at_upd cb b3 j f Hs3)).
  destruct (span_at_wf b2 j W2) as (Hdl & Hdb & _).
  assert (s2_wf b4) as W4.
  { apply upd_span_wf; [done|]. rewrite Ea3. intros (H1 & H2 & H3 & H4).
    destruct (set_d_nonce_wf (span_d (span_at b2 j)) rnd); try done. }
  assert (has_span cb (upd_span j g b4) j) as Hs5 by (apply has_span_upd; [done|]; by intros s).
  assert (span_at (upd_span j g b4) j = g (f (span_at b2 j))) as E5
    by (rewrite <- E4; exact (has_span_at_upd cb b4 j g Hs4)).
  assert (d_r_nonce (span_d (f (span_at b2 j))) = rnd) as En by exact (d_nonce_set _ _ Hdl Hrl).
  assert (core b4 = core b) as Ec4 by (change (core b4) with (core b3); rewrite Ec3; exact Ec).
  exists (s2_emit (S2_send_frame_no_cb_call cb ([COMMAND_CLASS_SECURITY_2; SECURITY_2_NONCE_REPORT; tx_seq (span_at b0 j); SOS_BIT] ++ rnd))
    (upd_span j g b4)), rnd.
  split; [by rewrite E4, En, E2|].
  split.
  { change (outs b4 ++ [S2_send_frame_no_cb_call cb ([COMMAND_CLASS_SECURITY_2; SECURITY_2_NONCE_REPORT; tx_seq (span_at b0 j); SOS_BIT] ++ rnd)] =
      outs b ++ [S2_send_frame_no_cb_call cb ([COMMAND_CLASS_SECURITY_2; SECURITY_2_NONCE_REPORT; tx_seq (span_at b0 j); SOS_BIT] ++ rnd)]).
    by rewrite (f_equal outs Ec4 : outs b4 = outs b). }
  split; [done|]. split; [exact Hs5|]. split.
  { assert (s2_wf (upd_span j g b4)) as [? ? ? ? ? ?]
      by (apply upd_span_wf; [done|]; intros (? & ? & ? & ?); repeat (split; [done|]); apply u8_byte). by constructor. }
  split.
  { exact (same_keys_core b b4 Ec4). }
  split; [exact (f_equal fsm Ec4)|].
  match goal with |- context [span_at (s2_emit ?o ?s) ?j] => change (span_at (s2_emit o s) j) with (span_at s j) end.
  rewrite E5. split; [done|]. split; [exact En|]. rewrite E2. done.
Qed.

(** The answer starts the transmission of the waiting message. *)
Lemma nonce_report_received E con st i seq rnd : has_span (peer st) st i -> fsm st = WAIT_NONCE_RAPORT ->
  S2_is_peernode con st = true -> seq_ok st i seq -> length rnd = 16%nat ->
  S2_application_command_handler E con ([COMMAND_CLASS_SECURITY_2; SECURITY_2_NONCE_REPORT; seq; SOS_BIT] ++ rnd) st =
  send_msg_state_enter E (upd_span i (fun s => s <| span_d := set_d_r_nonce (span_d s) rnd |>
    <| span_state := SPAN_SOS_REMOTE_NONCE |>) (upd_span i (set_rx_seq seq) st)).
Proof.
  intros Hs Hf Hp Hq Hl. set (report := _ ++ rnd). unfold S2_application_command_handler.
  change (rd report 0) with COMMAND_CLASS_SECURITY_2. change (rd report 1) with SECURITY_2_NONCE_REPORT.
  cbn [Z.eqb Pos.eqb negb COMMAND_CLASS_SECURITY_2 SECURITY_2_NONCE_REPORT SECURITY_2_NONCE_GET].
  unfold S2_fsm_post_event. rewrite Hf. cbn [fsm_wait_nonce_raport]. rewrite Hp. unfold S2_register_nonce.
  change (rd report 2) with seq. change (rd report 3) with SOS_BIT.
  rewrite (verify_seq_ok _ _ _ _ Hs Hq). cbn [negb].
  set (st1 := upd_span i (set_rx_seq seq) st).
  assert (has_span (peer st1) st1 i) as Hs1 by (apply has_span_upd; [done|apply set_rx_seq_keeps]).
  rewrite (find_span_has _ _ _ Hs1).
  assert (Zlength report = 20) as -> by (unfold report, Zlength; rewrite length_app, Hl; done).
  assert (sub_buf report 4 16 = rnd) as -> by (unfold report; rewrite sub_buf_app by done; apply take_ge; by rewrite Hl).
  done.
Qed.

(** ** The exchange from the first message on *)

(** The frame of the last call to the layer below. *)
Definition last_frame (st : S2) : list Z :=
  match last (outs st) with
  | Some (S2_send_frame_call _ f) | Some (S2_send_frame_no_cb_call _ f) => f
  | _ => []
  end.

(** What the two ends of a connection need for an exchange of nonces: they share
    the key of the class, the addresses match and neither takes the sequence
    number of the other for a duplicate. *)
Record can_negotiate (a b : S2) (ca cb : s2_connection_t) : Prop := {
  neg_nodes : l_node cb = r_node ca /\ r_node cb = l_node ca;
  neg_single : is_multicast cb = false;
  neg_class : 0 <= con_class_id ca < 7;
  neg_keys : sg_at a (con_class_id ca) = sg_at b (con_class_id ca);
  neg_home : my_home_id a = my_home_id b;
  neg_loaded : Z.testbit (loaded_keys b) (con_class_id ca) = true;
  neg_spans : let i := fst (find_span_by_node ca a) in let a0 := snd (find_span_by_node ca a) in
    let j := fst (find_span_by_node cb b) in let b0 := snd (find_span_by_node cb b) in
    seq_ok b0 j (tx_seq (span_at a0 i)) /\ seq_ok a0 i (tx_seq (span_at b0 j)) /\
    0 <= span_class_id (span_at b0 j) < 7
}.

Lemma last_frame_snoc st l con f : outs st = l ++ [S2_send_frame_call con f] -> last_frame st = f.
Proof. intros E. unfold last_frame. by rewrite E, last_snoc. Qed.

Lemma last_frame_snoc' st l con f : outs st = l ++ [S2_send_frame_no_cb_call con f] -> last_frame st = f.
Proof. intros E. unfold last_frame. by rewrite E, last_snoc. Qed.

(** The context in which the message behind a nonce report is sealed. *)
Lemma report_state st i seq rnd : s2_wf st -> has_span (peer st) st i -> byte seq -> block rnd ->
  let st' := upd_span i (fun s => s <| span_d := set_d_r_nonce (span_d s) rnd |>
    <| span_state := SPAN_SOS_REMOTE_NONCE |>) (upd_span i (set_rx_seq seq) st) in
  s2_wf st' /\ has_span (peer st) st' i /\ core2 st' = core2 st /\
  span_state (span_at st' i) = SPAN_SOS_REMOTE_NONCE /\ d_r_nonce (span_d (span_at st' i)) = rnd /\
  tx_seq (span_at st' i) = tx_seq (span_at st i) /\ rx_seq (span_at st' i) = seq.
Proof.
  intros W Hs Hb [Hl Hrb]. set (st1 := upd_span i (set_rx_seq seq) st).
  assert (has_span (peer st) st1 i) as Hs1 by (apply has_span_upd; [done|apply set_rx_seq_keeps]).
  assert (s2_wf st1) as W1 by by apply set_rx_seq_wf.
  assert (span_at st1 i = set_rx_seq seq (span_at st i)) as E1 by exact (has_span_at_upd _ _ _ _ Hs).
  cbv zeta. set (f := fun s : SPAN => _). destruct (span_at_wf st1 i W1) as (Hdl & Hdb & _).
  split; [|split; [apply has_span_upd; [done|]; by intros s|split; [done|]]].
  - apply upd_span_wf; [done|]. intros (_ & _ & ? & ?). destruct (set_d_nonce_wf (span_d (span_at st1 i)) rnd); done.
  - rewrite (has_span_at_upd _ _ _ f Hs1). split; [done|]. split; [by apply d_nonce_set|].
    unfold f. cbn. by rewrite E1.
Qed.

Lemma sn_delivered E con st i seq s_nonce text c : s2_wf st -> is_multicast con = false -> has_span con st i ->
  fsm st = IDLE -> span_state (span_at st i) = SPAN_SOS_LOCAL_NONCE -> 0 <= span_class_id (span_at st i) < 7 ->
  0 <= c < 7 -> Z.testbit (loaded_keys st) c = true -> byte seq -> seq_ok st i seq -> block s_nonce ->
  app_text text -> IS_LR_NODE (r_node con) = false ->
  let r_nonce := d_r_nonce (span_d (span_at st i)) in
  let rng := next_nonce_instantiate s_nonce r_nonce (nonce_key (sg_at st c)) in
  let frame := received st con (enc_key (sg_at st c)) (fst (next_nonce_generate rng)) (sn_hdr seq s_nonce) text in
  unambiguous st con c r_nonce frame ->
  exists st', S2_application_command_handler E con frame st = st' /\
    outs st' = outs st ++ [S2_msg_received_event_call (con <| con_class_id := c |>) text] /\
    has_span con st' i /\ s2_wf st' /\ same_keys st st' /\ fsm st' = IDLE /\
    span_state (span_at st' i) = SPAN_NEGOTIATED /\
    d_rng (span_d (span_at st' i)) = snd (next_nonce_generate rng) /\
    span_class_id (span_at st' i) = c /\ rx_seq (span_at st' i) = seq.
Proof.
  intros W Hm Hs Hi Hst Hk Hc Hl Hb Hq Hsn Ht Hlr r_nonce rng frame Hun. pose proof Ht as (Htb & Htl & _).
  destruct (decrypt_sn E con st i seq s_nonce text c W Hm Hs Hi Hst Hk Hc Hl Hb Hq Hsn Htb Htl Hun)
    as (st' & rest & Ed & Hs' & W' & Ec & Eo & Hst' & Hr' & Hc' & _ & Hrx').
  fold r_nonce rng frame in Ed, Hr'.
  assert (fsm st' = IDLE) as Hi' by (rewrite <- Hi; exact (f_equal fsm Ec)).
  exists (s2_emit (S2_msg_received_event_call (con <| con_class_id := c |>) text) st').
  split; [exact (handler_delivers E con frame st _ text rest st' eq_refl eq_refl Ed Hi' Ht Hlr)|].
  split; [|split; [exact Hs'|split; [destruct W'; by constructor|split; [exact (same_keys_core2 _ _ Ec)|done]]]].
  match goal with |- outs (s2_emit ?o ?s) = _ => change (outs s ++ [o] = outs st ++ [o]) end. by rewrite Eo.
Qed.

(** The sealed message that answers a nonce report. *)
Lemma sn_sent E con st i seq rnd : s2_wf st -> has_span (peer st) st i -> fsm st = WAIT_NONCE_RAPORT ->
  S2_is_peernode con st = true -> byte seq -> seq_ok st i seq -> block rnd -> mpan st = None -> no_mos st ->
  bytes (buf st) -> Zlength (buf st) <= 1272 -> (forall frame, S2_send_frame E (peer st) frame = true) ->
  exists st' s_nonce,
    let c := con_class_id (peer st) in
    let rng := next_nonce_instantiate s_nonce rnd (nonce_key (sg_at st c)) in
    S2_application_command_handler E con
      ([COMMAND_CLASS_SECURITY_2; SECURITY_2_NONCE_REPORT; seq; SOS_BIT] ++ rnd) st = st' /\
    outs st' = outs st ++ [S2_send_frame_call (peer st)
      (sealed st (enc_key (sg_at st c)) (fst (next_nonce_generate rng)) (sn_hdr (tx_seq (span_at st i)) s_nonce) (buf st))] /\
    block s_nonce /\ has_span (peer st) st' i /\ s2_wf st' /\ same_keys st st' /\ fsm st' = sending_state (peer st) /\
    span_state (span_at st' i) = SPAN_NEGOTIATED /\
    d_rng (span_d (span_at st' i)) = snd (next_nonce_generate rng) /\ span_class_id (span_at st' i) = c /\
    tx_seq (span_at st' i) = u8 (tx_seq (span_at st i) + 1) /\ rx_seq (span_at st' i) = seq.
Proof.
  intros W Hs Hf Hp Hb Hq Hrnd Hm Hn Htb Htl Hok. pose proof Hrnd as [Hrl Hrb].
  destruct (report_state st i seq rnd W Hs Hb Hrnd) as (W1 & Hs1 & Ec & Hst & Hd & Htx & Hrx).
  rewrite (nonce_report_received E con st i seq rnd Hs Hf Hp Hq Hrl).
  set (st1 := upd_span i _ _) in *.
  pose proof (generate_spec (s2_ctr_drbg st) (wf_drbg _ W)) as Hg.
  set (s_nonce := fst (AES_CTR_DRBG_Generate (s2_ctr_drbg st))).
  assert (block s_nonce) as Hsn by (unfold s_nonce; destruct (AES_CTR_DRBG_Generate _); by destruct Hg as (_ & ? & _)).
  assert (sender_hdr st1 i = sn_hdr (tx_seq (span_at st i)) s_nonce) as Eh.
  { unfold sender_hdr. rewrite decide_True by done. rewrite Htx. done. }
  assert (sender_rng st1 i = next_nonce_instantiate s_nonce rnd (nonce_key (sg_at st (con_class_id (peer st))))) as Er.
  { unfold sender_rng. rewrite decide_True by done. rewrite Hd. done. }
  assert (sender_class st1 i = con_class_id (peer st)) as Ecl by (unfold sender_class; rewrite decide_True by done; done).
  pose proof (enter_sends E st1 i W1 Hs1 Hm Hn ltac:(by right) Htb) as Hes. rewrite Eh, Er, Ecl in Hes.
  assert (Zlength (sn_hdr (tx_seq (span_at st i)) s_nonce) = 22) as Hl22
    by (unfold sn_hdr, Zlength; rewrite !length_app, (proj1 Hsn); done).
  specialize (Hes ltac:(rewrite Hl22; change (buf st1) with (buf st); unfold SIZEOF_WORKBUF, AUTH_TAG_LEN; lia) Hok).
  destruct (next_nonce_generate _) as [nonce rng] eqn:Egen in Hes.
  destruct Hes as (Ho & Hs' & W' & Hk' & Hf' & Hst' & Hr' & Hc' & Htx' & Hrx').
  exists (send_msg_state_enter E st1), s_nonce. cbv zeta. rewrite Egen. cbn [fst snd].
  assert (forall k n h t, sealed st1 k n h t = sealed st k n h t) as Ese by (intros; unfold sealed; done).
  rewrite Ese in Ho. change (sg_at st1) with (sg_at st) in Ho. change (peer st1) with (peer st) in *.
  change (buf st1) with (buf st) in Ho. change (outs st1) with (outs st) in Ho.
  split; [done|]. split; [exact Ho|]. split; [done|]. split; [exact Hs'|]. split; [done|].
  split; [exact (same_keys_trans _ _ _ (same_keys_core2 _ _ Ec) Hk')|].
  split; [rewrite Hf'; exact (entered_fsm st1)|]. rewrite Htx', Hrx', Htx, Hrx. done.
Qed.

Lemma seq_ok_upd st st' i seq : span_state (span_at st' i) = span_state (span_at st i) ->
  rx_seq (span_at st' i) = rx_seq (span_at st i) -> seq_ok st i seq -> seq_ok st' i seq.
Proof. unfold seq_ok. by intros -> ->. Qed.

(** The end of the transmission of the request only starts the timer. *)
Lemma get_done E t st : fsm st = WAIT_NONCE_RAPORT ->
  S2_send_frame_done_notify E S2_TRANSMIT_COMPLETE_OK t st = st <| timer := Some t |>.
Proof.
  intros Hf. unfold S2_send_frame_done_notify, S2_fsm_post_event. rewrite Hf. cbn [fsm_wait_nonce_raport].
  unfold fsm_send_done. by rewrite Hf.
Qed.

(** The second half of the exchange: from the report on. *)
Lemma report_to_delivery E a b ca cb i j text seq rnd : s2_wf a -> s2_wf b ->
  fsm a = WAIT_NONCE_RAPORT -> peer a = ca -> buf a = text -> mpan a = None -> S2_is_node_mos (r_node ca) a = false ->
  has_span ca a i -> byte seq -> seq_ok a i seq ->
  fsm b = IDLE -> has_span cb b j -> is_multicast cb = false -> 0 <= span_class_id (span_at b j) < 7 ->
  span_state (span_at b j) = SPAN_SOS_LOCAL_NONCE -> d_r_nonce (span_d (span_at b j)) = rnd -> block rnd ->
  seq_ok b j (tx_seq (span_at a i)) ->
  l_node cb = r_node ca -> r_node cb = l_node ca -> IS_LR_NODE (l_node ca) = false ->
  0 <= con_class_id ca < 7 -> sg_at a (con_class_id ca) = sg_at b (con_class_id ca) ->
  my_home_id a = my_home_id b -> Z.testbit (loaded_keys b) (con_class_id ca) = true ->
  app_text text -> Zlength text <= 1272 -> (forall frame, S2_send_frame E ca frame = true) ->
  let a2 := S2_application_command_handler E ca
              ([COMMAND_CLASS_SECURITY_2; SECURITY_2_NONCE_REPORT; seq; SOS_BIT] ++ rnd) a in
  let b2 := S2_application_command_handler E cb (last_frame a2) b in
  unambiguous b cb (con_class_id ca) rnd (last_frame a2) ->
  outs b2 = outs b ++ [S2_msg_received_event_call (cb <| con_class_id := con_class_id ca |>) text] /\
  in_sync a2 b2 ca cb i j /\ seq_ok b2 j (tx_seq (span_at a2 i)) /\ s2_wf a2 /\ s2_wf b2 /\
  fsm a2 = sending_state ca /\ fsm b2 = IDLE /\ oob a2 = oob a /\ oob b2 = oob b.
Proof.
  intros Wa Wb Hfa Hp Hbuf Hmp Hmos Hsa Hseq Hqa Hfb Hsb Hm Hcb Hstb Hd Hrnd Hqb Hn1 Hn2 Hlr Hc Hk Hh Hl Htext Htl Hok.
  pose proof Htext as (Htb & _ & _).
  destruct (sn_sent E ca a i seq rnd Wa) as
    (a2 & s_nonce & Ea2 & Ho3 & Hsn & Hs3 & W3 & Hk3 & Hf3 & Hst3 & Hr3 & Hc3 & Htx3 & Hrx3); try done;
    try (by rewrite ?Hp, ?Hbuf).
  { unfold S2_is_peernode. by rewrite Hp, !Z.eqb_refl. }
  { unfold no_mos. by rewrite Hp. }
  cbv zeta. rewrite Ea2, (last_frame_snoc _ _ _ _ Ho3). rewrite Hp, Hbuf, Hk in *.
  rewrite (sealed_received a b ca cb) by done.
  assert (byte (tx_seq (span_at a i))) as Htx by apply (span_at_wf a i Wa).
  rewrite <- Hd in *. set (frame := received b cb _ _ _ text). intros Hun.
  destruct (sn_delivered E cb b j (tx_seq (span_at a i)) s_nonce text (con_class_id ca) Wb Hm Hsb)
    as (b2 & Eb2 & Ho4 & Hs4 & W4 & Hk4 & Hf4 & Hst4 & Hr4 & Hc4 & Hrx4); try done; fold frame.
  { by rewrite Hn2. }
  fold frame in Eb2. rewrite Eb2. destruct Hk3 as (Eg3 & Eh3 & _ & _ & _ & Eoob3).
  destruct Hk4 as (Eg4 & Eh4 & El4 & _ & _ & Eoob4).
  split; [done|]. split.
  { constructor; try done.
    - by rewrite Hr3, Hr4.
    - unfold sg_at. rewrite Eg3, Eg4. exact (f_equal enc_key Hk).
    - by rewrite Eh3, Eh4.
    - by rewrite El4. }
  split; [rewrite Htx3; by apply next_seq_ok|]. done.
Qed.

(** C5. A first message between two nodes that share the key of a class: the request,
    the report and the sealed message pass between the two contexts, the text
    reaches the application of the receiver and both ends hold the same generator
    under the class of the key.  The text may have 1272 bytes, because the nonce in
    the header takes part of the work buffer. *)
Theorem s2_nonce_exchange E a b ca cb text t : s2_wf a -> s2_wf b -> ready_to_send a ca -> fsm b = IDLE ->
  can_negotiate a b ca cb -> app_text text -> Zlength text <= 1272 -> fst (S2_span_ok ca a) = false ->
  (forall frame, S2_send_frame E ca frame = true) ->
  let i := fst (find_span_by_node ca a) in
  let j := fst (find_span_by_node cb b) in
  let a1 := snd (S2_send_data E ca text a) in
  let b1 := S2_application_command_handler E cb (last_frame a1) b in
  let a2 := S2_application_command_handler E ca (last_frame b1)
              (S2_send_frame_done_notify E S2_TRANSMIT_COMPLETE_OK t a1) in
  let b2 := S2_application_command_handler E cb (last_frame a2) b1 in
  unambiguous b1 cb (con_class_id ca) (sub_buf (last_frame b1) 4 16) (last_frame a2) ->
  outs b2 = outs b1 ++ [S2_msg_received_event_call (cb <| con_class_id := con_class_id ca |>) text] /\
  in_sync a2 b2 ca cb i j /\ seq_ok b2 j (tx_seq (span_at a2 i)) /\ s2_wf a2 /\ s2_wf b2 /\
  fsm a2 = sending_state ca /\ fsm b2 = IDLE /\ oob a2 = oob a /\ oob b2 = oob b.
Proof.
  intros Wa Wb Hready Hbi [[Hn1 Hn2] Hm Hc Hk Hh Hl Hspans] Htext Htl Hno Hok i j a1.
  pose proof Htext as (Htb & _ & _). pose proof Hready as [Hidle Hmpan Hmos [Hlr Hlr2]].
  pose proof (nonce_get_sent E ca text a Wa Hready Htext Hno Hok) as H1.
  pose proof (find_span_spec ca a Wa) as Hfa. unfold i in *. destruct (find_span_by_node ca a) as [i0 a0] eqn:Efa. cbn [fst] in *.
  destruct Hfa as (Hsa0 & Wa0 & _). destruct H1 as (a1' & E1 & Ho1 & Hs1 & W1 & Hk1 & Hf1 & Hp1 & Hb1 & Hat1).
  unfold a1. rewrite E1. cbn [snd]. clear a1 E1. rewrite (last_frame_snoc _ _ _ _ Ho1).
  assert (byte (tx_seq (span_at a0 i0))) as Hseq by apply (span_at_wf a0 i0 Wa0).
  pose proof (nonce_report_sent E cb (tx_seq (span_at a0 i0)) b Wb Hm Hseq) as H2.
  pose proof (find_span_spec cb b Wb) as Hfb. unfold j in *. destruct (find_span_by_node cb b) as [j0 b0] eqn:Efb. cbn [fst] in *.
  destruct Hfb as (_ & Wb0 & _). destruct Hspans as (Hqb & Hqa & Hcj).
  destruct (H2 Hqb) as (b1 & rnd & -> & Ho2 & Hrnd & Hs2 & W2 & Hk2 & Hf2 & Hst2 & Hd2 & Hc2 & Htx2 & Hrx2). clear H2.
  rewrite (last_frame_snoc' _ _ _ _ Ho2). rewrite (get_done E t a1' Hf1).
  set (a1 := a1' <| timer := Some t |>).
  destruct Hk1 as (Eg1 & Eh1 & El1 & Emo1 & Em1 & Eoob1). destruct Hk2 as (Eg2 & Eh2 & El2 & _ & _ & Eoob2).
  assert (span_at a1 i0 = span_at a1' i0) as Eat by done.
  change (sub_buf ([COMMAND_CLASS_SECURITY_2; SECURITY_2_NONCE_REPORT; tx_seq (span_at b0 j0); SOS_BIT] ++ rnd) 4 16)
    with (take 16 rnd).
  rewrite take_ge by (by rewrite (proj1 Hrnd)). rewrite <- Eoob1, <- Eoob2.
  apply (report_to_delivery E a1 b1 ca cb i0 j0 text (tx_seq (span_at b0 j0)) rnd); try done.
  - destruct W1; by constructor.
  - change (mpan a1' = None). by rewrite Em1.
  - change (existsb (fun m => mos_node_id m =? r_node ca) (mos_list a1') = false). rewrite Emo1. exact Hmos.
  - apply (span_at_wf b0 j0 Wb0).
  - apply (seq_ok_upd a0); [| |exact Hqa]; rewrite Eat; by rewrite Hat1.
  - by rewrite Hf2.
  - by rewrite Hc2.
  - rewrite Eat, Hat1. by apply next_seq_ok.
  - unfold sg_at. change (sg a1) with (sg a1'). rewrite Eg1, Eg2. exact Hk.
  - change (my_home_id a1) with (my_home_id a1'). by rewrite Eh1, Eh2.
  - by rewrite El2.
Qed.

(** ** A stream of messages *)

(** The end of a transmission: the layer below reports the frame sent, and where
    the sender verifies the delivery its timer runs out. *)
Definition transmission_done (E : s2_env) (t : Z) (st : S2) : S2 :=
  let st := S2_send_frame_done_notify E S2_TRANSMIT_COMPLETE_OK t st in
  if decide (fsm st = VERIFYING_DELIVERY) then S2_timeout_notify E st else st.

(** The messages [texts] from [a] to [b], one after the other. *)
Fixpoint s2_stream (E : s2_env) (ca cb : s2_connection_t) (t : Z) (texts : list (list Z)) (a b : S2) : S2 * S2 :=
  match texts with
  | [] => (a, b)
  | text :: texts =>
      let a := snd (S2_send_data E ca text a) in
      let b := S2_application_command_handler E cb (last_frame a) b in
      s2_stream E ca cb t texts (transmission_done E t a) b
  end.

Lemma transmission_done_eq E con t st : fsm st = sending_state con -> exists t',
  transmission_done E t st =
  s2_emit (S2_send_done_event_call S2_TRANSMIT_COMPLETE_OK)
    (s2_emit (s2_inclusion_send_done_call true) (st <| timer := t' |> <| fsm := IDLE |>)).
Proof.
  unfold sending_state, transmission_done. intros Hf. destruct (has _ _).
  - assert (S2_send_frame_done_notify E S2_TRANSMIT_COMPLETE_OK t st = st <| timer := Some t |>) as ->.
    { unfold S2_send_frame_done_notify, S2_fsm_post_event. rewrite Hf. cbn [fsm_verifying_delivery].
      unfold fsm_send_done. by rewrite Hf. }
    exists (Some t). rewrite decide_True by exact Hf. unfold S2_timeout_notify, S2_fsm_post_event.
    change (fsm (st <| timer := Some t |>)) with (fsm st). by rewrite Hf.
  - assert (S2_send_frame_done_notify E S2_TRANSMIT_COMPLETE_OK t st =
      S2_post_send_done_event S2_TRANSMIT_COMPLETE_OK (st <| fsm := IDLE |>)) as ->.
    { unfold S2_send_frame_done_notify, S2_fsm_post_event. rewrite Hf. cbn [fsm_sending_msg].
      unfold fsm_send_done. by rewrite Hf. }
    exists (timer st). rewrite decide_False by done. by destruct st.
Qed.

(** The call that hands a text to the application of the receiver. *)
Definition delivered_call (ca cb : s2_connection_t) (text : list Z) : s2_out :=
  S2_msg_received_event_call (cb <| con_class_id := con_class_id ca |>) text.

(** C2. In sync, every message of a stream is delivered to the application of the
    receiver, in order and unchanged, however often the sequence number and the
    counters wrap; the contexts stay in sync, the sender returns to idle and no
    access leaves a buffer. *)
Theorem s2_stream_delivered E ca cb t texts : (forall frame, S2_send_frame E ca frame = true) ->
  Forall app_text texts -> forall a b i j, s2_wf a -> s2_wf b -> in_sync a b ca cb i j ->
  ready_to_send a ca -> fsm b = IDLE -> seq_ok b j (tx_seq (span_at a i)) ->
  let '(a', b') := s2_stream E ca cb t texts a b in
  outs b' = outs b ++ map (delivered_call ca cb) texts /\
  in_sync a' b' ca cb i j /\ ready_to_send a' ca /\ fsm b' = IDLE /\ seq_ok b' j (tx_seq (span_at a' i)) /\
  s2_wf a' /\ s2_wf b' /\ oob a' = oob a /\ oob b' = oob b.
Proof.
  intros Hok Ht. induction Ht as [|text texts Htext _ IH]; intros a b i j Wa Wb Hsync Hready Hbi Hq; cbn [s2_stream map].
  { by rewrite app_nil_r. }
  destruct (deliver E E a b ca cb i j text Wa Wb Hsync Hready Hbi Htext Hq Hok)
    as (a1 & b1 & frame & Ea & Hoa & Eb & Hob & Hs1 & Wa1 & Wb1 & Hka & Hkb & Hfa & Hfb & Hq1).
  rewrite Ea. cbn [snd]. rewrite (last_frame_snoc _ _ _ _ Hoa), Eb.
  destruct (transmission_done_eq E ca t a1 Hfa) as (t' & Ed). rewrite Ed. set (a2 := s2_emit _ _).
  destruct Hka as (_ & _ & _ & Emo & Em & Eoob). destruct Hkb as (_ & _ & _ & _ & _ & Eoobb).
  specialize (IH a2 b1 i j). destruct (s2_stream E ca cb t texts a2 b1) as [a' b'].
  destruct IH as (Ho & Hs & Hr & Hi & Hq' & Wa' & Wb' & Eoa & Eob); try done.
  - destruct Wa1; by constructor.
  - destruct Hs1; by constructor.
  - destruct Hready as [_ Hmp Hmo Hlr]. constructor; [done| |  |done].
    + change (mpan a1 = None). by rewrite Em.
    + change (existsb (fun m => mos_node_id m =? r_node ca) (mos_list a1) = false). rewrite Emo. exact Hmo.
  - rewrite Ho, Hob, <- app_assoc, Eoa, Eob, Eoobb. change (oob a2) with (oob a1). by rewrite Eoob.
Qed.
End Exchange.


(** ** Two nodes with one network key *)

#[export] Instance drbg_eq : EqDecision CTR_DRBG_CTX.
Proof. solve_decision. Defined.
#[export] Instance sec_group_eq : EqDecision sec_group.
Proof. solve_decision. Defined.
#[export] Instance seq_ok_dec st i seq : Decision (seq_ok st i seq).
Proof. unfold seq_ok. apply _. Defined.
#[export] Instance drbg_ok_dec ctx : Decision (drbg_ok ctx).
Proof. unfold drbg_ok. apply _. Defined.
#[export] Instance app_text_dec text : Decision (app_text text).
Proof. unfold app_text. apply _. Defined.
#[export] Instance has_span_dec con st i : Decision (has_span con st i).
Proof. unfold has_span. apply _. Defined.
#[export] Typeclasses Opaque block drbg_ok mpan_wf app_text seq_ok has_span.

Definition wit_env : s2_env := mkS2Env (fun _ _ => true) (fun _ _ => true) (fun _ _ => []) (zeros 16) (zeros 16).
Definition wit_node (v k : Z) : S2 :=
  snd (S2_network_key_update 0 (seqZ 1 16) false (S2_init_ctx 0xC0FFEE01 (mkDRBG (seqZ k 16) (seqZ v 16)))).
Definition wit_ca : s2_connection_t := mkConn 1 2 0 0 0 0 0 0.
Definition wit_cb : s2_connection_t := mkConn 2 1 0 0 0 0 0 7.
Definition wit_a : S2 := wit_node 5 3.
Definition wit_b : S2 := wit_node 55 33.
Definition wit_text : list Z := [0x20; 1; 0xFF].
#[local] Abbreviation wit_a1 := (snd (S2_send_data wit_env wit_ca wit_text wit_a)).
#[local] Abbreviation wit_b1 := (S2_application_command_handler wit_env wit_cb (last_frame wit_a1) wit_b).
#[local] Abbreviation wit_a2 := (S2_application_command_handler wit_env wit_ca (last_frame wit_b1)
  (S2_send_frame_done_notify wit_env S2_TRANSMIT_COMPLETE_OK 5 wit_a1)).
#[local] Abbreviation wit_b2 := (S2_application_command_handler wit_env wit_cb (last_frame wit_a2) wit_b1).
Definition sync_a_node : S2 := transmission_done wit_env 5 wit_a2.
Definition sync_b_node : S2 := wit_b2.

Lemma wit_keys k : 0 <= k < 7 -> k <> con_class_id wit_ca -> Z.testbit (loaded_keys wit_b1) k = false.
Proof.
  change (con_class_id wit_ca) with 0. intros Hr Hne. assert (forallb (fun k => (k =? 0) || negb (Z.testbit (loaded_keys wit_b1) k)) (seqZ 0 7) = true) as Hall
    by (vm_compute; reflexivity).
  rewrite forallb_forall in Hall. specialize (Hall k). rewrite <- list_elem_of_In, elem_of_seqZ in Hall.
  destruct (k =? 0) eqn:E; [lia|]. destruct (Z.testbit (loaded_keys wit_b1) k); [|done].
  by specialize (Hall ltac:(lia)).
Qed.

Lemma s2_nonce_exchange_witness :
  outs wit_b2 = outs wit_b1 ++ [S2_msg_received_event_call (wit_cb <| con_class_id := con_class_id wit_ca |>) wit_text] /\
  in_sync wit_a2 wit_b2 wit_ca wit_cb 0 0.
Proof.
  destruct (s2_nonce_exchange wit_env wit_a wit_b wit_ca wit_cb wit_text 5) as (Ho & Hs & _).
  - constructor; decide_it.
  - constructor; decide_it.
  - constructor; decide_it.
  - decide_it.
  - constructor; cbv zeta; decide_it.
  - decide_it.
  - decide_it.
  - decide_it.
  - done.
  - apply sole_key_unambiguous. exact wit_keys.
  - split; [exact Ho|].
    assert (fst (find_span_by_node wit_ca wit_a) = 0%nat) as Hi by (vm_compute; reflexivity).
    assert (fst (find_span_by_node wit_cb wit_b) = 0%nat) as Hj by (vm_compute; reflexivity).
    rewrite Hi, Hj in Hs. exact Hs.
Defined.

Lemma s2_stream_delivered_witness :
  let '(a, b) := s2_stream wit_env wit_ca wit_cb 5 [[0x20; 2]; [0x25; 1; 0]] sync_a_node sync_b_node in
  outs b = outs sync_b_node ++ map (delivered_call wit_ca wit_cb) [[0x20; 2]; [0x25; 1; 0]] /\ in_sync a b wit_ca wit_cb 0 0.
Proof.
  pose proof (s2_stream_delivered wit_env wit_ca wit_cb 5 [[0x20; 2]; [0x25; 1; 0]]) as Hs.
  specialize (Hs ltac:(done) ltac:(decide_it) sync_a_node sync_b_node 0%nat 0%nat).
  assert (s2_wf sync_a_node) as H1 by (constructor; decide_it).
  assert (s2_wf sync_b_node) as H2 by (constructor; decide_it).
  assert (in_sync sync_a_node sync_b_node wit_ca wit_cb 0 0) as H3 by (constructor; decide_it).
  assert (ready_to_send sync_a_node wit_ca) as H4 by (constructor; decide_it).
  assert (fsm sync_b_node = IDLE) as H5 by decide_it.
  assert (seq_ok sync_b_node 0 (tx_seq (span_at sync_a_node 0))) as H6 by decide_it.
  specialize (Hs H1 H2 H3 H4 H5 H6).
  destruct (s2_stream wit_env wit_ca wit_cb 5 _ sync_a_node sync_b_node) as [a b].
  destruct Hs as (Ho & Hs & _). exact (conj Ho Hs).
Defined.
