(* ===== verification/S2Safety.v ===== *)
(** * What the S2 transport accepts (src/libs2/protocol/S2.c)

    Theorems on S2_decrypt_msg for any singlecast frame a peer or an attacker may
    send: a frame is accepted only if it is sealed under a loaded key of the class
    that is reported for it, over the header it carries and the addresses of the
    connection, and an accepted frame is not accepted a second time.  Then the
    limits of the buffers and counters of the transport. *)

From S2P Require Import Prelude Aes Ccm Cmac Drbg S2Transport S2Sync S2Exchange.
#[local] Open Scope Z_scope.

Section Safety.
Context `{BlockCipher}.

(** ** What parsing leaves alone *)

(** The nonce state [i] of the connection with the number of the frame, and the
    keys, the home id and the state machine of [st0]. *)
Record rx_inv (con : s2_connection_t) (i : nat) (seq : Z) (st0 st : S2) : Prop := {
  rx_wf : s2_wf st;
  rx_span : has_span con st i;
  rx_num : rx_seq (span_at st i) = seq;
  rx_sg : sg st = sg st0;
  rx_loaded : loaded_keys st = loaded_keys st0;
  rx_home : my_home_id st = my_home_id st0;
  rx_fsm : fsm st = fsm st0
}.

Lemma rx_inv_upd con i seq st0 st f : rx_inv con i seq st0 st -> keeps f ->
  (forall s, rx_seq (f s) = rx_seq s) -> (span_wf (span_at st i) -> span_wf (f (span_at st i))) ->
  rx_inv con i seq st0 (upd_span i f st).
Proof.
  intros [W Hs Hn ? ? ? ?] Hf Hr Hw. constructor; try done.
  - by apply upd_span_wf.
  - by apply has_span_upd.
  - by rewrite (has_span_at_upd con), Hr.
Qed.

(** A change outside the nonce states of singlecast and the keys. *)
Definition same_spans (st st' : S2) : Prop :=
  span_table st' = span_table st /\ sg st' = sg st /\ loaded_keys st' = loaded_keys st /\
  my_home_id st' = my_home_id st /\ fsm st' = fsm st.

Lemma rx_inv_same con i seq st0 st st' : rx_inv con i seq st0 st -> s2_wf st' -> same_spans st st' ->
  rx_inv con i seq st0 st'.
Proof.
  intros [W Hs Hn E1 E2 E3 E4] W' (Et & Eg & El & Eh & Ef). constructor; try done; try congruence.
  unfold span_at in *. by rewrite Et.
Qed.

Lemma find_mpan_same owner group new st : s2_wf st ->
  let '(r, st') := find_mpan_by_group_id owner group new st in s2_wf st' /\ same_spans st st'.
Proof.
  intros W. unfold find_mpan_by_group_id. destruct (first_index _ (mpan_table st)); [done|].
  destruct new; [|done]. cbn [negb].
  pose proof (s2_random_spec st (wf_drbg st W)) as H1. destruct (s2_random st) as [rnd st1].
  destruct H1 as (_ & E1 & Hd1).
  pose proof (s2_random_spec st1 Hd1) as H2. destruct (s2_random st1) as [inner st2].
  destruct H2 as (Hb & E2 & Hd2). set (j := match _ with Some i => i | None => _ end).
  assert (st2 = st <| s2_ctr_drbg := s2_ctr_drbg st2 |>) as E by (rewrite E2 at 1; rewrite E1; done).
  split; [|rewrite E; done].
  destruct W as [? ? [Hml Hmw] ? ? ?]. rewrite E in Hd2 |- *. constructor; try done. cbn [mpan_table upd_mpan modify].
  unfold upd_mpan. cbn [mpan_table]. split; [by rewrite length_alter|].
  apply Forall_alter; [done|]. intros m _ _. exact Hb.
Qed.

Lemma find_mpan_spans owner group new st : span_table (snd (find_mpan_by_group_id owner group new st)) = span_table st.
Proof.
  unfold find_mpan_by_group_id. destruct (first_index _ (mpan_table st)); [done|]. destruct new; [|done]. cbn [negb].
  unfold s2_random. destruct (AES_CTR_DRBG_Generate (s2_ctr_drbg st)) as [rnd ctx].
  cbn [s2_ctr_drbg modify]. by destruct (AES_CTR_DRBG_Generate ctx).
Qed.

Lemma set_node_mos_same node st : s2_wf st -> s2_wf (S2_set_node_mos node st) /\ same_spans st (S2_set_node_mos node st).
Proof.
  intros W. unfold S2_set_node_mos. destruct (mpan st); [|done]. destruct (_ && _); [|done].
  destruct (first_index _ (mos_list st)); [|done]. split; [|done].
  destruct W as [? ? ? Hm ? ?]. constructor; try done. unfold modify. cbn [mos_list]. by rewrite length_insert.
Qed.

(** What holds while the clear part of [msg] is parsed. *)
Record ext_inv (con : s2_connection_t) (i : nat) (msg : list Z) (st0 : S2) (x : ext_state) : Prop := {
  ext_rx : rx_inv con i (rd msg 2) st0 (x_st x);
  ext_len : 4 <= x_hdr_len x <= Zlength msg - AUTH_TAG_LEN;
  ext_s : block (x_s_nonce x);
  ext_r : block (x_r_nonce x)
}.

Lemma sub_buf_block msg p : bytes msg -> 0 <= p -> p + 16 <= Zlength msg -> block (sub_buf msg p 16).
Proof. intros Hb Hp Hl. split; [rewrite length_sub_buf by (unfold Zlength in *; lia); done|by apply sub_buf_bytes]. Qed.

(** The extension with the sender's nonce. *)
Lemma sn_extension_inv con i msg st0 x p n : bytes msg -> ext_inv con i msg st0 x -> 4 <= p -> p + 18 <= Zlength msg ->
  4 <= n <= Zlength msg - AUTH_TAG_LEN ->
  let s_nonce := sub_buf msg (p + 2) 16 in
  let r_nonce := d_r_nonce (span_d (span_at (x_st x) i)) in
  ext_inv con i msg st0 (x <| x_hdr_len := n |> <| x_s_nonce := s_nonce |> <| x_r_nonce := r_nonce |>
    <| x_st := upd_span i (fun s => s <| span_state := SPAN_INSTANTIATE |>
         <| span_d := set_d_rng 0 (next_nonce_instantiate s_nonce r_nonce
                        (nonce_key (sg_at (x_st x) (span_class_id (span_at (x_st x) i))))) |>) (x_st x) |>).
Proof.
  intros Hb [Hi Hl Hs Hr] Hp Hlen Hn s_nonce r_nonce.
  pose proof (rx_wf _ _ _ _ _ Hi) as W. destruct (span_at_wf (x_st x) i W) as (Hdl & Hdb & _).
  assert (block s_nonce) as Hsn by (apply sub_buf_block; [done|lia|lia]).
  assert (block r_nonce) as Hrn by (apply sub_buf_block; [done|lia|unfold Zlength; lia]).
  destruct (sg_at_wf (x_st x) (span_class_id (span_at (x_st x) i)) W) as (_ & _ & Hkl & Hkb).
  constructor; try done. cbn [x_st modify]. apply rx_inv_upd; [done|by intros s|done|].
  intros (_ & _ & Hrx & Htx).
  destruct (set_d_rng_wf 0 _ ltac:(done) (instantiate_ok s_nonce r_nonce _ Hsn Hrn Hkl Hkb)). done.
Qed.

Lemma clear_extension_inv con i msg st0 x x' : bytes msg -> ext_inv con i msg st0 x ->
  clear_extension con msg (Some i) (x_hdr_len x) x = inl x' ->
  ext_inv con i msg st0 x' /\ x_hdr_len x' = x_hdr_len x + rd msg (x_hdr_len x).
Proof.
  intros Hb Hx. pose proof Hx as [Hi Hl Hs Hr]. unfold clear_extension. set (p := x_hdr_len x) in *.
  assert (byte (rd msg p)) as Hp by by apply rd_byte. change (x_hdr_len (x <| x_hdr_len := ?n |>)) with n. fold p.
  destruct (_ || _) eqn:Eg; [done|]. apply orb_false_iff in Eg as [Eg1%Z.ltb_ge Eg2%Z.eqb_neq].
  unfold byte, AUTH_TAG_LEN in *. pose proof (rx_wf _ _ _ _ _ Hi) as W.
  assert (forall st, s2_wf st /\ same_spans (x_st x) st -> forall m,
    ext_inv con i msg st0 (x <| x_hdr_len := p + rd msg p |> <| x_mpan := m |> <| x_st := st |>)) as Hkeep.
  { intros st [W' Hsame] m. constructor; try done; [by apply (rx_inv_same _ _ _ _ (x_st x))|].
    unfold AUTH_TAG_LEN. cbn [x_hdr_len modify]. lia. }
  assert (ext_inv con i msg st0 (x <| x_hdr_len := p + rd msg p |>)) as Hskip
    by exact (Hkeep (x_st x) (conj W (ltac:(done) : same_spans (x_st x) (x_st x))) (x_mpan x)).
  destruct (_ =? S2_MSG_EXTHDR_TYPE_SN).
  { destruct (decide _) as [[_ Hel]|_]; intros [= <-]; [|done]. split; [|done].
    refine (sn_extension_inv con i msg st0 x p (p + rd msg p) Hb Hx _ _ _); unfold AUTH_TAG_LEN; lia. }
  destruct (_ =? S2_MSG_EXTHDR_TYPE_MGRP).
  { destruct (negb _); [done|]. pose proof (find_mpan_same (r_node con) (rd msg (p + 2)) (negb (is_multicast con)) (x_st x) W) as Hm.
    change (x_st (x <| x_hdr_len := p + rd msg p |>)) with (x_st x).
    destruct (find_mpan_by_group_id _ _ _ (x_st x)) as [m st]. intros [= <-]. split; [|done]. by apply Hkeep. }
  destruct (_ =? S2_MSG_EXTHDR_TYPE_MOS).
  { destruct (negb _); [done|]. intros [= <-]. split; [|done].
    exact (Hkeep _ (set_node_mos_same (r_node con) (x_st x) W) (x_mpan x)). }
  destruct (has _ S2_MSG_EXTHDR_CRITICAL_FLAG); [done|]. intros [= <-]. done.
Qed.

Lemma clear_extensions_inv fuel con i msg st0 : bytes msg -> forall x x', ext_inv con i msg st0 x ->
  clear_extensions fuel con msg (Some i) (x_hdr_len x) x = inl x' -> ext_inv con i msg st0 x'.
Proof.
  intros Hb. induction fuel as [|fuel IH]; intros x x' Hx; [done|]. cbn [clear_extensions].
  destruct (clear_extension _ _ _ _ x) as [x1|] eqn:E; [|done].
  destruct (clear_extension_inv _ _ _ _ _ _ Hb Hx E) as [H1 El].
  destruct (has _ _); [|by intros [= <-]]. rewrite <- El. by apply IH.
Qed.

(** ** The keys that are tried *)

(** What is known of an accepted ciphertext. *)
Definition authentic (st0 : S2) (aad ct text : list Z) (len c : Z) : Prop :=
  Z.testbit (loaded_keys st0) c = true /\ exists nonce p, block nonce /\ bytes p /\
    ct = nist_encrypt (enc_key (sg_at st0 c)) (take 13 nonce) aad p /\
    len = Zlength p /\ text = p ++ drop (length p) ct.

(** The nonce state behind an accepted frame. *)
Definition synced (con : s2_connection_t) (i : nat) (seq : Z) (st : S2) : Prop :=
  has_span con st i /\ span_state (span_at st i) = SPAN_NEGOTIATED /\ rx_seq (span_at st i) = seq.

Lemma synced_table con i seq st st' : span_table st' = span_table st -> synced con i seq st -> synced con i seq st'.
Proof. intros Et (Hs & Hn & Hr). unfold synced, has_span, span_at in *. by rewrite Et. Qed.

Section Loop.
Context (con : s2_connection_t) (i : nat) (seq : Z) (m : option nat) (st0 : S2) (aad s_nonce r_nonce ct : list Z).
Context (Haad : bytes aad) (Hal : 0 < Zlength aad < 256) (Hct : bytes ct) (Hcl : 8 <= Zlength ct < 65536).
Context (Hsn : block s_nonce) (Hrn : block r_nonce).

Lemma try_class_inv st : rx_inv con i seq st0 st ->
  let '(len, text, st') := try_class i aad ct st in
  rx_inv con i seq st0 st' /\ workbuf st' = workbuf st /\ Zlength text = Zlength ct /\
  span_state (span_at st' i) = span_state (span_at st i) /\
  span_class_id (span_at st' i) = span_class_id (span_at st i) /\
  (len <> 0 -> authentic st0 aad ct text len (span_class_id (span_at st i))).
Proof.
  intros Hi. pose proof Hi as [W Hs _ Eg El _ _]. unfold try_class. set (c := span_class_id (span_at st i)).
  destruct (Z.testbit (loaded_keys st) c) eqn:Hl; [|done].
  pose proof (generate_spec _ (span_rng_ok st i W)) as Hg. unfold next_nonce_generate.
  destruct (AES_CTR_DRBG_Generate (d_rng (span_d (span_at st i)))) as [nonce rng]. destruct Hg as (_ & Hnb & Hrng).
  set (f := fun s : SPAN => s <| span_d := _ |>). change (sg_at (upd_span i f st) c) with (sg_at st c).
  destruct (ccm_decrypt_exact (enc_key (sg_at st c)) nonce aad ct (Zlength ct - 8)) as (text & Htl & Htb & Ed & _);
    try done; try (unfold t; lia); try apply Hnb; [by apply sg_at_wf|destruct Hnb; lia|].
  replace (Zlength ct - 8 + t) with (Zlength ct) in Ed by (unfold t; lia). rewrite Ed.
  split; [|split; [done|split; [|split; [|split]]]].
  - apply rx_inv_upd; [done|by intros s|done|]. intros (Hd1 & Hd2 & Hd3 & Hd4).
    destruct (set_d_rng_wf (rd (span_d (span_at st i)) 0) rng); [by apply rd_byte|done|done].
  - rewrite Zlength_app, Htl. unfold Zlength in *. rewrite length_drop. lia.
  - by rewrite (has_span_at_upd con).
  - by rewrite (has_span_at_upd con).
  - intros Hne. unfold authentic. rewrite <- El, Hl. split; [done|]. exists nonce, text. unfold sg_at in *. rewrite <- Eg.
    destruct (bool_decide _) eqn:Eb; [|done]. apply bool_decide_eq_true in Eb.
    rewrite take_ge in Eb by (unfold Zlength; lia). rewrite Htl. split; [done|]. split; [done|]. split; [done|]. split; [done|].
    f_equal. f_equal. unfold Zlength in *. lia.
Qed.

Lemma span_decrypted_synced st con' st' : rx_inv con i seq st0 st -> span_decrypted i m con st = (con', st') ->
  synced con i seq st' /\ con_class_id con' = span_class_id (span_at st i) /\
  span_class_id (span_at st' i) = span_class_id (span_at st i).
Proof.
  intros [W Hs Hn _ _ _ _]. unfold span_decrypted. set (g := fun s : SPAN => s <| span_state := SPAN_NEGOTIATED |>).
  assert (has_span con (upd_span i g st) i) as Hs2 by (apply has_span_upd; [done|]; by intros s).
  assert (span_at (upd_span i g st) i = g (span_at st i)) as E by exact (has_span_at_upd con st i g Hs).
  assert (synced con i seq (upd_span i g st)) as Hsy by (split; [done|]; by rewrite E).
  assert (forall st', span_table st' = span_table (upd_span i g st) ->
    synced con i seq st' /\ span_class_id (span_at st' i) = span_class_id (span_at st i)) as Hall.
  { intros st1 Et. split; [by apply (synced_table _ _ _ _ _ Et)|]. unfold span_at in *. by rewrite Et, E. }
  rewrite E. destruct m as [j|]; [|intros [= <- <-]; by destruct (Hall _ eq_refl)].
  destruct (decide _); intros [= <- <-].
  - assert (span_table (fsm_got_mos (con <| con_class_id := span_class_id (span_at st i) |> <| rx_options :=
      Z.lor (rx_options con) S2_RXOPTION_FOLLOWUP |>) (upd_span i g st <| mpan := Some j |>)) = span_table (upd_span i g st)) as Et
      by (unfold fsm_got_mos; by destruct (fsm _)).
    by destruct (Hall _ Et).
  - by destruct (Hall (upd_mpan j next_mpan_state (upd_span i g st)) eq_refl).
Qed.

Lemma class_loop_authentic n : forall st con' len text st', rx_inv con i seq st0 st ->
  (fsm st = IDLE -> span_state (span_at st i) <> SPAN_NEGOTIATED -> sub_buf (workbuf st) 0 (Zlength ct) = ct) ->
  class_loop n i m con aad s_nonce r_nonce ct st = LoopLeft len text con' st' -> len <> 0 ->
  authentic st0 aad ct text len (con_class_id con') /\ synced con i seq st' /\
  span_class_id (span_at st' i) = con_class_id con'.
Proof.
  induction n as [|n IH]; intros st con' len text st' Hi Hcopy; cbn [class_loop]; [by intros [= <- _ _ _]|].
  pose proof (try_class_inv st Hi) as Ht. destruct (try_class i aad ct st) as [[len1 text1] st1].
  destruct Ht as (Hi1 & Ew & El & Es & Ecl & Hauth).
  destruct (truth len1) eqn:Et.
  { destruct (span_decrypted i m con st1) as [con2 st2] eqn:Ed. intros [= <- <- <- <-] Hne.
    destruct (span_decrypted_synced _ _ _ Hi1 Ed) as (Hsy & Ec & Ecl2). rewrite Ecl2, Ec, Ecl.
    split; [by apply Hauth|done]. }
  destruct (_ || _) eqn:Eg; [done|]. apply orb_false_iff in Eg as [Ef Est].
  apply negb_false_iff, bool_decide_eq_true in Ef. apply bool_decide_eq_false in Est.
  rewrite El. assert (sub_buf (workbuf st1) 0 (Zlength ct) = ct) as Ec.
  { rewrite Ew. apply Hcopy; [|by rewrite <- Es]. by rewrite (rx_fsm _ _ _ _ _ Hi), <- (rx_fsm _ _ _ _ _ Hi1). }
  rewrite Ec. set (f := fun s : SPAN => _). pose proof (rx_wf _ _ _ _ _ Hi1) as W1. apply IH.
  - apply rx_inv_upd; [done|by intros s|done|]. intros (_ & _ & H3 & H4).
    destruct (sg_at_wf st1 (if Z.of_nat N_SEC_CLASS <=? span_class_id (span_at st i) + 1 then 0
      else span_class_id (span_at st i) + 1) W1) as (_ & _ & Hkl & Hkb).
    destruct (set_d_rng_wf 0 _ ltac:(done) (instantiate_ok s_nonce r_nonce _ Hsn Hrn Hkl Hkb)). done.
  - intros _ _. exact Ec.
Qed.
End Loop.

(** ** Accepted frames *)

Lemma secure_extensions_inv fuel span text len : bytes text -> forall p h con st h' con' st',
  0 <= h <= len -> secure_extensions fuel span text len p (h, con, st) = inl (h', con', st') ->
  0 <= h' <= len /\ con_class_id con' = con_class_id con /\ span_table st' = span_table st.
Proof.
  intros Hb. induction fuel as [|fuel IH]; intros p h con st h' con' st' Hh; cbn [secure_extensions]; [done|].
  assert (byte (rd text p)) as Hp by by apply rd_byte. unfold byte in Hp.
  destruct (secure_extension span text len p (h, con, st)) as [[[h1 con1] st1]|] eqn:E; [|done].
  assert (0 <= h1 <= len /\ con_class_id con1 = con_class_id con /\ span_table st1 = span_table st) as (Hh1 & Ec & Et).
  { unfold secure_extension in E. destruct (_ || _) eqn:Eg; [done|].
    apply orb_false_iff in Eg as [Eg%Z.ltb_ge _].
    destruct (_ =? S2_MSG_EXTHDR_TYPE_MPAN).
    - destruct (_ || _); [done|].
      pose proof (find_mpan_spans (r_node con) (rd text (p + 2)) true st) as Hm.
      destruct (find_mpan_by_group_id _ _ _ st) as [[j|] st2]; [|done]. cbn [snd] in Hm.
      injection E as <- <- <-. split; [lia|]. split; [done|]. exact Hm.
    - destruct (has _ _); [done|]. injection E as <- <- <-. split; [lia|done]. }
  destruct (has _ _); [|by intros [= <- <- <-]]. intros E2.
  destruct (IH _ _ _ _ _ _ _ Hh1 E2) as (H1 & H2 & H3). by rewrite H2, H3.
Qed.

Lemma decrypt_finish_ok flags span m con aad_len len text st : bytes text -> 0 <= len ->
  let d := decrypt_finish flags span m con aad_len len text st in rc d = AUTH_OK ->
  len <> 0 /\ aad_len <> 0 /\ con_class_id (d_con d) = con_class_id con /\ span_table (d_st d) = span_table st /\
  exists e, 0 <= e <= len /\ plain_text d = drop (Z.to_nat e) text /\ plain_text_len d = len - e.
Proof.
  intros Hb Hl. cbv zeta. unfold decrypt_finish.
  destruct (_ || _) eqn:Eg; [done|]. apply orb_false_iff in Eg as [Hne%Z.eqb_neq Ha%Z.eqb_neq].
  destruct (has flags ENCRYPTED_EXTENSION_BIT).
  - destruct (secure_extensions _ _ _ _ _ _) as [[[h con'] st']|] eqn:E; [|done]. intros _.
    destruct (secure_extensions_inv _ _ _ _ Hb _ _ _ _ _ _ _ (conj (Z.le_refl 0) Hl) E) as (Hh & Ec & Et).
    split; [done|]. split; [done|]. split; [done|]. split; [done|]. by exists h.
  - intros _. split; [done|]. split; [done|]. split; [done|]. split; [done|]. exists 0.
    split; [lia|]. split; [done|]. cbn. lia.
Qed.

(** The AAD of a frame is that of its header, or none when the header is too
    long. *)
Lemma make_aad_cases sender receiver msg h st : bytes msg -> 4 <= h <= Zlength msg ->
  let '(aad, st') := S2_make_aad sender receiver msg h (Zlength msg) SIZEOF_AAD st in
  st' = st <| oob := oob st' |> /\
  (aad = [] \/ aad = aad_of sender receiver (my_home_id st) (Zlength msg) (drop 2 (take (Z.to_nat h) msg)) /\
    bytes aad /\ 0 < Zlength aad < 256).
Proof.
  intros Hb Hh. unfold S2_make_aad, SIZEOF_AAD. destruct (_ <? _) eqn:E; [split; [by destruct st|by left]|].
  apply Z.ltb_ge in E. split; [done|]. right.
  assert (sub_buf msg 2 (h - 2) = drop 2 (take (Z.to_nat h) msg)) as ->.
  { unfold sub_buf. rewrite take_drop_commute. do 2 f_equal. lia. }
  fold (aad_of sender receiver (my_home_id st) (Zlength msg) (drop 2 (take (Z.to_nat h) msg))).
  split; [done|]. unfold aad_of. split.
  - destruct (_ || _); repeat apply Forall_app_2; try (forall_list; apply land_ff_byte);
      by apply Forall_drop, Forall_take.
  - destruct (_ || _); unfold Zlength in *; rewrite !length_app, length_drop, length_take; cbn [length]; lia.
Qed.

(** What the acceptance of [msg] says: the class is that of a loaded key, the bytes
    behind the header are the encryption of a text under it with the header and
    the addresses as AAD, and what is handed on is that text without its
    extensions.  The nonce state is in sync and holds the number of the frame. *)
Definition accepted (con : s2_connection_t) (i : nat) (msg : list Z) (st0 : S2) (d : decrypted) : Prop :=
  let c := con_class_id (d_con d) in
  Z.testbit (loaded_keys st0) c = true /\ synced con i (rd msg 2) (d_st d) /\
  exists h nonce text e, 4 <= h <= Zlength msg - AUTH_TAG_LEN /\ block nonce /\ bytes text /\
    drop (Z.to_nat h) msg = nist_encrypt (enc_key (sg_at st0 c)) (take 13 nonce)
      (aad_of (r_node con) (l_node con) (my_home_id st0) (Zlength msg) (drop 2 (take (Z.to_nat h) msg))) text /\
    0 <= e <= Zlength text /\ sub_buf (plain_text d) 0 (plain_text_len d) = drop (Z.to_nat e) text.

Lemma text_of_buffer (text rest : list Z) e : 0 <= e <= Zlength text ->
  sub_buf (drop (Z.to_nat e) (text ++ rest)) 0 (Zlength text - e) = drop (Z.to_nat e) text.
Proof.
  intros He. unfold sub_buf, Zlength in *. rewrite drop_app_le by lia. cbn [Z.to_nat drop].
  rewrite drop_0. apply take_app_length'. rewrite length_drop. lia.
Qed.

Lemma decrypt_body_ok msg flags i con x st0 : bytes msg -> Zlength msg <= SIZEOF_WORKBUF -> ext_inv con i msg st0 x ->
  rc (decrypt_body msg flags (Some i) con x) = AUTH_OK -> accepted con i msg st0 (decrypt_body msg flags (Some i) con x).
Proof.
  intros Hb Hlen [Hi Hh Hs Hr]. unfold decrypt_body. set (st := x_st x) in *. set (h := x_hdr_len x) in *.
  destruct (decide _) as [Hst|]; [|done]. unfold SIZEOF_WORKBUF, AUTH_TAG_LEN in *.
  pose proof (make_aad_cases (r_node con) (l_node con) msg h st Hb ltac:(lia)) as Haad.
  destruct (S2_make_aad (r_node con) (l_node con) msg h (Zlength msg) SIZEOF_AAD st) as [aad st1].
  destruct Haad as [E1 Haad]. set (ct := drop (Z.to_nat h) msg).
  assert (bytes ct) as Hct by by apply Forall_drop.
  assert (Zlength ct = Zlength msg - h) as Hcl by (unfold ct, Zlength in *; rewrite length_drop; lia).
  set (st2 := if _ && _ then _ else st1).
  pose proof (rx_wf _ _ _ _ _ Hi) as W.
  assert (s2_wf st1) as W1 by (destruct W; rewrite E1; by constructor).
  assert (rx_inv con i (rd msg 2) st0 st2) as Hi2.
  { apply (rx_inv_same _ _ _ _ st); [done| |].
    - unfold st2. destruct (_ && _); [|done]. apply wb_write_wf; [|done]. destruct W1; by constructor.
    - unfold st2. destruct (_ && _); rewrite E1; done. }
  assert (span_at st2 i = span_at st i) as Ea by (unfold st2; destruct (_ && _); rewrite E1; done).
  assert (fsm st2 = IDLE -> span_state (span_at st2 i) <> SPAN_NEGOTIATED -> sub_buf (workbuf st2) 0 (Zlength ct) = ct) as Hcopy.
  { rewrite Ea. intros Hf Hne. destruct Hst as [|Hst]; [done|].
    assert (fsm st1 = IDLE) as Hf1 by (rewrite <- Hf, E1; unfold st2; destruct (_ && _); rewrite E1; done).
    unfold st2. rewrite !bool_decide_true by done. cbn [andb]. apply sub_buf_memcpy_0.
    destruct (wf_workbuf _ W1) as [Hwl _]. unfold Zlength in *. unfold s2_access, modify. cbn [workbuf].
    rewrite Hwl. unfold SIZEOF_WORKBUF. lia. }
  destruct (class_loop N_SEC_CLASS i (x_mpan x) con aad _ _ ct st2) as [len text con' st'|] eqn:El; [|done].
  destruct Haad as [->|(Eaad & Hab & Hal)].
  { intros Hok. unfold decrypt_finish in Hok. change (Zlength []) with 0 in Hok. by rewrite orb_true_r in Hok. }
  intros Hok. destruct (decide (len = 0)) as [->|Hne]; [by unfold decrypt_finish in Hok|].
  destruct (class_loop_authentic con i (rd msg 2) (x_mpan x) st0 aad _ _ ct Hab Hal Hct ltac:(lia) Hs Hr
    N_SEC_CLASS st2 con' len text st' Hi2 Hcopy El Hne) as ((Hl & nonce & p & Hn & Hpb & Ect & -> & ->) & Hsy & _).
  assert (bytes (p ++ drop (length p) ct)) as Htb by (apply Forall_app_2; [done|by apply Forall_drop]).
  destruct (decrypt_finish_ok _ _ _ _ _ _ _ _ Htb (Zle_0_nat (length p) : 0 <= Zlength p) Hok) as (_ & _ & Ec & Et & e & He & Ep & Epl).
  unfold accepted. rewrite Ec. split; [done|]. split; [by apply (synced_table _ _ _ st')|].
  exists h, nonce, p, e. rewrite Ep, Epl. split; [done|]. split; [done|]. split; [done|].
  assert (my_home_id st0 = my_home_id st) as -> by (symmetry; apply (rx_home _ _ _ _ _ Hi)).
  rewrite <- Eaad. split; [exact Ect|]. split; [done|]. by apply text_of_buffer.
Qed.

Lemma decrypt_msg_ok E con msg st : s2_wf st -> is_multicast con = false -> bytes msg ->
  Zlength msg <= SIZEOF_WORKBUF -> block (uninit_s_nonce E) -> block (uninit_r_nonce E) ->
  let d := S2_decrypt_msg E con msg st in rc d = AUTH_OK -> exists i, accepted con i msg st d.
Proof.
  intros W Hm Hb Hlen Hs Hr. cbv zeta. unfold S2_decrypt_msg.
  destruct (_ <? _) eqn:El; [done|]. apply Z.ltb_ge in El. unfold AUTH_TAG_LEN in El. rewrite Hm.
  unfold S2_verify_seq. pose proof (find_span_spec con st W) as Hf.
  destruct (find_span_by_node con st) as [i st1]. destruct Hf as (Hsp & W1 & Ec & _).
  destruct (_ || _); [|done]. set (st2 := upd_span i (fun s => s <| rx_seq := rd msg 2 |>) st1).
  assert (has_span con st2 i) as Hs2 by (apply has_span_upd; [done|]; by intros s).
  rewrite (find_span_has _ _ _ Hs2). cbn [negb].
  assert (ext_inv con i msg st (mkExt 4 None (uninit_s_nonce E) (uninit_r_nonce E) st2)) as Hx.
  { constructor; [|cbn; unfold AUTH_TAG_LEN; lia|done|done]. cbn [x_st]. constructor; try done.
    - apply (set_rx_seq_wf st1 i (rd msg 2)); [done|by apply rd_byte].
    - unfold st2. by rewrite (has_span_at_upd con).
    - exact (f_equal sg Ec).
    - exact (f_equal loaded_keys Ec).
    - exact (f_equal my_home_id Ec).
    - exact (f_equal fsm Ec). }
  intros Hok. exists i. destruct (has (rd msg 3) EXTENSION_BIT).
  - destruct (clear_extensions _ _ _ _ _ _) as [x|] eqn:Ex; [|done].
    apply decrypt_body_ok; try done. exact (clear_extensions_inv _ _ _ _ _ Hb (mkExt 4 None _ _ st2) x Hx Ex).
  - by apply decrypt_body_ok.
Qed.

(** C3. A singlecast frame is accepted only if it was sealed under a loaded key: the
    class that is reported with the text is that of the key, the header of the
    frame, the addresses and the home id are authenticated, and the text handed on
    is the sealed one behind its extensions.  This holds for every frame that fits
    the work buffer, in every state of the nonce table and of the state machine. *)
Theorem s2_accepts_only_authentic E con msg st : s2_wf st -> is_multicast con = false -> bytes msg ->
  Zlength msg <= SIZEOF_WORKBUF -> block (uninit_s_nonce E) -> block (uninit_r_nonce E) ->
  let d := S2_decrypt_msg E con msg st in rc d = AUTH_OK -> exists i, accepted con i msg st d.
Proof. intros W Hm Hb Hl Hs Hr. by apply decrypt_msg_ok. Qed.

(** C7. A frame that was accepted is not accepted again, nor is any frame with its
    number or the one before: it is refused before anything but its number is
    looked at, and the context stays as it is. *)
Theorem s2_refuses_replay E con msg msg' st : s2_wf st -> is_multicast con = false -> bytes msg ->
  Zlength msg <= SIZEOF_WORKBUF -> block (uninit_s_nonce E) -> block (uninit_r_nonce E) ->
  let d := S2_decrypt_msg E con msg st in rc d = AUTH_OK ->
  12 <= Zlength msg' -> u8 (rd msg 2 - rd msg' 2) < S2_SEQ_DUPL_WINDOW_SIZE ->
  S2_decrypt_msg E con msg' (d_st d) = mkDec SEQUENCE_FAIL [] 0 con (d_st d).
Proof.
  intros W Hm Hb Hl Hs Hr d Hok Hl' Hw. destruct (decrypt_msg_ok E con msg st W Hm Hb Hl Hs Hr Hok) as (i & _ & (Hsp & Hn & Hrx) & _).
  fold d in Hsp, Hn, Hrx. unfold S2_decrypt_msg. rewrite (proj2 (Z.ltb_ge _ _)) by (unfold AUTH_TAG_LEN; lia).
  rewrite Hm. unfold S2_verify_seq. rewrite (find_span_has _ _ _ Hsp), Hn, Hrx.
  rewrite (proj2 (Z.leb_gt _ _)) by lia. done.
Qed.
End Safety.

Definition replayed : list Z := last_frame (snd (S2_send_data wit_env wit_ca [0x20; 2] sync_a_node)).
Definition wit_dec : decrypted := S2_decrypt_msg wit_env wit_cb replayed sync_b_node.

Lemma s2_accepts_only_authentic_witness : exists i, accepted wit_cb i replayed sync_b_node wit_dec.
Proof.
  refine (s2_accepts_only_authentic wit_env wit_cb replayed sync_b_node _ _ _ _ _ _ _);
    [constructor; decide_it|decide_it|decide_it|decide_it|decide_it|decide_it|decide_it].
Defined.

Lemma s2_refuses_replay_witness : S2_decrypt_msg wit_env wit_cb replayed (d_st wit_dec) = mkDec SEQUENCE_FAIL [] 0 wit_cb (d_st wit_dec).
Proof.
  refine (s2_refuses_replay wit_env wit_cb replayed replayed sync_b_node _ _ _ _ _ _ _ _ _);
    [constructor; decide_it|decide_it|decide_it|decide_it|decide_it|decide_it|decide_it|decide_it|decide_it].
Defined.

(** ** The counter of a group *)

Lemma bigint_add_step a n r : bytes a -> byte n ->
  fold_left (fun '(r, tmp) '(x, y) => let tmp := x + y + tmp in (r ++ [Z.land tmp 0xff], Z.shiftr tmp 8))
    (zip (a ++ [n]) (zeros (length a) ++ [1])) (r, 0) =
  (r ++ a ++ [Z.land (n + 1) 0xff], Z.shiftr (n + 1) 8).
Proof.
  intros Ha Hn. revert r. induction Ha as [|x a Hx Ha IH]; intros r; cbn [app length zeros zip zip_with fold_left].
  - cbn. by rewrite !Z.add_0_r.
  - unfold zeros in *. cbn [replicate app]. rewrite fold_left_cons. cbv zeta. rewrite !Z.add_0_r.
    assert (Z.land x 0xff = x) as -> by (rewrite (Z.land_ones _ 8) by lia; apply Z.mod_small, Hx).
    assert (Z.shiftr x 8 = 0) as -> by (rewrite Z.shiftr_div_pow2 by lia; apply Z.div_small, Hx).
    by rewrite IH, <- app_assoc.
Qed.

Lemma bigint_add_last a n : bytes a -> byte n -> bigint_add (a ++ [n]) (zeros (length a) ++ [1]) = a ++ [u8 (n + 1)].
Proof.
  intros Ha Hn. unfold bigint_add. rewrite bigint_add_step by done. cbn [fst app]. do 2 f_equal.
  by rewrite (Z.land_ones _ 8) by lia.
Qed.

(** Only the last byte of the state counts. *)
Lemma mpan_steps k : forall m a n, inner_state m = a ++ [n] -> length a = 15%nat -> bytes a -> byte n ->
  Nat.iter k next_mpan_state m = m <| inner_state := a ++ [u8 (n + Z.of_nat k)] |>.
Proof.
  induction k as [|k IH]; intros m a n E Hl Ha Hn.
  - rewrite Z.add_0_r. unfold u8. rewrite Z.mod_small by exact Hn. rewrite <- E. by destruct m.
  - change (Nat.iter (S k) next_mpan_state m) with (next_mpan_state (Nat.iter k next_mpan_state m)).
    rewrite (IH m a n) by done. unfold next_mpan_state. cbn [inner_state modify].
    rewrite <- Hl, bigint_add_last by (done || apply u8_byte).
    assert (u8 (u8 (n + Z.of_nat k) + 1) = u8 (n + Z.of_nat (S k))) as ->; [|done].
    unfold u8. rewrite Zplus_mod_idemp_l. f_equal. lia.
Qed.

(** The state of a group that should count to 2 to the 128 repeats after 256
    messages, and no earlier: next_mpan_state adds at index 15 with a routine whose
    index 0 is the least significant, so the carry of the last byte is lost and the
    nonce of the 257th message is that of the first. *)
Theorem mpan_period m k : mpan_wf m -> Nat.iter k next_mpan_state m = m <-> (256 | Z.of_nat k).
Proof.
  intros [Hl Hb]. destruct (inner_state m) as [|x l] eqn:El using rev_ind; [done|].
  rewrite length_app in Hl. cbn [length] in Hl. apply Forall_app in Hb as [Ha Hn].
  rewrite Forall_singleton in Hn. clear IHl. rewrite (mpan_steps k m l x El ltac:(lia) Ha Hn). split.
  - intros Em. apply (f_equal inner_state) in Em. cbn [inner_state modify] in Em. rewrite El in Em.
    apply app_inj_2 in Em as [_ [= Eu]]; [|done]. unfold u8, byte in *.
    exists ((x + Z.of_nat k) / 256). pose proof (Z.div_mod (x + Z.of_nat k) 256 ltac:(lia)). lia.
  - intros [q Eq]. rewrite Eq. unfold u8. rewrite Z_mod_plus_full, Z.mod_small by exact Hn. rewrite <- El. by destruct m.
Qed.

Lemma mpan_period_witness :
  Nat.iter 256 next_mpan_state (mkMPAN 0 1 (seqZ 1 16) 0 MPAN_SET) = mkMPAN 0 1 (seqZ 1 16) 0 MPAN_SET.
Proof. apply mpan_period; [decide_it|]. by exists 1. Defined.

(** ** The buffers *)

(** The check of S2_make_aad counts eight bytes in front of the extensions; with
    the address of a long range node there are ten, and a header of 57 or 58
    bytes writes past the array of 64. *)
Theorem s2_aad_bounds sender receiver msg h st : 4 <= h <= Zlength msg -> 0 <= sender -> 0 <= receiver ->
  oob (snd (S2_make_aad sender receiver msg h (Zlength msg) SIZEOF_AAD st)) =
  oob st || bool_decide (LOWEST_LONG_RANGE_NODE_ID <= Z.max sender receiver /\ 57 <= h <= 58).
Proof.
  intros Hh Hs Hr. unfold S2_make_aad, SIZEOF_AAD, LOWEST_LONG_RANGE_NODE_ID. destruct (_ <? _) eqn:E.
  { apply Z.ltb_lt in E. cbn [snd]. rewrite bool_decide_false by lia. by rewrite orb_false_r. }
  apply Z.ltb_ge in E. cbv zeta. cbn [snd]. unfold s2_access. cbn [oob modify]. f_equal. unfold in_range.
  assert (Zlength (sub_buf msg 2 (h - 2)) = h - 2) as Hl
    by (unfold Zlength; rewrite length_sub_buf by lia; lia).
  rewrite !Zlength_app, Hl.
  destruct (_ || _) eqn:El; [apply orb_true_iff in El as [El%Z.leb_le|El%Z.leb_le]|
    apply orb_false_iff in El as [El1%Z.leb_gt El2%Z.leb_gt]]; unfold Zlength; cbn [length].
  all: rewrite !(proj2 (Z.leb_le 0 _)) by lia; cbn [andb].
  all: destruct (_ <=? 64) eqn:E64; [apply Z.leb_le in E64|apply Z.leb_gt in E64]; symmetry;
    [apply bool_decide_eq_false|apply bool_decide_eq_true]; lia.
Qed.

Lemma s2_aad_bounds_witness :
  oob (snd (S2_make_aad 300 1 (zeros 70) 57 (Zlength (zeros 70)) SIZEOF_AAD sync_b_node)) = true.
Proof. rewrite s2_aad_bounds by decide_it. decide_it. Defined.

Section Buffers.
Context `{BlockCipher}.

Lemma find_span_oob con st : oob (snd (find_span_by_node con st)) = oob st.
Proof.
  unfold find_span_by_node. destruct (first_index (span_matches con) (span_table st)); [done|].
  unfold s2_random. by destruct (AES_CTR_DRBG_Generate (s2_ctr_drbg st)).
Qed.

Lemma send_raw_oob E frame st : oob (S2_send_raw E frame st) = oob st.
Proof.
  unfold S2_send_raw. set (st1 := s2_emit _ st). destruct (S2_send_frame _ _ _).
  - pose proof (find_span_oob (peer st1) st1) as Ho. destruct (find_span_by_node (peer st1) st1) as [i st2]. exact Ho.
  - unfold fsm_send_done. by destruct (fsm st1).
Qed.

Lemma make_aad_oob sender receiver msg h len size st : oob st = true ->
  oob (snd (S2_make_aad sender receiver msg h len size st)) = true.
Proof. intros Ho. unfold S2_make_aad. destruct (_ <? _); [done|]. cbn [snd]. unfold s2_access. cbn [oob modify]. by rewrite Ho. Qed.

Lemma encrypt_payload_oob E i h st : s2_wf st -> no_mos st ->
  0 <= h -> SIZEOF_WORKBUF < h + Zlength (buf st) + AUTH_TAG_LEN -> oob (encrypt_payload E i h st) = true.
Proof.
  intros W Hn Hh Hroom. unfold encrypt_payload. rewrite (add_mpan_none h st W Hn). cbn [truth Z.eqb negb].
  rewrite Z.add_0_r. set (st1 := s2_access _ _ _ st).
  assert (oob st1 = true) as Ho.
  { unfold st1, s2_access. cbn [oob modify]. apply orb_true_iff. right. unfold in_range.
    rewrite (proj2 (Z.leb_gt (0 + _) _)) by lia. by rewrite andb_false_r. }
  set (st2 := wb_write h (buf st1) st1).
  pose proof (make_aad_oob (l_node (peer st2)) (r_node (peer st2)) (workbuf st2) h
    (Zlength (buf st) + 0 + h + AUTH_TAG_LEN) SIZEOF_AAD st2 Ho) as Ho3.
  destruct (S2_make_aad _ _ _ _ _ _ st2) as [aad st3]. cbn [snd] in Ho3.
  destruct (next_nonce_generate _) as [nonce rng]. unfold wb_encrypt. destruct (CCM_encrypt_and_auth _ _ _ _ _ _) as [n region].
  rewrite send_raw_oob. exact Ho3.
Qed.

Lemma length_sender_hdr st i : s2_wf st ->
  Zlength (sender_hdr st i) = if decide (span_state (span_at st i) = SPAN_SOS_REMOTE_NONCE) then 22 else 4.
Proof.
  intros W. unfold sender_hdr. destruct (decide _); [|done].
  pose proof (generate_spec _ (wf_drbg _ W)) as Hg. destruct (AES_CTR_DRBG_Generate (s2_ctr_drbg st)) as [rnd ctx].
  destruct Hg as (_ & [Hl _] & _). unfold Zlength. cbn [fst]. rewrite !length_app, Hl. done.
Qed.

(** The work buffer has room for a text of 1280 bytes behind a plain header, which
    is what S2_send_data accepts; behind a header with the sender's nonce only for
    1272, and the longer ones are written past its end. *)
Theorem s2_workbuf_bounds E st i : s2_wf st -> has_span (peer st) st i -> mpan st = None -> no_mos st ->
  span_state (span_at st i) = SPAN_NEGOTIATED \/ span_state (span_at st i) = SPAN_SOS_REMOTE_NONCE ->
  bytes (buf st) -> Zlength (buf st) <= 1280 -> (forall frame, S2_send_frame E (peer st) frame = true) ->
  oob (S2_encrypt_and_send E st) =
  oob st || bool_decide (span_state (span_at st i) = SPAN_SOS_REMOTE_NONCE /\ 1272 < Zlength (buf st)).
Proof.
  intros W Hs Hm Hn Hst Hb Hlen Hok. pose proof (length_sender_hdr st i W) as Hl.
  destruct (decide (Zlength (sender_hdr st i) + Zlength (buf st) + AUTH_TAG_LEN <= SIZEOF_WORKBUF)) as [Hroom|Hroom].
  - pose proof (encrypt_and_send_spec E st i W Hs Hm Hn Hst Hb Hroom) as Hes.
    destruct (next_nonce_generate (sender_rng st i)) as [nonce rng]. destruct (Hes (Hok _)) as (_ & _ & _ & Ec & _).
    rewrite (f_equal oob Ec : oob (S2_encrypt_and_send E st) = oob st).
    rewrite bool_decide_false; [by rewrite orb_false_r|]. intros [E1 E2]. rewrite decide_True in Hl by done.
    unfold SIZEOF_WORKBUF, AUTH_TAG_LEN in Hroom. lia.
  - destruct (make_header_spec st i W Hs Hm Hst) as (st1 & rest & Eh & _ & _ & Hhl & W1 & _ & Ec & _).
    unfold S2_encrypt_and_send. rewrite (find_span_has _ _ _ Hs), Eh.
    assert (buf st1 = buf st) as Eb by exact (f_equal buf Ec).
    rewrite encrypt_payload_oob; [|done| |lia|rewrite Eb; lia].
    + destruct (decide _) as [Hr|Hr] in Hl; [|unfold SIZEOF_WORKBUF, AUTH_TAG_LEN in Hroom; lia].
      rewrite bool_decide_true; [by rewrite orb_true_r|]. split; [done|]. unfold SIZEOF_WORKBUF, AUTH_TAG_LEN in Hroom. lia.
    + unfold no_mos, S2_is_node_mos in *. by rewrite (f_equal peer Ec : peer st1 = peer st), (f_equal mos_list Ec : mos_list st1 = mos_list st).
Qed.
End Buffers.

(** A node that holds the nonce of its peer, with a text of the full length. *)
Definition full_sender : S2 :=
  S2_set_peer wit_ca (zeros 1280) (upd_span 0 (fun s => s <| span_state := SPAN_SOS_REMOTE_NONCE |>) sync_a_node).

Lemma s2_workbuf_bounds_witness : oob (S2_encrypt_and_send wit_env full_sender) = true.
Proof.
  rewrite (s2_workbuf_bounds wit_env full_sender 0); [decide_it|constructor; decide_it|decide_it|decide_it| |decide_it
    |decide_it|decide_it|done].
  unfold no_mos. decide_it.
Defined.
