(* ===== verification/SendDataAppl.v ===== *)
(** * The two transmit queues (src/src/transport/ZW_SendDataAppl.c, zw_frame_buffer.c)

    Every frame the gateway sends passes the application queue, where it waits
    before encapsulation, and the low level queue, where it waits for the radio.
    The security layers and the transport service use the low level queue only.

    Sessions of both queues live in one pool of eight blocks; the queues hold
    the numbers of blocks, as the source's lists link the blocks themselves, so a
    block that is reused keeps the members nobody writes.  Timers are flags that
    say whether they run, the events posted to the process are a queue of their
    own, which shares the 32 places of the kernel with the other processes, and
    calls to the layers around are outputs.  What those layers answer is
    the environment [sda_env].

    A frame buffer that cannot be created is recorded by [O_assert]: a build with
    assertions stops there, one without them goes on as modelled. *)

From S2P Require Import Prelude Crc Nodemask.
#[local] Open Scope Z_scope.

(** ** Constants *)

Definition NO_SCHEME : Z := 0xFF.
Definition AUTO_SCHEME : Z := 0xFE.
Definition USE_CRC16 : Z := 0xFD.
Definition SECURITY_SCHEME_0 : Z := 7.
Definition SECURITY_SCHEME_2_UNAUTHENTICATED : Z := 1.
Definition SECURITY_SCHEME_2_AUTHENTICATED : Z := 2.
Definition SECURITY_SCHEME_2_ACCESS : Z := 3.
Definition SECURITY_SCHEME_UDP : Z := 4.
Definition NODE_FLAG_SECURITY0 : Z := 0x01.
Definition NODE_FLAG_KNOWN_BAD : Z := 0x02.
Definition NODE_FLAG_SECURITY2_UNAUTHENTICATED : Z := 0x10.
Definition NODE_FLAG_SECURITY2_AUTHENTICATED : Z := 0x20.
Definition NODE_FLAG_SECURITY2_ACCESS : Z := 0x40.
Definition TRANSMIT_COMPLETE_OK : Z := 0.
Definition TRANSMIT_COMPLETE_FAIL : Z := 2.
Definition TRANSMIT_COMPLETE_ERROR : Z := 0xFF.
Definition TRANSMIT_OPTION_ACK : Z := 0x01.
Definition TRANSMIT_OPTION_LOW_POWER : Z := 0x02.
Definition TRANSMIT_OPTION_AUTO_ROUTE : Z := 0x04.
Definition TRANSMIT_OPTION_EXPLORE : Z := 0x20.
Definition TRANSMIT_OPTION_MULTICAST : Z := 0x40.
Definition RECEIVE_STATUS_LOW_POWER : Z := 0x02.
Definition COMMAND_CLASS_NO_OPERATION : Z := 0x00.
Definition COMMAND_CLASS_NO_OPERATION_LR : Z := 0x04.
Definition COMMAND_CLASS_TRANSPORT_SERVICE : Z := 0x55.
Definition COMMAND_CLASS_CRC_16_ENCAP : Z := 0x56.
Definition CRC_16_ENCAP : Z := 1.
Definition COMMAND_CLASS_MULTI_CHANNEL_V2 : Z := 0x60.
Definition MULTI_CHANNEL_CMD_ENCAP_V2 : Z := 0x0D.
Definition COMMAND_CLASS_FIRMWARE_UPDATE_MD_V4 : Z := 0x7A.
Definition FIRMWARE_UPDATE_ACTIVATION_SET_V4 : Z := 8.
Definition COMMAND_CLASS_SECURITY : Z := 0x98.
Definition COMMAND_CLASS_SECURITY_2 : Z := 0x9F.
Definition META_DATA_MAX_DATA_SIZE : Z := 48.
Definition UIP_BUFSIZE : Z := 1544.
Definition FRAME_BUFFER_ELEMENT_SIE : Z := 256.
Definition SESSIONS : nat := 8.
Definition QS_SENDING_FIRST : Z := 1.
Definition QS_SENDING_LONG : Z := 2.

(** ** Transmit parameters *)

Record ts_param := mkTs {
  snode : Z; dnode : Z; sendpoint : Z; dendpoint : Z; tx_flags : Z; rx_flags : Z; scheme : Z;
  node_list : list Z; is_mcast_with_folloup : bool; force_verify_delivery : bool; is_multicommand : bool;
  discard_timeout : Z
}.

#[export] Instance ts_eta : EtaRecord ts_param := fun p =>
  mkTs (snode p) (dnode p) (sendpoint p) (dendpoint p) (tx_flags p) (rx_flags p) (scheme p)
    (node_list p) (is_mcast_with_folloup p) (force_verify_delivery p) (is_multicommand p) (discard_timeout p).

(** What the layers around answer. *)
Record sda_env := mkSdaEnv {
  MyNodeID : Z;
  GetCacheEntryFlag : Z -> Z;
  SupportsCmdClass : Z -> Z -> bool;
  CommandAnalyzerIsGet : Z -> Z -> bool;
  malloc_ok : bool;
  sec0_send_data : ts_param -> list Z -> bool;
  sec2_send_data : ts_param -> list Z -> bool;
  ZW_TransportService_SendData : ts_param -> list Z -> bool;
  ZW_SendData_Bridge : ts_param -> list Z -> bool;
  ZW_SendData : ts_param -> list Z -> bool;
  get_queue_state : Z;
  time_resend_serial : Z;
  gecko_chip : bool;
  soft_reset_ok : bool
}.

Definition ts_set_std (E : sda_env) (node : Z) : ts_param :=
  mkTs (MyNodeID E) node 0 0
    (Z.lor (Z.lor TRANSMIT_OPTION_ACK TRANSMIT_OPTION_AUTO_ROUTE) TRANSMIT_OPTION_EXPLORE) 0 AUTO_SCHEME
    (zeros (Z.to_nat NODEMASK_SIZE)) false false false 0.

Definition ts_param_cmp (a1 a2 : ts_param) : bool :=
  (snode a1 =? snode a2) && (dnode a1 =? dnode a2) && (sendpoint a1 =? sendpoint a2) &&
  (dendpoint a1 =? dendpoint a2).

(** ** The choice of the encapsulation *)

Definition highest_scheme (scheme_mask : Z) : Z :=
  if has scheme_mask NODE_FLAG_SECURITY2_ACCESS then SECURITY_SCHEME_2_ACCESS
  else if has scheme_mask NODE_FLAG_SECURITY2_AUTHENTICATED then SECURITY_SCHEME_2_AUTHENTICATED
  else if has scheme_mask NODE_FLAG_SECURITY2_UNAUTHENTICATED then SECURITY_SCHEME_2_UNAUTHENTICATED
  else if has scheme_mask NODE_FLAG_SECURITY0 then SECURITY_SCHEME_0
  else NO_SCHEME.

(** Every branch of the switch that does not return ends in the scheme that was
    asked for. *)
Definition ZW_SendData_scheme_select (E : sda_env) (param : ts_param) (len : Z) : Z :=
  let dst_scheme_mask := GetCacheEntryFlag E (dnode param) in
  let src_scheme_mask := GetCacheEntryFlag E (MyNodeID E) in
  let dst_highest_scheme := highest_scheme dst_scheme_mask in
  if (u8 len <? 2) || has dst_scheme_mask NODE_FLAG_KNOWN_BAD || has src_scheme_mask NODE_FLAG_KNOWN_BAD then
    if (scheme param =? USE_CRC16) && SupportsCmdClass E (dnode param) COMMAND_CLASS_CRC_16_ENCAP &&
       (dst_highest_scheme =? NO_SCHEME) then USE_CRC16 else NO_SCHEME
  else
    let dst_scheme_mask := Z.land dst_scheme_mask src_scheme_mask in
    if scheme param =? AUTO_SCHEME then
      let scheme := highest_scheme dst_scheme_mask in
      if (scheme =? NO_SCHEME) && SupportsCmdClass E (dnode param) COMMAND_CLASS_CRC_16_ENCAP then USE_CRC16
      else scheme
    else scheme param.

Definition ts_param_make_reply (E : sda_env) (dst src : ts_param) : ts_param :=
  dst <| snode := dnode src |> <| dnode := snode src |> <| sendpoint := dendpoint src |>
      <| dendpoint := sendpoint src |> <| scheme := ZW_SendData_scheme_select E src 2 |>
      <| discard_timeout := 0 |>
      <| tx_flags := Z.lor (Z.lor (Z.lor (if has (rx_flags src) RECEIVE_STATUS_LOW_POWER then TRANSMIT_OPTION_LOW_POWER else 0)
                                 TRANSMIT_OPTION_ACK) TRANSMIT_OPTION_EXPLORE) TRANSMIT_OPTION_AUTO_ROUTE |>.

Definition scheme_prio (a : Z) : Z :=
  if a =? SECURITY_SCHEME_UDP then 0xFFFF
  else if a =? SECURITY_SCHEME_2_ACCESS then 4
  else if a =? SECURITY_SCHEME_2_AUTHENTICATED then 3
  else if a =? SECURITY_SCHEME_2_UNAUTHENTICATED then 2
  else if a =? SECURITY_SCHEME_0 then 1 else 0.

Definition scheme_compare (a b : Z) : bool := scheme_prio b <=? scheme_prio a.

(** ** Sessions *)

(** The callbacks of a session: that of the application queue, whose user is the
    block of the session, or one of a caller. *)
Inductive session_cb := CB_none | CB_appl | CB_user (f : Z).

Record frame_buffer := mkFb { fb_param : ts_param; frame_data : list Z }.

Record session := mkSession {
  fb : option frame_buffer; user : Z; callback : session_cb; discard_timer : bool; reset_span : bool
}.

#[export] Instance fb_eta : EtaRecord frame_buffer := fun b => mkFb (fb_param b) (frame_data b).
#[export] Instance session_eta : EtaRecord session := fun s =>
  mkSession (fb s) (user s) (callback s) (discard_timer s) (reset_span s).

Inductive send_event := SEND_EVENT_SEND_NEXT | SEND_EVENT_SEND_NEXT_LL.

Inductive sda_out :=
| O_callback (f user status : Z)
| O_send_endpoint (p : ts_param) (data : list Z)
| O_sec0_send_data (p : ts_param) (data : list Z)
| O_sec2_send_data (p : ts_param) (data : list Z)
| O_transport_service (p : ts_param) (data : list Z)
| O_send_data_bridge (p : ts_param) (data : list Z)
| O_send_data (p : ts_param) (data : list Z)
| O_ima_start (node : Z)
| O_ima_done (node status : Z)
| O_reset_span (node : Z)
| O_abort_transmission
| O_sec0_abort_all
| O_soft_reset (ok : bool)
| O_assert.

Record sda := mkSda {
  count : list bool; mem : list session;
  session_list : list nat; send_data_list : list nat; lock : bool; lock_ll : bool;
  current_session : option nat; current_session_ll : option nat; resend_counter : Z;
  emergency_timer : bool; backoff_timer : bool; resend_lockup_timer : bool; soft_reset_timer : bool;
  backoff_node : Z; events : list send_event; other_events : nat; post_refused : bool; outs : list sda_out
}.

#[export] Instance sda_eta : EtaRecord sda := fun s =>
  mkSda (count s) (mem s) (session_list s) (send_data_list s) (lock s) (lock_ll s) (current_session s)
    (current_session_ll s) (resend_counter s) (emergency_timer s) (backoff_timer s) (resend_lockup_timer s)
    (soft_reset_timer s) (backoff_node s) (events s) (other_events s) (post_refused s) (outs s).

Definition null_ts : ts_param := mkTs 0 0 0 0 0 0 0 [] false false false 0.
Definition null_session : session := mkSession None 0 CB_none false false.

Definition ses (st : sda) (i : nat) : session := default null_session (mem st !! i).
Definition upd_ses (i : nat) (f : session -> session) (st : sda) : sda := st <| mem := alter f i (mem st) |>.

(** The parameters and the data of the frame buffer of a session. *)
Definition ses_param (s : session) : ts_param := match fb s with Some b => fb_param b | None => null_ts end.
Definition ses_data (s : session) : list Z := match fb s with Some b => frame_data b | None => [] end.

Definition sda_emit (o : sda_out) (st : sda) : sda := st <| outs := outs st ++ [o] |>.

(** Contiki keeps the events of all processes in one array: [events] are those
    posted to this process, [other_events] the number of the others.  An event
    that is posted while the array is full is dropped; nobody looks at the error
    that process_post returns, [post_refused] records that there was one. *)
Definition PROCESS_CONF_NUMEVENTS : nat := 32.
Definition events_full (st : sda) : bool := (PROCESS_CONF_NUMEVENTS <=? length (events st) + other_events st)%nat.
Definition process_post (e : send_event) (st : sda) : sda :=
  st <| events := if events_full st then events st else events st ++ [e] |>
     <| post_refused := post_refused st || events_full st |>.

(** memb_alloc takes the first free block and leaves its contents. *)
Definition memb_alloc (st : sda) : option nat * sda :=
  match list_find (fun b => b = false) (count st) with
  | Some (i, _) => (Some i, st <| count := <[i := true]> (count st) |>)
  | None => (None, st)
  end.

Definition memb_free (i : nat) (st : sda) : sda := st <| count := <[i := false]> (count st) |>.

Definition list_remove (i : nat) (l : list nat) : list nat := filter (fun x => x <> i) l.
Definition list_add (i : nat) (l : list nat) : list nat := list_remove i l ++ [i].

(** zw_frame_buffer_create; a frame of 256 bytes or more is refused. *)
Definition zw_frame_buffer_create (E : sda_env) (p : ts_param) (cmd : list Z) (st : sda) :
    option frame_buffer * sda :=
  if malloc_ok E && (Zlength cmd <? FRAME_BUFFER_ELEMENT_SIE) then (Some (mkFb p cmd), st)
  else (None, sda_emit O_assert st).

(** ** The end of a transmission *)

(** The callback of a caller. *)
Definition user_callback (c : session_cb) (status u : Z) (st : sda) : sda :=
  match c with CB_user f => sda_emit (O_callback f u status) st | _ => st end.

(** [ts] holds the transmit ticks of a transmit report. *)
Definition ZW_SendDataAppl_CallbackEx (E : sda_env) (status : Z) (i : nat) (ts : option Z) (st : sda) : sda :=
  if negb (lock st) then st
  else
    let s := ses st i in
    let st := st <| lock := false |> in
    let st :=
      match ts with
      | Some wTransmitTicks =>
          if (status =? TRANSMIT_COMPLETE_OK) && CommandAnalyzerIsGet E (rd (ses_data s) 0) (rd (ses_data s) 1)
          then st <| backoff_node := dnode (ses_param s) |> <| backoff_timer := true |>
          else process_post SEND_EVENT_SEND_NEXT st
      | None => process_post SEND_EVENT_SEND_NEXT st
      end in
    let st :=
      if (status =? TRANSMIT_COMPLETE_OK) && reset_span s then
        upd_ses i (fun s => s <| reset_span := false |>) (sda_emit (O_reset_span (dnode (ses_param s))) st)
      else st in
    let st := memb_free i (upd_ses i (fun s => s <| fb := None |>) st) in
    user_callback (callback s) status (user s) st.

(** The callback of a session of the low level queue. *)
Definition session_callback (E : sda_env) (c : session_cb) (status u : Z) (ts : option Z) (st : sda) : sda :=
  match c with
  | CB_appl => ZW_SendDataAppl_CallbackEx E status (Z.to_nat u) ts st
  | _ => user_callback c status u st
  end.

Definition do_discard_timeout_memb (E : sda_env) (i : nat) (st : sda) : sda :=
  let s := ses st i in
  let st := memb_free i (st <| send_data_list := list_remove i (send_data_list st) |>) in
  session_callback E (callback s) TRANSMIT_COMPLETE_FAIL (user s) None
    (upd_ses i (fun s => s <| discard_timer := false |>) st).

(** The callback of the radio and of the transport service. *)
Definition send_data_callback_func (E : sda_env) (status : Z) (ts : option Z) (st : sda) : sda :=
  if negb (lock_ll st) then st
  else if status =? TRANSMIT_COMPLETE_FAIL then
    let st := st <| emergency_timer := false |> in
    let st :=
      if resend_counter st =? 0 then
        let st :=
          match send_data_list st with
          | i :: rest =>
              let s := ses st i in
              let st := session_callback E (callback s) status (user s) ts (st <| send_data_list := rest |>) in
              memb_free i (upd_ses i (fun s => s <| fb := None |>) st)
          | [] => sda_emit O_assert st
          end in
        process_post SEND_EVENT_SEND_NEXT_LL st
      else st in
    st <| lock_ll := false |>
  else
    match send_data_list st with
    | i :: rest =>
        let s := ses st i in
        let st := st <| send_data_list := rest |> in
        let st :=
          if ((get_queue_state E =? QS_SENDING_FIRST) && (status =? TRANSMIT_COMPLETE_OK)) ||
             (get_queue_state E =? QS_SENDING_LONG)
          then sda_emit (O_ima_done (dnode (ses_param s)) status) st else st in
        let st := st <| emergency_timer := false |> <| resend_lockup_timer := false |>
                     <| soft_reset_timer := false |> <| resend_counter := 0 |> in
        let st := memb_free i (upd_ses i (fun s => s <| fb := None |>) st) in
        let st := session_callback E (callback s) status (user s) ts st in
        process_post SEND_EVENT_SEND_NEXT_LL (st <| lock_ll := false |>)
    | [] => sda_emit O_assert st
    end.

(** ** The low level queue *)

Definition send_data (E : sda_env) (p : ts_param) (data : list Z) (cb : session_cb) (u : Z) (st : sda) :
    bool * sda :=
  match memb_alloc st with
  | (None, st) => (false, st)
  | (Some i, st) =>
      match zw_frame_buffer_create E p data st with
      | (None, st) => (false, upd_ses i (fun s => s <| fb := None |>) st)
      | (Some b, st) =>
          let st := upd_ses i (fun s => s <| fb := Some b |> <| user := u |> <| callback := cb |>) st in
          let st := st <| send_data_list := list_add i (send_data_list st) |> in
          let st := if truth (discard_timeout p) then upd_ses i (fun s => s <| discard_timer := true |>) st else st in
          (true, process_post SEND_EVENT_SEND_NEXT_LL st)
      end
  end.

(** ** Encapsulation *)

(** The endpoint header. *)
Definition endpoint_encap (p : ts_param) (data : list Z) : list Z :=
  if truth (dendpoint p) || truth (sendpoint p)
  then [COMMAND_CLASS_MULTI_CHANNEL_V2; MULTI_CHANNEL_CMD_ENCAP_V2; sendpoint p; dendpoint p] ++ data
  else data.

(** The checksum around a frame that fits one radio frame. *)
Definition crc16_encap (buf : list Z) : list Z :=
  if (Zlength buf <? META_DATA_MAX_DATA_SIZE) && negb (rd buf 0 =? COMMAND_CLASS_TRANSPORT_SERVICE) &&
     negb (rd buf 0 =? COMMAND_CLASS_SECURITY) && negb (rd buf 0 =? COMMAND_CLASS_SECURITY_2) &&
     negb (rd buf 0 =? COMMAND_CLASS_CRC_16_ENCAP)
  then
    let frame := [COMMAND_CLASS_CRC_16_ENCAP; CRC_16_ENCAP] ++ buf in
    let crc := zgw_crc16 CRC_INIT_VALUE frame in
    frame ++ [Z.land (Z.shiftr crc 8) 0xFF; Z.land crc 0xFF]
  else buf.

Definition is_s2_scheme (s : Z) : bool :=
  (s =? SECURITY_SCHEME_2_ACCESS) || (s =? SECURITY_SCHEME_2_AUTHENTICATED) ||
  (s =? SECURITY_SCHEME_2_UNAUTHENTICATED).

(** Without the multicast branches, which the build leaves out.  The scheme that
    is written back into the caller's parameters for S2 is not read again. *)
Definition send_endpoint (E : sda_env) (p : ts_param) (data : list Z) (cb : session_cb) (u : Z) (st : sda) :
    bool * sda :=
  let new_buf := endpoint_encap p data in
  if (UIP_BUFSIZE <? Zlength data) || (UIP_BUFSIZE <? Zlength new_buf) then (false, st)
  else
    let sch := ZW_SendData_scheme_select E p (Zlength data) in
    if sch =? USE_CRC16 then send_data E p (crc16_encap new_buf) cb u st
    else if sch =? NO_SCHEME then
      if has (tx_flags p) TRANSMIT_OPTION_MULTICAST then (false, st) else send_data E p new_buf cb u st
    else if sch =? SECURITY_SCHEME_0 then
      if has (tx_flags p) TRANSMIT_OPTION_MULTICAST then (false, st)
      else (sec0_send_data E p new_buf, sda_emit (O_sec0_send_data p new_buf) st)
    else if is_s2_scheme sch then
      let p := p <| scheme := sch |> in
      (sec2_send_data E p new_buf, sda_emit (O_sec2_send_data p new_buf) st)
    else (false, st).

(** ** The application queue *)

Definition send_first (E : sda_env) (st : sda) : sda :=
  match session_list st with
  | [] => st <| current_session := None |>
  | i :: rest =>
      let st := st <| session_list := rest |> <| current_session := Some i |> <| lock := true |> in
      let s := ses st i in
      let st := sda_emit (O_send_endpoint (ses_param s) (ses_data s)) st in
      let '(ok, st) := send_endpoint E (ses_param s) (ses_data s) CB_appl (Z.of_nat i) st in
      if ok then st else ZW_SendDataAppl_CallbackEx E TRANSMIT_COMPLETE_ERROR i None st
  end.

(** The handle is the number of the block plus one; 0 is a failure. *)
Definition ZW_SendDataAppl (E : sda_env) (p : ts_param) (data : list Z) (cb : session_cb) (u : Z) (st : sda) :
    Z * sda :=
  match memb_alloc st with
  | (None, st) => (0, st)
  | (Some i, st) =>
      let st :=
        if (rd data 0 =? COMMAND_CLASS_FIRMWARE_UPDATE_MD_V4) && (rd data 1 =? FIRMWARE_UPDATE_ACTIVATION_SET_V4)
        then upd_ses i (fun s => s <| reset_span := true |>) st else st in
      let data := if (rd data 0 =? COMMAND_CLASS_NO_OPERATION) && is_lr_node (dnode p)
                  then [COMMAND_CLASS_NO_OPERATION_LR; 0] else data in
      match zw_frame_buffer_create E p data st with
      | (None, st) => (0, memb_free i st)
      | (Some b, st) =>
          let st := upd_ses i (fun s => s <| fb := Some b |> <| user := u |> <| callback := cb |>) st in
          let st := st <| session_list := list_add i (session_list st) |> in
          (Z.of_nat i + 1, process_post SEND_EVENT_SEND_NEXT st)
      end
  end.

Definition ZW_SendDataApplAbort (E : sda_env) (handle : Z) (st : sda) : sda :=
  if (handle =? 0) || (Z.of_nat SESSIONS <? handle) then st
  else
    let i := Z.to_nat (handle - 1) in
    if bool_decide (current_session st = Some i) then sda_emit O_sec0_abort_all (sda_emit O_abort_transmission st)
    else if bool_decide (i ∈ session_list st) then
      let s := ses st i in
      let st := memb_free i (st <| session_list := list_remove i (session_list st) |>) in
      user_callback (callback s) TRANSMIT_COMPLETE_FAIL (user s) st
    else st.

Definition ZW_SendDataAppl_idle (st : sda) : bool :=
  bool_decide (current_session st = None) && bool_decide (current_session_ll st = None) &&
  bool_decide (session_list st = []) && bool_decide (send_data_list st = []).

Definition ZW_SendDataAppl_init (st : sda) : sda :=
  st <| lock := false |> <| lock_ll := false |> <| session_list := [] |> <| send_data_list := [] |>
     <| count := replicate SESSIONS false |> <| mem := replicate SESSIONS null_session |>
     <| outs := outs st ++ [O_sec0_abort_all] |>.

(** The statics at the start of the program. *)
Definition sda_start : sda :=
  mkSda (replicate SESSIONS false) (replicate SESSIONS null_session) [] [] false false None None 0
    false false false false 0 [] 0 false [].

Definition ZW_SendDataAppl_FrameRX_Notify (node : Z) (st : sda) : sda :=
  if backoff_timer st && (node =? backoff_node st)
  then process_post SEND_EVENT_SEND_NEXT (st <| backoff_timer := false |>) else st.

(** ** The process *)

(** The event SEND_EVENT_SEND_NEXT_LL. *)
Definition send_next_ll (E : sda_env) (st : sda) : sda :=
  let st := st <| current_session_ll := head (send_data_list st) |> in
  match send_data_list st with
  | i :: _ =>
      if lock_ll st then st
      else
        let s := ses st i in
        let p := ses_param s in
        let data := ses_data s in
        let st := if truth (discard_timeout p) then upd_ses i (fun s => s <| discard_timer := false |>) st else st in
        let st := st <| lock_ll := true |> in
        let '(rc, st) :=
          if META_DATA_MAX_DATA_SIZE <=? Zlength data then
            if SupportsCmdClass E (dnode p) COMMAND_CLASS_TRANSPORT_SERVICE
            then (ZW_TransportService_SendData E p data, sda_emit (O_transport_service p data) st)
            else (false, st)
          else if negb (snode p =? MyNodeID E) then
            let st := if negb (resend_lockup_timer st) && truth (time_resend_serial E)
                      then st <| resend_lockup_timer := true |> else st in
            let st := st <| soft_reset_timer := true |> in
            (ZW_SendData_Bridge E p data, sda_emit (O_send_data_bridge p data) st)
          else
            let p := p <| snode := 0xff |> in
            let st := upd_ses i (fun s => s <| fb := Some (mkFb p data) |>) st in
            (ZW_SendData E p data, sda_emit (O_send_data p data) st) in
        if rc then sda_emit (O_ima_start (dnode p)) st <| emergency_timer := true |>
        else send_data_callback_func E TRANSMIT_COMPLETE_FAIL None st
  | [] => st
  end.

Definition send_next (E : sda_env) (st : sda) : sda :=
  if negb (lock st) && negb (backoff_timer st) then send_first E st else st.

(** A timer event: an etimer that expires is no longer running. *)
Inductive sda_timer := T_emergency | T_backoff | T_resend_lockup | T_soft_reset.

Definition timer_event (E : sda_env) (t : sda_timer) (st : sda) : sda :=
  match t with
  | T_emergency => send_data_callback_func E TRANSMIT_COMPLETE_FAIL None (st <| emergency_timer := false |>)
  | T_backoff => process_post SEND_EVENT_SEND_NEXT (st <| backoff_timer := false |>)
  | T_resend_lockup =>
      process_post SEND_EVENT_SEND_NEXT_LL
        (st <| resend_lockup_timer := false |> <| resend_counter := u8 (resend_counter st + 1) |>)
  | T_soft_reset =>
      let st := st <| soft_reset_timer := false |> in
      if gecko_chip E then
        let st := st <| resend_lockup_timer := false |> <| resend_counter := 0 |> in
        let st := if soft_reset_ok E then process_post SEND_EVENT_SEND_NEXT_LL st else st in
        sda_emit (O_soft_reset (soft_reset_ok E)) st
      else st
  end.

(** The next posted event. *)
Definition process_event (E : sda_env) (st : sda) : sda :=
  match events st with
  | [] => st
  | e :: rest =>
      let st := st <| events := rest |> in
      match e with
      | SEND_EVENT_SEND_NEXT => send_next E st
      | SEND_EVENT_SEND_NEXT_LL => send_next_ll E st
      end
  end.

(** ** Runs

    What can happen to the module, as operations.  One that is not possible in a
    state leaves it as it is: a timer that does not run does not fire, and the
    security layer only ends a session it was given.  Other processes post events
    and handle theirs at any time, as far as the array of events has room. *)

Inductive sda_op :=
| Op_appl (p : ts_param) (data : list Z) (f : option Z) (u : Z)
| Op_send_data (p : ts_param) (data : list Z) (f : option Z) (u : Z)
| Op_abort (handle : Z)
| Op_event
| Op_timer (t : sda_timer)
| Op_radio (status : Z) (ts : option Z)
| Op_discard (i : nat)
| Op_security_done (status : Z) (ts : option Z)
| Op_frame_rx (node : Z)
| Op_other_events (n : nat).

Definition caller_cb (f : option Z) : session_cb := match f with Some f => CB_user f | None => CB_none end.

(** The current session is in the hands of a security layer: no frame of the low
    level queue belongs to it. *)
Definition in_security (st : sda) : bool :=
  lock st && forallb (fun i => negb (match callback (ses st i) with CB_appl => true | _ => false end)) (send_data_list st).

Definition timer_runs (t : sda_timer) (st : sda) : bool :=
  match t with
  | T_emergency => emergency_timer st
  | T_backoff => backoff_timer st
  | T_resend_lockup => resend_lockup_timer st
  | T_soft_reset => soft_reset_timer st
  end.

Definition sda_apply (E : sda_env) (op : sda_op) (st : sda) : sda :=
  match op with
  | Op_appl p data f u => snd (ZW_SendDataAppl E p data (caller_cb f) u st)
  | Op_send_data p data f u => snd (send_data E p data (caller_cb f) u st)
  | Op_abort h => ZW_SendDataApplAbort E h st
  | Op_event => process_event E st
  | Op_timer t => if timer_runs t st then timer_event E t st else st
  | Op_radio status ts => send_data_callback_func E status ts st
  | Op_discard i => if discard_timer (ses st i) then do_discard_timeout_memb E i st else st
  | Op_security_done status ts =>
      match current_session st with
      | Some i => if in_security st then ZW_SendDataAppl_CallbackEx E status i ts st else st
      | None => st
      end
  | Op_frame_rx node => ZW_SendDataAppl_FrameRX_Notify node st
  | Op_other_events n => st <| other_events := min n (PROCESS_CONF_NUMEVENTS - length (events st)) |>
  end.

(** Every step has an environment of its own. *)
Definition sda_run (ops : list (sda_env * sda_op)) (st : sda) : sda :=
  fold_left (fun st '(E, op) => sda_apply E op st) ops st.
