(* ===== verification/SendDataQueue.v ===== *)
(** * The transmit queues keep every frame (src/src/transport/ZW_SendDataAppl.c)

    Theorems on the two queues of ZW_SendDataAppl.c for every sequence of calls,
    events, timers and answers of the layers around: the pool and the queues stay
    consistent, every accepted frame is answered exactly once, frames are taken up
    in the order in which they were accepted, and a queue with frames in it never
    waits for nothing. *)

From S2P Require Import Prelude Crc Nodemask SendDataAppl.
#[local] Open Scope Z_scope.

(** ** Consistency of the pool and the queues *)

(** The session that has been taken off the application queue. *)
Definition held (st : sda) : list nat := if lock st then option_list (current_session st) else [].

Definition owned (st : sda) : list nat := session_list st ++ held st ++ send_data_list st.

(** The pool: a block belongs to one queue at most, the callback of the
    application queue is only found in the low level queue, for the session that
    is held. *)
Record pool_wf (st : sda) : Prop := {
  wf_len : length (count st) = SESSIONS /\ length (mem st) = SESSIONS;
  wf_nodup : NoDup (owned st);
  wf_used : forall i, i ∈ owned st -> count st !! i = Some true;
  wf_lock : lock st = true -> is_Some (current_session st);
  wf_appl : forall i, i ∈ session_list st ++ held st -> callback (ses st i) <> CB_appl;
  wf_inner : forall i, i ∈ send_data_list st -> callback (ses st i) = CB_appl ->
    lock st = true /\ current_session st = Some (Z.to_nat (user (ses st i))) /\
    forall j, j ∈ send_data_list st -> callback (ses st j) = CB_appl -> j = i;
  wf_timer : forall i, discard_timer (ses st i) = true -> i ∈ send_data_list st /\
    truth (discard_timeout (ses_param (ses st i))) = true
}.

(** While the radio is busy the frame it sends is the first of the low level
    queue and its time limit no longer runs. *)
Definition ll_wf (st : sda) : Prop :=
  lock_ll st = true -> exists i rest, send_data_list st = i :: rest /\ discard_timer (ses st i) = false.

Definition sda_wf (st : sda) : Prop := pool_wf st /\ ll_wf st.

(** The callers that wait for an answer. *)
Definition waits (s : session) : list (Z * Z) := match callback s with CB_user f => [(f, user s)] | _ => [] end.
Definition pending (st : sda) : list (Z * Z) := flat_map (fun i => waits (ses st i)) (owned st).

(** The answers among the outputs. *)
Definition answers (o : list sda_out) : list (Z * Z) :=
  omap (fun o => match o with O_callback f u _ => Some (f, u) | _ => None end) o.

(** The frames taken off the application queue, and those that wait in it. *)
Definition taken (o : list sda_out) : list (ts_param * list Z) :=
  omap (fun o => match o with O_send_endpoint p data => Some (p, data) | _ => None end) o.
Definition frame_of (s : session) : ts_param * list Z := (ses_param s, ses_data s).
Definition queued (st : sda) : list (ts_param * list Z) := map (fun i => frame_of (ses st i)) (session_list st).

(** ** Access to the pool *)

Lemma ses_upd_ne i j f st : j <> i -> ses (upd_ses i f st) j = ses st j.
Proof. intros Hne. unfold ses, upd_ses. cbn [mem modify]. by rewrite list_lookup_alter_ne. Qed.

Lemma ses_upd_eq i f st : (i < length (mem st))%nat -> ses (upd_ses i f st) i = f (ses st i).
Proof.
  intros Hi. unfold ses, upd_ses. cbn [mem modify]. rewrite list_lookup_alter_eq.
  by destruct (lookup_lt_is_Some_2 (mem st) i Hi) as [s ->].
Qed.

Lemma memb_alloc_spec st : length (count st) = SESSIONS ->
  match memb_alloc st with
  | (Some i, st') => (i < SESSIONS)%nat /\ count st !! i = Some false /\
      st' = st <| count := <[i := true]> (count st) |>
  | (None, st') => st' = st
  end.
Proof.
  intros Hl. unfold memb_alloc. destruct (list_find _ (count st)) as [[i b]|] eqn:E; [|done].
  apply list_find_Some in E as (Hb & -> & _). split; [rewrite <- Hl; by eapply lookup_lt_Some|done].
Qed.

Lemma flat_map_ext_in {A B} (f g : A -> list B) l : (forall x, x ∈ l -> f x = g x) -> flat_map f l = flat_map g l.
Proof.
  induction l as [|x l IH]; intros Hf; [done|]. cbn. rewrite (Hf x) by by left. f_equal. apply IH. intros y Hy. apply Hf. by right.
Qed.

Lemma answers_app o1 o2 : answers (o1 ++ o2) = answers o1 ++ answers o2.
Proof. apply omap_app. Qed.

Lemma taken_app o1 o2 : taken (o1 ++ o2) = taken o1 ++ taken o2.
Proof. apply omap_app. Qed.

(** ** Changes outside the queues *)

Definition same_queues (st st' : sda) : Prop :=
  count st' = count st /\ mem st' = mem st /\ session_list st' = session_list st /\
  send_data_list st' = send_data_list st /\ lock st' = lock st /\ current_session st' = current_session st.

Lemma same_ses st st' : mem st' = mem st -> ses st' = ses st.
Proof. intros E. unfold ses. by rewrite E. Qed.

Lemma same_pool_wf st st' : same_queues st st' -> pool_wf st -> pool_wf st'.
Proof.
  intros (Ec & Em & Es & Ed & El & Eu) [? ? ? ? ? ? ?]. pose proof (same_ses st st' Em) as Ee.
  unfold owned, held in *. constructor; unfold owned, held; rewrite ?Ec, ?Em, ?Ee, ?Es, ?Ed, ?El, ?Eu; done.
Qed.

Lemma same_pending st st' : same_queues st st' -> pending st' = pending st.
Proof.
  intros (Ec & Em & Es & Ed & El & Eu). unfold pending, owned, held. by rewrite (same_ses st st' Em), Es, Ed, El, Eu.
Qed.

(** ** A block that leaves the queues *)

Lemma list_remove_notin i l : i ∉ l -> list_remove i l = l.
Proof.
  intros Hi. unfold list_remove. induction l as [|x l IH]; [done|]. rewrite filter_cons_True by set_solver.
  f_equal. apply IH. set_solver.
Qed.

Lemma elem_of_remove i j l : j ∈ list_remove i l <-> j <> i /\ j ∈ l.
Proof. unfold list_remove. by rewrite list_elem_of_filter. Qed.

Lemma remove_perm i (l : list nat) : NoDup l -> i ∈ l -> Permutation l (i :: list_remove i l).
Proof.
  intros Hn Hi. apply NoDup_Permutation; [done| |].
  - apply NoDup_cons. split; [rewrite elem_of_remove; tauto|by apply NoDup_filter].
  - intros x. rewrite elem_of_cons, elem_of_remove. destruct (decide (x = i)) as [->|]; tauto.
Qed.

Lemma flat_map_perm {A B} (f : A -> list B) l l' : Permutation l l' -> Permutation (flat_map f l) (flat_map f l').
Proof. apply Permutation_flat_map. Qed.

(** Taking block [i] out of its queue, or ending the held session. *)
Record released (i : nat) (st st' : sda) : Prop := {
  rel_session : session_list st' = list_remove i (session_list st);
  rel_send : send_data_list st' = list_remove i (send_data_list st);
  rel_held : held st' = list_remove i (held st) /\ (lock st' = true -> is_Some (current_session st'));
  rel_inner : lock st' = lock st /\ current_session st' = current_session st \/
              (forall j, j ∈ send_data_list st -> callback (ses st j) <> CB_appl);
  rel_count : length (count st') = length (count st) /\ forall j, j <> i -> count st' !! j = count st !! j;
  rel_mem : length (mem st') = length (mem st);
  rel_ses : forall j, j <> i -> ses st' j = ses st j;
  rel_timer : discard_timer (ses st' i) = false
}.

Lemma released_owned i st st' : released i st st' -> owned st' = list_remove i (owned st).
Proof. intros [E1 E2 [E3 _] _ _ _ _ _]. unfold owned, list_remove in *. by rewrite !filter_app, E1, E2, E3. Qed.

Lemma released_wf i st st' : pool_wf st -> released i st st' -> pool_wf st'.
Proof.
  intros [[Hcl Hml] Hnd Hu Hlk Hap Hin Htm] Hr. pose proof (released_owned i st st' Hr) as Eo.
  destruct Hr as [E1 E2 [E3 H3] H4 H5 E6 H7 H8]. constructor; rewrite ?Eo.
  - split; [|by rewrite E6]. by rewrite (proj1 H5).
  - by apply NoDup_filter.
  - intros j [Hj Hjo]%elem_of_remove. rewrite (proj2 H5) by done. by apply Hu.
  - done.
  - intros j. rewrite E1, E3, elem_of_app, !elem_of_remove. intros Hj. rewrite H7 by tauto. apply Hap.
    rewrite elem_of_app. tauto.
  - intros j. rewrite E2, elem_of_remove. intros [Hji Hj] Hcb. rewrite H7 in Hcb by done.
    destruct H4 as [[-> ->]|Hno]; [|by destruct (Hno j Hj)]. destruct (Hin j Hj Hcb) as (Hl & Hc & Huni).
    rewrite H7 by done. split; [done|]. split; [done|]. intros k. rewrite elem_of_remove. intros [Hki Hk] Hck.
    rewrite H7 in Hck by done. by apply Huni.
  - intros j Hj. destruct (decide (j = i)) as [->|Hji]; [congruence|]. rewrite H7 in Hj |- * by done.
    rewrite E2, elem_of_remove. destruct (Htm j Hj). tauto.
Qed.

Lemma released_pending i st st' : pool_wf st -> released i st st' -> i ∈ owned st ->
  Permutation (pending st) (waits (ses st i) ++ pending st').
Proof.
  intros W Hr Hi. unfold pending. rewrite (flat_map_perm _ _ _ (remove_perm i _ (wf_nodup _ W) Hi)). cbn [flat_map].
  rewrite (released_owned i st st' Hr). f_equiv. apply reflexive_eq. apply flat_map_ext_in.
  intros j [Hj _]%elem_of_remove. by rewrite (rel_ses i st st' Hr).
Qed.

(** ** The end of a session *)

(** The callers served by a callback. *)
Definition served (c : session_cb) (u : Z) : list (Z * Z) := match c with CB_user f => [(f, u)] | _ => [] end.

Lemma user_callback_same c status u st : same_queues st (user_callback c status u st).
Proof. by destruct c. Qed.

Lemma user_callback_answers c status u st :
  answers (outs (user_callback c status u st)) = answers (outs st) ++ served c u.
Proof. destruct c; cbn [user_callback served]; [by rewrite app_nil_r..|]. unfold sda_emit. cbn [outs modify]. by rewrite answers_app. Qed.

(** The members CallbackEx sets before it frees the block. *)
Definition appl_finish (E : sda_env) (status : Z) (i : nat) (ts : option Z) (st : sda) : sda :=
  let s := ses st i in
  let st := st <| lock := false |> in
  let st :=
    match ts with
    | Some wTransmitTicks =>
        if (status =? TRANSMIT_COMPLETE_OK) && CommandAnalyzerIsGet E (rd (ses_data s) 0) (rd (ses_data s) 1)
        then st <| backoff_node := dnode (ses_param s) |> <| backoff_timer := true |>
        else process_post SEND_EVENT_SEND_NEXT st
    | None => process_post SEND_EVENT_SEND_NEXT st
    end in
  if (status =? TRANSMIT_COMPLETE_OK) && reset_span s then
    upd_ses i (fun s => s <| reset_span := false |>) (sda_emit (O_reset_span (dnode (ses_param s))) st)
  else st.

Lemma callback_ex_eq E status i ts st : lock st = true ->
  ZW_SendDataAppl_CallbackEx E status i ts st =
  user_callback (callback (ses st i)) status (user (ses st i))
    (memb_free i (upd_ses i (fun s => s <| fb := None |>) (appl_finish E status i ts st))).
Proof. intros Hl. unfold ZW_SendDataAppl_CallbackEx. by rewrite Hl. Qed.

Lemma appl_finish_spec E status i ts st : (i < length (mem st))%nat ->
  let st' := appl_finish E status i ts st in
  count st' = count st /\ length (mem st') = length (mem st) /\ session_list st' = session_list st /\
  send_data_list st' = send_data_list st /\ lock st' = false /\ current_session st' = current_session st /\
  lock_ll st' = lock_ll st /\ answers (outs st') = answers (outs st) /\
  (forall j, j <> i -> ses st' j = ses st j) /\
  discard_timer (ses st' i) = discard_timer (ses st i) /\ ses_param (ses st' i) = ses_param (ses st i).
Proof.
  intros Hi. cbv zeta. unfold appl_finish. set (st1 := match ts with Some _ => _ | None => _ end).
  assert (same_queues (st <| lock := false |>) st1 /\ lock_ll st1 = lock_ll st /\ outs st1 = outs st) as [(Ec & Em & Es & Ed & El & Eu) [Ell Eo]].
  { unfold st1. destruct ts; [destruct (_ && _)|]; done. }
  clearbody st1. destruct (_ && _).
  - set (f := fun s : session => s <| reset_span := false |>). set (st2 := sda_emit _ st1).
    split; [exact Ec|]. split; [unfold upd_ses; cbn [mem modify]; rewrite length_alter; exact (f_equal length Em)|].
    split; [exact Es|]. split; [exact Ed|]. split; [exact El|]. split; [exact Eu|]. split; [exact Ell|].
    split; [change (outs (upd_ses i f st2)) with (outs st1 ++ [O_reset_span (dnode (ses_param (ses st i)))]);
      by rewrite answers_app, app_nil_r, Eo|].
    assert (ses st2 = ses st) as E2 by (apply same_ses; exact Em).
    split; [intros j Hj; by rewrite ses_upd_ne, E2 by done|].
    rewrite ses_upd_eq, E2 by (change (mem st2) with (mem st1); rewrite Em; exact Hi). done.
  - rewrite Ec, Em, Es, Ed, El, Eu, Ell, Eo. repeat (split; [done|]). unfold ses. rewrite Em. done.
Qed.

(** The end of the held session: its caller is answered and its block is free. *)
Lemma callback_ex_ok E status i ts st : pool_wf st -> lock st = true -> current_session st = Some i ->
  (forall j, j ∈ send_data_list st -> callback (ses st j) <> CB_appl) ->
  let st' := ZW_SendDataAppl_CallbackEx E status i ts st in
  pool_wf st' /\ session_list st' = session_list st /\ send_data_list st' = send_data_list st /\
  lock_ll st' = lock_ll st /\ lock st' = false /\
  (forall j, j <> i -> ses st' j = ses st j) /\ discard_timer (ses st' i) = discard_timer (ses st i) /\
  Permutation (pending st' ++ answers (outs st')) (pending st ++ answers (outs st)).
Proof.
  intros W Hl Hc Hno. cbv zeta. rewrite callback_ex_eq by done. pose proof W as [[Hcl Hml] Hnd Hu _ _ _ Htm].
  assert (held st = [i]) as Hh by (unfold held; by rewrite Hl, Hc).
  assert (i ∈ owned st) as Hio by (unfold owned; rewrite Hh; set_solver).
  assert (i ∉ session_list st /\ i ∉ send_data_list st) as [Hi1 Hi2].
  { unfold owned in Hnd. rewrite Hh in Hnd. apply NoDup_app in Hnd as (_ & H2 & [H3 _]%NoDup_cons). set_solver. }
  assert (i < length (mem st))%nat as Him by (rewrite Hml, <- Hcl; eapply lookup_lt_Some; by apply Hu).
  destruct (appl_finish_spec E status i ts st Him) as (Ec & Eml & Es & Ed & El & Eu & Ell & Eo & Hne & Edt & Epa).
  set (st1 := appl_finish E status i ts st) in *. set (f := fun s : session => s <| fb := None |>).
  set (st2 := memb_free i (upd_ses i f st1)). set (c := callback (ses st i)). set (u := user (ses st i)).
  assert (discard_timer (ses st2 i) = discard_timer (ses st i)) as Edt2.
  { change (ses st2 i) with (ses (upd_ses i f st1) i). rewrite ses_upd_eq by lia. exact Edt. }
  assert (released i st st2) as Hr.
  { constructor.
    - by rewrite list_remove_notin by done.
    - by rewrite list_remove_notin by done.
    - rewrite Hh. unfold held. change (lock st2) with (lock st1). rewrite El. unfold list_remove.
      by rewrite filter_cons_False by (intros Hx; by apply Hx).
    - by right.
    - unfold st2, memb_free. cbn [count modify]. change (count (upd_ses i f st1)) with (count st1). rewrite Ec.
      split; [by rewrite length_insert|]. intros j Hj. by rewrite list_lookup_insert_ne.
    - unfold st2, memb_free, upd_ses. cbn [mem modify]. by rewrite length_alter.
    - intros j Hj. change (ses st2 j) with (ses (upd_ses i f st1) j). rewrite ses_upd_ne by done. by apply Hne.
    - rewrite Edt2. destruct (discard_timer (ses st i)) eqn:Et; [|done]. by destruct (Htm i Et). }
  pose proof (user_callback_same c status u st2) as Hsame. set (st3 := user_callback c status u st2) in *.
  pose proof Hsame as (_ & Em3 & Es3 & Ed3 & El3 & _).
  split; [apply (same_pool_wf st2); [done|by apply (released_wf i st)]|]. split; [by rewrite Es3, <- Es|].
  split; [by rewrite Ed3, <- Ed|]. split; [rewrite <- Ell; unfold st3; by destruct c|]. split; [by rewrite El3, <- El|].
  rewrite (same_ses st2 st3 Em3). split; [apply Hr|]. split; [done|].
  rewrite (same_pending st2 st3 Hsame). unfold st3. rewrite user_callback_answers.
  change (outs st2) with (outs st1). rewrite Eo, (released_pending i st st2 W Hr Hio).
  change (waits (ses st i)) with (served c u). solve_Permutation.
Qed.

(** A change of a block outside the queues. *)
Lemma touch_unowned i st st' : pool_wf st -> i ∉ owned st ->
  session_list st' = session_list st -> send_data_list st' = send_data_list st ->
  lock st' = lock st -> current_session st' = current_session st ->
  length (count st') = length (count st) -> (forall j, j <> i -> count st' !! j = count st !! j) ->
  length (mem st') = length (mem st) -> (forall j, j <> i -> ses st' j = ses st j) ->
  discard_timer (ses st' i) = discard_timer (ses st i) ->
  pool_wf st' /\ pending st' = pending st /\ queued st' = queued st.
Proof.
  intros W Hi Es Ed El Eu Hc1 Hc2 Hm Hne Hdt.
  assert (i ∉ session_list st /\ i ∉ held st /\ i ∉ send_data_list st) as (H1 & H2 & H3) by (unfold owned in Hi; set_solver).
  assert (held st' = held st) as Eh by (unfold held; by rewrite El, Eu).
  split; [|split].
  - apply (released_wf i st); [done|]. constructor; try done.
    + by rewrite list_remove_notin.
    + by rewrite list_remove_notin.
    + split; [by rewrite list_remove_notin|rewrite El, Eu; exact (wf_lock _ W)].
    + by left.
    + rewrite Hdt. destruct (discard_timer (ses st i)) eqn:Et; [|done]. by destruct (wf_timer _ W i Et).
  - unfold pending, owned. rewrite Es, Ed, Eh. apply flat_map_ext_in. intros j Hj. rewrite Hne; [done|]. by intros ->.
  - unfold queued. rewrite Es. apply map_ext_in. intros j Hj%list_elem_of_In. rewrite Hne; [done|]. by intros ->.
Qed.

Lemma ses_upd_keep {A} (p : session -> A) i f st : (forall s, p (f s) = p s) -> p (ses (upd_ses i f st) i) = p (ses st i).
Proof.
  intros Hf. unfold ses, upd_ses. cbn [mem modify]. rewrite list_lookup_alter_eq.
  destruct (mem st !! i); [apply Hf|done].
Qed.

(** A block outside the queues can be freed. *)
Lemma free_unowned i st : pool_wf st -> i ∉ owned st ->
  let st' := memb_free i (upd_ses i (fun s => s <| fb := None |>) st) in pool_wf st' /\ pending st' = pending st.
Proof.
  intros W Hi. cbv zeta. set (f := fun s : session => s <| fb := None |>).
  destruct (touch_unowned i st (memb_free i (upd_ses i f st)) W Hi) as (W' & Hp & _); try done.
  - unfold memb_free. cbn [count modify]. by rewrite length_insert.
  - intros j Hj. unfold memb_free. cbn [count modify]. by rewrite list_lookup_insert_ne.
  - unfold memb_free, upd_ses. cbn [mem modify]. by rewrite length_alter.
  - intros j Hj. exact (ses_upd_ne i j f st Hj).
  - exact (ses_upd_keep discard_timer i f st ltac:(done)).
Qed.

Lemma owned_incl st st' : session_list st' = session_list st -> send_data_list st' = send_data_list st ->
  held st' ⊆ held st -> owned st' ⊆ owned st.
Proof. intros E1 E2 H3. unfold owned. rewrite E1, E2. set_solver. Qed.

(** What a callback leaves of the queues. *)
Record kept_queues (st st' : sda) : Prop := {
  kq_session : session_list st' = session_list st;
  kq_send : send_data_list st' = send_data_list st;
  kq_owned : owned st' ⊆ owned st;
  kq_ll : lock_ll st' = lock_ll st;
  kq_ses : forall j, j ∈ session_list st ++ send_data_list st -> ses st' j = ses st j;
  kq_taken : taken (outs st') = taken (outs st)
}.

Lemma user_callback_taken c status u st : taken (outs (user_callback c status u st)) = taken (outs st).
Proof. destruct c; [done..|]. cbn [user_callback]. unfold sda_emit. cbn [outs modify]. by rewrite taken_app, app_nil_r. Qed.

Lemma callback_ex_taken E status i ts st : taken (outs (ZW_SendDataAppl_CallbackEx E status i ts st)) = taken (outs st).
Proof.
  destruct (lock st) eqn:Hl; [|unfold ZW_SendDataAppl_CallbackEx; by rewrite Hl]. rewrite callback_ex_eq by done.
  rewrite user_callback_taken. unfold appl_finish. set (st1 := match ts with Some _ => _ | None => _ end).
  assert (outs st1 = outs st) as E1 by (unfold st1; destruct ts; [destruct (_ && _)|]; done).
  clearbody st1. destruct (_ && _); [|exact (f_equal taken E1)].
  match goal with |- taken (outs (memb_free i (upd_ses i ?f (upd_ses i ?g ?s)))) = _ =>
    change (taken (outs st1 ++ [O_reset_span (dnode (ses_param (ses st i)))]) = taken (outs st)) end.
  by rewrite taken_app, app_nil_r, E1.
Qed.

Lemma session_callback_ok E c status u ts st : pool_wf st ->
  (c = CB_appl -> lock st = true /\ current_session st = Some (Z.to_nat u) /\
     forall j, j ∈ send_data_list st -> callback (ses st j) <> CB_appl) ->
  let st' := session_callback E c status u ts st in
  pool_wf st' /\ kept_queues st st' /\
  Permutation (pending st' ++ answers (outs st')) (served c u ++ pending st ++ answers (outs st)).
Proof.
  intros W Hc. cbv zeta. destruct c as [| |f].
  - split; [done|]. split; [by constructor|]. done.
  - destruct (Hc eq_refl) as (Hl & Hcur & Hno). cbn [session_callback served app].
    destruct (callback_ex_ok E status (Z.to_nat u) ts st W Hl Hcur Hno) as (W' & Es & Ed & Ell & El & Hne & _ & Hp).
    split; [done|]. split; [|done]. constructor; try done; [| |apply callback_ex_taken].
    + apply owned_incl; [done|done|]. unfold held. rewrite El. set_solver.
    + intros j Hj. apply Hne. intros ->. pose proof (wf_nodup _ W) as Hnd. unfold owned, held in Hnd.
      rewrite Hl, Hcur in Hnd. cbn in Hnd. apply NoDup_app in Hnd as (_ & H2 & [H3 _]%NoDup_cons). set_solver.
  - cbn [session_callback]. set (st' := user_callback (CB_user f) status u st).
    pose proof (user_callback_same (CB_user f) status u st) as Hs.
    split; [by apply (same_pool_wf st)|]. split; [constructor; try done; apply user_callback_taken|].
    rewrite (same_pending st st' Hs). unfold st'. rewrite user_callback_answers. solve_Permutation.
Qed.

(** ** The answer of the radio *)

(** The application queue is left alone. *)
Definition app_same (st st' : sda) : Prop := queued st' = queued st /\ taken (outs st') = taken (outs st).

Lemma app_same_ses st st' : session_list st' = session_list st ->
  (forall j, j ∈ session_list st -> frame_of (ses st' j) = frame_of (ses st j)) ->
  taken (outs st') = taken (outs st) -> app_same st st'.
Proof. intros E Hs Ht. split; [|done]. unfold queued. rewrite E. apply map_ext_in. intros j Hj. apply Hs. by apply list_elem_of_In. Qed.

Definition balanced (acc : list (Z * Z)) (st st' : sda) : Prop :=
  Permutation (pending st' ++ answers (outs st')) (acc ++ pending st ++ answers (outs st)).

Lemma pop_released i rest st : pool_wf st -> send_data_list st = i :: rest -> discard_timer (ses st i) = false ->
  released i st (st <| send_data_list := rest |>).
Proof.
  intros W E Hd. pose proof (wf_nodup _ W) as Hnd. unfold owned in Hnd. rewrite E in Hnd.
  apply NoDup_app in Hnd as (_ & H1 & (_ & H2 & [H3 _]%NoDup_cons)%NoDup_app).
  assert (i ∉ session_list st) by set_solver. assert (i ∉ held st) by set_solver. constructor; try done.
  - by rewrite list_remove_notin.
  - rewrite E. unfold list_remove. rewrite filter_cons_False by (intros Hx; by apply Hx).
    symmetry. by apply (list_remove_notin i rest).
  - split; [by rewrite list_remove_notin|exact (wf_lock _ W)].
  - by left.
Qed.

(** The callback of a popped frame finds its session. *)
Lemma popped_callback i rest st st1 : pool_wf st -> send_data_list st = i :: rest ->
  same_queues (st <| send_data_list := rest |>) st1 -> callback (ses st i) = CB_appl ->
  lock st1 = true /\ current_session st1 = Some (Z.to_nat (user (ses st i))) /\
  forall j, j ∈ send_data_list st1 -> callback (ses st1 j) <> CB_appl.
Proof.
  intros W E (_ & Em & _ & Ed & El & Eu) Hc.
  destruct (wf_inner _ W i ltac:(rewrite E; by left) Hc) as (Hl & Hcur & Huni).
  rewrite El, Eu, Ed. split; [done|]. split; [done|]. intros j Hj. rewrite (same_ses _ _ Em). intros Hcj.
  pose proof (wf_nodup _ W) as Hnd. unfold owned in Hnd. rewrite E in Hnd.
  apply NoDup_app in Hnd as (_ & _ & (_ & _ & [H3 _]%NoDup_cons)%NoDup_app).
  apply H3. rewrite <- (Huni j); [done| |done]. rewrite E. by right.
Qed.

Lemma finish_ll E status ts i rest st st1 : pool_wf st -> send_data_list st = i :: rest ->
  discard_timer (ses st i) = false -> same_queues (st <| send_data_list := rest |>) st1 ->
  let fin st := memb_free i (upd_ses i (fun s => s <| fb := None |>) st) in
  let cb st2 := session_callback E (callback (ses st i)) status (user (ses st i)) ts st2 in
  (pool_wf (fin (cb st1)) /\ send_data_list (fin (cb st1)) = rest /\ balanced [] (st <| outs := outs st1 |>) (fin (cb st1)) /\
   app_same (st <| outs := outs st1 |>) (fin (cb st1))) /\
  (pool_wf (cb (fin st1)) /\ send_data_list (cb (fin st1)) = rest /\ balanced [] (st <| outs := outs st1 |>) (cb (fin st1)) /\
   app_same (st <| outs := outs st1 |>) (cb (fin st1))).
Proof.
  intros W El Hd Hsame. cbv zeta. set (st0 := st <| send_data_list := rest |>) in *.
  pose proof (pop_released i rest st W El Hd) as Hr. fold st0 in Hr.
  assert (pool_wf st1) as W1 by (apply (same_pool_wf st0); [done|by apply (released_wf i st)]).
  assert (i ∈ owned st) as Hio by (unfold owned; rewrite El; set_solver).
  pose proof (released_pending i st st0 W Hr Hio) as Hp.
  rewrite <- (same_pending st0 st1 Hsame) in Hp.
  assert (owned st1 = owned st0) as Eo1 by (destruct Hsame as (_ & _ & E1 & E2 & E3 & E4); unfold owned, held; by rewrite E1, E2, E3, E4).
  assert (i ∉ owned st1) as Hni by (rewrite Eo1, (released_owned i st st0 Hr), elem_of_remove; tauto).
  pose proof Hsame as (_ & Em1 & Es1 & Ed1 & _).
  assert (i ∉ session_list st) as Hns by (intros Hx; apply Hni; unfold owned; rewrite Es1; set_solver).
  set (c := callback (ses st i)). set (u := user (ses st i)).
  assert (c = CB_appl -> lock st1 = true /\ current_session st1 = Some (Z.to_nat u) /\
    forall j, j ∈ send_data_list st1 -> callback (ses st1 j) <> CB_appl) as Hc
    by (intros Hc; by apply (popped_callback i rest st st1)).
  unfold balanced. change (pending (st <| outs := outs st1 |>)) with (pending st).
  change (outs (st <| outs := outs st1 |>)) with (outs st1). cbn [app]. split.
  - destruct (session_callback_ok E c status u ts st1 W1 Hc) as (W2 & [Es2 Ed2 Hinc _ Hse2 Ht2] & Hp2).
    destruct (free_unowned i _ W2 ltac:(set_solver)) as [W3 Ep3]. split; [done|].
    split; [exact (eq_trans Ed2 Ed1)|]. split; [rewrite Ep3, Hp|].
    2: { apply app_same_ses; [exact (eq_trans Es2 Es1)| |exact Ht2]. intros j Hj.
      match goal with |- frame_of (ses (memb_free i (upd_ses i ?f ?s)) j) = _ =>
        transitivity (frame_of (ses s j)); [f_equal; apply (ses_upd_ne i j f s); intros ->; by apply Hns|] end.
      rewrite Hse2 by (rewrite Es1; set_solver). by rewrite (same_ses st0 st1 Em1). }
    match goal with |- context [outs (memb_free i ?s)] => change (outs (memb_free i s)) with (outs (session_callback E c status u ts st1)) end.
    rewrite Hp2. change (waits (ses st i)) with (served c u). solve_Permutation.
  - destruct (free_unowned i st1 W1 Hni) as [W2 Ep2]. set (st2 := memb_free i _) in *.
    assert (forall j, j ∈ send_data_list st1 -> ses st2 j = ses st1 j) as Hse.
    { intros j Hj. apply (ses_upd_ne i j). intros ->. apply Hni. unfold owned. set_solver. }
    destruct (session_callback_ok E c status u ts st2 W2) as (W3 & [Es3 Ed3 _ _ Hse3 Ht3] & Hp3).
    { intros Hca. destruct (Hc Hca) as (H1 & H2 & H3). split; [done|]. split; [done|].
      intros j Hj. rewrite Hse by done. by apply H3. }
    split; [done|]. split; [rewrite Ed3; exact Ed1|]. split; [rewrite Hp3, Ep2, Hp|].
    2: { apply app_same_ses; [exact (eq_trans Es3 Es1)| |exact Ht3]. intros j Hj.
      assert (j ∈ session_list st1) as Hj1 by (rewrite Es1; exact Hj).
      rewrite Hse3 by (change (session_list st2) with (session_list st1); set_solver).
      change (ses st2 j) with (ses (upd_ses i (fun s => s <| fb := None |>) st1) j).
      rewrite ses_upd_ne by (intros ->; by apply Hns). by rewrite (same_ses st0 st1 Em1). }
    change (outs st2) with (outs st1). change (waits (ses st i)) with (served c u). solve_Permutation.
Qed.

(** Frames are taken up in order: those of the queue and of [acc] follow the ones
    that were taken before, and none comes twice. *)
Definition in_order (acc : list (ts_param * list Z)) (st st' : sda) : Prop :=
  taken (outs st') ++ queued st' `sublist_of` taken (outs st) ++ queued st ++ acc.

Record step_ok (calls : list (Z * Z)) (frames : list (ts_param * list Z)) (st st' : sda) : Prop := {
  ok_wf : sda_wf st';
  ok_balanced : balanced calls st st';
  ok_order : in_order frames st st'
}.

Lemma app_same_order st st' : app_same st st' -> in_order [] st st'.
Proof. intros [E1 E2]. unfold in_order. by rewrite E1, E2, app_nil_r. Qed.

Lemma step_same st st' : sda_wf st -> same_queues st st' -> (lock_ll st' = true -> lock_ll st = true) ->
  answers (outs st') = answers (outs st) -> taken (outs st') = taken (outs st) -> step_ok [] [] st st'.
Proof.
  intros [W Hll] Hs El Ea Et. pose proof Hs as (_ & Em & Es & Ed & _). split.
  - split; [by apply (same_pool_wf st)|]. unfold ll_wf. rewrite Ed, (same_ses st st' Em). auto.
  - unfold balanced. by rewrite (same_pending st st' Hs), Ea.
  - apply app_same_order, app_same_ses; [done| |done]. by rewrite (same_ses st st' Em).
Qed.

Lemma radio_ok E status ts st : sda_wf st -> step_ok [] [] st (send_data_callback_func E status ts st).
Proof.
  intros [W Hll]. unfold send_data_callback_func. destruct (lock_ll st) eqn:Hl; [|by apply step_same].
  destruct (Hll Hl) as (i & rest & Ed & Hd). cbn [negb]. destruct (status =? TRANSMIT_COMPLETE_FAIL).
  - change (send_data_list (st <| emergency_timer := false |>)) with (send_data_list st).
    change (resend_counter (st <| emergency_timer := false |>)) with (resend_counter st).
    destruct (resend_counter st =? 0).
    + rewrite Ed. change (ses (st <| emergency_timer := false |>) i) with (ses st i).
      set (st1 := st <| emergency_timer := false |> <| send_data_list := rest |>).
      destruct (finish_ll E status ts i rest st st1 W Ed Hd ltac:(done)) as [(W' & _ & Hb & Ha) _].
      change (st <| outs := outs st1 |>) with (st <| outs := outs st |>) in Hb, Ha.
      set (st2 := memb_free i _) in *. split.
      * split; [apply (same_pool_wf st2); done|done].
      * exact Hb.
      * apply app_same_order. exact Ha.
    + apply step_same; done.
  - rewrite Ed. set (st0 := st <| send_data_list := rest |>).
    set (st1 := if _ || _ then sda_emit _ st0 else st0).
    assert (same_queues st0 st1 /\ answers (outs st1) = answers (outs st) /\ taken (outs st1) = taken (outs st)) as (Hs1 & Ea1 & Et1).
    { unfold st1. destruct (_ || _); [|done]. split; [done|]. unfold sda_emit. cbn [outs modify].
      by rewrite answers_app, taken_app, !app_nil_r. }
    clearbody st1.
    set (st2 := st1 <| emergency_timer := false |> <| resend_lockup_timer := false |> <| soft_reset_timer := false |> <| resend_counter := 0 |>).
    destruct (finish_ll E status ts i rest st st2 W Ed Hd Hs1) as [_ (W' & _ & Hb & [Ha1 Ha2])].
    set (st3 := session_callback E _ _ _ _ _) in *. split.
    + split; [apply (same_pool_wf st3); done|done].
    + unfold balanced. etrans; [exact Hb|]. change (Permutation (pending st ++ answers (outs st1)) (pending st ++ answers (outs st))).
      by rewrite Ea1.
    + apply app_same_order. split; [exact Ha1|]. transitivity (taken (outs st1)); [exact Ha2|exact Et1].
Qed.

(** ** The time limit of a waiting frame *)

Lemma in_ll_only i st : pool_wf st -> i ∈ send_data_list st -> i ∉ session_list st /\ i ∉ held st.
Proof.
  intros W Hi. pose proof (wf_nodup _ W) as Hnd. unfold owned in Hnd.
  apply NoDup_app in Hnd as (_ & H1 & (_ & H2 & _)%NoDup_app). set_solver.
Qed.

Lemma head_remove i k rest (l : list nat) : l = k :: rest -> k <> i -> list_remove i l = k :: list_remove i rest.
Proof. intros -> Hk. unfold list_remove. by rewrite filter_cons_True. Qed.

Lemma discard_ok E i st : sda_wf st -> discard_timer (ses st i) = true -> step_ok [] [] st (do_discard_timeout_memb E i st).
Proof.
  intros [W Hll] Hd. destruct (wf_timer _ W i Hd) as [Hi _]. destruct (in_ll_only i st W Hi) as [Hi1 Hi2].
  unfold do_discard_timeout_memb. set (g := fun s : session => s <| discard_timer := false |>).
  set (st0 := memb_free i _). set (st1 := upd_ses i g st0).
  pose proof (wf_len _ W) as [Hcl Hml].
  assert (i ∈ owned st) as Hio by (unfold owned; set_solver).
  assert (i < length (mem st))%nat as Him by (rewrite Hml, <- Hcl; eapply lookup_lt_Some; by apply (wf_used _ W)).
  assert (released i st st1) as Hr.
  { constructor; try done.
    - by rewrite list_remove_notin.
    - split; [by rewrite list_remove_notin|exact (wf_lock _ W)].
    - by left.
    - unfold st1, st0, memb_free, upd_ses. cbn [count modify]. split; [by rewrite length_insert|].
      intros j Hj. by rewrite list_lookup_insert_ne.
    - unfold st1, upd_ses. cbn [mem modify]. by rewrite length_alter.
    - intros j Hj. exact (ses_upd_ne i j g st0 Hj).
    - unfold st1. by rewrite ses_upd_eq by exact Him. }
  pose proof (released_wf i st st1 W Hr) as W1. pose proof (released_pending i st st1 W Hr Hio) as Hp.
  set (c := callback (ses st i)). set (u := user (ses st i)).
  destruct (session_callback_ok E c TRANSMIT_COMPLETE_FAIL u None st1 W1) as (W2 & [Es2 Ed2 _ Ell2 Hse2 Ht2] & Hp2).
  { intros Hc. destruct (wf_inner _ W i Hi Hc) as (Hl & Hcur & Huni). split; [exact Hl|]. split; [exact Hcur|].
    intros j. rewrite (rel_send _ _ _ Hr), elem_of_remove. intros [Hji Hj]. rewrite (rel_ses _ _ _ Hr) by done.
    intros Hcj. by apply Hji, Huni. }
  set (st2 := session_callback E c _ u None st1) in *. split.
  - split; [done|]. intros Hl. rewrite Ell2 in Hl. destruct (Hll Hl) as (k & rest & Ek & Hdk).
    assert (k <> i) as Hki by congruence. exists k, (list_remove i rest).
    rewrite Ed2, (rel_send _ _ _ Hr), (head_remove i k rest) by done. split; [done|].
    rewrite Hse2 by (rewrite (rel_send _ _ _ Hr), (head_remove i k rest) by done; set_solver).
    by rewrite (rel_ses _ _ _ Hr).
  - unfold balanced. rewrite Hp2, Hp. change (outs st1) with (outs st). change (waits (ses st i)) with (served c u). solve_Permutation.
  - apply app_same_order, app_same_ses; [by rewrite Es2| |by rewrite Ht2].
    intros j Hj. rewrite Hse2 by (change (session_list st1) with (session_list st); set_solver).
    rewrite (rel_ses _ _ _ Hr); [done|]. by intros ->.
Qed.

(** ** A block that enters a queue *)

Record enlisted (i : nat) (ll : bool) (st st' : sda) : Prop := {
  en_count : count st !! i = Some false /\ count st' = <[i := true]> (count st);
  en_session : session_list st' = session_list st ++ (if ll then [] else [i]);
  en_send : send_data_list st' = send_data_list st ++ (if ll then [i] else []);
  en_lock : lock st' = lock st /\ current_session st' = current_session st;
  en_mem : length (mem st') = length (mem st);
  en_ses : forall j, j <> i -> ses st' j = ses st j;
  en_app : ll = false -> callback (ses st' i) <> CB_appl /\ discard_timer (ses st' i) = false;
  en_ll : callback (ses st' i) = CB_appl -> lock st = true /\ current_session st = Some (Z.to_nat (user (ses st' i))) /\
    (forall j, j ∈ send_data_list st -> callback (ses st j) <> CB_appl);
  en_timer : discard_timer (ses st' i) = true -> truth (discard_timeout (ses_param (ses st' i))) = true
}.

Lemma free_not_owned i st : pool_wf st -> count st !! i = Some false -> i ∉ owned st.
Proof. intros W Hc Hi. pose proof (wf_used _ W i Hi). congruence. Qed.

Lemma enlisted_wf i ll st st' : pool_wf st -> enlisted i ll st st' ->
  pool_wf st' /\ Permutation (pending st') (waits (ses st' i) ++ pending st).
Proof.
  intros W [[Hc Ec] Es Ed [El Eu] Em Hne Happ Hinn Htim]. pose proof (free_not_owned i st W Hc) as Hni.
  pose proof W as [[Hcl Hml] Hnd Hu Hlk Hap Hin Htm].
  assert (Permutation (owned st') (i :: owned st)) as Ho.
  { unfold owned, held. rewrite Es, Ed, El, Eu. destruct ll; solve_Permutation. }
  assert (held st' = held st) as Eh by (unfold held; by rewrite El, Eu).
  assert (forall j, j ∈ owned st -> ses st' j = ses st j) as Hse by (intros j Hj; apply Hne; by intros ->).
  split; [constructor|].
  - split; [by rewrite Ec, length_insert|by rewrite Em].
  - rewrite Ho. by apply NoDup_cons.
  - intros j. rewrite Ho, elem_of_cons, Ec. intros [->|Hj].
    + apply list_lookup_insert_eq. by eapply lookup_lt_Some.
    + rewrite list_lookup_insert_ne by (by intros ->). by apply Hu.
  - by rewrite El, Eu.
  - intros j. rewrite Es, Eh, !elem_of_app. intros Hj. destruct (decide (j = i)) as [->|Hji].
    + destruct ll; [|by apply Happ]. exfalso. apply Hni. unfold owned. set_solver.
    + rewrite Hne by done. apply Hap. destruct ll; set_solver.
  - intros j. rewrite Ed, El, Eu, elem_of_app. intros Hj Hcb. destruct (decide (j = i)) as [->|Hji].
    + destruct (Hinn Hcb) as (H1 & H2 & H3). split; [done|]. split; [done|]. intros k Hk Hck.
      destruct (decide (k = i)) as [->|Hki]; [done|]. rewrite Hne in Hck by done. exfalso. apply (H3 k); [|done].
      destruct ll; set_solver.
    + assert (j ∈ send_data_list st) as Hj' by (destruct ll; set_solver). rewrite Hne in Hcb |- * by done.
      destruct (Hin j Hj' Hcb) as (H1 & H2 & H3). split; [done|]. split; [done|]. intros k Hk Hck.
      destruct (decide (k = i)) as [->|Hki]; [by destruct (Hinn Hck) as (_ & _ & Hx); destruct (Hx j Hj')|].
      rewrite Hne in Hck by done. apply H3; [|done]. destruct ll; set_solver.
  - intros j Hj. rewrite Ed, elem_of_app. destruct (decide (j = i)) as [->|Hji].
    + split; [|by apply Htim]. destruct ll; [set_solver|]. destruct (Happ eq_refl). congruence.
    + rewrite Hne in Hj |- * by done. destruct (Htm j Hj). tauto.
  - unfold pending. rewrite Ho. cbn [flat_map]. f_equiv. apply reflexive_eq. apply flat_map_ext_in.
    intros j Hj. by rewrite Hse.
Qed.

Lemma enlisted_ll i ll st st' : pool_wf st -> enlisted i ll st st' -> lock_ll st' = lock_ll st -> ll_wf st -> ll_wf st'.
Proof.
  intros W [[Hc _] _ Ed _ _ Hne _ _ _] El Hll Hl. rewrite El in Hl. destruct (Hll Hl) as (k & rest & Ek & Hd).
  exists k, (rest ++ if ll then [i] else []). rewrite Ed, Ek. split; [done|]. rewrite Hne; [done|].
  intros ->. apply (free_not_owned i st W Hc). unfold owned. rewrite Ek. set_solver.
Qed.

Lemma list_add_new i l : i ∉ l -> list_add i l = l ++ [i].
Proof. intros Hi. unfold list_add. by rewrite list_remove_notin. Qed.

(** ** The operations *)

(** The frame the application queue takes for [data]. *)
Definition appl_data (p : ts_param) (data : list Z) : list Z :=
  if (rd data 0 =? COMMAND_CLASS_NO_OPERATION) && is_lr_node (dnode p)
  then [COMMAND_CLASS_NO_OPERATION_LR; 0] else data.

Lemma create_cases E p data st :
  zw_frame_buffer_create E p data st = (Some (mkFb p data), st) \/
  zw_frame_buffer_create E p data st = (None, sda_emit O_assert st).
Proof. unfold zw_frame_buffer_create. destruct (_ && _); auto. Qed.

Lemma emit_assert_same st : answers (outs (sda_emit O_assert st)) = answers (outs st) /\
  taken (outs (sda_emit O_assert st)) = taken (outs st).
Proof. unfold sda_emit. cbn [outs modify]. by rewrite answers_app, taken_app, !app_nil_r. Qed.

(** The flag that is set before the buffer is made. *)
Definition mark_span (i : nat) (data : list Z) (st : sda) : sda :=
  if (rd data 0 =? COMMAND_CLASS_FIRMWARE_UPDATE_MD_V4) && (rd data 1 =? FIRMWARE_UPDATE_ACTIVATION_SET_V4)
  then upd_ses i (fun s => s <| reset_span := true |>) st else st.

Lemma mark_span_same i data st :
  count (mark_span i data st) = count st /\ session_list (mark_span i data st) = session_list st /\
  send_data_list (mark_span i data st) = send_data_list st /\ lock (mark_span i data st) = lock st /\
  current_session (mark_span i data st) = current_session st /\ lock_ll (mark_span i data st) = lock_ll st /\
  outs (mark_span i data st) = outs st /\ length (mem (mark_span i data st)) = length (mem st) /\
  (forall j, j <> i -> ses (mark_span i data st) j = ses st j) /\
  discard_timer (ses (mark_span i data st) i) = discard_timer (ses st i).
Proof.
  unfold mark_span. destruct (_ && _); [|done]. repeat (split; [done|]). split.
  - unfold upd_ses. cbn [mem modify]. by rewrite length_alter.
  - split; [intros j Hj; by apply ses_upd_ne|]. by apply ses_upd_keep.
Qed.

Definition calls_of (E : sda_env) (op : sda_op) (st : sda) : list (Z * Z) :=
  match op with
  | Op_appl p data (Some f) u => if fst (ZW_SendDataAppl E p data (CB_user f) u st) =? 0 then [] else [(f, u)]
  | Op_send_data p data (Some f) u => if fst (send_data E p data (CB_user f) u st) then [(f, u)] else []
  | _ => []
  end.

Definition frames_of (E : sda_env) (op : sda_op) (st : sda) : list (ts_param * list Z) :=
  match op with
  | Op_appl p data f u => if fst (ZW_SendDataAppl E p data (caller_cb f) u st) =? 0 then [] else [(p, appl_data p data)]
  | _ => []
  end.

Lemma order_refl st st' : queued st' = queued st -> taken (outs st') = taken (outs st) -> in_order [] st st'.
Proof. intros E1 E2. by apply app_same_order. Qed.

Lemma enlisted_order i st st' : pool_wf st -> enlisted i false st st' -> outs st' = outs st ->
  in_order [frame_of (ses st' i)] st st'.
Proof.
  intros W He Eo. pose proof He as [[Hc _] Es _ _ _ Hne _ _ _]. unfold in_order, queued. rewrite Eo, Es, map_app. cbn [map].
  apply reflexive_eq. do 2 f_equal. apply map_ext_in. intros j Hj%list_elem_of_In. rewrite Hne; [done|].
  intros ->. apply (free_not_owned i st W Hc). unfold owned. set_solver.
Qed.

Lemma appl_ok E p data f u st : sda_wf st ->
  step_ok (calls_of E (Op_appl p data f u) st) (frames_of E (Op_appl p data f u) st) st
    (snd (ZW_SendDataAppl E p data (caller_cb f) u st)).
Proof.
  intros [W Hll]. pose proof (wf_len _ W) as [Hcl Hml].
  assert (calls_of E (Op_appl p data f u) st =
    if fst (ZW_SendDataAppl E p data (caller_cb f) u st) =? 0 then [] else served (caller_cb f) u) as ->
    by (destruct f; cbn; by destruct (_ =? 0)).
  unfold frames_of, ZW_SendDataAppl. pose proof (memb_alloc_spec st Hcl) as Ha.
  destruct (memb_alloc st) as [[i|] st1]; [|by rewrite Ha; apply step_same]. destruct Ha as (Hi & Hc & ->).
  set (st1 := st <| count := _ |>). fold (mark_span i data st1). fold (appl_data p data).
  destruct (mark_span_same i data st1) as (Ec & Es & Ed & El & Eu & Ell & Eo & Em & Hne & Hd).
  set (st2 := mark_span i data st1) in *. pose proof (free_not_owned i st W Hc) as Hni.
  assert (i < length (mem st))%nat as Him by lia.
  assert (forall j, j <> i -> count st1 !! j = count st !! j) as Hcj by (intros j Hj; by apply list_lookup_insert_ne).
  destruct (create_cases E p (appl_data p data) st2) as [->| ->].
  - cbn [fst snd]. rewrite (proj2 (Z.eqb_neq _ _)) by lia. set (g := fun s : session => _).
    set (st3 := upd_ses i g st2). set (st4 := process_post _ _).
    assert (ses st4 i = g (ses st2 i)) as E4 by (apply (ses_upd_eq i g st2); rewrite Em; exact Him).
    assert (enlisted i false st st4) as He.
    { constructor; try done.
      - change (list_add i (session_list st2) = session_list st ++ [i]). rewrite Es. apply list_add_new. intros Hx.
        apply Hni. unfold owned. change (session_list st1) with (session_list st) in Hx. set_solver.
      - rewrite app_nil_r. exact Ed.
      - change (length (mem st3) = length (mem st)). unfold st3, upd_ses. cbn [mem modify]. by rewrite length_alter.
      - intros j Hj. transitivity (ses st2 j); [exact (ses_upd_ne i j g st2 Hj)|by apply Hne].
      - intros _. rewrite E4. split; [by destruct f|]. unfold g. cbn. rewrite Hd.
        destruct (discard_timer (ses st1 i)) eqn:Et; [|done]. exfalso. apply Hni.
        destruct (wf_timer _ W i Et) as [Hx _]. unfold owned. set_solver.
      - rewrite E4. by destruct f.
      - rewrite E4. unfold g. cbn. rewrite Hd. intros Et. exfalso. apply Hni.
        destruct (wf_timer _ W i Et) as [Hx _]. unfold owned. set_solver. }
    destruct (enlisted_wf i false st st4 W He) as [W4 Hp4]. split.
    + split; [done|]. by apply (enlisted_ll i false st).
    + unfold balanced. change (outs st4) with (outs st2). rewrite Eo, Hp4, E4. change (waits (g (ses st2 i))) with (served (caller_cb f) u). solve_Permutation.
    + assert (frame_of (ses st4 i) = (p, appl_data p data)) as <- by by rewrite E4. by apply enlisted_order.
  - cbn [fst snd]. rewrite Z.eqb_refl. set (st3 := sda_emit O_assert st2).
    destruct (emit_assert_same st2) as [Ea3 Et3]. fold st3 in Ea3, Et3. rewrite Eo in Ea3, Et3.
    destruct (touch_unowned i st (memb_free i st3) W Hni) as (W3 & Hp & Hq); try done.
    + change (length (<[i:=false]> (count st2)) = length (count st)). rewrite length_insert, Ec. apply length_insert.
    + intros j Hj. change (<[i:=false]> (count st2) !! j = count st !! j). rewrite list_lookup_insert_ne by done. rewrite Ec. by apply Hcj.
    + split; [split; [done|]| |].
      * intros Hl. change (lock_ll st2 = true) in Hl. rewrite Ell in Hl. destruct (Hll Hl) as (k & rest & Ek & Hdk).
        exists k, rest. split; [by rewrite <- Ek|]. assert (k <> i) as Hki by (intros ->; apply Hni; unfold owned; rewrite Ek; set_solver).
        change (ses (memb_free i st3) k) with (ses st2 k). by rewrite Hne.
      * unfold balanced. rewrite Hp. change (outs (memb_free i st3)) with (outs st3). by rewrite Ea3.
      * by apply order_refl.
Qed.

(** A frame that is not taken leaves the queues as they are. *)
Definition untouched (st st' : sda) : Prop :=
  lock st' = lock st /\ current_session st' = current_session st /\ send_data_list st' = send_data_list st /\
  forall j, j ∈ owned st -> ses st' j = ses st j.

Definition may_enter (cb : session_cb) (u : Z) (st : sda) : Prop :=
  cb = CB_appl -> lock st = true /\ current_session st = Some (Z.to_nat u) /\
    (forall j, j ∈ send_data_list st -> callback (ses st j) <> CB_appl).

(** The session of a frame that enters the low level queue in block [i]. *)
Definition enter_ll (p : ts_param) (data : list Z) (cb : session_cb) (u : Z) (i : nat) (st : sda) : sda :=
  let st := upd_ses i (fun s => s <| fb := Some (mkFb p data) |> <| user := u |> <| callback := cb |>) st in
  let st := st <| send_data_list := list_add i (send_data_list st) |> in
  if truth (discard_timeout p) then upd_ses i (fun s => s <| discard_timer := true |>) st else st.

Lemma enter_ll_spec p data cb u i st : (i < length (mem st))%nat -> i ∉ send_data_list st ->
  discard_timer (ses st i) = false ->
  let st' := enter_ll p data cb u i st in
  count st' = count st /\ session_list st' = session_list st /\ send_data_list st' = send_data_list st ++ [i] /\
  lock st' = lock st /\ current_session st' = current_session st /\ lock_ll st' = lock_ll st /\ outs st' = outs st /\
  length (mem st') = length (mem st) /\ (forall j, j <> i -> ses st' j = ses st j) /\
  callback (ses st' i) = cb /\ user (ses st' i) = u /\
  discard_timer (ses st' i) = truth (discard_timeout p) /\ ses_param (ses st' i) = p.
Proof.
  intros Hi Hni Hd. cbv zeta. unfold enter_ll. set (g := fun s : session => s <| fb := _ |> <| user := u |> <| callback := cb |>).
  set (st1 := upd_ses i g st). set (st2 := st1 <| send_data_list := list_add i (send_data_list st1) |>).
  assert (send_data_list st2 = send_data_list st ++ [i]) as Ed by (apply list_add_new; exact Hni).
  assert (ses st2 i = g (ses st i)) as E2 by exact (ses_upd_eq i g st Hi).
  assert (forall j, j <> i -> ses st2 j = ses st j) as H2 by (intros j Hj; exact (ses_upd_ne i j g st Hj)).
  assert (length (mem st2) = length (mem st)) as Em by (unfold st2, st1, upd_ses; cbn [mem modify]; by rewrite length_alter).
  destruct (truth (discard_timeout p)) eqn:Et.
  - set (h := fun s : session => s <| discard_timer := true |>).
    rewrite (ses_upd_eq i h st2) by lia. rewrite E2. do 2 (split; [done|]). split; [exact Ed|]. do 4 (split; [done|]).
    split; [unfold upd_ses; cbn [mem modify]; rewrite length_alter; exact Em|].
    split; [intros j Hj; rewrite ses_upd_ne by done; by apply H2|]. done.
  - rewrite E2. do 2 (split; [done|]). split; [exact Ed|]. do 4 (split; [done|]). split; [exact Em|].
    split; [done|]. done.
Qed.

Lemma send_data_ok E p data cb u st : sda_wf st -> may_enter cb u st ->
  let r := send_data E p data cb u st in
  step_ok (if fst r then served cb u else []) [] st (snd r) /\ (fst r = false -> untouched st (snd r)).
Proof.
  intros [W Hll] Hcb. pose proof (wf_len _ W) as [Hcl Hml]. cbv zeta. unfold send_data.
  pose proof (memb_alloc_spec st Hcl) as Ha.
  destruct (memb_alloc st) as [[i|] st1]; [|by rewrite Ha; split; [apply step_same|]]. destruct Ha as (Hi & Hc & ->).
  set (st1 := st <| count := _ |>). pose proof (free_not_owned i st W Hc) as Hni.
  assert (i < length (mem st))%nat as Him by lia.
  assert (discard_timer (ses st i) = false) as Hd0.
  { destruct (discard_timer (ses st i)) eqn:Et; [|done]. destruct (wf_timer _ W i Et). exfalso. apply Hni. unfold owned. set_solver. }
  destruct (create_cases E p data st1) as [->| ->].
  - fold (enter_ll p data cb u i st1). cbn [fst snd]. split; [|done].
    destruct (enter_ll_spec p data cb u i st1 Him) as (Ec & Es & Ed & El & Eu & Ell & Eo & Em & Hne & Ecb & Eus & Edt & Epa); [|done|].
    { intros Hx. apply Hni. unfold owned. change (send_data_list st1) with (send_data_list st) in Hx. set_solver. }
    set (st4 := enter_ll p data cb u i st1) in *.
    assert (waits (ses st4 i) = served cb u) as Hwt by (unfold waits; by rewrite Ecb, Eus).
    clearbody st4. set (st5 := process_post SEND_EVENT_SEND_NEXT_LL st4).
    assert (enlisted i true st st5) as He.
    { constructor; try done.
      - by rewrite app_nil_r.
      - change (callback (ses st4 i) = CB_appl -> lock st = true /\ current_session st = Some (Z.to_nat (user (ses st4 i))) /\
          forall j, j ∈ send_data_list st -> callback (ses st j) <> CB_appl). rewrite Ecb, Eus. exact Hcb.
      - change (discard_timer (ses st4 i) = true -> truth (discard_timeout (ses_param (ses st4 i))) = true). by rewrite Edt, Epa. }
    destruct (enlisted_wf i true st st5 W He) as [W5 Hp5]. split.
    + split; [done|]. by apply (enlisted_ll i true st).
    + unfold balanced. change (outs st5) with (outs st4). change (ses st5 i) with (ses st4 i) in Hp5. rewrite Eo, Hp5, Hwt. solve_Permutation.
    + apply app_same_order, app_same_ses; [done| |by change (outs st5) with (outs st4); rewrite Eo].
      intros j Hj. change (ses st5 j) with (ses st4 j). rewrite Hne; [done|]. intros ->. apply Hni. unfold owned. set_solver.
  - cbn [fst snd]. set (g := fun s : session => s <| fb := None |>). set (st2 := sda_emit O_assert st1).
    destruct (emit_assert_same st1) as [Ea2 Et2]. fold st2 in Ea2, Et2.
    assert (forall j, j <> i -> ses (upd_ses i g st2) j = ses st j) as Hne by (intros j Hj; exact (ses_upd_ne i j g st2 Hj)).
    destruct (touch_unowned i st (upd_ses i g st2) W Hni) as (W3 & Hp & Hq); try done.
    + apply length_insert.
    + intros j Hj. by apply list_lookup_insert_ne.
    + unfold upd_ses. cbn [mem modify]. by rewrite length_alter.
    + exact (ses_upd_keep discard_timer i g st2 ltac:(done)).
    + split; [split; [split; [done|]| |]|].
      * intros Hl. destruct (Hll Hl) as (k & rest & Ek & Hdk). exists k, rest. split; [done|].
        rewrite Hne; [done|]. intros ->. apply Hni. unfold owned. rewrite Ek. set_solver.
      * unfold balanced. rewrite Hp. change (outs (upd_ses i g st2)) with (outs st2). by rewrite Ea2.
      * by apply order_refl.
      * intros _. split; [done|]. split; [done|]. split; [done|]. intros j Hj. apply Hne. by intros ->.
Qed.

Lemma step_trans c1 f1 c2 f2 st st1 st2 :
  step_ok c1 f1 st st1 -> step_ok c2 f2 st1 st2 -> step_ok (c1 ++ c2) (f1 ++ f2) st st2.
Proof.
  intros [_ B1 O1] [W B2 O2]. split; [done| |].
  - unfold balanced in *. rewrite B2, B1. solve_Permutation.
  - unfold in_order in *. etrans; [exact O2|]. rewrite (app_assoc (taken (outs st1))).
    assert (taken (outs st) ++ queued st ++ f1 ++ f2 = (taken (outs st) ++ queued st ++ f1) ++ f2) as -> by by rewrite <- !app_assoc.
    by apply sublist_app.
Qed.

(** ** Taking up a frame of the application queue *)

Lemma no_inner st : pool_wf st -> lock st = false -> forall j, j ∈ send_data_list st -> callback (ses st j) <> CB_appl.
Proof. intros W Hl j Hj Hc. destruct (wf_inner _ W j Hj Hc). congruence. Qed.

Lemma emit_quiet o st : sda_wf st -> answers [o] = [] -> taken [o] = [] -> step_ok [] [] st (sda_emit o st).
Proof.
  intros W Ha Ht. apply step_same; try done; unfold sda_emit; cbn [outs modify].
  - by rewrite answers_app, Ha, app_nil_r.
  - by rewrite taken_app, Ht, app_nil_r.
Qed.

Lemma send_endpoint_ok E p data u st : sda_wf st -> may_enter CB_appl u st ->
  let r := send_endpoint E p data CB_appl u st in
  step_ok [] [] st (snd r) /\ (fst r = false -> untouched st (snd r)).
Proof.
  intros W Hm. cbv zeta.
  assert (step_ok [] [] st st /\ (false = false -> untouched st st)) as Hsame by (split; [by apply step_same|done]).
  assert (forall p buf, let r := send_data E p buf CB_appl u st in step_ok [] [] st (snd r) /\ (fst r = false -> untouched st (snd r))) as Hll.
  { intros p' buf. pose proof (send_data_ok E p' buf CB_appl u st W Hm) as H. cbv zeta in *. by destruct (fst _). }
  unfold send_endpoint. set (buf := endpoint_encap p data). destruct (_ || _); [exact Hsame|].
  set (sch := ZW_SendData_scheme_select E p (Zlength data)).
  destruct (sch =? USE_CRC16); [apply Hll|]. destruct (sch =? NO_SCHEME); [destruct (has _ _); [exact Hsame|apply Hll]|].
  destruct (sch =? SECURITY_SCHEME_0).
  - destruct (has _ _); [exact Hsame|]. cbn [fst snd]. split; [by apply emit_quiet|done].
  - destruct (is_s2_scheme sch); [|exact Hsame]. cbn [fst snd]. split; [by apply emit_quiet|done].
Qed.

(** The first frame moves from the queue to the hands of the module. *)
Lemma take_ok i rest st : sda_wf st -> lock st = false -> session_list st = i :: rest ->
  step_ok [] [] st (sda_emit (O_send_endpoint (ses_param (ses st i)) (ses_data (ses st i)))
    (st <| session_list := rest |> <| current_session := Some i |> <| lock := true |>)).
Proof.
  intros [W Hll] Hl Es. set (st1 := sda_emit _ _).
  assert (held st = []) as Hh by (unfold held; by rewrite Hl).
  assert (Permutation (owned st1) (owned st)) as Ho.
  { unfold owned. rewrite Hh, Es. change (Permutation (rest ++ [i] ++ send_data_list st) ((i :: rest) ++ [] ++ send_data_list st)). solve_Permutation. }
  pose proof W as [Hlen Hnd Hu _ Hap _ Htm]. split.
  - split; [|exact Hll]. constructor; try done.
    + by rewrite Ho.
    + intros j. rewrite Ho. apply Hu.
    + intros j Hj. apply Hap. rewrite Es. change (j ∈ rest ++ [i]) in Hj. set_solver.
    + intros j Hj Hc. by destruct (no_inner st W Hl j Hj).
  - unfold balanced, pending. rewrite Ho. unfold st1, sda_emit. cbn [outs modify]. by rewrite answers_app, app_nil_r.
  - unfold in_order. unfold st1, sda_emit at 1. cbn [outs modify]. rewrite taken_app. unfold queued at 2. rewrite Es, app_nil_r.
    cbn [map]. rewrite <- app_assoc. done.
Qed.

Lemma send_first_ok E st : sda_wf st -> lock st = false -> step_ok [] [] st (send_first E st).
Proof.
  intros W Hl. unfold send_first. destruct (session_list st) as [|i rest] eqn:Es.
  - destruct W as [W Hll]. assert (owned (st <| current_session := None |>) = owned st) as Ho by (unfold owned, held; cbn; by rewrite Hl).
    pose proof W as [Hlen Hnd Hu _ Hap _ Htm]. split.
    + split; [|exact Hll]. constructor; try done.
      * by rewrite Ho.
      * intros j. rewrite Ho. apply Hu.
      * intros Hx. change (lock st = true) in Hx. congruence.
      * intros j Hj. apply Hap. unfold held in *. cbn in Hj. by rewrite Hl in *.
      * intros j Hj Hc. by destruct (no_inner st W Hl j Hj).
    + unfold balanced, pending. by rewrite Ho.
    + by apply order_refl.
  - pose proof (take_ok i rest st W Hl Es) as H1. cbv zeta.
    change (ses (st <| session_list := rest |> <| current_session := Some i |> <| lock := true |>) i) with (ses st i).
    set (st1 := sda_emit _ _) in *. destruct W as [W0 _]. pose proof (ok_wf _ _ _ _ H1) as W1.
    assert (may_enter CB_appl (Z.of_nat i) st1) as Hm.
    { intros _. split; [done|]. split; [by rewrite Nat2Z.id|exact (no_inner st W0 Hl)]. }
    pose proof (send_endpoint_ok E (ses_param (ses st i)) (ses_data (ses st i)) (Z.of_nat i) st1 W1 Hm) as [H2 Hu].
    destruct (send_endpoint _ _ _ _ _ _) as [ok st2]. cbn [fst snd] in *.
    pose proof (step_trans _ _ _ _ _ _ _ H1 H2) as H3. destruct ok; [exact H3|].
    destruct (Hu eq_refl) as (El & Ec & Ed & Hse). destruct (ok_wf _ _ _ _ H2) as [W2 Hll2].
    destruct (callback_ex_ok E TRANSMIT_COMPLETE_ERROR i None st2 W2) as (W' & Es' & Ed' & Ell' & _ & Hne & Hd & Hp).
    { by rewrite El. }
    { by rewrite Ec. }
    { intros j. rewrite Ed. intros Hj. rewrite Hse by (unfold owned; set_solver). exact (no_inner st W0 Hl j Hj). }
    apply (step_trans [] [] [] [] st st2 _ H3). set (st' := ZW_SendDataAppl_CallbackEx _ _ _ _ _) in *.
    assert (forall j, j ∈ session_list st2 ++ send_data_list st2 -> j <> i) as Hji.
    { intros j Hj ->. pose proof (wf_nodup _ W2) as Hnd. unfold owned, held in Hnd. rewrite El, Ec in Hnd. cbn in Hnd.
      apply NoDup_app in Hnd as (_ & Hx & [Hy _]%NoDup_cons). set_solver. }
    split.
    + split; [done|]. intros Hx. rewrite Ell' in Hx. destruct (Hll2 Hx) as (k & rest' & Ek & Hdk). exists k, rest'.
      rewrite Ed'. split; [done|]. rewrite Hne; [done|]. apply Hji. rewrite Ek. set_solver.
    + exact Hp.
    + apply app_same_order, app_same_ses; [done| |apply callback_ex_taken]. intros j Hj. rewrite Hne; [done|]. apply Hji. set_solver.
Qed.

(** ** Handing a frame to the radio *)

(** The first frame of the low level queue loses its time limit. *)
Lemma head_ok i rest st st' : sda_wf st -> send_data_list st = i :: rest ->
  count st' = count st -> session_list st' = session_list st -> send_data_list st' = send_data_list st ->
  lock st' = lock st -> current_session st' = current_session st -> length (mem st') = length (mem st) ->
  (forall j, j <> i -> ses st' j = ses st j) -> callback (ses st' i) = callback (ses st i) ->
  user (ses st' i) = user (ses st i) -> discard_timer (ses st' i) = false ->
  answers (outs st') = answers (outs st) -> taken (outs st') = taken (outs st) -> step_ok [] [] st st'.
Proof.
  intros [W Hll] E Ec Es Ed El Eu Em Hne Hcb Hus Hd Ea Et.
  assert (forall j, callback (ses st' j) = callback (ses st j) /\ user (ses st' j) = user (ses st j)) as Hall.
  { intros j. destruct (decide (j = i)) as [->|Hj]; [done|]. by rewrite Hne. }
  assert (held st' = held st) as Eh by (unfold held; by rewrite El, Eu).
  assert (owned st' = owned st) as Eo by (unfold owned; by rewrite Es, Ed, Eh).
  destruct (in_ll_only i st W ltac:(rewrite E; by left)) as [Hns _].
  pose proof W as [Hlen Hnd Hu Hlk Hap Hin Htm]. split.
  - split.
    + constructor; rewrite ?Eo, ?Ec, ?Em, ?Es, ?Ed, ?El, ?Eu, ?Eh; try done.
      * intros j Hj. rewrite (proj1 (Hall j)). by apply Hap.
      * intros j Hj. rewrite (proj1 (Hall j)), (proj2 (Hall j)). intros Hc. destruct (Hin j Hj Hc) as (H1 & H2 & H3).
        split; [done|]. split; [done|]. intros k Hk. rewrite (proj1 (Hall k)). by apply H3.
      * intros j Hj. destruct (decide (j = i)) as [->|Hji]; [congruence|]. rewrite Hne in Hj |- * by done. by apply Htm.
    + intros _. exists i, rest. by rewrite Ed.
  - unfold balanced, pending. rewrite Eo, Ea. cbn [app]. f_equiv. apply reflexive_eq, flat_map_ext_in. intros j _.
    unfold waits. by rewrite (proj1 (Hall j)), (proj2 (Hall j)).
  - apply app_same_order, app_same_ses; [done| |done]. intros j Hj. rewrite Hne; [done|]. by intros ->.
Qed.

Lemma head_stop_timer i rest st : pool_wf st -> send_data_list st = i :: rest ->
  let st1 := if truth (discard_timeout (ses_param (ses st i))) then upd_ses i (fun s => s <| discard_timer := false |>) st else st in
  discard_timer (ses st1 i) = false /\ callback (ses st1 i) = callback (ses st i) /\ user (ses st1 i) = user (ses st i) /\
  length (mem st1) = length (mem st) /\ (forall j, j <> i -> ses st1 j = ses st j) /\
  st1 = st <| mem := mem st1 |>.
Proof.
  intros W E. cbv zeta. pose proof (wf_len _ W) as [Hcl Hml].
  assert (i < length (mem st))%nat as Him.
  { rewrite Hml, <- Hcl. eapply lookup_lt_Some, (wf_used _ W). unfold owned. rewrite E. set_solver. }
  destruct (truth _) eqn:Et.
  - rewrite ses_upd_eq by done. do 3 (split; [done|]). split; [unfold upd_ses; cbn [mem modify]; by rewrite length_alter|].
    split; [intros j Hj; by apply ses_upd_ne|done].
  - split; [|by destruct st]. destruct (discard_timer (ses st i)) eqn:Ed; [|done]. destruct (wf_timer _ W i Ed). congruence.
Qed.

Lemma quiet_app os o : answers [o] = [] -> taken [o] = [] -> answers (os ++ [o]) = answers os /\ taken (os ++ [o]) = taken os.
Proof. intros Ha Ht. by rewrite answers_app, taken_app, Ha, Ht, !app_nil_r. Qed.

Lemma send_next_ll_ok E st : sda_wf st -> step_ok [] [] st (send_next_ll E st).
Proof.
  intros W. unfold send_next_ll. set (st0 := st <| current_session_ll := _ |>).
  change (send_data_list st0) with (send_data_list st). change (lock_ll st0) with (lock_ll st).
  assert (step_ok [] [] st st0) as H0 by by apply step_same.
  destruct (send_data_list st) as [|i rest] eqn:E0; [exact H0|]. destruct (lock_ll st) eqn:Hl; [exact H0|].
  pose proof (ok_wf _ _ _ _ H0) as W0. change (ses st0 i) with (ses st i).
  destruct (head_stop_timer i rest st0 (proj1 W0) E0) as (Hd & Hcb & Hus & Hlm & Hne & Est). cbv zeta in *.
  change (ses st0 i) with (ses st i) in *. set (st1 := if truth _ then _ else st0) in *.
  set (p := ses_param (ses st i)) in *. set (data := ses_data (ses st i)).
  assert (forall st2 : sda, count st2 = count st1 -> session_list st2 = session_list st1 -> send_data_list st2 = send_data_list st1 ->
    lock st2 = lock st1 -> current_session st2 = current_session st1 -> mem st2 = mem st1 ->
    answers (outs st2) = answers (outs st1) -> taken (outs st2) = taken (outs st1) -> step_ok [] [] st0 st2) as Hstep.
  { intros st2 Ec Es Ed El Eu Em Ea Et. rewrite Est in Ec, Es, Ed, El, Eu, Ea, Et. pose proof (same_ses _ _ Em) as Ee.
    apply (head_ok i rest); try done; rewrite ?Ee, ?Em; done. }
  match goal with |- context [if META_DATA_MAX_DATA_SIZE <=? Zlength data then ?a else ?b] => set (r := if META_DATA_MAX_DATA_SIZE <=? Zlength data then a else b) end.
  assert (step_ok [] [] st0 (snd r)) as Hr.
  { unfold r. destruct (META_DATA_MAX_DATA_SIZE <=? Zlength data); [destruct (SupportsCmdClass E _ _)|destruct (negb _)]; cbn [snd].
    - apply Hstep; try done; unfold sda_emit; cbn [outs modify]; by apply quiet_app.
    - by apply Hstep.
    - match goal with |- context [if ?b then ?x else ?y] => destruct b end;
        apply Hstep; try done; unfold sda_emit; cbn [outs modify]; by apply quiet_app.
    - set (q := p <| snode := 0xff |>). set (g := fun s : session => s <| fb := Some (mkFb q data) |>).
      set (st2 := st1 <| lock_ll := true |>). assert (outs st1 = outs st0) as Eo by exact (f_equal outs Est).
      apply (head_ok i rest); try done; try exact (f_equal count Est); try exact (f_equal session_list Est);
        try exact (f_equal send_data_list Est); try exact (f_equal lock Est); try exact (f_equal current_session Est).
      + change (length (mem (upd_ses i g st2)) = length (mem st0)). unfold upd_ses. cbn [mem modify]. by rewrite length_alter.
      + intros j Hj. transitivity (ses st2 j); [exact (ses_upd_ne i j g st2 Hj)|exact (Hne j Hj)].
      + transitivity (callback (ses st2 i)); [exact (ses_upd_keep callback i g st2 ltac:(done))|exact Hcb].
      + transitivity (user (ses st2 i)); [exact (ses_upd_keep user i g st2 ltac:(done))|exact Hus].
      + transitivity (discard_timer (ses st2 i)); [exact (ses_upd_keep discard_timer i g st2 ltac:(done))|exact Hd].
      + change (answers (outs st1 ++ [O_send_data q data]) = answers (outs st0)). rewrite Eo. by apply quiet_app.
      + change (taken (outs st1 ++ [O_send_data q data]) = taken (outs st0)). rewrite Eo. by apply quiet_app. }
  destruct r as [rc st2]. cbn [snd] in Hr. apply (step_trans [] [] [] [] st st0 _ H0). destruct rc.
  - apply (step_trans [] [] [] [] st0 st2 _ Hr). apply step_same; try done; [exact (ok_wf _ _ _ _ Hr)| |];
      unfold sda_emit; cbn [outs modify]; by apply quiet_app.
  - apply (step_trans [] [] [] [] st0 st2 _ Hr). apply radio_ok. exact (ok_wf _ _ _ _ Hr).
Qed.

(** ** The other operations *)

Lemma abort_ok E h st : sda_wf st -> step_ok [] [] st (ZW_SendDataApplAbort E h st).
Proof.
  intros W. unfold ZW_SendDataApplAbort. destruct (_ || _); [by apply step_same|]. set (i := Z.to_nat (h - 1)).
  case_bool_decide.
  - pose proof (emit_quiet O_abort_transmission st W eq_refl eq_refl) as H1.
    apply (step_trans [] [] [] [] _ _ _ H1). by apply emit_quiet; [exact (ok_wf _ _ _ _ H1)|..].
  - case_bool_decide as Hi; [|by apply step_same]. destruct W as [W Hll].
    set (st1 := memb_free i _). set (c := callback (ses st i)). set (u := user (ses st i)).
    pose proof (wf_nodup _ W) as Hnd. unfold owned in Hnd. apply NoDup_app in Hnd as (Hns & H1 & _).
    assert (i ∉ held st /\ i ∉ send_data_list st) as [Hh Hs] by (specialize (H1 i Hi); set_solver).
    assert (i ∈ owned st) as Hio by (unfold owned; set_solver).
    assert (released i st st1) as Hr.
    { constructor; try done.
      - by rewrite list_remove_notin.
      - split; [by rewrite list_remove_notin|exact (wf_lock _ W)].
      - by left.
      - unfold st1, memb_free. cbn [count modify]. split; [by rewrite length_insert|].
        intros j Hj. by rewrite list_lookup_insert_ne.
      - change (discard_timer (ses st i) = false). destruct (discard_timer (ses st i)) eqn:Et; [|done].
        by destruct (wf_timer _ W i Et). }
    pose proof (released_wf i st st1 W Hr) as W1. pose proof (released_pending i st st1 W Hr Hio) as Hp.
    pose proof (user_callback_same c TRANSMIT_COMPLETE_FAIL u st1) as Hsame.
    set (st2 := user_callback c _ u st1) in *. pose proof Hsame as (_ & Em & Es & Ed & _). split.
    + split; [by apply (same_pool_wf st1)|]. intros Hl. assert (lock_ll st = true) as Hl0 by (unfold st2 in Hl; by destruct c).
      destruct (Hll Hl0) as (k & rest & Ek & Hd). exists k, rest. rewrite Ed, (same_ses st1 st2 Em). by split.
    + unfold balanced. rewrite (same_pending st1 st2 Hsame). unfold st2. rewrite user_callback_answers.
      change (outs st1) with (outs st). rewrite Hp. change (waits (ses st i)) with (served c u). solve_Permutation.
    + unfold in_order, st2. rewrite user_callback_taken. change (outs st1) with (outs st). fold st2. rewrite app_nil_r.
      apply sublist_app; [done|]. unfold queued. rewrite Es, (same_ses st1 st2 Em).
      change (session_list st1) with (list_remove i (session_list st)). change (ses st1) with (ses st).
      unfold list_remove. clear. induction (session_list st) as [|x l IH]; [done|]. rewrite filter_cons. cbn [map].
      destruct (decide _); cbn [map]; by constructor.
Qed.

Lemma timer_ok E t st : sda_wf st -> step_ok [] [] st (timer_event E t st).
Proof.
  intros W. destruct t; cbn [timer_event].
  - assert (step_ok [] [] st (st <| emergency_timer := false |>)) as H1 by by apply step_same.
    apply (step_trans [] [] [] [] _ _ _ H1). apply radio_ok. exact (ok_wf _ _ _ _ H1).
  - by apply step_same.
  - by apply step_same.
  - destruct (gecko_chip E); [|by apply step_same]. destruct (soft_reset_ok E); apply step_same; try done;
      unfold sda_emit; cbn [outs modify]; by apply quiet_app.
Qed.

Lemma in_security_none st : in_security st = true ->
  lock st = true /\ forall j, j ∈ send_data_list st -> callback (ses st j) <> CB_appl.
Proof.
  unfold in_security. rewrite andb_true_iff, forallb_forall. intros [Hl Hf]. split; [done|]. intros j Hj Hc.
  specialize (Hf j ltac:(by apply list_elem_of_In)). by rewrite Hc in Hf.
Qed.

Lemma security_ok E status ts i st : sda_wf st -> current_session st = Some i -> in_security st = true ->
  step_ok [] [] st (ZW_SendDataAppl_CallbackEx E status i ts st).
Proof.
  intros [W Hll] Hc [Hl Hno]%in_security_none.
  destruct (callback_ex_ok E status i ts st W Hl Hc Hno) as (W' & Es & Ed & Ell & _ & Hne & Hd & Hp).
  set (st' := ZW_SendDataAppl_CallbackEx _ _ _ _ _) in *.
  assert (forall j, j ∈ session_list st ++ send_data_list st -> j <> i) as Hji.
  { intros j Hj ->. pose proof (wf_nodup _ W) as Hnd. unfold owned, held in Hnd. rewrite Hl, Hc in Hnd. cbn in Hnd.
    apply NoDup_app in Hnd as (_ & Hx & [Hy _]%NoDup_cons). set_solver. }
  split; [split; [done|]|exact Hp|].
  - intros Hx. rewrite Ell in Hx. destruct (Hll Hx) as (k & rest & Ek & Hdk). exists k, rest. rewrite Ed.
    split; [done|]. rewrite Hne; [done|]. apply Hji. rewrite Ek. set_solver.
  - apply app_same_order, app_same_ses; [done| |apply callback_ex_taken]. intros j Hj. rewrite Hne; [done|].
    apply Hji. set_solver.
Qed.

Lemma event_ok E st : sda_wf st -> step_ok [] [] st (process_event E st).
Proof.
  intros W. unfold process_event. destruct (events st) as [|e rest]; [by apply step_same|].
  assert (step_ok [] [] st (st <| events := rest |>)) as H1 by by apply step_same.
  apply (step_trans [] [] [] [] _ _ _ H1). pose proof (ok_wf _ _ _ _ H1) as W1. destruct e; [|by apply send_next_ll_ok].
  unfold send_next. change (lock (st <| events := rest |>)) with (lock st). destruct (lock st) eqn:Hl; [by apply step_same|].
  destruct (backoff_timer _); [by apply step_same|]. by apply send_first_ok.
Qed.

Lemma apply_ok E op st : sda_wf st -> step_ok (calls_of E op st) (frames_of E op st) st (sda_apply E op st).
Proof.
  intros W. destruct op as [p data f u|p data f u|h| |t|status ts|i|status ts|node|n].
  - by apply appl_ok.
  - assert (may_enter (caller_cb f) u st) as Hm by by destruct f.
    pose proof (proj1 (send_data_ok E p data (caller_cb f) u st W Hm)) as H. cbn [sda_apply frames_of].
    destruct f; cbn [calls_of caller_cb] in *; [exact H|]. by destruct (fst _).
  - by apply abort_ok.
  - by apply event_ok.
  - cbn [sda_apply calls_of frames_of]. destruct (timer_runs t st); [by apply timer_ok|by apply step_same].
  - by apply radio_ok.
  - cbn [sda_apply calls_of frames_of]. destruct (discard_timer (ses st i)) eqn:Hd; [by apply discard_ok|by apply step_same].
  - cbn [sda_apply calls_of frames_of]. destruct (current_session st) as [i|] eqn:Hc; [|by apply step_same].
    destruct (in_security st) eqn:Hs; [by apply security_ok|by apply step_same].
  - cbn [sda_apply calls_of frames_of]. unfold ZW_SendDataAppl_FrameRX_Notify.
    destruct (_ && _); by apply step_same.
  - by apply step_same.
Qed.

(** ** Runs *)

(** The callers whose frames were accepted in a run, and the frames the
    application queue accepted, in order. *)
Fixpoint accepted_calls (ops : list (sda_env * sda_op)) (st : sda) : list (Z * Z) :=
  match ops with
  | [] => []
  | (E, op) :: ops => calls_of E op st ++ accepted_calls ops (sda_apply E op st)
  end.

Fixpoint accepted_frames (ops : list (sda_env * sda_op)) (st : sda) : list (ts_param * list Z) :=
  match ops with
  | [] => []
  | (E, op) :: ops => frames_of E op st ++ accepted_frames ops (sda_apply E op st)
  end.

Lemma run_ok ops st : sda_wf st -> step_ok (accepted_calls ops st) (accepted_frames ops st) st (sda_run ops st).
Proof.
  revert st. induction ops as [|[E op] ops IH]; intros st W; [by apply step_same|]. cbn [accepted_calls accepted_frames].
  pose proof (apply_ok E op st W) as H1. apply (step_trans _ _ _ _ _ _ _ H1). exact (IH _ (ok_wf _ _ _ _ H1)).
Qed.

Lemma start_ses i : ses sda_start i = null_session.
Proof.
  unfold ses. cbn [mem sda_start]. destruct (replicate SESSIONS null_session !! i) as [s|] eqn:E; [|done].
  apply lookup_replicate in E as [-> _]. done.
Qed.

Lemma start_wf : sda_wf sda_start.
Proof.
  split; [|done]. constructor; try done.
  - constructor.
  - intros i Hi. by apply not_elem_of_nil in Hi.
  - intros i Hi. by apply not_elem_of_nil in Hi.
  - intros i Hi. by apply not_elem_of_nil in Hi.
  - intros i. by rewrite start_ses.
Qed.

(** C21. In every run each caller whose frame was accepted by one of the two queues is
    answered exactly once or still waits for a frame that is in a queue or in the
    hands of the security layers: the callers that were accepted are, counted with
    repetition, those that were answered and those that wait.  The blocks of the
    pool, the queues and the locks are consistent with each other throughout. *)
Theorem every_frame_answered_once (ops : list (sda_env * sda_op)) :
  let st := sda_run ops sda_start in
  sda_wf st /\ Permutation (accepted_calls ops sda_start) (answers (outs st) ++ pending st).
Proof.
  cbv zeta. destruct (run_ok ops sda_start start_wf) as [W B _]. split; [done|].
  unfold balanced in B. rewrite app_nil_r in B. rewrite <- B. solve_Permutation.
Qed.

(** In every run the application queue hands its frames on in the order in which
    it accepted them, each at most once and with its parameters and bytes
    unchanged, and the frames that wait come after all those handed on. *)
Theorem frames_taken_in_order (ops : list (sda_env * sda_op)) :
  let st := sda_run ops sda_start in
  taken (outs st) ++ queued st `sublist_of` accepted_frames ops sda_start.
Proof. exact (ok_order _ _ _ _ (run_ok ops sda_start start_wf)). Qed.
