(* ===== verification/SendDataLive.v ===== *)
(** * The transmit queues do not stall (src/src/transport/ZW_SendDataAppl.c)

    Whenever a frame waits, something that will move it on is under way: a posted
    event, a running timer or the answer of another layer.  This holds as long as
    the resend watchdog is switched off; with the watchdog the low level queue can
    stop.  Then the encapsulation a frame gets, and traces on which the module
    behaves in ways its comments do not mention. *)

From S2P Require Import Prelude Crc Nodemask SendDataAppl SendDataQueue.
#[local] Open Scope Z_scope.

(** ** What a waiting frame waits for *)

(** As long as no post was refused. *)
Definition posted (e : send_event) (st : sda) : Prop := post_refused st = false -> e ∈ events st.

Record live_app (st : sda) : Prop := {
  lv_app : session_list st <> [] -> lock st = true \/ backoff_timer st = true \/ posted SEND_EVENT_SEND_NEXT st;
  lv_resend : resend_counter st = 0 /\ resend_lockup_timer st = false
}.

Record live (st : sda) : Prop := {
  lv_wait : live_app st;
  lv_ll : send_data_list st <> [] -> lock_ll st = true \/ posted SEND_EVENT_SEND_NEXT_LL st;
  lv_timer : lock_ll st = true -> emergency_timer st = true
}.

(** Steps that leave nothing waiting for nothing in the application queue. *)
Record calm (st st' : sda) : Prop := {
  cm_session : session_list st' <> [] -> session_list st <> [];
  cm_send : send_data_list st' <> [] -> send_data_list st <> [];
  cm_events : forall e, posted e st -> posted e st';
  cm_backoff : backoff_timer st = true -> backoff_timer st' = true;
  cm_lock : lock st = true -> lock st' = true \/ backoff_timer st' = true \/ posted SEND_EVENT_SEND_NEXT st';
  cm_resend : resend_counter st' = resend_counter st /\ resend_lockup_timer st' = resend_lockup_timer st
}.

Definition same_ll (st st' : sda) : Prop := lock_ll st' = lock_ll st /\ emergency_timer st' = emergency_timer st.

#[export] Instance calm_preorder : PreOrder calm.
Proof.
  split.
  - intros st. by constructor; auto.
  - intros a b c [? ? ? ? Hl [? ?]] [? ? ? ? Hl' [? ?]]. constructor; auto; [|split; congruence].
    intros Hx. destruct (Hl Hx) as [?|[?|?]]; auto.
Qed.

Lemma calm_app st st' : calm st st' -> live_app st -> live_app st'.
Proof.
  intros [Hs _ He Hb Hl [E1 E2]] [Ha [R1 R2]]. split; [|by rewrite E1, E2]. intros Hx.
  destruct (Ha (Hs Hx)) as [?|[?|?]]; auto.
Qed.

Lemma calm_live st st' : calm st st' -> same_ll st st' -> live st -> live st'.
Proof.
  intros Hc [E1 E2] [Ha Hl Ht]. split; [by apply (calm_app st)| |by rewrite E1, E2].
  intros Hx. rewrite E1. destruct Hc as [_ Hs He _ _ _]. destruct (Hl (Hs Hx)); auto.
Qed.

(** A post that is not refused is posted, and nothing else is lost. *)
Lemma post_events e st : post_refused (process_post e st) = false ->
  post_refused st = false /\ events (process_post e st) = events st ++ [e].
Proof.
  change (post_refused (process_post e st)) with (post_refused st || events_full st).
  change (events (process_post e st)) with (if events_full st then events st else events st ++ [e]).
  intros [Hr ->]%orb_false_iff. done.
Qed.
Lemma post_posted e st : posted e (process_post e st).
Proof. intros [_ ->]%post_events. set_solver. Qed.
Lemma post_keeps e e' st : posted e' st -> posted e' (process_post e st).
Proof. intros Hp [Hr ->]%post_events. specialize (Hp Hr). set_solver. Qed.

Lemma user_callback_calm c status u st : calm st (user_callback c status u st) /\ same_ll st (user_callback c status u st).
Proof. destruct c; split; try done; constructor; auto. Qed.

Lemma callback_ex_calm E status i ts st :
  let st' := ZW_SendDataAppl_CallbackEx E status i ts st in calm st st' /\ same_ll st st'.
Proof.
  cbv zeta. destruct (lock st) eqn:Hl; [|unfold ZW_SendDataAppl_CallbackEx; rewrite Hl; done].
  rewrite callback_ex_eq by done. set (st1 := appl_finish E status i ts st).
  assert (calm st st1 /\ same_ll st st1) as [H1 H1'].
  { unfold st1, appl_finish. set (st2 := match ts with Some _ => _ | None => _ end).
    assert (calm st st2 /\ same_ll st st2) as [H2 H2'].
    { unfold st2. destruct ts; [destruct (_ && _)|]; split; try done; constructor; auto; intros; first [by apply post_keeps|right; right; by apply post_posted]. }
    clearbody st2. destruct (_ && _); [|done]. split; [|exact H2']. etrans; [exact H2|]. constructor; auto. }
  clearbody st1. set (st2 := memb_free i _).
  assert (calm st1 st2) as H2 by (constructor; auto).
  destruct (user_callback_calm (callback (ses st i)) status (user (ses st i)) st2) as [H3 [H3' H3'']].
  split; [by do 2 (etrans; [eassumption|])|]. destruct H1' as [? ?]. split; [by rewrite H3'|by rewrite H3''].
Qed.

Lemma session_callback_calm E c status u ts st :
  let st' := session_callback E c status u ts st in calm st st' /\ same_ll st st'.
Proof. destruct c; [done|apply callback_ex_calm|apply (user_callback_calm (CB_user f))]. Qed.

(** ** Every operation keeps the queues moving *)

Lemma radio_live E status ts st : live_app st -> live (send_data_callback_func E status ts st) \/
  lock_ll st = false /\ send_data_callback_func E status ts st = st \/ send_data_list st = [].
Proof.
  intros La. unfold send_data_callback_func. destruct (lock_ll st) eqn:Hl; [|by right; left]. cbn [negb].
  destruct (send_data_list st) as [|i rest] eqn:Ed; [by right; right|]. left. pose proof La as [_ [R1 R2]].
  destruct (status =? TRANSMIT_COMPLETE_FAIL).
  - change (resend_counter (st <| emergency_timer := false |>)) with (resend_counter st). rewrite R1. cbn [Z.eqb].
    change (send_data_list (st <| emergency_timer := false |>)) with (send_data_list st). rewrite Ed.
    set (c := callback _). set (u := user _). set (st1 := st <| emergency_timer := false |> <| send_data_list := rest |>).
    destruct (session_callback_calm E c status u ts st1) as [Hc _]. set (st2 := session_callback E c status u ts st1) in *.
    assert (calm st st1) as H1 by (constructor; auto; rewrite Ed; done).
    pose proof (calm_app st st2 (transitivity H1 Hc) La) as [La1 [Rc Rl]].
    split.
    + split; [|done]. intros Hx. destruct (La1 Hx) as [?|[?|?]]; auto. right. right. by apply (post_keeps SEND_EVENT_SEND_NEXT_LL).
    + intros _. right. apply (post_posted SEND_EVENT_SEND_NEXT_LL).
    + done.
  - set (st0 := st <| send_data_list := rest |>).
    set (st1 := if _ || _ then sda_emit _ st0 else st0).
    assert (calm st st1) as H1.
    { transitivity st0; [constructor; auto; rewrite Ed; done|]. unfold st1. destruct (_ || _); [constructor; auto|done]. }
    clearbody st1.
    set (st2 := st1 <| emergency_timer := false |> <| resend_lockup_timer := false |> <| soft_reset_timer := false |> <| resend_counter := 0 |>).
    set (st3 := memb_free i _). destruct (session_callback_calm E (callback (ses st i)) status (user (ses st i)) ts st3) as [Hc _].
    set (st4 := session_callback E _ _ _ _ st3) in *.
    assert (live_app st3) as L3.
    { pose proof (calm_app st st1 H1 La) as [La1 [Rc Rl]]. split; [exact La1|done]. }
    pose proof (calm_app st3 st4 Hc L3) as [La1 R4].
    split.
    + split; [|exact R4]. intros Hx. destruct (La1 Hx) as [?|[?|?]]; auto. right. right. by apply (post_keeps SEND_EVENT_SEND_NEXT_LL).
    + intros _. right. apply (post_posted SEND_EVENT_SEND_NEXT_LL).
    + done.
Qed.

Lemma post_calm e st : calm st (process_post e st) /\ same_ll st (process_post e st).
Proof. split; [|done]. constructor; auto. intros. by apply post_keeps. Qed.

Lemma radio_live_wf E status ts st : ll_wf st -> live_app st -> lock_ll st = true -> live (send_data_callback_func E status ts st).
Proof.
  intros Hw La Hl. destruct (Hw Hl) as (i & rest & Ed & _).
  destruct (radio_live E status ts st La) as [?|[[? _]|?]]; congruence || done.
Qed.

(** Only the events that were posted are of interest. *)
Lemma live_same st st' : session_list st' = session_list st -> send_data_list st' = send_data_list st ->
  lock st' = lock st -> lock_ll st' = lock_ll st -> events st' = events st -> post_refused st' = post_refused st -> backoff_timer st' = backoff_timer st ->
  emergency_timer st' = emergency_timer st -> resend_counter st' = resend_counter st ->
  resend_lockup_timer st' = resend_lockup_timer st -> live st -> live st'.
Proof. intros E1 E2 E3 E4 E5 E10 E6 E7 E8 E9 [[? ?] ? ?]. unfold posted in *. repeat split; unfold posted; rewrite ?E1, ?E2, ?E3, ?E4, ?E5, ?E10, ?E6, ?E7, ?E8, ?E9; try done; tauto. Qed.

Lemma post_live e st : live st -> live (process_post e st).
Proof. destruct (post_calm e st). by apply calm_live. Qed.

Lemma send_data_live E p data cb u st : live st -> live (snd (send_data E p data cb u st)).
Proof.
  intros L. unfold send_data, memb_alloc. destruct (list_find _ _) as [[i b]|]; [|done].
  unfold zw_frame_buffer_create. destruct (_ && _); cbn [snd].
  - set (st1 := if truth _ then _ else _). pose proof L as [[La Lr] Ll Lt].
    assert (session_list st1 = session_list st /\ lock st1 = lock st /\ lock_ll st1 = lock_ll st /\ (forall e, posted e st -> posted e st1) /\
      backoff_timer st1 = backoff_timer st /\ emergency_timer st1 = emergency_timer st /\
      resend_counter st1 = resend_counter st /\ resend_lockup_timer st1 = resend_lockup_timer st) as (E1 & E2 & E3 & E4 & E5 & E6 & E7 & E8)
      by (unfold st1; by destruct (truth _)).
    clearbody st1. split; [split|..].
    + intros Hx. cbn in Hx |- *. rewrite E1 in Hx. rewrite E2, E5. destruct (La Hx) as [?|[?|?]]; auto. right. right. by apply post_keeps, E4.
    + cbn. by rewrite E7, E8.
    + intros _. right. apply post_posted.
    + cbn. by rewrite E3, E6.
  - by apply (live_same st).
Qed.

Lemma send_endpoint_live E p data cb u st : live st -> live (snd (send_endpoint E p data cb u st)).
Proof.
  intros L. unfold send_endpoint. set (buf := endpoint_encap p data). destruct (_ || _); [done|].
  set (sch := ZW_SendData_scheme_select E p (Zlength data)).
  destruct (sch =? USE_CRC16); [by apply send_data_live|].
  destruct (sch =? NO_SCHEME); [destruct (has _ _); [done|by apply send_data_live]|].
  destruct (sch =? SECURITY_SCHEME_0); [destruct (has _ _); [done|by apply (live_same st)]|].
  destruct (is_s2_scheme sch); [by apply (live_same st)|done].
Qed.

Lemma send_first_live E st : resend_counter st = 0 /\ resend_lockup_timer st = false ->
  (send_data_list st <> [] -> lock_ll st = true \/ posted SEND_EVENT_SEND_NEXT_LL st) ->
  (lock_ll st = true -> emergency_timer st = true) -> live (send_first E st).
Proof.
  intros Lr Ll Lt. unfold send_first. destruct (session_list st) as [|i rest] eqn:Es.
  { split; [split; [|exact Lr]|exact Ll|exact Lt]. intros Hx. change (session_list st <> []) in Hx. by rewrite Es in Hx. }
  cbv zeta. set (st1 := sda_emit _ _).
  assert (live st1) as L1 by (split; [split; [by left|exact Lr]|exact Ll|exact Lt]).
  clearbody st1. set (s := ses _ i). pose proof (send_endpoint_live E (ses_param s) (ses_data s) CB_appl (Z.of_nat i) st1 L1) as L2.
  destruct (send_endpoint _ _ _ _ _ _) as [[] st2]; [exact L2|]. cbn [snd] in L2.
  destruct (callback_ex_calm E TRANSMIT_COMPLETE_ERROR i None st2) as [Hc Hs]. exact (calm_live _ _ Hc Hs L2).
Qed.

(** Taking an event off the queue and acting on it. *)
Lemma event_live E st : time_resend_serial E = 0 -> sda_wf st -> live st -> live (process_event E st).
Proof.
  intros Ht W L. unfold process_event. destruct (events st) as [|e rest] eqn:Ee; [done|]. destruct L as [[La [R1 R2]] Ll Lt].
  assert (forall x, x <> e -> posted x st -> posted x (st <| events := rest |>)) as Hev by (intros x Hx Hp Hr; specialize (Hp Hr); rewrite Ee in Hp; set_solver).
  destruct e.
  - unfold send_next. set (st0 := st <| events := rest |>). change (lock st0) with (lock st). change (backoff_timer st0) with (backoff_timer st).
    assert (send_data_list st <> [] -> lock_ll st = true \/ posted SEND_EVENT_SEND_NEXT_LL st0) as Hll.
    { intros Hx. destruct (Ll Hx) as [?|Hin]; [by left|]. right. by apply Hev. }
    destruct (lock st) eqn:El; [split; [split; [left; exact El|exact (conj R1 R2)]|exact Hll|exact Lt]|].
    destruct (backoff_timer st) eqn:Eb; [split; [split; [right; left; exact Eb|exact (conj R1 R2)]|exact Hll|exact Lt]|]. by apply send_first_live.
  - assert (session_list st <> [] -> lock st = true \/ backoff_timer st = true \/ posted SEND_EVENT_SEND_NEXT (st <| events := rest |>)) as Happ.
    { intros Hx. destruct (La Hx) as [?|[?|Hin]]; [by left|by right; left|]. right. right. by apply Hev. }
    unfold send_next_ll. set (st0 := st <| events := rest |> <| current_session_ll := _ |>). cbv zeta.
    change (send_data_list (st <| events := rest |>)) with (send_data_list st). change (lock_ll st0) with (lock_ll st).
    change (send_data_list st0) with (send_data_list st).
    destruct (send_data_list st) as [|i l] eqn:Ed.
    { split; [split; done| |done]. intros Hx. change (send_data_list st <> []) in Hx. by rewrite Ed in Hx. }
    destruct (lock_ll st) eqn:El; [split; [split; [exact Happ|exact (conj R1 R2)]|left; exact El|intros _; exact (Lt eq_refl)]|].
    change (ses st0 i) with (ses st i). set (p := ses_param (ses st i)). set (data := ses_data (ses st i)).
    set (st1 := if truth _ then _ else st0).
    match goal with |- context [if META_DATA_MAX_DATA_SIZE <=? Zlength data then ?a else ?b] => set (r := if META_DATA_MAX_DATA_SIZE <=? Zlength data then a else b) end.
    assert (session_list (snd r) = session_list st /\ send_data_list (snd r) = i :: l /\ lock (snd r) = lock st /\
      lock_ll (snd r) = true /\ (posted SEND_EVENT_SEND_NEXT (st <| events := rest |>) -> posted SEND_EVENT_SEND_NEXT (snd r)) /\ backoff_timer (snd r) = backoff_timer st /\
      resend_counter (snd r) = 0 /\ resend_lockup_timer (snd r) = false) as (E1 & E2 & E3 & E4 & E5 & E6 & E7 & E8).
    { assert (session_list st1 = session_list st /\ send_data_list st1 = i :: l /\ lock st1 = lock st /\
        (posted SEND_EVENT_SEND_NEXT (st <| events := rest |>) -> posted SEND_EVENT_SEND_NEXT st1) /\ backoff_timer st1 = backoff_timer st /\ resend_counter st1 = 0 /\ resend_lockup_timer st1 = false) as Hst1
        by (unfold st1; destruct (truth _); done).
      clearbody st1. unfold r. rewrite Ht. change (truth 0) with false. rewrite andb_false_r.
      destruct (META_DATA_MAX_DATA_SIZE <=? Zlength data); [destruct (SupportsCmdClass E _ _)|destruct (negb _)]; cbn; tauto. }
    destruct r as [rc st2]. cbn [snd] in *.
    assert (live_app st2) as L2 by (split; [rewrite E1, E3, E6; intros Hx; destruct (Happ Hx) as [?|[?|?]]; auto|done]). destruct rc.
    + split; [|intros _; left; exact E4|done]. destruct L2 as [La2 Lr2]. by split.
    + assert (lock_ll st2 = true /\ send_data_list st2 <> []) as [Hl2 Hn2] by (rewrite E2; done).
      destruct (radio_live E TRANSMIT_COMPLETE_FAIL None st2 L2) as [?|[[? _]|?]]; congruence || done.
Qed.

Lemma apply_live E op st : time_resend_serial E = 0 -> sda_wf st -> live st -> live (sda_apply E op st).
Proof.
  intros Ht W L. pose proof L as [[La [R1 R2]] Ll Lt]. destruct op as [p data f u|p data f u|h| |t|status ts|i|status ts|node|n]; cbn [sda_apply].
  - unfold ZW_SendDataAppl, memb_alloc. destruct (list_find _ _) as [[i b]|]; [|done].
    unfold zw_frame_buffer_create. set (st1 := if _ && _ then upd_ses _ _ _ else _).
    assert (live st1) as L1 by (unfold st1; destruct (_ && _); by apply (live_same st)). clearbody st1.
    destruct (_ && _); cbn [snd]; [|by apply (live_same st1)]. destruct L1 as [[La1 Lr1] Ll1 Lt1]. split; [split|..].
    + intros _. right. right. apply post_posted.
    + exact Lr1.
    + intros Hx. cbn in Hx |- *. destruct (Ll1 Hx); [by left|]. right. by apply post_keeps.
    + exact Lt1.
  - by apply send_data_live.
  - unfold ZW_SendDataApplAbort. destruct (_ || _); [done|]. case_bool_decide; [by apply (live_same st)|].
    case_bool_decide as Hi; [|done]. set (st1 := memb_free _ _). destruct (user_callback_calm (callback (ses st (Z.to_nat (h - 1)))) TRANSMIT_COMPLETE_FAIL (user (ses st (Z.to_nat (h - 1)))) st1) as [Hc Hs].
    apply (calm_live st1); [done|done|]. split; [split; [|exact (conj R1 R2)]|exact Ll|exact Lt].
    intros _. apply La. intros En. rewrite En in Hi. by apply not_elem_of_nil in Hi.
  - by apply event_live.
  - destruct (timer_runs t st) eqn:Hr; [|done]. destruct t; cbn [timer_event timer_runs] in *.
    + destruct (lock_ll st) eqn:Hl.
      * apply radio_live_wf; [exact (proj2 W)|split; [exact La|exact (conj R1 R2)]|exact Hl].
      * unfold send_data_callback_func. change (lock_ll (st <| emergency_timer := false |>)) with (lock_ll st). rewrite Hl. cbn [negb].
        split; [split; [exact La|exact (conj R1 R2)]|intros Hx; destruct (Ll Hx); [done|by right]|]. intros Hx. change (lock_ll st = true) in Hx. congruence.
    + split; [split; [|exact (conj R1 R2)]|..]; [intros _; right; right; apply post_posted|intros Hx; destruct (Ll Hx); [by left|right; by apply post_keeps]|exact Lt].
    + congruence.
    + destruct (gecko_chip E); [|by apply (live_same st)]. set (st1 := st <| soft_reset_timer := false |> <| resend_lockup_timer := false |> <| resend_counter := 0 |>).
      assert (live st1) as L1 by (split; [split; [exact La|done]|exact Ll|exact Lt]). clearbody st1.
      destruct (soft_reset_ok E); [|by apply (live_same st1)]. apply (live_same (process_post SEND_EVENT_SEND_NEXT_LL st1)); try done. by apply post_live.
  - destruct (lock_ll st) eqn:Hl; [by apply radio_live_wf; [apply W|..]|]. unfold send_data_callback_func. by rewrite Hl.
  - destruct (discard_timer (ses st i)); [|done]. unfold do_discard_timeout_memb. set (st1 := upd_ses i _ _).
    destruct (session_callback_calm E (callback (ses st i)) TRANSMIT_COMPLETE_FAIL (user (ses st i)) None st1) as [Hc Hs].
    apply (calm_live st1); [done|done|]. split; [split; [exact La|exact (conj R1 R2)]| |exact Lt].
    intros Hx. apply Ll. intros En. apply Hx. change (list_remove i (send_data_list st) = []). by rewrite En.
  - destruct (current_session st) as [i|]; [|done]. destruct (in_security st); [|done].
    destruct (callback_ex_calm E status i ts st) as [Hc Hs]. by apply (calm_live st).
  - unfold ZW_SendDataAppl_FrameRX_Notify. destruct (_ && _); [|done].
    split; [split; [|exact (conj R1 R2)]|..]; [intros _; right; right; apply post_posted|intros Hx; destruct (Ll Hx); [by left|right; by apply post_keeps]|exact Lt].
  - by apply (live_same st).
Qed.

(** C35. With the resend watchdog off (time_resend_serial is 0), at every point of every
    run in which the kernel had room for each event the module posted, a frame in
    the application queue waits for the session that is under way, for the back-off
    timer or for an event that is already posted, and a frame in the low level queue
    waits for the radio, whose answer a running emergency timer replaces if it
    never comes, or for an event that is already posted. *)
Theorem queues_never_stall (ops : list (sda_env * sda_op)) (st := sda_run ops sda_start) :
  Forall (fun eo => time_resend_serial (fst eo) = 0) ops -> post_refused st = false ->
  (session_list st <> [] -> lock st = true \/ backoff_timer st = true \/ SEND_EVENT_SEND_NEXT ∈ events st) /\
  (send_data_list st <> [] -> lock_ll st = true /\ emergency_timer st = true \/ SEND_EVENT_SEND_NEXT_LL ∈ events st).
Proof.
  intros Ho Hp. subst st.
  assert (forall st, sda_wf st -> live st -> live (sda_run ops st)) as H.
  { clear Hp. induction Ho as [|[E op] ops Ht Ho IH]; intros st W L; [done|]. cbn. apply IH; [exact (ok_wf _ _ _ _ (apply_ok E op st W))|].
    by apply apply_live. }
  destruct (H sda_start start_wf) as [[La _] Ll Lt]; [by repeat split|]. split; intros Hx.
  - destruct (La Hx) as [?|[?|?]]; auto.
  - destruct (Ll Hx); auto.
Qed.

(** ** Concrete runs *)

Module Traces.

(** An environment: the gateway is node 1, nobody supports anything, every layer
    takes what it is given. *)
Definition env0 : sda_env :=
  mkSdaEnv 1 (fun _ => 0) (fun _ _ => false) (fun _ _ => false) true (fun _ _ => true) (fun _ _ => true)
    (fun _ _ => true) (fun _ _ => true) (fun _ _ => true) 0 0 false true.

Definition to_node (snode dnode : Z) : ts_param := mkTs snode dnode 0 0 0x25 0 AUTO_SCHEME [] false false false 0.

(** Two frames, the second waits while the first is on the air. *)
Definition two_frames : list (sda_env * sda_op) :=
  map (pair env0) [Op_appl (to_node 1 7) [0x20; 1; 255] (Some 10) 1; Op_appl (to_node 1 8) [0x20; 2] (Some 11) 2;
    Op_event; Op_event; Op_event].

End Traces.

Lemma queues_never_stall_witness :
  Forall (fun eo => time_resend_serial (fst eo) = 0) Traces.two_frames /\ post_refused (sda_run Traces.two_frames sda_start) = false /\
  length (session_list (sda_run Traces.two_frames sda_start)) = 1%nat /\
  length (send_data_list (sda_run Traces.two_frames sda_start)) = 1%nat /\
  (send_data_list (sda_run Traces.two_frames sda_start) <> [] ->
    lock_ll (sda_run Traces.two_frames sda_start) = true /\ emergency_timer (sda_run Traces.two_frames sda_start) = true \/
    SEND_EVENT_SEND_NEXT_LL ∈ events (sda_run Traces.two_frames sda_start)).
Proof.
  assert (Forall (fun eo => time_resend_serial (fst eo) = 0) Traces.two_frames) as H by (repeat (constructor; [reflexivity|]); constructor).
  assert (post_refused (sda_run Traces.two_frames sda_start) = false) as Hp by reflexivity.
  split; [exact H|]. split; [exact Hp|]. split; [reflexivity|]. split; [reflexivity|]. exact (proj2 (queues_never_stall Traces.two_frames H Hp)).
Defined.

(** The run shows one frame on the air and one waiting. *)
Example two_frames_answered :
  answers (outs (sda_run (Traces.two_frames ++ map (pair Traces.env0) [Op_radio 0 None; Op_event; Op_event; Op_event; Op_radio 1 None]) sda_start))
  = [(10, 1); (11, 2)].
Proof. vm_compute. reflexivity. Qed.

(** An environment in which some settings differ. *)
Definition with_env (resend : Z) (classes : Z -> Z -> bool) (mallocs : bool) : sda_env :=
  mkSdaEnv 1 (fun _ => 0) classes (fun _ _ => false) mallocs (fun _ _ => true) (fun _ _ => true)
    (fun _ _ => true) (fun _ _ => true) (fun _ _ => true) 0 resend false true.

(** A frame that is queued while the event array of the kernel is full: the event
    is dropped, and when the other processes have handled theirs the frame waits
    with no session, no timer and no event, until someone else sends a frame. *)
Theorem refused_post_stalls :
  let st := sda_run (map (pair Traces.env0) [Op_other_events 32; Op_appl (Traces.to_node 1 7) [0x20; 1; 255] (Some 10) 1; Op_other_events 0; Op_event]) sda_start in
  session_list st = [0%nat] /\ lock st = false /\ backoff_timer st = false /\ events st = [] /\ answers (outs st) = [].
Proof. vm_compute. repeat split. Qed.

(** With the watchdog on and a chip that is not a Gecko, a bridged frame whose
    answer never comes stays in the low level queue with nothing to move it on:
    no lock, no timer and no event. *)
Theorem watchdog_can_stall :
  let ops := map (pair (with_env 30 (fun _ _ => false) true))
    [Op_send_data (Traces.to_node 3 7) [0x20; 1; 255] (Some 10) 1; Op_event;
     Op_timer T_resend_lockup; Op_event; Op_timer T_emergency; Op_timer T_soft_reset] in
  let st := sda_run ops sda_start in
  send_data_list st = [0%nat] /\ lock_ll st = false /\ events st = [] /\ answers (outs st) = [] /\
  emergency_timer st = false /\ resend_lockup_timer st = false /\ soft_reset_timer st = false.
Proof. vm_compute. repeat split. Qed.

(** A frame of 44 to 47 bytes that would travel in one radio frame is wrapped in
    the checksum command, grows past the limit and, for a node without the
    transport service, is given up without being sent. *)
Theorem checksum_outgrows_radio_frame :
  let E := with_env 0 (fun _ c => c =? COMMAND_CLASS_CRC_16_ENCAP) true in
  let frame n := [0x20; 1] ++ repeat 0 n in
  let run n := sda_run (map (pair E) [Op_appl (Traces.to_node 1 7) (frame n) (Some 10) 1; Op_event; Op_event]) sda_start in
  let sent st := omap (fun o => match o with O_send_data _ d => Some (Zlength d) | _ => None end) (outs st) in
  let results st := omap (fun o => match o with O_callback _ _ r => Some r | _ => None end) (outs st) in
  (sent (run 41%nat) = [47] /\ results (run 41%nat) = []) /\
  (sent (run 42%nat) = [] /\ results (run 42%nat) = [TRANSMIT_COMPLETE_FAIL]) /\
  (sent (run 45%nat) = [] /\ results (run 45%nat) = [TRANSMIT_COMPLETE_FAIL]).
Proof. vm_compute. repeat split. Qed.

(** A frame buffer that cannot be made costs send_data the block it took: eight
    failures leave the pool empty for good. *)
Theorem failed_buffers_empty_the_pool :
  let fail := (with_env 0 (fun _ _ => false) false, Op_send_data (Traces.to_node 1 7) [0x20; 1] (Some 10) 1) in
  let st := sda_run (repeat fail 8) sda_start in
  owned st = [] /\ fst (memb_alloc st) = None.
Proof. vm_compute. repeat split. Qed.

(** The mark that asks for a new nonce exchange after a firmware activation stays
    in a block whose transmission failed, and takes effect for the next frame that
    gets the block, whatever its destination. *)
Theorem reset_mark_outlives_its_frame :
  let st := sda_run (map (pair Traces.env0)
    [Op_appl (Traces.to_node 1 7) [COMMAND_CLASS_FIRMWARE_UPDATE_MD_V4; FIRMWARE_UPDATE_ACTIVATION_SET_V4] (Some 10) 1;
     Op_event; Op_event; Op_radio 1 None; Op_event; Op_event;
     Op_appl (Traces.to_node 1 9) [0x20; 1; 255] (Some 11) 2; Op_event; Op_event; Op_radio 0 None]) sda_start in
  omap (fun o => match o with O_reset_span n => Some n | _ => None end) (outs st) = [9].
Proof. vm_compute. reflexivity. Qed.

(** ** The encapsulation of a frame *)

(** The security classes, their marks in the node database and their schemes. *)
Definition security_classes : list (Z * Z) :=
  [(NODE_FLAG_SECURITY2_ACCESS, SECURITY_SCHEME_2_ACCESS);
   (NODE_FLAG_SECURITY2_AUTHENTICATED, SECURITY_SCHEME_2_AUTHENTICATED);
   (NODE_FLAG_SECURITY2_UNAUTHENTICATED, SECURITY_SCHEME_2_UNAUTHENTICATED);
   (NODE_FLAG_SECURITY0, SECURITY_SCHEME_0)].

Lemma has_land a b f s : (f, s) ∈ security_classes -> has (Z.land a b) f = has a f && has b f.
Proof.
  intros Hf. assert (exists k, 0 <= k /\ f = 2 ^ k) as (k & Hk & ->).
  { unfold security_classes in Hf. rewrite !elem_of_cons in Hf.
    destruct Hf as [[= -> ->]|[[= -> ->]|[[= -> ->]|[[= -> ->]|Hf]]]]; [by exists 6|by exists 5|by exists 4|by exists 0|].
    by apply not_elem_of_nil in Hf. }
  rewrite !has_pow2 by done. apply Z.land_spec.
Qed.

Lemma highest_scheme_spec m :
  let s := highest_scheme m in
  ((exists f, (f, s) ∈ security_classes /\ has m f = true) \/ s = NO_SCHEME) /\
  (forall f t, (f, t) ∈ security_classes -> has m f = true -> s <> NO_SCHEME /\ scheme_prio t <= scheme_prio s).
Proof.
  cbv zeta. unfold highest_scheme.
  destruct (has m NODE_FLAG_SECURITY2_ACCESS) eqn:E1; [|destruct (has m NODE_FLAG_SECURITY2_AUTHENTICATED) eqn:E2;
    [|destruct (has m NODE_FLAG_SECURITY2_UNAUTHENTICATED) eqn:E3; [|destruct (has m NODE_FLAG_SECURITY0) eqn:E4]]].
  all: split; [first [by right|left; eexists; split; [|eassumption]; unfold security_classes; set_solver]|].
  all: intros f t; unfold security_classes; rewrite !elem_of_cons; intros Hf Hm;
    destruct Hf as [[= -> ->]|[[= -> ->]|[[= -> ->]|[[= -> ->]|Hf]]]]; try congruence; try (by apply not_elem_of_nil in Hf);
    split; first [discriminate|vm_compute; discriminate].
Qed.

(** A frame of at least two bytes that leaves the choice of the encapsulation to
    the gateway, between nodes that are not marked as known bad, is sent with the
    highest security class both nodes hold; only if they share none is it sent
    without security, then with a checksum exactly if the destination supports it. *)
Theorem highest_common_class_chosen (E : sda_env) (p : ts_param) (len : Z) :
  scheme p = AUTO_SCHEME -> 2 <= u8 len ->
  has (GetCacheEntryFlag E (dnode p)) NODE_FLAG_KNOWN_BAD = false ->
  has (GetCacheEntryFlag E (MyNodeID E)) NODE_FLAG_KNOWN_BAD = false ->
  let shared f := has (GetCacheEntryFlag E (dnode p)) f && has (GetCacheEntryFlag E (MyNodeID E)) f in
  let s := ZW_SendData_scheme_select E p len in
  (forall f t, (f, t) ∈ security_classes -> shared f = true -> scheme_prio t <= scheme_prio s /\ s <> NO_SCHEME /\ s <> USE_CRC16) /\
  ((exists f, (f, s) ∈ security_classes /\ shared f = true) \/
   s = if SupportsCmdClass E (dnode p) COMMAND_CLASS_CRC_16_ENCAP then USE_CRC16 else NO_SCHEME).
Proof.
  intros Hs Hl Hd Hm. cbv zeta. unfold ZW_SendData_scheme_select. rewrite Hd, Hm, Hs.
  rewrite (proj2 (Z.ltb_ge _ _)) by lia. rewrite Z.eqb_refl. cbn [orb].
  set (a := GetCacheEntryFlag E (dnode p)). set (b := GetCacheEntryFlag E (MyNodeID E)).
  destruct (highest_scheme_spec (Z.land a b)) as [Hex Hmax]. set (h := highest_scheme (Z.land a b)) in *.
  assert (forall g t, (g, t) ∈ security_classes -> has a g && has b g = true -> has (Z.land a b) g = true) as Hsh.
  { intros g t Hg. by rewrite (has_land a b g t Hg). }
  destruct (h =? NO_SCHEME) eqn:Eh.
  - apply Z.eqb_eq in Eh. split.
    + intros g t Hg Hboth. destruct (Hmax g t Hg (Hsh g t Hg Hboth)). congruence.
    + right. rewrite Eh. cbn [andb]. by destruct (SupportsCmdClass _ _ _).
  - apply Z.eqb_neq in Eh. cbn [andb]. destruct Hex as [[f [Hf Hff]]|?]; [|congruence]. split.
    + intros g t Hg Hboth. destruct (Hmax g t Hg (Hsh g t Hg Hboth)) as [? ?]. split; [done|]. split; [done|].
      intros Ec. rewrite Ec in Hf. unfold security_classes in Hf. rewrite !elem_of_cons in Hf.
      destruct Hf as [[= _]|[[= _]|[[= _]|[[= _]|Hf]]]]. by apply not_elem_of_nil in Hf.
    + left. exists f. split; [done|]. by rewrite <- (has_land a b f h Hf).
Qed.

Lemma highest_common_class_chosen_witness :
  let E := mkSdaEnv 1 (fun n => if n =? 1 then 0x71 else 0x31) (fun _ _ => true) (fun _ _ => false) true (fun _ _ => true)
    (fun _ _ => true) (fun _ _ => true) (fun _ _ => true) (fun _ _ => true) 0 0 false true in
  ZW_SendData_scheme_select E (Traces.to_node 1 7) 3 = SECURITY_SCHEME_2_AUTHENTICATED /\
  ((exists f, (f, ZW_SendData_scheme_select E (Traces.to_node 1 7) 3) ∈ security_classes /\
     has (GetCacheEntryFlag E 7) f && has (GetCacheEntryFlag E 1) f = true) \/
   ZW_SendData_scheme_select E (Traces.to_node 1 7) 3 =
     if SupportsCmdClass E 7 COMMAND_CLASS_CRC_16_ENCAP then USE_CRC16 else NO_SCHEME).
Proof.
  intros E. split; [reflexivity|].
  exact (proj2 (highest_common_class_chosen E (Traces.to_node 1 7) 3 eq_refl ltac:(vm_compute; discriminate) eq_refl eq_refl)).
Defined.
