(* ===== verification/Sec0.v ===== *)
(** * Security S0 (src/src/transport/Security_Scheme0.c, ZW_PRNG.c)

    S0 seals a message with a nonce the receiver gave out: the sender asks for
    one, encrypts in output feedback mode, authenticates with a chained code and
    sends; a long message takes two frames and two nonces.

    The block cipher is a parameter, because nothing but the length of its output
    matters here; the source takes the one of rijndael-alg-fst.c.  Frames handed
    to the low level queue and callbacks are outputs.  Pointers to messages are
    the bytes that are left, with the length as the byte the source keeps.
    Timers are flags that say whether they run. *)

From S2P Require Import Prelude Crc Nodemask SendDataAppl.
#[local] Open Scope Z_scope.

(** ** Constants *)

Definition NONCE_TABLE_SIZE : nat := 15.
Definition NUM_TX_SESSIONS : nat := 2.
Definition MAX_ENCRYPTED_MSG_SIZE : Z := 128.
Definition MAX_RXSESSIONS : nat := 2.
Definition NONCE_TIMEOUT : Z := 10.
Definition NONCE_BLACKLIST_SIZE : nat := 10.
Definition RX_TIMEOUT : Z := 10000.
Definition SEQUENCED_BIT_MASK : Z := 0x10.
Definition SECOND_FRAME_BIT_MASK : Z := 0x20.
Definition SECURITY_MESSAGE_ENCAPSULATION : Z := 0x81.
Definition SECURITY_MESSAGE_ENCAPSULATION_NONCE_GET : Z := 0xC1.
Definition SECURITY_NONCE_GET : Z := 0x40.
Definition SECURITY_NONCE_REPORT : Z := 0x80.
Definition NETWORK_KEY_SET : Z := 0x06.

(** ** State *)

Inductive tx_state_t := NONCE_GET | NONCE_GET_SENT | ENC_MSG | ENC_MSG_SENT | ENC_MSG2 | ENC_MSG2_SENT | TX_DONE | TX_FAIL.
#[export] Instance tx_state_eq : EqDecision tx_state_t.
Proof. solve_decision. Defined.

(** A member of the callers' choice, the function and its argument. *)
Record sec_tx_session := mkTx {
  tx_param : ts_param; tx_data : list Z; tx_data_len : Z; tx_state : tx_state_t; tx_code : Z; tx_timer : bool;
  crypted_msg : list Z; tx_seq : Z; tx_user : Z; tx_callback : option Z; tx_ext_status : Z
}.
#[export] Instance tx_eta : EtaRecord sec_tx_session := fun s =>
  mkTx (tx_param s) (tx_data s) (tx_data_len s) (tx_state s) (tx_code s) (tx_timer s) (crypted_msg s) (tx_seq s)
    (tx_user s) (tx_callback s) (tx_ext_status s).

Record nonce_t := mkNonce { n_src : Z; n_dst : Z; n_timeout : Z; reply_nonce : bool; nonce : list Z }.
#[export] Instance nonce_eta : EtaRecord nonce_t := fun n => mkNonce (n_src n) (n_dst n) (n_timeout n) (reply_nonce n) (nonce n).

Record nonce_blacklist_t := mkBl { bl_nonce : list Z; bl_src : Z; bl_dst : Z; in_use : bool }.

Inductive rx_session_state_t := RX_INIT | RX_ENC1 | RX_ENC2 | RX_SESSION_DONE.
#[export] Instance rx_state_eq : EqDecision rx_session_state_t.
Proof. solve_decision. Defined.

Record rx_session_t := mkRx { rx_snode : Z; rx_dnode : Z; rx_state : rx_session_state_t; seq_nr : Z; msg : list Z; msg_len : Z; rx_timeout : Z }.
#[export] Instance rx_eta : EtaRecord rx_session_t := fun s =>
  mkRx (rx_snode s) (rx_dnode s) (rx_state s) (seq_nr s) (msg s) (msg_len s) (rx_timeout s).

(** The callbacks S0 hands to the low level queue. *)
Inductive s0_cb := Noce_get_callback (i : nat) | Msg1_callback (i : nat) | Msg2_callback (i : nat) | No_callback.

Inductive s0_out :=
| S0_send (p : ts_param) (frame : list Z) (cb : s0_cb)
| S0_answer (f user status : Z) (ext : option Z)
| S0_hangs.

Record sec0 := mkSec0 {
  tx_sessions : list sec_tx_session; nonce_table : list nonce_t;
  nonce_blacklist : list nonce_blacklist_t; blacklist_next_elem : nat;
  aes_key : list Z; aes_iv : list Z; enckey : list Z; authkey : list Z; enckeyz : list Z; authkeyz : list Z;
  rxsessions : list rx_session_t; seq_static : Z; prngState : list Z; s0_outs : list s0_out
}.
#[export] Instance sec0_eta : EtaRecord sec0 := fun s =>
  mkSec0 (tx_sessions s) (nonce_table s) (nonce_blacklist s) (blacklist_next_elem s) (aes_key s) (aes_iv s)
    (enckey s) (authkey s) (enckeyz s) (authkeyz s) (rxsessions s) (seq_static s) (prngState s) (s0_outs s).

(** What the surroundings answer: the node database, whether the low level queue
    takes a frame, whether an inclusion runs, the clock in milliseconds and the
    number of draws after which the model gives up on the generator. *)
Record s0_env := mkS0Env {
  s0_sda : sda_env; s0_takes : ts_param -> list Z -> bool; secure_learn_active : bool; clock_time : Z; tries : nat
}.

Definition null_tx : sec_tx_session := mkTx null_ts [] 0 NONCE_GET 0 false (zeros 46) 0 0 None 0.
Definition null_nonce : nonce_t := mkNonce 0 0 0 false (zeros 8).
Definition null_bl : nonce_blacklist_t := mkBl (zeros 8) 0 0 false.
Definition null_rx : rx_session_t := mkRx 0 0 RX_INIT 0 (zeros 128) 0 0.

Definition tx_at (st : sec0) (i : nat) : sec_tx_session := default null_tx (tx_sessions st !! i).
Definition upd_tx (i : nat) (f : sec_tx_session -> sec_tx_session) (st : sec0) : sec0 :=
  st <| tx_sessions := alter f i (tx_sessions st) |>.
Definition rx_at (st : sec0) (i : nat) : rx_session_t := default null_rx (rxsessions st !! i).
Definition upd_rx (i : nat) (f : rx_session_t -> rx_session_t) (st : sec0) : sec0 :=
  st <| rxsessions := alter f i (rxsessions st) |>.
Definition s0_emit (o : s0_out) (st : sec0) : sec0 := st <| s0_outs := s0_outs st ++ [o] |>.

(** ** Nonces *)

(** A live nonce sent from [src] to [dst]. *)
Definition nonce_for (src dst : Z) (n : nonce_t) : bool :=
  (0 <? n_timeout n) && (n_src n =? src) && (n_dst n =? dst).

(** The first entry of the table with a property, and its number. *)
Definition find_nonce (f : nonce_t -> bool) (t : list nonce_t) : option (nat * nonce_t) := list_find (fun n => f n = true) t.

Definition get_nonce (src dst ri : Z) (any_nonce : bool) (t : list nonce_t) : option (list Z) :=
  match find_nonce (fun n => nonce_for src dst n && (any_nonce || (rd (nonce n) 0 =? ri))) t with
  | Some (_, n) => Some (nonce n)
  | None => None
  end.

Definition nonce_clear (src dst : Z) (t : list nonce_t) : list nonce_t :=
  map (fun n => if truth (n_timeout n) && (n_src n =? src) && (n_dst n =? dst) then n <| n_timeout := 0 |> else n) t.

Definition register_nonce (src dst : Z) (reply : bool) (v : list Z) (t : list nonce_t) : bool * list nonce_t :=
  match (if reply then find_nonce (fun n => reply_nonce n && nonce_for src dst n) t else None) with
  | Some (i, _) => (true, alter (fun n => n <| nonce := v |> <| n_timeout := NONCE_TIMEOUT |>) i t)
  | None =>
      match find_nonce (fun n => n_timeout n =? 0) t with
      | Some (i, _) => (true, <[i := mkNonce src dst NONCE_TIMEOUT reply v]> t)
      | None => (false, t)
      end
  end.

Definition has_three_nonces (src dst : Z) (t : list nonce_t) : bool :=
  Z.of_nat (length (filter (fun n => nonce_for src dst n = true) t)) =? 3.

Definition nonce_timer_timeout (t : list nonce_t) : list nonce_t :=
  map (fun n => if 0 <? n_timeout n then n <| n_timeout := n_timeout n - 1 |> else n) t.

Definition sec0_is_nonce_blacklisted (src dst : Z) (v : list Z) (b : list nonce_blacklist_t) : bool :=
  existsb (fun e => in_use e && bool_decide (bl_nonce e = v) && (bl_src e =? src) && (bl_dst e =? dst)) b.

Definition sec0_blacklist_add_nonce (src dst : Z) (v : list Z) (st : sec0) : sec0 :=
  st <| nonce_blacklist := <[blacklist_next_elem st := mkBl v src dst true]> (nonce_blacklist st) |>
     <| blacklist_next_elem := ((blacklist_next_elem st + 1) mod NONCE_BLACKLIST_SIZE)%nat |>.

(** The first session between two nodes; the source compares the node numbers
    with their low bytes. *)
Definition get_tx_session_by_node (snode_ dnode_ : Z) (st : sec0) : option nat :=
  match list_find (fun s => dnode (tx_param s) = u8 dnode_ /\ snode (tx_param s) = u8 snode_) (tx_sessions st) with
  | Some (i, _) => Some i
  | None => None
  end.

Definition is_free (now : Z) (e : rx_session_t) : bool :=
  bool_decide (rx_state e = RX_SESSION_DONE) || (rx_timeout e <? now).

Definition get_rx_session_by_nodes (now snode_ dnode_ : Z) (st : sec0) : option nat :=
  match list_find (fun e => is_free now e = false /\ rx_dnode e = dnode_ /\ rx_snode e = snode_) (rxsessions st) with
  | Some (i, _) => Some i
  | None => None
  end.

Definition new_rx_session (now snode_ dnode_ : Z) (st : sec0) : option nat * sec0 :=
  match list_find (fun e => is_free now e = true) (rxsessions st) with
  | Some (i, _) =>
      (Some i, upd_rx i (fun e => e <| rx_snode := snode_ |> <| rx_dnode := dnode_ |> <| rx_timeout := now + RX_TIMEOUT |>) st)
  | None => (None, st)
  end.

Definition free_rx_session (i : nat) (st : sec0) : sec0 := upd_rx i (fun e => e <| rx_state := RX_SESSION_DONE |>) st.

(** A block of the cipher. *)
Section Cipher.
Context (aes : list Z -> list Z -> list Z).

(** ** Modes of operation *)

(** Output feedback, from byte [i] of the message on: the text and the feedback
    register. *)
Fixpoint aes_ofb (key iv : list Z) (i : nat) (data : list Z) : list Z * list Z :=
  match data with
  | [] => ([], iv)
  | d :: data =>
      let iv := if Nat.land i 0xF =? 0 then aes key iv else iv in
      let '(rest, iv') := aes_ofb key iv (S i) data in
      (Z.lxor d (rd iv (Z.of_nat (Nat.land i 0xF))) :: rest, iv')
  end%nat.

Fixpoint cbc_mac_loop (key : list Z) (i : nat) (data mac : list Z) : list Z :=
  match data with
  | [] => mac
  | d :: data =>
      let k := Z.of_nat (Nat.land i 0xF) in
      let mac := wr mac k (Z.lxor (rd mac k) d) in
      let mac := if (Nat.land i 0xF =? 0xF)%nat then aes key mac else mac in
      cbc_mac_loop key (S i) data mac
  end.

Definition aes_cbc_mac (key iv data : list Z) : list Z :=
  let mac := cbc_mac_loop key 0 data (aes key iv) in
  if (Nat.land (length data) 0xF =? 0)%nat then mac else aes key mac.

(** ** The random generator *)

Definition xor16 (a b : list Z) : list Z := zip_with Z.lxor a b.

(** PRNGUpdate mixes in two blocks of the operating system's generator. *)
Definition prng_hash (k h : list Z) : list Z := xor16 (aes k h) h.
Definition PRNGUpdate (k1 k2 : list Z) (s : list Z) : list Z :=
  let h := prng_hash k2 (prng_hash k1 (replicate 16 0xA5)) in
  aes (xor16 s h) (replicate 16 0x36).
Definition InitPRNG (k1 k2 : list Z) : list Z := PRNGUpdate k1 k2 (zeros 16).

(** Eight bytes and the next state. *)
Definition PRNGOutput (s : list Z) : list Z * list Z :=
  (take 8 (aes s (replicate 16 0x5C)), aes s (replicate 16 0x36)).

(** Draw until no live nonce from [src] to [dst] starts with the same byte. *)
Fixpoint draw_fresh (n : nat) (src dst : Z) (t : list nonce_t) (s : list Z) : option (list Z * list Z) :=
  match n with
  | O => None
  | S n =>
      let '(v, s) := PRNGOutput s in
      match get_nonce src dst (rd v 0) false t with
      | None => Some (v, s)
      | Some _ => draw_fresh n src dst t s
      end
  end.

(** ** Keys *)

Definition sec0_set_key (netkey : list Z) (st : sec0) : sec0 :=
  st <| authkey := aes netkey (replicate 16 0x55) |> <| enckey := aes netkey (replicate 16 0xAA) |>
     <| aes_key := zeros 16 |>
     <| authkeyz := aes (zeros 16) (replicate 16 0x55) |> <| enckeyz := aes (zeros 16) (replicate 16 0xAA) |>.

(** ** Sealing a message *)

(** The length of the first part of a message and whether another follows: a
    frame holds 46 bytes, 20 of them around the text. *)
Definition part_len (data_len : Z) : Z * bool := if 46 <? data_len + 20 then (26, true) else (data_len, false).

Definition is_key_set (data : list Z) : bool :=
  (rd data 0 =? COMMAND_CLASS_SECURITY) && (rd data 1 =? NETWORK_KEY_SET).

(** The first byte of the encrypted part. *)
Definition enc_flags (pass2 more_to_send : bool) (seq : Z) : Z :=
  if pass2 then Z.lor (Z.lor SEQUENCED_BIT_MASK SECOND_FRAME_BIT_MASK) (Z.land seq 0xF)
  else if more_to_send then Z.lor SEQUENCED_BIT_MASK (Z.land seq 0xF) else 0.

(** The frame, written into the buffer of the session in the order of the source:
    the text behind its flags, the header of the code in the place that the
    sender's nonce takes afterwards, the code. *)
Definition seal (enc auth : list Z) (sh from to : Z) (iv : list Z) (flags : Z) (text buf : list Z) : list Z :=
  let len := Zlength text in
  let buf := memcpy_at (wr buf 10 flags) 11 text in
  let buf := memcpy_at buf 10 (fst (aes_ofb enc iv 0 (sub_buf buf 10 (len + 1)))) in
  let buf := memcpy_at buf 6 [sh; u8 from; u8 to; u8 (len + 1)] in
  let mac := aes_cbc_mac auth iv (sub_buf buf 6 (4 + len + 1)) in
  let buf := wr (wr buf 0 COMMAND_CLASS_SECURITY) 1 sh in
  let buf := memcpy_at buf 2 (take 8 iv) in
  let buf := wr buf (2 + 8 + len + 1) (rd iv 8) in
  memcpy_at buf (2 + 8 + len + 2) (take 8 mac).

(** The length of the frame, 0 without a nonce; [None] if the generator never
    gives a fresh one. *)
Definition encrypt_msg (E : s0_env) (i : nat) (pass2 : bool) (st : sec0) : option (Z * sec0) :=
  let s := tx_at st i in
  let sn := snode (tx_param s) in
  let dn := dnode (tx_param s) in
  let '(len, more_to_send) := part_len (tx_data_len s) in
  match draw_fresh (tries E) (u8 dn) (u8 sn) (nonce_table st) (prngState st) with
  | None => None
  | Some (v, ps) =>
      let st := st <| prngState := ps |> in
      match get_nonce (u8 dn) (u8 sn) 0 true (nonce_table st) with
      | None => Some (0, st)
      | Some n =>
          let iv := v ++ n in
          let st := st <| nonce_table := nonce_clear (u8 dn) (u8 sn) (nonce_table st) |> in
          let st := st <| nonce_table := snd (register_nonce (u8 sn) (u8 dn) true v (nonce_table st)) |> in
          let k := is_key_set (tx_data s) in
          let enc := if k then enckeyz st else enckey st in
          let auth := if k then authkeyz st else authkey st in
          let sh := if more_to_send then SECURITY_MESSAGE_ENCAPSULATION_NONCE_GET else SECURITY_MESSAGE_ENCAPSULATION in
          let buf := seal enc auth sh sn dn iv (enc_flags pass2 more_to_send (tx_seq s))
                       (take (Z.to_nat len) (tx_data s)) (crypted_msg s) in
          let st := st <| aes_key := auth |> <| aes_iv := iv |> in
          Some (len + 20, upd_tx i (fun s => s <| crypted_msg := buf |> <| tx_data := drop (Z.to_nat len) (tx_data s) |>
                                              <| tx_data_len := tx_data_len s - len |>) st)
      end
  end.

(** ** Sending *)

(** The end of a session. *)
Definition tx_finish (ok : bool) (i : nat) (st : sec0) : sec0 :=
  let s := tx_at st i in
  let st := upd_tx i (fun s => s <| tx_state := if ok then TX_DONE else TX_FAIL |> <| tx_param; dnode := 0 |>
                                 <| tx_timer := false |>) st in
  let st := match tx_callback s with
            | Some f => s0_emit (if ok then S0_answer f (tx_user s) TRANSMIT_COMPLETE_OK (Some (tx_ext_status s))
                                 else S0_answer f (tx_user s) (tx_code s) None) st
            | None => st
            end in
  upd_tx i (fun s => s <| tx_ext_status := 0 |>) st.

(** A frame for the low level queue. *)
Definition s0_send_data (E : s0_env) (p : ts_param) (frame : list Z) (cb : s0_cb) (st : sec0) : bool * sec0 :=
  (s0_takes E p frame, s0_emit (S0_send p frame cb) st).

Definition tx_give_up (i : nat) (st : sec0) : sec0 :=
  tx_finish false i (upd_tx i (fun s => s <| tx_code := TRANSMIT_COMPLETE_FAIL |>) st).

(** The states in which a sealed frame goes out. *)
Definition send_sealed (E : s0_env) (pass2 : bool) (i : nat) (st : sec0) : sec0 :=
  let st := upd_tx i (fun s => s <| tx_timer := false |>) st in
  match encrypt_msg E i pass2 st with
  | None => s0_emit S0_hangs st
  | Some (len, st) =>
      if len =? 0 then tx_give_up i st
      else
        let '(ok, st) := s0_send_data E (tx_param (tx_at st i)) (sub_buf (crypted_msg (tx_at st i)) 0 len)
                           (if pass2 then Msg2_callback i else Msg1_callback i) st in
        if ok then st else tx_give_up i st
  end.

Definition tx_session_state_set (E : s0_env) (i : nat) (state : tx_state_t) (st : sec0) : sec0 :=
  let st := upd_tx i (fun s => s <| tx_state := state |>) st in
  match state with
  | NONCE_GET =>
      let '(ok, st) := s0_send_data E (tx_param (tx_at st i)) [COMMAND_CLASS_SECURITY; SECURITY_NONCE_GET]
                         (Noce_get_callback i) st in
      if negb ok then tx_give_up i st
      else if secure_learn_active E then upd_tx i (fun s => s <| tx_timer := true |>) st else st
  | NONCE_GET_SENT => if secure_learn_active E then st else upd_tx i (fun s => s <| tx_timer := true |>) st
  | ENC_MSG => send_sealed E false i st
  | ENC_MSG_SENT =>
      if tx_data_len (tx_at st i) =? 0 then tx_finish true i st else upd_tx i (fun s => s <| tx_timer := true |>) st
  | ENC_MSG2 => send_sealed E true i st
  | ENC_MSG2_SENT => tx_finish true i st
  | TX_DONE => tx_finish true i st
  | TX_FAIL => tx_finish false i st
  end.

Definition noce_get_callback (E : s0_env) (status : Z) (i : nat) (st : sec0) : sec0 :=
  let st := upd_tx i (fun s => s <| tx_code := status |>) st in
  if bool_decide (tx_state (tx_at st i) = NONCE_GET) then
    tx_session_state_set E i (if status =? TRANSMIT_COMPLETE_OK then NONCE_GET_SENT else TX_FAIL) st
  else st.

(** The callbacks of the two frames of a message, which wait in [state] and go on
    to [next]. *)
Definition msg_callback (state next : tx_state_t) (E : s0_env) (status : Z) (i : nat) (t : option Z) (st : sec0) : sec0 :=
  if bool_decide (tx_state (tx_at st i) = state) then
    let st := upd_tx i (fun s => s <| tx_code := status |>) st in
    let st := match t with
              | Some t => if status =? TRANSMIT_COMPLETE_OK then upd_tx i (fun s => s <| tx_ext_status := t |>) st else st
              | None => st
              end in
    tx_session_state_set E i (if status =? TRANSMIT_COMPLETE_OK then next else TX_FAIL) st
  else st.
Definition msg1_callback := msg_callback ENC_MSG ENC_MSG_SENT.
Definition msg2_callback := msg_callback ENC_MSG2 ENC_MSG2_SENT.

Definition tx_timeout (E : s0_env) (i : nat) (st : sec0) : sec0 :=
  tx_session_state_set E i TX_FAIL
    (upd_tx i (fun s => s <| tx_code := TRANSMIT_COMPLETE_FAIL |>) (upd_tx i (fun s => s <| tx_timer := false |>) st)).

Definition get_seq (st : sec0) : Z * sec0 := (u8 (seq_static st + 1), st <| seq_static := u8 (seq_static st + 1) |>).

(** The length is a byte. *)
Definition sec0_send_data (E : s0_env) (p : ts_param) (data : list Z) (callback : option Z) (user : Z) (st : sec0) :
    bool * sec0 :=
  match get_tx_session_by_node (snode p) (dnode p) st with
  | Some _ => (false, st)
  | None =>
      match list_find (fun s => dnode (tx_param s) = 0) (tx_sessions st) with
      | None => (false, st)
      | Some (i, _) =>
          let '(seq, st) := get_seq st in
          let st := upd_tx i (fun s => s <| tx_param := p |> <| tx_data := data |> <| tx_data_len := u8 (Zlength data) |>
                                         <| tx_callback := callback |> <| tx_user := user |> <| tx_seq := seq |>) st in
          (true, tx_session_state_set E i NONCE_GET st)
      end
  end.

Definition sec0_register_nonce (E : s0_env) (src dst : Z) (v : list Z) (st : sec0) : sec0 :=
  if sec0_is_nonce_blacklisted (u8 src) (u8 dst) v (nonce_blacklist st) then st
  else
    match get_tx_session_by_node dst src st with
    | None => st
    | Some i =>
        let st := st <| nonce_table := snd (register_nonce (u8 src) (u8 dst) false v (nonce_table st)) |> in
        let st := sec0_blacklist_add_nonce (u8 src) (u8 dst) v st in
        let s := tx_at st i in
        match tx_state s with
        | NONCE_GET_SENT | NONCE_GET => tx_session_state_set E i ENC_MSG st
        | ENC_MSG_SENT => tx_session_state_set E i ENC_MSG2 st
        | ENC_MSG => if 0 <? tx_data_len s then tx_session_state_set E i ENC_MSG2 st else st
        | _ => st
        end
    end.

Definition sec0_abort_session (E : s0_env) (st : sec0) (i : nat) : sec0 :=
  if truth (dnode (tx_param (tx_at st i)))
  then tx_session_state_set E i TX_FAIL (upd_tx i (fun s => s <| tx_code := TRANSMIT_COMPLETE_FAIL |>) st) else st.
Definition sec0_abort_all_tx_sessions (E : s0_env) (st : sec0) : sec0 :=
  fold_left (sec0_abort_session E) (seq 0 NUM_TX_SESSIONS) st.

(** The nonce table stays as it is. *)
Definition sec0_init (st : sec0) : sec0 :=
  st <| rxsessions := map (fun e => e <| rx_state := RX_SESSION_DONE |>) (rxsessions st) |>
     <| tx_sessions := replicate NUM_TX_SESSIONS null_tx |>
     <| nonce_blacklist := replicate NONCE_BLACKLIST_SIZE null_bl |> <| blacklist_next_elem := 0%nat |>.

(** ** Receiving *)

Definition sec0_send_nonce (E : s0_env) (src : ts_param) (st : sec0) : sec0 :=
  if has_three_nonces (u8 (dnode src)) (u8 (snode src)) (nonce_table st) then st
  else
    match draw_fresh (tries E) (u8 (dnode src)) (u8 (snode src)) (nonce_table st) (prngState st) with
    | None => s0_emit S0_hangs st
    | Some (v, ps) =>
        let st := st <| prngState := ps |> in
        let dst := ts_param_make_reply (s0_sda E) null_ts src in
        let '(ok, st) := s0_send_data E dst ([COMMAND_CLASS_SECURITY; SECURITY_NONCE_REPORT] ++ v) No_callback st in
        if ok then st <| nonce_table := snd (register_nonce (u8 (dnode src)) (u8 (snode src)) false v (nonce_table st)) |>
        else st
    end.

(** What is authenticated of a frame. *)
Definition auth_data (snode_ dnode_ : Z) (enc_data : list Z) (enc_data_length : Z) : list Z :=
  [rd enc_data 1; snode_; dnode_; enc_data_length - 19] ++ sub_buf enc_data 10 (enc_data_length - 19).

(** The text of a frame whose code was right: the flags decide whether it is a
    whole message or one of two parts. *)
Definition rx_text (i : nat) (flags : Z) (text : list Z) (st : sec0) : list Z * sec0 :=
  let s := rx_at st i in
  if has flags SEQUENCED_BIT_MASK then
    if negb (has flags SECOND_FRAME_BIT_MASK) then
      ([], upd_rx i (fun s => s <| seq_nr := Z.land flags 0xF |> <| msg_len := Zlength text |>
                               <| rx_state := RX_ENC1 |> <| msg := memcpy_at (msg s) 0 text |>) st)
    else if negb (bool_decide (rx_state s = RX_ENC1)) || negb (Z.land flags 0xF =? seq_nr s) then ([], st)
    else (sub_buf (msg s) 0 (msg_len s) ++ text, free_rx_session i st)
  else (text, free_rx_session i st).

(** The session of the sender, a new one if it has none. *)
Definition rx_session_for (now snode_ dnode_ : Z) (st : sec0) : option nat * sec0 :=
  match get_rx_session_by_nodes now snode_ dnode_ st with
  | Some i => (Some i, st)
  | None =>
      match new_rx_session now snode_ dnode_ st with
      | (Some i, st) => (Some i, upd_rx i (fun s => s <| rx_state := RX_INIT |>) st)
      | (None, st) => (None, st)
      end
  end.

(** The message that is complete with this frame, empty if there is none.  The
    length is its return value. *)
Definition sec0_decrypt_message (E : s0_env) (snode_ dnode_ : Z) (enc_data : list Z) (enc_data_length : Z) (st : sec0) :
    list Z * sec0 :=
  if enc_data_length <? 20 then ([], st)
  else if MAX_ENCRYPTED_MSG_SIZE <? enc_data_length - 20 then ([], st)
  else
    match get_nonce dnode_ snode_ (rd enc_data (enc_data_length - 9)) false (nonce_table st) with
    | None => ([], st)
    | Some n =>
        let iv := sub_buf enc_data 2 8 ++ n in
        let st := st <| nonce_table := nonce_clear dnode_ snode_ (nonce_table st) |> in
        match rx_session_for (clock_time E) snode_ dnode_ st with
        | (None, st) => ([], st)
        | (Some i, st) =>
            let s := rx_at st i in
            if negb (bool_decide (rx_state s = RX_INIT)) && (MAX_ENCRYPTED_MSG_SIZE <? msg_len s + enc_data_length - 20)
            then ([], st)
            else
              let mac := aes_cbc_mac (authkey st) iv (auth_data snode_ dnode_ enc_data enc_data_length) in
              let st := st <| aes_key := authkey st |> <| aes_iv := iv |> in
              if negb (bool_decide (take 8 mac = sub_buf enc_data (enc_data_length - 8) 8)) then ([], st)
              else
                let '(plain, iv') := aes_ofb (enckey st) iv 0 (sub_buf enc_data 10 (enc_data_length - 19)) in
                rx_text i (rd plain 0) (drop 1 plain) (st <| aes_key := enckey st |> <| aes_iv := iv' |>)
        end
    end.

End Cipher.
