(* ===== verification/Sec0Frame.v ===== *)
(** * S0 frames (src/src/transport/Security_Scheme0.c)

    The layout of a sealed frame, and that opening it gives back the text: the
    lemmas behind the theorems on S0 messages. *)

From S2P Require Import Prelude Crc Nodemask SendDataAppl Sec0.
#[local] Open Scope Z_scope.

(** ** Writing at a place of a buffer *)

Lemma memcpy_at_split (a b c src : list Z) i : i = Zlength a -> length b = length src ->
  memcpy_at (a ++ b ++ c) i src = a ++ src ++ c.
Proof.
  intros -> Hl. apply list_eq. intros j. rewrite lookup_memcpy_at; unfold Zlength in *;
    [|lia|rewrite !length_app; lia]. rewrite Nat2Z.id.
  case_bool_decide as Hj.
  - rewrite (lookup_app_r a) by lia. by rewrite lookup_app_l by lia.
  - destruct (decide (j < length a)%nat).
    + by rewrite !(lookup_app_l a) by lia.
    + rewrite !(lookup_app_r a) by lia. rewrite (lookup_app_r b), (lookup_app_r src) by lia. by rewrite Hl.
Qed.

Lemma wr_split (a c : list Z) x v i : i = Zlength a -> wr (a ++ x :: c) i v = a ++ v :: c.
Proof. intros ->. unfold wr, Zlength. rewrite Nat2Z.id, insert_app_r_alt, Nat.sub_diag by lia. done. Qed.

Lemma sub_buf_split (a b c : list Z) i n : i = Zlength a -> n = Zlength b -> sub_buf (a ++ b ++ c) i n = b.
Proof.
  intros -> ->. unfold sub_buf, Zlength. rewrite !Nat2Z.id, drop_app_length, take_app_length. done.
Qed.

Lemma rd_split (a c : list Z) x i : i = Zlength a -> rd (a ++ x :: c) i = x.
Proof. intros ->. unfold rd, Zlength. rewrite Nat2Z.id, lookup_app_r, Nat.sub_diag by lia. done. Qed.

Section Frame.
Context (aes : list Z -> list Z -> list Z).
Hypothesis aes_len : forall k b, length (aes k b) = 16%nat.

(** ** Modes of operation *)

Lemma length_ofb key iv i data : length (fst (aes_ofb aes key iv i data)) = length data.
Proof.
  revert iv i. induction data as [|d data IH]; intros iv i; [done|]. cbn.
  specialize (IH (if (Nat.land i 15 =? 0)%nat then aes key iv else iv) (S i)).
  destruct (aes_ofb aes key _ (S i) data). cbn in *. by rewrite IH.
Qed.

(** Output feedback undoes itself. *)
Lemma ofb_ofb key iv i data : fst (aes_ofb aes key iv i (fst (aes_ofb aes key iv i data))) = data.
Proof.
  revert iv i. induction data as [|d data IH]; intros iv i; [done|]. cbn.
  set (iv1 := if (Nat.land i 15 =? 0)%nat then aes key iv else iv). specialize (IH iv1 (S i)).
  destruct (aes_ofb aes key iv1 (S i) data) as [c iv2] eqn:E. cbn in *. fold iv1.
  destruct (aes_ofb aes key iv1 (S i) c) as [c2 iv3] eqn:E2. cbn in *. rewrite IH.
  by rewrite Z.lxor_assoc, Z.lxor_nilpotent, Z.lxor_0_r.
Qed.

Lemma length_cbc_loop key i data mac : length mac = 16%nat -> length (cbc_mac_loop aes key i data mac) = 16%nat.
Proof.
  revert i mac. induction data as [|d data IH]; intros i mac Hm; [done|]. cbn. apply IH.
  destruct (Nat.land i 15 =? 15)%nat; [apply aes_len|]. unfold wr. by rewrite length_insert.
Qed.

Lemma length_cbc_mac key iv data : length (aes_cbc_mac aes key iv data) = 16%nat.
Proof. unfold aes_cbc_mac. destruct (_ =? _)%nat; [apply length_cbc_loop|]; apply aes_len. Qed.

(** ** A sealed frame *)

(** The parts of a frame. *)
Definition ciphertext (enc iv : list Z) (flags : Z) (text : list Z) : list Z := fst (aes_ofb aes enc iv 0 (flags :: text)).
Definition tag (auth iv : list Z) (sh from to : Z) (c : list Z) : list Z :=
  take 8 (aes_cbc_mac aes auth iv ([sh; u8 from; u8 to; u8 (Zlength c)] ++ c)).
Definition sealed (enc auth : list Z) (sh from to : Z) (v n : list Z) (flags : Z) (text : list Z) : list Z :=
  let iv := v ++ n in
  let c := ciphertext enc iv flags text in
  [COMMAND_CLASS_SECURITY; sh] ++ v ++ c ++ [rd n 0] ++ tag auth iv sh from to c.

Lemma length_ciphertext enc iv flags text : length (ciphertext enc iv flags text) = S (length text).
Proof. unfold ciphertext. by rewrite length_ofb. Qed.

Lemma length_tag auth iv sh from to c : length (tag auth iv sh from to c) = 8%nat.
Proof. unfold tag. rewrite length_take, length_cbc_mac. done. Qed.

Lemma split_at {A} n (l : list A) : (n <= length l)%nat -> exists a b, l = a ++ b /\ length a = n /\ length b = (length l - n)%nat.
Proof. intros Hn. exists (take n l), (drop n l). rewrite take_drop, length_take, length_drop. split_and!; [done|lia|lia]. Qed.

Lemma buffer_parts (buf : list Z) len : length buf = 46%nat -> (len <= 26)%nat ->
  exists x0 x1 p1 p2 f t r m rest, buf = [x0; x1] ++ p1 ++ p2 ++ [f] ++ t ++ [r] ++ m ++ rest /\
    length p1 = 4%nat /\ length p2 = 4%nat /\ length t = len /\ length m = 8%nat.
Proof.
  intros Hb Hl. destruct buf as [|x0 [|x1 buf]]; [done..|]. assert (length buf = 44%nat) as Hb0 by (cbn in Hb; lia). clear Hb.
  destruct (split_at 4 buf) as (p1 & b1 & -> & H1 & L1); [lia|]. rewrite Hb0 in L1.
  destruct (split_at 4 b1) as (p2 & b2 & -> & H2 & L2); [lia|]. rewrite L1 in L2.
  destruct b2 as [|f b2]; [done|]. assert (length b2 = 35%nat) as L2' by (cbn in L2; lia).
  destruct (split_at len b2) as (t & b3 & -> & H3 & L3); [lia|]. rewrite L2' in L3.
  destruct b3 as [|r b3]; [cbn in L3; lia|].
  destruct (split_at 8 b3) as (m & rest & -> & H4 & L4); [cbn in L3; lia|].
  exists x0, x1, p1, p2, f, t, r, m, rest. done.
Qed.

Lemma seal_spec enc auth sh from to v n flags text buf :
  length buf = 46%nat -> (length text <= 26)%nat -> length v = 8%nat -> length n = 8%nat ->
  length (seal aes enc auth sh from to (v ++ n) flags text buf) = 46%nat /\
  sub_buf (seal aes enc auth sh from to (v ++ n) flags text buf) 0 (Zlength text + 20) =
  sealed enc auth sh from to v n flags text.
Proof.
  intros Hb Ht Hv Hn. split; [unfold seal, wr; cbv zeta; rewrite ?length_memcpy_at, ?length_insert; by rewrite ?length_memcpy_at, ?length_insert, ?length_memcpy_at, ?length_insert|].
  destruct (buffer_parts buf (length text) Hb Ht) as (x0 & x1 & p1 & p2 & f & t & r & m & rest & -> & H1 & H2 & H3 & H4).
  unfold seal, sealed. cbv zeta. set (iv := v ++ n).
  assert (Zlength text = Z.of_nat (length text)) as Hzl by done.
  assert (length ([x0; x1] ++ p1 ++ p2) = 10%nat) as H10 by (rewrite !length_app; cbn; lia).
  (* the text *)
  assert (memcpy_at (wr ([x0; x1] ++ p1 ++ p2 ++ [f] ++ t ++ [r] ++ m ++ rest) 10 flags) 11 text =
    ([x0; x1] ++ p1 ++ p2) ++ (flags :: text) ++ [r] ++ m ++ rest) as ->.
  { replace ([x0; x1] ++ p1 ++ p2 ++ [f] ++ t ++ [r] ++ m ++ rest) with (([x0; x1] ++ p1 ++ p2) ++ f :: t ++ [r] ++ m ++ rest)
      by (rewrite <- !app_assoc; done).
    rewrite wr_split by (unfold Zlength; rewrite H10; done).
    replace (([x0; x1] ++ p1 ++ p2) ++ flags :: t ++ [r] ++ m ++ rest) with ((([x0; x1] ++ p1 ++ p2) ++ [flags]) ++ t ++ [r] ++ m ++ rest)
      by (rewrite <- !app_assoc; done).
    rewrite (memcpy_at_split _ t) by (try done; unfold Zlength; rewrite length_app, H10; done). rewrite <- !app_assoc. done. }
  rewrite (sub_buf_split _ (flags :: text)) by (unfold Zlength; rewrite ?H10; cbn; lia).
  rewrite (memcpy_at_split _ (flags :: text)) by (try (by rewrite length_ofb); unfold Zlength; rewrite H10; done).
  fold (ciphertext enc iv flags text). pose proof (length_ciphertext enc iv flags text) as Hc. set (c := ciphertext enc iv flags text) in *.
  (* the header of the code *)
  assert (length ([x0; x1] ++ p1) = 6%nat) as H6 by (rewrite !length_app; cbn; lia).
  set (hd := [sh; u8 from; u8 to; u8 (Zlength text + 1)]).
  replace (([x0; x1] ++ p1 ++ p2) ++ c ++ [r] ++ m ++ rest) with (([x0; x1] ++ p1) ++ p2 ++ c ++ [r] ++ m ++ rest)
    by (rewrite <- !app_assoc; done).
  rewrite (memcpy_at_split _ p2) by (try (rewrite H2; done); unfold Zlength; rewrite H6; done).
  replace (([x0; x1] ++ p1) ++ hd ++ c ++ [r] ++ m ++ rest) with (([x0; x1] ++ p1) ++ (hd ++ c) ++ [r] ++ m ++ rest)
    by (rewrite <- !app_assoc; done).
  rewrite (sub_buf_split _ (hd ++ c)) by (unfold Zlength; rewrite ?H6, ?length_app, ?Hc; cbn; lia).
  set (mac := aes_cbc_mac aes auth iv (hd ++ c)).
  assert (take 8 mac = tag auth iv sh from to c) as Em.
  { unfold tag, mac. do 4 f_equal. unfold hd. do 4 f_equal. unfold Zlength. rewrite Hc. f_equal. lia. }
  assert (take 8 iv = v) as -> by (unfold iv; rewrite take_app_length'; done).
  assert (rd iv 8 = rd n 0) as ->.
  { unfold rd, iv. rewrite lookup_app_r by (change (Z.to_nat 8) with 8%nat; lia). change (Z.to_nat 8) with 8%nat. rewrite Hv. done. }
  rewrite Em. pose proof (length_tag auth iv sh from to c) as Hlt. set (tg := tag auth iv sh from to c) in *.
  (* the rest *)
  assert (memcpy_at (wr (wr (([x0; x1] ++ p1) ++ (hd ++ c) ++ [r] ++ m ++ rest) 0 COMMAND_CLASS_SECURITY) 1 sh) 2 v =
    ([COMMAND_CLASS_SECURITY; sh] ++ v ++ c) ++ r :: m ++ rest) as ->.
  { replace (([x0; x1] ++ p1) ++ (hd ++ c) ++ [r] ++ m ++ rest) with ([] ++ x0 :: x1 :: (p1 ++ hd) ++ c ++ [r] ++ m ++ rest)
      by (rewrite <- !app_assoc; done).
    rewrite wr_split by done. change ([] ++ COMMAND_CLASS_SECURITY :: x1 :: (p1 ++ hd) ++ c ++ [r] ++ m ++ rest) with
      ([COMMAND_CLASS_SECURITY] ++ x1 :: (p1 ++ hd) ++ c ++ [r] ++ m ++ rest).
    rewrite wr_split by done.
    change ([COMMAND_CLASS_SECURITY] ++ sh :: (p1 ++ hd) ++ c ++ [r] ++ m ++ rest) with
      ([COMMAND_CLASS_SECURITY; sh] ++ (p1 ++ hd) ++ c ++ [r] ++ m ++ rest).
    rewrite (memcpy_at_split _ (p1 ++ hd)) by (try done; rewrite length_app, H1, Hv; done). rewrite <- !app_assoc. done. }
  assert (length ([COMMAND_CLASS_SECURITY; sh] ++ v ++ c) = (11 + length text)%nat) as H11 by (rewrite !length_app, Hc; cbn; lia).
  rewrite wr_split by (unfold Zlength; rewrite H11; lia).
  replace (([COMMAND_CLASS_SECURITY; sh] ++ v ++ c) ++ rd n 0 :: m ++ rest) with
    ((([COMMAND_CLASS_SECURITY; sh] ++ v ++ c) ++ [rd n 0]) ++ m ++ rest) by (rewrite <- !app_assoc; done).
  rewrite (memcpy_at_split _ m) by (try (rewrite H4, Hlt; done); unfold Zlength; rewrite length_app, H11; cbn; lia).
  rewrite (app_assoc _ tg rest). rewrite <- (app_nil_l (_ ++ rest)).
  rewrite (sub_buf_split []) by (try done; unfold Zlength; rewrite !length_app, Hlt; rewrite !length_app in H11; cbn in *; lia).
  rewrite <- !app_assoc. done.
Qed.

(** ** Opening it *)

Lemma Zlength_sealed enc auth sh from to v n flags text : length v = 8%nat ->
  Zlength (sealed enc auth sh from to v n flags text) = Zlength text + 20.
Proof.
  intros Hv. unfold sealed, Zlength. cbv zeta. rewrite !length_app, length_ciphertext, length_tag, Hv. cbn. lia.
Qed.

Lemma sealed_parts enc auth sh from to v n flags text : length v = 8%nat ->
  let frame := sealed enc auth sh from to v n flags text in
  let L := Zlength text + 20 in
  let c := ciphertext enc (v ++ n) flags text in
  rd frame 1 = sh /\ sub_buf frame 2 8 = v /\ sub_buf frame 10 (L - 19) = c /\ rd frame (L - 9) = rd n 0 /\
  sub_buf frame (L - 8) 8 = tag auth (v ++ n) sh from to c.
Proof.
  intros Hv. cbv zeta. unfold sealed. cbv zeta. pose proof (length_ciphertext enc (v ++ n) flags text) as Hc.
  set (c := ciphertext enc (v ++ n) flags text) in *. pose proof (length_tag auth (v ++ n) sh from to c) as Ht.
  set (tg := tag auth (v ++ n) sh from to c) in *. split; [done|].
  split; [apply (sub_buf_split [COMMAND_CLASS_SECURITY; sh]); unfold Zlength; rewrite ?Hv; done|].
  split.
  { rewrite (app_assoc [_; _] v). apply sub_buf_split; unfold Zlength; rewrite ?length_app, ?Hv, ?Hc; cbn; lia. }
  split.
  { rewrite (app_assoc v c), (app_assoc [_; _]). apply rd_split. unfold Zlength. rewrite !length_app, Hv, Hc. cbn. lia. }
  rewrite (app_assoc c), (app_assoc v), (app_assoc [_; _]). rewrite <- (app_nil_r tg) at 1.
  apply sub_buf_split; unfold Zlength; rewrite ?length_app, ?Hv, ?Hc, ?Ht; cbn; lia.
Qed.

(** A sealed frame opens with the keys and the nonce it was sealed with. *)
Lemma open_sealed E from to v n flags text sh (st : sec0) i st1 :
  length v = 8%nat -> (length text <= 128)%nat ->
  get_nonce (u8 to) (u8 from) (rd n 0) false (nonce_table st) = Some n ->
  rx_session_for (clock_time E) (u8 from) (u8 to) (st <| nonce_table := nonce_clear (u8 to) (u8 from) (nonce_table st) |>) = (Some i, st1) ->
  (rx_state (rx_at st1 i) = RX_INIT \/ msg_len (rx_at st1 i) + Zlength text <= 128) ->
  enckey st1 = enckey st -> authkey st1 = authkey st ->
  exists iv',
  sec0_decrypt_message aes E (u8 from) (u8 to) (sealed (enckey st) (authkey st) sh from to v n flags text) (Zlength text + 20) st =
  rx_text i flags text (st1 <| aes_key := enckey st |> <| aes_iv := iv' |>).
Proof.
  intros Hv Ht Hn Hrx Hsz He Ha. destruct (sealed_parts (enckey st) (authkey st) sh from to v n flags text Hv) as (E1 & E2 & E3 & E4 & E5).
  set (frame := sealed _ _ _ _ _ _ _ _ _) in *. unfold sec0_decrypt_message.
  assert (0 <= Zlength text <= 128) as Hz by (unfold Zlength; lia).
  rewrite (proj2 (Z.ltb_ge _ _)) by lia. change MAX_ENCRYPTED_MSG_SIZE with 128. rewrite (proj2 (Z.ltb_ge 128 _)) by lia.
  rewrite E4, Hn, Hrx. cbv zeta. rewrite E2.
  assert (negb (bool_decide (rx_state (rx_at st1 i) = RX_INIT)) && (128 <? msg_len (rx_at st1 i) + (Zlength text + 20) - 20) = false) as ->.
  { destruct Hsz as [->|Hsz]; [done|]. rewrite (proj2 (Z.ltb_ge _ _)) by lia. apply andb_false_r. }
  pose proof (length_ciphertext (enckey st) (v ++ n) flags text) as Hc. set (c := ciphertext _ _ _ _) in *.
  assert (auth_data (u8 from) (u8 to) frame (Zlength text + 20) = [sh; u8 from; u8 to; u8 (Zlength c)] ++ c) as ->.
  { unfold auth_data. rewrite E1, E3. do 4 f_equal. unfold Zlength in *. rewrite Hc, u8_id by (unfold byte; lia). f_equal. lia. }
  rewrite Ha, E5. fold (tag (authkey st) (v ++ n) sh from to c). rewrite bool_decide_eq_true_2 by done. cbn [negb].
  change (enckey (st1 <| aes_key := authkey st |> <| aes_iv := v ++ n |>)) with (enckey st1). rewrite He, E3.
  pose proof (ofb_ofb (enckey st) (v ++ n) 0 (flags :: text)) as Ho. fold (ciphertext (enckey st) (v ++ n) flags text) in Ho. fold c in Ho.
  destruct (aes_ofb aes (enckey st) (v ++ n) 0 c) as [plain iv']. cbn in Ho. subst plain. exists iv'. done.
Qed.
End Frame.
