(* ===== verification/Sec0Session.v ===== *)
(** * S0 messages (src/src/transport/Security_Scheme0.c)

    Two nodes exchange a nonce and a message: what the sender seals is what the
    receiver hands on, in one frame or in two.  A nonce opens at most one frame.
    Every message the sender takes on is answered exactly once. *)

From S2P Require Import Prelude Crc Nodemask SendDataAppl Sec0 Sec0Frame.
#[local] Open Scope Z_scope.

(** ** The nonce table *)

Definition quiet (src dst : Z) (t : list nonce_t) : Prop := Forall (fun n => nonce_for src dst n = false) t.

(** The table has room for [k] nonces. *)
Definition spare (k : nat) (t : list nonce_t) : Prop := (k <= length (filter (fun n => n_timeout n = 0%Z) t))%nat.

Lemma get_nonce_quiet src dst ri any t : quiet src dst t -> get_nonce src dst ri any t = None.
Proof.
  intros Hq. unfold get_nonce, find_nonce. destruct (list_find _ t) as [[i n]|] eqn:E; [|done].
  apply list_find_Some in E as (Hn & Hp & _). pose proof (Forall_lookup_1 _ _ _ _ Hq Hn) as Hf. cbn in Hf. by rewrite Hf in Hp.
Qed.

Lemma quiet_clear src dst t : quiet src dst (nonce_clear src dst t).
Proof.
  unfold quiet, nonce_clear. apply Forall_map, Forall_true. intros n. unfold nonce_for, truth.
  destruct (n_src n =? src) eqn:Es; destruct (n_dst n =? dst) eqn:Ed; rewrite ?andb_false_r; cbn; rewrite ?Es, ?Ed, ?andb_false_r; try done.
  destruct (n_timeout n =? 0) eqn:Et; cbn; rewrite ?Es, ?Ed; cbn; [|done]. apply Z.eqb_eq in Et. by rewrite Et.
Qed.

Lemma quiet_map src dst g t : (forall n, nonce_for src dst n = false -> nonce_for src dst (g n) = false) ->
  quiet src dst t -> quiet src dst (map g t).
Proof. intros Hg Hq. apply Forall_map. eapply Forall_impl; [exact Hq|]. exact Hg. Qed.

Lemma quiet_clear_other src dst s d t : quiet src dst t -> quiet src dst (nonce_clear s d t).
Proof.
  apply quiet_map. intros n. destruct (_ && _ && _); [|done]. unfold nonce_for. cbn. done.
Qed.

Lemma spare_le k t t' : Forall2 (fun x y => n_timeout x = 0 -> n_timeout y = 0) t t' -> spare k t -> spare k t'.
Proof.
  unfold spare. intros H. revert k. induction H as [|x y t t' Hxy H IH]; intros k Hk; [done|].
  rewrite filter_cons in *. destruct (decide (n_timeout x = 0)) as [Hx|Hx].
  - rewrite decide_True by auto. cbn in *. destruct k as [|k]; [lia|]. specialize (IH k). lia.
  - specialize (IH k Hk). destruct (decide _); cbn; lia.
Qed.

Lemma spare_find t : spare 1 t -> exists i n, find_nonce (fun n => n_timeout n =? 0) t = Some (i, n) /\ t !! i = Some n /\ n_timeout n = 0.
Proof.
  unfold spare. intros Hs. unfold find_nonce. destruct (list_find _ t) as [[i n]|] eqn:E.
  - exists i, n. apply list_find_Some in E as (Hn & Hp & _). split; [done|]. split; [done|]. by apply Z.eqb_eq in Hp.
  - exfalso. apply list_find_None in E. assert (filter (fun n => n_timeout n = 0) t = []) as E0; [|rewrite E0 in Hs; cbn in Hs; lia].
    clear Hs. induction E as [|n t Hn E IH]; [done|]. rewrite filter_cons_False; [done|]. intros Hz. apply Hn. by rewrite Hz.
Qed.

Lemma spare_insert k t i n m : t !! i = Some n -> n_timeout n = 0 -> spare (S k) t -> spare k (<[i := m]> t).
Proof.
  unfold spare. intros Hi Hn. revert i Hi k. induction t as [|x t IH]; intros [|i] Hi k Hk; [done|done|..].
  - injection Hi as ->. change (<[0%nat := m]> (n :: t)) with (m :: t).
    rewrite filter_cons_True in Hk by done. cbn [length] in Hk. rewrite filter_cons. destruct (decide _); cbn [length]; lia.
  - change (t !! i = Some n) in Hi. change (<[S i := m]> (x :: t)) with (x :: <[i := m]> t).
    rewrite filter_cons in *. destruct (decide (n_timeout x = 0)).
    + cbn [length] in *. destruct k as [|k]; [lia|]. specialize (IH i Hi k). lia.
    + by apply IH.
Qed.

(** A new nonce for a pair that has none. *)
Lemma register_new src dst v t : quiet src dst t -> spare 1 t ->
  let t' := snd (register_nonce src dst false v t) in
  exists i n, t !! i = Some n /\ n_timeout n = 0 /\ t' = <[i := mkNonce src dst NONCE_TIMEOUT false v]> t.
Proof.
  intros Hq Hs. cbv zeta. unfold register_nonce. destruct (spare_find t Hs) as (i & n & -> & Hi & Hn). by exists i, n.
Qed.

Lemma get_inserted src dst ri any v t i : quiet src dst t -> (i < length t)%nat ->
  get_nonce src dst ri any (<[i := mkNonce src dst NONCE_TIMEOUT false v]> t) = if any || (rd v 0 =? ri) then Some v else None.
Proof.
  intros Hq Hi. unfold get_nonce, find_nonce. set (P := fun n => nonce_for src dst n && (any || (rd (nonce n) 0 =? ri)) = true).
  destruct (any || (rd v 0 =? ri)) eqn:E.
  - rewrite (proj2 (list_find_Some P _ i (mkNonce src dst NONCE_TIMEOUT false v))); [done|].
    split; [by apply list_lookup_insert_eq|]. split; [unfold P, nonce_for; cbn; by rewrite !Z.eqb_refl, E|].
    intros j y Hj Hji. rewrite list_lookup_insert_ne in Hj by lia. unfold P. pose proof (Forall_lookup_1 _ _ _ _ Hq Hj) as Hf. cbn in Hf. by rewrite Hf.
  - rewrite (proj2 (list_find_None P _)); [done|]. apply Forall_lookup. intros j y Hj. unfold P.
    destruct (decide (j = i)) as [->|Hji].
    + rewrite list_lookup_insert_eq in Hj by done. injection Hj as <-. cbn. by rewrite E, andb_false_r.
    + rewrite list_lookup_insert_ne in Hj by done. pose proof (Forall_lookup_1 _ _ _ _ Hq Hj) as Hf. cbn in Hf. by rewrite Hf.
Qed.

(** Whether a draw is fresh depends on the live nonces of the pair only. *)
Lemma draw_fresh_ext aes k src dst t t' s : (forall ri, get_nonce src dst ri false t = None <-> get_nonce src dst ri false t' = None) ->
  draw_fresh aes k src dst t s = draw_fresh aes k src dst t' s.
Proof.
  intros H. revert s. induction k as [|k IH]; intros s; [done|]. cbn [draw_fresh]. destruct (PRNGOutput aes s) as [v s'].
  destruct (H (rd v 0)) as [H1 H2]. destruct (get_nonce src dst _ false t), (get_nonce src dst _ false t'); [apply IH| | |done].
  - by specialize (H2 eq_refl).
  - by specialize (H1 eq_refl).
Qed.

(** ** Transmit sessions *)

Lemma tx_at_lookup st i s : tx_sessions st !! i = Some s -> tx_at st i = s.
Proof. intros E. unfold tx_at. by rewrite E. Qed.

Lemma upd_tx_lookup st i s g : tx_sessions st !! i = Some s -> tx_sessions (upd_tx i g st) !! i = Some (g s).
Proof. intros E. unfold upd_tx. cbn [tx_sessions modify]. by rewrite list_lookup_alter_eq, E. Qed.

(** The nodes of the sessions decide which one is found. *)
Lemma find_tx_same sn dn st st' : map tx_param (tx_sessions st') = map tx_param (tx_sessions st) ->
  get_tx_session_by_node sn dn st' = get_tx_session_by_node sn dn st.
Proof.
  intros E. unfold get_tx_session_by_node. set (P := fun s => dnode (tx_param s) = u8 dn /\ snode (tx_param s) = u8 sn).
  revert E. generalize (tx_sessions st), (tx_sessions st'). clear st st'.
  intros l l' E. assert (fst <$> list_find P l' = fst <$> list_find P l) as H.
  { revert l E. induction l' as [|s' l' IH]; intros [|s l] E; try done. injection E as Ep E. cbn.
    destruct (decide (P s')) as [H1|H1], (decide (P s)) as [H2|H2]; try done;
      try (exfalso; unfold P in *; rewrite Ep in *; tauto).
    specialize (IH l E). destruct (list_find P l') as [[]|], (list_find P l) as [[]|]; cbn in *; congruence. }
  destruct (list_find P l') as [[]|], (list_find P l) as [[]|]; cbn in *; congruence.
Qed.

Lemma map_param_upd i g st : (forall s, tx_param (g s) = tx_param s) ->
  map tx_param (tx_sessions (upd_tx i g st)) = map tx_param (tx_sessions st).
Proof.
  intros Hg. unfold upd_tx. cbn [tx_sessions modify]. generalize (tx_sessions st). intros l. revert i.
  induction l as [|s l IH]; intros [|i]; try done.
  - cbn. by rewrite Hg.
  - change (tx_param s :: map tx_param (alter g i l) = tx_param s :: map tx_param l). by rewrite IH.
Qed.

Section Exchange.
Context (aes : list Z -> list Z -> list Z).
Hypothesis aes_len : forall k b, length (aes k b) = 16%nat.
Context (a b : Z) (Ha : 0 < a < 256) (Hb : 0 < b < 256) (Hab : a <> b).
Context (p : ts_param) (Hps : snode p = a) (Hpd : dnode p = b) (f usr sq : Z).

(** Session [i] sends [data] and is in state [s]. *)
Record sess (i : nat) (data : list Z) (state : tx_state_t) (st : sec0) : Prop := {
  se_some : exists s, tx_sessions st !! i = Some s /\ tx_param s = p /\ tx_data s = data /\ tx_data_len s = Zlength data /\
    tx_state s = state /\ tx_callback s = Some f /\ tx_user s = usr /\ tx_seq s = sq /\ length (crypted_msg s) = 46%nat;
  se_find : get_tx_session_by_node a b st = Some i
}.

(** What does not belong to the sessions. *)
Definition same_rest (st st' : sec0) : Prop :=
  nonce_table st' = nonce_table st /\ nonce_blacklist st' = nonce_blacklist st /\
  blacklist_next_elem st' = blacklist_next_elem st /\ enckey st' = enckey st /\ authkey st' = authkey st /\ prngState st' = prngState st.

Lemma sess_upd i data state g st : sess i data state st ->
  (forall s, tx_param (g s) = tx_param s /\ tx_data (g s) = tx_data s /\ tx_data_len (g s) = tx_data_len s /\ tx_callback (g s) = tx_callback s /\
    tx_user (g s) = tx_user s /\ tx_seq (g s) = tx_seq s /\ crypted_msg (g s) = crypted_msg s) ->
  forall state', (forall s, tx_state s = state -> tx_state (g s) = state') -> sess i data state' (upd_tx i g st).
Proof.
  intros [(s & Es & H1 & H2 & H3 & H4 & H5 & H6 & H7 & H8) Hf] Hg state' Hst. destruct (Hg s) as (G1 & G2 & G3 & G4 & G5 & G6 & G7). split.
  - exists (g s). rewrite G1, G2, G3, G4, G5, G6, G7. split; [by apply upd_tx_lookup|]. auto 9.
  - rewrite <- Hf. apply find_tx_same, map_param_upd. intros s'. by destruct (Hg s').
Qed.

(** Only the queues and outputs of the other side matter for a session. *)
Lemma sess_same i data state st st' : tx_sessions st' = tx_sessions st -> sess i data state st -> sess i data state st'.
Proof. intros E [(s & Es & H) Hf]. split; [exists s; by rewrite E|]. rewrite <- Hf. apply find_tx_same. by rewrite E. Qed.

Lemma u8_small x : 0 < x < 256 -> u8 x = x.
Proof. intros. apply u8_id. unfold byte. lia. Qed.

(** The sender takes on a message and asks for a nonce. *)
Lemma start_ok E data i st s0 : (0 < length data <= 255)%nat -> sq = u8 (seq_static st + 1) ->
  get_tx_session_by_node a b st = None -> list_find (fun s => dnode (tx_param s) = 0) (tx_sessions st) = Some (i, s0) ->
  length (crypted_msg s0) = 46%nat -> s0_takes E p [COMMAND_CLASS_SECURITY; SECURITY_NONCE_GET] = true ->
  exists st1, sec0_send_data aes E p data (Some f) usr st = (true, st1) /\ sess i data NONCE_GET st1 /\ same_rest st st1 /\
    s0_outs st1 = s0_outs st ++ [S0_send p [COMMAND_CLASS_SECURITY; SECURITY_NONCE_GET] (Noce_get_callback i)].
Proof.
  intros Hl Hsq Hno Hfree Hcm Htk. pose proof Hno as Hno'. rewrite <- Hps, <- Hpd in Hno'. unfold sec0_send_data. rewrite Hno', Hfree. cbn [get_seq]. cbv zeta. eexists. split; [reflexivity|].
  apply list_find_Some in Hfree as (Hs0 & _ & _).
  set (st1 := st <| seq_static := _ |>). set (g := fun s : sec_tx_session => _).
  assert (sess i data (tx_state s0) (upd_tx i g st1)) as H1.
  { split.
    - exists (g s0). split; [by apply upd_tx_lookup|]. unfold g. cbn. rewrite u8_id; [done|]. unfold byte, Zlength. lia.
    - unfold get_tx_session_by_node in Hno |- *. cbn [upd_tx tx_sessions modify].
      change (tx_sessions st1) with (tx_sessions st). set (P := fun s => dnode (tx_param s) = u8 b /\ snode (tx_param s) = u8 a) in *.
      destruct (list_find P (tx_sessions st)) as [[]|] eqn:En; [done|]. apply list_find_None in En.
      rewrite (proj2 (list_find_Some P _ i (g s0))); [done|]. split; [by rewrite list_lookup_alter_eq, Hs0|].
      split; [unfold P; cbn; rewrite !u8_small by done; done|]. intros j y Hj Hji. rewrite list_lookup_alter_ne in Hj by lia.
      by apply (Forall_lookup_1 _ _ _ _ En Hj). }
  set (st2 := upd_tx i g st1) in *. unfold tx_session_state_set.
  assert (sess i data NONCE_GET (upd_tx i (fun s => s <| tx_state := NONCE_GET |>) st2)) as H2
    by (apply (sess_upd i data (tx_state s0)); [done|done|done]).
  set (st3 := upd_tx i _ st2) in *. destruct (se_some _ _ _ _ H2) as (s & Es & Ep & _).
  cbn [s0_send_data]. unfold s0_send_data. rewrite (tx_at_lookup st3 i s Es), Ep, Htk. cbn [negb].
  set (st4 := s0_emit _ st3). assert (sess i data NONCE_GET st4) as H3 by by apply (sess_same i data NONCE_GET st3).
  destruct (secure_learn_active E); [|done]. split; [by apply (sess_upd i data NONCE_GET)|done].
Qed.

(** The request is on the air. *)
Lemma asked_ok E i data st : sess i data NONCE_GET st ->
  let st' := noce_get_callback aes E TRANSMIT_COMPLETE_OK i st in
  sess i data NONCE_GET_SENT st' /\ same_rest st st' /\ s0_outs st' = s0_outs st.
Proof.
  intros H. cbv zeta. unfold noce_get_callback. set (st1 := upd_tx i _ st).
  assert (sess i data NONCE_GET st1) as H1 by by apply (sess_upd i data NONCE_GET).
  destruct (se_some _ _ _ _ H1) as (s & Es & _ & _ & _ & Est & _). rewrite (tx_at_lookup st1 i s Es), Est.
  rewrite bool_decide_eq_true_2 by done. cbn [Z.eqb]. change (TRANSMIT_COMPLETE_OK =? TRANSMIT_COMPLETE_OK) with true. cbn match.
  unfold tx_session_state_set. set (st2 := upd_tx i _ st1).
  assert (sess i data NONCE_GET_SENT st2) as H2 by by apply (sess_upd i data NONCE_GET).
  destruct (secure_learn_active E); [done|]. split; [by apply (sess_upd i data NONCE_GET_SENT)|done].
Qed.

Lemma draw_len k src dst t s v s' : draw_fresh aes k src dst t s = Some (v, s') -> length v = 8%nat.
Proof.
  revert s. induction k as [|k IH]; intros s; [done|]. cbn. destruct (get_nonce _ _ _ _ _); [apply IH|].
  intros [= <- _]. by rewrite length_take, aes_len.
Qed.

(** The part of a message that goes into the next frame. *)
Definition part (data : list Z) : list Z := take 26 data.
Definition more (data : list Z) : bool := (26 <? length data)%nat.
Definition header (data : list Z) : Z :=
  if more data then SECURITY_MESSAGE_ENCAPSULATION_NONCE_GET else SECURITY_MESSAGE_ENCAPSULATION.

Lemma part_len_eq data : part_len (Zlength data) = (Zlength (part data), more data).
Proof.
  unfold part_len, part, more, Zlength. rewrite length_take. destruct (26 <? length data)%nat eqn:E.
  - apply Nat.ltb_lt in E. rewrite (proj2 (Z.ltb_lt _ _)) by lia. f_equal. lia.
  - apply Nat.ltb_ge in E. rewrite (proj2 (Z.ltb_ge _ _)) by lia. f_equal. lia.
Qed.

Lemma part_take data : take (Z.to_nat (Zlength (part data))) data = part data /\ drop (Z.to_nat (Zlength (part data))) data = drop 26 data.
Proof.
  unfold part, Zlength. rewrite Nat2Z.id, length_take. destruct (Nat.le_ge_cases (length data) 26).
  - rewrite Nat.min_r by lia. rewrite !take_ge, !drop_ge by lia. done.
  - by rewrite Nat.min_l by lia.
Qed.

(** With the nonce [v] of the peer at hand the next part goes out, sealed. *)
Lemma sealed_ok E pass2 i data state st t0 j v u ps :
  sess i data state st -> is_key_set data = false -> (forall fr, s0_takes E p fr = true) ->
  quiet b a t0 -> (j < length t0)%nat -> nonce_table st = <[j := mkNonce b a NONCE_TIMEOUT false v]> t0 -> length v = 8%nat ->
  draw_fresh aes (tries E) b a [mkNonce b a NONCE_TIMEOUT false v] (prngState st) = Some (u, ps) ->
  let st' := send_sealed aes E pass2 i st in
  sess i (drop 26 data) state st' /\
  s0_outs st' = s0_outs st ++ [S0_send p (sealed aes (enckey st) (authkey st) (header data) a b u v (enc_flags pass2 (more data) sq) (part data))
    (if pass2 then Msg2_callback i else Msg1_callback i)] /\
  enckey st' = enckey st /\ authkey st' = authkey st /\ prngState st' = ps /\ nonce_blacklist st' = nonce_blacklist st /\
  nonce_table st' = snd (register_nonce a b true u (nonce_clear b a (nonce_table st))).
Proof.
  intros H Hk Htk Hq Hj Ht Hv Hdraw. cbv zeta. unfold send_sealed. set (st1 := upd_tx i _ st).
  assert (sess i data state st1) as H1 by by apply (sess_upd i data state).
  destruct (se_some _ _ _ _ H1) as (s & Es & Ep & Ed & El & Est & Ecb & Eu & Esq & Ecm).
  unfold encrypt_msg. rewrite (tx_at_lookup st1 i s Es), Ep, Ed, El, Esq, Hps, Hpd, part_len_eq, Hk, !u8_small by done.
  change (nonce_table st1) with (nonce_table st). change (prngState st1) with (prngState st).
  rewrite (draw_fresh_ext aes (tries E) b a _ [mkNonce b a NONCE_TIMEOUT false v]).
  2: { intros ri. rewrite Ht, get_inserted by done. change [mkNonce b a NONCE_TIMEOUT false v] with (<[0%nat := mkNonce b a NONCE_TIMEOUT false v]> [null_nonce]).
    rewrite get_inserted; [done| |cbn; lia]. constructor; [|constructor]. unfold nonce_for. cbn. done. }
  rewrite Hdraw. cbv zeta. change (nonce_table (st1 <| prngState := ps |>)) with (nonce_table st).
  rewrite Ht, get_inserted by done. cbn [orb]. rewrite <- Ht.
  pose proof (draw_len _ _ _ _ _ _ _ Hdraw) as Hu. destruct (part_take data) as [-> Hdr].
  assert (length (part data) <= 26)%nat as Hpl by (unfold part; rewrite length_take; lia).
  destruct (seal_spec aes aes_len (enckey st) (authkey st) (header data) a b u v (enc_flags pass2 (more data) sq) (part data) (crypted_msg s) Ecm Hpl Hu Hv) as [Hsl Hsf].
  cbv zeta. fold (header data).
  match goal with |- context [seal aes ?e ?au ?sh a b (u ++ v) ?fl ?tx ?bf] => change (seal aes e au sh a b (u ++ v) fl tx bf) with (seal aes (enckey st) (authkey st) sh a b (u ++ v) fl tx bf) end.
  set (buf := seal aes (enckey st) (authkey st) _ a b _ _ _ _) in *.
  assert (Zlength (part data) + 20 =? 0 = false) as -> by (apply Z.eqb_neq; unfold Zlength; lia).
  set (g := fun s : sec_tx_session => _). set (st3 := upd_tx i g _).
  assert (tx_sessions st3 !! i = Some (g s)) as Es3 by by apply upd_tx_lookup.
  rewrite (tx_at_lookup st3 i (g s) Es3). change (tx_param (g s)) with (tx_param s). change (crypted_msg (g s)) with buf.
  rewrite Ep, Hsf. unfold s0_send_data. rewrite Htk.
  assert (sess i (drop 26 data) state st3) as H3.
  { split.
    - exists (g s). split; [done|]. unfold g. cbn. rewrite Ed, Hdr, El. split; [done|]. split; [done|]. split; [|done].
      unfold part, Zlength. rewrite length_take, length_drop. lia.
    - rewrite <- (se_find _ _ _ _ H1). apply find_tx_same.
      transitivity (map tx_param (tx_sessions (upd_tx i g st1))); [done|by apply map_param_upd]. }
  split; [by apply (sess_same i _ state st3)|]. split; [done|]. done.
Qed.

(** The nonce report of the peer arrives. *)
Lemma report_ok E i data state pass2 st v :
  sess i data state st -> sec0_is_nonce_blacklisted b a v (nonce_blacklist st) = false ->
  (pass2 = false /\ state = NONCE_GET_SENT \/ pass2 = true /\ state = ENC_MSG_SENT) ->
  exists st1, sec0_register_nonce aes E b a v st = send_sealed aes E pass2 i st1 /\
    sess i data (if pass2 then ENC_MSG2 else ENC_MSG) st1 /\ s0_outs st1 = s0_outs st /\
    nonce_table st1 = snd (register_nonce b a false v (nonce_table st)) /\ prngState st1 = prngState st /\
    enckey st1 = enckey st /\ authkey st1 = authkey st /\
    nonce_blacklist st1 = <[blacklist_next_elem st := mkBl v b a true]> (nonce_blacklist st).
Proof.
  intros H Hbl Hst. unfold sec0_register_nonce. rewrite !u8_small by done. rewrite Hbl, (se_find _ _ _ _ H).
  set (st1 := st <| nonce_table := _ |>). set (st2 := sec0_blacklist_add_nonce _ _ _ st1).
  assert (sess i data state st2) as H2 by by apply (sess_same i data state st).
  destruct (se_some _ _ _ _ H2) as (s & Es & _ & _ & _ & Est & _). rewrite (tx_at_lookup st2 i s Es), Est.
  destruct Hst as [[-> ->]|[-> ->]]; unfold tx_session_state_set; (eexists; split; [reflexivity|]);
    (split; [by apply (sess_upd i data _ _ st2 H2)|done]).
Qed.

(** The transmission of a part is confirmed. *)
Lemma confirmed_ok E i data state next t st : sess i data state st ->
  (state = ENC_MSG /\ next = ENC_MSG_SENT \/ state = ENC_MSG2 /\ next = ENC_MSG2_SENT /\ data = []) ->
  let st' := msg_callback aes state next E TRANSMIT_COMPLETE_OK i t st in
  if bool_decide (data = []) then exists ext, s0_outs st' = s0_outs st ++ [S0_answer f usr TRANSMIT_COMPLETE_OK (Some ext)]
  else sess i data next st' /\ same_rest st st' /\ s0_outs st' = s0_outs st.
Proof.
  intros H Hn. cbv zeta. unfold msg_callback. destruct (se_some _ _ _ _ H) as (s & Es & _ & _ & _ & Est & _).
  rewrite (tx_at_lookup st i s Es), Est, (bool_decide_eq_true_2 (state = state)) by done.
  change (TRANSMIT_COMPLETE_OK =? TRANSMIT_COMPLETE_OK) with true. cbv beta iota.
  set (st1 := upd_tx i _ st). assert (sess i data state st1) as H1 by by apply (sess_upd i data state).
  set (st2 := match t with Some _ => _ | None => _ end).
  assert (sess i data state st2 /\ same_rest st st2 /\ s0_outs st2 = s0_outs st) as (H2 & Hr2 & Ho2).
  { unfold st2. destruct t; [|done]. split; [by apply (sess_upd i data state)|done]. }
  clearbody st2. unfold tx_session_state_set. set (st3 := upd_tx i _ st2).
  assert (sess i data next st3) as H3 by by apply (sess_upd i data state).
  assert (s0_outs st3 = s0_outs st) as Ho3 by exact Ho2.
  assert (forall st4, sess i data next st4 -> s0_outs (tx_finish true i st4) =
    s0_outs st4 ++ [S0_answer f usr TRANSMIT_COMPLETE_OK (Some (tx_ext_status (tx_at st4 i)))]) as Hfin.
  { intros st4 [(s4 & E4 & _ & _ & _ & _ & Ec & Eu & _) _]. unfold tx_finish. rewrite (tx_at_lookup st4 i s4 E4), Ec, Eu. done. }
  destruct (se_some _ _ _ _ H3) as (s3 & E3 & _ & _ & El & _). case_bool_decide as Hd.
  - destruct Hn as [[-> ->]|[-> [-> _]]].
    + rewrite (tx_at_lookup st3 i s3 E3), El, Hd. change (Zlength (@nil Z) =? 0) with true. cbv iota. rewrite Hfin, Ho3 by done. by eexists.
    + rewrite Hfin, Ho3 by done. by eexists.
  - destruct Hn as [[-> ->]|[_ [_ ?]]]; [|done]. rewrite (tx_at_lookup st3 i s3 E3), El.
    assert (Zlength data =? 0 = false) as -> by (apply Z.eqb_neq; unfold Zlength; destruct data; cbn; [done|lia]).
    split; [by apply (sess_upd i data ENC_MSG_SENT)|]. split; [exact Hr2|exact Ho3].
Qed.

(** ** The receiver *)

Context (q : ts_param) (Hqs : snode q = a) (Hqd : dnode q = b).

Lemma quiet_count src dst t : quiet src dst t -> has_three_nonces src dst t = false.
Proof.
  intros Hq. unfold has_three_nonces. assert (filter (fun n => nonce_for src dst n = true) t = []) as ->; [|done].
  induction Hq as [|n t Hn Hq IH]; [done|]. rewrite filter_cons_False; [done|]. by rewrite Hn.
Qed.

(** A nonce is given out. *)
Lemma give_nonce_ok E st : quiet b a (nonce_table st) -> spare 1 (nonce_table st) -> (0 < tries E)%nat ->
  (forall r fr, s0_takes E r fr = true) ->
  let v := fst (PRNGOutput aes (prngState st)) in
  let st' := sec0_send_nonce aes E q st in
  (exists j n, nonce_table st !! j = Some n /\ n_timeout n = 0 /\ nonce_table st' = <[j := mkNonce b a NONCE_TIMEOUT false v]> (nonce_table st)) /\
  s0_outs st' = s0_outs st ++ [S0_send (ts_param_make_reply (s0_sda E) null_ts q) ([COMMAND_CLASS_SECURITY; SECURITY_NONCE_REPORT] ++ v) No_callback] /\
  rxsessions st' = rxsessions st /\ enckey st' = enckey st /\ authkey st' = authkey st /\ prngState st' = snd (PRNGOutput aes (prngState st)).
Proof.
  intros Hq Hs Ht Htk. cbv zeta. unfold sec0_send_nonce. rewrite Hqs, Hqd, !u8_small, (quiet_count b a) by done.
  destruct (tries E) as [|k]; [lia|]. cbn [draw_fresh]. destruct (PRNGOutput aes (prngState st)) as [v ps] eqn:Ep.
  rewrite (get_nonce_quiet b a) by done. cbv zeta. unfold s0_send_data. rewrite Htk. cbn [fst snd].
  split; [|done]. destruct (register_new b a v (nonce_table st) Hq Hs) as (j & n & Hj & Hn & Et). exists j, n. by rewrite <- Et.
Qed.

Lemma nonce_len v : length (fst (PRNGOutput aes v)) = 8%nat.
Proof. cbn. by rewrite length_take, aes_len. Qed.

(** The flags of the parts. *)
Lemma first_flags : let fl := enc_flags false true sq in
  has fl SEQUENCED_BIT_MASK = true /\ has fl SECOND_FRAME_BIT_MASK = false /\ Z.land fl 0xF = Z.land sq 0xF.
Proof.
  cbv zeta. unfold enc_flags. assert (0 <= Z.land sq 0xF < 16) as Hk by (apply (land_bound 4); lia).
  pose proof (range_all 0 16 (fun k => has (Z.lor SEQUENCED_BIT_MASK k) SEQUENCED_BIT_MASK && negb (has (Z.lor SEQUENCED_BIT_MASK k) SECOND_FRAME_BIT_MASK)
    && (Z.land (Z.lor SEQUENCED_BIT_MASK k) 0xF =? k)) eq_refl (Z.land sq 0xF) Hk) as H.
  apply andb_true_iff in H as [[H1 H2%negb_true_iff]%andb_true_iff H3%Z.eqb_eq]. done.
Qed.

Lemma second_flags m : let fl := enc_flags true m sq in
  has fl SEQUENCED_BIT_MASK = true /\ has fl SECOND_FRAME_BIT_MASK = true /\ Z.land fl 0xF = Z.land sq 0xF.
Proof.
  cbv zeta. unfold enc_flags. assert (0 <= Z.land sq 0xF < 16) as Hk by (apply (land_bound 4); lia).
  set (g := Z.lor SEQUENCED_BIT_MASK SECOND_FRAME_BIT_MASK).
  pose proof (range_all 0 16 (fun k => has (Z.lor g k) SEQUENCED_BIT_MASK && has (Z.lor g k) SECOND_FRAME_BIT_MASK
    && (Z.land (Z.lor g k) 0xF =? k)) eq_refl (Z.land sq 0xF) Hk) as H.
  apply andb_true_iff in H as [[H1 H2]%andb_true_iff H3%Z.eqb_eq]. done.
Qed.

(** ** Receive sessions *)

Lemma rx_at_upd st r g : (r < length (rxsessions st))%nat -> rx_at (upd_rx r g st) r = g (rx_at st r).
Proof.
  intros Hr. unfold rx_at, upd_rx. cbn [rxsessions modify]. rewrite list_lookup_alter_eq.
  by destruct (lookup_lt_is_Some_2 (rxsessions st) r Hr) as [e ->].
Qed.

Definition free_rx (now : Z) (st : sec0) : option nat := fst <$> list_find (fun e => is_free now e = true) (rxsessions st).

(** A new session is opened in the first free slot. *)
Lemma rx_new_ok now st : get_rx_session_by_nodes now a b st = None -> Exists (fun e => is_free now e = true) (rxsessions st) ->
  exists r e, rxsessions st !! r = Some e /\ is_free now e = true /\
  (forall j x, rxsessions st !! j = Some x -> (j < r)%nat -> is_free now x = false) /\
  rx_session_for now a b st = (Some r, upd_rx r (fun s => s <| rx_state := RX_INIT |>)
    (upd_rx r (fun e => e <| rx_snode := a |> <| rx_dnode := b |> <| rx_timeout := now + RX_TIMEOUT |>) st)).
Proof.
  intros Hn Hf. unfold rx_session_for, new_rx_session. rewrite Hn.
  destruct (list_find _ (rxsessions st)) as [[r e]|] eqn:E.
  - pose proof E as (He & Hfe & Hmin)%list_find_Some. exists r, e. split; [done|]. split; [done|]. split; [|done].
    intros j x Hj Hjr. specialize (Hmin j x Hj Hjr). by destruct (is_free now x).
  - exfalso. apply list_find_None in E. apply Exists_exists in Hf as (e & He & Hfe). by apply (proj1 (Forall_forall _ _) E e He).
Qed.

(** What opening a session leaves behind. *)
Definition opened (now : Z) (r : nat) (st : sec0) : sec0 :=
  upd_rx r (fun s => s <| rx_state := RX_INIT |>)
    (upd_rx r (fun e => e <| rx_snode := a |> <| rx_dnode := b |> <| rx_timeout := now + RX_TIMEOUT |>)
       (st <| nonce_table := nonce_clear b a (nonce_table st) |>)).

Lemma opened_at now r e st : rxsessions st !! r = Some e ->
  rxsessions (opened now r st) !! r = Some (e <| rx_snode := a |> <| rx_dnode := b |> <| rx_timeout := now + RX_TIMEOUT |> <| rx_state := RX_INIT |>).
Proof. intros He. unfold opened, upd_rx. cbn [rxsessions modify]. by rewrite !list_lookup_alter_eq, He. Qed.

(** The nonce [v] was given out and no other one is alive. *)
Definition gave (v : list Z) (st : sec0) : Prop :=
  exists t j, quiet b a t /\ (j < length t)%nat /\ nonce_table st = <[j := mkNonce b a NONCE_TIMEOUT false v]> t.

Lemma gave_get v st : gave v st -> get_nonce b a (rd v 0) false (nonce_table st) = Some v.
Proof. intros (t & j & Hq & Hj & ->). rewrite get_inserted by done. by rewrite Z.eqb_refl, orb_true_r. Qed.

(** The first frame from [a] opens a session. *)
Lemma receive_new E st v u flags text sh : gave v st -> length u = 8%nat -> (length text <= 128)%nat ->
  get_rx_session_by_nodes (clock_time E) a b st = None -> Exists (fun e => is_free (clock_time E) e = true) (rxsessions st) ->
  exists r e iv', rxsessions st !! r = Some e /\
    (forall j x, rxsessions st !! j = Some x -> (j < r)%nat -> is_free (clock_time E) x = false) /\
    sec0_decrypt_message aes E a b (sealed aes (enckey st) (authkey st) sh a b u v flags text) (Zlength text + 20) st =
    rx_text r flags text (opened (clock_time E) r st <| aes_key := enckey st |> <| aes_iv := iv' |>).
Proof.
  intros Hg Hu Ht Hn Hf. set (stc := st <| nonce_table := nonce_clear b a (nonce_table st) |>).
  destruct (rx_new_ok (clock_time E) stc Hn Hf) as (r & e & He & _ & Hmin & Erx).
  pose proof (opened_at (clock_time E) r e st He) as Hr. fold (opened (clock_time E) r st) in Erx.
  pose proof (open_sealed aes aes_len E a b u v flags text sh st r (opened (clock_time E) r st) Hu Ht) as Ho. rewrite !u8_small in Ho by done.
  destruct Ho as [iv' Ho]; [by apply gave_get|exact Erx| |done|done|by exists r, e, iv'].
  left. unfold rx_at. by rewrite Hr.
Qed.

(** The next one finds it. *)
Lemma receive_next E st v u flags text sh r e : gave v st -> length u = 8%nat -> (length text <= 128)%nat ->
  get_rx_session_by_nodes (clock_time E) a b st = Some r -> rxsessions st !! r = Some e -> msg_len e + Zlength text <= 128 ->
  exists iv',
    sec0_decrypt_message aes E a b (sealed aes (enckey st) (authkey st) sh a b u v flags text) (Zlength text + 20) st =
    rx_text r flags text (st <| nonce_table := nonce_clear b a (nonce_table st) |> <| aes_key := enckey st |> <| aes_iv := iv' |>).
Proof.
  intros Hg Hu Ht Hf He Hm. set (st1 := st <| nonce_table := nonce_clear b a (nonce_table st) |>).
  pose proof (open_sealed aes aes_len E a b u v flags text sh st r st1 Hu Ht) as Ho. rewrite !u8_small in Ho by done.
  apply Ho; [by apply gave_get| | |done|done].
  - assert (rx_session_for (clock_time E) a b st1 = (Some r, st1)) as Hx; [|exact Hx].
    unfold rx_session_for. assert (get_rx_session_by_nodes (clock_time E) a b st1 = Some r) as -> by exact Hf. done.
  - right. unfold rx_at. change (rxsessions st1) with (rxsessions st). by rewrite He.
Qed.

(** A single frame is handed on. *)
Lemma rx_text_single i text st : fst (rx_text i 0 text st) = text.
Proof. reflexivity. Qed.

(** The first of two is kept. *)
Lemma rx_text_first i text st : (i < length (rxsessions st))%nat ->
  let '(m, st') := rx_text i (enc_flags false true sq) text st in
  m = [] /\ st' = upd_rx i (fun s => s <| seq_nr := Z.land sq 0xF |> <| msg_len := Zlength text |> <| rx_state := RX_ENC1 |>
                                       <| msg := memcpy_at (msg s) 0 text |>) st.
Proof.
  intros Hi. destruct first_flags as (H1 & H2 & H3). unfold rx_text. rewrite H1, H2, H3. done.
Qed.

Lemma rx_text_second i m text st : rx_state (rx_at st i) = RX_ENC1 -> seq_nr (rx_at st i) = Z.land sq 0xF ->
  fst (rx_text i (enc_flags true m sq) text st) = sub_buf (msg (rx_at st i)) 0 (msg_len (rx_at st i)) ++ text.
Proof.
  intros Hst Hsq. destruct (second_flags m) as (H1 & H2 & H3). unfold rx_text. rewrite H1, H2, H3, Hst, Hsq, Z.eqb_refl.
  by rewrite bool_decide_eq_true_2 by done.
Qed.
End Exchange.

(** ** Messages between two nodes *)

(** The sender can take on a message to [b] in session [i]: no other one is under
    way to that node, and its tables have room. *)
Record sender_ready (a b : Z) (i : nat) (st : sec0) : Prop := {
  sr_none : get_tx_session_by_node a b st = None;
  sr_free : fst <$> list_find (fun s => dnode (tx_param s) = 0) (tx_sessions st) = Some i;
  sr_buf : Forall (fun s => length (crypted_msg s) = 46%nat) (tx_sessions st);
  sr_quiet : quiet b a (nonce_table st);
  sr_spare : spare 2 (nonce_table st)
}.

(** The receiver can take a message from [a]. *)
Record receiver_ready (a b now : Z) (st : sec0) : Prop := {
  rr_quiet : quiet b a (nonce_table st);
  rr_spare : spare 1 (nonce_table st);
  rr_none : get_rx_session_by_nodes now a b st = None;
  rr_free : Exists (fun e => is_free now e = true) (rxsessions st);
  rr_buf : Forall (fun e => length (msg e) = 128%nat) (rxsessions st)
}.

Lemma spare_mono k l t : (k <= l)%nat -> spare l t -> spare k t.
Proof. unfold spare. lia. Qed.

(** A nonce that was used gives its place back. *)
Lemma spare_cycle k src dst v t j n : spare k t -> t !! j = Some n -> n_timeout n = 0 ->
  spare k (nonce_clear src dst (<[j := mkNonce src dst NONCE_TIMEOUT false v]> t)).
Proof.
  intros Hs Hj Hn. eapply spare_le; [|exact Hs]. apply Forall2_same_length_lookup_2; [unfold nonce_clear; by rewrite length_map, length_insert|].
  intros k' x y Hx Hy Hx0. unfold nonce_clear in Hy. apply list_lookup_fmap_Some in Hy as (z & -> & Hz). revert Hz.
  destruct (decide (k' = j)) as [->|Hne].
  - rewrite list_lookup_insert_eq by (by eapply lookup_lt_Some). intros [= <-]. cbn. by rewrite !Z.eqb_refl.
  - rewrite list_lookup_insert_ne by done. rewrite Hx. intros [= ->]. destruct (_ && _); [done|exact Hx0].
Qed.

Lemma register_reply_spare src dst v t : spare 2 t -> spare 1 (snd (register_nonce src dst true v t)).
Proof.
  intros Hs. unfold register_nonce. destruct (find_nonce (fun n => reply_nonce n && _) t) as [[i n]|] eqn:E; cbn [snd].
  - apply list_find_Some in E as (Hi & Hp & _). apply andb_true_iff in Hp as [_ Hp]. unfold nonce_for in Hp.
    eapply spare_le; [|eapply (spare_mono 1 2); [lia|exact Hs]]. apply Forall2_same_length_lookup_2; [by rewrite length_alter|].
    intros k x y Hx Hy Hx0. destruct (decide (k = i)) as [->|Hne].
    + exfalso. assert (x = n) as -> by congruence. by rewrite Hx0 in Hp.
    + rewrite list_lookup_alter_ne in Hy by done. congruence.
  - destruct (spare_find t (spare_mono 1 2 t ltac:(lia) Hs)) as (i & n & -> & Hi & Hn). cbn [snd]. by apply (spare_insert 1 t i n).
Qed.

Lemma register_other_quiet src dst s d v t : (src, dst) <> (s, d) -> quiet src dst t -> quiet src dst (snd (register_nonce s d true v t)).
Proof.
  intros Hne Hq. unfold register_nonce.
  assert (forall n, n_src n = s -> n_dst n = d -> nonce_for src dst n = false) as Hn.
  { intros n Es Ed. unfold nonce_for. rewrite Es, Ed. destruct (s =? src) eqn:E1; [|by rewrite andb_false_r]. destruct (d =? dst) eqn:E2; [|by rewrite andb_false_r].
    apply Z.eqb_eq in E1, E2. by subst. }
  destruct (find_nonce (fun n => reply_nonce n && _) t) as [[i n]|] eqn:E; cbn [snd].
  - apply list_find_Some in E as (Hi & Hp & _). apply andb_true_iff in Hp as [_ Hp]. unfold nonce_for in Hp.
    apply andb_true_iff in Hp as [[_ Hs%Z.eqb_eq]%andb_true_iff Hd%Z.eqb_eq]. apply Forall_alter; [exact Hq|]. intros x Hx _.
    assert (x = n) as -> by congruence. apply Hn; [exact Hs|exact Hd].
  - destruct (find_nonce (fun n => n_timeout n =? 0) t) as [[i n]|]; cbn [snd]; [|exact Hq]. apply Forall_insert; [exact Hq|]. by apply Hn.
Qed.

(** The sender's side of the first frame. *)
Lemma first_part (aes : list Z -> list Z -> list Z) (EA : s0_env) (A : sec0) (a b : Z) (p : ts_param) (f usr : Z) (data : list Z)
    (i : nat) (v u ps : list Z) :
  (forall k x, length (aes k x) = 16%nat) -> 0 < a < 256 -> 0 < b < 256 -> a <> b -> snode p = a -> dnode p = b ->
  (0 < length data <= 255)%nat -> is_key_set data = false -> sender_ready a b i A -> (forall fr, s0_takes EA p fr = true) ->
  sec0_is_nonce_blacklisted b a v (nonce_blacklist A) = false -> length v = 8%nat ->
  draw_fresh aes (tries EA) b a [mkNonce b a NONCE_TIMEOUT false v] (prngState A) = Some (u, ps) ->
  let sq := u8 (seq_static A + 1) in
  exists A1, sec0_send_data aes EA p data (Some f) usr A = (true, A1) /\
    let A3 := sec0_register_nonce aes EA b a v (noce_get_callback aes EA TRANSMIT_COMPLETE_OK i A1) in
    sess a b p f usr sq i (drop 26 data) ENC_MSG A3 /\
    s0_outs A3 = s0_outs A ++ [S0_send p [COMMAND_CLASS_SECURITY; SECURITY_NONCE_GET] (Noce_get_callback i);
      S0_send p (sealed aes (enckey A) (authkey A) (header data) a b u v (enc_flags false (more data) sq) (part data)) (Msg1_callback i)] /\
    enckey A3 = enckey A /\ authkey A3 = authkey A /\ prngState A3 = ps /\
    (exists k, nonce_blacklist A3 = <[k := mkBl v b a true]> (nonce_blacklist A)) /\
    quiet b a (nonce_table A3) /\ spare 1 (nonce_table A3).
Proof.
  intros Hlen Ha Hb Hab Hps Hpd Hd Hk [Hnone Hfree Hbuf Hq Hsp] HtA Hbl Hv Hdraw. cbv zeta.
  destruct (list_find _ (tx_sessions A)) as [[i' s0]|] eqn:Efr; [|done]. injection Hfree as ->.
  pose proof Efr as (Hs0 & _)%list_find_Some. pose proof (Forall_lookup_1 _ _ _ _ Hbuf Hs0) as Hcm. cbn in Hcm.
  set (sq := u8 (seq_static A + 1)).
  destruct (start_ok aes a b Ha Hb p Hps Hpd f usr sq EA data i A s0 Hd eq_refl Hnone Efr Hcm (HtA _)) as (A1 & -> & H1 & R1 & O1).
  exists A1. split; [done|].
  destruct (asked_ok aes a b p f usr sq EA i data A1 H1) as (H2 & R2 & O2). set (A2 := noce_get_callback _ _ _ _ A1) in *.
  destruct R1 as (T1 & B1 & _ & K1 & L1 & P1). destruct R2 as (T2 & B2 & _ & K2 & L2 & P2).
  destruct (report_ok aes a b Ha Hb p f usr sq EA i data NONCE_GET_SENT false A2 v H2) as (A2' & -> & H3 & O3 & T3 & P3 & K3 & L3 & BL3).
  { by rewrite B2, B1. }
  { by left. }
  rewrite T2, T1 in T3. destruct (register_new b a v (nonce_table A) Hq (spare_mono 1 2 _ ltac:(lia) Hsp)) as (j & n & Hj & Hn & Et). rewrite Et in T3.
  destruct (sealed_ok aes Hlen a b Ha Hb p Hps Hpd f usr sq EA false i data ENC_MSG A2' (nonce_table A) j v u ps H3 Hk HtA Hq) as (H4 & O4 & K4 & L4 & P4 & BL4 & T4).
  { by eapply lookup_lt_Some. }
  { exact T3. }
  { done. }
  { by rewrite P3, P2, P1. }
  split; [exact H4|]. rewrite O4, O3, O2, O1, K4, K3, K2, K1, L4, L3, L2, L1, <- app_assoc.
  split; [done|]. split; [done|]. split; [done|]. split; [exact P4|]. split; [exists (blacklist_next_elem A2); by rewrite BL4, BL3, B2, B1|].
  rewrite T4, T3. split; [apply register_other_quiet; [congruence|apply quiet_clear]|]. apply register_reply_spare. by apply (spare_cycle 2 b a v (nonce_table A) j n).
Qed.

(** A message of at most 26 bytes from node [a] to node [b], with the keys shared
    and nothing lost on the way: the sender asks for a nonce, the receiver gives
    one out, the sender seals the message with it in one frame, the receiver hands
    exactly this message on, and the sender's caller is told so. *)
Theorem s0_short_message (aes : list Z -> list Z -> list Z) (EA EB : s0_env) (A B : sec0) (a b : Z) (p q : ts_param)
    (f usr : Z) (data : list Z) (i : nat) (t : option Z) (u ps : list Z) :
  let v := fst (PRNGOutput aes (prngState B)) in
  (forall k x, length (aes k x) = 16%nat) ->
  0 < a < 256 -> 0 < b < 256 -> a <> b -> snode p = a -> dnode p = b -> snode q = a -> dnode q = b ->
  (0 < length data <= 26)%nat -> is_key_set data = false ->
  sender_ready a b i A -> receiver_ready a b (clock_time EB) B -> enckey B = enckey A -> authkey B = authkey A ->
  (forall fr, s0_takes EA p fr = true) -> (forall r fr, s0_takes EB r fr = true) -> (0 < tries EB)%nat ->
  sec0_is_nonce_blacklisted b a v (nonce_blacklist A) = false ->
  draw_fresh aes (tries EA) b a [mkNonce b a NONCE_TIMEOUT false v] (prngState A) = Some (u, ps) ->
  let '(ok, A1) := sec0_send_data aes EA p data (Some f) usr A in
  let A2 := noce_get_callback aes EA TRANSMIT_COMPLETE_OK i A1 in
  let B1 := sec0_send_nonce aes EB q B in
  let A3 := sec0_register_nonce aes EA b a v A2 in
  let A4 := msg1_callback aes EA TRANSMIT_COMPLETE_OK i t A3 in
  exists frame ext,
    ok = true /\
    s0_outs B1 = s0_outs B ++ [S0_send (ts_param_make_reply (s0_sda EB) null_ts q) ([COMMAND_CLASS_SECURITY; SECURITY_NONCE_REPORT] ++ v) No_callback] /\
    s0_outs A3 = s0_outs A ++ [S0_send p [COMMAND_CLASS_SECURITY; SECURITY_NONCE_GET] (Noce_get_callback i); S0_send p frame (Msg1_callback i)] /\
    fst (sec0_decrypt_message aes EB a b frame (Zlength frame) B1) = data /\
    s0_outs A4 = s0_outs A3 ++ [S0_answer f usr TRANSMIT_COMPLETE_OK (Some ext)].
Proof.
  intros v Hlen Ha Hb Hab Hps Hpd Hqs Hqd Hd Hk HA [HBq HBs HBn HBf HBb] Hek Hak HtA HtB Htr Hbl Hdraw.
  assert (length v = 8%nat) as Hv by by apply nonce_len.
  destruct (first_part aes EA A a b p f usr data i v u ps Hlen Ha Hb Hab Hps Hpd ltac:(lia) Hk HA HtA Hbl Hv Hdraw) as (A1 & -> & H3 & O3 & _).
  cbv zeta. set (sq := u8 (seq_static A + 1)) in *. set (A3 := sec0_register_nonce _ _ _ _ _ _) in *. rewrite (drop_ge data 26) in H3 by lia.
  pose proof (confirmed_ok aes a b p f usr sq EA i [] ENC_MSG ENC_MSG_SENT t A3 H3 ltac:(by left)) as Hcf. cbv zeta in Hcf.
  rewrite bool_decide_eq_true_2 in Hcf by done. destruct Hcf as [ext Hext].
  destruct (give_nonce_ok aes a b Ha Hb q Hqs Hqd EB B HBq HBs Htr HtB) as ((jb & nb & Hjb & Hnb & TB) & OB & RB & KB & LB & _). fold v in TB, OB.
  set (B1 := sec0_send_nonce _ _ _ B) in *.
  assert (more data = false) as Em by (unfold more; apply Nat.ltb_ge; lia).
  assert (part data = data) as Epd by (unfold part; by rewrite take_ge by lia).
  rewrite Em, Epd in O3. set (frame := sealed _ _ _ _ _ _ _ _ _ _) in O3. exists frame, ext.
  split; [done|]. split; [exact OB|]. split; [exact O3|]. split; [|exact Hext].
  assert (Zlength frame = Zlength data + 20) as -> by (unfold frame; apply Zlength_sealed; [done|by eapply draw_len]).
  assert (frame = sealed aes (enckey B1) (authkey B1) (header data) a b u v (enc_flags false false sq) data) as -> by by rewrite KB, LB, Hek, Hak.
  destruct (receive_new aes Hlen a b Ha Hb EB B1 v u (enc_flags false false sq) data (header data)) as (r & e & iv' & _ & _ & ->); [..|done].
  - exists (nonce_table B), jb. split; [done|]. split; [by eapply lookup_lt_Some|done].
  - by eapply draw_len.
  - lia.
  - unfold get_rx_session_by_nodes in *. by rewrite RB.
  - by rewrite RB.
Qed.

(** A session that waits for the second part is found again until it times out. *)
Lemma find_opened a b now now' r e g st : get_rx_session_by_nodes now a b st = None ->
  rxsessions st !! r = Some e -> (forall j x, rxsessions st !! j = Some x -> (j < r)%nat -> is_free now x = false) ->
  now' <= now + RX_TIMEOUT ->
  (forall x, rx_state (g x) = RX_ENC1 /\ rx_timeout (g x) = rx_timeout x /\ rx_dnode (g x) = rx_dnode x /\ rx_snode (g x) = rx_snode x) ->
  get_rx_session_by_nodes now' a b (upd_rx r g (opened a b now r st)) = Some r.
Proof.
  intros Hn He Hmin Ht Hg. unfold get_rx_session_by_nodes in *. set (P := fun e => is_free now e = false /\ rx_dnode e = b /\ rx_snode e = a) in Hn.
  destruct (list_find P (rxsessions st)) as [[]|] eqn:En; [done|]. apply list_find_None in En.
  set (e1 := e <| rx_snode := a |> <| rx_dnode := b |> <| rx_timeout := now + RX_TIMEOUT |> <| rx_state := RX_INIT |>).
  set (Q := fun e => is_free now' e = false /\ rx_dnode e = b /\ rx_snode e = a). rewrite (proj2 (list_find_Some Q _ r (g e1))); [done|].
  pose proof (opened_at a b now r e st He) as Hr. fold e1 in Hr. destruct (Hg e1) as (G1 & G2 & G3 & G4). split; [|split].
  - unfold upd_rx at 1. cbn [rxsessions modify]. by rewrite list_lookup_alter_eq, Hr.
  - unfold Q, is_free. rewrite G1, G2, G3, G4. split; [|done]. change (rx_timeout e1) with (now + RX_TIMEOUT).
    rewrite (proj2 (Z.ltb_ge _ _)) by lia. done.
  - intros j y Hj Hjr [_ HQ]. assert (rxsessions st !! j = Some y) as Hj0.
    { unfold upd_rx in Hj. cbn [rxsessions modify] in Hj. rewrite list_lookup_alter_ne in Hj by lia.
      unfold opened, upd_rx in Hj. cbn [rxsessions modify] in Hj. by rewrite !list_lookup_alter_ne in Hj by lia. }
    apply (Forall_lookup_1 _ _ _ _ En Hj0). split; [by apply (Hmin j)|done].
Qed.

Lemma blacklist_other k v w b a l : sec0_is_nonce_blacklisted b a w l = false -> w <> v ->
  sec0_is_nonce_blacklisted b a w (<[k := mkBl v b a true]> l) = false.
Proof.
  intros Hl Hne. unfold sec0_is_nonce_blacklisted in *. revert k. induction l as [|x l IH]; intros [|k]; cbn in *; [done|done|..].
  - apply orb_false_iff in Hl as [_ Hl]. rewrite Hl, bool_decide_eq_false_2 by congruence. done.
  - apply orb_false_iff in Hl as [-> Hl]. cbn. by apply IH.
Qed.

(** The sender's side of the second frame. *)
Lemma second_part (aes : list Z -> list Z -> list Z) (EA : s0_env) (A : sec0) (a b : Z) (p : ts_param) (f usr sq : Z) (rest : list Z)
    (i : nat) (t t2 : option Z) (v u ps : list Z) :
  (forall k x, length (aes k x) = 16%nat) -> 0 < a < 256 -> 0 < b < 256 -> snode p = a -> dnode p = b ->
  (0 < length rest <= 26)%nat -> is_key_set rest = false -> (forall fr, s0_takes EA p fr = true) ->
  sess a b p f usr sq i rest ENC_MSG A -> quiet b a (nonce_table A) -> spare 1 (nonce_table A) ->
  sec0_is_nonce_blacklisted b a v (nonce_blacklist A) = false -> length v = 8%nat ->
  draw_fresh aes (tries EA) b a [mkNonce b a NONCE_TIMEOUT false v] (prngState A) = Some (u, ps) ->
  let A' := sec0_register_nonce aes EA b a v (msg1_callback aes EA TRANSMIT_COMPLETE_OK i t A) in
  exists ext,
    s0_outs A' = s0_outs A ++ [S0_send p (sealed aes (enckey A) (authkey A) (header rest) a b u v (enc_flags true false sq) rest) (Msg2_callback i)] /\
    s0_outs (msg2_callback aes EA TRANSMIT_COMPLETE_OK i t2 A') = s0_outs A' ++ [S0_answer f usr TRANSMIT_COMPLETE_OK (Some ext)].
Proof.
  intros Hlen Ha Hb Hps Hpd Hrl Hk HtA H3 Q3 S3 Hbl Hv Hdraw. cbv zeta.
  pose proof (confirmed_ok aes a b p f usr sq EA i rest ENC_MSG ENC_MSG_SENT t A H3 ltac:(by left)) as Hcf. cbv zeta in Hcf.
  rewrite bool_decide_eq_false_2 in Hcf by (intros E0; rewrite E0 in Hrl; cbn in Hrl; lia). destruct Hcf as (H4 & (T4 & BL4 & _ & K4 & L4 & P4) & O4).
  fold (msg1_callback aes EA TRANSMIT_COMPLETE_OK i t A) in H4, T4, BL4, K4, L4, P4, O4. set (A4 := msg1_callback _ _ _ _ _ A) in *.
  destruct (report_ok aes a b Ha Hb p f usr sq EA i rest ENC_MSG_SENT true A4 v H4) as (A4' & -> & H5 & O5 & T5 & P5 & K5 & L5 & _);
    [by rewrite BL4|by right|].
  rewrite T4 in T5. destruct (register_new b a v (nonce_table A) Q3 S3) as (j & n & Hj & Hn & Et). rewrite Et in T5.
  destruct (sealed_ok aes Hlen a b Ha Hb p Hps Hpd f usr sq EA true i rest ENC_MSG2 A4' (nonce_table A) j v u ps H5 Hk HtA Q3) as (H6 & O6 & _);
    [by eapply lookup_lt_Some|exact T5|done|by rewrite P5, P4|].
  set (A5 := send_sealed _ _ _ _ A4') in *. assert (drop 26 rest = []) as Er by (apply drop_ge; lia). rewrite Er in H6.
  pose proof (confirmed_ok aes a b p f usr sq EA i [] ENC_MSG2 ENC_MSG2_SENT t2 A5 H6 ltac:(by right)) as Hc2. cbv zeta in Hc2.
  rewrite bool_decide_eq_true_2 in Hc2 by done. destruct Hc2 as [ext Hext]. exists ext. split; [|exact Hext].
  assert (more rest = false) as Em2 by (unfold more; apply Nat.ltb_ge; lia).
  assert (part rest = rest) as Epr by (unfold part; by rewrite take_ge by lia). rewrite Em2, Epr in O6.
  by rewrite O6, O5, O4, K5, K4, L5, L4.
Qed.

(** The receiver's side of two frames. *)
Lemma receive_two (aes : list Z -> list Z -> list Z) (EB EB2 : s0_env) (B : sec0) (a b : Z) (q : ts_param) (sq sh sh2 : Z) (p1 rest u u2 : list Z) :
  let v := fst (PRNGOutput aes (prngState B)) in
  let v2 := fst (PRNGOutput aes (snd (PRNGOutput aes (prngState B)))) in
  (forall k x, length (aes k x) = 16%nat) -> 0 < a < 256 -> 0 < b < 256 -> snode q = a -> dnode q = b ->
  (length p1 + length rest <= 128)%nat -> length u = 8%nat -> length u2 = 8%nat -> receiver_ready a b (clock_time EB) B ->
  (forall r fr, s0_takes EB r fr = true) -> (forall r fr, s0_takes EB2 r fr = true) ->
  (0 < tries EB)%nat -> (0 < tries EB2)%nat -> clock_time EB2 <= clock_time EB + RX_TIMEOUT ->
  let f1 := sealed aes (enckey B) (authkey B) sh a b u v (enc_flags false true sq) p1 in
  let f2 := sealed aes (enckey B) (authkey B) sh2 a b u2 v2 (enc_flags true false sq) rest in
  let '(m, B2) := sec0_decrypt_message aes EB a b f1 (Zlength f1) (sec0_send_nonce aes EB q B) in
  let B3 := sec0_send_nonce aes EB2 q B2 in
  m = [] /\
  s0_outs B3 = s0_outs B ++ [S0_send (ts_param_make_reply (s0_sda EB) null_ts q) ([COMMAND_CLASS_SECURITY; SECURITY_NONCE_REPORT] ++ v) No_callback;
    S0_send (ts_param_make_reply (s0_sda EB2) null_ts q) ([COMMAND_CLASS_SECURITY; SECURITY_NONCE_REPORT] ++ v2) No_callback] /\
  fst (sec0_decrypt_message aes EB2 a b f2 (Zlength f2) B3) = p1 ++ rest.
Proof.
  intros v v2 Hlen Ha Hb Hqs Hqd Hl Hu Hu2 [HBq HBs HBn HBf HBb] HtB HtB2 Htr Htr2 Hclk. cbv zeta.
  destruct (give_nonce_ok aes a b Ha Hb q Hqs Hqd EB B HBq HBs Htr HtB) as ((jb & nb & Hjb & Hnb & TB) & OB & RB & KB & LB & PB). fold v in TB, OB.
  set (B1 := sec0_send_nonce _ _ _ B) in *. rewrite <- KB, <- LB. rewrite !Zlength_sealed by done.
  destruct (receive_new aes Hlen a b Ha Hb EB B1 v u (enc_flags false true sq) p1 sh) as (r & e & iv' & He & Hmin & ->);
    [exists (nonce_table B), jb; split; [done|]; split; [by eapply lookup_lt_Some|done]|done|lia|
     unfold get_rx_session_by_nodes in *; by rewrite RB|by rewrite RB|].
  pose proof (opened_at a b (clock_time EB) r e B1 He) as Hor. set (S1 := opened _ _ _ r B1 <| aes_key := _ |> <| aes_iv := iv' |>).
  pose proof (rx_text_first sq r p1 S1 (lookup_lt_Some _ _ _ Hor)) as Hrx. set (res := rx_text r _ p1 S1) in *.
  destruct res as [m B2]. destruct Hrx as [-> EB2']. set (g := fun s : rx_session_t => _) in EB2'.
  assert (nonce_table B2 = nonce_clear b a (nonce_table B1)) as TB2 by (by rewrite EB2').
  destruct (give_nonce_ok aes a b Ha Hb q Hqs Hqd EB2 B2) as ((jc & nc & Hjc & Hnc & TB3) & OB3 & RB3 & KB3 & LB3 & _);
    [rewrite TB2; apply quiet_clear|rewrite TB2, TB; by apply (spare_cycle 1 b a v _ jb nb)|done|done|].
  assert (prngState B2 = snd (PRNGOutput aes (prngState B))) as PB2 by (by rewrite EB2').
  rewrite PB2 in OB3, TB3. fold v2 in OB3, TB3. set (B3 := sec0_send_nonce _ _ _ B2) in *. split; [done|].
  split; [rewrite OB3, EB2'; change (s0_outs (upd_rx r g S1)) with (s0_outs B1); rewrite OB, <- app_assoc; done|].
  assert (enckey B3 = enckey B1 /\ authkey B3 = authkey B1) as [<- <-] by (by rewrite KB3, LB3, EB2').
  assert (rxsessions B3 = rxsessions (upd_rx r g (opened a b (clock_time EB) r B1))) as RB4 by (rewrite RB3, EB2'; done).
  set (e1 := e <| rx_snode := a |> <| rx_dnode := b |> <| rx_timeout := clock_time EB + RX_TIMEOUT |> <| rx_state := RX_INIT |>) in Hor.
  assert (rxsessions B3 !! r = Some (g e1)) as HB3 by (rewrite RB4; unfold upd_rx at 1; cbn [rxsessions modify]; by rewrite list_lookup_alter_eq, Hor).
  destruct (receive_next aes Hlen a b Ha Hb EB2 B3 v2 u2 (enc_flags true false sq) rest sh2 r (g e1)) as [iv2 ->];
    [exists (nonce_table B2), jc; rewrite TB2 at 1; split; [apply quiet_clear|]; split; [by eapply lookup_lt_Some|done]|done|lia| |exact HB3| |].
  { rewrite <- (find_opened a b (clock_time EB) (clock_time EB2) r e g B1); [unfold get_rx_session_by_nodes; by rewrite RB4| |done|exact Hmin|done|done].
    unfold get_rx_session_by_nodes in *. by rewrite RB. }
  { unfold g. cbn. unfold Zlength. lia. }
  set (S3' := B3 <| nonce_table := _ |> <| aes_key := _ |> <| aes_iv := iv2 |>).
  assert (rx_at S3' r = g e1) as Hat by (unfold rx_at; change (rxsessions S3') with (rxsessions B3); by rewrite HB3).
  rewrite (rx_text_second sq r false rest S3') by (by rewrite Hat). rewrite Hat.
  change (msg (g e1)) with (memcpy_at (msg e) 0 p1). change (msg_len (g e1)) with (Zlength p1).
  rewrite sub_buf_memcpy_0; [done|]. rewrite RB in He. pose proof (Forall_lookup_1 _ _ _ _ HBb He) as Hm. cbn in Hm.
  unfold Zlength. rewrite Hm. lia.
Qed.

(** C16. A message of 27 to 52 bytes goes in two frames, each with a nonce of its own:
    the first frame asks for the second nonce, the receiver keeps its part, and
    with the second frame hands on exactly the whole message, provided the second
    part arrives within ten seconds. *)
Theorem s0_long_message (aes : list Z -> list Z -> list Z) (EA EB EB2 : s0_env) (A B : sec0) (a b : Z) (p q : ts_param)
    (f usr : Z) (data : list Z) (i : nat) (t t2 : option Z) (u ps u2 ps2 : list Z) :
  let v := fst (PRNGOutput aes (prngState B)) in
  let v2 := fst (PRNGOutput aes (snd (PRNGOutput aes (prngState B)))) in
  (forall k x, length (aes k x) = 16%nat) ->
  0 < a < 256 -> 0 < b < 256 -> a <> b -> snode p = a -> dnode p = b -> snode q = a -> dnode q = b ->
  (26 < length data <= 52)%nat -> is_key_set data = false -> is_key_set (drop 26 data) = false ->
  sender_ready a b i A -> receiver_ready a b (clock_time EB) B -> enckey B = enckey A -> authkey B = authkey A ->
  (forall fr, s0_takes EA p fr = true) -> (forall r fr, s0_takes EB r fr = true) -> (forall r fr, s0_takes EB2 r fr = true) ->
  (0 < tries EB)%nat -> (0 < tries EB2)%nat -> clock_time EB2 <= clock_time EB + RX_TIMEOUT ->
  sec0_is_nonce_blacklisted b a v (nonce_blacklist A) = false -> sec0_is_nonce_blacklisted b a v2 (nonce_blacklist A) = false -> v2 <> v ->
  draw_fresh aes (tries EA) b a [mkNonce b a NONCE_TIMEOUT false v] (prngState A) = Some (u, ps) ->
  draw_fresh aes (tries EA) b a [mkNonce b a NONCE_TIMEOUT false v2] ps = Some (u2, ps2) ->
  let '(ok, A1) := sec0_send_data aes EA p data (Some f) usr A in
  let A3 := sec0_register_nonce aes EA b a v (noce_get_callback aes EA TRANSMIT_COMPLETE_OK i A1) in
  let A5 := sec0_register_nonce aes EA b a v2 (msg1_callback aes EA TRANSMIT_COMPLETE_OK i t A3) in
  exists frame frame2 ext,
    let '(m, B2) := sec0_decrypt_message aes EB a b frame (Zlength frame) (sec0_send_nonce aes EB q B) in
    let B3 := sec0_send_nonce aes EB2 q B2 in
    ok = true /\
    s0_outs A3 = s0_outs A ++ [S0_send p [COMMAND_CLASS_SECURITY; SECURITY_NONCE_GET] (Noce_get_callback i); S0_send p frame (Msg1_callback i)] /\
    rd frame 1 = SECURITY_MESSAGE_ENCAPSULATION_NONCE_GET /\ m = [] /\
    s0_outs B3 = s0_outs B ++ [S0_send (ts_param_make_reply (s0_sda EB) null_ts q) ([COMMAND_CLASS_SECURITY; SECURITY_NONCE_REPORT] ++ v) No_callback;
      S0_send (ts_param_make_reply (s0_sda EB2) null_ts q) ([COMMAND_CLASS_SECURITY; SECURITY_NONCE_REPORT] ++ v2) No_callback] /\
    s0_outs A5 = s0_outs A3 ++ [S0_send p frame2 (Msg2_callback i)] /\
    fst (sec0_decrypt_message aes EB2 a b frame2 (Zlength frame2) B3) = data /\
    s0_outs (msg2_callback aes EA TRANSMIT_COMPLETE_OK i t2 A5) = s0_outs A5 ++ [S0_answer f usr TRANSMIT_COMPLETE_OK (Some ext)].
Proof.
  intros v v2 Hlen Ha Hb Hab Hps Hpd Hqs Hqd Hd Hk Hk2 HA HB Hek Hak HtA HtB HtB2 Htr Htr2 Hclk Hbl Hbl2 Hv12 Hdraw Hdraw2.
  assert (length v = 8%nat) as Hv by by apply nonce_len. assert (length v2 = 8%nat) as Hv2 by by apply nonce_len.
  pose proof (draw_len aes Hlen _ _ _ _ _ _ _ Hdraw) as Hu. pose proof (draw_len aes Hlen _ _ _ _ _ _ _ Hdraw2) as Hu2.
  destruct (first_part aes EA A a b p f usr data i v u ps Hlen Ha Hb Hab Hps Hpd ltac:(lia) Hk HA HtA Hbl Hv Hdraw)
    as (A1 & -> & H3 & O3 & K3 & L3 & P3 & (k & BL3) & Q3 & S3).
  cbv zeta. set (sq := u8 (seq_static A + 1)) in *. set (A3 := sec0_register_nonce _ _ _ _ v _) in *.
  set (rest := drop 26 data) in *. assert (length rest = (length data - 26)%nat) as Hrl by apply length_drop.
  assert (more data = true) as Em by (unfold more; apply Nat.ltb_lt; lia). rewrite Em in O3.
  destruct (second_part aes EA A3 a b p f usr sq rest i t t2 v2 u2 ps2 Hlen Ha Hb Hps Hpd ltac:(lia) Hk2 HtA H3 Q3 S3) as (ext & O5 & O6);
    [rewrite BL3; by apply blacklist_other|done|by rewrite P3|].
  rewrite K3, L3, <- Hek, <- Hak in O5. rewrite <- Hek, <- Hak in O3.
  assert (length (part data) = 26%nat) as Hpl by (unfold part; rewrite length_take; lia).
  pose proof (receive_two aes EB EB2 B a b q sq (header data) (header rest) (part data) rest u u2 Hlen Ha Hb Hqs Hqd ltac:(lia) Hu Hu2 HB HtB HtB2 Htr Htr2 Hclk) as HR.
  cbv zeta in HR. fold v v2 in HR. set (f1 := sealed _ _ _ _ _ _ _ v _ _) in *. set (f2 := sealed _ _ _ _ _ _ _ v2 _ _) in *. exists f1, f2, ext.
  destruct (sec0_decrypt_message _ _ _ _ f1 _ _) as [m B2]. destruct HR as (-> & OB & HR).
  split; [done|]. split; [exact O3|]. split; [change (rd f1 1) with (header data); unfold header; by rewrite Em|].
  split; [done|]. split; [exact OB|]. split; [exact O5|]. split; [rewrite HR; apply take_drop|exact O6].
Qed.
