(* ===== verification/Sec0Safety.v ===== *)
(** * What S0 accepts, and its answers (src/src/transport/Security_Scheme0.c)

    A receiver hands on only what was authenticated with a nonce it gave out
    itself, and a nonce serves for one frame; every message a sender takes on is
    answered exactly once.  Then runs that show limits of the code. *)

From S2P Require Import Prelude Crc Nodemask SendDataAppl Sec0 Sec0Frame Sec0Session.
#[local] Open Scope Z_scope.

(** ** Authenticity *)

Section Accept.
Context (aes : list Z -> list Z -> list Z).

(** The text of a frame under a nonce. *)
Definition opened_text (st : sec0) (frame : list Z) (len : Z) (n : list Z) : list Z :=
  fst (aes_ofb aes (enckey st) (sub_buf frame 2 8 ++ n) 0 (sub_buf frame 10 (len - 19))).

Lemma rx_session_for_same now s d st : let '(r, st1) := rx_session_for now s d st in
  nonce_table st1 = nonce_table st /\ enckey st1 = enckey st /\ authkey st1 = authkey st /\ s0_outs st1 = s0_outs st /\
  (forall i, msg (rx_at st1 i) = msg (rx_at st i) /\ msg_len (rx_at st1 i) = msg_len (rx_at st i)).
Proof.
  unfold rx_session_for. destruct (get_rx_session_by_nodes now s d st); [done|]. unfold new_rx_session.
  destruct (list_find _ (rxsessions st)) as [[i e]|]; [|done]. do 4 (split; [done|]). intros j. unfold rx_at, upd_rx. cbn [rxsessions modify].
  destruct (decide (j = i)) as [->|Hne]; [|by rewrite !list_lookup_alter_ne by done].
  rewrite !list_lookup_alter_eq. by destruct (rxsessions st !! i).
Qed.

Lemma rx_text_same i flags text st : let '(m, st') := rx_text i flags text st in
  nonce_table st' = nonce_table st /\ s0_outs st' = s0_outs st /\
  (m = [] \/ m = text /\ has flags SEQUENCED_BIT_MASK = false \/
   m = sub_buf (msg (rx_at st i)) 0 (msg_len (rx_at st i)) ++ text /\ has flags SECOND_FRAME_BIT_MASK = true /\ rx_state (rx_at st i) = RX_ENC1 /\
     seq_nr (rx_at st i) = Z.land flags 0xF).
Proof.
  unfold rx_text. destruct (has flags SEQUENCED_BIT_MASK) eqn:E1; [|split; [done|]; split; [done|by right; left]].
  destruct (has flags SECOND_FRAME_BIT_MASK) eqn:E2; cbn [negb]; [|by auto].
  case_bool_decide as Hs; cbn [negb orb]; [|by auto]. destruct (Z.land flags 15 =? seq_nr (rx_at st i)) eqn:E3; cbn [negb]; [|by auto].
  apply Z.eqb_eq in E3. split; [done|]. split; [done|]. right. right. done.
Qed.

(** C17. Whatever bytes arrive as a frame from [snode_] to [dnode_], in whatever state:
    if a message is handed on, then the receiver had given out a nonce to that
    node which was still alive and starts with the byte the frame names, the code
    of the frame is the one of its header, the two node numbers and its encrypted
    part under the authentication key and this nonce, and the message is the
    decrypted text, alone or behind the kept part of a first frame with the same
    number.  Afterwards no nonce for that node is left: until another one is given
    out, every frame from it is refused with the state unchanged. *)
Theorem s0_accepts_only_authentic (E : s0_env) (snode_ dnode_ : Z) (frame : list Z) (len : Z) (st : sec0) :
  let '(m, st') := sec0_decrypt_message aes E snode_ dnode_ frame len st in
  m <> [] ->
  (exists n i, n ∈ nonce_table st /\ nonce_for dnode_ snode_ n = true /\ rd (nonce n) 0 = rd frame (len - 9) /\
    take 8 (aes_cbc_mac aes (authkey st) (sub_buf frame 2 8 ++ nonce n) (auth_data snode_ dnode_ frame len)) = sub_buf frame (len - 8) 8 /\
    (m = drop 1 (opened_text st frame len (nonce n)) \/
     m = sub_buf (msg (rx_at st i)) 0 (msg_len (rx_at st i)) ++ drop 1 (opened_text st frame len (nonce n)))) /\
  20 <= len <= 148 /\ s0_outs st' = s0_outs st /\
  forall E' frame' len', sec0_decrypt_message aes E' snode_ dnode_ frame' len' st' = ([], st').
Proof.
  unfold sec0_decrypt_message at 1. destruct (len <? 20) eqn:E1; [done|]. destruct (MAX_ENCRYPTED_MSG_SIZE <? len - 20) eqn:E2; [done|].
  destruct (get_nonce _ _ _ _ _) as [nv|] eqn:En; [|done]. unfold get_nonce in En. destruct (find_nonce _ _) as [[k n]|] eqn:Ef; [|done].
  injection En as <-. apply list_find_Some in Ef as (Hk & Hp & _). apply andb_true_iff in Hp as [Hfor Hri]. cbn [orb] in Hri. apply Z.eqb_eq in Hri.
  set (stc := st <| nonce_table := _ |>). pose proof (rx_session_for_same (clock_time E) snode_ dnode_ stc) as Hrx.
  destruct (rx_session_for _ _ _ stc) as [[i|] st1]; [|done]. destruct Hrx as (T1 & K1 & L1 & O1 & M1). destruct (_ && _); [done|]. cbv zeta.
  rewrite L1. change (authkey stc) with (authkey st). set (iv := sub_buf frame 2 8 ++ nonce n).
  case_bool_decide as Hmac; [|done]. cbn [negb]. change (enckey (st1 <| aes_key := authkey st |> <| aes_iv := iv |>)) with (enckey st1). rewrite K1. change (enckey stc) with (enckey st).
  pose proof (eq_refl (opened_text st frame len (nonce n))) as Ho. unfold opened_text in Ho at 1. fold iv in Ho.
  destruct (aes_ofb aes (enckey st) iv 0 _) as [plain iv']. cbn in Ho. subst plain. set (pl := opened_text st frame len (nonce n)).
  set (st2 := st1 <| aes_key := _ |> <| aes_iv := _ |> <| aes_key := _ |> <| aes_iv := iv' |>).
  pose proof (rx_text_same i (rd pl 0) (drop 1 pl) st2) as Ht. destruct (rx_text i _ _ st2) as [m st3]. destruct Ht as (T3 & O3 & Hm). intros Hne.
  split; [|split; [apply Z.ltb_ge in E1, E2; change MAX_ENCRYPTED_MSG_SIZE with 128 in E2; lia|split; [exact (eq_trans O3 O1)|]]].
  - exists n, i. split; [by eapply list_elem_of_lookup_2|]. split; [done|]. split; [done|]. split; [exact Hmac|].
    destruct (M1 i) as [Mm Ml]. destruct Hm as [?|[[-> _]|[-> _]]]; [done|by left|right].
    change (rx_at st2 i) with (rx_at st1 i). rewrite Mm, Ml. done.
  - intros E' frame' len'. unfold sec0_decrypt_message. destruct (len' <? 20); [done|]. destruct (_ <? len' - 20); [done|].
    rewrite get_nonce_quiet; [done|]. rewrite T3. change (nonce_table st2) with (nonce_table st1). rewrite T1. apply quiet_clear.
Qed.
End Accept.

(** ** Answers *)

Section Answers.
Context (aes : list Z -> list Z -> list Z).

(** What can happen to the module. *)
Inductive s0_op :=
| S0_op_send (p : ts_param) (data : list Z) (f : option Z) (u : Z)
| S0_op_asked (status : Z) (i : nat)
| S0_op_sent1 (status : Z) (i : nat) (t : option Z)
| S0_op_sent2 (status : Z) (i : nat) (t : option Z)
| S0_op_timeout (i : nat)
| S0_op_report (src dst : Z) (v : list Z)
| S0_op_nonce_get (q : ts_param)
| S0_op_frame (snode_ dnode_ : Z) (frame : list Z) (len : Z)
| S0_op_abort
| S0_op_tick
| S0_op_key (k : list Z).

Definition s0_apply (E : s0_env) (op : s0_op) (st : sec0) : sec0 :=
  match op with
  | S0_op_send p data f u => snd (sec0_send_data aes E p data f u st)
  | S0_op_asked status i => noce_get_callback aes E status i st
  | S0_op_sent1 status i t => msg1_callback aes E status i t st
  | S0_op_sent2 status i t => msg2_callback aes E status i t st
  | S0_op_timeout i => if tx_timer (tx_at st i) then tx_timeout aes E i st else st
  | S0_op_report src dst v => sec0_register_nonce aes E src dst v st
  | S0_op_nonce_get q => sec0_send_nonce aes E q st
  | S0_op_frame s d frame len => snd (sec0_decrypt_message aes E s d frame len st)
  | S0_op_abort => sec0_abort_all_tx_sessions aes E st
  | S0_op_tick => st <| nonce_table := nonce_timer_timeout (nonce_table st) |>
  | S0_op_key k => sec0_set_key aes k st
  end.

Definition s0_run (ops : list (s0_env * s0_op)) (st : sec0) : sec0 := fold_left (fun st '(E, op) => s0_apply E op st) ops st.

Definition s0_answers (o : list s0_out) : list (Z * Z) :=
  omap (fun o => match o with S0_answer f u _ _ => Some (f, u) | _ => None end) o.

(** The caller a session owes an answer to. *)
Definition owes (s : sec_tx_session) : list (Z * Z) :=
  if dnode (tx_param s) =? 0 then [] else match tx_callback s with Some f => [(f, tx_user s)] | None => [] end.
Definition owed (st : sec0) : list (Z * Z) := flat_map owes (tx_sessions st).

(** A session that may end, and one that has. *)
Definition alive (s : sec_tx_session) : Prop := dnode (tx_param s) <> 0 \/ tx_callback s = None.
Definition settled (s : sec_tx_session) : Prop := alive s \/ (tx_state s = TX_DONE \/ tx_state s = TX_FAIL) /\ tx_timer s = false.
Definition s0_wf (st : sec0) : Prop := forall i, settled (tx_at st i).

Lemma tx_at_upd_ne i j g st : j <> i -> tx_at (upd_tx i g st) j = tx_at st j.
Proof. intros Hne. unfold tx_at, upd_tx. cbn [tx_sessions modify]. by rewrite list_lookup_alter_ne. Qed.

Lemma tx_at_upd i g st : tx_sessions st !! i = None /\ tx_at (upd_tx i g st) i = null_tx \/ tx_at (upd_tx i g st) i = g (tx_at st i).
Proof. unfold tx_at, upd_tx. cbn [tx_sessions modify]. rewrite list_lookup_alter_eq. destruct (tx_sessions st !! i); [by right|by left]. Qed.

(** Steps of session [i] that answer nobody. *)
Record silent (i : nat) (st st' : sec0) : Prop := {
  si_len : length (tx_sessions st') = length (tx_sessions st);
  si_other : forall j, j <> i -> tx_sessions st' !! j = tx_sessions st !! j;
  si_same : tx_param (tx_at st' i) = tx_param (tx_at st i) /\ tx_callback (tx_at st' i) = tx_callback (tx_at st i) /\ tx_user (tx_at st' i) = tx_user (tx_at st i);
  si_out : s0_answers (s0_outs st') = s0_answers (s0_outs st)
}.

#[local] Instance silent_preorder i : PreOrder (silent i).
Proof.
  split; [by constructor|]. intros x y z [L1 O1 (P1 & C1 & U1) A1] [L2 O2 (P2 & C2 & U2) A2].
  constructor; [congruence|intros j Hj; by rewrite O2, O1|split_and!; congruence|congruence].
Qed.

Lemma silent_upd i g st : (forall s, tx_param (g s) = tx_param s /\ tx_callback (g s) = tx_callback s /\ tx_user (g s) = tx_user s) ->
  silent i st (upd_tx i g st).
Proof.
  intros Hg. constructor; [unfold upd_tx; cbn [tx_sessions modify]; by rewrite length_alter| | |done].
  - intros j Hj. unfold upd_tx. cbn [tx_sessions modify]. by rewrite list_lookup_alter_ne.
  - destruct (tx_at_upd i g st) as [[Hn ->]| ->]; [|apply Hg]. unfold tx_at. by rewrite Hn.
Qed.

Lemma silent_emit i o st : s0_answers [o] = [] -> silent i st (s0_emit o st).
Proof. intros Ho. constructor; try done. unfold s0_emit. cbn [s0_outs modify]. unfold s0_answers in *. by rewrite omap_app, Ho, app_nil_r. Qed.

Lemma silent_rest i st st' : tx_sessions st' = tx_sessions st -> s0_outs st' = s0_outs st -> silent i st st'.
Proof. intros E1 E2. constructor; [by rewrite E1|by rewrite E1|unfold tx_at; by rewrite E1|by rewrite E2]. Qed.

(** A step that ends session [i] or leaves it open. *)
Record moved (i : nat) (st st' : sec0) : Prop := {
  mv_len : length (tx_sessions st') = length (tx_sessions st);
  mv_other : forall j, j <> i -> tx_sessions st' !! j = tx_sessions st !! j;
  mv_answer : s0_answers (s0_outs st') ++ owes (tx_at st' i) = s0_answers (s0_outs st) ++ owes (tx_at st i);
  mv_settled : settled (tx_at st' i)
}.

Lemma silent_moved i st st' : silent i st st' -> alive (tx_at st i) -> moved i st st'.
Proof.
  intros [L O (P & C & U) A] Ha. constructor; [done|done| |left; unfold alive in *; by rewrite P, C].
  rewrite A. unfold owes. by rewrite P, C, U.
Qed.

Lemma silent_then i st st1 st2 : silent i st st1 -> moved i st1 st2 -> moved i st st2.
Proof.
  intros [L O (P & C & U) A] [L2 O2 A2 S2]. constructor; [congruence|intros j Hj; by rewrite O2, O| |done].
  rewrite A2, A. unfold owes. by rewrite P, C, U.
Qed.

Lemma silent_alive i st st' : silent i st st' -> alive (tx_at st i) -> alive (tx_at st' i).
Proof. intros [_ _ (P & C & _) _]. unfold alive. by rewrite P, C. Qed.

Lemma finish_moved ok i st : alive (tx_at st i) -> moved i st (tx_finish ok i st).
Proof.
  intros Ha. unfold tx_finish. cbv zeta.
  set (g := fun s : sec_tx_session => s <| tx_state := if ok then TX_DONE else TX_FAIL |> <| tx_param; dnode := 0 |> <| tx_timer := false |>). set (h := fun s : sec_tx_session => s <| tx_ext_status := 0 |>).
  set (st1 := upd_tx i g st). set (st2 := match tx_callback _ with Some _ => _ | None => _ end).
  assert (tx_sessions st2 = tx_sessions st1) as E2 by (unfold st2; by destruct (tx_callback (tx_at st i))). constructor.
  - unfold upd_tx. cbn [tx_sessions modify]. rewrite length_alter, E2. unfold st1, upd_tx. cbn [tx_sessions modify]. by rewrite length_alter.
  - intros j Hj. unfold upd_tx. cbn [tx_sessions modify]. rewrite list_lookup_alter_ne, E2 by done.
    unfold st1, upd_tx. cbn [tx_sessions modify]. by rewrite list_lookup_alter_ne.
  - assert (owes (tx_at (upd_tx i h st2) i) = []) as ->.
    { destruct (tx_at_upd i h st2) as [[_ ->]| ->]; [done|]. assert (tx_at st2 i = tx_at st1 i) as -> by (unfold tx_at; by rewrite E2).
      unfold st1. by destruct (tx_at_upd i g st) as [[_ ->]| ->]. }
    rewrite app_nil_r. change (s0_outs (upd_tx i h st2)) with (s0_outs st2). unfold owes, st2. destruct (tx_callback (tx_at st i)) as [f|] eqn:Ec.
    + destruct Ha as [Hd|?]; [|congruence]. rewrite (proj2 (Z.eqb_neq _ _) Hd). unfold s0_emit. cbn [s0_outs modify].
      unfold s0_answers. rewrite omap_app. by destruct ok.
    + destruct (_ =? 0); by rewrite app_nil_r.
  - destruct (tx_at_upd i h st2) as [[_ ->]| ->]; [by left; right|]. assert (tx_at st2 i = tx_at st1 i) as -> by (unfold tx_at; by rewrite E2).
    unfold st1. destruct (tx_at_upd i g st) as [[_ ->]| ->]; [by left; right|]. right. split; [destruct ok; [by left|by right]|done].
Qed.

Lemma give_up_moved i st : alive (tx_at st i) -> moved i st (tx_give_up i st).
Proof.
  intros Ha. unfold tx_give_up. set (st1 := upd_tx i _ st). assert (silent i st st1) as H1 by by apply silent_upd.
  apply (silent_then i st st1); [done|]. apply finish_moved. by apply (silent_alive i st).
Qed.

Lemma encrypt_silent E i pass2 st len st' : encrypt_msg aes E i pass2 st = Some (len, st') -> silent i st st'.
Proof.
  unfold encrypt_msg. destruct (part_len _) as [l more]. destruct (draw_fresh _ _ _ _ _ _) as [[v ps]|]; [|done]. cbv zeta.
  destruct (get_nonce _ _ _ _ _); [|intros [= <- <-]; by apply silent_rest].
  set (st1 := st <| prngState := ps |> <| nonce_table := _ |> <| nonce_table := _ |>). intros [= <- <-].
  etrans; [apply (silent_rest i st (st1 <| aes_key := if is_key_set (tx_data (tx_at st i)) then authkeyz st1 else authkey st1 |> <| aes_iv := v ++ l0 |>)); done|].
  by apply silent_upd.
Qed.

Lemma sealed_moved E pass2 i st : alive (tx_at st i) -> moved i st (send_sealed aes E pass2 i st).
Proof.
  intros Ha. unfold send_sealed. set (st1 := upd_tx i _ st). assert (silent i st st1) as H1 by by apply silent_upd.
  destruct (encrypt_msg aes E i pass2 st1) as [[len st2]|] eqn:E1; [|apply silent_moved; [etrans; [exact H1|by apply silent_emit]|done]].
  assert (silent i st st2) as H2 by (etrans; [exact H1|by eapply encrypt_silent]).
  destruct (len =? 0); [apply (silent_then i st st2); [done|]; apply give_up_moved; by apply (silent_alive i st)|].
  cbn [s0_send_data]. unfold s0_send_data. set (st3 := s0_emit _ st2). assert (silent i st st3) as H3 by (etrans; [exact H2|by apply silent_emit]).
  destruct (s0_takes E _ _); [by apply silent_moved|]. apply (silent_then i st st3); [done|]. apply give_up_moved. by apply (silent_alive i st).
Qed.

Lemma state_set_moved E i state st : alive (tx_at st i) -> moved i st (tx_session_state_set aes E i state st).
Proof.
  intros Ha. unfold tx_session_state_set. set (st1 := upd_tx i _ st). assert (silent i st st1) as H1 by by apply silent_upd.
  pose proof (silent_alive i st st1 H1 Ha) as Ha1. destruct state.
  - unfold s0_send_data. set (st2 := s0_emit _ st1). assert (silent i st st2) as H2 by (etrans; [exact H1|by apply silent_emit]).
    destruct (s0_takes E _ _); cbn [negb].
    + destruct (secure_learn_active E); apply silent_moved; try done. etrans; [exact H2|]. by apply silent_upd.
    + apply (silent_then i st st2); [done|]. apply give_up_moved. by apply (silent_alive i st).
  - destruct (secure_learn_active E); apply silent_moved; try done. etrans; [exact H1|]. by apply silent_upd.
  - apply (silent_then i st st1); [done|]. by apply sealed_moved.
  - destruct (_ =? 0); [apply (silent_then i st st1); [done|by apply finish_moved]|]. apply silent_moved; [|done]. etrans; [exact H1|]. by apply silent_upd.
  - apply (silent_then i st st1); [done|]. by apply sealed_moved.
  - apply (silent_then i st st1); [done|by apply finish_moved].
  - apply (silent_then i st st1); [done|by apply finish_moved].
  - apply (silent_then i st st1); [done|by apply finish_moved].
Qed.

(** ** All sessions together *)

Lemma owed_split i st : Permutation (owed st) (owes (tx_at st i) ++ flat_map owes (delete i (tx_sessions st))).
Proof.
  unfold owed, tx_at. generalize (tx_sessions st). intros l. revert i. induction l as [|s l IH]; intros [|i]; [done|done|done|].
  change (Permutation (owes s ++ flat_map owes l) (owes (default null_tx (l !! i)) ++ owes s ++ flat_map owes (delete i l))).
  rewrite (IH i). solve_Permutation.
Qed.

Lemma delete_same {A} i (l l' : list A) : length l' = length l -> (forall j, j <> i -> l' !! j = l !! j) -> delete i l' = delete i l.
Proof.
  intros Hl Ho. rewrite !delete_take_drop. f_equal.
  - apply list_eq. intros j. destruct (decide (j < i)%nat); [rewrite !lookup_take_lt by lia; apply Ho; lia|]. by rewrite !lookup_take_ge by lia.
  - apply list_eq. intros j. rewrite !lookup_drop. apply Ho. lia.
Qed.

Definition s0_step_ok (calls : list (Z * Z)) (st st' : sec0) : Prop :=
  s0_wf st' /\ Permutation (s0_answers (s0_outs st') ++ owed st') (calls ++ s0_answers (s0_outs st) ++ owed st).

Lemma moved_ok i st st' : s0_wf st -> moved i st st' -> s0_step_ok [] st st'.
Proof.
  intros W [L O A S]. split.
  - intros j. destruct (decide (j = i)) as [->|Hj]; [done|]. unfold tx_at. rewrite O by done. exact (W j).
  - rewrite (owed_split i st'), (owed_split i st), (delete_same i _ _ L O), !app_assoc, A. done.
Qed.

Lemma same_ok st st' : s0_wf st -> tx_sessions st' = tx_sessions st -> s0_answers (s0_outs st') = s0_answers (s0_outs st) -> s0_step_ok [] st st'.
Proof. intros W E1 E2. split; [intros i; unfold tx_at; rewrite E1; exact (W i)|]. unfold owed. by rewrite E1, E2. Qed.

Lemma s0_step_trans c1 c2 st st1 st2 : s0_step_ok c1 st st1 -> s0_step_ok c2 st1 st2 -> s0_step_ok (c1 ++ c2) st st2.
Proof. intros [_ P1] [W P2]. split; [done|]. rewrite P2, P1. solve_Permutation. Qed.

(** A session that is not at its end may end. *)
Lemma open_alive st i : s0_wf st -> tx_state (tx_at st i) <> TX_DONE -> tx_state (tx_at st i) <> TX_FAIL -> alive (tx_at st i).
Proof. intros W H1 H2. by destruct (W i) as [?|[[?|?] _]]. Qed.

Lemma msg_callback_ok state next E status i t st : s0_wf st -> state <> TX_DONE -> state <> TX_FAIL ->
  s0_step_ok [] st (msg_callback aes state next E status i t st).
Proof.
  intros W H1 H2. unfold msg_callback. case_bool_decide as Hs; [|by apply same_ok].
  assert (alive (tx_at st i)) as Ha by (apply open_alive; [done|congruence|congruence]).
  set (st1 := upd_tx i _ st). assert (silent i st st1) as S1 by by apply silent_upd.
  set (st2 := match t with Some _ => _ | None => _ end).
  assert (silent i st st2) as S2.
  { unfold st2. destruct t; [|done]. destruct (status =? TRANSMIT_COMPLETE_OK); [|done]. etrans; [exact S1|by apply silent_upd]. }
  clearbody st2. apply (moved_ok i); [done|]. apply (silent_then i st st2); [done|]. apply state_set_moved. by apply (silent_alive i st).
Qed.

Definition s0_calls (E : s0_env) (op : s0_op) (st : sec0) : list (Z * Z) :=
  match op with
  | S0_op_send p data (Some f) u => if fst (sec0_send_data aes E p data (Some f) u st) then [(f, u)] else []
  | _ => []
  end.

Definition to_a_node (op : s0_op) : Prop := match op with S0_op_send p _ _ _ => dnode p <> 0 | _ => True end.

Lemma send_ok E p data f u st : s0_wf st -> dnode p <> 0 ->
  s0_step_ok (s0_calls E (S0_op_send p data f u) st) st (snd (sec0_send_data aes E p data f u st)).
Proof.
  intros W Hp. cbn [s0_calls]. unfold sec0_send_data.
  destruct (get_tx_session_by_node _ _ st); [by destruct f; apply same_ok|].
  destruct (list_find _ (tx_sessions st)) as [[i s]|] eqn:Ef; [|by destruct f; apply same_ok].
  apply list_find_Some in Ef as (Hs & Hd & _). cbn [get_seq fst snd]. set (g := fun s0 : sec_tx_session => s0 <| tx_param := p |> <| tx_data := data |>
    <| tx_data_len := u8 (Zlength data) |> <| tx_callback := f |> <| tx_user := u |> <| tx_seq := u8 (seq_static st + 1) |>).
  set (st1 := upd_tx i g (st <| seq_static := u8 (seq_static st + 1) |>)).
  assert (tx_sessions st1 !! i = Some (g s)) as Hs1 by (apply (upd_tx_lookup (st <| seq_static := _ |>) i s g); exact Hs).
  assert (owes s = []) as Ho by (unfold owes; by rewrite Hd).
  assert (owes (g s) = match f with Some f => [(f, u)] | None => [] end) as Hg by (unfold owes, g; cbn; by rewrite (proj2 (Z.eqb_neq _ _) Hp)).
  assert (s0_step_ok (match f with Some f => [(f, u)] | None => [] end) st st1) as H1.
  { split.
    - intros j. destruct (decide (j = i)) as [->|Hj]; [rewrite (tx_at_lookup st1 i (g s) Hs1); by left; left|].
      unfold st1. rewrite tx_at_upd_ne by done. exact (W j).
    - rewrite (owed_split i st1), (owed_split i st), (tx_at_lookup st1 i _ Hs1), (tx_at_lookup st i _ Hs), Ho, Hg.
      rewrite (delete_same i (tx_sessions st) (tx_sessions st1)).
      + change (s0_outs st1) with (s0_outs st). solve_Permutation.
      + unfold st1, upd_tx. cbn [tx_sessions modify]. by rewrite length_alter.
      + intros j Hj. unfold st1, upd_tx. cbn [tx_sessions modify]. by rewrite list_lookup_alter_ne. }
  assert (s0_step_ok [] st1 (tx_session_state_set aes E i NONCE_GET st1)) as H2.
  { apply (moved_ok i); [apply H1|]. apply state_set_moved. rewrite (tx_at_lookup st1 i _ Hs1). by left. }
  pose proof (s0_step_trans _ _ _ _ _ H1 H2) as H3. rewrite app_nil_r in H3. by destruct f.
Qed.

Lemma report_answers E src dst v st : s0_wf st -> s0_step_ok [] st (sec0_register_nonce aes E src dst v st).
Proof.
  intros W. unfold sec0_register_nonce. destruct (sec0_is_nonce_blacklisted _ _ _ _); [by apply same_ok|].
  destruct (get_tx_session_by_node dst src st) as [i|]; [|by apply same_ok]. set (st1 := st <| nonce_table := _ |>).
  set (st2 := sec0_blacklist_add_nonce _ _ _ st1). assert (s0_step_ok [] st st2) as H2 by by apply same_ok.
  apply (s0_step_trans [] [] _ _ _ H2). pose proof (proj1 H2) as W2.
  destruct (tx_state (tx_at st2 i)) eqn:Es; try (by apply same_ok);
    try (apply (moved_ok i); [done|]; apply state_set_moved, open_alive; congruence || done).
  destruct (0 <? _); [|by apply same_ok]. apply (moved_ok i); [done|]. apply state_set_moved, open_alive; congruence || done.
Qed.

Lemma abort_answers E st : s0_wf st -> s0_step_ok [] st (sec0_abort_all_tx_sessions aes E st).
Proof.
  unfold sec0_abort_all_tx_sessions. generalize (seq 0 NUM_TX_SESSIONS). intros l. revert st. induction l as [|i l IH]; intros st W; [by apply same_ok|].
  cbn [fold_left]. assert (s0_step_ok [] st (sec0_abort_session aes E st i)) as H1.
  { unfold sec0_abort_session. destruct (truth _) eqn:Et; [|by apply same_ok]. unfold truth in Et. apply negb_true_iff, Z.eqb_neq in Et.
    set (st1 := upd_tx i _ st). assert (silent i st st1) as S1 by by apply silent_upd. apply (moved_ok i); [done|].
    apply (silent_then i st st1); [done|]. apply state_set_moved. apply (silent_alive i st); [done|by left]. }
  apply (s0_step_trans [] [] _ _ _ H1). apply IH. apply H1.
Qed.

Lemma s0_apply_ok E op st : s0_wf st -> to_a_node op -> s0_step_ok (s0_calls E op st) st (s0_apply E op st).
Proof.
  intros W Hp. destruct op as [p data f u|status i|status i t|status i t|i|src dst v|q|s d frame len| | |k]; cbn [s0_apply s0_calls].
  - by apply send_ok.
  - unfold noce_get_callback. set (st1 := upd_tx i _ st). assert (silent i st st1) as S1 by by apply silent_upd.
    assert (tx_state (tx_at st1 i) = tx_state (tx_at st i) /\ tx_timer (tx_at st1 i) = tx_timer (tx_at st i)) as [Es Et].
    { unfold st1. destruct (tx_at_upd i (fun s => s <| tx_code := status |>) st) as [[Hn ->]| ->]; [|done]. unfold tx_at. by rewrite Hn. }
    case_bool_decide as Hs.
    + apply (moved_ok i); [done|]. apply (silent_then i st st1); [done|]. apply state_set_moved. apply (silent_alive i st); [done|].
      apply open_alive; [done|congruence|congruence].
    + apply (moved_ok i); [done|]. destruct S1 as [L O (P & C & U) A]. constructor; [done|done|rewrite A; unfold owes; by rewrite P, C, U|].
      destruct (W i) as [Ha|[Hf Hn]]; [left; unfold alive in *; by rewrite P, C|]. right. by rewrite Es, Et.
  - by apply msg_callback_ok.
  - by apply msg_callback_ok.
  - destruct (tx_timer (tx_at st i)) eqn:Et; [|by apply same_ok]. unfold tx_timeout. set (st1 := upd_tx i _ st). set (st2 := upd_tx i _ st1).
    assert (silent i st st1) as S1 by by apply silent_upd. assert (silent i st st2) as S2 by (etrans; [exact S1|by apply silent_upd]).
    apply (moved_ok i); [done|]. apply (silent_then i st st2); [done|]. apply state_set_moved. apply (silent_alive i st); [done|].
    destruct (W i) as [?|[_ ?]]; [done|congruence].
  - by apply report_answers.
  - unfold sec0_send_nonce. destruct (has_three_nonces _ _ _); [by apply same_ok|]. unfold s0_answers.
    destruct (draw_fresh _ _ _ _ _ _) as [[v ps]|]; [|apply same_ok; [done|done|]; unfold s0_emit; cbn [s0_outs modify]; unfold s0_answers; by rewrite omap_app, app_nil_r].
    unfold s0_send_data. cbv zeta. destruct (s0_takes _ _ _); (apply same_ok; [done|done|]; unfold s0_answers; cbn; by rewrite omap_app, app_nil_r).
  - unfold sec0_decrypt_message. destruct (len <? 20); [by apply same_ok|]. destruct (_ <? len - 20); [by apply same_ok|].
    destruct (get_nonce _ _ _ _ _); [|by apply same_ok]. set (stc := st <| nonce_table := _ |>). cbv zeta.
    assert (tx_sessions (snd (rx_session_for (clock_time E) s d stc)) = tx_sessions st /\ s0_outs (snd (rx_session_for (clock_time E) s d stc)) = s0_outs st) as [T1 O1].
    { unfold rx_session_for, new_rx_session. destruct (get_rx_session_by_nodes _ _ _ _); [done|]. by destruct (list_find _ (rxsessions stc)) as [[]|]. }
    destruct (rx_session_for _ _ _ stc) as [[i|] st1]; cbn [snd] in T1, O1; [|apply same_ok; [done|exact T1|exact (f_equal s0_answers O1)]].
    destruct (_ && _); [apply same_ok; [done|exact T1|exact (f_equal s0_answers O1)]|]. destruct (negb _); [apply same_ok; [done|exact T1|exact (f_equal s0_answers O1)]|].
    destruct (aes_ofb _ _ _ _ _) as [pl iv']. unfold rx_text. destruct (has _ _); [destruct (negb _); [|destruct (_ || _)]|];
      (apply same_ok; [done|exact T1|exact (f_equal s0_answers O1)]).
  - by apply abort_answers.
  - by apply same_ok.
  - by apply same_ok.
Qed.

Fixpoint s0_accepted (ops : list (s0_env * s0_op)) (st : sec0) : list (Z * Z) :=
  match ops with
  | [] => []
  | (E, op) :: ops => s0_calls E op st ++ s0_accepted ops (s0_apply E op st)
  end.

(** In every run of sends, confirmations, timeouts, nonces, frames and aborts, from
    a state in which no caller is waited for, each caller whose message to a node
    was taken on is answered exactly once, when its session ends, or its session is
    still under way. *)
Theorem s0_answered_once (ops : list (s0_env * s0_op)) (st : sec0) :
  s0_wf st -> owed st = [] -> Forall (fun eo => to_a_node (snd eo)) ops ->
  let st' := s0_run ops st in
  Permutation (s0_answers (s0_outs st) ++ s0_accepted ops st) (s0_answers (s0_outs st') ++ owed st').
Proof.
  intros W Ho Hops. cbv zeta.
  assert (forall st, s0_wf st -> s0_step_ok (s0_accepted ops st) st (s0_run ops st)) as H.
  { clear W Ho st. induction Hops as [|[E op] ops Hp Hops IH]; intros st W; [by apply same_ok|]. cbn [s0_accepted].
    pose proof (s0_apply_ok E op st W Hp) as H1. apply (s0_step_trans _ _ _ _ _ H1). apply IH. apply H1. }
  destruct (H st W) as [_ HP]. rewrite HP, Ho, app_nil_r. solve_Permutation.
Qed.
End Answers.
