(* ===== verification/Sec0Runs.v ===== *)
(** * S0 runs (src/src/transport/Security_Scheme0.c)

    Two nodes with AES of FIPS 197 as the block cipher: the theorems on messages at
    work, and runs that show what becomes of messages that are too long, of second
    parts that look like a key, and of the limit on nonces. *)

From S2P Require Import Prelude Crc Nodemask SendDataAppl Aes Sec0 Sec0Frame Sec0Session Sec0Safety.
#[local] Open Scope Z_scope.

(** ** Two nodes *)

Definition cipher (key block : list Z) : list Z := take 16 (AES128_ECB_encrypt block key ++ zeros 16).

Lemma cipher_len k x : length (cipher k x) = 16%nat.
Proof. unfold cipher. rewrite length_take, length_app. unfold zeros. rewrite length_replicate. lia. Qed.

Definition demo_env (now : Z) : s0_env :=
  mkS0Env (mkSdaEnv 1 (fun _ => 0) (fun _ _ => false) (fun _ _ => false) true (fun _ _ => true) (fun _ _ => true)
    (fun _ _ => true) (fun _ _ => true) (fun _ _ => true) 0 0 false true) (fun _ _ => true) false now 50.

Definition booted (seed : Z) : sec0 :=
  sec0_set_key cipher (map (fun i => u8 (17 * i)) (seqZ 0 16))
    (mkSec0 (replicate 2 null_tx) (replicate 15 null_nonce) (replicate 10 null_bl) 0 [] [] [] [] [] []
       (replicate 2 null_rx) 0 (InitPRNG cipher (replicate 16 seed) (replicate 16 (seed + 1))) []).

Definition from_to (s d : Z) : ts_param := mkTs s d 0 0 0x25 0 SECURITY_SCHEME_0 [] false false false 0.

(** The gateway, node 1, and a lock, node 5.  Their states are computed once. *)
Definition node1 : sec0 := Eval vm_compute in booted 3.
Definition node5 : sec0 := Eval vm_compute in booted 90.

Definition draws (v s : list Z) : list Z * list Z := default ([], []) (draw_fresh cipher 50 5 1 [mkNonce 5 1 NONCE_TIMEOUT false v] s).
Definition v1 : list Z := Eval vm_compute in fst (PRNGOutput cipher (prngState node5)).
Definition v2 : list Z := Eval vm_compute in fst (PRNGOutput cipher (snd (PRNGOutput cipher (prngState node5)))).
Definition u1 : list Z * list Z := Eval vm_compute in draws v1 (prngState node1).
Definition u2 : list Z * list Z := Eval vm_compute in draws v2 (snd u1).

Lemma node1_ready : sender_ready 1 5 0 node1.
Proof. constructor; [vm_compute; reflexivity|vm_compute; reflexivity|repeat constructor|repeat constructor|unfold spare; vm_compute; lia]. Qed.

Lemma node5_ready : receiver_ready 1 5 1000 node5.
Proof.
  constructor; [repeat constructor|unfold spare; vm_compute; lia|vm_compute; reflexivity|left; vm_compute; reflexivity|repeat constructor].
Qed.

(** The hypotheses of the theorems on messages, by computation. *)
Ltac by_computing :=
  match goal with
  | |- forall _ _, length _ = _ => exact cipher_len
  | |- sender_ready _ _ _ _ => exact node1_ready
  | |- receiver_ready _ _ _ _ => exact node5_ready
  | |- forall _, _ => intros; reflexivity
  | |- _ <> _ => vm_compute; discriminate
  | |- _ = _ => vm_compute; reflexivity
  | |- _ => cbn; unfold RX_TIMEOUT; lia
  end.

Lemma s0_short_message_witness :
  let v1 := fst (PRNGOutput cipher (prngState node5)) in
  let data := [0x62; 1; 0xFF] in
  let '(ok, A1) := sec0_send_data cipher (demo_env 1000) (from_to 1 5) data (Some 7) 9 node1 in
  let A2 := noce_get_callback cipher (demo_env 1000) TRANSMIT_COMPLETE_OK 0 A1 in
  let B1 := sec0_send_nonce cipher (demo_env 1000) (from_to 1 5) node5 in
  let A3 := sec0_register_nonce cipher (demo_env 1000) 5 1 v1 A2 in
  let A4 := msg1_callback cipher (demo_env 1000) TRANSMIT_COMPLETE_OK 0 None A3 in
  exists frame ext, ok = true /\
    s0_outs B1 = s0_outs node5 ++ [S0_send (ts_param_make_reply (s0_sda (demo_env 1000)) null_ts (from_to 1 5))
      ([COMMAND_CLASS_SECURITY; SECURITY_NONCE_REPORT] ++ v1) No_callback] /\
    s0_outs A3 = s0_outs node1 ++ [S0_send (from_to 1 5) [COMMAND_CLASS_SECURITY; SECURITY_NONCE_GET] (Noce_get_callback 0);
      S0_send (from_to 1 5) frame (Msg1_callback 0)] /\
    fst (sec0_decrypt_message cipher (demo_env 1000) 1 5 frame (Zlength frame) B1) = data /\
    s0_outs A4 = s0_outs A3 ++ [S0_answer 7 9 TRANSMIT_COMPLETE_OK (Some ext)].
Proof.
  cbv zeta. apply (s0_short_message cipher (demo_env 1000) (demo_env 1000) node1 node5 1 5 (from_to 1 5) (from_to 1 5) 7 9
    [0x62; 1; 0xFF] 0 None (fst u1) (snd u1)); by_computing.
Defined.

Lemma s0_long_message_witness :
  let v1 := fst (PRNGOutput cipher (prngState node5)) in
  let v2 := fst (PRNGOutput cipher (snd (PRNGOutput cipher (prngState node5)))) in
  let data := 0x62 :: replicate 39 7 in
  let E := demo_env 1000 in let E2 := demo_env 4000 in let p := from_to 1 5 in
  let '(ok, A1) := sec0_send_data cipher E p data (Some 7) 9 node1 in
  let A3 := sec0_register_nonce cipher E 5 1 v1 (noce_get_callback cipher E TRANSMIT_COMPLETE_OK 0 A1) in
  let A5 := sec0_register_nonce cipher E 5 1 v2 (msg1_callback cipher E TRANSMIT_COMPLETE_OK 0 None A3) in
  exists frame frame2 ext,
    let '(m, B2) := sec0_decrypt_message cipher E 1 5 frame (Zlength frame) (sec0_send_nonce cipher E p node5) in
    let B3 := sec0_send_nonce cipher E2 p B2 in
    ok = true /\
    s0_outs A3 = s0_outs node1 ++ [S0_send p [COMMAND_CLASS_SECURITY; SECURITY_NONCE_GET] (Noce_get_callback 0); S0_send p frame (Msg1_callback 0)] /\
    rd frame 1 = SECURITY_MESSAGE_ENCAPSULATION_NONCE_GET /\ m = [] /\
    s0_outs B3 = s0_outs node5 ++ [S0_send (ts_param_make_reply (s0_sda E) null_ts p) ([COMMAND_CLASS_SECURITY; SECURITY_NONCE_REPORT] ++ v1) No_callback;
      S0_send (ts_param_make_reply (s0_sda E2) null_ts p) ([COMMAND_CLASS_SECURITY; SECURITY_NONCE_REPORT] ++ v2) No_callback] /\
    s0_outs A5 = s0_outs A3 ++ [S0_send p frame2 (Msg2_callback 0)] /\
    fst (sec0_decrypt_message cipher E2 1 5 frame2 (Zlength frame2) B3) = data /\
    s0_outs (msg2_callback cipher E TRANSMIT_COMPLETE_OK 0 None A5) = s0_outs A5 ++ [S0_answer 7 9 TRANSMIT_COMPLETE_OK (Some ext)].
Proof.
  cbv zeta. apply (s0_long_message cipher (demo_env 1000) (demo_env 1000) (demo_env 4000) node1 node5 1 5 (from_to 1 5) (from_to 1 5) 7 9
    (0x62 :: replicate 39 7) 0 None None (fst u1) (snd u1) (fst u2) (snd u2)); by_computing.
Defined.

(** ** Whole exchanges *)

(** The frames among outputs. *)
Definition frames (o : list s0_out) : list (list Z) := omap (fun o => match o with S0_send _ f _ => Some f | _ => None end) o.
Definition results (o : list s0_out) : list Z := omap (fun o => match o with S0_answer _ _ r _ => Some r | _ => None end) o.

(** Node 1 sends [data] to node 5, all frames arrive: the two sealed frames, the
    two results of opening them, and what the caller is told. *)
Definition exchange (data : list Z) : list (list Z) * (list Z * list Z) * list Z :=
  let E := demo_env 1000 in let p := from_to 1 5 in
  let A := snd (sec0_send_data cipher E p data (Some 7) 9 node1) in
  let A := noce_get_callback cipher E TRANSMIT_COMPLETE_OK 0 A in
  let B := sec0_send_nonce cipher E p node5 in
  let A := sec0_register_nonce cipher E 5 1 v1 A in
  let f1 := default [] (last (frames (s0_outs A))) in
  let '(m1, B) := sec0_decrypt_message cipher E 1 5 f1 (Zlength f1) B in
  let B := sec0_send_nonce cipher E p B in
  let A := msg1_callback cipher E TRANSMIT_COMPLETE_OK 0 None A in
  let A := sec0_register_nonce cipher E 5 1 v2 A in
  let f2 := default [] (last (frames (s0_outs A))) in
  let '(m2, B) := sec0_decrypt_message cipher E 1 5 f2 (Zlength f2) B in
  let A := msg2_callback cipher E TRANSMIT_COMPLETE_OK 0 None A in
  ([f1; f2], (m1, m2), results (s0_outs A)).

(** A message of more than 52 bytes is cut: the sender's caller is told that it was
    sent, and the receiver hands on its first 52 bytes as the whole message. *)
Theorem s0_cuts_long_messages :
  let data := 0x62 :: map (fun i => u8 i) (seqZ 1 59) in
  length data = 60%nat /\ snd (exchange data) = [TRANSMIT_COMPLETE_OK] /\ snd (fst (exchange data)) = ([], take 52 data).
Proof. vm_compute. repeat split. Qed.

(** The second part of a message that happens to start with the two bytes of a
    NETWORK_KEY_SET command is sealed under the key that is derived from the all
    zero key, which everyone knows, and the receiver refuses it, while the
    sender's caller is told that the message was sent. *)
Theorem s0_second_part_under_public_key :
  let rest := [COMMAND_CLASS_SECURITY; NETWORK_KEY_SET; 1; 2; 3; 4] in
  let data := 0x62 :: replicate 25 7 ++ rest in
  let '(fs, ms, res) := exchange data in
  let f2 := default [] (last fs) in
  ms = ([], []) /\ res = [TRANSMIT_COMPLETE_OK] /\
  drop 1 (opened_text cipher (sec0_set_key cipher (zeros 16) node5) f2 (Zlength f2) v2) = rest.
Proof. vm_compute. repeat split. Qed.

(** The limit of three nonces counts the sender's own nonces of frames it sent, but
    only stops at exactly three: once there are four, requests are served without a
    limit until the table is full. *)
Theorem s0_nonce_limit_skipped :
  let E := demo_env 1000 in let q := from_to 1 5 in
  let st3 := sec0_send_nonce cipher E q (sec0_send_nonce cipher E q (sec0_send_nonce cipher E q node5)) in
  let st4 := st3 <| nonce_table := snd (register_nonce 5 1 true (replicate 8 1) (nonce_table st3)) |> in
  let more n := Nat.iter n (sec0_send_nonce cipher E q) in
  length (frames (s0_outs (more 5%nat st3))) = 3%nat /\ length (frames (s0_outs (more 20%nat st4))) = 23%nat.
Proof. vm_compute. repeat split. Qed.

Lemma s0_accepts_only_authentic_witness :
  let E := demo_env 1000 in
  let B := sec0_send_nonce cipher E (from_to 1 5) node5 in
  let frame := default [] (head (fst (fst (exchange [0x62; 1; 0xFF])))) in
  let r := sec0_decrypt_message cipher E 1 5 frame (Zlength frame) B in
  fst r = [0x62; 1; 0xFF] /\ forall E' frame' len', sec0_decrypt_message cipher E' 1 5 frame' len' (snd r) = ([], snd r).
Proof.
  cbv zeta. set (E := demo_env 1000). set (B := sec0_send_nonce cipher E (from_to 1 5) node5). set (frame := default [] _).
  pose proof (s0_accepts_only_authentic cipher E 1 5 frame (Zlength frame) B) as H.
  assert (fst (sec0_decrypt_message cipher E 1 5 frame (Zlength frame) B) = [0x62; 1; 0xFF]) as Hm by (vm_compute; reflexivity).
  destruct (sec0_decrypt_message cipher E 1 5 frame (Zlength frame) B) as [m st']. cbn [fst snd] in *. split; [exact Hm|].
  apply H. rewrite Hm. discriminate.
Defined.

Lemma s0_answered_once_witness :
  let ops := map (pair (demo_env 1000)) [S0_op_send (from_to 1 5) [0x62; 1; 0xFF] (Some 7) 9; S0_op_asked 0 0; S0_op_report 5 1 v1;
    S0_op_sent1 0 0 None; S0_op_send (from_to 1 6) [0x62; 2] (Some 8) 10] in
  let st' := s0_run cipher ops node1 in
  s0_answers (s0_outs st') = [(7, 9)] /\ owed st' = [(8, 10)] /\
  Permutation (s0_answers (s0_outs node1) ++ s0_accepted cipher ops node1) (s0_answers (s0_outs st') ++ owed st').
Proof.
  cbv zeta. split; [vm_compute; reflexivity|]. split; [vm_compute; reflexivity|]. apply s0_answered_once.
  - intros [|[|i]]; [left; right; reflexivity|left; right; reflexivity|left; right; reflexivity].
  - reflexivity.
  - repeat (constructor; [cbn; first [discriminate|exact I]|]). constructor.
Defined.
