(* ===== verification/SendRequest.v ===== *)
(** * Requests (src/src/transport/ZW_SendRequest.c)

    A request is a frame for which a particular report is expected.  Requests live
    in a pool of four blocks; the list holds the numbers of blocks in the order in
    which the source links them.  Frames for the transmit queue and the calls of
    the callers' functions are outputs; whether a caller expects more reports is
    the answer of its function, a parameter of the handler. *)

From S2P Require Import Prelude Crc Nodemask SendDataAppl SendDataQueue.
#[local] Open Scope Z_scope.

Definition NUM_REQS : nat := 4.
Definition ROUTING_RETRANSMISSION_DELAY : Z := 250.

Inductive req_state_t := REQ_SENDING | REQ_WAITING | REQ_DONE.
#[export] Instance req_state_eq : EqDecision req_state_t.
Proof. solve_decision. Defined.

(** [rq_timer] is the time the running timer was set to, [None] if it does not run. *)
Record send_request_state := mkReq {
  rq_param : ts_param; rq_state : req_state_t; rq_class : Z; rq_cmd : Z; rq_timeout : Z; rq_user : Z; rq_callback : Z;
  rq_timer : option Z; round_trip_start : Z
}.
#[export] Instance req_eta : EtaRecord send_request_state := fun s =>
  mkReq (rq_param s) (rq_state s) (rq_class s) (rq_cmd s) (rq_timeout s) (rq_user s) (rq_callback s) (rq_timer s) (round_trip_start s).

Inductive req_out :=
| RQ_send (p : ts_param) (data : list Z) (i : nat)
| RQ_callback (f user status rx_flags : Z) (cmd : list Z).

Record reqs := mkReqs { rq_count : list bool; rq_mem : list send_request_state; reqs_list : list nat; rq_outs : list req_out }.
#[export] Instance reqs_eta : EtaRecord reqs := fun s => mkReqs (rq_count s) (rq_mem s) (reqs_list s) (rq_outs s).

Definition null_req : send_request_state := mkReq null_ts REQ_SENDING 0 0 0 0 0 None 0.
Definition req (st : reqs) (i : nat) : send_request_state := default null_req (rq_mem st !! i).
Definition upd_req (i : nat) (f : send_request_state -> send_request_state) (st : reqs) : reqs := st <| rq_mem := alter f i (rq_mem st) |>.
Definition rq_emit (o : req_out) (st : reqs) : reqs := st <| rq_outs := rq_outs st ++ [o] |>.
Definition rq_free (i : nat) (st : reqs) : reqs := st <| rq_count := <[i := false]> (rq_count st) |>.
Definition rq_unlink (i : nat) (st : reqs) : reqs := st <| reqs_list := list_remove i (reqs_list st) |>.

Definition rq_alloc (st : reqs) : option nat * reqs :=
  match list_find (fun b => b = false) (rq_count st) with
  | Some (i, _) => (Some i, st <| rq_count := <[i := true]> (rq_count st) |>)
  | None => (None, st)
  end.

Definition ZW_SendRequest_init (st : reqs) : reqs :=
  st <| rq_count := replicate NUM_REQS false |> <| rq_mem := replicate NUM_REQS null_req |> <| reqs_list := [] |>.

Definition rq_start : reqs := mkReqs (replicate NUM_REQS false) (replicate NUM_REQS null_req) [] [].

(** The end of a request that failed. *)
Definition request_timeout (i : nat) (st : reqs) : reqs :=
  let st := upd_req i (fun s => s <| rq_param; dnode := 0 |> <| rq_state := REQ_DONE |> <| rq_timer := None |>) st in
  let st := rq_free i (rq_unlink i st) in
  rq_emit (RQ_callback (rq_callback (req st i)) (rq_user (req st i)) TRANSMIT_COMPLETE_FAIL 0 []) st.

(** The time the request was on the way, with a margin. *)
Definition round_trip_duration (start now : Z) : Z := (if start <? now then now - start else 10) + ROUTING_RETRANSMISSION_DELAY.

Definition ZW_SendRequest_Callback (now status : Z) (i : nat) (st : reqs) : reqs :=
  let s := req st i in
  if (status =? TRANSMIT_COMPLETE_OK) && bool_decide (rq_state s = REQ_SENDING) then
    upd_req i (fun s => s <| rq_state := REQ_WAITING |>
                         <| rq_timer := Some (rq_timeout s * 10 + round_trip_duration (round_trip_start s) now) |>) st
  else request_timeout i st.

(** [taken] is whether the transmit queue accepts the frame. *)
Definition ZW_SendRequest (E : sda_env) (now : Z) (taken : bool) (p : ts_param) (data : list Z) (responseCmd timeout user : Z)
    (callback : option Z) (st : reqs) : bool * reqs :=
  match callback with
  | None => (false, st)
  | Some f =>
      match rq_alloc st with
      | (None, st) => (false, st)
      | (Some i, st) =>
          let st := st <| reqs_list := list_add i (reqs_list st) |> in
          let st := upd_req i (fun s => s <| rq_param := ts_param_make_reply E (rq_param s) p |> <| rq_state := REQ_SENDING |>
                      <| rq_class := rd data 0 |> <| rq_cmd := responseCmd |> <| rq_user := user |> <| rq_callback := f |>
                      <| rq_timeout := timeout |> <| round_trip_start := now |>) st in
          let st := rq_emit (RQ_send p data i) st in
          if taken then (true, st) else (false, rq_free i (rq_unlink i st))
      end
  end.

(** The loop goes on from the request it has just unlinked, whose link is gone:
    it ends with the first request of the node. *)
Definition ZW_Abort_SendRequest (n : Z) (st : reqs) : reqs :=
  match list_find (fun i => rq_state (req st i) = REQ_WAITING /\ snode (rq_param (req st i)) = n) (reqs_list st) with
  | Some (_, i) =>
      let st := upd_req i (fun s => s <| rq_state := REQ_DONE |> <| rq_timer := None |>) st in
      let st := rq_free i (rq_unlink i st) in
      rq_emit (RQ_callback (rq_callback (req st i)) (rq_user (req st i)) TRANSMIT_COMPLETE_FAIL 0 []) st
  | None => st
  end.

(** The request a frame answers. *)
Definition answers_req (p : ts_param) (cmd : list Z) (s : send_request_state) : bool :=
  bool_decide (rq_state s = REQ_WAITING) && ts_param_cmp (rq_param s) p && (rq_class s =? rd cmd 0) && (rq_cmd s =? rd cmd 1) &&
  (scheme (rq_param s) =? scheme p).

(** [more f user] is the answer of the caller's function to a report. *)
Definition SendRequest_ApplicationCommandHandler (more : Z -> Z -> list Z -> bool) (p : ts_param) (cmd : list Z) (st : reqs) : bool * reqs :=
  match list_find (fun i => answers_req p cmd (req st i) = true) (reqs_list st) with
  | Some (_, i) =>
      let s := req st i in
      let st := rq_unlink i (upd_req i (fun s => s <| rq_state := REQ_DONE |> <| rq_timer := None |>) st) in
      let st := rq_emit (RQ_callback (rq_callback s) (rq_user s) TRANSMIT_COMPLETE_OK (rx_flags p) cmd) st in
      if more (rq_callback s) (rq_user s) cmd then
        let st := upd_req i (fun s => s <| rq_state := REQ_WAITING |> <| rq_timer := Some (rq_timeout s * 10) |>) st in
        (true, st <| reqs_list := list_add i (reqs_list st) |>)
      else (true, rq_free i st)
  | None => (false, st)
  end.

(** ** Runs

    The transmit queue answers a frame once, so its callback finds the request
    still being sent; a timer fires only while it runs. *)
Inductive req_op :=
| RQ_op_send (E : sda_env) (now : Z) (taken : bool) (p : ts_param) (data : list Z) (cmd timeout user : Z) (f : option Z)
| RQ_op_sent (now status : Z) (i : nat)
| RQ_op_timer (i : nat)
| RQ_op_abort (n : Z)
| RQ_op_frame (more : Z -> Z -> list Z -> bool) (p : ts_param) (cmd : list Z).

Definition rq_apply (op : req_op) (st : reqs) : reqs :=
  match op with
  | RQ_op_send E now taken p data cmd timeout user f => snd (ZW_SendRequest E now taken p data cmd timeout user f st)
  | RQ_op_sent now status i =>
      if bool_decide (i ∈ reqs_list st) && bool_decide (rq_state (req st i) = REQ_SENDING) then ZW_SendRequest_Callback now status i st else st
  | RQ_op_timer i => match rq_timer (req st i) with Some _ => request_timeout i st | None => st end
  | RQ_op_abort n => ZW_Abort_SendRequest n st
  | RQ_op_frame more p cmd => snd (SendRequest_ApplicationCommandHandler more p cmd st)
  end.

Definition rq_run (ops : list req_op) (st : reqs) : reqs := fold_left (fun st op => rq_apply op st) ops st.

(** ** Every request ends once *)

(** The requests under way. *)
Definition rq_caller (s : send_request_state) : Z * Z := (rq_callback s, rq_user s).
Definition rq_pending (st : reqs) : list (Z * Z) := map (fun i => rq_caller (req st i)) (reqs_list st).

(** The calls that end a request: failures, and reports after which no more are
    expected. *)
Definition rq_ends (op : req_op) (o : req_out) : option (Z * Z) :=
  match o with
  | RQ_callback f u status _ cmd =>
      match op with
      | RQ_op_frame more _ _ => if more f u cmd then None else Some (f, u)
      | _ => Some (f, u)
      end
  | _ => None
  end.

(** What a step puts out. *)
Definition rq_new (st st' : reqs) : list req_out := drop (length (rq_outs st)) (rq_outs st').

Definition rq_accepts (op : req_op) (st : reqs) : list (Z * Z) :=
  match op with
  | RQ_op_send E now taken p data cmd timeout user (Some f) =>
      if fst (ZW_SendRequest E now taken p data cmd timeout user (Some f) st) then [(f, user)] else []
  | _ => []
  end.

Record rq_wf (st : reqs) : Prop := {
  rw_len : length (rq_count st) = NUM_REQS /\ length (rq_mem st) = NUM_REQS;
  rw_nodup : NoDup (reqs_list st);
  rw_used : forall i, rq_count st !! i = Some true <-> i ∈ reqs_list st;
  rw_timer : forall i, rq_timer (req st i) <> None -> i ∈ reqs_list st /\ rq_state (req st i) = REQ_WAITING
}.

Definition rq_step_ok (calls ends : list (Z * Z)) (st st' : reqs) : Prop :=
  rq_wf st' /\ Permutation (ends ++ rq_pending st') (calls ++ rq_pending st).

(** A request that ends: its block is unlinked and given back. *)
Definition rq_close (i : nat) (f : send_request_state -> send_request_state) (st : reqs) : reqs :=
  rq_free i (rq_unlink i (upd_req i f st)).

Lemma req_alter i j f st : req (upd_req i f st) j = if decide (i = j) then (if decide (i < length (rq_mem st))%nat then f (req st j) else req st j) else req st j.
Proof.
  unfold req, upd_req; cbn. destruct (decide (i = j)) as [<-|Hn].
  - rewrite list_lookup_alter_eq. destruct (decide (i < length (rq_mem st))%nat) as [Hl|Hl].
    + by destruct (lookup_lt_is_Some_2 _ _ Hl) as [s ->].
    + by rewrite (lookup_ge_None_2 (rq_mem st) i) by lia.
  - by rewrite list_lookup_alter_ne.
Qed.

Lemma wf_lt i st : rq_wf st -> i ∈ reqs_list st -> (i < length (rq_mem st))%nat.
Proof. intros [[Hc Hm] _ Hu _] Hi. rewrite Hm, <- Hc. apply lookup_lt_is_Some_1. apply Hu in Hi. eauto. Qed.

Lemma pending_ext st st' l : (forall i, i ∈ l -> rq_caller (req st' i) = rq_caller (req st i)) ->
  map (fun i => rq_caller (req st' i)) l = map (fun i => rq_caller (req st i)) l.
Proof. intros H. apply map_ext_in. intros i Hi. apply H. by apply list_elem_of_In. Qed.

Lemma close_ok i f st : rq_wf st -> i ∈ reqs_list st -> (forall s, rq_caller (f s) = rq_caller s) -> (forall s, rq_timer (f s) = None) ->
  rq_wf (rq_close i f st) /\ Permutation (rq_caller (req st i) :: rq_pending (rq_close i f st)) (rq_pending st) /\
  rq_caller (req (rq_close i f st) i) = rq_caller (req st i).
Proof.
  intros Hwf Hi Hf Ht. pose proof (wf_lt _ _ Hwf Hi) as Hlt. destruct Hwf as [[Hc Hm] Hn Hu Hti].
  assert (Hr : forall j, req (rq_close i f st) j = req (upd_req i f st) j) by done.
  assert (Hk : forall j, rq_caller (req (upd_req i f st) j) = rq_caller (req st j)).
  { intros j. rewrite req_alter. repeat case_decide; auto. }
  split; [constructor|split].
  - cbn. rewrite length_insert, length_alter. auto.
  - cbn. by apply NoDup_filter.
  - intros j. change (<[i := false]> (rq_count st) !! j = Some true <-> j ∈ list_remove i (reqs_list st)). rewrite elem_of_remove, <- Hu. destruct (decide (i = j)) as [<-|Hj].
    + rewrite list_lookup_insert_eq by lia. naive_solver.
    + rewrite list_lookup_insert_ne by done. naive_solver.
  - intros j. rewrite Hr, req_alter. repeat case_decide; subst; try done; rewrite ?Ht; try done.
    intros [? ?]%Hti. split; [cbn; apply elem_of_remove|]; auto.
  - unfold rq_pending. rewrite (remove_perm i (reqs_list st)) by done. cbn. constructor.
    rewrite (pending_ext st); [done|]. intros j _. apply Hk.
  - apply Hk.
Qed.

Lemma new_emit o st st' : rq_outs st' = rq_outs st -> rq_new st (rq_emit o st') = [o].
Proof. intros E. unfold rq_new. cbn. rewrite E. apply drop_app_length. Qed.

Lemma emit_wf o st : rq_wf st -> rq_wf (rq_emit o st).
Proof. by intros []. Qed.

Lemma request_timeout_ok i st : rq_wf st -> i ∈ reqs_list st ->
  rq_step_ok [] [rq_caller (req st i)] st (request_timeout i st) /\
  exists o, rq_new st (request_timeout i st) = [o] /\ o = RQ_callback (rq_callback (req st i)) (rq_user (req st i)) TRANSMIT_COMPLETE_FAIL 0 [].
Proof.
  intros Hwf Hi.
  destruct (close_ok i (fun s => s <| rq_param; dnode := 0 |> <| rq_state := REQ_DONE |> <| rq_timer := None |>) st) as (H1 & H2 & H3); try done.
  split; [split; [by apply emit_wf|exact H2]|]. eexists. split; [by apply new_emit|].
  injection H3 as E1 E2. f_equal; [exact E1|exact E2].
Qed.

Lemma rq_alloc_some i st st' : rq_alloc st = (Some i, st') -> rq_count st !! i = Some false /\ st' = st <| rq_count := <[i := true]> (rq_count st) |>.
Proof.
  unfold rq_alloc. destruct (list_find _ _) as [[j b]|] eqn:E; intros H; simplify_eq.
  apply list_find_Some in E as (? & -> & ?). auto.
Qed.

Lemma rq_alloc_none st st' : rq_alloc st = (None, st') -> st' = st.
Proof. unfold rq_alloc. destruct (list_find _ _) as [[]|]; congruence. Qed.

Lemma fresh_unlisted i st : rq_wf st -> rq_count st !! i = Some false -> i ∉ reqs_list st.
Proof. intros [_ _ Hu _] Hf Hi. apply Hu in Hi. congruence. Qed.

Lemma fresh_untimed i st : rq_wf st -> rq_count st !! i = Some false -> rq_timer (req st i) = None.
Proof.
  intros Hwf Hf. pose proof (fresh_unlisted _ _ Hwf Hf) as Hn. destruct Hwf as [_ _ _ Ht].
  destruct (rq_timer (req st i)) eqn:E; [|done]. destruct Hn. apply Ht. by rewrite E.
Qed.

(** A request that is taken on: a free block is filled in and linked in last. *)
Definition rq_open (i : nat) (f : send_request_state -> send_request_state) (st : reqs) : reqs :=
  upd_req i f (st <| rq_count := <[i := true]> (rq_count st) |> <| reqs_list := list_add i (reqs_list st) |>).

Lemma open_ok i f st : rq_wf st -> rq_count st !! i = Some false -> (forall s, rq_timer (f s) = rq_timer s) ->
  rq_wf (rq_open i f st) /\ rq_pending (rq_open i f st) = rq_pending st ++ [rq_caller (f (req st i))] /\
  rq_close i (fun s => s) (rq_open i f st) = upd_req i f st.
Proof.
  intros Hwf Hf Ht. pose proof (fresh_unlisted _ _ Hwf Hf) as Hno. pose proof (fresh_untimed _ _ Hwf Hf) as Hnt.
  destruct Hwf as [[Hc Hm] Hn Hu Hti].
  assert (Hlt : (i < length (rq_mem st))%nat) by (rewrite Hm, <- Hc; by eapply lookup_lt_Some).
  set (st1 := st <| rq_count := <[i := true]> (rq_count st) |> <| reqs_list := list_add i (reqs_list st) |>).
  assert (Hr : forall j, req (rq_open i f st) j = if decide (i = j) then f (req st j) else req st j).
  { intros j. change (rq_open i f st) with (upd_req i f st1). rewrite req_alter. by rewrite (decide_True (P := (i < length (rq_mem st1))%nat)). }
  assert (Hl : reqs_list (rq_open i f st) = reqs_list st ++ [i]).
  { cbn. unfold list_add. by rewrite list_remove_notin. }
  split; [constructor|split].
  - cbn. rewrite length_insert, length_alter. auto.
  - rewrite Hl. apply NoDup_app. split; [done|]. split; [set_solver|]. apply NoDup_singleton.
  - intros j. rewrite Hl, elem_of_app, list_elem_of_singleton, <- Hu. cbn. destruct (decide (i = j)) as [<-|Hj].
    + rewrite list_lookup_insert_eq by lia. naive_solver.
    + rewrite list_lookup_insert_ne by done. naive_solver.
  - intros j. rewrite Hr, Hl. case_decide; [subst; by rewrite Ht, Hnt|]. intros [? ?]%Hti. split; [set_solver|done].
  - unfold rq_pending. rewrite Hl, map_app. f_equal.
    + apply pending_ext. intros j Hj. rewrite Hr. case_decide; [subst; done|done].
    + cbn. by rewrite Hr, decide_True.
  - unfold rq_close, rq_open, rq_free, rq_unlink, upd_req. cbn. destruct st as [c m l o]; cbn in *. f_equal.
    + rewrite list_insert_insert_eq. by apply list_insert_id.
    + by rewrite list_alter_id.
    + change (list_remove i (list_remove i l ++ [i]) = l). rewrite (list_remove_notin i l) by done. unfold list_remove. rewrite filter_app.
      rewrite filter_cons_False by auto. rewrite filter_nil, app_nil_r. by apply list_remove_notin.
Qed.

Definition rq_fill (E : sda_env) (now : Z) (p : ts_param) (data : list Z) (cmd timeout user f : Z) (s : send_request_state) : send_request_state :=
  s <| rq_param := ts_param_make_reply E (rq_param s) p |> <| rq_state := REQ_SENDING |>
    <| rq_class := rd data 0 |> <| rq_cmd := cmd |> <| rq_user := user |> <| rq_callback := f |>
    <| rq_timeout := timeout |> <| round_trip_start := now |>.

Lemma upd_req_unlisted i f st : rq_wf st -> i ∉ reqs_list st -> (forall s, rq_timer (f s) = rq_timer s) -> rq_timer (req st i) = None ->
  rq_step_ok [] [] st (upd_req i f st).
Proof.
  intros [[Hc Hm] Hn Hu Hti] Hi Hf H0. split; [constructor|]; try done.
  - cbn. by rewrite length_alter.
  - intros j. rewrite req_alter. repeat case_decide; subst; rewrite ?Hf, ?H0; auto; done.
  - unfold rq_pending. cbn. rewrite (pending_ext st); [done|]. intros j Hj. rewrite req_alter. case_decide; [subst; done|done].
Qed.

Lemma send_request_ok E now taken p data cmd timeout user f st : rq_wf st ->
  let op := RQ_op_send E now taken p data cmd timeout user f in
  rq_step_ok (rq_accepts op st) (omap (rq_ends op) (rq_new st (rq_apply op st))) st (rq_apply op st).
Proof.
  intros Hwf op. subst op. unfold rq_accepts, rq_apply, ZW_SendRequest. destruct f as [f|]; cbn [snd].
  2:{ unfold rq_new. rewrite drop_all. by split. }
  destruct (rq_alloc st) as [[i|] st1] eqn:Ha; cbn [fst snd].
  2:{ apply rq_alloc_none in Ha as ->. unfold rq_new. rewrite drop_all. by split. }
  apply rq_alloc_some in Ha as [Hf ->].
  destruct (open_ok i (rq_fill E now p data cmd timeout user f) st Hwf Hf) as (H1 & H2 & H3); [done|].
  match goal with |- context [rq_emit ?o ?s] => change s with (rq_open i (rq_fill E now p data cmd timeout user f) st); set (o' := o) end.
  assert (Hw : omap (rq_ends (RQ_op_send E now taken p data cmd timeout user (Some f))) (rq_new st (rq_emit o' (rq_open i (rq_fill E now p data cmd timeout user f) st))) = []) by (by rewrite new_emit).
  destruct taken; cbn [fst snd].
  - rewrite Hw. split; [by apply emit_wf|]. change (Permutation (rq_pending (rq_open i (rq_fill E now p data cmd timeout user f) st)) ((f, user) :: rq_pending st)).
    rewrite H2. cbn. by rewrite Permutation_app_comm.
  - assert (Hs : rq_free i (rq_unlink i (rq_emit o' (rq_open i (rq_fill E now p data cmd timeout user f) st))) =
      rq_emit o' (upd_req i (rq_fill E now p data cmd timeout user f) st)).
    { rewrite <- H3. unfold rq_close, upd_req, rq_free, rq_unlink, rq_emit. cbn. destruct st as [c m l o]. unfold rq_open, upd_req. cbn. by rewrite (list_alter_id (fun s => s)). }
    rewrite Hs, new_emit by done. cbn.
    destruct (upd_req_unlisted i (rq_fill E now p data cmd timeout user f) st) as [G1 G2]; try done.
    + by apply fresh_unlisted.
    + by apply fresh_untimed.
    + split; [by apply emit_wf|exact G2].
Qed.

(** A request that stays: its block changes, its place may become the last one. *)
Lemma stay_ok i f l st : rq_wf st -> i ∈ reqs_list st -> Permutation l (reqs_list st) -> (forall s, rq_caller (f s) = rq_caller s) ->
  (forall s, rq_state (f s) = REQ_WAITING) -> rq_step_ok [] [] st (upd_req i f st <| reqs_list := l |>).
Proof.
  intros Hwf Hi Hl Hf Hs. pose proof (wf_lt _ _ Hwf Hi) as Hlt. destruct Hwf as [[Hc Hm] Hn Hu Hti].
  assert (Hr : forall j, req (upd_req i f st <| reqs_list := l |>) j = req (upd_req i f st) j) by done.
  split; [constructor|].
  - cbn. by rewrite length_alter.
  - cbn. by rewrite Hl.
  - intros j. cbn. by rewrite Hu, Hl.
  - intros j. rewrite Hr, req_alter. cbn. rewrite Hl. repeat case_decide; subst; rewrite ?Hs; auto; done.
  - unfold rq_pending. cbn. rewrite (pending_ext st).
    + by rewrite Hl.
    + intros j _. rewrite Hr, req_alter. repeat case_decide; auto.
Qed.

Lemma rq_relist st : st <| reqs_list := reqs_list st |> = st.
Proof. by destruct st. Qed.

Lemma rq_new_same st st' : rq_outs st' = rq_outs st -> rq_new st st' = [].
Proof. intros E. unfold rq_new. by rewrite E, drop_all. Qed.

Lemma sent_ok now status i st : rq_wf st ->
  let op := RQ_op_sent now status i in
  rq_step_ok (rq_accepts op st) (omap (rq_ends op) (rq_new st (rq_apply op st))) st (rq_apply op st).
Proof.
  intros Hwf op. subst op. unfold rq_apply, rq_accepts.
  destruct (bool_decide_reflect (i ∈ reqs_list st)) as [Hi|]; cbn [andb]; [|rewrite rq_new_same by done; by split].
  destruct (bool_decide_reflect (rq_state (req st i) = REQ_SENDING)) as [Hs|]; [|rewrite rq_new_same by done; by split].
  unfold ZW_SendRequest_Callback. rewrite Hs. destruct (status =? _); cbn [andb].
  - rewrite bool_decide_true by done. rewrite rq_new_same by done. rewrite <- (rq_relist (upd_req _ _ _)).
    by apply stay_ok.
  - destruct (request_timeout_ok i st) as (H1 & o & -> & ->); done.
Qed.

Lemma rq_timer_ok i st : rq_wf st ->
  let op := RQ_op_timer i in
  rq_step_ok (rq_accepts op st) (omap (rq_ends op) (rq_new st (rq_apply op st))) st (rq_apply op st).
Proof.
  intros Hwf op. subst op. cbn [rq_apply rq_accepts]. destruct (rq_timer (req st i)) as [t|] eqn:Et.
  - destruct (request_timeout_ok i st) as (H1 & o & -> & ->); try done. apply (rw_timer _ Hwf). by rewrite Et.
  - rewrite rq_new_same by done. by split.
Qed.

Lemma found_listed (P : nat -> Prop) `{!forall i, Decision (P i)} l k i : list_find P l = Some (k, i) -> i ∈ l /\ P i.
Proof. intros (Hf & ? & _)%list_find_Some. split; [by eapply list_elem_of_lookup_2|done]. Qed.

Lemma rq_abort_ok n st : rq_wf st ->
  let op := RQ_op_abort n in
  rq_step_ok (rq_accepts op st) (omap (rq_ends op) (rq_new st (rq_apply op st))) st (rq_apply op st).
Proof.
  intros Hwf op. subst op. cbn [rq_apply rq_accepts]. unfold ZW_Abort_SendRequest.
  destruct (list_find _ _) as [[k i]|] eqn:Ef; [|rewrite rq_new_same by done; by split].
  apply found_listed in Ef as [Hi _].
  destruct (close_ok i (fun s => s <| rq_state := REQ_DONE |> <| rq_timer := None |>) st) as (H1 & H2 & H3); try done.
  match goal with |- context [rq_emit ?o ?x] => change x with (rq_close i (fun s => s <| rq_state := REQ_DONE |> <| rq_timer := None |>) st) end.
  rewrite new_emit by done. split; [by apply emit_wf|]. cbn [omap list_omap rq_ends app].
  change (rq_pending (rq_emit ?o ?s)) with (rq_pending s). rewrite <- H2, <- H3. done.
Qed.

Lemma frame_ok more p cmd st : rq_wf st ->
  let op := RQ_op_frame more p cmd in
  rq_step_ok (rq_accepts op st) (omap (rq_ends op) (rq_new st (rq_apply op st))) st (rq_apply op st).
Proof.
  intros Hwf op. subst op. cbn [rq_apply rq_accepts]. unfold SendRequest_ApplicationCommandHandler.
  destruct (list_find _ _) as [[k i]|] eqn:Ef; [|cbn [snd]; rewrite rq_new_same by done; by split].
  apply found_listed in Ef as [Hi _]. set (done_ s := s <| rq_state := REQ_DONE |> <| rq_timer := None |>).
  set (o := RQ_callback _ _ _ _ _). destruct (more _ _ _) eqn:Em; cbn [snd].
  - set (wait s := s <| rq_state := REQ_WAITING |> <| rq_timer := Some (rq_timeout s * 10) |>).
    match goal with |- rq_step_ok _ _ _ ?x => replace x with
      (rq_emit o (upd_req i (fun s => wait (done_ s)) st <| reqs_list := list_add i (reqs_list st) |>)) end.
    2:{ unfold rq_emit, rq_unlink, upd_req. destruct st as [c m l os]; cbn. f_equal.
        - clear. revert i. induction m as [|x m IH]; intros [|i]; cbn; [done..|by f_equal].
        - change (list_remove i l ++ [i] = list_remove i (list_remove i l) ++ [i]). f_equal. symmetry. apply list_remove_notin.
          rewrite elem_of_remove. naive_solver. }
    rewrite new_emit by done. subst o. cbn [omap list_omap rq_ends]. rewrite Em.
    destruct (stay_ok i (fun s => wait (done_ s)) (list_add i (reqs_list st)) st) as [H1 H2]; try done.
    { unfold list_add. rewrite Permutation_app_comm. symmetry. apply remove_perm; [apply Hwf|done]. }
    split; [by apply emit_wf|exact H2].
  - destruct (close_ok i done_ st) as (H1 & H2 & H3); try done.
    change (rq_free i (rq_emit o ?x)) with (rq_emit o (rq_free i x)).
    match goal with |- context [rq_emit o ?x] => change x with (rq_close i done_ st) end.
    rewrite new_emit by done. subst o. cbn [omap list_omap rq_ends]. rewrite Em. split; [by apply emit_wf|exact H2].
Qed.

Lemma rq_step op st : rq_wf st -> rq_step_ok (rq_accepts op st) (omap (rq_ends op) (rq_new st (rq_apply op st))) st (rq_apply op st).
Proof.
  destruct op; intros Hwf; [by apply send_request_ok|by apply sent_ok|by apply rq_timer_ok|by apply rq_abort_ok|by apply frame_ok].
Qed.

(** What a run takes on and what it ends. *)
Fixpoint rq_taken (ops : list req_op) (st : reqs) : list (Z * Z) :=
  match ops with [] => [] | op :: ops => rq_accepts op st ++ rq_taken ops (rq_apply op st) end.

Fixpoint rq_ended (ops : list req_op) (st : reqs) : list (Z * Z) :=
  match ops with [] => [] | op :: ops => omap (rq_ends op) (rq_new st (rq_apply op st)) ++ rq_ended ops (rq_apply op st) end.

Lemma rq_runs ops st : rq_wf st -> rq_wf (rq_run ops st) /\
  Permutation (rq_ended ops st ++ rq_pending (rq_run ops st)) (rq_taken ops st ++ rq_pending st).
Proof.
  revert st. induction ops as [|op ops IH]; intros st Hwf; [by split|].
  destruct (rq_step op st Hwf) as [H1 H2]. destruct (IH _ H1) as [H3 H4]. split; [exact H3|]. cbn [rq_ended rq_taken rq_run fold_left].
  unfold rq_run in H4. rewrite <- (assoc_L (++)), H4, Permutation_app_swap_app, H2, Permutation_app_swap_app. by rewrite (assoc_L (++)).
Qed.

Lemma rq_start_wf : rq_wf rq_start.
Proof.
  constructor; [done|apply NoDup_nil; done| |].
  - intros i. split; [|set_solver]. cbn. intros Hi. do 4 (destruct i as [|i]; [done|]). done.
  - intros i. do 4 (destruct i as [|i]; [done|]). done.
Qed.

(** C27. In every run each request that was taken on is ended exactly once, by a
    failure or by the last report its caller wanted, or is still under way. *)
Theorem requests_end_once ops :
  Permutation (rq_ended ops rq_start ++ rq_pending (rq_run ops rq_start)) (rq_taken ops rq_start).
Proof. destruct (rq_runs ops rq_start rq_start_wf) as [_ H]. rewrite H. cbn. by rewrite app_nil_r. Qed.

(** A request is refused exactly when there are four under way: no block is lost. *)
Theorem requests_refused_when_full ops E now p data cmd timeout user f :
  let st := rq_run ops rq_start in
  fst (ZW_SendRequest E now true p data cmd timeout user (Some f) st) = negb (length (rq_pending st) =? NUM_REQS)%nat.
Proof.
  intros st. destruct (rq_runs ops rq_start rq_start_wf) as [[[Hc Hm] Hn Hu _] _]. fold st in Hc, Hn, Hu.
  unfold ZW_SendRequest, rq_pending. rewrite length_map.
  assert (Hs : reqs_list st ⊆ seq 0 NUM_REQS).
  { intros i Hi%Hu%lookup_lt_Some. apply elem_of_seq. lia. }
  destruct (rq_alloc st) as [[i|] st1] eqn:Ha; cbn [fst].
  - apply rq_alloc_some in Ha as [Hf _]. destruct (Nat.eqb_spec (length (reqs_list st)) NUM_REQS) as [El|]; [|done].
    assert (Hp : Permutation (reqs_list st) (seq 0 NUM_REQS)).
    { apply submseteq_length_Permutation; [by apply NoDup_submseteq|by rewrite length_seq, El]. }
    assert (Hi : i ∈ reqs_list st) by (rewrite Hp; apply elem_of_seq; apply lookup_lt_Some in Hf; lia).
    apply Hu in Hi. congruence.
  - unfold rq_alloc in Ha. destruct (list_find _ _) as [[]|] eqn:Ef; [done|]. apply list_find_None in Ef.
    assert (Hp : seq 0 NUM_REQS ⊆+ reqs_list st).
    { apply NoDup_submseteq; [apply NoDup_seq|]. intros j [_ Hj]%elem_of_seq. apply Hu.
      destruct (lookup_lt_is_Some_2 (rq_count st) j) as [[] Hb]; [lia|done|].
      rewrite Forall_forall in Ef. destruct (Ef false); [by eapply list_elem_of_lookup_2|done]. }
    apply submseteq_length in Hp. apply NoDup_submseteq, submseteq_length in Hs; [|done]. rewrite length_seq in Hp, Hs.
    replace (length (reqs_list st)) with NUM_REQS by lia. done.
Qed.

Lemma one_request_handled more q frame s cnt mem outs :
  SendRequest_ApplicationCommandHandler more q frame (mkReqs cnt (s :: mem) [0%nat] outs) =
  if answers_req q frame s then
    let out := outs ++ [RQ_callback (rq_callback s) (rq_user s) TRANSMIT_COMPLETE_OK (rx_flags q) frame] in
    let s' := s <| rq_state := REQ_DONE |> <| rq_timer := None |> in
    if more (rq_callback s) (rq_user s) frame
    then (true, mkReqs cnt (s' <| rq_state := REQ_WAITING |> <| rq_timer := Some (rq_timeout s * 10) |> :: mem) [0%nat] out)
    else (true, mkReqs (<[0%nat := false]> cnt) (s' :: mem) [] out)
  else (false, mkReqs cnt (s :: mem) [0%nat] outs).
Proof.
  unfold SendRequest_ApplicationCommandHandler. cbn [reqs_list list_find]. change (req (mkReqs cnt (s :: mem) [0%nat] outs) 0) with s.
  destruct (answers_req q frame s); [rewrite decide_True by done|by rewrite decide_False by done].
  by destruct (more _ _ _).
Qed.

(** A request whose frame was sent is answered by the report it asks for if that
    comes from the node and endpoint asked, under the scheme of the request; under
    another scheme it is not taken for the answer. *)
Theorem request_answered_by_report E now p data cmd timeout user f more (x : ts_param) s body :
  let q := ts_param_make_reply E x p <| scheme := s |> in
  let st := rq_run [RQ_op_send E now true p data cmd timeout user (Some f); RQ_op_sent now TRANSMIT_COMPLETE_OK 0%nat] rq_start in
  let frame := rd data 0 :: cmd :: body in
  let '(took, st') := SendRequest_ApplicationCommandHandler more q frame st in
  if s =? ZW_SendData_scheme_select E p 2
  then took = true /\ rq_outs st' = [RQ_send p data 0; RQ_callback f user TRANSMIT_COMPLETE_OK (rx_flags x) frame] /\
       rq_pending st' = (if more f user frame then [(f, user)] else [])
  else took = false /\ st' = st.
Proof.
  intros q st frame.
  set (r := rq_fill E now p data cmd timeout user f null_req <| rq_state := REQ_WAITING |>
              <| rq_timer := Some (timeout * 10 + round_trip_duration now now) |>).
  assert (Hst : st = mkReqs [true; false; false; false] [r; null_req; null_req; null_req] [0%nat] [RQ_send p data 0]) by reflexivity.
  clearbody st. subst st. rewrite one_request_handled.
  assert (Ha : answers_req q frame r = (s =? ZW_SendData_scheme_select E p 2)).
  { unfold answers_req, ts_param_cmp. cbn [r q frame rq_fill rq_state rq_param rq_class rq_cmd ts_param_make_reply modify snode dnode sendpoint dendpoint scheme andb].
    rewrite !Z.eqb_refl. rewrite bool_decide_true by done. apply Z.eqb_sym. }
  rewrite Ha. destruct (s =? _); [|done]. change (rq_callback r) with f. change (rq_user r) with user.
  destruct (more f user frame); done.
Qed.

(** An abort for a node ends only the first of its requests that wait for a report. *)
Example abort_stops_at_first E :
  let p := ts_set_std E 7 in
  let st := rq_run [RQ_op_send E 0 true p [0x25; 2] 3 100 1 (Some 10); RQ_op_send E 0 true p [0x26; 2] 3 100 2 (Some 10);
                    RQ_op_sent 5 TRANSMIT_COMPLETE_OK 0%nat; RQ_op_sent 5 TRANSMIT_COMPLETE_OK 1%nat; RQ_op_abort 7] rq_start in
  rq_pending st = [(10, 2)] /\ rq_state (req st 1) = REQ_WAITING.
Proof. intros p st. by vm_compute. Qed.
