(* ===== verification/SecureLearn.v ===== *)
(** * The S0 key exchange (src/src-gen/Secure_learn.c, src/src/transport/security_layer.c,
    the network keys of src/src/transport/s2_keystore.c)

    A state chart runs both sides of the exchange: a controller that is included
    gets the network key sealed under the key of zeros, and hands it to the nodes
    it includes.  The security layer carries out its actions: frames, timers, the
    key S0 uses and the stored keys.

    Frames for the transmit queue and calls of other components are outputs; the
    answer of the transmit queue is given.  An event that carries a value is [None] when
    it is not raised: the source reads the value only of raised events.  The flags
    of the seven timers are the list of those that are raised.  Keys of the store
    are found by their class. *)

From S2P Require Import Prelude Crc Nodemask SendDataAppl Sec0.
#[local] Open Scope Z_scope.

Definition SECURITY_COMMANDS_SUPPORTED_GET : Z := 0x02.
Definition SECURITY_COMMANDS_SUPPORTED_REPORT : Z := 0x03.
Definition SECURITY_SCHEME_GET : Z := 0x04.
Definition SECURITY_SCHEME_REPORT : Z := 0x05.
Definition NETWORK_KEY_VERIFY : Z := 0x07.
Definition SECURITY_SCHEME_INHERIT : Z := 0x08.
Definition SECURITY_SCHEME_0_BIT : Z := 0x1.
Definition KEY_CLASS_S0 : Z := 0x80.
Definition KEY_CLASS_S2_UNAUTHENTICATED : Z := 0x01.
Definition KEY_CLASS_S2_AUTHENTICATED : Z := 0x02.
Definition KEY_CLASS_S2_ACCESS : Z := 0x04.
Definition KEY_CLASS_S2_AUTHENTICATED_LR : Z := 0x08.
Definition KEY_CLASS_S2_ACCESS_LR : Z := 0x10.
Definition KEY_CLASS_ALL : Z := 0xFF.

(** ** State *)

Inductive Secure_learnStates :=
| LearnMode | LearnMode_r1_Start | LearnMode_r1_Scheme_report | LearnMode_r1_Fail | LearnMode_r1_NewKey
| LearnMode_r1_Inherited | LearnMode_r1_InsecureNet | LearnMode_r1_end
| Idle
| InclusionMode | InclusionMode_r1_SchemeRequest | InclusionMode_r1_SendKey | InclusionMode_r1_SendInterit
| InclusionMode_r1_Fail | InclusionMode_r1_end | InclusionMode_r1_waitVerify
| Complete | SendReport | Final | Last_state.
#[export] Instance sl_states_eq : EqDecision Secure_learnStates.
Proof. solve_decision. Defined.

Inductive time_event :=
| Start_tev0 | Scheme_report_tev0 | NewKey_tev0 | SchemeRequest_tev0 | SendKey_tev0 | SendInterit_tev0 | waitVerify_tev0.
#[export] Instance time_event_eq : EqDecision time_event.
Proof. solve_decision. Defined.

Record Secure_learn := mkLearn {
  stateConfVector : Secure_learnStates;
  supported_schemes : Z; txOptions : Z; isController : bool; sl_node : Z; sl_scheme : Z; sl_net_scheme : Z;
  learnRequest : bool; inclusionRequest : option Z; commandsSupportedRequest : bool;
  tx_done : bool; tx_fail : bool;
  scheme_get : option Z; scheme_inherit : option Z; key_set : option Z; scheme_report : option Z; key_verify : option Z;
  timeEvents : list time_event
}.
#[export] Instance learn_eta : EtaRecord Secure_learn := fun c =>
  mkLearn (stateConfVector c) (supported_schemes c) (txOptions c) (isController c) (sl_node c) (sl_scheme c) (sl_net_scheme c)
    (learnRequest c) (inclusionRequest c) (commandsSupportedRequest c) (tx_done c) (tx_fail c)
    (scheme_get c) (scheme_inherit c) (key_set c) (scheme_report c) (key_verify c) (timeEvents c).

(** The part of the configuration file that holds the keys. *)
Record nvm_config := mkNvm { nvm_security_scheme : Z; nvm_keys : gmap Z (list Z); nvm_assigned_keys : Z }.
#[export] Instance nvm_eta : EtaRecord nvm_config := fun n => mkNvm (nvm_security_scheme n) (nvm_keys n) (nvm_assigned_keys n).

Inductive sl_out :=
| SL_send (p : ts_param) (data : list Z)
| SL_complete (f flags : Z)
| SL_s0_started.

Record security_layer := mkLayer {
  ctx : Secure_learn; sl_timer : option time_event; sl_callback : option Z;
  secureCommandClassesList : list Z; secureCommandClassesListCount : Z;
  cur_tsparm : ts_param; assigned_keys : Z; networkKey : list Z; nvm : nvm_config;
  security_flags : gmap Z Z; my_node : Z; prng_initialized : bool; s0 : sec0; sl_outs : list sl_out
}.
#[export] Instance layer_eta : EtaRecord security_layer := fun s =>
  mkLayer (ctx s) (sl_timer s) (sl_callback s) (secureCommandClassesList s) (secureCommandClassesListCount s)
    (cur_tsparm s) (assigned_keys s) (networkKey s) (nvm s) (security_flags s) (my_node s) (prng_initialized s) (s0 s) (sl_outs s).

(** What the surroundings answer: the transmit queue, the node database, the
    virtual nodes, the network (its scheme, whether we are its SUC, the type of
    the radio library), the classes added by the portal and random bytes. *)
Record sl_env := mkSlEnv {
  sl_sda : sda_env; sl_takes : ts_param -> list Z -> bool; is_virtual_node : Z -> bool;
  net_scheme : Z; is_SUC : bool; controller_library : bool; SecureClassesPAN : list Z;
  hw_random : Z -> list Z; dev_urandom : option (list Z)
}.

Definition sl_emit (o : sl_out) (st : security_layer) : security_layer := st <| sl_outs := sl_outs st ++ [o] |>.

(** The environment of the queue, under the node number we have now. *)
Definition sda_now (E : sl_env) (st : security_layer) : sda_env :=
  let e := sl_sda E in
  mkSdaEnv (my_node st) (GetCacheEntryFlag e) (SupportsCmdClass e) (CommandAnalyzerIsGet e) (malloc_ok e) (SendDataAppl.sec0_send_data e)
    (sec2_send_data e) (ZW_TransportService_SendData e) (ZW_SendData_Bridge e) (ZW_SendData e) (get_queue_state e)
    (time_resend_serial e) (gecko_chip e) (soft_reset_ok e).

(** ** The node database *)

Definition SetCacheEntryFlagMasked (nodeid value mask : Z) (st : security_layer) : security_layer :=
  match security_flags st !! nodeid with
  | Some f => st <| security_flags := <[nodeid := Z.lor (Z.land f (Z.lnot mask)) value]> (security_flags st) |>
  | None => st
  end.

Definition cache_flag (E : sl_env) (nodeid : Z) (st : security_layer) : Z :=
  default 0 (security_flags st !! (if is_virtual_node E nodeid then my_node st else nodeid)).

Definition isNodeBad (E : sl_env) (n : Z) (st : security_layer) : bool := has (cache_flag E n st) NODE_FLAG_KNOWN_BAD.
Definition isNodeSecure (E : sl_env) (n : Z) (st : security_layer) : bool :=
  Z.land (cache_flag E n st) (Z.lor NODE_FLAG_SECURITY0 NODE_FLAG_KNOWN_BAD) =? NODE_FLAG_SECURITY0.

(** ** The state chart: events *)

Definition isActive (c : Secure_learn) (state : Secure_learnStates) : bool :=
  match state with
  | LearnMode =>
      match stateConfVector c with
      | LearnMode | LearnMode_r1_Start | LearnMode_r1_Scheme_report | LearnMode_r1_Fail | LearnMode_r1_NewKey
      | LearnMode_r1_Inherited | LearnMode_r1_InsecureNet | LearnMode_r1_end => true
      | _ => false
      end
  | InclusionMode =>
      match stateConfVector c with
      | InclusionMode | InclusionMode_r1_SchemeRequest | InclusionMode_r1_SendKey | InclusionMode_r1_SendInterit
      | InclusionMode_r1_Fail | InclusionMode_r1_end | InclusionMode_r1_waitVerify => true
      | _ => false
      end
  | Last_state => false
  | s => bool_decide (stateConfVector c = s)
  end.

Definition clearInEvents (c : Secure_learn) : Secure_learn :=
  mkLearn (stateConfVector c) (supported_schemes c) (txOptions c) (isController c) (sl_node c) (sl_scheme c) (sl_net_scheme c)
    false None false false false None None None None None [].

Definition secure_learn_init (c : Secure_learn) : Secure_learn :=
  mkLearn Last_state 0x1 0 false 0 0 0 false None false false false None None None None None [].

Definition secure_learn_enter (c : Secure_learn) : Secure_learn := c <| stateConfVector := Idle |>.

Definition secure_learn_raiseTimeEvent (e : time_event) (c : Secure_learn) : Secure_learn := c <| timeEvents := e :: timeEvents c |>.

Definition time_raised (e : time_event) (st : security_layer) : bool := bool_decide (e ∈ timeEvents (ctx st)).

(** An event that is raised with the number of the node the exchange is with. *)
Definition raised_by_node (ev : Secure_learn -> option Z) (st : security_layer) : bool := bool_decide (ev (ctx st) = Some (sl_node (ctx st))).

Definition set_state (s : Secure_learnStates) (st : security_layer) : security_layer := st <| ctx; stateConfVector := s |>.
Definition secure_learn_setTimer (e : time_event) (st : security_layer) : security_layer := st <| sl_timer := Some e |>.
Definition secure_learn_unsetTimer (st : security_layer) : security_layer := st <| sl_timer := None |>.

(** Leaving a state; states with a timer stop it. *)
Definition leave (st : security_layer) : security_layer := set_state Last_state st.
Definition leave_timed (st : security_layer) : security_layer := secure_learn_unsetTimer (leave st).

Section Cipher.
Context (aes : list Z -> list Z -> list Z).

Definition set_s0_key (k : list Z) (st : security_layer) : security_layer := st <| s0 := sec0_set_key aes k (s0 st) |>.

(** ** Stored keys *)

Definition keystore_network_key_write (keyclass : Z) (buf : list Z) (st : security_layer) : security_layer :=
  let st := st <| nvm; nvm_keys := <[keyclass := buf]> (nvm_keys (nvm st)) |> in
  let st := if keyclass =? KEY_CLASS_S0 then set_s0_key buf st else st in
  st <| nvm; nvm_assigned_keys := Z.lor (nvm_assigned_keys (nvm st)) keyclass |>.

Definition keystore_network_key_read (keyclass : Z) (st : security_layer) : option (list Z) :=
  if Z.land keyclass (nvm_assigned_keys (nvm st)) =? 0 then None else Some (default (zeros 16) (nvm_keys (nvm st) !! keyclass)).

(** One class; [random_bytes] are the bytes drawn for it. *)
Definition keystore_clear_class (random_bytes : list Z) (keyclass : Z) (st : security_layer) : security_layer :=
  let st := keystore_network_key_write keyclass (take 16 random_bytes) st in
  st <| nvm; nvm_assigned_keys := Z.land (nvm_assigned_keys (nvm st)) (Z.lnot keyclass) |>.

Definition all_classes : list Z :=
  [KEY_CLASS_S0; KEY_CLASS_S2_UNAUTHENTICATED; KEY_CLASS_S2_AUTHENTICATED; KEY_CLASS_S2_ACCESS; KEY_CLASS_S2_AUTHENTICATED_LR; KEY_CLASS_S2_ACCESS_LR].

Definition keystore_network_key_clear (random_bytes : Z -> list Z) (keyclass : Z) (st : security_layer) : security_layer :=
  if keyclass =? KEY_CLASS_ALL then fold_left (fun st c => keystore_clear_class (random_bytes c) c st) all_classes st
  else keystore_clear_class (random_bytes keyclass) keyclass st.

(** The flags are read once, before the keys are written. *)
Definition keystore_network_generate_key_if_missing (E : sl_env) (st : security_layer) : security_layer :=
  let key_store_flags := nvm_assigned_keys (nvm st) in
  fold_left (fun st c => if has key_store_flags c then st else keystore_network_key_write c (hw_random E c) st)
    [KEY_CLASS_S0; KEY_CLASS_S2_ACCESS; KEY_CLASS_S2_AUTHENTICATED; KEY_CLASS_S2_UNAUTHENTICATED;
     KEY_CLASS_S2_AUTHENTICATED_LR; KEY_CLASS_S2_ACCESS_LR] st.

Definition security_load_state (st : security_layer) : security_layer :=
  let st := st <| networkKey := default (networkKey st) (keystore_network_key_read KEY_CLASS_S0 st) |> in
  let st := st <| ctx; sl_net_scheme := nvm_security_scheme (nvm st) |> in
  let st := set_s0_key (networkKey st) st in
  st <| assigned_keys := nvm_assigned_keys (nvm st) |>.

(** The scheme is stored as a signed byte. *)
Definition s8 (z : Z) : Z := (z + 128) mod 256 - 128.
Definition security_save_state (st : security_layer) : security_layer :=
  let st := st <| nvm; nvm_security_scheme := s8 (sl_net_scheme (ctx st)) |> in
  keystore_network_key_write KEY_CLASS_S0 (networkKey st) st.

(** A key of random bytes; without random bytes the program stops. *)
Definition sec0_reset_netkey (E : sl_env) (st : security_layer) : option security_layer :=
  match dev_urandom E with
  | Some k => Some (st <| networkKey := k |> <| nvm; nvm_keys := <[KEY_CLASS_S0 := k]> (nvm_keys (nvm st)) |>)
  | None => None
  end.

(** [k1] and [k2] seed the generator the first time. *)
Definition security_init (E : sl_env) (k1 k2 : list Z) (st : security_layer) : security_layer :=
  let st := if prng_initialized st then st
            else st <| s0; prngState := InitPRNG aes k1 k2 |> <| prng_initialized := true |> in
  let st := st <| ctx := secure_learn_enter (secure_learn_init (ctx st)) |> in
  let st := if is_SUC E then keystore_network_generate_key_if_missing E st else st in
  let st := st <| s0 := sec0_init (s0 st) |> in
  security_load_state st.

Definition security_set_default (E : sl_env) (k1 k2 : list Z) (st : security_layer) : option security_layer :=
  let scheme_st := if controller_library E then
                     match sec0_reset_netkey E st with Some st' => Some (supported_schemes (ctx st'), st') | None => None end
                   else Some (0, st) in
  match scheme_st with
  | Some (scheme, st) => Some (security_init E k1 k2 (security_save_state (st <| ctx; sl_net_scheme := scheme |>)))
  | None => None
  end.

Definition security_set_supported_classes (classes : list Z) (st : security_layer) : security_layer :=
  st <| secureCommandClassesList := classes |> <| secureCommandClassesListCount := Zlength classes |>.

(** ** Actions of the state chart *)

Definition send_and_raise_ex (E : sl_env) (data : list Z) (st : security_layer) : security_layer :=
  let ok := sl_takes E (cur_tsparm st) data in
  let st := sl_emit (SL_send (cur_tsparm st) data) st in
  if ok then st else st <| ctx; tx_fail := true |>.

Definition send_and_raise (E : sl_env) (node : Z) (data : list Z) (txOptions scheme_ : Z) (st : security_layer) : security_layer :=
  let p := ts_set_std (sda_now E st) node <| scheme := scheme_ |> <| tx_flags := u8 txOptions |> in
  let st := sl_emit (SL_send p data) st in
  if sl_takes E p data then st else st <| ctx; tx_fail := true |>.

Definition send_commands_supported (E : sl_env) (st : security_layer) : security_layer :=
  if (snode (cur_tsparm st) =? my_node st) && (net_scheme E =? SECURITY_SCHEME_0) then
    let own := take (Z.to_nat (secureCommandClassesListCount st)) (secureCommandClassesList st) in
    let roomLeft := u8 (64 - 3 - secureCommandClassesListCount st) in
    let copyLen := if Zlength (SecureClassesPAN E) <? roomLeft then Zlength (SecureClassesPAN E) else roomLeft in
    send_and_raise_ex E ([COMMAND_CLASS_SECURITY; SECURITY_COMMANDS_SUPPORTED_REPORT; 0] ++ own ++
                         take (Z.to_nat copyLen) (SecureClassesPAN E)) st
  else
    send_and_raise_ex E [COMMAND_CLASS_SECURITY; SECURITY_COMMANDS_SUPPORTED_REPORT; 0]
      (st <| secureCommandClassesListCount := 0 |>).

Definition send_scheme_report (E : sl_env) (st : security_layer) : security_layer :=
  send_and_raise E (sl_node (ctx st)) [COMMAND_CLASS_SECURITY; SECURITY_SCHEME_REPORT; 0] (txOptions (ctx st))
    (if sl_net_scheme (ctx st) =? 0 then NO_SCHEME else SECURITY_SCHEME_0) st.

Definition set_inclusion_key (st : security_layer) : security_layer := set_s0_key (zeros 16) st.

Definition send_key_verify (E : sl_env) (st : security_layer) : security_layer :=
  send_and_raise E (sl_node (ctx st)) [COMMAND_CLASS_SECURITY; NETWORK_KEY_VERIFY] (txOptions (ctx st)) SECURITY_SCHEME_0 st.

Definition send_scheme_get (E : sl_env) (st : security_layer) : security_layer :=
  send_and_raise E (sl_node (ctx st)) [COMMAND_CLASS_SECURITY; SECURITY_SCHEME_GET; 0] (txOptions (ctx st)) NO_SCHEME st.

Definition send_key (E : sl_env) (st : security_layer) : security_layer :=
  let frame := [COMMAND_CLASS_SECURITY; NETWORK_KEY_SET] ++ networkKey st in
  let st := set_s0_key (zeros 16) st in
  send_and_raise E (sl_node (ctx st)) frame (txOptions (ctx st)) SECURITY_SCHEME_0 st.

Definition send_scheme_inherit (E : sl_env) (st : security_layer) : security_layer :=
  send_and_raise E (sl_node (ctx st)) [COMMAND_CLASS_SECURITY; SECURITY_SCHEME_INHERIT; 0] (txOptions (ctx st)) SECURITY_SCHEME_0 st.

Definition restore_key (st : security_layer) : security_layer := set_s0_key (networkKey st) st.

Definition register_scheme (node scheme_ : Z) (st : security_layer) : security_layer :=
  if has scheme_ SECURITY_SCHEME_0_BIT then SetCacheEntryFlagMasked node NODE_FLAG_SECURITY0 NODE_FLAG_SECURITY0 st
  else SetCacheEntryFlagMasked node 0 NODE_FLAG_SECURITY0 st.

Definition complete (scheme_mask : Z) (st : security_layer) : security_layer :=
  let '(flags, st) := if 0 <? scheme_mask then (NODE_FLAG_SECURITY0, st)
                      else if scheme_mask <? 0 then (NODE_FLAG_KNOWN_BAD, set_s0_key (networkKey st) st)
                      else (0, st) in
  match sl_callback st with Some f => sl_emit (SL_complete f flags) st | None => st end.

(** ** Reactions *)

(** Entering the states that more than one reaction enters. *)
Definition enter_LearnMode_Fail (st : security_layer) : security_layer :=
  set_state LearnMode_r1_Fail (st <| ctx; sl_scheme := -1 |>).

Definition enter_InclusionMode_Fail (st : security_layer) : security_layer :=
  let st := st <| ctx; sl_scheme := -1 |> in
  set_state InclusionMode_r1_Fail (register_scheme (sl_node (ctx st)) 0 st).

Definition react_LearnMode_r1_Start (E : sl_env) (st : security_layer) : security_layer :=
  match scheme_get (ctx st) with
  | Some v =>
      let st := leave_timed st <| ctx; sl_node := v |> in
      let st := secure_learn_setTimer Scheme_report_tev0 st in
      let st := set_inclusion_key (send_scheme_report E st) in
      set_state LearnMode_r1_Scheme_report (register_scheme (sl_node (ctx st)) (sl_scheme (ctx st)) st)
  | None =>
      if time_raised Start_tev0 st then
        let st := leave_timed st in
        if isController (ctx st) then set_state LearnMode_r1_InsecureNet (st <| ctx; sl_scheme := 0 |>)
        else set_state LearnMode_r1_end st
      else st
  end.

Definition react_LearnMode_r1_Scheme_report (E : sl_env) (st : security_layer) : security_layer :=
  if raised_by_node key_set st then
    let st := secure_learn_setTimer NewKey_tev0 (leave_timed st) in
    let st := send_key_verify E st in
    let st := st <| ctx; sl_net_scheme := Z.land (sl_scheme (ctx st)) (supported_schemes (ctx st)) |> in
    set_state LearnMode_r1_NewKey st
  else if time_raised Scheme_report_tev0 st || tx_fail (ctx st) then enter_LearnMode_Fail (leave_timed st)
  else if tx_done (ctx st) && (Z.land (sl_scheme (ctx st)) (supported_schemes (ctx st)) =? 0) then
    enter_LearnMode_Fail (leave_timed st)
  else st.

Definition react_LearnMode_r1_Fail (st : security_layer) : security_layer := set_state LearnMode_r1_end (leave st).

Definition react_LearnMode_r1_NewKey (E : sl_env) (st : security_layer) : security_layer :=
  if tx_done (ctx st) && negb (isController (ctx st)) then set_state LearnMode_r1_end (leave_timed st)
  else if time_raised NewKey_tev0 st || tx_fail (ctx st) then enter_LearnMode_Fail (leave_timed st)
  else if raised_by_node scheme_inherit st && isController (ctx st) then
    set_state LearnMode_r1_Inherited (send_scheme_report E (leave_timed st))
  else st.

Definition react_LearnMode_r1_Inherited (st : security_layer) : security_layer :=
  if tx_done (ctx st) then set_state LearnMode_r1_end (leave st)
  else if tx_fail (ctx st) then enter_LearnMode_Fail (leave st)
  else st.

Definition react_LearnMode_r1_InsecureNet (st : security_layer) : security_layer := set_state LearnMode_r1_end (leave st).

(** Reached only in the state [end], which has no timer. *)
Definition react_LearnMode_r1_end (st : security_layer) : security_layer :=
  let st := leave st in
  let st := st <| ctx; sl_net_scheme := sl_scheme (ctx st) |> in
  let st := security_save_state st in
  set_state Complete (complete (sl_scheme (ctx st)) st).

Definition react_Idle (E : sl_env) (st : security_layer) : security_layer :=
  if learnRequest (ctx st) then
    let st := secure_learn_setTimer Start_tev0 (leave st) in
    set_state LearnMode_r1_Start (st <| ctx; sl_net_scheme := 0 |>)
  else
    match inclusionRequest (ctx st) with
    | Some v =>
        let st := leave st <| ctx; sl_node := v |> in
        let st := secure_learn_setTimer SchemeRequest_tev0 st in
        set_state InclusionMode_r1_SchemeRequest (send_scheme_get E st)
    | None =>
        if commandsSupportedRequest (ctx st) then set_state SendReport (send_commands_supported E (leave st)) else st
    end.

Definition react_InclusionMode_r1_SchemeRequest (E : sl_env) (st : security_layer) : security_layer :=
  if raised_by_node scheme_report st then
    let st := leave_timed st in
    if 0 <? Z.land (sl_scheme (ctx st)) 1 then
      let st := register_scheme (sl_node (ctx st)) (sl_scheme (ctx st)) st in
      let st := secure_learn_setTimer SendKey_tev0 st in
      set_state InclusionMode_r1_SendKey (send_key E st)
    else enter_InclusionMode_Fail st
  else if time_raised SchemeRequest_tev0 st || tx_fail (ctx st) then enter_InclusionMode_Fail (leave_timed st)
  else st.

Definition react_InclusionMode_r1_SendKey (st : security_layer) : security_layer :=
  if tx_fail (ctx st) || time_raised SendKey_tev0 st then enter_InclusionMode_Fail (leave_timed st)
  else if tx_done (ctx st) then
    let st := secure_learn_setTimer waitVerify_tev0 (leave_timed st) in
    set_state InclusionMode_r1_waitVerify (restore_key st)
  else st.

Definition react_InclusionMode_r1_SendInterit (st : security_layer) : security_layer :=
  if time_raised SendInterit_tev0 st || tx_fail (ctx st) then enter_InclusionMode_Fail (leave_timed st)
  else if raised_by_node scheme_report st then
    let st := leave_timed st in
    let st := register_scheme (sl_node (ctx st)) (sl_scheme (ctx st)) st in
    if 0 <? Z.land (sl_scheme (ctx st)) 1 then set_state InclusionMode_r1_end st else enter_InclusionMode_Fail st
  else st.

Definition react_InclusionMode_r1_Fail (st : security_layer) : security_layer := set_state InclusionMode_r1_end (leave st).

Definition react_InclusionMode_r1_end (st : security_layer) : security_layer :=
  let st := leave st in
  set_state Complete (complete (sl_scheme (ctx st)) st).

Definition react_InclusionMode_r1_waitVerify (E : sl_env) (st : security_layer) : security_layer :=
  if raised_by_node key_verify st then
    let st := leave_timed st in
    if isController (ctx st) then
      let st := secure_learn_setTimer SendInterit_tev0 st in
      set_state InclusionMode_r1_SendInterit (send_scheme_inherit E st)
    else set_state InclusionMode_r1_end (register_scheme (sl_node (ctx st)) (sl_scheme (ctx st)) st)
  else if time_raised waitVerify_tev0 st then enter_InclusionMode_Fail (leave_timed st)
  else st.

Definition react_Complete (st : security_layer) : security_layer := set_state Idle (leave st).

Definition react_SendReport (st : security_layer) : security_layer :=
  if tx_done (ctx st) || tx_fail (ctx st) then set_state Idle (leave st) else st.

Definition react (E : sl_env) (st : security_layer) : security_layer :=
  match stateConfVector (ctx st) with
  | LearnMode_r1_Start => react_LearnMode_r1_Start E st
  | LearnMode_r1_Scheme_report => react_LearnMode_r1_Scheme_report E st
  | LearnMode_r1_Fail => react_LearnMode_r1_Fail st
  | LearnMode_r1_NewKey => react_LearnMode_r1_NewKey E st
  | LearnMode_r1_Inherited => react_LearnMode_r1_Inherited st
  | LearnMode_r1_InsecureNet => react_LearnMode_r1_InsecureNet st
  | LearnMode_r1_end => react_LearnMode_r1_end st
  | Idle => react_Idle E st
  | InclusionMode_r1_SchemeRequest => react_InclusionMode_r1_SchemeRequest E st
  | InclusionMode_r1_SendKey => react_InclusionMode_r1_SendKey st
  | InclusionMode_r1_SendInterit => react_InclusionMode_r1_SendInterit st
  | InclusionMode_r1_Fail => react_InclusionMode_r1_Fail st
  | InclusionMode_r1_end => react_InclusionMode_r1_end st
  | InclusionMode_r1_waitVerify => react_InclusionMode_r1_waitVerify E st
  | Complete => react_Complete st
  | SendReport => react_SendReport st
  | LearnMode | InclusionMode | Final | Last_state => st
  end.

Definition secure_learn_runCycle (E : sl_env) (st : security_layer) : security_layer :=
  let st := react E st in
  st <| ctx := clearInEvents (ctx st) |>.

(** Cycles until the state no longer changes; [None] if [fuel] cycles are not
    enough. *)
Fixpoint secure_poll_from (fuel : nat) (E : sl_env) (s : option Secure_learnStates) (st : security_layer) : option security_layer :=
  if bool_decide (s = Some (stateConfVector (ctx st))) then Some st
  else
    match fuel with
    | O => None
    | S fuel => secure_poll_from fuel E (Some (stateConfVector (ctx st))) (secure_learn_runCycle E st)
    end.

Definition secure_poll (fuel : nat) (E : sl_env) (st : security_layer) : option security_layer := secure_poll_from fuel E None st.

(** ** Entry points *)

Definition send_data_callback (status : Z) (st : security_layer) : security_layer :=
  if status =? TRANSMIT_COMPLETE_OK then st <| ctx; tx_done := true |> else st <| ctx; tx_fail := true |>.

(** The timer runs out. *)
Definition timeout (st : security_layer) : security_layer :=
  match sl_timer st with
  | Some e => st <| sl_timer := None |> <| ctx := secure_learn_raiseTimeEvent e (ctx st) |>
  | None => st
  end.

Definition security_learn_begin (E : sl_env) (cb : option Z) (st : security_layer) : security_layer :=
  if isActive (ctx st) Idle then
    st <| sl_callback := cb |> <| ctx; isController := controller_library E |> <| ctx; learnRequest := true |>
  else st.

(** The node number is a byte here. *)
Definition security_add_begin (E : sl_env) (node txOptions_ : Z) (controller : bool) (cb : option Z) (st : security_layer) : bool * security_layer :=
  if isActive (ctx st) Idle && negb (isNodeSecure E (u8 node) st) then
    (true, st <| sl_callback := cb |> <| ctx; isController := controller |> <| ctx; txOptions := u8 txOptions_ |>
              <| ctx; inclusionRequest := Some (u8 node) |>)
  else (false, st).

Definition sec0_abort_inclusion (st : security_layer) : security_layer :=
  if isActive (ctx st) Idle then st
  else st <| ctx := secure_learn_enter (secure_learn_init (ctx st)) |> <| sl_timer := None |>.

(** The commands of the exchange; [cmdLength] is the byte it is passed in. *)
Definition txOption_for (p : ts_param) : Z :=
  Z.lor (Z.lor (if has (rx_flags p) RECEIVE_STATUS_LOW_POWER then TRANSMIT_OPTION_LOW_POWER else 0) TRANSMIT_OPTION_ACK)
    TRANSMIT_OPTION_EXPLORE.

Definition scheme_of_frame (cmd : list Z) : Z := Z.lor (Z.land (rd cmd 2) 0xFE) 0x1.

Definition network_key_set (p : ts_param) (cmd : list Z) (cmdLength : Z) (st : security_layer) : security_layer :=
  if (scheme p =? SECURITY_SCHEME_0) && isActive (ctx st) LearnMode_r1_Scheme_report && (18 <=? cmdLength) then
    let st := st <| networkKey := sub_buf cmd 2 16 |> in
    let st := set_s0_key (networkKey st) st in
    st <| ctx; txOptions := txOption_for p |> <| ctx; key_set := Some (snode p) |>
  else st.

Definition security_scheme_get (p : ts_param) (cmd : list Z) (cmdLength : Z) (st : security_layer) : security_layer :=
  let st := sl_emit SL_s0_started st <| my_node := dnode p |> in
  if (scheme p =? NO_SCHEME) && (3 <=? cmdLength) then
    st <| ctx; sl_scheme := scheme_of_frame cmd |> <| ctx; txOptions := txOption_for p |> <| ctx; scheme_get := Some (snode p) |>
  else st.

Definition security_scheme_inherit (p : ts_param) (cmd : list Z) (cmdLength : Z) (st : security_layer) : security_layer :=
  if (scheme p =? SECURITY_SCHEME_0) && (3 <=? cmdLength) && (Z.land (rd cmd 2) SECURITY_SCHEME_0_BIT =? 0) then
    st <| ctx; txOptions := txOption_for p |> <| ctx; scheme_inherit := Some (snode p) |>
  else st.

Definition security_scheme_report (p : ts_param) (cmd : list Z) (cmdLength : Z) (st : security_layer) : security_layer :=
  if ((scheme p =? SECURITY_SCHEME_0) || isActive (ctx st) InclusionMode_r1_SchemeRequest) && (3 <=? cmdLength) then
    st <| ctx; sl_scheme := scheme_of_frame cmd |> <| ctx; scheme_report := Some (snode p) |>
  else st.

Definition key_exchange_frame (E : sl_env) (p : ts_param) (cmd : list Z) (st : security_layer) : security_layer :=
  let cmdLength := u8 (Zlength cmd) in
  let c := rd cmd 1 in
  if c =? NETWORK_KEY_SET then network_key_set p cmd cmdLength st
  else if c =? SECURITY_SCHEME_GET then security_scheme_get p cmd cmdLength st
  else if c =? SECURITY_SCHEME_INHERIT then security_scheme_inherit p cmd cmdLength st
  else if c =? SECURITY_SCHEME_REPORT then security_scheme_report p cmd cmdLength st
  else if c =? NETWORK_KEY_VERIFY then
    if scheme p =? SECURITY_SCHEME_0 then st <| ctx; key_verify := Some (snode p) |> else st
  else if c =? SECURITY_COMMANDS_SUPPORTED_GET then
    if scheme p =? SECURITY_SCHEME_0 then
      st <| cur_tsparm := ts_param_make_reply (sda_now E st) (cur_tsparm st) p |> <| ctx; commandsSupportedRequest := true |>
    else st
  else st.

End Cipher.
