(* ===== verification/SecureLearnRun.v ===== *)
(** * Runs of the S0 key exchange

    Polls come to rest; the key S0 uses is the network key except while a node is
    taken in; the network key goes out only to nodes that were to be included; an
    exchange nobody answers ends with its timer. *)

From S2P Require Import Prelude Crc Nodemask SendDataAppl Sec0 SecureLearn.
#[local] Open Scope Z_scope.

Section Runs.
Context (aes : list Z -> list Z -> list Z) (E : sl_env).

Abbreviation cycle := (secure_learn_runCycle aes E).
Abbreviation state st := (stateConfVector (ctx st)).

(** ** Polling comes to rest *)

(** States that are left without an event. *)
Definition passing (s : Secure_learnStates) : bool :=
  match s with
  | LearnMode_r1_Fail | LearnMode_r1_InsecureNet | LearnMode_r1_end | InclusionMode_r1_Fail | InclusionMode_r1_end | Complete => true
  | _ => false
  end.

Definition next_quiet (s : Secure_learnStates) : Secure_learnStates :=
  match s with
  | LearnMode_r1_Fail | LearnMode_r1_InsecureNet => LearnMode_r1_end
  | InclusionMode_r1_Fail => InclusionMode_r1_end
  | LearnMode_r1_end | InclusionMode_r1_end => Complete
  | Complete => Idle
  | s => s
  end.

Definition quiet (st : security_layer) : Prop := clearInEvents (ctx st) = ctx st.

Lemma cycle_quiet st : quiet (cycle st).
Proof. unfold quiet, secure_learn_runCycle. generalize (react aes E st). intros s. reflexivity. Qed.

Lemma quiet_events st : quiet st ->
  learnRequest (ctx st) = false /\ inclusionRequest (ctx st) = None /\ commandsSupportedRequest (ctx st) = false /\
  tx_done (ctx st) = false /\ tx_fail (ctx st) = false /\ scheme_get (ctx st) = None /\ scheme_inherit (ctx st) = None /\
  key_set (ctx st) = None /\ scheme_report (ctx st) = None /\ key_verify (ctx st) = None /\ timeEvents (ctx st) = [].
Proof. unfold quiet. intros <-. done. Qed.

(** Reduces a reaction in a state without events. *)
Ltac no_events Hq :=
  destruct (quiet_events _ Hq) as (?Q1 & ?Q2 & ?Q3 & ?Q4 & ?Q5 & ?Q6 & ?Q7 & ?Q8 & ?Q9 & ?Q10 & ?Q11);
  unfold time_raised, raised_by_node; rewrite ?Q1, ?Q2, ?Q3, ?Q4, ?Q5, ?Q6, ?Q7, ?Q8, ?Q9, ?Q10, ?Q11; cbn [andb orb];
  rewrite ?(bool_decide_false (_ ∈ [])) by set_solver; rewrite ?(bool_decide_false (None = Some _)) by done; cbn [andb orb].

(** A cycle without events leaves states that wait as they are. *)
Lemma cycle_waits st : quiet st -> passing (state st) = false -> cycle st = st.
Proof.
  intros Hq Hp. assert (Hr : react aes E st = st).
  { unfold react. destruct (state st) eqn:Hs; try done; unfold react_LearnMode_r1_Start, react_LearnMode_r1_Scheme_report,
      react_LearnMode_r1_NewKey, react_LearnMode_r1_Inherited, react_Idle, react_InclusionMode_r1_SchemeRequest,
      react_InclusionMode_r1_SendKey, react_InclusionMode_r1_SendInterit, react_InclusionMode_r1_waitVerify, react_SendReport;
    no_events Hq; done. }
  unfold secure_learn_runCycle. rewrite Hr. unfold quiet in Hq. destruct st; cbn in *. by rewrite Hq.
Qed.

Lemma complete_state k st : state (complete aes k st) = state st.
Proof. unfold complete. repeat case_match; simplify_eq; done. Qed.

Lemma cycle_passes st : passing (state st) = true -> state (cycle st) = next_quiet (state st).
Proof. intros Hp. unfold secure_learn_runCycle, react. by destruct (state st). Qed.

Lemma poll_rests n s st : quiet st -> passing (state st) = false -> secure_poll_from aes (S n) E s st = Some st.
Proof.
  intros Hq Hp. cbn [secure_poll_from]. case_bool_decide; [done|]. rewrite cycle_waits by done.
  destruct n; cbn [secure_poll_from]; by rewrite bool_decide_true.
Qed.

Lemma poll_cycle n s st : s <> Some (state st) -> secure_poll_from aes (S n) E s st = secure_poll_from aes n E (Some (state st)) (cycle st).
Proof. intros Hs. cbn [secure_poll_from]. by rewrite bool_decide_false. Qed.

(** The cycles after the first one. *)
Definition settle (st : security_layer) : security_layer :=
  if passing (state st) then
    let st := cycle st in
    if passing (state st) then let st := cycle st in if passing (state st) then cycle st else st else st
  else st.

Lemma settle_poll s st : quiet st -> s <> Some (state st) -> secure_poll_from aes 4 E s st = Some (settle st).
Proof.
  intros Hq Hs. unfold settle. destruct (passing (state st)) eqn:P1; [|by apply poll_rests].
  rewrite poll_cycle by done. pose proof (cycle_passes _ P1) as N1. set (st1 := cycle st) in *.
  assert (Hq1 : quiet st1) by apply cycle_quiet.
  destruct (passing (state st1)) eqn:P2; [|by apply poll_rests].
  rewrite poll_cycle. 2:{ rewrite N1. revert P1; destruct (state st); done. }
  pose proof (cycle_passes _ P2) as N2. set (st2 := cycle st1) in *. assert (Hq2 : quiet st2) by apply cycle_quiet.
  destruct (passing (state st2)) eqn:P3; [|by apply poll_rests].
  rewrite poll_cycle. 2:{ rewrite N2. revert P2; destruct (state st1); done. }
  pose proof (cycle_passes _ P3) as N3. apply poll_rests; [apply cycle_quiet|]. rewrite N3, N2, N1. revert P1. destruct (state st); done.
Qed.

Lemma settle_rests st : quiet st -> quiet (settle st) /\ passing (state (settle st)) = false.
Proof.
  intros Hq. unfold settle. destruct (passing (state st)) eqn:P1; [|done]. pose proof (cycle_passes _ P1) as N1.
  set (st1 := cycle st) in *. assert (Hq1 : quiet st1) by apply cycle_quiet. destruct (passing (state st1)) eqn:P2; [|done].
  pose proof (cycle_passes _ P2) as N2. set (st2 := cycle st1) in *. assert (Hq2 : quiet st2) by apply cycle_quiet.
  destruct (passing (state st2)) eqn:P3; [|done]. split; [apply cycle_quiet|]. rewrite (cycle_passes _ P3), N2, N1. revert P1. destruct (state st); done.
Qed.

Definition polled (st : security_layer) : security_layer :=
  let st1 := cycle st in if bool_decide (state st = state st1) then st1 else settle st1.

Lemma poll_rests_at_polled st :
  secure_poll aes 5 E st = Some (polled st) /\ quiet (polled st) /\ passing (state (polled st)) = false.
Proof.
  unfold secure_poll. rewrite poll_cycle by done. unfold polled. case_bool_decide as Hs.
  - cbn [secure_poll_from]. rewrite bool_decide_true by congruence. split; [done|split; [apply cycle_quiet|]].
    destruct (passing (state st)) eqn:P; [|by rewrite <- Hs]. pose proof (cycle_passes _ P) as N. rewrite <- Hs in N.
    revert P N. by destruct (state st).
  - split; [apply settle_poll; [apply cycle_quiet|congruence]|apply settle_rests, cycle_quiet].
Qed.

(** Whatever has been raised, a poll ends after at most five cycles, in a state that
    is left only by an event, with no event pending; with more fuel it ends the same. *)
Theorem poll_comes_to_rest st k :
  exists st', secure_poll aes (5 + k) E st = Some st' /\ quiet st' /\ passing (state st') = false.
Proof.
  destruct (poll_rests_at_polled st) as (H1 & H2 & H3). exists (polled st). split; [|done].
  unfold secure_poll in *. revert H1. generalize (@None Secure_learnStates). revert st H2 H3. generalize 5%nat. intros n.
  assert (Hmore : forall s st r, secure_poll_from aes n E s st = Some r -> secure_poll_from aes (n + k) E s st = Some r).
  { induction n as [|n IH]; intros s st r; [destruct k; cbn [secure_poll_from Nat.add]; by case_bool_decide|].
    cbn [secure_poll_from Nat.add]. case_bool_decide; [done|]. apply IH. }
  intros st H2 H3 s Hp. by apply Hmore.
Qed.

(** What one cycle keeps a poll keeps. *)
Lemma polled_inv (P : security_layer -> Prop) st : (forall st, P st -> P (cycle st)) -> P st -> P (polled st).
Proof. intros HP H. unfold polled, settle. repeat case_match; auto. Qed.

End Runs.

(** ** Runs *)

Inductive sl_op :=
| SL_op_learn (E : sl_env) (cb : option Z)
| SL_op_add (E : sl_env) (node opts : Z) (controller : bool) (cb : option Z)
| SL_op_frame (E : sl_env) (p : ts_param) (cmd : list Z)
| SL_op_sent (status : Z)
| SL_op_timer
| SL_op_poll (E : sl_env)
| SL_op_init (E : sl_env) (k1 k2 : list Z)
| SL_op_abort.

Section Safety.
Context (aes : list Z -> list Z -> list Z).
Abbreviation state st := (stateConfVector (ctx st)).

Definition sl_apply (op : sl_op) (st : security_layer) : security_layer :=
  match op with
  | SL_op_learn E cb => security_learn_begin E cb st
  | SL_op_add E node opts controller cb => snd (security_add_begin E node opts controller cb st)
  | SL_op_frame E p cmd => key_exchange_frame aes E p cmd st
  | SL_op_sent status => send_data_callback status st
  | SL_op_timer => timeout st
  | SL_op_poll E => default st (secure_poll aes 5 E st)
  | SL_op_init E k1 k2 => security_init aes E k1 k2 st
  | SL_op_abort => sec0_abort_inclusion st
  end.

Definition sl_run (ops : list sl_op) (st : security_layer) : security_layer := fold_left (fun st op => sl_apply op st) ops st.

Lemma apply_poll E st : sl_apply (SL_op_poll E) st = polled aes E st.
Proof. cbn [sl_apply]. by destruct (poll_rests_at_polled aes E st) as [-> _]. Qed.

(** ** The key in use *)

Definition uses_key (k : list Z) (st : security_layer) : Prop :=
  authkey (s0 st) = aes k (replicate 16 0x55) /\ enckey (s0 st) = aes k (replicate 16 0xAA).

(** What is said about keys depends on these members. *)
Definition key_view (st : security_layer) : list Z * list Z * list Z * Z :=
  (networkKey st, authkey (s0 st), enckey (s0 st), sl_scheme (ctx st)).

Definition view_uses (k : list Z) (v : list Z * list Z * list Z * Z) : Prop :=
  snd (fst (fst v)) = aes k (replicate 16 0x55) /\ snd (fst v) = aes k (replicate 16 0xAA).

Definition key_ok (s : Secure_learnStates) (v : list Z * list Z * list Z * Z) : Prop :=
  let net := fst (fst (fst v)) in
  match s with
  | LearnMode_r1_Scheme_report => view_uses (zeros 16) v \/ view_uses net v
  | InclusionMode_r1_SendKey => view_uses (zeros 16) v
  | LearnMode_r1_Fail | InclusionMode_r1_Fail => snd v = -1
  | LearnMode_r1_end => True
  | InclusionMode_r1_end => snd v = -1 \/ view_uses net v
  | _ => view_uses net v
  end.

Definition key_inv (st : security_layer) : Prop := key_ok (state st) (key_view st).

Lemma kv_SetCache n v m st : key_view (SetCacheEntryFlagMasked n v m st) = key_view st.
Proof. unfold SetCacheEntryFlagMasked. by case_match. Qed.

Lemma kv_register n v st : key_view (register_scheme n v st) = key_view st.
Proof. unfold register_scheme. case_match; apply kv_SetCache. Qed.

Lemma kv_send_and_raise E n d o s st : key_view (send_and_raise E n d o s st) = key_view st.
Proof. unfold send_and_raise. by case_match. Qed.

Lemma kv_send_ex E d st : key_view (send_and_raise_ex E d st) = key_view st.
Proof. unfold send_and_raise_ex. by case_match. Qed.

Lemma kv_supported E st : key_view (send_commands_supported E st) = key_view st.
Proof. unfold send_commands_supported. case_match; by rewrite kv_send_ex. Qed.

Lemma kv_set_state s st : key_view (set_state s st) = key_view st.
Proof. done. Qed.

Lemma kv_setTimer e st : key_view (secure_learn_setTimer e st) = key_view st.
Proof. done. Qed.

Lemma kv_leave st : key_view (leave st) = key_view st.
Proof. done. Qed.

Lemma kv_leave_timed st : key_view (leave_timed st) = key_view st.
Proof. done. Qed.

Lemma kv_set_key k st : key_view (set_s0_key aes k st) = (fst (fst (fst (key_view st))), aes k (replicate 16 0x55), aes k (replicate 16 0xAA), snd (key_view st)).
Proof. done. Qed.

Create HintDb kv.
Hint Rewrite kv_register kv_send_and_raise kv_supported kv_set_state kv_setTimer kv_leave kv_leave_timed kv_set_key : kv.

Lemma key_inv_set s st : key_inv (set_state s st) = key_ok s (key_view st).
Proof. done. Qed.

Lemma kv_node v st : key_view (st <| ctx; sl_node := v |>) = key_view st.
Proof. done. Qed.
Lemma kv_net_scheme v st : key_view (st <| ctx; sl_net_scheme := v |>) = key_view st.
Proof. done. Qed.
Lemma kv_save_state st : key_view (security_save_state aes st) =
  key_view (set_s0_key aes (networkKey st) st).
Proof. done. Qed.
Hint Rewrite kv_node kv_net_scheme kv_save_state : kv.

Lemma kv_networkKey st : networkKey st = fst (fst (fst (key_view st))).
Proof. done. Qed.

Lemma key_complete k st : (k < 0 \/ view_uses (networkKey st) (key_view st)) ->
  view_uses (networkKey (complete aes k st)) (key_view (complete aes k st)).
Proof. intros H. unfold complete. repeat case_match; simplify_eq; bool_to_prop; try (destruct H; [lia|done]); done. Qed.

Lemma key_fail_learn st : key_inv (enter_LearnMode_Fail st).
Proof. done. Qed.

Lemma key_fail_inclusion st : key_inv (enter_InclusionMode_Fail st).
Proof. unfold enter_InclusionMode_Fail. rewrite key_inv_set. cbn [key_ok]. by rewrite kv_register. Qed.

(** A reaction of a state in which the key in use is known. *)
Ltac key_step H :=
  repeat case_match;
  try match goal with
      | |- key_inv (enter_LearnMode_Fail _) => apply key_fail_learn
      | |- key_inv (enter_InclusionMode_Fail _) => apply key_fail_inclusion
      | Hi : key_inv ?s |- key_inv ?s => exact Hi
      end;
  rewrite ?key_inv_set; unfold send_scheme_report, send_key_verify, send_scheme_get, send_key, send_scheme_inherit, set_inclusion_key, restore_key;
  cbn [key_ok]; autorewrite with kv; rewrite ?kv_networkKey; autorewrite with kv; cbn [fst snd]; try exact H; try tauto; unfold view_uses; cbn [fst snd]; try tauto.

Lemma key_react E st : key_inv st -> (key_set (ctx st) <> None -> view_uses (networkKey st) (key_view st)) -> key_inv (react aes E st).
Proof.
  intros H Hk. assert (H' : key_ok (state st) (key_view st)) by exact H. unfold react.
  destruct (state st) eqn:Hs; cbn [key_ok] in H'; try exact H.
  - unfold react_LearnMode_r1_Start. key_step H'.
  - unfold react_LearnMode_r1_Scheme_report. key_step H'. apply Hk. intros Hn. unfold raised_by_node in *. by rewrite Hn in *.
  - unfold react_LearnMode_r1_Fail. key_step H'.
  - unfold react_LearnMode_r1_NewKey. key_step H'.
  - unfold react_LearnMode_r1_Inherited. key_step H'.
  - unfold react_LearnMode_r1_InsecureNet. key_step H'.
  - unfold react_LearnMode_r1_end. rewrite key_inv_set. apply key_complete. right. done.
  - unfold react_Idle. key_step H'.
  - unfold react_InclusionMode_r1_SchemeRequest. key_step H'.
  - unfold react_InclusionMode_r1_SendKey. key_step H'.
  - unfold react_InclusionMode_r1_SendInterit. key_step H'.
  - unfold react_InclusionMode_r1_Fail. key_step H'.
  - unfold react_InclusionMode_r1_end. rewrite key_inv_set. apply key_complete. destruct H' as [H'|H']; [left|by right].
    change (sl_scheme (ctx st) < 0). unfold key_view in H'. cbn in H'. lia.
  - unfold react_InclusionMode_r1_waitVerify. key_step H'.
  - unfold react_Complete. key_step H'.
  - unfold react_SendReport. key_step H'.
Qed.

Definition key_run_inv (st : security_layer) : Prop :=
  key_inv st /\ (key_set (ctx st) <> None -> view_uses (networkKey st) (key_view st)) /\ passing (state st) = false.

Lemma key_cycle E st : key_inv st /\ (key_set (ctx st) <> None -> view_uses (networkKey st) (key_view st)) ->
  let st' := secure_learn_runCycle aes E st in key_inv st' /\ (key_set (ctx st') <> None -> view_uses (networkKey st') (key_view st')).
Proof. intros [H Hk]. split; [by apply (key_react E) in H|done]. Qed.

Lemma key_poll E st : key_run_inv st -> key_run_inv (sl_apply (SL_op_poll E) st).
Proof.
  intros (H & Hk & Hp). rewrite apply_poll. destruct (poll_rests_at_polled aes E st) as (_ & Hq & Hr).
  destruct (polled_inv aes E _ st (key_cycle E)) as [H1 H2]; [done|]. done.
Qed.

(** In a state that waits the scheme does not matter. *)
Lemma key_ok_scheme s n a e k k' : passing s = false -> key_ok s (n, a, e, k) -> key_ok s (n, a, e, k').
Proof. by destruct s. Qed.

Lemma key_ctx st c : key_run_inv st -> stateConfVector c = state st -> key_set c = key_set (ctx st) ->
  key_run_inv (st <| ctx := c |>).
Proof.
  intros (H & Hk & Hp) Hs Hc. split; [|split].
  - change (key_ok (stateConfVector c) (networkKey st, authkey (s0 st), enckey (s0 st), sl_scheme c)). rewrite Hs. by eapply key_ok_scheme.
  - change (key_set c <> None -> view_uses (networkKey st) (key_view st)). by rewrite Hc.
  - change (passing (stateConfVector c) = false). by rewrite Hs.
Qed.

(** Members the keys do not depend on. *)
Lemma key_elsewhere st st' : key_run_inv st -> ctx st' = ctx st -> networkKey st' = networkKey st -> s0 st' = s0 st -> key_run_inv st'.
Proof. intros H E1 E2 E3. unfold key_run_inv, key_inv, key_view. by rewrite E1, E2, E3. Qed.

(** Only the state chart's own members change. *)
Lemma key_same_state st st' : key_run_inv st -> stateConfVector (ctx st') = state st -> key_set (ctx st') = key_set (ctx st) ->
  networkKey st' = networkKey st -> s0 st' = s0 st -> key_run_inv st'.
Proof.
  intros H E1 E2 E3 E4. pose proof (key_ctx st (ctx st') H E1 E2) as Hc.
  set (stc := st <| ctx := ctx st' |>) in *. by apply (key_elsewhere stc).
Qed.

Lemma key_frame E p cmd st : key_run_inv st -> key_run_inv (key_exchange_frame aes E p cmd st).
Proof.
  intros H. unfold key_exchange_frame. repeat (case_match; [|]); try exact H; try (by apply (key_same_state st)).
  - unfold network_key_set. case_match; [|done]. bool_to_prop. destruct H as (Ha & Hb & Hc). split; [|split]; try done.
    assert (Hs : state st = LearnMode_r1_Scheme_report) by (unfold isActive in *; by eapply bool_decide_eq_true).
    unfold key_inv. change (key_ok (state st) (sub_buf cmd 2 16, aes (sub_buf cmd 2 16) (replicate 16 0x55), aes (sub_buf cmd 2 16) (replicate 16 0xAA), sl_scheme (ctx st))).
    rewrite Hs. by right.
  - assert (Hm : key_run_inv (sl_emit SL_s0_started st <| my_node := dnode p |>)) by (by eapply key_elsewhere).
    unfold security_scheme_get. case_match; [|done]. by apply (key_same_state _ _ Hm).
  - unfold security_scheme_inherit. case_match; [|done]. by apply (key_same_state st).
  - unfold security_scheme_report. case_match; [|done]. by apply (key_same_state st).
Qed.

Definition no_abort (op : sl_op) : bool := match op with SL_op_abort => false | _ => true end.

Lemma generate_ctx E st : ctx (keystore_network_generate_key_if_missing aes E st) = ctx st /\
  sl_outs (keystore_network_generate_key_if_missing aes E st) = sl_outs st.
Proof.
  unfold keystore_network_generate_key_if_missing. generalize (nvm_assigned_keys (nvm st)). intros fl.
  set (l := [_; _; _; _; _; _]). clearbody l. revert st. induction l as [|c l IH]; intros st; [done|].
  cbn [fold_left]. destruct (IH (if has fl c then st else keystore_network_key_write aes c (hw_random E c) st)) as [-> ->].
  case_match; [done|]. unfold keystore_network_key_write. by case_match.
Qed.

Lemma load_shape st : let st' := security_load_state aes st in
  state st' = state st /\ inclusionRequest (ctx st') = inclusionRequest (ctx st) /\ key_set (ctx st') = key_set (ctx st) /\
  sl_outs st' = sl_outs st /\ view_uses (networkKey st') (key_view st').
Proof. done. Qed.

Lemma init_shape E k1 k2 st : let st' := security_init aes E k1 k2 st in
  state st' = Idle /\ inclusionRequest (ctx st') = None /\ key_set (ctx st') = None /\ sl_outs st' = sl_outs st /\
  view_uses (networkKey st') (key_view st').
Proof.
  unfold security_init. set (st1 := if prng_initialized st then _ else _).
  assert (H1 : sl_outs st1 = sl_outs st) by (subst st1; by case_match). clearbody st1.
  set (st2 := st1 <| ctx := secure_learn_enter (secure_learn_init (ctx st1)) |>).
  assert (H2 : state st2 = Idle /\ inclusionRequest (ctx st2) = None /\ key_set (ctx st2) = None /\ sl_outs st2 = sl_outs st1) by done.
  clearbody st2. set (st3 := if is_SUC E then _ else _).
  assert (H3 : ctx st3 = ctx st2 /\ sl_outs st3 = sl_outs st2) by (subst st3; case_match; [apply generate_ctx|done]).
  clearbody st3. set (st4 := st3 <| s0 := sec0_init (s0 st3) |>). assert (H4 : ctx st4 = ctx st3 /\ sl_outs st4 = sl_outs st3) by done.
  clearbody st4. destruct (load_shape st4) as (-> & -> & -> & -> & Hu). destruct H3 as [H3 H3'], H4 as [H4 H4']. rewrite H4, H4', H3, H3', <- H1.
  destruct H2 as (-> & -> & -> & ->). done.
Qed.

Lemma key_init E k1 k2 st : key_run_inv (security_init aes E k1 k2 st).
Proof.
  destruct (init_shape E k1 k2 st) as (Hs & _ & Hk & _ & Hu). set (st' := security_init aes E k1 k2 st) in *. clearbody st'.
  split; [unfold key_inv; by rewrite Hs|split; [by rewrite Hk|by rewrite Hs]].
Qed.

Lemma key_step_ok op st : no_abort op = true -> key_run_inv st -> key_run_inv (sl_apply op st).
Proof.
  intros Hn H. destruct op; try done.
  - unfold sl_apply, security_learn_begin. case_match; [|done]. by apply (key_same_state st).
  - unfold sl_apply, security_add_begin. case_match; [|done]. by apply (key_same_state st).
  - by apply key_frame.
  - unfold sl_apply, send_data_callback. case_match; by apply (key_same_state st).
  - unfold sl_apply, timeout. case_match; [|done]. by apply (key_same_state st).
  - by apply key_poll.
  - apply key_init.
Qed.

Lemma key_run ops st : forallb no_abort ops = true -> key_run_inv st -> key_run_inv (sl_run ops st).
Proof.
  revert st. induction ops as [|op ops IH]; intros st Hn H; [done|]. apply andb_true_iff in Hn as [Hn1 Hn2].
  apply (IH (sl_apply op st) Hn2). by apply key_step_ok.
Qed.

(** C20. Unless an inclusion is aborted, S0 uses the network key whenever no exchange is
    under way, and otherwise too but for two steps of it: the one in which the key
    is sent to a new node, and the one in which our own key is to come. *)
Theorem network_key_in_use ops E k1 k2 st0 (Hops : forallb no_abort ops = true) :
  let st := sl_run ops (security_init aes E k1 k2 st0) in
  match state st with
  | InclusionMode_r1_SendKey => uses_key (zeros 16) st
  | LearnMode_r1_Scheme_report => uses_key (zeros 16) st \/ uses_key (networkKey st) st
  | _ => uses_key (networkKey st) st
  end.
Proof.
  intros st. destruct (key_run ops (security_init aes E k1 k2 st0)) as (H & _ & Hp); [done|apply key_init|].
  fold st in H, Hp. unfold key_inv in H. destruct (state st); try done; exact H.
Qed.

(** ** Who is given the key *)

Definition key_frame_ok (added : list Z) (o : sl_out) : Prop :=
  match o with SL_send p d => is_key_set d = true -> dnode p ∈ added | _ => True end.

Definition including (s : Secure_learnStates) : bool :=
  match s with
  | InclusionMode | InclusionMode_r1_SchemeRequest | InclusionMode_r1_SendKey | InclusionMode_r1_SendInterit
  | InclusionMode_r1_Fail | InclusionMode_r1_end | InclusionMode_r1_waitVerify => true
  | _ => false
  end.

(** The key frames so far, and the node of an inclusion under way. *)
Definition given (added : list Z) (st : security_layer) : Prop :=
  Forall (key_frame_ok added) (sl_outs st) /\ (including (state st) = true -> sl_node (ctx st) ∈ added).

Section Given.
Context (added : list Z).
Abbreviation outs_ok st := (Forall (key_frame_ok added) (sl_outs st)).

Lemma given_set s st : outs_ok st -> (including s = true -> sl_node (ctx st) ∈ added) -> given added (set_state s st).
Proof. by split. Qed.

Lemma outs_send E n d o k st : outs_ok st -> (is_key_set d = true -> n ∈ added) -> outs_ok (send_and_raise E n d o k st).
Proof. intros H Hd. unfold send_and_raise. case_match; apply Forall_app; (split; [done|]); by apply Forall_singleton. Qed.

Lemma outs_send_ex E d st : outs_ok st -> is_key_set d = false -> outs_ok (send_and_raise_ex E d st).
Proof. intros H Hd. unfold send_and_raise_ex. case_match; apply Forall_app; (split; [done|]); apply Forall_singleton; cbn; congruence. Qed.

Lemma outs_supported E st : outs_ok st -> outs_ok (send_commands_supported E st).
Proof. intros H. unfold send_commands_supported. case_match; by apply outs_send_ex. Qed.

Lemma node_send E n d o k st : sl_node (ctx (send_and_raise E n d o k st)) = sl_node (ctx st).
Proof. unfold send_and_raise. by case_match. Qed.

Lemma register_outs n v st : sl_outs (register_scheme n v st) = sl_outs st /\ ctx (register_scheme n v st) = ctx st.
Proof. unfold register_scheme, SetCacheEntryFlagMasked. by repeat case_match. Qed.

Lemma given_fail st : outs_ok st -> sl_node (ctx st) ∈ added -> given added (enter_InclusionMode_Fail st).
Proof.
  intros H Hn. unfold enter_InclusionMode_Fail. set (st1 := st <| ctx; sl_scheme := -1 |>).
  destruct (register_outs (sl_node (ctx st1)) 0 st1) as [E1 E2]. apply given_set; [by rewrite E1|by rewrite E2].
Qed.

Lemma given_complete s k st : outs_ok st -> including s = false -> given added (set_state s (complete aes k st)).
Proof.
  intros H Hs. apply given_set; [|by rewrite Hs].
  unfold complete. repeat case_match; simplify_eq; try done; apply Forall_app; (split; [done|]); by apply Forall_singleton.
Qed.

Lemma given_react_learn E st : given added st -> including (state st) = false -> (forall v, inclusionRequest (ctx st) = Some v -> v ∈ added) ->
  given added (react aes E st).
Proof.
  intros H Hi Hv. pose proof (proj1 H) as Ho. unfold react. destruct (state st) eqn:Hs; try done.
  - unfold react_LearnMode_r1_Start. repeat case_match; try done.
    set (st1 := secure_learn_setTimer Scheme_report_tev0 (leave_timed st <| ctx; sl_node := z |>)).
    set (st2 := set_inclusion_key aes (send_scheme_report E st1)).
    destruct (register_outs (sl_node (ctx st2)) (sl_scheme (ctx st2)) st2) as [E1 E2]. apply given_set; [|done]. rewrite E1. by apply outs_send.
  - unfold react_LearnMode_r1_Scheme_report. repeat case_match; try done. apply given_set; [|done]. by apply outs_send.
  - unfold react_LearnMode_r1_NewKey. repeat case_match; try done. apply given_set; [|done]. by apply outs_send.
  - unfold react_LearnMode_r1_Inherited. by repeat case_match.
  - unfold react_LearnMode_r1_end. by apply given_complete.
  - unfold react_Idle. repeat case_match; try done.
    + apply given_set; [by apply outs_send|]. intros _. unfold send_scheme_get. rewrite node_send. by apply Hv.
    + apply given_set; [|done]. by apply outs_supported.
  - unfold react_SendReport. by repeat case_match.
Qed.

Lemma given_react_inclusion E st : given added st -> including (state st) = true -> given added (react aes E st).
Proof.
  intros H Hi. pose proof (proj1 H) as Ho. pose proof (proj2 H Hi) as Hn. unfold react. destruct (state st) eqn:Hs; try done.
  - unfold react_InclusionMode_r1_SchemeRequest. repeat case_match; try done; try (by apply given_fail).
    set (st1 := register_scheme _ _ (leave_timed st)).
    assert (Hc : outs_ok st1 /\ sl_node (ctx st1) ∈ added).
    { destruct (register_outs (sl_node (ctx (leave_timed st))) (sl_scheme (ctx (leave_timed st))) (leave_timed st)) as [E1 E2]. unfold st1. by rewrite E1, E2. }
    destruct Hc as [Ho1 Hn1]. apply given_set; unfold send_key; [by apply outs_send|]. intros _. by rewrite node_send.
  - unfold react_InclusionMode_r1_SendKey. repeat case_match; try done; try (by apply given_fail).
  - unfold react_InclusionMode_r1_SendInterit. repeat case_match; try done; try (by apply given_fail).
    + destruct (register_outs (sl_node (ctx (leave_timed st))) (sl_scheme (ctx (leave_timed st))) (leave_timed st)) as [E1 E2].
      apply given_set; [by rewrite E1|by rewrite E2].
    + destruct (register_outs (sl_node (ctx (leave_timed st))) (sl_scheme (ctx (leave_timed st))) (leave_timed st)) as [E1 E2].
      apply given_fail; [by rewrite E1|by rewrite E2].
  - unfold react_InclusionMode_r1_end. by apply given_complete.
  - unfold react_InclusionMode_r1_waitVerify. repeat case_match; try done; try (by apply given_fail).
    + apply given_set; unfold send_scheme_inherit; [by apply outs_send|]. intros _. by rewrite node_send.
    + destruct (register_outs (sl_node (ctx (leave_timed st))) (sl_scheme (ctx (leave_timed st))) (leave_timed st)) as [E1 E2].
      apply given_set; [by rewrite E1|by rewrite E2].
Qed.

Definition given_inv (st : security_layer) : Prop := given added st /\ (forall v, inclusionRequest (ctx st) = Some v -> v ∈ added).

Lemma given_cycle E st : given_inv st -> given_inv (secure_learn_runCycle aes E st).
Proof.
  intros [H Hv]. assert (Hr : given added (react aes E st)).
  { destruct (including (state st)) eqn:Hi; [by apply given_react_inclusion|by apply given_react_learn]. }
  split; [exact Hr|done].
Qed.
End Given.

Lemma given_more added more st : given_inv added st -> given_inv (added ++ more) st.
Proof.
  intros [[Ho Hn] Hv]. split; [split|].
  - eapply Forall_impl; [exact Ho|]. intros [p d|f fl|] Hk; [|done..]. cbn. intros ?. apply elem_of_app. left. auto.
  - intros ?. apply elem_of_app. left. auto.
  - intros v ?. apply elem_of_app. left. auto.
Qed.

(** Members the invariant does not depend on. *)
Lemma given_same added st st' : given_inv added st -> sl_outs st' = sl_outs st -> state st' = state st ->
  sl_node (ctx st') = sl_node (ctx st) -> inclusionRequest (ctx st') = inclusionRequest (ctx st) -> given_inv added st'.
Proof. intros [[Ho Hn] Hv] E1 E2 E3 E4. unfold given_inv, given. by rewrite E1, E2, E3, E4. Qed.

Lemma given_frame added E p cmd st : given_inv added st -> given_inv added (key_exchange_frame aes E p cmd st).
Proof.
  intros H. unfold key_exchange_frame, network_key_set, security_scheme_inherit, security_scheme_report.
  repeat case_match; try exact H; try (by apply (given_same added st)).
  assert (Hm : given_inv added (sl_emit SL_s0_started st <| my_node := dnode p |>)).
  { destruct H as [[Ho Hn] Hv]. split; [split|]; try done. apply Forall_app. split; [done|]. by apply Forall_singleton. }
  unfold security_scheme_get. case_match; [|done]. by apply (given_same added _ _ Hm).
Qed.

(** The nodes that were to be included. *)
Definition adds (op : sl_op) (st : security_layer) : list Z :=
  match op with
  | SL_op_add E node opts controller cb => if fst (security_add_begin E node opts controller cb st) then [u8 node] else []
  | _ => []
  end.

Fixpoint sl_added (ops : list sl_op) (st : security_layer) : list Z :=
  match ops with [] => [] | op :: ops => adds op st ++ sl_added ops (sl_apply op st) end.

Lemma init_given added E k1 k2 st : Forall (key_frame_ok added) (sl_outs st) -> given_inv added (security_init aes E k1 k2 st).
Proof.
  intros Ho. destruct (init_shape E k1 k2 st) as (Hs & Hr & _ & Hout & _).
  set (st' := security_init aes E k1 k2 st) in *. clearbody st'. split; [split|]; rewrite ?Hs, ?Hr, ?Hout; done.
Qed.

Lemma given_step added op st : given_inv added st -> given_inv (added ++ adds op st) (sl_apply op st).
Proof.
  intros H. apply (given_more _ (adds op st)) in H as H'. destruct op as [E cb|E node opts controller cb|E p cmd|status| |E|E k1 k2|]; cbn [adds] in *.
  - unfold sl_apply, security_learn_begin. case_match; [|done]. by apply (given_same _ st).
  - unfold sl_apply. unfold security_add_begin in *. destruct (isActive (ctx st) Idle && negb (isNodeSecure E (u8 node) st)); cbn [fst snd] in *; [|done].
    destruct H' as [Hg Hv].
    split; [exact Hg|]. cbn. intros v [= <-]. apply elem_of_app. right. by apply list_elem_of_singleton.
  - by apply given_frame.
  - unfold sl_apply, send_data_callback. case_match; by apply (given_same _ st).
  - unfold sl_apply, timeout. case_match; [|done]. by apply (given_same _ st).
  - rewrite apply_poll. apply polled_inv; [|done]. intros st'. apply given_cycle.
  - apply init_given. apply H'.
  - unfold sl_apply, sec0_abort_inclusion. case_match; [done|]. split; [split|]; try done. apply H'.
Qed.

Lemma given_run added ops st : given_inv added st -> given_inv (added ++ sl_added ops st) (sl_run ops st).
Proof.
  revert added st. induction ops as [|op ops IH]; intros added st H; cbn [sl_added].
  - by rewrite app_nil_r.
  - rewrite (assoc_L (++)). apply IH. by apply given_step.
Qed.

(** C18. In every run, aborts and restarts included, the network key is sent only to
    nodes whose inclusion was asked for and begun. *)
Theorem key_sent_only_to_included ops E k1 k2 st0 :
  let st1 := security_init aes E k1 k2 (st0 <| sl_outs := [] |>) in
  forall p d, SL_send p d ∈ sl_outs (sl_run ops st1) -> is_key_set d = true -> dnode p ∈ sl_added ops st1.
Proof.
  intros st1 p d Hin Hk. assert (H1 : given_inv [] st1) by (by apply init_given).
  destruct (given_run [] ops st1 H1) as [[Ho _] _]. rewrite Forall_forall in Ho. exact (Ho _ Hin Hk).
Qed.
End Safety.
