(* ===== verification/SecureLearnLive.v ===== *)
(** * How the S0 key exchange ends

    Every step that waits for the other side has a timer; an exchange nobody
    answers is over after it has run out once.  Two steps wait for the transmit
    queue without one: a report that the queue refuses is never followed up. *)

From S2P Require Import Prelude Crc Nodemask SendDataAppl Sec0 SecureLearn SecureLearnRun.
#[local] Open Scope Z_scope.

Abbreviation state st := (stateConfVector (ctx st)).

Section Live.
Context (aes : list Z -> list Z -> list Z).

(** The timer of a state. *)
Definition tev (s : Secure_learnStates) : option time_event :=
  match s with
  | LearnMode_r1_Start => Some Start_tev0
  | LearnMode_r1_Scheme_report => Some Scheme_report_tev0
  | LearnMode_r1_NewKey => Some NewKey_tev0
  | InclusionMode_r1_SchemeRequest => Some SchemeRequest_tev0
  | InclusionMode_r1_SendKey => Some SendKey_tev0
  | InclusionMode_r1_SendInterit => Some SendInterit_tev0
  | InclusionMode_r1_waitVerify => Some waitVerify_tev0
  | _ => None
  end.

Definition timed (st : security_layer) : Prop := forall e, tev (state st) = Some e -> sl_timer st = Some e.
Definition timer_inv (st : security_layer) : Prop := forall e, tev (state st) = Some e -> sl_timer st = Some e \/ e ∈ timeEvents (ctx st).

Lemma timer_send E n d o k st : sl_timer (send_and_raise E n d o k st) = sl_timer st.
Proof. unfold send_and_raise. by case_match. Qed.

Lemma timer_register n v st : sl_timer (register_scheme n v st) = sl_timer st.
Proof. unfold register_scheme, SetCacheEntryFlagMasked. by repeat case_match. Qed.

Lemma timed_set s st : (forall e, tev s = Some e -> sl_timer st = Some e) -> timed (set_state s st).
Proof. done. Qed.

Ltac timer_step :=
  repeat case_match; try (by apply timed_set);
  try (apply timed_set; intros ? [= <-]; unfold send_scheme_report, send_key_verify, send_scheme_get, send_key, send_scheme_inherit;
       rewrite ?timer_register; unfold set_inclusion_key, restore_key, set_s0_key; cbn [sl_timer modify]; by rewrite ?timer_send, ?timer_register).

(** A state that is not left has no timer event. *)
Lemma timer_stays st e : timer_inv st -> tev (state st) = Some e -> time_raised e st = false -> timed st.
Proof.
  intros H Hs Hr e' He'. destruct (H e' He') as [|Hin]; [done|]. rewrite Hs in He'. injection He' as <-.
  unfold time_raised in Hr. by rewrite bool_decide_true in Hr.
Qed.

Lemma timer_react E st : timer_inv st -> timed (react aes E st).
Proof.
  intros H. unfold react. destruct (state st) eqn:Hs; try (by apply timed_set); try (by intros e; rewrite Hs).
  - unfold react_LearnMode_r1_Start. timer_step. (eapply timer_stays; [exact H|by rewrite Hs|done]).
  - unfold react_LearnMode_r1_Scheme_report. timer_step; bool_to_prop; (eapply timer_stays; [exact H|by rewrite Hs|done]).
  - unfold react_LearnMode_r1_NewKey. timer_step; bool_to_prop; (eapply timer_stays; [exact H|by rewrite Hs|done]).
  - unfold react_LearnMode_r1_Inherited. timer_step. intros e. by rewrite Hs.
  - unfold react_Idle. timer_step. intros e. by rewrite Hs.
  - unfold react_InclusionMode_r1_SchemeRequest. timer_step; bool_to_prop; (eapply timer_stays; [exact H|by rewrite Hs|done]).
  - unfold react_InclusionMode_r1_SendKey. timer_step; bool_to_prop; (eapply timer_stays; [exact H|by rewrite Hs|done]).
  - unfold react_InclusionMode_r1_SendInterit. timer_step; bool_to_prop; (eapply timer_stays; [exact H|by rewrite Hs|done]).
  - unfold react_InclusionMode_r1_waitVerify. timer_step; bool_to_prop; (eapply timer_stays; [exact H|by rewrite Hs|done]).
  - unfold react_SendReport. timer_step. intros e. by rewrite Hs.
Qed.

Lemma timer_cycle E st : timer_inv st -> timer_inv (secure_learn_runCycle aes E st).
Proof. intros H e He. left. by apply (timer_react E st H). Qed.

(** Members the timer does not depend on. *)
Lemma timer_same st st' : timer_inv st -> state st' = state st -> sl_timer st' = sl_timer st ->
  timeEvents (ctx st') = timeEvents (ctx st) -> timer_inv st'.
Proof. intros H E1 E2 E3 e. rewrite E1, E2, E3. apply H. Qed.

Lemma timer_step op st : timer_inv st -> timer_inv (sl_apply aes op st).
Proof.
  intros H. destruct op as [E cb|E node opts controller cb|E p cmd|status| |E|E k1 k2|].
  - unfold sl_apply, security_learn_begin. case_match; [|done]. by apply (timer_same st).
  - unfold sl_apply, security_add_begin. case_match; [|done]. by apply (timer_same st).
  - unfold sl_apply, key_exchange_frame, network_key_set, security_scheme_inherit, security_scheme_report, security_scheme_get.
    repeat case_match; try done; by apply (timer_same st).
  - unfold sl_apply, send_data_callback. case_match; by apply (timer_same st).
  - unfold sl_apply, timeout. destruct (sl_timer st) as [t|] eqn:Ht; [|done]. intros e He. right.
    change (e ∈ t :: timeEvents (ctx st)). destruct (H e He) as [Hs|Hs]; rewrite ?Ht in Hs; set_solver.
  - rewrite apply_poll. apply polled_inv; [|done]. intros st'. apply timer_cycle.
  - intros e. destruct (init_shape aes E k1 k2 st) as [Hs _]. cbn [sl_apply]. by rewrite Hs.
  - unfold sl_apply, sec0_abort_inclusion. by case_match.
Qed.

Lemma timer_run ops st : timer_inv st -> timer_inv (sl_run aes ops st).
Proof. revert st. induction ops as [|op ops IH]; intros st H; [done|]. apply IH. by apply timer_step. Qed.

(** ** An exchange that fails *)

Definition told (st : security_layer) (flags : Z) : list sl_out := match sl_callback st with Some f => [SL_complete f flags] | None => [] end.

Definition flags_of (k : Z) : Z := if 0 <? k then NODE_FLAG_SECURITY0 else if k <? 0 then NODE_FLAG_KNOWN_BAD else 0.

Lemma complete_told k st : sl_outs (complete aes k st) = sl_outs st ++ told st (flags_of k).
Proof.
  unfold complete, told, flags_of. destruct (0 <? k); [|destruct (k <? 0)];
    change (sl_callback (set_s0_key aes (networkKey st) st)) with (sl_callback st); destruct (sl_callback st); cbn; by rewrite ?app_nil_r.
Qed.

(** From the last state of either side the caller is told and the machine is idle. *)
Lemma cycle_end E st : state st = LearnMode_r1_end \/ state st = InclusionMode_r1_end ->
  let st' := secure_learn_runCycle aes E st in
  state st' = Complete /\ sl_outs st' = sl_outs st ++ told st (flags_of (sl_scheme (ctx st))).
Proof.
  intros H st'. split.
  - subst st'. rewrite cycle_passes; destruct H as [-> | ->]; done.
  - subst st'. unfold secure_learn_runCycle, react. destruct H as [Hs|Hs]; rewrite Hs;
      [unfold react_LearnMode_r1_end|unfold react_InclusionMode_r1_end]; cbn [sl_outs modify set_state]; rewrite complete_told; done.
Qed.

Lemma settle_end E st : state st = LearnMode_r1_end \/ state st = InclusionMode_r1_end ->
  state (settle aes E st) = Idle /\ sl_outs (settle aes E st) = sl_outs st ++ told st (flags_of (sl_scheme (ctx st))).
Proof.
  intros H. destruct (cycle_end E st H) as [H1 H2]. unfold settle.
  assert (P1 : passing (state st) = true) by (destruct H as [-> | ->]; done). rewrite P1. set (st1 := secure_learn_runCycle aes E st) in *.
  clearbody st1. rewrite H1. cbn [passing]. set (st2 := secure_learn_runCycle aes E st1).
  assert (H3 : state st2 = Idle) by (subst st2; rewrite cycle_passes; rewrite H1; done). rewrite H3. cbn [passing].
  split; [done|]. rewrite <- H2. subst st2. unfold secure_learn_runCycle, react. by rewrite H1.
Qed.

(** The states between a failure and the last one. *)
Definition failed (s : Secure_learnStates) : bool :=
  match s with LearnMode_r1_Fail | LearnMode_r1_InsecureNet | InclusionMode_r1_Fail => true | _ => false end.

Lemma cycle_failed E st : failed (state st) = true ->
  let st' := secure_learn_runCycle aes E st in
  (state st' = LearnMode_r1_end \/ state st' = InclusionMode_r1_end) /\ sl_outs st' = sl_outs st /\ sl_callback st' = sl_callback st /\
  sl_scheme (ctx st') = sl_scheme (ctx st).
Proof. intros Hf. unfold secure_learn_runCycle, react. destruct (state st); try done; repeat split; auto. Qed.

Lemma settle_failed E st : failed (state st) = true ->
  state (settle aes E st) = Idle /\ sl_outs (settle aes E st) = sl_outs st ++ told st (flags_of (sl_scheme (ctx st))).
Proof.
  intros Hf. destruct (cycle_failed E st Hf) as (H1 & H2 & H3 & H4). destruct (settle_end E _ H1) as [G1 G2]. unfold told in *.
  rewrite H2, H3, H4 in G2. unfold settle in *. assert (P0 : passing (state st) = true) by (by destruct (state st)). rewrite P0.
  set (st1 := secure_learn_runCycle aes E st) in *. destruct (cycle_end E st1 H1) as [C1 _].
  assert (P1 : passing (state st1) = true) by (destruct H1 as [-> | ->]; done). rewrite P1 in *.
  rewrite C1 in *. cbn [passing] in *. set (st3 := secure_learn_runCycle aes E (secure_learn_runCycle aes E st1)) in *.
  assert (H5 : state st3 = Idle) by (subst st3; rewrite cycle_passes; rewrite C1; done). rewrite H5 in *. cbn [passing] in *. done.
Qed.

Lemma inclusion_fails st1 (P : Prop) : let st := enter_InclusionMode_Fail (leave_timed st1) in
  let st' := st <| ctx := clearInEvents (ctx st) |> in
  sl_outs st' = sl_outs st1 /\ sl_callback st' = sl_callback st1 /\ (P -> failed (state st') = true /\ sl_scheme (ctx st') = -1) /\
  (failed (state st') = true \/ state st' = LearnMode_r1_end).
Proof. unfold enter_InclusionMode_Fail, register_scheme, SetCacheEntryFlagMasked. repeat case_match; repeat split; auto. Qed.

(** The timer of a state that waits runs out with no event pending. *)
Lemma timeout_fails E st e : quiet st -> tev (state st) = Some e -> sl_timer st = Some e ->
  let st' := secure_learn_runCycle aes E (timeout st) in
  sl_outs st' = sl_outs st /\ sl_callback st' = sl_callback st /\
  (state st <> LearnMode_r1_Start -> failed (state st') = true /\ sl_scheme (ctx st') = -1) /\
  (failed (state st') = true \/ state st' = LearnMode_r1_end).
Proof.
  intros Hq He Ht. unfold timeout. rewrite Ht. set (st1 := st <| sl_timer := None |> <| ctx := secure_learn_raiseTimeEvent e (ctx st) |>).
  destruct (quiet_events _ Hq) as (Q1 & Q2 & Q3 & Q4 & Q5 & Q6 & Q7 & Q8 & Q9 & Q10 & Q11).
  assert (Hr : time_raised e st1 = true) by (unfold time_raised; apply bool_decide_eq_true; cbn; set_solver).
  unfold secure_learn_runCycle, react. change (stateConfVector (ctx st1)) with (state st).
  assert (Hn : forall ev : Secure_learn -> option Z, ev (ctx st1) = None -> raised_by_node ev st1 = false).
  { intros ev Hev. unfold raised_by_node. rewrite Hev. by apply bool_decide_eq_false. }
  destruct (state st) eqn:Hs; try done; injection He as <-.
  - unfold react_LearnMode_r1_Start. change (scheme_get (ctx st1)) with (scheme_get (ctx st)). rewrite Q6, Hr.
    change (isController (ctx (leave_timed st1))) with (isController (ctx st)). destruct (isController (ctx st)); (repeat split; [done..|]); auto.
  - unfold react_LearnMode_r1_Scheme_report. rewrite (Hn key_set Q8), Hr. repeat split; auto.
  - unfold react_LearnMode_r1_NewKey. change (tx_done (ctx st1)) with (tx_done (ctx st)). rewrite Q4, Hr. repeat split; auto.
  - unfold react_InclusionMode_r1_SchemeRequest. rewrite (Hn scheme_report Q9), Hr. cbn [orb]. exact (inclusion_fails st1 _).
  - unfold react_InclusionMode_r1_SendKey. rewrite Hr, orb_true_r. exact (inclusion_fails st1 _).
  - unfold react_InclusionMode_r1_SendInterit. rewrite Hr. exact (inclusion_fails st1 _).
  - unfold react_InclusionMode_r1_waitVerify. rewrite (Hn key_verify Q10), Hr. exact (inclusion_fails st1 _).
Qed.

Lemma settle_done E st : failed (state st) = true \/ state st = LearnMode_r1_end ->
  state (settle aes E st) = Idle /\ sl_outs (settle aes E st) = sl_outs st ++ told st (flags_of (sl_scheme (ctx st))).
Proof. intros [H|H]; [by apply settle_failed|apply settle_end; auto]. Qed.

(** C26. When no event is pending, a step of an exchange that waits is over once its timer has run out:
    the machine is idle again and the caller has been told, of a failure unless
    we only waited to be included. *)
Theorem exchange_times_out ops E0 E1 E2 k1 k2 st0 :
  let st := sl_run aes (ops ++ [SL_op_poll E1]) (security_init aes E0 k1 k2 st0) in
  tev (state st) <> None ->
  let st' := sl_run aes [SL_op_timer; SL_op_poll E2] st in
  state st' = Idle /\
  exists flags, sl_outs st' = sl_outs st ++ told st flags /\ (state st = LearnMode_r1_Start \/ flags = NODE_FLAG_KNOWN_BAD).
Proof.
  intros st Hw st'. destruct (tev (state st)) as [e|] eqn:He; [clear Hw|done].
  assert (Ht : timer_inv st).
  { apply timer_run. intros e'. destruct (init_shape aes E0 k1 k2 st0) as [Hs _]. by rewrite Hs. }
  assert (Hq : quiet st).
  { unfold st, sl_run. rewrite fold_left_app. cbn [fold_left]. rewrite apply_poll. apply poll_rests_at_polled. }
  assert (Ha : sl_timer st = Some e).
  { destruct (Ht e He) as [|Hin]; [done|]. destruct (quiet_events _ Hq) as (_ & _ & _ & _ & _ & _ & _ & _ & _ & _ & Q). by rewrite Q in Hin; set_solver. }
  clearbody st. destruct (timeout_fails E2 st e Hq He Ha) as (H1 & H2 & H3 & H4).
  assert (Hst : state (timeout st) = state st) by (unfold timeout; by case_match).
  subst st'. unfold sl_run. cbn [fold_left]. rewrite apply_poll. cbn [sl_apply]. unfold polled. rewrite Hst.
  set (stc := secure_learn_runCycle aes E2 (timeout st)) in *. clearbody stc.
  rewrite bool_decide_false by (intros Heq; rewrite <- Heq in H4; destruct (state st); naive_solver).
  destruct (settle_done E2 stc H4) as [G1 G2]. split; [done|]. unfold told in *. rewrite H1, H2 in G2. eexists. split; [exact G2|].
  destruct (decide (state st = LearnMode_r1_Start)) as [|Hn]; [by left|right]. destruct (H3 Hn) as [_ ->]. done.
Qed.

(** ** A report that is refused *)

(** The operations that do not end the sending of a frame and do not start afresh. *)
Definition unanswered (op : sl_op) : bool :=
  match op with SL_op_sent _ | SL_op_init _ _ _ | SL_op_abort => false | _ => true end.

Definition blocked (st : security_layer) : Prop := state st = SendReport /\ tx_done (ctx st) = false /\ tx_fail (ctx st) = false.

Lemma blocked_cycle E st : blocked st -> blocked (secure_learn_runCycle aes E st).
Proof. intros (H1 & H2 & H3). unfold secure_learn_runCycle, react. rewrite H1. unfold react_SendReport. by rewrite H2, H3. Qed.

Lemma blocked_step op st : unanswered op = true -> blocked st -> blocked (sl_apply aes op st).
Proof.
  intros Hu H. pose proof H as (H1 & _ & _). destruct op as [E cb|E node opts controller cb|E p cmd|status| |E|E k1 k2|]; try done.
  - unfold sl_apply, security_learn_begin, isActive. by rewrite H1.
  - unfold sl_apply, security_add_begin, isActive. by rewrite H1.
  - unfold sl_apply, key_exchange_frame, network_key_set, security_scheme_inherit, security_scheme_report, security_scheme_get.
    by repeat case_match.
  - unfold sl_apply, timeout. by case_match.
  - rewrite apply_poll. apply polled_inv; [|done]. intros st'. apply blocked_cycle.
Qed.

(** C37. A request for the supported commands whose answer the transmit queue refuses
    ends all S0 inclusion: whatever is asked for, received or polled afterwards, and
    whatever timers run out, no node can be added until the layer is set up anew. *)
Theorem refused_report_blocks_inclusion E st ops
  (Hidle : state st = Idle) (Hreq : commandsSupportedRequest (ctx st) = true)
  (Hnone : learnRequest (ctx st) = false /\ inclusionRequest (ctx st) = None)
  (Hfull : forall p d, sl_takes E p d = false) (Hops : forallb unanswered ops = true) :
  let st' := sl_run aes (SL_op_poll E :: ops) st in
  state st' = SendReport /\ forall E' node opts controller cb, fst (security_add_begin E' node opts controller cb st') = false.
Proof.
  intros st'. destruct Hnone as [Hl Hi].
  assert (H1 : blocked (secure_learn_runCycle aes E st)).
  { unfold secure_learn_runCycle, react. rewrite Hidle. unfold react_Idle. rewrite Hl, Hi, Hreq. done. }
  assert (H2 : blocked (sl_apply aes (SL_op_poll E) st)).
  { rewrite apply_poll. unfold polled. rewrite Hidle. destruct H1 as (H1 & H1'). rewrite H1. cbn. unfold settle. rewrite H1. cbn. done. }
  assert (H3 : blocked st').
  { subst st'. cbn [sl_run fold_left]. generalize (sl_apply aes (SL_op_poll E) st) H2. clear H1 H2. unfold sl_run. cbn [fold_left].
    induction ops as [|op ops IH]; intros s Hs; [done|]. apply andb_true_iff in Hops as [Ho1 Ho2]. cbn [fold_left]. apply (IH Ho2). by apply blocked_step. }
  destruct H3 as (H3 & _). split; [exact H3|]. intros E' node opts controller cb. unfold security_add_begin, isActive. by rewrite H3.
Qed.
End Live.

(** ** Concrete runs *)

(** Not a cipher, but enough to tell keys apart. *)
Definition mix (k d : list Z) : list Z := zip_with Z.lxor k d.

Definition sda_ex : sda_env :=
  mkSdaEnv 1 (fun _ => 0) (fun _ _ => false) (fun _ _ => false) true (fun _ _ => true) (fun _ _ => true) (fun _ _ => true)
    (fun _ _ => true) (fun _ _ => true) 0 0 true true.
Definition sl_env_ex (takes : bool) : sl_env :=
  mkSlEnv sda_ex (fun _ _ => takes) (fun _ => false) SECURITY_SCHEME_0 true true [] (fun c => replicate 16 c) (Some (replicate 16 9)).
Definition s0_ex : sec0 := mkSec0 (replicate 2 null_tx) (replicate 15 null_nonce) (replicate 10 null_bl) 0 (zeros 16) (zeros 16)
  (zeros 16) (zeros 16) (zeros 16) (zeros 16) (replicate 2 null_rx) 0 (zeros 16) [].
Definition layer_ex : security_layer :=
  mkLayer (secure_learn_init (mkLearn Last_state 0 0 false 0 0 0 false None false false false None None None None None []))
    None None [0x25] 1 null_ts 0 (zeros 16) (mkNvm 0 ∅ 0) {[1 := NODE_FLAG_SECURITY0; 5 := 0; 7 := 0; 9 := 0]} 1 false s0_ex [].
Definition layer_started : security_layer := security_init mix (sl_env_ex true) (replicate 16 3) (replicate 16 4) layer_ex.

Definition from_node (n s : Z) : ts_param := mkTs n 1 0 0 0 0 s [] false false false 0.

(** Node 5 is included: it reports its schemes, is sent the key and proves that it has it. *)
Definition include_5 : list sl_op :=
  let E := sl_env_ex true in
  [SL_op_add E 5 0 false (Some 77); SL_op_poll E;
   SL_op_frame E (from_node 5 NO_SCHEME) [COMMAND_CLASS_SECURITY; SECURITY_SCHEME_REPORT; 0]; SL_op_poll E].
Definition include_5_done : list sl_op :=
  let E := sl_env_ex true in
  include_5 ++ [SL_op_sent TRANSMIT_COMPLETE_OK; SL_op_poll E;
    SL_op_frame E (from_node 5 SECURITY_SCHEME_0) [COMMAND_CLASS_SECURITY; NETWORK_KEY_VERIFY]; SL_op_poll E].

Example inclusion_run : let st := sl_run mix include_5_done layer_started in
  state st = Idle /\ last (sl_outs st) = Some (SL_complete 77 NODE_FLAG_SECURITY0) /\ security_flags st !! 5 = Some NODE_FLAG_SECURITY0.
Proof. by vm_compute. Qed.

Lemma network_key_in_use_witness : forallb no_abort include_5_done = true /\
  uses_key mix (networkKey (sl_run mix include_5_done layer_started)) (sl_run mix include_5_done layer_started).
Proof.
  split; [reflexivity|]. pose proof (network_key_in_use mix include_5_done (sl_env_ex true) (replicate 16 3) (replicate 16 4) layer_ex eq_refl) as H.
  cbv zeta in H. fold layer_started in H.
  assert (Hs : state (sl_run mix include_5_done layer_started) = Idle) by (vm_compute; reflexivity).
  rewrite Hs in H. exact H.
Defined.

Lemma exchange_times_out_witness : let st := sl_run mix (include_5 ++ [SL_op_poll (sl_env_ex true)]) layer_started in
  tev (state st) <> None /\ state (sl_run mix [SL_op_timer; SL_op_poll (sl_env_ex true)] st) = Idle.
Proof.
  split; [by vm_compute|].
  apply (exchange_times_out mix include_5 (sl_env_ex true) (sl_env_ex true) (sl_env_ex true) (replicate 16 3) (replicate 16 4) layer_ex).
  by vm_compute.
Defined.

Definition ask_supported : list sl_op := [SL_op_frame (sl_env_ex true) (from_node 7 SECURITY_SCHEME_0) [COMMAND_CLASS_SECURITY; SECURITY_COMMANDS_SUPPORTED_GET]].

Lemma refused_report_witness :
  let st := sl_run mix ask_supported layer_started in
  state st = Idle /\ commandsSupportedRequest (ctx st) = true /\
  state (sl_run mix [SL_op_poll (sl_env_ex false); SL_op_timer; SL_op_poll (sl_env_ex true)] st) = SendReport.
Proof.
  split; [by vm_compute|split; [by vm_compute|]].
  apply (refused_report_blocks_inclusion mix (sl_env_ex false) (sl_run mix ask_supported layer_started) [SL_op_timer; SL_op_poll (sl_env_ex true)]); done.
Defined.

Lemma key_sent_witness : let st1 := security_init mix (sl_env_ex true) (replicate 16 3) (replicate 16 4) (layer_ex <| sl_outs := [] |>) in
  let p := ts_set_std (sda_now (sl_env_ex true) layer_started) 5 <| scheme := SECURITY_SCHEME_0 |> <| tx_flags := 0 |> in
  SL_send p ([COMMAND_CLASS_SECURITY; NETWORK_KEY_SET] ++ networkKey layer_started) ∈ sl_outs (sl_run mix include_5 st1) /\
  5 ∈ sl_added mix include_5 st1.
Proof.
  intros st1 p. assert (Hin : SL_send p ([COMMAND_CLASS_SECURITY; NETWORK_KEY_SET] ++ networkKey layer_started) ∈ sl_outs (sl_run mix include_5 st1)).
  { apply list_elem_of_lookup. exists 1%nat. by vm_compute. }
  split; [exact Hin|].
  exact (key_sent_only_to_included mix include_5 (sl_env_ex true) (replicate 16 3) (replicate 16 4) layer_ex p _ Hin eq_refl).
Defined.

(** An inclusion that is aborted while the key is being sent leaves S0 under the key
    of zeros. *)
Example abort_leaves_zero_key : let st := sl_run mix (include_5 ++ [SL_op_abort]) layer_started in
  state st = Idle /\ authkey (s0 st) = mix (zeros 16) (replicate 16 0x55) /\ authkey (s0 st) <> mix (networkKey st) (replicate 16 0x55).
Proof. by vm_compute. Qed.

(** While we are being included by node 7, a key sent by node 9 under the key of
    zeros, which everyone knows, becomes and stays the network key, although the
    exchange ignores it and fails. *)
Example key_of_third_node_stored :
  let E := sl_env_ex true in
  let st := sl_run mix [SL_op_learn E (Some 77); SL_op_poll E;
    SL_op_frame E (from_node 7 NO_SCHEME) [COMMAND_CLASS_SECURITY; SECURITY_SCHEME_GET; 0]; SL_op_poll E;
    SL_op_frame E (from_node 9 SECURITY_SCHEME_0) ([COMMAND_CLASS_SECURITY; NETWORK_KEY_SET] ++ replicate 16 0x66); SL_op_poll E;
    SL_op_timer; SL_op_poll E] layer_started in
  state st = Idle /\ last (sl_outs st) = Some (SL_complete 77 NODE_FLAG_KNOWN_BAD) /\ networkKey st = replicate 16 0x66 /\
  keystore_network_key_read KEY_CLASS_S0 st = Some (replicate 16 0x66).
Proof. by vm_compute. Qed.

(** A request for the supported commands of another node clears the list of ours. *)
Example supported_classes_forgotten :
  let E := sl_env_ex true in
  let ask d := SL_op_frame E (mkTs 7 d 0 0 0 0 SECURITY_SCHEME_0 [] false false false 0) [COMMAND_CLASS_SECURITY; SECURITY_COMMANDS_SUPPORTED_GET] in
  let reports ops := map (fun o => match o with SL_send _ d => d | _ => [] end) (sl_outs (sl_run mix ops layer_started)) in
  let sent := [SL_op_poll E; SL_op_sent TRANSMIT_COMPLETE_OK; SL_op_poll E] in
  reports (ask 1 :: sent) = [[COMMAND_CLASS_SECURITY; SECURITY_COMMANDS_SUPPORTED_REPORT; 0; 0x25]] /\
  reports ((ask 12 :: sent) ++ (ask 1 :: sent)) =
    [[COMMAND_CLASS_SECURITY; SECURITY_COMMANDS_SUPPORTED_REPORT; 0]; [COMMAND_CLASS_SECURITY; SECURITY_COMMANDS_SUPPORTED_REPORT; 0]].
Proof. by vm_compute. Qed.
