(* ===== verification/ZipReceive.v ===== *)
(** * The receive path (src/src/ZIP_Router.c, src/src/transport/security_layer.c)

    Every frame from the radio, and every frame that comes out of an
    encapsulation, goes through [ApplicationCommandHandlerZIP]: it strips
    checksums, endpoints and S0, hands S2 and transport frames to their layers,
    and what is left to the requests that wait for it, to virtual nodes or to the
    gateway's own command classes.

    The state joins those of the components the path works on: the security
    layer with S0, the transmit queue and the requests.  The parameters of a
    frame are passed on as the source's pointer is: what an inner call changes
    is seen by the outer one.  Calls of other components are outputs.  Bytes
    after the end of a frame read as zero. *)

From S2P Require Import Prelude Crc Nodemask SendDataAppl SendRequest Sec0 SecureLearn.
#[local] Open Scope Z_scope.

Definition COMMAND_CLASS_CONTROLLER_REPLICATION : Z := 0x21.
Definition COMMAND_CLASS_NETWORK_MANAGEMENT_INCLUSION : Z := 0x34.
Definition COMMAND_CLASS_NETWORK_MANAGEMENT_BASIC : Z := 0x4D.
Definition COMMAND_CLASS_NETWORK_MANAGEMENT_PROXY : Z := 0x52.
Definition COMMAND_CLASS_NETWORK_MANAGEMENT_PRIMARY : Z := 0x54.
Definition COMMAND_CLASS_NETWORK_MANAGEMENT_INSTALLATION_MAINTENANCE : Z := 0x67.
Definition COMMAND_CLASS_WAKE_UP : Z := 0x84.
Definition COMMAND_CLASS_FIRMWARE_UPDATE_MD : Z := 0x7A.
Definition WAKE_UP_INTERVAL_REPORT : Z := 0x06.
Definition FIRMWARE_UPDATE_MD_REQUEST_REPORT : Z := 0x04.
Definition FIRMWARE_UPDATE_MD_GET : Z := 0x05.
Definition FIRMWARE_UPDATE_MD_STATUS_REPORT : Z := 0x07.
Definition SECURITY_2_COMMANDS_SUPPORTED_REPORT : Z := 0x0E.
Definition BIT_ADDRESS_BIT_MASK : Z := 0x80.
Definition RECEIVE_STATUS_TYPE_BROAD : Z := 0x04.
Definition RECEIVE_STATUS_TYPE_MULTI : Z := 0x08.
Definition RECEIVE_STATUS_TYPE_EXPLORE : Z := 0x10.
Definition MODE_MAILBOX : Z := 4.
Definition MODE_FIRMWARE_UPGRADE : Z := 5.

(** ** State *)

(** The connection a command is handled under; addresses are those of the nodes. *)
Record zwave_connection := mkConn { ripaddr : Z; lipaddr : Z; c_scheme : Z; rendpoint : Z; lendpoint : Z; c_rx_flags : Z }.

Inductive zr_out :=
| ZR_ReplicationReceiveComplete
| ZR_security2 (p : ts_param) (cmd : list Z)
| ZR_transport (p : ts_param) (cmd : list Z)
| ZR_bridge (p : ts_param) (cmd : list Z)
| ZR_ip (c : zwave_connection) (cmd : list Z)
| ZR_store (node : Z)
| ZR_alive (node : Z).

(** [node_mode] and [wakeUp_interval] hold the nodes of the database;
    [fw_timer] is the node whose firmware update is timed. *)
Record gw := mkGw {
  sec : security_layer; requests : reqs; queue : sda;
  node_mode : gmap Z Z; wakeUp_interval : gmap Z Z; fw_timer : option Z; zr_outs : list zr_out
}.
#[export] Instance gw_eta : EtaRecord gw := fun s =>
  mkGw (sec s) (requests s) (queue s) (node_mode s) (wakeUp_interval s) (fw_timer s) (zr_outs s).

(** What the surroundings answer: besides the security layer's, the low level queue
    for S0's own frames, the clock, the draws of the generator, the virtual nodes
    and the callers that wait for reports. *)
Record zr_env := mkZrEnv {
  ze_sl : sl_env; ze_takes : ts_param -> list Z -> bool; ze_clock : Z; ze_tries : nat;
  bridge_virtual_node_commandhandler : ts_param -> list Z -> bool; ze_more : Z -> Z -> list Z -> bool
}.

Definition zr_emit (o : zr_out) (st : gw) : gw := st <| zr_outs := zr_outs st ++ [o] |>.
Definition gw_my_node (st : gw) : Z := my_node (sec st).

(** S0 sees whether an exchange is under way. *)
Definition s0_env_of (E : zr_env) (st : gw) : s0_env :=
  mkS0Env (sda_now (ze_sl E) (sec st)) (ze_takes E) (negb (isActive (ctx (sec st)) Idle)) (ze_clock E) (ze_tries E).

(** ** Firmware updates of sleeping nodes *)

Definition set_mode (node mode : Z) (st : gw) : gw := st <| node_mode := <[node := mode]> (node_mode st) |>.

Definition fw_upgrade_timeout (st : gw) : gw :=
  match fw_timer st with
  | Some n =>
      let st := st <| fw_timer := None |> in
      if bool_decide (node_mode st !! n = Some MODE_FIRMWARE_UPGRADE) then set_mode n MODE_MAILBOX st else st
  | None => st
  end.

Definition firmware_frame (p : ts_param) (cmd : list Z) (st : gw) : gw :=
  if rd cmd 0 =? COMMAND_CLASS_FIRMWARE_UPDATE_MD then
    match node_mode st !! snode p with
    | Some mode =>
        if (rd cmd 1 =? FIRMWARE_UPDATE_MD_REQUEST_REPORT) && (rd cmd 2 =? 0xFF) then
          if mode =? MODE_MAILBOX then set_mode (snode p) MODE_FIRMWARE_UPGRADE st else st
        else if rd cmd 1 =? FIRMWARE_UPDATE_MD_STATUS_REPORT then
          if mode =? MODE_FIRMWARE_UPGRADE then set_mode (snode p) MODE_MAILBOX st else st
        else if rd cmd 1 =? FIRMWARE_UPDATE_MD_GET then
          let st := if mode =? MODE_MAILBOX then set_mode (snode p) MODE_FIRMWARE_UPGRADE st else st in
          st <| fw_timer := Some (snode p) |>
        else st
    | None => st
    end
  else st.

(** ** What is left after all encapsulations *)

Definition is_network_management (c : Z) : bool :=
  (c =? COMMAND_CLASS_NETWORK_MANAGEMENT_BASIC) || (c =? COMMAND_CLASS_NETWORK_MANAGEMENT_INCLUSION) ||
  (c =? COMMAND_CLASS_NETWORK_MANAGEMENT_INSTALLATION_MAINTENANCE) || (c =? COMMAND_CLASS_NETWORK_MANAGEMENT_PRIMARY) ||
  (c =? COMMAND_CLASS_NETWORK_MANAGEMENT_PROXY).

(** A wake up interval a virtual node is told is kept for the node. *)
Definition intercept_interval (p : ts_param) (cmd : list Z) (st : gw) : gw :=
  if (6 <=? Zlength cmd) && (rd cmd 0 =? COMMAND_CLASS_WAKE_UP) && (rd cmd 1 =? WAKE_UP_INTERVAL_REPORT) then
    match wakeUp_interval st !! snode p with
    | Some old =>
        let interval := Z.lor (Z.lor (Z.shiftl (rd cmd 2) 16) (Z.shiftl (rd cmd 3) 8)) (rd cmd 4) in
        if old =? interval then st
        else zr_emit (ZR_store (snode p)) (st <| wakeUp_interval := <[snode p := interval]> (wakeUp_interval st) |>)
    | None => st
    end
  else st.

Definition conn_of (p : ts_param) : zwave_connection := mkConn (snode p) (dnode p) (scheme p) (sendpoint p) (dendpoint p) (rx_flags p).

Definition deliver (E : zr_env) (p : ts_param) (cmd : list Z) (st : gw) : gw :=
  let st := st <| queue := ZW_SendDataAppl_FrameRX_Notify (snode p) (queue st) |> in
  let '(took, rq) := SendRequest_ApplicationCommandHandler (ze_more E) p cmd (requests st) in
  let st := st <| requests := rq |> in
  if took then st
  else
    let to_virtual := negb (has (rx_flags p) RECEIVE_STATUS_TYPE_BROAD) && negb (dnode p =? gw_my_node st) in
    let st := if to_virtual then zr_emit (ZR_bridge p cmd) st else st in
    if to_virtual && bridge_virtual_node_commandhandler E p cmd then intercept_interval p cmd st
    else if dendpoint p =? 0 then
      if is_network_management (rd cmd 0) then st else zr_emit (ZR_ip (conn_of p) cmd) st
    else st.

Section Cipher.
Context (aes : list Z -> list Z -> list Z).

(** ** S0 frames *)

Definition on_s0 (E : zr_env) (f : s0_env -> sec0 -> sec0) (st : gw) : gw :=
  st <| sec; s0 := f (s0_env_of E st) (s0 (sec st)) |>.

Definition send_nonce (E : zr_env) (p : ts_param) (st : gw) : gw := on_s0 E (fun e => sec0_send_nonce aes e p) st.

(** A sealed message; [zip] handles the text. *)
Definition message_encapsulation (E : zr_env) (zip : ts_param -> list Z -> gw -> option (ts_param * gw))
    (p : ts_param) (cmd : list Z) (st : gw) : option (ts_param * gw) :=
  if isActive (ctx (sec st)) Idle && (isNodeBad (ze_sl E) (dnode p) (sec st) || isNodeBad (ze_sl E) (snode p) (sec st)) then Some (p, st)
  else
    let '(m, s0') := sec0_decrypt_message aes (s0_env_of E st) (u8 (snode p)) (u8 (dnode p)) cmd (u8 (Zlength cmd)) (s0 (sec st)) in
    let st := st <| sec; s0 := s0' |> in
    let r := if (Zlength m =? 0) then Some (p, st)
             else
               let st := if isNodeSecure (ze_sl E) (snode p) (sec st) then st
                         else st <| sec := register_scheme (snode p) (Z.shiftl 1 SECURITY_SCHEME_0) (sec st) |> in
               zip (p <| scheme := SECURITY_SCHEME_0 |>) m st in
    match r with
    | Some (p, st) => Some (p, if rd cmd 1 =? SECURITY_MESSAGE_ENCAPSULATION_NONCE_GET then send_nonce E p st else st)
    | None => None
    end.

Definition security_CommandHandler (E : zr_env) (zip : ts_param -> list Z -> gw -> option (ts_param * gw))
    (p : ts_param) (cmd : list Z) (st : gw) : option (ts_param * gw) :=
  if negb (rd cmd 0 =? COMMAND_CLASS_SECURITY) && negb (dnode p =? gw_my_node st) then Some (p, st)
  else if isActive (ctx (sec st)) Idle && (Z.land (assigned_keys (sec st)) KEY_CLASS_S0 <=? 0) then Some (p, st)
  else
    let c := rd cmd 1 in
    if c =? SECURITY_NONCE_GET then Some (p, if scheme p =? NO_SCHEME then send_nonce E p st else st)
    else if c =? SECURITY_NONCE_REPORT then
      Some (p, if (scheme p =? NO_SCHEME) && (10 <=? u8 (Zlength cmd))
               then on_s0 E (fun e => sec0_register_nonce aes e (snode p) (dnode p) (sub_buf cmd 2 8)) st else st)
    else if (c =? SECURITY_MESSAGE_ENCAPSULATION_NONCE_GET) || (c =? SECURITY_MESSAGE_ENCAPSULATION) then
      message_encapsulation E zip p cmd st
    else Some (p, st <| sec := key_exchange_frame aes (ze_sl E) p cmd (sec st) |>).

(** ** The handler of all frames *)

(** One encapsulation deep; [zip] handles what is inside. *)
Definition zip_frame (E : zr_env) (zip : ts_param -> list Z -> gw -> option (ts_param * gw))
    (p : ts_param) (cmd : list Z) (st : gw) : option (ts_param * gw) :=
  let st := firmware_frame p cmd st in
  let c := rd cmd 0 in
  if c =? COMMAND_CLASS_CONTROLLER_REPLICATION then Some (p, deliver E p cmd (zr_emit ZR_ReplicationReceiveComplete st))
  else if c =? COMMAND_CLASS_CRC_16_ENCAP then
    if negb (rd cmd 1 =? CRC_16_ENCAP) then Some (p, st)
    else if negb (scheme p =? NO_SCHEME) then Some (p, st)
    else if zgw_crc16 CRC_INIT_VALUE cmd =? 0
    then zip (p <| scheme := USE_CRC16 |>) (sub_buf cmd 2 (Zlength cmd - 4)) st
    else Some (p, st)
  else if c =? COMMAND_CLASS_SECURITY then
    if isNodeBad (ze_sl E) (snode p) (sec st) then Some (p, st)
    else if negb (rd cmd 1 =? SECURITY_COMMANDS_SUPPORTED_REPORT) then security_CommandHandler E zip p cmd st
    else Some (p, deliver E p cmd st)
  else if c =? COMMAND_CLASS_SECURITY_2 then
    if isNodeBad (ze_sl E) (snode p) (sec st) then Some (p, st)
    else if negb (rd cmd 1 =? SECURITY_2_COMMANDS_SUPPORTED_REPORT) then Some (p, zr_emit (ZR_security2 p cmd) st)
    else Some (p, deliver E p cmd st)
  else if c =? COMMAND_CLASS_TRANSPORT_SERVICE then
    Some (p, if negb (scheme p =? NO_SCHEME) then st else zr_emit (ZR_transport p cmd) st)
  else if (c =? COMMAND_CLASS_MULTI_CHANNEL_V2) && (rd cmd 1 =? MULTI_CHANNEL_CMD_ENCAP_V2) && (4 <? Zlength cmd) then
    let p := p <| sendpoint := rd cmd 2 |> <| dendpoint := rd cmd 3 |> in
    if (dnode p =? gw_my_node st) && (0 <? dendpoint p) then Some (p, st)
    else if has (dendpoint p) BIT_ADDRESS_BIT_MASK then Some (p, st)
    else zip p (drop 4 cmd) st
  else Some (p, deliver E p cmd st).

(** [None] if [fuel] encapsulations are not enough. *)
Fixpoint ApplicationCommandHandlerZIP (fuel : nat) (E : zr_env) (p : ts_param) (cmd : list Z) (st : gw) : option (ts_param * gw) :=
  if Zlength cmd =? 0 then Some (p, st)
  else
    match fuel with
    | O => None
    | S fuel => zip_frame E (ApplicationCommandHandlerZIP fuel E) p cmd st
    end.

(** A frame from the radio. *)
Definition serial_param (st : gw) (rxStatus destNode sourceNode : Z) : ts_param :=
  let rx := if negb (destNode =? 0xFF) && has rxStatus RECEIVE_STATUS_TYPE_EXPLORE
            then Z.land rxStatus (Z.lnot (Z.lor RECEIVE_STATUS_TYPE_MULTI RECEIVE_STATUS_TYPE_BROAD)) else rxStatus in
  let tx := Z.lor (Z.lor (Z.lor (if has rxStatus RECEIVE_STATUS_LOW_POWER then TRANSMIT_OPTION_LOW_POWER else 0) TRANSMIT_OPTION_ACK)
                    TRANSMIT_OPTION_EXPLORE) TRANSMIT_OPTION_AUTO_ROUTE in
  mkTs sourceNode (if truth destNode then destNode else gw_my_node st) 0 0 tx rx NO_SCHEME [] false false false 0.

Definition ApplicationCommandHandlerSerial (fuel : nat) (E : zr_env) (rxStatus destNode sourceNode : Z) (cmd : list Z) (st : gw) : option gw :=
  if nodemask_nodeid_is_invalid sourceNode then Some st
  else
    match ApplicationCommandHandlerZIP fuel E (serial_param st rxStatus destNode sourceNode) cmd st with
    | Some (p, st) => Some (zr_emit (ZR_alive (snode p)) st)
    | None => None
    end.

End Cipher.
