(* ===== verification/ZipSafety.v ===== *)
(** * What the receive path does with a frame

    It ends, after a number of encapsulations bounded by the length of the
    frame; it undoes the encapsulations of the send path; nothing from the radio
    reaches network management; a command is handled as S0 only if S0 opened it. *)

From S2P Require Import Prelude Crc Nodemask SendDataAppl SendRequest Sec0 Sec0Frame Sec0Session Sec0Safety SecureLearn ZipReceive.
#[local] Open Scope Z_scope.

Section Path.
Context (aes : list Z -> list Z -> list Z).
Abbreviation zip := (ApplicationCommandHandlerZIP aes).

(** ** The handler ends *)

(** A nonce we gave out for frames between the nodes of [p] is alive. *)
Definition live_in (s d : Z) (st : sec0) : bool := existsb (nonce_for (u8 d) (u8 s)) (nonce_table st).
Definition live (p : ts_param) (st : gw) : bool := live_in (snode p) (dnode p) (s0 (sec st)).

Lemma sub_buf_at_most (b : list Z) i n : (length (sub_buf b i n) <= Z.to_nat n)%nat.
Proof. unfold sub_buf. rewrite length_take. lia. Qed.

(** A message is at most as long as the buffer for it, and takes the nonce. *)
Lemma decrypted_bound E s d cmd len st :
  let '(m, st') := sec0_decrypt_message aes E (u8 s) (u8 d) cmd len st in
  m <> [] -> (length m <= 128)%nat /\ live_in s d st = true /\ live_in s d st' = false.
Proof.
  unfold sec0_decrypt_message. destruct (len <? 20) eqn:E1; [done|]. destruct (MAX_ENCRYPTED_MSG_SIZE <? len - 20) eqn:E2; [done|].
  apply Z.ltb_ge in E1, E2. change MAX_ENCRYPTED_MSG_SIZE with 128 in *.
  destruct (get_nonce _ _ _ _ _) as [nv|] eqn:En; [|done].
  assert (Hl : live_in s d st = true).
  { unfold get_nonce in En. destruct (find_nonce _ _) as [[k n]|] eqn:Ef; [|done]. apply list_find_Some in Ef as (Hk & Hp & _).
    apply andb_true_iff in Hp as [Hfor _]. apply existsb_exists. exists n. split; [|done]. apply list_elem_of_In. by eapply list_elem_of_lookup_2. }
  set (stc := st <| nonce_table := _ |>). pose proof (rx_session_for_same (clock_time E) (u8 s) (u8 d) stc) as Hrx.
  destruct (rx_session_for _ _ _ stc) as [[i|] st1]; [|done]. destruct Hrx as (T1 & _).
  destruct (negb _ && _) eqn:Eb; [done|]. cbv zeta. destruct (bool_decide (take 8 _ = _)); cbn [negb]; [|done].
  destruct (aes_ofb aes _ _ 0 _) as [plain iv'] eqn:Eo.
  assert (Hp : (length plain <= Z.to_nat (len - 19))%nat).
  { replace plain with (fst (plain, iv')) by done. rewrite <- Eo, length_ofb. apply sub_buf_at_most. }
  set (st2 := st1 <| aes_key := _ |> <| aes_iv := _ |> <| aes_key := _ |> <| aes_iv := iv' |>).
  pose proof (rx_text_same i (rd plain 0) (drop 1 plain) st2) as Ht. destruct (rx_text i _ _ st2) as [m st3].
  destruct Ht as (T3 & _ & Hm). intros Hne. split; [|split; [done|]].
  - destruct Hm as [?|[[-> _]|(-> & _ & Hs & _)]]; [done|rewrite length_drop; lia|].
    change (rx_at st2 i) with (rx_at st1 i) in *. rewrite Hs in Eb. cbn in Eb. apply Z.ltb_ge in Eb.
    rewrite length_app, length_drop. pose proof (sub_buf_at_most (msg (rx_at st1 i)) 0 (msg_len (rx_at st1 i))). lia.
  - unfold live_in. rewrite T3. change (nonce_table st2) with (nonce_table st1). rewrite T1. change (nonce_table stc) with (nonce_clear (u8 d) (u8 s) (nonce_table st)).
    apply not_true_is_false. intros (n & Hn & Hf)%existsb_exists. apply list_elem_of_In in Hn.
    pose proof (quiet_clear (u8 d) (u8 s) (nonce_table st)) as Hq. unfold quiet in Hq. rewrite Forall_forall in Hq. rewrite (Hq _ Hn) in Hf. done.
Qed.

Lemma firmware_sec p cmd st : sec (firmware_frame p cmd st) = sec st.
Proof. unfold firmware_frame. by repeat case_match. Qed.

Definition enough (fuel : nat) (p : ts_param) (cmd : list Z) (st : gw) : Prop := (length cmd + (if live p st then 129 else 0) <= fuel)%nat.

Lemma message_ends E n p cmd st : (forall p cmd st, enough n p cmd st -> is_Some (zip n E p cmd st)) ->
  enough (S n) p cmd st -> cmd <> [] -> is_Some (message_encapsulation aes E (zip n E) p cmd st).
Proof.
  intros IH Hn Hc. unfold message_encapsulation. case_match; [by eexists|].
  pose proof (decrypted_bound (s0_env_of E st) (snode p) (dnode p) cmd (u8 (Zlength cmd)) (s0 (sec st))) as Hd.
  destruct (sec0_decrypt_message _ _ _ _ _ _ _) as [m s0']. destruct (Zlength m =? 0) eqn:Em; [by eexists|].
  assert (Hm : m <> []) by (intros ->; done). destruct (Hd Hm) as (Hlen & Hl & Hl').
  match goal with |- context [zip n E ?p' m ?st'] => destruct (IH p' m st') as [[p2 st2] ->]; [|by eexists] end.
  unfold enough in *. unfold live in Hn. rewrite Hl in Hn. destruct cmd; [done|]. cbn [length] in Hn. unfold live.
  match goal with |- context [live_in ?s ?d ?x] => replace (live_in s d x) with false; [lia|] end.
  symmetry. rewrite <- Hl'. case_match; [done|]. unfold register_scheme, SetCacheEntryFlagMasked. by repeat case_match.
Qed.

Lemma ends_within E fuel p cmd st : enough fuel p cmd st -> is_Some (zip fuel E p cmd st).
Proof.
  revert p cmd st. induction fuel as [|n IH]; intros p cmd st Hn.
  - unfold enough in Hn. destruct cmd; cbn in *; [by eexists|lia].
  - cbn [ApplicationCommandHandlerZIP]. destruct (Zlength cmd =? 0) eqn:El; [by eexists|]. assert (Hc : cmd <> []) by (intros ->; done).
    unfold zip_frame. set (stf := firmware_frame p cmd st). assert (Hs : sec stf = sec st) by apply firmware_sec.
    assert (Hn' : enough (S n) p cmd stf) by (unfold enough, live; by rewrite Hs). clearbody stf.
    repeat (case_match; try (by eexists)).
    + apply IH. unfold enough, live in *. cbn. pose proof (sub_buf_at_most cmd 2 (Zlength cmd - 4)). unfold Zlength in *.
      destruct cmd; [done|]. cbn [length] in *. case_match; lia.
    + unfold security_CommandHandler. repeat (case_match; try (by eexists)). apply message_ends; auto.
    + apply IH. bool_to_prop. unfold enough, live, Zlength in *. cbn. rewrite length_drop. case_match; lia.
Qed.

(** With more fuel the result is the same. *)
Lemma message_mono E z1 z2 p cmd st r : (forall p cmd st r, z1 p cmd st = Some r -> z2 p cmd st = Some r) ->
  message_encapsulation aes E z1 p cmd st = Some r -> message_encapsulation aes E z2 p cmd st = Some r.
Proof.
  intros Hz. unfold message_encapsulation. case_match; [done|]. destruct (sec0_decrypt_message _ _ _ _ _ _ _) as [m s0'].
  destruct (Zlength m =? 0); [done|]. match goal with |- context [z1 ?q m ?s] => destruct (z1 q m s) as [[p2 st2]|] eqn:Er end; [|done].
  by rewrite (Hz _ _ _ _ Er).
Qed.

Lemma zip_frame_mono E z1 z2 p cmd st r : (forall p cmd st r, z1 p cmd st = Some r -> z2 p cmd st = Some r) ->
  zip_frame aes E z1 p cmd st = Some r -> zip_frame aes E z2 p cmd st = Some r.
Proof.
  intros Hz. unfold zip_frame, security_CommandHandler. repeat (case_match; try done; auto). by apply message_mono.
Qed.

Lemma more_fuel E n p cmd st r : zip n E p cmd st = Some r -> zip (S n) E p cmd st = Some r.
Proof.
  revert p cmd st r. induction n as [|n IH]; intros p cmd st r; cbn [ApplicationCommandHandlerZIP]; destruct (Zlength cmd =? 0); try done.
  apply zip_frame_mono. intros p' cmd' st' r' H'. by apply IH.
Qed.

(** Whatever arrives, the handler comes to an end: every encapsulation it strips
    makes the frame shorter, and S0 opens at most one layer, since that takes the
    nonce. *)
Lemma receive_ends E p cmd st : exists r, forall k, zip (length cmd + 129 + k) E p cmd st = Some r.
Proof.
  destruct (ends_within E (length cmd + 129) p cmd st) as [r Hr]; [unfold enough; case_match; lia|].
  exists r. intros k. induction k as [|k IH]; [by rewrite Nat.add_0_r|]. rewrite Nat.add_succ_r. by apply more_fuel.
Qed.

(** ** What comes out *)

(** The schemes a command may be handled under: the one it came with, a checksum if
    it came with none, S0 if a nonce of ours was alive. *)
Definition allowed (s : Z) (lv : bool) (s' : Z) : Prop :=
  s' = s \/ (s = NO_SCHEME /\ s' = USE_CRC16) \/ (s' = SECURITY_SCHEME_0 /\ lv = true).

Definition proper (p : ts_param) (lv : bool) (o : zr_out) : Prop :=
  match o with
  | ZR_ip c d => ripaddr c = snode p /\ lipaddr c = dnode p /\ lendpoint c = 0 /\ is_network_management (rd d 0) = false /\
      allowed (scheme p) lv (c_scheme c)
  | ZR_bridge q _ | ZR_security2 q _ => snode q = snode p /\ dnode q = dnode p /\ allowed (scheme p) lv (scheme q)
  | ZR_transport q _ => snode q = snode p /\ dnode q = dnode p /\ scheme q = NO_SCHEME /\ scheme p = NO_SCHEME
  | _ => True
  end.

Definition grows (Q : zr_out -> Prop) (st st' : gw) : Prop := exists new, zr_outs st' = zr_outs st ++ new /\ Forall Q new.

Lemma grows_none Q st st' : zr_outs st' = zr_outs st -> grows Q st st'.
Proof. intros E. exists []. by rewrite app_nil_r. Qed.

Lemma grows_emit Q o st : Q o -> grows Q st (zr_emit o st).
Proof. intros H. exists [o]. split; [done|]. by apply Forall_singleton. Qed.

Lemma grows_trans Q st st1 st2 : grows Q st st1 -> grows Q st1 st2 -> grows Q st st2.
Proof. intros (n1 & E1 & F1) (n2 & E2 & F2). exists (n1 ++ n2). split; [by rewrite E2, E1, (assoc_L (++))|by apply Forall_app]. Qed.

Lemma grows_mono (Q R : zr_out -> Prop) st st' : (forall o, Q o -> R o) -> grows Q st st' -> grows R st st'.
Proof. intros HQ (n & E1 & F1). exists n. split; [done|]. by eapply Forall_impl. Qed.

Lemma grows_from Q st1 st st' : zr_outs st1 = zr_outs st -> grows Q st1 st' -> grows Q st st'.
Proof. intros E H. eapply grows_trans; [|exact H]. by apply grows_none. Qed.

Lemma allowed_same s lv : allowed s lv s.
Proof. by left. Qed.

Lemma intercept_grows p lv cmd st : grows (proper p lv) st (intercept_interval p cmd st).
Proof.
  unfold intercept_interval. case_match; [|by apply grows_none]. destruct (wakeUp_interval st !! snode p) as [old|]; [|by apply grows_none].
  case_match; [by apply grows_none|]. by apply (grows_from _ (st <| wakeUp_interval := <[snode p := Z.lor (Z.lor (Z.shiftl (rd cmd 2) 16) (Z.shiftl (rd cmd 3) 8)) (rd cmd 4)]> (wakeUp_interval st) |>)); [|apply grows_emit].
Qed.

Lemma deliver_grows E p lv cmd st : grows (proper p lv) st (deliver E p cmd st).
Proof.
  unfold deliver. destruct (SendRequest_ApplicationCommandHandler _ _ _ _) as [took rq].
  set (st1 := st <| queue := _ |> <| requests := rq |>). apply (grows_from _ st1); [done|]. clearbody st1. clear st.
  destruct took; [by apply grows_none|].
  set (tv := negb (has (rx_flags p) RECEIVE_STATUS_TYPE_BROAD) && negb (dnode p =? gw_my_node st1)).
  set (st2 := if tv then zr_emit (ZR_bridge p cmd) st1 else st1).
  assert (H2 : grows (proper p lv) st1 st2).
  { subst st2. destruct tv; [apply grows_emit; repeat split; apply allowed_same|by apply grows_none]. }
  eapply grows_trans; [exact H2|]. clearbody st2 tv. clear H2 st1. destruct (tv && _); [apply intercept_grows|].
  destruct (Z.eqb_spec (dendpoint p) 0); [|by apply grows_none]. destruct (is_network_management (rd cmd 0)) eqn:En; [by apply grows_none|].
  apply grows_emit. repeat split; try done. apply allowed_same.
Qed.

Lemma firmware_outs p cmd st : zr_outs (firmware_frame p cmd st) = zr_outs st.
Proof. unfold firmware_frame. by repeat case_match. Qed.

(** The outputs of an inner frame are proper for the outer one. *)
Lemma proper_inner p p' lv lv' o : snode p' = snode p -> dnode p' = dnode p -> (forall s, allowed (scheme p') lv' s -> allowed (scheme p) lv s) ->
  (scheme p' = NO_SCHEME -> scheme p = NO_SCHEME) -> proper p' lv' o -> proper p lv o.
Proof. intros E1 E2 Ha Hn. destruct o; cbn; rewrite ?E1, ?E2; naive_solver. Qed.

Definition keeps_nodes (p p' : ts_param) : Prop := snode p' = snode p /\ dnode p' = dnode p.

Definition outputs_ok (z : ts_param -> list Z -> gw -> option (ts_param * gw)) : Prop :=
  forall p cmd st p' st', z p cmd st = Some (p', st') -> keeps_nodes p p' /\ grows (proper p (live p st)) st st'.

Lemma message_outputs E z p cmd st p' st' : outputs_ok z ->
  message_encapsulation aes E z p cmd st = Some (p', st') -> keeps_nodes p p' /\ grows (proper p (live p st)) st st'.
Proof.
  intros Hz. unfold message_encapsulation. case_match; [intros [= <- <-]; split; [done|by apply grows_none]|].
  pose proof (decrypted_bound (s0_env_of E st) (snode p) (dnode p) cmd (u8 (Zlength cmd)) (s0 (sec st))) as Hd.
  destruct (sec0_decrypt_message _ _ _ _ _ _ _) as [m s0']. set (st1 := st <| sec; s0 := s0' |>). destruct (Zlength m =? 0) eqn:Em.
  - intros [= <- <-]. split; [done|]. apply grows_none. by case_match.
  - assert (Hm : m <> []) by (intros ->; done). destruct (Hd Hm) as (_ & Hl & Hl').
    set (st2 := if isNodeSecure _ _ _ then st1 else _). assert (Hs2 : zr_outs st2 = zr_outs st) by (subst st2; by case_match).
    set (p1 := p <| scheme := SECURITY_SCHEME_0 |>). assert (Hl2 : live p1 st2 = false).
    { rewrite <- Hl'. unfold live, st2. case_match; [done|]. unfold register_scheme, SetCacheEntryFlagMasked. by repeat case_match. }
    clearbody st2. destruct (z p1 m st2) as [[p2 st3]|] eqn:Er; [|done]. destruct (Hz _ _ _ _ _ Er) as [[K1 K2] G]. intros [= <- <-].
    split; [by split|]. apply (grows_from _ st2); [done|]. eapply grows_trans; [|by apply (grows_none _ st3); case_match].
    eapply grows_mono; [|exact G]. intros o. apply proper_inner; try done. intros s. rewrite Hl2. unfold live. rewrite Hl.
    intros [-> |[[? _]|[_ ?]]]; [by right; right|done|done].
Qed.

Lemma frame_outputs E z : outputs_ok z -> outputs_ok (zip_frame aes E z).
Proof.
  intros Hz p cmd st p' st'. unfold zip_frame. set (stf := firmware_frame p cmd st).
  assert (Hs : zr_outs stf = zr_outs st /\ live p stf = live p st).
  { split; [apply firmware_outs|]. unfold live, stf. by rewrite firmware_sec. }
  destruct Hs as [Ho Hl]. intros H. rewrite <- Hl. cut (keeps_nodes p p' /\ grows (proper p (live p stf)) stf st').
  { intros [? G]. split; [done|]. by apply (grows_from _ stf). }
  clearbody stf. clear Ho Hl st. revert H.
  assert (Hdone : forall o : bool, Some (p, stf) = Some (p', st') -> keeps_nodes p p' /\ grows (proper p (live p stf)) stf st').
  { intros _ [= <- <-]. split; [done|by apply grows_none]. }
  assert (Hdel : forall s, grows (proper p (live p stf)) stf s -> Some (p, deliver E p cmd s) = Some (p', st') ->
    keeps_nodes p p' /\ grows (proper p (live p stf)) stf st').
  { intros s Hg [= <- <-]. split; [done|]. eapply grows_trans; [exact Hg|apply deliver_grows]. }
  destruct (rd cmd 0 =? COMMAND_CLASS_CONTROLLER_REPLICATION); [apply Hdel; by apply grows_emit|].
  destruct (rd cmd 0 =? COMMAND_CLASS_CRC_16_ENCAP).
  { destruct (negb _); [exact (Hdone true)|]. destruct (Z.eqb_spec (scheme p) NO_SCHEME) as [Hn|]; cbn [negb]; [|exact (Hdone true)].
    destruct (_ =? 0); [|exact (Hdone true)]. intros [K G]%Hz. split; [exact K|]. eapply grows_mono; [|exact G].
    intros o. apply proper_inner; try done. intros s [-> |[[? _]|[-> Hv]]]; [by right; left|done|by right; right]. }
  destruct (rd cmd 0 =? COMMAND_CLASS_SECURITY).
  { destruct (isNodeBad _ _ _); [exact (Hdone true)|]. destruct (negb _); [|apply Hdel; by apply grows_none].
    unfold security_CommandHandler. repeat (case_match; [exact (Hdone true)|]).
    repeat (case_match; [intros [= <- <-]; split; [done|]; apply grows_none; by case_match|]).
    case_match; [by apply message_outputs|]. intros [= <- <-]. split; [done|by apply grows_none]. }
  destruct (rd cmd 0 =? COMMAND_CLASS_SECURITY_2).
  { destruct (isNodeBad _ _ _); [exact (Hdone true)|]. destruct (negb _); [|apply Hdel; by apply grows_none].
    intros [= <- <-]. split; [done|]. apply grows_emit. repeat split. apply allowed_same. }
  destruct (rd cmd 0 =? COMMAND_CLASS_TRANSPORT_SERVICE).
  { intros [= <- <-]. split; [done|]. destruct (Z.eqb_spec (scheme p) NO_SCHEME); cbn [negb]; [by apply grows_emit|by apply grows_none]. }
  destruct (_ && _); [|apply Hdel; by apply grows_none]. set (p1 := p <| sendpoint := _ |> <| dendpoint := _ |>).
  destruct (_ && _); [intros [= <- <-]; split; [done|by apply grows_none]|].
  destruct (has _ _); [intros [= <- <-]; split; [done|by apply grows_none]|].
  intros [K G]%Hz. split; [exact K|]. eapply grows_mono; [|exact G]. intros o. by apply proper_inner.
Qed.

Lemma zip_outputs n E : outputs_ok (zip n E).
Proof.
  induction n as [|n IH]; intros p cmd st p' st'; cbn [ApplicationCommandHandlerZIP];
    (destruct (Zlength cmd =? 0); [intros [= <- <-]; split; [done|by apply grows_none]|]); [done|]. by apply frame_outputs.
Qed.

(** C19. A frame from the radio is always handled to the end, and a command it carries
    reaches the gateway's command classes only under the number of the node that
    sent it, never a network management class, and under no security scheme but S0,
    that only if a nonce we gave out to the node was alive; frames for the
    transport service only if nothing was around them. *)
Theorem radio_frames_confined E rxStatus destNode sourceNode cmd st :
  let p := serial_param st rxStatus destNode sourceNode in
  exists st', (forall k, ApplicationCommandHandlerSerial aes (length cmd + 129 + k) E rxStatus destNode sourceNode cmd st = Some st') /\
    exists new, zr_outs st' = zr_outs st ++ new /\
    Forall (fun o => match o with
      | ZR_ip c d => ripaddr c = sourceNode /\ lipaddr c = dnode p /\ lendpoint c = 0 /\ is_network_management (rd d 0) = false /\
          (c_scheme c = NO_SCHEME \/ c_scheme c = USE_CRC16 \/ c_scheme c = SECURITY_SCHEME_0 /\ live p st = true)
      | ZR_transport q _ => scheme q = NO_SCHEME /\ snode q = sourceNode
      | _ => True
      end) new.
Proof.
  intros p. unfold ApplicationCommandHandlerSerial. destruct (nodemask_nodeid_is_invalid sourceNode).
  { exists st. split; [done|]. exists []. by rewrite app_nil_r. }
  fold p. destruct (receive_ends E p cmd st) as [[p' st'] Hr]. exists (zr_emit (ZR_alive (snode p')) st').
  split; [intros k; by rewrite Hr|]. destruct (zip_outputs _ E _ _ _ _ _ (Hr 0%nat)) as [_ G].
  assert (G' : grows (proper p (live p st)) st (zr_emit (ZR_alive (snode p')) st')) by (eapply grows_trans; [exact G|by apply grows_emit]).
  destruct G' as (new & En & Fn). exists new. split; [exact En|]. eapply Forall_impl; [exact Fn|].
  intros [| | | |c d| |]; try done; cbn.
  - naive_solver.
  - intros (H1 & H2 & H3 & H4 & H5). repeat split; try done. unfold allowed in H5. cbn in H5. naive_solver.
Qed.

(** ** Encapsulations of the send path *)

Lemma crc_two_bytes buf : bytes buf ->
  let frame := [COMMAND_CLASS_CRC_16_ENCAP; CRC_16_ENCAP] ++ buf in
  zgw_crc16 CRC_INIT_VALUE (frame ++ [Z.land (Z.shiftr (zgw_crc16 CRC_INIT_VALUE frame) 8) 0xFF; Z.land (zgw_crc16 CRC_INIT_VALUE frame) 0xFF]) = 0.
Proof.
  intros Hb frame. assert (Hf : bytes frame) by (repeat (constructor; [split; vm_compute; congruence|]); done).
  pose proof (crc16_append_residue CRC_INIT_VALUE frame ltac:(split; vm_compute; congruence) Hf) as H. cbv zeta in H.
  assert (Hw : word16 (zgw_crc16 CRC_INIT_VALUE frame)) by (apply zgw_crc16_word; [split; vm_compute; congruence|done]).
  change (Z.land (Z.shiftr (zgw_crc16 CRC_INIT_VALUE frame) 8) 255) with (Z.land (Z.shiftr (zgw_crc16 CRC_INIT_VALUE frame) 8) (Z.ones 8)). rewrite (Z.land_ones _ 8) by lia. rewrite Z.mod_small; [exact H|]. rewrite Z.shiftr_div_pow2 by lia. destruct Hw. 
  split; [apply Z.div_pos; lia|]. apply Z.div_lt_upper_bound; lia.
Qed.

Lemma zip_step n E p cmd st : cmd <> [] -> zip (S n) E p cmd st = zip_frame aes E (zip n E) p cmd st.
Proof. intros H. cbn [ApplicationCommandHandlerZIP]. by destruct cmd. Qed.

(** A checksum the send path put around a frame. *)
Lemma unwrap_crc n E p buf st : bytes buf -> scheme p = NO_SCHEME -> Zlength buf < META_DATA_MAX_DATA_SIZE ->
  rd buf 0 ∉ [COMMAND_CLASS_TRANSPORT_SERVICE; COMMAND_CLASS_SECURITY; COMMAND_CLASS_SECURITY_2; COMMAND_CLASS_CRC_16_ENCAP] ->
  zip (S n) E p (crc16_encap buf) st = zip n E (p <| scheme := USE_CRC16 |>) buf st.
Proof.
  intros Hb Hs Hl Hc. unfold crc16_encap.
  assert (Hcond : (Zlength buf <? META_DATA_MAX_DATA_SIZE) && negb (rd buf 0 =? COMMAND_CLASS_TRANSPORT_SERVICE) &&
    negb (rd buf 0 =? COMMAND_CLASS_SECURITY) && negb (rd buf 0 =? COMMAND_CLASS_SECURITY_2) && negb (rd buf 0 =? COMMAND_CLASS_CRC_16_ENCAP) = true).
  { rewrite !not_elem_of_cons in Hc. destruct Hc as (? & ? & ? & ? & _). rewrite !andb_true_iff, !negb_true_iff, !Z.eqb_neq, Z.ltb_lt. done. }
  rewrite Hcond. cbv zeta. pose proof (crc_two_bytes buf Hb) as Hz. cbv zeta in Hz.
  set (crc := zgw_crc16 CRC_INIT_VALUE ([COMMAND_CLASS_CRC_16_ENCAP; CRC_16_ENCAP] ++ buf)) in *. set (hi := Z.land (Z.shiftr crc 8) 0xFF) in *. set (lo := Z.land crc 0xFF) in *. clearbody hi lo.
  rewrite zip_step by done. unfold zip_frame. cbn [rd]. change (rd (([_; CRC_16_ENCAP] ++ buf) ++ _) 0) with COMMAND_CLASS_CRC_16_ENCAP.
  change (rd (([_; CRC_16_ENCAP] ++ buf) ++ _) 1) with CRC_16_ENCAP. rewrite Hs, Hz. cbn [Z.eqb negb].
  change (firmware_frame p _ st) with st. cbn [negb Z.eqb Pos.eqb COMMAND_CLASS_CRC_16_ENCAP COMMAND_CLASS_CONTROLLER_REPLICATION CRC_16_ENCAP NO_SCHEME].
  f_equal. unfold sub_buf. rewrite <- (assoc_L (++)). change (drop (Z.to_nat 2) ([_; _] ++ ?x)) with x.
  apply take_app_length'. unfold Zlength. rewrite !length_app. cbn [length]. lia.
Qed.

(** Endpoints the send path named around a frame. *)
Lemma unwrap_endpoints n E p q data st : data <> [] -> truth (dendpoint q) || truth (sendpoint q) = true ->
  (dnode p =? gw_my_node st) && (0 <? dendpoint q) = false -> has (dendpoint q) BIT_ADDRESS_BIT_MASK = false ->
  zip (S n) E p (endpoint_encap q data) st = zip n E (p <| sendpoint := sendpoint q |> <| dendpoint := dendpoint q |>) data st.
Proof.
  intros Hd He Hm Hb. unfold endpoint_encap. rewrite He. rewrite zip_step by done. unfold zip_frame.
  change (rd ([_; _; _; _] ++ data) 0) with COMMAND_CLASS_MULTI_CHANNEL_V2. change (rd ([_; _; _; _] ++ data) 1) with MULTI_CHANNEL_CMD_ENCAP_V2.
  change (rd ([_; _; sendpoint q; _] ++ data) 2) with (sendpoint q). change (rd ([_; _; _; dendpoint q] ++ data) 3) with (dendpoint q).
  change (firmware_frame p _ st) with st. change (drop 4 ([_; _; _; _] ++ data)) with data.
  assert (Hl : (4 <? Zlength ([COMMAND_CLASS_MULTI_CHANNEL_V2; MULTI_CHANNEL_CMD_ENCAP_V2; sendpoint q; dendpoint q] ++ data)) = true).
  { apply Z.ltb_lt. unfold Zlength. rewrite length_app. cbn [length]. destruct data; [done|cbn [length]; lia]. }
  rewrite Hl. cbn [negb andb Z.eqb Pos.eqb COMMAND_CLASS_CRC_16_ENCAP COMMAND_CLASS_CONTROLLER_REPLICATION COMMAND_CLASS_MULTI_CHANNEL_V2 MULTI_CHANNEL_CMD_ENCAP_V2 COMMAND_CLASS_SECURITY COMMAND_CLASS_SECURITY_2 COMMAND_CLASS_TRANSPORT_SERVICE].
  cbn [dnode dendpoint modify]. rewrite Hm, Hb. done.
Qed.

(** What the send path puts around a command of an endpoint, endpoints and then a
    checksum, the receive path takes off: the command is handled as one from that
    endpoint with a checksum. *)
Lemma receive_undoes_encapsulation n E p q data st (Hscheme : scheme p = NO_SCHEME)
  (Hdata : bytes data /\ data <> [] /\ Zlength data < 44) (Hep : 0 < sendpoint q < 256) (Hto : dendpoint q = 0) :
  zip (S (S n)) E p (crc16_encap (endpoint_encap q data)) st =
  zip n E (p <| scheme := USE_CRC16 |> <| sendpoint := sendpoint q |> <| dendpoint := 0 |>) data st.
Proof.
  destruct Hdata as (Hb & Hne & Hl). assert (He : truth (dendpoint q) || truth (sendpoint q) = true).
  { unfold truth. rewrite Hto. cbn. destruct (Z.eqb_spec (sendpoint q) 0); [lia|done]. }
  assert (Hcap : endpoint_encap q data = [COMMAND_CLASS_MULTI_CHANNEL_V2; MULTI_CHANNEL_CMD_ENCAP_V2; sendpoint q; dendpoint q] ++ data).
  { unfold endpoint_encap. by rewrite He. }
  rewrite unwrap_crc; try done.
  - rewrite unwrap_endpoints; try done; rewrite Hto; [done|by rewrite andb_false_r|done].
  - rewrite Hcap. apply Forall_app. split; [|done]. forall_list; unfold byte, COMMAND_CLASS_MULTI_CHANNEL_V2, MULTI_CHANNEL_CMD_ENCAP_V2; lia.
  - rewrite Hcap. unfold Zlength in *. rewrite length_app. cbn [length]. change META_DATA_MAX_DATA_SIZE with 48. lia.
  - rewrite Hcap. change (rd ([_; _; _; _] ++ data) 0) with COMMAND_CLASS_MULTI_CHANNEL_V2. by apply (bool_decide_unpack _).
Qed.

(** ** A request and its report *)

(** Classes that are not encapsulations. *)
Definition plain_class (c : Z) : bool :=
  negb (bool_decide (c ∈ [COMMAND_CLASS_CONTROLLER_REPLICATION; COMMAND_CLASS_CRC_16_ENCAP; COMMAND_CLASS_SECURITY; COMMAND_CLASS_SECURITY_2;
                          COMMAND_CLASS_TRANSPORT_SERVICE; COMMAND_CLASS_MULTI_CHANNEL_V2])).

Lemma plain_delivered n E p cmd st : cmd <> [] -> plain_class (rd cmd 0) = true ->
  zip (S n) E p cmd st = Some (p, deliver E p cmd (firmware_frame p cmd st)).
Proof.
  intros Hc Hp. rewrite zip_step by done. unfold zip_frame. apply negb_true_iff, bool_decide_eq_false in Hp.
  rewrite !not_elem_of_cons in Hp. destruct Hp as (H1 & H2 & H3 & H4 & H5 & H6 & _). apply Z.eqb_neq in H1, H2, H3, H4, H5, H6.
  by rewrite H1, H2, H3, H4, H5, H6.
Qed.

Lemma deliver_requests E p cmd st : requests (deliver E p cmd st) = snd (SendRequest_ApplicationCommandHandler (ze_more E) p cmd (requests st)).
Proof.
  unfold deliver. change (requests (st <| queue := _ |>)) with (requests st). destruct (SendRequest_ApplicationCommandHandler _ _ _ _) as [took rq].
  unfold intercept_interval. by repeat case_match.
Qed.

Lemma firmware_requests p cmd st : requests (firmware_frame p cmd st) = requests st.
Proof. unfold firmware_frame. by repeat case_match. Qed.

(** C22. A request to an endpoint of a node that is to be answered with a checksum: once its
    frame was sent, the report of that endpoint, as the node's send path wraps it,
    comes off the radio as the answer to the caller. *)
Theorem request_answered_over_radio E Es now p data rcmd timeout user f body rx st
  (Hreq : requests st = rq_run [RQ_op_send Es now true p data rcmd timeout user (Some f); RQ_op_sent now TRANSMIT_COMPLETE_OK 0%nat] rq_start)
  (Hfrom : snode p = gw_my_node st /\ gw_my_node st <> 0 /\ sendpoint p = 0) (Hto : nodemask_nodeid_is_invalid (dnode p) = false /\ 0 < dendpoint p < 256)
  (Hscheme : ZW_SendData_scheme_select Es p 2 = USE_CRC16)
  (Hreport : bytes (rd data 0 :: rcmd :: body) /\ Zlength body < 42 /\ plain_class (rd data 0) = true) :
  let report := rd data 0 :: rcmd :: body in
  let wrapped := crc16_encap (endpoint_encap (null_ts <| sendpoint := dendpoint p |>) report) in
  exists st', ApplicationCommandHandlerSerial aes 3 E rx (gw_my_node st) (dnode p) wrapped st = Some st' /\
    rq_outs (requests st') = [RQ_send p data 0; RQ_callback f user TRANSMIT_COMPLETE_OK (rx_flags (serial_param st rx (gw_my_node st) (dnode p))) report].
Proof.
  intros report wrapped. destruct Hfrom as (Hs & Hnz & Hse), Hto as [Hv He], Hreport as (Hb & Hl & Hp).
  unfold ApplicationCommandHandlerSerial. rewrite Hv. set (p0 := serial_param st rx (gw_my_node st) (dnode p)).
  unfold wrapped. rewrite receive_undoes_encapsulation; [|done|split; [done|split; [done|unfold report, Zlength in *; cbn [length]; lia]]|done|done].
  rewrite plain_delivered by done. eexists. split; [reflexivity|].
  set (q := p0 <| scheme := USE_CRC16 |> <| sendpoint := _ |> <| dendpoint := 0 |>).
  change (requests (zr_emit ?o ?s)) with (requests s). rewrite deliver_requests, firmware_requests, Hreq.
  set (r := rq_fill Es now p data rcmd timeout user f null_req <| rq_state := REQ_WAITING |>
              <| rq_timer := Some (timeout * 10 + round_trip_duration now now) |>).
  change (rq_run _ _) with (mkReqs [true; false; false; false] [r; null_req; null_req; null_req] [0%nat] [RQ_send p data 0]).
  rewrite one_request_handled.
  assert (Ha : answers_req q report r = true).
  { unfold answers_req, ts_param_cmp. cbn [r q report p0 rq_fill rq_state rq_param rq_class rq_cmd ts_param_make_reply serial_param modify snode dnode sendpoint dendpoint scheme andb null_ts].
    rewrite Hscheme, Hs, Hse. unfold truth. destruct (Z.eqb_spec (gw_my_node st) 0); [done|]. cbn [negb]. rewrite !Z.eqb_refl. by rewrite bool_decide_true. }
  rewrite Ha. by destruct (ze_more E _ _ _).
Qed.
End Path.
