(* ===== verification/ZipRuns.v ===== *)
(** * Concrete frames on the receive path *)

From S2P Require Import Prelude Crc Nodemask SendDataAppl SendRequest Sec0 SecureLearn SecureLearnRun SecureLearnLive ZipReceive ZipSafety.
#[local] Open Scope Z_scope.

Definition gw_ex : gw := mkGw layer_started rq_start sda_start {[5 := MODE_MAILBOX; 7 := MODE_MAILBOX]} ∅ None [].
Definition zr_ex : zr_env := mkZrEnv (sl_env_ex true) (fun _ _ => true) 0 10 (fun _ _ => false) (fun _ _ _ => false).

(** A switch report of endpoint 3 of node 5. *)
Definition report_ex : list Z := [0x25; 3; 0xFF].
Definition ep3 : ts_param := null_ts <| sendpoint := 3 |>.
Definition from_5 : ts_param := mkTs 5 1 0 0 0 0 NO_SCHEME [] false false false 0.

Lemma receive_undoes_encapsulation_witness :
  bytes report_ex /\ ApplicationCommandHandlerZIP mix 2 zr_ex from_5 (crc16_encap (endpoint_encap ep3 report_ex)) gw_ex =
  ApplicationCommandHandlerZIP mix 0 zr_ex (from_5 <| scheme := USE_CRC16 |> <| sendpoint := 3 |> <| dendpoint := 0 |>) report_ex gw_ex.
Proof.
  assert (Hb : bytes report_ex) by (unfold report_ex; forall_list; unfold byte; lia). split; [exact Hb|].
  apply (receive_undoes_encapsulation mix 0 zr_ex from_5 ep3 report_ex gw_ex); [reflexivity|split; [exact Hb|split; [done|reflexivity]]|cbn; lia|reflexivity].
Defined.

(** The command as it reaches the command classes. *)
Example report_reaches_handler :
  option_map (fun r => zr_outs r) (ApplicationCommandHandlerSerial mix 3 zr_ex 0 1 5 (crc16_encap (endpoint_encap ep3 report_ex)) gw_ex) =
  Some [ZR_ip (mkConn 5 1 USE_CRC16 3 0 0) report_ex; ZR_alive 5].
Proof. vm_compute. reflexivity. Qed.

(** The node supports checksums: it is sent requests with one. *)
Definition sda_crc : sda_env :=
  mkSdaEnv 1 (fun _ => 0) (fun _ c => c =? COMMAND_CLASS_CRC_16_ENCAP) (fun _ _ => false) true (fun _ _ => true) (fun _ _ => true) (fun _ _ => true)
    (fun _ _ => true) (fun _ _ => true) 0 0 true true.
Definition to_ep3 : ts_param := ts_set_std sda_crc 5 <| dendpoint := 3 |> <| scheme := USE_CRC16 |>.
Definition ask_ops : list req_op := [RQ_op_send sda_crc 0 true to_ep3 [0x25; 2] 3 100 1 (Some 10); RQ_op_sent 0 TRANSMIT_COMPLETE_OK 0%nat].
Definition gw_asked : gw := gw_ex <| requests := rq_run ask_ops rq_start |>.

Lemma request_answered_over_radio_witness :
  nodemask_nodeid_is_invalid (dnode to_ep3) = false /\ ZW_SendData_scheme_select sda_crc to_ep3 2 = USE_CRC16 /\
  exists st', ApplicationCommandHandlerSerial mix 3 zr_ex 0 1 5 (crc16_encap (endpoint_encap (null_ts <| sendpoint := 3 |>) report_ex)) gw_asked = Some st' /\
    rq_outs (requests st') = [RQ_send to_ep3 [0x25; 2] 0; RQ_callback 10 1 TRANSMIT_COMPLETE_OK 0 report_ex].
Proof.
  split; [vm_compute; reflexivity|split; [vm_compute; reflexivity|]].
  apply (request_answered_over_radio mix zr_ex sda_crc 0 to_ep3 [0x25; 2] 3 100 1 10 [0xFF] 0 gw_asked).
  - reflexivity.
  - split; [vm_compute; reflexivity|split; [vm_compute; congruence|reflexivity]].
  - split; [vm_compute; reflexivity|vm_compute; split; congruence].
  - vm_compute. reflexivity.
  - split; [forall_list; unfold byte; vm_compute; split; congruence|split; [vm_compute; reflexivity|vm_compute; reflexivity]].
Defined.

(** A gateway that is idle, included long ago and asked by nobody takes the number
    a plain request for the security schemes was sent to: here that of a virtual
    node, so that frames to its own number are taken for a virtual node's. *)
Example scheme_get_takes_over_number :
  gw_my_node gw_ex = 1 /\
  option_map gw_my_node (ApplicationCommandHandlerSerial mix 2 zr_ex 0 12 7 [COMMAND_CLASS_SECURITY; SECURITY_SCHEME_GET; 0] gw_ex) = Some 12.
Proof. vm_compute. split; reflexivity. Qed.

(** There is one timer for all firmware updates: after node 7 has asked for a part of
    its image, a stalled update of node 5 is never given up, and its mailbox stays off. *)
Example firmware_timer_shared :
  let get := [COMMAND_CLASS_FIRMWARE_UPDATE_MD; FIRMWARE_UPDATE_MD_GET; 1; 0; 1] in
  let from n := mkTs n 1 0 0 0 0 NO_SCHEME [] false false false 0 in
  let st := firmware_frame (from 7) get (firmware_frame (from 5) get gw_ex) in
  let st := fw_upgrade_timeout st in
  fw_timer st = None /\ node_mode st !! 7 = Some MODE_MAILBOX /\ node_mode st !! 5 = Some MODE_FIRMWARE_UPGRADE.
Proof. vm_compute. repeat split. Qed.
