(* ===== verification/S2Inclusion.v ===== *)
(** * The S2 key exchange (src/libs2/inclusion/s2_inclusion.c)

    The including controller hands a joining node the network keys the user
    grants it: key exchange parameters (KEX), public keys, a temporary key from
    ECDH, then one network key after the other.  Both sides are one transition
    table over the context of the S2 library.

    The members of struct S2 that the key exchange uses, the static variables of
    the file and the inclusion timer are one record; what it calls is behind
    two interfaces: [S2Link] for the S2 transport (S2_send_frame, S2_send_data,
    S2_network_key_update) and [KeyStore] for s2_keystore.c, with the models of
    those components as instances in S2InclusionLink.v.  Curve25519 is the class
    [Ecdh].  The build is the controller's, without a PSA secure vault.

    The application's event handler may answer from within the call (the gateway
    does for a node on its provisioning list), so [m_evt_handler] maps an event to
    the calls made before it returns. *)

From S2P Require Import Prelude Aes Ccm Cmac S2Transport.
Local Open Scope Z_scope.

(** ** Constants *)

Definition KEX_GET : Z := 0x04.
Definition KEX_REPORT : Z := 0x05.
Definition KEX_SET : Z := 0x06.
Definition PUBLIC_KEY_REPORT : Z := 0x08.
Definition SECURITY_2_NETWORK_KEY_GET : Z := 0x09.
Definition SECURITY_2_NETWORK_KEY_REPORT : Z := 0x0A.
Definition SECURITY_2_NETWORK_KEY_VERIFY : Z := 0x0B.
Definition SECURITY_2_TRANSFER_END : Z := 0x0C.
Definition KEX_FAIL_KEX_KEY : Z := 0x01.
Definition KEX_FAIL_KEX_SCHEME : Z := 0x02.
Definition KEX_FAIL_KEX_CURVES : Z := 0x03.
Definition KEX_FAIL_DECRYPT : Z := 0x05.
Definition KEX_FAIL_CANCEL : Z := 0x06.
Definition KEX_FAIL_AUTH : Z := 0x07.
Definition KEX_FAIL_KEY_GET : Z := 0x08.
Definition KEX_FAIL_KEY_VERIFY : Z := 0x09.
Definition KEX_FAIL_KEY_REPORT : Z := 0x0A.

Definition SECURITY_2_SCHEME_1_SUPPORT : Z := 0x02.
Definition SECURITY_2_SCHEME_SUPPORT_MASK : Z := 0x02.
Definition SECURITY_2_SECURITY_2_CLASS_1 : Z := 0x02.
Definition SECURITY_2_SECURITY_2_CLASS_2 : Z := 0x04.
Definition SECURITY_2_SECURITY_0_NETWORK_KEY : Z := 0x80.
Definition SECURITY_2_KEY_MASK : Z := 0x87.
Definition KEX_REPORT_CURVE_25519 : Z := 0x01.
Definition KEX_REPORT_CURVE_MASK : Z := 0x01.
Definition SECURITY_2_ECHO_OFF : Z := 0x00.
Definition SECURITY_2_ECHO_ON : Z := 0x01.
Definition SECURITY_2_CSA_ON : Z := 0x02.
Definition SECURITY_2_JOINING_NODE : Z := 0x00.
Definition SECURITY_2_INCLUDING_NODE : Z := 0x01.
Definition SECURITY_2_KEY_REQ_COMPLETE : Z := 0x01.
Definition SECURITY_2_KEY_VERIFIED : Z := 0x02.
Definition KEY_CLASS_S0 : Z := 0x80.
Definition KEY_CLASS_S2_UNAUTHENTICATED : Z := 0x01.
Definition KEY_CLASS_S2_AUTHENTICATED : Z := 0x02.
Definition KEY_CLASS_S2_ACCESS : Z := 0x04.
Definition KEY_CLASS_S2_AUTHENTICATED_LR : Z := 0x08.
Definition KEY_CLASS_S2_ACCESS_LR : Z := 0x10.
Definition KEY_CLASS_ALL : Z := 0xFF.

(** Positions and lengths of the frames. *)
Definition SECURITY_2_COMMAND_POS : Z := 1.
Definition SECURITY_2_KEX_ECHO_POS : Z := 2.
Definition SECURITY_2_KEX_SCHEME_POS : Z := 3.
Definition SECURITY_2_KEX_CURVE_POS : Z := 4.
Definition SECURITY_2_KEX_KEYS_POS : Z := 5.
Definition SECURITY_2_PUB_KEY_KEY_POS : Z := 3.
Definition SECURITY_2_NET_KEY_REP_KEY_POS : Z := 3.
Definition SECURITY_2_KEX_GET_LENGTH : Z := 2.
Definition SECURITY_2_KEX_REPORT_LENGTH : Z := 6.
Definition SECURITY_2_KEX_SET_LENGTH : Z := 6.
Definition SECURITY_2_PUB_KEY_LENGTH : Z := 35.
Definition SECURITY_2_NET_KEY_GET_LENGTH : Z := 3.
Definition SECURITY_2_NET_KEY_REPORT_LENGTH : Z := 19.
Definition SECURITY_2_NET_KEY_VERIFY_LENGTH : Z := 2.
Definition SECURITY_2_TRANSFER_END_LENGTH : Z := 3.
Definition SECURITY_2_KEX_FAIL_LENGTH : Z := 3.

Definition NON_SECURE : Z := 0xFF.
Definition TEMP_KEY_SECURE : Z := 5.
Definition NETWORK_KEY_SECURE : Z := 6.
Definition SINGLE_RULE_SUPPORT : Z := 0.
Definition DUAL_RULE_SUPPORT : Z := 1.
Definition ECHO_SUPPORT : Z := 2.
Definition ACCEPT_INCLUSION : Z := 1.
Definition NO_RETRIES : Z := 0.
Definition QUEUE_FULL : Z := 0xFF.
Definition MAX_RETRY_COUNT : Z := 3.
Definition DSK_SSA_CHALLENGE_LENGTH : Z := 2.
Definition DSK_CSA_CHALLENGE_LENGTH : Z := 4.

(** Timeouts in units of 10 ms. *)
Definition TA1_TIMEOUT : Z := 1000.
Definition TA2_TIMEOUT : Z := 1000.
Definition TA4_TIMEOUT : Z := 1000.
Definition TA5_TIMEOUT : Z := 1000.
Definition TA6_TIMEOUT : Z := 1000.
Definition TAI1_TIMEOUT : Z := 24000.
Definition TAI2_TIMEOUT : Z := 24000.
Definition TB0_TIMEOUT : Z := 6000.
Definition TB1_TIMEOUT : Z := 3000.
Definition TB2_TIMEOUT : Z := 24000.
Definition TB3_TIMEOUT : Z := 1000.
Definition TB5_TIMEOUT : Z := 1000.
Definition TB7_TIMEOUT : Z := 1000.
Definition TBI1_TIMEOUT : Z := 24000.

(** ** Events

    The events of received frames are the command, with the echo bit of a KEX
    frame or the including-node bit of a public key moved to bit 8. *)

Definition S2_KEX_REPORT_RECV : Z := KEX_REPORT.
Definition S2_PUB_KEY_RECV_B : Z := Z.lor PUBLIC_KEY_REPORT (Z.shiftl SECURITY_2_JOINING_NODE 8).
Definition S2_PUB_KEY_RECV_A : Z := Z.lor PUBLIC_KEY_REPORT (Z.shiftl SECURITY_2_INCLUDING_NODE 8).
Definition S2_KEX_GET_RECV : Z := KEX_GET.
Definition S2_KEX_SET_RECV : Z := KEX_SET.
Definition S2_ECHO_KEX_REPORT_RECV : Z := Z.lor (Z.shiftl SECURITY_2_ECHO_ON 8) KEX_REPORT.
Definition S2_NET_KEY_REPORT_RECV : Z := SECURITY_2_NETWORK_KEY_REPORT.
Definition S2_ECHO_KEX_SET_RECV : Z := Z.lor (Z.shiftl SECURITY_2_ECHO_ON 8) KEX_SET.
Definition S2_NET_KEY_GET_RECV : Z := SECURITY_2_NETWORK_KEY_GET.
Definition S2_NET_KEY_VERIFY_RECV : Z := SECURITY_2_NETWORK_KEY_VERIFY.
Definition S2_TRANSFER_END_RECV : Z := SECURITY_2_TRANSFER_END.
Definition S2_INCLUSION_ERROR_RECV : Z := KEX_FAIL.
Definition S2_INCLUDING_START : Z := 0x200.
Definition S2_JOINING_START : Z := 0x201.
Definition S2_INCLUDING_ACCEPT : Z := 0x202.
Definition S2_INCLUDING_REJECT : Z := 0x203.
Definition S2_INCLUDING_DECRYPT_FAILED : Z := 0x204.
Definition S2_SEND_FINAL_TRANSFER_END : Z := 0x205.
Definition S2_INCLUSION_TX_QUEUED : Z := 0x206.
Definition S2_NET_KEY_VERIFY_FINAL_RECV : Z := 0x207.
Definition S2_INCLUSION_RETRY : Z := 0x208.
Definition S2_INCLUSION_TIMEOUT : Z := 0x209.
Definition S2_INCLUSION_ERROR : Z := 0x20A.
Definition S2_INCLUSION_ERROR_SENT : Z := 0x20B.
Definition S2_INCLUSION_SEND_DONE : Z := 0x20C.
Definition S2_INCLUSION_SEND_FAILED : Z := 0x20D.
Definition S2_DISCOVERY_COMPLETE : Z := 0x20E.
Definition S2_NO_KEYS_GRANTED : Z := 0x20F.
Definition S2_EVT_ANY : Z := 0x210.

Inductive s2_inclusion_state_t :=
| S2_INC_IDLE | S2_AWAITING_KEX_GET | S2_AWAITING_KEX_REPORT | S2_AWAITING_KEY_USER_ACCEPT | S2_AWAITING_KEX_SET
| S2_AWAITING_PUB_KEY_A | S2_AWAITING_PUB_KEY_B | S2_AWAITING_USER_ACCEPT | S2_AWAITING_USER_A_ACCEPT
| S2_PENDING_ECHO_KEX_REPORT | S2_ECHO_KEX_SET_SENDING | S2_AWAITING_ECHO_KEX_SET | S2_AWAITING_ECHO_KEX_REPORT
| S2_AWAITING_NET_KEY_GET | S2_AWAITING_NET_KEY_REPORT | S2_AWAITING_NET_KEY_VERIFY | S2_AWAITING_TRANSFER_END
| S2_KEY_EXCHANGED | S2_SENDING_FINAL_TRANSFER_END | S2_ERROR_SENT | S2_INC_STATE_ANY.

Inductive s2_action_t :=
| S2_NO_ACTION | S2_ABORT_ACTION | S2_RESEND_FRAME_ACTION | S2_RESEND_DATA_ACTION
| S2_SEND_KEX_GET_ACTION | S2_KEX_REP_RECV_ACTION | S2_SEND_KEX_SET_ACTION | S2_SEND_PUB_KEY_A_ACTION
| S2_DO_ECDH_CALC_A_ACTION | S2_SEND_ECHO_KEX_REPORT_ACTION | S2_SEND_ERROR_CANCEL_ACTION
| S2_SEND_ERROR_DECRYPT_ACTION | S2_SEND_NET_KEY_REPORT_ACTION | S2_SEND_TRANSFER_END_ACTION
| S2_INCLUSION_COMPLETE_ACTION | S2_CHECK_NO_KEYS
| S2_JOINING_START_ACTION | S2_TIMEOUT_TB1_SET_ACTION | S2_SEND_KEX_REPORT_ACTION | S2_SEND_PUB_KEY_B_ACTION
| S2_PUB_KEY_A_RECV_ACTION | S2_DO_ECDH_CALC_B_ACTION | S2_SEND_ECHO_KEX_SET_ACTION | S2_SEND_NET_KEY_GET_ACTION
| S2_SEND_NET_KEY_VERIFY_ACTION | S2_SEND_FINAL_TRANSFER_END_ACTION | S2_JOINING_COMPLETE_ACTION
| S2_REMOTE_ERROR_ACTION | S2_JOINING_NEVER_STARTED_ACTION.

#[export] Instance incl_state_eq : EqDecision s2_inclusion_state_t.
Proof. solve_decision. Defined.
#[export] Instance incl_action_eq : EqDecision s2_action_t.
Proof. solve_decision. Defined.

Inductive inclusion_mode_t := INCLUSION_MODE_CSA | INCLUSION_MODE_SSA.
#[export] Instance incl_mode_eq : EqDecision inclusion_mode_t.
Proof. solve_decision. Defined.

(** ** The transition table: the first row for the state (or any state) and the
    event (or any event) is taken *)

Record s2_transition_t := Row { t_state : s2_inclusion_state_t; t_event : Z; t_action : s2_action_t; t_new_state : s2_inclusion_state_t }.

Definition s2_transition_table : list s2_transition_t := [
  Row S2_INC_IDLE S2_INCLUDING_START S2_SEND_KEX_GET_ACTION S2_AWAITING_KEX_REPORT;
  Row S2_AWAITING_KEX_REPORT S2_KEX_REPORT_RECV S2_KEX_REP_RECV_ACTION S2_AWAITING_KEY_USER_ACCEPT;
  Row S2_AWAITING_KEX_REPORT S2_INCLUSION_RETRY S2_RESEND_FRAME_ACTION S2_INC_STATE_ANY;
  Row S2_AWAITING_KEY_USER_ACCEPT S2_INCLUDING_ACCEPT S2_SEND_KEX_SET_ACTION S2_AWAITING_PUB_KEY_B;
  Row S2_AWAITING_KEY_USER_ACCEPT S2_INCLUDING_REJECT S2_SEND_ERROR_CANCEL_ACTION S2_ERROR_SENT;
  Row S2_AWAITING_KEY_USER_ACCEPT S2_KEX_REPORT_RECV S2_NO_ACTION S2_INC_STATE_ANY;
  Row S2_AWAITING_PUB_KEY_B S2_KEX_REPORT_RECV S2_NO_ACTION S2_INC_STATE_ANY;
  Row S2_AWAITING_PUB_KEY_B S2_INCLUSION_RETRY S2_RESEND_FRAME_ACTION S2_INC_STATE_ANY;
  Row S2_AWAITING_PUB_KEY_B S2_PUB_KEY_RECV_B S2_SEND_PUB_KEY_A_ACTION S2_AWAITING_USER_ACCEPT;
  Row S2_AWAITING_USER_ACCEPT S2_INCLUDING_ACCEPT S2_DO_ECDH_CALC_A_ACTION S2_AWAITING_ECHO_KEX_SET;
  Row S2_AWAITING_USER_ACCEPT S2_INCLUDING_REJECT S2_SEND_ERROR_CANCEL_ACTION S2_ERROR_SENT;
  Row S2_AWAITING_USER_ACCEPT S2_INCLUSION_RETRY S2_RESEND_FRAME_ACTION S2_INC_STATE_ANY;
  Row S2_AWAITING_USER_ACCEPT S2_KEX_REPORT_RECV S2_NO_ACTION S2_INC_STATE_ANY;
  Row S2_AWAITING_USER_ACCEPT S2_PUB_KEY_RECV_B S2_NO_ACTION S2_INC_STATE_ANY;
  Row S2_AWAITING_ECHO_KEX_SET S2_ECHO_KEX_SET_RECV S2_SEND_ECHO_KEX_REPORT_ACTION S2_AWAITING_NET_KEY_GET;
  Row S2_AWAITING_ECHO_KEX_SET S2_INCLUSION_RETRY S2_RESEND_FRAME_ACTION S2_INC_STATE_ANY;
  Row S2_AWAITING_ECHO_KEX_SET S2_INCLUDING_DECRYPT_FAILED S2_SEND_ERROR_DECRYPT_ACTION S2_ERROR_SENT;
  Row S2_AWAITING_ECHO_KEX_SET S2_KEX_REPORT_RECV S2_NO_ACTION S2_INC_STATE_ANY;
  Row S2_AWAITING_ECHO_KEX_SET S2_PUB_KEY_RECV_B S2_NO_ACTION S2_INC_STATE_ANY;
  Row S2_AWAITING_NET_KEY_GET S2_NET_KEY_GET_RECV S2_SEND_NET_KEY_REPORT_ACTION S2_AWAITING_NET_KEY_VERIFY;
  Row S2_AWAITING_NET_KEY_GET S2_SEND_FINAL_TRANSFER_END S2_CHECK_NO_KEYS S2_INC_IDLE;
  Row S2_AWAITING_NET_KEY_GET S2_INCLUSION_RETRY S2_RESEND_DATA_ACTION S2_INC_STATE_ANY;
  Row S2_AWAITING_NET_KEY_GET S2_KEX_REPORT_RECV S2_NO_ACTION S2_INC_STATE_ANY;
  Row S2_AWAITING_NET_KEY_GET S2_PUB_KEY_RECV_B S2_NO_ACTION S2_INC_STATE_ANY;
  Row S2_AWAITING_NET_KEY_GET S2_ECHO_KEX_SET_RECV S2_NO_ACTION S2_INC_STATE_ANY;
  Row S2_AWAITING_NET_KEY_GET S2_NET_KEY_VERIFY_RECV S2_NO_ACTION S2_INC_STATE_ANY;
  Row S2_AWAITING_NET_KEY_VERIFY S2_NET_KEY_VERIFY_FINAL_RECV S2_SEND_TRANSFER_END_ACTION S2_AWAITING_TRANSFER_END;
  Row S2_AWAITING_NET_KEY_VERIFY S2_NET_KEY_VERIFY_RECV S2_SEND_TRANSFER_END_ACTION S2_AWAITING_NET_KEY_GET;
  Row S2_AWAITING_NET_KEY_VERIFY S2_INCLUSION_RETRY S2_RESEND_DATA_ACTION S2_INC_STATE_ANY;
  Row S2_AWAITING_NET_KEY_VERIFY S2_KEX_REPORT_RECV S2_NO_ACTION S2_INC_STATE_ANY;
  Row S2_AWAITING_NET_KEY_VERIFY S2_PUB_KEY_RECV_B S2_NO_ACTION S2_INC_STATE_ANY;
  Row S2_AWAITING_NET_KEY_VERIFY S2_ECHO_KEX_SET_RECV S2_NO_ACTION S2_INC_STATE_ANY;
  Row S2_AWAITING_NET_KEY_VERIFY S2_NET_KEY_GET_RECV S2_NO_ACTION S2_INC_STATE_ANY;
  Row S2_AWAITING_TRANSFER_END S2_TRANSFER_END_RECV S2_INCLUSION_COMPLETE_ACTION S2_INC_IDLE;
  Row S2_AWAITING_TRANSFER_END S2_INCLUSION_RETRY S2_RESEND_DATA_ACTION S2_INC_STATE_ANY;
  Row S2_AWAITING_TRANSFER_END S2_KEX_REPORT_RECV S2_NO_ACTION S2_INC_STATE_ANY;
  Row S2_AWAITING_TRANSFER_END S2_PUB_KEY_RECV_B S2_NO_ACTION S2_INC_STATE_ANY;
  Row S2_AWAITING_TRANSFER_END S2_ECHO_KEX_SET_RECV S2_NO_ACTION S2_INC_STATE_ANY;
  Row S2_AWAITING_TRANSFER_END S2_NET_KEY_GET_RECV S2_NO_ACTION S2_INC_STATE_ANY;
  Row S2_AWAITING_TRANSFER_END S2_NET_KEY_VERIFY_RECV S2_NO_ACTION S2_INC_STATE_ANY;
  Row S2_AWAITING_TRANSFER_END S2_NET_KEY_VERIFY_FINAL_RECV S2_NO_ACTION S2_INC_STATE_ANY;
  Row S2_INC_IDLE S2_JOINING_START S2_JOINING_START_ACTION S2_AWAITING_KEX_GET;
  Row S2_AWAITING_KEX_GET S2_DISCOVERY_COMPLETE S2_TIMEOUT_TB1_SET_ACTION S2_AWAITING_KEX_GET;
  Row S2_AWAITING_KEX_GET S2_KEX_GET_RECV S2_SEND_KEX_REPORT_ACTION S2_AWAITING_KEX_SET;
  Row S2_AWAITING_KEX_GET S2_INCLUDING_REJECT S2_NO_ACTION S2_INC_IDLE;
  Row S2_AWAITING_KEX_GET S2_INCLUSION_TIMEOUT S2_JOINING_NEVER_STARTED_ACTION S2_INC_IDLE;
  Row S2_AWAITING_KEX_SET S2_KEX_SET_RECV S2_SEND_PUB_KEY_B_ACTION S2_AWAITING_PUB_KEY_A;
  Row S2_AWAITING_KEX_SET S2_INCLUSION_RETRY S2_RESEND_FRAME_ACTION S2_INC_STATE_ANY;
  Row S2_AWAITING_KEX_SET S2_KEX_GET_RECV S2_NO_ACTION S2_INC_STATE_ANY;
  Row S2_AWAITING_PUB_KEY_A S2_PUB_KEY_RECV_A S2_PUB_KEY_A_RECV_ACTION S2_AWAITING_USER_A_ACCEPT;
  Row S2_AWAITING_PUB_KEY_A S2_INCLUSION_RETRY S2_RESEND_FRAME_ACTION S2_INC_STATE_ANY;
  Row S2_AWAITING_PUB_KEY_A S2_KEX_GET_RECV S2_NO_ACTION S2_INC_STATE_ANY;
  Row S2_AWAITING_PUB_KEY_A S2_KEX_SET_RECV S2_NO_ACTION S2_INC_STATE_ANY;
  Row S2_AWAITING_USER_A_ACCEPT S2_INCLUDING_ACCEPT S2_DO_ECDH_CALC_B_ACTION S2_ECHO_KEX_SET_SENDING;
  Row S2_AWAITING_USER_A_ACCEPT S2_INCLUDING_REJECT S2_ABORT_ACTION S2_INC_IDLE;
  Row S2_AWAITING_USER_A_ACCEPT S2_KEX_GET_RECV S2_NO_ACTION S2_INC_STATE_ANY;
  Row S2_AWAITING_USER_A_ACCEPT S2_KEX_SET_RECV S2_NO_ACTION S2_INC_STATE_ANY;
  Row S2_AWAITING_USER_A_ACCEPT S2_PUB_KEY_RECV_A S2_NO_ACTION S2_INC_STATE_ANY;
  Row S2_ECHO_KEX_SET_SENDING S2_INCLUSION_SEND_FAILED S2_NO_ACTION S2_ECHO_KEX_SET_SENDING;
  Row S2_ECHO_KEX_SET_SENDING S2_INCLUSION_SEND_DONE S2_NO_ACTION S2_ECHO_KEX_SET_SENDING;
  Row S2_ECHO_KEX_SET_SENDING S2_INCLUSION_RETRY S2_SEND_ECHO_KEX_SET_ACTION S2_ECHO_KEX_SET_SENDING;
  Row S2_ECHO_KEX_SET_SENDING S2_ECHO_KEX_REPORT_RECV S2_SEND_NET_KEY_GET_ACTION S2_AWAITING_NET_KEY_REPORT;
  Row S2_ECHO_KEX_SET_SENDING S2_KEX_GET_RECV S2_NO_ACTION S2_INC_STATE_ANY;
  Row S2_ECHO_KEX_SET_SENDING S2_KEX_SET_RECV S2_NO_ACTION S2_INC_STATE_ANY;
  Row S2_ECHO_KEX_SET_SENDING S2_PUB_KEY_RECV_A S2_NO_ACTION S2_INC_STATE_ANY;
  Row S2_AWAITING_NET_KEY_REPORT S2_NET_KEY_REPORT_RECV S2_SEND_NET_KEY_VERIFY_ACTION S2_KEY_EXCHANGED;
  Row S2_AWAITING_NET_KEY_REPORT S2_INCLUSION_RETRY S2_RESEND_DATA_ACTION S2_INC_STATE_ANY;
  Row S2_AWAITING_NET_KEY_REPORT S2_KEX_GET_RECV S2_NO_ACTION S2_INC_STATE_ANY;
  Row S2_AWAITING_NET_KEY_REPORT S2_KEX_SET_RECV S2_NO_ACTION S2_INC_STATE_ANY;
  Row S2_AWAITING_NET_KEY_REPORT S2_PUB_KEY_RECV_A S2_NO_ACTION S2_INC_STATE_ANY;
  Row S2_AWAITING_NET_KEY_REPORT S2_ECHO_KEX_REPORT_RECV S2_NO_ACTION S2_INC_STATE_ANY;
  Row S2_AWAITING_NET_KEY_REPORT S2_NO_KEYS_GRANTED S2_SEND_FINAL_TRANSFER_END_ACTION S2_SENDING_FINAL_TRANSFER_END;
  Row S2_KEY_EXCHANGED S2_TRANSFER_END_RECV S2_SEND_NET_KEY_GET_ACTION S2_AWAITING_NET_KEY_REPORT;
  Row S2_KEY_EXCHANGED S2_INCLUSION_RETRY S2_RESEND_DATA_ACTION S2_INC_STATE_ANY;
  Row S2_KEY_EXCHANGED S2_KEX_GET_RECV S2_NO_ACTION S2_INC_STATE_ANY;
  Row S2_KEY_EXCHANGED S2_KEX_SET_RECV S2_NO_ACTION S2_INC_STATE_ANY;
  Row S2_KEY_EXCHANGED S2_PUB_KEY_RECV_A S2_NO_ACTION S2_INC_STATE_ANY;
  Row S2_KEY_EXCHANGED S2_ECHO_KEX_REPORT_RECV S2_NO_ACTION S2_INC_STATE_ANY;
  Row S2_KEY_EXCHANGED S2_NET_KEY_REPORT_RECV S2_NO_ACTION S2_INC_STATE_ANY;
  Row S2_KEY_EXCHANGED S2_SEND_FINAL_TRANSFER_END S2_SEND_FINAL_TRANSFER_END_ACTION S2_SENDING_FINAL_TRANSFER_END;
  Row S2_SENDING_FINAL_TRANSFER_END S2_INCLUSION_RETRY S2_RESEND_DATA_ACTION S2_INC_STATE_ANY;
  Row S2_SENDING_FINAL_TRANSFER_END S2_INCLUSION_SEND_DONE S2_JOINING_COMPLETE_ACTION S2_INC_IDLE;
  Row S2_SENDING_FINAL_TRANSFER_END S2_KEX_GET_RECV S2_NO_ACTION S2_INC_STATE_ANY;
  Row S2_SENDING_FINAL_TRANSFER_END S2_KEX_SET_RECV S2_NO_ACTION S2_INC_STATE_ANY;
  Row S2_SENDING_FINAL_TRANSFER_END S2_PUB_KEY_RECV_A S2_NO_ACTION S2_INC_STATE_ANY;
  Row S2_SENDING_FINAL_TRANSFER_END S2_ECHO_KEX_REPORT_RECV S2_NO_ACTION S2_INC_STATE_ANY;
  Row S2_SENDING_FINAL_TRANSFER_END S2_NET_KEY_REPORT_RECV S2_NO_ACTION S2_INC_STATE_ANY;
  Row S2_SENDING_FINAL_TRANSFER_END S2_SEND_FINAL_TRANSFER_END S2_NO_ACTION S2_INC_STATE_ANY;
  Row S2_SENDING_FINAL_TRANSFER_END S2_TRANSFER_END_RECV S2_NO_ACTION S2_INC_STATE_ANY;
  Row S2_ERROR_SENT S2_INCLUSION_SEND_DONE S2_ABORT_ACTION S2_INC_IDLE;
  Row S2_INC_IDLE S2_INCLUSION_TIMEOUT S2_NO_ACTION S2_INC_IDLE;
  Row S2_INC_IDLE S2_EVT_ANY S2_NO_ACTION S2_INC_IDLE;
  Row S2_INC_STATE_ANY S2_INCLUSION_TIMEOUT S2_ABORT_ACTION S2_INC_IDLE;
  Row S2_INC_STATE_ANY S2_INCLUSION_ERROR_SENT S2_NO_ACTION S2_ERROR_SENT;
  Row S2_INC_STATE_ANY S2_INCLUSION_ERROR_RECV S2_REMOTE_ERROR_ACTION S2_INC_IDLE;
  Row S2_INC_STATE_ANY S2_INCLUSION_ERROR S2_ABORT_ACTION S2_INC_IDLE;
  Row S2_INC_STATE_ANY S2_INCLUDING_DECRYPT_FAILED S2_NO_ACTION S2_INC_STATE_ANY;
  Row S2_INC_STATE_ANY S2_INCLUSION_SEND_DONE S2_NO_ACTION S2_INC_STATE_ANY;
  Row S2_INC_STATE_ANY S2_INCLUSION_SEND_FAILED S2_ABORT_ACTION S2_INC_IDLE;
  Row S2_INC_STATE_ANY S2_DISCOVERY_COMPLETE S2_NO_ACTION S2_INC_STATE_ANY;
  Row S2_INC_STATE_ANY S2_EVT_ANY S2_ABORT_ACTION S2_INC_IDLE
].

(** Length and encryption a received command must have, from KEX_GET on: least
    length, kind of rule, rule A, rule B. *)
Definition m_frame_rules : list (list Z) := [
  [SECURITY_2_KEX_GET_LENGTH; SINGLE_RULE_SUPPORT; NON_SECURE; NON_SECURE];
  [SECURITY_2_KEX_REPORT_LENGTH; ECHO_SUPPORT; NON_SECURE; TEMP_KEY_SECURE];
  [SECURITY_2_KEX_SET_LENGTH; ECHO_SUPPORT; NON_SECURE; TEMP_KEY_SECURE];
  [SECURITY_2_KEX_FAIL_LENGTH; DUAL_RULE_SUPPORT; NON_SECURE; TEMP_KEY_SECURE];
  [SECURITY_2_PUB_KEY_LENGTH; SINGLE_RULE_SUPPORT; NON_SECURE; NON_SECURE];
  [SECURITY_2_NET_KEY_GET_LENGTH; SINGLE_RULE_SUPPORT; TEMP_KEY_SECURE; TEMP_KEY_SECURE];
  [SECURITY_2_NET_KEY_REPORT_LENGTH; SINGLE_RULE_SUPPORT; TEMP_KEY_SECURE; TEMP_KEY_SECURE];
  [SECURITY_2_NET_KEY_VERIFY_LENGTH; SINGLE_RULE_SUPPORT; NETWORK_KEY_SECURE; NETWORK_KEY_SECURE];
  [SECURITY_2_TRANSFER_END_LENGTH; SINGLE_RULE_SUPPORT; TEMP_KEY_SECURE; TEMP_KEY_SECURE]
].

(** Key class and slot of the transport. *)
Definition m_key_slot_pair : list (Z * Z) :=
  [(KEY_CLASS_S2_UNAUTHENTICATED, 0); (KEY_CLASS_S2_AUTHENTICATED, 1); (KEY_CLASS_S2_ACCESS, 2);
   (KEY_CLASS_S2_AUTHENTICATED_LR, 3); (KEY_CLASS_S2_ACCESS_LR, 4)].

(** The key class a slot of the transport stands for. *)
Definition m_key_slot_key_class_pair : list Z :=
  [KEY_CLASS_S2_UNAUTHENTICATED; KEY_CLASS_S2_AUTHENTICATED; KEY_CLASS_S2_ACCESS; KEY_CLASS_S2_AUTHENTICATED;
   KEY_CLASS_S2_ACCESS; 0x00; KEY_CLASS_S0].

Definition s2_get_key_count : Z := Zlength m_key_slot_pair + 1.

(** ** Interfaces *)

(** What the key exchange asks of the S2 transport. *)
Class S2Link (L : Type) := {
  link_send_frame : s2_connection_t -> list Z -> L -> bool * L;
  link_send_data : s2_connection_t -> list Z -> L -> bool * L;
  link_key_update : Z -> list Z -> bool -> L -> L;
  link_unload_keys : L -> L
}.

(** What it asks of the key store. *)
Class KeyStore (K : Type) := {
  keystore_network_key_read : Z -> K -> option (list Z);
  keystore_network_key_write : Z -> list Z -> K -> K;
  keystore_network_key_clear : Z -> K -> K;
  keystore_private_key_read : K -> list Z
}.

Class Ecdh := {
  crypto_scalarmult_curve25519 : list Z -> list Z -> list Z;
  crypto_scalarmult_curve25519_base : list Z -> list Z
}.

(** A key of 32 bytes. *)
Definition keystore_public_key_read {K} `{KeyStore K} `{Ecdh} (k : K) : list Z :=
  take 32 (crypto_scalarmult_curve25519_base (keystore_private_key_read k)).

(** Events of s2_event.h. *)
Inductive zwave_event :=
| S2_NODE_INCLUSION_INITIATED_EVENT (peer : s2_connection_t)
| S2_NODE_INCLUSION_KEX_REPORT_EVENT (peer : s2_connection_t) (security_keys : Z) (csa : bool)
| S2_NODE_INCLUSION_PUBLIC_KEY_CHALLENGE_EVENT (peer : s2_connection_t) (granted_keys dsk_length : Z) (key : list Z)
| S2_NODE_INCLUSION_COMPLETE_EVENT (peer : s2_connection_t) (exchanged_keys : Z)
| S2_NODE_JOINING_COMPLETE_EVENT (peer : s2_connection_t) (exchanged_keys : Z)
| S2_NODE_INCLUSION_FAILED_EVENT (peer : s2_connection_t) (kex_fail_type : Z)
| S2_JOINING_COMPLETE_NEVER_STARTED_EVENT (peer : s2_connection_t) (exchanged_keys : Z).

(** Calls an event handler makes. *)
Inductive answer :=
| Key_grant (include keys csa : Z)
| Challenge_response (include : Z) (response : list Z)
| Inclusion_abort.

Definition event_handler := zwave_event -> list answer.
Definition s2_default_evt_handler : event_handler := fun _ => [].

(** Frames given to the transport, with its answer, and events given to the
    application. *)
Inductive incl_out :=
| Frame_out (peer : s2_connection_t) (frame : list Z) (taken : bool)
| Data_out (peer : s2_connection_t) (frame : list Z) (taken : bool)
| Event_out (e : zwave_event).

Record s2_incl (L K : Type) := mkIncl {
  csa_support : Z; kex_set_byte2 : Z; scheme_support : Z; curve_support : Z;
  key_granted : Z; key_exchange : Z; key_requested : Z; kex_report_keys : Z;
  inclusion_peer : s2_connection_t; rx_buf : list Z;
  inclusion_state : s2_inclusion_state_t; inclusion_mode : inclusion_mode_t; kex_fail_code : Z;
  inclusion_buf : list Z; inclusion_buf_length : Z; public_key : list Z;
  m_evt_handler : event_handler; m_schemes : Z; m_curves : Z; m_keys : Z;
  shared_secret : list Z; shared_key_mem : list Z; m_retry_counter : Z;
  incl_timer : option Z; link : L; keystore : K; incl_outs : list incl_out; hang : bool
}.
Arguments mkIncl {L K}.
Arguments csa_support {L K}.
Arguments kex_set_byte2 {L K}.
Arguments scheme_support {L K}.
Arguments curve_support {L K}.
Arguments key_granted {L K}.
Arguments key_exchange {L K}.
Arguments key_requested {L K}.
Arguments kex_report_keys {L K}.
Arguments inclusion_peer {L K}.
Arguments rx_buf {L K}.
Arguments inclusion_state {L K}.
Arguments inclusion_mode {L K}.
Arguments kex_fail_code {L K}.
Arguments inclusion_buf {L K}.
Arguments inclusion_buf_length {L K}.
Arguments public_key {L K}.
Arguments m_evt_handler {L K}.
Arguments m_schemes {L K}.
Arguments m_curves {L K}.
Arguments m_keys {L K}.
Arguments shared_secret {L K}.
Arguments shared_key_mem {L K}.
Arguments m_retry_counter {L K}.
Arguments incl_timer {L K}.
Arguments link {L K}.
Arguments keystore {L K}.
Arguments incl_outs {L K}.
Arguments hang {L K}.
#[export] Instance incl_eta L K : EtaRecord (s2_incl L K) := fun s =>
  mkIncl (csa_support s) (kex_set_byte2 s) (scheme_support s) (curve_support s) (key_granted s) (key_exchange s) (key_requested s) (kex_report_keys s) (inclusion_peer s) (rx_buf s) (inclusion_state s) (inclusion_mode s) (kex_fail_code s) (inclusion_buf s) (inclusion_buf_length s) (public_key s) (m_evt_handler s) (m_schemes s) (m_curves s) (m_keys s) (shared_secret s) (shared_key_mem s) (m_retry_counter s) (incl_timer s) (link s) (keystore s) (incl_outs s) (hang s).

(** ** Operations *)

Section Inclusion.
Context {L K : Type} `{BlockCipher} `{S2Link L} `{KeyStore K} `{Ecdh}.
(** The four bytes that lie behind [m_frame_rules] in memory. *)
Context (behind_rules : list Z).

Abbreviation incl := (s2_incl L K).
Implicit Types st : incl.

Definition incl_emit (o : incl_out) st : incl := st <| incl_outs := incl_outs st ++ [o] |>.
Definition s2_inclusion_set_timeout (t : Z) st : incl := st <| incl_timer := Some t |>.
Definition s2_inclusion_stop_timeout st : incl := st <| incl_timer := None |>.
Definition set_inclusion_state (s : s2_inclusion_state_t) st : incl := st <| inclusion_state := s |>.
Definition set_retry_counter (n : Z) st : incl := st <| m_retry_counter := n |>.

(** [frame] at the start of the frame buffer, to be sent with [len] bytes. *)
Definition fill_frame (frame : list Z) (len : Z) st : incl :=
  st <| inclusion_buf := memcpy_at (inclusion_buf st) 0 frame |> <| inclusion_buf_length := len |>.

(** Bytes of the received frame. *)
Definition rx st (pos : Z) : Z := rd (rx_buf st) pos.
Definition rx_command st : Z := rx st SECURITY_2_COMMAND_POS.
Definition rx_public_key st : list Z := sub_buf (rx_buf st) SECURITY_2_PUB_KEY_KEY_POS 32.

Definition current_frame st : list Z := sub_buf (inclusion_buf st) 0 (inclusion_buf_length st).

Definition count_send (taken : bool) st : incl :=
  set_retry_counter (if taken then u8 (m_retry_counter st - 1) else QUEUE_FULL) st.

Definition s2_inclusion_send_frame st : incl :=
  let '(taken, l) := link_send_frame (inclusion_peer st) (current_frame st) (link st) in
  count_send taken (incl_emit (Frame_out (inclusion_peer st) (current_frame st) taken) (st <| link := l |>)).

(** S2_send_data itself: the connection is passed by reference and gets the
    long range key class of a long range node. *)
Definition send_data_call st : bool * incl :=
  let c := if IS_LR_NODE (r_node (inclusion_peer st)) then convert_normal_to_lr_keyclass (inclusion_peer st) else inclusion_peer st in
  let '(taken, l) := link_send_data c (current_frame st) (link st) in
  (taken, incl_emit (Data_out c (current_frame st) taken) (st <| link := l |> <| inclusion_peer := c |>)).

Definition s2_inclusion_send_data st : incl :=
  let '(taken, st) := send_data_call st in count_send taken st.

Definition key_update (slot : Z) (key : list Z) (temp_key_expand : bool) st : incl :=
  st <| link := link_key_update slot (take 16 key) temp_key_expand (link st) |>.

Definition restore_key st (pair : Z * Z) : incl :=
  match keystore_network_key_read (fst pair) (keystore st) with
  | Some k =>
      let st := st <| shared_key_mem := memcpy_at (shared_key_mem st) 0 (take 16 k) |> in
      key_update (snd pair) (shared_key_mem st) false st
  | None => st
  end.

(** The last line clears sizeof(NETWORK_KEY_SIZE) bytes: the size of an int. *)
Definition SIZEOF_INT : nat := 4.
Definition s2_restore_keys st : incl :=
  let st := st <| link := link_unload_keys (link st) |> in
  let st := fold_left restore_key m_key_slot_pair st in
  st <| shared_key_mem := memcpy_at (shared_key_mem st) 0 (zeros SIZEOF_INT) |>.

Definition inclusion_failed_frame_send (error secure : Z) st : incl :=
  let st := fill_frame [COMMAND_CLASS_SECURITY_2; KEX_FAIL; error] SECURITY_2_KEX_FAIL_LENGTH (st <| kex_fail_code := error |>) in
  let st := set_retry_counter MAX_RETRY_COUNT st in
  if secure =? TEMP_KEY_SECURE then
    s2_inclusion_send_data (st <| inclusion_peer; con_class_id := TEMP_KEY_SECURE |> <| inclusion_peer; tx_options := 0 |>)
  else s2_inclusion_send_frame st.

(** To the peer, under slot [slot] of the transport. *)
Definition address (slot options : Z) st : incl :=
  st <| inclusion_peer; con_class_id := slot |> <| inclusion_peer; tx_options := options |>.

(** *** Validation *)

Definition validate_echo_kex_report st : bool * incl :=
  if (m_schemes st =? rx st SECURITY_2_KEX_SCHEME_POS) && (m_curves st =? rx st SECURITY_2_KEX_CURVE_POS)
     && (m_keys st =? rx st SECURITY_2_KEX_KEYS_POS)
     && (Z.lor (csa_support st) SECURITY_2_ECHO_ON =? rx st SECURITY_2_KEX_ECHO_POS)
  then (true, st) else (false, inclusion_failed_frame_send KEX_FAIL_AUTH NON_SECURE st).

Definition validate_reported_schemes st : bool * incl :=
  let st := st <| scheme_support := Z.land (rx st SECURITY_2_KEX_SCHEME_POS) SECURITY_2_SCHEME_SUPPORT_MASK |> in
  if has (scheme_support st) SECURITY_2_SCHEME_1_SUPPORT then (true, st)
  else (false, inclusion_failed_frame_send KEX_FAIL_KEX_SCHEME NON_SECURE st).

Definition validate_reported_curves st : bool * incl :=
  let st := st <| curve_support := Z.land (rx st SECURITY_2_KEX_CURVE_POS) KEX_REPORT_CURVE_MASK |> in
  if has (curve_support st) KEX_REPORT_CURVE_25519 then (true, st)
  else (false, inclusion_failed_frame_send KEX_FAIL_KEX_CURVES NON_SECURE st).

(** Keys a long range node cannot have. *)
Definition lr_invalid_keys : Z := Z.lor KEY_CLASS_S2_UNAUTHENTICATED KEY_CLASS_S0.

Definition validate_reported_keys st : bool * incl :=
  let keys := rx st SECURITY_2_KEX_KEYS_POS in
  let exchange := if IS_LR_NODE (r_node (inclusion_peer st)) then Z.land keys (Z.lnot lr_invalid_keys) else keys in
  let st := st <| kex_report_keys := keys |> <| key_exchange := exchange |>
               <| key_granted := Z.land exchange SECURITY_2_KEY_MASK |> in
  if negb (key_granted st =? 0) then (true, st)
  else (false, inclusion_failed_frame_send KEX_FAIL_KEX_KEY NON_SECURE st).

(** At most one bit of [x] is set. *)
Definition single_bit (x : Z) : bool := Z.land x (x - 1) =? 0.

Definition validate_requested_key st : bool * incl :=
  let req_key := rx st 2 in
  if single_bit req_key && has req_key (key_granted st) then (true, st <| key_requested := req_key |>)
  else (false, inclusion_failed_frame_send KEX_FAIL_KEY_GET NON_SECURE (st <| key_requested := 0 |>)).

Definition mode_code (m : inclusion_mode_t) : Z := match m with INCLUSION_MODE_CSA => 0 | INCLUSION_MODE_SSA => 1 end.

(** The last condition is [(mode == csa_bit) ? INCLUSION_MODE_CSA : INCLUSION_MODE_SSA]:
    the conditional operator binds weaker than the comparison. *)
Definition validate_echo_kex_set st : bool * incl :=
  let csa_bit := Z.b2z (Z.land (rx st SECURITY_2_KEX_ECHO_POS) SECURITY_2_CSA_ON =? SECURITY_2_CSA_ON) in
  let last := if mode_code (inclusion_mode st) =? csa_bit then INCLUSION_MODE_CSA else INCLUSION_MODE_SSA in
  if (scheme_support st =? rx st SECURITY_2_KEX_SCHEME_POS) && (curve_support st =? rx st SECURITY_2_KEX_CURVE_POS)
     && (key_granted st =? rx st SECURITY_2_KEX_KEYS_POS) && truth (mode_code last)
  then (true, st) else (false, inclusion_failed_frame_send KEX_FAIL_AUTH NON_SECURE st).

(** *** Actions

    [process] is the handling of an event raised from within an action. *)

Section Actions.
Context (process : Z -> incl -> incl).

Definition give_answer st (a : answer) : incl :=
  match a with
  | Key_grant include keys csa =>
      if include =? ACCEPT_INCLUSION then
        process S2_INCLUDING_ACCEPT
          (st <| inclusion_mode := if truth csa then INCLUSION_MODE_CSA else INCLUSION_MODE_SSA |> <| key_granted := u8 keys |>)
      else process S2_INCLUDING_REJECT st
  | Challenge_response include response =>
      if include =? ACCEPT_INCLUSION then
        process S2_INCLUDING_ACCEPT (st <| public_key := memcpy_at (public_key st) 0 response |>)
      else process S2_INCLUDING_REJECT st
  | Inclusion_abort => process S2_INCLUDING_REJECT st
  end.

Definition push_event (e : zwave_event) st : incl :=
  fold_left give_answer (m_evt_handler st e) (incl_emit (Event_out e) st).

Definition inclusion_failed_evt_push (fail_type : Z) st : incl :=
  let st := s2_restore_keys (s2_inclusion_stop_timeout st) in
  push_event (S2_NODE_INCLUSION_FAILED_EVENT (inclusion_peer st) fail_type) st.

Definition remote_inclusion_failed_evt_push st : incl := inclusion_failed_evt_push (rx st 2) st.

Definition send_kex_fail (error : Z) st : incl :=
  process S2_INCLUSION_ERROR_SENT (inclusion_failed_frame_send error NON_SECURE st).

(** Joining side. *)

Definition s2_joining_start st : incl :=
  s2_inclusion_set_timeout TB0_TIMEOUT (st <| inclusion_peer; tx_options := 0 |>).

Definition s2_send_kex_report st : incl :=
  let st := s2_inclusion_stop_timeout st in
  let st := st <| keystore := keystore_network_key_clear KEY_CLASS_ALL (keystore st) |> in
  let st := push_event (S2_NODE_INCLUSION_INITIATED_EVENT (inclusion_peer st)) st in
  let st := st <| csa_support := if bool_decide (inclusion_mode st = INCLUSION_MODE_CSA) then SECURITY_2_CSA_ON else 0 |> in
  let st := fill_frame [COMMAND_CLASS_SECURITY_2; KEX_REPORT; Z.lor (csa_support st) SECURITY_2_ECHO_OFF; m_schemes st; m_curves st; m_keys st]
              SECURITY_2_KEX_REPORT_LENGTH st in
  s2_inclusion_set_timeout TB2_TIMEOUT (s2_inclusion_send_frame (set_retry_counter MAX_RETRY_COUNT st)).

(** The public key of this node, its first [hidden] bytes sent as zeros. *)
Definition public_key_frame (flag hidden : Z) st : list Z :=
  let key := keystore_public_key_read (keystore st) in
  [COMMAND_CLASS_SECURITY_2; PUBLIC_KEY_REPORT; flag] ++ memcpy_at key 0 (zeros (Z.to_nat hidden)).

Definition s2_send_pub_key_b st : incl :=
  let st := s2_inclusion_stop_timeout st in
  let scheme := rx st SECURITY_2_KEX_SCHEME_POS in
  if negb (single_bit scheme && has scheme (m_schemes st)) then send_kex_fail KEX_FAIL_KEX_SCHEME st
  else
  let st := st <| scheme_support := scheme |> in
  let curve := rx st SECURITY_2_KEX_CURVE_POS in
  if negb (single_bit curve && has curve (m_curves st)) then send_kex_fail KEX_FAIL_KEX_CURVES st
  else
  let st := st <| curve_support := curve |> in
  let keys := rx st SECURITY_2_KEX_KEYS_POS in
  if negb (Z.land (Z.lnot (m_keys st)) keys =? 0) then send_kex_fail KEX_FAIL_KEX_KEY st
  else
  let st := st <| key_granted := keys |> in
  let csa := has (rx st SECURITY_2_KEX_ECHO_POS) SECURITY_2_CSA_ON in
  if csa && negb (bool_decide (inclusion_mode st = INCLUSION_MODE_CSA)) then send_kex_fail KEX_FAIL_KEX_KEY st
  else
  let st := if csa then st else st <| inclusion_mode := INCLUSION_MODE_SSA |> in
  let st := st <| key_granted := keys |> <| key_exchange := 1 |> <| kex_set_byte2 := rx st SECURITY_2_KEX_ECHO_POS |> in
  let hidden := if bool_decide (inclusion_mode st = INCLUSION_MODE_SSA) && has (key_granted st) (Z.lnot lr_invalid_keys)
                then 2 else 0 in
  let st := fill_frame (public_key_frame SECURITY_2_JOINING_NODE hidden st) SECURITY_2_PUB_KEY_LENGTH st in
  s2_inclusion_set_timeout TB3_TIMEOUT (s2_inclusion_send_frame (set_retry_counter MAX_RETRY_COUNT st)).

Definition s2_send_echo_kex_set st : incl :=
  let st := s2_inclusion_stop_timeout st in
  let st := set_retry_counter (u8 (m_retry_counter st - 1)) st in
  let st := fill_frame [COMMAND_CLASS_SECURITY_2; KEX_SET; Z.lor (kex_set_byte2 st) SECURITY_2_ECHO_ON; scheme_support st; curve_support st; key_granted st]
              SECURITY_2_KEX_SET_LENGTH st in
  s2_inclusion_set_timeout TB5_TIMEOUT (snd (send_data_call (address TEMP_KEY_SECURE S2_TXOPTION_VERIFY_DELIVERY st))).

(** The user must enter the part of the DSK that was hidden. *)
Definition dsk_length (mode : inclusion_mode_t) (len : Z) st : Z :=
  if has (key_granted st) (Z.lor SECURITY_2_SECURITY_2_CLASS_1 SECURITY_2_SECURITY_2_CLASS_2)
     && bool_decide (inclusion_mode st = mode) then len else 0.

Definition s2_pub_key_a_recv st : incl :=
  let st := s2_inclusion_set_timeout TBI1_TIMEOUT (s2_inclusion_stop_timeout st) in
  let st := st <| public_key := memcpy_at (public_key st) 0 (rx_public_key st) |> in
  push_event (S2_NODE_INCLUSION_PUBLIC_KEY_CHALLENGE_EVENT (inclusion_peer st) (key_granted st)
                (dsk_length INCLUSION_MODE_CSA DSK_CSA_CHALLENGE_LENGTH st) (rx_public_key st)) st.

(** The flags of a Transfer End: the key is verified and more may follow. *)
Definition transfer_end_flags st : Z := Z.land (rx st 2) (Z.lor SECURITY_2_KEY_REQ_COMPLETE SECURITY_2_KEY_VERIFIED).
Definition bad_transfer_end st : bool :=
  (rx_command st =? SECURITY_2_TRANSFER_END) && negb (transfer_end_flags st =? SECURITY_2_KEY_VERIFIED).

Definition key_verify_failed st : incl :=
  process S2_INCLUSION_ERROR (inclusion_failed_frame_send KEX_FAIL_KEY_VERIFY NON_SECURE st).

(** [while (0 == (key_exchange & key_granted)) key_exchange <<= 1]: the first of
    the granted keys from [exchange] on, nothing when a byte has none left, which
    is where the loop does not end. *)
Fixpoint next_granted (fuel : nat) (exchange granted : Z) : option Z :=
  if has exchange granted then Some exchange
  else match fuel with
       | O => None
       | S fuel => next_granted fuel (u8 (Z.shiftl exchange 1)) granted
       end.
Definition KEY_BITS : nat := 8.

Definition s2_send_net_key_get st : incl :=
  let st := s2_inclusion_stop_timeout st in
  let '(ok, st') := if rx_command st =? KEX_REPORT then validate_echo_kex_report st else (true, st) in
  if negb ok then process S2_INCLUSION_ERROR_SENT st'
  else if bad_transfer_end st then key_verify_failed st
  else if key_granted st =? 0 then process S2_NO_KEYS_GRANTED st
  else
  match next_granted KEY_BITS (key_exchange st) (key_granted st) with
  | None => st <| hang := true |>
  | Some k =>
      let st := st <| key_exchange := k |> in
      let st := fill_frame [COMMAND_CLASS_SECURITY_2; SECURITY_2_NETWORK_KEY_GET; key_exchange st] SECURITY_2_NET_KEY_GET_LENGTH st in
      let st := set_retry_counter MAX_RETRY_COUNT (address TEMP_KEY_SECURE S2_TXOPTION_VERIFY_DELIVERY st) in
      s2_inclusion_set_timeout TB5_TIMEOUT (s2_inclusion_send_data st)
  end.

Definition s2_send_net_key_verify st : incl :=
  let st := s2_inclusion_stop_timeout st in
  let received_key := rx st 2 in
  if negb (received_key =? key_exchange st) then send_kex_fail KEX_FAIL_KEY_REPORT st
  else
  let key := sub_buf (rx_buf st) SECURITY_2_NET_KEY_REP_KEY_POS 16 in
  let st := st <| keystore := keystore_network_key_write received_key key (keystore st) |>
               <| key_exchange := u8 (Z.shiftl (key_exchange st) 1) |> in
  let st := key_update NETWORK_KEY_SECURE key false st in
  let st := fill_frame [COMMAND_CLASS_SECURITY_2; SECURITY_2_NETWORK_KEY_VERIFY] SECURITY_2_NET_KEY_VERIFY_LENGTH st in
  let st := set_retry_counter MAX_RETRY_COUNT (address NETWORK_KEY_SECURE 0 st) in
  s2_inclusion_set_timeout TB7_TIMEOUT (s2_inclusion_send_data st).

Definition s2_send_final_transfer_end st : incl :=
  let st := s2_inclusion_stop_timeout st in
  if bad_transfer_end st then key_verify_failed st
  else
  let st := fill_frame [COMMAND_CLASS_SECURITY_2; SECURITY_2_TRANSFER_END; SECURITY_2_KEY_REQ_COMPLETE] SECURITY_2_TRANSFER_END_LENGTH st in
  s2_inclusion_send_data (set_retry_counter MAX_RETRY_COUNT (address TEMP_KEY_SECURE 0 st)).

Definition s2_joining_complete (complete_type : s2_connection_t -> Z -> zwave_event) st : incl :=
  let st := s2_restore_keys st in
  push_event (complete_type (inclusion_peer st) (key_granted st)) st.

(** The temporary key of the two public keys and the secret they share. *)
Definition temp_key st : list Z := tempkey_extract (shared_secret st) (shared_key_mem st).
Definition install_temp_key st : incl :=
  let st := st <| public_key := memcpy_at (public_key st) 0 (temp_key st) |> in
  key_update TEMP_KEY_SECURE (public_key st) true st.

Definition calc_shared_secret st : incl :=
  let st := st <| shared_key_mem := memcpy_at (shared_key_mem st) 0 (keystore_private_key_read (keystore st)) |> in
  st <| shared_secret := crypto_scalarmult_curve25519 (take 32 (shared_key_mem st)) (public_key st) |>.

Definition s2_do_ecdh_calc_b st : incl :=
  let st := calc_shared_secret st in
  let st := st <| shared_key_mem := memcpy_at (shared_key_mem st) 0 (public_key st) |> in
  let st := st <| shared_key_mem := memcpy_at (shared_key_mem st) 32 (keystore_public_key_read (keystore st)) |> in
  s2_send_echo_kex_set (set_retry_counter (TBI1_TIMEOUT / TB5_TIMEOUT) (install_temp_key st)).

(** Including side. *)

Definition s2_do_ecdh_calc_a st : incl :=
  let st := calc_shared_secret st in
  let st := st <| shared_key_mem := memcpy_at (shared_key_mem st) 32 (public_key st) |> in
  let st := st <| shared_key_mem := memcpy_at (shared_key_mem st) 0 (keystore_public_key_read (keystore st)) |> in
  install_temp_key st.

Definition s2_send_kex_get st : incl :=
  let st := fill_frame [COMMAND_CLASS_SECURITY_2; KEX_GET] SECURITY_2_KEX_GET_LENGTH st in
  s2_inclusion_set_timeout TA1_TIMEOUT (s2_inclusion_send_frame (set_retry_counter MAX_RETRY_COUNT st)).

Definition s2_kex_rep_recv st : incl :=
  let '(ok, st) := validate_reported_schemes (s2_inclusion_stop_timeout st) in
  if negb ok then process S2_INCLUSION_ERROR_SENT st else
  let '(ok, st) := validate_reported_curves st in
  if negb ok then process S2_INCLUSION_ERROR_SENT st else
  let '(ok, st) := validate_reported_keys st in
  if negb ok then process S2_INCLUSION_ERROR_SENT st else
  let st := st <| csa_support := rx st SECURITY_2_KEX_ECHO_POS |> in
  let csa := negb (Z.land (rx st SECURITY_2_KEX_ECHO_POS) 2 =? 0) in
  let st := push_event (S2_NODE_INCLUSION_KEX_REPORT_EVENT (inclusion_peer st) (key_granted st) csa) st in
  s2_inclusion_set_timeout TAI1_TIMEOUT st.

Definition s2_send_kex_set st : incl :=
  let st := s2_inclusion_stop_timeout st in
  let echo := if bool_decide (inclusion_mode st = INCLUSION_MODE_CSA)
              then Z.lor SECURITY_2_ECHO_OFF SECURITY_2_CSA_ON else SECURITY_2_ECHO_OFF in
  let st := fill_frame [COMMAND_CLASS_SECURITY_2; KEX_SET; echo; SECURITY_2_SCHEME_1_SUPPORT; KEX_REPORT_CURVE_25519; key_granted st]
              SECURITY_2_KEX_SET_LENGTH st in
  s2_inclusion_set_timeout TA2_TIMEOUT (s2_inclusion_send_frame (set_retry_counter MAX_RETRY_COUNT st)).

Definition s2_send_transfer_end st : incl :=
  let st := s2_inclusion_stop_timeout st in
  let st := key_update TEMP_KEY_SECURE (public_key st) true st in
  let st := fill_frame [COMMAND_CLASS_SECURITY_2; SECURITY_2_TRANSFER_END; SECURITY_2_KEY_VERIFIED] SECURITY_2_TRANSFER_END_LENGTH st in
  let st := set_retry_counter MAX_RETRY_COUNT (address TEMP_KEY_SECURE 0 st) in
  s2_inclusion_set_timeout TA6_TIMEOUT (s2_inclusion_send_data st).

Definition s2_send_pub_key_a st : incl :=
  let st := s2_inclusion_stop_timeout st in
  let e := S2_NODE_INCLUSION_PUBLIC_KEY_CHALLENGE_EVENT (inclusion_peer st) (key_granted st)
             (dsk_length INCLUSION_MODE_SSA DSK_SSA_CHALLENGE_LENGTH st) (rx_public_key st) in
  let st := push_event e (st <| public_key := memcpy_at (public_key st) 0 (rx_public_key st) |>) in
  let hidden := if bool_decide (inclusion_mode st = INCLUSION_MODE_CSA) && has (key_granted st) (Z.lnot lr_invalid_keys)
                then 4 else 0 in
  let st := fill_frame (public_key_frame SECURITY_2_INCLUDING_NODE hidden st) SECURITY_2_PUB_KEY_LENGTH st in
  s2_inclusion_set_timeout TAI2_TIMEOUT (s2_inclusion_send_frame (set_retry_counter MAX_RETRY_COUNT st)).

Definition s2_send_echo_kex_report st : incl :=
  let '(ok, st) := validate_echo_kex_set (s2_inclusion_stop_timeout st) in
  if negb ok then process S2_INCLUSION_ERROR_SENT st else
  let st := fill_frame [COMMAND_CLASS_SECURITY_2; KEX_REPORT; Z.lor (csa_support st) SECURITY_2_ECHO_ON; scheme_support st; curve_support st; kex_report_keys st]
              SECURITY_2_KEX_REPORT_LENGTH (st <| key_exchange := 0 |>) in
  let st := set_retry_counter MAX_RETRY_COUNT (address TEMP_KEY_SECURE S2_TXOPTION_VERIFY_DELIVERY st) in
  s2_inclusion_set_timeout TA4_TIMEOUT (s2_inclusion_send_data st).

(** A long range node that asks for the authenticated or access key gets the long
    range key of that class. *)
Definition translate_keyslot_to_read_for_LR st : Z :=
  let slot := rd (inclusion_buf st) 2 in
  if IS_LR_NODE (r_node (inclusion_peer st)) then
    if slot =? KEY_CLASS_S2_AUTHENTICATED then KEY_CLASS_S2_AUTHENTICATED_LR
    else if slot =? KEY_CLASS_S2_ACCESS then KEY_CLASS_S2_ACCESS_LR
    else slot
  else slot.

Definition s2_send_net_key_report st : incl :=
  let '(ok, st) := validate_requested_key (s2_inclusion_stop_timeout st) in
  if negb ok then process S2_INCLUSION_ERROR_SENT st else
  let st := st <| key_exchange := Z.lor (key_exchange st) (rx st 2) |> in
  let st := fill_frame [COMMAND_CLASS_SECURITY_2; SECURITY_2_NETWORK_KEY_REPORT; rx st 2] SECURITY_2_NET_KEY_REPORT_LENGTH st in
  let st := match keystore_network_key_read (translate_keyslot_to_read_for_LR st) (keystore st) with
            | Some k => st <| inclusion_buf := memcpy_at (inclusion_buf st) SECURITY_2_NET_KEY_REP_KEY_POS (take 16 k) |>
            | None => st
            end in
  let st := set_retry_counter MAX_RETRY_COUNT (address TEMP_KEY_SECURE 0 st) in
  let st := s2_inclusion_set_timeout TA5_TIMEOUT (s2_inclusion_send_data st) in
  if rd (inclusion_buf st) 2 =? SECURITY_2_SECURITY_0_NETWORK_KEY
  then key_update NETWORK_KEY_SECURE (drop 3 (inclusion_buf st)) false st else st.

Definition s2_inclusion_complete st : incl :=
  if (rx_command st =? SECURITY_2_TRANSFER_END) && (transfer_end_flags st =? SECURITY_2_KEY_REQ_COMPLETE) then
    let st := s2_restore_keys (s2_inclusion_stop_timeout st) in
    push_event (S2_NODE_INCLUSION_COMPLETE_EVENT (inclusion_peer st) (key_exchange st)) st
  else inclusion_failed_evt_push KEX_FAIL_KEY_VERIFY (inclusion_failed_frame_send KEX_FAIL_KEY_VERIFY NON_SECURE st).

Definition s2_check_no_keys st : incl :=
  if truth (key_granted st) then inclusion_failed_evt_push (kex_fail_code st) st else s2_inclusion_complete st.

Definition run_action (a : s2_action_t) st : incl :=
  match a with
  | S2_NO_ACTION => st
  | S2_REMOTE_ERROR_ACTION => remote_inclusion_failed_evt_push st
  | S2_ABORT_ACTION => inclusion_failed_evt_push (kex_fail_code st) st
  | S2_JOINING_START_ACTION => s2_joining_start st
  | S2_TIMEOUT_TB1_SET_ACTION => s2_inclusion_set_timeout TB1_TIMEOUT (s2_inclusion_stop_timeout st)
  | S2_SEND_KEX_REPORT_ACTION => s2_send_kex_report st
  | S2_SEND_PUB_KEY_B_ACTION => s2_send_pub_key_b st
  | S2_PUB_KEY_A_RECV_ACTION => s2_pub_key_a_recv st
  | S2_DO_ECDH_CALC_B_ACTION => s2_do_ecdh_calc_b st
  | S2_SEND_ECHO_KEX_SET_ACTION => s2_send_echo_kex_set st
  | S2_SEND_NET_KEY_GET_ACTION => s2_send_net_key_get st
  | S2_SEND_NET_KEY_VERIFY_ACTION => s2_send_net_key_verify st
  | S2_SEND_FINAL_TRANSFER_END_ACTION => s2_send_final_transfer_end st
  | S2_JOINING_COMPLETE_ACTION => s2_joining_complete S2_NODE_JOINING_COMPLETE_EVENT st
  | S2_JOINING_NEVER_STARTED_ACTION => s2_joining_complete S2_JOINING_COMPLETE_NEVER_STARTED_EVENT st
  | S2_RESEND_FRAME_ACTION => s2_inclusion_send_frame st
  | S2_RESEND_DATA_ACTION => s2_inclusion_send_data st
  | S2_CHECK_NO_KEYS => s2_check_no_keys st
  | S2_SEND_KEX_GET_ACTION => s2_send_kex_get st
  | S2_KEX_REP_RECV_ACTION => s2_kex_rep_recv st
  | S2_SEND_KEX_SET_ACTION => s2_send_kex_set st
  | S2_SEND_PUB_KEY_A_ACTION => s2_send_pub_key_a st
  | S2_DO_ECDH_CALC_A_ACTION => s2_do_ecdh_calc_a st
  | S2_SEND_ECHO_KEX_REPORT_ACTION => s2_send_echo_kex_report st
  | S2_SEND_ERROR_DECRYPT_ACTION => inclusion_failed_frame_send KEX_FAIL_DECRYPT NON_SECURE st
  | S2_SEND_ERROR_CANCEL_ACTION => inclusion_failed_frame_send KEX_FAIL_CANCEL NON_SECURE st
  | S2_SEND_NET_KEY_REPORT_ACTION => s2_send_net_key_report st
  | S2_SEND_TRANSFER_END_ACTION => s2_send_transfer_end st
  | S2_INCLUSION_COMPLETE_ACTION => s2_inclusion_complete st
  end.
End Actions.

Definition row_matches (s : s2_inclusion_state_t) (evt : Z) (r : s2_transition_t) : bool :=
  (bool_decide (s = t_state r) || bool_decide (t_state r = S2_INC_STATE_ANY))
  && ((evt =? t_event r) || (t_event r =? S2_EVT_ANY)).

Definition table_row (s : s2_inclusion_state_t) (evt : Z) : option s2_transition_t :=
  List.find (row_matches s evt) s2_transition_table.

Definition enter_state (s : s2_inclusion_state_t) st : incl :=
  if bool_decide (s = S2_INC_STATE_ANY) then st else set_inclusion_state s st.

(** Actions raise further events; [depth] bounds how deep. *)
Fixpoint process_event_to (depth : nat) (evt : Z) st : incl :=
  match depth with
  | O => st <| hang := true |>
  | S depth =>
      match table_row (inclusion_state st) evt with
      | Some r => run_action (process_event_to depth) (t_action r) (enter_state (t_new_state r) st)
      | None => st
      end
  end.
Definition EVENT_DEPTH : nat := 4.
Definition process_event : Z -> incl -> incl := process_event_to EVENT_DEPTH.

(** *** Interface *)

Definition s2_inclusion_set_event_handler (h : event_handler) st : incl := st <| m_evt_handler := h |>.

Definition s2_inclusion_challenge_response (include : Z) (response : list Z) st : incl :=
  give_answer process_event st (Challenge_response include response).
Definition s2_inclusion_key_grant (include keys csa : Z) st : incl :=
  give_answer process_event st (Key_grant include keys csa).
Definition s2_inclusion_abort st : incl := give_answer process_event st Inclusion_abort.

Definition s2_inclusion_including_start (conn : s2_connection_t) st : incl :=
  if bool_decide (inclusion_state st = S2_INC_IDLE) then
    process_event S2_INCLUDING_START
      (st <| inclusion_peer := conn <| tx_options := 0 |> |> <| inclusion_mode := INCLUSION_MODE_SSA |> <| kex_fail_code := 0 |>)
  else st.

Definition s2_inclusion_joining_start (conn : s2_connection_t) (csa : Z) st : incl :=
  let st := st <| inclusion_peer := conn |> <| inclusion_mode := if truth csa then INCLUSION_MODE_CSA else INCLUSION_MODE_SSA |>
               <| kex_fail_code := 0 |> in
  let st := if IS_LR_NODE (l_node (inclusion_peer st)) then st <| m_keys := Z.land (m_keys st) (Z.lnot lr_invalid_keys) |> else st in
  process_event S2_JOINING_START st.

Definition s2_inclusion_neighbor_discovery_complete st : incl := process_event S2_DISCOVERY_COMPLETE st.

Definition frame_rule (index : Z) : list Z := default behind_rules (m_frame_rules !! Z.to_nat index).

Definition auth_failed st : incl :=
  process_event S2_INCLUSION_ERROR_SENT (inclusion_failed_frame_send KEX_FAIL_AUTH NON_SECURE st).

(** The encryption a frame came with is the one its rule asks for. *)
Definition crypt_rule_ok (rule : list Z) st : bool :=
  let class := con_class_id (inclusion_peer st) in
  let crypt_rule := if (rd rule 1 =? ECHO_SUPPORT) && has (rx st SECURITY_2_KEX_ECHO_POS) SECURITY_2_ECHO_ON then rd rule 3 else rd rule 2 in
  if crypt_rule =? NETWORK_KEY_SECURE then
    negb ((Zlength m_key_slot_key_class_pair <=? class)
          || (negb (key_requested st =? rd m_key_slot_key_class_pair class)
              && (Z.land (key_exchange st) (rd m_key_slot_key_class_pair class) =? 0)))
  else (crypt_rule =? class) || ((rd rule 1 =? DUAL_RULE_SUPPORT) && (class =? rd rule 3)).

(** The event of the received frame. *)
Definition frame_event st : Z :=
  let event := rx_command st in
  if (event =? KEX_SET) || (event =? KEX_REPORT) then
    Z.lor event (Z.shiftl (Z.land (rx st SECURITY_2_KEX_ECHO_POS) SECURITY_2_ECHO_ON) 8)
  else if event =? PUBLIC_KEY_REPORT then Z.lor event (Z.shiftl (Z.land (rx st 2) SECURITY_2_INCLUDING_NODE) 8)
  else if event =? SECURITY_2_NETWORK_KEY_VERIFY then
    if key_exchange st =? key_granted st then S2_NET_KEY_VERIFY_FINAL_RECV else S2_NET_KEY_VERIFY_RECV
  else if event =? SECURITY_2_TRANSFER_END then
    if has (- key_exchange st) (key_granted st) then S2_TRANSFER_END_RECV else S2_SEND_FINAL_TRANSFER_END
  else event.

Definition s2_inclusion_post_event_internal st : incl :=
  let index := u8 (rx_command st - KEX_GET) in
  if (Zlength m_frame_rules <? index) || bool_decide (inclusion_state st = S2_INC_IDLE) then st
  else if Zlength (rx_buf st) <? rd (frame_rule index) 0 then process_event S2_INCLUSION_ERROR st
  else if negb (crypt_rule_ok (frame_rule index) st) then auth_failed st
  else process_event (frame_event st) st.

(** [frame] is what the transport left in the context for this call. *)
Definition s2_inclusion_post_event (src : s2_connection_t) (frame : list Z) st : incl :=
  let st := st <| rx_buf := frame |> in
  if is_multicast src then st
  else
  let st := if bool_decide (inclusion_state st = S2_AWAITING_KEX_GET) then st <| inclusion_peer := src |> else st in
  if r_node (inclusion_peer st) =? r_node src then
    s2_inclusion_post_event_internal (st <| inclusion_peer; con_class_id := con_class_id src |>)
  else st.

(** The timer runs out. *)
Definition s2_inclusion_notify_timeout st : incl :=
  let st := s2_inclusion_stop_timeout st in
  if bool_decide (inclusion_state st = S2_ECHO_KEX_SET_SENDING)
     && negb ((m_retry_counter st =? NO_RETRIES) || (m_retry_counter st =? QUEUE_FULL))
  then process_event S2_INCLUSION_RETRY st else process_event S2_INCLUSION_TIMEOUT st.

Definition s2_inclusion_send_done (status : bool) st : incl :=
  if m_retry_counter st =? QUEUE_FULL then process_event S2_INCLUSION_RETRY (set_retry_counter MAX_RETRY_COUNT st)
  else if (NO_RETRIES <? m_retry_counter st) && negb (bool_decide (inclusion_state st = S2_ECHO_KEX_SET_SENDING))
  then process_event (if status then S2_INCLUSION_SEND_DONE else S2_INCLUSION_RETRY) st
  else process_event (if status then S2_INCLUSION_SEND_DONE else S2_INCLUSION_SEND_FAILED) st.

Definition s2_inclusion_decryption_failure (src : s2_connection_t) st : incl :=
  if r_node src =? r_node (inclusion_peer st) then process_event S2_INCLUDING_DECRYPT_FAILED st else st.

Definition s2_inclusion_init (schemes curves keys_to_request : Z) st : Z * incl :=
  if negb (schemes =? SECURITY_2_SCHEME_SUPPORT_MASK) then (KEX_FAIL_KEX_SCHEME, st)
  else if negb (curves =? KEX_REPORT_CURVE_25519) then (KEX_FAIL_KEX_CURVES, st)
  else if has (Z.lnot SECURITY_2_KEY_MASK) keys_to_request || (Z.land SECURITY_2_KEY_MASK keys_to_request =? 0)
  then (KEX_FAIL_KEX_KEY, st)
  else (0, st <| m_schemes := schemes |> <| m_curves := curves |> <| m_keys := keys_to_request |>).

(** *** Everything that can happen to the machine *)

Inductive incl_event :=
| Including_start (conn : s2_connection_t)
| Joining_start (conn : s2_connection_t) (csa : Z)
| Discovery_complete
| Answer (a : answer)
| Frame_received (src : s2_connection_t) (frame : list Z)
| Timer_expired
| Send_done (status : bool)
| Decryption_failure (src : s2_connection_t)
| Set_event_handler (h : event_handler)
| Init (schemes curves keys : Z).

(** The timer can only run out while it is set. *)
Definition incl_step (e : incl_event) st : incl :=
  match e with
  | Including_start conn => s2_inclusion_including_start conn st
  | Joining_start conn csa => s2_inclusion_joining_start conn csa st
  | Discovery_complete => s2_inclusion_neighbor_discovery_complete st
  | Answer (Key_grant include keys csa) => s2_inclusion_key_grant include keys csa st
  | Answer (Challenge_response include response) => s2_inclusion_challenge_response include response st
  | Answer Inclusion_abort => s2_inclusion_abort st
  | Frame_received src frame => s2_inclusion_post_event src frame st
  | Timer_expired => if incl_timer st then s2_inclusion_notify_timeout st else st
  | Send_done status => s2_inclusion_send_done status st
  | Decryption_failure src => s2_inclusion_decryption_failure src st
  | Set_event_handler h => s2_inclusion_set_event_handler h st
  | Init s c k => snd (s2_inclusion_init s c k st)
  end.

(** The context after S2_init_ctx, with keys in [k]. *)
Definition incl_initial (l : L) (k : K) : incl :=
  s2_restore_keys (mkIncl 0 0 0 0 0 0 0 0 (mkConn 0 0 0 0 0 0 0 0) [] S2_INC_IDLE INCLUSION_MODE_CSA 0 (zeros 40) 0 (zeros 32)
    s2_default_evt_handler 0 0 0 (zeros 32) (zeros 64) 0 None l k [] false).

(** Frames are bytes. *)
Definition event_ok (e : incl_event) : Prop := match e with Frame_received _ frame => bytes frame | _ => True end.

Inductive incl_reachable : incl -> Prop :=
| incl_reach_init l k : incl_reachable (incl_initial l k)
| incl_reach_step e st : event_ok e -> incl_reachable st -> incl_reachable (incl_step e st).
End Inclusion.
