(* ===== verification/S2InclusionRun.v ===== *)
(** * Runs of the S2 key exchange *)

From S2P Require Import Prelude Aes Ccm Cmac S2Transport S2Inclusion.
#[local] Open Scope Z_scope.

Section Runs.
Context {L K : Type} `{BlockCipher} `{S2Link L} `{KeyStore K} `{Ecdh} (behind_rules : list Z).
Abbreviation incl := (s2_incl L K).
Implicit Types st : incl.

(** ** The table

    For a state, only the rows up to the first one for any event count. *)

Fixpoint until {A} (f : A -> bool) (l : list A) : list A :=
  match l with [] => [] | x :: l => x :: (if f x then [] else until f l) end.

Definition state_matches (s : s2_inclusion_state_t) (r : s2_transition_t) : bool :=
  bool_decide (s = t_state r) || bool_decide (t_state r = S2_INC_STATE_ANY).
Definition rows_of (s : s2_inclusion_state_t) : list s2_transition_t :=
  until (fun r => t_event r =? S2_EVT_ANY) (List.filter (state_matches s) s2_transition_table).

Definition all_states : list s2_inclusion_state_t :=
  [S2_INC_IDLE; S2_AWAITING_KEX_GET; S2_AWAITING_KEX_REPORT; S2_AWAITING_KEY_USER_ACCEPT; S2_AWAITING_KEX_SET;
   S2_AWAITING_PUB_KEY_A; S2_AWAITING_PUB_KEY_B; S2_AWAITING_USER_ACCEPT; S2_AWAITING_USER_A_ACCEPT;
   S2_PENDING_ECHO_KEX_REPORT; S2_ECHO_KEX_SET_SENDING; S2_AWAITING_ECHO_KEX_SET; S2_AWAITING_ECHO_KEX_REPORT;
   S2_AWAITING_NET_KEY_GET; S2_AWAITING_NET_KEY_REPORT; S2_AWAITING_NET_KEY_VERIFY; S2_AWAITING_TRANSFER_END;
   S2_KEY_EXCHANGED; S2_SENDING_FINAL_TRANSFER_END; S2_ERROR_SENT; S2_INC_STATE_ANY].

Lemma all_states_in s : List.In s all_states.
Proof. destruct s; cbn; tauto. Qed.

Lemma find_until {A} (f g h : A -> bool) l x :
  (forall y, h y = true -> f y && g y = f y) -> List.find (fun y => f y && g y) l = Some x ->
  List.In x (until h (List.filter f l)) /\ g x = true.
Proof.
  intros Hh. induction l as [|y l IH]; cbn; [done|]. destruct (f y) eqn:Hf; cbn.
  - destruct (g y) eqn:Hg; cbn; intros Hx.
    + simplify_eq. auto.
    + destruct (h y) eqn:Hy; [specialize (Hh y Hy); rewrite Hf, Hg in Hh; done|]. destruct (IH Hx). auto.
  - apply IH.
Qed.

Lemma table_row_in s e r : table_row s e = Some r -> List.In r (rows_of s) /\ (e = t_event r \/ t_event r = S2_EVT_ANY).
Proof.
  unfold table_row, row_matches. intros Hr.
  apply (find_until (state_matches s) (fun r => (e =? t_event r) || (t_event r =? S2_EVT_ANY)) (fun r => t_event r =? S2_EVT_ANY)) in Hr.
  - destruct Hr as [Hi He]. split; [done|]. apply orb_true_iff in He. by destruct He as [He%Z.eqb_eq|He%Z.eqb_eq]; [left|right].
  - intros y Hy. rewrite Hy, orb_true_r, andb_true_r. done.
Qed.

(** A property of every row that can be taken, by computation. *)
Lemma table_rows (P : s2_inclusion_state_t -> s2_transition_t -> bool) :
  forallb (fun s => forallb (P s) (rows_of s)) all_states = true ->
  forall s e r, table_row s e = Some r -> P s r = true.
Proof.
  intros HP s e r Hr. rewrite forallb_forall in HP. specialize (HP s (all_states_in s)). rewrite forallb_forall in HP.
  by apply HP, (table_row_in s e).
Qed.

(** The same for one event. *)
Lemma event_rows (e : Z) (P : s2_inclusion_state_t -> s2_transition_t -> bool) :
  forallb (fun s => match table_row s e with Some r => P s r | None => false end) all_states = true ->
  forall s r, table_row s e = Some r -> P s r = true.
Proof.
  intros HP s r Hr. rewrite forallb_forall in HP. specialize (HP s (all_states_in s)). by rewrite Hr in HP.
Qed.

(** Every event has a row in every state. *)
Lemma table_total s e : exists r, table_row s e = Some r.
Proof.
  destruct (table_row s e) as [r|] eqn:Hr; [by exists r|]. exfalso.
  unfold table_row in Hr. pose proof (List.find_none _ _ Hr (Row S2_INC_STATE_ANY S2_EVT_ANY S2_ABORT_ACTION S2_INC_IDLE)) as Hl.
  unfold row_matches in Hl. cbn [t_state t_event] in Hl. rewrite (bool_decide_true (S2_INC_STATE_ANY = S2_INC_STATE_ANY)) in Hl by done.
  rewrite Z.eqb_refl, !orb_true_r in Hl. cbn in Hl. discriminate Hl. unfold s2_transition_table. do 100 right. by left.
Qed.

(** ** What the actions do to the machine

    Events that end a key exchange. *)
Definition final_event (e : zwave_event) : bool :=
  match e with
  | S2_NODE_INCLUSION_COMPLETE_EVENT _ _ | S2_NODE_JOINING_COMPLETE_EVENT _ _ | S2_NODE_INCLUSION_FAILED_EVENT _ _
  | S2_JOINING_COMPLETE_NEVER_STARTED_EVENT _ _ => true
  | _ => false
  end.
Definition is_final (o : incl_out) : bool := match o with Event_out e => final_event e | _ => false end.
Definition finals st : nat := length (List.filter is_final (incl_outs st)).

(** Sending, timers and notes: nothing the machine is steered by. *)
Record calm st st' : Prop := mkCalm {
  calm_state : inclusion_state st' = inclusion_state st;
  calm_handler : m_evt_handler st' = m_evt_handler st;
  calm_hang : hang st' = hang st;
  calm_rx : rx_buf st' = rx_buf st;
  calm_finals : finals st' = finals st
}.

#[export] Instance calm_preorder : PreOrder calm.
Proof. split; [done|]. intros a b c [] []. constructor; congruence. Qed.

Lemma calm_emit st st1 o : is_final o = false -> calm st st1 -> calm st (incl_emit o st1).
Proof.
  intros Ho []. constructor; try done. unfold finals, incl_emit in *. cbn.
  rewrite List.filter_app, length_app. cbn. rewrite Ho. cbn. lia.
Qed.

Ltac calm_field := let H := fresh in intros H; destruct H; constructor; done.

Lemma calm_timeout st st1 t : calm st st1 -> calm st (s2_inclusion_set_timeout t st1).
Proof. calm_field. Qed.
Lemma calm_stop st st1 : calm st st1 -> calm st (s2_inclusion_stop_timeout st1).
Proof. calm_field. Qed.
Lemma calm_retry st st1 n : calm st st1 -> calm st (set_retry_counter n st1).
Proof. calm_field. Qed.
Lemma calm_fill st st1 f n : calm st st1 -> calm st (fill_frame f n st1).
Proof. calm_field. Qed.
Lemma calm_address st st1 s o : calm st st1 -> calm st (address s o st1).
Proof. calm_field. Qed.
Lemma calm_key_update st st1 s k t : calm st st1 -> calm st (key_update s k t st1).
Proof. calm_field. Qed.

Lemma calm_send_frame st st1 : calm st st1 -> calm st (s2_inclusion_send_frame st1).
Proof.
  intros Hc. unfold s2_inclusion_send_frame. destruct (link_send_frame _ _ _) as [t l].
  apply calm_retry, calm_emit; [done|]. revert Hc. calm_field.
Qed.
Lemma calm_send_data_call st st1 : calm st st1 -> calm st (snd (send_data_call st1)).
Proof.
  intros Hc. unfold send_data_call. destruct (link_send_data _ _ _) as [t l]. apply calm_emit; [done|]. revert Hc. calm_field.
Qed.
Lemma calm_send_data st st1 : calm st st1 -> calm st (s2_inclusion_send_data st1).
Proof.
  intros Hc. unfold s2_inclusion_send_data. destruct (send_data_call st1) as [t st2] eqn:E.
  apply calm_retry. change st2 with (snd (t, st2)). rewrite <- E. by apply calm_send_data_call.
Qed.

Lemma calm_restore_key st st1 p : calm st st1 -> calm st (restore_key st1 p).
Proof. intros Hc. unfold restore_key. destruct (keystore_network_key_read _ _); [|done]. apply calm_key_update. revert Hc. calm_field. Qed.
Lemma calm_restore_keys st st1 : calm st st1 -> calm st (s2_restore_keys st1).
Proof.
  intros Hc. unfold s2_restore_keys. cbv zeta.
  assert (Hf : forall l st2, calm st st2 -> calm st (fold_left restore_key l st2)).
  { induction l; intros st2 Hc2; [done|]. cbn. apply IHl. by apply calm_restore_key. }
  specialize (Hf m_key_slot_pair (st1 <| link := link_unload_keys (link st1) |>)).
  destruct Hf; [revert Hc; calm_field|]. constructor; done.
Qed.
Lemma calm_failed_frame st st1 e s : calm st st1 -> calm st (inclusion_failed_frame_send e s st1).
Proof.
  intros Hc. unfold inclusion_failed_frame_send. cbv zeta.
  assert (calm st (set_retry_counter MAX_RETRY_COUNT (fill_frame [COMMAND_CLASS_SECURITY_2; KEX_FAIL; e] SECURITY_2_KEX_FAIL_LENGTH
     (st1 <| kex_fail_code := e |>)))) as Hr by (apply calm_retry, calm_fill; revert Hc; calm_field).
  destruct (s =? TEMP_KEY_SECURE); [apply calm_send_data|apply calm_send_frame; done].
  revert Hr. generalize (set_retry_counter MAX_RETRY_COUNT (fill_frame [COMMAND_CLASS_SECURITY_2; KEX_FAIL; e] SECURITY_2_KEX_FAIL_LENGTH
     (st1 <| kex_fail_code := e |>))). intros s2. calm_field.
Qed.

(** By the head of the new state. *)
Ltac calm_tac :=
  repeat lazymatch goal with
  | |- calm ?x ?x => reflexivity
  | |- calm _ (s2_inclusion_set_timeout _ _) => apply calm_timeout
  | |- calm _ (s2_inclusion_stop_timeout _) => apply calm_stop
  | |- calm _ (set_retry_counter _ _) => apply calm_retry
  | |- calm _ (fill_frame _ _ _) => apply calm_fill
  | |- calm _ (address _ _ _) => apply calm_address
  | |- calm _ (key_update _ _ _ _) => apply calm_key_update
  | |- calm _ (s2_inclusion_send_frame _) => apply calm_send_frame
  | |- calm _ (snd (send_data_call _)) => apply calm_send_data_call
  | |- calm _ (s2_inclusion_send_data _) => apply calm_send_data
  | |- calm _ (s2_restore_keys _) => apply calm_restore_keys
  | |- calm _ (inclusion_failed_frame_send _ _ _) => apply calm_failed_frame
  | |- calm _ (incl_emit _ _) => apply calm_emit; [reflexivity|]
  | |- calm _ (modify _ _ ?x) => transitivity x; [|constructor; reflexivity]
  | |- calm _ (if ?b then _ else _) => destruct b
  | |- calm _ (match ?o with Some _ => _ | None => _ end) => destruct o
  | Hc : calm ?x ?y |- calm ?x ?y => exact Hc
  end.

(** A validation sends a KEX Fail at most. *)
Lemma calm_validate_echo_kex_report st : calm st (snd (validate_echo_kex_report st)).
Proof. unfold validate_echo_kex_report. break_if; cbn [snd]; calm_tac. Qed.
Lemma calm_validate_reported_schemes st : calm st (snd (validate_reported_schemes st)).
Proof. unfold validate_reported_schemes. cbv zeta. break_if; cbn [snd]; calm_tac. Qed.
Lemma calm_validate_reported_curves st : calm st (snd (validate_reported_curves st)).
Proof. unfold validate_reported_curves. cbv zeta. break_if; cbn [snd]; calm_tac. Qed.
Lemma calm_validate_reported_keys st : calm st (snd (validate_reported_keys st)).
Proof. unfold validate_reported_keys. cbv zeta. break_if; cbn [snd]; calm_tac. Qed.
Lemma calm_validate_requested_key st : calm st (snd (validate_requested_key st)).
Proof. unfold validate_requested_key. cbv zeta. break_if; cbn [snd]; calm_tac. Qed.
Lemma calm_validate_echo_kex_set st : calm st (snd (validate_echo_kex_set st)).
Proof. unfold validate_echo_kex_set. cbv zeta. break_if; cbn [snd]; calm_tac. Qed.

(** Every action is calm, ends by raising one of three events, or tells the
    application something once; [fin] says whether that ends the exchange. *)
Definition raised_events : list Z := [S2_INCLUSION_ERROR_SENT; S2_INCLUSION_ERROR; S2_NO_KEYS_GRANTED].

Inductive shape (process : Z -> incl -> incl) (fin : bool) st : incl -> Prop :=
| shape_calm st' : fin = false -> calm st st' -> shape process fin st st'
| shape_raise e st1 : fin = false -> e ∈ raised_events -> calm st st1 -> shape process fin st (process e st1)
| shape_push e st1 st' : final_event e = fin -> calm st st1 -> calm (push_event process e st1) st' -> shape process fin st st'
| shape_hang st1 : fin = false -> calm st st1 -> key_granted st1 = key_granted st -> key_exchange st1 = key_exchange st ->
    key_granted st <> 0 -> next_granted KEY_BITS (key_exchange st) (key_granted st) = None ->
    shape process fin st (st1 <| hang := true |>).

Definition final_action (a : s2_action_t) : bool :=
  match a with
  | S2_ABORT_ACTION | S2_REMOTE_ERROR_ACTION | S2_JOINING_COMPLETE_ACTION | S2_JOINING_NEVER_STARTED_ACTION
  | S2_INCLUSION_COMPLETE_ACTION | S2_CHECK_NO_KEYS => true
  | _ => false
  end.

Lemma shape_failed process st st1 t : calm st st1 -> shape process true st (inclusion_failed_evt_push process t st1).
Proof. intros Hc. unfold inclusion_failed_evt_push. cbv zeta. eapply shape_push; [| |reflexivity]; [done|]. calm_tac. Qed.

Lemma shape_kex_fail process st st1 t : calm st st1 -> shape process false st (send_kex_fail process t st1).
Proof. intros Hc. unfold send_kex_fail. apply shape_raise; [done|set_solver|]. calm_tac. Qed.

Lemma shape_validated process st (v : bool * incl) (f : incl -> incl) :
  calm st (snd v) -> (fst v = true -> shape process false st (f (snd v))) ->
  shape process false st (let '(ok, st1) := v in if negb ok then process S2_INCLUSION_ERROR_SENT st1 else f st1).
Proof.
  destruct v as [[|] st1]; cbn; intros Hc Hf; [by apply Hf|]. apply shape_raise; [done|set_solver|done].
Qed.

Lemma shape_complete process st : shape process true st (s2_inclusion_complete process st).
Proof.
  unfold s2_inclusion_complete. destruct (_ && _); cbv zeta.
  - eapply shape_push; [| |reflexivity]; [done|]. calm_tac.
  - apply shape_failed. calm_tac.
Qed.

Lemma shape_pub_key_b process st : shape process false st (s2_send_pub_key_b process st).
Proof.
  unfold s2_send_pub_key_b. cbv zeta.
  repeat match goal with |- shape _ _ _ (if ?b then send_kex_fail _ _ _ else _) => destruct b; [apply shape_kex_fail; calm_tac|] end.
  apply shape_calm; [done|]. calm_tac.
Qed.

Lemma shape_net_key_verify process st : shape process false st (s2_send_net_key_verify process st).
Proof.
  unfold s2_send_net_key_verify. cbv zeta. destruct (negb _); [apply shape_kex_fail; calm_tac|]. apply shape_calm; [done|]. calm_tac.
Qed.

Lemma shape_verify_failed process st st1 : calm st st1 -> shape process false st (key_verify_failed process st1).
Proof. intros Hc. unfold key_verify_failed. apply shape_raise; [done|set_solver|]. calm_tac. Qed.

Lemma shape_final_transfer_end process st : shape process false st (s2_send_final_transfer_end process st).
Proof.
  unfold s2_send_final_transfer_end. cbv zeta. destruct (bad_transfer_end _); [apply shape_verify_failed; calm_tac|].
  apply shape_calm; [done|]. calm_tac.
Qed.

Lemma shape_net_key_get process st : shape process false st (s2_send_net_key_get process st).
Proof.
  unfold s2_send_net_key_get. cbv zeta. set (st1 := s2_inclusion_stop_timeout st).
  assert (Hc : calm st st1) by (unfold st1; calm_tac).
  destruct (rx_command st1 =? KEX_REPORT).
  - destruct (validate_echo_kex_report st1) as [ok st2] eqn:Hv. destruct ok; cbn [negb].
    + destruct (bad_transfer_end st1); [by apply shape_verify_failed|].
      destruct (key_granted st1 =? 0) eqn:Hg; [apply shape_raise; [done|set_solver|done]|].
      apply Z.eqb_neq in Hg.
      destruct (next_granted _ _ _) eqn:Hn; [apply shape_calm; [done|]; calm_tac|]. by apply shape_hang.
    + apply shape_raise; [done|set_solver|]. transitivity st1; [done|].
      change st2 with (snd (false, st2)). rewrite <- Hv. apply calm_validate_echo_kex_report.
  - cbn [negb]. destruct (bad_transfer_end st1); [by apply shape_verify_failed|].
    destruct (key_granted st1 =? 0) eqn:Hg; [apply shape_raise; [done|set_solver|done]|].
    apply Z.eqb_neq in Hg.
    destruct (next_granted _ _ _) eqn:Hn; [apply shape_calm; [done|]; calm_tac|]. by apply shape_hang.
Qed.

Lemma calm_stopped st v : calm (s2_inclusion_stop_timeout st) v -> calm st v.
Proof. intros Hc. transitivity (s2_inclusion_stop_timeout st); [calm_tac|done]. Qed.

Lemma shape_kex_rep_recv process st : shape process false st (s2_kex_rep_recv process st).
Proof.
  unfold s2_kex_rep_recv. apply shape_validated; [apply calm_stopped, calm_validate_reported_schemes|]. intros _.
  pose proof (calm_validate_reported_schemes (s2_inclusion_stop_timeout st)) as Hc1. apply calm_stopped in Hc1.
  generalize dependent (snd (validate_reported_schemes (s2_inclusion_stop_timeout st))). intros st1 Hc1.
  pose proof (calm_validate_reported_curves st1) as Hc2.
  apply shape_validated; [by etrans|]. intros _.
  generalize dependent (snd (validate_reported_curves st1)). intros st2 Hc2.
  pose proof (calm_validate_reported_keys st2) as Hc3.
  apply shape_validated; [by repeat (etrans; [eassumption|])|]. intros _.
  generalize dependent (snd (validate_reported_keys st2)). intros st3 Hc3. cbv zeta.
  eapply shape_push; [| |apply calm_timeout; reflexivity]; [done|]. transitivity st3; [|calm_tac]. by repeat (etrans; [eassumption|]).
Qed.

Lemma shape_echo_kex_report process st : shape process false st (s2_send_echo_kex_report process st).
Proof.
  unfold s2_send_echo_kex_report. pose proof (calm_stopped _ _ (calm_validate_echo_kex_set (s2_inclusion_stop_timeout st))) as Hc.
  apply shape_validated; [done|]. intros _. revert Hc.
  generalize (snd (validate_echo_kex_set (s2_inclusion_stop_timeout st))). intros st1 Hc. cbv zeta.
  apply shape_calm; [done|]. calm_tac.
Qed.

Lemma shape_net_key_report process st : shape process false st (s2_send_net_key_report process st).
Proof.
  unfold s2_send_net_key_report. pose proof (calm_stopped _ _ (calm_validate_requested_key (s2_inclusion_stop_timeout st))) as Hc.
  apply shape_validated; [done|]. intros _. revert Hc.
  generalize (snd (validate_requested_key (s2_inclusion_stop_timeout st))). intros st1 Hc. cbv zeta.
  apply shape_calm; [done|]. calm_tac.
Qed.

Lemma calm_echo_kex_set st st1 : calm st st1 -> calm st (s2_send_echo_kex_set st1).
Proof. intros Hc. unfold s2_send_echo_kex_set. cbv zeta. calm_tac. Qed.

Lemma calm_install_temp_key st st1 : calm st st1 -> calm st (install_temp_key st1).
Proof. intros Hc. unfold install_temp_key. cbv zeta. calm_tac. Qed.

Lemma calm_shared_secret st st1 : calm st st1 -> calm st (calc_shared_secret st1).
Proof. intros Hc. unfold calc_shared_secret. cbv zeta. calm_tac. Qed.

Lemma shape_joining_complete process st t :
  (forall c k, final_event (t c k) = true) -> shape process true st (s2_joining_complete process t st).
Proof. intros Ht. unfold s2_joining_complete. cbv zeta. eapply shape_push; [apply Ht| |reflexivity]. calm_tac. Qed.

Lemma shape_pub_key_a process st : shape process false st (s2_send_pub_key_a process st).
Proof.
  unfold s2_send_pub_key_a. cbv zeta.
  match goal with |- context [push_event process ?e ?x] => eapply (shape_push _ _ _ e x) end; [done|calm_tac|calm_tac].
Qed.

Lemma shape_kex_report process st : shape process false st (s2_send_kex_report process st).
Proof.
  unfold s2_send_kex_report. cbv zeta.
  match goal with |- context [push_event process ?e ?x] => eapply (shape_push _ _ _ e x) end; [done|calm_tac|calm_tac].
Qed.

Lemma shape_pub_key_a_recv process st : shape process false st (s2_pub_key_a_recv process st).
Proof. unfold s2_pub_key_a_recv. cbv zeta. eapply shape_push; [| |reflexivity]; [done|]. calm_tac. Qed.

Lemma shape_action process a st : shape process (final_action a) st (run_action process a st).
Proof.
  destruct a; cbn [run_action final_action].
  - by apply shape_calm.
  - by apply shape_failed.
  - apply shape_calm; [done|]. calm_tac.
  - apply shape_calm; [done|]. calm_tac.
  - apply shape_calm; [done|]. unfold s2_send_kex_get. cbv zeta. calm_tac.
  - apply shape_kex_rep_recv.
  - apply shape_calm; [done|]. unfold s2_send_kex_set. cbv zeta. calm_tac.
  - apply shape_pub_key_a.
  - apply shape_calm; [done|]. unfold s2_do_ecdh_calc_a. cbv zeta. apply calm_install_temp_key. calm_tac. by apply calm_shared_secret.
  - apply shape_echo_kex_report.
  - apply shape_calm; [done|]. calm_tac.
  - apply shape_calm; [done|]. calm_tac.
  - apply shape_net_key_report.
  - apply shape_calm; [done|]. unfold s2_send_transfer_end. cbv zeta. calm_tac.
  - apply shape_complete.
  - unfold s2_check_no_keys. destruct (truth _); [by apply shape_failed|apply shape_complete].
  - apply shape_calm; [done|]. unfold s2_joining_start. calm_tac.
  - apply shape_calm; [done|]. calm_tac.
  - apply shape_kex_report.
  - apply shape_pub_key_b.
  - apply shape_pub_key_a_recv.
  - apply shape_calm; [done|]. unfold s2_do_ecdh_calc_b. cbv zeta. apply calm_echo_kex_set, calm_retry, calm_install_temp_key. calm_tac.
    by apply calm_shared_secret.
  - apply shape_calm; [done|]. by apply calm_echo_kex_set.
  - apply shape_net_key_get.
  - apply shape_net_key_verify.
  - apply shape_final_transfer_end.
  - by apply shape_joining_complete.
  - by apply shape_failed.
  - by apply shape_joining_complete.
Qed.

(** ** Simulation

    Whatever holds along every calm change, every row that nested events take and
    every event for the application holds along what an event does. *)

Definition nested_events : list Z := S2_INCLUDING_ACCEPT :: S2_INCLUDING_REJECT :: raised_events.

Lemma calm_enter_hang st s : hang (enter_state s st) = hang st.
Proof. unfold enter_state. by case_bool_decide. Qed.

Lemma process_event_eq depth e st r : table_row (inclusion_state st) e = Some r ->
  process_event_to (S depth) e st = run_action (process_event_to depth) (t_action r) (enter_state (t_new_state r) st).
Proof. intros Hr. cbn [process_event_to]. by rewrite Hr. Qed.

Section Simulation.
Context (R : incl -> incl -> Prop) `{!PreOrder R}.
Context (R_calm : forall st st', calm st st' -> R st st').
Context (R_hang : forall st, R st (st <| hang := true |>)).
Context (R_row : forall e st r, e ∈ nested_events -> table_row (inclusion_state st) e = Some r ->
  final_action (t_action r) = false -> R st (enter_state (t_new_state r) st)).
Context (R_final : forall e st r st1 ev, e ∈ nested_events -> table_row (inclusion_state st) e = Some r ->
  final_action (t_action r) = true -> calm (enter_state (t_new_state r) st) st1 -> final_event ev = true ->
  R st (incl_emit (Event_out ev) st1)).

(** What follows once the row is entered. *)
Inductive sim_shape (fin : bool) st st' : Prop :=
| sim_go : fin = false -> R st st' -> sim_shape fin st st'
| sim_final st1 ev : fin = true -> final_event ev = true -> calm st st1 -> R (incl_emit (Event_out ev) st1) st' -> sim_shape fin st st'.

Lemma sim_answers process l st :
  (forall e st1, e ∈ nested_events -> R st1 (process e st1)) -> R st (fold_left (give_answer process) l st).
Proof.
  intros Hp. revert st. induction l as [|a l IH]; intros st; cbn [fold_left]; [reflexivity|].
  etrans; [|apply IH].
  destruct a as [i k c|i resp|]; cbn [give_answer];
    try match goal with |- context [if ?b then _ else _] => destruct b end;
    (etrans; [|apply Hp; set_solver]); try reflexivity; apply R_calm; calm_tac.
Qed.

Lemma sim_push process e st :
  (forall e st1, e ∈ nested_events -> R st1 (process e st1)) -> R (incl_emit (Event_out e) st) (push_event process e st).
Proof. intros Hp. unfold push_event. by apply sim_answers. Qed.

Lemma sim_action process a st :
  (forall e st1, e ∈ nested_events -> R st1 (process e st1)) -> sim_shape (final_action a) st (run_action process a st).
Proof.
  intros Hp. destruct (shape_action process a st) as [st' Hf Hc|e st1 Hf He Hc|e st1 st' Hf Hc Hc2|st1 Hf Hc].
  - apply sim_go; [done|]. by apply R_calm.
  - apply sim_go; [done|]. etrans; [by apply R_calm|]. apply Hp. set_solver.
  - destruct (final_action a) eqn:Ha.
    + eapply sim_final; [done|exact Hf|exact Hc|]. etrans; [by apply sim_push|]. by apply R_calm.
    + apply sim_go; [done|]. etrans; [apply R_calm, (calm_emit _ st1 (Event_out e)); [exact Hf|exact Hc]|].
      etrans; [by apply sim_push|]. by apply R_calm.
  - apply sim_go; [done|]. etrans; [by apply R_calm|]. apply R_hang.
Qed.

Lemma sim_nested depth e st : e ∈ nested_events -> R st (process_event_to depth e st).
Proof.
  revert e st. induction depth as [|d IH]; intros e st He; [apply R_hang|].
  destruct (table_total (inclusion_state st) e) as [r Hr]. rewrite (process_event_eq _ _ _ r) by done.
  destruct (sim_action (process_event_to d) (t_action r) (enter_state (t_new_state r) st)) as [Hf HR|st1 ev Hf Hev Hc HR].
  - intros; by apply IH.
  - etrans; [|exact HR]. by eapply R_row.
  - etrans; [|exact HR]. by eapply R_final.
Qed.

(** An event from outside. *)
Lemma sim_process e st r : table_row (inclusion_state st) e = Some r ->
  sim_shape (final_action (t_action r)) (enter_state (t_new_state r) st) (process_event e st).
Proof.
  intros Hr. unfold process_event, EVENT_DEPTH. rewrite (process_event_eq _ _ _ r) by done. apply sim_action. intros; by apply sim_nested.
Qed.
End Simulation.

(** ** The state diagrams of s2_inclusion.h

    Add mode, learn mode and the box for errors, where every state goes back to
    idle or tells the peer of an error.  The last line is not drawn there: a node
    that is granted no key goes straight to its final Transfer End. *)

Definition diagram (s s' : s2_inclusion_state_t) : bool :=
  match s, s' with
  | S2_INC_IDLE, S2_AWAITING_KEX_REPORT
  | S2_AWAITING_KEX_REPORT, S2_AWAITING_KEY_USER_ACCEPT
  | S2_AWAITING_KEY_USER_ACCEPT, S2_AWAITING_PUB_KEY_B
  | S2_AWAITING_PUB_KEY_B, S2_AWAITING_USER_ACCEPT
  | S2_AWAITING_USER_ACCEPT, S2_AWAITING_ECHO_KEX_SET
  | S2_AWAITING_ECHO_KEX_SET, S2_AWAITING_NET_KEY_GET
  | S2_AWAITING_NET_KEY_GET, S2_AWAITING_NET_KEY_VERIFY
  | S2_AWAITING_NET_KEY_VERIFY, (S2_AWAITING_NET_KEY_GET | S2_AWAITING_TRANSFER_END)
  | S2_INC_IDLE, S2_AWAITING_KEX_GET
  | S2_AWAITING_KEX_GET, S2_AWAITING_KEX_SET
  | S2_AWAITING_KEX_SET, S2_AWAITING_PUB_KEY_A
  | S2_AWAITING_PUB_KEY_A, S2_AWAITING_USER_A_ACCEPT
  | S2_AWAITING_USER_A_ACCEPT, S2_ECHO_KEX_SET_SENDING
  | S2_ECHO_KEX_SET_SENDING, S2_AWAITING_NET_KEY_REPORT
  | S2_AWAITING_NET_KEY_REPORT, S2_KEY_EXCHANGED
  | S2_KEY_EXCHANGED, (S2_AWAITING_NET_KEY_REPORT | S2_SENDING_FINAL_TRANSFER_END) => true
  | S2_INC_IDLE, S2_ERROR_SENT => false
  | _, (S2_INC_IDLE | S2_ERROR_SENT) => true
  | S2_AWAITING_NET_KEY_REPORT, S2_SENDING_FINAL_TRANSFER_END => true
  | _, _ => false
  end.

Definition follows (s s' : s2_inclusion_state_t) : Prop := rtc (fun a b => diagram a b = true) s s'.

Definition diagram_row (s : s2_inclusion_state_t) (r : s2_transition_t) : bool :=
  bool_decide (t_new_state r = S2_INC_STATE_ANY) || bool_decide (t_new_state r = s) || diagram s (t_new_state r).

Lemma row_follows s e r st : table_row s e = Some r -> inclusion_state st = s -> follows s (inclusion_state (enter_state (t_new_state r) st)).
Proof.
  intros Hr Hs. apply (table_rows diagram_row ltac:(vm_compute; reflexivity)) in Hr.
  unfold diagram_row in Hr. unfold enter_state. case_bool_decide as Ha; [subst; apply rtc_refl|].
  change (inclusion_state (set_inclusion_state (t_new_state r) st)) with (t_new_state r).
  apply orb_true_iff in Hr as [Hr|Hr]; [|by apply rtc_once]. cbn [orb] in Hr.
  apply bool_decide_eq_true in Hr. rewrite Hr. apply rtc_refl.
Qed.

Definition state_follows st st' : Prop := follows (inclusion_state st) (inclusion_state st').
#[local] Instance state_follows_preorder : PreOrder state_follows.
Proof. split; [intros st; apply rtc_refl|]. intros a b c Hab Hbc. unfold state_follows, follows in *. by etrans. Qed.

Lemma calm_follows st st' : calm st st' -> state_follows st st'.
Proof. intros []. unfold state_follows. rewrite calm_state0. apply rtc_refl. Qed.

Lemma process_follows e st : state_follows st (process_event e st).
Proof.
  destruct (table_total (inclusion_state st) e) as [r Hr].
  assert (Hgo : forall e st r, table_row (inclusion_state st) e = Some r -> state_follows st (enter_state (t_new_state r) st))
    by (intros; by eapply row_follows).
  destruct (sim_process state_follows calm_follows ltac:(intros; apply rtc_refl) ltac:(intros; by eapply Hgo)
    ltac:(intros ? ? ? ? ? ? Hr' ? [Hs'] ?; etrans; [by eapply Hgo|]; unfold state_follows; cbn; rewrite Hs'; apply rtc_refl)
    e st r Hr) as [Hf HR|st1 ev Hf Hev [Hs1] HR].
  - etrans; [by eapply Hgo|done].
  - etrans; [by eapply Hgo|]. etrans; [|exact HR]. unfold state_follows. cbn. rewrite Hs1. apply rtc_refl.
Qed.

(** ** Every exchange that is started ends once

    An exchange is under way in every state but idle. *)

Definition busy (s : s2_inclusion_state_t) : nat := if bool_decide (s = S2_INC_IDLE) then 0 else 1.
Definition starts (s : s2_inclusion_state_t) (e : Z) : nat :=
  if bool_decide (s = S2_INC_IDLE) && ((e =? S2_INCLUDING_START) || (e =? S2_JOINING_START)) then 1 else 0.
(** A node that waits for KEX Get can be told to give up, without an event. *)
Definition gives_up (s : s2_inclusion_state_t) (e : Z) : nat :=
  if bool_decide (s = S2_AWAITING_KEX_GET) && (e =? S2_INCLUDING_REJECT) then 1 else 0.

Definition balance st : nat := (finals st + busy (inclusion_state st))%nat.

Definition entered (s : s2_inclusion_state_t) (r : s2_transition_t) : s2_inclusion_state_t :=
  if bool_decide (t_new_state r = S2_INC_STATE_ANY) then s else t_new_state r.

Lemma enter_entered r st : inclusion_state (enter_state (t_new_state r) st) = entered (inclusion_state st) r.
Proof. unfold enter_state, entered. by case_bool_decide. Qed.
Lemma enter_finals s st : finals (enter_state s st) = finals st.
Proof. unfold enter_state. by case_bool_decide. Qed.

Lemma incl_finals_final ev st : final_event ev = true -> finals (incl_emit (Event_out ev) st) = S (finals st).
Proof. intros He. unfold finals, incl_emit. cbn. rewrite List.filter_app, length_app. cbn. rewrite He. cbn. lia. Qed.

(** The rows: only ending actions go to idle, except from idle itself and for a
    node that gives up; only the two starts leave idle. *)
Definition row_balance (s : s2_inclusion_state_t) (r : s2_transition_t) : bool :=
  let s' := entered s r in
  if final_action (t_action r) then bool_decide (s' = S2_INC_IDLE) && negb (bool_decide (s = S2_INC_IDLE))
  else
    ((busy s' + gives_up s (t_event r) =? busy s + starts s (t_event r))%nat
     && (negb (t_event r =? S2_EVT_ANY) || (busy s' =? busy s)%nat
         && negb (bool_decide (s' = S2_AWAITING_KEX_GET)))).

Definition nested_row (s : s2_inclusion_state_t) (r : s2_transition_t) : bool :=
  bool_decide (s = S2_AWAITING_KEX_GET)
  || (negb (bool_decide (entered s r = S2_AWAITING_KEX_GET))
      && (if final_action (t_action r) then bool_decide (entered s r = S2_INC_IDLE) && negb (bool_decide (s = S2_INC_IDLE))
          else (busy (entered s r) =? busy s)%nat)).

Lemma nested_rows e s r : e ∈ nested_events -> table_row s e = Some r -> nested_row s r = true.
Proof.
  unfold nested_events, raised_events. rewrite !elem_of_cons, elem_of_nil. intros He.
  destruct He as [->|[->|[->|[->|[->|[]]]]]]; apply event_rows; by vm_compute.
Qed.

Definition balanced st st' : Prop :=
  inclusion_state st <> S2_AWAITING_KEX_GET -> inclusion_state st' <> S2_AWAITING_KEX_GET /\ balance st' = balance st.
#[local] Instance balanced_preorder : PreOrder balanced.
Proof. split; [by intros st|]. intros a b c Hab Hbc Ha. destruct (Hab Ha) as [Hb E1]. destruct (Hbc Hb) as [Hc E2]. split; [done|]. congruence. Qed.

Lemma calm_balanced st st' : calm st st' -> balanced st st'.
Proof. intros [Hs _ _ _ Hf] Hk. unfold balance. rewrite Hs, Hf. done. Qed.

Lemma busy_idle : busy S2_INC_IDLE = 0%nat.
Proof. done. Qed.
Lemma busy_not_idle s : s <> S2_INC_IDLE -> busy s = 1%nat.
Proof. intros Hs. unfold busy. by rewrite bool_decide_false. Qed.

Lemma final_balance st st1 ev : inclusion_state st <> S2_INC_IDLE -> inclusion_state st1 = S2_INC_IDLE -> finals st1 = finals st ->
  final_event ev = true -> balance (incl_emit (Event_out ev) st1) = balance st.
Proof.
  intros Hs Hs1 Hf Hev. unfold balance. rewrite incl_finals_final by done.
  change (inclusion_state (incl_emit (Event_out ev) st1)) with (inclusion_state st1).
  rewrite Hs1, busy_idle, busy_not_idle by done. lia.
Qed.

Lemma nested_balanced_row e st r : e ∈ nested_events -> table_row (inclusion_state st) e = Some r ->
  final_action (t_action r) = false -> balanced st (enter_state (t_new_state r) st).
Proof.
  intros He Hr Hf Hk. pose proof (nested_rows _ _ _ He Hr) as Hn. unfold nested_row in Hn.
  rewrite Hf, bool_decide_false in Hn by done. cbn [orb] in Hn. apply andb_true_iff in Hn as [Hn1 Hn2].
  apply negb_true_iff, bool_decide_eq_false in Hn1. apply Nat.eqb_eq in Hn2.
  unfold balance. rewrite enter_entered, enter_finals. split; [done|]. lia.
Qed.

Lemma nested_balanced_final e st r st1 ev : e ∈ nested_events -> table_row (inclusion_state st) e = Some r ->
  final_action (t_action r) = true -> calm (enter_state (t_new_state r) st) st1 -> final_event ev = true ->
  balanced st (incl_emit (Event_out ev) st1).
Proof.
  intros He Hr Hf [Hs _ _ _ Hfin] Hev Hk. pose proof (nested_rows _ _ _ He Hr) as Hn. unfold nested_row in Hn.
  rewrite Hf, bool_decide_false in Hn by done. cbn [orb] in Hn. apply andb_true_iff in Hn as [_ Hn].
  apply andb_true_iff in Hn as [Hn1 Hn2]. apply bool_decide_eq_true in Hn1. apply negb_true_iff, bool_decide_eq_false in Hn2.
  rewrite enter_entered, Hn1 in Hs. rewrite enter_finals in Hfin.
  change (inclusion_state (incl_emit (Event_out ev) st1)) with (inclusion_state st1).
  split; [by rewrite Hs|]. by apply final_balance.
Qed.

(** Actions in the state that waits for KEX Get raise nothing. *)
Definition plain_action (a : s2_action_t) : bool :=
  match a with S2_NO_ACTION | S2_JOINING_START_ACTION | S2_TIMEOUT_TB1_SET_ACTION => true | _ => false end.
Definition waits_plain (s : s2_inclusion_state_t) (r : s2_transition_t) : bool :=
  negb (bool_decide (entered s r = S2_AWAITING_KEX_GET)) || plain_action (t_action r).

Lemma plain_calm process a st : plain_action a = true -> calm st (run_action process a st).
Proof. destruct a; try done; intros _; cbn [run_action]; unfold s2_joining_start; calm_tac. Qed.

(** The rows of the starts and of giving up are found by their event. *)
Lemma special_rows s e r : table_row s e = Some r -> (starts s e + gives_up s e <> 0)%nat ->
  final_action (t_action r) = false /\ t_event r <> S2_EVT_ANY.
Proof.
  unfold starts, gives_up. intros Hr Hn. destruct (bool_decide (s = S2_INC_IDLE)) eqn:Hi.
  - apply bool_decide_eq_true in Hi as ->. cbn [andb] in Hn. destruct (e =? S2_INCLUDING_START) eqn:E1.
    { apply Z.eqb_eq in E1 as ->. vm_compute in Hr. simplify_eq. split; done. }
    destruct (e =? S2_JOINING_START) eqn:E2; [|done]. apply Z.eqb_eq in E2 as ->. vm_compute in Hr. simplify_eq. split; done.
  - cbn [andb] in Hn. destruct (bool_decide (s = S2_AWAITING_KEX_GET)) eqn:Hk; [|done]. cbn [andb] in Hn.
    apply bool_decide_eq_true in Hk as ->. destruct (e =? S2_INCLUDING_REJECT) eqn:E1; [|done].
    apply Z.eqb_eq in E1 as ->. vm_compute in Hr. simplify_eq. split; done.
Qed.

Lemma row_balance_all s e r : table_row s e = Some r ->
  if final_action (t_action r) then entered s r = S2_INC_IDLE /\ s <> S2_INC_IDLE /\ starts s e = 0%nat /\ gives_up s e = 0%nat
  else (busy (entered s r) + gives_up s e = busy s + starts s e)%nat.
Proof.
  intros Hr. pose proof (table_rows row_balance ltac:(vm_compute; reflexivity) _ _ _ Hr) as Hb.
  destruct (table_row_in _ _ _ Hr) as [Hi He]. unfold row_balance in Hb. destruct (decide (starts s e + gives_up s e = 0)%nat) as [Hz|Hz].
  - destruct (final_action (t_action r)).
    + apply andb_true_iff in Hb as [Hb1 Hb2]. apply bool_decide_eq_true in Hb1. apply negb_true_iff, bool_decide_eq_false in Hb2.
      split_and!; [done|done|lia|lia].
    + apply andb_true_iff in Hb as [Hb1 Hb2]. apply Nat.eqb_eq in Hb1. destruct He as [->|He]; [lia|].
      rewrite He in Hb2. cbn [negb orb] in Hb2. apply andb_true_iff in Hb2 as [Hb2 _]. apply Nat.eqb_eq in Hb2. lia.
  - destruct (special_rows _ _ _ Hr Hz) as [Hf Hany]. rewrite Hf in Hb |- *. destruct He as [->|He]; [|done].
    apply andb_true_iff in Hb as [Hb1 _]. by apply Nat.eqb_eq in Hb1.
Qed.

Lemma process_balance e st :
  (balance (process_event e st) + gives_up (inclusion_state st) e = balance st + starts (inclusion_state st) e)%nat.
Proof.
  destruct (table_total (inclusion_state st) e) as [r Hr]. pose proof (row_balance_all _ _ _ Hr) as Hb.
  destruct (decide (entered (inclusion_state st) r = S2_AWAITING_KEX_GET)) as [Hk|Hk].
  - pose proof (table_rows waits_plain ltac:(vm_compute; reflexivity) _ _ _ Hr) as Hw. unfold waits_plain in Hw.
    rewrite bool_decide_true in Hw by done. cbn in Hw.
    destruct (plain_calm (process_event_to 3) (t_action r) (enter_state (t_new_state r) st) Hw) as [Hs _ _ _ Hfin].
    rewrite enter_entered in Hs. rewrite enter_finals in Hfin.
    unfold process_event, EVENT_DEPTH. rewrite (process_event_eq _ _ _ r) by done. unfold balance. rewrite Hs, Hfin.
    destruct (final_action (t_action r)); [destruct Hb; congruence|]. lia.
  - destruct (sim_process balanced calm_balanced ltac:(by intros ? ?) nested_balanced_row nested_balanced_final e st r Hr)
      as [Hf HR|st1 ev Hf Hev [Hs _ _ _ Hfin] HR].
    + rewrite Hf in Hb. destruct HR as [_ HR]; [by rewrite enter_entered|]. rewrite HR.
      unfold balance. rewrite enter_entered, enter_finals. lia.
    + rewrite Hf in Hb. destruct Hb as (Hi & Hni & -> & ->). rewrite enter_entered, Hi in Hs. rewrite enter_finals in Hfin.
      destruct HR as [_ HR]; [by change (inclusion_state st1 <> S2_AWAITING_KEX_GET); rewrite Hs|].
      rewrite HR. rewrite (final_balance st) by done. lia.
Qed.

(** ** The same for the calls from outside *)

Definition step_starts (e : incl_event) st : nat :=
  match e with
  | Including_start _ | Joining_start _ _ => if bool_decide (inclusion_state st = S2_INC_IDLE) then 1 else 0
  | _ => 0
  end.
Definition refusal (a : answer) : bool :=
  match a with Key_grant i _ _ | Challenge_response i _ => negb (i =? ACCEPT_INCLUSION) | Inclusion_abort => true end.
Definition step_gives_up (e : incl_event) st : nat :=
  match e with
  | Answer a => if bool_decide (inclusion_state st = S2_AWAITING_KEX_GET) && refusal a then 1 else 0
  | _ => 0
  end.

Lemma process_calm_balance e st st1 : calm st st1 -> starts (inclusion_state st) e = 0%nat -> gives_up (inclusion_state st) e = 0%nat ->
  balance (process_event e st1) = balance st.
Proof.
  intros [Hs _ _ _ Hf] Hst Hg. pose proof (process_balance e st1) as Hb. unfold balance in *. rewrite Hs, Hf in Hb. lia.
Qed.

(** The events of frames and of the transport neither start nor refuse. *)
Definition plain_event (e : Z) : Prop := e <> S2_INCLUDING_START /\ e <> S2_JOINING_START /\ e <> S2_INCLUDING_REJECT.

Lemma plain_starts s e : plain_event e -> starts s e = 0%nat /\ gives_up s e = 0%nat.
Proof.
  intros (H3 & H4 & H5). unfold starts, gives_up.
  rewrite (proj2 (Z.eqb_neq e S2_INCLUDING_START)), (proj2 (Z.eqb_neq e S2_JOINING_START)), (proj2 (Z.eqb_neq e S2_INCLUDING_REJECT)) by done.
  by rewrite !andb_false_r.
Qed.

Lemma frame_event_small st : bytes (rx_buf st) ->
  0 <= frame_event st < 512 \/ frame_event st ∈ [S2_NET_KEY_VERIFY_FINAL_RECV; S2_SEND_FINAL_TRANSFER_END].
Proof.
  intros Hb. unfold frame_event. cbv zeta.
  assert (Hr : forall p, 0 <= rx st p < 2 ^ 8) by (intros p; apply (rd_byte (rx_buf st) p Hb)).
  assert (Hl : forall p m, 0 <= m < 2 -> 0 <= Z.lor (rx_command st) (Z.shiftl (Z.land (rx st p) m) 8) < 2 ^ 9).
  { intros p m Hm. apply lor_bound; [lia|specialize (Hr SECURITY_2_COMMAND_POS); unfold rx_command; lia|].
    assert (0 <= Z.land (rx st p) m < 2 ^ 1) by (apply land_bound; lia). rewrite Z.shiftl_mul_pow2 by lia. lia. }
  destruct (_ || _); [left; apply Hl; by vm_compute|].
  destruct (_ =? PUBLIC_KEY_REPORT); [left; apply Hl; by vm_compute|].
  destruct (_ =? SECURITY_2_NETWORK_KEY_VERIFY); [destruct (_ =? _); [right; by left|left; by vm_compute]|].
  destruct (_ =? SECURITY_2_TRANSFER_END); [destruct (has _ _); [left; by vm_compute|right; right; by left]|].
  left. specialize (Hr SECURITY_2_COMMAND_POS). unfold rx_command. lia.
Qed.

Lemma frame_event_plain st : bytes (rx_buf st) -> plain_event (frame_event st).
Proof.
  intros Hb. destruct (frame_event_small st Hb) as [He|He].
  - unfold plain_event, S2_INCLUDING_START, S2_JOINING_START, S2_INCLUDING_REJECT. lia.
  - unfold plain_event. rewrite !elem_of_cons, elem_of_nil in He. destruct He as [->|[->|[]]]; vm_compute; split_and!; congruence.
Qed.

Ltac plain := apply plain_starts; vm_compute; split_and!; congruence.

Lemma process_plain_balance e st st1 : calm st st1 -> plain_event e -> balance (process_event e st1) = balance st.
Proof. intros Hc He. destruct (plain_starts (inclusion_state st) e He). by apply process_calm_balance. Qed.

Ltac plain_const := vm_compute; split_and!; congruence.

Lemma post_event_internal_balance st : bytes (rx_buf st) -> balance (s2_inclusion_post_event_internal behind_rules st) = balance st.
Proof.
  intros Hb. unfold s2_inclusion_post_event_internal. cbv zeta. destruct (_ || _); [done|].
  destruct (_ <? _); [apply process_plain_balance; [done|plain_const]|].
  destruct (negb _); [unfold auth_failed; apply process_plain_balance; [calm_tac|plain_const]|].
  apply process_plain_balance; [done|]. by apply frame_event_plain.
Qed.

Lemma calm_balance st st' : calm st st' -> balance st' = balance st.
Proof. intros [Hs _ _ _ Hf]. unfold balance. congruence. Qed.

(** All but the received frame, which a frame replaces. *)
Lemma post_event_balance src frame st : bytes frame -> balance (s2_inclusion_post_event behind_rules src frame st) = balance st.
Proof.
  intros Hb. unfold s2_inclusion_post_event. cbv zeta.
  assert (Hr : balance (st <| rx_buf := frame |>) = balance st) by done.
  set (st0 := st <| rx_buf := frame |>) in *. assert (Hb0 : rx_buf st0 = frame) by done. clearbody st0.
  destruct (is_multicast src); [done|].
  set (st1 := if bool_decide (inclusion_state st0 = S2_AWAITING_KEX_GET) then st0 <| inclusion_peer := src |> else st0).
  assert (Hc : calm st0 st1) by (unfold st1; case_bool_decide; calm_tac). clearbody st1.
  destruct (_ =? _); [|by rewrite <- Hr; apply calm_balance].
  rewrite post_event_internal_balance.
  - rewrite <- Hr. rewrite <- (calm_balance st0 st1 Hc). done.
  - change (bytes (rx_buf st1)). destruct Hc. by rewrite calm_rx0, Hb0.
Qed.

Lemma answer_balance a st :
  (balance (give_answer process_event st a) + step_gives_up (Answer a) st = balance st)%nat.
Proof.
  assert (Hacc : forall st1, calm st st1 -> balance (process_event S2_INCLUDING_ACCEPT st1) = balance st)
    by (intros; apply process_plain_balance; [done|plain_const]).
  assert (Hrej : (balance (process_event S2_INCLUDING_REJECT st) + (if bool_decide (inclusion_state st = S2_AWAITING_KEX_GET) then 1 else 0) = balance st)%nat).
  { pose proof (process_balance S2_INCLUDING_REJECT st) as Hb. unfold starts, gives_up in Hb.
    change (S2_INCLUDING_REJECT =? S2_INCLUDING_START) with false in Hb. change (S2_INCLUDING_REJECT =? S2_JOINING_START) with false in Hb.
    rewrite Z.eqb_refl, andb_false_r, andb_true_r in Hb. lia. }
  destruct a as [i k c|i resp|]; cbn [give_answer step_gives_up refusal];
    try (destruct (i =? ACCEPT_INCLUSION); cbn [negb]; [rewrite Hacc by calm_tac; rewrite andb_false_r; lia|]);
    rewrite andb_true_r; exact Hrej.
Qed.

Lemma step_balance e st : event_ok e ->
  (balance (incl_step behind_rules e st) + step_gives_up e st = balance st + step_starts e st)%nat.
Proof.
  intros Hok. destruct e as [c|c csa| |a|src frame| |status|src|h|s c k]; cbn [incl_step step_gives_up step_starts].
  - unfold s2_inclusion_including_start. case_bool_decide as Hi; [|lia].
    set (st1 := _ <| kex_fail_code := 0 |>). assert (Hc : calm st st1) by (unfold st1; calm_tac). clearbody st1.
    pose proof (process_balance S2_INCLUDING_START st1) as Hb. pose proof (calm_balance _ _ Hc) as Hcb. destruct Hc as [Hs].
    rewrite Hs, Hi in Hb. change (gives_up S2_INC_IDLE S2_INCLUDING_START) with 0%nat in Hb.
    change (starts S2_INC_IDLE S2_INCLUDING_START) with 1%nat in Hb. lia.
  - unfold s2_inclusion_joining_start. cbv zeta.
    match goal with |- context [process_event _ ?x] => set (st1 := x) end.
    assert (Hc : calm st st1) by (unfold st1; calm_tac). clearbody st1.
    pose proof (process_balance S2_JOINING_START st1) as Hb. pose proof (calm_balance _ _ Hc) as Hcb. destruct Hc as [Hs].
    rewrite Hs in Hb. unfold starts, gives_up in Hb. change (S2_JOINING_START =? S2_INCLUDING_REJECT) with false in Hb.
    rewrite andb_false_r in Hb. change ((S2_JOINING_START =? S2_INCLUDING_START) || (S2_JOINING_START =? S2_JOINING_START)) with true in Hb.
    rewrite andb_true_r in Hb. lia.
  - unfold s2_inclusion_neighbor_discovery_complete. rewrite (process_plain_balance _ st); [lia|done|plain_const].
  - pose proof (answer_balance a st) as Hb. destruct a; cbn [incl_step] in *;
      unfold s2_inclusion_key_grant, s2_inclusion_challenge_response, s2_inclusion_abort; unfold step_gives_up in Hb; lia.
  - rewrite post_event_balance by done. lia.
  - destruct (incl_timer st); [|lia]. unfold s2_inclusion_notify_timeout. cbv zeta. break_if;
      (rewrite (process_plain_balance _ st); [lia|calm_tac|plain_const]).
  - unfold s2_inclusion_send_done. break_if; [rewrite (process_plain_balance _ st); [lia|calm_tac|plain_const]|].
    break_if; (rewrite (process_plain_balance _ st); [lia|done|destruct status; plain_const]).
  - unfold s2_inclusion_decryption_failure. break_if; [|lia]. rewrite (process_plain_balance _ st); [lia|done|plain_const].
  - unfold s2_inclusion_set_event_handler, balance, finals. cbn. lia.
  - unfold s2_inclusion_init. repeat break_if; cbn [snd]; unfold balance, finals; cbn; lia.
Qed.
End Runs.
