(* ===== verification/S2InclusionSafety.v ===== *)
(** * Invariants of the S2 key exchange

    In every reachable state: no event nests deeper than the model follows and no
    loop runs forever; a state that waits has its timer set; the frame buffer
    holds the frame the state may have to send again, so that nothing but KEX
    frames and public keys ever goes out in the clear; the joining side waits for
    a single key that it was granted. *)

From S2P Require Import Prelude Aes Ccm Cmac S2Transport S2Inclusion S2InclusionRun.
#[local] Open Scope Z_scope.

Section Safety.
Context {L K : Type} `{BlockCipher} `{S2Link L} `{KeyStore K} `{Ecdh} (behind_rules : list Z).
Abbreviation incl := (s2_incl L K).
Implicit Types st : incl.

(** ** The invariant *)

Definition clear_commands : list Z := [KEX_GET; KEX_REPORT; KEX_SET; KEX_FAIL; PUBLIC_KEY_REPORT].
Definition command_of (frame : list Z) : Z := rd frame 1.
Definition out_ok (o : incl_out) : Prop :=
  match o with Frame_out _ f _ => command_of f ∈ clear_commands | _ => True end.

Definition unused (s : s2_inclusion_state_t) : bool :=
  match s with S2_PENDING_ECHO_KEX_REPORT | S2_AWAITING_ECHO_KEX_REPORT | S2_INC_STATE_ANY => true | _ => false end.

(** States without a timer: they end with the frame that is being sent. *)
Definition needs_timer (s : s2_inclusion_state_t) : bool :=
  match s with S2_INC_IDLE | S2_ERROR_SENT | S2_SENDING_FINAL_TRANSFER_END => false | _ => true end.

(** The frame that was sent last, in the states that send it again. *)
Definition frame_commands (s : s2_inclusion_state_t) : option (list Z) :=
  match s with
  | S2_AWAITING_KEX_REPORT => Some [KEX_GET]
  | S2_AWAITING_PUB_KEY_B => Some [KEX_SET]
  | S2_AWAITING_USER_ACCEPT | S2_AWAITING_ECHO_KEX_SET | S2_AWAITING_PUB_KEY_A => Some [PUBLIC_KEY_REPORT]
  | S2_AWAITING_NET_KEY_GET => Some [KEX_REPORT; SECURITY_2_TRANSFER_END]
  | S2_AWAITING_NET_KEY_VERIFY => Some [SECURITY_2_NETWORK_KEY_REPORT]
  | S2_AWAITING_TRANSFER_END | S2_SENDING_FINAL_TRANSFER_END => Some [SECURITY_2_TRANSFER_END]
  | S2_AWAITING_KEX_SET => Some [KEX_REPORT]
  | S2_AWAITING_NET_KEY_REPORT => Some [SECURITY_2_NETWORK_KEY_GET]
  | S2_KEY_EXCHANGED => Some [SECURITY_2_NETWORK_KEY_VERIFY]
  | _ => None
  end.
Definition frame_fits (s : s2_inclusion_state_t) (cmd : Z) : Prop :=
  match frame_commands s with Some l => cmd ∈ l | None => True end.

Definition one_hot : list Z := [1; 2; 4; 8; 16; 32; 64; 128].
Definition exchange_fits (s : s2_inclusion_state_t) (exchange granted : Z) : Prop :=
  match s with
  | S2_AWAITING_PUB_KEY_A | S2_AWAITING_USER_A_ACCEPT | S2_ECHO_KEX_SET_SENDING => exchange = 1
  | S2_AWAITING_NET_KEY_REPORT => exchange ∈ one_hot /\ has exchange granted = true
  | S2_KEY_EXCHANGED => exchange ∈ 0 :: one_hot
  | _ => True
  end.

(** States an action enters before it fills the frame, with the application asked
    in between. *)
Definition before_frame (s : s2_inclusion_state_t) : bool :=
  match s with S2_AWAITING_USER_ACCEPT | S2_AWAITING_ECHO_KEX_SET | S2_AWAITING_KEX_SET => true | _ => false end.

(** The command of the last frame that was given to the transport. *)
Definition frame_given (o : incl_out) : option Z :=
  match o with Frame_out _ f _ | Data_out _ f _ => Some (command_of f) | _ => None end.
Definition last_given st : option Z := last (omap frame_given (incl_outs st)).

(** In the two states without a timer, the frame whose transmission ends them. *)
Definition ends_with st : Prop :=
  match inclusion_state st with
  | S2_ERROR_SENT => incl_timer st = None -> last_given st = Some KEX_FAIL
  | S2_SENDING_FINAL_TRANSFER_END => last_given st = Some SECURITY_2_TRANSFER_END
  | _ => True
  end.

Record base st : Prop := mkBase {
  base_hang : hang st = false;
  base_granted : byte (key_granted st);
  base_rx : bytes (rx_buf st);
  base_buf : length (inclusion_buf st) = 40%nat;
  base_outs : Forall out_ok (incl_outs st)
}.

(** [full] is false while an action is under way that sets the timer later. *)
Record inv (full : bool) st : Prop := mkInv {
  inv_base : base st;
  inv_used : unused (inclusion_state st) = false;
  inv_timer : full = true -> needs_timer (inclusion_state st) = true -> is_Some (incl_timer st);
  inv_frame : full = true \/ before_frame (inclusion_state st) = false -> frame_fits (inclusion_state st) (command_of (current_frame st));
  inv_exchange : exchange_fits (inclusion_state st) (key_exchange st) (key_granted st);
  inv_ends : ends_with st
}.

(** ** Primitives *)

Ltac base_field := let Hb := fresh in intros Hb; destruct Hb; constructor; done.

Lemma base_emit st o : out_ok o -> base st -> base (incl_emit o st).
Proof. intros Ho []. constructor; try done. unfold incl_emit. cbn. rewrite Forall_app. by split; [|constructor]. Qed.
Lemma base_timeout st t : base st -> base (s2_inclusion_set_timeout t st).
Proof. base_field. Qed.
Lemma base_stop st : base st -> base (s2_inclusion_stop_timeout st).
Proof. base_field. Qed.
Lemma base_retry st n : base st -> base (set_retry_counter n st).
Proof. base_field. Qed.
Lemma base_address st s o : base st -> base (address s o st).
Proof. base_field. Qed.
Lemma base_key_update st s k t : base st -> base (key_update s k t st).
Proof. base_field. Qed.
Lemma base_state st s : base st -> base (set_inclusion_state s st).
Proof. base_field. Qed.
Lemma base_fill st f n : base st -> base (fill_frame f n st).
Proof. intros []. constructor; try done. unfold fill_frame. cbn. by rewrite length_memcpy_at. Qed.

(** What a change keeps besides [base]. *)
Record keeps st st' : Prop := mkKeeps {
  keeps_state : inclusion_state st' = inclusion_state st;
  keeps_timer : incl_timer st' = incl_timer st;
  keeps_frame : current_frame st' = current_frame st;
  keeps_exchange : key_exchange st' = key_exchange st;
  keeps_granted : key_granted st' = key_granted st;
  keeps_handler : m_evt_handler st' = m_evt_handler st;
  keeps_store : keystore st' = keystore st;
  keeps_node : r_node (inclusion_peer st') = r_node (inclusion_peer st);
  keeps_rx : rx_buf st' = rx_buf st
}.
#[export] Instance keeps_preorder : PreOrder keeps.
Proof. split; [done|]. intros a b c [] []. constructor; congruence. Qed.

Lemma last_given_emit o c st : frame_given o = Some c -> last_given (incl_emit o st) = Some c.
Proof. intros Ho. unfold last_given, incl_emit. cbn. rewrite omap_app. cbn. rewrite Ho. apply last_snoc. Qed.
Lemma last_given_event e st : last_given (incl_emit (Event_out e) st) = last_given st.
Proof. unfold last_given, incl_emit. cbn. rewrite omap_app. cbn. by rewrite app_nil_r. Qed.

(** [ends_with] looks at three members. *)
Lemma ends_ext st st' : ends_with st -> inclusion_state st' = inclusion_state st -> incl_timer st' = incl_timer st ->
  incl_outs st' = incl_outs st -> ends_with st'.
Proof. unfold ends_with, last_given. by intros He -> -> ->. Qed.

Lemma send_frame_last st : last_given (s2_inclusion_send_frame st) = Some (command_of (current_frame st)).
Proof. unfold s2_inclusion_send_frame. destruct (link_send_frame _ _ _). by apply last_given_emit. Qed.
Lemma send_data_last st : last_given (s2_inclusion_send_data st) = Some (command_of (current_frame st)).
Proof. unfold s2_inclusion_send_data, send_data_call. destruct (link_send_data _ _ _). by apply last_given_emit. Qed.

Lemma send_frame_ok st : base st -> command_of (current_frame st) ∈ clear_commands ->
  base (s2_inclusion_send_frame st) /\ keeps st (s2_inclusion_send_frame st).
Proof.
  intros Hb Hc. unfold s2_inclusion_send_frame. destruct (link_send_frame _ _ _) as [t l]. unfold count_send. split; [|by constructor].
  apply base_retry, base_emit; [done|]. destruct Hb. by constructor.
Qed.

Lemma lr_r_node c : r_node (if IS_LR_NODE (r_node c) then convert_normal_to_lr_keyclass c else c) = r_node c.
Proof. destruct (IS_LR_NODE _); [|done]. unfold convert_normal_to_lr_keyclass. by repeat break_if. Qed.

Lemma send_data_call_ok st : base st -> base (snd (send_data_call st)) /\ keeps st (snd (send_data_call st)).
Proof.
  intros Hb. unfold send_data_call. destruct (link_send_data _ _ _) as [t l]. cbn [snd]. split.
  - apply base_emit; [done|]. destruct Hb. by constructor.
  - constructor; try done. cbn. apply lr_r_node.
Qed.

Lemma incl_send_data_ok st : base st -> base (s2_inclusion_send_data st) /\ keeps st (s2_inclusion_send_data st).
Proof.
  intros Hb. destruct (send_data_call_ok st Hb) as [H4 H5]. unfold s2_inclusion_send_data. destruct (send_data_call st) as [t st1].
  cbn [snd] in *. unfold count_send. split; [by apply base_retry|]. etrans; [exact H5|]. by constructor.
Qed.

Lemma fill_frame_command cc cmd rest n st : length (inclusion_buf st) = 40%nat -> 2 <= n <= 40 -> Zlength (cc :: cmd :: rest) <= 40 ->
  command_of (current_frame (fill_frame (cc :: cmd :: rest) n st)) = cmd.
Proof.
  intros Hl Hn Hr. unfold command_of, current_frame.
  change (inclusion_buf (fill_frame (cc :: cmd :: rest) n st)) with (memcpy_at (inclusion_buf st) 0 (cc :: cmd :: rest)).
  change (inclusion_buf_length (fill_frame (cc :: cmd :: rest) n st)) with n. unfold rd.
  rewrite lookup_sub_buf by lia. change (Z.to_nat 0 + Z.to_nat 1)%nat with 1%nat.
  rewrite lookup_memcpy_at by (unfold Zlength in *; rewrite ?Hl; lia). rewrite bool_decide_true by (cbn; lia). done.
Qed.

(** ** Sending a new frame *)

Record sent (cmd : Z) (t : option Z) st st' : Prop := mkSent {
  sent_base : base st';
  sent_state : inclusion_state st' = inclusion_state st;
  sent_timer : incl_timer st' = t;
  sent_frame : command_of (current_frame st') = cmd;
  sent_exchange : key_exchange st' = key_exchange st;
  sent_granted : key_granted st' = key_granted st;
  sent_last : last_given st' = Some cmd
}.

Lemma finish_frame cmd rest n t st : base st -> cmd ∈ clear_commands -> 2 <= n <= 40 ->
  Zlength (COMMAND_CLASS_SECURITY_2 :: cmd :: rest) <= 40 ->
  sent cmd (Some t) st (s2_inclusion_set_timeout t (s2_inclusion_send_frame
    (set_retry_counter MAX_RETRY_COUNT (fill_frame (COMMAND_CLASS_SECURITY_2 :: cmd :: rest) n st)))).
Proof.
  intros Hb Hc Hn Hl. set (st1 := fill_frame _ n st). set (st2 := set_retry_counter _ st1).
  assert (Hf : command_of (current_frame st2) = cmd) by (apply fill_frame_command; [apply Hb|done|done]).
  assert (Hb2 : base st2) by (apply base_retry, base_fill, Hb).
  assert (Hs : inclusion_state st2 = inclusion_state st /\ key_exchange st2 = key_exchange st /\ key_granted st2 = key_granted st) by done.
  clearbody st2. destruct (send_frame_ok st2 Hb2) as [Hb3 [? ? Hf3]]; [by rewrite Hf|].
  destruct Hs as (? & ? & ?). constructor; [by apply base_timeout|cbn; congruence|done| |cbn; congruence|cbn; congruence|].
  - change (command_of (current_frame (s2_inclusion_send_frame st2)) = cmd). by rewrite Hf3.
  - change (last_given (s2_inclusion_send_frame st2) = Some cmd). by rewrite send_frame_last, Hf.
Qed.

Lemma send_new_data cmd rest n slot opt st : base st -> 2 <= n <= 40 -> Zlength (COMMAND_CLASS_SECURITY_2 :: cmd :: rest) <= 40 ->
  sent cmd (incl_timer st) st (s2_inclusion_send_data
    (set_retry_counter MAX_RETRY_COUNT (address slot opt (fill_frame (COMMAND_CLASS_SECURITY_2 :: cmd :: rest) n st)))).
Proof.
  intros Hb Hn Hl. set (st1 := fill_frame _ n st). set (st2 := set_retry_counter _ _).
  assert (Hf : command_of (current_frame st2) = cmd) by (apply fill_frame_command; [apply Hb|done|done]).
  assert (Hb2 : base st2) by (apply base_retry, base_address, base_fill, Hb).
  assert (Hs : inclusion_state st2 = inclusion_state st /\ key_exchange st2 = key_exchange st /\ key_granted st2 = key_granted st /\
    incl_timer st2 = incl_timer st) by done.
  clearbody st2. destruct (incl_send_data_ok st2 Hb2) as [Hb3 [? ? Hf3]].
  destruct Hs as (? & ? & ? & ?). constructor; [done|congruence|congruence|by rewrite Hf3|congruence|congruence|by rewrite send_data_last, Hf].
Qed.

Lemma finish_data cmd rest n t slot opt st : base st -> 2 <= n <= 40 -> Zlength (COMMAND_CLASS_SECURITY_2 :: cmd :: rest) <= 40 ->
  sent cmd (Some t) st (s2_inclusion_set_timeout t (s2_inclusion_send_data
    (set_retry_counter MAX_RETRY_COUNT (address slot opt (fill_frame (COMMAND_CLASS_SECURITY_2 :: cmd :: rest) n st))))).
Proof. intros Hb Hn Hl. destruct (send_new_data cmd rest n slot opt st Hb Hn Hl). constructor; [by apply base_timeout|done..]. Qed.

(** A KEX Fail in the clear. *)
Lemma failed_frame_ok error st : base st ->
  sent KEX_FAIL (incl_timer st) st (inclusion_failed_frame_send error NON_SECURE st).
Proof.
  intros Hb. unfold inclusion_failed_frame_send. cbv zeta. change (NON_SECURE =? TEMP_KEY_SECURE) with false. cbv iota.
  set (st0 := st <| kex_fail_code := error |>).
  assert (Hb0 : base st0) by (destruct Hb; by constructor).
  assert (Hs : inclusion_state st0 = inclusion_state st /\ key_exchange st0 = key_exchange st /\ key_granted st0 = key_granted st /\
    incl_timer st0 = incl_timer st) by done.
  clearbody st0. set (st2 := set_retry_counter _ _).
  assert (Hf : command_of (current_frame st2) = KEX_FAIL) by (apply fill_frame_command; [apply Hb0|done|done]).
  assert (Hb2 : base st2) by (apply base_retry, base_fill, Hb0).
  assert (Hs2 : inclusion_state st2 = inclusion_state st0 /\ key_exchange st2 = key_exchange st0 /\ key_granted st2 = key_granted st0 /\
    incl_timer st2 = incl_timer st0) by done.
  clearbody st2. destruct (send_frame_ok st2 Hb2) as [Hb3 [? ? Hf3]]; [rewrite Hf; set_solver|].
  destruct Hs as (? & ? & ? & ?), Hs2 as (? & ? & ? & ?).
  constructor; [done|congruence|congruence|by rewrite Hf3|congruence|congruence|by rewrite send_frame_last, Hf].
Qed.

Lemma restore_keys_ok st : base st -> base (s2_restore_keys st) /\ inclusion_state (s2_restore_keys st) = inclusion_state st.
Proof.
  intros Hb. split; [|apply (calm_restore_keys st st); reflexivity].
  unfold s2_restore_keys. cbv zeta.
  assert (Hf : forall l st1, base st1 -> base (fold_left restore_key l st1)).
  { induction l as [|p l IH]; intros st1 Hb1; [done|]. cbn [fold_left]. apply IH. unfold restore_key.
    destruct (keystore_network_key_read _ _); [|done]. apply base_key_update. destruct Hb1. by constructor. }
  specialize (Hf m_key_slot_pair (st <| link := link_unload_keys (link st) |>)).
  destruct Hf; [destruct Hb; by constructor|]. by constructor.
Qed.

(** ** Back to idle *)

Lemma inv_idle full st : base st -> inclusion_state st = S2_INC_IDLE -> inv full st.
Proof. intros Hb Hs. constructor; unfold ends_with; rewrite ?Hs; done. Qed.
Lemma inv_error full st : base st -> inclusion_state st = S2_ERROR_SENT -> last_given st = Some KEX_FAIL -> inv full st.
Proof. intros Hb Hs Hl. constructor; unfold ends_with; rewrite ?Hs; done. Qed.

Lemma set_same_state st s : inclusion_state st = s -> set_inclusion_state s st = st.
Proof. intros <-. by destruct st. Qed.

(** Idle ignores what is raised. *)
Lemma idle_nested d e st : e ∈ nested_events -> inclusion_state st = S2_INC_IDLE -> process_event_to (S d) e st = st.
Proof.
  unfold nested_events, raised_events. rewrite !elem_of_cons, elem_of_nil. intros He Hs.
  rewrite (process_event_eq _ _ _ (Row S2_INC_IDLE S2_EVT_ANY S2_NO_ACTION S2_INC_IDLE)).
  - cbn [run_action t_action t_new_state]. unfold enter_state. rewrite bool_decide_false by done. by apply set_same_state.
  - rewrite Hs. destruct He as [->|[->|[->|[->|[->|[]]]]]]; by vm_compute.
Qed.

(** The changes an answer makes before its event. *)
Lemma base_grant st m k : base st -> base (st <| inclusion_mode := m |> <| key_granted := u8 k |>).
Proof. intros []. constructor; try done. apply u8_byte. Qed.
Lemma base_response st r : base st -> base (st <| public_key := r |>).
Proof. base_field. Qed.

Lemma answers_idle d l st : base st -> inclusion_state st = S2_INC_IDLE ->
  base (fold_left (give_answer (process_event_to (S d))) l st) /\
  inclusion_state (fold_left (give_answer (process_event_to (S d))) l st) = S2_INC_IDLE.
Proof.
  revert st. induction l as [|a l IH]; intros st Hb Hs; [done|]. cbn [fold_left].
  destruct a as [i k c|i r|]; cbn [give_answer]; try destruct (i =? ACCEPT_INCLUSION);
    rewrite idle_nested by (done || set_solver); apply IH; try done; [by apply base_grant|by apply base_response].
Qed.

Lemma push_idle d full e st : base st -> inclusion_state st = S2_INC_IDLE -> inv full (push_event (process_event_to (S d)) e st).
Proof.
  intros Hb Hs. unfold push_event. destruct (answers_idle d (m_evt_handler st e) (incl_emit (Event_out e) st)) as [Hb1 Hs1];
    [by apply base_emit|done|]. by apply inv_idle.
Qed.

Lemma failed_evt_inv d full t st : base st -> inclusion_state st = S2_INC_IDLE ->
  inv full (inclusion_failed_evt_push (process_event_to (S d)) t st).
Proof.
  intros Hb Hs. unfold inclusion_failed_evt_push. cbv zeta. destruct (restore_keys_ok (s2_inclusion_stop_timeout st)) as [Hb1 Hs1]; [by apply base_stop|].
  apply push_idle; [done|]. by rewrite Hs1.
Qed.

Lemma joining_complete_inv d full t st : base st -> inclusion_state st = S2_INC_IDLE ->
  inv full (s2_joining_complete (process_event_to (S d)) t st).
Proof. intros Hb Hs. unfold s2_joining_complete. cbv zeta. destruct (restore_keys_ok st Hb). apply push_idle; [done|congruence]. Qed.

Lemma inclusion_complete_inv d full st : base st -> inclusion_state st = S2_INC_IDLE ->
  inv full (s2_inclusion_complete (process_event_to (S d)) st).
Proof.
  intros Hb Hs. unfold s2_inclusion_complete. cbv zeta. destruct (_ && _).
  - destruct (restore_keys_ok (s2_inclusion_stop_timeout st)) as [Hb1 Hs1]; [by apply base_stop|]. apply push_idle; [done|]. by rewrite Hs1.
  - destruct (failed_frame_ok KEX_FAIL_KEY_VERIFY st Hb). apply failed_evt_inv; [done|congruence].
Qed.

(** ** Errors raised from within an action *)

Lemma raise_error_sent d full st : base st -> last_given st = Some KEX_FAIL -> inv full (process_event_to (S d) S2_INCLUSION_ERROR_SENT st).
Proof.
  intros Hb Hl. destruct (decide (inclusion_state st = S2_INC_IDLE)) as [Hs|Hs].
  { rewrite idle_nested by (done || set_solver). by apply inv_idle. }
  rewrite (process_event_eq _ _ _ (Row S2_INC_STATE_ANY S2_INCLUSION_ERROR_SENT S2_NO_ACTION S2_ERROR_SENT))
    by (destruct (inclusion_state st); done).
  cbn [run_action t_action t_new_state]. unfold enter_state. rewrite bool_decide_false by done.
  apply inv_error; [by apply base_state|done|done].
Qed.

Lemma raise_error d full st : base st -> inv full (process_event_to (S (S d)) S2_INCLUSION_ERROR st).
Proof.
  intros Hb. destruct (decide (inclusion_state st = S2_INC_IDLE)) as [Hs|Hs].
  { rewrite idle_nested by (done || set_solver). by apply inv_idle. }
  rewrite (process_event_eq _ _ _ (Row S2_INC_STATE_ANY S2_INCLUSION_ERROR S2_ABORT_ACTION S2_INC_IDLE))
    by (destruct (inclusion_state st); done).
  cbn [run_action t_action t_new_state]. unfold enter_state. rewrite bool_decide_false by done.
  apply failed_evt_inv; [by apply base_state|done].
Qed.

Lemma kex_fail_inv d full error st : base st -> inv full (send_kex_fail (process_event_to (S d)) error st).
Proof. intros Hb. unfold send_kex_fail. by apply raise_error_sent; apply (failed_frame_ok error st Hb). Qed.

Lemma verify_failed_inv d full st : base st -> inv full (key_verify_failed (process_event_to (S (S d))) st).
Proof. intros Hb. unfold key_verify_failed. apply raise_error. apply (failed_frame_ok _ st Hb). Qed.

(** ** Entering a state with a frame and a timer *)

Lemma inv_sent full cmd t st st' s : sent cmd (Some t) st st' -> inclusion_state st = s -> unused s = false ->
  frame_fits s cmd -> exchange_fits s (key_exchange st) (key_granted st) -> inv full st'.
Proof.
  intros [Hb Hs Ht Hf Hx Hg Hl] Hst Hu Hff He. constructor; [done|congruence|by rewrite Ht|rewrite Hs, Hf, Hst; done|by rewrite Hs, Hx, Hg, Hst|].
  unfold ends_with. rewrite Hs, Hst, Ht. destruct s; try done. rewrite Hl. f_equal. by apply list_elem_of_singleton in Hff.
Qed.

Lemma send_kex_set_inv full st : base st -> inclusion_state st = S2_AWAITING_PUB_KEY_B -> inv full (s2_send_kex_set st).
Proof.
  intros Hb Hs. unfold s2_send_kex_set. cbv zeta. eapply inv_sent; [apply finish_frame; [by apply base_stop|set_solver|done|done]|done|done|by left|done].
Qed.

Lemma ecdh_a_keeps st : base st -> base (s2_do_ecdh_calc_a st) /\ keeps st (s2_do_ecdh_calc_a st).
Proof. intros Hb. split; [destruct Hb; by constructor|]. by constructor. Qed.

Lemma echo_kex_set_inv full st : base st -> inclusion_state st = S2_ECHO_KEX_SET_SENDING -> key_exchange st = 1 -> inv full (s2_send_echo_kex_set st).
Proof.
  intros Hb Hs Hx. unfold s2_send_echo_kex_set. cbv zeta. set (st1 := address _ _ _).
  assert (Hb1 : base st1) by (by apply base_address, base_fill, base_retry, base_stop).
  assert (Hs1 : inclusion_state st1 = S2_ECHO_KEX_SET_SENDING /\ key_exchange st1 = 1) by (split; [exact Hs|exact Hx]).
  clearbody st1. destruct (send_data_call_ok st1 Hb1) as [Hb2 [Hs2 _ _ Hx2]], Hs1 as [Hs1 Hx1].
  set (st2 := snd (send_data_call st1)) in *. clearbody st2.
  assert (Hs3 : inclusion_state (s2_inclusion_set_timeout TB5_TIMEOUT st2) = S2_ECHO_KEX_SET_SENDING) by (cbn; congruence).
  constructor; unfold ends_with; rewrite ?Hs3; [by apply base_timeout|done|done|done| |done]. cbn. congruence.
Qed.

Lemma ecdh_b_inv full st : base st -> inclusion_state st = S2_ECHO_KEX_SET_SENDING -> key_exchange st = 1 -> inv full (s2_do_ecdh_calc_b st).
Proof.
  intros Hb Hs Hx. unfold s2_do_ecdh_calc_b. cbv zeta. apply echo_kex_set_inv; [|exact Hs|exact Hx].
  apply base_retry. destruct Hb. by constructor.
Qed.

(** ** The user's answers *)

Definition asks_user (s : s2_inclusion_state_t) : bool :=
  match s with S2_AWAITING_KEY_USER_ACCEPT | S2_AWAITING_USER_ACCEPT | S2_AWAITING_USER_A_ACCEPT => true | _ => false end.

Definition user_row (s : s2_inclusion_state_t) (r : s2_transition_t) : bool :=
  asks_user s || (bool_decide (t_new_state r = S2_INC_IDLE)
                  && (bool_decide (t_action r = S2_ABORT_ACTION) || bool_decide (t_action r = S2_NO_ACTION))).

(** Out of turn they end the exchange. *)
Lemma answer_out_of_turn d full e st : e = S2_INCLUDING_ACCEPT \/ e = S2_INCLUDING_REJECT -> asks_user (inclusion_state st) = false ->
  base st -> inv full (process_event_to (S (S d)) e st).
Proof.
  intros He Ha Hb. destruct (table_total (inclusion_state st) e) as [r Hr]. rewrite (process_event_eq _ _ _ r) by done.
  assert (Hu : user_row (inclusion_state st) r = true).
  { destruct He as [->| ->]; eapply event_rows; [|exact Hr| |exact Hr]; by vm_compute. }
  unfold user_row in Hu. rewrite Ha in Hu. cbn [orb] in Hu. apply andb_true_iff in Hu as [Hn Hu].
  apply bool_decide_eq_true in Hn. rewrite Hn. unfold enter_state. rewrite bool_decide_false by done.
  apply orb_true_iff in Hu as [Hu|Hu]; apply bool_decide_eq_true in Hu; rewrite Hu; cbn [run_action].
  - apply failed_evt_inv; [by apply base_state|done].
  - apply inv_idle; [by apply base_state|done].
Qed.

Ltac take_row s e :=
  let r := eval vm_compute in (table_row s e) in
  lazymatch r with
  | Some ?r => rewrite (process_event_eq _ _ _ r) by (match goal with Hs : inclusion_state _ = s |- _ => rewrite ?Hs end; by vm_compute);
      cbn [run_action t_action t_new_state]; unfold enter_state; rewrite bool_decide_false by done
  end.

Lemma accept_in_turn d full st st1 : asks_user (inclusion_state st) = true -> inv full st -> base st1 ->
  inclusion_state st1 = inclusion_state st -> incl_timer st1 = incl_timer st -> current_frame st1 = current_frame st ->
  key_exchange st1 = key_exchange st -> inv full (process_event_to (S d) S2_INCLUDING_ACCEPT st1).
Proof.
  intros Ha [_ Hu Ht Hf He _] Hb1 Hs1 Ht1 Hf1 Hx1. destruct (inclusion_state st) eqn:Hs; try done.
  - take_row S2_AWAITING_KEY_USER_ACCEPT S2_INCLUDING_ACCEPT. apply send_kex_set_inv; [by apply base_state|done].
  - take_row S2_AWAITING_USER_ACCEPT S2_INCLUDING_ACCEPT.
    destruct (ecdh_a_keeps (set_inclusion_state S2_AWAITING_ECHO_KEX_SET st1)) as [Hb2 [Hs2 Ht2 Hf2 _ _]]; [by apply base_state|].
    change (inclusion_state (set_inclusion_state S2_AWAITING_ECHO_KEX_SET st1)) with S2_AWAITING_ECHO_KEX_SET in Hs2.
    change (incl_timer (set_inclusion_state S2_AWAITING_ECHO_KEX_SET st1)) with (incl_timer st1) in Ht2.
    change (current_frame (set_inclusion_state S2_AWAITING_ECHO_KEX_SET st1)) with (current_frame st1) in Hf2.
    set (st2 := s2_do_ecdh_calc_a _) in *. clearbody st2.
    constructor; unfold ends_with; rewrite ?Hs2; [done|done|rewrite Ht2, Ht1; by intros Hfl _; apply Ht|rewrite Hf2, Hf1|done|done].
    intros [Hfl|Hfl]; [|done]. by apply Hf; left.
  - take_row S2_AWAITING_USER_A_ACCEPT S2_INCLUDING_ACCEPT. apply ecdh_b_inv; [by apply base_state|done|].
    change (key_exchange st1 = 1). rewrite Hx1. exact He.
Qed.

Lemma reject_in_turn d full st : asks_user (inclusion_state st) = true -> base st ->
  inv full (process_event_to (S (S d)) S2_INCLUDING_REJECT st).
Proof.
  intros Ha Hb. destruct (inclusion_state st) eqn:Hs; try done.
  - take_row S2_AWAITING_KEY_USER_ACCEPT S2_INCLUDING_REJECT.
    destruct (failed_frame_ok KEX_FAIL_CANCEL (set_inclusion_state S2_ERROR_SENT st)); [by apply base_state|]. by apply inv_error.
  - take_row S2_AWAITING_USER_ACCEPT S2_INCLUDING_REJECT.
    destruct (failed_frame_ok KEX_FAIL_CANCEL (set_inclusion_state S2_ERROR_SENT st)); [by apply base_state|]. by apply inv_error.
  - take_row S2_AWAITING_USER_A_ACCEPT S2_INCLUDING_REJECT. apply failed_evt_inv; [by apply base_state|done].
Qed.

Lemma answer_inv d full a st : inv full st -> inv full (give_answer (process_event_to (S (S d))) st a).
Proof.
  intros Hi. pose proof (inv_base _ _ Hi) as Hb.
  assert (Hrej : inv full (process_event_to (S (S d)) S2_INCLUDING_REJECT st)).
  { destruct (asks_user (inclusion_state st)) eqn:Ha; [by apply reject_in_turn|]. apply answer_out_of_turn; auto. }
  assert (Hacc : forall st1, base st1 -> inclusion_state st1 = inclusion_state st -> incl_timer st1 = incl_timer st ->
    current_frame st1 = current_frame st -> key_exchange st1 = key_exchange st -> inv full (process_event_to (S (S d)) S2_INCLUDING_ACCEPT st1)).
  { intros st1 Hb1 Hs1 Ht1 Hf1 Hx1. destruct (asks_user (inclusion_state st)) eqn:Ha; [by eapply accept_in_turn|].
    apply answer_out_of_turn; auto. congruence. }
  destruct a as [i k c|i r|]; cbn [give_answer]; try destruct (i =? ACCEPT_INCLUSION); try done; apply Hacc; try done;
    [by apply base_grant|by apply base_response].
Qed.

Lemma answers_inv d full l st : inv full st -> inv full (fold_left (give_answer (process_event_to (S (S d)))) l st).
Proof. revert st. induction l as [|a l IH]; intros st Hi; [done|]. cbn [fold_left]. by apply IH, answer_inv. Qed.

Lemma inv_emit full e st : inv full st -> inv full (incl_emit (Event_out e) st).
Proof. intros [Hb Hu Ht Hf He Hl]. constructor; [by apply base_emit|done|done|done|done|]. unfold ends_with. rewrite last_given_event. exact Hl. Qed.

Lemma push_inv d full e st : inv full st -> inv full (push_event (process_event_to (S (S d))) e st).
Proof. intros Hi. unfold push_event. by apply answers_inv, inv_emit. Qed.

(** ** The states the application can be asked in *)

Definition closed (Q : list s2_inclusion_state_t) : bool :=
  forallb (fun e => forallb (fun s => match table_row s e with Some r => bool_decide (entered s r ∈ Q) | None => false end) Q) nested_events.

Definition stays (Q : list s2_inclusion_state_t) st st' : Prop := inclusion_state st ∈ Q -> inclusion_state st' ∈ Q.
#[local] Instance stays_preorder Q : PreOrder (stays Q).
Proof. split; [intros st; unfold stays; tauto|]. intros a b c Hab Hbc Ha. by apply Hbc, Hab. Qed.

Lemma closed_row Q e st r : closed Q = true -> e ∈ nested_events -> table_row (inclusion_state st) e = Some r ->
  stays Q st (enter_state (t_new_state r) st).
Proof.
  intros Hc He Hr Hs. rewrite enter_entered. unfold closed in Hc. rewrite forallb_forall in Hc.
  specialize (Hc e (proj1 (list_elem_of_In _ _) He)). cbv beta in Hc. rewrite forallb_forall in Hc.
  specialize (Hc _ (proj1 (list_elem_of_In _ _) Hs)). rewrite Hr in Hc. by apply bool_decide_eq_true in Hc.
Qed.

Lemma push_stays Q d e st : closed Q = true -> stays Q st (push_event (process_event_to d) e st).
Proof.
  intros Hc. assert (Hcalm : forall a b, calm a b -> stays Q a b) by (intros a b [Hs] Ha; by rewrite Hs).
  assert (Hhang : forall st, stays Q st (st <| hang := true |>)) by (intros st1 Hs; exact Hs).
  assert (Hrow : forall e st r, e ∈ nested_events -> table_row (inclusion_state st) e = Some r ->
    final_action (t_action r) = false -> stays Q st (enter_state (t_new_state r) st)) by (intros; by eapply closed_row).
  assert (Hfin : forall e st r st1 ev, e ∈ nested_events -> table_row (inclusion_state st) e = Some r ->
    final_action (t_action r) = true -> calm (enter_state (t_new_state r) st) st1 -> final_event ev = true ->
    stays Q st (incl_emit (Event_out ev) st1)).
  { intros e2 st2 r st3 ev He2 Hr _ [Hs3] _ Hq. change (inclusion_state (incl_emit (Event_out ev) st3)) with (inclusion_state st3).
    rewrite Hs3. by eapply closed_row. }
  change (stays Q (incl_emit (Event_out e) st) (push_event (process_event_to d) e st)).
  apply (sim_push (stays Q) Hcalm Hhang Hrow Hfin). intros e1 st1 He1. by apply (sim_nested (stays Q) Hcalm Hhang Hrow Hfin).
Qed.

(** ** Actions of the joining side *)

Lemma public_key_frame_length flag hidden st : Zlength (public_key_frame flag hidden st) <= 35.
Proof.
  unfold public_key_frame. cbv zeta. rewrite Zlength_app, Zlength_memcpy_at. unfold keystore_public_key_read.
  change (Zlength [COMMAND_CLASS_SECURITY_2; PUBLIC_KEY_REPORT; flag]) with 3. unfold Zlength. rewrite length_take. lia.
Qed.

Lemma kex_report_inv d st : base st -> inclusion_state st = S2_AWAITING_KEX_SET ->
  inv true (s2_send_kex_report (process_event_to (S (S d))) st).
Proof.
  intros Hb Hs. unfold s2_send_kex_report. cbv zeta. set (st1 := _ <| keystore := _ |>).
  assert (Hi : inv false st1). { constructor; [destruct Hb; by constructor|by rewrite (Hs : inclusion_state st1 = _)|done| | |].
    - change (inclusion_state st1) with (inclusion_state st). rewrite Hs. by intros [?|?].
    - change (inclusion_state st1) with (inclusion_state st). by rewrite Hs.
    - unfold ends_with. by rewrite (Hs : inclusion_state st1 = _). }
  assert (Hs1 : inclusion_state st1 = S2_AWAITING_KEX_SET) by exact Hs. clearbody st1.
  pose proof (push_stays [S2_AWAITING_KEX_SET; S2_INC_IDLE; S2_ERROR_SENT] (S (S d)) (S2_NODE_INCLUSION_INITIATED_EVENT (inclusion_peer st1)) st1
    ltac:(vm_compute; reflexivity)) as Hq.
  apply (push_inv d false (S2_NODE_INCLUSION_INITIATED_EVENT (inclusion_peer st1))) in Hi.
  unfold stays in Hq. rewrite Hs1 in Hq. specialize (Hq ltac:(left)).
  set (st2 := push_event _ _ st1) in *. clearbody st2. clear st1 Hs1.
  set (st3 := st2 <| csa_support := _ |>).
  assert (Hb3 : base st3) by (destruct (inv_base _ _ Hi); by constructor).
  assert (Hq3 : inclusion_state st3 ∈ [S2_AWAITING_KEX_SET; S2_INC_IDLE; S2_ERROR_SENT]) by exact Hq. clearbody st3.
  rewrite !elem_of_cons, elem_of_nil in Hq3.
  destruct Hq3 as [Hq3|[Hq3|[Hq3|[]]]]; (eapply inv_sent; [apply finish_frame; [done|set_solver|done|done]|exact Hq3|done| |done]); try done.
  by left.
Qed.

Lemma pub_key_b_inv d st : base st -> inclusion_state st = S2_AWAITING_PUB_KEY_A ->
  inv true (s2_send_pub_key_b (process_event_to (S d)) st).
Proof.
  intros Hb Hs. unfold s2_send_pub_key_b. cbv zeta. set (st0 := s2_inclusion_stop_timeout st).
  assert (Hb0 : base st0) by (by apply base_stop). assert (Hs0 : inclusion_state st0 = S2_AWAITING_PUB_KEY_A) by exact Hs.
  clearbody st0. destruct (negb _); [by apply kex_fail_inv|].
  set (st1 := st0 <| scheme_support := _ |>). assert (Hb1 : base st1) by (destruct Hb0; by constructor).
  assert (Hs1 : inclusion_state st1 = S2_AWAITING_PUB_KEY_A) by exact Hs0. clearbody st1.
  destruct (negb _); [by apply kex_fail_inv|].
  set (st2 := st1 <| curve_support := _ |>). assert (Hb2 : base st2) by (destruct Hb1; by constructor).
  assert (Hs2 : inclusion_state st2 = S2_AWAITING_PUB_KEY_A) by exact Hs1. clearbody st2.
  destruct (negb _); [by apply kex_fail_inv|].
  set (st3 := st2 <| key_granted := _ |>).
  assert (Hk : byte (rx st2 SECURITY_2_KEX_KEYS_POS)) by (apply rd_byte, Hb2).
  assert (Hb3 : base st3) by (destruct Hb2; by constructor).
  assert (Hs3 : inclusion_state st3 = S2_AWAITING_PUB_KEY_A) by exact Hs2. clearbody st3.
  destruct (_ && negb _); [by apply kex_fail_inv|].
  set (st4 := if has _ _ then st3 else _).
  assert (Hb4 : base st4 /\ inclusion_state st4 = S2_AWAITING_PUB_KEY_A).
  { unfold st4. destruct (has _ _); split; try done. destruct Hb3; by constructor. }
  clearbody st4. destruct Hb4 as [Hb4 Hs4].
  set (st5 := _ <| kex_set_byte2 := _ |>).
  assert (Hb5 : base st5) by (destruct Hb4; by constructor).
  assert (Hs5 : inclusion_state st5 = S2_AWAITING_PUB_KEY_A) by exact Hs4. assert (Hx5 : key_exchange st5 = 1) by done. clearbody st5.
  pose proof (public_key_frame_length SECURITY_2_JOINING_NODE) as Hl. unfold public_key_frame in *. cbv zeta in *. cbn [app] in *.
  eapply inv_sent; [apply finish_frame; [done|set_solver|done|]|exact Hs5|done|by left|exact Hx5].
  etrans; [apply Hl|done].
Qed.

Lemma pub_key_a_recv_inv d st : base st -> inclusion_state st = S2_AWAITING_USER_A_ACCEPT -> key_exchange st = 1 ->
  inv true (s2_pub_key_a_recv (process_event_to (S (S d))) st).
Proof.
  intros Hb Hs Hx. unfold s2_pub_key_a_recv. cbv zeta. apply push_inv.
  match goal with |- inv true ?x => set (st1 := x) end.
  assert (Hb1 : base st1) by (destruct Hb; by constructor). assert (Hs1 : inclusion_state st1 = S2_AWAITING_USER_A_ACCEPT) by exact Hs.
  assert (Ht1 : is_Some (incl_timer st1)) by done. assert (Hx1 : key_exchange st1 = 1) by exact Hx. clearbody st1.
  constructor; unfold ends_with; rewrite ?Hs1; done.
Qed.

Lemma final_transfer_end_inv d st : base st -> inclusion_state st = S2_SENDING_FINAL_TRANSFER_END ->
  inv true (s2_send_final_transfer_end (process_event_to (S (S d))) st).
Proof.
  intros Hb Hs. unfold s2_send_final_transfer_end. cbv zeta. destruct (bad_transfer_end _); [by apply verify_failed_inv, base_stop|].
  match goal with |- inv true (s2_inclusion_send_data (set_retry_counter _ (address ?sl ?o (fill_frame ?f ?n ?x)))) =>
    destruct (send_new_data SECURITY_2_TRANSFER_END [SECURITY_2_KEY_REQ_COMPLETE] n sl o x) as [Hb2 Hs2 Ht2 Hf2 Hx2 Hg2 Hl2] end;
    [by apply base_stop|done|done|].
  change (inclusion_state (s2_inclusion_stop_timeout st)) with (inclusion_state st) in Hs2. rewrite Hs in Hs2.
  constructor; unfold ends_with; rewrite ?Hs2; [exact Hb2|done|done|rewrite Hf2; intros _; by left|done|exact Hl2].
Qed.

(** The loop finds the next granted key. *)
Definition next_ok (exchange granted : Z) : bool :=
  match next_granted KEY_BITS exchange granted with
  | Some k => bool_decide (k ∈ one_hot) && has k granted
  | None => false
  end.

Lemma next_granted_ok exchange granted : byte granted -> granted <> 0 ->
  exchange = 1 \/ exchange ∈ 0 :: one_hot /\ has (- exchange) granted = true ->
  exists k, next_granted KEY_BITS exchange granted = Some k /\ k ∈ one_hot /\ has k granted = true.
Proof.
  intros Hg Hn He.
  assert (Hok : next_ok exchange granted = true).
  { destruct He as [->|[He Hh]].
    - pose proof (byte_all (fun g => (g =? 0) || next_ok 1 g) ltac:(vm_compute; reflexivity) granted Hg) as Ha. cbv beta in Ha.
      apply orb_true_iff in Ha as [Ha|Ha]; [by apply Z.eqb_eq in Ha|done].
    - pose proof (byte_all (fun g => forallb (fun x => negb (has (- x) g) || next_ok x g) (0 :: one_hot)) ltac:(vm_compute; reflexivity) granted Hg) as Ha.
      cbv beta in Ha. rewrite forallb_forall in Ha. specialize (Ha exchange (proj1 (list_elem_of_In _ _) He)). by rewrite Hh in Ha. }
  unfold next_ok in Hok. destruct (next_granted _ _ _) as [k|]; [|done]. apply andb_true_iff in Hok as [Hk Hh].
  apply bool_decide_eq_true in Hk. eauto.
Qed.

Lemma no_keys_inv d st : base st -> inclusion_state st = S2_AWAITING_NET_KEY_REPORT ->
  inv true (process_event_to (S (S (S d))) S2_NO_KEYS_GRANTED st).
Proof.
  intros Hb Hs. take_row S2_AWAITING_NET_KEY_REPORT S2_NO_KEYS_GRANTED. apply final_transfer_end_inv; [by apply base_state|done].
Qed.

(** A validation that fails has sent a KEX Fail. *)
Definition validated st (v : bool * incl) : Prop :=
  base (snd v) /\ inclusion_state (snd v) = inclusion_state st /\ (fst v = false -> last_given (snd v) = Some KEX_FAIL).

Lemma validated_base st (c : bool) st1 error : base st1 -> inclusion_state st1 = inclusion_state st ->
  validated st (if c then (true, st1) else (false, inclusion_failed_frame_send error NON_SECURE st1)).
Proof. intros Hb Hs. destruct c; [done|]. destruct (failed_frame_ok error st1 Hb) as [? Hs1]. split_and!; [done|by etrans; [exact Hs1|]|done]. Qed.

Lemma echo_report_base st : base st -> validated st (validate_echo_kex_report st).
Proof. intros Hb. by apply validated_base. Qed.

Lemma net_key_get_inv d st : base st -> inclusion_state st = S2_AWAITING_NET_KEY_REPORT ->
  key_exchange st = 1 \/ key_exchange st ∈ 0 :: one_hot /\ has (- key_exchange st) (key_granted st) = true ->
  inv true (s2_send_net_key_get (process_event_to (S (S (S d)))) st).
Proof.
  intros Hb Hs Hx. unfold s2_send_net_key_get. cbv zeta. set (st1 := s2_inclusion_stop_timeout st).
  assert (Hb1 : base st1) by (by apply base_stop). assert (Hs1 : inclusion_state st1 = S2_AWAITING_NET_KEY_REPORT) by exact Hs.
  change (key_exchange st) with (key_exchange st1) in Hx. change (key_granted st) with (key_granted st1) in Hx. clearbody st1.
  pose proof (echo_report_base st1 Hb1) as Hv.
  destruct (if rx_command st1 =? KEX_REPORT then validate_echo_kex_report st1 else (true, st1)) as [ok st'] eqn:Ev.
  destruct ok; cbn [negb].
  2: { destruct (rx_command st1 =? KEX_REPORT); [|done]. rewrite Ev in Hv. destruct Hv as (Hv & _ & Hl). apply raise_error_sent; auto. }
  destruct (bad_transfer_end st1); [by apply verify_failed_inv|].
  destruct (key_granted st1 =? 0) eqn:Hg; [by apply no_keys_inv|]. apply Z.eqb_neq in Hg.
  destruct (next_granted_ok (key_exchange st1) (key_granted st1) (base_granted _ Hb1) Hg Hx) as (k & -> & Hk & Hh).
  set (st2 := st1 <| key_exchange := k |>). assert (Hb2 : base st2) by (destruct Hb1; by constructor).
  assert (Hs2 : inclusion_state st2 = S2_AWAITING_NET_KEY_REPORT) by exact Hs1.
  assert (Hx2 : key_exchange st2 = k /\ key_granted st2 = key_granted st1) by done. clearbody st2. destruct Hx2 as [Hx2 Hg2].
  eapply inv_sent; [apply finish_data; [exact Hb2|done|done]|exact Hs2|done|by left|]. cbn. rewrite Hx2, Hg2. done.
Qed.

Lemma net_key_verify_inv d st : base st -> inclusion_state st = S2_KEY_EXCHANGED -> key_exchange st ∈ one_hot ->
  inv true (s2_send_net_key_verify (process_event_to (S d)) st).
Proof.
  intros Hb Hs Hx. unfold s2_send_net_key_verify. cbv zeta. destruct (negb _); [by apply kex_fail_inv, base_stop|].
  match goal with |- context [fill_frame _ _ ?x] => set (st1 := x) end.
  assert (Hb1 : base st1) by (destruct Hb; by constructor). assert (Hs1 : inclusion_state st1 = S2_KEY_EXCHANGED) by exact Hs.
  assert (Hx1 : key_exchange st1 = u8 (Z.shiftl (key_exchange st) 1)) by done. clearbody st1.
  eapply inv_sent; [apply finish_data; [exact Hb1|done|done]|exact Hs1|done|by left|]. cbn [exchange_fits]. rewrite Hx1.
  unfold one_hot in Hx. rewrite !elem_of_cons, elem_of_nil in Hx.
  destruct Hx as [->|[->|[->|[->|[->|[->|[->|[->|[]]]]]]]]]; apply (bool_decide_unpack _); by vm_compute.
Qed.

(** ** Actions of the including side *)

Lemma kex_get_inv st : base st -> inclusion_state st = S2_AWAITING_KEX_REPORT -> inv true (s2_send_kex_get st).
Proof.
  intros Hb Hs. unfold s2_send_kex_get. cbv zeta. eapply inv_sent; [apply finish_frame; [done|set_solver|done|done]|exact Hs|done|by left|done].
Qed.

Lemma inv_set_timeout t st : inv false st -> before_frame (inclusion_state st) = false -> inv true (s2_inclusion_set_timeout t st).
Proof.
  intros [Hb Hu _ Hf He Hl] Hbf. constructor; [by apply base_timeout|done|done| |done|].
  - intros _. apply Hf. by right.
  - unfold ends_with in *. change (inclusion_state (s2_inclusion_set_timeout t st)) with (inclusion_state st). by destruct (inclusion_state st).
Qed.

Lemma reported_schemes_ok st : base st -> validated st (validate_reported_schemes st).
Proof. intros Hb. apply validated_base; [destruct Hb; by constructor|done]. Qed.
Lemma reported_curves_ok st : base st -> validated st (validate_reported_curves st).
Proof. intros Hb. apply validated_base; [destruct Hb; by constructor|done]. Qed.
Lemma reported_keys_ok st : base st -> validated st (validate_reported_keys st).
Proof.
  intros Hb. apply validated_base; [|done]. destruct Hb. constructor; try done. apply (land_bound 8); [done|]. by vm_compute.
Qed.
Lemma echo_kex_set_ok st : base st -> validated st (validate_echo_kex_set st).
Proof. intros Hb. by apply validated_base. Qed.
Lemma requested_key_ok st : base st -> validated st (validate_requested_key st).
Proof.
  intros Hb. unfold validate_requested_key. cbv zeta. destruct (_ && _).
  - split_and!; [destruct Hb; by constructor|done|done].
  - destruct (failed_frame_ok KEX_FAIL_KEY_GET (st <| key_requested := 0 |>)); [destruct Hb; by constructor|]. by split_and!.
Qed.

Lemma kex_rep_recv_inv d st : base st -> inclusion_state st = S2_AWAITING_KEY_USER_ACCEPT ->
  inv true (s2_kex_rep_recv (process_event_to (S (S d))) st).
Proof.
  intros Hb Hs. unfold s2_kex_rep_recv.
  destruct (reported_schemes_ok (s2_inclusion_stop_timeout st) (base_stop _ Hb)) as (Hb1 & Hs1 & Hl1).
  change (inclusion_state (s2_inclusion_stop_timeout st)) with (inclusion_state st) in Hs1.
  destruct (validate_reported_schemes _) as [[|] st1]; cbn [fst snd negb] in *; [|apply raise_error_sent; auto].
  destruct (reported_curves_ok st1 Hb1) as (Hb2 & Hs2 & Hl2). destruct (validate_reported_curves st1) as [[|] st2]; cbn [fst snd negb] in *; [|apply raise_error_sent; auto].
  destruct (reported_keys_ok st2 Hb2) as (Hb3 & Hs3 & Hl3). destruct (validate_reported_keys st2) as [[|] st3]; cbn [fst snd negb] in *; [|apply raise_error_sent; auto].
  cbv zeta. set (st4 := st3 <| csa_support := _ |>).
  assert (Hb4 : base st4) by (destruct Hb3; by constructor).
  assert (Hs4 : inclusion_state st4 = S2_AWAITING_KEY_USER_ACCEPT) by (change (inclusion_state st3 = S2_AWAITING_KEY_USER_ACCEPT); congruence).
  clearbody st4. match goal with |- context [push_event _ ?e st4] => generalize e end. intros e.
  assert (Hi : inv false st4) by (constructor; unfold ends_with; rewrite ?Hs4; done).
  pose proof (push_stays [S2_AWAITING_KEY_USER_ACCEPT; S2_AWAITING_PUB_KEY_B; S2_INC_IDLE; S2_ERROR_SENT] (S (S d)) e st4
    ltac:(vm_compute; reflexivity)) as Hq. unfold stays in Hq. rewrite Hs4 in Hq. specialize (Hq ltac:(left)).
  apply inv_set_timeout; [by apply push_inv|]. rewrite !elem_of_cons, elem_of_nil in Hq.
  destruct Hq as [->|[->|[->|[->|[]]]]]; done.
Qed.

Lemma pub_key_a_inv d st : base st -> inclusion_state st = S2_AWAITING_USER_ACCEPT ->
  inv true (s2_send_pub_key_a (process_event_to (S (S d))) st).
Proof.
  intros Hb Hs. unfold s2_send_pub_key_a. cbv zeta.
  match goal with |- context [push_event _ ?e ?x] => generalize e; intros e1; set (st1 := x) end.
  assert (Hb1 : base st1) by (destruct Hb; by constructor).
  assert (Hs1 : inclusion_state st1 = S2_AWAITING_USER_ACCEPT) by exact Hs. clearbody st1.
  assert (Hi : inv false st1) by (constructor; unfold ends_with; rewrite ?Hs1; try done; by intros [?|?]).
  pose proof (push_stays [S2_AWAITING_USER_ACCEPT; S2_AWAITING_ECHO_KEX_SET; S2_INC_IDLE; S2_ERROR_SENT] (S (S d)) e1 st1
    ltac:(vm_compute; reflexivity)) as Hq. unfold stays in Hq. rewrite Hs1 in Hq. specialize (Hq ltac:(left)).
  apply (push_inv d false e1) in Hi. set (st2 := push_event _ e1 st1) in *. clearbody st2. apply inv_base in Hi.
  pose proof (public_key_frame_length SECURITY_2_INCLUDING_NODE) as Hl. unfold public_key_frame in *. cbv zeta in *. cbn [app] in *.
  rewrite !elem_of_cons, elem_of_nil in Hq.
  destruct Hq as [Hq|[Hq|[Hq|[Hq|[]]]]]; (eapply inv_sent; [apply finish_frame; [done|set_solver|done|etrans; [apply Hl|done]]|exact Hq|done| |done]);
    try done; by left.
Qed.

Lemma echo_kex_report_inv d st : base st -> inclusion_state st = S2_AWAITING_NET_KEY_GET ->
  inv true (s2_send_echo_kex_report (process_event_to (S d)) st).
Proof.
  intros Hb Hs. unfold s2_send_echo_kex_report.
  destruct (echo_kex_set_ok (s2_inclusion_stop_timeout st) (base_stop _ Hb)) as (Hb1 & Hs1 & Hl1).
  change (inclusion_state (s2_inclusion_stop_timeout st)) with (inclusion_state st) in Hs1.
  destruct (validate_echo_kex_set _) as [[|] st1]; cbn [fst snd negb] in *; [|apply raise_error_sent; auto]. cbv zeta.
  set (st2 := st1 <| key_exchange := 0 |>). assert (Hb2 : base st2) by (destruct Hb1; by constructor).
  assert (Hs2 : inclusion_state st2 = S2_AWAITING_NET_KEY_GET) by (change (inclusion_state st1 = S2_AWAITING_NET_KEY_GET); congruence).
  clearbody st2. eapply inv_sent; [apply finish_data; [exact Hb2|done|done]|exact Hs2|done|by left|done].
Qed.

Lemma inv_key_update full st s k t : inv full st -> inv full (key_update s k t st).
Proof. intros [Hb Hu Ht Hf He Hl]. constructor; [by apply base_key_update|done|done|done|done|done]. Qed.

Lemma base_key_read st k : base st ->
  base (match k with Some k => st <| inclusion_buf := memcpy_at (inclusion_buf st) SECURITY_2_NET_KEY_REP_KEY_POS (take 16 k) |> | None => st end).
Proof. intros Hb. destruct k as [k|]; [|done]. destruct Hb. constructor; try done. cbn. by rewrite length_memcpy_at. Qed.

(** The key is written behind the command. *)
Lemma key_read_command st k : length (inclusion_buf st) = 40%nat -> inclusion_buf_length st = SECURITY_2_NET_KEY_REPORT_LENGTH ->
  command_of (current_frame (match k with Some k => st <| inclusion_buf := memcpy_at (inclusion_buf st) SECURITY_2_NET_KEY_REP_KEY_POS (take 16 k) |> | None => st end))
  = command_of (current_frame st).
Proof.
  intros Hl Hn. destruct k as [k|]; [|done]. unfold command_of, current_frame.
  change (inclusion_buf (st <| inclusion_buf := ?b |>)) with b. change (inclusion_buf_length (st <| inclusion_buf := ?b |>)) with (inclusion_buf_length st).
  rewrite Hn. unfold rd. rewrite !lookup_sub_buf by (vm_compute; lia). change (Z.to_nat 0 + Z.to_nat 1)%nat with 1%nat.
  rewrite lookup_memcpy_at by (unfold SECURITY_2_NET_KEY_REP_KEY_POS, Zlength; rewrite ?length_take, ?Hl; lia).
  rewrite bool_decide_false; [done|]. unfold SECURITY_2_NET_KEY_REP_KEY_POS. lia.
Qed.

Lemma net_key_report_inv d st : base st -> inclusion_state st = S2_AWAITING_NET_KEY_VERIFY ->
  inv true (s2_send_net_key_report (process_event_to (S d)) st).
Proof.
  intros Hb Hs. unfold s2_send_net_key_report.
  destruct (requested_key_ok (s2_inclusion_stop_timeout st) (base_stop _ Hb)) as (Hb1 & Hs1 & Hl1).
  change (inclusion_state (s2_inclusion_stop_timeout st)) with (inclusion_state st) in Hs1.
  destruct (validate_requested_key _) as [[|] st1]; cbn [fst snd negb] in *; [|apply raise_error_sent; auto]. cbv zeta.
  set (st2 := st1 <| key_exchange := _ |>). assert (Hb2 : base st2) by (destruct Hb1; by constructor).
  assert (Hs2 : inclusion_state st2 = S2_AWAITING_NET_KEY_VERIFY) by (change (inclusion_state st1 = S2_AWAITING_NET_KEY_VERIFY); congruence).
  clearbody st2.
  set (st3 := fill_frame _ _ st2). assert (Hb3 : base st3) by (by apply base_fill).
  assert (Hs3 : inclusion_state st3 = S2_AWAITING_NET_KEY_VERIFY) by exact Hs2.
  assert (Hc3 : command_of (current_frame st3) = SECURITY_2_NETWORK_KEY_REPORT) by (apply fill_frame_command; [apply Hb2|done|done]).
  assert (Hn3 : inclusion_buf_length st3 = SECURITY_2_NET_KEY_REPORT_LENGTH) by done. clearbody st3.
  generalize (keystore_network_key_read (translate_keyslot_to_read_for_LR st3) (keystore st3)). intros k.
  pose proof (base_key_read st3 k Hb3) as Hb4. pose proof (key_read_command st3 k (base_buf _ Hb3) Hn3) as Hc4. rewrite Hc3 in Hc4.
  assert (Hs4 : inclusion_state (match k with Some k => st3 <| inclusion_buf := memcpy_at (inclusion_buf st3) SECURITY_2_NET_KEY_REP_KEY_POS (take 16 k) |> | None => st3 end)
    = S2_AWAITING_NET_KEY_VERIFY) by (by destruct k).
  match goal with |- context [address _ _ ?x] => set (st4 := x) in * end. clearbody st4.
  set (st5 := set_retry_counter _ _). assert (Hb5 : base st5) by (by apply base_retry, base_address).
  assert (Hs5 : inclusion_state st5 = S2_AWAITING_NET_KEY_VERIFY) by exact Hs4.
  assert (Hc5 : command_of (current_frame st5) = SECURITY_2_NETWORK_KEY_REPORT) by exact Hc4. clearbody st5.
  destruct (incl_send_data_ok st5 Hb5) as [Hb6 [Hs6 _ Hf6]]. set (st6 := s2_inclusion_send_data st5) in *. clearbody st6.
  assert (Hi : inv true (s2_inclusion_set_timeout TA5_TIMEOUT st6)).
  { assert (Hs7 : inclusion_state (s2_inclusion_set_timeout TA5_TIMEOUT st6) = S2_AWAITING_NET_KEY_VERIFY) by (cbn; congruence).
    constructor; unfold ends_with; rewrite ?Hs7; [by apply base_timeout|done|done| |done|done].
    intros _. change (command_of (current_frame (s2_inclusion_set_timeout TA5_TIMEOUT st6))) with (command_of (current_frame st6)).
    rewrite Hf6, Hc5. by left. }
  destruct (_ =? _); [by apply inv_key_update|done].
Qed.

Lemma transfer_end_inv st : base st -> inclusion_state st = S2_AWAITING_TRANSFER_END \/ inclusion_state st = S2_AWAITING_NET_KEY_GET ->
  inv true (s2_send_transfer_end st).
Proof.
  intros Hb Hs. unfold s2_send_transfer_end. cbv zeta.
  match goal with |- context [fill_frame _ _ ?x] => set (st1 := x) end.
  assert (Hb1 : base st1) by (by apply base_key_update, base_stop).
  assert (Hs1 : inclusion_state st1 = S2_AWAITING_TRANSFER_END \/ inclusion_state st1 = S2_AWAITING_NET_KEY_GET) by exact Hs.
  clearbody st1. destruct Hs1 as [Hs1|Hs1];
    (eapply inv_sent; [apply finish_data; [exact Hb1|done|done]|exact Hs1|done| |done]); [by left|by right; left].
Qed.

(** ** Every event *)

(** The frame of the state goes out once more. *)
Lemma inv_resent st st' : inv true st -> base st' -> keeps st st' -> last_given st' = Some (command_of (current_frame st)) ->
  inclusion_state st <> S2_ERROR_SENT -> inv true st'.
Proof.
  intros [Hb Hu Ht Hf He _] Hb' [Hs Hti Hfr Hx Hg] Hl Hne. constructor; [done|congruence|rewrite Hs, Hti; done|rewrite Hs, Hfr; done|by rewrite Hs, Hx, Hg|].
  unfold ends_with. rewrite Hs. specialize (Hf (or_introl eq_refl)). destruct (inclusion_state st); try done.
  rewrite Hl. f_equal. by apply list_elem_of_singleton in Hf.
Qed.

Lemma resend_frame_inv st l : inv true st -> frame_commands (inclusion_state st) = Some l -> l ⊆ clear_commands ->
  inv true (s2_inclusion_send_frame st).
Proof.
  intros Hi Hl Hsub. assert (Hc : command_of (current_frame st) ∈ clear_commands).
  { apply Hsub. pose proof (inv_frame _ _ Hi ltac:(by left)) as Hf. unfold frame_fits in Hf. by rewrite Hl in Hf. }
  destruct (send_frame_ok st (inv_base _ _ Hi) Hc). eapply inv_resent; [exact Hi|done|done|apply send_frame_last|].
  intros Hs. by rewrite Hs in Hl.
Qed.

Lemma resend_data_inv st : inv true st -> inclusion_state st <> S2_ERROR_SENT -> inv true (s2_inclusion_send_data st).
Proof. intros Hi Hs. destruct (incl_send_data_ok st (inv_base _ _ Hi)). eapply inv_resent; [exact Hi|done|done|apply send_data_last|done]. Qed.

(** Entering a state with the timer that is running. *)
Lemma ecdh_a_inv st : inv true st -> inclusion_state st = S2_AWAITING_USER_ACCEPT ->
  inv true (s2_do_ecdh_calc_a (set_inclusion_state S2_AWAITING_ECHO_KEX_SET st)).
Proof.
  intros Hi Hs. pose proof (accept_in_turn 3 true st st ltac:(by rewrite Hs) Hi (inv_base _ _ Hi) eq_refl eq_refl eq_refl eq_refl) as Ha.
  revert Ha. take_row S2_AWAITING_USER_ACCEPT S2_INCLUDING_ACCEPT. done.
Qed.

(** An error sent is only raised by what sends it, a Transfer End only while keys
    are missing. *)
Definition transfer_ok (e : Z) st : Prop :=
  e <> S2_INCLUSION_ERROR_SENT /\
  (e = S2_TRANSFER_END_RECV -> inclusion_state st = S2_KEY_EXCHANGED -> has (- key_exchange st) (key_granted st) = true).

Ltac idle_row := first [apply failed_evt_inv | apply joining_complete_inv | apply inclusion_complete_inv].

Lemma check_no_keys_inv d st : base st -> inclusion_state st = S2_INC_IDLE -> inv true (s2_check_no_keys (process_event_to (S d)) st).
Proof. intros Hb Hs. unfold s2_check_no_keys. destruct (truth _); by idle_row. Qed.

Lemma inv_kex_get st : base st -> inclusion_state st = S2_AWAITING_KEX_GET -> is_Some (incl_timer st) -> inv true st.
Proof. intros Hb Hs Ht. constructor; unfold ends_with; rewrite ?Hs; done. Qed.

(** What the row asks of the state it is taken in. *)
Lemma row_inv e st r : inv true st -> transfer_ok e st -> table_row (inclusion_state st) e = Some r ->
  inv true (run_action (process_event_to 3) (t_action r) (enter_state (t_new_state r) st)).
Proof.
  intros Hi Ht Hr. pose proof (inv_base _ _ Hi) as Hb. pose proof (inv_exchange _ _ Hi) as Hx. pose proof (inv_used _ _ Hi) as Hu.
  destruct (table_row_in _ _ _ Hr) as [Hin He]. clear Hr. unfold transfer_ok in Ht.
  assert (Hset : forall s, base (set_inclusion_state s st)) by (intros; by apply base_state).
  assert (Hfail : forall t, inv true (inclusion_failed_evt_push (process_event_to 3) t (set_inclusion_state S2_INC_IDLE st)))
    by (intros; by apply failed_evt_inv).
  assert (Hidle : inv true (set_inclusion_state S2_INC_IDLE st)) by (by apply inv_idle).
  assert (Hkexfail : forall c, inv true (inclusion_failed_frame_send c NON_SECURE (set_inclusion_state S2_ERROR_SENT st)))
    by (intros c; destruct (failed_frame_ok c (set_inclusion_state S2_ERROR_SENT st)); [done|]; by apply inv_error).
  destruct Ht as [Hne Ht]. pose proof (resend_data_inv st Hi) as Hdata.
  destruct (inclusion_state st) eqn:Hs; try discriminate Hu; try specialize (Hdata ltac:(discriminate));
    match type of Hin with List.In _ (rows_of ?s) => let l := eval vm_compute in (rows_of s) in change (List.In r l) in Hin end;
    cbn [List.In] in Hin; repeat (destruct Hin as [<-|Hin]); try contradiction;
    cbn [t_action t_new_state t_event run_action] in He |- *; unfold enter_state, remote_inclusion_failed_evt_push;
    rewrite ?bool_decide_false by done; rewrite ?bool_decide_true by done; try assumption; try apply Hfail; try apply Hkexfail.
  all: try (exfalso; destruct He as [He|He]; [exact (Hne He)|discriminate He]).
  all: try (by rewrite set_same_state).
  all: try (eapply resend_frame_inv; [exact Hi|by rewrite Hs|]; set_solver).
  - by apply kex_get_inv.
  - apply inv_kex_get; [destruct Hb; by constructor|done|done].
  - apply inv_kex_get; [destruct Hb; by constructor|done|done].
  - by apply kex_report_inv.
  - by apply joining_complete_inv.
  - by apply kex_rep_recv_inv.
  - by apply send_kex_set_inv.
  - by apply pub_key_b_inv.
  - by apply pub_key_a_recv_inv.
  - by apply pub_key_a_inv.
  - by apply ecdh_a_inv.
  - by apply ecdh_b_inv.
  - by apply echo_kex_set_inv.
  - apply net_key_get_inv; [done|done|by left].
  - by apply echo_kex_report_inv.
  - by apply net_key_report_inv.
  - by apply check_no_keys_inv.
  - apply net_key_verify_inv; [done|done|apply Hx].
  - by apply final_transfer_end_inv.
  - apply transfer_end_inv; [done|by left].
  - apply transfer_end_inv; [done|by right].
  - by apply inclusion_complete_inv.
  - destruct He as [He|He]; [|done]. apply net_key_get_inv; [done|done|right]. split; [exact Hx|by apply Ht].
  - by apply final_transfer_end_inv.
  - by apply joining_complete_inv.
Qed.

Lemma process_inv e st : inv true st -> transfer_ok e st -> inv true (process_event e st).
Proof.
  intros Hi Ht. destruct (table_total (inclusion_state st) e) as [r Hr]. unfold process_event, EVENT_DEPTH.
  rewrite (process_event_eq _ _ _ r) by done. by eapply row_inv.
Qed.

(** ** Every call *)

Lemma inv_ext full st st' : inv full st -> base st' -> inclusion_state st' = inclusion_state st -> incl_timer st' = incl_timer st -> incl_outs st' = incl_outs st ->
  current_frame st' = current_frame st -> key_exchange st' = key_exchange st -> key_granted st' = key_granted st -> inv full st'.
Proof.
  intros [Hb Hu Ht Hf He Hl] Hb' Hs Hti Ho Hfr Hx Hg. constructor; [done|congruence|rewrite Hs, Hti; done|rewrite Hs, Hfr; done|by rewrite Hs, Hx, Hg|].
  by apply (ends_ext st).
Qed.
Ltac inv_field Hi := eapply inv_ext; [exact Hi|destruct (inv_base _ _ Hi); by constructor|reflexivity..].

Lemma transfer_ok_other e st : e <> S2_TRANSFER_END_RECV -> e <> S2_INCLUSION_ERROR_SENT -> transfer_ok e st.
Proof. intros He Hn. by split. Qed.

Lemma land_1_cases x : Z.land x 1 = 0 \/ Z.land x 1 = 1.
Proof. assert (0 <= Z.land x 1 < 2 ^ 1) by (apply land_bound; lia). lia. Qed.

Lemma frame_event_not_error st : bytes (rx_buf st) -> frame_event st <> S2_INCLUSION_ERROR_SENT.
Proof.
  intros Hb. pose proof (rd_byte (rx_buf st) SECURITY_2_COMMAND_POS Hb) as Hc. fold (rx st SECURITY_2_COMMAND_POS) in Hc. fold (rx_command st) in Hc.
  unfold frame_event. cbv zeta. destruct (_ || _) eqn:Hk.
  - assert (Hk' : rx_command st = KEX_SET \/ rx_command st = KEX_REPORT)
      by (apply orb_true_iff in Hk as [Hk|Hk]; apply Z.eqb_eq in Hk; auto).
    destruct (land_1_cases (rx st SECURITY_2_KEX_ECHO_POS)) as [E|E]; unfold SECURITY_2_ECHO_ON; rewrite E; destruct Hk' as [-> | ->]; done.
  - destruct (_ =? PUBLIC_KEY_REPORT) eqn:Hp.
    { apply Z.eqb_eq in Hp. rewrite Hp. unfold SECURITY_2_INCLUDING_NODE. destruct (land_1_cases (rx st 2)) as [-> | ->]; done. }
    destruct (_ =? SECURITY_2_NETWORK_KEY_VERIFY); [destruct (key_exchange st =? key_granted st); discriminate|].
    destruct (rx_command st =? SECURITY_2_TRANSFER_END); [destruct (has _ _); discriminate|].
    unfold byte, S2_INCLUSION_ERROR_SENT in *. lia.
Qed.

Lemma frame_event_transfer st : bytes (rx_buf st) -> transfer_ok (frame_event st) st.
Proof.
  intros Hb. split; [by apply frame_event_not_error|]. intros He _. revert He. unfold frame_event. cbv zeta. destruct (_ || _) eqn:Hk.
  - assert (Hc : rx_command st = KEX_SET \/ rx_command st = KEX_REPORT)
      by (apply orb_true_iff in Hk as [Hk|Hk]; apply Z.eqb_eq in Hk; auto).
    destruct (land_1_cases (rx st SECURITY_2_KEX_ECHO_POS)) as [E|E]; unfold SECURITY_2_ECHO_ON; rewrite E; destruct Hc as [-> | ->]; done.
  - destruct (_ =? PUBLIC_KEY_REPORT) eqn:Hp.
    { apply Z.eqb_eq in Hp. rewrite Hp. unfold SECURITY_2_INCLUDING_NODE. destruct (land_1_cases (rx st 2)) as [-> | ->]; done. }
    destruct (_ =? SECURITY_2_NETWORK_KEY_VERIFY); [destruct (key_exchange st =? key_granted st); discriminate|].
    destruct (rx_command st =? SECURITY_2_TRANSFER_END) eqn:Hc; [destruct (has _ _); [done|discriminate]|].
    intros He. rewrite He in Hc. done.
Qed.

Lemma post_event_internal_inv st : inv true st -> inv true (s2_inclusion_post_event_internal behind_rules st).
Proof.
  intros Hi. unfold s2_inclusion_post_event_internal. cbv zeta. destruct (_ || _); [done|].
  destruct (_ <? _); [apply process_inv; [done|by apply transfer_ok_other]|].
  destruct (negb _).
  - unfold auth_failed, process_event, EVENT_DEPTH. by apply raise_error_sent; apply (failed_frame_ok _ st (inv_base _ _ Hi)).
  - apply process_inv; [done|]. apply frame_event_transfer, Hi.
Qed.

Lemma post_event_inv src frame st : bytes frame -> inv true st -> inv true (s2_inclusion_post_event behind_rules src frame st).
Proof.
  intros Hb Hi. unfold s2_inclusion_post_event. cbv zeta.
  assert (Hi0 : inv true (st <| rx_buf := frame |>)) by (eapply inv_ext; [exact Hi|destruct (inv_base _ _ Hi); by constructor|reflexivity..]).
  set (st0 := st <| rx_buf := frame |>) in *. clearbody st0. destruct (is_multicast src); [done|].
  set (st1 := if bool_decide (inclusion_state st0 = S2_AWAITING_KEX_GET) then st0 <| inclusion_peer := src |> else st0).
  assert (Hi1 : inv true st1) by (unfold st1; case_bool_decide; [inv_field Hi0|done]). clearbody st1.
  destruct (_ =? _); [|done]. apply post_event_internal_inv. inv_field Hi1.
Qed.

Definition timeout_row (s : s2_inclusion_state_t) (r : s2_transition_t) : bool :=
  bool_decide (t_new_state r = S2_INC_IDLE)
  && match t_action r with S2_NO_ACTION | S2_ABORT_ACTION | S2_JOINING_NEVER_STARTED_ACTION => true | _ => false end.

Lemma timeout_inv st : base st -> inv true (process_event S2_INCLUSION_TIMEOUT st).
Proof.
  intros Hb. destruct (table_total (inclusion_state st) S2_INCLUSION_TIMEOUT) as [r Hr]. unfold process_event, EVENT_DEPTH.
  rewrite (process_event_eq _ _ _ r) by done.
  pose proof (event_rows S2_INCLUSION_TIMEOUT timeout_row ltac:(vm_compute; reflexivity) _ _ Hr) as Ht. unfold timeout_row in Ht.
  apply andb_true_iff in Ht as [Hn Ha]. apply bool_decide_eq_true in Hn. rewrite Hn. unfold enter_state. rewrite bool_decide_false by done.
  assert (Hb1 : base (set_inclusion_state S2_INC_IDLE st)) by (by apply base_state).
  destruct (t_action r); try done; cbn [run_action]; [by apply failed_evt_inv|by apply joining_complete_inv].
Qed.

Lemma step_inv e st : event_ok e -> inv true st -> inv true (incl_step behind_rules e st).
Proof.
  intros Hok Hi. destruct e as [c|c csa| |a|src frame| |status|src|h|s c k]; cbn [incl_step].
  - unfold s2_inclusion_including_start. case_bool_decide; [|done]. apply process_inv; [inv_field Hi|by apply transfer_ok_other].
  - unfold s2_inclusion_joining_start. cbv zeta. apply process_inv; [|by apply transfer_ok_other]. break_if; inv_field Hi.
  - apply process_inv; [done|by apply transfer_ok_other].
  - pose proof (answer_inv 2 true a st Hi) as Ha. by destruct a.
  - by apply post_event_inv.
  - destruct (incl_timer st) eqn:Ht; [|done]. unfold s2_inclusion_notify_timeout. cbv zeta.
    assert (Hb1 : base (s2_inclusion_stop_timeout st)) by (apply base_stop, Hi).
    destruct (_ && _) eqn:Hr; [|by apply timeout_inv]. apply andb_true_iff in Hr as [Hs _]. apply bool_decide_eq_true in Hs.
    unfold process_event, EVENT_DEPTH. take_row S2_ECHO_KEX_SET_SENDING S2_INCLUSION_RETRY.
    apply echo_kex_set_inv; [by apply base_state|done|]. pose proof (inv_exchange _ _ Hi) as Hx.
    change (inclusion_state (s2_inclusion_stop_timeout st)) with (inclusion_state st) in Hs. rewrite Hs in Hx. exact Hx.
  - unfold s2_inclusion_send_done. break_if; [apply process_inv; [inv_field Hi|by apply transfer_ok_other]|].
    break_if; (apply process_inv; [done|apply transfer_ok_other; by destruct status]).
  - unfold s2_inclusion_decryption_failure. break_if; [|done]. apply process_inv; [done|by apply transfer_ok_other].
  - unfold s2_inclusion_set_event_handler. inv_field Hi.
  - unfold s2_inclusion_init. repeat break_if; cbn [snd]; try done. inv_field Hi.
Qed.

Lemma initial_inv l k : inv true (incl_initial l k).
Proof.
  unfold incl_initial. match goal with |- inv true (s2_restore_keys ?x) => destruct (restore_keys_ok x) as [Hb Hs] end.
  - constructor; [done|by vm_compute|constructor|done|constructor].
  - by apply inv_idle.
Qed.

Lemma reachable_inv st : incl_reachable behind_rules st -> inv true st.
Proof. induction 1; [apply initial_inv|by apply step_inv]. Qed.

(** ** Time runs out *)

Lemma push_idle_state d e st : inclusion_state st = S2_INC_IDLE -> inclusion_state (push_event (process_event_to d) e st) = S2_INC_IDLE.
Proof.
  intros Hs. pose proof (push_stays [S2_INC_IDLE] d e st ltac:(vm_compute; reflexivity)) as Hq. unfold stays in Hq.
  rewrite Hs in Hq. specialize (Hq ltac:(left)). by apply list_elem_of_singleton in Hq.
Qed.

Lemma timeout_idle st : inclusion_state (process_event S2_INCLUSION_TIMEOUT st) = S2_INC_IDLE.
Proof.
  destruct (table_total (inclusion_state st) S2_INCLUSION_TIMEOUT) as [r Hr]. unfold process_event, EVENT_DEPTH.
  rewrite (process_event_eq _ _ _ r) by done.
  pose proof (event_rows S2_INCLUSION_TIMEOUT timeout_row ltac:(vm_compute; reflexivity) _ _ Hr) as Ht. unfold timeout_row in Ht.
  apply andb_true_iff in Ht as [Hn Ha]. apply bool_decide_eq_true in Hn. rewrite Hn. unfold enter_state. rewrite bool_decide_false by done.
  assert (Hres : forall st1, inclusion_state (s2_restore_keys st1) = inclusion_state st1)
    by (intros st1; apply (calm_restore_keys st1 st1); reflexivity).
  destruct (t_action r); try done; cbn [run_action].
  - unfold inclusion_failed_evt_push. cbv zeta. apply push_idle_state. by rewrite Hres.
  - unfold s2_joining_complete. cbv zeta. apply push_idle_state. by rewrite Hres.
Qed.

(** ** The states without a timer *)

Lemma failed_push_idle d t st : inclusion_state st = S2_INC_IDLE -> inclusion_state (inclusion_failed_evt_push (process_event_to d) t st) = S2_INC_IDLE.
Proof.
  intros Hs. unfold inclusion_failed_evt_push. cbv zeta. apply push_idle_state.
  destruct (calm_restore_keys (s2_inclusion_stop_timeout st) (s2_inclusion_stop_timeout st)) as [Hr _ _ _ _]; [reflexivity|]. rewrite Hr. exact Hs.
Qed.

(** The callback of the transport ends an exchange that failed. *)
Lemma error_sent_done status st : inclusion_state st = S2_ERROR_SENT -> inclusion_state (s2_inclusion_send_done status st) = S2_INC_IDLE.
Proof.
  intros Hs. unfold s2_inclusion_send_done, process_event, EVENT_DEPTH. break_if; [|break_if; destruct status].
  - assert (Hs1 : inclusion_state (set_retry_counter MAX_RETRY_COUNT st) = S2_ERROR_SENT) by exact Hs.
    take_row S2_ERROR_SENT S2_INCLUSION_RETRY. by apply failed_push_idle.
  - take_row S2_ERROR_SENT S2_INCLUSION_SEND_DONE. by apply failed_push_idle.
  - take_row S2_ERROR_SENT S2_INCLUSION_RETRY. by apply failed_push_idle.
  - take_row S2_ERROR_SENT S2_INCLUSION_SEND_DONE. by apply failed_push_idle.
  - take_row S2_ERROR_SENT S2_INCLUSION_SEND_FAILED. by apply failed_push_idle.
Qed.

(** The last Transfer End of a joining node goes out again while there are tries,
    or the transport did not take it; else its callback ends the exchange. *)
Lemma final_transfer_done status st : inclusion_state st = S2_SENDING_FINAL_TRANSFER_END ->
  inclusion_state (s2_inclusion_send_done status st) =
    if (m_retry_counter st =? QUEUE_FULL) || (negb status && (NO_RETRIES <? m_retry_counter st)) then S2_SENDING_FINAL_TRANSFER_END else S2_INC_IDLE.
Proof.
  intros Hs. assert (Hre : forall st1, inclusion_state st1 = S2_SENDING_FINAL_TRANSFER_END ->
    inclusion_state (process_event_to 4 S2_INCLUSION_RETRY st1) = S2_SENDING_FINAL_TRANSFER_END).
  { intros st1 Hs1. rewrite (process_event_eq _ _ _ (Row S2_SENDING_FINAL_TRANSFER_END S2_INCLUSION_RETRY S2_RESEND_DATA_ACTION S2_INC_STATE_ANY)) by (rewrite Hs1; by vm_compute). cbn [run_action t_action t_new_state].
    unfold enter_state. rewrite bool_decide_true by done. unfold s2_inclusion_send_data, send_data_call. by destruct (link_send_data _ _ _). }
  assert (Hdone : inclusion_state (process_event_to 4 S2_INCLUSION_SEND_DONE st) = S2_INC_IDLE).
  { take_row S2_SENDING_FINAL_TRANSFER_END S2_INCLUSION_SEND_DONE. unfold s2_joining_complete. cbv zeta. apply push_idle_state.
    destruct (calm_restore_keys (set_inclusion_state S2_INC_IDLE st) (set_inclusion_state S2_INC_IDLE st)) as [Hr _ _ _ _]; [reflexivity|]. by rewrite Hr. }
  unfold s2_inclusion_send_done, process_event, EVENT_DEPTH. rewrite (bool_decide_false (inclusion_state st = S2_ECHO_KEX_SET_SENDING)) by (rewrite Hs; discriminate).
  cbn [negb]. rewrite andb_true_r. destruct (_ =? QUEUE_FULL); cbn [orb]; [apply Hre; exact Hs|].
  destruct (NO_RETRIES <? m_retry_counter st), status; cbn [negb andb].
  - exact Hdone.
  - apply Hre. exact Hs.
  - exact Hdone.
  - take_row S2_SENDING_FINAL_TRANSFER_END S2_INCLUSION_SEND_FAILED. by apply failed_push_idle.
Qed.

Definition expire st : incl := incl_step behind_rules Timer_expired st.

Lemma expire_reachable st : incl_reachable behind_rules st -> incl_reachable behind_rules (expire st).
Proof. intros Hr. by apply incl_reach_step. Qed.

(** A timer that runs out ends the exchange, or sends the echoed KEX Set once more. *)
Lemma expire_cases st : inv true st -> needs_timer (inclusion_state st) = true ->
  inclusion_state (expire st) = S2_INC_IDLE \/
  (inclusion_state st = S2_ECHO_KEX_SET_SENDING /\ m_retry_counter st <> 0 /\ m_retry_counter st <> 255 /\
   inclusion_state (expire st) = S2_ECHO_KEX_SET_SENDING /\ m_retry_counter (expire st) = u8 (m_retry_counter st - 1)).
Proof.
  intros Hi Hn. destruct (inv_timer _ _ Hi eq_refl Hn) as [t Ht]. unfold expire. cbn [incl_step]. rewrite Ht.
  unfold s2_inclusion_notify_timeout. cbv zeta. destruct (_ && _) eqn:Hr; [|left; apply timeout_idle].
  right. apply andb_true_iff in Hr as [Hs Hc]. apply bool_decide_eq_true in Hs. apply negb_true_iff, orb_false_iff in Hc as [Hc1 Hc2].
  apply Z.eqb_neq in Hc1, Hc2.
  unfold process_event, EVENT_DEPTH. take_row S2_ECHO_KEX_SET_SENDING S2_INCLUSION_RETRY. split_and!; [done|done|done|..].
  - destruct (calm_echo_kex_set _ _ (reflexivity (set_inclusion_state S2_ECHO_KEX_SET_SENDING (s2_inclusion_stop_timeout st)))) as [-> _ _ _ _]. done.
  - unfold s2_send_echo_kex_set. cbv zeta. unfold send_data_call. destruct (link_send_data _ _ _). done.
Qed.

Lemma echo_expires st n : incl_reachable behind_rules st -> inclusion_state st = S2_ECHO_KEX_SET_SENDING -> 0 <= m_retry_counter st <= Z.of_nat n ->
  Z.of_nat n < 256 -> exists k, (k <= n + 1)%nat /\ inclusion_state (Nat.iter k expire st) = S2_INC_IDLE.
Proof.
  revert st. induction n as [|n IH]; intros st Hr Hs Hc Hn;
    (destruct (expire_cases st (reachable_inv _ Hr)) as [Hi|(_ & H0' & H255 & Hs' & Hc')]; [by rewrite Hs|exists 1%nat; split; [lia|done]|]).
  { lia. }
  destruct (IH (expire st)) as (k & Hk & Hi); [by apply expire_reachable|done|rewrite Hc', u8_id; unfold byte; lia|lia|].
  exists (S k). split; [lia|]. by rewrite Nat.iter_succ_r.
Qed.

Lemma waiting_expires st : incl_reachable behind_rules st -> needs_timer (inclusion_state st) = true ->
  exists k, (k <= 257)%nat /\ inclusion_state (Nat.iter k expire st) = S2_INC_IDLE.
Proof.
  intros Hr Hn. destruct (expire_cases st (reachable_inv _ Hr) Hn) as [Hi|(Hs & _ & _ & Hs' & Hc')]; [by exists 1%nat; split; [lia|]|].
  destruct (echo_expires (expire st) 255) as (k & Hk & Hi); [by apply expire_reachable|done| |lia|].
  { rewrite Hc'. pose proof (u8_byte (m_retry_counter st - 1)). unfold byte in *. lia. }
  exists (S k). split; [lia|]. by rewrite Nat.iter_succ_r.
Qed.

Lemma expire_balance k st : balance (Nat.iter k expire st) = balance st.
Proof.
  induction k as [|k IH]; [done|]. change (Nat.iter (S k) expire st) with (expire (Nat.iter k expire st)).
  rewrite <- IH. generalize (Nat.iter k expire st). intros st1.
  pose proof (step_balance behind_rules Timer_expired st1 I) as Hb. unfold step_gives_up, step_starts in Hb.
  change (incl_step behind_rules Timer_expired st1) with (expire st1) in Hb. lia.
Qed.

(** ** Stored keys *)

Lemma store_send_frame st : keystore (s2_inclusion_send_frame st) = keystore st.
Proof. unfold s2_inclusion_send_frame. by destruct (link_send_frame _ _ _). Qed.
Lemma store_send_data_call st : keystore (snd (send_data_call st)) = keystore st.
Proof. unfold send_data_call. by destruct (link_send_data _ _ _). Qed.
Lemma store_send_data st : keystore (s2_inclusion_send_data st) = keystore st.
Proof. pose proof (store_send_data_call st). unfold s2_inclusion_send_data. by destruct (send_data_call st). Qed.
Lemma store_failed_frame e s st : keystore (inclusion_failed_frame_send e s st) = keystore st.
Proof. unfold inclusion_failed_frame_send. cbv zeta. destruct (s =? TEMP_KEY_SECURE); [by rewrite store_send_data|by rewrite store_send_frame]. Qed.
Lemma store_restore st : keystore (s2_restore_keys st) = keystore st.
Proof.
  unfold s2_restore_keys. cbv zeta. change (keystore (?x <| shared_key_mem := ?v |>)) with (keystore x).
  assert (Hf : forall l st1, keystore (fold_left restore_key l st1) = keystore st1).
  { induction l as [|p l IH]; intros st1; [done|]. cbn [fold_left]. rewrite IH. unfold restore_key. by destruct (keystore_network_key_read _ _). }
  by rewrite Hf.
Qed.

(** Actions that do not write keys. *)
Definition writes_keys (a : s2_action_t) : bool :=
  match a with S2_SEND_KEX_REPORT_ACTION | S2_SEND_NET_KEY_VERIFY_ACTION => true | _ => false end.

(** By the head of the new state. *)
Ltac store_tac :=
  repeat lazymatch goal with
  | |- keystore ?x = keystore ?x => reflexivity
  | |- keystore (s2_inclusion_set_timeout _ ?x) = ?y => change (keystore x = y)
  | |- keystore (s2_inclusion_stop_timeout ?x) = ?y => change (keystore x = y)
  | |- keystore (set_retry_counter _ ?x) = ?y => change (keystore x = y)
  | |- keystore (fill_frame _ _ ?x) = ?y => change (keystore x = y)
  | |- keystore (address _ _ ?x) = ?y => change (keystore x = y)
  | |- keystore (key_update _ _ _ ?x) = ?y => change (keystore x = y)
  | |- keystore (incl_emit _ ?x) = ?y => change (keystore x = y)
  | |- keystore (set_inclusion_state _ ?x) = ?y => change (keystore x = y)
  | |- keystore (modify _ _ ?x) = ?y => change (keystore x = y)
  | |- keystore (s2_inclusion_send_frame _) = _ => rewrite store_send_frame
  | |- keystore (s2_inclusion_send_data _) = _ => rewrite store_send_data
  | |- keystore (snd (send_data_call _)) = _ => rewrite store_send_data_call
  | |- keystore (inclusion_failed_frame_send _ _ _) = _ => rewrite store_failed_frame
  | |- keystore (s2_restore_keys _) = _ => rewrite store_restore
  | |- keystore (if ?b then _ else _) = _ => destruct b
  | |- keystore (match ?o with Some _ => _ | None => _ end) = _ => destruct o
  end.

Lemma store_echo_kex_set st : keystore (s2_send_echo_kex_set st) = keystore st.
Proof. unfold s2_send_echo_kex_set. cbv zeta. store_tac. Qed.
Lemma store_ecdh_b st : keystore (s2_do_ecdh_calc_b st) = keystore st.
Proof. unfold s2_do_ecdh_calc_b. cbv zeta. rewrite store_echo_kex_set. reflexivity. Qed.

Section Store.
Context (process : Z -> incl -> incl).
Context (process_store : forall e st, e ∈ nested_events -> keystore (process e st) = keystore st).

Lemma store_push e st : keystore (push_event process e st) = keystore st.
Proof.
  unfold push_event. change (keystore st) with (keystore (incl_emit (Event_out e) st)).
  generalize (m_evt_handler st e) (incl_emit (Event_out e) st). intros l. induction l as [|a l IH]; intros st1; [done|].
  cbn [fold_left]. rewrite IH. destruct a as [i k c|i r|]; cbn [give_answer]; try destruct (i =? ACCEPT_INCLUSION);
    by rewrite process_store by set_solver.
Qed.

Lemma store_kex_fail e st : keystore (send_kex_fail process e st) = keystore st.
Proof. unfold send_kex_fail. rewrite process_store by set_solver. store_tac. Qed.
Lemma store_failed_evt e st : keystore (inclusion_failed_evt_push process e st) = keystore st.
Proof. unfold inclusion_failed_evt_push. cbv zeta. rewrite store_push. store_tac. Qed.
Lemma store_complete st : keystore (s2_inclusion_complete process st) = keystore st.
Proof. unfold s2_inclusion_complete. cbv zeta. destruct (_ && _); rewrite ?store_push, ?store_failed_evt; store_tac. Qed.
Lemma store_joining_complete t st : keystore (s2_joining_complete process t st) = keystore st.
Proof. unfold s2_joining_complete. cbv zeta. rewrite store_push. store_tac. Qed.
Lemma store_verify_failed st : keystore (key_verify_failed process st) = keystore st.
Proof. unfold key_verify_failed. rewrite process_store by set_solver. store_tac. Qed.

(** Validations send a KEX Fail at most. *)
Lemma store_validated st (v : bool * incl) (f : incl -> incl) : keystore (snd v) = keystore st ->
  (forall st1, keystore st1 = keystore st -> keystore (f st1) = keystore st) ->
  keystore (let '(ok, st1) := v in if negb ok then process S2_INCLUSION_ERROR_SENT st1 else f st1) = keystore st.
Proof. destruct v as [[|] st1]; cbn; intros Hv Hf; [by apply Hf|]. by rewrite process_store by set_solver. Qed.

Lemma store_validate (c : bool) st st1 e : keystore st1 = keystore st ->
  keystore (snd (if c then (true, st1) else (false, inclusion_failed_frame_send e NON_SECURE st1))) = keystore st.
Proof. intros Hs. destruct c; cbn [snd]; [done|]. by rewrite store_failed_frame. Qed.

Lemma store_requested_key st : keystore (snd (validate_requested_key st)) = keystore st.
Proof. unfold validate_requested_key. cbv zeta. destruct (_ && _); cbn [snd]; store_tac. Qed.

Lemma store_kex_rep_recv st : keystore (s2_kex_rep_recv process st) = keystore st.
Proof.
  unfold s2_kex_rep_recv. apply store_validated; [by apply store_validate|]. intros st1 H4.
  apply store_validated; [by apply store_validate|]. intros st2 H5. apply store_validated; [by apply store_validate|]. intros st3 H6.
  cbv zeta. store_tac. rewrite store_push. store_tac. exact H6.
Qed.

Lemma store_pub_key_b st : keystore (s2_send_pub_key_b process st) = keystore st.
Proof.
  unfold s2_send_pub_key_b. cbv zeta.
  repeat match goal with |- keystore (if ?b then send_kex_fail _ _ _ else _) = _ => destruct b; [rewrite store_kex_fail; store_tac|] end.
  store_tac.
Qed.

Lemma store_net_key_get st : keystore (s2_send_net_key_get process st) = keystore st.
Proof.
  unfold s2_send_net_key_get. cbv zeta. set (st1 := s2_inclusion_stop_timeout st). change (keystore st) with (keystore st1). clearbody st1.
  assert (Hv : keystore (snd (if rx_command st1 =? KEX_REPORT then validate_echo_kex_report st1 else (true, st1))) = keystore st1)
    by (destruct (_ =? _); [by apply store_validate|done]).
  destruct (if rx_command st1 =? KEX_REPORT then _ else _) as [[|] st2]; cbn [negb snd] in *; [|by rewrite process_store by set_solver].
  destruct (bad_transfer_end st1); [apply store_verify_failed|].
  destruct (key_granted st1 =? 0); [by rewrite process_store by set_solver|].
  destruct (next_granted _ _ _); store_tac.
Qed.

Lemma store_action a st : writes_keys a = false -> keystore (run_action process a st) = keystore st.
Proof.
  destruct a; try done; intros _; cbn [run_action]; unfold remote_inclusion_failed_evt_push, s2_check_no_keys.
  all: try (rewrite ?store_failed_evt, ?store_complete, ?store_joining_complete; store_tac; fail).
  - unfold s2_send_kex_get. cbv zeta. store_tac.
  - apply store_kex_rep_recv.
  - unfold s2_send_kex_set. cbv zeta. store_tac.
  - unfold s2_send_pub_key_a. cbv zeta. store_tac. rewrite store_push. store_tac.
  - unfold s2_send_echo_kex_report. apply store_validated; [by apply store_validate|]. intros st1 H4. cbv zeta. store_tac. exact H4.
  - unfold s2_send_net_key_report. apply store_validated; [by rewrite store_requested_key|]. intros st1 H4. cbv zeta. store_tac; exact H4.
  - unfold s2_send_transfer_end. cbv zeta. store_tac.
  - destruct (truth _); [apply store_failed_evt|apply store_complete].
  - apply store_pub_key_b.
  - unfold s2_pub_key_a_recv. cbv zeta. rewrite store_push. store_tac.
  - apply store_ecdh_b.
  - apply store_echo_kex_set.
  - apply store_net_key_get.
  - unfold s2_send_final_transfer_end. cbv zeta. destruct (bad_transfer_end _); [rewrite store_verify_failed; store_tac|store_tac].
Qed.

Lemma store_kex_report st : keystore (s2_send_kex_report process st) = keystore_network_key_clear KEY_CLASS_ALL (keystore st).
Proof.
  unfold s2_send_kex_report. cbv zeta. set (st1 := _ <| keystore := _ |>).
  assert (Hk : keystore st1 = keystore_network_key_clear KEY_CLASS_ALL (keystore st)) by reflexivity. clearbody st1. rewrite <- Hk.
  rewrite <- (store_push (S2_NODE_INCLUSION_INITIATED_EVENT (inclusion_peer st1)) st1). generalize (push_event process (S2_NODE_INCLUSION_INITIATED_EVENT (inclusion_peer st1)) st1).
  intros st2. set (st3 := st2 <| csa_support := _ |>). assert (Hk3 : keystore st3 = keystore st2) by reflexivity. clearbody st3. rewrite <- Hk3. store_tac.
Qed.

Lemma store_net_key_verify st : rx st 2 = key_exchange st ->
  keystore (s2_send_net_key_verify process st) = keystore_network_key_write (rx st 2) (sub_buf (rx_buf st) 3 16) (keystore st).
Proof.
  intros Hx. unfold s2_send_net_key_verify. cbv zeta.
  change (rx (s2_inclusion_stop_timeout st) 2) with (rx st 2). change (key_exchange (s2_inclusion_stop_timeout st)) with (key_exchange st).
  rewrite Hx, Z.eqb_refl. cbn [negb]. rewrite <- Hx.
  match goal with |- context [fill_frame _ _ ?x] => set (st1 := x) end.
  assert (Hk : keystore st1 = keystore_network_key_write (rx st 2) (sub_buf (rx_buf st) 3 16) (keystore st)) by reflexivity.
  clearbody st1. rewrite <- Hk. store_tac.
Qed.

Lemma store_net_key_refused st : rx st 2 <> key_exchange st -> keystore (s2_send_net_key_verify process st) = keystore st.
Proof.
  intros Hx. unfold s2_send_net_key_verify. cbv zeta.
  change (rx (s2_inclusion_stop_timeout st) 2) with (rx st 2). change (key_exchange (s2_inclusion_stop_timeout st)) with (key_exchange st).
  rewrite (proj2 (Z.eqb_neq _ _) Hx). cbn [negb]. by rewrite store_kex_fail.
Qed.
End Store.

Definition no_write_row (s : s2_inclusion_state_t) (r : s2_transition_t) : bool := negb (writes_keys (t_action r)).

Lemma nested_no_write e s r : e ∈ nested_events -> table_row s e = Some r -> writes_keys (t_action r) = false.
Proof.
  unfold nested_events, raised_events. rewrite !elem_of_cons, elem_of_nil. intros He Hr. apply negb_true_iff.
  change (no_write_row s r = true). destruct He as [->|[->|[->|[->|[->|[]]]]]]; eapply event_rows; try exact Hr; by vm_compute.
Qed.

Lemma enter_store s st : keystore (enter_state s st) = keystore st.
Proof. unfold enter_state. by case_bool_decide. Qed.

Lemma nested_store d e st : e ∈ nested_events -> keystore (process_event_to d e st) = keystore st.
Proof.
  revert e st. induction d as [|d IH]; intros e st He; [done|].
  destruct (table_total (inclusion_state st) e) as [r Hr]. rewrite (process_event_eq _ _ _ r) by done.
  rewrite store_action; [apply enter_store|done|]. by eapply nested_no_write.
Qed.

Lemma process_store e st r : table_row (inclusion_state st) e = Some r -> writes_keys (t_action r) = false ->
  keystore (process_event e st) = keystore st.
Proof.
  intros Hr Hw. unfold process_event, EVENT_DEPTH. rewrite (process_event_eq _ _ _ r) by done.
  rewrite store_action; [apply enter_store|intros; by apply nested_store|done].
Qed.

(** The rows that write keys. *)
Definition write_row (s : s2_inclusion_state_t) (r : s2_transition_t) : bool :=
  match t_action r with
  | S2_SEND_KEX_REPORT_ACTION => bool_decide (s = S2_AWAITING_KEX_GET) && (t_event r =? S2_KEX_GET_RECV)
  | S2_SEND_NET_KEY_VERIFY_ACTION => bool_decide (s = S2_AWAITING_NET_KEY_REPORT) && (t_event r =? S2_NET_KEY_REPORT_RECV)
  | _ => true
  end.

(** What an event writes: all keys are dropped for a KEX Get, the key that was
    asked for is stored. *)
Lemma process_writes e st :
  keystore (process_event e st) = keystore st \/
  (e = S2_KEX_GET_RECV /\ inclusion_state st = S2_AWAITING_KEX_GET /\
   keystore (process_event e st) = keystore_network_key_clear KEY_CLASS_ALL (keystore st)) \/
  (e = S2_NET_KEY_REPORT_RECV /\ inclusion_state st = S2_AWAITING_NET_KEY_REPORT /\ rx st 2 = key_exchange st /\
   keystore (process_event e st) = keystore_network_key_write (rx st 2) (sub_buf (rx_buf st) 3 16) (keystore st)).
Proof.
  destruct (table_total (inclusion_state st) e) as [r Hr]. destruct (writes_keys (t_action r)) eqn:Hw; [|left; by eapply process_store].
  pose proof (table_rows write_row ltac:(vm_compute; reflexivity) _ _ _ Hr) as Hrow. destruct (table_row_in _ _ _ Hr) as [_ He].
  assert (Hn : forall st1 e1, e1 ∈ nested_events -> keystore (process_event_to 3 e1 st1) = keystore st1) by (intros; by apply nested_store).
  unfold write_row in Hrow. unfold process_event, EVENT_DEPTH. rewrite !(process_event_eq _ _ _ r) by done.
  destruct (t_action r); try done; apply andb_true_iff in Hrow as [Hs Hev]; apply bool_decide_eq_true in Hs; apply Z.eqb_eq in Hev;
    rewrite Hev in He; destruct He as [->|He]; try done; cbn [run_action].
  - right; left. split_and!; [done|done|]. rewrite store_kex_report by (intros; by apply Hn). by rewrite enter_store.
  - assert (Hx : forall st1, rx (enter_state (t_new_state r) st1) 2 = rx st1 2 /\ key_exchange (enter_state (t_new_state r) st1) = key_exchange st1 /\
      rx_buf (enter_state (t_new_state r) st1) = rx_buf st1) by (intros st1; unfold enter_state; by case_bool_decide).
    destruct (Hx st) as (Hx1 & Hx2 & Hx3). destruct (decide (rx st 2 = key_exchange st)) as [Heq|Hne].
    + right; right. split_and!; [done|done|done|]. rewrite store_net_key_verify by (congruence || (intros; by apply Hn)). by rewrite Hx1, Hx3, enter_store.
    + left. rewrite store_net_key_refused by (congruence || (intros; by apply Hn)). apply enter_store.
Qed.
End Safety.
