(* ===== verification/S2InclusionRuns.v ===== *)
(** * The S2 key exchange: what it guarantees

    The theorems on runs of the key exchange, for any transport and key store,
    two machines that talk to each other, and runs that show where the code does
    not do what it means to. *)

From S2P Require Import Prelude Aes Ccm Cmac S2Transport S2Inclusion S2InclusionRun S2InclusionSafety.
#[local] Open Scope Z_scope.

Section Guarantees.
Context {L K : Type} `{BlockCipher} `{S2Link L} `{KeyStore K} `{Ecdh} (behind_rules : list Z).
Abbreviation incl := (s2_incl L K).
Implicit Types st : incl.

(** A run, and how many exchanges are started and given up in it. *)
Definition incl_run (es : list incl_event) st : incl := fold_left (fun st e => incl_step behind_rules e st) es st.
Fixpoint started (es : list incl_event) st : nat :=
  match es with [] => 0 | e :: es => step_starts e st + started es (incl_step behind_rules e st) end.
Fixpoint given_up (es : list incl_event) st : nat :=
  match es with [] => 0 | e :: es => step_gives_up e st + given_up es (incl_step behind_rules e st) end.

Lemma run_balance es st : Forall event_ok es -> (balance (incl_run es st) + given_up es st = balance st + started es st)%nat.
Proof.
  revert st. induction es as [|e es IH]; intros st He; [cbn; lia|]. inversion He as [|? ? He1 He2]; subst.
  cbn [incl_run fold_left started given_up]. pose proof (step_balance behind_rules e st He1). specialize (IH (incl_step behind_rules e st) He2).
  unfold incl_run in IH. lia.
Qed.

Lemma incl_initial_balance l k : balance (incl_initial l k) = 0%nat.
Proof.
  unfold incl_initial. match goal with |- context [s2_restore_keys ?x] => set (st := x) end.
  rewrite (calm_balance st); [done|]. apply calm_restore_keys. reflexivity.
Qed.

(** C12. Every key exchange that is started ends with one event to
    the application, is given up on request while it waits for KEX Get, or is
    still under way, over every run. *)
Theorem inclusion_ends_once (l : L) (k : K) (es : list incl_event) :
  Forall event_ok es ->
  let st := incl_run es (incl_initial l k) in
  (started es (incl_initial l k) = finals st + given_up es (incl_initial l k) + busy (inclusion_state st))%nat.
Proof.
  intros He. cbv zeta. pose proof (run_balance es (incl_initial l k) He) as Hb. rewrite incl_initial_balance in Hb.
  unfold balance in Hb. lia.
Qed.

(** C38. In every reachable state every event has been handled completely (no
    nesting is cut short, no loop runs forever), and a machine that waits has what
    it waits for: outside of idle and two states its timer is set; a machine that
    reported an error has its timer set or gave a KEX Fail to the transport last,
    and any callback of the transport brings it back to idle; a joining machine
    that ends gave its last Transfer End to the transport, and the callback brings
    it to idle unless the frame goes out once more, because the transport had not
    taken it or it failed with tries left. *)
Theorem inclusion_waits_with_timer st :
  incl_reachable behind_rules st ->
  hang st = false /\
  match inclusion_state st with
  | S2_INC_IDLE => True
  | S2_ERROR_SENT =>
      (incl_timer st = None -> last_given st = Some KEX_FAIL) /\
      forall status, inclusion_state (incl_step behind_rules (Send_done status) st) = S2_INC_IDLE
  | S2_SENDING_FINAL_TRANSFER_END =>
      last_given st = Some SECURITY_2_TRANSFER_END /\
      forall status, inclusion_state (incl_step behind_rules (Send_done status) st) =
        if (m_retry_counter st =? QUEUE_FULL) || (negb status && (NO_RETRIES <? m_retry_counter st)) then S2_SENDING_FINAL_TRANSFER_END else S2_INC_IDLE
  | _ => is_Some (incl_timer st)
  end.
Proof.
  intros Hr. pose proof (reachable_inv _ _ Hr) as Hi. split; [apply Hi|].
  pose proof (inv_timer _ _ Hi eq_refl) as Ht. pose proof (inv_ends _ _ Hi) as He. unfold ends_with in He. cbn [incl_step].
  destruct (inclusion_state st) eqn:Hs; try done; try (by apply Ht); (split; [done|intros status]); [by apply final_transfer_done|by apply error_sent_done].
Qed.

(** C8. What is sent unencrypted in any run is KEX Get, Report, Set
    or Fail, or a public key: never a frame that carries a network key. *)
Theorem keys_never_in_clear st peer frame taken :
  incl_reachable behind_rules st -> Frame_out peer frame taken ∈ incl_outs st -> command_of frame ∈ clear_commands.
Proof.
  intros Hr Ho. pose proof (base_outs _ (inv_base _ _ (reachable_inv _ _ Hr))) as Ha. rewrite Forall_forall in Ha. apply (Ha _ Ho).
Qed.

(** An exchange in which nothing arrives any more ends: the timer
    brings every waiting state back to idle, with one event to the application. *)
Theorem inclusion_times_out st :
  incl_reachable behind_rules st -> needs_timer (inclusion_state st) = true ->
  exists n, (n <= 257)%nat /\ inclusion_state (Nat.iter n (expire behind_rules) st) = S2_INC_IDLE /\
            finals (Nat.iter n (expire behind_rules) st) = S (finals st).
Proof.
  intros Hr Hn. destruct (waiting_expires _ st Hr Hn) as (n & Hle & Hs). exists n. split_and!; [done|done|].
  pose proof (expire_balance behind_rules n st) as Hb. unfold balance in Hb. rewrite Hs, busy_idle in Hb.
  rewrite (busy_not_idle (inclusion_state st)) in Hb; [lia|]. intros Hi. by rewrite Hi in Hn.
Qed.

Lemma answer_follows a st : state_follows st (give_answer process_event st a).
Proof.
  assert (Hp : forall e st1, inclusion_state st1 = inclusion_state st -> state_follows st (process_event e st1)).
  { intros e st1 Hs. pose proof (process_follows e st1) as Hf. unfold state_follows in *. by rewrite Hs in Hf. }
  destruct a as [i k c|i r|]; cbn [give_answer]; try destruct (i =? ACCEPT_INCLUSION); by apply Hp.
Qed.

(** Whatever is called, the machine moves along the state diagrams of
    s2_inclusion.h: add mode, learn mode, and the errors that lead to idle or to a
    KEX Fail from every state. *)
Theorem inclusion_follows_diagram st e : follows (inclusion_state st) (inclusion_state (incl_step behind_rules e st)).
Proof.
  assert (Hp : forall ev st1, inclusion_state st1 = inclusion_state st -> follows (inclusion_state st) (inclusion_state (process_event ev st1))).
  { intros ev st1 Hs. pose proof (process_follows ev st1) as Hf. unfold state_follows in *. by rewrite Hs in Hf. }
  assert (Hrefl : forall st1, inclusion_state st1 = inclusion_state st -> follows (inclusion_state st) (inclusion_state st1))
    by (intros st1 ->; apply rtc_refl).
  destruct e as [c|c csa| |a|src frame| |status|src|h|s c k]; cbn [incl_step].
  - unfold s2_inclusion_including_start. case_bool_decide; [by apply Hp|by apply Hrefl].
  - unfold s2_inclusion_joining_start. cbv zeta. apply Hp. by break_if.
  - by apply Hp.
  - pose proof (answer_follows a st). by destruct a.
  - unfold s2_inclusion_post_event. cbv zeta. destruct (is_multicast src); [by apply Hrefl|].
    set (st1 := if bool_decide _ then _ else _). assert (Hs1 : inclusion_state st1 = inclusion_state st) by (unfold st1; by case_bool_decide).
    clearbody st1. destruct (_ =? _); [|by apply Hrefl]. set (st2 := st1 <| inclusion_peer; con_class_id := _ |>).
    assert (Hs2 : inclusion_state st2 = inclusion_state st) by exact Hs1. clearbody st2.
    unfold s2_inclusion_post_event_internal. cbv zeta. destruct (_ || _); [by apply Hrefl|]. destruct (_ <? _); [by apply Hp|].
    destruct (negb _); [|by apply Hp]. unfold auth_failed. apply Hp.
    destruct (calm_failed_frame st2 st2 KEX_FAIL_AUTH NON_SECURE ltac:(reflexivity)) as [-> _ _ _ _]. done.
  - destruct (incl_timer st); [|by apply Hrefl]. unfold s2_inclusion_notify_timeout. cbv zeta. break_if; by apply Hp.
  - unfold s2_inclusion_send_done. repeat break_if; by apply Hp.
  - unfold s2_inclusion_decryption_failure. break_if; [by apply Hp|by apply Hrefl].
  - by apply Hrefl.
  - unfold s2_inclusion_init. repeat break_if; by apply Hrefl.
Qed.

(** ** Keys are stored only when they were asked for *)

Definition is_network_key (src : s2_connection_t) (frame : list Z) : Prop :=
  command_of frame = SECURITY_2_NETWORK_KEY_REPORT /\ con_class_id src = TEMP_KEY_SECURE.

Lemma frame_event_cases st :
  (frame_event st = S2_KEX_GET_RECV -> rx_command st = KEX_GET) /\
  (frame_event st = S2_NET_KEY_REPORT_RECV -> rx_command st = SECURITY_2_NETWORK_KEY_REPORT).
Proof.
  unfold frame_event. cbv zeta. destruct (_ || _) eqn:Hk.
  - assert (Hc : rx_command st = KEX_SET \/ rx_command st = KEX_REPORT)
      by (apply orb_true_iff in Hk as [Hk|Hk]; apply Z.eqb_eq in Hk; auto).
    destruct (land_1_cases (rx st SECURITY_2_KEX_ECHO_POS)) as [E|E]; unfold SECURITY_2_ECHO_ON; rewrite E; destruct Hc as [-> | ->]; done.
  - destruct (_ =? PUBLIC_KEY_REPORT) eqn:Hp.
    { apply Z.eqb_eq in Hp. rewrite Hp. unfold SECURITY_2_INCLUDING_NODE. destruct (land_1_cases (rx st 2)) as [-> | ->]; done. }
    destruct (_ =? SECURITY_2_NETWORK_KEY_VERIFY); [destruct (key_exchange st =? key_granted st); done|].
    destruct (_ =? SECURITY_2_TRANSFER_END); [destruct (has _ _); done|done].
Qed.

Lemma process_keeps_store e st : e <> S2_KEX_GET_RECV -> e <> S2_NET_KEY_REPORT_RECV -> keystore (process_event e st) = keystore st.
Proof. intros H3 H4. by destruct (process_writes e st) as [Hk|[[Hk _]|[Hk _]]]. Qed.

Lemma answer_keeps_store a st : keystore (give_answer process_event st a) = keystore st.
Proof. destruct a as [i k c|i r|]; cbn [give_answer]; try destruct (i =? ACCEPT_INCLUSION); by rewrite process_keeps_store. Qed.

(** A received frame that makes the machine write keys. *)
Lemma post_event_writes st :
  keystore (s2_inclusion_post_event_internal behind_rules st) = keystore st \/
  (inclusion_state st = S2_AWAITING_KEX_GET /\ rx_command st = KEX_GET /\
   keystore (s2_inclusion_post_event_internal behind_rules st) = keystore_network_key_clear KEY_CLASS_ALL (keystore st)) \/
  (inclusion_state st = S2_AWAITING_NET_KEY_REPORT /\ rx_command st = SECURITY_2_NETWORK_KEY_REPORT /\
   SECURITY_2_NET_KEY_REPORT_LENGTH <= Zlength (rx_buf st) /\ con_class_id (inclusion_peer st) = TEMP_KEY_SECURE /\
   rx st 2 = key_exchange st /\
   keystore (s2_inclusion_post_event_internal behind_rules st) =
     keystore_network_key_write (rx st 2) (sub_buf (rx_buf st) 3 16) (keystore st)).
Proof.
  unfold s2_inclusion_post_event_internal. cbv zeta. destruct (_ || _); [by left|].
  destruct (_ <? _) eqn:Hl; [left; by apply process_keeps_store|].
  destruct (negb _) eqn:Hc; [left; unfold auth_failed; rewrite process_keeps_store by done; apply store_failed_frame|].
  destruct (process_writes (frame_event st) st) as [Hk|[(He & Hs & Hk)|(He & Hs & Hx & Hk)]]; [by left| |].
  - right; left. split_and!; [done|by apply frame_event_cases|done].
  - right; right. pose proof (proj2 (frame_event_cases st) He) as Hcmd. rewrite Hcmd in Hl, Hc.
    change (frame_rule behind_rules (u8 (SECURITY_2_NETWORK_KEY_REPORT - KEX_GET)))
      with [SECURITY_2_NET_KEY_REPORT_LENGTH; SINGLE_RULE_SUPPORT; TEMP_KEY_SECURE; TEMP_KEY_SECURE] in Hl, Hc.
    apply Z.ltb_ge in Hl. apply negb_false_iff in Hc. unfold crypt_rule_ok in Hc. cbn in Hc.
    change (SINGLE_RULE_SUPPORT =? ECHO_SUPPORT) with false in Hc. cbn in Hc. rewrite orb_false_r in Hc. apply Z.eqb_eq in Hc.
    split_and!; [done|done|exact Hl|symmetry; exact Hc|done|done].
Qed.

(** C10. The stored network keys change only in two ways: a KEX Get
    that arrives while a joining node waits for it drops all keys, and a node that
    asked for a key stores the key of that class from a Network Key Report that
    its peer sent under the temporary key.  The class is one bit, and it was
    granted. *)
Theorem keys_stored_when_asked st e :
  incl_reachable behind_rules st -> event_ok e ->
  keystore (incl_step behind_rules e st) = keystore st \/
  exists src frame, e = Frame_received src frame /\
    ((inclusion_state st = S2_AWAITING_KEX_GET /\ command_of frame = KEX_GET /\
      keystore (incl_step behind_rules e st) = keystore_network_key_clear KEY_CLASS_ALL (keystore st)) \/
     (inclusion_state st = S2_AWAITING_NET_KEY_REPORT /\ is_network_key src frame /\ r_node src = r_node (inclusion_peer st) /\
      SECURITY_2_NET_KEY_REPORT_LENGTH <= Zlength frame /\
      key_exchange st ∈ one_hot /\ has (key_exchange st) (key_granted st) = true /\
      keystore (incl_step behind_rules e st) = keystore_network_key_write (key_exchange st) (sub_buf frame 3 16) (keystore st))).
Proof.
  intros Hr Hok. pose proof (reachable_inv _ _ Hr) as Hinv.
  destruct e as [c|c csa| |a|src frame| |status|src|h|s c k]; cbn [incl_step]; try (left; reflexivity).
  - left. unfold s2_inclusion_including_start. case_bool_decide; [by rewrite process_keeps_store|done].
  - left. unfold s2_inclusion_joining_start. cbv zeta. rewrite process_keeps_store by done. by break_if.
  - left. by apply process_keeps_store.
  - left. pose proof (answer_keeps_store a st). by destruct a.
  - unfold s2_inclusion_post_event. cbv zeta. destruct (is_multicast src); [by left|].
    set (st1 := if bool_decide _ then _ else _).
    assert (H1' : inclusion_state st1 = inclusion_state st /\ keystore st1 = keystore st /\ rx_buf st1 = frame /\ key_exchange st1 = key_exchange st)
      by (unfold st1; by case_bool_decide).
    assert (Hp : inclusion_state st = S2_AWAITING_NET_KEY_REPORT -> r_node (inclusion_peer st1) = r_node (inclusion_peer st)).
    { intros Hs. unfold st1. rewrite bool_decide_false; [done|]. change (inclusion_state st <> S2_AWAITING_KEX_GET). by rewrite Hs. }
    clearbody st1. destruct H1' as (Hs1 & Hk1 & Hb1 & Hx1). destruct (_ =? _) eqn:Hn; [|by left]. apply Z.eqb_eq in Hn.
    set (st2 := st1 <| inclusion_peer; con_class_id := _ |>).
    assert (Hs2 : inclusion_state st2 = inclusion_state st /\ keystore st2 = keystore st /\ rx_buf st2 = frame /\ key_exchange st2 = key_exchange st /\
      con_class_id (inclusion_peer st2) = con_class_id src) by done. clearbody st2. destruct Hs2 as (Hs2 & Hk2 & Hb2 & Hx2 & Hc2).
    destruct (post_event_writes st2) as [Hk|[(Hs & Hc & Hk)|(Hs & Hc & Hl & Hcl & Hx & Hk)]]; [left; congruence|right..]; exists src, frame; (split; [done|]).
    + left. split_and!; [congruence| |congruence]. unfold rx_command, rx in Hc. by rewrite Hb2 in Hc.
    + right. pose proof (inv_exchange _ _ Hinv) as He. rewrite Hs2 in Hs. rewrite Hs in He. destruct He as [He1 He2].
      rewrite Hb2 in *. unfold rx_command, rx in *. rewrite Hb2 in *.
      split_and!; [done|split; [done|congruence]|rewrite <- Hn; by rewrite Hp|done|done|done|]. rewrite Hk, Hx, Hx2, Hk2. done.
  - left. destruct (incl_timer st); [|done]. unfold s2_inclusion_notify_timeout. cbv zeta. break_if; by rewrite process_keeps_store.
  - left. unfold s2_inclusion_send_done. repeat break_if; rewrite process_keeps_store by (done || by destruct status); done.
  - left. unfold s2_inclusion_decryption_failure. break_if; [by apply process_keeps_store|done].
  - left. unfold s2_inclusion_init. by repeat break_if.
Qed.

(** ** The answer to a request for a key *)

(** The class whose key a node gets for class [k]. *)
Definition key_class_for (node k : Z) : Z :=
  if IS_LR_NODE node then
    if k =? KEY_CLASS_S2_AUTHENTICATED then KEY_CLASS_S2_AUTHENTICATED_LR
    else if k =? KEY_CLASS_S2_ACCESS then KEY_CLASS_S2_ACCESS_LR else k
  else k.

Lemma current_frame_fill f n st : length (inclusion_buf st) = 40%nat -> n = Zlength f -> n <= 40 ->
  current_frame (fill_frame f n st) = f.
Proof.
  intros Hl -> Hn. unfold current_frame. change (inclusion_buf (fill_frame f (Zlength f) st)) with (memcpy_at (inclusion_buf st) 0 f).
  change (inclusion_buf_length (fill_frame f (Zlength f) st)) with (Zlength f). apply sub_buf_memcpy_0. unfold Zlength at 2. rewrite Hl. lia.
Qed.

Lemma send_data_out st : exists taken,
  incl_outs (s2_inclusion_send_data st) =
    incl_outs st ++ [Data_out (if IS_LR_NODE (r_node (inclusion_peer st)) then convert_normal_to_lr_keyclass (inclusion_peer st) else inclusion_peer st)
                       (current_frame st) taken].
Proof. unfold s2_inclusion_send_data, send_data_call. destruct (link_send_data _ _ _) as [t l]. by exists t. Qed.

Lemma send_frame_out st : exists taken, incl_outs (s2_inclusion_send_frame st) = incl_outs st ++ [Frame_out (inclusion_peer st) (current_frame st) taken].
Proof. unfold s2_inclusion_send_frame. destruct (link_send_frame _ _ _) as [t l]. by exists t. Qed.

Lemma kex_fail_out error st : length (inclusion_buf st) = 40%nat -> exists taken,
  incl_outs (inclusion_failed_frame_send error NON_SECURE st) =
    incl_outs st ++ [Frame_out (inclusion_peer st) [COMMAND_CLASS_SECURITY_2; KEX_FAIL; error] taken].
Proof.
  intros Hl. unfold inclusion_failed_frame_send. cbv zeta. change (NON_SECURE =? TEMP_KEY_SECURE) with false. cbv iota.
  set (st1 := st <| kex_fail_code := error |>). assert (Hl1 : length (inclusion_buf st1) = 40%nat) by exact Hl.
  assert (Ho : incl_outs st1 = incl_outs st /\ inclusion_peer st1 = inclusion_peer st) by done. clearbody st1. destruct Ho as [<- <-].
  set (st2 := set_retry_counter _ _). assert (Hf : current_frame st2 = [COMMAND_CLASS_SECURITY_2; KEX_FAIL; error])
    by (apply (current_frame_fill [COMMAND_CLASS_SECURITY_2; KEX_FAIL; error] 3 st1 Hl1); done).
  assert (Ho2 : incl_outs st2 = incl_outs st1 /\ inclusion_peer st2 = inclusion_peer st1) by done. clearbody st2. destruct Ho2 as [<- <-].
  rewrite <- Hf. apply send_frame_out.
Qed.

(** A frame that is handled as the event [e] in state [s]. *)
Lemma post_event_process src frame st : is_multicast src = false -> inclusion_state st <> S2_AWAITING_KEX_GET ->
  r_node (inclusion_peer st) = r_node src ->
  s2_inclusion_post_event behind_rules src frame st =
  s2_inclusion_post_event_internal behind_rules ((st <| rx_buf := frame |>) <| inclusion_peer; con_class_id := con_class_id src |>).
Proof.
  intros Hm Hs Hn. unfold s2_inclusion_post_event. cbv zeta. rewrite Hm. rewrite bool_decide_false by exact Hs.
  change (r_node (inclusion_peer (st <| rx_buf := frame |>))) with (r_node (inclusion_peer st)). by rewrite Hn, Z.eqb_refl.
Qed.

(** The request is for one class. *)
Definition may_have (k granted : Z) : bool := single_bit k && has k granted.

Lemma key_report_frame st k key : length (inclusion_buf st) = 40%nat -> length key = 16%nat ->
  current_frame ((fill_frame [COMMAND_CLASS_SECURITY_2; SECURITY_2_NETWORK_KEY_REPORT; k] SECURITY_2_NET_KEY_REPORT_LENGTH st)
    <| inclusion_buf := memcpy_at (memcpy_at (inclusion_buf st) 0 [COMMAND_CLASS_SECURITY_2; SECURITY_2_NETWORK_KEY_REPORT; k])
                          SECURITY_2_NET_KEY_REP_KEY_POS (take 16 key) |>)
  = [COMMAND_CLASS_SECURITY_2; SECURITY_2_NETWORK_KEY_REPORT; k] ++ key.
Proof.
  intros Hl Hk. rewrite take_ge by lia. unfold current_frame.
  change (inclusion_buf (?x <| inclusion_buf := ?b |>)) with b. change (inclusion_buf_length (?x <| inclusion_buf := ?b |>)) with (inclusion_buf_length x).
  change (inclusion_buf_length (fill_frame _ ?n _)) with n.
  replace SECURITY_2_NET_KEY_REPORT_LENGTH with (SECURITY_2_NET_KEY_REP_KEY_POS + Zlength key) by (unfold Zlength; rewrite Hk; done).
  apply sub_buf_memcpy_app; [|done|unfold Zlength; rewrite length_memcpy_at, Hl, Hk; done].
  apply (sub_buf_memcpy_0 (inclusion_buf st) [COMMAND_CLASS_SECURITY_2; SECURITY_2_NETWORK_KEY_REPORT; k]). unfold Zlength. rewrite Hl. done.
Qed.

Lemma requested_key_granted st k : rx st 2 = k -> may_have k (key_granted st) = true ->
  validate_requested_key st = (true, st <| key_requested := k |>).
Proof. intros Hk Hm. unfold validate_requested_key. cbv zeta. rewrite Hk. unfold may_have in Hm. by rewrite Hm. Qed.

(** The report that answers a request that is granted. *)
Lemma net_key_report_sent process st k key : length (inclusion_buf st) = 40%nat -> rx st 2 = k -> may_have k (key_granted st) = true ->
  keystore_network_key_read (key_class_for (r_node (inclusion_peer st)) k) (keystore st) = Some key -> length key = 16%nat ->
  exists c taken, con_class_id c = TEMP_KEY_SECURE /\ r_node c = r_node (inclusion_peer st) /\
    incl_outs (s2_send_net_key_report process st) =
      incl_outs st ++ [Data_out c ([COMMAND_CLASS_SECURITY_2; SECURITY_2_NETWORK_KEY_REPORT; k] ++ key) taken].
Proof.
  intros Hl Hk Hm Hkey Hlen. unfold s2_send_net_key_report.
  rewrite (requested_key_granted (s2_inclusion_stop_timeout st) k Hk Hm). cbn [negb]. cbv zeta.
  set (st1 := _ <| key_exchange := _ |>).
  assert (H1' : length (inclusion_buf st1) = 40%nat /\ rx st1 2 = k /\ keystore st1 = keystore st /\ incl_outs st1 = incl_outs st /\
    inclusion_peer st1 = inclusion_peer st) by done.
  clearbody st1. destruct H1' as (Hl1 & Hk1 & Hs1 & Ho1 & Hp1). rewrite Hk1, <- Ho1.
  assert (Hslot : translate_keyslot_to_read_for_LR
     (fill_frame [COMMAND_CLASS_SECURITY_2; SECURITY_2_NETWORK_KEY_REPORT; k] SECURITY_2_NET_KEY_REPORT_LENGTH st1) =
     key_class_for (r_node (inclusion_peer st)) k).
  { unfold translate_keyslot_to_read_for_LR, key_class_for. cbv zeta.
    change (inclusion_buf (fill_frame ?f ?n st1)) with (memcpy_at (inclusion_buf st1) 0 f).
    change (inclusion_peer (fill_frame ?f ?n st1)) with (inclusion_peer st1). rewrite Hp1.
    assert (rd (memcpy_at (inclusion_buf st1) 0 [COMMAND_CLASS_SECURITY_2; SECURITY_2_NETWORK_KEY_REPORT; k]) 2 = k) as ->; [|done].
    apply rd_lookup. rewrite lookup_memcpy_at by (unfold Zlength; rewrite ?Hl1; cbn; lia). by rewrite bool_decide_true by (cbn; lia). }
  rewrite Hslot. change (keystore (fill_frame _ _ st1)) with (keystore st1). rewrite Hs1, Hkey.
  change (inclusion_buf (fill_frame ?f ?n st1)) with (memcpy_at (inclusion_buf st1) 0 f).
  pose proof (key_report_frame st1 k key Hl1 Hlen) as Hf.
  match type of Hf with current_frame ?x = _ => set (st2 := x) in * end.
  assert (H2' : incl_outs st2 = incl_outs st1 /\ inclusion_peer st2 = inclusion_peer st1) by done. clearbody st2. destruct H2' as (Ho2 & Hp2).
  rewrite <- Ho2.
  set (st3 := set_retry_counter _ _).
  assert (H3' : incl_outs st3 = incl_outs st2 /\ current_frame st3 = current_frame st2 /\ con_class_id (inclusion_peer st3) = TEMP_KEY_SECURE /\
    r_node (inclusion_peer st3) = r_node (inclusion_peer st2)) by done. clearbody st3. destruct H3' as (Ho3 & Hf3 & Hc3 & Hn3).
  destruct (send_data_out st3) as [taken Ho4]. rewrite Ho3, Hf3, Hf in Ho4.
  eexists _, taken. split_and!; [| |destruct (_ =? _); exact Ho4].
  - destruct (IS_LR_NODE _); [|done]. unfold convert_normal_to_lr_keyclass. rewrite Hc3. exact Hc3.
  - rewrite lr_r_node. congruence.
Qed.

Lemma net_key_report_state process st k : rx st 2 = k -> may_have k (key_granted st) = true ->
  inclusion_state (s2_send_net_key_report process st) = inclusion_state st.
Proof.
  intros Hk Hm. unfold s2_send_net_key_report. rewrite (requested_key_granted (s2_inclusion_stop_timeout st) k Hk Hm). cbn [negb]. cbv zeta.
  set (st1 := _ <| key_exchange := _ |>). change (inclusion_state st) with (inclusion_state st1). clearbody st1.
  match goal with |- inclusion_state ?x = _ => assert (Hc : calm st1 x) end; [|apply Hc].
  match goal with |- calm _ (if ?b then key_update ?s ?k ?t _ else _) => destruct b; [apply calm_key_update|] end;
    apply calm_timeout, calm_send_data, calm_retry, calm_address; destruct (keystore_network_key_read _ _);
    try match goal with |- calm _ (modify _ _ ?x) => transitivity x; [|constructor; reflexivity] end; by apply calm_fill.
Qed.

Lemma net_key_refused process st k : rx st 2 = k -> may_have k (key_granted st) = false ->
  s2_send_net_key_report process st =
  process S2_INCLUSION_ERROR_SENT (inclusion_failed_frame_send KEX_FAIL_KEY_GET NON_SECURE (s2_inclusion_stop_timeout st <| key_requested := 0 |>)).
Proof.
  intros Hk Hm. unfold s2_send_net_key_report, validate_requested_key. cbv zeta.
  change (rx (s2_inclusion_stop_timeout st) 2) with (rx st 2). change (key_granted (s2_inclusion_stop_timeout st)) with (key_granted st).
  rewrite Hk. unfold may_have in Hm. rewrite Hm. done.
Qed.

Lemma error_sent_eq d st : inclusion_state st <> S2_INC_IDLE ->
  process_event_to (S d) S2_INCLUSION_ERROR_SENT st = set_inclusion_state S2_ERROR_SENT st.
Proof.
  intros Hs. rewrite (process_event_eq _ _ _ (Row S2_INC_STATE_ANY S2_INCLUSION_ERROR_SENT S2_NO_ACTION S2_ERROR_SENT)); [done|].
  destruct (inclusion_state st); done.
Qed.

(** C11. A node that asks for a key under the temporary key gets, once
    it has echoed the KEX Set, the key of exactly one class and only if that class
    was granted: the network key of the class (the long range one for a long range
    node), encrypted for it under the temporary key.  Any other request is
    answered with KEX Fail in the clear, and the exchange fails. *)
Theorem network_key_answer st src k key :
  incl_reachable behind_rules st -> inclusion_state st = S2_AWAITING_NET_KEY_GET -> is_multicast src = false ->
  con_class_id src = TEMP_KEY_SECURE -> r_node src = r_node (inclusion_peer st) -> byte k ->
  keystore_network_key_read (key_class_for (r_node src) k) (keystore st) = Some key -> length key = 16%nat ->
  let st' := incl_step behind_rules (Frame_received src [COMMAND_CLASS_SECURITY_2; SECURITY_2_NETWORK_KEY_GET; k]) st in
  if may_have k (key_granted st) then
    inclusion_state st' = S2_AWAITING_NET_KEY_VERIFY /\
    exists c taken, con_class_id c = TEMP_KEY_SECURE /\ r_node c = r_node src /\
      incl_outs st' = incl_outs st ++ [Data_out c ([COMMAND_CLASS_SECURITY_2; SECURITY_2_NETWORK_KEY_REPORT; k] ++ key) taken]
  else
    inclusion_state st' = S2_ERROR_SENT /\
    exists c taken, incl_outs st' = incl_outs st ++ [Frame_out c [COMMAND_CLASS_SECURITY_2; KEX_FAIL; KEX_FAIL_KEY_GET] taken].
Proof.
  intros Hr Hs Hm Hc Hn Hbk Hkey Hlen. cbv zeta. cbn [incl_step]. pose proof (reachable_inv _ _ Hr) as Hinv.
  rewrite post_event_process by (congruence || done). rewrite Hc.
  set (st1 := _ <| inclusion_peer; con_class_id := _ |>).
  assert (H1' : inclusion_state st1 = S2_AWAITING_NET_KEY_GET /\ rx_buf st1 = [COMMAND_CLASS_SECURITY_2; SECURITY_2_NETWORK_KEY_GET; k] /\
    con_class_id (inclusion_peer st1) = TEMP_KEY_SECURE /\ r_node (inclusion_peer st1) = r_node (inclusion_peer st) /\ keystore st1 = keystore st /\
    incl_outs st1 = incl_outs st /\ key_granted st1 = key_granted st /\ length (inclusion_buf st1) = 40%nat)
    by (split_and!; try done; apply Hinv).
  clearbody st1. destruct H1' as (Hs1 & Hb1 & Hc1 & Hn1 & Hk1 & Ho1 & Hg1 & Hl1). rewrite <- Ho1, <- Hg1.
  unfold s2_inclusion_post_event_internal. cbv zeta.
  assert (Hcmd : rx_command st1 = SECURITY_2_NETWORK_KEY_GET) by (unfold rx_command, rx; by rewrite Hb1). rewrite Hcmd.
  change (Zlength m_frame_rules <? u8 (SECURITY_2_NETWORK_KEY_GET - KEX_GET)) with false. rewrite bool_decide_false by (by rewrite Hs1). cbn [orb].
  change (frame_rule behind_rules (u8 (SECURITY_2_NETWORK_KEY_GET - KEX_GET)))
    with [SECURITY_2_NET_KEY_GET_LENGTH; SINGLE_RULE_SUPPORT; TEMP_KEY_SECURE; TEMP_KEY_SECURE].
  rewrite Hb1. change (Zlength [COMMAND_CLASS_SECURITY_2; SECURITY_2_NETWORK_KEY_GET; k] <? rd [SECURITY_2_NET_KEY_GET_LENGTH; SINGLE_RULE_SUPPORT; TEMP_KEY_SECURE; TEMP_KEY_SECURE] 0) with false.
  cbv iota. unfold crypt_rule_ok. cbn [rd]. rewrite Hc1. change (negb _) with false. cbv iota.
  assert (He : frame_event st1 = S2_NET_KEY_GET_RECV) by (unfold frame_event; cbv zeta; by rewrite Hcmd). rewrite He.
  unfold process_event, EVENT_DEPTH.
  rewrite (process_event_eq _ _ _ (Row S2_AWAITING_NET_KEY_GET S2_NET_KEY_GET_RECV S2_SEND_NET_KEY_REPORT_ACTION S2_AWAITING_NET_KEY_VERIFY))
    by (rewrite Hs1; by vm_compute).
  cbn [run_action t_action t_new_state]. unfold enter_state. rewrite bool_decide_false by done.
  set (st2 := set_inclusion_state S2_AWAITING_NET_KEY_VERIFY st1).
  assert (H2' : inclusion_state st2 = S2_AWAITING_NET_KEY_VERIFY /\ rx st2 2 = k /\ r_node (inclusion_peer st2) = r_node src /\
    keystore st2 = keystore st /\ incl_outs st2 = incl_outs st1 /\ key_granted st2 = key_granted st1 /\ length (inclusion_buf st2) = 40%nat).
  { split_and!; try done; [unfold rx; change (rx_buf st2) with (rx_buf st1); by rewrite Hb1|].
    change (r_node (inclusion_peer st1) = r_node src). congruence. }
  clearbody st2. destruct H2' as (Hs2 & Hk2 & Hn2 & Hks2 & Ho2 & Hg2 & Hl2). rewrite <- Ho2, <- Hg2.
  destruct (may_have k (key_granted st2)) eqn:Hmay.
  - split.
    + by rewrite (net_key_report_state _ _ k).
    + destruct (net_key_report_sent (process_event_to 3) st2 k key) as (c & t & Hcc & Hcn & Ho); [done|done|done|by rewrite Hn2, Hks2|done|].
      exists c, t. split_and!; [done|congruence|done].
  - rewrite (net_key_refused _ _ k) by done. set (st3 := s2_inclusion_stop_timeout st2 <| key_requested := 0 |>).
    assert (Hs3 : inclusion_state st3 = S2_AWAITING_NET_KEY_VERIFY /\ length (inclusion_buf st3) = 40%nat /\ incl_outs st3 = incl_outs st2) by done.
    clearbody st3. destruct Hs3 as (Hs3 & Hl3 & Ho3). rewrite error_sent_eq.
    + split; [done|]. destruct (kex_fail_out KEX_FAIL_KEY_GET st3 Hl3) as [t Ho]. exists (inclusion_peer st3), t.
      change (incl_outs (set_inclusion_state ?s ?x)) with (incl_outs x). congruence.
    + destruct (calm_failed_frame st3 st3 KEX_FAIL_KEY_GET NON_SECURE ltac:(reflexivity)) as [-> _ _ _ _]. by rewrite Hs3.
Qed.

(** ** Checks and keys of the two sides *)

(** The check of an echoed KEX Set accepts exactly the frame that
    repeats scheme, curve, granted keys and the CSA choice: its last condition,
    which the precedence of the conditional operator turns around, still says that
    the CSA bit is set just when CSA was granted. *)
Theorem echo_kex_set_check st :
  fst (validate_echo_kex_set st) =
  (scheme_support st =? rx st SECURITY_2_KEX_SCHEME_POS) && (curve_support st =? rx st SECURITY_2_KEX_CURVE_POS)
  && (key_granted st =? rx st SECURITY_2_KEX_KEYS_POS)
  && Bool.eqb (has (rx st SECURITY_2_KEX_ECHO_POS) SECURITY_2_CSA_ON) (bool_decide (inclusion_mode st = INCLUSION_MODE_CSA)).
Proof.
  unfold validate_echo_kex_set. cbv zeta.
  assert (Hl : Z.land (rx st SECURITY_2_KEX_ECHO_POS) 2 = if has (rx st SECURITY_2_KEX_ECHO_POS) 2 then 2 else 0).
  { change 2 with (2 ^ 1) at 2. rewrite has_pow2 by lia. apply Z.bits_inj'. intros n Hn. rewrite Z.land_spec.
    change 2 with (2 ^ 1) at 1. rewrite Z.pow2_bits_eqb by lia. destruct (Z.eqb_spec 1 n) as [<-|Hne].
    - rewrite andb_true_r. by destruct (Z.testbit _ 1).
    - rewrite andb_false_r. destruct (Z.testbit _ 1); [|by rewrite Z.testbit_0_l]. change 2 with (2 ^ 1).
      by rewrite Z.pow2_bits_false. }
  unfold SECURITY_2_CSA_ON in *. rewrite Hl.
  destruct (scheme_support st =? _); [|done]. destruct (curve_support st =? _); [|done]. destruct (key_granted st =? _); [|done].
  destruct (has _ 2), (inclusion_mode st); done.
Qed.

Lemma memcpy_halves m x y : length m = 64%nat -> length x = 32%nat -> length y = 32%nat ->
  memcpy_at (memcpy_at m 32 y) 0 x = x ++ y /\ memcpy_at (memcpy_at m 0 x) 32 y = x ++ y.
Proof.
  intros Hm Hx Hy. split; apply list_eq; intros j;
    rewrite !lookup_memcpy_at by (unfold Zlength; rewrite ?length_memcpy_at; lia); rewrite lookup_app;
    repeat case_bool_decide; change (Z.to_nat 0) with 0%nat in *; change (Z.to_nat 32) with 32%nat in *; try lia;
    rewrite ?Nat.sub_0_r; destruct (x !! j) eqn:Hj; try (apply lookup_lt_Some in Hj; lia); try done;
    try (apply lookup_ge_None in Hj; lia); rewrite ?Hx; try done.
  - rewrite (lookup_ge_None_2 m) by lia. rewrite lookup_ge_None_2 by lia. done.
  - rewrite (lookup_ge_None_2 m) by lia. rewrite lookup_ge_None_2 by lia. done.
Qed.

(** The temporary key a machine installs. *)
Definition installed_key st : list Z := take 16 (public_key st).

Definition key_sizes st : Prop :=
  length (public_key st) = 32%nat /\ length (shared_key_mem st) = 64%nat /\
  length (keystore_private_key_read (keystore st)) = 32%nat /\ length (keystore_public_key_read (keystore st)) = 32%nat.

Lemma shared_secret_of st : key_sizes st ->
  crypto_scalarmult_curve25519 (take 32 (memcpy_at (shared_key_mem st) 0 (keystore_private_key_read (keystore st)))) (public_key st)
  = crypto_scalarmult_curve25519 (keystore_private_key_read (keystore st)) (public_key st).
Proof.
  intros (_ & Hm & Hk & _). f_equal.
  change (take 32 ?l) with (take (Z.to_nat (Z.of_nat 32)) (drop (Z.to_nat 0) l)). rewrite <- Hk.
  apply (sub_buf_memcpy_0 (shared_key_mem st) (keystore_private_key_read (keystore st))). unfold Zlength. rewrite Hm, Hk. lia.
Qed.

Lemma tempkey_length secret tag : length secret = 32%nat -> bytes secret -> length tag = 64%nat -> bytes tag ->
  length (tempkey_extract secret tag) = 16%nat.
Proof.
  intros Hs Hsb Ht Htb. unfold tempkey_extract. rewrite !take_ge by lia.
  assert (Hk : block (replicate 16 0x33)) by (apply (bool_decide_unpack _); by vm_compute).
  assert (Hm : bytes (secret ++ tag)) by (by apply Forall_app_2).
  replace 96 with (Zlength (secret ++ tag)) by (unfold Zlength; rewrite length_app; lia).
  pose proof (generate_subkey_doubles (replicate 16 0x33) Hk) as Hd.
  destruct (generate_subkey (replicate 16 0x33)) as [K1 K2] eqn:E. destruct Hd as [HK1 HK2].
  rewrite (cmac_rfc _ Hk _ K1 K2) by (done || (unfold Zlength; rewrite length_app; lia)).
  apply (rfc_cmac_block _ K1 K2); [done|apply HK1|apply HK2|done].
Qed.

(** What the two sides compute from both public keys. *)
Definition shared_temp_key (secret key_a key_b : list Z) : list Z := tempkey_extract secret (key_a ++ key_b).

Lemma take_memcpy t pk : length t = 16%nat -> length pk = 32%nat -> take 16 (memcpy_at pk 0 t) = t.
Proof.
  intros Ht Hp. pose proof (sub_buf_memcpy_0 pk t) as Hs. unfold sub_buf, Zlength in Hs. rewrite Ht in Hs. apply Hs. lia.
Qed.

Lemma calc_a_key st : key_sizes st ->
  public_key (s2_do_ecdh_calc_a st) = memcpy_at (public_key st) 0
    (shared_temp_key (crypto_scalarmult_curve25519 (keystore_private_key_read (keystore st)) (public_key st))
       (keystore_public_key_read (keystore st)) (public_key st)).
Proof.
  intros Hk. pose proof (shared_secret_of st Hk) as Hs. destruct Hk as (Hp & Hm & Hpr & Hpu).
  set (m1 := memcpy_at (shared_key_mem st) 0 (keystore_private_key_read (keystore st))) in *.
  assert (Hm1 : length m1 = 64%nat) by (unfold m1; by rewrite length_memcpy_at).
  destruct (memcpy_halves m1 (keystore_public_key_read (keystore st)) (public_key st) Hm1 Hpu Hp) as [He _].
  change (public_key (s2_do_ecdh_calc_a st)) with
    (memcpy_at (public_key st) 0 (tempkey_extract (crypto_scalarmult_curve25519 (take 32 m1) (public_key st))
       (memcpy_at (memcpy_at m1 32 (public_key st)) 0 (keystore_public_key_read (keystore st))))).
  by rewrite He, Hs.
Qed.

(** The state of the joining side when it echoes the KEX Set. *)
Lemma calc_b_key st : key_sizes st ->
  public_key (s2_do_ecdh_calc_b st) = memcpy_at (public_key st) 0
    (shared_temp_key (crypto_scalarmult_curve25519 (keystore_private_key_read (keystore st)) (public_key st))
       (public_key st) (keystore_public_key_read (keystore st))).
Proof.
  intros Hk. pose proof (shared_secret_of st Hk) as Hs. destruct Hk as (Hp & Hm & Hpr & Hpu).
  set (m1 := memcpy_at (shared_key_mem st) 0 (keystore_private_key_read (keystore st))) in *.
  assert (Hm1 : length m1 = 64%nat) by (unfold m1; by rewrite length_memcpy_at).
  destruct (memcpy_halves m1 (public_key st) (keystore_public_key_read (keystore st)) Hm1 Hp Hpu) as [_ He].
  unfold s2_do_ecdh_calc_b. cbv zeta. unfold s2_send_echo_kex_set. cbv zeta.
  assert (Hpk : forall st1, public_key (snd (send_data_call st1)) = public_key st1)
    by (intros st1; unfold send_data_call; by destruct (link_send_data _ _ _)).
  change (public_key (s2_inclusion_set_timeout ?t ?x)) with (public_key x). rewrite Hpk.
  match goal with |- public_key ?x = _ => change (public_key x) with
    (memcpy_at (public_key st) 0 (tempkey_extract (crypto_scalarmult_curve25519 (take 32 m1) (public_key st))
       (memcpy_at (memcpy_at m1 0 (public_key st)) 32 (keystore_public_key_read (keystore st))))) end.
  by rewrite He, Hs.
Qed.
End Guarantees.

Section TwoSides.
Context {L K L' K' : Type} `{BlockCipher} `{S2Link L} `{KeyStore K} `{S2Link L'} `{KeyStore K'} `{Ecdh}.
(** Curve25519 as RFC 7748 describes it: both sides get the same secret, of 32 bytes. *)
Context (dh : forall x y, crypto_scalarmult_curve25519 x (take 32 (crypto_scalarmult_curve25519_base y)) =
                          crypto_scalarmult_curve25519 y (take 32 (crypto_scalarmult_curve25519_base x))).
Context (dh_size : forall x y, length (crypto_scalarmult_curve25519 x y) = 32%nat /\ bytes (crypto_scalarmult_curve25519 x y)).

End TwoSides.
