(* ===== verification/S2InclusionCases.v ===== *)
(** * Runs of the inclusion machine

    Concrete surroundings (a transport that takes every frame or none, a key store
    that is a list, addition in place of the curve) and concrete runs in them: the
    hypotheses of the theorems of S2InclusionRuns hold there, and the runs at the
    end show where the code does not do what it means to. *)

From S2P Require Import Prelude Aes Ccm Cmac S2Transport S2Inclusion S2InclusionRun S2InclusionSafety S2InclusionRuns.
#[local] Open Scope Z_scope.

(** ** Surroundings *)

(** A transport that takes every frame, or none. *)
#[local] Instance plain_link : S2Link bool := {|
  link_send_frame _ _ l := (l, l); link_send_data _ _ l := (l, l); link_key_update _ _ _ l := l; link_unload_keys l := l |}.

(** Keys by class, and a private key. *)
Record plain_store := mkStore { store_keys : list (Z * list Z); store_private : list Z }.
Definition store_read (c : Z) (k : plain_store) : option (list Z) :=
  match List.find (fun p => fst p =? c) (store_keys k) with Some p => Some (snd p) | None => None end.
#[local] Instance plain_keystore : KeyStore plain_store := {|
  keystore_network_key_read := store_read;
  keystore_network_key_write c key k := mkStore (store_keys k ++ [(c, key)]) (store_private k);
  keystore_network_key_clear _ k := mkStore [] (store_private k);
  keystore_private_key_read := store_private |}.

(** A group of 32 byte strings in place of the curve: addition byte by byte. *)
Definition add_bytes (x y : list Z) : list Z := map (fun i => u8 (rd x i + rd y i)) (seqZ 0 32).
#[local] Instance additive_dh : Ecdh := {|
  crypto_scalarmult_curve25519 := add_bytes; crypto_scalarmult_curve25519_base x := add_bytes x [] |}.

Lemma rd_map_seq f n i : 0 <= i < n -> rd (map f (seqZ 0 n)) i = f i.
Proof.
  intros Hi. apply rd_lookup. change (map f (seqZ 0 n)) with (f <$> seqZ 0 n). rewrite list_lookup_fmap.
  rewrite lookup_seqZ_lt by lia. cbn. f_equal. f_equal. lia.
Qed.

Lemma additive_dh_agrees x y :
  crypto_scalarmult_curve25519 x (take 32 (crypto_scalarmult_curve25519_base y)) =
  crypto_scalarmult_curve25519 y (take 32 (crypto_scalarmult_curve25519_base x)).
Proof.
  cbn [crypto_scalarmult_curve25519 crypto_scalarmult_curve25519_base additive_dh].
  assert (Hb : forall z, take 32 (add_bytes z []) = add_bytes z []) by (intros z; apply take_ge; unfold add_bytes; rewrite length_map, length_seqZ; lia).
  rewrite !Hb. unfold add_bytes. apply map_ext_in. intros i Hi. apply list_elem_of_In, elem_of_seqZ in Hi.
  rewrite !rd_map_seq by lia. change (rd [] i) with (default 0 ([] !! Z.to_nat i)). rewrite lookup_nil. cbn [default]. rewrite !Z.add_0_r.
  unfold u8. rewrite !Z.add_mod_idemp_r by lia. by rewrite Z.add_comm.
Qed.

Lemma additive_dh_size x y : length (crypto_scalarmult_curve25519 x y) = 32%nat /\ bytes (crypto_scalarmult_curve25519 x y).
Proof.
  cbn. unfold add_bytes. split; [rewrite length_map, length_seqZ; lia|]. apply Forall_map, Forall_forall. intros i _. apply u8_byte.
Qed.

Abbreviation plain := (s2_incl bool plain_store).

(** The user of node 1 grants [granted] and enters the two hidden bytes of the
    public key; the user of node 2 accepts. *)
Definition including_user (granted : Z) (dsk : list Z) : event_handler := fun e =>
  match e with
  | S2_NODE_INCLUSION_KEX_REPORT_EVENT _ _ _ => [Key_grant 1 granted 0]
  | S2_NODE_INCLUSION_PUBLIC_KEY_CHALLENGE_EVENT _ _ n _ => [Challenge_response 1 (take (Z.to_nat n) dsk)]
  | _ => []
  end.
Definition joining_user : event_handler := fun e =>
  match e with S2_NODE_INCLUSION_PUBLIC_KEY_CHALLENGE_EVENT _ _ _ _ => [Challenge_response 1 []] | _ => [] end.

Definition private_a : list Z := seqZ 1 32.
Definition private_b : list Z := seqZ 101 32.

(** ** Runs of one machine *)

Lemma run_reachable (l : bool) (k : plain_store) es : Forall event_ok es -> incl_reachable [] (incl_run [] es (incl_initial l k)).
Proof.
  assert (Hf : forall st, incl_reachable [] st -> Forall event_ok es -> incl_reachable [] (incl_run [] es st)).
  { induction es as [|e es IH]; intros st Hr He; [done|]. inversion He; subst. cbn [incl_run fold_left]. apply IH; [by apply incl_reach_step|done]. }
  intros He. apply Hf; [constructor|done].
Qed.

Definition demo_keys : list (Z * list Z) := [(1, seqZ 1 16); (2, seqZ 21 16); (4, seqZ 41 16); (0x80, seqZ 61 16)].
Definition from_node (node class : Z) : s2_connection_t := mkConn 1 node 0 0 0 0 0 class.
Definition kex_report_frame : list Z := [0x9F; 0x05; 0; 2; 1; 0x87].
Definition public_key_b_frame : list Z := [0x9F; 0x08; 0; 0; 0] ++ drop 2 private_b.

(** The including side up to the request for the first key. *)
Definition including_events : list incl_event :=
  [Init 2 1 0x87; Set_event_handler (including_user 0x87 private_b); Including_start (mkConn 1 2 0 0 0 0 0 0);
   Frame_received (from_node 2 0xFF) kex_report_frame; Frame_received (from_node 2 0xFF) public_key_b_frame;
   Frame_received (from_node 2 5) [0x9F; 0x06; 1; 2; 1; 0x87]].
Definition including : plain := incl_run [] including_events (incl_initial true (mkStore demo_keys private_a)).

(** The joining side up to the report of the first key. *)
Definition joining_events : list incl_event :=
  [Init 2 1 0x87; Set_event_handler joining_user; Joining_start (mkConn 2 1 0 0 0 0 0 0) 0;
   Frame_received (mkConn 2 1 0 0 0 0 0 0xFF) [0x9F; 0x04]; Frame_received (mkConn 2 1 0 0 0 0 0 0xFF) [0x9F; 0x06; 0; 2; 1; 0x87];
   Frame_received (mkConn 2 1 0 0 0 0 0 0xFF) ([0x9F; 0x08; 1] ++ private_a); Frame_received (mkConn 2 1 0 0 0 0 0 5) [0x9F; 0x05; 1; 2; 1; 0x87]].
Definition joining : plain := incl_run [] joining_events (incl_initial true (mkStore [] private_b)).
Definition first_key_report : incl_event := Frame_received (mkConn 2 1 0 0 0 0 0 5) ([0x9F; 0x0A; 1] ++ seqZ 1 16).

Lemma including_ok : Forall event_ok including_events.
Proof. repeat (apply List.Forall_cons || apply List.Forall_nil); try exact I; apply (bool_decide_unpack _); by vm_compute. Qed.
Lemma joining_ok : Forall event_ok joining_events.
Proof. repeat (apply List.Forall_cons || apply List.Forall_nil); try exact I; apply (bool_decide_unpack _); by vm_compute. Qed.
Lemma including_reachable : incl_reachable [] including.
Proof. apply run_reachable, including_ok. Qed.
Lemma joining_reachable : incl_reachable [] joining.
Proof. apply run_reachable, joining_ok. Qed.
Lemma including_state_ok : inclusion_state including = S2_AWAITING_NET_KEY_GET /\ key_granted including = 0x87 /\ keystore including = mkStore demo_keys private_a /\
  r_node (inclusion_peer including) = 2.
Proof. split_and!; by vm_compute. Qed.
Lemma joining_state_ok : inclusion_state joining = S2_AWAITING_NET_KEY_REPORT.
Proof. by vm_compute. Qed.

Lemma inclusion_ends_once_witness :
  (started [] including_events (incl_initial true (mkStore demo_keys private_a)) = 1 /\
   started [] including_events (incl_initial true (mkStore demo_keys private_a)) =
     finals including + given_up [] including_events (incl_initial true (mkStore demo_keys private_a)) + busy (inclusion_state including))%nat.
Proof. split; [by vm_compute|]. apply (inclusion_ends_once [] true (mkStore demo_keys private_a) including_events). apply including_ok. Defined.

Lemma inclusion_waits_with_timer_witness : hang including = false /\ is_Some (incl_timer including).
Proof.
  pose proof (inclusion_waits_with_timer [] including including_reachable) as [Hh Ht]. split; [exact Hh|].
  rewrite (proj1 including_state_ok) in Ht. exact Ht.
Defined.

Lemma keys_never_in_clear_witness : command_of [0x9F; 0x04] ∈ clear_commands.
Proof.
  apply (keys_never_in_clear [] including (mkConn 1 2 0 0 0 0 0 0) [0x9F; 0x04] true including_reachable).
  apply list_elem_of_lookup. exists 0%nat. by vm_compute.
Defined.

Lemma inclusion_times_out_witness : exists n, (n <= 257)%nat /\ inclusion_state (Nat.iter n (expire []) including) = S2_INC_IDLE.
Proof.
  destruct (inclusion_times_out [] including including_reachable) as (n & Hn & Hs & _); [by rewrite (proj1 including_state_ok)|]. by exists n.
Defined.

Lemma keys_stored_when_asked_witness : keystore (incl_step [] first_key_report joining) <> keystore joining /\
  exists src frame, first_key_report = Frame_received src frame /\ is_network_key src frame /\ key_exchange joining ∈ one_hot.
Proof.
  assert (Hne : keystore (incl_step [] first_key_report joining) <> keystore joining) by (vm_compute; congruence).
  split; [exact Hne|].
  destruct (keys_stored_when_asked [] joining first_key_report joining_reachable) as [Hk|(src & frame & He & [(Hs & _)|(_ & Hn & _ & _ & Ho & _)])].
  - apply (bool_decide_unpack _). by vm_compute.
  - destruct (Hne Hk).
  - rewrite joining_state_ok in Hs. discriminate Hs.
  - exists src, frame. split_and!; [exact He|exact Hn|exact Ho].
Defined.

Lemma network_key_answer_witness :
  inclusion_state (incl_step [] (Frame_received (from_node 2 5) [0x9F; 0x09; 4]) including) = S2_AWAITING_NET_KEY_VERIFY /\
  inclusion_state (incl_step [] (Frame_received (from_node 2 5) [0x9F; 0x09; 6]) including) = S2_ERROR_SENT.
Proof.
  destruct including_state_ok as (Hs & Hg & Hk & Hn). split.
  - pose proof (network_key_answer [] including (from_node 2 5) 4 (seqZ 41 16) including_reachable Hs eq_refl eq_refl (eq_sym Hn)) as Ht.
    rewrite Hk in Ht. specialize (Ht ltac:(unfold byte; lia) eq_refl eq_refl). rewrite Hg in Ht. apply Ht.
  - by vm_compute.
Defined.

Definition node_with (private key : list Z) : plain := (incl_initial true (mkStore [] private)) <| public_key := key |>.


(** ** Where the code does not do what it means to *)

(** The answer to a request for a key, then an unencrypted KEX Report of the same
    node, then a failed transmission. *)
Definition resend_events : list incl_event :=
  including_events ++ [Frame_received (from_node 2 5) [0x9F; 0x09; 1]; Frame_received (from_node 2 0xFF) kex_report_frame; Send_done false].

(** A frame that is ignored still sets the key class of the peer: the Network Key
    Report is sent again under class 0xFF, which is no slot of the transport. *)
Theorem key_report_resent_under_no_key :
  Forall event_ok resend_events /\
  exists c, con_class_id c = UNENCRYPTED_CLASS /\
    Data_out c ([0x9F; 0x0A; 1] ++ seqZ 1 16) true ∈ incl_outs (incl_run [] resend_events (incl_initial true (mkStore demo_keys private_a))).
Proof.
  split.
  - apply Forall_app_2; [apply including_ok|]. repeat (apply List.Forall_cons || apply List.Forall_nil); try exact I; apply (bool_decide_unpack _); by vm_compute.
  - exists (from_node 2 0xFF). split; [done|]. apply list_elem_of_lookup. exists 7%nat. by vm_compute.
Qed.

(** A KEX Report without a scheme we know while the transport takes no frame: the
    machine is left in a state that only a sent frame ends, with no timer. *)
Definition refused_events : list incl_event :=
  [Init 2 1 0x87; Including_start (mkConn 1 2 0 0 0 0 0 0); Frame_received (from_node 2 0xFF) [0x9F; 0x05; 0; 0; 1; 0x87]].
Theorem kex_fail_not_taken_waits_forever :
  let st := incl_run [] refused_events (incl_initial false (mkStore demo_keys private_a)) in
  inclusion_state st = S2_ERROR_SENT /\ incl_timer st = None /\ expire [] st = st.
Proof. by vm_compute. Qed.

(** The keys are read into a static array of which four bytes are cleared. *)
Theorem restore_keys_leaves_key :
  sub_buf (shared_key_mem (incl_initial true (mkStore demo_keys private_a))) 4 12 = drop 4 (seqZ 41 16).
Proof. by vm_compute. Qed.

(** A command one past the table of rules is judged by the bytes behind it. *)
Theorem frame_rules_overrun :
  let one := incl_run [0; 0; 0xFF; 0xFF] (including_events ++ [Frame_received (from_node 2 0xFF) [0x9F; 0x0D]]) (incl_initial true (mkStore demo_keys private_a)) in
  let two := incl_run [0; 0; 0x05; 0x05] (including_events ++ [Frame_received (from_node 2 0xFF) [0x9F; 0x0D]]) (incl_initial true (mkStore demo_keys private_a)) in
  inclusion_state one = S2_INC_IDLE /\ inclusion_state two = S2_ERROR_SENT.
Proof. by vm_compute. Qed.

(** A grant given from within the event handler: KEX Set is sent with its timer of
    ten seconds, which the user's timer of four minutes then replaces. *)
Theorem grant_in_handler_waits_longer :
  let st := incl_run [] (take 4 including_events) (incl_initial true (mkStore demo_keys private_a)) in
  inclusion_state st = S2_AWAITING_PUB_KEY_B /\ incl_timer st = Some TAI1_TIMEOUT.
Proof. by vm_compute. Qed.

(** While the user of a joining node decides, a public key that has to be sent
    again ends the exchange; the diagram of s2_inclusion.h sends it again. *)
Definition retry_events : list incl_event :=
  [Init 2 1 0x87; Joining_start (mkConn 2 1 0 0 0 0 0 0) 0; Frame_received (mkConn 2 1 0 0 0 0 0 0xFF) [0x9F; 0x04];
   Frame_received (mkConn 2 1 0 0 0 0 0 0xFF) [0x9F; 0x06; 0; 2; 1; 0x87]; Frame_received (mkConn 2 1 0 0 0 0 0 0xFF) ([0x9F; 0x08; 1] ++ private_a)].
Theorem retry_while_user_decides_fails :
  let st := incl_run [] retry_events (incl_initial true (mkStore [] private_b)) in
  inclusion_state st = S2_AWAITING_USER_A_ACCEPT /\ inclusion_state (incl_step [] (Send_done false) st) = S2_INC_IDLE.
Proof. by vm_compute. Qed.
