(* ===== verification/S2InclusionLink.v ===== *)
(** * The key exchange on the gateway's transport and key store

    The S2 transport (S2Transport.v) as the link of the key exchange and the key
    store of src/src/transport/s2_keystore.c as its store: the network keys of the
    configuration file (SecureLearn.v) and the private keys for ECDH. *)

From S2P Require Import Prelude Aes Ccm Cmac Drbg S2Transport S2Exchange SendDataAppl Sec0 SecureLearn SecureLearnLive S2Inclusion.
#[local] Open Scope Z_scope.

(** ** The transport *)

Section Link.
Context `{BlockCipher} (E : s2_env).

(** S2_send_data converts the key class itself; the key exchange passes the
    connection after that conversion, which is then the identity. *)
#[export] Instance transport_link : S2Link S2 := {|
  link_send_frame con frame st := (S2_send_frame E con frame, s2_emit (S2_send_frame_call con frame) st);
  link_send_data con frame st := S2_send_data E con frame st;
  link_key_update class key temp_key_expand st := snd (S2_network_key_update class key temp_key_expand st);
  link_unload_keys st := st <| loaded_keys := 0 |> |}.
End Link.

(** ** The key store *)

Record key_store := mkKeyStore {
  ks_layer : security_layer;
  ecdh_dynamic_key : list Z; nvm_ecdh_priv_key : list Z; nvr_private_key : list Z; nvr_version : Z;
  gecko_chip_type : bool; nm_learning : bool
}.
#[export] Instance key_store_eta : EtaRecord key_store := fun k =>
  mkKeyStore (ks_layer k) (ecdh_dynamic_key k) (nvm_ecdh_priv_key k) (nvr_private_key k) (nvr_version k) (gecko_chip_type k) (nm_learning k).

(** The static key is in the protected memory of the chip, or in the
    configuration when the chip has none. *)
Definition gw_keystore_private_key_read (dynamic : bool) (k : key_store) : list Z :=
  if dynamic then ecdh_dynamic_key k
  else if gecko_chip_type k then nvr_private_key k
  else if negb (nvr_version k =? 0xFF) && (2 <=? nvr_version k) then nvr_private_key k
  else nvm_ecdh_priv_key k.

(** The static key while the gateway itself learns, a dynamic one while it includes. *)
Definition gw_private_key (k : key_store) : list Z := gw_keystore_private_key_read (negb (nm_learning k)) k.
Definition keystore_secondary_private_key_read (k : key_store) : list Z := gw_keystore_private_key_read true k.
Definition keystore_secondary_public_key_read `{Ecdh} (k : key_store) : list Z :=
  take 32 (crypto_scalarmult_curve25519_base (keystore_secondary_private_key_read k)).

Section Store.
Context (aes : list Z -> list Z -> list Z) (random_bytes : Z -> list Z).
#[export] Instance gateway_store : KeyStore key_store := {|
  S2Inclusion.keystore_network_key_read c k := SecureLearn.keystore_network_key_read c (ks_layer k);
  S2Inclusion.keystore_network_key_write c key k := k <| ks_layer := SecureLearn.keystore_network_key_write aes c key (ks_layer k) |>;
  S2Inclusion.keystore_network_key_clear c k := k <| ks_layer := SecureLearn.keystore_network_key_clear aes random_bytes c (ks_layer k) |>;
  keystore_private_key_read := gw_private_key |}.
End Store.

(** ** What is loaded *)

Section Loaded.
Context `{BlockCipher} `{Ecdh} (E : s2_env) (aes : list Z -> list Z -> list Z) (random_bytes : Z -> list Z).
#[local] Existing Instance transport_link.
Abbreviation incl := (s2_incl S2 key_store).
#[local] Instance link_here : S2Link S2 := transport_link E.
#[local] Instance store_here : KeyStore key_store := gateway_store aes random_bytes.

Definition assigned (st : incl) : Z := nvm_assigned_keys (nvm (ks_layer (keystore st))).
Definition stored (st : incl) (c : Z) : list Z := take 16 (default (zeros 16) (nvm_keys (nvm (ks_layer (keystore st))) !! c)).

(** One key: a class that is assigned is loaded into its slot. *)
Lemma restore_key_loads (st : incl) c slot : length (shared_key_mem st) = 64%nat -> length (stored st c) = 16%nat -> 0 <= slot < 7 ->
  let st' := restore_key st (c, slot) in
  keystore st' = keystore st /\ length (shared_key_mem st') = 64%nat /\
  (if has c (assigned st) then
     loaded_keys (link st') = Z.lor (loaded_keys (link st)) (Z.shiftl 1 slot) /\
     sg (link st') = <[Z.to_nat slot := let '(enc, nonce, mpan) := networkkey_expand (stored st c) in mkSG enc mpan nonce]> (sg (link st))
   else st' = st).
Proof.
  intros Hm Hk Hs. cbv zeta. unfold restore_key, has, assigned, stored in *. cbn [S2Inclusion.keystore_network_key_read store_here gateway_store fst snd] in *.
  unfold SecureLearn.keystore_network_key_read. destruct (_ =? 0); cbn [negb]; [done|].
  set (key := default (zeros 16) _) in *.
  split; [done|]. split.
  { change (length (memcpy_at (shared_key_mem st) 0 (take 16 key)) = 64%nat). by rewrite length_memcpy_at. }
  set (st1 := st <| shared_key_mem := memcpy_at (shared_key_mem st) 0 (take 16 key) |>).
  assert (Hmem : take 16 (shared_key_mem st1) = take 16 key).
  { change (shared_key_mem st1) with (memcpy_at (shared_key_mem st) 0 (take 16 key)).
    pose proof (sub_buf_memcpy_0 (shared_key_mem st) (take 16 key)) as Hsub. unfold sub_buf, Zlength in Hsub. rewrite Hk in Hsub.
    apply Hsub. rewrite Hm. lia. }
  assert (Hl : link st1 = link st) by done. clearbody st1.
  unfold key_update. rewrite Hmem. change (link (st1 <| link := ?v |>)) with v. rewrite Hl.
  cbn [link_key_update link_here transport_link]. unfold S2_network_key_update.
  change (Z.of_nat N_SEC_CLASS) with 7. rewrite (proj2 (Z.leb_gt 7 slot)) by lia.
  destruct (networkkey_expand (take 16 key)) as [[enc nonce] mpan']. done.
Qed.

Definition expanded (k : list Z) : sec_group := let '(enc, nonce, mpan) := networkkey_expand k in mkSG enc mpan nonce.

(** The first [n] slots are loaded. *)
Definition loaded_upto (n : nat) (st0 st : incl) : Prop :=
  keystore st = keystore st0 /\ length (shared_key_mem st) = 64%nat /\ length (sg (link st)) = 7%nat /\
  loaded_keys (link st) = Z.land (assigned st0) (Z.ones (Z.of_nat n)) /\
  forall i, (i < n)%nat -> Z.testbit (assigned st0) (Z.of_nat i) = true -> sg (link st) !! i = Some (expanded (stored st0 (2 ^ Z.of_nat i))).

Lemma land_ones_succ a n : 0 <= n -> Z.land a (Z.ones (n + 1)) = if Z.testbit a n then Z.lor (Z.land a (Z.ones n)) (Z.shiftl 1 n) else Z.land a (Z.ones n).
Proof.
  intros Hn. apply Z.bits_inj'. intros i Hi.
  assert (Hs : Z.testbit (Z.shiftl 1 n) i = (i =? n)).
  { rewrite Z.shiftl_mul_pow2 by lia. rewrite Z.mul_1_l, Z.pow2_bits_eqb by lia. apply Z.eqb_sym. }
  destruct (Z.testbit a n) eqn:Ha; rewrite ?Z.lor_spec, ?Hs, !Z.land_spec, !Z.testbit_ones_nonneg by lia;
    (destruct (Z.eqb_spec i n) as [->|Hne]; [rewrite Ha|]);
    repeat match goal with |- context [?x <? ?y] => destruct (Z.ltb_spec x y) end; try lia; by rewrite ?andb_false_r, ?andb_true_r, ?orb_false_r.
Qed.

Lemma restore_key_upto n st0 st : (forall c, length (stored st0 c) = 16%nat) -> (n < 7)%nat -> loaded_upto n st0 st ->
  loaded_upto (S n) st0 (restore_key st (2 ^ Z.of_nat n, Z.of_nat n)).
Proof.
  intros Hlen Hn (Hk & Hm & Hg & Hl & Hs).
  assert (Hst : forall c, stored st c = stored st0 c) by (intros c; unfold stored; by rewrite Hk).
  assert (Ha : assigned st = assigned st0) by (unfold assigned; by rewrite Hk).
  destruct (restore_key_loads st (2 ^ Z.of_nat n) (Z.of_nat n)) as (Hk' & Hm' & Hr); [done|by rewrite Hst|lia|].
  assert (Hh : has (2 ^ Z.of_nat n) (assigned st) = Z.testbit (assigned st0) (Z.of_nat n)).
  { unfold has. rewrite Z.land_comm, Ha. apply has_pow2. lia. }
  rewrite Hh in Hr. unfold loaded_upto. rewrite Hk', Hk. replace (Z.of_nat (S n)) with (Z.of_nat n + 1) by lia. rewrite land_ones_succ by lia.
  destruct (Z.testbit (assigned st0) (Z.of_nat n)) eqn:Hb.
  - destruct Hr as [Hrl Hrg]. rewrite Hrl, Hrg, Hl, Nat2Z.id, length_insert. split_and!; [done|done|done|done|].
    intros i Hi Hbi. destruct (decide (i = n)) as [->|Hne].
    + rewrite list_lookup_insert_eq by lia. by rewrite Hst.
    + rewrite list_lookup_insert_ne by done. apply Hs; [lia|done].
  - rewrite Hr. split_and!; [done|done|done|done|]. intros i Hi Hbi. destruct (decide (i = n)) as [->|Hne]; [congruence|]. apply Hs; [lia|done].
Qed.

(** Restoring the keys loads into the S2 transport exactly the S2
    keys that are assigned in the configuration, each expanded in the slot of its
    class: unauthenticated, authenticated, access and the two long range classes. *)
Theorem restore_loads_assigned_keys (st : incl) :
  length (shared_key_mem st) = 64%nat -> length (sg (link st)) = 7%nat -> (forall c, length (stored st c) = 16%nat) ->
  let st' := s2_restore_keys st in
  loaded_keys (link st') = Z.land (assigned st) 0x1F /\
  forall i, (i < 5)%nat -> Z.testbit (assigned st) (Z.of_nat i) = true -> sg (link st') !! i = Some (expanded (stored st (2 ^ Z.of_nat i))).
Proof.
  intros Hm Hg Hlen. cbv zeta. unfold s2_restore_keys. cbv zeta.
  set (st0 := st <| link := link_unload_keys (link st) |>).
  assert (Hq : loaded_upto 0 st st0).
  { split_and!; [done|exact Hm|exact Hg| |lia]. change (loaded_keys (link st0)) with 0. by rewrite Z.land_0_r. }
  clearbody st0. unfold m_key_slot_pair. cbn [fold_left].
  do 5 (apply restore_key_upto in Hq; [|done|lia]).
  match type of Hq with loaded_upto 5 _ ?x => set (st5 := x) in Hq; change (restore_key _ (KEY_CLASS_S2_ACCESS_LR, 4)) with st5; clearbody st5 end.
  destruct Hq as (_ & _ & _ & Hl & Hs). split; [exact Hl|exact Hs].
Qed.
End Loaded.

(** A gateway with an unauthenticated and an access key. *)
Definition gateway_keys : key_store :=
  mkKeyStore (layer_ex <| nvm := mkNvm 0 {[1 := seqZ 1 16; 4 := seqZ 41 16]} 0x85 |>) (seqZ 1 32) (zeros 32) (zeros 32) 2 false false.
Definition echo_dh : Ecdh := {| crypto_scalarmult_curve25519 k p := p; crypto_scalarmult_curve25519_base k := k |}.
Definition before_restore : s2_incl S2 key_store :=
  mkIncl 0 0 0 0 0 0 0 0 (mkConn 0 0 0 0 0 0 0 0) [] S2_INC_IDLE INCLUSION_MODE_CSA 0 (zeros 40) 0 (zeros 32)
    s2_default_evt_handler 0 0 0 (zeros 32) (zeros 64) 0 None wit_a gateway_keys [] false.

Lemma restore_loads_witness :
  let st' := @s2_restore_keys _ _ (transport_link wit_env) (gateway_store mix (fun _ => [])) before_restore in
  loaded_keys (link st') = 5 /\ sg (link st') !! 2%nat = Some (expanded (seqZ 41 16)).
Proof.
  assert (H : forall c, length (stored before_restore c) = 16%nat).
  { intros c. unfold stored. cbn. rewrite length_take. destruct (decide (c = 1)) as [->|H1]; [done|].
    destruct (decide (c = 4)) as [->|H4]; [done|]. by rewrite lookup_insert_ne, lookup_singleton_ne. }
  destruct (restore_loads_assigned_keys wit_env mix (fun _ => []) before_restore eq_refl eq_refl H) as [Hl Hs].
  split; [exact Hl|]. exact (Hs 2%nat ltac:(lia) eq_refl).
Defined.
