(* ===== verification/CommandAnalyzer.v ===== *)
(** * The command analyzer (src/src/analyzer/CommandAnalyzer.c)

    Whether a command of a command class is a Get, a Set, a Report or supporting:
    a binary search in four sorted tables of keys [class << 8 | command].  The build
    generates the tables from the command class definitions, so they are
    parameters here; that they are sorted is what the search relies on. *)

From Stdlib Require Import Sorting.Sorted.
From S2P Require Import Prelude.
Local Open Scope Z_scope.

(** The tables of the build. *)
Record command_tables := mkTables { get_list : list Z; set_list : list Z; rep_list : list Z; supported_list : list Z }.

(** The loop, with [middle = (first + last) / 2].  A table of n entries is enough
    fuel: the range shrinks in every round. *)
Fixpoint bsearch_loop (fuel : nat) (key : Z) (sorted_list : list Z) (first last : Z) : option bool :=
  if last <? first then Some false
  else match fuel with
       | O => None
       | S fuel =>
           let middle := Z.quot (first + last) 2 in
           let x := rd sorted_list middle in
           if x <? key then bsearch_loop fuel key sorted_list (middle + 1) last
           else if x =? key then Some true
           else bsearch_loop fuel key sorted_list first (middle - 1)
       end.

Definition bsearch (key : Z) (sorted_list : list Z) (list_len : Z) : option bool :=
  bsearch_loop (length sorted_list) key sorted_list 0 (list_len - 1).

Definition command_key (cls cmd : Z) : Z := u16 (Z.lor (Z.shiftl cls 8) cmd).

Definition in_table (l : list Z) (cls cmd : Z) : bool := default false (bsearch (command_key cls cmd) l (Zlength l)).

Section Tables.
Context (T : command_tables).
Definition CommandAnalyzerIsGet (cls cmd : Z) : bool := in_table (get_list T) cls cmd.
Definition CommandAnalyzerIsSet (cls cmd : Z) : bool := in_table (set_list T) cls cmd.
Definition CommandAnalyzerIsReport (cls cmd : Z) : bool := in_table (rep_list T) cls cmd.
Definition CommandAnalyzerIsSupporting (cls cmd : Z) : bool := in_table (supported_list T) cls cmd.
End Tables.

(** ** The search *)

Definition sorted (l : list Z) : Prop := StronglySorted Z.lt l.

Lemma sorted_nth l i j x y : sorted l -> l !! i = Some x -> l !! j = Some y -> (i < j)%nat -> x < y.
Proof.
  intros Hs. revert i j. induction Hs as [|a l Hs IH Ha]; intros i j Hi Hj Hij; [done|].
  destruct j as [|j]; [lia|]. destruct i as [|i]; cbn in Hi, Hj.
  - simplify_eq. rewrite Forall_lookup in Ha. by eapply Ha.
  - apply (IH i j); [done|done|lia].
Qed.

Lemma rd_nth l i : 0 <= i < Zlength l -> l !! Z.to_nat i = Some (rd l i).
Proof. unfold Zlength, rd. intros H. destruct (lookup_lt_is_Some_2 l (Z.to_nat i)) as [x ->]; [lia|done]. Qed.

Lemma sorted_rd l i j : sorted l -> 0 <= i -> i < j < Zlength l -> rd l i < rd l j.
Proof.
  intros Hs Hi Hj. apply (sorted_nth l (Z.to_nat i) (Z.to_nat j)); [done| | |lia]; apply rd_nth; lia.
Qed.

(** What the loop keeps: the key can only be between [first] and [last]. *)
Definition within (key : Z) (l : list Z) (first last : Z) : Prop :=
  0 <= first /\ last < Zlength l /\ forall i, 0 <= i < Zlength l -> rd l i = key -> first <= i <= last.

Lemma bsearch_loop_ok fuel key l first last : sorted l -> within key l first last -> last - first < Z.of_nat fuel ->
  bsearch_loop fuel key l first last = Some (bool_decide (key ∈ l)).
Proof.
  intros Hs. revert first last. induction fuel as [|fuel IH]; intros first last (H0 & H1 & Hw) Hf; cbn [bsearch_loop];
    destruct (Z.ltb_spec last first) as [Hlt|Hge]; try lia.
  1,2: rewrite bool_decide_false; [done|]; intros (i & Hi)%list_elem_of_lookup;
    assert (Hr : 0 <= Z.of_nat i < Zlength l) by (unfold Zlength; apply lookup_lt_Some in Hi; lia);
    specialize (Hw (Z.of_nat i) Hr); pose proof (rd_nth l _ Hr) as Hk; rewrite Nat2Z.id, Hi in Hk; simplify_eq;
    specialize (Hw eq_refl); lia.
  cbv zeta. rewrite Z.quot_div_nonneg by lia. set (middle := (first + last) / 2).
  assert (Hm : first <= middle <= last) by (unfold middle; split; [apply Z.div_le_lower_bound|apply Z.div_le_upper_bound]; lia).
  destruct (Z.ltb_spec (rd l middle) key) as [Hless|Hle]; [|destruct (Z.eqb_spec (rd l middle) key) as [He|Hne]].
  - apply IH; [|lia]. split_and!; [lia|lia|]. intros i Hi Hk. specialize (Hw i Hi Hk).
    destruct (decide (i <= middle)); [|lia]. destruct (decide (i = middle)) as [->|]; [lia|].
    pose proof (sorted_rd l i middle Hs ltac:(lia) ltac:(lia)). lia.
  - rewrite bool_decide_true; [done|]. apply list_elem_of_lookup. exists (Z.to_nat middle). rewrite rd_nth by lia. by rewrite He.
  - apply IH; [|lia]. split_and!; [lia|lia|]. intros i Hi Hk. specialize (Hw i Hi Hk).
    destruct (decide (middle <= i)); [|lia]. destruct (decide (i = middle)) as [->|]; [lia|].
    pose proof (sorted_rd l middle i Hs ltac:(lia) ltac:(lia)). lia.
Qed.

(** In a sorted table the search ends after at most as many rounds as
    the table has entries and finds a key exactly when it is there: the analyzer
    decides membership of the pair of class and command. *)
Theorem analyzer_decides l cls cmd : sorted l ->
  bsearch (command_key cls cmd) l (Zlength l) = Some (bool_decide (command_key cls cmd ∈ l)) /\
  (in_table l cls cmd = true <-> command_key cls cmd ∈ l).
Proof.
  intros Hs. assert (H : bsearch (command_key cls cmd) l (Zlength l) = Some (bool_decide (command_key cls cmd ∈ l))).
  { unfold bsearch. apply bsearch_loop_ok; [done| |unfold Zlength; lia]. split_and!; [lia|lia|lia]. }
  split; [exact H|]. unfold in_table. rewrite H. cbn. by rewrite bool_decide_eq_true.
Qed.

Lemma analyzer_decides_witness : in_table [0x2002; 0x2502; 0x7105; 0x8402] 0x25 0x02 = true.
Proof. apply (analyzer_decides [0x2002; 0x2502; 0x7105; 0x8402] 0x25 0x02); [repeat constructor|]. vm_compute. set_solver. Defined.
