(* ===== verification/S2Wrap.v ===== *)
(** * The S2 wrapper (src/src/transport/S2_wrap.c)

    The glue between the S2 library and the gateway: it sends what S2 seals
    through the transmit queue, keeps the callback of the one message S2 works on,
    hands decrypted messages to the receive path, and translates the keys of the
    library into the flags of the node database.

    State is the S2 context and the statics of the file.  S2 calls the wrapper
    through functions of S2_external.h; the model of S2 records those calls, and
    [absorb] runs the wrapper's functions on them in order once the call of S2
    is over.  None of them calls back into S2.  Calls of the wrapper to the
    transmit queue, the receive path, the key exchange, network management and
    ctimer are outputs.

    The multicast part is compiled only with TEST_MULTICAST_TX, which the gateway
    is built without. *)

From S2P Require Import Prelude Aes Ccm Cmac Drbg Nodemask SendDataAppl SecureLearn S2Transport S2Inclusion.
Local Open Scope Z_scope.

Definition END_NODE_VERIFY_DELIVERY_TIMEOUT : Z := 500.
Definition NONCE_REP_TIME : Z := 250.
Definition NUM_NONCE_BLOCK : nat := 8.
Definition SIZEOF_NONCE_BUF : nat := 50.
Definition TRANSMIT_COMPLETE_NO_ACK : Z := 1.
Definition S2_TRANSMIT_COMPLETE_NO_ACK : Z := 1.
Definition RECEIVE_STATUS_TYPE_BROAD : Z := 0x04.
Definition RECEIVE_STATUS_TYPE_MULTI : Z := 0x08.
Definition COMMAND_CLASS_MULTI_CHANNEL_V4 : Z := 0x60.
Definition COMMAND_CLASS_NETWORK_MANAGEMENT_INSTALLATION_MAINTENANCE : Z := 0x67.
Definition COMMAND_S2_RESYNCHRONIZATION_EVENT : Z := 0x09.
Definition SOS_EVENT_REASON_UNANSWERED : Z := 0.
Definition MAX_SUPPORTED_CLASSES : Z := 38.

(** ** Keys and node flags *)

Definition keystore_flags_2_node_flags (key_store_flags : Z) : Z :=
  let flags := 0 in
  let flags := if has key_store_flags KEY_CLASS_S0 then Z.lor flags NODE_FLAG_SECURITY0 else flags in
  let flags := if has key_store_flags KEY_CLASS_S2_ACCESS then Z.lor flags NODE_FLAG_SECURITY2_ACCESS else flags in
  let flags := if has key_store_flags KEY_CLASS_S2_AUTHENTICATED then Z.lor flags NODE_FLAG_SECURITY2_AUTHENTICATED else flags in
  if has key_store_flags KEY_CLASS_S2_UNAUTHENTICATED then Z.lor flags NODE_FLAG_SECURITY2_UNAUTHENTICATED else flags.

Definition sec2_gw_node_flags2keystore_flags (gw_flags : Z) : Z :=
  let f := 0 in
  let f := if has gw_flags NODE_FLAG_SECURITY0 then Z.lor f KEY_CLASS_S0 else f in
  let f := if has gw_flags NODE_FLAG_SECURITY2_ACCESS then Z.lor f KEY_CLASS_S2_ACCESS else f in
  let f := if has gw_flags NODE_FLAG_SECURITY2_AUTHENTICATED then Z.lor f KEY_CLASS_S2_AUTHENTICATED else f in
  if has gw_flags NODE_FLAG_SECURITY2_UNAUTHENTICATED then Z.lor f KEY_CLASS_S2_UNAUTHENTICATED else f.

(** ** State *)

(** What the gateway answers: [w_send_data] is send_data of the transmit queue,
    [w_behind] the memory behind a frame to be sent, [w_class] what the class of a
    connection on the stack happens to hold. *)
Record wrap_env := mkWrapEnv {
  w_sda : sda_env; w_send_data : ts_param -> list Z -> bool; mb_is_busy : bool; w_behind : list Z; w_class : Z;
  net_scheme : Z; SecureClasses : list Z; w_s_nonce : list Z; w_r_nonce : list Z
}.

(** Whose callback a frame in the transmit queue has: S2, or a block of the pool. *)
Inductive frame_owner := S2_send_frame_owner | Nonce_block (i : nat).

Inductive wrap_out :=
| W_send_data_call (p : ts_param) (frame : list Z) (owner : frame_owner) (taken : bool)
| W_answer (cb : Z) (status : option Z) (user : Z) (tx_status : Z)
| W_ApplicationCommandHandlerZIP (p : ts_param) (frame : list Z)
| W_scheme_map_overrun (class_id : Z)
| W_resynchronization (frame : list Z)
| W_inclusion (o : s2_out)
| W_sec0_abort_inclusion
| W_dsk_challenge (granted_keys dsk_length : Z) (key : list Z)
| W_key_request (security_keys : Z) (csa : bool)
| W_incl_cb (cb flags : Z)
| W_ctimer_stop.

(** A callback is named by a number; [nonce_rep_memb] is the use count and the
    bytes of each block. *)
Record wrap := mkWrap {
  s2_ctx : S2; s2_send_callback : option Z; s2_send_user : Z; s2_send_tx_status : Z; sec_incl_cb : option Z;
  nonce_rep_memb : list (bool * list Z); nonce_overrun : bool; ecdh_dynamic : list Z; ecdh_static : list Z;
  w_outs : list wrap_out
}.
#[export] Instance wrap_eta : EtaRecord wrap := fun s =>
  mkWrap (s2_ctx s) (s2_send_callback s) (s2_send_user s) (s2_send_tx_status s) (sec_incl_cb s) (nonce_rep_memb s)
    (nonce_overrun s) (ecdh_dynamic s) (ecdh_static s) (w_outs s).

Definition w_emit (o : wrap_out) (st : wrap) : wrap := st <| w_outs := w_outs st ++ [o] |>.

(** ** Functions S2 calls *)

Definition frame_param (W : wrap_env) (conn : s2_connection_t) : ts_param :=
  ts_set_std (w_sda W) 0 <| snode := l_node conn |> <| dnode := r_node conn |> <| tx_flags := zw_tx_options conn |>.

Definition wrap_get_commands_supported (W : wrap_env) (lnode class_id : Z) : list Z :=
  if ((net_scheme W =? SECURITY_SCHEME_2_ACCESS) && (class_id =? 2)
      || (net_scheme W =? SECURITY_SCHEME_2_AUTHENTICATED) && (class_id =? 1)
      || (net_scheme W =? SECURITY_SCHEME_2_UNAUTHENTICATED) && (class_id =? 0)) && (lnode =? MyNodeID (w_sda W))
  then if MAX_SUPPORTED_CLASSES <? Zlength (SecureClasses W) then take 38 (SecureClasses W) else SecureClasses W
  else [].

(** The environment of S2 as the wrapper provides it. *)
Definition wrap_s2_env (W : wrap_env) : s2_env :=
  mkS2Env (fun conn frame => w_send_data W (frame_param W conn) frame) (fun _ _ => false)
    (wrap_get_commands_supported W) (w_s_nonce W) (w_r_nonce W).

(** The codes of S2 in those of the transmit queue; nothing is a read past the
    array. *)
Definition s2zw_codes : list Z := [TRANSMIT_COMPLETE_OK; TRANSMIT_COMPLETE_NO_ACK; TRANSMIT_COMPLETE_FAIL; 0; 0; TRANSMIT_COMPLETE_OK].

Definition S2_send_done_event (status : Z) (st : wrap) : wrap :=
  let st := w_emit W_ctimer_stop st in
  let cb_save := s2_send_callback st in
  let st := st <| s2_send_callback := None |> in
  let st := match cb_save with
            | Some cb => w_emit (W_answer cb (s2zw_codes !! Z.to_nat status) (s2_send_user st) (s2_send_tx_status st)) st
            | None => st
            end in
  st <| s2_send_tx_status := 0 |>.

Definition scheme_map : list Z := [SECURITY_SCHEME_2_UNAUTHENTICATED; SECURITY_SCHEME_2_AUTHENTICATED; SECURITY_SCHEME_2_ACCESS].

Definition S2_msg_received_event (W : wrap_env) (src : s2_connection_t) (text : list Z) (st : wrap) : wrap :=
  match scheme_map !! Z.to_nat (con_class_id src) with
  | Some s =>
      let p := ts_set_std (w_sda W) 0 <| scheme := s |> <| snode := r_node src |> <| dnode := l_node src |>
                 <| rx_flags := zw_rx_status src |> in
      w_emit (W_ApplicationCommandHandlerZIP p text) st
  | None => w_emit (W_scheme_map_overrun (con_class_id src)) st
  end.

(** memb_alloc: the first block that is not in use. *)
Definition memb_alloc (blocks : list (bool * list Z)) : option nat := first_index (fun b => negb (fst b)) blocks.
Definition memb_free (i : nat) (st : wrap) : wrap :=
  st <| nonce_rep_memb := alter (fun b => (false, snd b)) i (nonce_rep_memb st) |>.
Definition block_buf (st : wrap) (i : nat) : list Z := snd (default (false, []) (nonce_rep_memb st !! i)).

Definition S2_send_frame_no_cb (W : wrap_env) (conn : s2_connection_t) (frame : list Z) (st : wrap) : wrap :=
  match memb_alloc (nonce_rep_memb st) with
  | None => st
  | Some i =>
      let st := st <| nonce_overrun := nonce_overrun st || (Z.of_nat SIZEOF_NONCE_BUF <? Zlength frame) |>
                   <| nonce_rep_memb := alter (fun b => (true, memcpy_at (snd b) 0 frame)) i (nonce_rep_memb st) |> in
      let buf := block_buf st i in
      let p := frame_param W conn in
      let p := if (rd buf 0 =? COMMAND_CLASS_SECURITY_2) && (rd buf 1 =? SECURITY_2_NONCE_REPORT)
               then p <| discard_timeout := END_NODE_VERIFY_DELIVERY_TIMEOUT |> else p in
      let sent := sub_buf buf 0 (Zlength frame) in
      let taken := w_send_data W p sent in
      let st := w_emit (W_send_data_call p sent (Nonce_block i) taken) st in
      if taken then st else memb_free i st
  end.

(** The frame for the IP destinations of unsolicited reports. *)
Definition S2_resynchronization_event (remote_node reason : Z) (st : wrap) : wrap :=
  w_emit (W_resynchronization
    ([COMMAND_CLASS_NETWORK_MANAGEMENT_INSTALLATION_MAINTENANCE; COMMAND_S2_RESYNCHRONIZATION_EVENT] ++
     if IS_LR_NODE remote_node then [0xFF; reason; u8 (Z.shiftr remote_node 8); Z.land remote_node 0xFF]
     else [u8 remote_node; reason; 0; 0])) st.

Definition s2_event (W : wrap_env) (st : wrap) (o : s2_out) : wrap :=
  match o with
  | S2_send_frame_call conn frame =>
      w_emit (W_send_data_call (frame_param W conn) frame S2_send_frame_owner (w_send_data W (frame_param W conn) frame)) st
  | S2_send_frame_no_cb_call conn frame => S2_send_frame_no_cb W conn frame st
  | S2_send_done_event_call status => S2_send_done_event status st
  | S2_msg_received_event_call src text => S2_msg_received_event W src text st
  | S2_resynchronization_event_call remote _ _ => S2_resynchronization_event remote SOS_EVENT_REASON_UNANSWERED st
  | S2_send_frame_multi_call _ _ | S2_assert_failed => st
  | o => w_emit (W_inclusion o) st
  end.

(** The calls S2 made on its way to [s2]. *)
Definition absorb (W : wrap_env) (s2 : S2) (st : wrap) : wrap :=
  fold_left (s2_event W) (drop (length (outs (s2_ctx st))) (outs s2)) (st <| s2_ctx := s2 |>).

(** ** Sending *)

(** The loop over the commands of a multi command; the second result is the
    highest index it reads. *)
Fixpoint multi_cmd_loop (is_get : Z -> Z -> bool) (n : nat) (data : list Z) (off len reach : Z) : bool * Z :=
  match n with
  | O => (false, reach)
  | S n =>
      let off := off + 1 + len in
      let len := rd data (off - 1) in
      let reach := Z.max reach (off + 1) in
      if is_get (rd data off) (rd data (off + 1)) then (true, reach)
      else multi_cmd_loop is_get n data off len reach
  end.
Definition is_get_in_multi_cmd (is_get : Z -> Z -> bool) (data : list Z) : bool * Z :=
  multi_cmd_loop is_get (Z.to_nat (rd data 2)) data 3 0 2.

Section Wrap.
Context `{BlockCipher}.

(** Whether S2 is asked to wait for the node to resynchronise. *)
Definition wants_verify (W : wrap_env) (p : ts_param) (data : list Z) : bool :=
  let is_get := CommandAnalyzerIsGet (w_sda W) in
  let mem := data ++ w_behind W in
  force_verify_delivery p || mb_is_busy W || is_get (rd mem 0) (rd mem 1)
  || (rd mem 0 =? COMMAND_CLASS_MULTI_CHANNEL_V4) && (rd mem 1 =? MULTI_CHANNEL_CMD_ENCAP_V2) && is_get (rd mem 4) (rd mem 5)
  || fst (is_get_in_multi_cmd is_get mem).

Definition send_connection (W : wrap_env) (p : ts_param) (data : list Z) : s2_connection_t :=
  mkConn (snode p) (dnode p) (tx_flags p) 0 (if wants_verify W p data then S2_TXOPTION_VERIFY_DELIVERY else 0) 0 0
    (u8 (scheme p - SECURITY_SCHEME_2_UNAUTHENTICATED)).

Definition sec2_send_data (W : wrap_env) (p : ts_param) (data : list Z) (callback user : Z) (st : wrap) : bool * wrap :=
  let cb_save := s2_send_callback st in
  let user_save := s2_send_user st in
  let st := st <| s2_send_callback := Some callback |> <| s2_send_user := user |> in
  let '(ok, s2) := S2_send_data (wrap_s2_env W) (send_connection W p data) data (s2_ctx st) in
  let st := absorb W s2 st in
  if ok then (true, st) else (false, st <| s2_send_callback := cb_save |> <| s2_send_user := user_save |>).

(** The callback of a frame of S2; [t] is the status the chip reported. *)
Definition S2_send_frame_callback (W : wrap_env) (txStatus : Z) (t : option Z) (elapsed : Z) (st : wrap) : wrap :=
  let st := match t with Some t => st <| s2_send_tx_status := t |> | None => st end in
  absorb W (S2_send_frame_done_notify (wrap_s2_env W)
    (if txStatus =? TRANSMIT_COMPLETE_OK then S2_TRANSMIT_COMPLETE_OK else S2_TRANSMIT_COMPLETE_NO_ACK)
    (elapsed + NONCE_REP_TIME) (s2_ctx st)) st.

Definition nonce_rep_callback (i : nat) (st : wrap) : wrap := memb_free i st.

Definition wrap_timeout (W : wrap_env) (st : wrap) : wrap := absorb W (S2_timeout_notify (wrap_s2_env W) (s2_ctx st)) st.

(** ** Receiving *)

Definition rx_connection (W : wrap_env) (p : ts_param) : s2_connection_t :=
  mkConn (dnode p) (snode p) (tx_flags p) (rx_flags p) 0
    (if has (rx_flags p) (Z.lor RECEIVE_STATUS_TYPE_BROAD RECEIVE_STATUS_TYPE_MULTI) then S2_RXOPTION_MULTICAST else 0)
    0 (w_class W).
Definition security2_CommandHandler (W : wrap_env) (p : ts_param) (cmd : list Z) (st : wrap) : wrap :=
  absorb W (S2_application_command_handler (wrap_s2_env W) (rx_connection W p) cmd (s2_ctx st)) st.

(** ** The key exchange *)

(** A frame of the key exchange, which shares the context. *)
Definition inclusion_send_data (W : wrap_env) (conn : s2_connection_t) (frame : list Z) (st : wrap) : bool * wrap :=
  let '(ok, s2) := S2_send_data (wrap_s2_env W) conn frame (s2_ctx st) in (ok, absorb W s2 st).

Definition incl_cb (flags : Z) (st : wrap) : wrap :=
  match sec_incl_cb st with Some cb => w_emit (W_incl_cb cb flags) st | None => st end.

Definition sec2_event_handler (assigned_keys : Z) (ev : zwave_event) (st : wrap) : wrap :=
  match ev with
  | S2_NODE_INCLUSION_INITIATED_EVENT _ => w_emit W_sec0_abort_inclusion st
  | S2_NODE_INCLUSION_PUBLIC_KEY_CHALLENGE_EVENT _ granted len key => w_emit (W_dsk_challenge granted len key) st
  | S2_NODE_INCLUSION_KEX_REPORT_EVENT _ keys csa => w_emit (W_key_request keys csa) st
  | S2_NODE_INCLUSION_COMPLETE_EVENT _ exchanged_keys => incl_cb (keystore_flags_2_node_flags exchanged_keys) st
  | S2_NODE_JOINING_COMPLETE_EVENT _ _ => incl_cb (keystore_flags_2_node_flags assigned_keys) st
  | S2_NODE_INCLUSION_FAILED_EVENT _ kex_fail_type => incl_cb (Z.lor NODE_FLAG_KNOWN_BAD (Z.shiftl kex_fail_type 16)) st
  | S2_JOINING_COMPLETE_NEVER_STARTED_EVENT _ _ => st
  end.

(** ** Set-up and keys *)

Definition sec2_create_new_dynamic_ecdh_key (st : wrap) : wrap :=
  let '(lo, s2) := s2_random (s2_ctx st) in
  let '(hi, s2) := s2_random s2 in
  st <| s2_ctx := s2 |> <| ecdh_dynamic := lo ++ hi |>.

Definition sec2_create_new_static_ecdh_key (st : wrap) : wrap :=
  let st := sec2_create_new_dynamic_ecdh_key st in
  sec2_create_new_dynamic_ecdh_key (st <| ecdh_static := ecdh_dynamic st |>).

(** A new context for the home id, with the keys of the store loaded into their
    slots; the old one is freed. *)
Definition sec2_init (home : Z) (keys : list (Z * list Z)) (st : wrap) : wrap :=
  let st := w_emit W_ctimer_stop (w_emit W_ctimer_stop st) in
  let load s2 '(slot, key) := snd (S2_network_key_update slot key false s2) in
  let s2 := fold_left load keys (S2_init_ctx home (s2_ctr_drbg (s2_ctx st))) in
  sec2_create_new_dynamic_ecdh_key (st <| s2_ctx := s2 |>).

Definition sec2_get_my_node_flags (assigned_keys : Z) : Z := keystore_flags_2_node_flags assigned_keys.

(** The nodes the key exchange is started with. *)
Definition inclusion_connection (my_node node_id : Z) : s2_connection_t :=
  mkConn my_node node_id (Z.lor (Z.lor TRANSMIT_OPTION_ACK TRANSMIT_OPTION_AUTO_ROUTE) TRANSMIT_OPTION_EXPLORE) 0 0 0 0 0.
Definition sec2_start_learn_mode (home : Z) (keys : list (Z * list Z)) (cb : Z) (st : wrap) : wrap :=
  sec2_init home keys st <| sec_incl_cb := Some cb |>.
Definition sec2_start_add_node (cb : Z) (st : wrap) : wrap := st <| sec_incl_cb := Some cb |>.

Definition sec2_refresh_homeid (home : Z) (st : wrap) : wrap := st <| s2_ctx; my_home_id := home |>.

Definition sec2_reset_span (node : Z) (st : wrap) : wrap :=
  st <| s2_ctx; span_table := map (fun s => if rnode s =? node then s <| span_state := SPAN_NOT_USED |> else s) (span_table (s2_ctx st)) |>.
End Wrap.

(** S2_get_hw_random: eight bytes at a time from the operating system. *)
Fixpoint hw_random_loop (blocks : list (list Z)) (left : nat) (buf : list Z) : list Z :=
  match blocks with
  | [] => buf
  | rnd :: blocks =>
      let n := Nat.min left 8 in
      if decide (left = 0%nat) then buf else hw_random_loop blocks (left - n) (buf ++ take n rnd)
  end.
Definition S2_get_hw_random (blocks : list (list Z)) (len : nat) : list Z := hw_random_loop blocks len [].

(** The keys of the S2 classes but not of S0. *)
Definition sec2_create_new_network_keys (aes : list Z -> list Z -> list Z) (random : Z -> list Z) (l : security_layer) : security_layer :=
  fold_left (fun l c => SecureLearn.keystore_network_key_write aes (Z.shiftl 1 c) (random c) l) (seqZ 0 (s2_get_key_count - 1)) l.
