(* ===== verification/S2WrapRun.v ===== *)
(** * Runs of the S2 wrapper: every message is answered once

    What the calls of S2 tell the wrapper ([prog]), the invariant of the wrapper's
    state, and its theorems over every sequence of operations. *)

From S2P Require Import Prelude Aes Ccm Cmac Drbg Nodemask SendDataAppl SecureLearn S2Transport S2Sync S2Inclusion S2Wrap.
#[local] Open Scope Z_scope.

(** ** What a call of S2 tells the wrapper *)

Abbreviation s2_busy := S2_is_send_data_busy.

Definition is_done (o : s2_out) : Prop := match o with S2_send_done_event_call _ => True | _ => False end.
Definition good_out (o : s2_out) : Prop :=
  match o with
  | S2_send_done_event_call s => s ∈ [0; 1; 2; 5]
  | S2_send_frame_no_cb_call _ f => Zlength f <= 20
  | _ => True
  end.

(** S2 leaves a transmission only with the event that it is done. *)
Definition prog (s s' : S2) : Prop :=
  exists new, outs s' = outs s ++ new /\ Forall good_out new /\
    (s2_busy s = true -> s2_busy s' = true \/ Exists is_done new).

#[export] Instance prog_preorder : PreOrder prog.
Proof.
  split.
  - intros s. exists []. rewrite app_nil_r. split_and!; [done|by constructor|by left].
  - intros s1 s2 s3 (n1 & E1 & G1 & B1) (n2 & E2 & G2 & B2). exists (n1 ++ n2). rewrite E2, E1, app_assoc.
    split_and!; [done|by apply Forall_app|]. intros Hb. rewrite Exists_app. destruct (B1 Hb) as [H|H]; [|tauto]. destruct (B2 H); tauto.
Qed.

(** Most functions of S2 leave its calls and its state alone. *)
Definition face (st : S2) : list s2_out * states_t := (outs st, fsm st).

Lemma prog_face s s' : face s' = face s -> prog s s'.
Proof. unfold face. intros E. simplify_eq. exists []. rewrite app_nil_r. split_and!; [done|by constructor|]. unfold s2_busy. intros Hb. left. by rewrite H0. Qed.

Lemma prog_face_l s s1 s2 : face s1 = face s -> prog s1 s2 -> prog s s2.
Proof. intros E H. by etrans; [apply prog_face|]. Qed.

Section Calls.
Context `{BlockCipher}.

Lemma face_random st : face (snd (s2_random st)) = face st.
Proof. unfold s2_random. by destruct (AES_CTR_DRBG_Generate _). Qed.

Lemma face_find_span con st : face (snd (find_span_by_node con st)) = face st.
Proof.
  unfold find_span_by_node. destruct (first_index _ _); [done|].
  pose proof (face_random st) as Hr. destruct (s2_random st) as [rnd st']. exact Hr.
Qed.

Lemma face_find_mpan owner group new st : face (snd (find_mpan_by_group_id owner group new st)) = face st.
Proof.
  unfold find_mpan_by_group_id. destruct (first_index _ _); [done|]. destruct new; [cbn [negb]|done].
  pose proof (face_random st) as Hr. destruct (s2_random st) as [rnd st1]. cbn [snd] in Hr.
  pose proof (face_random st1) as Hr1. destruct (s2_random st1) as [inner st2]. cbn [snd] in *. rewrite <- Hr, <- Hr1. done.
Qed.

Lemma face_verify_seq con seq st : face (snd (S2_verify_seq con seq st)) = face st.
Proof.
  unfold S2_verify_seq. pose proof (face_find_span con st) as Hf. destruct (find_span_by_node con st) as [i st']. cbn [snd] in Hf.
  by destruct (_ || _).
Qed.

Lemma face_span_ok con st : face (snd (S2_span_ok con st)) = face st.
Proof. unfold S2_span_ok. pose proof (face_find_span con st) as Hf. by destruct (find_span_by_node con st). Qed.

Lemma face_node_mos node st : face (S2_set_node_mos node st) = face st.
Proof. unfold S2_set_node_mos. destruct (mpan st); [|done]. destruct (_ && _); [|done]. by destruct (first_index _ _). Qed.

Lemma face_register frame st : face (snd (S2_register_nonce frame st)) = face st.
Proof.
  unfold S2_register_nonce. pose proof (face_verify_seq (peer st) (rd frame 2) st) as Hv.
  destruct (S2_verify_seq _ _ _) as [ok st1]. cbn [snd] in Hv. destruct ok; [cbn [negb]|done].
  pose proof (face_find_span (peer st1) st1) as Hf. destruct (find_span_by_node _ _) as [i st2]. cbn [snd] in Hf. cbv zeta.
  set (st3 := if (_ <=? _) && _ then _ else st2). assert (H3 : face st3 = face st2) by (subst st3; by destruct (_ && _)). clearbody st3.
  cbn [snd]. destruct (_ && _); [rewrite face_node_mos|]; congruence.
Qed.

Lemma face_make_aad sender receiver msg h l n st : face (snd (S2_make_aad sender receiver msg h l n st)) = face st.
Proof. unfold S2_make_aad. by destruct (_ <? _). Qed.

Lemma face_mpan_extension i acc : face (snd (mpan_extension i acc)) = face (snd acc).
Proof.
  destruct acc as [[p k] st]. unfold mpan_extension. cbn [snd]. destruct (_ =? _); [|done].
  pose proof (face_find_mpan 0 (mos_group_id (default (mkMOS 0 0) (mos_list st !! i))) false st) as Hf.
  by destruct (find_mpan_by_group_id _ _ _ _) as [[j|] st'].
Qed.

Lemma face_add_mpan p st : face (snd (S2_add_mpan_extensions p st)) = face st.
Proof.
  unfold S2_add_mpan_extensions.
  assert (Hf : forall l acc, face (snd (fold_left (fun acc i => mpan_extension i acc) l acc)) = face (snd acc)).
  { induction l as [|i l IH]; intros acc; [done|]. cbn [fold_left]. by rewrite IH, face_mpan_extension. }
  specialize (Hf (seq 0 MOS_LIST_LENGTH) (p, 0, st)). destruct (fold_left _ _ _) as [[p' k] st']. cbn [snd] in *. by destruct (truth k).
Qed.

Lemma face_make_header i st : face (snd (make_header i st)) = face st.
Proof.
  unfold make_header. cbv zeta. set (st1 := wb_write 0 _ st). assert (H1 : face st1 = face st) by done. clearbody st1.
  assert (H2 : face (snd (add_sn_extension i st1)) = face st1).
  { unfold add_sn_extension. destruct (decide _); [|done]. pose proof (face_random st1) as Hr. by destruct (s2_random st1). }
  destruct (add_sn_extension i st1) as [[h n] st2]. cbn [snd] in H2.
  assert (H3 : face (snd (add_mgrp_extension h n st2)) = face st2).
  { unfold add_mgrp_extension. destruct (mpan st2); [|done]. destruct (has _ _); [|done]. by destruct (negb _), (_ && _). }
  destruct (add_mgrp_extension h n st2) as [[h' n'] st3]. cbn [snd] in H3.
  assert (H4 : face (snd (add_mos_extension h' n' st3)) = face st3).
  { unfold add_mos_extension. destruct (mpan st3); [|done]. by destruct (decide _). }
  destruct (add_mos_extension h' n' st3) as [[h'' n''] st4]. cbn [snd] in *. rewrite <- H1, <- H2, <- H3, <- H4.
  unfold flag_extensions. destruct (truth _); [|done]. by destruct (1 <? _).
Qed.

(** ** Transmissions *)

Lemma prog_done status st : status ∈ [0; 1; 2; 5] -> prog st (S2_post_send_done_event status (st <| fsm := IDLE |>)).
Proof.
  intros Hs. eexists [_; _]. split; [unfold S2_post_send_done_event, s2_emit; cbn; by rewrite <- app_assoc|].
  split; [apply Forall_cons; split; [done|]; apply Forall_singleton; exact Hs|]. intros _. right. apply Exists_cons_tl, Exists_cons_hd. done.
Qed.

Lemma prog_emit o st : good_out o -> prog st (s2_emit o st).
Proof. intros Ho. exists [o]. split_and!; [done|by constructor|by left]. Qed.

Lemma prog_fsm_send_done status time st : status ∈ [0; 1; 2; 5] -> prog st (fsm_send_done status time st).
Proof.
  intros Hs. unfold fsm_send_done. destruct (fsm st); try by apply prog_emit.
  1,3: destruct (_ =? _); [by apply prog_face|by apply prog_done].
  by apply prog_done.
Qed.

Lemma prog_send_raw E frame st : prog st (S2_send_raw E frame st).
Proof.
  unfold S2_send_raw. cbv zeta. destruct (S2_send_frame E _ _).
  - pose proof (face_find_span (peer st) (s2_emit (S2_send_frame_call (peer st) frame) st)) as Hf. cbn [peer s2_emit modify] in Hf.
    change (peer (s2_emit (S2_send_frame_call (peer st) frame) st)) with (peer st).
    destruct (find_span_by_node _ _) as [i st']. cbn [snd] in Hf. etrans; [by apply (prog_emit (S2_send_frame_call (peer st) frame))|]. by apply prog_face.
  - etrans; [by apply (prog_emit (S2_send_frame_call (peer st) frame))|]. apply prog_fsm_send_done. set_solver.
Qed.

Lemma prog_nonce_get E st : prog st (S2_send_nonce_get E st).
Proof.
  unfold S2_send_nonce_get. pose proof (face_find_span (peer st) st) as Hf. destruct (find_span_by_node _ _) as [i st']. cbn [snd] in Hf.
  eapply prog_face_l; [exact Hf|apply prog_send_raw].
Qed.

Lemma prog_encrypt_and_send E st : prog st (S2_encrypt_and_send E st).
Proof.
  unfold S2_encrypt_and_send. pose proof (face_find_span (peer st) st) as Hf. destruct (find_span_by_node _ _) as [i st1]. cbn [snd] in Hf.
  pose proof (face_make_header i st1) as Hh. destruct (make_header i st1) as [h st2]. cbn [snd] in Hh.
  unfold encrypt_payload. pose proof (face_add_mpan h st2) as Hm. destruct (S2_add_mpan_extensions h st2) as [sh st3]. cbn [snd] in Hm. cbv zeta.
  set (st4 := if truth sh then _ else st3). assert (H4 : face st4 = face st3) by (subst st4; by destruct (truth sh)). clearbody st4.
  set (st5 := wb_write (h + sh) _ _). assert (H5 : face st5 = face st4) by done. clearbody st5.
  pose proof (face_make_aad (l_node (peer st5)) (r_node (peer st5)) (workbuf st5) h (Zlength (buf st4) + sh + h + AUTH_TAG_LEN) SIZEOF_AAD st5) as Ha.
  destruct (S2_make_aad _ _ _ _ _ _ st5) as [aad st6]. cbn [snd] in Ha.
  destruct (next_nonce_generate _) as [nonce rng].
  set (st7 := upd_span i _ st6). assert (H7 : face st7 = face st6) by done. clearbody st7.
  unfold wb_encrypt. destruct (CCM_encrypt_and_auth _ _ _ _ _ _) as [len region].
  eapply prog_face_l; [|apply prog_send_raw]. change (face st7 = face st). congruence.
Qed.

Lemma prog_send_msg E st : prog st (send_msg_state_enter E st).
Proof.
  unfold send_msg_state_enter. cbv zeta.
  set (st2 := if has _ _ then _ else _). assert (H2 : outs st2 = outs st /\ s2_busy st2 = true) by (subst st2; by destruct (has _ _)). clearbody st2.
  destruct H2 as [Ho Hb]. destruct (prog_encrypt_and_send E st2) as (new & En & Hg & Hd). exists new. rewrite <- Ho.
  split_and!; [exact En|exact Hg|]. intros _. exact (Hd Hb).
Qed.

(** A message that is taken is under way or already done. *)
Definition started_or_done (s s' : S2) : Prop :=
  exists new, outs s' = outs s ++ new /\ Forall good_out new /\ (s2_busy s' = true \/ Exists is_done new).

Lemma start_send_msg E st : started_or_done st (send_msg_state_enter E st).
Proof.
  unfold send_msg_state_enter. cbv zeta.
  set (st2 := if has _ _ then _ else _). assert (H2 : outs st2 = outs st /\ s2_busy st2 = true) by (subst st2; by destruct (has _ _)). clearbody st2.
  destruct H2 as [Ho Hb]. destruct (prog_encrypt_and_send E st2) as (new & En & Hg & Hd). exists new. rewrite <- Ho. exact (conj En (conj Hg (Hd Hb))).
Qed.

Lemma start_prog s s' : started_or_done s s' -> prog s s'.
Proof. intros (n & En & Hg & Hd). exists n. by split_and!. Qed.

Lemma start_face_l s s1 s2 : face s1 = face s -> started_or_done s1 s2 -> started_or_done s s2.
Proof. unfold face. intros E (n & En & Hg & Hd). simplify_eq. exists n. rewrite En. split_and!; [congruence|done|done]. Qed.

Lemma start_send E con buffer st : s2_busy st = false -> started_or_done st (S2_fsm_post_event E (SEND_MSG con buffer) st).
Proof.
  unfold s2_busy, S2_fsm_post_event. intros Hb.
  assert (Hi : started_or_done st (fsm_idle E (SEND_MSG con buffer) st)).
  { cbn [fsm_idle]. pose proof (face_span_ok con st) as Hf. destruct (S2_span_ok con st) as [ok st1]. cbn [snd] in Hf. destruct ok.
    - eapply start_face_l; [|apply start_send_msg]. exact Hf.
    - set (st2 := S2_set_peer con buffer _). assert (H2 : outs st2 = outs st /\ s2_busy st2 = true) by (unfold face in Hf; simplify_eq; done).
      clearbody st2. destruct H2 as [Ho H2]. destruct (prog_nonce_get E st2) as (new & En & Hg & Hd). exists new. rewrite <- Ho.
      exact (conj En (conj Hg (Hd H2))). }
  destruct (fsm st); try done.
Qed.

Lemma start_send_data E con buffer st s' : S2_send_data E con buffer st = (true, s') -> s2_busy st = false /\ started_or_done st s'.
Proof.
  unfold S2_send_data, S2_send_data_all_cast. destruct (_ || s2_busy st) eqn:Hb; [done|]. apply orb_false_iff in Hb as [_ Hb].
  intros. simplify_eq. split; [done|]. by apply start_send.
Qed.

Lemma refused_send_data E con buffer st s' : S2_send_data E con buffer st = (false, s') -> s' = st.
Proof. unfold S2_send_data, S2_send_data_all_cast. destruct (_ || s2_busy st); intros; by simplify_eq. Qed.

Lemma prog_send_data E con buffer st : prog st (snd (S2_send_data E con buffer st)).
Proof.
  destruct (S2_send_data E con buffer st) as [[] s'] eqn:Es; cbn [snd].
  - by apply start_prog, (start_send_data E con buffer).
  - by rewrite (refused_send_data _ _ _ _ _ Es).
Qed.

(** ** Reception *)

Lemma prog_nonce_report con flags st : prog st (S2_send_nonce_report con flags st).
Proof.
  unfold S2_send_nonce_report. pose proof (face_find_span con st) as Hf. destruct (find_span_by_node con st) as [i st1]. cbn [snd] in Hf. cbv zeta.
  eapply prog_face_l; [exact Hf|]. destruct (has flags SOS_BIT).
  - pose proof (face_random st1) as Hr. destruct (s2_random st1) as [rnd st2]. cbn [snd] in Hr. eapply prog_face_l; [exact Hr|].
    set (st3 := upd_span i _ st2). set (st4 := upd_span i _ st3). assert (H4 : face st4 = face st2) by done.
    eapply prog_face_l; [exact H4|]. apply prog_emit. cbn [good_out]. rewrite Zlength_app. unfold d_r_nonce.
    unfold sub_buf, Zlength. rewrite length_take. cbn [length]. lia.
  - apply (prog_face_l _ (upd_span i (fun s => s <| tx_seq := u8 (tx_seq s + 1) |>) st1)); [done|]. apply prog_emit. cbn [good_out]. unfold Zlength. cbn [length]. lia.
Qed.

Lemma prog_got_mos con st : prog st (fsm_got_mos con st).
Proof.
  unfold fsm_got_mos. destruct (fsm st) eqn:Hf; try done; try by apply prog_emit.
  all: exists []; rewrite app_nil_r; split_and!; [done|by constructor|]; unfold s2_busy; by rewrite Hf.
Qed.

(** The state a parser of extensions ends in. *)
Definition parsed_state (r : ext_state + S2) : S2 := match r with inl x => x_st x | inr st => st end.

Lemma face_clear_extension con msg span p x : face (parsed_state (clear_extension con msg span p x)) = face (x_st x).
Proof.
  unfold clear_extension. cbv zeta. change (x_st (x <| x_hdr_len := ?v |>)) with (x_st x).
  destruct (_ || _); [done|]. destruct (_ =? S2_MSG_EXTHDR_TYPE_SN).
  - destruct span; [|done]. by destruct (decide _).
  - destruct (_ =? S2_MSG_EXTHDR_TYPE_MGRP).
    + destruct (negb (_ =? 3)); [done|]. pose proof (face_find_mpan (r_node con) (rd msg (p + 2)) (negb (is_multicast con)) (x_st x)) as Hf.
      destruct (find_mpan_by_group_id _ _ _ _). exact Hf.
    + destruct (_ =? S2_MSG_EXTHDR_TYPE_MOS); [|by destruct (has _ _)]. destruct (negb (_ =? 2)); [done|]. exact (face_node_mos (r_node con) (x_st x)).
Qed.

Lemma face_clear_extensions fuel con msg span : forall p x, face (parsed_state (clear_extensions fuel con msg span p x)) = face (x_st x).
Proof.
  induction fuel as [|fuel IH]; intros p x; [done|]. cbn [clear_extensions].
  pose proof (face_clear_extension con msg span p x) as Hc. destruct (clear_extension con msg span p x) as [x'|st']; [|exact Hc].
  cbn [parsed_state] in Hc. destruct (has _ _); [by rewrite IH|done].
Qed.

Lemma prog_span_decrypted i m con st : prog st (snd (span_decrypted i m con st)).
Proof.
  unfold span_decrypted. cbv zeta. destruct m as [j|]; [|by apply prog_face]. destruct (decide _); cbn [snd]; [|by apply prog_face].
  eapply prog_face_l; [|apply prog_got_mos]. done.
Qed.

Lemma face_try_class i aad text st : face (snd (try_class i aad text st)) = face st.
Proof.
  unfold try_class. cbv zeta. destruct (Z.testbit _ _); [|done]. destruct (next_nonce_generate _) as [nonce rng]. by destruct (CCM_decrypt_and_auth _ _ _ _ _ _).
Qed.

Definition loop_state (r : loop_result) : S2 := match r with LoopLeft _ _ _ st | LoopAuthFail st => st end.

Lemma prog_class_loop n i m con aad sn rn : forall text st, prog st (loop_state (class_loop n i m con aad sn rn text st)).
Proof.
  induction n as [|n IH]; intros text st; [done|]. cbn [class_loop]. cbv zeta.
  pose proof (face_try_class i aad text st) as Ht. destruct (try_class i aad text st) as [[len text'] st1]. cbn [snd] in Ht.
  eapply prog_face_l; [exact Ht|]. destruct (truth len).
  - pose proof (prog_span_decrypted i m con st1) as Hs. by destruct (span_decrypted i m con st1).
  - destruct (_ || _); [done|]. eapply prog_face_l; [|apply IH]. done.
Qed.

Lemma prog_auth_fail span m con st : prog st (d_st (auth_fail span m con st)).
Proof.
  unfold auth_fail. cbv zeta. cbn [d_st].
  set (st1 := match m with Some _ => _ | None => st end). assert (H1 : face st1 = face st) by (subst st1; by destruct m). clearbody st1.
  set (st2 := match span with Some _ => _ | None => st1 end). assert (H2 : face st2 = face st1) by (subst st2; by destruct span). clearbody st2.
  apply (prog_face_l _ st2); [congruence|]. destruct (negb _); [apply prog_nonce_report|done].
Qed.

Definition secure_state (r : (Z * s2_connection_t * S2) + S2) : S2 := match r with inl (_, _, st) => st | inr st => st end.

Lemma face_secure_extension span text len p acc : face (secure_state (secure_extension span text len p acc)) = face (snd acc).
Proof.
  destruct acc as [[h con] st]. unfold secure_extension. cbv zeta. cbn [snd]. destruct (_ || _); [done|]. destruct (_ =? _); [|by destruct (has _ _)].
  destruct (_ || _); [done|]. pose proof (face_find_mpan (r_node con) (rd text (p + 2)) true st) as Hf.
  by destruct (find_mpan_by_group_id _ _ _ _) as [[j|] st'].
Qed.

Lemma face_secure_extensions fuel span text len : forall p acc, face (secure_state (secure_extensions fuel span text len p acc)) = face (snd acc).
Proof.
  induction fuel as [|fuel IH]; intros p acc; [by destruct acc as [[] ]|]. cbn [secure_extensions].
  pose proof (face_secure_extension span text len p acc) as Hs. destruct (secure_extension span text len p acc) as [acc'|st']; [|exact Hs].
  destruct (has _ _); [rewrite IH|]; by destruct acc' as [[] ].
Qed.

Lemma prog_decrypt_finish flags span m con a len text st : prog st (d_st (decrypt_finish flags span m con a len text st)).
Proof.
  unfold decrypt_finish. destruct (_ || _); [apply prog_auth_fail|]. destruct (has _ _); [|done].
  pose proof (face_secure_extensions (S (Z.to_nat len)) span text len 0 (0, con, st)) as Hs.
  destruct (secure_extensions _ _ _ _ _ _) as [[[h con'] st']|st']; by apply prog_face.
Qed.

Lemma prog_decrypt_body msg flags span con x : prog (x_st x) (d_st (decrypt_body msg flags span con x)).
Proof.
  unfold decrypt_body. cbv zeta. set (st := x_st x). destruct span as [i|].
  - destruct (decide _); [|apply prog_auth_fail].
    pose proof (face_make_aad (r_node con) (l_node con) msg (x_hdr_len x) (Zlength msg) SIZEOF_AAD st) as Ha.
    destruct (S2_make_aad _ _ _ _ _ _ _) as [aad st1]. cbn [snd] in Ha. eapply prog_face_l; [exact Ha|].
    set (st2 := if _ && _ then _ else st1). assert (H2 : face st2 = face st1) by (subst st2; by destruct (_ && _)). clearbody st2.
    eapply prog_face_l; [exact H2|].
    pose proof (prog_class_loop N_SEC_CLASS i (x_mpan x) con aad (x_s_nonce x) (x_r_nonce x) (drop (Z.to_nat (x_hdr_len x)) msg) st2) as Hl.
    destruct (class_loop _ _ _ _ _ _ _ _ _) as [len text con' st3|st3]; cbn [loop_state] in Hl;
      (etrans; [exact Hl|]); [apply prog_decrypt_finish|apply prog_auth_fail].
  - destruct (x_mpan x) as [j|]; [|apply prog_auth_fail]. destruct (decide _); [|apply prog_auth_fail].
    set (con' := con <| l_node := _ |>). clearbody con'.
    pose proof (face_make_aad (r_node con') (l_node con') msg (x_hdr_len x) (Zlength msg) SIZEOF_AAD st) as Ha.
    destruct (S2_make_aad _ _ _ _ _ _ _) as [aad st1]. cbn [snd] in Ha. eapply prog_face_l; [exact Ha|].
    unfold multicast_decrypt. cbv zeta. destruct (CCM_decrypt_and_auth _ _ _ _ _ _) as [len text].
    eapply prog_face_l; [|apply prog_decrypt_finish]. done.
Qed.

Lemma prog_decrypt E con msg st : prog st (d_st (S2_decrypt_msg E con msg st)).
Proof.
  unfold S2_decrypt_msg. cbv zeta. destruct (_ <? _); [done|].
  set (r := if is_multicast con then _ else _).
  assert (Hr : face (snd r) = face st).
  { subst r. destruct (is_multicast con); [done|]. pose proof (face_verify_seq con (rd msg 2) st) as Hv.
    destruct (S2_verify_seq _ _ _) as [ok st1]. cbn [snd] in Hv. destruct ok; [|done].
    pose proof (face_find_span con st1) as Hf. destruct (find_span_by_node con st1). cbn [snd] in *. congruence. }
  destruct r as [[ok span] st1]. cbn [snd] in Hr. eapply prog_face_l; [exact Hr|]. destruct ok; [cbn [negb]|done].
  set (x := mkExt 4 None _ _ st1). destruct (has _ EXTENSION_BIT); [|apply (prog_decrypt_body msg (rd msg 3) span con x)].
  pose proof (face_clear_extensions (length msg) con msg span 4 x) as Hc.
  destruct (clear_extensions _ _ _ _ _ _) as [x'|st']; cbn [parsed_state] in Hc; [|by apply prog_face].
  eapply prog_face_l; [exact Hc|]. apply prog_decrypt_body.
Qed.

(** ** The state machine *)

Lemma prog_register frame st st' v : S2_register_nonce frame st = (v, st') -> prog st st'.
Proof. intros E. pose proof (face_register frame st) as Hf. rewrite E in Hf. by apply prog_face. Qed.

Definition event_status_ok (e : event_t) : Prop := match e with SEND_DONE s _ => s ∈ [0; 1; 2; 5] | _ => True end.

Lemma prog_sync con frame st : prog st (emit_S2_synchronization_event con frame st).
Proof. by apply prog_emit. Qed.

Lemma prog_idle_event E e st : s2_busy st = false -> event_status_ok e -> (forall c b, e <> SEND_MULTICAST c b) -> prog st (fsm_idle E e st).
Proof.
  intros Hb He Hm. destruct e as [con b|con b|status time|con b|con b|con|con|con|]; cbn [fsm_idle]; try done.
  - pose proof (face_span_ok con st) as Hf. destruct (S2_span_ok con st) as [ok st1]. cbn [snd] in Hf. eapply prog_face_l; [exact Hf|]. destruct ok.
    + eapply prog_face_l; [|apply prog_send_msg]. done.
    + set (st2 := S2_set_peer con b _). assert (H2 : outs st2 = outs st1) by done. clearbody st2.
      destruct (prog_nonce_get E st2) as (new & En & Hg & _). exists new. rewrite <- H2. split_and!; [exact En|exact Hg|].
      unfold s2_busy in *. unfold face in Hf. simplify_eq. by rewrite H1, Hb.
  - by destruct (Hm con b).
  - by apply prog_fsm_send_done.
  - destruct (3 <=? _); [|done]. pose proof (face_verify_seq con (rd b 2) st) as Hv. destruct (S2_verify_seq _ _ _) as [ok st1]. cbn [snd] in Hv.
    eapply prog_face_l; [exact Hv|]. destruct ok; [apply prog_nonce_report|done].
  - destruct (S2_register_nonce b (S2_set_peer con b st)) as [v st1] eqn:Er. apply prog_register in Er. etrans; [|apply prog_sync].
    etrans; [|exact Er]. by apply prog_face.
  - apply prog_got_mos.
  - destruct (decide _); [|done]. set (st1 := st <| mpan := None |> <| fsm := IDLE |>). etrans; [|apply (prog_nonce_report (peer st1) MOS_BIT st1)].
    exists []. rewrite app_nil_r. split_and!; [done|by constructor|]. by rewrite Hb.
Qed.

Lemma prog_fsm E e st : event_status_ok e -> (forall c b, e <> SEND_MULTICAST c b) -> prog st (S2_fsm_post_event E e st).
Proof.
  intros He Hm. unfold S2_fsm_post_event. destruct (fsm st) eqn:Hf.
  - apply prog_idle_event; [unfold s2_busy; by rewrite Hf|done|done].
  - destruct e; cbn [fsm_wait_nonce_raport]; try done; [by apply prog_fsm_send_done| |apply prog_done; set_solver].
    destruct (S2_is_peernode _ _); [|apply prog_sync]. destruct (S2_register_nonce _ _) as [v st1] eqn:Er. apply prog_register in Er.
    etrans; [exact Er|]. destruct (has _ _); [apply prog_send_msg|done].
  - destruct e; cbn [fsm_sending_msg]; try done; [by apply prog_fsm_send_done|]. destruct (S2_is_peernode _ _); [done|apply prog_sync].
  - by apply prog_emit.
  - destruct e; cbn [fsm_verifying_delivery]; try done; [by apply prog_fsm_send_done| | |].
    + destruct (S2_is_peernode _ _); [|apply prog_sync]. destruct (S2_register_nonce _ _) as [v st1] eqn:Er. apply prog_register in Er.
      etrans; [exact Er|]. destruct (_ =? 0); [done|]. cbv zeta.
      set (st2 := if _ =? MOS_BIT then _ else st1). assert (H2 : face st2 = face st1) by (subst st2; by destruct (_ =? MOS_BIT)). clearbody st2.
      eapply prog_face_l; [exact H2|]. destruct (_ =? 0); [apply prog_done; set_solver|apply prog_send_msg].
    + destruct (S2_is_peernode _ _); [|done]. destruct (_ && _).
      * eapply prog_face_l; [|apply prog_send_msg]. done.
      * apply (prog_face_l _ (st <| timer := None |>)); [done|].
        change (st <| fsm := IDLE |> <| timer := None |>) with (st <| timer := None |> <| fsm := IDLE |>). apply prog_done. set_solver.
    + apply prog_done. set_solver.
  - apply prog_idle_event; [unfold s2_busy; by rewrite Hf|done|done].
Qed.

Lemma prog_plain_text E src text len st : prog st (handle_plain_text E src text len st).
Proof.
  unfold handle_plain_text. destruct (len =? 0); [done|]. destruct (_ && _); [|by apply prog_emit].
  destruct (is_multicast src); [done|]. destruct (_ =? _).
  - cbv zeta. destruct (_ <? _); [done|]. apply prog_send_data.
  - cbv zeta. eapply prog_face_l; [|by apply (prog_emit (s2_inclusion_post_event_call src (sub_buf text 0 len)) (st <| buf := sub_buf text 0 len |>))]. done.
Qed.

Lemma prog_command E src frame st : prog st (S2_application_command_handler E src frame st).
Proof.
  unfold S2_application_command_handler. cbv zeta. destruct (negb _); [done|]. destruct (_ =? SECURITY_2_NONCE_GET).
  { destruct (_ && _); [|done]. pose proof (face_verify_seq src (rd frame 2) st) as Hv. destruct (S2_verify_seq _ _ _) as [ok st1]. cbn [snd] in Hv.
    eapply prog_face_l; [exact Hv|]. destruct ok; [apply prog_nonce_report|done]. }
  destruct (_ =? SECURITY_2_NONCE_REPORT); [by apply prog_fsm|]. destruct (_ =? SECURITY_2_MESSAGE_ENCAPSULATION).
  { etrans; [apply (prog_decrypt E src frame st)|]. set (d := S2_decrypt_msg E src frame st). destruct (rc d); try done.
    - etrans; [|apply prog_plain_text]. by apply prog_fsm.
    - etrans; [|by apply prog_emit]. by apply prog_fsm. }
  destruct (_ && _); [done|]. destruct (negb (is_multicast src)); [|done].
  eapply prog_face_l; [|by apply (prog_emit (s2_inclusion_post_event_call (src <| con_class_id := UNENCRYPTED_CLASS |>) frame) (st <| buf := frame |>))]. done.
Qed.
End Calls.

(** ** Runs of the wrapper *)

Inductive wrap_op :=
| Op_send (W : wrap_env) (p : ts_param) (data : list Z) (callback user : Z)
| Op_frame (W : wrap_env) (p : ts_param) (cmd : list Z)
| Op_sent (W : wrap_env) (txStatus : Z) (t : option Z) (elapsed : Z)
| Op_nonce_sent (i : nat)
| Op_timeout (W : wrap_env)
| Op_inclusion_send (W : wrap_env) (conn : s2_connection_t) (frame : list Z)
| Op_inclusion_event (assigned_keys : Z) (ev : zwave_event)
| Op_add_node (cb : Z)
| Op_reset_span (node : Z)
| Op_refresh_homeid (home : Z)
| Op_init (home : Z) (keys : list (Z * list Z)).

Section Runs.
Context `{BlockCipher}.

Definition wrap_step (op : wrap_op) (st : wrap) : wrap :=
  match op with
  | Op_send W p data cb user => snd (sec2_send_data W p data cb user st)
  | Op_frame W p cmd => security2_CommandHandler W p cmd st
  | Op_sent W txStatus t elapsed => S2_send_frame_callback W txStatus t elapsed st
  | Op_nonce_sent i => nonce_rep_callback i st
  | Op_timeout W => wrap_timeout W st
  | Op_inclusion_send W conn frame => snd (inclusion_send_data W conn frame st)
  | Op_inclusion_event keys ev => sec2_event_handler keys ev st
  | Op_add_node cb => sec2_start_add_node cb st
  | Op_reset_span node => sec2_reset_span node st
  | Op_refresh_homeid home => sec2_refresh_homeid home st
  | Op_init home keys => sec2_init home keys st
  end.
Definition wrap_run (ops : list wrap_op) (st : wrap) : wrap := fold_left (fun st op => wrap_step op st) ops st.

(** The callers whose message was taken, with their user pointer. *)
Definition taken_by (op : wrap_op) (st : wrap) : list (Z * Z) :=
  match op with
  | Op_send W p data cb user => if fst (sec2_send_data W p data cb user st) then [(cb, user)] else []
  | _ => []
  end.
Fixpoint taken (ops : list wrap_op) (st : wrap) : list (Z * Z) :=
  match ops with [] => [] | op :: ops => taken_by op st ++ taken ops (wrap_step op st) end.

Definition answer_of (o : wrap_out) : option (Z * Z) := match o with W_answer cb _ user _ => Some (cb, user) | _ => None end.
Definition answered (st : wrap) : list (Z * Z) := omap answer_of (w_outs st).
Definition pending (st : wrap) : list (Z * Z) := match s2_send_callback st with Some cb => [(cb, s2_send_user st)] | None => [] end.

Definition no_restart (op : wrap_op) : bool := match op with Op_init _ _ => false | _ => true end.

(** ** Callbacks *)

Lemma answered_emit o st : answer_of o = None -> answered (w_emit o st) = answered st.
Proof. intros Ho. unfold answered, w_emit. cbn [w_outs modify]. rewrite omap_app. cbn. rewrite Ho. by rewrite app_nil_r. Qed.

(** The members an event of S2 other than the end of a transmission leaves alone. *)
Definition caller (st : wrap) : option Z * Z * list (Z * Z) := (s2_send_callback st, s2_send_user st, answered st).

Lemma caller_inv a b : caller a = caller b ->
  s2_send_callback a = s2_send_callback b /\ s2_send_user a = s2_send_user b /\ answered a = answered b.
Proof. unfold caller. intros E. by simplify_eq. Qed.

Lemma caller_emit o st : answer_of o = None -> caller (w_emit o st) = caller st.
Proof. intros Ho. unfold caller. by rewrite answered_emit. Qed.

Lemma caller_free i st : caller (memb_free i st) = caller st.
Proof. done. Qed.

Lemma caller_event W o st : ~ is_done o -> caller (s2_event W st o) = caller st.
Proof.
  intros Hd. destruct o; cbn [s2_event]; try (by apply caller_emit); try done.
  - unfold S2_send_frame_no_cb. destruct (memb_alloc _); [|done]. cbv zeta. destruct (w_send_data _ _ _); [by rewrite caller_emit|].
    by rewrite caller_free, caller_emit.
  - unfold S2_msg_received_event. destruct (scheme_map !! _); by rewrite caller_emit.
Qed.

Lemma done_event W status st :
  let st' := s2_event W st (S2_send_done_event_call status) in
  s2_send_callback st' = None /\ s2_send_user st' = s2_send_user st /\ answered st' = answered st ++ pending st.
Proof.
  cbn [s2_event]. unfold S2_send_done_event, pending. cbv zeta. destruct (s2_send_callback st) as [cb|] eqn:Hc.
  - change (s2_send_callback (w_emit W_ctimer_stop st)) with (s2_send_callback st). rewrite Hc.
    split_and!; [done|done|]. unfold answered, w_emit. cbn. rewrite !omap_app. cbn. by rewrite app_nil_r.
  - change (s2_send_callback (w_emit W_ctimer_stop st)) with (s2_send_callback st). rewrite Hc, app_nil_r.
    split_and!; [done|done|]. by apply (answered_emit W_ctimer_stop).
Qed.

Lemma is_done_dec o : Decision (is_done o).
Proof. destruct o; apply _. Defined.
#[local] Existing Instance is_done_dec.

(** The callback is called by the first end of a transmission and gone then. *)
Lemma events_caller W new : forall st, let st' := fold_left (s2_event W) new st in
  s2_send_user st' = s2_send_user st /\
  (Exists is_done new -> s2_send_callback st' = None /\ answered st' = answered st ++ pending st) /\
  (~ Exists is_done new -> caller st' = caller st).
Proof.
  induction new as [|o new IH]; intros st; cbv zeta; cbn [fold_left].
  { split_and!; [done|by intros H0%Exists_nil|done]. }
  destruct (IH (s2_event W st o)) as (Hu & Hd & Hn). destruct (decide (is_done o)) as [Ho|Ho].
  - destruct o; try done. destruct (done_event W status st) as (Hc & Hu' & Ha). split; [congruence|split].
    + intros _. destruct (decide (Exists is_done new)) as [Hx|Hx].
      * destruct (Hd Hx) as [Hc' Ha']. split; [done|]. rewrite Ha', Ha. unfold pending at 2. by rewrite Hc, app_nil_r.
      * specialize (Hn Hx). destruct (caller_inv _ _ Hn) as (E1 & E2 & E3). rewrite E1, E3, Hc. done.
    + intros Hx. destruct Hx. by apply Exists_cons_hd.
  - pose proof (caller_event W o st Ho) as Hk. destruct (caller_inv _ _ Hk) as (E1 & E2 & E3). split; [congruence|split].
    + intros [?|Hx]%Exists_cons; [done|]. destruct (Hd Hx) as [Hc' Ha']. split; [done|]. rewrite Ha', E3. unfold pending. by rewrite E1, E2.
    + intros Hx. assert (Hx' : ~ Exists is_done new) by (intros ?; apply Hx; by apply Exists_cons_tl). specialize (Hn Hx').
      by rewrite Hn.
Qed.

Lemma s2_ctx_event W o st : s2_ctx (s2_event W st o) = s2_ctx st.
Proof.
  destruct o; cbn [s2_event]; try done.
  - unfold S2_send_frame_no_cb. destruct (memb_alloc _); [|done]. cbv zeta. by destruct (w_send_data _ _ _).
  - unfold S2_send_done_event. cbv zeta. by destruct (s2_send_callback _).
  - unfold S2_msg_received_event. by destruct (scheme_map !! _).
Qed.

Lemma s2_ctx_events W new : forall st, s2_ctx (fold_left (s2_event W) new st) = s2_ctx st.
Proof. induction new as [|o new IH]; intros st; [done|]. cbn [fold_left]. by rewrite IH, s2_ctx_event. Qed.

(** Someone waits only while S2 is sending. *)
Definition waits_busy (st : wrap) : Prop := pending st <> [] -> s2_busy (s2_ctx st) = true.

(** A call of S2: whoever waited is answered or still waits. *)
Lemma absorb_caller W s2 st : prog (s2_ctx st) s2 -> waits_busy st ->
  let st' := absorb W s2 st in waits_busy st' /\ answered st' ++ pending st' = answered st ++ pending st.
Proof.
  intros (new & En & _ & Hb) Hw. cbv zeta. unfold absorb. rewrite En, drop_app_length.
  set (st1 := st <| s2_ctx := s2 |>). destruct (events_caller W new st1) as (Hu & Hd & Hn).
  pose proof (s2_ctx_events W new st1) as Hs. set (st' := fold_left _ new st1) in *. clearbody st'.
  destruct (decide (Exists is_done new)) as [Hx|Hx].
  - destruct (Hd Hx) as [Hc Ha]. split; [unfold waits_busy, pending; by rewrite Hc|]. rewrite Ha. unfold pending at 2. by rewrite Hc, app_nil_r.
  - specialize (Hn Hx). destruct (caller_inv _ _ Hn) as (E1 & E2 & E3).
    assert (Hp : pending st' = pending st) by (unfold pending; by rewrite E1, E2). split; [|rewrite E3, Hp; done].
    unfold waits_busy. rewrite Hp, Hs. intros Hne. by destruct (Hb (Hw Hne)).
Qed.

Lemma started_caller W s2 st cb user : started_or_done (s2_ctx st) s2 -> s2_send_callback st = None ->
  let st' := absorb W s2 (st <| s2_send_callback := Some cb |> <| s2_send_user := user |>) in
  waits_busy st' /\ answered st' ++ pending st' = answered st ++ [(cb, user)].
Proof.
  intros (new & En & _ & Hb) Hw. cbv zeta. unfold absorb.
  change (s2_ctx (st <| s2_send_callback := Some cb |> <| s2_send_user := user |>)) with (s2_ctx st). rewrite En, drop_app_length.
  set (st1 := st <| s2_send_callback := Some cb |> <| s2_send_user := user |> <| s2_ctx := s2 |>).
  destruct (events_caller W new st1) as (Hu & Hd & Hn). pose proof (s2_ctx_events W new st1) as Hs.
  assert (Hp1 : pending st1 = [(cb, user)]) by done. assert (Ha1 : answered st1 = answered st) by done.
  set (st' := fold_left _ new st1) in *. clearbody st'.
  destruct (decide (Exists is_done new)) as [Hx|Hx].
  - destruct (Hd Hx) as [Hc Ha]. split; [unfold waits_busy, pending; by rewrite Hc|]. rewrite Ha, Hp1, Ha1. unfold pending. by rewrite Hc, app_nil_r.
  - specialize (Hn Hx). destruct (caller_inv _ _ Hn) as (E1 & E2 & E3). rewrite E3.
    assert (Hp : pending st' = [(cb, user)]) by (unfold pending; by rewrite E1, E2). split; [|by rewrite Hp].
    unfold waits_busy. rewrite Hs. intros _. by destruct Hb.
Qed.

Lemma send_caller W p data cb user st : waits_busy st ->
  let st' := snd (sec2_send_data W p data cb user st) in
  waits_busy st' /\ answered st' ++ pending st' = answered st ++ pending st ++ taken_by (Op_send W p data cb user) st.
Proof.
  intros Hw. cbn [taken_by]. unfold sec2_send_data. cbv zeta.
  change (s2_ctx (st <| s2_send_callback := Some cb |> <| s2_send_user := user |>)) with (s2_ctx st).
  destruct (S2_send_data _ _ _ _) as [[] s2] eqn:Es; cbn [fst snd].
  - apply start_send_data in Es as [Hb Hs]. assert (Hc : s2_send_callback st = None).
    { destruct (s2_send_callback st) eqn:Hc; [|done]. rewrite Hw in Hb; [done|]. unfold pending. by rewrite Hc. }
    destruct (started_caller W s2 st cb user Hs Hc) as [Hw' Ha]. split; [exact Hw'|]. rewrite Ha. unfold pending. by rewrite Hc.
  - apply refused_send_data in Es as ->. unfold absorb.
    change (s2_ctx (st <| s2_send_callback := Some cb |> <| s2_send_user := user |>)) with (s2_ctx st).
    rewrite drop_all. cbn [fold_left]. rewrite !app_nil_r. done.
Qed.

Lemma step_caller op st : no_restart op = true -> waits_busy st ->
  waits_busy (wrap_step op st) /\ answered (wrap_step op st) ++ pending (wrap_step op st) = answered st ++ pending st ++ taken_by op st.
Proof.
  intros Hop Hw. destruct op as [W p data cb user|W p cmd|W s t e|i|W|W conn frame|keys ev|cb|node|home|home keys]; try done;
    [by apply send_caller|..]; cbn [taken_by wrap_step]; rewrite app_nil_r.
  - apply absorb_caller; [apply prog_command|done].
  - unfold S2_send_frame_callback. cbv zeta. set (st1 := match t with Some _ => _ | None => st end).
    assert (H1 : waits_busy st1 /\ answered st1 = answered st /\ pending st1 = pending st) by (subst st1; by destruct t).
    clearbody st1. destruct H1 as (Hw1 & <- & <-). apply absorb_caller; [|done]. apply prog_fsm; [|done]. cbn. destruct (_ =? _); set_solver.
  - done.
  - apply absorb_caller; [by apply prog_fsm|done].
  - unfold inclusion_send_data. pose proof (prog_send_data (wrap_s2_env W) conn frame (s2_ctx st)) as Hp.
    destruct (S2_send_data _ _ _ _) as [ok s2]. by apply absorb_caller.
  - assert (Hc : caller (sec2_event_handler keys ev st) = caller st /\ s2_ctx (sec2_event_handler keys ev st) = s2_ctx st).
    { destruct ev; cbn [sec2_event_handler]; unfold incl_cb; try destruct (sec_incl_cb st); rewrite ?caller_emit by done; done. }
    destruct Hc as [Hc Hs]. destruct (caller_inv _ _ Hc) as (E1 & E2 & E3). unfold waits_busy, pending in *. by rewrite E1, E2, E3, Hs.
  - done.
  - done.
  - done.
Qed.

(** C24. Every caller whose message S2 took is answered exactly once, in the order the
    messages were taken, or is the one whose message is being sent: in every run of
    sends, received frames, timeouts and frames of the key exchange that does not
    set up the context anew.  When S2 is idle nobody waits. *)
Theorem messages_answered_once ops st : forallb no_restart ops = true -> s2_send_callback st = None -> w_outs st = [] ->
  let st' := wrap_run ops st in
  taken ops st = answered st' ++ pending st' /\ (s2_busy (s2_ctx st') = false -> taken ops st = answered st').
Proof.
  intros Hops Hc Ho.
  assert (Hrun : forall ops st, forallb no_restart ops = true -> waits_busy st ->
    waits_busy (wrap_run ops st) /\ answered (wrap_run ops st) ++ pending (wrap_run ops st) = (answered st ++ pending st) ++ taken ops st).
  { clear. induction ops as [|op ops IH]; intros st Hops Hw; [by rewrite app_nil_r|]. apply andb_true_iff in Hops as [Hop Hops].
    destruct (step_caller op st Hop Hw) as [Hw' Ha]. destruct (IH (wrap_step op st) Hops Hw') as [Hw'' Ha''].
    split; [exact Hw''|]. change (wrap_run (op :: ops) st) with (wrap_run ops (wrap_step op st)). rewrite Ha'', Ha. cbn [taken]. by rewrite !app_assoc. }
  destruct (Hrun ops st Hops) as [Hw Ha]; [unfold waits_busy, pending; by rewrite Hc|].
  assert (E : answered st ++ pending st = []) by (unfold answered, pending; by rewrite Ho, Hc). rewrite E in Ha. cbn [app] in Ha.
  cbv zeta. rewrite <- Ha. split; [done|]. intros Hb. destruct (pending (wrap_run ops st)) eqn:Hp; [by rewrite app_nil_r|].
  rewrite Hw in Hb; [done|]. by rewrite Hp.
Qed.

(** ** Arrays and blocks *)

(** Nonce reports the transmit queue took, with the block each was given in. *)
Definition nonce_out (o : wrap_out) : option (nat * list Z) :=
  match o with W_send_data_call _ f (Nonce_block j) true => Some (j, f) | _ => None end.
Definition gives (st : wrap) : list (nat * list Z) := omap nonce_out (w_outs st).

Definition code_ok (o : wrap_out) : Prop := match o with W_answer _ s _ _ => s ∈ [Some 0; Some 1; Some 2] | _ => True end.

(** [q] holds the reports that are in the transmit queue: their blocks are the
    blocks in use, each with one report, and hold its bytes. *)
Definition holds (st : wrap) (r : nat * list Z) : Prop :=
  exists b, nonce_rep_memb st !! fst r = Some (true, b) /\ sub_buf b 0 (Zlength (snd r)) = snd r.
Record in_bounds (q : list (nat * list Z)) (st : wrap) : Prop := mkInBounds {
  ib_codes : Forall code_ok (w_outs st);
  ib_fits : nonce_overrun st = false;
  ib_pool : forall i u b, nonce_rep_memb st !! i = Some (u, b) -> length b = SIZEOF_NONCE_BUF;
  ib_distinct : NoDup q.*1;
  ib_holds : Forall (holds st) q;
  ib_used : forall i b, nonce_rep_memb st !! i = Some (true, b) -> i ∈ q.*1
}.

(** [st'] gave the reports [g] away after [st]. *)
Definition given (q : list (nat * list Z)) (st st' : wrap) : Prop := exists g, gives st' = gives st ++ g /\ in_bounds (q ++ g) st'.

Lemma given_none q st st' : gives st' = gives st -> in_bounds q st' -> given q st st'.
Proof. intros Hg Hib. exists []. by rewrite !app_nil_r. Qed.

Lemma given_trans q st st1 st2 : given q st st1 -> (forall q, in_bounds q st1 -> given q st1 st2) -> given q st st2.
Proof.
  intros (g & Hg & Hib) H2. destruct (H2 _ Hib) as (g' & Hg' & Hib'). exists (g ++ g'). by rewrite Hg', Hg, !app_assoc.
Qed.

Lemma ib_other q st st' : in_bounds q st -> w_outs st' = w_outs st -> nonce_overrun st' = nonce_overrun st -> nonce_rep_memb st' = nonce_rep_memb st -> in_bounds q st'.
Proof. intros [] E1 E2 E3. constructor; unfold holds in *; by rewrite ?E1, ?E2, ?E3. Qed.

Lemma given_other q st st' : in_bounds q st -> w_outs st' = w_outs st -> nonce_overrun st' = nonce_overrun st -> nonce_rep_memb st' = nonce_rep_memb st -> given q st st'.
Proof. intros Hib E1 E2 E3. apply given_none; [unfold gives; by rewrite E1|by eapply ib_other]. Qed.

Lemma ib_emit q o st : in_bounds q st -> code_ok o -> nonce_out o = None -> given q st (w_emit o st).
Proof.
  intros [] Ho Hg. apply given_none.
  - unfold gives, w_emit. cbn [w_outs modify]. rewrite omap_app. cbn. rewrite Hg. by rewrite app_nil_r.
  - constructor; try done. apply Forall_app. split; [done|by apply Forall_singleton].
Qed.

Definition without (i : nat) (q : list (nat * list Z)) : list (nat * list Z) := List.filter (fun r => negb (bool_decide (fst r = i))) q.

Lemma elem_without i q r : r ∈ without i q <-> r ∈ q /\ fst r <> i.
Proof. unfold without. rewrite !list_elem_of_In, filter_In, negb_true_iff, bool_decide_eq_false. done. Qed.

Lemma without_fst i j q : j ∈ (without i q).*1 <-> j ∈ q.*1 /\ j <> i.
Proof.
  rewrite !list_elem_of_fmap. split.
  - intros (r & -> & [Hr Hi]%elem_without). split; [by exists r|done].
  - intros [(r & -> & Hr) Hi]. exists r. split; [done|]. by apply elem_without.
Qed.

Lemma without_nodup i q : NoDup q.*1 -> NoDup (without i q).*1.
Proof.
  induction q as [|r q IH]; intros Hn; [done|]. cbn in Hn |- *. apply NoDup_cons in Hn as [Hr Hn]. destruct (negb _); [|by apply IH].
  cbn. constructor; [|by apply IH]. by intros [? _]%without_fst.
Qed.

Lemma ib_free q i st : in_bounds q st -> in_bounds (without i q) (memb_free i st).
Proof.
  intros [Hc Hf Hp Hd Hh Hu]. set (m := nonce_rep_memb st) in *.
  assert (Hm : nonce_rep_memb (memb_free i st) = alter (fun b => (false, snd b)) i m) by done.
  assert (Heq : forall x, alter (fun b => (false, snd b)) i m !! i = Some x -> exists u b, x = (false, b) /\ m !! i = Some (u, b)).
  { intros x. rewrite list_lookup_alter_eq. intros ([u b] & Hx & ->)%fmap_Some. by exists u, b. }
  constructor; try done; try rewrite Hm.
  - intros j u b Hj. destruct (decide (i = j)) as [->|Hne].
    + apply Heq in Hj as (u' & b' & ? & Hj). simplify_eq. by eapply Hp.
    + rewrite list_lookup_alter_ne in Hj by done. by eapply Hp.
  - by apply without_nodup.
  - apply Forall_forall. intros r [Hr Hne]%elem_without. rewrite Forall_forall in Hh. destruct (Hh r Hr) as (b & Hb & Hs). exists b.
    split; [|done]. rewrite Hm, list_lookup_alter_ne by done. exact Hb.
  - intros j b Hj. destruct (decide (i = j)) as [->|Hne].
    + apply Heq in Hj as (u' & b' & ? & _). simplify_eq.
    + rewrite list_lookup_alter_ne in Hj by done. apply without_fst. split; [by eapply Hu|done].
Qed.

Lemma ib_no_cb q W conn frame st : in_bounds q st -> Zlength frame <= 20 -> given q st (S2_send_frame_no_cb W conn frame st).
Proof.
  intros Hib Hl. unfold S2_send_frame_no_cb, memb_alloc. destruct (first_index _ _) as [i|] eqn:Ei; [|by apply given_none]. cbv zeta.
  apply first_index_Some in Ei as (b0 & Hi & Hu0 & _). destruct b0 as [[] b]; [done|]. pose proof Hib as [Hc Hf Hp Hd Hh Hu].
  pose proof (Hp _ _ _ Hi) as Hb. set (st1 := st <| nonce_overrun := _ |> <| nonce_rep_memb := _ |>).
  assert (Hm1 : nonce_rep_memb st1 = <[i := (true, memcpy_at b 0 frame)]> (nonce_rep_memb st)) by (unfold st1; cbn; apply list_alter_at with (1 := Hi)).
  assert (Hs : sub_buf (memcpy_at b 0 frame) 0 (Zlength frame) = frame).
  { apply sub_buf_memcpy_0. unfold Zlength in *. rewrite Hb. unfold SIZEOF_NONCE_BUF. lia. }
  assert (Hlt : (i < length (nonce_rep_memb st))%nat) by (by eapply lookup_lt_Some).
  assert (Hbuf : block_buf st1 i = memcpy_at b 0 frame) by (unfold block_buf; by rewrite Hm1, list_lookup_insert_eq).
  rewrite Hbuf, Hs. set (p := if _ && _ then _ else _). clearbody p.
  assert (Ho : nonce_overrun st1 = false).
  { change (nonce_overrun st1) with (nonce_overrun st || (Z.of_nat SIZEOF_NONCE_BUF <? Zlength frame)).
    rewrite Hf. cbn [orb]. apply Z.ltb_ge. unfold SIZEOF_NONCE_BUF. lia. }
  assert (Hnew : i ∉ q.*1).
  { intros (r & -> & Hr)%list_elem_of_fmap. rewrite Forall_forall in Hh. destruct (Hh r Hr) as (x & Hx & _). congruence. }
  assert (Hout : w_outs st1 = w_outs st) by done. clearbody st1.
  assert (Hib1 : in_bounds (q ++ [(i, frame)]) st1).
  { constructor; try done.
    - by rewrite Hout.
    - intros j u x. rewrite Hm1. intros [(-> & Hx & _)|[_ Hj]]%list_lookup_insert_Some; [simplify_eq; by rewrite length_memcpy_at|by eapply Hp].
    - rewrite fmap_app. apply NoDup_app. split_and!; [done| |apply NoDup_singleton]. intros j Hj ->%list_elem_of_singleton. done.
    - apply Forall_app. split; [|apply Forall_singleton; exists (memcpy_at b 0 frame); split; [by rewrite Hm1, list_lookup_insert_eq|done]].
      rewrite Forall_forall in Hh |- *. intros r Hr. destruct (Hh r Hr) as (x & Hx & Hsx). exists x. split; [|done].
      rewrite Hm1, list_lookup_insert_ne; [done|]. intros ->. apply Hnew. apply list_elem_of_fmap. by exists r.
    - intros j x. rewrite Hm1, fmap_app. intros [(-> & _ & _)|[_ Hj]]%list_lookup_insert_Some; [set_solver|]. apply elem_of_app. left. by eapply Hu. }
  destruct (w_send_data W p frame).
  - exists [(i, frame)]. split; [unfold gives, w_emit; cbn [w_outs modify]; by rewrite Hout, omap_app|].
    destruct Hib1. constructor; try done. apply Forall_app. split; [done|by apply Forall_singleton].
  - apply (ib_free _ i) in Hib1. replace (without i (q ++ [(i, frame)])) with q in Hib1.
    + eapply given_trans; [apply (given_none q st (memb_free i st1)); [unfold gives; cbn; by rewrite Hout|exact Hib1]|].
      intros q' Hq. apply (ib_emit q' (W_send_data_call p frame (Nonce_block i) false) (memb_free i st1) Hq); done.
    + unfold without. rewrite List.filter_app. cbn. rewrite bool_decide_true by done. cbn. rewrite app_nil_r. symmetry.
      clear -Hnew. induction q as [|r q IH]; [done|]. cbn in Hnew |- *. rewrite bool_decide_false by set_solver. cbn. f_equal. apply IH. set_solver.
Qed.

Lemma ib_event q W o st : in_bounds q st -> good_out o -> given q st (s2_event W st o).
Proof.
  intros Hib Ho. destruct o; cbn [s2_event]; try (by apply given_none); try by apply ib_emit.
  - by apply ib_no_cb.
  - unfold S2_send_done_event. cbv zeta. change (s2_send_callback (w_emit W_ctimer_stop st)) with (s2_send_callback st).
    eapply given_trans; [by apply (ib_emit q W_ctimer_stop)|]. intros q1 H1. destruct (s2_send_callback st) as [cb|]; [|by apply given_other].
    eapply given_trans; [apply (ib_emit q1 (W_answer cb (s2zw_codes !! Z.to_nat status) (s2_send_user st) (s2_send_tx_status st))); [exact H1| |done]|].
    + cbn [good_out code_ok] in *. assert (Hs : status = 0 \/ status = 1 \/ status = 2 \/ status = 5) by set_solver.
      destruct Hs as [->|[->|[->| ->]]]; vm_compute; set_solver.
    + intros q2 H2. by apply given_other.
  - unfold S2_msg_received_event. destruct (scheme_map !! _); by apply ib_emit.
Qed.

Lemma ib_absorb q W s2 st : prog (s2_ctx st) s2 -> in_bounds q st -> given q st (absorb W s2 st).
Proof.
  intros (new & En & Hg & _) Hib. unfold absorb. rewrite En, drop_app_length.
  apply (given_trans q st (st <| s2_ctx := s2 |>)); [by apply given_other|]. generalize (st <| s2_ctx := s2 |>). clear -Hg.
  induction Hg as [|o new Ho _ IH]; intros st q Hib; [by apply given_none|]. cbn [fold_left].
  eapply given_trans; [by apply ib_event|]. intros q' Hq. by apply IH.
Qed.

(** What the transmit queue holds after an operation: its callback takes a report out. *)
Definition flight_step (op : wrap_op) (q : list (nat * list Z)) (st : wrap) : list (nat * list Z) :=
  (match op with Op_nonce_sent i => without i q | _ => q end) ++ drop (length (gives st)) (gives (wrap_step op st)).
Fixpoint in_flight (ops : list wrap_op) (q : list (nat * list Z)) (st : wrap) : list (nat * list Z) :=
  match ops with [] => q | op :: ops => in_flight ops (flight_step op q st) (wrap_step op st) end.

Lemma given_flight q st st' : given q st st' -> in_bounds (q ++ drop (length (gives st)) (gives st')) st'.
Proof. intros (g & Hg & Hib). by rewrite Hg, drop_app_length. Qed.

Lemma ib_send q W p data cb user st : in_bounds q st -> given q st (snd (sec2_send_data W p data cb user st)).
Proof.
  intros Hib. unfold sec2_send_data. cbv zeta. set (st1 := st <| s2_send_callback := _ |> <| s2_send_user := _ |>).
  apply (given_trans q st st1); [by apply given_other|]. clearbody st1. intros q1 H1.
  pose proof (prog_send_data (wrap_s2_env W) (send_connection W p data) data (s2_ctx st1)) as Hp.
  destruct (S2_send_data _ _ _ _) as [ok s2]. cbn [snd] in Hp. pose proof (ib_absorb q1 W s2 st1 Hp H1) as H2.
  destruct ok; cbn [snd]; [done|]. eapply given_trans; [exact H2|]. intros q2 H3. by apply given_other.
Qed.

Lemma ib_step q op st : in_bounds q st -> in_bounds (flight_step op q st) (wrap_step op st).
Proof.
  intros Hib. destruct op as [W p data cb user|W p cmd|W s t e|i|W|W conn frame|keys ev|cb|node|home|home keys]; unfold flight_step; cbn [wrap_step];
    try apply given_flight.
  - by apply ib_send.
  - apply ib_absorb; [apply prog_command|done].
  - unfold S2_send_frame_callback. cbv zeta. set (st1 := match t with Some _ => _ | None => st end).
    apply (given_trans q st st1); [subst st1; destruct t; by apply given_other|]. clearbody st1. intros q1 H1. apply ib_absorb; [|done].
    apply prog_fsm; [|done]. cbn. destruct (_ =? _); set_solver.
  - apply given_none; [done|by apply ib_free].
  - apply ib_absorb; [by apply prog_fsm|done].
  - unfold inclusion_send_data. pose proof (prog_send_data (wrap_s2_env W) conn frame (s2_ctx st)) as Hp.
    destruct (S2_send_data _ _ _ _) as [ok s2]. by apply ib_absorb.
  - destruct ev; cbn [sec2_event_handler]; unfold incl_cb; try destruct (sec_incl_cb st); try (by apply given_none); by apply ib_emit.
  - by apply given_other.
  - by apply given_other.
  - by apply given_other.
  - unfold sec2_init, sec2_create_new_dynamic_ecdh_key. cbv zeta. destruct (s2_random _) as [lo s2]. destruct (s2_random s2) as [hi s2'].
    eapply given_trans; [by apply (ib_emit q W_ctimer_stop)|]. intros q1 H1. eapply given_trans; [by apply (ib_emit q1 W_ctimer_stop)|].
    intros q2 H2. by apply given_other.
Qed.

(** The wrapper before its first use: the pool is free. *)
Definition wrap_initial (s2 : S2) : wrap :=
  mkWrap s2 None 0 0 None (replicate NUM_NONCE_BLOCK (false, zeros SIZEOF_NONCE_BUF)) false (zeros 32) (zeros 32) [].

(** C39. In every run, restarts of the context included, the code of an answer is an
    entry of the table of codes, no nonce report is longer than the block it is
    copied to, and the reports in the transmit queue and the blocks in use
    correspond one to one: every report that was queued and not called back yet
    has a block of its own, which is in use and still holds its bytes, and no
    block is in use without such a report. *)
Theorem wrapper_in_bounds s2 ops (st := wrap_run ops (wrap_initial s2)) (q := in_flight ops [] (wrap_initial s2)) :
  Forall code_ok (w_outs st) /\ nonce_overrun st = false /\
  NoDup q.*1 /\ Forall (holds st) q /\ forall i b, nonce_rep_memb st !! i = Some (true, b) -> i ∈ q.*1.
Proof.
  assert (Hrun : forall ops q st, in_bounds q st -> in_bounds (in_flight ops q st) (wrap_run ops st)).
  { clear. induction ops as [|op ops IH]; intros q st Hib; [done|]. apply IH. by apply ib_step. }
  destruct (Hrun ops [] (wrap_initial s2)) as [Hc Hf _ Hd Hh Hu]; [|by split_and!].
  constructor; [by apply Forall_nil|done| |by apply NoDup_nil|by apply Forall_nil|]; intros i; intros.
  - match goal with Hi : _ !! i = Some _ |- _ => apply lookup_replicate in Hi as [Hi _] end. by simplify_eq.
  - match goal with Hi : _ !! i = Some _ |- _ => apply lookup_replicate in Hi as [Hi _] end. by simplify_eq.
Qed.
End Runs.

(** ** Keys and flags *)

(** The flags of the node database and the keys of the key store carry the same
    four classes: each translation undoes the other. *)
Theorem key_flags_round_trip x :
  sec2_gw_node_flags2keystore_flags (keystore_flags_2_node_flags (u8 x)) = Z.land (u8 x) 0x87 /\
  keystore_flags_2_node_flags (sec2_gw_node_flags2keystore_flags (u8 x)) = Z.land (u8 x) 0x71.
Proof.
  assert (H : forallb (fun k => (sec2_gw_node_flags2keystore_flags (keystore_flags_2_node_flags k) =? Z.land k 0x87)
      && (keystore_flags_2_node_flags (sec2_gw_node_flags2keystore_flags k) =? Z.land k 0x71)) (seqZ 0 256) = true) by (vm_compute; reflexivity).
  pose proof (byte_all _ H (u8 x) (u8_byte x)) as Hb. cbn beta in Hb. apply andb_true_iff in Hb as [H1 H2]. lia.
Qed.
