(* ===== verification/S2WrapLink.v ===== *)
(** * The S2 path from one gateway to the command classes of another

    The wrapper between the S2 transport and the receive path: a command sent with
    an S2 scheme, sealed, received, opened and handled; concrete runs and boundary
    cases of the wrapper. *)

From S2P Require Import Prelude Crc Nodemask SendDataAppl SendRequest Sec0 SecureLearn SecureLearnLive ZipReceive ZipSafety ZipRuns Aes Ccm Cmac Drbg S2Transport S2Sync S2Exchange S2Inclusion S2Wrap S2WrapRun.
#[local] Open Scope Z_scope.

Section Path.
Context `{BlockCipher} (aes : list Z -> list Z -> list Z).
Abbreviation zip := (ApplicationCommandHandlerZIP aes).

(** A frame after which a message is handed on is a sealed one. *)
Lemma delivering_frame E con frame b src text : fsm b = IDLE ->
  S2Transport.outs (S2_application_command_handler E con frame b) = S2Transport.outs b ++ [S2_msg_received_event_call src text] ->
  rd frame 0 = S2Transport.COMMAND_CLASS_SECURITY_2 /\ rd frame 1 <> ZipReceive.SECURITY_2_COMMANDS_SUPPORTED_REPORT.
Proof.
  intros Hf. unfold S2_application_command_handler. destruct (Z.eqb_spec (rd frame 0) S2Transport.COMMAND_CLASS_SECURITY_2) as [H0|H0]; cbn [negb].
  - intros Ho. split; [exact H0|]. intros H1. rewrite H1 in Ho. cbv zeta in Ho.
    change (ZipReceive.SECURITY_2_COMMANDS_SUPPORTED_REPORT =? SECURITY_2_NONCE_GET) with false in Ho.
    change (ZipReceive.SECURITY_2_COMMANDS_SUPPORTED_REPORT =? SECURITY_2_NONCE_REPORT) with false in Ho.
    change (ZipReceive.SECURITY_2_COMMANDS_SUPPORTED_REPORT =? SECURITY_2_MESSAGE_ENCAPSULATION) with false in Ho. cbn [andb] in Ho.
    rewrite Hf in Ho. change (negb (bool_decide (IDLE = IDLE))) with false in Ho. cbn [andb] in Ho.
    destruct (negb (is_multicast con)).
    + change (S2Transport.outs (s2_emit ?o (b <| buf := frame |>))) with (S2Transport.outs b ++ [o]) in Ho. apply app_inv_head in Ho. done.
    + rewrite <- (app_nil_r (S2Transport.outs b)) in Ho at 1. apply app_inv_head in Ho. done.
  - intros Ho. rewrite <- (app_nil_r (S2Transport.outs b)) in Ho at 1. apply app_inv_head in Ho. done.
Qed.

(** A sealed frame in the receive path. *)
Lemma zip_security2 n E p frame g : frame <> [] -> rd frame 0 = S2Transport.COMMAND_CLASS_SECURITY_2 ->
  rd frame 1 <> ZipReceive.SECURITY_2_COMMANDS_SUPPORTED_REPORT -> isNodeBad (ze_sl E) (snode p) (sec g) = false ->
  zip (S n) E p frame g = Some (p, zr_emit (ZR_security2 p frame) g).
Proof.
  intros Hne H0 H1 Hb. rewrite zip_step by done. unfold zip_frame, firmware_frame. rewrite H0. cbn [Z.eqb andb]. cbv zeta.
  change (S2Transport.COMMAND_CLASS_SECURITY_2 =? COMMAND_CLASS_FIRMWARE_UPDATE_MD) with false. cbn [andb]. 
  change (S2Transport.COMMAND_CLASS_SECURITY_2 =? COMMAND_CLASS_CONTROLLER_REPLICATION) with false.
  change (S2Transport.COMMAND_CLASS_SECURITY_2 =? COMMAND_CLASS_CRC_16_ENCAP) with false.
  change (S2Transport.COMMAND_CLASS_SECURITY_2 =? COMMAND_CLASS_SECURITY) with false.
  change (S2Transport.COMMAND_CLASS_SECURITY_2 =? SendDataAppl.COMMAND_CLASS_SECURITY_2) with true. cbv iota.
  rewrite Hb. by rewrite (proj2 (Z.eqb_neq _ _) H1).
Qed.

(** A command for the gateway itself that no request waits for. *)
Lemma zip_plain n E p cmd g : cmd <> [] -> plain_class (rd cmd 0) = true -> is_network_management (rd cmd 0) = false ->
  rd cmd 0 <> COMMAND_CLASS_FIRMWARE_UPDATE_MD -> reqs_list (requests g) = [] -> dnode p = gw_my_node g -> dendpoint p = 0 ->
  exists g', zip (S n) E p cmd g = Some (p, g') /\ zr_outs g' = zr_outs g ++ [ZR_ip (conn_of p) cmd].
Proof.
  intros Hne Hp Hm Hf Hr Hd He. eexists. split; [by apply plain_delivered|].
  unfold firmware_frame. rewrite (proj2 (Z.eqb_neq _ _) Hf). unfold ZipReceive.deliver. cbv zeta.
  unfold SendRequest_ApplicationCommandHandler. change (requests (g <| queue := ?q |>)) with (requests g). rewrite Hr. cbn [list_find].
  change (gw_my_node ((g <| queue := ?q |>) <| requests := ?r |>)) with (gw_my_node g).
  rewrite Hd, Z.eqb_refl, andb_false_r. cbn [andb]. rewrite He, Hm. done.
Qed.

(** C13. A command sent with an S2 scheme, from the wrapper of the sender
    to the command classes of the receiver: the wrapper takes it and hands one
    frame to the transmit queue; that frame, off the radio, goes through the
    receive path to the receiver's S2 and comes back as the command, under the
    scheme it was sent with and under the number of its sender. *)
Theorem s2_command_reaches_handler WA WB E n p data callback user a b g i j rx :
  let ca := send_connection WA p data in
  let pB := serial_param g rx (dnode p) (snode p) in
  let cb := rx_connection WB pB in
  s2_wf (s2_ctx a) -> s2_wf (s2_ctx b) -> in_sync (s2_ctx a) (s2_ctx b) ca cb i j -> ready_to_send (s2_ctx a) ca ->
  fsm (s2_ctx b) = IDLE -> seq_ok (s2_ctx b) j (tx_seq (span_at (s2_ctx a) i)) ->
  (forall frame, w_send_data WA (frame_param WA ca) frame = true) ->
  1 <= scheme p <= 3 -> app_text data -> plain_class (rd data 0) = true -> is_network_management (rd data 0) = false ->
  rd data 0 <> COMMAND_CLASS_FIRMWARE_UPDATE_MD ->
  dnode p = gw_my_node g -> dnode p <> 0 -> isNodeBad (ze_sl E) (snode p) (sec g) = false -> reqs_list (requests g) = [] ->
  exists frame a' b' pz g',
    sec2_send_data WA p data callback user a = (true, a') /\
    w_outs a' = w_outs a ++ [W_send_data_call (frame_param WA ca) frame S2_send_frame_owner true] /\
    zip (S n) E pB frame g = Some (pB, zr_emit (ZR_security2 pB frame) g) /\
    security2_CommandHandler WB pB frame b = b' /\ w_outs b' = w_outs b ++ [W_ApplicationCommandHandlerZIP pz data] /\
    zip (S n) E pz data (zr_emit (ZR_security2 pB frame) g) = Some (pz, g') /\
    zr_outs g' = zr_outs g ++ [ZR_security2 pB frame; ZR_ip (ZipReceive.mkConn (snode p) (dnode p) (scheme p) 0 0 (rx_flags pB)) data].
Proof.
  intros ca pB cb Wa Wb Hs Hready Hbi Hq Hok Hsch Htext Hplain Hnm Hfw Hme Hme0 Hbad Hreq.
  destruct (S2Sync.deliver (wrap_s2_env WA) (wrap_s2_env WB) (s2_ctx a) (s2_ctx b) ca cb i j data Wa Wb Hs Hready Hbi Htext Hq Hok)
    as (a1 & b1 & frame & Ea & Hoa & Eb & Hob & _).
  pose proof Htext as (_ & Htl & _).
  assert (Hdata : data <> []) by (intros ->; unfold Zlength in Htl; cbn [length] in Htl; lia).
  destruct (delivering_frame (wrap_s2_env WB) cb frame (s2_ctx b) (cb <| con_class_id := con_class_id ca |>) data Hbi) as [H0 H1]; [by rewrite Eb|].
  assert (Hframe : frame <> []) by (intros ->; done).
  assert (Hclass : scheme_map !! Z.to_nat (con_class_id ca) = Some (scheme p)).
  { change (con_class_id ca) with (u8 (scheme p - SECURITY_SCHEME_2_UNAUTHENTICATED)). unfold SECURITY_SCHEME_2_UNAUTHENTICATED.
    assert (Hc : scheme p = 1 \/ scheme p = 2 \/ scheme p = 3) by lia. by destruct Hc as [->|[->| ->]]. }
  set (pz := ts_set_std (w_sda WB) 0 <| scheme := scheme p |> <| snode := snode p |> <| dnode := dnode p |> <| rx_flags := rx_flags pB |>).
  set (g1 := zr_emit (ZR_security2 pB frame) g).
  assert (Hdn : dnode pB = dnode p) by (unfold pB, serial_param; cbn [dnode]; unfold truth; by rewrite (proj2 (Z.eqb_neq _ _) Hme0)).
  destruct (zip_plain n E pz data g1 Hdata Hplain Hnm Hfw) as (g' & Ez & Hz); [done|exact Hme|done|].
  eexists frame, _, _, pz, g'. split_and!.
  - unfold sec2_send_data. cbv zeta. change (s2_ctx (a <| s2_send_callback := ?v |> <| s2_send_user := ?u |>)) with (s2_ctx a).
    fold ca. rewrite Ea. reflexivity.
  - unfold absorb. change (s2_ctx (a <| s2_send_callback := ?v |> <| s2_send_user := ?u |>)) with (s2_ctx a).
    rewrite Hoa, drop_app_length. cbn [fold_left s2_event]. unfold w_emit. cbn. by rewrite Hok.
  - by apply zip_security2.
  - reflexivity.
  - unfold security2_CommandHandler, absorb. fold cb. rewrite Eb, Hob, drop_app_length. cbn [fold_left s2_event].
    unfold S2_msg_received_event. change (con_class_id (cb <| con_class_id := ?v |>)) with v. rewrite Hclass.
    change (l_node (cb <| con_class_id := ?v |>)) with (dnode pB). rewrite Hdn. reflexivity.
  - exact Ez.
  - rewrite Hz. unfold g1, zr_emit. cbn [zr_outs modify]. by rewrite <- app_assoc.
Qed.
End Path.

(** ** Two gateways *)

Definition wrap_env_ex : wrap_env := mkWrapEnv sda_crc (fun _ _ => true) false [] 7 SECURITY_SCHEME_2_ACCESS [] (zeros 16) (zeros 16).
Definition send_param : ts_param := mkTs 1 2 0 0 0 0 SECURITY_SCHEME_2_UNAUTHENTICATED [] false false false 0.
Definition gw_2 : gw := gw_ex <| sec; my_node := 2 |>.

Lemma s2_command_witness : exists frame a' b' pz g',
  sec2_send_data wrap_env_ex send_param [0x25; 1; 0] 5 6 (wrap_initial sync_a_node) = (true, a') /\
  security2_CommandHandler wrap_env_ex (serial_param gw_2 0 2 1) frame (wrap_initial sync_b_node) = b' /\
  w_outs b' = [W_ApplicationCommandHandlerZIP pz [0x25; 1; 0]] /\
  zr_outs g' = [ZR_security2 (serial_param gw_2 0 2 1) frame; ZR_ip (ZipReceive.mkConn 1 2 SECURITY_SCHEME_2_UNAUTHENTICATED 0 0 0) [0x25; 1; 0]].
Proof.
  destruct (s2_command_reaches_handler mix wrap_env_ex wrap_env_ex zr_ex 0 send_param [0x25; 1; 0] 5 6 (wrap_initial sync_a_node) (wrap_initial sync_b_node)
    gw_2 0 0 0) as (frame & a' & b' & pz & g' & Ea & _ & _ & Eb & Hb & _ & Hg).
  - change (s2_wf sync_a_node). constructor; decide_it.
  - change (s2_wf sync_b_node). constructor; decide_it.
  - change (in_sync sync_a_node sync_b_node (mkConn 1 2 0 0 0 0 0 0) (mkConn 2 1 0x25 0 0 0 0 7) 0 0). constructor; first [vm_compute; reflexivity|decide_it].
  - change (ready_to_send sync_a_node (mkConn 1 2 0 0 0 0 0 0)). constructor; vm_compute; by repeat split.
  - vm_compute. reflexivity.
  - change (seq_ok sync_b_node 0 (tx_seq (span_at sync_a_node 0))). decide_it.
  - done.
  - by vm_compute.
  - decide_it.
  - by vm_compute.
  - by vm_compute.
  - by vm_compute.
  - by vm_compute.
  - done.
  - by vm_compute.
  - by vm_compute.
  - exists frame, a', b', pz, g'. split; [exact Ea|split; [exact Eb|split; [exact Hb|exact Hg]]].
Defined.

(** A message is sent, its frame is reported sent, another is taken. *)
Definition send_ops : list wrap_op :=
  [Op_send wrap_env_ex send_param [0x25; 1; 0] 5 6; Op_send wrap_env_ex send_param [0x25; 2] 7 8;
   Op_sent wrap_env_ex TRANSMIT_COMPLETE_OK (Some 3) 20; Op_send wrap_env_ex send_param [0x25; 2] 9 10].

Lemma messages_answered_once_witness :
  let st := wrap_run send_ops (wrap_initial sync_a_node) in
  taken send_ops (wrap_initial sync_a_node) = [(5, 6); (9, 10)] /\ answered st ++ pending st = [(5, 6); (9, 10)].
Proof.
  assert (Ht : taken send_ops (wrap_initial sync_a_node) = [(5, 6); (9, 10)]) by (vm_compute; reflexivity). split; [exact Ht|].
  destruct (messages_answered_once send_ops (wrap_initial sync_a_node) eq_refl eq_refl eq_refl) as [Ha _]. rewrite <- Ht. symmetry. exact Ha.
Defined.

(** ** Where the code does not do what it means to *)

(** The context is set up anew while a message is under way: the caller is neither
    answered nor waits for anything; S2 is idle and takes the next message. *)
Theorem restart_forgets_caller :
  let ops := [Op_send wrap_env_ex send_param [0x25; 1; 0] 5 6; Op_init 0xC0FFEE02 []; Op_sent wrap_env_ex TRANSMIT_COMPLETE_OK None 20;
              Op_timeout wrap_env_ex] in
  let st := wrap_run ops (wrap_initial sync_a_node) in
  taken ops (wrap_initial sync_a_node) = [(5, 6)] /\ answered st = [] /\ s2_busy (s2_ctx st) = false.
Proof. vm_compute. split_and!; reflexivity. Qed.

(** A message opened under the temporary key of a key exchange that is not a
    command of S2 indexes the table of schemes past its end. *)
Theorem temporary_key_overruns_schemes W E src text len st : con_class_id src = 5 -> IS_LR_NODE (r_node src) = false ->
  len <> 0 -> rd text 0 <> S2Transport.COMMAND_CLASS_SECURITY_2 ->
  w_outs (absorb W (handle_plain_text E src text len (s2_ctx st)) st) = w_outs st ++ [W_scheme_map_overrun 5].
Proof.
  intros Hc Hlr Hl Ht. unfold handle_plain_text. rewrite (proj2 (Z.eqb_neq _ _) Hl), (proj2 (Z.eqb_neq _ _) Ht), Hlr. cbn [andb].
  unfold absorb. change (S2Transport.outs (s2_emit ?o ?s)) with (S2Transport.outs s ++ [o]). rewrite drop_app_length. cbn [fold_left s2_event].
  unfold S2_msg_received_event. by rewrite Hc.
Qed.

(** The search for a Get among the commands of a multi command runs on every
    frame: here over a frame that switches a lamp on, of three bytes, of which the
    last is taken for the number of commands. *)
Theorem multi_cmd_scan_leaves_frame :
  let is_get := fun c d => (c =? 0x25) && (d =? 2) in
  is_get_in_multi_cmd is_get [0x25; 1; 0xFF] = (false, 259) /\ fst (is_get_in_multi_cmd is_get ([0x25; 1; 0xFF] ++ [2; 0x25; 2])) = true.
Proof. vm_compute. split; reflexivity. Qed.
