(* ===== verification/Provisioning.v ===== *)
(** * The provisioning list (src/src/provisioning_list.c)

    The devices a user has allowed to join, by the key on their label (DSK), each
    with a boot mode, a status and a list of type-length-value records.  The list
    is a table of slots; every change writes the whole list to a file, and a
    restart reads it back.

    [pvs_list] is the table, [pvs_file] the contents of the file the list is
    stored in, if there is one.  Structures are written to the file as the bytes
    of their members on a 64 bit little endian machine, pointers included; only
    whether a pointer is NULL matters to the reader.  A [struct provision *] is
    the index of its slot.  Every call has an environment: whether malloc succeeds
    in it, and for the entries of a file each for itself ([pe_import]); whether the
    file can be opened for writing; the value pointers have. *)

From S2P Require Import Prelude.
Local Open Scope Z_scope.

Definition PROVISIONING_LIST_SIZE : nat := 1000.
Definition PROVISIONING_LIST_DSK_MAX_SIZE : Z := 16.
Definition PVS_STATUS_PENDING : Z := 0.
Definition PVS_STATUS_PASSIVE : Z := 2.
Definition PVS_BOOTMODE_S2 : Z := 0.
Definition PVS_BOOTMODE_SMART_START : Z := 1.
Definition PVS_BOOTMODE_LONG_RANGE_SMART_START : Z := 2.
Definition PVS_TLV_TYPE_ADV_JOIN : Z := 0x35.

(** ** Data *)

(** The member [next] is the order of the list. *)
Record pvs_tlv := mkTlv { tlv_type : Z; tlv_length : Z; tlv_value : list Z }.

Record provision := mkPvs { dsk : option (list Z); dsk_len : Z; pvs_status : Z; bootmode : Z; tlv_list : list pvs_tlv }.
#[export] Instance provision_eta : EtaRecord provision := fun p => mkPvs (dsk p) (dsk_len p) (pvs_status p) (bootmode p) (tlv_list p).

Definition null_pvs : provision := mkPvs None 0 0 0 [].

(** [wild]: a slot was filled from a structure that was not read completely. *)
Record pvs := mkList { pvs_list : list provision; pvs_file : option (list Z); wild : bool }.
#[export] Instance pvs_eta : EtaRecord pvs := fun s => mkList (pvs_list s) (pvs_file s) (wild s).

Record pvs_env := mkPvsEnv { pe_malloc : bool; pe_fopen : bool; pe_pointer : Z; pe_import : nat -> bool }.

Definition slot (st : pvs) (i : nat) : provision := default null_pvs (pvs_list st !! i).
Definition upd_slot (i : nat) (f : provision -> provision) (st : pvs) : pvs := st <| pvs_list := alter f i (pvs_list st) |>.
Definition find_slot (f : provision -> bool) (st : pvs) : option nat := fst <$> list_find (fun p => f p = true) (pvs_list st).

(** ** The file *)

(** [n] bytes, the least significant first. *)
Fixpoint le_bytes (n : nat) (z : Z) : list Z :=
  match n with O => [] | S n => Z.land z 0xFF :: le_bytes n (Z.shiftr z 8) end.
Fixpoint le_value (l : list Z) : Z := match l with [] => 0 | b :: l => b + 256 * le_value l end.

Definition pvs_store_hdr : list Z := [122; 103; 119; 112; 118; 115; 115; 116; 111; 114; 101; 118; 49; 46; 48].
Definition pvs_entry_hdr : list Z := [112; 118; 115; 32; 101; 110; 116; 114; 121; 32].
Definition digits3 (i : nat) : list Z := [48 + Z.of_nat i / 100 mod 10; 48 + Z.of_nat i / 10 mod 10; 48 + Z.of_nat i mod 10].

Definition pointer (E : pvs_env) (null : bool) : list Z := le_bytes 8 (if null then 0 else pe_pointer E).
Definition SIZEOF_PROVISION : nat := 32.
Definition SIZEOF_TLV : nat := 24.

Definition provision_bytes (E : pvs_env) (p : provision) : list Z :=
  pointer E (bool_decide (dsk p = None)) ++ le_bytes 1 (dsk_len p) ++ zeros 3 ++ le_bytes 4 (pvs_status p) ++ le_bytes 4 (bootmode p)
  ++ zeros 4 ++ pointer E (bool_decide (tlv_list p = [])).

Definition tlv_bytes (E : pvs_env) (last : bool) (t : pvs_tlv) : list Z :=
  pointer E last ++ le_bytes 1 (tlv_type t) ++ le_bytes 1 (tlv_length t) ++ zeros 6 ++ pointer E false ++ take (Z.to_nat (tlv_length t)) (tlv_value t).

(** fwrite of no bytes returns 0, which counts as an error. *)
Fixpoint tlvs_store (E : pvs_env) (tlvs : list pvs_tlv) : bool * list Z :=
  match tlvs with
  | [] => (true, [])
  | t :: tlvs =>
      let b := tlv_bytes E (bool_decide (tlvs = [])) t in
      if tlv_length t =? 0 then (false, b)
      else let '(ok, bs) := tlvs_store E tlvs in (ok, b ++ bs)
  end.

Definition pvs_list_dev_store (E : pvs_env) (p : provision) (i : nat) : bool * list Z :=
  let b := pvs_entry_hdr ++ digits3 i ++ provision_bytes E p ++ take (Z.to_nat (dsk_len p)) (default [] (dsk p)) in
  let '(ok, bs) := tlvs_store E (tlv_list p) in (ok, b ++ bs).

Fixpoint store_slots (E : pvs_env) (i : nat) (l : list provision) : list Z :=
  match l with
  | [] => []
  | p :: l =>
      if dsk_len p =? 0 then store_slots E (S i) l
      else let '(ok, b) := pvs_list_dev_store E p i in if ok then b ++ store_slots E (S i) l else b
  end.

Definition pvs_list_persist_in_file (E : pvs_env) (st : pvs) : pvs :=
  match pvs_file st with
  | None => st
  | Some _ => if pe_fopen E then st <| pvs_file := Some (pvs_store_hdr ++ store_slots E 0 (pvs_list st)) |> else st
  end.

(** ** Reading it back *)

(** Nothing if the stream ends first. *)
Definition fread (n : nat) (s : list Z) : option (list Z) * list Z :=
  if decide (n <= length s)%nat then (Some (take n s), drop n s) else (None, []).

Definition tlv_set_front (t : pvs_tlv) (l : list pvs_tlv) : list pvs_tlv := t :: l.

(** The records of an entry; each is put in front of those before.  [malloc]: there
    is memory for the entry. *)
Fixpoint import_tlvs (fuel : nat) (malloc : bool) (s : list Z) (acc : list pvs_tlv) : option (list pvs_tlv * list Z) :=
  match fuel with
  | O => None
  | S fuel =>
      let '(r, s) := fread SIZEOF_TLV s in
      match r with
      | None => None
      | Some b =>
          let len := rd b 9 in
          let '(v, s) := fread (Z.to_nat len) s in
          match v with
          | Some v =>
              if (len =? 0) || negb malloc then None
              else
                let acc := tlv_set_front (mkTlv (rd b 8) len v) acc in
                if le_value (take 8 b) =? 0 then Some (acc, s) else import_tlvs fuel malloc s acc
          | None => None
          end
      end
  end.

(** [Import_wild]: the slot is filled although not all was read.  Of a structure
    that is cut off only the pointer to its records, which was NULL before, is looked at. *)
Inductive dev_import := Import_error | Import_wild (s : list Z) | Imported (p : provision) (s : list Z).

Definition pvs_list_dev_import (malloc : bool) (s : list Z) : dev_import :=
  let '(txt, s) := fread 13 s in
  match txt with
  | None => Import_error
  | Some _ =>
      let rest := s in
      let '(r, s) := fread SIZEOF_PROVISION s in
      match r with
      | None => if existsb truth (drop 24 rest) then Import_error else Import_wild s
      | Some b =>
          let n := rd b 8 in
          if (n <? 4) || negb malloc then Import_error
          else
            let '(d, s) := fread (Z.to_nat n) s in
            match d with
            | None => if le_value (sub_buf b 24 8) =? 0 then Import_wild s else Import_error
            | Some d =>
                let p := mkPvs (Some d) n (le_value (sub_buf b 12 4)) (le_value (sub_buf b 16 4)) [] in
                if le_value (sub_buf b 24 8) =? 0 then Imported p s
                else match import_tlvs (S (length s)) malloc s [] with
                     | Some (tlvs, s) => Imported (p <| tlv_list := tlvs |>) s
                     | None => Import_error
                     end
            end
      end
  end.

(** Slots [i], [i + 1], ... are filled until an entry cannot be read. *)
Fixpoint import_slots (n i : nat) (E : pvs_env) (s : list Z) (st : pvs) : pvs :=
  match n with
  | O => st
  | S n =>
      match pvs_list_dev_import (pe_import E i) s with
      | Import_error => st
      | Import_wild s => import_slots n (S i) E s (st <| wild := true |>)
      | Imported p s => import_slots n (S i) E s (upd_slot i (fun _ => p) st)
      end
  end.

Definition pvs_list_import_file (E : pvs_env) (s : list Z) (st : pvs) : bool * pvs :=
  let '(txt, s) := fread (length pvs_store_hdr) s in
  if bool_decide (txt = Some pvs_store_hdr) then (true, import_slots PROVISIONING_LIST_SIZE 0 E s st) else (false, st).

(** *** Choosing the file *)

(** A file that is there, or one that is not and can be created or not. *)
Inductive file_status := Present (contents : list Z) | Missing (writeable : bool).
Inductive store_choice := Use_named | Use_default | No_store.

Definition pvs_list_store_find (f : file_status) : bool := match f with Present _ => true | Missing _ => false end.
(** fopen for writing creates the file, or empties it. *)
Definition pvs_list_store_writeable_test (f : file_status) : bool := match f with Present _ => true | Missing w => w end.

(** No name is [None]; with [protect] a file that is not a list is refused. *)
Definition pvs_list_store_setup_and_import_file (E : pvs_env) (f : option file_status) (protect : bool) (st : pvs) : bool * pvs :=
  match f with
  | None => (false, st)
  | Some (Present c) =>
      let '(ok, st) := pvs_list_import_file E c st in
      if negb ok && protect then (false, st) else (true, st <| pvs_file := Some c |>)
  | Some (Missing w) => if w then (true, st <| pvs_file := Some [] |>) else (false, st)
  end.

Definition pvs_list_store_setup_and_import (E : pvs_env) (named : option file_status) (dflt : file_status) (st : pvs) : store_choice * pvs :=
  let '(ok, st) := pvs_list_store_setup_and_import_file E named true st in
  if ok then (Use_named, st)
  else
    let '(ok, st) := pvs_list_store_setup_and_import_file E (Some dflt) false st in
    if ok then (Use_default, st) else (No_store, st <| pvs_file := None |>).

Definition empty_list : pvs := mkList (replicate PROVISIONING_LIST_SIZE null_pvs) None false.

(** [cfg] adds the entries of the configuration file at a first start. *)
Definition provisioning_list_init (E : pvs_env) (named : option file_status) (dflt : file_status) (cfg : pvs -> pvs) : store_choice * pvs :=
  let found := match named with Some f => pvs_list_store_find f | None => pvs_list_store_find dflt end in
  let '(choice, st) :=
    if found then pvs_list_store_setup_and_import E named dflt empty_list
    else
      let '(choice, file) :=
        if match named with Some f => pvs_list_store_writeable_test f | None => false end then (Use_named, Some [])
        else if pvs_list_store_writeable_test dflt then (Use_default, Some [])
        else (No_store, None) in
      (choice, cfg (empty_list <| pvs_file := file |>)) in
  (choice, pvs_list_persist_in_file E st).

(** ** Counting *)

Definition used (p : provision) : bool := truth (dsk_len p).
Definition provisioning_list_get_count (st : pvs) : Z := u16 (Z.of_nat (length (List.filter used (pvs_list st)))).
Definition pending (included : list Z -> bool) (p : provision) : bool :=
  used p && (pvs_status p =? PVS_STATUS_PENDING)
  && ((bootmode p =? PVS_BOOTMODE_SMART_START) || (bootmode p =? PVS_BOOTMODE_LONG_RANGE_SMART_START))
  && negb (included (default [] (dsk p))).
Definition provisioning_list_pending_count (included : list Z -> bool) (st : pvs) : Z :=
  u16 (Z.of_nat (length (List.filter (pending included) (pvs_list st)))).

(** ** Devices *)

Definition clear_slot (p : provision) : provision := if used p then p <| dsk := None |> <| dsk_len := 0 |> <| tlv_list := [] |> else p.
Definition provisioning_list_clear (E : pvs_env) (st : pvs) : pvs :=
  pvs_list_persist_in_file E (st <| pvs_list := map clear_slot (pvs_list st) |>).

(** memcmp of [n] bytes of a slot's key from [from] on. *)
Definition dsk_is (from : Z) (d : list Z) (p : provision) : bool :=
  match dsk p with Some x => bool_decide (sub_buf x from (Zlength d) = d) | None => false end.

Definition provisioning_list_dev_get (d : list Z) (st : pvs) : option nat :=
  if Zlength d <? 4 then None else find_slot (fun p => (dsk_len p =? Zlength d) && dsk_is 0 d p) st.

Definition provisioning_list_dev_get_homeid (homeid : list Z) (st : pvs) : option nat :=
  find_slot (fun p => match dsk p with
                      | Some x => (12 <=? dsk_len p) &&
                          bool_decide ([Z.lor (rd x 8) 0xC0; rd x 9; rd x 10; Z.land (rd x 11) 0xFE] = homeid)
                      | None => false
                      end) st.

Definition pvs_dev_get_idx (d : list Z) (start_idx : Z) (st : pvs) : option nat :=
  find_slot (fun p => (Zlength d + start_idx <=? dsk_len p) && dsk_is start_idx d p) st.

Definition provisioning_list_dev_match_challenge (challenge : list Z) (st : pvs) : option nat :=
  if Zlength challenge <=? 2 then None else pvs_dev_get_idx (drop 2 (take 16 challenge)) 2 st.

Definition pvs_dev_add (E : pvs_env) (d : list Z) (mode : Z) (st : pvs) : option nat * pvs :=
  match find_slot (fun p => negb (used p)) st with
  | None => (None, st)
  | Some i =>
      if pe_malloc E
      then (Some i, pvs_list_persist_in_file E (upd_slot i (fun _ => mkPvs (Some d) (Zlength d) PVS_STATUS_PENDING mode []) st))
      else (None, upd_slot i (fun p => p <| dsk := None |>) st)
  end.

Definition provisioning_list_dev_add (E : pvs_env) (d : list Z) (mode : Z) (st : pvs) : option nat * pvs :=
  if Zlength d <? 4 then (None, st)
  else match provisioning_list_dev_get d st with
       | Some _ => (None, st)
       | None => pvs_dev_add E d mode st
       end.

Definition provisioning_list_bootmode_set (E : pvs_env) (i : nat) (mode : Z) (st : pvs) : pvs :=
  pvs_list_persist_in_file E (upd_slot i (fun p => p <| bootmode := mode |>) st).

Definition provisioning_list_status_set (E : pvs_env) (i : nat) (status : Z) (st : pvs) : pvs :=
  pvs_list_persist_in_file E (upd_slot i (fun p => p <| pvs_status := status |>) st).

Definition provisioning_list_dev_set (E : pvs_env) (d : list Z) (mode : Z) (st : pvs) : option nat * pvs :=
  if Zlength d <? 4 then (None, st)
  else match provisioning_list_dev_get d st with
       | Some i => (Some i, provisioning_list_bootmode_set E i mode st)
       | None => pvs_dev_add E d mode st
       end.

(** The pointer to the freed key is left as it is. *)
Definition provisioning_list_dev_remove (E : pvs_env) (d : list Z) (st : pvs) : bool * pvs :=
  if Zlength d <? 4 then (false, st)
  else match find_slot (fun p => (dsk_len p =? Zlength d) && dsk_is 0 d p) st with
       | Some i => (true, pvs_list_persist_in_file E (upd_slot i (fun p => p <| dsk_len := 0 |> <| tlv_list := [] |>) st))
       | None => (false, st)
       end.

(** ** Records of a device *)

Definition pvs_tlv_get (l : list pvs_tlv) (type : Z) : option pvs_tlv := List.find (fun t => tlv_type t =? type) l.

Definition provisioning_list_tlv_get (i : nat) (type : Z) (st : pvs) : option pvs_tlv :=
  if dsk_len (slot st i) =? 0 then None else pvs_tlv_get (tlv_list (slot st i)) type.
Definition provisioning_list_tlv_dsk_get (d : list Z) (type : Z) (st : pvs) : option pvs_tlv :=
  match provisioning_list_dev_get d st with Some i => pvs_tlv_get (tlv_list (slot st i)) type | None => None end.

(** The first record of the type is changed in place, a new one goes to the front. *)
Fixpoint tlv_replace (type : Z) (val : list Z) (l : list pvs_tlv) : list pvs_tlv :=
  match l with
  | [] => []
  | t :: l => if tlv_type t =? type then mkTlv type (Zlength val) val :: l else t :: tlv_replace type val l
  end.
Definition pvs_tlv_set (type : Z) (val : list Z) (l : list pvs_tlv) : list pvs_tlv :=
  match pvs_tlv_get l type with
  | Some _ => tlv_replace type val l
  | None => tlv_set_front (mkTlv type (Zlength val) val) l
  end.
Definition provisioning_list_tlv_set (E : pvs_env) (i : nat) (type : Z) (val : list Z) (st : pvs) : bool * pvs :=
  if (0 <? dsk_len (slot st i)) && (0 <? Zlength val) && pe_malloc E
  then (true, pvs_list_persist_in_file E (upd_slot i (fun p => p <| tlv_list := pvs_tlv_set type val (tlv_list p) |>) st))
  else (false, st).

Fixpoint tlv_unlink (type : Z) (l : list pvs_tlv) : list pvs_tlv :=
  match l with [] => [] | t :: l => if tlv_type t =? type then l else t :: tlv_unlink type l end.
Definition provisioning_list_tlv_remove (E : pvs_env) (i : nat) (type : Z) (st : pvs) : bool * pvs :=
  if dsk_len (slot st i) =? 0 then (false, st)
  else match pvs_tlv_get (tlv_list (slot st i)) type with
       | Some _ => (true, pvs_list_persist_in_file E (upd_slot i (fun p => p <| tlv_list := tlv_unlink type (tlv_list p) |>) st))
       | None => (false, st)
       end.

Definition provisioning_list_tlv_crt_flag (type : Z) : Z := if type =? PVS_TLV_TYPE_ADV_JOIN then 1 else 0.

(** ** Iteration

    An iterator holds the keys of all entries at the time it was made, as far as
    they fit its array; there is none without memory. *)

Record provisioning_list_iter := mkIter { it_next : Z; it_entries : list (list Z) }.
#[export] Instance iter_eta : EtaRecord provisioning_list_iter := fun s => mkIter (it_next s) (it_entries s).
Definition it_cnt (it : provisioning_list_iter) : Z := Zlength (it_entries it).

Definition iterable (p : provision) : option (list Z) :=
  match dsk p with
  | Some d => if (4 <=? dsk_len p) && (dsk_len p <=? PROVISIONING_LIST_DSK_MAX_SIZE) then Some (take (Z.to_nat (dsk_len p)) d) else None
  | None => None
  end.
Definition provisioning_list_iterator_get (E : pvs_env) (st : pvs) : option provisioning_list_iter :=
  if pe_malloc E then Some (mkIter 0 (omap iterable (pvs_list st))) else None.

(** [iter] is not NULL where these are called. *)
Definition provisioning_list_iter_get_next (it : provisioning_list_iter) (st : pvs) : option nat * provisioning_list_iter :=
  if it_cnt it <=? it_next it then (None, it)
  else (provisioning_list_dev_get (default [] (it_entries it !! Z.to_nat (it_next it))) st, it <| it_next := u16 (it_next it + 1) |>).
Definition provisioning_list_iter_get_index (it : provisioning_list_iter) (idx : Z) (st : pvs) : option nat :=
  if it_cnt it <=? idx then None else provisioning_list_dev_get (default [] (it_entries it !! Z.to_nat idx)) st.
