(* ===== verification/ProvisioningRun.v ===== *)
(** * The provisioning list as a map from keys to entries

    The table of slots implements a finite map, its file is always the image of
    the table, and a restart recovers the map. *)

From S2P Require Import Prelude Provisioning.
#[local] Open Scope Z_scope.

(** ** Specification *)

Record entry := mkEntry { e_status : Z; e_mode : Z; e_tlvs : gmap Z (list Z) }.
#[export] Instance entry_eta : EtaRecord entry := fun e => mkEntry (e_status e) (e_mode e) (e_tlvs e).
Abbreviation book_t := (gmap (list Z) entry).

Inductive pvs_op :=
| P_add (d : list Z) (mode : Z)
| P_set (d : list Z) (mode : Z)
| P_remove (d : list Z)
| P_clear
| P_status (d : list Z) (status : Z)
| P_mode (d : list Z) (mode : Z)
| P_tlv_set (d : list Z) (type : Z) (val : list Z)
| P_tlv_remove (d : list Z) (type : Z).

(** A new device, if there is memory and room. *)
Definition spec_new (malloc : bool) (d : list Z) (mode : Z) (m : book_t) : book_t :=
  if malloc && bool_decide (size m < PROVISIONING_LIST_SIZE)%nat then <[d := mkEntry PVS_STATUS_PENDING mode ∅]> m else m.
Definition spec_step (malloc : bool) (op : pvs_op) (m : book_t) : book_t :=
  match op with
  | P_add d mode => if Zlength d <? 4 then m else match m !! d with Some _ => m | None => spec_new malloc d mode m end
  | P_set d mode =>
      if Zlength d <? 4 then m
      else match m !! d with Some e => <[d := e <| e_mode := mode |>]> m | None => spec_new malloc d mode m end
  | P_remove d => delete d m
  | P_clear => ∅
  | P_status d s => alter (fun e => e <| e_status := s |>) d m
  | P_mode d mode => alter (fun e => e <| e_mode := mode |>) d m
  | P_tlv_set d type val => if malloc && (0 <? Zlength val) then alter (fun e => e <| e_tlvs := <[type := val]> (e_tlvs e) |>) d m else m
  | P_tlv_remove d type => alter (fun e => e <| e_tlvs := delete type (e_tlvs e) |>) d m
  end.

(** ** Implementation *)

(** Clients look a device up and pass its slot on. *)
Definition at_device (d : list Z) (st : pvs) (f : nat -> pvs) : pvs := match provisioning_list_dev_get d st with Some i => f i | None => st end.
Definition pvs_step (E : pvs_env) (op : pvs_op) (st : pvs) : pvs :=
  match op with
  | P_add d mode => snd (provisioning_list_dev_add E d mode st)
  | P_set d mode => snd (provisioning_list_dev_set E d mode st)
  | P_remove d => snd (provisioning_list_dev_remove E d st)
  | P_clear => provisioning_list_clear E st
  | P_status d s => at_device d st (fun i => provisioning_list_status_set E i s st)
  | P_mode d mode => at_device d st (fun i => provisioning_list_bootmode_set E i mode st)
  | P_tlv_set d type val => at_device d st (fun i => snd (provisioning_list_tlv_set E i type val st))
  | P_tlv_remove d type => at_device d st (fun i => snd (provisioning_list_tlv_remove E i type st))
  end.

(** Arguments are bytes of C types. *)
Definition u32_ok (z : Z) : Prop := 0 <= z < 2 ^ 32.
Definition key_ok (d : list Z) : Prop := bytes d /\ Zlength d < 256.
Definition op_ok (op : pvs_op) : Prop :=
  match op with
  | P_add d mode | P_set d mode | P_mode d mode => key_ok d /\ u32_ok mode
  | P_remove d => key_ok d
  | P_clear => True
  | P_status d s => key_ok d /\ u32_ok s
  | P_tlv_set d type val => key_ok d /\ byte type /\ key_ok val
  | P_tlv_remove d type => key_ok d
  end.

(** ** Well-formed lists *)

Definition tlv_wf (t : pvs_tlv) : Prop := byte (tlv_type t) /\ 1 <= tlv_length t < 256 /\ Zlength (tlv_value t) = tlv_length t /\ bytes (tlv_value t).
Record slot_used (p : provision) (d : list Z) : Prop := mkUsed {
  su_dsk : dsk p = Some d;
  su_len : Zlength d = dsk_len p /\ 4 <= dsk_len p < 256;
  su_bytes : bytes d;
  su_members : u32_ok (pvs_status p) /\ u32_ok (bootmode p);
  su_tlvs : Forall tlv_wf (tlv_list p);
  su_types : NoDup (map tlv_type (tlv_list p))
}.
Definition slot_wf (p : provision) : Prop := (dsk_len p = 0 /\ tlv_list p = []) \/ exists d, slot_used p d.

Definition key (p : provision) : option (list Z) := if used p then dsk p else None.
Definition unique_keys (l : list provision) : Prop :=
  forall i j p q d, l !! i = Some p -> l !! j = Some q -> key p = Some d -> key q = Some d -> i = j.

Record list_wf (l : list provision) : Prop := mkWf {
  wf_size : length l = PROVISIONING_LIST_SIZE;
  wf_slots : Forall slot_wf l;
  wf_unique : unique_keys l
}.

(** ** The map *)

Definition tlv_map (l : list pvs_tlv) : gmap Z (list Z) := list_to_map (map (fun t => (tlv_type t, tlv_value t)) l).
Definition entry_of (p : provision) : entry := mkEntry (pvs_status p) (bootmode p) (tlv_map (tlv_list p)).
Definition assoc (p : provision) : option (list Z * entry) := (fun d => (d, entry_of p)) <$> key p.
Definition book (l : list provision) : book_t := list_to_map (omap assoc l).

Lemma assoc_keys l : (omap assoc l).*1 = omap key l.
Proof.
  induction l as [|p l IH]; [done|]. cbn. unfold assoc at 1. destruct (key p); cbn; [f_equal|]; exact IH.
Qed.

Lemma unique_tail p l : unique_keys (p :: l) -> unique_keys l.
Proof. intros Hu i j a b d Hi Hj Ha Hb. specialize (Hu (S i) (S j) a b d Hi Hj Ha Hb). lia. Qed.

Lemma unique_nodup l : unique_keys l -> NoDup (omap key l).
Proof.
  induction l as [|p l IH]; intros Hu; [constructor|]. specialize (IH (unique_tail _ _ Hu)). cbn. destruct (key p) as [d|] eqn:Hp; [|done].
  constructor; [|done]. intros (q & Hq & Hk)%list_elem_of_omap. apply list_elem_of_lookup in Hq as [j Hj].
  pose proof (Hu 0%nat (S j) p q d eq_refl Hj Hp Hk). lia.
Qed.

Lemma book_lookup l d e : unique_keys l -> book l !! d = Some e <-> exists i p, l !! i = Some p /\ key p = Some d /\ entry_of p = e.
Proof.
  intros Hu. unfold book. rewrite <- elem_of_list_to_map by (rewrite assoc_keys; by apply unique_nodup). rewrite list_elem_of_omap. split.
  - intros (p & Hp & Ha). apply list_elem_of_lookup in Hp as [i Hi]. exists i, p. unfold assoc in Ha. destruct (key p); [|done]. cbn in Ha. by simplify_eq.
  - intros (i & p & Hi & Hk & He). exists p. split; [by eapply list_elem_of_lookup_2|]. unfold assoc. rewrite Hk. cbn. by rewrite He.
Qed.

Lemma book_none l d : unique_keys l -> book l !! d = None <-> forall i p, l !! i = Some p -> key p <> Some d.
Proof.
  intros Hu. rewrite eq_None_not_Some. split.
  - intros Hn i p Hi Hk. apply Hn. exists (entry_of p). apply book_lookup; [done|]. by exists i, p.
  - intros Hn [e (i & p & Hi & Hk & _)%book_lookup]; [|done]. by apply (Hn i p).
Qed.

Lemma length_omap_keys l : Forall slot_wf l -> length (omap key l) = length (List.filter used l).
Proof.
  induction 1 as [|p l Hp _ IH]; [done|]. cbn. unfold key at 1. destruct Hp as [[H0 _]|[d Hd]].
  - unfold used. rewrite H0. exact IH.
  - assert (Hu : used p = true) by (unfold used, truth; destruct (su_len _ _ Hd); apply negb_true_iff, Z.eqb_neq; lia).
    rewrite Hu, (su_dsk _ _ Hd). cbn. by f_equal.
Qed.

Lemma book_size l : list_wf l -> size (book l) = length (List.filter used l).
Proof.
  intros [_ Hs Hu]. unfold book. rewrite map_size_list_to_map by (rewrite assoc_keys; by apply unique_nodup).
  rewrite <- (length_fmap fst), assoc_keys. by apply length_omap_keys.
Qed.

(** ** Updates of a slot *)

Lemma key_used p d : slot_wf p -> key p = Some d -> slot_used p d.
Proof.
  unfold key, used, truth. intros [[H0 _]|[d' Hd]] Hk; [by rewrite H0 in Hk|]. destruct (negb _); [|done].
  rewrite (su_dsk _ _ Hd) in Hk. by simplify_eq.
Qed.

Lemma used_key p d : slot_used p d -> key p = Some d.
Proof.
  intros Hd. unfold key, used, truth. destruct (su_len _ _ Hd) as [_ ?]. rewrite (proj2 (Z.eqb_neq _ _)) by lia. apply (su_dsk _ _ Hd).
Qed.

Definition put (k : option (list Z)) (e : entry) (m : book_t) : book_t := match k with Some d => <[d := e]> m | None => m end.
Definition del (k : option (list Z)) (m : book_t) : book_t := match k with Some d => delete d m | None => m end.

(** A slot takes no key another slot has. *)
Definition free_for (l : list provision) (p p' : provision) : Prop := forall d, key p' = Some d -> key p = Some d \/ book l !! d = None.

Lemma unique_upd l i p p' : unique_keys l -> l !! i = Some p -> free_for l p p' -> unique_keys (<[i := p']> l).
Proof.
  intros Hu Hi Hf. assert (Hlt : (i < length l)%nat) by (by eapply lookup_lt_Some).
  assert (Hother : forall j q d, <[i := p']> l !! j = Some q -> key q = Some d -> j <> i -> key p' = Some d -> False).
  { intros j q d Hj Hq Hne Hp'. rewrite list_lookup_insert_ne in Hj by done. destruct (Hf d Hp') as [Hk|Hk].
    - apply Hne. by apply (Hu j i q p d).
    - rewrite book_none in Hk by done. by apply (Hk j q). }
  intros j k a b d Hj Hk Ha Hb. destruct (decide (j = i)) as [->|Hji], (decide (k = i)) as [->|Hki]; [done| | |].
  - rewrite list_lookup_insert_eq in Hj by done. simplify_eq. by destruct (Hother k b d Hk Hb Hki Ha).
  - rewrite list_lookup_insert_eq in Hk by done. simplify_eq. by destruct (Hother j a d Hj Ha Hji Hb).
  - rewrite list_lookup_insert_ne in Hj, Hk by done. by apply (Hu j k a b d).
Qed.

Lemma book_upd l i p p' : unique_keys l -> l !! i = Some p -> free_for l p p' ->
  book (<[i := p']> l) = put (key p') (entry_of p') (del (key p) (book l)).
Proof.
  intros Hu Hi Hf. pose proof (unique_upd l i p p' Hu Hi Hf) as Hu'. assert (Hlt : (i < length l)%nat) by (by eapply lookup_lt_Some).
  apply map_eq. intros d. apply option_eq. intros e. rewrite book_lookup by done.
  assert (Hdel : forall d, key p' <> Some d -> put (key p') (entry_of p') (del (key p) (book l)) !! d = del (key p) (book l) !! d).
  { intros d' Hd'. unfold put. destruct (key p') as [d0|]; [|done]. rewrite lookup_insert_ne; [done|]. intros ->. done. }
  assert (Hbook : del (key p) (book l) !! d = Some e <-> exists j q, l !! j = Some q /\ j <> i /\ key q = Some d /\ entry_of q = e).
  { unfold del. destruct (key p) as [d0|] eqn:Hp.
    - rewrite lookup_delete_Some, book_lookup by done. split.
      + intros (Hne & j & q & Hj & Hk & He). exists j, q. split_and!; try done. intros ->. by simplify_eq.
      + intros (j & q & Hj & Hne & Hk & He). split; [|by exists j, q]. intros ->. apply Hne. by apply (Hu j i q p d).
    - rewrite book_lookup by done. split.
      + intros (j & q & Hj & Hk & He). exists j, q. split_and!; try done. intros ->. by simplify_eq.
      + intros (j & q & Hj & Hne & Hk & He). by exists j, q. }
  destruct (decide (key p' = Some d)) as [Hd|Hd].
  - unfold put. rewrite Hd, lookup_insert_eq. split.
    + intros (j & q & Hj & Hk & He). destruct (decide (j = i)) as [->|Hne]; [rewrite list_lookup_insert_eq in Hj by done; by simplify_eq|].
      exfalso. apply Hne. apply (Hu' j i q p' d); try done. by rewrite list_lookup_insert_eq.
    + intros [= <-]. exists i, p'. by rewrite list_lookup_insert_eq.
  - rewrite Hdel, Hbook by done. split.
    + intros (j & q & Hj & Hk & He). destruct (decide (j = i)) as [->|Hne]; [rewrite list_lookup_insert_eq in Hj by done; by simplify_eq|].
      rewrite list_lookup_insert_ne in Hj by done. by exists j, q.
    + intros (j & q & Hj & Hne & Hk & He). exists j, q. by rewrite list_lookup_insert_ne.
Qed.

Lemma wf_upd l i p p' : list_wf l -> l !! i = Some p -> free_for l p p' -> slot_wf p' -> list_wf (<[i := p']> l).
Proof.
  intros [Hl Hs Hu] Hi Hf Hp. constructor; [by rewrite length_insert| |by eapply unique_upd]. by apply Forall_insert.
Qed.

(** ** Lookups *)

Lemma find_slot_Some f st i : find_slot f st = Some i -> exists p, pvs_list st !! i = Some p /\ f p = true.
Proof. unfold find_slot. intros ([j p] & Hf & ->)%fmap_Some. apply list_find_Some in Hf as (Hi & Hp & _). by exists p. Qed.

Lemma find_slot_None f st : find_slot f st = None -> Forall (fun p => f p = false) (pvs_list st).
Proof.
  unfold find_slot. intros Hf%fmap_None. apply list_find_None in Hf. eapply Forall_impl; [exact Hf|]. cbn. intros p. by destruct (f p).
Qed.

Lemma slot_lookup st i p : pvs_list st !! i = Some p -> slot st i = p.
Proof. unfold slot. by intros ->. Qed.

Lemma matches_key p d : slot_wf p -> 4 <= Zlength d -> (dsk_len p =? Zlength d) && dsk_is 0 d p = true <-> key p = Some d.
Proof.
  intros Hp Hd. split.
  - intros [Hl Hm]%andb_true_iff. apply Z.eqb_eq in Hl. destruct Hp as [[H0 _]|[d' Hd']]; [lia|].
    rewrite (used_key _ _ Hd'). unfold dsk_is in Hm. rewrite (su_dsk _ _ Hd') in Hm. apply bool_decide_eq_true in Hm. f_equal.
    destruct (su_len _ _ Hd') as [Hlen _]. rewrite <- Hm. unfold sub_buf. rewrite drop_0, take_ge; [done|]. unfold Zlength in *. lia.
  - intros Hk. pose proof (key_used _ _ Hp Hk) as Hu. destruct (su_len _ _ Hu) as [Hlen _]. rewrite <- Hlen, Z.eqb_refl. unfold dsk_is.
    rewrite (su_dsk _ _ Hu). cbn [andb]. apply bool_decide_eq_true. unfold sub_buf. rewrite drop_0, take_ge; [done|]. unfold Zlength. lia.
Qed.

(** The slot of a key is found exactly when the key is in the map. *)
Lemma dev_get_spec d st : list_wf (pvs_list st) ->
  match provisioning_list_dev_get d st with
  | Some i => exists p, pvs_list st !! i = Some p /\ slot_used p d /\ book (pvs_list st) !! d = Some (entry_of p)
  | None => book (pvs_list st) !! d = None
  end.
Proof.
  intros [Hl Hs Hu]. unfold provisioning_list_dev_get. destruct (Z.ltb_spec (Zlength d) 4) as [Hd|Hd].
  { apply book_none; [done|]. intros i p Hi Hk. assert (Hp : slot_wf p) by (by eapply Forall_lookup_1).
    destruct (su_len _ _ (key_used _ _ Hp Hk)). lia. }
  destruct (find_slot _ st) as [i|] eqn:Hf.
  - apply find_slot_Some in Hf as (p & Hi & Hm). assert (Hp : slot_wf p) by (by eapply Forall_lookup_1). apply matches_key in Hm; [|done|done].
    exists p. split_and!; [done|by apply key_used|]. apply book_lookup; [done|]. by exists i, p.
  - apply find_slot_None in Hf. apply book_none; [done|]. intros i p Hi Hk. assert (Hp : slot_wf p) by (by eapply Forall_lookup_1).
    apply (matches_key p d Hp Hd) in Hk. rewrite Forall_lookup in Hf. by rewrite (Hf i p Hi) in Hk.
Qed.

(** ** Records *)

Lemma tlv_set_types t v l : map tlv_type (pvs_tlv_set t v l) = if decide (t ∈ map tlv_type l) then map tlv_type l else t :: map tlv_type l.
Proof.
  unfold pvs_tlv_set. destruct (pvs_tlv_get l t) as [x|] eqn:Hg.
  - apply find_some in Hg as [Hin Ht]. apply Z.eqb_eq in Ht. rewrite decide_True by (rewrite list_elem_of_In, in_map_iff; by exists x).
    induction l as [|y l IH]; [done|]. cbn. destruct (Z.eqb_spec (tlv_type y) t) as [<-|Hne]; [done|]. cbn. f_equal. apply IH. by destruct Hin as [->|].
  - rewrite decide_False; [done|]. rewrite list_elem_of_In, in_map_iff. intros (x & Hx & Hin). apply (find_none _ _ Hg) in Hin. lia.
Qed.

Lemma tlv_set_map t v l : tlv_map (pvs_tlv_set t v l) = <[t := v]> (tlv_map l).
Proof.
  unfold pvs_tlv_set. destruct (pvs_tlv_get l t) as [x|] eqn:Hg; [|done]. clear -Hg. revert x Hg. induction l as [|y l IH]; [done|]. intros x.
  cbn. unfold tlv_map in *. destruct (Z.eqb_spec (tlv_type y) t) as [<-|Hne]; cbn.
  - intros _. by rewrite insert_insert_eq.
  - intros Hg. rewrite (IH x Hg), insert_insert_ne by done. done.
Qed.

Lemma tlv_set_wf t v l : byte t -> key_ok v -> 0 < Zlength v -> Forall tlv_wf l -> Forall tlv_wf (pvs_tlv_set t v l).
Proof.
  intros Ht [Hv Hlen] H0 Hl. assert (Hn : tlv_wf (mkTlv t (Zlength v) v)) by (split_and!; cbn; [apply Ht..|lia|lia|done|done]).
  unfold pvs_tlv_set. destruct (pvs_tlv_get l t); [|by constructor]. induction Hl as [|y l Hy Hl IH]; cbn; [constructor|].
  destruct (_ =? _); by constructor.
Qed.

Lemma tlv_unlink_sub t l : sublist (tlv_unlink t l) l.
Proof. induction l as [|y l IH]; cbn; [constructor|]. destruct (_ =? _); [by apply sublist_cons|by apply sublist_skip]. Qed.

Lemma tlv_unlink_types t l : sublist (map tlv_type (tlv_unlink t l)) (map tlv_type l).
Proof. induction l as [|y l IH]; cbn; [constructor|]. destruct (_ =? _); [by apply sublist_cons|by apply sublist_skip]. Qed.

Lemma tlv_map_fresh t l : ~ t ∈ map tlv_type l -> tlv_map l !! t = None.
Proof. intros Hn. unfold tlv_map. apply not_elem_of_list_to_map. rewrite <- list_fmap_compose. exact Hn. Qed.

Lemma tlv_unlink_map t l : NoDup (map tlv_type l) -> tlv_map (tlv_unlink t l) = delete t (tlv_map l).
Proof.
  induction l as [|y l IH]; intros Hn; cbn; [by rewrite delete_empty|]. cbn in Hn. apply NoDup_cons in Hn as [Hy Hn].
  destruct (Z.eqb_spec (tlv_type y) t) as [<-|Hne].
  - unfold tlv_map; cbn. rewrite delete_insert_eq. symmetry. apply delete_id. by apply tlv_map_fresh.
  - unfold tlv_map in *; cbn. by rewrite delete_insert_ne, IH by done.
Qed.

Lemma tlv_map_reverse l : NoDup (map tlv_type l) -> tlv_map (reverse l) = tlv_map l.
Proof.
  intros Hn. unfold tlv_map. apply list_to_map_proper.
  - rewrite <- list_fmap_compose. change (NoDup (map tlv_type (reverse l))). rewrite <- (reverse_Permutation l) in Hn. exact Hn.
  - by rewrite reverse_Permutation.
Qed.

(** ** Every operation implements its specification *)

Lemma persist_list E st : pvs_list (pvs_list_persist_in_file E st) = pvs_list st.
Proof. unfold pvs_list_persist_in_file. by destruct (pvs_file st), (pe_fopen E). Qed.

Abbreviation implements st' m := (list_wf (pvs_list st') /\ book (pvs_list st') = m).

Lemma upd_implements st i p f : list_wf (pvs_list st) -> pvs_list st !! i = Some p -> free_for (pvs_list st) p (f p) -> slot_wf (f p) ->
  implements (upd_slot i f st) (put (key (f p)) (entry_of (f p)) (del (key p) (book (pvs_list st)))).
Proof.
  intros Hl Hi Hf Hp. unfold upd_slot; cbn. rewrite (list_alter_at f _ i p Hi). split; [by eapply wf_upd|]. apply book_upd; [apply Hl|done|done].
Qed.

(** A change of the members of an entry. *)
Lemma change_implements E st i p d f g : list_wf (pvs_list st) -> pvs_list st !! i = Some p -> slot_used p d -> book (pvs_list st) !! d = Some (entry_of p) ->
  slot_used (f p) d -> entry_of (f p) = g (entry_of p) ->
  implements (pvs_list_persist_in_file E (upd_slot i f st)) (alter g d (book (pvs_list st))).
Proof.
  intros Hl Hi Hu Hb Hf He. rewrite persist_list. pose proof (used_key _ _ Hu) as Hk. pose proof (used_key _ _ Hf) as Hk'.
  destruct (upd_implements st i p f Hl Hi) as [H1 H2].
  - intros d'. rewrite Hk, Hk'. auto.
  - right. by exists d.
  - split; [done|]. rewrite H2, Hk, Hk', He. cbn. rewrite insert_delete_eq. apply map_eq. intros d'. destruct (decide (d' = d)) as [->|Hne].
    + by rewrite lookup_insert_eq, lookup_alter_eq, Hb.
    + by rewrite lookup_insert_ne, lookup_alter_ne by done.
Qed.

Lemma alter_absent (g : entry -> entry) (d : list Z) (m : book_t) : m !! d = None -> alter g d m = m.
Proof.
  intros Hm. apply map_eq. intros d'. destruct (decide (d' = d)) as [->|Hne]; [by rewrite lookup_alter_eq, Hm|by rewrite lookup_alter_ne].
Qed.

(** Operations on the slot of a device change its entry, and only if there is one. *)
Lemma at_device_implements d st f g : list_wf (pvs_list st) ->
  (forall i p, pvs_list st !! i = Some p -> slot_used p d -> book (pvs_list st) !! d = Some (entry_of p) -> implements (f i) (alter g d (book (pvs_list st)))) ->
  implements (at_device d st f) (alter g d (book (pvs_list st))).
Proof.
  intros Hl Hf. unfold at_device. pose proof (dev_get_spec d st Hl) as Hg. destruct (provisioning_list_dev_get d st) as [i|].
  - destruct Hg as (p & Hi & Hu & Hb). by apply (Hf i p).
  - by rewrite alter_absent.
Qed.

Lemma empty_slot_book l i p : list_wf l -> l !! i = Some p -> used p = false -> (size (book l) < PROVISIONING_LIST_SIZE)%nat.
Proof.
  intros Hl Hi Hp. rewrite (book_size l Hl), <- (wf_size l Hl). clear Hl. revert i Hi. induction l as [|q l IH]; intros [|i] Hi; cbn in *; simplify_eq.
  - rewrite Hp. pose proof (List.filter_length_le used l). lia.
  - specialize (IH i Hi). destruct (used q); cbn; lia.
Qed.

Lemma full_book l : list_wf l -> Forall (fun p => negb (used p) = false) l -> ~ (size (book l) < PROVISIONING_LIST_SIZE)%nat.
Proof.
  intros Hl Hf. rewrite (book_size l Hl), <- (wf_size l Hl). clear Hl. induction Hf as [|p l Hp _ IH]; cbn; [lia|].
  apply negb_false_iff in Hp. rewrite Hp. cbn. lia.
Qed.

Lemma add_implements E st d mode : list_wf (pvs_list st) -> key_ok d -> u32_ok mode -> 4 <= Zlength d -> book (pvs_list st) !! d = None ->
  implements (snd (pvs_dev_add E d mode st)) (spec_new (pe_malloc E) d mode (book (pvs_list st))).
Proof.
  intros Hl [Hb Hlen] Hm H4 Hn. unfold pvs_dev_add, spec_new. destruct (find_slot _ st) as [i|] eqn:Hf.
  - apply find_slot_Some in Hf as (p & Hi & Hu). apply negb_true_iff in Hu. rewrite bool_decide_true by (by eapply empty_slot_book).
    assert (Hk : key p = None) by (unfold key; by rewrite Hu).
    destruct (pe_malloc E); cbn [snd andb].
    + rewrite persist_list. set (p' := mkPvs (Some d) (Zlength d) PVS_STATUS_PENDING mode []).
      assert (Hu' : slot_used p' d) by (constructor; cbn; try done; try constructor; try done; lia).
      destruct (upd_implements st i p (fun _ => p') Hl Hi) as [H1 H2].
      * intros d'. rewrite (used_key _ _ Hu'). intros [= <-]. auto.
      * right. by exists d.
      * split; [done|]. rewrite H2, Hk, (used_key _ _ Hu'). done.
    + assert (Hk' : key (p <| dsk := None |>) = None) by (unfold key; by destruct (used _)).
      destruct (upd_implements st i p (fun p => p <| dsk := None |>) Hl Hi) as [H1 H2].
      * intros d'. by rewrite Hk'.
      * left. assert (Hw : slot_wf p) by (eapply Forall_lookup_1; [apply Hl|done]). destruct Hw as [Hw|[d' Hd']]; [done|].
        by rewrite (used_key _ _ Hd') in Hk.
      * split; [done|]. rewrite H2, Hk. unfold put. by rewrite Hk'.
  - apply find_slot_None in Hf. cbn. rewrite bool_decide_false by (by apply full_book). by rewrite andb_false_r.
Qed.

Lemma remove_implements E st d : list_wf (pvs_list st) -> implements (snd (provisioning_list_dev_remove E d st)) (delete d (book (pvs_list st))).
Proof.
  intros Hl. pose proof (dev_get_spec d st Hl) as Hg. unfold provisioning_list_dev_remove, provisioning_list_dev_get in *.
  destruct (_ <? 4); [by rewrite delete_id|]. destruct (find_slot _ st) as [i|]; [|by rewrite delete_id]. destruct Hg as (p & Hi & Hu & Hb).
  cbn [snd]. rewrite persist_list. destruct (upd_implements st i p (fun p => p <| dsk_len := 0 |> <| tlv_list := [] |>) Hl Hi) as [H1 H2].
  - done.
  - by left.
  - split; [done|]. rewrite H2, (used_key _ _ Hu). done.
Qed.

Lemma clear_implements E st : list_wf (pvs_list st) -> implements (provisioning_list_clear E st) (∅ : book_t).
Proof.
  intros Hl. unfold provisioning_list_clear. rewrite persist_list. cbn.
  assert (Hk : forall p, key (clear_slot p) = None) by (intros p; unfold key, clear_slot; destruct (used p) eqn:Hp; cbn; by rewrite ?Hp).
  split.
  - destruct Hl as [Hl Hs Hu]. constructor.
    + by rewrite length_map.
    + apply Forall_map. eapply Forall_impl; [exact Hs|]. intros p Hp. unfold clear_slot. destruct (used p) eqn:Hq; [by left|done].
    + intros i j p q d Hi _ Hp _. apply list_lookup_fmap_Some in Hi as (x & -> & _). by rewrite Hk in Hp.
  - clear Hl. unfold book. replace (omap assoc _) with (@nil (list Z * entry)); [done|]. induction (pvs_list st) as [|p l IH]; [done|].
    cbn. unfold assoc at 1. rewrite Hk. exact IH.
Qed.

Lemma used_change p d s m t : slot_used p d -> u32_ok s -> u32_ok m -> Forall tlv_wf t -> NoDup (map tlv_type t) ->
  slot_used (mkPvs (dsk p) (dsk_len p) s m t) d.
Proof. intros [] Hs Hm Ht Hn. by constructor. Qed.

Lemma entry_of_tlvs p l : entry_of (p <| tlv_list := l |>) = entry_of p <| e_tlvs := tlv_map l |>.
Proof. done. Qed.

Lemma step_implements E op st : list_wf (pvs_list st) -> op_ok op ->
  implements (pvs_step E op st) (spec_step (pe_malloc E) op (book (pvs_list st))).
Proof.
  intros Hl Hop. destruct op as [d mode|d mode|d| |d s|d mode|d t v|d t]; cbn in Hop |- *.
  - destruct Hop as [Hd Hm]. pose proof (dev_get_spec d st Hl) as Hg. unfold provisioning_list_dev_add.
    destruct (Z.ltb_spec (Zlength d) 4); [done|]. destruct (provisioning_list_dev_get d st) as [i|].
    + by destruct Hg as (p & _ & _ & ->).
    + rewrite Hg. by apply add_implements.
  - destruct Hop as [Hd Hm]. pose proof (dev_get_spec d st Hl) as Hg. unfold provisioning_list_dev_set.
    destruct (Z.ltb_spec (Zlength d) 4); [done|]. destruct (provisioning_list_dev_get d st) as [i|]; [|rewrite Hg; by apply add_implements].
    destruct Hg as (p & Hi & Hu & Hb). rewrite Hb. cbn [snd]. unfold provisioning_list_bootmode_set.
    destruct (change_implements E st i p d (fun p => p <| bootmode := mode |>) (fun e => e <| e_mode := mode |>) Hl Hi Hu Hb) as [H1 H2]; [|done|].
    + destruct (su_members _ _ Hu). apply used_change; try done; apply Hu.
    + split; [done|]. rewrite H2. apply map_eq. intros d'. destruct (decide (d' = d)) as [->|Hne].
      * by rewrite lookup_alter_eq, lookup_insert_eq, Hb.
      * by rewrite lookup_alter_ne, lookup_insert_ne.
  - by apply remove_implements.
  - by apply clear_implements.
  - apply at_device_implements; [done|]. intros i p Hi Hu Hb. destruct (su_members _ _ Hu). eapply change_implements; try done.
    apply used_change; try done; try apply Hu. apply Hop.
  - apply at_device_implements; [done|]. intros i p Hi Hu Hb. destruct (su_members _ _ Hu). eapply change_implements; try done.
    apply used_change; try done; try apply Hu. apply Hop.
  - destruct Hop as (Hd & Ht & Hv). destruct (pe_malloc E && (0 <? Zlength v)) eqn:Hc.
    + apply andb_true_iff in Hc as [Hc H0]. apply at_device_implements; [done|]. intros i p Hi Hu Hb. destruct (su_members _ _ Hu), (su_len _ _ Hu).
      unfold provisioning_list_tlv_set. rewrite (slot_lookup _ _ _ Hi), H0, Hc, (proj2 (Z.ltb_lt 0 _)) by lia. cbn [andb snd].
      eapply change_implements; try done.
      * apply used_change; try done; [apply tlv_set_wf; [apply Ht|apply Hv|lia|apply Hu]|]. rewrite tlv_set_types.
        destruct (decide _); [apply Hu|]. constructor; [done|apply Hu].
      * by rewrite entry_of_tlvs, tlv_set_map.
    + unfold at_device, provisioning_list_tlv_set. destruct (provisioning_list_dev_get d st); [|done].
      rewrite <- andb_assoc, (andb_comm (0 <? Zlength v)), Hc, andb_false_r. done.
  - apply at_device_implements; [done|]. intros i p Hi Hu Hb. destruct (su_members _ _ Hu), (su_len _ _ Hu).
    unfold provisioning_list_tlv_remove. rewrite (slot_lookup _ _ _ Hi), (proj2 (Z.eqb_neq _ 0)) by lia.
    destruct (pvs_tlv_get (tlv_list p) t) eqn:Hg; cbn [snd].
    + eapply change_implements; try done.
      * apply used_change; try done.
        -- rewrite Forall_forall. intros x Hx. pose proof (su_tlvs _ _ Hu) as Hw. rewrite Forall_forall in Hw. apply Hw.
           eapply elem_of_submseteq; [exact Hx|]. apply sublist_submseteq, tlv_unlink_sub.
        -- eapply sublist_NoDup; [apply Hu|]. apply tlv_unlink_types.
      * rewrite entry_of_tlvs, tlv_unlink_map; [done|apply Hu].
    + split; [done|]. apply map_eq. intros d'. destruct (decide (d' = d)) as [->|Hne]; [|by rewrite lookup_alter_ne].
      rewrite lookup_alter_eq, Hb. cbn [fmap option_fmap option_map e_tlvs entry_of]. rewrite delete_id; [done|]. apply tlv_map_fresh.
      rewrite list_elem_of_In, in_map_iff. intros (x & Hx & Hin). apply (find_none _ _ Hg) in Hin. lia.
Qed.
