(* ===== verification/ProvisioningFile.v ===== *)
(** * The file of the provisioning list

    Reading the file back gives the entries that were written, as far as there is
    memory, so a list that is changed and restarted in any order is the map the
    operations describe, with what was last written in the place of a restart. *)

From S2P Require Import Prelude Provisioning ProvisioningRun.
#[local] Open Scope Z_scope.

(** ** Reading what was written *)

Lemma length_le_bytes n z : length (le_bytes n z) = n.
Proof. revert z. induction n; intros z; cbn; [done|by f_equal]. Qed.

Lemma le_value_bytes n z : 0 <= z < 256 ^ Z.of_nat n -> le_value (le_bytes n z) = z.
Proof.
  revert z. induction n as [|n IH]; intros z Hz; cbn [le_bytes le_value]; [cbn in Hz; lia|].
  rewrite Nat2Z.inj_succ, Z.pow_succ_r in Hz by lia. change 0xFF with (Z.ones 8). rewrite Z.land_ones, Z.shiftr_div_pow2 by lia.
  change (2 ^ 8) with 256. rewrite IH.
  - pose proof (Z.div_mod z 256). lia.
  - split; [apply Z.div_pos; lia|]. apply Z.div_lt_upper_bound; lia.
Qed.

Lemma fread_app n a b : length a = n -> fread n (a ++ b) = (Some a, b).
Proof.
  intros <-. unfold fread. rewrite decide_True by (rewrite length_app; lia). by rewrite take_app_length, drop_app_length.
Qed.

Definition pointer_ok (E : pvs_env) : Prop := 0 < pe_pointer E < 2 ^ 64.
Definition env_ok (E : pvs_env) : Prop := pe_fopen E = true /\ pointer_ok E.

Lemma pointer_null E b : pointer_ok E -> le_value (pointer E b) =? 0 = b.
Proof.
  unfold pointer_ok. intros Hp. unfold pointer. rewrite le_value_bytes by (destruct b; change (256 ^ Z.of_nat 8) with (2 ^ 64); lia).
  destruct b; [done|]. apply Z.eqb_neq. lia.
Qed.

Lemma byte_land z : 0 <= z < 256 -> Z.land z 0xFF = z.
Proof. intros Hz. change 0xFF with (Z.ones 8). rewrite Z.land_ones by lia. by apply Z.mod_small. Qed.

(** The layout of the structures. *)
Lemma provision_layout E p : let b := provision_bytes E p in
  length b = SIZEOF_PROVISION /\ rd b 8 = Z.land (dsk_len p) 0xFF /\ sub_buf b 12 4 = le_bytes 4 (pvs_status p) /\
  sub_buf b 16 4 = le_bytes 4 (bootmode p) /\ sub_buf b 24 8 = pointer E (bool_decide (tlv_list p = [])).
Proof. split_and!; reflexivity. Qed.

Definition tlv_head (E : pvs_env) (last : bool) (t : pvs_tlv) : list Z :=
  pointer E last ++ le_bytes 1 (tlv_type t) ++ le_bytes 1 (tlv_length t) ++ zeros 6 ++ pointer E false.

Lemma tlv_layout E last t : let b := tlv_head E last t in
  length b = SIZEOF_TLV /\ rd b 8 = Z.land (tlv_type t) 0xFF /\ rd b 9 = Z.land (tlv_length t) 0xFF /\ take 8 b = pointer E last.
Proof. split_and!; reflexivity. Qed.

Lemma tlv_bytes_wf E last t : tlv_wf t -> tlv_bytes E last t = tlv_head E last t ++ tlv_value t.
Proof.
  intros (_ & _ & Hl & _). unfold tlv_bytes, tlv_head. rewrite <- !app_assoc. do 5 f_equal. apply take_ge. unfold Zlength in Hl. lia.
Qed.

Lemma tlvs_store_ok E l : Forall tlv_wf l -> fst (tlvs_store E l) = true.
Proof.
  induction 1 as [|t l (_ & Ht & _) _ IH]; [done|]. cbn. rewrite (proj2 (Z.eqb_neq _ 0)) by lia. by destruct (tlvs_store E l).
Qed.

Lemma tlvs_store_cons E t l : tlv_wf t ->
  snd (tlvs_store E (t :: l)) = tlv_head E (bool_decide (l = [])) t ++ tlv_value t ++ snd (tlvs_store E l).
Proof.
  intros Hw. pose proof Hw as (_ & Ht & _). cbn [tlvs_store]. rewrite (proj2 (Z.eqb_neq _ 0)) by lia. destruct (tlvs_store E l). cbn [snd].
  by rewrite tlv_bytes_wf, <- app_assoc.
Qed.

Lemma tlvs_store_length E l : Forall tlv_wf l -> (length l <= length (snd (tlvs_store E l)))%nat.
Proof.
  induction 1 as [|t l Ht _ IH]; [cbn; lia|]. rewrite tlvs_store_cons, !length_app by done.
  destruct (tlv_layout E (bool_decide (l = [])) t) as [-> _]. unfold SIZEOF_TLV. cbn [length]. lia.
Qed.

Lemma import_tlvs_spec E' l fuel rest acc : pointer_ok E' -> Forall tlv_wf l -> l <> [] -> (length l <= fuel)%nat ->
  import_tlvs fuel true (snd (tlvs_store E' l) ++ rest) acc = Some (reverse l ++ acc, rest).
Proof.
  intros He Hl. revert fuel acc. induction Hl as [|t l Hw Hl IH]; intros fuel acc Hn Hf; [done|]. destruct fuel as [|fuel]; [cbn in Hf; lia|].
  rewrite tlvs_store_cons by done. cbn [import_tlvs]. destruct (tlv_layout E' (bool_decide (l = [])) t) as (Hlen & Ht & Hn' & Hp).
  rewrite <- !app_assoc, fread_app by done. rewrite Ht, Hn', Hp, pointer_null by done. destruct Hw as (Hty & Hlt & Hv & _).
  rewrite !byte_land by (unfold byte in *; lia). rewrite fread_app by (unfold Zlength in Hv; lia). rewrite (proj2 (Z.eqb_neq _ 0)) by lia. cbn [orb negb].
  replace (mkTlv (tlv_type t) (tlv_length t) (tlv_value t)) with t by (by destruct t). unfold tlv_set_front.
  case_bool_decide as Hnil.
  - subst l. by cbn.
  - rewrite IH by (done || (cbn in Hf; lia)). by rewrite reverse_cons, <- app_assoc.
Qed.

(** What an entry is after a restart. *)
Definition reread (p : provision) : provision := p <| tlv_list := reverse (tlv_list p) |>.

(** An entry that was written is read back, or ends the import without memory. *)
Lemma dev_import_spec malloc E' p d i rest : pointer_ok E' -> slot_used p d ->
  fst (pvs_list_dev_store E' p i) = true /\
  pvs_list_dev_import malloc (snd (pvs_list_dev_store E' p i) ++ rest) = if malloc then Imported (reread p) rest else Import_error.
Proof.
  intros He [Hd [Hlen Hb4] _ [Hs Hb] Ht _]. unfold pvs_list_dev_store. pose proof (tlvs_store_ok E' _ Ht) as Hok.
  destruct (tlvs_store E' (tlv_list p)) as [ok bs] eqn:Hts. cbn [fst] in Hok. subst ok. split; [done|]. cbn [snd].
  rewrite Hd. cbn [default from_option]. rewrite (take_ge d) by (unfold Zlength in Hlen; lia).
  replace ((pvs_entry_hdr ++ _) ++ _) with ((pvs_entry_hdr ++ digits3 i) ++ provision_bytes E' p ++ d ++ bs) by (by rewrite <- !app_assoc).
  rewrite <- !app_assoc. unfold pvs_list_dev_import. rewrite (app_assoc pvs_entry_hdr), fread_app by done.
  destruct (provision_layout E' p) as (Hpl & H8 & H12 & H16 & H24). rewrite fread_app by done. rewrite H8, H12, H16, H24, pointer_null by done.
  rewrite byte_land by lia. rewrite (proj2 (Z.ltb_ge _ 4)) by lia. cbn [orb]. destruct malloc; cbn [negb]; [|done]. rewrite fread_app by (unfold Zlength in Hlen; lia).
  rewrite !le_value_bytes by (unfold u32_ok in *; change (256 ^ Z.of_nat 4) with (2 ^ 32); lia).
  assert (Hbs : snd (tlvs_store E' (tlv_list p)) = bs) by (by rewrite Hts).
  case_bool_decide as Hnil.
  - rewrite Hnil in Hts. cbn in Hts. simplify_eq. unfold reread. rewrite Hnil. destruct p; cbn in *. by subst.
  - pose proof (tlvs_store_length E' (tlv_list p) Ht) as Hl. rewrite <- Hbs, import_tlvs_spec.
    + rewrite app_nil_r. unfold reread. destruct p; cbn in *. by subst.
    + done.
    + done.
    + done.
    + rewrite length_app. lia.
Qed.

Lemma import_end n i E st : import_slots n i E [] st = st.
Proof. by destruct n. Qed.

Lemma used_wf p : slot_wf p -> if used p then exists d, slot_used p d else dsk_len p = 0.
Proof.
  intros [[H0 _]|[d Hd]]; [unfold used; by rewrite H0|]. destruct (su_len _ _ Hd). unfold used, truth. rewrite (proj2 (Z.eqb_neq _ 0)) by lia. by exists d.
Qed.

(** The entries from [i] on for which there is memory, of [n] at most. *)
Fixpoint allocated (f : nat -> bool) (i n : nat) : nat :=
  match n with O => 0%nat | S n => if f i then S (allocated f (S i) n) else 0%nat end.

Lemma allocated_le f i n : (allocated f i n <= n)%nat.
Proof. revert i. induction n as [|n IH]; intros i; cbn; [lia|]. destruct (f i); [|lia]. specialize (IH (S i)). lia. Qed.

Lemma import_slots_spec E E' l j : pointer_ok E' -> Forall slot_wf l ->
  forall n i st (k := allocated (pe_import E) i (length (List.filter used l))),
  (length (List.filter used l) <= n)%nat -> (i + n <= length (pvs_list st))%nat ->
  import_slots n i E (store_slots E' j l) st =
    st <| pvs_list := take i (pvs_list st) ++ map reread (take k (List.filter used l)) ++ drop (i + k) (pvs_list st) |>.
Proof.
  intros He Hl. revert j. induction Hl as [|p l Hp _ IH]; intros j n i st k Hn Hi; cbn [store_slots List.filter] in *.
  - rewrite import_end. subst k. cbn. rewrite Nat.add_0_r, take_drop. by destruct st.
  - apply used_wf in Hp. destruct (used p) eqn:Hu.
    + destruct Hp as [d Hd]. destruct (su_len _ _ Hd). rewrite (proj2 (Z.eqb_neq _ 0)) by lia.
      destruct (dev_import_spec (pe_import E i) E' p d j (store_slots E' (S j) l) He Hd) as [Hok Hi'].
      destruct (pvs_list_dev_store E' p j) as [ok b]. cbn [fst snd] in Hok, Hi'. subst ok. destruct n as [|n]; [cbn in Hn; lia|].
      cbn [import_slots]. rewrite Hi'. cbn [length] in Hn. subst k. cbn [length allocated]. destruct (pe_import E i).
      2: { cbn. rewrite Nat.add_0_r, take_drop. by destruct st. }
      rewrite IH by (unfold upd_slot; cbn; rewrite ?length_alter; lia).
      unfold upd_slot. cbn. destruct st as [L f w]. cbn in Hi |- *. f_equal.
      destruct (lookup_lt_is_Some_2 L i) as [x Hx]; [lia|]. rewrite (list_alter_at _ _ _ _ Hx).
      erewrite take_S_r by (rewrite list_lookup_insert_eq; [done|lia]). rewrite take_insert_ge by lia. rewrite <- app_assoc. cbn. do 3 f_equal.
      rewrite drop_insert_lt by lia. f_equal. lia.
    + rewrite Hp. cbn. by apply IH.
Qed.

(** ** What is written when *)

Lemma tlv_get_map t l : tlv_value <$> pvs_tlv_get l t = tlv_map l !! t.
Proof.
  induction l as [|x l IH]; [done|]. cbn. unfold tlv_map in *. cbn. destruct (Z.eqb_spec (tlv_type x) t) as [<-|Hne].
  - by rewrite lookup_insert_eq.
  - by rewrite lookup_insert_ne.
Qed.

Definition image (E : pvs_env) (l : list provision) : list Z := pvs_store_hdr ++ store_slots E 0 l.

(** The operations that write the list to its file: those that are carried out. *)
Definition room (m : book_t) : bool := bool_decide (size m < PROVISIONING_LIST_SIZE)%nat.
Definition spec_writes (malloc : bool) (op : pvs_op) (m : book_t) : bool :=
  match op with
  | P_add d _ => negb (Zlength d <? 4) && negb (bool_decide (is_Some (m !! d))) && (malloc && room m)
  | P_set d _ => negb (Zlength d <? 4) && (bool_decide (is_Some (m !! d)) || (malloc && room m))
  | P_remove d | P_status d _ | P_mode d _ => bool_decide (is_Some (m !! d))
  | P_clear => true
  | P_tlv_set d _ val => bool_decide (is_Some (m !! d)) && (malloc && (0 <? Zlength val))
  | P_tlv_remove d type => bool_decide (is_Some (e ← m !! d; e_tlvs e !! type))
  end.

(** [st'] came from [st] and was written to the file, or not. *)
Definition wrote (E : pvs_env) (b : bool) (st st' : pvs) : Prop :=
  wild st' = wild st /\ pvs_file st' = if b && pe_fopen E then Some (image E (pvs_list st')) else pvs_file st.

Lemma persist_wrote E st st1 : is_Some (pvs_file st) -> pvs_file st1 = pvs_file st -> wild st1 = wild st -> wrote E true st (pvs_list_persist_in_file E st1).
Proof.
  intros [f Hf] H1 H2. unfold wrote. rewrite persist_list. unfold pvs_list_persist_in_file. rewrite H1, Hf.
  destruct (pe_fopen E); cbn; (split; [exact H2|congruence || done]).
Qed.
Lemma same_wrote E st st1 : pvs_file st1 = pvs_file st -> wild st1 = wild st -> wrote E false st st1.
Proof. by split. Qed.

Lemma add_wrote E d mode st : list_wf (pvs_list st) -> is_Some (pvs_file st) ->
  wrote E (pe_malloc E && room (book (pvs_list st))) st (snd (pvs_dev_add E d mode st)).
Proof.
  intros Hl Hs. unfold pvs_dev_add, room. destruct (find_slot _ st) as [i|] eqn:Hf.
  - apply find_slot_Some in Hf as (p & Hi & Hu). apply negb_true_iff in Hu. rewrite bool_decide_true by (by eapply empty_slot_book).
    destruct (pe_malloc E); cbn [andb snd]; [by apply persist_wrote|by apply same_wrote].
  - apply find_slot_None in Hf. rewrite bool_decide_false, andb_false_r by (by apply full_book). by apply same_wrote.
Qed.

(** At the slot of a device. *)
Lemma at_device_wrote E d st f b : list_wf (pvs_list st) ->
  (forall i p, pvs_list st !! i = Some p -> slot_used p d -> book (pvs_list st) !! d = Some (entry_of p) -> wrote E b st (f i)) ->
  wrote E (bool_decide (is_Some (book (pvs_list st) !! d)) && b) st (at_device d st f).
Proof.
  intros Hl Hf. unfold at_device. pose proof (dev_get_spec d st Hl) as Hg. destruct (provisioning_list_dev_get d st) as [i|].
  - destruct Hg as (p & Hi & Hu & Hb). rewrite Hb, bool_decide_true by done. by apply (Hf i p).
  - rewrite Hg, bool_decide_false by (by apply is_Some_None). by apply same_wrote.
Qed.

Lemma step_wrote E op st : list_wf (pvs_list st) -> is_Some (pvs_file st) ->
  wrote E (spec_writes (pe_malloc E) op (book (pvs_list st))) st (pvs_step E op st).
Proof.
  intros Hl Hs. destruct op as [d mode|d mode|d| |d s|d mode|d t v|d t]; cbn [pvs_step spec_writes].
  - pose proof (dev_get_spec d st Hl) as Hg. unfold provisioning_list_dev_add. destruct (_ <? 4); [by apply same_wrote|].
    destruct (provisioning_list_dev_get d st) as [i|]; cbn [negb andb].
    + destruct Hg as (p & _ & _ & ->). rewrite bool_decide_true by done. by apply same_wrote.
    + rewrite Hg, bool_decide_false by (by apply is_Some_None). by apply add_wrote.
  - pose proof (dev_get_spec d st Hl) as Hg. unfold provisioning_list_dev_set. destruct (_ <? 4); [by apply same_wrote|].
    destruct (provisioning_list_dev_get d st) as [i|]; cbn [negb andb].
    + destruct Hg as (p & _ & _ & ->). rewrite bool_decide_true by done. by apply persist_wrote.
    + rewrite Hg, bool_decide_false by (by apply is_Some_None). by apply add_wrote.
  - pose proof (dev_get_spec d st Hl) as Hg. unfold provisioning_list_dev_remove, provisioning_list_dev_get in *.
    destruct (_ <? 4); [rewrite Hg, bool_decide_false by (by apply is_Some_None); by apply same_wrote|]. destruct (find_slot _ st) as [i|].
    + destruct Hg as (p & _ & _ & ->). rewrite bool_decide_true by done. by apply persist_wrote.
    + rewrite Hg, bool_decide_false by (by apply is_Some_None). by apply same_wrote.
  - by apply persist_wrote.
  - rewrite <- (andb_true_r (bool_decide _)). apply at_device_wrote; [done|]. intros i p _ _ _. by apply persist_wrote.
  - rewrite <- (andb_true_r (bool_decide _)). apply at_device_wrote; [done|]. intros i p _ _ _. by apply persist_wrote.
  - apply at_device_wrote; [done|]. intros i p Hi Hu Hb. destruct (su_len _ _ Hu). unfold provisioning_list_tlv_set.
    rewrite (slot_lookup _ _ _ Hi), (proj2 (Z.ltb_lt 0 (dsk_len p))) by lia. cbn [andb]. rewrite (andb_comm (pe_malloc E)).
    destruct (_ && _); [by apply persist_wrote|by apply same_wrote].
  - unfold at_device. pose proof (dev_get_spec d st Hl) as Hg. destruct (provisioning_list_dev_get d st) as [i|].
    + destruct Hg as (p & Hi & Hu & ->). destruct (su_len _ _ Hu). cbn [mbind option_bind e_tlvs entry_of]. rewrite <- tlv_get_map.
      unfold provisioning_list_tlv_remove. rewrite (slot_lookup _ _ _ Hi), (proj2 (Z.eqb_neq _ 0)) by lia.
      destruct (pvs_tlv_get (tlv_list p) t); cbn; [by apply persist_wrote|by apply same_wrote].
    + rewrite Hg. cbn. by apply same_wrote.
Qed.

(** ** Restarts *)

Definition restart (E : pvs_env) (st : pvs) : pvs :=
  snd (provisioning_list_init E (Present <$> pvs_file st) (Missing true) (fun st => st)).

Lemma reread_book p : slot_wf p -> assoc (reread p) = assoc p.
Proof.
  intros Hp. unfold assoc. replace (key (reread p)) with (key p) by done. destruct (key p) as [d|] eqn:Hk; [|done]. cbn. do 2 f_equal.
  unfold reread. rewrite entry_of_tlvs, tlv_map_reverse; [by destruct p|]. apply (key_used _ _ Hp Hk).
Qed.

Lemma book_filter l : Forall slot_wf l -> omap assoc (map reread (List.filter used l)) = omap assoc l.
Proof.
  induction 1 as [|p l Hp _ IH]; [done|]. cbn. destruct (used p) eqn:Hu; cbn.
  - rewrite reread_book by done. by destruct (assoc p); [f_equal|].
  - unfold assoc at 2. unfold key. by rewrite Hu.
Qed.

Lemma omap_null n : omap assoc (replicate n null_pvs) = [].
Proof. by induction n. Qed.

Lemma nodup_unique l : NoDup (omap key l) -> unique_keys l.
Proof.
  induction l as [|x l IH]; intros Hn; [intros i j p q d Hi; by destruct i|]. cbn in Hn.
  assert (Hx : forall d j q, key x = Some d -> l !! j = Some q -> key q = Some d -> False).
  { intros d j q Hk Hj Hq. rewrite Hk in Hn. apply NoDup_cons in Hn as [Hn _]. apply Hn, list_elem_of_omap. exists q.
    split; [by eapply list_elem_of_lookup_2|done]. }
  assert (Hl : unique_keys l) by (apply IH; destruct (key x); [by apply NoDup_cons in Hn as [_ ?]|done]).
  intros [|i] [|j] p q d Hi Hj Hp Hq; cbn in Hi, Hj; simplify_eq.
  - done.
  - by destruct (Hx d j q).
  - by destruct (Hx d i p).
  - f_equal. by apply (Hl i j p q d).
Qed.

Lemma reread_wf p : slot_wf p -> slot_wf (reread p).
Proof.
  intros [[H0 Ht]|[d []]]; [left; cbn; rewrite Ht; done|right; exists d]. constructor; cbn; try done.
  - by apply Forall_reverse.
  - change (NoDup (map tlv_type (reverse (tlv_list p)))). by rewrite (reverse_Permutation (tlv_list p)).
Qed.

(** The list after a restart that had memory for [k] entries. *)
Definition reloaded (k : nat) (l : list provision) : list provision :=
  map reread (take k (List.filter used l)) ++ replicate (PROVISIONING_LIST_SIZE - length (take k (List.filter used l))) null_pvs.

Lemma filter_map_reread l : List.filter used (map reread l) = map reread (List.filter used l).
Proof. induction l as [|p l IH]; [done|]. cbn. change (used (reread p)) with (used p). destruct (used p); cbn; by rewrite IH. Qed.

Lemma filter_null n : List.filter used (replicate n null_pvs) = [].
Proof. by induction n. Qed.

Lemma filter_take_used k l : List.filter used (take k (List.filter used l)) = take k (List.filter used l).
Proof.
  assert (Hf : Forall (fun p => used p = true) (take k (List.filter used l))).
  { apply Forall_take, Forall_forall. intros p Hp. rewrite list_elem_of_In in Hp. by apply filter_In in Hp as [_ ?]. }
  induction Hf as [|p m Hp _ IH]; [done|]. cbn. by rewrite Hp, IH.
Qed.

Lemma reloaded_implements k l : list_wf l -> (k <= length (List.filter used l))%nat ->
  list_wf (reloaded k l) /\ book (reloaded k l) ⊆ book l /\ size (book (reloaded k l)) = k.
Proof.
  intros [Hl Hs Hu] Hk. set (F := List.filter used l) in *.
  assert (Ho : omap assoc l = omap assoc (reloaded k l) ++ omap assoc (map reread (drop k F))).
  { unfold reloaded. fold F. rewrite omap_app, omap_null, app_nil_r, <- omap_app, <- map_app, take_drop. unfold F. by rewrite book_filter. }
  assert (Hw : list_wf (reloaded k l)).
  { constructor.
    - unfold reloaded. fold F. rewrite length_app, length_map, length_replicate, length_take. pose proof (List.filter_length_le used l) as Hle. fold F in Hle. lia.
    - apply Forall_app. split; [|apply Forall_replicate; by left]. apply Forall_forall. intros q (p & -> & Hp)%list_elem_of_fmap. apply reread_wf.
      apply elem_of_take in Hp as (i & Hi & _). rewrite Forall_forall in Hs. apply Hs. apply list_elem_of_lookup_2 in Hi. unfold F in Hi.
      rewrite list_elem_of_In in Hi |- *. by apply filter_In in Hi as [? _].
    - apply nodup_unique. apply unique_nodup in Hu. rewrite <- assoc_keys, Ho, fmap_app in Hu. rewrite <- assoc_keys. by apply NoDup_app in Hu as [? _]. }
  split_and!; [done| |].
  - unfold book. rewrite Ho, list_to_map_app. apply map_union_subseteq_l.
  - rewrite book_size by done. unfold reloaded. rewrite List.filter_app, filter_null, app_nil_r, filter_map_reread, filter_take_used, length_map, length_take.
    fold F. lia.
Qed.

Lemma import_file_spec E s st : pvs_list_import_file E (pvs_store_hdr ++ s) st = (true, import_slots PROVISIONING_LIST_SIZE 0 E s st).
Proof. unfold pvs_list_import_file. by rewrite fread_app, bool_decide_true. Qed.

Lemma init_present E c dflt cfg : provisioning_list_init E (Some (Present c)) dflt cfg =
  let '(choice, st) := pvs_list_store_setup_and_import E (Some (Present c)) dflt empty_list in (choice, pvs_list_persist_in_file E st).
Proof. done. Qed.

(** The file holds the list that is the map [m]. *)
Definition stored (st : pvs) (m : book_t) : Prop :=
  exists E l, pointer_ok E /\ list_wf l /\ book l = m /\ pvs_file st = Some (image E l).

Lemma restart_list E st E' l : pointer_ok E' -> list_wf l -> pvs_file st = Some (image E' l) ->
  restart E st = pvs_list_persist_in_file E (mkList (reloaded (allocated (pe_import E) 0 (size (book l))) l) (pvs_file st) false).
Proof.
  intros He Hw Hf. rewrite (book_size l Hw). destruct Hw as [Hl Hs _]. unfold restart. rewrite Hf.
  cbn [fmap option_fmap option_map]. rewrite init_present.
  unfold pvs_list_store_setup_and_import, pvs_list_store_setup_and_import_file, image. rewrite import_file_spec. pose proof (List.filter_length_le used l) as Hle.
  rewrite (import_slots_spec E E') by (try done; cbn; rewrite ?length_replicate; lia).
  cbn [negb andb snd]. unfold reloaded, empty_list. cbn [pvs_list take Nat.add app]. rewrite drop_replicate.
  by rewrite length_take, Nat.min_l by apply allocated_le.
Qed.

(** Changes and restarts in any order, each in an environment of its own: memory
    may run out and the file may not be writable. *)
Inductive pvs_event := Ev_op (E : pvs_env) (op : pvs_op) | Ev_restart (E : pvs_env).
Definition event_ok (e : pvs_event) : Prop :=
  match e with Ev_op E op => pointer_ok E /\ op_ok op | Ev_restart E => pointer_ok E end.
Definition pvs_event_step (st : pvs) (e : pvs_event) : pvs := match e with Ev_op E op => pvs_step E op st | Ev_restart E => restart E st end.

(** The specification: the map in use and the map on file.  An operation that is
    carried out writes the file if it can.  A restart reads the map on file, as far
    as there is memory for its entries, and writes what it has read. *)
Record ledger := mkLedger { current : book_t; on_file : book_t }.
Inductive spec_event : ledger -> pvs_event -> ledger -> Prop :=
| Spec_op E op s (m := spec_step (pe_malloc E) op (current s)) :
    spec_event s (Ev_op E op) (mkLedger m (if spec_writes (pe_malloc E) op (current s) && pe_fopen E then m else on_file s))
| Spec_restart E s m : m ⊆ on_file s -> size m = allocated (pe_import E) 0 (size (on_file s)) ->
    spec_event s (Ev_restart E) (mkLedger m (if pe_fopen E then m else on_file s)).
Inductive spec_run : ledger -> list pvs_event -> ledger -> Prop :=
| Run_nil s : spec_run s [] s
| Run_cons s e s' evs s'' : spec_event s e s' -> spec_run s' evs s'' -> spec_run s (e :: evs) s''.

(** With memory for every entry a restart reads the whole map. *)
Lemma restart_complete E s s' : spec_event s (Ev_restart E) s' -> (forall i, pe_import E i = true) -> current s' = on_file s.
Proof.
  intros Hs Hi. inversion Hs as [|? ? m Hsub Hsize]; subst. cbn. assert (Ha : forall n i, allocated (pe_import E) i n = n) by (induction n as [|n IH]; intros i; cbn; [done|by rewrite Hi, IH]).
  rewrite Ha in Hsize. apply map_subseteq_size_eq; [done|lia].
Qed.

(** So with memory at every restart the specification is a function. *)
Definition ledger_step (s : ledger) (e : pvs_event) : ledger :=
  match e with
  | Ev_op E op => let m := spec_step (pe_malloc E) op (current s) in
      mkLedger m (if spec_writes (pe_malloc E) op (current s) && pe_fopen E then m else on_file s)
  | Ev_restart E => mkLedger (on_file s) (on_file s)
  end.
Definition restarts_complete (e : pvs_event) : Prop := match e with Ev_op _ _ => True | Ev_restart E => forall i, pe_import E i = true end.

Lemma spec_event_function s e s' : restarts_complete e -> spec_event s e s' -> s' = ledger_step s e.
Proof.
  intros Hc Hs. destruct e as [E op|E]; [by inversion Hs|]. pose proof (restart_complete E s s' Hs Hc) as Hm.
  inversion Hs as [|? ? m _ _]; subst. cbn in *. subst m. by destruct (pe_fopen E).
Qed.

Lemma spec_run_function evs s s' : Forall restarts_complete evs -> spec_run s evs s' -> s' = fold_left ledger_step evs s.
Proof.
  intros Hc Hr. revert Hc. induction Hr as [|s e s1 evs s2 He _ IH]; intros Hc; [done|]. apply Forall_cons in Hc as [H1 H2]. cbn [fold_left].
  by rewrite <- (spec_event_function s e s1 H1 He), <- IH.
Qed.

Record tracks (st : pvs) (s : ledger) : Prop := mkTracks {
  tr_wild : wild st = false; tr_wf : list_wf (pvs_list st); tr_book : book (pvs_list st) = current s; tr_file : stored st (on_file s)
}.

Lemma stored_file st m : stored st m -> is_Some (pvs_file st).
Proof. intros (E & l & _ & _ & _ & ->). by eexists. Qed.

Lemma event_tracks st s e : event_ok e -> tracks st s -> exists s', spec_event s e s' /\ tracks (pvs_event_step st e) s'.
Proof.
  intros Hok [Hw Hl Hb Hf]. destruct e as [E op|E]; cbn [pvs_event_step].
  - destruct Hok as [He Hop]. eexists. split; [constructor|]. destruct (step_implements E op st Hl Hop) as [H1 H2].
    destruct (step_wrote E op st Hl (stored_file _ _ Hf)) as [H3 H4]. rewrite Hb in H2, H4. constructor; [congruence|done|done|]. cbn [on_file].
    destruct (_ && pe_fopen E); [|destruct Hf as (E0 & l0 & ? & ? & ? & ?); exists E0, l0; split_and!; congruence || done].
    by exists E, (pvs_list (pvs_step E op st)).
  - destruct Hf as (E0 & l0 & Hp & Hw0 & Hb0 & Hf). rewrite (restart_list E st E0 l0 Hp Hw0 Hf). set (k := allocated _ _ _).
    assert (Hk : (k <= length (List.filter used l0))%nat) by (rewrite <- book_size by done; apply allocated_le).
    destruct (reloaded_implements k l0 Hw0 Hk) as (H1 & H2 & H3). set (st1 := mkList _ _ _).
    destruct (persist_wrote E st1 st1) as [H4 H5]; [unfold st1; cbn; rewrite Hf; by eexists|done|done|].
    exists (mkLedger (book (reloaded k l0)) (if pe_fopen E then book (reloaded k l0) else on_file s)). split.
    { apply Spec_restart; [by rewrite <- Hb0|]. rewrite <- Hb0. exact H3. }
    constructor; [exact H4|by rewrite persist_list|by rewrite persist_list|]. cbn [on_file]. unfold stored. rewrite H5. cbn [andb]. rewrite persist_list.
    destruct (pe_fopen E); [by exists E, (reloaded k l0)|exists E0, l0; by split_and!].
Qed.

Lemma run_tracks evs st s : Forall event_ok evs -> tracks st s -> exists s', spec_run s evs s' /\ tracks (fold_left pvs_event_step evs st) s'.
Proof.
  intros He. revert st s. induction He as [|e evs Hok _ IH]; intros st s Ht; [exists s; split; [constructor|done]|]. cbn [fold_left].
  destruct (event_tracks st s e Hok Ht) as (s1 & H1 & Ht1). destruct (IH _ s1 Ht1) as (s2 & H2 & Ht2). exists s2. split; [by econstructor|done].
Qed.

(** The first start, with no file yet, which can be written. *)
Definition first_start (E : pvs_env) : pvs := snd (provisioning_list_init E (Some (Missing true)) (Missing true) (fun st => st)).

Lemma first_start_ok E : env_ok E -> implements (first_start E) (∅ : book_t) /\ tracks (first_start E) (mkLedger ∅ ∅).
Proof.
  intros [Hf He]. assert (Hi : implements (first_start E) (∅ : book_t)).
  { unfold first_start. cbn [provisioning_list_init pvs_list_store_find pvs_list_store_writeable_test snd]. rewrite persist_list.
    change (list_wf (replicate PROVISIONING_LIST_SIZE null_pvs) /\ book (replicate PROVISIONING_LIST_SIZE null_pvs) = ∅).
    split; [|unfold book; by rewrite omap_null]. constructor; [by apply length_replicate|apply Forall_replicate; by left|].
    intros i j p q d Hi _ Hp _. apply lookup_replicate in Hi as [-> _]. done. }
  split; [done|]. destruct Hi as [H1 H2]. destruct (persist_wrote E (empty_list <| pvs_file := Some [] |>) (empty_list <| pvs_file := Some [] |>)) as [H3 H4]; [by eexists|done|done|].
  rewrite Hf in H4. constructor; [exact H3|done|done|]. exists E, (pvs_list (first_start E)). by split_and!.
Qed.

(** What clients observe of a map: the number of entries, the entry of a device, a record of a device. *)
Definition observes (st : pvs) (m : book_t) : Prop :=
  provisioning_list_get_count st = Z.of_nat (size m) /\
  (forall d, (fun i => entry_of (slot st i)) <$> provisioning_list_dev_get d st = m !! d) /\
  (forall d t, tlv_value <$> provisioning_list_tlv_dsk_get d t st = e ← m !! d; e_tlvs e !! t).

Lemma wf_observes st : list_wf (pvs_list st) -> observes st (book (pvs_list st)).
Proof.
  intros Hl. split_and!.
  - unfold provisioning_list_get_count. rewrite book_size by done. pose proof (List.filter_length_le used (pvs_list st)) as Hle.
    rewrite (wf_size _ Hl) in Hle. apply u16_id. unfold word16, PROVISIONING_LIST_SIZE in *. lia.
  - intros d. pose proof (dev_get_spec d st Hl) as Hg. destruct (provisioning_list_dev_get d st) as [i|]; cbn; [|done].
    destruct Hg as (p & Hi & _ & ->). by rewrite (slot_lookup _ _ _ Hi).
  - intros d t. pose proof (dev_get_spec d st Hl) as Hg. unfold provisioning_list_tlv_dsk_get. destruct (provisioning_list_dev_get d st) as [i|].
    + destruct Hg as (p & Hi & _ & ->). rewrite (slot_lookup _ _ _ Hi), tlv_get_map. done.
    + by rewrite Hg.
Qed.

(** C14. The provisioning list is a map from keys to entries with a copy on file:
    whatever sequence of additions, changes, removals and restarts it goes
    through, with memory running out or not, in a change or for any entry of a
    restart, and with the file writable or not, there is a run of the
    specification such that the number of entries, every entry and every record
    the list returns are those of the map in use, and no slot is filled from a
    structure that was not read. *)
Theorem provisioning_refines E evs : env_ok E -> Forall event_ok evs ->
  let st := fold_left pvs_event_step evs (first_start E) in
  exists s, spec_run (mkLedger ∅ ∅) evs s /\ observes st (current s) /\ wild st = false.
Proof.
  intros He Hevs. destruct (first_start_ok E He) as [_ Ht]. destruct (run_tracks evs _ _ Hevs Ht) as (s & Hr & [Hw Hl Hb _]).
  exists s. split_and!; [done| |done]. rewrite <- Hb. by apply wf_observes.
Qed.
