(* ===== verification/ZgwStr.v ===== *)
(** * Names and locations (src/src/utls/zgw_str.c)

    Checks of the UTF-8 encoding of a string and of the rules for names and
    locations of nodes.  A [char *] is the list of the bytes in memory from its
    address on, which may be longer than the string; a string ends at its length
    or at the first zero byte. *)

From S2P Require Import Prelude.
#[local] Open Scope Z_scope.

(** ** The code *)

(** One character: how many bytes it has, or none if it is not one. *)
Definition utf8_sequence (s : list Z) (len : Z) : option Z :=
  let s0 := rd s 0 in let s1 := rd s 1 in let s2 := rd s 2 in let s3 := rd s 3 in
  if (s0 <=? 127) && (1 <=? len) then Some 1
  else if (Z.land s0 0xe0 =? 0xc0) && (2 <=? len) then
    if (Z.land s0 0xfe =? 0xc0) || negb (Z.land s1 0xc0 =? 0x80) then None else Some 2
  else if (Z.land s0 0xf0 =? 0xe0) && (3 <=? len) then
    if ((s0 =? 0xe0) && (Z.land s1 0xe0 =? 0x80))
       || negb (Z.land s1 0xc0 =? 0x80) || negb (Z.land s2 0xc0 =? 0x80)
       || ((s0 =? 0xed) && (Z.land s1 0xe0 =? 0xa0))
       || ((s0 =? 0xef) && (s1 =? 0xbf) && (Z.land s2 0xfe =? 0xbe))
    then None else Some 3
  else if (Z.land s0 0xf8 =? 0xf0) && (4 <=? len) then
    if ((s0 =? 0xf0) && (Z.land s1 0xf0 =? 0x80))
       || negb (Z.land s1 0xc0 =? 0x80) || negb (Z.land s2 0xc0 =? 0x80) || negb (Z.land s3 0xc0 =? 0x80)
       || (((s0 =? 0xf4) && (0x8f <? s1)) || (0xf4 <? s0))
    then None else Some 4
  else None.

(** The fuel is one more than the length: every character has a byte. *)
Fixpoint utf8_loop (fuel : nat) (s : list Z) (len : Z) : bool :=
  match fuel with
  | O => false
  | S fuel =>
      if truth (rd s 0) && (0 <? len) then
        match utf8_sequence s len with
        | Some k => utf8_loop fuel (drop (Z.to_nat k) s) (len - k)
        | None => false
        end
      else true
  end.

Definition is_valid_utf8_string (ss : option (list Z)) (len : Z) : bool :=
  match ss with None => false | Some s => utf8_loop (S (Z.to_nat len)) s len end.

Definition ascii_dot : Z := 0x2E.
Definition ascii_underscore : Z := 0x5F.
Definition ascii_dash : Z := 0x2D.

(** The loop of [is_valid_mdns_name]. *)
Fixpoint name_loop (fuel : nat) (name : list Z) (i len : Z) : bool :=
  match fuel with
  | O => true
  | S fuel =>
      if i <? len then if (rd name i =? ascii_dot) || (rd name i =? ascii_underscore) then false else name_loop fuel name (i + 1) len
      else true
  end.

Definition is_valid_mdns_name (name : list Z) (len : Z) : bool :=
  if len =? 0 then true
  else if negb (name_loop (Z.to_nat len) name 0 len) then false
  else if rd name (len - 1) =? ascii_dash then false
  else if rd name (len - 1) =? 0 then false
  else is_valid_utf8_string (Some name) len.

(** The loop of [is_valid_mdns_location]. *)
Fixpoint location_loop (fuel : nat) (location : list Z) (i len : Z) : bool :=
  match fuel with
  | O => true
  | S fuel =>
      if i <? len then
        if rd location i =? ascii_underscore then false
        else if (1 <=? i) && (i <=? len - 1) && (rd location i =? ascii_dot) && (rd location (i - 1) =? ascii_dash) then false
        else location_loop fuel location (i + 1) len
      else true
  end.

Definition is_valid_mdns_location (location : list Z) (len : Z) : bool :=
  if len =? 0 then true
  else if (rd location 0 =? ascii_dot) || (rd location (len - 1) =? ascii_dot) then false
  else if negb (location_loop (Z.to_nat len) location 0 len) then false
  else is_valid_utf8_string (Some location) len.

(** ** The reference: Unicode scalar values and their encoding *)

(** A character of a string: not zero, not half of a pair, not the two
    non-characters at the end of the first plane. *)
Definition scalar (c : Z) : Prop := 0 < c <= 0x10FFFF /\ ~ (0xD800 <= c <= 0xDFFF) /\ c <> 0xFFFE /\ c <> 0xFFFF.

Definition utf8_encode (c : Z) : list Z :=
  if c <? 0x80 then [c]
  else if c <? 0x800 then [0xC0 + c / 64; 0x80 + c mod 64]
  else if c <? 0x10000 then [0xE0 + c / 4096; 0x80 + c / 64 mod 64; 0x80 + c mod 64]
  else [0xF0 + c / 262144; 0x80 + c / 4096 mod 64; 0x80 + c / 64 mod 64; 0x80 + c mod 64].

(** The bytes up to the first zero. *)
Fixpoint until_nul (s : list Z) : list Z := match s with [] => [] | b :: s => if b =? 0 then [] else b :: until_nul s end.
Definition c_string (s : list Z) (len : Z) : list Z := until_nul (take (Z.to_nat len) s).

Definition encodes (s : list Z) : Prop := exists cs, Forall scalar cs /\ s = flat_map utf8_encode cs.

(** ** Bytes by their leading bits *)

Definition byte_classes (b : Z) : bool :=
  Bool.eqb (Z.land b 0xe0 =? 0xc0) ((0xc0 <=? b) && (b <? 0xe0)) && Bool.eqb (Z.land b 0xfe =? 0xc0) ((0xc0 <=? b) && (b <? 0xc2))
  && Bool.eqb (Z.land b 0xc0 =? 0x80) ((0x80 <=? b) && (b <? 0xc0)) && Bool.eqb (Z.land b 0xf0 =? 0xe0) ((0xe0 <=? b) && (b <? 0xf0))
  && Bool.eqb (Z.land b 0xe0 =? 0x80) ((0x80 <=? b) && (b <? 0xa0)) && Bool.eqb (Z.land b 0xe0 =? 0xa0) ((0xa0 <=? b) && (b <? 0xc0))
  && Bool.eqb (Z.land b 0xfe =? 0xbe) ((0xbe <=? b) && (b <? 0xc0)) && Bool.eqb (Z.land b 0xf8 =? 0xf0) ((0xf0 <=? b) && (b <? 0xf8))
  && Bool.eqb (Z.land b 0xf0 =? 0x80) ((0x80 <=? b) && (b <? 0x90)).

Lemma byte_class b : byte b -> byte_classes b = true.
Proof.
  intros Hb. assert (Hall : forallb byte_classes (map Z.of_nat (seq 0 256)) = true) by (by vm_compute).
  rewrite forallb_forall in Hall. apply Hall. apply in_map_iff. exists (Z.to_nat b). unfold byte in Hb. split; [lia|]. apply in_seq. lia.
Qed.

Definition cont (b : Z) : Prop := 0x80 <= b < 0xC0.

Ltac encode_lia := unfold cont, scalar in *; Z.to_euclidean_division_equations; lia.
Ltac encode_bytes :=
  unfold utf8_encode; repeat (match goal with |- context [?a <? ?b] => destruct (Z.ltb_spec a b); [try encode_lia|try encode_lia] end);
  repeat (f_equal; try encode_lia).

Lemma encode2 a b : 0xC2 <= a < 0xE0 -> cont b -> utf8_encode ((a - 0xC0) * 64 + (b - 0x80)) = [a; b].
Proof. intros Ha Hb. encode_bytes. Qed.

Lemma encode3 a b c : 0xE0 <= a < 0xF0 -> cont b -> cont c -> (a = 0xE0 -> 0xA0 <= b) ->
  utf8_encode ((a - 0xE0) * 4096 + (b - 0x80) * 64 + (c - 0x80)) = [a; b; c].
Proof. intros Ha Hb Hc H0. encode_bytes. Qed.

Lemma encode4 a b c d : 0xF0 <= a <= 0xF4 -> cont b -> cont c -> cont d -> (a = 0xF0 -> 0x90 <= b) ->
  utf8_encode ((a - 0xF0) * 262144 + (b - 0x80) * 4096 + (c - 0x80) * 64 + (d - 0x80)) = [a; b; c; d].
Proof. intros Ha Hb Hc Hd H0. encode_bytes. Qed.

(** The tests of the code as ranges. *)
Inductive sequence (s : list Z) : Z -> Prop :=
| Seq1 : rd s 0 < 0x80 -> sequence s 1
| Seq2 : 0xC2 <= rd s 0 < 0xE0 -> cont (rd s 1) -> sequence s 2
| Seq3 : 0xE0 <= rd s 0 < 0xF0 -> cont (rd s 1) -> cont (rd s 2) -> (rd s 0 = 0xE0 -> 0xA0 <= rd s 1) -> (rd s 0 = 0xED -> rd s 1 < 0xA0) ->
    ~ (rd s 0 = 0xEF /\ rd s 1 = 0xBF /\ 0xBE <= rd s 2) -> sequence s 3
| Seq4 : 0xF0 <= rd s 0 <= 0xF4 -> cont (rd s 1) -> cont (rd s 2) -> cont (rd s 3) -> (rd s 0 = 0xF0 -> 0x90 <= rd s 1) ->
    (rd s 0 = 0xF4 -> rd s 1 < 0x90) -> sequence s 4.

Lemma class_ranges b : byte b ->
  (Z.land b 0xe0 =? 0xc0) = ((0xc0 <=? b) && (b <? 0xe0)) /\ (Z.land b 0xfe =? 0xc0) = ((0xc0 <=? b) && (b <? 0xc2)) /\
  (Z.land b 0xc0 =? 0x80) = ((0x80 <=? b) && (b <? 0xc0)) /\ (Z.land b 0xf0 =? 0xe0) = ((0xe0 <=? b) && (b <? 0xf0)) /\
  (Z.land b 0xe0 =? 0x80) = ((0x80 <=? b) && (b <? 0xa0)) /\ (Z.land b 0xe0 =? 0xa0) = ((0xa0 <=? b) && (b <? 0xc0)) /\
  (Z.land b 0xfe =? 0xbe) = ((0xbe <=? b) && (b <? 0xc0)) /\ (Z.land b 0xf8 =? 0xf0) = ((0xf0 <=? b) && (b <? 0xf8)) /\
  (Z.land b 0xf0 =? 0x80) = ((0x80 <=? b) && (b <? 0x90)).
Proof.
  intros Hb. pose proof (byte_class b Hb) as Hc. unfold byte_classes in Hc. rewrite !andb_true_iff in Hc.
  destruct Hc as ((((((((H1 & H2) & H3) & H4) & H5) & H6) & H7) & H8) & H9). by apply eqb_prop in H1, H2, H3, H4, H5, H6, H7, H8, H9.
Qed.

Lemma sequence_iff s len k : bytes s -> utf8_sequence s len = Some k <-> sequence s k /\ k <= len.
Proof.
  intros Hs. unfold utf8_sequence.
  destruct (class_ranges (rd s 0) (rd_byte s 0 Hs)) as (-> & -> & _ & -> & _ & _ & _ & -> & _).
  destruct (class_ranges (rd s 1) (rd_byte s 1 Hs)) as (_ & _ & -> & _ & -> & -> & _ & _ & ->).
  destruct (class_ranges (rd s 2) (rd_byte s 2 Hs)) as (_ & _ & -> & _ & _ & _ & -> & _ & _).
  destruct (class_ranges (rd s 3) (rd_byte s 3 Hs)) as (_ & _ & -> & _).
  pose proof (rd_byte s 0 Hs) as H0. unfold byte in H0. split.
  - intros Hk. repeat (case_match; [|]); simplify_eq; (split; [|lia]); constructor; unfold cont; lia.
  - intros [Hk Hl]. destruct Hk; unfold cont in *; repeat case_match; try done; exfalso; lia.
Qed.

(** ** One character *)

Ltac no_byte := match goal with H : cont (rd ?l ?i) |- _ => exfalso; change (rd l i) with 0 in H; unfold cont in H; lia end.

Lemma sequence_decodes s k : bytes s -> rd s 0 <> 0 -> sequence s k ->
  exists c, scalar c /\ take (Z.to_nat k) s = utf8_encode c /\ k = Zlength (utf8_encode c).
Proof.
  intros Hs Hnz Hk. pose proof (rd_byte s 0 Hs) as Hb. unfold byte in Hb.
  destruct Hk as [H0|H0 H1|H0 H1 H2 He Hd Hf|H0 H1 H2 H3 He Hf]; destruct s as [|a s]; try done; change (rd (a :: s) 0) with a in *.
  - exists a. unfold utf8_encode. rewrite (proj2 (Z.ltb_lt a _)) by lia. split_and!; try done; unfold scalar; lia.
  - destruct s as [|b s]; [no_byte|]. change (rd (a :: b :: s) 1) with b in *. eexists. rewrite (encode2 a b) by done. split_and!; try done; encode_lia.
  - destruct s as [|b [|c s]]; [no_byte|no_byte|]. change (rd (a :: b :: c :: s) 1) with b in *. change (rd (a :: b :: c :: s) 2) with c in *.
    eexists. rewrite (encode3 a b c) by done. split_and!; try done; encode_lia.
  - destruct s as [|b [|c [|d s]]]; [no_byte|no_byte|no_byte|]. change (rd (a :: b :: c :: d :: s) 1) with b in *. change (rd (a :: b :: c :: d :: s) 2) with c in *.
    change (rd (a :: b :: c :: d :: s) 3) with d in *. eexists. rewrite (encode4 a b c d) by done. split_and!; try done; encode_lia.
Qed.

Lemma rd_first a b c d s : rd (a :: s) 0 = a /\ rd (a :: b :: s) 1 = b /\ rd (a :: b :: c :: s) 2 = c /\ rd (a :: b :: c :: d :: s) 3 = d.
Proof. done. Qed.

Ltac rd_lia := cbn [app]; repeat (rewrite !(proj1 (rd_first _ 0 0 0 _)) || rewrite !(proj1 (proj2 (rd_first _ _ 0 0 _)))
  || rewrite !(proj1 (proj2 (proj2 (rd_first _ _ _ 0 _)))) || rewrite !(proj2 (proj2 (proj2 (rd_first _ _ _ _ _))))); encode_lia.

Lemma encode_sequence c s : scalar c -> sequence (utf8_encode c ++ s) (Zlength (utf8_encode c)).
Proof.
  intros Hc. unfold utf8_encode.
  destruct (Z.ltb_spec c 0x80); [|destruct (Z.ltb_spec c 0x800); [|destruct (Z.ltb_spec c 0x10000)]]; unfold Zlength; cbn [length Z.of_nat].
  - apply Seq1. done.
  - apply Seq2; rd_lia.
  - apply Seq3; rd_lia.
  - apply Seq4; rd_lia.
Qed.

Lemma encode_nonzero c : scalar c -> Forall (fun b => b <> 0) (utf8_encode c).
Proof. intros Hc. unfold utf8_encode. repeat case_match; repeat constructor; encode_lia. Qed.

Lemma encode_length c : (1 <= length (utf8_encode c))%nat.
Proof. unfold utf8_encode. repeat case_match; cbn; lia. Qed.

(** ** Strings *)

Lemma until_nul_app a s : Forall (fun b => b <> 0) a -> until_nul (a ++ s) = a ++ until_nul s.
Proof. induction 1 as [|b a Hb _ IH]; cbn; [done|]. rewrite (proj2 (Z.eqb_neq b 0)) by done. by f_equal. Qed.

Lemma until_nul_prefix s : exists r, s = until_nul s ++ r.
Proof. induction s as [|b s [r IH]]; cbn; [by exists []|]. destruct (b =? 0); [by exists (b :: s)|]. exists r. cbn. by f_equal. Qed.

Lemma c_string_char s len a : Forall (fun b => b <> 0) a -> take (length a) s = a -> Zlength a <= len ->
  c_string s len = a ++ c_string (drop (length a) s) (len - Zlength a).
Proof.
  intros Hn Ht Hl. unfold c_string. rewrite <- (take_drop (length a) s) at 1. rewrite Ht, take_app, (take_ge a) by (unfold Zlength in Hl; lia).
  rewrite until_nul_app by done. do 3 f_equal. unfold Zlength in *. lia.
Qed.

Lemma utf8_loop_iff fuel s len : bytes s -> 0 <= len -> (Z.to_nat len < fuel)%nat -> utf8_loop fuel s len = true <-> encodes (c_string s len).
Proof.
  revert s len. induction fuel as [|fuel IH]; intros s len Hs H0 Hf; [lia|]. cbn [utf8_loop].
  destruct (truth (rd s 0) && (0 <? len)) eqn:Hc.
  - apply andb_true_iff in Hc as [Hnz Hlen]. unfold truth in Hnz. apply negb_true_iff, Z.eqb_neq in Hnz. apply Z.ltb_lt in Hlen. split.
    + destruct (utf8_sequence s len) as [k|] eqn:Hk; [|done]. apply sequence_iff in Hk as [Hk Hkl]; [|done].
      destruct (sequence_decodes s k Hs Hnz Hk) as (c & Hc & Ht & ->). pose proof (encode_length c) as He.
      unfold Zlength at 1 in Ht. rewrite Nat2Z.id in Ht. intros Hr. apply IH in Hr as (cs & Hcs & Hr).
      * exists (c :: cs). split; [by constructor|]. cbn [flat_map]. rewrite (c_string_char s len (utf8_encode c)) by (done || by apply encode_nonzero).
        f_equal. unfold Zlength at 1 in Hr. rewrite Nat2Z.id in Hr. exact Hr.
      * by apply Forall_drop.
      * lia.
      * unfold Zlength in *. lia.
    + intros ([|c cs] & Hcs & He).
      { destruct s as [|a s]; [done|]. unfold c_string in He. destruct (Z.to_nat len) eqn:Hz; [lia|]. cbn in He, Hnz.
        change (rd (a :: s) 0) with a in Hnz. by rewrite (proj2 (Z.eqb_neq a 0)) in He. }
      apply Forall_cons in Hcs as [Hc Hcs]. cbn [flat_map] in He. destruct (until_nul_prefix (take (Z.to_nat len) s)) as [r Hr].
      change (until_nul _) with (c_string s len) in Hr. rewrite He, <- app_assoc in Hr.
      assert (Hle : (length (utf8_encode c) <= Z.to_nat len)%nat).
      { pose proof (f_equal length Hr) as Hl. rewrite length_take, length_app in Hl. lia. }
      assert (Ht : take (length (utf8_encode c)) s = utf8_encode c).
      { replace (length (utf8_encode c)) with (length (utf8_encode c) `min` Z.to_nat len)%nat by lia. rewrite <- take_take, Hr. apply take_app_length. }
      assert (Hseq : utf8_sequence s len = Some (Zlength (utf8_encode c))).
      { apply sequence_iff; [done|]. split; [|unfold Zlength; lia]. rewrite <- (take_drop (length (utf8_encode c)) s) at 1. rewrite Ht. by apply encode_sequence. }
      rewrite Hseq. pose proof (encode_length c) as Hl. apply IH.
      * by apply Forall_drop.
      * unfold Zlength. lia.
      * unfold Zlength. lia.
      * exists cs. split; [done|]. rewrite (c_string_char s len (utf8_encode c)) in He by (done || (by apply encode_nonzero) || unfold Zlength; lia).
        apply app_inv_head in He. unfold Zlength at 1. by rewrite Nat2Z.id.
  - split; [|done]. intros _. exists []. split; [done|]. cbn. unfold c_string. destruct s as [|a s]; [by rewrite take_nil|].
    destruct (Z.to_nat len) eqn:Hz; [done|]. cbn in *. change (rd (a :: s) 0) with a in Hc. unfold truth in Hc.
    rewrite (proj2 (Z.ltb_lt 0 len)), andb_true_r in Hc by lia. apply negb_false_iff in Hc. by rewrite Hc.
Qed.

Lemma utf8_iff s len : bytes s -> 0 <= len -> is_valid_utf8_string (Some s) len = true <-> encodes (c_string s len).
Proof. intros Hs Hl. cbn. apply (utf8_loop_iff (S (Z.to_nat len))); [done|done|lia]. Qed.

(** ** Names and locations *)

Lemma loop_all (P : Z -> Prop) (f : nat -> Z -> bool) i len : (forall fuel i, f (S fuel) i = true <-> (i < len -> P i /\ f fuel (i + 1) = true)) -> (forall i, f O i = true) ->
  0 <= i -> f (Z.to_nat (len - i)) i = true <-> forall j, i <= j < len -> P j.
Proof.
  intros HS HO Hi. remember (Z.to_nat (len - i)) as n eqn:Hn. revert i Hi Hn. induction n as [|n IH]; intros i Hi Hn.
  - split; [lia|]. intros _. apply HO.
  - rewrite HS. assert (Hlt : i < len) by lia. rewrite (IH (i + 1)) by lia. split.
    + intros H j Hj. destruct (H Hlt) as [H1 H2]. destruct (decide (j = i)) as [->|]; [done|]. apply H2. lia.
    + intros H _. split; [apply H; lia|]. intros j Hj. apply H. lia.
Qed.

Lemma name_loop_iff s len : 0 <= len ->
  name_loop (Z.to_nat len) s 0 len = true <-> forall j, 0 <= j < len -> rd s j <> ascii_dot /\ rd s j <> ascii_underscore.
Proof.
  intros Hl. rewrite <- (Z.sub_0_r len) at 1. apply (loop_all _ (fun n i => name_loop n s i len)); [|done|lia]. intros fuel i. cbn [name_loop].
  destruct (Z.ltb_spec i len); [|split; [lia|done]]. destruct (Z.eqb_spec (rd s i) ascii_dot), (Z.eqb_spec (rd s i) ascii_underscore); cbn [orb]; naive_solver.
Qed.

Lemma location_loop_iff s len : 0 <= len ->
  location_loop (Z.to_nat len) s 0 len = true <->
  forall j, 0 <= j < len -> rd s j <> ascii_underscore /\ ~ (1 <= j /\ rd s j = ascii_dot /\ rd s (j - 1) = ascii_dash).
Proof.
  intros Hl. rewrite <- (Z.sub_0_r len) at 1. apply (loop_all _ (fun n i => location_loop n s i len)); [|done|lia]. intros fuel i. cbn [location_loop].
  destruct (Z.ltb_spec i len); [|split; [lia|done]]. rewrite (proj2 (Z.leb_le i (len - 1))) by lia.
  destruct (Z.eqb_spec (rd s i) ascii_underscore), (Z.leb_spec 1 i), (Z.eqb_spec (rd s i) ascii_dot), (Z.eqb_spec (rd s (i - 1)) ascii_dash);
    cbn [andb]; naive_solver lia.
Qed.

Lemma rd_take s len (n := take (Z.to_nat len) s) j : 0 <= j < len -> len <= Zlength s -> n !! Z.to_nat j = Some (rd s j).
Proof.
  intros Hj Hl. unfold n. rewrite lookup_take_lt by lia. unfold rd. destruct (lookup_lt_is_Some_2 s (Z.to_nat j)) as [x Hx]; [unfold Zlength in Hl; lia|].
  by rewrite Hx.
Qed.

Lemma last_take s len : 0 < len <= Zlength s -> last (take (Z.to_nat len) s) = Some (rd s (len - 1)).
Proof.
  intros Hl. rewrite last_lookup, length_take. rewrite <- (rd_take s len (len - 1)) by lia. f_equal. unfold Zlength in Hl. lia.
Qed.

Lemma all_take (P : Z -> Prop) s len : 0 <= len <= Zlength s -> (forall j, 0 <= j < len -> P (rd s j)) <-> Forall P (take (Z.to_nat len) s).
Proof.
  intros Hl. rewrite Forall_lookup. split.
  - intros H i x Hx. pose proof (lookup_lt_Some _ _ _ Hx) as Hi. rewrite length_take in Hi. specialize (H (Z.of_nat i)).
    pose proof (rd_take s len (Z.of_nat i)) as Hr. rewrite Nat2Z.id, Hx in Hr. assert (x = rd s (Z.of_nat i)) as -> by (injection (Hr ltac:(lia) ltac:(lia)); done).
    apply H. lia.
  - intros H j Hj. apply (H (Z.to_nat j)). apply rd_take; lia.
Qed.

Lemma location_loop_take s len (n := take (Z.to_nat len) s) : 0 <= len <= Zlength s ->
  location_loop (Z.to_nat len) s 0 len = true <->
  Forall (fun b => b <> ascii_underscore) n /\ forall i, n !! i = Some ascii_dash -> n !! S i <> Some ascii_dot.
Proof.
  intros Hl. rewrite location_loop_iff by lia. unfold n. rewrite <- (all_take (fun b => b <> ascii_underscore) s len) by lia. split.
  - intros H. split; [intros j Hj; by apply H|]. intros i Hi Hi'. pose proof (lookup_lt_Some _ _ _ Hi') as Hlt. rewrite length_take in Hlt.
    pose proof (rd_take s len (Z.of_nat i) ltac:(lia) ltac:(lia)) as Hr. pose proof (rd_take s len (Z.of_nat (S i)) ltac:(lia) ltac:(lia)) as Hr'.
    rewrite Nat2Z.id in Hr, Hr'. destruct (H (Z.of_nat (S i)) ltac:(lia)) as [_ H2]. apply H2.
    replace (Z.of_nat (S i) - 1) with (Z.of_nat i) by lia. split_and!; [lia|congruence|congruence].
  - intros [H1 H2] j Hj. split; [by apply H1|]. intros (Hj1 & Hd & Hp). apply (H2 (Z.to_nat (j - 1))).
    + rewrite rd_take by lia. by rewrite Hp.
    + replace (S (Z.to_nat (j - 1))) with (Z.to_nat j) by lia. rewrite rd_take by lia. by rewrite Hd.
Qed.

(** What the loops and tests of the code come to. *)
Lemma names_accepted s len (n := take (Z.to_nat len) s) : bytes s -> 0 < len <= Zlength s ->
  (is_valid_mdns_name s len = true <->
     Forall (fun b => b <> ascii_dot /\ b <> ascii_underscore) n /\ last n <> Some ascii_dash /\ last n <> Some 0 /\ encodes (until_nul n)) /\
  (is_valid_mdns_location s len = true <->
     Forall (fun b => b <> ascii_underscore) n /\ head n <> Some ascii_dot /\ last n <> Some ascii_dot /\
     (forall i, n !! i = Some ascii_dash -> n !! S i <> Some ascii_dot) /\ encodes (until_nul n)).
Proof.
  intros Hs Hl. pose proof (last_take s len Hl) as Hlast. pose proof (utf8_iff s len Hs ltac:(lia)) as Hu.
  fold n in Hlast. change (c_string s len) with (until_nul n) in Hu. split.
  - unfold is_valid_mdns_name. rewrite (proj2 (Z.eqb_neq len 0)) by lia. pose proof (name_loop_iff s len ltac:(lia)) as Hn.
    rewrite (all_take (fun b => b <> ascii_dot /\ b <> ascii_underscore) s len) in Hn by lia. fold n in Hn.
    rewrite <- Hn, Hlast, <- Hu. destruct (name_loop _ _ _ _); cbn [negb]; [|split; [done|by intros [? _]]].
    destruct (Z.eqb_spec (rd s (len - 1)) ascii_dash), (Z.eqb_spec (rd s (len - 1)) 0); split; try done; try (intros (_ & ? & ? & _); congruence).
    + intros ?. split_and!; congruence.
    + by intros (_ & _ & _ & ?).
  - unfold is_valid_mdns_location. rewrite (proj2 (Z.eqb_neq len 0)) by lia.
    assert (Hhead : head n = Some (rd s 0)) by (rewrite <- (rd_take s len 0) by lia; fold n; by destruct n).
    pose proof (location_loop_take s len ltac:(lia)) as Hloop. fold n in Hloop.
    rewrite Hhead, Hlast, <- Hu. destruct (Z.eqb_spec (rd s 0) ascii_dot); cbn [orb]; [split; [done|intros (_ & ? & _); congruence]|].
    destruct (Z.eqb_spec (rd s (len - 1)) ascii_dot); [split; [done|intros (_ & _ & ? & _); congruence]|].
    destruct (location_loop _ _ _ _); cbn [negb]; [|split; [done|]; intros (? & _ & _ & ? & _); by apply Hloop].
    destruct (proj1 Hloop eq_refl) as [H1 H2]. split; [intros ?; split_and!; (done || congruence)|by intros (_ & _ & _ & _ & ?)].
Qed.

(** ** The rules of the specification

    As the comments in the code quote them from SDS13782. *)

(** The parts of a location, separated by dots. *)
Fixpoint parts (n : list Z) : list (list Z) :=
  match n with
  | [] => [[]]
  | b :: n => if b =? ascii_dot then [] :: parts n else match parts n with p :: ps => (b :: p) :: ps | [] => [[b]] end
  end.

Definition no_dash_at_end (n : list Z) : Prop := last n <> Some ascii_dash.

(** No dot, no underscore, no dash at the end. *)
Definition documented_name (n : list Z) : Prop :=
  Forall (fun b => b <> ascii_dot) n /\ Forall (fun b => b <> ascii_underscore) n /\ no_dash_at_end n.

(** No dot at the start or the end, no underscore, and no part with a dash at its end. *)
Definition documented_location (n : list Z) : Prop :=
  head n <> Some ascii_dot /\ last n <> Some ascii_dot /\ Forall (fun b => b <> ascii_underscore) n /\ Forall no_dash_at_end (parts n).

Lemma parts_step b n : parts (b :: n) = if b =? ascii_dot then [] :: parts n else match parts n with p :: ps => (b :: p) :: ps | [] => [[b]] end.
Proof. done. Qed.

Lemma parts_cons n : exists p ps, parts n = p :: ps.
Proof. destruct n as [|b n]; cbn; [eauto|]. destruct (b =? ascii_dot); [eauto|]. destruct (parts n); eauto. Qed.

(** An empty first part comes of an empty string or of a dot. *)
Lemma parts_head n ps : parts n = [] :: ps -> (n = [] /\ ps = []) \/ head n = Some ascii_dot.
Proof.
  destruct n as [|b n]; cbn; [intros [= <-]; by left|]. destruct (Z.eqb_spec b ascii_dot) as [->|]; [by right|]. by destruct (parts n).
Qed.
Lemma parts_dot n : head n = Some ascii_dot -> exists ps, parts n = [] :: ps /\ ps <> [].
Proof.
  destruct n as [|b n]; [done|]. cbn. intros [= ->]. destruct (parts_cons n) as (p & ps & ->). by eexists.
Qed.

Definition no_dash_before_dot (n : list Z) : Prop := forall i, n !! i = Some ascii_dash -> n !! S i <> Some ascii_dot.

Lemma no_dash_cons b n : no_dash_before_dot (b :: n) <-> (b = ascii_dash -> head n <> Some ascii_dot) /\ no_dash_before_dot n.
Proof.
  unfold no_dash_before_dot. split.
  - intros H. split; [intros ->; specialize (H 0%nat eq_refl); by destruct n|]. intros i. apply (H (S i)).
  - intros [H0 H] [|i]; [|apply H]. cbn. intros [= ->]. specialize (H0 eq_refl). by destruct n.
Qed.

(** The loop of the code looks at all parts but the last. *)
Lemma parts_before_dot n : no_dash_before_dot n <-> Forall no_dash_at_end (removelast (parts n)).
Proof.
  induction n as [|b n IH]; [by split; [constructor|intros _ i]|]. rewrite no_dash_cons, IH. clear IH. cbn [parts].
  destruct (parts_cons n) as (p & ps & Hp). destruct (Z.eqb_spec b ascii_dot) as [->|Hb].
  - rewrite Hp. change (removelast ([] :: p :: ps)) with ([] :: removelast (p :: ps)). rewrite Forall_cons. split; intros [? ?]; by split.
  - rewrite Hp. destruct ps as [|q ps].
    + cbn [removelast]. split; [done|]. intros _. split; [|done]. intros _ Hd. destruct (parts_dot n Hd) as (ps & Hps & Hne). congruence.
    + change (removelast ((b :: p) :: q :: ps)) with ((b :: p) :: removelast (q :: ps)). change (removelast (p :: q :: ps)) with (p :: removelast (q :: ps)).
      rewrite !Forall_cons. unfold no_dash_at_end at 1 3. destruct p as [|c p]; [|rewrite last_cons_cons; split; [by intros [_ ?]|intros [? ?]; split; [|done]]].
      * destruct (parts_head n _ Hp) as [[_ ?]|Hd]; [done|]. cbn. split; [intros [Hn [_ Hf]]; split; [intros [= ->]; by apply Hn|done]|].
        intros [Hn Hf]. split_and!; [intros ->; done|done|done].
      * intros _ Hd. destruct (parts_dot n Hd) as (ps' & Hps & _). congruence.
Qed.

(** What the last part ends with, when there is one. *)
Lemma parts_end n ps p : parts n = ps ++ [p] -> last n <> Some ascii_dot -> last n = last p.
Proof.
  revert ps p. induction n as [|b n IH]; intros ps p Hp Hl.
  { destruct ps as [|? [|]]; cbn in Hp; by simplify_eq. }
  rewrite parts_step in Hp. destruct (parts_cons n) as (q & qs & Hq). rewrite Hq in *. destruct (Z.eqb_spec b ascii_dot) as [->|Hb].
  - destruct n as [|c n]; [done|]. rewrite last_cons_cons in Hl |- *. destruct ps as [|? ps]; [done|]. injection Hp as _ Hp. by apply (IH ps).
  - destruct n as [|c n].
    { injection Hq as <- <-. destruct ps as [|? [|]]; cbn in Hp; by simplify_eq. }
    rewrite last_cons_cons in Hl |- *. destruct ps as [|q' ps].
    + injection Hp as <- ->. rewrite (IH [] q eq_refl Hl). destruct q; [|by rewrite last_cons_cons].
      destruct (parts_head _ _ Hq) as [[? _]|Hd]; [done|]. destruct (parts_dot _ Hd) as (? & ? & ?). congruence.
    + injection Hp as _ ->. by apply (IH (q :: ps)).
Qed.

Lemma parts_last n : last n <> Some ascii_dot -> Forall no_dash_at_end (parts n) <-> Forall no_dash_at_end (removelast (parts n)) /\ no_dash_at_end n.
Proof.
  intros Hl. destruct (exists_last (l := parts n)) as (ps & p & Hp); [by destruct (parts_cons n) as (? & ? & ->)|].
  unfold no_dash_at_end at 3. rewrite (parts_end n ps p Hp Hl), Hp, removelast_last, Forall_app, Forall_singleton. done.
Qed.

(** C25. [is_valid_mdns_name] and [is_valid_mdns_location] against the rules they
    quote, for every buffer and length.  A name is accepted exactly when it
    satisfies the documented rules (no dot, no underscore, no dash at the end),
    does not end with a zero byte and is UTF-8.  A location is accepted exactly
    when it has no dot at its start or end and no underscore, all its parts but
    the last end without a dash, and it is UTF-8: the documented rules hold
    exactly for the accepted locations that do not end with a dash.  UTF-8 is, up
    to the first zero byte, the encoding of a sequence of Unicode characters (no
    overlong forms, surrogate halves, values above U+10FFFF or the non-characters
    U+FFFE and U+FFFF). *)
Theorem names_accepted_exactly s len (n := take (Z.to_nat len) s) : bytes s -> 0 < len <= Zlength s ->
  (is_valid_mdns_name s len = true <-> documented_name n /\ last n <> Some 0 /\ encodes (until_nul n)) /\
  (is_valid_mdns_location s len = true <->
     head n <> Some ascii_dot /\ last n <> Some ascii_dot /\ Forall (fun b => b <> ascii_underscore) n /\
     Forall no_dash_at_end (removelast (parts n)) /\ encodes (until_nul n)) /\
  (documented_location n /\ encodes (until_nul n) <-> is_valid_mdns_location s len = true /\ no_dash_at_end n).
Proof.
  intros Hs Hl. destruct (names_accepted s len Hs Hl) as [Hn Hloc]. fold n in Hn, Hloc. change (forall i, n !! i = Some ascii_dash -> n !! S i <> Some ascii_dot) with (no_dash_before_dot n) in Hloc.
  rewrite parts_before_dot in Hloc. split_and!.
  - rewrite Hn, Forall_and. unfold documented_name, no_dash_at_end. tauto.
  - rewrite Hloc. tauto.
  - rewrite Hloc. unfold documented_location. split; [intros ((? & ? & ? & Hp) & ?)|intros ((? & ? & ? & ? & ?) & ?)].
    + apply parts_last in Hp as [? ?]; [|done]. tauto.
    + split_and!; try done. apply parts_last; tauto.
Qed.

(** "Stue" in a buffer of eight bytes, and the location "1.sal". *)
Lemma names_accepted_witness :
  documented_name [0x53; 0x74; 0x75; 0x65] /\ documented_location [0x31; 0x2E; 0x73; 0x61; 0x6C].
Proof.
  assert (H1 : is_valid_mdns_name [0x53; 0x74; 0x75; 0x65; 0x2D; 0x2D; 0; 0] 4 = true) by reflexivity.
  assert (H2 : is_valid_mdns_location [0x31; 0x2E; 0x73; 0x61; 0x6C] 5 = true) by reflexivity.
  split.
  - refine (proj1 (proj1 (proj1 (names_accepted_exactly [0x53; 0x74; 0x75; 0x65; 0x2D; 0x2D; 0; 0] 4 _ _)) H1));
      [forall_list; unfold byte; lia|by vm_compute].
  - refine (proj1 (proj2 (proj2 (proj2 (names_accepted_exactly [0x31; 0x2E; 0x73; 0x61; 0x6C] 5 _ _))) (conj H2 _)));
      [forall_list; unfold byte; lia|by vm_compute|by vm_compute].
Defined.

(** A location whose last part ends with a dash is accepted. *)
Theorem location_may_end_with_dash :
  is_valid_mdns_location [0x61; 0x2E; 0x62; 0x2D] 4 = true /\ ~ documented_location [0x61; 0x2E; 0x62; 0x2D].
Proof.
  split; [reflexivity|]. intros (_ & _ & _ & Hp). apply Forall_cons in Hp as [_ Hp]. apply Forall_cons in Hp as [Hp _]. by apply Hp.
Qed.

(** What follows a zero byte inside a name is not checked to be UTF-8. *)
Theorem name_not_checked_after_zero : is_valid_mdns_name [0x61; 0; 0xFF; 0xFE] 4 = true.
Proof. reflexivity. Qed.
