(* ===== verification/ProvisioningCC.v ===== *)
(** * The provisioning list command class (src/src/CC_provisioning_list.c)

    Clients read and change the provisioning list with four commands: Set,
    Delete, Get and Iteration Get.  After every command the controller is told to
    listen for new nodes, or not to, as the list has become
    ([NetworkManagement_smart_start_init_if_pending]).

    A frame is the memory from [pData] on, which may go on after the [bDatalen]
    bytes of the frame, and reads as 0 where nothing is known.  The handler sends
    the first bytes of its static buffer [buf]; a report is the list of the bytes
    written there.  Look-ups in the resource directory and the state of network
    management are arguments ([pvl_env]). *)

From S2P Require Import Prelude Nodemask Provisioning ZgwStr.
#[local] Open Scope Z_scope.

Inductive command_handler_codes_t :=
| COMMAND_HANDLED | COMMAND_PARSE_ERROR | COMMAND_BUSY | COMMAND_NOT_SUPPORTED | CLASS_NOT_SUPPORTED | COMMAND_POSTPONED | COMMAND_CLASS_DISABLED.
#[export] Instance codes_dec : EqDecision command_handler_codes_t.
Proof. solve_decision. Defined.

Definition COMMAND_CLASS_PROVISIONING_LIST : Z := 0x78.
Definition COMMAND_PROVISION_SET : Z := 0x01.
Definition COMMAND_PROVISION_DELETE : Z := 0x02.
Definition COMMAND_PROVISION_ITER_GET : Z := 0x03.
Definition COMMAND_PROVISION_ITER_REPORT : Z := 0x04.
Definition COMMAND_PROVISION_GET : Z := 0x05.
Definition COMMAND_PROVISION_REPORT : Z := 0x06.
Definition PROVISIONING_LIST_DSK_LENGTH_MASK : Z := 0x1F.
Definition PROVISIONING_LIST_OPT_CRITICAL_FLAG : Z := 0x01.
Definition PVS_TLV_TYPE_PRODUCT_TYPE : Z := 0.
Definition PVS_TLV_TYPE_PRODUCT_ID : Z := 1.
Definition PVS_TLV_TYPE_MAX_INCL_REQ_INTERVAL : Z := 2.
Definition PVS_TLV_TYPE_UUID16 : Z := 3.
Definition PVS_TLV_TYPE_NAME : Z := 0x32.
Definition PVS_TLV_TYPE_LOCATION : Z := 0x33.
Definition PVS_TLV_TYPE_STATUS : Z := 0x34.
Definition PVS_TLV_TYPE_BOOTSTRAP_MODE : Z := 0x36.
Definition PVS_TLV_TYPE_NETWORK_INFO : Z := 0x37.
Definition PVS_NETSTATUS_NOT_IN_NETWORK : Z := 0.
Definition PVS_NETSTATUS_INCLUDED : Z := 1.
Definition PVS_NETSTATUS_FAILING : Z := 2.
Definition TLV_NOT_PRESENT : Z := 0xFFFF.
Definition ADD_NODE_SMART_START : Z := 9.
Definition ADD_NODE_STOP : Z := 5.
Definition ADD_NODE_OPTION_NETWORK_WIDE : Z := 0x40.
Definition ADD_NODE_OPTION_SFLND : Z := 0x10.
Definition BUF_SIZE : Z := 2000.

(** ** State and environment *)

Record pvl_env := mkPvlEnv {
  pl_env : pvs_env;
  rd_lookup_by_dsk : list Z -> option (Z * bool);   (* node and whether it is failing *)
  smart_start_idle : bool;                          (* enabled, not probing, idle *)
  skip_flirs : bool                                 (* should_skip_flirs_nodes_be_used *)
}.

(** [pvl_null]: the handler has used an iterator that could not be allocated. *)
Record pvl := mkPvl {
  pl : pvs; curr_iter : option provisioning_list_iter; pvl_sent : list (list Z); pvl_add_mode : list Z; pvl_null : bool
}.
#[export] Instance pvl_eta : EtaRecord pvl := fun s => mkPvl (pl s) (curr_iter s) (pvl_sent s) (pvl_add_mode s) (pvl_null s).

Definition ZW_SendDataZIP (r : list Z) (st : pvl) : pvl := st <| pvl_sent := pvl_sent st ++ [r] |>.

(** [n] bytes from [off] on. *)
Definition mem_bytes (mem : list Z) (off n : Z) : list Z := map (fun i => rd mem (off + Z.of_nat i)) (seq 0 (Z.to_nat n)).

Definition NetworkManagement_smart_start_init_if_pending (E : pvl_env) (st : pvl) : pvl :=
  if negb (smart_start_idle E) then st
  else if 0 <? provisioning_list_pending_count (fun d => bool_decide (is_Some (rd_lookup_by_dsk E d))) (pl st) then
    let mode := Z.lor ADD_NODE_SMART_START ADD_NODE_OPTION_NETWORK_WIDE in
    st <| pvl_add_mode := pvl_add_mode st ++ [if skip_flirs E then Z.lor mode ADD_NODE_OPTION_SFLND else mode] |>
  else st <| pvl_add_mode := pvl_add_mode st ++ [ADD_NODE_STOP] |>.

(** ** Reports *)

Definition tlv_report (t : pvs_tlv) : list Z :=
  [u8 (Z.lor (Z.shiftl (tlv_type t) 1) (provisioning_list_tlv_crt_flag (tlv_type t))); tlv_length t] ++ take (Z.to_nat (tlv_length t)) (tlv_value t).

Definition network_info (E : pvl_env) (d : list Z) : list Z :=
  match rd_lookup_by_dsk E d with
  | None => [0; PVS_NETSTATUS_NOT_IN_NETWORK; 0; 0]
  | Some (nodeid, failing) =>
      [if is_lr_node nodeid then 0 else u8 nodeid; if failing : bool then PVS_NETSTATUS_FAILING else PVS_NETSTATUS_INCLUDED]
      ++ (if is_lr_node nodeid then [u8 (Z.shiftr nodeid 8); Z.land nodeid 0xFF] else [0; 0])
  end.

Definition CC_provisioning_list_add_tlvs (E : pvl_env) (p : provision) : list Z :=
  [Z.lor (Z.shiftl PVS_TLV_TYPE_BOOTSTRAP_MODE 1) 1; 1; u8 (bootmode p)]
  ++ [Z.lor (Z.shiftl PVS_TLV_TYPE_STATUS 1) 1; 1; u8 (pvs_status p)]
  ++ [Z.shiftl PVS_TLV_TYPE_NETWORK_INFO 1; 4] ++ network_info E (default [] (dsk p))
  ++ concat (map tlv_report (tlv_list p)).

Definition dsk_report (p : provision) : list Z :=
  Z.land (dsk_len p) PROVISIONING_LIST_DSK_LENGTH_MASK :: take (Z.to_nat (dsk_len p)) (default [] (dsk p)).

Definition CC_provisioning_list_build_report (E : pvl_env) (entry : option provision) (seqNo : Z) : list Z :=
  [COMMAND_CLASS_PROVISIONING_LIST; COMMAND_PROVISION_REPORT; u8 seqNo]
  ++ match entry with None => [0] | Some p => dsk_report p ++ CC_provisioning_list_add_tlvs E p end.

(** ** Set *)

(** What the loop over the records of the frame collects. *)
Record set_tlvs := mkSet {
  t_name : option (list Z); t_location : option (list Z); t_product_id : option (list Z); t_product_type : option (list Z);
  t_interval : Z; t_uuid16 : option (list Z); t_mode : Z; t_status : Z; t_keys : Z
}.
#[export] Instance set_tlvs_eta : EtaRecord set_tlvs := fun s =>
  mkSet (t_name s) (t_location s) (t_product_id s) (t_product_type s) (t_interval s) (t_uuid16 s) (t_mode s) (t_status s) (t_keys s).
Definition no_tlvs : set_tlvs := mkSet None None None None TLV_NOT_PRESENT None TLV_NOT_PRESENT TLV_NOT_PRESENT TLV_NOT_PRESENT.

(** One record at [tlv]; nothing is a parse error. *)
Definition set_one_tlv (mem : list Z) (tlv : Z) (a : set_tlvs) : option set_tlvs :=
  let type := rd mem tlv in
  let len := rd mem (tlv + 1) in
  let v := mem_bytes mem (tlv + 2) len in
  let t := Z.shiftr type 1 in
  if t =? PVS_TLV_TYPE_NAME then Some (a <| t_name := Some v |>)
  else if t =? PVS_TLV_TYPE_LOCATION then Some (a <| t_location := Some v |>)
  else if t =? PVS_TLV_TYPE_BOOTSTRAP_MODE then Some (a <| t_mode := rd mem (tlv + 2) |>)
  else if t =? PVS_TLV_TYPE_PRODUCT_TYPE then if len <? 4 then None else Some (a <| t_product_type := Some v |>)
  else if t =? PVS_TLV_TYPE_PRODUCT_ID then if len <? 8 then None else Some (a <| t_product_id := Some v |>)
  else if t =? PVS_TLV_TYPE_STATUS then if len <? 1 then None else Some (a <| t_status := rd mem (tlv + 2) |>)
  else if t =? PVS_TLV_TYPE_NETWORK_INFO then Some a
  else if t =? PVS_TLV_TYPE_ADV_JOIN then if len <? 1 then None else Some (a <| t_keys := rd mem (tlv + 2) |>)
  else if t =? PVS_TLV_TYPE_MAX_INCL_REQ_INTERVAL then if len <? 1 then None else Some (a <| t_interval := rd mem (tlv + 2) |>)
  else if t =? PVS_TLV_TYPE_UUID16 then if len <? 17 then None else Some (a <| t_uuid16 := Some (mem_bytes mem (tlv + 2) 17) |>)
  else if truth (Z.land type PROVISIONING_LIST_OPT_CRITICAL_FLAG) then None
  else Some a.

(** Every round takes two bytes at least: the length of the frame is fuel enough. *)
Fixpoint set_tlv_loop (fuel : nat) (mem : list Z) (tlv end_ : Z) (a : set_tlvs) : option set_tlvs :=
  match fuel with
  | O => Some a
  | S fuel =>
      if tlv <? end_ - 2 then
        let len := rd mem (tlv + 1) in
        if end_ <? tlv + 2 + len then Some a
        else match set_one_tlv mem tlv a with
             | Some a => set_tlv_loop fuel mem (tlv + 2 + len) end_ a
             | None => None
             end
      else Some a
  end.

Definition name_accepted (v : option (list Z)) (valid : list Z -> Z -> bool) : bool :=
  match v with Some v => (Zlength v =? 0) || valid v (Zlength v) | None => true end.

Definition tlv_set_opt (E : pvl_env) (i : nat) (type : Z) (v : option (list Z)) (st : pvs) : pvs :=
  match v with Some v => snd (provisioning_list_tlv_set (pl_env E) i type v st) | None => st end.
Definition present (z : Z) : option (list Z) := if z =? TLV_NOT_PRESENT then None else Some [Z.land z 0xFF].

(** The entry, old or new; nothing if there is no room. *)
Definition set_entry (E : pvl_env) (d : list Z) (a : set_tlvs) (st : pvs) : option nat * pvs :=
  match provisioning_list_dev_get d st with
  | None =>
      let mode := if t_mode a =? TLV_NOT_PRESENT then PVS_BOOTMODE_SMART_START else t_mode a in
      provisioning_list_dev_add (pl_env E) d mode st
  | Some i => (Some i, if t_mode a =? TLV_NOT_PRESENT then st else provisioning_list_bootmode_set (pl_env E) i (t_mode a) st)
  end.

Definition set_records (E : pvl_env) (i : nat) (a : set_tlvs) (st : pvs) : pvs :=
  let st := if t_status a =? TLV_NOT_PRESENT then st else provisioning_list_status_set (pl_env E) i (t_status a) st in
  let st := tlv_set_opt E i PVS_TLV_TYPE_NAME (t_name a) st in
  let st := tlv_set_opt E i PVS_TLV_TYPE_LOCATION (t_location a) st in
  let st := tlv_set_opt E i PVS_TLV_TYPE_ADV_JOIN (present (t_keys a)) st in
  let st := tlv_set_opt E i PVS_TLV_TYPE_PRODUCT_TYPE (t_product_type a) st in
  let st := tlv_set_opt E i PVS_TLV_TYPE_PRODUCT_ID (t_product_id a) st in
  let st := tlv_set_opt E i PVS_TLV_TYPE_MAX_INCL_REQ_INTERVAL (present (t_interval a)) st in
  tlv_set_opt E i PVS_TLV_TYPE_UUID16 (t_uuid16 a) st.

Definition provision_set (E : pvl_env) (mem : list Z) (bDatalen : Z) (st : pvl) : command_handler_codes_t * pvl :=
  let dsklen := Z.land (rd mem 3) PROVISIONING_LIST_DSK_LENGTH_MASK in
  if bDatalen <? 4 + dsklen then (COMMAND_PARSE_ERROR, st)
  else if dsklen <? 16 then (COMMAND_PARSE_ERROR, st)
  else match set_tlv_loop (Z.to_nat bDatalen) mem (4 + dsklen) bDatalen no_tlvs with
       | None => (COMMAND_PARSE_ERROR, st)
       | Some a =>
           if negb (name_accepted (t_name a) is_valid_mdns_name) then (COMMAND_PARSE_ERROR, st)
           else if negb (name_accepted (t_location a) is_valid_mdns_location) then (COMMAND_PARSE_ERROR, st)
           else let '(i, l) := set_entry E (mem_bytes mem 4 dsklen) a (pl st) in
                (COMMAND_HANDLED, st <| pl := match i with Some i => set_records E i a l | None => l end |>)
       end.

(** ** Delete, iteration and Get *)

Definition provision_delete (E : pvl_env) (mem : list Z) (bDatalen : Z) (st : pvl) : command_handler_codes_t * pvl :=
  let dsklen := Z.land (rd mem 3) PROVISIONING_LIST_DSK_LENGTH_MASK in
  if (4 <=? bDatalen) && (dsklen =? 0) then (COMMAND_HANDLED, st <| pl := provisioning_list_clear (pl_env E) (pl st) |>)
  else if bDatalen <? 4 + dsklen then (COMMAND_PARSE_ERROR, st)
  else (COMMAND_HANDLED, st <| pl := snd (provisioning_list_dev_remove (pl_env E) (mem_bytes mem 4 dsklen) (pl st)) |>).

(** The report on the next device of the iterator. *)
Definition iter_report (E : pvl_env) (seqNo : Z) (it : provisioning_list_iter) (st : pvl) : pvl :=
  let '(entry, it) := provisioning_list_iter_get_next it (pl st) in
  let st := st <| curr_iter := Some it |> in
  let hdr := [COMMAND_CLASS_PROVISIONING_LIST; COMMAND_PROVISION_ITER_REPORT; seqNo; u8 (it_cnt it - it_next it)] in
  match entry with
  | None => ZW_SendDataZIP (hdr ++ [0]) st
  | Some i =>
      let l := if pvs_status (slot (pl st) i) =? PVS_STATUS_PASSIVE then provisioning_list_status_set (pl_env E) i PVS_STATUS_PENDING (pl st) else pl st in
      let p := slot l i in
      ZW_SendDataZIP (hdr ++ dsk_report p ++ CC_provisioning_list_add_tlvs E p) (st <| pl := l |>)
  end.

Definition provision_iter_get (E : pvl_env) (mem : list Z) (st : pvl) : command_handler_codes_t * pvl :=
  let remaining := rd mem 3 in
  if remaining =? 0xFF then
    match provisioning_list_iterator_get (pl_env E) (pl st) with
    | Some it => (COMMAND_HANDLED, iter_report E (rd mem 2) it st)
    | None => (COMMAND_HANDLED, st <| curr_iter := None |> <| pvl_null := true |>)
    end
  else match curr_iter st with
       | None => (COMMAND_PARSE_ERROR, st)
       | Some it =>
           if remaining =? it_cnt it - it_next it then (COMMAND_HANDLED, iter_report E (rd mem 2) it st) else (COMMAND_PARSE_ERROR, st)
       end.

Definition provision_get (E : pvl_env) (mem : list Z) (st : pvl) : command_handler_codes_t * pvl :=
  let entry := provisioning_list_dev_get (mem_bytes mem 4 (rd mem 3)) (pl st) in
  (COMMAND_HANDLED, ZW_SendDataZIP (CC_provisioning_list_build_report E (slot (pl st) <$> entry) (rd mem 2)) st).

Definition PVL_CommandHandler (E : pvl_env) (mem : list Z) (bDatalen : Z) (st : pvl) : command_handler_codes_t * pvl :=
  let '(code, st) :=
    if bDatalen <? 2 then (COMMAND_PARSE_ERROR, st)
    else if rd mem 1 =? COMMAND_PROVISION_SET then provision_set E mem bDatalen st
    else if rd mem 1 =? COMMAND_PROVISION_DELETE then provision_delete E mem bDatalen st
    else if rd mem 1 =? COMMAND_PROVISION_ITER_GET then provision_iter_get E mem st
    else if rd mem 1 =? COMMAND_PROVISION_GET then provision_get E mem st
    else (COMMAND_NOT_SUPPORTED, st) in
  (code, NetworkManagement_smart_start_init_if_pending E st).
