(* ===== verification/ProvisioningCCRun.v ===== *)
(** * What the commands do to the provisioning list

    Every command is a sequence of operations of the list, so the list and its
    command class together implement the map of devices; reports fit the buffer
    they are built in, and an iteration reports every device once. *)

From S2P Require Import Prelude Nodemask Provisioning ProvisioningRun ProvisioningFile ZgwStr ProvisioningCC.
#[local] Open Scope Z_scope.

(** ** Bytes of a frame *)

Lemma length_mem_bytes mem off n : 0 <= n -> Zlength (mem_bytes mem off n) = n.
Proof. intros Hn. unfold mem_bytes, Zlength. rewrite length_map, length_seq. lia. Qed.

Lemma mem_bytes_bytes mem off n : bytes mem -> bytes (mem_bytes mem off n).
Proof. intros Hm. unfold mem_bytes. apply Forall_forall. intros x (i & -> & _)%list_elem_of_fmap. by apply rd_byte. Qed.

Lemma mem_bytes_sub mem off n : 0 <= off -> 0 <= n -> off + n <= Zlength mem -> mem_bytes mem off n = sub_buf mem off n.
Proof.
  intros Ho Hn Hl. apply list_eq_same_length with (n := Z.to_nat n).
  - by rewrite length_sub_buf.
  - unfold mem_bytes. by rewrite length_map, length_seq.
  - intros i x y Hi Hx Hy. unfold mem_bytes in Hx. apply list_lookup_fmap_Some in Hx as (j & -> & Hj). apply lookup_seq in Hj as [-> _].
    rewrite lookup_sub_buf in Hy by lia. unfold rd. cbn. replace (Z.to_nat (off + Z.of_nat i)) with (Z.to_nat off + i)%nat by lia. by rewrite Hy.
Qed.

(** ** Slots and keys *)

Definition ident (p : provision) : option (list Z) * Z := (dsk p, dsk_len p).
Definition same_keys (st st' : pvs) : Prop := map ident (pvs_list st) = map ident (pvs_list st').

Lemma find_slot_ident (f : provision -> bool) (g : option (list Z) * Z -> bool) st st' : (forall p, f p = g (ident p)) -> same_keys st st' ->
  find_slot f st = find_slot f st'.
Proof.
  intros Hf. unfold same_keys, find_slot. generalize (pvs_list st) as l, (pvs_list st') as l'.
  induction l as [|p l IH]; intros [|p' l'] H; try done. cbn in H |- *. injection H as Hp Hd Hl.
  assert (Hpp : f p = f p') by (rewrite !Hf; unfold ident; congruence). rewrite Hpp. destruct (decide (f p' = true)); [done|].
  specialize (IH l' Hl). destruct (list_find _ l) as [[]|], (list_find _ l') as [[]|]; cbn in *; congruence.
Qed.

Lemma same_keys_dev_get d st st' : same_keys st st' -> provisioning_list_dev_get d st = provisioning_list_dev_get d st'.
Proof.
  intros H. unfold provisioning_list_dev_get. destruct (_ <? 4); [done|].
  apply (find_slot_ident _ (fun k => (snd k =? Zlength d) && match fst k with Some x => bool_decide (sub_buf x 0 (Zlength d) = d) | None => false end)); done.
Qed.

Lemma same_keys_upd E i f st : (forall p, ident (f p) = ident p) -> same_keys (pvs_list_persist_in_file E (upd_slot i f st)) st.
Proof.
  intros Hf. unfold same_keys. rewrite persist_list. unfold upd_slot; cbn. generalize (pvs_list st) as l. intros l. revert i.
  induction l as [|p l IH]; intros [|i]; cbn; try done; f_equal; [apply Hf|apply IH].
Qed.

Lemma same_keys_refl st : same_keys st st.
Proof. done. Qed.

Lemma tlv_set_keys E i t v st : same_keys (snd (provisioning_list_tlv_set E i t v st)) st.
Proof. unfold provisioning_list_tlv_set. destruct (_ && _); [|done]. by apply same_keys_upd. Qed.

Lemma status_set_keys E i s st : same_keys (provisioning_list_status_set E i s st) st.
Proof. by apply same_keys_upd. Qed.

Lemma bootmode_set_keys E i m st : same_keys (provisioning_list_bootmode_set E i m st) st.
Proof. by apply same_keys_upd. Qed.

(** ** Commands as operations of the list *)

Definition opt_op (d : list Z) (type : Z) (v : option (list Z)) : list pvs_op := match v with Some v => [P_tlv_set d type v] | None => [] end.
Definition record_ops (d : list Z) (a : set_tlvs) : list pvs_op :=
  (if t_status a =? TLV_NOT_PRESENT then [] else [P_status d (t_status a)])
  ++ opt_op d PVS_TLV_TYPE_NAME (t_name a) ++ opt_op d PVS_TLV_TYPE_LOCATION (t_location a) ++ opt_op d PVS_TLV_TYPE_ADV_JOIN (present (t_keys a))
  ++ opt_op d PVS_TLV_TYPE_PRODUCT_TYPE (t_product_type a) ++ opt_op d PVS_TLV_TYPE_PRODUCT_ID (t_product_id a)
  ++ opt_op d PVS_TLV_TYPE_MAX_INCL_REQ_INTERVAL (present (t_interval a)) ++ opt_op d PVS_TLV_TYPE_UUID16 (t_uuid16 a).
Definition entry_ops (d : list Z) (a : set_tlvs) (known : bool) : list pvs_op :=
  if known then if t_mode a =? TLV_NOT_PRESENT then [] else [P_mode d (t_mode a)]
  else [P_add d (if t_mode a =? TLV_NOT_PRESENT then PVS_BOOTMODE_SMART_START else t_mode a)].

(** Operations on the records of a device. *)
Definition record_op (d : list Z) (op : pvs_op) : Prop :=
  match op with P_status d' _ | P_mode d' _ | P_tlv_set d' _ _ => d' = d | _ => False end.

Definition run_ops (E : pvs_env) (ops : list pvs_op) (st : pvs) : pvs := fold_left (fun st op => pvs_step E op st) ops st.

Lemma run_ops_app E a b st : run_ops E (a ++ b) st = run_ops E b (run_ops E a st).
Proof. apply fold_left_app. Qed.

Lemma absent_ops E d ops st : Forall (record_op d) ops -> provisioning_list_dev_get d st = None -> run_ops E ops st = st.
Proof.
  intros Ho Hd. induction Ho as [|op ops Hop _ IH]; [done|]. cbn. replace (pvs_step E op st) with st; [done|].
  destruct op; try done; cbn in *; subst; unfold at_device; by rewrite Hd.
Qed.

Lemma tlv_set_opt_ops E d i t v st : provisioning_list_dev_get d st = Some i ->
  tlv_set_opt E i t v st = run_ops (pl_env E) (opt_op d t v) st /\ provisioning_list_dev_get d (run_ops (pl_env E) (opt_op d t v) st) = Some i.
Proof.
  intros Hd. destruct v as [v|]; cbn; [|done]. unfold at_device. rewrite Hd. split; [done|].
  by rewrite (same_keys_dev_get d _ st (tlv_set_keys _ _ _ _ _)).
Qed.

Lemma status_ops E d i s st : provisioning_list_dev_get d st = Some i ->
  let ops := if s =? TLV_NOT_PRESENT then [] else [P_status d s] in
  (if s =? TLV_NOT_PRESENT then st else provisioning_list_status_set (pl_env E) i s st) = run_ops (pl_env E) ops st /\
  provisioning_list_dev_get d (run_ops (pl_env E) ops st) = Some i.
Proof.
  intros Hd. destruct (_ =? _); [done|]. cbn. unfold at_device. rewrite Hd. split; [done|].
  by rewrite (same_keys_dev_get d _ st (status_set_keys _ _ _ _)).
Qed.

Lemma set_records_ops E d i a st : provisioning_list_dev_get d st = Some i -> set_records E i a st = run_ops (pl_env E) (record_ops d a) st.
Proof.
  intros Hd. unfold set_records, record_ops. rewrite !run_ops_app.
  destruct (status_ops E d i (t_status a) st Hd) as [-> H1]. set (st1 := run_ops _ _ st) in *. clearbody st1. clear st Hd. rename H1 into Hd.
  repeat match goal with |- context [tlv_set_opt E i ?t ?v st1] =>
    let st' := fresh "st" in
    destruct (tlv_set_opt_ops E d i t v st1 Hd) as [-> ?Hd']; set (st' := run_ops _ _ st1) in *; clearbody st'; clear st1 Hd; rename st' into st1; rename Hd' into Hd
  end. done.
Qed.

Lemma record_ops_of d a : Forall (record_op d) (record_ops d a).
Proof.
  unfold record_ops. repeat (apply Forall_app; split); unfold opt_op, present; repeat case_match; simplify_eq; repeat constructor; done.
Qed.

Lemma add_gives_slot E d mode st : list_wf (pvs_list st) -> key_ok d -> u32_ok mode ->
  match fst (provisioning_list_dev_add E d mode st) with
  | Some i => provisioning_list_dev_get d (snd (provisioning_list_dev_add E d mode st)) = Some i
  | None => provisioning_list_dev_get d st = None -> provisioning_list_dev_get d (snd (provisioning_list_dev_add E d mode st)) = None
  end.
Proof.
  intros Hl Hd Hm. destruct (step_implements E (P_add d mode) st Hl (conj Hd Hm)) as [Hl' Hb]. cbn [pvs_step spec_step] in Hl', Hb.
  pose proof (dev_get_spec d st Hl) as Hg. pose proof (dev_get_spec d _ Hl') as Hg'. rewrite Hb in Hg'. clear Hb.
  unfold provisioning_list_dev_add in *. destruct (Z.ltb_spec (Zlength d) 4) as [H4|H4]; [by cbn|].
  destruct (provisioning_list_dev_get d st) as [j|] eqn:Hj; [cbn; congruence|]. rewrite Hg in Hg'. unfold pvs_dev_add, spec_new in *.
  destruct (find_slot _ st) as [i|] eqn:Hf.
  - destruct (pe_malloc E) eqn:Hmal; cbn [fst snd andb] in *.
    + apply find_slot_Some in Hf as (p & Hi & Hu). apply negb_true_iff in Hu. rewrite bool_decide_true in Hg' by (by eapply empty_slot_book).
      cbv iota in Hg'. match goal with |- ?x = _ => destruct x as [k|] end; [|by rewrite lookup_insert_eq in Hg']. f_equal. destruct Hg' as (q & Hk & Hq & _).
      eapply (wf_unique _ Hl' k i q _ d Hk); [|by apply used_key|].
      * rewrite persist_list. unfold upd_slot; cbn. by rewrite list_lookup_alter_eq, Hi.
      * unfold key, used, truth; cbn. by rewrite (proj2 (Z.eqb_neq _ 0)) by lia.
    + intros _. match goal with |- ?x = _ => destruct x as [k|] end; [|done]. destruct Hg' as (q & _ & _ & Hq). congruence.
  - cbn [fst snd] in *. done.
Qed.

(** Set is the operations of its records. *)
Lemma set_is_ops E d a st : list_wf (pvs_list st) -> key_ok d -> u32_ok (t_mode a) ->
  let '(i, l) := set_entry E d a st in
  match i with Some i => set_records E i a l | None => l end =
  run_ops (pl_env E) (entry_ops d a (bool_decide (is_Some (provisioning_list_dev_get d st))) ++ record_ops d a) st.
Proof.
  intros Hl Hd Hm. rewrite run_ops_app. unfold set_entry. destruct (provisioning_list_dev_get d st) as [i|] eqn:Hg.
  - rewrite bool_decide_true by done. unfold entry_ops. destruct (t_mode a =? TLV_NOT_PRESENT); cbn; [by apply set_records_ops|].
    unfold at_device. rewrite Hg. apply set_records_ops. by rewrite (same_keys_dev_get d _ st (bootmode_set_keys _ _ _ _)).
  - rewrite bool_decide_false by (by intros [? ?]). unfold entry_ops.
    set (mode := if t_mode a =? TLV_NOT_PRESENT then PVS_BOOTMODE_SMART_START else t_mode a).
    assert (Hmode : u32_ok mode) by (unfold mode; destruct (_ =? _); [unfold u32_ok, PVS_BOOTMODE_SMART_START; lia|done]).
    pose proof (add_gives_slot (pl_env E) d mode st Hl Hd Hmode) as Hs. change (run_ops (pl_env E) [P_add d mode] st) with (snd (provisioning_list_dev_add (pl_env E) d mode st)). destruct (provisioning_list_dev_add _ d mode st) as [[i|] l]; cbn [fst snd] in *.
    + by apply set_records_ops.
    + symmetry. eapply absent_ops; [apply record_ops_of|]. by apply Hs.
Qed.

(** ** What a Set frame may carry *)

Definition value_ok (v : option (list Z)) : Prop := match v with Some v => key_ok v | None => True end.
Definition number_ok (z : Z) : Prop := byte z \/ z = TLV_NOT_PRESENT.
Record tlvs_ok (a : set_tlvs) : Prop := mkTlvsOk {
  to_values : value_ok (t_name a) /\ value_ok (t_location a) /\ value_ok (t_product_id a) /\ value_ok (t_product_type a) /\ value_ok (t_uuid16 a);
  to_numbers : number_ok (t_interval a) /\ number_ok (t_mode a) /\ number_ok (t_status a) /\ number_ok (t_keys a)
}.

Lemma mem_value_ok mem off n : bytes mem -> byte n -> key_ok (mem_bytes mem off n).
Proof. intros Hm Hn. unfold byte in Hn. split; [by apply mem_bytes_bytes|]. rewrite length_mem_bytes; lia. Qed.

Lemma set_one_ok mem tlv a a' : bytes mem -> tlvs_ok a -> set_one_tlv mem tlv a = Some a' -> tlvs_ok a'.
Proof.
  intros Hm Ha. unfold set_one_tlv. pose proof (mem_value_ok mem (tlv + 2) _ Hm (rd_byte mem (tlv + 1) Hm)) as Hv.
  pose proof (mem_value_ok mem (tlv + 2) 17 Hm ltac:(unfold byte; lia)) as Hu. pose proof (rd_byte mem (tlv + 2) Hm) as Hb.
  destruct Ha as [(H1 & H2 & H3 & H4 & H5) (H6 & H7 & H8 & H9)].
  intros Hs. repeat (case_match; try done); simplify_eq; constructor; cbn; split_and!; try done; by left.
Qed.

Lemma set_loop_ok fuel mem tlv end_ a a' : bytes mem -> tlvs_ok a -> set_tlv_loop fuel mem tlv end_ a = Some a' -> tlvs_ok a'.
Proof.
  intros Hm. revert tlv a. induction fuel as [|fuel IH]; intros tlv a Ha Hs; cbn [set_tlv_loop] in Hs; [by simplify_eq|].
  destruct (tlv <? end_ - 2); [|by simplify_eq]. cbv zeta in Hs. destruct (end_ <? _); [by simplify_eq|].
  destruct (set_one_tlv mem tlv a) as [b|] eqn:Hb; [|done]. eapply IH; [|exact Hs]. by eapply set_one_ok.
Qed.

Lemma no_tlvs_ok : tlvs_ok no_tlvs.
Proof. constructor; cbn; split_and!; try done; by right. Qed.

(** ** The records of a Set frame

    The bytes after the key as a list of records, and what the records say: the
    last record of a type counts, and a record that is too short, or critical and
    of no known type, refuses the frame. *)

(** [r_first] is the byte after the header: of the value, or of the next record
    where the value is empty. *)
Record frame_record := mkRec { r_type : Z; r_value : list Z; r_first : Z }.

Fixpoint frame_records (fuel : nat) (l : list Z) : list frame_record :=
  match fuel, l with
  | S fuel, t :: len :: (b :: _) as rest =>
      if len <=? Zlength rest then mkRec t (take (Z.to_nat len) rest) b :: frame_records fuel (drop (Z.to_nat len) rest) else []
  | _, _ => []
  end.

Definition record_type (r : frame_record) : Z := Z.shiftr (r_type r) 1.
Definition last_of (t : Z) (rs : list frame_record) : option frame_record := last (List.filter (fun r => record_type r =? t) rs).
Definition value_of (t : Z) (rs : list frame_record) : option (list Z) := r_value <$> last_of t rs.
Definition number_of (t : Z) (rs : list frame_record) : Z := from_option r_first TLV_NOT_PRESENT (last_of t rs).

Definition least_length : list (Z * Z) :=
  [(PVS_TLV_TYPE_NAME, 0); (PVS_TLV_TYPE_LOCATION, 0); (PVS_TLV_TYPE_BOOTSTRAP_MODE, 0); (PVS_TLV_TYPE_PRODUCT_TYPE, 4); (PVS_TLV_TYPE_PRODUCT_ID, 8);
   (PVS_TLV_TYPE_STATUS, 1); (PVS_TLV_TYPE_NETWORK_INFO, 0); (PVS_TLV_TYPE_ADV_JOIN, 1); (PVS_TLV_TYPE_MAX_INCL_REQ_INTERVAL, 1); (PVS_TLV_TYPE_UUID16, 17)].
Definition refused (r : frame_record) : bool :=
  match (list_to_map least_length : gmap Z Z) !! record_type r with
  | Some n => Zlength (r_value r) <? n
  | None => truth (Z.land (r_type r) PROVISIONING_LIST_OPT_CRITICAL_FLAG)
  end.

Definition records_say (rs : list frame_record) : option set_tlvs :=
  if existsb refused rs then None
  else Some (mkSet (value_of PVS_TLV_TYPE_NAME rs) (value_of PVS_TLV_TYPE_LOCATION rs) (value_of PVS_TLV_TYPE_PRODUCT_ID rs) (value_of PVS_TLV_TYPE_PRODUCT_TYPE rs)
    (number_of PVS_TLV_TYPE_MAX_INCL_REQ_INTERVAL rs) (take 17 <$> value_of PVS_TLV_TYPE_UUID16 rs) (number_of PVS_TLV_TYPE_BOOTSTRAP_MODE rs)
    (number_of PVS_TLV_TYPE_STATUS rs) (number_of PVS_TLV_TYPE_ADV_JOIN rs)).

(** One more record. *)
Definition take_record (a : set_tlvs) (r : frame_record) : option set_tlvs :=
  let t := record_type r in
  if refused r then None
  else if t =? PVS_TLV_TYPE_NAME then Some (a <| t_name := Some (r_value r) |>)
  else if t =? PVS_TLV_TYPE_LOCATION then Some (a <| t_location := Some (r_value r) |>)
  else if t =? PVS_TLV_TYPE_BOOTSTRAP_MODE then Some (a <| t_mode := r_first r |>)
  else if t =? PVS_TLV_TYPE_PRODUCT_TYPE then Some (a <| t_product_type := Some (r_value r) |>)
  else if t =? PVS_TLV_TYPE_PRODUCT_ID then Some (a <| t_product_id := Some (r_value r) |>)
  else if t =? PVS_TLV_TYPE_STATUS then Some (a <| t_status := r_first r |>)
  else if t =? PVS_TLV_TYPE_ADV_JOIN then Some (a <| t_keys := r_first r |>)
  else if t =? PVS_TLV_TYPE_MAX_INCL_REQ_INTERVAL then Some (a <| t_interval := r_first r |>)
  else if t =? PVS_TLV_TYPE_UUID16 then Some (a <| t_uuid16 := Some (take 17 (r_value r)) |>)
  else Some a.
Definition take_records (rs : list frame_record) (a : option set_tlvs) : option set_tlvs := fold_left (fun a r => a ← a; take_record a r) rs a.

Lemma last_of_snoc t rs r : last_of t (rs ++ [r]) = if record_type r =? t then Some r else last_of t rs.
Proof. unfold last_of. rewrite List.filter_app. cbn. destruct (_ =? t); [by rewrite last_snoc|by rewrite app_nil_r]. Qed.

Lemma records_say_snoc rs r : records_say (rs ++ [r]) = a ← records_say rs; take_record a r.
Proof.
  unfold records_say, value_of, number_of. rewrite existsb_app. cbn [existsb]. rewrite orb_false_r. destruct (existsb refused rs); [done|]. cbn [orb].
  rewrite !last_of_snoc. unfold take_record. cbn [mbind option_bind]. destruct (refused r); [done|].
  repeat match goal with |- context [record_type r =? ?t] => case (Z.eqb_spec (record_type r) t); [intros Ht; rewrite ?Ht; reflexivity|intros _] end.
  reflexivity.
Qed.

Lemma take_records_say rs : take_records rs (Some no_tlvs) = records_say rs.
Proof. induction rs as [|r rs IH] using rev_ind; [done|]. unfold take_records in *. by rewrite fold_left_app, IH, records_say_snoc. Qed.

Lemma mem_bytes_cons mem off n : 0 <= off -> 0 < n -> mem_bytes mem off n = rd mem off :: mem_bytes mem (off + 1) (n - 1).
Proof.
  intros Ho Hn. unfold mem_bytes. replace (Z.to_nat n) with (S (Z.to_nat (n - 1))) by lia. cbn [seq map]. f_equal; [f_equal; lia|].
  rewrite <- (fmap_S_seq 0 (Z.to_nat (n - 1))), <- list_fmap_compose. apply list_fmap_ext. intros i x _. cbn. f_equal. lia.
Qed.

Lemma mem_bytes_app mem off k n : 0 <= k <= n -> mem_bytes mem off n = mem_bytes mem off k ++ mem_bytes mem (off + k) (n - k).
Proof.
  intros Hk. unfold mem_bytes. replace (Z.to_nat n) with (Z.to_nat k + Z.to_nat (n - k))%nat by lia. rewrite seq_app, map_app. f_equal.
  replace (seq (0 + Z.to_nat k) _) with (Nat.add (Z.to_nat k) <$> seq 0 (Z.to_nat (n - k))) by (rewrite fmap_add_seq; f_equal; lia). rewrite <- list_fmap_compose. apply list_fmap_ext. intros i x _. cbn. f_equal. lia.
Qed.

Lemma take_mem_bytes mem off k n : 0 <= k <= n -> take (Z.to_nat k) (mem_bytes mem off n) = mem_bytes mem off k.
Proof.
  intros Hk. rewrite (mem_bytes_app mem off k n Hk). pose proof (length_mem_bytes mem off k) as Hl. unfold Zlength in Hl. rewrite take_app_length' by lia. done.
Qed.
Lemma drop_mem_bytes mem off k n : 0 <= k <= n -> drop (Z.to_nat k) (mem_bytes mem off n) = mem_bytes mem (off + k) (n - k).
Proof.
  intros Hk. rewrite (mem_bytes_app mem off k n Hk). pose proof (length_mem_bytes mem off k) as Hl. unfold Zlength in Hl. rewrite drop_app_length' by lia. done.
Qed.

Lemma lookup_insert_if (k v t : Z) (m : gmap Z Z) : <[k := v]> m !! t = if t =? k then Some v else m !! t.
Proof. destruct (Z.eqb_spec t k) as [->|]; [apply lookup_insert_eq|by apply lookup_insert_ne]. Qed.

Lemma one_tlv_record mem tlv a (len := rd mem (tlv + 1)) : bytes mem ->
  set_one_tlv mem tlv a = take_record a (mkRec (rd mem tlv) (mem_bytes mem (tlv + 2) len) (rd mem (tlv + 2))).
Proof.
  intros Hm. pose proof (rd_byte mem (tlv + 1) Hm) as Hlen. fold len in Hlen. unfold byte in Hlen.
  unfold set_one_tlv, take_record, refused, record_type. cbn [r_type r_value r_first]. fold len. rewrite length_mem_bytes by lia.
  cbn [least_length list_to_map foldr fst snd]. rewrite !lookup_insert_if, lookup_empty. set (t := Z.shiftr (rd mem tlv) 1).
  assert (Hu : len <? 17 = false -> take 17 (mem_bytes mem (tlv + 2) len) = mem_bytes mem (tlv + 2) 17) by (intros; apply (take_mem_bytes mem (tlv + 2) 17); lia).
  assert (H0 : len <? 0 = false) by lia. cbv zeta. clearbody t.
  repeat match goal with |- (if t =? ?c then _ else _) = _ => case (Z.eqb_spec t c); [intros Ht; cbv beta iota; rewrite ?H0, ?Ht; try reflexivity; (destruct (len <? _) eqn:Hl; [done|rewrite ?Hu by done; reflexivity])|intros _] end.
  reflexivity.
Qed.

(** The loop takes the records one after the other. *)
Lemma loop_records fuel mem tlv end_ a : bytes mem -> 0 <= tlv ->
  set_tlv_loop fuel mem tlv end_ a = take_records (frame_records fuel (mem_bytes mem tlv (end_ - tlv))) (Some a).
Proof.
  intros Hm. assert (Hnone : forall rs, take_records rs None = None) by (by induction rs).
  revert tlv a. induction fuel as [|fuel IH]; intros tlv a Ht; [done|]. cbn [set_tlv_loop frame_records].
  pose proof (rd_byte mem (tlv + 1) Hm) as Hb. unfold byte in Hb. destruct (tlv <? end_ - 2) eqn:He.
  - rewrite !mem_bytes_cons by lia. replace (tlv + 1 + 1) with (tlv + 2) by lia. rewrite <- mem_bytes_cons by lia.
    replace (end_ - tlv - 1 - 1) with (end_ - (tlv + 2)) by lia. rewrite length_mem_bytes by lia. cbv zeta.
    destruct (end_ <? _) eqn:Hend; [by rewrite (proj2 (Z.leb_gt _ _)) by lia|]. rewrite (proj2 (Z.leb_le _ _)) by lia.
    rewrite take_mem_bytes, drop_mem_bytes by lia. cbn [take_records fold_left mbind option_bind]. rewrite <- one_tlv_record by done.
    replace (end_ - (tlv + 2) - rd mem (tlv + 1)) with (end_ - (tlv + 2 + rd mem (tlv + 1))) by lia.
    destruct (set_one_tlv mem tlv a) as [b|]; [by apply IH; lia|by rewrite Hnone].
  - assert (Hl : (length (mem_bytes mem tlv (end_ - tlv)) <= 2)%nat) by (unfold mem_bytes; rewrite length_map, length_seq; lia).
    by destruct (mem_bytes _ _ _) as [|? [|? [|? ?]]]; cbn in Hl; try lia.
Qed.

(** The loop over a frame finds what the records of the frame say. *)
Lemma set_loop_says mem tlv n : bytes mem -> 0 <= tlv ->
  set_tlv_loop (Z.to_nat n) mem tlv n no_tlvs = records_say (frame_records (Z.to_nat n) (mem_bytes mem tlv (n - tlv))).
Proof. intros Hm Ht. by rewrite loop_records, take_records_say. Qed.

(** Records the command class knows, and keys it can pass on. *)
Definition known_types : list Z :=
  [PVS_TLV_TYPE_NAME; PVS_TLV_TYPE_LOCATION; PVS_TLV_TYPE_ADV_JOIN; PVS_TLV_TYPE_PRODUCT_TYPE; PVS_TLV_TYPE_PRODUCT_ID;
   PVS_TLV_TYPE_MAX_INCL_REQ_INTERVAL; PVS_TLV_TYPE_UUID16].
Definition op_known (op : pvs_op) : Prop :=
  match op with P_add d _ => Zlength d <= 31 | P_tlv_set _ t _ => t ∈ known_types | P_set _ _ => False | _ => True end.
Definition op_good (op : pvs_op) : Prop := op_ok op /\ op_known op.

Lemma number_u32 z : number_ok z -> u32_ok z.
Proof. unfold number_ok, byte, u32_ok, TLV_NOT_PRESENT. lia. Qed.

Lemma present_ok z : number_ok z -> value_ok (present z).
Proof.
  intros Hz. unfold present. destruct (Z.eqb_spec z TLV_NOT_PRESENT); [done|]. destruct Hz as [Hz|]; [|done]. unfold byte in Hz.
  rewrite byte_land by lia. split; [apply Forall_singleton; done|done].
Qed.

Lemma opt_op_good d t v : key_ok d -> t ∈ known_types -> value_ok v -> Forall op_good (opt_op d t v).
Proof.
  intros Hd Ht Hv. destruct v as [v|]; [|by apply Forall_nil]. apply Forall_singleton. split; [|done]. split; [done|]. split; [|done].
  revert Ht. assert (Hk : bytes known_types) by (forall_list; done). rewrite Forall_forall in Hk. apply Hk.
Qed.

Lemma record_ops_good d a : key_ok d -> tlvs_ok a -> Forall op_good (record_ops d a).
Proof.
  intros Hd [(H1 & H2 & H3 & H4 & H5) (H6 & _ & H8 & H9)]. unfold record_ops.
  repeat (apply Forall_app; split); try (apply opt_op_good; [done|set_solver|]; try done; by apply present_ok).
  destruct (_ =? _); [by apply Forall_nil|]. apply Forall_singleton. split; [split; [done|by apply number_u32]|done].
Qed.

Lemma entry_ops_good d a known : key_ok d -> Zlength d <= 31 -> tlvs_ok a -> Forall op_good (entry_ops d a known).
Proof.
  intros Hd Hl [_ (_ & H7 & _)]. apply number_u32 in H7. unfold entry_ops. destruct known, (_ =? _); try (by apply Forall_nil); apply Forall_singleton;
    (split; [split; [done|]|done]); try done; unfold u32_ok, PVS_BOOTMODE_SMART_START; lia.
Qed.

(** ** Lists within the limits of the command class *)

Definition limited (p : provision) : Prop := dsk_len p <= 31 /\ Forall (fun t => tlv_type t ∈ known_types) (tlv_list p).

Lemma limited_persist E i f st : Forall limited (pvs_list st) -> (forall p, pvs_list st !! i = Some p -> limited p -> limited (f p)) ->
  Forall limited (pvs_list (pvs_list_persist_in_file E (upd_slot i f st))).
Proof.
  intros Hl Hf. rewrite persist_list. unfold upd_slot; cbn. apply Forall_alter; [done|]. intros p Hp _. apply Hf; [done|].
  by eapply Forall_lookup_1.
Qed.

Lemma tlv_set_limited t v l : t ∈ known_types -> Forall (fun t => tlv_type t ∈ known_types) l -> Forall (fun t => tlv_type t ∈ known_types) (pvs_tlv_set t v l).
Proof.
  intros Ht Hl. unfold pvs_tlv_set. destruct (pvs_tlv_get l t); [|by constructor]. induction Hl as [|x l Hx Hl IH]; cbn; [by apply Forall_nil|].
  destruct (_ =? _); by constructor.
Qed.

Lemma tlv_unlink_limited t l : Forall (fun t => tlv_type t ∈ known_types) l -> Forall (fun t => tlv_type t ∈ known_types) (tlv_unlink t l).
Proof. induction 1 as [|x l Hx Hl IH]; cbn; [by apply Forall_nil|]. destruct (_ =? _); [done|by constructor]. Qed.

Lemma step_limited E op st : Forall limited (pvs_list st) -> op_known op -> Forall limited (pvs_list (pvs_step E op st)).
Proof.
  intros Hl Ho. destruct op; cbn [pvs_step op_known] in *; try done; unfold at_device, provisioning_list_status_set, provisioning_list_bootmode_set.
  - unfold provisioning_list_dev_add. destruct (_ <? 4); [done|]. destruct (provisioning_list_dev_get d st); [done|].
    unfold pvs_dev_add. destruct (find_slot _ st) as [i|]; [|done]. destruct (pe_malloc E); cbn [snd].
    + apply limited_persist; [done|]. intros p _ _. by split; [|apply Forall_nil].
    + unfold upd_slot; cbn. apply Forall_alter; [done|]. done.
  - unfold provisioning_list_dev_remove. destruct (_ <? 4); [done|]. destruct (find_slot _ st) as [i|]; [|done].
    apply limited_persist; [done|]. intros p _ _. by split; [|apply Forall_nil].
  - unfold provisioning_list_clear. rewrite persist_list. cbn. apply Forall_forall. intros q (p & -> & Hp)%list_elem_of_fmap. rewrite Forall_forall in Hl.
    unfold clear_slot. destruct (used p); [by split; [|apply Forall_nil]|by apply Hl].
  - destruct (provisioning_list_dev_get d st); [|done]. apply limited_persist; [done|]. intros p _ Hp. done.
  - destruct (provisioning_list_dev_get d st); [|done]. apply limited_persist; [done|]. intros p _ Hp. done.
  - destruct (provisioning_list_dev_get d st); [|done]. unfold provisioning_list_tlv_set. destruct (_ && _); [|done].
    apply limited_persist; [done|]. intros p _ [Hp Hq]. split; [done|]. by apply tlv_set_limited.
  - destruct (provisioning_list_dev_get d st) as [i|]; [|done]. unfold provisioning_list_tlv_remove. destruct (_ =? 0); [done|].
    destruct (pvs_tlv_get _ type); [|done]. apply limited_persist; [done|]. intros q _ [Hp Hq]. split; [done|]. by apply tlv_unlink_limited.
Qed.

Lemma run_ops_good E ops st : Forall op_good ops -> list_wf (pvs_list st) -> Forall limited (pvs_list st) ->
  implements (run_ops E ops st) (fold_left (fun m op => spec_step (pe_malloc E) op m) ops (book (pvs_list st))) /\
  Forall limited (pvs_list (run_ops E ops st)).
Proof.
  intros Ho. revert st. induction Ho as [|op ops [Hop Hk] _ IH]; intros st Hl Hlim; [done|]. unfold run_ops. cbn [fold_left].
  destruct (step_implements E op st Hl Hop) as [H1 <-]. apply IH; [done|by apply step_limited].
Qed.

(** ** The operations of a frame *)

Definition frame_dsk (mem : list Z) : list Z := mem_bytes mem 4 (Z.land (rd mem 3) PROVISIONING_LIST_DSK_LENGTH_MASK).

Definition set_frame_ops (mem : list Z) (n : Z) (st : pvs) : list pvs_op :=
  let dsklen := Z.land (rd mem 3) PROVISIONING_LIST_DSK_LENGTH_MASK in
  if (n <? 4 + dsklen) || (dsklen <? 16) then []
  else match records_say (frame_records (Z.to_nat n) (mem_bytes mem (4 + dsklen) (n - (4 + dsklen)))) with
       | Some a =>
           if name_accepted (t_name a) is_valid_mdns_name && name_accepted (t_location a) is_valid_mdns_location
           then entry_ops (frame_dsk mem) a (bool_decide (is_Some (provisioning_list_dev_get (frame_dsk mem) st))) ++ record_ops (frame_dsk mem) a
           else []
       | None => []
       end.

Definition delete_frame_ops (mem : list Z) (n : Z) : list pvs_op :=
  let dsklen := Z.land (rd mem 3) PROVISIONING_LIST_DSK_LENGTH_MASK in
  if (4 <=? n) && (dsklen =? 0) then [P_clear] else if n <? 4 + dsklen then [] else [P_remove (frame_dsk mem)].

(** The iterator an Iteration Get goes on with. *)
Definition frame_iter (E : pvl_env) (mem : list Z) (st : pvl) : option provisioning_list_iter :=
  if rd mem 3 =? 0xFF then provisioning_list_iterator_get (pl_env E) (pl st)
  else match curr_iter st with Some it => if rd mem 3 =? it_cnt it - it_next it then Some it else None | None => None end.

(** Looking at a device that waits passively makes it pending again. *)
Definition wake_ops (it : provisioning_list_iter) (st : pvs) : list pvs_op :=
  match fst (provisioning_list_iter_get_next it st) with
  | Some i => if pvs_status (slot st i) =? PVS_STATUS_PASSIVE then [P_status (default [] (it_entries it !! Z.to_nat (it_next it))) PVS_STATUS_PENDING] else []
  | None => []
  end.

Definition frame_ops (E : pvl_env) (mem : list Z) (n : Z) (st : pvl) : list pvs_op :=
  if n <? 2 then []
  else if rd mem 1 =? COMMAND_PROVISION_SET then set_frame_ops mem n (pl st)
  else if rd mem 1 =? COMMAND_PROVISION_DELETE then delete_frame_ops mem n
  else if rd mem 1 =? COMMAND_PROVISION_ITER_GET then match frame_iter E mem st with Some it => wake_ops it (pl st) | None => [] end
  else [].

Lemma frame_dsk_ok mem : bytes mem -> key_ok (frame_dsk mem) /\ Zlength (frame_dsk mem) <= 31.
Proof.
  intros Hm. assert (Hr : 0 <= Z.land (rd mem 3) PROVISIONING_LIST_DSK_LENGTH_MASK <= 31).
  { unfold PROVISIONING_LIST_DSK_LENGTH_MASK. change 0x1F with (Z.ones 5). rewrite Z.land_ones by lia.
    pose proof (Z.mod_pos_bound (rd mem 3) (2 ^ 5) ltac:(lia)). change (Z.ones 5) with 31. lia. }
  unfold frame_dsk, key_ok. rewrite length_mem_bytes by lia. split; [|lia]. split; [by apply mem_bytes_bytes|lia].
Qed.

Lemma set_frame_spec E mem n st : bytes mem -> list_wf (pvs_list (pl st)) ->
  pl (snd (provision_set E mem n st)) = run_ops (pl_env E) (set_frame_ops mem n (pl st)) (pl st) /\ Forall op_good (set_frame_ops mem n (pl st)).
Proof.
  intros Hm Hl. destruct (frame_dsk_ok mem Hm) as [Hd Hd']. unfold provision_set, set_frame_ops. fold (frame_dsk mem). cbv zeta.
  destruct (_ <? 4 + _); [split; [done|by apply Forall_nil]|]. destruct (_ <? 16); [split; [done|by apply Forall_nil]|]. cbn [orb].
  rewrite <- set_loop_says by (done || (apply Z.add_nonneg_nonneg; [lia|apply Z.land_nonneg; by right])).
  destruct (set_tlv_loop _ _ _ _ _) as [a|] eqn:Ha; [|split; [done|by apply Forall_nil]].
  pose proof (set_loop_ok _ _ _ _ _ _ Hm no_tlvs_ok Ha) as Hok.
  destruct (name_accepted (t_name a) _); cbn [negb andb]; [|split; [done|by apply Forall_nil]].
  destruct (name_accepted (t_location a) _); cbn [negb]; [|split; [done|by apply Forall_nil]].
  pose proof (set_is_ops E (frame_dsk mem) a (pl st) Hl Hd (number_u32 _ (proj1 (proj2 (to_numbers _ Hok))))) as Hs.
  destruct (set_entry E (frame_dsk mem) a (pl st)) as [i l]. split; [exact Hs|].
  apply Forall_app. split; [by apply entry_ops_good|by apply record_ops_good].
Qed.

Lemma delete_frame_spec E mem n st : bytes mem ->
  pl (snd (provision_delete E mem n st)) = run_ops (pl_env E) (delete_frame_ops mem n) (pl st) /\ Forall op_good (delete_frame_ops mem n).
Proof.
  intros Hm. destruct (frame_dsk_ok mem Hm) as [Hd Hd']. unfold provision_delete, delete_frame_ops. fold (frame_dsk mem). cbv zeta.
  destruct (_ && _); [split; [done|by apply Forall_singleton]|]. destruct (_ <? _); [split; [done|by apply Forall_nil]|].
  split; [done|]. apply Forall_singleton. done.
Qed.

Definition iter_ok (it : provisioning_list_iter) : Prop := Forall key_ok (it_entries it).

Lemma iter_report_spec E s it st : iter_ok it ->
  pl (iter_report E s it st) = run_ops (pl_env E) (wake_ops it (pl st)) (pl st) /\ Forall op_good (wake_ops it (pl st)).
Proof.
  intros Hi. unfold iter_report, wake_ops. assert (Hk : key_ok (default [] (it_entries it !! Z.to_nat (it_next it)))).
  { destruct (_ !! _) as [d|] eqn:Hd; cbn; [by eapply Forall_lookup_1|]. split; [by apply Forall_nil|done]. }
  unfold provisioning_list_iter_get_next. destruct (it_cnt it <=? it_next it); [split; [done|by apply Forall_nil]|]. cbn [fst].
  destruct (provisioning_list_dev_get _ (pl st)) as [i|] eqn:Hd; [|split; [done|by apply Forall_nil]].
  change (pl (st <| curr_iter := _ |>)) with (pl st). destruct (_ =? PVS_STATUS_PASSIVE); [|split; [done|by apply Forall_nil]].
  split; [|apply Forall_singleton; split; [split; [done|unfold u32_ok, PVS_STATUS_PENDING; lia]|done]].
  cbn. unfold at_device. by rewrite Hd.
Qed.

(** ** Reports fit the buffer *)

Lemma few_records p d : slot_used p d -> limited p -> (length (tlv_list p) <= 7)%nat.
Proof.
  intros Hu [_ Hk]. rewrite <- (length_map tlv_type). change 7%nat with (length known_types). apply submseteq_length, NoDup_submseteq; [apply Hu|].
  intros t (x & -> & Hx)%list_elem_of_fmap. rewrite Forall_forall in Hk. by apply Hk.
Qed.

Lemma records_report_length l : Forall tlv_wf l -> (length (concat (map tlv_report l)) <= 257 * length l)%nat.
Proof.
  induction 1 as [|t l (_ & Ht & Hv & _) _ IH]; cbn -[Nat.mul]; [lia|]. rewrite length_app, length_take. unfold Zlength in Hv. lia.
Qed.

Lemma report_length E p d : slot_used p d -> limited p -> (length (dsk_report p ++ CC_provisioning_list_add_tlvs E p) <= 1843)%nat.
Proof.
  intros Hu Hl. pose proof (few_records p d Hu Hl). pose proof (records_report_length _ (su_tlvs _ _ Hu)). destruct Hl as [Hl _].
  assert (Hn : length (network_info E (default [] (dsk p))) = 4%nat) by (unfold network_info; repeat case_match; done).
  unfold dsk_report, CC_provisioning_list_add_tlvs. rewrite !length_app, Hn. cbn [length]. rewrite length_take. lia.
Qed.

Record pvl_ok (st : pvl) : Prop := mkPvlOk {
  po_wf : list_wf (pvs_list (pl st));
  po_limited : Forall limited (pvs_list (pl st));
  po_iter : match curr_iter st with Some it => iter_ok it | None => True end;
  po_sent : Forall (fun r => Zlength r <= BUF_SIZE) (pvl_sent st)
}.

Lemma slot_found d st i : list_wf (pvs_list st) -> Forall limited (pvs_list st) -> provisioning_list_dev_get d st = Some i ->
  slot_used (slot st i) d /\ limited (slot st i).
Proof.
  intros Hl Hlim Hd. pose proof (dev_get_spec d st Hl) as Hg. rewrite Hd in Hg. destruct Hg as (p & Hi & Hu & _). rewrite (slot_lookup _ _ _ Hi).
  split; [done|]. by eapply Forall_lookup_1.
Qed.

Lemma iterator_ok E st it : list_wf (pvs_list st) -> provisioning_list_iterator_get E st = Some it -> iter_ok it.
Proof.
  intros Hl. unfold provisioning_list_iterator_get. destruct (pe_malloc E); [|done]. intros [= <-]. apply Forall_forall.
  intros d (p & Hp & Hi)%list_elem_of_omap. unfold iterable in Hi. destruct (dsk p) as [x|] eqn:Hx; [|done]. destruct (_ && _) eqn:Hc; [|done]. simplify_eq.
  assert (Hw : slot_wf p) by (pose proof (wf_slots _ Hl) as Hs; rewrite Forall_forall in Hs; by apply Hs).
  destruct Hw as [[H0 _]|[d' Hd']]; [lia|]. rewrite (su_dsk _ _ Hd') in Hx. simplify_eq. destruct (su_len _ _ Hd'). unfold PROVISIONING_LIST_DSK_MAX_SIZE in Hc.
  split; [apply Forall_take, Hd'|]. unfold Zlength. rewrite length_take. lia.
Qed.

(** What a command that only sends leaves in order. *)
Lemma pvl_sent_ok st l it r : pvl_ok st -> list_wf (pvs_list l) -> Forall limited (pvs_list l) -> match it with Some it => iter_ok it | None => True end ->
  Zlength r <= BUF_SIZE -> pvl_ok (ZW_SendDataZIP r (st <| pl := l |> <| curr_iter := it |>)).
Proof.
  intros [_ _ _ Hs] H1 H2 H3 Hr. constructor; cbn; try done. apply Forall_app. split; [done|by apply Forall_singleton].
Qed.

Lemma next_iter_ok it st : iter_ok it -> iter_ok (snd (provisioning_list_iter_get_next it st)).
Proof. intros Hi. unfold provisioning_list_iter_get_next. by destruct (_ <=? _). Qed.

Lemma iter_report_ok E s it st : pvl_ok st -> iter_ok it -> pvl_ok (iter_report E s it st).
Proof.
  intros Hok Hi. destruct (iter_report_spec E s it st Hi) as [Hpl Hgood]. pose proof (next_iter_ok it (pl st) Hi) as Hn.
  destruct (run_ops_good (pl_env E) _ (pl st) Hgood (po_wf _ Hok) (po_limited _ Hok)) as [[H1 _] H2]. rewrite <- Hpl in H1, H2.
  revert Hpl H1 H2. unfold iter_report. destruct (provisioning_list_iter_get_next it (pl st)) as [[i|] it'] eqn:Hg; cbn [snd] in Hn.
  - intros _ H1 H2. apply (pvl_sent_ok st _ (Some it') _ Hok H1 H2 Hn). clear Hgood.
    assert (Hd : provisioning_list_dev_get (default [] (it_entries it !! Z.to_nat (it_next it))) (pl st) = Some i).
    { unfold provisioning_list_iter_get_next in Hg. destruct (_ <=? _); [done|]. by simplify_eq. }
    change (pl (st <| curr_iter := Some it' |>)) with (pl st) in *.
    set (l := if pvs_status (slot (pl st) i) =? PVS_STATUS_PASSIVE then provisioning_list_status_set (pl_env E) i PVS_STATUS_PENDING (pl st) else pl st) in *.
    rewrite (same_keys_dev_get _ _ l) in Hd.
    + destruct (slot_found _ l i H1 H2 Hd) as [Hu Hl]. pose proof (report_length E _ _ Hu Hl). unfold Zlength, BUF_SIZE. rewrite length_app. cbn [length]. lia.
    + unfold l. destruct (_ =? _); [|done]. unfold same_keys. symmetry. apply status_set_keys.
  - intros _ H1 H2. by apply (pvl_sent_ok st (pl st) (Some it') _ Hok H1 H2 Hn).
Qed.

(** ** Every command *)

Lemma smart_start_keeps E st : let st' := NetworkManagement_smart_start_init_if_pending E st in
  pl st' = pl st /\ curr_iter st' = curr_iter st /\ pvl_sent st' = pvl_sent st.
Proof. unfold NetworkManagement_smart_start_init_if_pending. by repeat case_match. Qed.

Lemma smart_start_ok E st : pvl_ok st -> pvl_ok (NetworkManagement_smart_start_init_if_pending E st).
Proof. intros []. destruct (smart_start_keeps E st) as (H1 & H2 & H3). constructor; by rewrite ?H1, ?H2, ?H3. Qed.

Lemma frame_iter_ok E mem st it : pvl_ok st -> frame_iter E mem st = Some it -> iter_ok it.
Proof.
  intros Hok. unfold frame_iter. destruct (_ =? 0xFF); [apply iterator_ok, Hok|]. pose proof (po_iter _ Hok) as Hi.
  destruct (curr_iter st) as [it'|]; [|done]. destruct (_ =? _); [|done]. by intros [= ->].
Qed.

Lemma iter_get_frame E mem st :
  provision_iter_get E mem st =
  match frame_iter E mem st with
  | Some it => (COMMAND_HANDLED, iter_report E (rd mem 2) it st)
  | None => if rd mem 3 =? 0xFF then (COMMAND_HANDLED, st <| curr_iter := None |> <| pvl_null := true |>) else (COMMAND_PARSE_ERROR, st)
  end.
Proof.
  unfold provision_iter_get, frame_iter. destruct (_ =? 0xFF); [done|]. destruct (curr_iter st) as [it|]; [|done]. by destruct (_ =? _).
Qed.

Lemma handler_spec E mem n st (st' := snd (PVL_CommandHandler E mem n st)) : bytes mem -> pvl_ok st ->
  pl st' = run_ops (pl_env E) (frame_ops E mem n st) (pl st) /\ Forall op_good (frame_ops E mem n st) /\ pvl_ok st'.
Proof.
  intros Hm Hok. unfold st'. clear st'. unfold PVL_CommandHandler, frame_ops.
  match goal with |- context [let '(_, _) := ?x in _] => set (r := x) end.
  match goal with |- context [run_ops _ ?x _] => set (ops := x) end.
  assert (H : pl (snd r) = run_ops (pl_env E) ops (pl st) /\ Forall op_good ops /\ pvl_ok (snd r)).
  { assert (Hops : forall c st', pl st' = run_ops (pl_env E) ops (pl st) /\ Forall op_good ops -> curr_iter st' = curr_iter st -> pvl_sent st' = pvl_sent st ->
      r = (c, st') -> pl (snd r) = run_ops (pl_env E) ops (pl st) /\ Forall op_good ops /\ pvl_ok (snd r)).
    { intros c st' [H1 H2] H3 H4 ->. cbn [snd]. split_and!; try done.
      destruct (run_ops_good (pl_env E) ops (pl st) H2 (po_wf _ Hok) (po_limited _ Hok)) as [[H5 _] H6]. rewrite <- H1 in H5, H6.
      constructor; rewrite ?H3, ?H4; try done; apply Hok. }
    unfold ops, r in *. destruct (n <? 2); [by eapply Hops|]. destruct (_ =? COMMAND_PROVISION_SET).
    { eapply Hops; [by apply (set_frame_spec E mem n st Hm (po_wf _ Hok))|..|apply surjective_pairing]; unfold provision_set; repeat case_match; done. }
    destruct (_ =? COMMAND_PROVISION_DELETE).
    { eapply Hops; [by apply (delete_frame_spec E mem n st Hm)|..|apply surjective_pairing]; unfold provision_delete; repeat case_match; done. }
    destruct (_ =? COMMAND_PROVISION_ITER_GET).
    { rewrite iter_get_frame in *. destruct (frame_iter E mem st) as [it|] eqn:Hf.
      - pose proof (frame_iter_ok E mem st it Hok Hf) as Hit. destruct (iter_report_spec E (rd mem 2) it st Hit). cbn [snd]. split_and!; [done|done|].
        by apply iter_report_ok.
      - destruct (_ =? 0xFF); cbn [snd]; (split_and!; [done|by apply Forall_nil|]); [|done]. destruct Hok. by constructor. }
    destruct (_ =? COMMAND_PROVISION_GET); [|by eapply Hops].
    cbn [snd]. split_and!; [done|by apply Forall_nil|]. pose proof Hok as [H1 H2 H3 _]. apply (pvl_sent_ok st (pl st) (curr_iter st) _ Hok H1 H2 H3).
    unfold CC_provisioning_list_build_report, Zlength, BUF_SIZE. rewrite length_app. cbn [length].
    destruct (provisioning_list_dev_get _ (pl st)) as [i|] eqn:Hd; cbn [fmap option_fmap option_map]; [|cbn; lia].
    destruct (slot_found _ _ i H1 H2 Hd) as [Hu Hl]. pose proof (report_length E _ _ Hu Hl). lia. }
  destruct r as [c st1]. cbn [snd] in *. destruct (smart_start_keeps E st1) as (H1 & _). rewrite H1. destruct H as (H2 & H3 & H4).
  split_and!; [done|done|by apply smart_start_ok].
Qed.

(** ** Runs *)

Definition command : Type := pvl_env * list Z * Z.
Definition run_command (st : pvl) (c : command) : pvl := let '(E, mem, n) := c in snd (PVL_CommandHandler E mem n st).
Definition command_ok (c : command) : Prop := let '(_, mem, _) := c in bytes mem.
Definition pvl_start (E : pvs_env) : pvl := mkPvl (first_start E) None [] [] false.

(** The map of devices the operations of the frames give. *)
Fixpoint map_run (cs : list command) (st : pvl) (m : book_t) : book_t :=
  match cs with
  | [] => m
  | (E, mem, n) as c :: cs =>
      map_run cs (run_command st c) (fold_left (fun m op => spec_step (pe_malloc (pl_env E)) op m) (frame_ops E mem n st) m)
  end.

Lemma pvl_start_ok E : env_ok E -> pvl_ok (pvl_start E) /\ book (pvs_list (pl (pvl_start E))) = ∅.
Proof.
  intros He. destruct (first_start_ok E He) as [[H1 H2] _]. split; [|done]. constructor; [done| |done|by apply Forall_nil]. cbn [pl pvl_start].
  unfold first_start. cbn [provisioning_list_init pvs_list_store_find pvs_list_store_writeable_test snd]. rewrite persist_list.
  change (Forall limited (replicate PROVISIONING_LIST_SIZE null_pvs)). apply Forall_replicate. by split; [|apply Forall_nil].
Qed.

Lemma run_commands_ok cs st : Forall command_ok cs -> pvl_ok st ->
  pvl_ok (fold_left run_command cs st) /\ book (pvs_list (pl (fold_left run_command cs st))) = map_run cs st (book (pvs_list (pl st))).
Proof.
  intros Hc. revert st. induction Hc as [|[[E mem] n] cs Hm _ IH]; intros st Hok; [done|]. cbn [fold_left map_run].
  destruct (handler_spec E mem n st Hm Hok) as (H1 & H2 & H3). destruct (run_ops_good (pl_env E) _ (pl st) H2 (po_wf _ Hok) (po_limited _ Hok)) as [[_ H4] _].
  rewrite <- H4, <- H1. by apply IH.
Qed.

(** C15. The command class and the list together are the map of devices: after any
    frames whatever, well-formed or not, what the list returns is what the map
    returns that the operations of the accepted frames give (for a Set: the entry
    is made or its mode changed, then its status and records, which are those the
    last record of each type in the frame has; a frame with a record that is too
    short, or critical and of no known type, has no operation). *)
Theorem commands_refine_map E cs : env_ok E -> Forall command_ok cs ->
  observes (pl (fold_left run_command cs (pvl_start E))) (map_run cs (pvl_start E) ∅).
Proof.
  intros He Hc. destruct (pvl_start_ok E He) as [Hok Hb]. destruct (run_commands_ok cs _ Hc Hok) as [H1 H2].
  rewrite Hb in H2. rewrite <- H2. apply wf_observes, H1.
Qed.

(** C40. No frame makes the handler write beyond the end of its buffer: after any
    frames whatever, every report is at most the 2000 bytes of the buffer. *)
Theorem reports_fit_buffer E cs : env_ok E -> Forall command_ok cs ->
  Forall (fun r => Zlength r <= BUF_SIZE) (pvl_sent (fold_left run_command cs (pvl_start E))).
Proof. intros He Hc. destruct (pvl_start_ok E He) as [Hok _]. apply (run_commands_ok cs _ Hc Hok). Qed.

(** ** Iteration *)

Definition iter_frame (seq r : Z) : list Z := [COMMAND_CLASS_PROVISIONING_LIST; COMMAND_PROVISION_ITER_GET; seq; r].
Definition last_report (st : pvl) : list Z := default [] (last (pvl_sent st)).
Definition report_remaining (r : list Z) : Z := rd r 3.
Definition report_dsk (r : list Z) : list Z := sub_buf r 5 (rd r 4).

(** A client asks for the first device, then for the number that remain, until none does. *)
Fixpoint client (fuel : nat) (E : pvl_env) (seq r : Z) (st : pvl) : pvl :=
  match fuel with
  | O => st
  | S fuel =>
      let st := snd (PVL_CommandHandler E (iter_frame seq r) 4 st) in
      if report_remaining (last_report st) =? 0 then st else client fuel E seq (report_remaining (last_report st)) st
  end.

(** One step of the iteration. *)
Lemma iter_report_next E s it st d i : pvl_ok st -> iter_ok it -> 0 <= it_next it < 1000 -> it_entries it !! Z.to_nat (it_next it) = Some d ->
  provisioning_list_dev_get d (pl st) = Some i ->
  let st' := iter_report E s it st in
  exists p, slot_used p d /\ curr_iter st' = Some (it <| it_next := it_next it + 1 |>) /\ same_keys (pl st') (pl st) /\
    pvl_sent st' = pvl_sent st ++ [[COMMAND_CLASS_PROVISIONING_LIST; COMMAND_PROVISION_ITER_REPORT; s; u8 (it_cnt it - (it_next it + 1))]
                                   ++ dsk_report p ++ CC_provisioning_list_add_tlvs E p].
Proof.
  intros Hok Hit Hn He Hd. pose proof (iter_report_ok E s it st Hok Hit) as Hok'. revert Hok'. cbv zeta. unfold iter_report, provisioning_list_iter_get_next.
  assert (Hlt : it_next it < it_cnt it) by (unfold it_cnt, Zlength; apply lookup_lt_Some in He; lia).
  rewrite (proj2 (Z.leb_gt (it_cnt it) (it_next it))), He by lia. change (default [] (Some d)) with d. rewrite Hd, u16_id by (unfold word16; lia).
  change (pl (st <| curr_iter := _ |>)) with (pl st).
  set (l := if pvs_status (slot (pl st) i) =? PVS_STATUS_PASSIVE then provisioning_list_status_set (pl_env E) i PVS_STATUS_PENDING (pl st) else pl st).
  assert (Hk : same_keys l (pl st)) by (unfold l; destruct (_ =? _); [apply status_set_keys|done]). intros Hok'.
  exists (slot l i). split_and!; try done. rewrite <- (same_keys_dev_get d _ _ Hk) in Hd. apply (slot_found d l i); [apply (po_wf _ Hok')|apply (po_limited _ Hok')|done].
Qed.

(** The key and the number in a report. *)
Lemma report_read E p d s n : slot_used p d -> Zlength d <= 16 ->
  let r := [COMMAND_CLASS_PROVISIONING_LIST; COMMAND_PROVISION_ITER_REPORT; s; n] ++ dsk_report p ++ CC_provisioning_list_add_tlvs E p in
  report_dsk r = d /\ report_remaining r = n.
Proof.
  intros Hu Hd. split; [|done]. destruct (su_len _ _ Hu) as [Hlen _]. unfold report_dsk, dsk_report. rewrite (su_dsk _ _ Hu). cbn [default from_option].
  rewrite (take_ge d) by (unfold Zlength in Hlen; lia). cbn [app].
  match goal with |- sub_buf ?x 5 (rd _ 4) = d => change (rd x 4) with (Z.land (dsk_len p) PROVISIONING_LIST_DSK_LENGTH_MASK) end.
  unfold PROVISIONING_LIST_DSK_LENGTH_MASK. change 31 with (Z.ones 5). rewrite Z.land_ones, Z.mod_small by (change (2 ^ 5) with 32; unfold Zlength in *; lia).
  match goal with |- sub_buf ?x 5 _ = d => change (sub_buf x 5 (dsk_len p)) with (take (Z.to_nat (dsk_len p)) (d ++ CC_provisioning_list_add_tlvs E p)) end.
  rewrite take_app_le by (unfold Zlength in Hlen; lia). apply take_ge. unfold Zlength in Hlen. lia.
Qed.

Lemma handler_iter E seq r st it : frame_iter E (iter_frame seq r) st = Some it ->
  snd (PVL_CommandHandler E (iter_frame seq r) 4 st) = NetworkManagement_smart_start_init_if_pending E (iter_report E seq it st).
Proof.
  intros Hf. unfold PVL_CommandHandler. change (4 <? 2) with false. change (rd (iter_frame seq r) 1) with 3.
  change (3 =? COMMAND_PROVISION_SET) with false. change (3 =? COMMAND_PROVISION_DELETE) with false. change (3 =? COMMAND_PROVISION_ITER_GET) with true.
  cbv iota. rewrite iter_get_frame, Hf. done.
Qed.

(** All keys from the next one on are in the list. *)
Definition all_found (ks : list (list Z)) (st : pvs) : Prop := Forall (fun d => Zlength d <= 16 /\ is_Some (provisioning_list_dev_get d st)) ks.

Lemma all_found_keys ks st st' : same_keys st' st -> all_found ks st -> all_found ks st'.
Proof. intros Hk Ha. eapply Forall_impl; [exact Ha|]. intros d [H1 H2]. split; [done|]. by rewrite (same_keys_dev_get d _ _ Hk). Qed.

Lemma client_iterates E seq fuel st r it : pvl_ok st -> frame_iter E (iter_frame seq r) st = Some it -> 0 <= it_next it < it_cnt it ->
  it_cnt it - it_next it <= 255 -> it_cnt it <= 1000 -> (Z.to_nat (it_cnt it - it_next it) <= fuel)%nat -> all_found (it_entries it) (pl st) ->
  exists rs, pvl_sent (client fuel E seq r st) = pvl_sent st ++ rs /\ map report_dsk rs = drop (Z.to_nat (it_next it)) (it_entries it).
Proof.
  revert st r it. induction fuel as [|fuel IH]; intros st r it Hok Hf Hn H255 H1000 Hfuel Hall; [lia|]. cbn [client]. rewrite (handler_iter _ _ _ _ _ Hf).
  destruct (lookup_lt_is_Some_2 (it_entries it) (Z.to_nat (it_next it))) as [d Hd]; [unfold it_cnt, Zlength in Hn; lia|].
  destruct (Forall_lookup_1 _ _ _ _ Hall Hd) as [Hd16 [i Hi]]. pose proof (frame_iter_ok _ _ _ _ Hok Hf) as Hit.
  destruct (iter_report_next E seq it st d i Hok Hit ltac:(lia) Hd Hi) as (p & Hu & Hc & Hk & Hs).
  destruct (smart_start_keeps E (iter_report E seq it st)) as (Kp & Ki & Ks). pose proof (smart_start_ok E _ (iter_report_ok E seq it st Hok Hit)) as Hok1.
  set (st1 := NetworkManagement_smart_start_init_if_pending E (iter_report E seq it st)) in *. cbv zeta in Hc, Hk, Hs, Kp, Ki, Ks.
  rewrite <- Ks in Hs. rewrite <- Ki in Hc. rewrite <- Kp in Hk. clearbody st1. clear Kp Ki Ks.
  destruct (report_read E p d seq (u8 (it_cnt it - (it_next it + 1))) Hu Hd16) as [Rd Rr]. cbv zeta in Rd, Rr.
  set (rep := _ ++ dsk_report p ++ _) in *. clearbody rep. unfold last_report. rewrite Hs, last_snoc. change (default [] (Some rep)) with rep. rewrite Rr, u8_id by (unfold byte; lia).
  rewrite (drop_S _ _ _ Hd). destruct (Z.eqb_spec (it_cnt it - (it_next it + 1)) 0) as [H0|H0].
  - exists [rep]. split; [done|]. cbn. rewrite Rd. f_equal. symmetry. apply drop_ge. unfold it_cnt, Zlength in H0. lia.
  - destruct (IH st1 (it_cnt it - (it_next it + 1)) (it <| it_next := it_next it + 1 |>) Hok1) as (rs & Hrs & Hm).
    + unfold frame_iter. change (rd (iter_frame seq ?x) 3) with x. rewrite (proj2 (Z.eqb_neq _ 0xFF)), Hc by lia. cbn.
      change (it_cnt (it <| it_next := _ |>)) with (it_cnt it). by rewrite Z.eqb_refl.
    + cbn. change (it_cnt (mkIter _ _)) with (it_cnt it). lia.
    + cbn. change (it_cnt (mkIter _ _)) with (it_cnt it). lia.
    + done.
    + cbn. change (it_cnt (mkIter _ _)) with (it_cnt it). lia.
    + by eapply all_found_keys.
    + exists (rep :: rs). rewrite Hrs, Hs, <- app_assoc. split; [done|]. cbn in Hm |- *. rewrite Rd, Hm. do 2 f_equal. lia.
Qed.

Lemma iterable_keys l : list_wf l -> (forall d, is_Some (book l !! d) -> Zlength d <= 16) -> omap iterable l = omap key l.
Proof.
  intros Hl Hk. assert (Hp : forall i p, l !! i = Some p -> iterable p = key p).
  { intros i p Hi. assert (Hw : slot_wf p) by (by eapply Forall_lookup_1; [apply Hl|]). destruct Hw as [[H0 _]|[d Hd]].
    - unfold iterable, key, used, truth. rewrite H0. by destruct (dsk p).
    - rewrite (used_key _ _ Hd). unfold iterable. destruct (su_len _ _ Hd) as [Hlen Hb]. rewrite (su_dsk _ _ Hd). specialize (Hk d).
      assert (H16 : Zlength d <= 16) by (apply Hk; exists (entry_of p); apply book_lookup; [apply Hl|]; exists i, p; split_and!; [done|by apply used_key|done]).
      unfold PROVISIONING_LIST_DSK_MAX_SIZE. rewrite (proj2 (Z.leb_le 4 _)), (proj2 (Z.leb_le _ 16)) by lia. cbn [andb]. f_equal. apply take_ge.
      unfold Zlength in Hlen. lia. }
  clear Hl Hk. induction l as [|p l IH]; [done|]. cbn. rewrite (Hp 0%nat p eq_refl), (IH (fun i => Hp (S i))). done.
Qed.

Lemma key_members l d : list_wf l -> d ∈ omap key l <-> is_Some (book l !! d).
Proof.
  intros Hl. rewrite list_elem_of_omap. split.
  - intros (p & Hp & Hk). apply list_elem_of_lookup in Hp as [i Hi]. exists (entry_of p). apply book_lookup; [apply Hl|]. by exists i, p.
  - intros [e (i & p & Hi & Hk & _)%book_lookup]; [|apply Hl]. exists p. split; [by eapply list_elem_of_lookup_2|done].
Qed.

(** C23. Iteration is complete: after any frames, a client that starts an iteration
    and goes on with the number each report says remains gets, of the devices in
    the map, every one exactly once, and nothing else, if there is one and there
    are at most 255 of them, no key is longer than 16 bytes and there is memory for
    the iterator. *)
Theorem iteration_reports_all E0 cs E seq (st := fold_left run_command cs (pvl_start E0)) (m := map_run cs (pvl_start E0) ∅) :
  env_ok E0 -> Forall command_ok cs -> pe_malloc (pl_env E) = true ->
  (forall d, is_Some (m !! d) -> Zlength d <= 16) -> (0 < size m <= 255)%nat ->
  exists rs, pvl_sent (client 255 E seq 0xFF st) = pvl_sent st ++ rs /\
    NoDup (map report_dsk rs) /\ forall d, d ∈ map report_dsk rs <-> is_Some (m !! d).
Proof.
  intros He Hc Hm H16 Hsize. destruct (pvl_start_ok E0 He) as [Hok0 Hb0]. destruct (run_commands_ok cs _ Hc Hok0) as [Hok Hb]. rewrite Hb0 in Hb.
  fold st in Hok, Hb. fold m in Hb. pose proof (po_wf _ Hok) as Hl. rewrite <- Hb in H16, Hsize |- *. pose proof (iterable_keys _ Hl H16) as Hit.
  assert (Hlen : length (omap key (pvs_list (pl st))) = size (book (pvs_list (pl st)))).
  { rewrite book_size by done. apply length_omap_keys, Hl. }
  destruct (client_iterates E seq 255 st 0xFF (mkIter 0 (omap key (pvs_list (pl st))))) as (rs & Hrs & Hmap);
    unfold it_cnt, Zlength; cbn [it_next it_entries]; rewrite ?Hlen; try done; try lia.
  - unfold frame_iter. change (rd (iter_frame seq 0xFF) 3) with 0xFF. rewrite Z.eqb_refl. unfold provisioning_list_iterator_get. by rewrite Hm, Hit.
  - apply Forall_forall. intros d Hd%key_members; [|done]. split; [by apply H16|]. pose proof (dev_get_spec d (pl st) Hl) as Hg.
    destruct (provisioning_list_dev_get d (pl st)); [done|]. rewrite Hg in Hd. by destruct Hd.
  - exists rs. cbn in Hmap. rewrite Hmap. split; [done|]. split; [apply unique_nodup, Hl|]. intros d. by apply key_members.
Qed.
