(* ===== verification/ProvisioningLink.v ===== *)
(** * The provisioning list on examples

    The theorems on the provisioning list applied to a list of two devices, and
    inputs the code does not expect. *)

From S2P Require Import Prelude Nodemask Provisioning ProvisioningRun ProvisioningFile ZgwStr ProvisioningCC ProvisioningCCRun.
#[local] Open Scope Z_scope.

Definition E1 : pvs_env := mkPvsEnv true true 0x5000 (fun _ => true).
Definition EC1 : pvl_env := mkPvlEnv E1 (fun _ => None) true false.
Definition dev (b : Z) : list Z := replicate 16 b.

Lemma E1_ok : env_ok E1.
Proof. split; [done|unfold pointer_ok; cbn; lia]. Qed.

Lemma dev_ok b : byte b -> key_ok (dev b).
Proof. intros Hb. split; [by apply Forall_replicate|done]. Qed.

(** ** The list *)

Definition events1 : list pvs_event :=
  [Ev_op E1 (P_add (dev 1) PVS_BOOTMODE_SMART_START); Ev_op E1 (P_add (dev 2) PVS_BOOTMODE_S2); Ev_op E1 (P_tlv_set (dev 2) PVS_TLV_TYPE_NAME [65; 66]);
   Ev_op E1 (P_tlv_set (dev 2) PVS_TLV_TYPE_LOCATION [67]); Ev_op E1 (P_remove (dev 1)); Ev_restart E1].

Lemma events1_ok : Forall event_ok events1.
Proof.
  forall_list; cbn [event_ok]; try (split; [apply E1_ok|]); cbn [op_ok]; try apply E1_ok; split_and?;
    try (apply dev_ok; unfold byte; lia); try (unfold u32_ok, byte, PVS_BOOTMODE_SMART_START, PVS_BOOTMODE_S2, PVS_TLV_TYPE_NAME, PVS_TLV_TYPE_LOCATION; lia);
    (split; [forall_list; unfold byte; lia|done]).
Qed.

Lemma events1_complete : Forall restarts_complete events1.
Proof. repeat constructor. Qed.

Lemma provisioning_refines_witness :
  let st := fold_left pvs_event_step events1 (first_start E1) in
  provisioning_list_get_count st = 1 /\ tlv_value <$> provisioning_list_tlv_dsk_get (dev 2) PVS_TLV_TYPE_NAME st = Some [65; 66].
Proof.
  destruct (provisioning_refines E1 events1 E1_ok events1_ok) as (s & Hr & [H1 [_ H2]] & _). cbv zeta.
  assert (Hs : s = fold_left ledger_step events1 (mkLedger ∅ ∅)) by (by apply spec_run_function, Hr; apply events1_complete). split.
  - rewrite H1, Hs. by vm_compute.
  - rewrite H2, Hs. by vm_compute.
Defined.

(** Memory that runs out for one entry while the file is read loses the entries
    after it for good: the file is written again with what was read, and no
    later start has them. *)
Theorem import_without_memory_loses_entries :
  let E := mkPvsEnv true true 0x5000 (fun i => bool_decide (i <> 1%nat)) in
  let evs := map (fun b => Ev_op E1 (P_add (dev b) PVS_BOOTMODE_SMART_START)) [1; 2; 3] in
  let run evs := fold_left pvs_event_step evs (first_start E1) in
  provisioning_list_get_count (run (evs ++ [Ev_restart E1])) = 3 /\
  provisioning_list_get_count (run (evs ++ [Ev_restart E; Ev_restart E1])) = 1.
Proof. split; by vm_compute. Qed.

(** A removal that could not be written is undone by the next start. *)
Theorem removal_not_written_comes_back :
  let E := mkPvsEnv true false 0x5000 (fun _ => true) in
  let evs := [Ev_op E1 (P_add (dev 1) PVS_BOOTMODE_SMART_START); Ev_op E (P_remove (dev 1))] in
  let run evs := fold_left pvs_event_step evs (first_start E1) in
  provisioning_list_get_count (run evs) = 0 /\ provisioning_list_get_count (run (evs ++ [Ev_restart E1])) = 1.
Proof. split; by vm_compute. Qed.

(** An entry that is cut off after its header fills its slot from a structure
    that was not read. *)
Theorem truncated_file_fills_slot hdr s malloc : length hdr = 13%nat -> (length s <= 24)%nat -> pvs_list_dev_import malloc (hdr ++ s) = Import_wild [].
Proof.
  intros Hh Hs. unfold pvs_list_dev_import. rewrite (fread_app 13) by done. unfold fread, SIZEOF_PROVISION. rewrite decide_False by lia. by rewrite drop_ge.
Qed.

(** ** Commands *)

Definition set_frame (b : Z) (tlvs : list Z) : list Z := [COMMAND_CLASS_PROVISIONING_LIST; COMMAND_PROVISION_SET; 1; 16] ++ dev b ++ tlvs.
Definition cmd (f : list Z) : command := (EC1, f, Zlength f).
Definition name_tlv : list Z := [Z.shiftl PVS_TLV_TYPE_NAME 1; 2; 65; 66].
Definition commands1 : list command :=
  [cmd (set_frame 1 name_tlv); cmd (set_frame 2 []); cmd (set_frame 3 (name_tlv ++ name_tlv)); cmd ([COMMAND_CLASS_PROVISIONING_LIST; COMMAND_PROVISION_DELETE; 1; 16] ++ dev 2)].

Lemma commands1_ok : Forall command_ok commands1.
Proof. unfold commands1. forall_list; unfold command_ok, cmd; apply (bool_decide_unpack _); by vm_compute. Qed.

Lemma commands_refine_witness : provisioning_list_get_count (pl (fold_left run_command commands1 (pvl_start E1))) = 2.
Proof. destruct (commands_refine_map E1 commands1 E1_ok commands1_ok) as [-> _]. by vm_compute. Defined.

Definition get_frame (b : Z) : list Z := [COMMAND_CLASS_PROVISIONING_LIST; COMMAND_PROVISION_GET; 1; 16] ++ dev b.
Lemma commands2_ok : Forall command_ok (commands1 ++ [cmd (get_frame 1)]).
Proof. unfold commands1. cbn [app]. forall_list; unfold command_ok, cmd; apply (bool_decide_unpack _); by vm_compute. Qed.

Lemma reports_fit_witness :
  let sent := pvl_sent (fold_left run_command (commands1 ++ [cmd (get_frame 1)]) (pvl_start E1)) in
  length sent = 1%nat /\ Forall (fun r => Zlength r <= BUF_SIZE) sent.
Proof. cbv zeta. split; [by vm_compute|]. apply (reports_fit_buffer E1 _ E1_ok commands2_ok). Defined.

Lemma iteration_witness :
  let st := fold_left run_command commands1 (pvl_start E1) in
  exists rs, pvl_sent (client 255 EC1 7 0xFF st) = pvl_sent st ++ rs /\ dev 1 ∈ map report_dsk rs /\ NoDup (map report_dsk rs).
Proof.
  destruct (iteration_reports_all E1 commands1 EC1 7 E1_ok commands1_ok) as (rs & H1 & H2 & H3).
  - done.
  - assert (Hd : map_Forall (fun d _ => Zlength d <= 16) (map_run commands1 (pvl_start E1) ∅)) by (apply (bool_decide_unpack _); by vm_compute).
    intros d [e He]. by apply (Hd d e).
  - assert (Hs : size (map_run commands1 (pvl_start E1) ∅) = 2%nat) by (by vm_compute). rewrite Hs. lia.
  - exists rs. split; [exact H1|]. split; [|exact H2]. apply H3. apply (bool_decide_unpack _). by vm_compute.
Defined.

(** ** Inputs the handler does not expect *)

(** An iteration with 255 devices to go or more cannot be continued: every
    frame is refused or starts it again. *)
Theorem long_iteration_stops E mem st it it' : bytes mem -> curr_iter st = Some it -> 255 <= it_cnt it - it_next it ->
  frame_iter E mem st = Some it' -> it_next it' = 0.
Proof.
  intros Hm Hi Hn. unfold frame_iter. destruct (Z.eqb_spec (rd mem 3) 0xFF).
  - unfold provisioning_list_iterator_get. destruct (pe_malloc _); [|done]. by intros [= <-].
  - rewrite Hi. pose proof (rd_byte mem 3 Hm) as Hb. unfold byte in Hb. rewrite (proj2 (Z.eqb_neq _ _)) by lia. done.
Qed.

(** A boot mode record without a value takes the first byte of the next one. *)
Theorem empty_mode_record_read :
  t_mode <$> set_tlv_loop 100 [Z.shiftl PVS_TLV_TYPE_BOOTSTRAP_MODE 1; 0; 0x6A; 1; 5] 0 5 no_tlvs = Some 0x6A.
Proof. by vm_compute. Qed.

(** The same two bytes are a parse error or an iteration, as the memory after the frame has it. *)
Theorem short_frame_reads_on :
  fst (PVL_CommandHandler EC1 [0x78; 3; 0; 0] 2 (pvl_start E1)) = COMMAND_PARSE_ERROR /\
  fst (PVL_CommandHandler EC1 [0x78; 3; 0; 0xFF] 2 (pvl_start E1)) = COMMAND_HANDLED.
Proof. split; by vm_compute. Qed.

(** Set ignores the reserved bits of the length of the key, Get does not. *)
Theorem get_uses_reserved_bits :
  let st := run_command (pvl_start E1) (cmd ([0x78; 1; 1; 0x90] ++ dev 1)) in
  provisioning_list_get_count (pl st) = 1 /\
  last_report (run_command st (cmd ([0x78; 5; 1; 0x90] ++ dev 1))) = [0x78; 6; 1; 0].
Proof. split; by vm_compute. Qed.

(** Without memory for an iterator the handler uses a null pointer. *)
Theorem iterator_not_checked E mem st : pe_malloc (pl_env E) = false -> rd mem 3 = 0xFF -> pvl_null (snd (provision_iter_get E mem st)) = true.
Proof.
  intros Hm Hr. unfold provision_iter_get. rewrite Hr. cbn. unfold provisioning_list_iterator_get. by rewrite Hm.
Qed.
